(* ===== verification/_CoqProject ===== *)
-Q . S2P
Prelude.v
Types.v
Cstring.v
Spinlock.v
Sched.v
Dll.v
Bio.v
BioFacts.v
BioList.v
BioAbs.v
BioRep.v
BioSpec.v
Log.v
LogSpec.v
LogFacts.v
Crash.v
Inode.v
Console.v
Fs.v
Kalloc.v
Pipe.v
File.v
Sleeplock.v
Vm.v
Proc.v
Exec.v
Syscall.v
PipeFacts.v
KallocFacts.v
VmFacts.v
ProcFacts.v
BlockFacts.v
InodeFacts.v
FileData.v
Append.v
Dir.v
Path.v
IputFacts.v
ConsoleFacts.v
SyscallFacts.v
User.v
Ulib.v
Grep.v
Sh.v
ShFacts.v
ShPrint.v
UlibFacts.v
Umalloc.v
Blocks.v
UmallocFacts.v
Programs.v
UserTests.v
Hoare.v
Locking.v
Descr.v
DescrKeep.v
DescrFacts.v
ProgramFacts.v
Mkfs.v
MkfsFacts.v
MkfsImage.v
Device.v
Trap.v
DeviceFacts.v
ClockFacts.v
TrapFacts.v
CallStack.v
Boot.v
BootFacts.v
MainFacts.v
VmSpace.v
VmFree.v
VmCopy.v
ForkFacts.v
GrowFacts.v
WaitFacts.v
ExitFacts.v
NameFacts.v
FileIO.v
AppendIO.v
