(* ===== verification/Prelude.v ===== *)
(** * Verification of ARM_xv6

    ARM_xv6 is a port of the xv6 teaching kernel to a single ARM processor
    (src/kernel/, src/include/), with a user library (src/ulib/), user
    programs (src/user/) and a builder of disk images (src/tools/). This
    library models the kernel's own logic and these programs, translated
    function by function from the C sources, and proves what makes its parts
    correct.

    ** The program

    The kernel is a set of C modules over global tables. At the bottom are
    string routines (string.c), spin locks that mask interrupts (spinlock.c)
    and the page allocator (kalloc.c). Processes (proc.c) live in a table
    protected by one lock; they wait with sleep and wakeup, on channels that
    are addresses. Each has a two-level page table for the lower 256 MB
    (vm.c). The file system is a stack: a disk in memory (ide.c), a cache of
    10 sector buffers on a doubly linked list in order of use (bio.c), a redo
    log for one transaction at a time (log.c), and block allocation, inodes,
    file contents, directories and paths (fs.c). Above it are the table of
    open files and pipes (file.c, pipe.c), the console device (console.c),
    program loading (exec.c) and the system calls (syscall.c, sysproc.c,
    sysfile.c). Below and beside them are the exception handlers (trap.c), the
    drivers of the interrupt controller, the timer and the serial port
    (picirq.c, timer.c, uart.c), the code that turns paging on (bootmain.c)
    and the start of the kernel (main.c). The kernel is not preemptive: control changes hands only in
    swtch, which sched and the scheduler call. User programs see the kernel
    through the calls of include/user.h. The library gives them strings,
    printf and an allocator; the programs are a shell, grep, cat, wc, ls and
    other small ones.

    ** How it is modelled

    Every kernel function is a definition of type [K A], a computation on the
    record [kstate] of all global variables (Types) in the monad [M] of this
    file. A result is [Ok], with the value and the state, or [Err] with
    [Panic] and the message of the call to panic, [Undefined] where the C
    program has no defined behaviour (a null pointer, an index outside an
    array), [Blocked], [Exited], or [NoFuel]. Early returns and gotos are conditionals
    and option values; the locks are taken and released where the code does
    so.

    Interleaving. The second argument of a computation, [env], is a list of
    state transformers: what all other processes do each time this process
    gives up the processor, until it runs again. Switching away takes the next
    of them; an empty list means that the process is not scheduled again
    within the horizon considered ([Blocked]). Loops around sleep are bounded
    by the length of [env], since every turn but the last sleeps
    ([mloop_env]). Theorems that quantify over [env] hold whatever the others
    do.

    Integers are Z with the wrap-around of the C types written out ([u8],
    [u16], [u32], [s16], [s32]); flags are bit masks. Pointers into the
    kernel's tables are indices, null is [None]; pages, page tables, kernel
    stacks and trap frames are addresses in a byte memory ([mem]). Blocks of
    the disk and buffers are lists of bytes, read and written as structures by
    little-endian accessors ([get_le], [put_le]). A caller's buffer is a list
    of bytes; system calls copy between such lists and the memory that the
    process's page table gives ([uload8], [ustore8] in Vm). What the linker
    decides (the end of the kernel, the addresses of trapret and forkret, the
    bytes of initcode) is the class [Image], a parameter. The disk image is
    an argument of the initial state [kstate0].

    Devices. A store to a device register appends to the trace [regwrites] of
    the state; what a load returns is an argument of the function that loads
    (the interrupt status, the characters received). The stubs in assembly
    that the vectors point to and the kernel's page tables, which other files
    place, are the classes [Stubs] and [Tables]. bootmain runs before the
    kernel's data exists and is modelled on physical memory.

    Bounds. Loops over ranges are [mfor] and [mfind] over the list of indices.
    Loops that are not over a range have a fuel that follows from the
    arguments: the number of pages between two addresses, the number of blocks
    or directory entries of a file, the length of a path or of a string, the
    number of nodes of the buffer list. The theorems state results, so they
    also show that the fuel is enough where they apply.

    User programs are computations of type [U G W A] in the same monad: [G]
    is a program's static data and [W] a world on which the class [Sys] gives
    the system calls. Theorems about programs assume of the calls only what a
    class states: [Stdio] that reads deliver what is pending and writes append,
    [Brk] that sbrk moves the break. A program that calls exit, or is replaced
    by exec, ends with [Exited].

    ** Files

    - Prelude: integers, flags, the monad with its rules and tactics
      ([mstep], [mrun], the rewrite base [run]), byte strings.
    - Types: constants and structures of src/include/, [kstate], [kstate0].
    - Cstring: string.c. The word-wise loops of memset and both directions of
      memmove are proved equal to their pointwise meaning.
    - Spinlock: spinlock.c. The set of held locks, the depth of interrupt
      masking and the interrupt flag stay in step along every sequence of
      calls; a held lock cannot be taken again; a critical section ends with
      interrupts masked, since pushcli looks at the flag after masking.
    - Sched: sched, yield, sleep, wakeup, kill of proc.c. No wakeup is lost;
      wakeup and kill change exactly the processes they should.
    - Dll: doubly linked lists given by link functions.
    - Bio: ide.c and bio.c. BioFacts, BioList: each operation on the cache and
      on its list. BioAbs, BioRep: the cache as held buffers, sectors waiting
      for a commit, and a disk; the interface that the log and the file system
      are proved against, and its initialisation. BioSpec: contents and order
      of recycling.
    - Log: log.c. LogSpec: recovery and sequences of sector writes on disks
      alone. LogFacts, Crash: the code refines the specification; a
      transaction of up to nine sectors is atomic whatever disk write a crash
      follows, and recovery can be interrupted and run again.
    - Inode, Fs: fs.c. BlockFacts: the block bitmap. InodeFacts: the format of
      inodes on disk, the inode cache. FileData: readi and writei against the
      contents of a file; reading is proved against the class [Reader], of
      which a transaction and the idle file system are instances. Append:
      files that grow, within their direct blocks. Dir: directory entries.
      Path: path elements. NameFacts: namex finds the inode that a walk
      through the directories on the disk gives, and keeps one reference to
      it. IputFacts: dropping references, and the panic when an unlinked inode
      is dropped outside a transaction.
    - Kalloc: kalloc.c. KallocFacts: the free list is a stack of pages.
    - Vm: vm.c. VmFacts: what a page directory means; setupvm, mappages and
      allocuvm. VmSpace: the pages that belong to an address space and the
      bytes it holds. VmFree: deallocuvm and freevm give back exactly those
      pages. VmCopy: copyuvm copies bytes and permissions, and undoes itself
      when memory runs out.
    - Proc: the rest of proc.c. ProcFacts: allocproc. ForkFacts, WaitFacts,
      ExitFacts: the life of a process; the child of fork is a copy of its
      parent with the counts of shared files raised, exit hands over children
      and wakes the parent, wait frees what the child had. GrowFacts: growproc.
    - Pipe: pipe.c. PipeFacts: the ring with its free-running counters is a
      bounded queue.
    - Console: console.c, the output side of uart.c, procdump. ConsoleFacts:
      the input ring implements a line editor; printed numbers.
    - File, Sleeplock, Exec: file.c, sleeplock.c, exec.c. FileIO: reading and
      writing through open files, down to the disk: successive reads deliver
      the file in order, and a write that a crash cuts short leaves a prefix.
      AppendIO: the same for a write that makes the file longer.
    - Syscall: syscall.c, sysproc.c, sysfile.c. SyscallFacts: the check of
      pointer arguments.
    - Hoare: triples for code that others may interrupt where it gives up the
      processor. Locking: every system call gives back the locks it takes.
      Descr, DescrKeep, DescrFacts: over every system call the reference
      count of each open file is the number of its descriptors. In both, a
      type class states what an operation keeps, one instance per operation
      of the kernel is found by following its code, and only the operations
      that take locks or handle descriptors need an argument of their own.
    - Device: picirq.c, timer.c, uart.c. Trap: trap.c. DeviceFacts: every
      interrupt runs the handlers of exactly its sources and acknowledges
      them. ClockFacts: sys_sleep returns in time while the clock runs.
      TrapFacts: installing the vectors; aborts end the process or panic.
      CallStack: call stacks and what panic prints; its report needs no lock.
    - Boot: bootmain.c and main.c. BootFacts: the address space that bootmain
      sets up, by a walk of its tables. MainFacts: kmain establishes the
      invariants that the other theorems assume and leaves one runnable
      process.
    - User: the interface of user programs. Ulib: ulib.c and printf.c.
      UlibFacts: output as text; atoi reads back what printf prints.
    - Grep: grep.c. The matcher decides the language of its pattern; grep
      prints the matching lines.
    - Sh: sh.c. ShFacts: the parser ends on every line, and the words of its
      tree can be read from the buffer once it is split in place. ShPrint:
      parsing inverts printing.
    - Umalloc: umalloc.c. Blocks, UmallocFacts: the free blocks are a ring in
      address order without neighbours, and tile the heap together with the
      live blocks; malloc and free keep this and leave live blocks alone.
    - Programs: the small user programs. ProgramFacts: cat, wc and echo.
      UserTests: usertests.c, the tests of the kernel through its calls.
    - Mkfs: tools/mkfs.c, which builds the disk image on the host. MkfsFacts:
      appending to one file leaves the others alone; no block is used twice.
      MkfsImage: the image has the superblock, directory, files and bitmap that
      the kernel expects, and readi of the kernel reads the files back.

    ** Not modelled

    The assembly files (the entry of the kernel, the vectors' stubs, swtch,
    initcode, the stubs of system calls): register access. The debugging
    fields of locks. TLB and cache maintenance, the wait for room in the
    serial port's transmit queue, the endless loop of panic, the message popcli
    prints before it panics.

    ** What is left

    Modelled, without a theorem about the whole function: exec, the calls
    that create, link and remove files, itrunc, and the growth of files into
    their indirect block. The theorems about the calls Locking and DescrFacts
    state hold for these too. The others' part in them is an assumption about
    the steps of the environment; a process that is closing its files in exit
    meets the one of DescrFacts between two files, not while it waits inside
    fileclose, where the count is already lowered and the descriptor not yet
    cleared. Not proved: that the kernel's calls satisfy [Stdio] and [Brk],
    and that the shell's pipelines connect the descriptors they should. *)
From Stdlib Require Export ZArith Lia.
From stdpp Require Export base numbers gmap strings countable list.

Declare Scope kernel_scope.
Delimit Scope kernel_scope with kernel.

#[global] Open Scope Z_scope.

(** * Machine integers *)

Definition u8 (z : Z) : Z := z mod 2 ^ 8.
Definition u16 (z : Z) : Z := z mod 2 ^ 16.
Definition u32 (z : Z) : Z := z mod 2 ^ 32.
Definition s16 (z : Z) : Z := (z + 2 ^ 15) mod 2 ^ 16 - 2 ^ 15.
Definition s32 (z : Z) : Z := (z + 2 ^ 31) mod 2 ^ 32 - 2 ^ 31.

(** Values in range are unchanged. *)
Lemma u32_small x : 0 <= x < 2 ^ 32 -> u32 x = x.
Proof. intros Hx. unfold u32. by apply Z.mod_small. Qed.

Lemma s32_small x : - 2 ^ 31 <= x < 2 ^ 31 -> s32 x = x.
Proof. intros Hx. unfold s32. rewrite Z.mod_small by lia. lia. Qed.

(** Flag words: [has f b] is the C test [f & b] for a one-bit mask. *)
Definition has (f b : Z) : bool := negb (Z.land f b =? 0).
Definition clr (f b : Z) : Z := Z.land f (Z.lnot b).

(** * Kernel computations *)

(** What can end a path before it returns: [panic], undefined behaviour of
    C, a process that is not scheduled again within the considered horizon,
    a user program that calls [exit] or is replaced by [exec], or (never, see
    the theorems) a loop bound that was too small. *)
Inductive error : Type :=
| Panic (msg : string)
| Undefined (what : string)
| Blocked
| Exited
| NoFuel.

(** A computation runs in a state and against an environment: the list
    of the effects other processes have each time this one gives up
    the processor and is scheduled again. *)
Inductive res (St A : Type) : Type :=
| Ok (a : A) (s : St) (env : list (St -> St))
| Err (e : error) (s : St) (env : list (St -> St)).
Arguments Ok {St A} a s env.
Arguments Err {St A} e s env.

Definition M (St A : Type) : Type := St -> list (St -> St) -> res St A.

Section Monad.
Context {St : Type}.

Definition ret {A} (a : A) : M St A := fun s env => Ok a s env.

Definition bind {A B} (m : M St A) (k : A -> M St B) : M St B :=
  fun s env =>
    match m s env with
    | Ok a s' env' => k a s' env'
    | Err e s' env' => Err e s' env'
    end.

Definition fail {A} (e : error) : M St A := fun s env => Err e s env.
Definition panic {A} (msg : string) : M St A := fail (Panic msg).
Definition undefined {A} (what : string) : M St A := fail (Undefined what).

Definition gets {A} (f : St -> A) : M St A := fun s env => Ok (f s) s env.
Definition modify (f : St -> St) : M St unit := fun s env => Ok tt (f s) env.

(** Give up the processor: the next element of the environment is what
    the other processes do until this one runs again. *)
Definition yield_cpu : M St unit :=
  fun s env =>
    match env with
    | f :: env' => Ok tt (f s) env'
    | [] => Err Blocked s []
    end.

Definition when (b : bool) (m : M St unit) : M St unit :=
  if b then m else ret tt.

(** Pointer dereference: a null or dangling pointer is undefined. *)
Definition deref {A} (what : string) (o : option A) : M St A :=
  match o with Some a => ret a | None => undefined what end.

(** [for] loops over a range of indices: [mfor] runs to the end,
    [mfind] stops at the first iteration that returns or breaks. *)
Fixpoint mfor {A} (l : list A) (body : A -> M St unit) : M St unit :=
  match l with
  | [] => ret tt
  | x :: l' => bind (body x) (fun _ => mfor l' body)
  end.

Fixpoint mfind {A B} (l : list A) (body : A -> M St (option B)) :
    M St (option B) :=
  match l with
  | [] => ret None
  | x :: l' =>
      bind (body x)
        (fun o => match o with
                  | Some b => ret (Some b)
                  | None => mfind l' body
                  end)
  end.

(** [while] loops, bounded by [fuel]; the body returns [Some] to leave
    the loop. *)
Fixpoint mloop {A} (fuel : nat) (body : M St (option A)) : M St A :=
  match fuel with
  | O => fail NoFuel
  | S fuel' =>
      bind body
        (fun o => match o with
                  | Some a => ret a
                  | None => mloop fuel' body
                  end)
  end.

(** Loops that sleep once per iteration end within the environment. *)
Definition mloop_env {A} (body : M St (option A)) : M St A :=
  fun s env => mloop (S (length env)) body s env.
End Monad.

Notation "x <- m ;; k" := (bind m (fun x => k))
  (at level 62, m at next level, right associativity) : kernel_scope.
Notation "m ;;; k" := (bind m (fun _ => k))
  (at level 62, right associativity) : kernel_scope.
#[global] Open Scope kernel_scope.

(** * Rules for running computations *)

Section Rules.
Context {St : Type}.
Implicit Types (s : St) (env : list (St -> St)).

Lemma bind_ok {A B} (m : M St A) (k : A -> M St B) s env a s' env' :
  m s env = Ok a s' env' -> bind m k s env = k a s' env'.
Proof. intros H. unfold bind. by rewrite H. Qed.

Lemma bind_err {A B} (m : M St A) (k : A -> M St B) s env e s' env' :
  m s env = Err e s' env' -> bind m k s env = Err e s' env'.
Proof. intros H. unfold bind. by rewrite H. Qed.

Lemma bind_assoc {A B C} (m : M St A) (f : A -> M St B) (g : B -> M St C) s env :
  bind (bind m f) g s env = bind m (fun a => bind (f a) g) s env.
Proof. unfold bind. by destruct (m s env). Qed.

Lemma bind_ext {A B} (m : M St A) (k k' : A -> M St B) s env :
  (forall a s env, k a s env = k' a s env) -> bind m k s env = bind m k' s env.
Proof. intros Hk. unfold bind. destruct (m s env); [apply Hk|done]. Qed.

Lemma bind_unit (m : M St unit) s env : bind m (fun _ => ret tt) s env = m s env.
Proof. unfold bind. by destruct (m s env) as [[]|]. Qed.

Lemma mfor_app {A} (l1 l2 : list A) (f : A -> M St unit) s env :
  mfor (l1 ++ l2) f s env = bind (mfor l1 f) (fun _ => mfor l2 f) s env.
Proof.
  revert s env. induction l1 as [|x l1 IH]; intros s env; [done|]. cbn [mfor app]. rewrite bind_assoc.
  apply bind_ext. intros _ s' env'. apply IH.
Qed.

Lemma mfor_ext {A} (l : list A) (f g : A -> M St unit) s env :
  (forall x s env, f x s env = g x s env) -> mfor l f s env = mfor l g s env.
Proof.
  intros Hfg. revert s env. induction l as [|x l IH]; intros s env; [done|]. simpl. unfold bind. rewrite Hfg.
  destruct (g x s env); [apply IH|done].
Qed.

(** A loop whose body never does anything. *)
Lemma mfind_skip {A B} (l1 l2 : list A) (f : A -> M St (option B)) s env :
  (forall x, x ∈ l1 -> f x s env = Ok None s env) -> mfind (l1 ++ l2) f s env = mfind l2 f s env.
Proof.
  induction l1 as [|x l1 IH]; intros Hf; [done|]. cbn [mfind app]. rewrite (bind_ok _ _ _ _ _ _ _ (Hf x ltac:(left))).
  apply IH. intros y Hy. apply Hf. by right.
Qed.

Lemma mfor_none {A} (l : list A) (f : A -> M St unit) s env :
  Forall (fun x => forall s env, f x s env = Ok tt s env) l -> mfor l f s env = Ok tt s env.
Proof. induction 1 as [|x l Hx _ IH]; [done|]. simpl. unfold bind. by rewrite Hx. Qed.

Lemma bind_ret {A B} (a : A) (k : A -> M St B) s env : bind (ret a) k s env = k a s env.
Proof. done. Qed.

Lemma bind_gets {A B} (f : St -> A) (k : A -> M St B) s env :
  bind (gets f) k s env = k (f s) s env.
Proof. done. Qed.

Lemma bind_modify {B} (f : St -> St) (k : unit -> M St B) s env :
  bind (modify f) k s env = k tt (f s) env.
Proof. done. Qed.

(** [wp m Q E s env]: the computation ends in [Q] when it returns and
    in [E] when it does not. *)
Definition wp {A} (m : M St A) (Q : A -> St -> list (St -> St) -> Prop)
    (E : error -> St -> list (St -> St) -> Prop) s env : Prop :=
  match m s env with
  | Ok a s' env' => Q a s' env'
  | Err e s' env' => E e s' env'
  end.

Lemma wp_bind {A B} (m : M St A) (k : A -> M St B) Q E s env :
  wp m (fun a s' env' => wp (k a) Q E s' env') E s env ->
  wp (bind m k) Q E s env.
Proof. unfold wp, bind. by destruct (m s env). Qed.

Lemma wp_mono {A} (m : M St A) (Q Q' : A -> St -> list (St -> St) -> Prop)
    (E E' : error -> St -> list (St -> St) -> Prop) s env :
  wp m Q E s env ->
  (forall a s' env', Q a s' env' -> Q' a s' env') ->
  (forall e s' env', E e s' env' -> E' e s' env') ->
  wp m Q' E' s env.
Proof. unfold wp. destruct (m s env); eauto. Qed.

(** Loop invariants. *)
Lemma wp_mfor {A} (l : list A) (body : A -> M St unit)
    (I : list A -> St -> list (St -> St) -> Prop) E s env :
  I l s env ->
  (forall x l' s1 env1, I (x :: l') s1 env1 ->
     wp (body x) (fun _ => I l') E s1 env1) ->
  wp (mfor l body) (fun _ => I []) E s env.
Proof.
  revert s env. induction l as [|x l IH]; intros s env H0 Hstep; [done|].
  simpl. apply wp_bind.
  eapply wp_mono; [by apply Hstep | | done].
  intros [] s1 env1 H1. by apply IH.
Qed.

Lemma wp_mloop {A} (fuel : nat) (body : M St (option A))
    (I : nat -> St -> list (St -> St) -> Prop)
    (Q : A -> St -> list (St -> St) -> Prop) E s env :
  (0 < fuel)%nat ->
  I fuel s env ->
  (forall n s1 env1, (0 < n)%nat -> I n s1 env1 ->
     wp body (fun o s2 env2 =>
                match o with
                | Some a => Q a s2 env2
                | None => (1 < n)%nat /\ I (pred n) s2 env2
                end) E s1 env1) ->
  wp (mloop fuel body) Q E s env.
Proof.
  revert s env. induction fuel as [|n IH]; intros s env Hf H0 Hstep; [lia|].
  simpl. apply wp_bind.
  eapply wp_mono; [apply (Hstep (S n)); [lia|done] | | done].
  intros [a|] s1 env1 H1; [done|].
  destruct H1 as [? H1]. apply IH; [lia|done|done].
Qed.
End Rules.

(** [mrun] runs the administrative steps at the front of a sequence;
    [mstep H] runs its first action with the equation [H]. *)
Create Rewrite HintDb run.
#[export] Hint Rewrite @bind_ret @bind_gets @bind_modify @bind_assoc : run.
Ltac mrun := repeat (autorewrite with run; cbn [negb andb orb]).
Ltac mstep H := rewrite (bind_ok _ _ _ _ _ _ _ H).
Ltac msimpl := unfold ret, gets, modify, when, deref, panic, undefined, fail; simpl.

(** * Flag words *)

Lemma has_lor f g b : has (Z.lor f g) b = has f b || has g b.
Proof.
  unfold has. rewrite Z.land_lor_distr_l.
  destruct (Z.eqb_spec (Z.land f b) 0) as [E1|E1];
    destruct (Z.eqb_spec (Z.land g b) 0) as [E2|E2];
    destruct (Z.eqb_spec (Z.lor (Z.land f b) (Z.land g b)) 0) as [E3|E3];
    simpl; try done; exfalso.
  - apply E3. by rewrite E1, E2.
  - apply Z.lor_eq_0_iff in E3. tauto.
  - apply Z.lor_eq_0_iff in E3. tauto.
  - apply Z.lor_eq_0_iff in E3. tauto.
Qed.

Lemma has_clr_same f b : has (clr f b) b = false.
Proof.
  unfold has, clr. rewrite <- Z.land_assoc.
  rewrite (Z.land_comm (Z.lnot b)), Z.land_lnot_diag, Z.land_0_r. done.
Qed.

Lemma has_clr_other f g b : Z.land g b = 0 -> has (clr f g) b = has f b.
Proof.
  intros H. unfold has, clr. do 2 f_equal. rewrite <- Z.land_assoc. f_equal.
  apply Z.bits_inj'. intros n Hn. rewrite Z.land_spec, Z.lnot_spec by done.
  assert (Z.testbit (Z.land g b) n = false) as Hz by (by rewrite H, Z.testbit_0_l).
  rewrite Z.land_spec in Hz. destruct (Z.testbit g n), (Z.testbit b n); done.
Qed.

Lemma has_0 b : has 0 b = false.
Proof. done. Qed.

#[global] Arguments has : simpl never.
#[global] Arguments clr : simpl never.

(** * Lists *)

Lemma filter_all {A} (P : A -> Prop) `{!forall x, Decision (P x)} (l : list A) :
  Forall P l -> filter P l = l.
Proof.
  induction 1 as [|x l Hx _ IH]; [done|].
  rewrite filter_cons_True by done. by rewrite IH.
Qed.

Section Splice.
Context {A : Type}.
Implicit Types (l new : list A).

(** Overwriting part of a buffer: [memmove (p + off, new, |new|)]. *)
Definition splice (off : nat) new l : list A :=
  take off l ++ new ++ drop (off + length new) l.

Lemma length_splice off new l :
  (off + length new <= length l)%nat -> length (splice off new l) = length l.
Proof. intros. unfold splice. rewrite !length_app, length_take, length_drop. lia. Qed.

Lemma lookup_splice_in off new l i :
  (off + length new <= length l)%nat -> (off <= i < off + length new)%nat ->
  splice off new l !! i = new !! (i - off)%nat.
Proof.
  intros. unfold splice. rewrite lookup_app_r by (rewrite length_take; lia).
  rewrite length_take, Nat.min_l by lia. by rewrite lookup_app_l by lia.
Qed.

Lemma lookup_splice_out off new l i :
  (off + length new <= length l)%nat -> ~ (off <= i < off + length new)%nat ->
  splice off new l !! i = l !! i.
Proof.
  intros. unfold splice. destruct (decide (i < off)%nat).
  - rewrite lookup_app_l by (rewrite length_take; lia). by rewrite lookup_take_lt by lia.
  - rewrite lookup_app_r by (rewrite length_take; lia).
    rewrite length_take, Nat.min_l by lia.
    rewrite lookup_app_r by lia. rewrite lookup_drop. f_equal. lia.
Qed.

(** Reading back what was written, and reading elsewhere. *)
Lemma sub_splice_same off new l :
  (off + length new <= length l)%nat ->
  take (length new) (drop off (splice off new l)) = new.
Proof.
  intros. unfold splice. rewrite drop_app_length' by (rewrite length_take; lia).
  by rewrite take_app_length.
Qed.

Lemma sub_splice_other off new l n off' :
  (off + length new <= length l)%nat ->
  (off' + n <= off \/ off + length new <= off')%nat ->
  take n (drop off' (splice off new l)) = take n (drop off' l).
Proof.
  intros Hl Hd. apply list_eq. intros i.
  destruct (decide (i < n)%nat); [|by rewrite !lookup_take_ge by lia].
  rewrite !lookup_take_lt, !lookup_drop by lia. apply lookup_splice_out; lia.
Qed.

Lemma splice_all new l : length new = length l -> splice 0 new l = new.
Proof.
  intros Hn. unfold splice. rewrite take_0, Nat.add_0_l, Hn, drop_all.
  by rewrite app_nil_r.
Qed.
End Splice.

(** * Little-endian words in byte arrays *)

Fixpoint le_val (l : list Z) : Z :=
  match l with [] => 0 | b :: l' => b + 256 * le_val l' end.

Fixpoint le_bytes (n : nat) (z : Z) : list Z :=
  match n with O => [] | S n' => z mod 256 :: le_bytes n' (z / 256) end.

Definition get_le (n off : nat) (l : list Z) : Z := le_val (take n (drop off l)).
Definition put_le (n off : nat) (z : Z) (l : list Z) : list Z := splice off (le_bytes n z) l.
Abbreviation get16 := (get_le 2).
Abbreviation get32 := (get_le 4).
Abbreviation put16 := (put_le 2).
Abbreviation put32 := (put_le 4).

Lemma length_le_bytes n z : length (le_bytes n z) = n.
Proof. revert z. induction n; intros; simpl; [done|]. by rewrite IHn. Qed.

Lemma le_val_bytes n z : le_val (le_bytes n z) = z mod 256 ^ Z.of_nat n.
Proof.
  revert z. induction n as [|n IH]; intros z; simpl; [by rewrite Z.mod_1_r|].
  rewrite IH. rewrite Nat2Z.inj_succ, Z.pow_succ_r by lia.
  rewrite Z.rem_mul_r by lia. lia.
Qed.

Lemma length_put_le n off z l :
  (off + n <= length l)%nat -> length (put_le n off z l) = length l.
Proof. intros. apply length_splice. by rewrite length_le_bytes. Qed.

Lemma get_put_same n off z l :
  (off + n <= length l)%nat -> get_le n off (put_le n off z l) = z mod 256 ^ Z.of_nat n.
Proof.
  intros H. unfold get_le, put_le. rewrite <- (length_le_bytes n z) at 1.
  rewrite sub_splice_same by (by rewrite length_le_bytes). apply le_val_bytes.
Qed.

Lemma get_put_other n off z m off' l :
  (off + n <= length l)%nat -> (off' + m <= off \/ off + n <= off')%nat ->
  get_le m off' (put_le n off z l) = get_le m off' l.
Proof.
  intros. unfold get_le, put_le. f_equal.
  apply sub_splice_other; rewrite length_le_bytes; lia.
Qed.
