(* ===== verification/Types.v ===== *)
(** Data of the kernel: the constants and structures of the headers
    (include/param.h, fs.h, buf.h, file.h, proc.h, spinlock.h, sleeplock.h,
    memlayout.h, mmu.h, device.h, stat.h, fcntl.h) and the kernel's global
    variables, gathered in the record [kstate]. Fields keep the names of the
    C structures, with a prefix where two structures share a name; every
    field [f] has its update function [set_f]. *)
From S2P Require Import Prelude.

(** * Constants *)

(** include/param.h *)
Definition NPROC : nat := 64.
Definition KSTACKSIZE : Z := 4096.
Definition NOFILE : nat := 16.
Definition NFILE : nat := 100.
Definition NBUF : nat := 10.
Definition NINODE : nat := 50.
Definition NDEV : Z := 10.
Definition ROOTDEV : Z := 1.
Definition MAXARG : Z := 32.
Definition LOGSIZE : Z := 10.

(** include/fs.h *)
Definition ROOTINO : Z := 1.
Definition BSIZE : Z := 512.
Definition NDIRECT : Z := 12.
Definition NINDIRECT : Z := BSIZE / 4.
Definition MAXFILE : Z := NDIRECT + NINDIRECT.
Definition DINODE_SIZE : Z := 64.
Definition IPB : Z := BSIZE / DINODE_SIZE.
Definition IBLOCK (i : Z) : Z := i / IPB + 2.
Definition BPB : Z := BSIZE * 8.
Definition BBLOCK (b ninodes : Z) : Z := b / BPB + ninodes / IPB + 3.
Definition DIRSIZ : Z := 14.
Definition DIRENT_SIZE : Z := 16.

(** include/buf.h, include/file.h *)
Definition B_BUSY : Z := 1.
Definition B_VALID : Z := 2.
Definition B_DIRTY : Z := 4.
Definition I_BUSY : Z := 1.
Definition I_VALID : Z := 2.
Definition CONSOLE : Z := 1.

(** include/stat.h, include/fcntl.h *)
Definition T_DIR : Z := 1.
Definition T_FILE : Z := 2.
Definition T_DEV : Z := 3.
Definition O_RDONLY : Z := 0.
Definition O_WRONLY : Z := 1.
Definition O_RDWR : Z := 2.
Definition O_CREATE : Z := 512.

(** include/memlayout.h, include/device.h *)
Definition KERNBASE : Z := 2147483648.
Definition PHYSTOP : Z := 134217728.
Definition DEVBASE : Z := 268435456.
Definition VEC_TBL : Z := 4294901760.
Definition v2p (a : Z) : Z := u32 (a - KERNBASE).
Definition p2v (a : Z) : Z := u32 (a + KERNBASE).

(** include/mmu.h *)
Definition PGSIZE : Z := 65536.
Definition ALIGNUP (sz al : Z) : Z := Z.land (u32 (sz + al - 1)) (u32 (Z.lnot (al - 1))).
Definition ALIGNDOWN (sz al : Z) : Z := Z.land (u32 sz) (u32 (Z.lnot (al - 1))).
Definition AP_KO : Z := 1.
Definition AP_KU : Z := 3.
Definition PDE_SHIFT : Z := 20.
Definition PDE_SZ : Z := 1048576.
Definition PDE_TYPES : Z := 3.
Definition PDE_COARSE : Z := 1.
Definition PTE_SHIFT : Z := 12.
Definition PTE_SZ : Z := 4096.
Definition PTE_TYPES : Z := 3.
Definition PTE_SMALL : Z := 2.
Definition PTE_BUF : Z := 4.
Definition PTE_CACHE : Z := 8.
Definition PTE_PA : Z := 16.
Definition NUM_PTE : Z := 256.
Definition UADDR_SZ : Z := 268435456.
Definition NUM_UPDE : Z := 256.
Definition PDE_IDX (v : Z) : Z := Z.shiftr (u32 v) PDE_SHIFT.
Definition PTE_IDX (v : Z) : Z := Z.land (Z.shiftr (u32 v) PTE_SHIFT) (NUM_PTE - 1).
Definition PTE_ADDR (v : Z) : Z := ALIGNDOWN v PTE_SZ.
Definition PTE_AP (pte : Z) : Z := Z.land (Z.shiftr pte 4) 3.

(** * Names of locks and sleep channels *)

(** A spinlock and a sleep channel are identified by the address of the C
    object; the object is what the constructor names. *)
Inductive lock : Type :=
| ptable_lock | bcache_lock | icache_lock | ftable_lock | kmem_lock
| log_lock | tickslock | cons_lock | input_lock
| pipe_lock (p : Z)
| sleeplock_lk (a : Z).

#[global] Instance lock_eq_dec : EqDecision lock.
Proof. solve_decision. Defined.

Definition lock_code (l : lock) : Z * Z :=
  match l with
  | ptable_lock => (0, 0) | bcache_lock => (1, 0) | icache_lock => (2, 0)
  | ftable_lock => (3, 0) | kmem_lock => (4, 0) | log_lock => (5, 0)
  | tickslock => (6, 0) | cons_lock => (7, 0) | input_lock => (8, 0)
  | pipe_lock p => (9, p)
  | sleeplock_lk a => (10, a)
  end.

Definition lock_decode (c : Z * Z) : lock :=
  match c with
  | (0, _) => ptable_lock | (1, _) => bcache_lock | (2, _) => icache_lock
  | (3, _) => ftable_lock | (4, _) => kmem_lock | (5, _) => log_lock
  | (6, _) => tickslock | (7, _) => cons_lock | (8, _) => input_lock
  | (9, p) => pipe_lock p
  | (_, a) => sleeplock_lk a
  end.

#[global] Instance lock_countable : Countable lock.
Proof. apply (inj_countable' lock_code lock_decode). by intros []. Defined.

Inductive channel : Type :=
| chan_buf (b : nat)          (* a struct buf *)
| chan_inode (ip : nat)       (* a struct inode *)
| chan_proc (p : nat)         (* a struct proc *)
| chan_log                    (* &log *)
| chan_ticks                  (* &ticks *)
| chan_nread (p : Z)          (* &p->nread of a pipe *)
| chan_nwrite (p : Z)         (* &p->nwrite of a pipe *)
| chan_input                  (* &input.r *)
| chan_sleeplock (a : Z).

#[global] Instance channel_eq_dec : EqDecision channel.
Proof. solve_decision. Defined.

(** * Structures *)

Inductive procstate : Type :=
| UNUSED | EMBRYO | SLEEPING | RUNNABLE | RUNNING | ZOMBIE.

#[global] Instance procstate_eq_dec : EqDecision procstate.
Proof. solve_decision. Defined.

Inductive filetype : Type := FD_NONE | FD_PIPE | FD_INODE.

#[global] Instance filetype_eq_dec : EqDecision filetype.
Proof. solve_decision. Defined.

(** The device functions that can stand in [devsw] and the interrupt
    handlers that can stand in [isrs]. *)
Inductive devfn : Type := consoleread_fn | consolewrite_fn.
Inductive isr : Type := default_isr_fn | isr_timer_fn | isr_uart_fn.

(** Per-CPU state (struct cpu) with the CPSR interrupt mask; [held] is the set of spinlocks whose [locked] word is 1. *)
Record cpu : Type := Mkcpu {
  int_enabled : bool;
  ncli : Z;
  intena : bool;
  held : gset lock
}.

Definition set_int_enabled (v : bool) (r : cpu) : cpu :=
  Mkcpu v r.(ncli) r.(intena) r.(held).
Definition set_ncli (v : Z) (r : cpu) : cpu :=
  Mkcpu r.(int_enabled) v r.(intena) r.(held).
Definition set_intena (v : bool) (r : cpu) : cpu :=
  Mkcpu r.(int_enabled) r.(ncli) v r.(held).
Definition set_held (v : gset lock) (r : cpu) : cpu :=
  Mkcpu r.(int_enabled) r.(ncli) r.(intena) v.

(** struct proc. Pointers into the kernel's tables are indices, pointers to pages are addresses; [tf] and [context] point into the kernel stack page. *)
Record proc : Type := Mkproc {
  sz : Z;
  pgdir : Z;
  kstack : Z;
  state : procstate;
  pid : Z;
  parent : option nat;
  tf : Z;
  context : Z;
  chan : option channel;
  killed : bool;
  ofile : list (option nat);
  cwd : option nat;
  name : list Z
}.

Definition set_sz (v : Z) (r : proc) : proc :=
  Mkproc v r.(pgdir) r.(kstack) r.(state) r.(pid) r.(parent) r.(tf)
    r.(context) r.(chan) r.(killed) r.(ofile) r.(cwd) r.(name).
Definition set_pgdir (v : Z) (r : proc) : proc :=
  Mkproc r.(sz) v r.(kstack) r.(state) r.(pid) r.(parent) r.(tf) r.(context)
    r.(chan) r.(killed) r.(ofile) r.(cwd) r.(name).
Definition set_kstack (v : Z) (r : proc) : proc :=
  Mkproc r.(sz) r.(pgdir) v r.(state) r.(pid) r.(parent) r.(tf) r.(context)
    r.(chan) r.(killed) r.(ofile) r.(cwd) r.(name).
Definition set_state (v : procstate) (r : proc) : proc :=
  Mkproc r.(sz) r.(pgdir) r.(kstack) v r.(pid) r.(parent) r.(tf) r.(context)
    r.(chan) r.(killed) r.(ofile) r.(cwd) r.(name).
Definition set_pid (v : Z) (r : proc) : proc :=
  Mkproc r.(sz) r.(pgdir) r.(kstack) r.(state) v r.(parent) r.(tf)
    r.(context) r.(chan) r.(killed) r.(ofile) r.(cwd) r.(name).
Definition set_parent (v : option nat) (r : proc) : proc :=
  Mkproc r.(sz) r.(pgdir) r.(kstack) r.(state) r.(pid) v r.(tf) r.(context)
    r.(chan) r.(killed) r.(ofile) r.(cwd) r.(name).
Definition set_tf (v : Z) (r : proc) : proc :=
  Mkproc r.(sz) r.(pgdir) r.(kstack) r.(state) r.(pid) r.(parent) v
    r.(context) r.(chan) r.(killed) r.(ofile) r.(cwd) r.(name).
Definition set_context (v : Z) (r : proc) : proc :=
  Mkproc r.(sz) r.(pgdir) r.(kstack) r.(state) r.(pid) r.(parent) r.(tf) v
    r.(chan) r.(killed) r.(ofile) r.(cwd) r.(name).
Definition set_chan (v : option channel) (r : proc) : proc :=
  Mkproc r.(sz) r.(pgdir) r.(kstack) r.(state) r.(pid) r.(parent) r.(tf)
    r.(context) v r.(killed) r.(ofile) r.(cwd) r.(name).
Definition set_killed (v : bool) (r : proc) : proc :=
  Mkproc r.(sz) r.(pgdir) r.(kstack) r.(state) r.(pid) r.(parent) r.(tf)
    r.(context) r.(chan) v r.(ofile) r.(cwd) r.(name).
Definition set_ofile (v : list (option nat)) (r : proc) : proc :=
  Mkproc r.(sz) r.(pgdir) r.(kstack) r.(state) r.(pid) r.(parent) r.(tf)
    r.(context) r.(chan) r.(killed) v r.(cwd) r.(name).
Definition set_cwd (v : option nat) (r : proc) : proc :=
  Mkproc r.(sz) r.(pgdir) r.(kstack) r.(state) r.(pid) r.(parent) r.(tf)
    r.(context) r.(chan) r.(killed) r.(ofile) v r.(name).
Definition set_name (v : list Z) (r : proc) : proc :=
  Mkproc r.(sz) r.(pgdir) r.(kstack) r.(state) r.(pid) r.(parent) r.(tf)
    r.(context) r.(chan) r.(killed) r.(ofile) r.(cwd) v.

(** struct buf. [prev] and [next] are indices into the buffer array, the list head being index [NBUF]. *)
Record buf : Type := Mkbuf {
  b_flags : Z;
  b_dev : Z;
  b_sector : Z;
  b_prev : nat;
  b_next : nat;
  b_data : list Z
}.

Definition set_b_flags (v : Z) (r : buf) : buf :=
  Mkbuf v r.(b_dev) r.(b_sector) r.(b_prev) r.(b_next) r.(b_data).
Definition set_b_dev (v : Z) (r : buf) : buf :=
  Mkbuf r.(b_flags) v r.(b_sector) r.(b_prev) r.(b_next) r.(b_data).
Definition set_b_sector (v : Z) (r : buf) : buf :=
  Mkbuf r.(b_flags) r.(b_dev) v r.(b_prev) r.(b_next) r.(b_data).
Definition set_b_prev (v : nat) (r : buf) : buf :=
  Mkbuf r.(b_flags) r.(b_dev) r.(b_sector) v r.(b_next) r.(b_data).
Definition set_b_next (v : nat) (r : buf) : buf :=
  Mkbuf r.(b_flags) r.(b_dev) r.(b_sector) r.(b_prev) v r.(b_data).
Definition set_b_data (v : list Z) (r : buf) : buf :=
  Mkbuf r.(b_flags) r.(b_dev) r.(b_sector) r.(b_prev) r.(b_next) v.

(** struct log with its in-memory header (struct logheader). *)
Record log : Type := Mklog {
  l_start : Z;
  l_size : Z;
  l_busy : bool;
  l_dev : Z;
  lh_n : Z;
  lh_sector : list Z
}.

Definition set_l_start (v : Z) (r : log) : log :=
  Mklog v r.(l_size) r.(l_busy) r.(l_dev) r.(lh_n) r.(lh_sector).
Definition set_l_size (v : Z) (r : log) : log :=
  Mklog r.(l_start) v r.(l_busy) r.(l_dev) r.(lh_n) r.(lh_sector).
Definition set_l_busy (v : bool) (r : log) : log :=
  Mklog r.(l_start) r.(l_size) v r.(l_dev) r.(lh_n) r.(lh_sector).
Definition set_l_dev (v : Z) (r : log) : log :=
  Mklog r.(l_start) r.(l_size) r.(l_busy) v r.(lh_n) r.(lh_sector).
Definition set_lh_n (v : Z) (r : log) : log :=
  Mklog r.(l_start) r.(l_size) r.(l_busy) r.(l_dev) v r.(lh_sector).
Definition set_lh_sector (v : list Z) (r : log) : log :=
  Mklog r.(l_start) r.(l_size) r.(l_busy) r.(l_dev) r.(lh_n) v.

(** struct inode: the in-memory copy of an inode. *)
Record inode : Type := Mkinode {
  i_dev : Z;
  i_inum : Z;
  i_ref : Z;
  i_flags : Z;
  i_type : Z;
  i_major : Z;
  i_minor : Z;
  i_nlink : Z;
  i_size : Z;
  i_addrs : list Z
}.

Definition set_i_dev (v : Z) (r : inode) : inode :=
  Mkinode v r.(i_inum) r.(i_ref) r.(i_flags) r.(i_type) r.(i_major)
    r.(i_minor) r.(i_nlink) r.(i_size) r.(i_addrs).
Definition set_i_inum (v : Z) (r : inode) : inode :=
  Mkinode r.(i_dev) v r.(i_ref) r.(i_flags) r.(i_type) r.(i_major)
    r.(i_minor) r.(i_nlink) r.(i_size) r.(i_addrs).
Definition set_i_ref (v : Z) (r : inode) : inode :=
  Mkinode r.(i_dev) r.(i_inum) v r.(i_flags) r.(i_type) r.(i_major)
    r.(i_minor) r.(i_nlink) r.(i_size) r.(i_addrs).
Definition set_i_flags (v : Z) (r : inode) : inode :=
  Mkinode r.(i_dev) r.(i_inum) r.(i_ref) v r.(i_type) r.(i_major)
    r.(i_minor) r.(i_nlink) r.(i_size) r.(i_addrs).
Definition set_i_type (v : Z) (r : inode) : inode :=
  Mkinode r.(i_dev) r.(i_inum) r.(i_ref) r.(i_flags) v r.(i_major)
    r.(i_minor) r.(i_nlink) r.(i_size) r.(i_addrs).
Definition set_i_major (v : Z) (r : inode) : inode :=
  Mkinode r.(i_dev) r.(i_inum) r.(i_ref) r.(i_flags) r.(i_type) v
    r.(i_minor) r.(i_nlink) r.(i_size) r.(i_addrs).
Definition set_i_minor (v : Z) (r : inode) : inode :=
  Mkinode r.(i_dev) r.(i_inum) r.(i_ref) r.(i_flags) r.(i_type) r.(i_major)
    v r.(i_nlink) r.(i_size) r.(i_addrs).
Definition set_i_nlink (v : Z) (r : inode) : inode :=
  Mkinode r.(i_dev) r.(i_inum) r.(i_ref) r.(i_flags) r.(i_type) r.(i_major)
    r.(i_minor) v r.(i_size) r.(i_addrs).
Definition set_i_size (v : Z) (r : inode) : inode :=
  Mkinode r.(i_dev) r.(i_inum) r.(i_ref) r.(i_flags) r.(i_type) r.(i_major)
    r.(i_minor) r.(i_nlink) v r.(i_addrs).
Definition set_i_addrs (v : list Z) (r : inode) : inode :=
  Mkinode r.(i_dev) r.(i_inum) r.(i_ref) r.(i_flags) r.(i_type) r.(i_major)
    r.(i_minor) r.(i_nlink) r.(i_size) v.

(** struct file. *)
Record file : Type := Mkfile {
  f_type : filetype;
  f_ref : Z;
  f_readable : bool;
  f_writable : bool;
  f_pipe : Z;
  f_ip : nat;
  f_off : Z
}.

Definition set_f_type (v : filetype) (r : file) : file :=
  Mkfile v r.(f_ref) r.(f_readable) r.(f_writable) r.(f_pipe) r.(f_ip)
    r.(f_off).
Definition set_f_ref (v : Z) (r : file) : file :=
  Mkfile r.(f_type) v r.(f_readable) r.(f_writable) r.(f_pipe) r.(f_ip)
    r.(f_off).
Definition set_f_readable (v : bool) (r : file) : file :=
  Mkfile r.(f_type) r.(f_ref) v r.(f_writable) r.(f_pipe) r.(f_ip) r.(f_off).
Definition set_f_writable (v : bool) (r : file) : file :=
  Mkfile r.(f_type) r.(f_ref) r.(f_readable) v r.(f_pipe) r.(f_ip) r.(f_off).
Definition set_f_pipe (v : Z) (r : file) : file :=
  Mkfile r.(f_type) r.(f_ref) r.(f_readable) r.(f_writable) v r.(f_ip)
    r.(f_off).
Definition set_f_ip (v : nat) (r : file) : file :=
  Mkfile r.(f_type) r.(f_ref) r.(f_readable) r.(f_writable) r.(f_pipe) v
    r.(f_off).
Definition set_f_off (v : Z) (r : file) : file :=
  Mkfile r.(f_type) r.(f_ref) r.(f_readable) r.(f_writable) r.(f_pipe)
    r.(f_ip) v.

(** struct pipe. *)
Record pipe : Type := Mkpipe {
  p_data : list Z;
  p_nread : Z;
  p_nwrite : Z;
  p_readopen : bool;
  p_writeopen : bool
}.

Definition set_p_data (v : list Z) (r : pipe) : pipe :=
  Mkpipe v r.(p_nread) r.(p_nwrite) r.(p_readopen) r.(p_writeopen).
Definition set_p_nread (v : Z) (r : pipe) : pipe :=
  Mkpipe r.(p_data) v r.(p_nwrite) r.(p_readopen) r.(p_writeopen).
Definition set_p_nwrite (v : Z) (r : pipe) : pipe :=
  Mkpipe r.(p_data) r.(p_nread) v r.(p_readopen) r.(p_writeopen).
Definition set_p_readopen (v : bool) (r : pipe) : pipe :=
  Mkpipe r.(p_data) r.(p_nread) r.(p_nwrite) v r.(p_writeopen).
Definition set_p_writeopen (v : bool) (r : pipe) : pipe :=
  Mkpipe r.(p_data) r.(p_nread) r.(p_nwrite) r.(p_readopen) v.

(** The console input buffer ([input] of console.c). *)
Record inputbuf : Type := Mkinputbuf {
  in_buf : list Z;
  in_r : Z;
  in_w : Z;
  in_e : Z
}.

Definition set_in_buf (v : list Z) (r : inputbuf) : inputbuf :=
  Mkinputbuf v r.(in_r) r.(in_w) r.(in_e).
Definition set_in_r (v : Z) (r : inputbuf) : inputbuf :=
  Mkinputbuf r.(in_buf) v r.(in_w) r.(in_e).
Definition set_in_w (v : Z) (r : inputbuf) : inputbuf :=
  Mkinputbuf r.(in_buf) r.(in_r) v r.(in_e).
Definition set_in_e (v : Z) (r : inputbuf) : inputbuf :=
  Mkinputbuf r.(in_buf) r.(in_r) r.(in_w) v.

(** struct sleeplock, less its spinlock and debugging name. *)
Record sleeplock : Type := Mksleeplock {
  sl_locked : bool;
  sl_pid : Z
}.

Definition set_sl_locked (v : bool) (r : sleeplock) : sleeplock :=
  Mksleeplock v r.(sl_pid).
Definition set_sl_pid (v : Z) (r : sleeplock) : sleeplock :=
  Mksleeplock r.(sl_locked) v.

(** The kernel's global variables. Three components are not variables: [dwrites] records the sector writes issued to the disk and [regwrites] the writes to device registers (the address and the value), oldest first, apart from the characters sent to the UART, which are [uart_tx]; [mode_sp] holds the banked stack pointers by processor mode. *)
Record kstate : Type := Mkkstate {
  kcpu : cpu;
  procs : list proc;
  curproc : option nat;
  initproc : option nat;
  nextpid : Z;
  first : bool;
  bcache : list buf;
  disk : list (list Z);
  dwrites : list (Z * list Z);
  klog : log;
  icache : list inode;
  devsw : list (option devfn * option devfn);
  ftable : list file;
  pipes : gmap Z pipe;
  sleeplocks : gmap Z sleeplock;
  mem : Z -> Z;
  freelist : Z;
  use_lock : bool;
  ttbr0 : Z;
  ticks : Z;
  input : inputbuf;
  cons_locking : bool;
  uart_tx : list Z;
  ubase : Z;
  vic_base : Z;
  isrs : list (option isr);
  regwrites : list (Z * Z);
  mode_sp : gmap Z Z
}.

Definition set_kcpu (v : cpu) (r : kstate) : kstate :=
  Mkkstate v r.(procs) r.(curproc) r.(initproc) r.(nextpid) r.(first)
    r.(bcache) r.(disk) r.(dwrites) r.(klog) r.(icache) r.(devsw) r.(ftable)
    r.(pipes) r.(sleeplocks) r.(mem) r.(freelist) r.(use_lock) r.(ttbr0)
    r.(ticks) r.(input) r.(cons_locking) r.(uart_tx) r.(ubase) r.(vic_base)
    r.(isrs) r.(regwrites) r.(mode_sp).
Definition set_procs (v : list proc) (r : kstate) : kstate :=
  Mkkstate r.(kcpu) v r.(curproc) r.(initproc) r.(nextpid) r.(first)
    r.(bcache) r.(disk) r.(dwrites) r.(klog) r.(icache) r.(devsw) r.(ftable)
    r.(pipes) r.(sleeplocks) r.(mem) r.(freelist) r.(use_lock) r.(ttbr0)
    r.(ticks) r.(input) r.(cons_locking) r.(uart_tx) r.(ubase) r.(vic_base)
    r.(isrs) r.(regwrites) r.(mode_sp).
Definition set_curproc (v : option nat) (r : kstate) : kstate :=
  Mkkstate r.(kcpu) r.(procs) v r.(initproc) r.(nextpid) r.(first)
    r.(bcache) r.(disk) r.(dwrites) r.(klog) r.(icache) r.(devsw) r.(ftable)
    r.(pipes) r.(sleeplocks) r.(mem) r.(freelist) r.(use_lock) r.(ttbr0)
    r.(ticks) r.(input) r.(cons_locking) r.(uart_tx) r.(ubase) r.(vic_base)
    r.(isrs) r.(regwrites) r.(mode_sp).
Definition set_initproc (v : option nat) (r : kstate) : kstate :=
  Mkkstate r.(kcpu) r.(procs) r.(curproc) v r.(nextpid) r.(first) r.(bcache)
    r.(disk) r.(dwrites) r.(klog) r.(icache) r.(devsw) r.(ftable) r.(pipes)
    r.(sleeplocks) r.(mem) r.(freelist) r.(use_lock) r.(ttbr0) r.(ticks)
    r.(input) r.(cons_locking) r.(uart_tx) r.(ubase) r.(vic_base) r.(isrs)
    r.(regwrites) r.(mode_sp).
Definition set_nextpid (v : Z) (r : kstate) : kstate :=
  Mkkstate r.(kcpu) r.(procs) r.(curproc) r.(initproc) v r.(first)
    r.(bcache) r.(disk) r.(dwrites) r.(klog) r.(icache) r.(devsw) r.(ftable)
    r.(pipes) r.(sleeplocks) r.(mem) r.(freelist) r.(use_lock) r.(ttbr0)
    r.(ticks) r.(input) r.(cons_locking) r.(uart_tx) r.(ubase) r.(vic_base)
    r.(isrs) r.(regwrites) r.(mode_sp).
Definition set_first (v : bool) (r : kstate) : kstate :=
  Mkkstate r.(kcpu) r.(procs) r.(curproc) r.(initproc) r.(nextpid) v
    r.(bcache) r.(disk) r.(dwrites) r.(klog) r.(icache) r.(devsw) r.(ftable)
    r.(pipes) r.(sleeplocks) r.(mem) r.(freelist) r.(use_lock) r.(ttbr0)
    r.(ticks) r.(input) r.(cons_locking) r.(uart_tx) r.(ubase) r.(vic_base)
    r.(isrs) r.(regwrites) r.(mode_sp).
Definition set_bcache (v : list buf) (r : kstate) : kstate :=
  Mkkstate r.(kcpu) r.(procs) r.(curproc) r.(initproc) r.(nextpid) r.(first)
    v r.(disk) r.(dwrites) r.(klog) r.(icache) r.(devsw) r.(ftable)
    r.(pipes) r.(sleeplocks) r.(mem) r.(freelist) r.(use_lock) r.(ttbr0)
    r.(ticks) r.(input) r.(cons_locking) r.(uart_tx) r.(ubase) r.(vic_base)
    r.(isrs) r.(regwrites) r.(mode_sp).
Definition set_disk (v : list (list Z)) (r : kstate) : kstate :=
  Mkkstate r.(kcpu) r.(procs) r.(curproc) r.(initproc) r.(nextpid) r.(first)
    r.(bcache) v r.(dwrites) r.(klog) r.(icache) r.(devsw) r.(ftable)
    r.(pipes) r.(sleeplocks) r.(mem) r.(freelist) r.(use_lock) r.(ttbr0)
    r.(ticks) r.(input) r.(cons_locking) r.(uart_tx) r.(ubase) r.(vic_base)
    r.(isrs) r.(regwrites) r.(mode_sp).
Definition set_dwrites (v : list (Z * list Z)) (r : kstate) : kstate :=
  Mkkstate r.(kcpu) r.(procs) r.(curproc) r.(initproc) r.(nextpid) r.(first)
    r.(bcache) r.(disk) v r.(klog) r.(icache) r.(devsw) r.(ftable) r.(pipes)
    r.(sleeplocks) r.(mem) r.(freelist) r.(use_lock) r.(ttbr0) r.(ticks)
    r.(input) r.(cons_locking) r.(uart_tx) r.(ubase) r.(vic_base) r.(isrs)
    r.(regwrites) r.(mode_sp).
Definition set_klog (v : log) (r : kstate) : kstate :=
  Mkkstate r.(kcpu) r.(procs) r.(curproc) r.(initproc) r.(nextpid) r.(first)
    r.(bcache) r.(disk) r.(dwrites) v r.(icache) r.(devsw) r.(ftable)
    r.(pipes) r.(sleeplocks) r.(mem) r.(freelist) r.(use_lock) r.(ttbr0)
    r.(ticks) r.(input) r.(cons_locking) r.(uart_tx) r.(ubase) r.(vic_base)
    r.(isrs) r.(regwrites) r.(mode_sp).
Definition set_icache (v : list inode) (r : kstate) : kstate :=
  Mkkstate r.(kcpu) r.(procs) r.(curproc) r.(initproc) r.(nextpid) r.(first)
    r.(bcache) r.(disk) r.(dwrites) r.(klog) v r.(devsw) r.(ftable)
    r.(pipes) r.(sleeplocks) r.(mem) r.(freelist) r.(use_lock) r.(ttbr0)
    r.(ticks) r.(input) r.(cons_locking) r.(uart_tx) r.(ubase) r.(vic_base)
    r.(isrs) r.(regwrites) r.(mode_sp).
Definition set_devsw (v : list (option devfn * option devfn)) (r : kstate) : kstate :=
  Mkkstate r.(kcpu) r.(procs) r.(curproc) r.(initproc) r.(nextpid) r.(first)
    r.(bcache) r.(disk) r.(dwrites) r.(klog) r.(icache) v r.(ftable)
    r.(pipes) r.(sleeplocks) r.(mem) r.(freelist) r.(use_lock) r.(ttbr0)
    r.(ticks) r.(input) r.(cons_locking) r.(uart_tx) r.(ubase) r.(vic_base)
    r.(isrs) r.(regwrites) r.(mode_sp).
Definition set_ftable (v : list file) (r : kstate) : kstate :=
  Mkkstate r.(kcpu) r.(procs) r.(curproc) r.(initproc) r.(nextpid) r.(first)
    r.(bcache) r.(disk) r.(dwrites) r.(klog) r.(icache) r.(devsw) v
    r.(pipes) r.(sleeplocks) r.(mem) r.(freelist) r.(use_lock) r.(ttbr0)
    r.(ticks) r.(input) r.(cons_locking) r.(uart_tx) r.(ubase) r.(vic_base)
    r.(isrs) r.(regwrites) r.(mode_sp).
Definition set_pipes (v : gmap Z pipe) (r : kstate) : kstate :=
  Mkkstate r.(kcpu) r.(procs) r.(curproc) r.(initproc) r.(nextpid) r.(first)
    r.(bcache) r.(disk) r.(dwrites) r.(klog) r.(icache) r.(devsw) r.(ftable)
    v r.(sleeplocks) r.(mem) r.(freelist) r.(use_lock) r.(ttbr0) r.(ticks)
    r.(input) r.(cons_locking) r.(uart_tx) r.(ubase) r.(vic_base) r.(isrs)
    r.(regwrites) r.(mode_sp).
Definition set_sleeplocks (v : gmap Z sleeplock) (r : kstate) : kstate :=
  Mkkstate r.(kcpu) r.(procs) r.(curproc) r.(initproc) r.(nextpid) r.(first)
    r.(bcache) r.(disk) r.(dwrites) r.(klog) r.(icache) r.(devsw) r.(ftable)
    r.(pipes) v r.(mem) r.(freelist) r.(use_lock) r.(ttbr0) r.(ticks)
    r.(input) r.(cons_locking) r.(uart_tx) r.(ubase) r.(vic_base) r.(isrs)
    r.(regwrites) r.(mode_sp).
Definition set_mem (v : Z -> Z) (r : kstate) : kstate :=
  Mkkstate r.(kcpu) r.(procs) r.(curproc) r.(initproc) r.(nextpid) r.(first)
    r.(bcache) r.(disk) r.(dwrites) r.(klog) r.(icache) r.(devsw) r.(ftable)
    r.(pipes) r.(sleeplocks) v r.(freelist) r.(use_lock) r.(ttbr0) r.(ticks)
    r.(input) r.(cons_locking) r.(uart_tx) r.(ubase) r.(vic_base) r.(isrs)
    r.(regwrites) r.(mode_sp).
Definition set_freelist (v : Z) (r : kstate) : kstate :=
  Mkkstate r.(kcpu) r.(procs) r.(curproc) r.(initproc) r.(nextpid) r.(first)
    r.(bcache) r.(disk) r.(dwrites) r.(klog) r.(icache) r.(devsw) r.(ftable)
    r.(pipes) r.(sleeplocks) r.(mem) v r.(use_lock) r.(ttbr0) r.(ticks)
    r.(input) r.(cons_locking) r.(uart_tx) r.(ubase) r.(vic_base) r.(isrs)
    r.(regwrites) r.(mode_sp).
Definition set_use_lock (v : bool) (r : kstate) : kstate :=
  Mkkstate r.(kcpu) r.(procs) r.(curproc) r.(initproc) r.(nextpid) r.(first)
    r.(bcache) r.(disk) r.(dwrites) r.(klog) r.(icache) r.(devsw) r.(ftable)
    r.(pipes) r.(sleeplocks) r.(mem) r.(freelist) v r.(ttbr0) r.(ticks)
    r.(input) r.(cons_locking) r.(uart_tx) r.(ubase) r.(vic_base) r.(isrs)
    r.(regwrites) r.(mode_sp).
Definition set_ttbr0 (v : Z) (r : kstate) : kstate :=
  Mkkstate r.(kcpu) r.(procs) r.(curproc) r.(initproc) r.(nextpid) r.(first)
    r.(bcache) r.(disk) r.(dwrites) r.(klog) r.(icache) r.(devsw) r.(ftable)
    r.(pipes) r.(sleeplocks) r.(mem) r.(freelist) r.(use_lock) v r.(ticks)
    r.(input) r.(cons_locking) r.(uart_tx) r.(ubase) r.(vic_base) r.(isrs)
    r.(regwrites) r.(mode_sp).
Definition set_ticks (v : Z) (r : kstate) : kstate :=
  Mkkstate r.(kcpu) r.(procs) r.(curproc) r.(initproc) r.(nextpid) r.(first)
    r.(bcache) r.(disk) r.(dwrites) r.(klog) r.(icache) r.(devsw) r.(ftable)
    r.(pipes) r.(sleeplocks) r.(mem) r.(freelist) r.(use_lock) r.(ttbr0) v
    r.(input) r.(cons_locking) r.(uart_tx) r.(ubase) r.(vic_base) r.(isrs)
    r.(regwrites) r.(mode_sp).
Definition set_input (v : inputbuf) (r : kstate) : kstate :=
  Mkkstate r.(kcpu) r.(procs) r.(curproc) r.(initproc) r.(nextpid) r.(first)
    r.(bcache) r.(disk) r.(dwrites) r.(klog) r.(icache) r.(devsw) r.(ftable)
    r.(pipes) r.(sleeplocks) r.(mem) r.(freelist) r.(use_lock) r.(ttbr0)
    r.(ticks) v r.(cons_locking) r.(uart_tx) r.(ubase) r.(vic_base) r.(isrs)
    r.(regwrites) r.(mode_sp).
Definition set_cons_locking (v : bool) (r : kstate) : kstate :=
  Mkkstate r.(kcpu) r.(procs) r.(curproc) r.(initproc) r.(nextpid) r.(first)
    r.(bcache) r.(disk) r.(dwrites) r.(klog) r.(icache) r.(devsw) r.(ftable)
    r.(pipes) r.(sleeplocks) r.(mem) r.(freelist) r.(use_lock) r.(ttbr0)
    r.(ticks) r.(input) v r.(uart_tx) r.(ubase) r.(vic_base) r.(isrs)
    r.(regwrites) r.(mode_sp).
Definition set_uart_tx (v : list Z) (r : kstate) : kstate :=
  Mkkstate r.(kcpu) r.(procs) r.(curproc) r.(initproc) r.(nextpid) r.(first)
    r.(bcache) r.(disk) r.(dwrites) r.(klog) r.(icache) r.(devsw) r.(ftable)
    r.(pipes) r.(sleeplocks) r.(mem) r.(freelist) r.(use_lock) r.(ttbr0)
    r.(ticks) r.(input) r.(cons_locking) v r.(ubase) r.(vic_base) r.(isrs)
    r.(regwrites) r.(mode_sp).
Definition set_ubase (v : Z) (r : kstate) : kstate :=
  Mkkstate r.(kcpu) r.(procs) r.(curproc) r.(initproc) r.(nextpid) r.(first)
    r.(bcache) r.(disk) r.(dwrites) r.(klog) r.(icache) r.(devsw) r.(ftable)
    r.(pipes) r.(sleeplocks) r.(mem) r.(freelist) r.(use_lock) r.(ttbr0)
    r.(ticks) r.(input) r.(cons_locking) r.(uart_tx) v r.(vic_base) r.(isrs)
    r.(regwrites) r.(mode_sp).
Definition set_vic_base (v : Z) (r : kstate) : kstate :=
  Mkkstate r.(kcpu) r.(procs) r.(curproc) r.(initproc) r.(nextpid) r.(first)
    r.(bcache) r.(disk) r.(dwrites) r.(klog) r.(icache) r.(devsw) r.(ftable)
    r.(pipes) r.(sleeplocks) r.(mem) r.(freelist) r.(use_lock) r.(ttbr0)
    r.(ticks) r.(input) r.(cons_locking) r.(uart_tx) r.(ubase) v r.(isrs)
    r.(regwrites) r.(mode_sp).
Definition set_isrs (v : list (option isr)) (r : kstate) : kstate :=
  Mkkstate r.(kcpu) r.(procs) r.(curproc) r.(initproc) r.(nextpid) r.(first)
    r.(bcache) r.(disk) r.(dwrites) r.(klog) r.(icache) r.(devsw) r.(ftable)
    r.(pipes) r.(sleeplocks) r.(mem) r.(freelist) r.(use_lock) r.(ttbr0)
    r.(ticks) r.(input) r.(cons_locking) r.(uart_tx) r.(ubase) r.(vic_base)
    v r.(regwrites) r.(mode_sp).
Definition set_regwrites (v : list (Z * Z)) (r : kstate) : kstate :=
  Mkkstate r.(kcpu) r.(procs) r.(curproc) r.(initproc) r.(nextpid) r.(first)
    r.(bcache) r.(disk) r.(dwrites) r.(klog) r.(icache) r.(devsw) r.(ftable)
    r.(pipes) r.(sleeplocks) r.(mem) r.(freelist) r.(use_lock) r.(ttbr0)
    r.(ticks) r.(input) r.(cons_locking) r.(uart_tx) r.(ubase) r.(vic_base)
    r.(isrs) v r.(mode_sp).
Definition set_mode_sp (v : gmap Z Z) (r : kstate) : kstate :=
  Mkkstate r.(kcpu) r.(procs) r.(curproc) r.(initproc) r.(nextpid) r.(first)
    r.(bcache) r.(disk) r.(dwrites) r.(klog) r.(icache) r.(devsw) r.(ftable)
    r.(pipes) r.(sleeplocks) r.(mem) r.(freelist) r.(use_lock) r.(ttbr0)
    r.(ticks) r.(input) r.(cons_locking) r.(uart_tx) r.(ubase) r.(vic_base)
    r.(isrs) r.(regwrites) v.


(** Kernel computations. *)
Abbreviation K := (M kstate).

(** Updating part of a component in place. *)
Definition upd_cpu (f : cpu -> cpu) (s : kstate) : kstate :=
  set_kcpu (f s.(kcpu)) s.
Definition upd_log (f : log -> log) (s : kstate) : kstate :=
  set_klog (f s.(klog)) s.
Definition upd_proc (i : nat) (f : proc -> proc) (s : kstate) : kstate :=
  set_procs (alter f i s.(procs)) s.
Definition upd_buf (i : nat) (f : buf -> buf) (s : kstate) : kstate :=
  set_bcache (alter f i s.(bcache)) s.
Definition upd_inode (i : nat) (f : inode -> inode) (s : kstate) : kstate :=
  set_icache (alter f i s.(icache)) s.
Definition upd_file (i : nat) (f : file -> file) (s : kstate) : kstate :=
  set_ftable (alter f i s.(ftable)) s.
Definition upd_pipe (p : Z) (f : pipe -> pipe) (s : kstate) : kstate :=
  set_pipes (alter f p s.(pipes)) s.

(** Reading a structure through a pointer into its table. *)
Definition get_proc (i : nat) : K proc :=
  o <- gets (fun s => s.(procs) !! i) ;; deref "proc" o.
Definition get_buf (i : nat) : K buf :=
  o <- gets (fun s => s.(bcache) !! i) ;; deref "buf" o.
Definition get_inode (i : nat) : K inode :=
  o <- gets (fun s => s.(icache) !! i) ;; deref "inode" o.
Definition get_file (i : nat) : K file :=
  o <- gets (fun s => s.(ftable) !! i) ;; deref "file" o.
Definition get_pipe (p : Z) : K pipe :=
  o <- gets (fun s => s.(pipes) !! p) ;; deref "pipe" o.

(** The current process: the C global [proc]. *)
Definition cur : K nat :=
  o <- gets curproc ;; deref "proc" o.

(** * The kernel's data as the boot code leaves it *)

(** bootmain clears .bss, so every global variable starts as zero bytes,
    apart from [nextpid] and [first], which have initializers; the disk
    image [img] is linked into the kernel. *)
Definition zero_cpu : cpu := Mkcpu false 0 false ∅.
Definition zero_proc : proc :=
  Mkproc 0 0 0 UNUSED 0 None 0 0 None false (replicate NOFILE None) None (replicate 16 0).
Definition zero_buf : buf := Mkbuf 0 0 0 0 0 (replicate (Z.to_nat BSIZE) 0).
Definition zero_log : log := Mklog 0 0 false 0 0 (replicate (Z.to_nat LOGSIZE) 0).
Definition zero_inode : inode := Mkinode 0 0 0 0 0 0 0 0 0 (replicate 13 0).
Definition zero_file : file := Mkfile FD_NONE 0 false false 0 0 0.
Definition zero_pipe : pipe := Mkpipe (replicate 512 0) 0 0 false false.
Definition zero_input : inputbuf := Mkinputbuf (replicate 512 0) 0 0 0.

Definition kstate0 (img : list (list Z)) : kstate :=
  {| kcpu := zero_cpu;
     procs := replicate NPROC zero_proc;
     curproc := None; initproc := None; nextpid := 1; first := true;
     bcache := replicate (S NBUF) zero_buf;
     disk := img; dwrites := [];
     klog := zero_log;
     icache := replicate NINODE zero_inode;
     devsw := replicate (Z.to_nat NDEV) (None, None);
     ftable := replicate NFILE zero_file;
     pipes := ∅; sleeplocks := ∅;
     mem := fun _ => 0; freelist := 0; use_lock := false; ttbr0 := 0;
     ticks := 0; input := zero_input; cons_locking := false; uart_tx := [];
     ubase := 0; vic_base := 0; isrs := replicate 32 None;
     regwrites := []; mode_sp := ∅ |}.
