(* ===== verification/Cstring.v ===== *)
(** Byte memory and the string routines (kernel/string.c). A memory maps
    addresses to bytes; C objects do not wrap around the address space, so
    pointer arithmetic is that of Z. *)
From S2P Require Import Prelude.

Module Cstring.

Definition memory : Type := Z -> Z.

Definition store8 (m : memory) (p v : Z) : memory := fun a => if a =? p then v else m a.

(** A store through a uint pointer: four bytes, little endian *)
Definition store32 (m : memory) (p v : Z) : memory :=
  store8 (store8 (store8 (store8 m p (u8 v)) (p + 1) (u8 (Z.shiftr v 8)))
    (p + 2) (u8 (Z.shiftr v 16))) (p + 3) (u8 (Z.shiftr v 24)).

(** The [n] bytes at [p]. *)
Definition load_bytes (m : memory) (p : Z) (n : nat) : list Z :=
  (fun i => m (p + Z.of_nat i)) <$> seq 0 n.

(** A load through a uint pointer *)
Definition load32 (m : memory) (p : Z) : Z := le_val (load_bytes m p 4).

(** ** memset *)

(* for (; (n > 0) && ((uint)p % 4); n--, p++) *)
Fixpoint set_head (n : nat) (p c : Z) (m : memory) : nat * Z * memory :=
  match n with
  | O => (O, p, m)
  | S n' => if p mod 4 =? 0 then (n, p, m) else set_head n' (p + 1) c (store8 m p c)
  end.

(* for (; n >= 4; n -= 4, p4++) *)
Fixpoint set_words (n : nat) (p val : Z) (m : memory) : nat * Z * memory :=
  match n with
  | S (S (S (S n'))) => set_words n' (p + 4) val (store32 m p val)
  | _ => (n, p, m)
  end.

(* for (; n > 0; n--, p++) *)
Fixpoint set_tail (n : nat) (p c : Z) (m : memory) : memory :=
  match n with
  | O => m
  | S n' => set_tail n' (p + 1) c (store8 m p c)
  end.

Definition memset (dst v n : Z) (m : memory) : memory :=
  let c := Z.land v 255 in
  let val := u32 (Z.lor (Z.lor (Z.lor (Z.shiftl c 24) (Z.shiftl c 16)) (Z.shiftl c 8)) c) in
  let '(n1, p1, m1) := set_head (Z.to_nat (u32 n)) dst c m in
  let '(n2, p2, m2) := set_words n1 p1 val m1 in
  set_tail n2 p2 c m2.

(** ** memcmp, memmove *)

Fixpoint memcmp_n (n : nat) (s1 s2 : Z) (m : memory) : Z :=
  match n with
  | O => 0
  | S n' => if m s1 =? m s2 then memcmp_n n' (s1 + 1) (s2 + 1) m else m s1 - m s2
  end.
Definition memcmp (v1 v2 n : Z) (m : memory) : Z := memcmp_n (Z.to_nat (u32 n)) v1 v2 m.

(* while (n-- > 0) *--d = *--s; *)
Fixpoint copy_down (n : nat) (d s : Z) (m : memory) : memory :=
  match n with
  | O => m
  | S n' => copy_down n' (d - 1) (s - 1) (store8 m (d - 1) (m (s - 1)))
  end.

(* while (n-- > 0) *d++ = *s++; *)
Fixpoint copy_up (n : nat) (d s : Z) (m : memory) : memory :=
  match n with
  | O => m
  | S n' => copy_up n' (d + 1) (s + 1) (store8 m d (m s))
  end.

Definition memmove (dst src n : Z) (m : memory) : memory :=
  let k := Z.to_nat (u32 n) in
  if (src <? dst) && (dst <? src + u32 n)
  then copy_down k (dst + u32 n) (src + u32 n) m
  else copy_up k dst src m.

Definition memcpy (dst src n : Z) (m : memory) : memory := memmove dst src n m.

(** ** Strings *)

Fixpoint strncmp_n (n : nat) (p q : Z) (m : memory) : Z :=
  match n with
  | O => 0
  | S n' =>
      if negb (m p =? 0) && (m p =? m q) then strncmp_n n' (p + 1) (q + 1) m
      else u8 (m p) - u8 (m q)
  end.
Definition strncmp (p q n : Z) (m : memory) : Z := strncmp_n (Z.to_nat (u32 n)) p q m.

(* while (n-- > 0) *s++ = 0; *)
Fixpoint pad (n : nat) (s : Z) (m : memory) : memory :=
  match n with
  | O => m
  | S n' => pad n' (s + 1) (store8 m s 0)
  end.

(* the copying loop, then the padding loop *)
Fixpoint strncpy_n (n : nat) (s t : Z) (m : memory) : memory :=
  match n with
  | O => m
  | S n' =>
      let c := m t in
      let m' := store8 m s c in
      if c =? 0 then pad n' (s + 1) m' else strncpy_n n' (s + 1) (t + 1) m'
  end.
Definition strncpy (s t n : Z) (m : memory) : memory := strncpy_n (Z.to_nat n) s t m.

(* the loop on --n with k = n - 1 left, then the final NUL *)
Fixpoint safestrcpy_k (k : nat) (s t : Z) (m : memory) : memory :=
  match k with
  | O => store8 m s 0
  | S k' =>
      let c := m t in
      let m' := store8 m s c in
      if c =? 0 then store8 m' (s + 1) 0 else safestrcpy_k k' (s + 1) (t + 1) m'
  end.
Definition safestrcpy (s t n : Z) (m : memory) : memory :=
  if n <=? 0 then m else safestrcpy_k (Z.to_nat n - 1) s t m.

(* for (n = 0; s[n]; n++): the fuel bounds the search for the NUL *)
Fixpoint strlen_from (fuel : nat) (n s : Z) (m : memory) : option Z :=
  match fuel with
  | O => None
  | S f => if m (s + n) =? 0 then Some n else strlen_from f (n + 1) s m
  end.
Definition strlen (fuel : nat) (s : Z) (m : memory) : option Z := strlen_from fuel 0 s m.

(** ** Memory as a whole *)

(** [filled]: a range holds one byte; [moved]: a range holds what another
    range held. *)
Definition filled (dst n c : Z) (m : memory) : memory :=
  fun a => if (dst <=? a) && (a <? dst + n) then c else m a.
Definition moved (dst src n : Z) (m : memory) : memory :=
  fun a => if (dst <=? a) && (a <? dst + n) then m (src + (a - dst)) else m a.

Definition mem_eq (m m' : memory) : Prop := forall a, m a = m' a.

#[export] Instance mem_eq_equiv : Equivalence mem_eq.
Proof.
  split.
  - by intros m a.
  - intros m m' H a. by rewrite H.
  - intros m m' m'' H H' a. by rewrite H, H'.
Qed.

#[export] Instance store8_proper : Proper (mem_eq ==> eq ==> eq ==> mem_eq) store8.
Proof. intros m m' H p ? <- v ? <- a. unfold store8. destruct (a =? p); [done|]. apply H. Qed.

#[export] Instance filled_proper : Proper (eq ==> eq ==> eq ==> mem_eq ==> mem_eq) filled.
Proof. intros d ? <- n ? <- c ? <- m m' H a. unfold filled. by rewrite H. Qed.

#[export] Instance set_tail_proper : Proper (eq ==> eq ==> eq ==> mem_eq ==> mem_eq) set_tail.
Proof.
  intros n ? <- p ? <- c ? <- m m' H. revert p m m' H. induction n as [|n IH]; intros p m m' H; simpl; [done|].
  apply IH. by rewrite H.
Qed.

(** Case analysis on the comparisons in a memory. *)
Ltac mem_cases :=
  repeat match goal with
  | |- context [?a =? ?b] => destruct (Z.eqb_spec a b); simpl
  | |- context [?a <=? ?b] => destruct (Z.leb_spec a b); simpl
  | |- context [?a <? ?b] => destruct (Z.ltb_spec a b); simpl
  end; try done; try lia.

Lemma filled_0 dst c m : mem_eq (filled dst 0 c m) m.
Proof. intros a. unfold filled. mem_cases. Qed.

Lemma filled_cons dst n c m : 0 <= n ->
  mem_eq (filled (dst + 1) n c (store8 m dst c)) (filled dst (n + 1) c m).
Proof. intros Hn a. unfold filled, store8. mem_cases. Qed.

Lemma filled_app dst n k c m : 0 <= n -> 0 <= k ->
  mem_eq (filled (dst + n) k c (filled dst n c m)) (filled dst (n + k) c m).
Proof. intros Hn Hk a. unfold filled. mem_cases. Qed.

Lemma set_tail_filled n p c m : mem_eq (set_tail n p c m) (filled p (Z.of_nat n) c m).
Proof.
  revert p m. induction n as [|n IH]; intros p m; simpl; [by rewrite filled_0|].
  rewrite IH, filled_cons by lia. by replace (Z.of_nat n + 1) with (Z.of_nat (S n)) by lia.
Qed.

Lemma set_head_filled n p c m :
  let '(n1, p1, m1) := set_head n p c m in
  exists k, n = (k + n1)%nat /\ p1 = p + Z.of_nat k /\ mem_eq m1 (filled p (Z.of_nat k) c m).
Proof.
  revert p m. induction n as [|n IH]; intros p m; simpl.
  { exists 0%nat. split_and!; [done|lia|]. by rewrite filled_0. }
  destruct (p mod 4 =? 0).
  - exists 0%nat. split_and!; [done|lia|]. by rewrite filled_0.
  - specialize (IH (p + 1) (store8 m p c)). destruct (set_head n (p + 1) c _) as [[n1 p1] m1].
    destruct IH as (k & -> & -> & Hm). exists (S k). split_and!; [done|lia|].
    rewrite Hm, filled_cons by lia. by replace (Z.of_nat k + 1) with (Z.of_nat (S k)) by lia.
Qed.

(** The word of four equal bytes. *)
Definition word_of (c : Z) : Z :=
  u32 (Z.lor (Z.lor (Z.lor (Z.shiftl c 24) (Z.shiftl c 16)) (Z.shiftl c 8)) c).

Definition word_ok (c : Z) : bool :=
  let v := word_of c in
  (u8 v =? c) && (u8 (Z.shiftr v 8) =? c) && (u8 (Z.shiftr v 16) =? c) && (u8 (Z.shiftr v 24) =? c).

Lemma word_ok_all : forallb word_ok (Z.of_nat <$> seq 0 256) = true.
Proof. vm_compute. reflexivity. Qed.

Lemma word_of_bytes c : 0 <= c < 256 ->
  u8 (word_of c) = c /\ u8 (Z.shiftr (word_of c) 8) = c /\
  u8 (Z.shiftr (word_of c) 16) = c /\ u8 (Z.shiftr (word_of c) 24) = c.
Proof.
  intros Hc. assert (word_ok c = true) as H.
  { pose proof word_ok_all as H. rewrite forallb_forall in H. apply H.
    rewrite <- list_elem_of_In. apply list_elem_of_fmap. exists (Z.to_nat c). split; [lia|].
    apply elem_of_seq. lia. }
  unfold word_ok in H. rewrite !andb_true_iff, !Z.eqb_eq in H. tauto.
Qed.

Lemma set_words_filled c m : 0 <= c < 256 -> forall n p,
  let '(n1, p1, m1) := set_words n p (word_of c) m in
  exists k, n = (k + n1)%nat /\ p1 = p + Z.of_nat k /\ mem_eq m1 (filled p (Z.of_nat k) c m).
Proof.
  intros Hc. destruct (word_of_bytes c Hc) as (E0 & E1 & E2 & E3).
  intros n. revert m. induction n as [n IH] using lt_wf_ind. intros m p.
  destruct n as [|[|[|[|n]]]]; try (exists 0%nat; split_and!; [done|lia|by rewrite filled_0]).
  simpl. specialize (IH n ltac:(lia) (store32 m p (word_of c)) (p + 4)).
  destruct (set_words n (p + 4) (word_of c) _) as [[n1 p1] m1].
  destruct IH as (k & -> & -> & Hm). exists (4 + k)%nat. split_and!; [done|lia|].
  intros a. rewrite Hm. unfold filled, store32, store8. rewrite E0, E1, E2, E3. mem_cases.
Qed.

Lemma land_255 v : 0 <= Z.land v 255 < 256 /\ Z.land v 255 = v mod 256.
Proof.
  assert (Z.land v 255 = v mod 256) as E by (change 255 with (Z.ones 8); by rewrite Z.land_ones).
  rewrite E. split; [apply Z.mod_pos_bound; lia|done].
Qed.

(** The three loops together. *)
Lemma memset_filled dst v n m :
  mem_eq (memset dst v n m) (filled dst (n mod 2 ^ 32) (v mod 256) m).
Proof.
  unfold memset. fold (word_of (Z.land v 255)). destruct (land_255 v) as [Hc Ec].
  set (c := Z.land v 255) in *. rewrite <- Ec. unfold u32.
  assert (0 <= n mod 2 ^ 32) as Hn by (apply Z.mod_pos_bound; lia).
  pose proof (set_head_filled (Z.to_nat (n mod 2 ^ 32)) dst c m) as H1.
  destruct (set_head _ dst c m) as [[n1 p1] m1]. destruct H1 as (k1 & E1 & -> & Hm1).
  pose proof (set_words_filled c m1 Hc n1 (dst + Z.of_nat k1)) as H2.
  destruct (set_words n1 _ _ m1) as [[n2 p2] m2]. destruct H2 as (k2 & -> & -> & Hm2).
  rewrite set_tail_filled, Hm2, Hm1, !filled_app by lia.
  by replace (Z.of_nat k1 + (Z.of_nat k2 + Z.of_nat n2)) with (n mod 2 ^ 32) by lia.
Qed.

(** Memset, with its unaligned head, its word loop and its tail, sets the
    [n] bytes at [dst] to the low byte of [v] and nothing else, for every
    alignment and length. *)
Theorem memset_correct dst v n m a :
  memset dst v n m a = if (dst <=? a) && (a <? dst + n mod 2 ^ 32) then v mod 256 else m a.
Proof. apply memset_filled. Qed.

Lemma copy_up_moved n : forall d s m, d <= s \/ s + Z.of_nat n <= d ->
  mem_eq (copy_up n d s m) (moved d s (Z.of_nat n) m).
Proof.
  induction n as [|n IH]; intros d s m Hd; simpl.
  - intros a. unfold moved. mem_cases.
  - intros a. rewrite IH by lia. unfold moved, store8. mem_cases; f_equal; lia.
Qed.

Lemma copy_down_moved n : forall d s m, s <= d ->
  mem_eq (copy_down n (d + Z.of_nat n) (s + Z.of_nat n) m) (moved d s (Z.of_nat n) m).
Proof.
  induction n as [|n IH]; intros d s m Hd.
  - intros a. simpl. unfold moved. mem_cases.
  - intros a. simpl copy_down.
    replace (d + Z.of_nat (S n) - 1) with (d + Z.of_nat n) by lia.
    replace (s + Z.of_nat (S n) - 1) with (s + Z.of_nat n) by lia.
    rewrite IH by done. unfold moved, store8. mem_cases; f_equal; lia.
Qed.

(** Either direction of copying. *)
Lemma memmove_moved dst src n m :
  mem_eq (memmove dst src n m) (moved dst src (n mod 2 ^ 32) m).
Proof.
  unfold memmove, u32. assert (0 <= n mod 2 ^ 32) as Hn by (apply Z.mod_pos_bound; lia).
  generalize dependent (n mod 2 ^ 32). intros k Hk.
  assert (exists j, k = Z.of_nat j) as [j ->] by (exists (Z.to_nat k); lia). rewrite Nat2Z.id.
  destruct (Z.ltb_spec src dst), (Z.ltb_spec dst (src + Z.of_nat j)); simpl.
  - apply copy_down_moved. lia.
  - apply copy_up_moved. lia.
  - apply copy_up_moved. lia.
  - apply copy_up_moved. lia.
Qed.

(** Memmove copies correctly however source and destination overlap: the
    destination holds what the source held before the call, and no other byte
    changes. *)
Theorem memmove_correct dst src n m a :
  memmove dst src n m a = if (dst <=? a) && (a <? dst + n mod 2 ^ 32) then m (src + (a - dst)) else m a.
Proof. apply memmove_moved. Qed.

(** Strncpy writes exactly [n] bytes: the source up to its NUL or for [n]
    bytes, then zeros; when the destination does not overlap the source. *)
Theorem strncpy_correct s t n m k :
  s + n <= t \/ t + n <= s -> 0 <= k ->
  (forall i, 0 <= i < k -> m (t + i) <> 0) -> (k < n -> m (t + k) = 0) ->
  forall a, strncpy s t n m a =
    if (s <=? a) && (a <? s + n) then if a - s <? k then m (t + (a - s)) else 0 else m a.
Proof.
  intros Hd Hk Hnz Hz a. unfold strncpy. destruct (Z.leb_spec n 0) as [Hn|Hn].
  { replace (Z.to_nat n) with O by lia. simpl. mem_cases. }
  remember (Z.to_nat n) as j eqn:Ej. replace n with (Z.of_nat j) in * by lia. clear n Ej Hn.
  revert s t m k Hd Hk Hnz Hz. induction j as [|j IH]; intros s t m k Hd Hk Hnz Hz; simpl; [mem_cases|].
  assert (Hpad : forall j s m, pad j s m a = filled s (Z.of_nat j) 0 m a).
  { clear. induction j as [|j IH]; intros s m; cbn [pad].
    - unfold filled. mem_cases.
    - rewrite IH. unfold filled, store8. mem_cases. }
  destruct (Z.eqb_spec (m t) 0) as [E|E].
  - assert (k = 0) as ->.
    { destruct (decide (k = 0)); [done|]. exfalso. apply (Hnz 0); [lia|]. by rewrite Z.add_0_r. }
    rewrite Hpad. unfold filled, store8. mem_cases.
  - assert (0 < k).
    { destruct (decide (k = 0)) as [->|]; [|lia]. exfalso. apply E. rewrite <- Hz by lia. f_equal. lia. }
    rewrite (IH (s + 1) (t + 1) (store8 m s (m t)) (k - 1)); [|lia|lia| |].
    + unfold store8. mem_cases; f_equal; lia.
    + intros i Hi. unfold store8. destruct (Z.eqb_spec (t + 1 + i) s); [lia|].
      replace (t + 1 + i) with (t + (i + 1)) by lia. apply Hnz. lia.
    + intros Hlt. unfold store8. destruct (Z.eqb_spec (t + 1 + (k - 1)) s); [lia|].
      replace (t + 1 + (k - 1)) with (t + k) by lia. apply Hz. lia.
Qed.

Definition demo_hi : memory := fun a => if a =? 100 then 104 else if a =? 101 then 105 else 0.

Lemma strncpy_correct_witness :
  (demo_hi 102 = 0) /\ forall a, strncpy 0 100 4 demo_hi a =
    if (0 <=? a) && (a <? 0 + 4) then if a - 0 <? 2 then demo_hi (100 + (a - 0)) else 0 else demo_hi a.
Proof.
  split; [done|]. apply (strncpy_correct 0 100 4 demo_hi 2); [lia|lia| |done].
  intros i Hi. assert (i = 0 \/ i = 1) as [->| ->] by lia; done.
Defined.

(** The string of at most [n] bytes at [p], without its NUL. *)
Fixpoint cstr (n : nat) (p : Z) (m : memory) : list Z :=
  match n with
  | O => []
  | S n' => if m p =? 0 then [] else m p :: cstr n' (p + 1) m
  end.

(** Safestrcpy leaves in its [n]-byte buffer the longest prefix of the
    source that fits together with a terminating NUL, and writes nothing
    outside the buffer. *)
Theorem safestrcpy_correct s t n m :
  0 < n -> s + n <= t \/ t + n <= s ->
  (forall a, (a < s \/ s + n <= a) -> safestrcpy s t n m a = m a) /\
  cstr (Z.to_nat n) s (safestrcpy s t n m) = cstr (Z.to_nat n - 1) t m.
Proof.
  intros Hn Hd. unfold safestrcpy. rewrite (proj2 (Z.leb_gt _ _)) by done.
  remember (Z.to_nat n - 1)%nat as k eqn:Ek.
  replace (Z.to_nat n) with (S k) by lia. replace n with (Z.of_nat k + 1) in * by lia. clear Ek Hn n.
  revert s t m Hd. induction k as [|k IH]; intros s t m Hd.
  { simpl. split; [intros a Ha; unfold store8; mem_cases|]. unfold store8. by rewrite Z.eqb_refl. }
  cbn [safestrcpy_k]. destruct (Z.eqb_spec (m t) 0) as [E|E].
  { split; [intros a Ha; unfold store8; mem_cases|].
    simpl. rewrite E. simpl. unfold store8. by rewrite (proj2 (Z.eqb_neq s (s + 1))), Z.eqb_refl by lia. }
  destruct (IH (s + 1) (t + 1) (store8 m s (m t))) as [Ho Hs]; [lia|].
  assert (Hext : forall j p m m', (forall i, p <= i < p + Z.of_nat j -> m i = m' i) -> cstr j p m = cstr j p m').
  { clear. induction j as [|j IH]; intros p m m' H; simpl; [done|]. rewrite (H p) by lia.
    destruct (m' p =? 0); [done|]. f_equal. apply IH. intros i Hi. apply H. lia. }
  split.
  - intros a Ha. rewrite Ho by lia. unfold store8. mem_cases.
  - assert (Hhead : safestrcpy_k k (s + 1) (t + 1) (store8 m s (m t)) s = m t).
    { rewrite Ho by lia. unfold store8. by rewrite Z.eqb_refl. }
    change (cstr (S k) t m) with (if m t =? 0 then [] else m t :: cstr k (t + 1) m).
    rewrite (proj2 (Z.eqb_neq _ _) E).
    change (cstr (S (S k)) s ?f) with (if f s =? 0 then [] else f s :: cstr (S k) (s + 1) f).
    rewrite Hhead, (proj2 (Z.eqb_neq _ _) E), Hs. f_equal.
    apply Hext. intros i Hi. unfold store8. mem_cases.
Qed.

Definition demo_long : memory := fun a => if (100 <=? a) && (a <? 109) then a - 20 else 0.

Lemma safestrcpy_correct_witness :
  (forall a, (a < 0 \/ 0 + 4 <= a) -> safestrcpy 0 100 4 demo_long a = demo_long a) /\
  cstr (Z.to_nat 4) 0 (safestrcpy 0 100 4 demo_long) = [80; 81; 82].
Proof. apply (safestrcpy_correct 0 100 4 demo_long); lia. Defined.

(** Strncmp is the equality test of names: it returns zero exactly when
    the two strings agree on their first [n] bytes. *)
Theorem strncmp_equal p q n m :
  (forall a, 0 <= m a < 256) ->
  strncmp p q n m = 0 <-> cstr (Z.to_nat (u32 n)) p m = cstr (Z.to_nat (u32 n)) q m.
Proof.
  intros Hm. unfold strncmp. generalize (Z.to_nat (u32 n)). intros j.
  assert (Hu : forall a, u8 (m a) = m a) by (intros a; unfold u8; apply Z.mod_small, Hm).
  revert p q. induction j as [|j IH]; intros p q; simpl; [done|].
  rewrite !Hu. destruct (Z.eqb_spec (m p) 0) as [E|E]; simpl.
  - rewrite E. destruct (Z.eqb_spec (m q) 0) as [E'|E']; split; (done || lia).
  - destruct (Z.eqb_spec (m p) (m q)) as [E'|E']; simpl.
    + rewrite IH. rewrite E' in *. rewrite (proj2 (Z.eqb_neq _ _) E). split; [by intros ->|by intros [=]].
    + split; [lia|]. destruct (m q =? 0); [done|]. intros [= ? _]. lia.
Qed.

Definition demo_two : memory := fun a => if (a =? 10) || (a =? 20) then 97 else if a =? 11 then 98 else 0.

Lemma strncmp_equal_witness : strncmp 10 20 14 demo_two = 0 <-> [97; 98] = [97].
Proof.
  apply (strncmp_equal 10 20 14 demo_two). intros a. unfold demo_two.
  destruct (_ || _); [lia|]. destruct (_ =? _); lia.
Defined.

(** The search of strlen ends at the first NUL. *)
Lemma strlen_first s m k fuel :
  0 <= k < Z.of_nat fuel -> (forall i, 0 <= i < k -> m (s + i) <> 0) -> m (s + k) = 0 ->
  strlen fuel s m = Some k.
Proof.
  intros Hk Hnz Hz. unfold strlen.
  assert (H : forall n, 0 <= n <= k -> k - n < Z.of_nat fuel -> strlen_from fuel n s m = Some k); [|by apply H; lia].
  clear Hk. induction fuel as [|f IH]; intros n Hn Hf; simpl; [lia|].
  destruct (decide (n = k)) as [->|Hne]; [by rewrite Hz|].
  rewrite (proj2 (Z.eqb_neq _ _)) by (apply Hnz; lia). apply IH; lia.
Qed.

(** ** Words in memory *)

Lemma load32_bytes m p :
  load32 m p = m p + 256 * (m (p + 1) + 256 * (m (p + 2) + 256 * m (p + 3))).
Proof.
  unfold load32, load_bytes. cbn [seq fmap list_fmap le_val]. rewrite Z.add_0_r. change (Z.of_nat 1) with 1. change (Z.of_nat 2) with 2.
  change (Z.of_nat 3) with 3. lia.
Qed.

Lemma u8_shiftr v k : 0 <= k -> u8 (Z.shiftr v k) = (v / 2 ^ k) mod 256.
Proof. intros Hk. unfold u8. by rewrite Z.shiftr_div_pow2. Qed.

Lemma load_store32 m p v : 0 <= v < 2 ^ 32 -> load32 (store32 m p v) p = v.
Proof.
  intros Hv. rewrite load32_bytes. unfold store32, store8. rewrite !u8_shiftr by lia. unfold u8.
  repeat match goal with |- context [?a =? ?b] => destruct (Z.eqb_spec a b); [try (exfalso; lia)|try (exfalso; lia)] end.
  change (2 ^ 8) with 256. change (2 ^ 16) with 65536. change (2 ^ 24) with 16777216.
  change (2 ^ 32) with 4294967296 in Hv. Z.div_mod_to_equations. lia.
Qed.

Lemma load32_other m m' p : (forall i, 0 <= i < 4 -> m' (p + i) = m (p + i)) -> load32 m' p = load32 m p.
Proof.
  intros H. rewrite !load32_bytes. rewrite <- (Z.add_0_r p) at 1 5.
  rewrite (H 0), (H 1), (H 2), (H 3) by lia. done.
Qed.

Lemma store32_other m p v a : a < p \/ p + 4 <= a -> store32 m p v a = m a.
Proof. intros H. unfold store32, store8. repeat (rewrite (proj2 (Z.eqb_neq _ _)) by lia). done. Qed.

Lemma load_store32_other m a b v : b + 4 <= a \/ a + 4 <= b -> load32 (store32 m b v) a = load32 m a.
Proof. intros Hab. apply load32_other. intros i Hi. apply store32_other. lia. Qed.

Lemma store32_zero m p a : p <= a < p + 4 -> store32 m p 0 a = 0.
Proof.
  intros Ha. unfold store32, store8. repeat match goal with |- context [?x =? ?y] => destruct (Z.eqb_spec x y); [done|] end. lia.
Qed.

End Cstring.
