(* ===== verification/Spinlock.v ===== *)
(** Spinlocks (kernel/spinlock.c) with the interrupt-mask helpers of
    include/arm.h they are built on. *)
From S2P Require Import Prelude Types.

Module Spinlock.

(** ** Interrupt mask (include/arm.h) *)

(* cli(): set the I bit of the CPSR *)
Definition cli : K unit := modify (upd_cpu (set_int_enabled false)).
(* sti(): clear the I bit of the CPSR *)
Definition sti : K unit := modify (upd_cpu (set_int_enabled true)).
Definition is_int : K bool := gets (fun s => s.(kcpu).(int_enabled)).

(** ** pushcli / popcli *)

Definition pushcli : K unit :=
  cli ;;;
  n <- gets (fun s => s.(kcpu).(ncli)) ;;
  when (n =? 0)
    (b <- is_int ;; modify (upd_cpu (set_intena b))) ;;;
  modify (upd_cpu (fun c => set_ncli (c.(ncli) + 1) c)).

(* without the line printed before the second panic, which takes the console's
   lock and so comes back here *)
Definition popcli : K unit :=
  b <- is_int ;;
  if b then panic "popcli - interruptible" else
  modify (upd_cpu (fun c => set_ncli (c.(ncli) - 1) c)) ;;;
  n <- gets (fun s => s.(kcpu).(ncli)) ;;
  if n <? 0 then panic "popcli -- ncli < 0" else
  en <- gets (fun s => s.(kcpu).(intena)) ;;
  when ((n =? 0) && en) sti.

(** ** Locks *)

Definition initlock (lk : lock) : K unit :=
  modify (upd_cpu (fun c => set_held (c.(held) ∖ {[lk]}) c)).

(* the MULTICORE == 0 branch: r = lock->locked *)
Definition holding (lk : lock) : K bool :=
  pushcli ;;;
  r <- gets (fun s => bool_decide (lk ∈ s.(kcpu).(held))) ;;
  popcli ;;;
  ret r.

(* xchg(&lk->locked, 1): sets the word, returns its old value *)
Definition xchg_locked (lk : lock) : K bool :=
  old <- gets (fun s => bool_decide (lk ∈ s.(kcpu).(held))) ;;
  modify (upd_cpu (fun c => set_held ({[lk]} ∪ c.(held)) c)) ;;;
  ret old.

(* while (xchg(&lk->locked, 1) != 0);  -- with interrupts masked on the
   only processor nothing can release the lock while it spins *)
Definition spin (lk : lock) : K unit :=
  old <- xchg_locked lk ;;
  if old then fail Blocked else ret tt.

Definition acquire (lk : lock) : K unit :=
  pushcli ;;;
  h <- holding lk ;;
  if h then panic "acquire" else
  spin lk.

Definition release (lk : lock) : K unit :=
  h <- holding lk ;;
  if negb h then panic "release" else
  modify (upd_cpu (fun c => set_held (c.(held) ∖ {[lk]}) c)) ;;;
  popcli.

(** ** Effect on the processor state *)

(** [pushed], [popped]: what [pushcli] and [popcli] do to the processor. *)
Definition pushed (c : cpu) : cpu :=
  Mkcpu false (c.(ncli) + 1) (if c.(ncli) =? 0 then false else c.(intena)) c.(held).
Definition popped (c : cpu) : cpu :=
  Mkcpu ((c.(ncli) - 1 =? 0) && c.(intena)) (c.(ncli) - 1) c.(intena) c.(held).

(** The processor state with [lk] taken. *)
Definition acquired (lk : lock) (c : cpu) : cpu :=
  set_held ({[lk]} ∪ c.(held)) (pushed c).
Definition released (lk : lock) (c : cpu) : cpu :=
  popped (set_held (c.(held) ∖ {[lk]}) (popped (pushed c))).

Lemma set_kcpu_id (s : kstate) (c : cpu) : c = s.(kcpu) -> set_kcpu c s = s.
Proof. intros ->. by destruct s. Qed.

Lemma cpu_ext (c d : cpu) :
  c.(int_enabled) = d.(int_enabled) -> c.(ncli) = d.(ncli) ->
  c.(intena) = d.(intena) -> c.(held) = d.(held) -> c = d.
Proof. destruct c, d; simpl; congruence. Qed.

Lemma pushcli_eq s env : pushcli s env = Ok tt (upd_cpu pushed s) env.
Proof.
  unfold pushcli, cli, is_int, bind. msimpl. unfold upd_cpu, pushed.
  by destruct (ncli (kcpu s) =? 0).
Qed.

Lemma popcli_eq s env :
  s.(kcpu).(int_enabled) = false -> 0 < s.(kcpu).(ncli) ->
  popcli s env = Ok tt (upd_cpu popped s) env.
Proof.
  intros Hi Hn. unfold popcli, sti, is_int, bind. msimpl. rewrite Hi. simpl.
  rewrite (proj2 (Z.ltb_ge (ncli (kcpu s) - 1) 0)) by lia.
  unfold upd_cpu, popped, set_ncli. simpl.
  destruct ((ncli (kcpu s) - 1 =? 0) && intena (kcpu s)); simpl; [done|].
  by rewrite Hi.
Qed.

Lemma holding_eq lk s env :
  0 <= s.(kcpu).(ncli) ->
  holding lk s env =
    Ok (bool_decide (lk ∈ s.(kcpu).(held))) (upd_cpu (popped ∘ pushed) s) env.
Proof.
  intros Hn. unfold holding. mstep (pushcli_eq s env).
  unfold gets. erewrite bind_ok by reflexivity.
  rewrite (bind_ok _ _ _ _ _ _ _ (popcli_eq (upd_cpu pushed s) env eq_refl ltac:(simpl; lia))).
  done.
Qed.

Lemma popped_pushed c : 0 <= c.(ncli) ->
  popped (pushed c) = Mkcpu false c.(ncli) (if c.(ncli) =? 0 then false else c.(intena)) c.(held).
Proof.
  intros Hn. apply cpu_ext; simpl; try lia; try done.
  destruct (Z.eqb_spec c.(ncli) 0) as [->|]; [done|].
  by rewrite (proj2 (Z.eqb_neq _ _)) by lia.
Qed.

Lemma acquire_eq lk s env :
  0 <= s.(kcpu).(ncli) ->
  acquire lk s env =
    if bool_decide (lk ∈ s.(kcpu).(held))
    then Err (Panic "acquire") (upd_cpu pushed s) env
    else Ok tt (upd_cpu (acquired lk) s) env.
Proof.
  intros Hn. unfold acquire. mstep (pushcli_eq s env).
  rewrite (bind_ok _ _ _ _ _ _ _ (holding_eq lk (upd_cpu pushed s) env ltac:(simpl; lia))).
  assert (popped (pushed (pushed (kcpu s))) = pushed (kcpu s)) as Hpp.
  { rewrite popped_pushed by (simpl; lia). apply cpu_ext; simpl; try done.
    by rewrite (proj2 (Z.eqb_neq (_ + 1) 0)) by lia. }
  replace (upd_cpu (popped ∘ pushed) (upd_cpu pushed s)) with (upd_cpu pushed s)
    by (unfold upd_cpu; simpl; by rewrite Hpp).
  change (held (kcpu (upd_cpu pushed s))) with (held (kcpu s)).
  destruct (bool_decide (lk ∈ held (kcpu s))) eqn:Hh; [done|].
  unfold spin, xchg_locked, bind. msimpl. rewrite Hh. done.
Qed.

Lemma release_eq lk s env :
  0 < s.(kcpu).(ncli) ->
  release lk s env =
    if bool_decide (lk ∈ s.(kcpu).(held))
    then Ok tt (upd_cpu (released lk) s) env
    else Err (Panic "release") (upd_cpu (popped ∘ pushed) s) env.
Proof.
  intros Hn. unfold release.
  rewrite (bind_ok _ _ _ _ _ _ _ (holding_eq lk s env ltac:(lia))).
  destruct (bool_decide (lk ∈ held (kcpu s))) eqn:Hh; simpl; [|done].
  unfold modify. erewrite bind_ok by reflexivity.
  rewrite popcli_eq; [done| |]; unfold upd_cpu; simpl; [|lia].
  destruct (Z.eqb_spec (ncli (kcpu s)) 0); [lia|].
  by rewrite (proj2 (Z.eqb_neq _ _)) by lia.
Qed.

(** ** The state in which kernel code runs *)

(** Kernel code runs with interrupts masked (the processor masks them on
    every exception) and with [intena] clear. *)
Definition quiet (s : kstate) : Prop :=
  s.(kcpu).(int_enabled) = false /\ s.(kcpu).(intena) = false /\ 0 <= s.(kcpu).(ncli).

(** The state with [lk] taken. *)
Definition with_lock (lk : lock) (s : kstate) : kstate :=
  upd_cpu (fun c => Mkcpu false (c.(ncli) + 1) false ({[lk]} ∪ c.(held))) s.

(** The state with [lk] given up. *)
Definition without_lock (lk : lock) (s : kstate) : kstate :=
  upd_cpu (fun c => Mkcpu false (c.(ncli) - 1) false (c.(held) ∖ {[lk]})) s.

Lemma quiet_with_lock lk s : quiet s -> quiet (with_lock lk s).
Proof. intros (?&?&?). split_and!; simpl; [done|done|lia]. Qed.

Lemma acquire_quiet lk s env :
  quiet s -> lk ∉ s.(kcpu).(held) ->
  acquire lk s env = Ok tt (with_lock lk s) env.
Proof.
  intros (Hi & He & Hn) Hl. rewrite acquire_eq by done.
  rewrite bool_decide_eq_false_2 by done.
  unfold with_lock, upd_cpu, acquired, pushed. rewrite He. simpl.
  by destruct (ncli (kcpu s) =? 0).
Qed.

Lemma release_held lk s env :
  quiet s -> lk ∈ s.(kcpu).(held) -> 0 < s.(kcpu).(ncli) ->
  release lk s env = Ok tt (without_lock lk s) env.
Proof.
  intros (Hi & He & Hn) Hl Hn1. rewrite release_eq by done.
  rewrite bool_decide_eq_true_2 by done.
  do 2 f_equal. unfold without_lock, upd_cpu, released. f_equal.
  rewrite popped_pushed by lia.
  apply cpu_ext; simpl; [| done | | done].
  - rewrite He. destruct (ncli (kcpu s) =? 0); by rewrite andb_false_r.
  - rewrite He. by destruct (ncli (kcpu s) =? 0).
Qed.

(** Releasing undoes acquiring, whatever happened to the rest of the state
    in between. *)
Lemma release_quiet lk s s' env :
  quiet s -> lk ∉ s.(kcpu).(held) -> s'.(kcpu) = (with_lock lk s).(kcpu) ->
  release lk s' env = Ok tt (set_kcpu s.(kcpu) s') env.
Proof.
  intros (Hi & He & Hn) Hl Hc. rewrite release_held.
  - do 2 f_equal. unfold without_lock, upd_cpu. rewrite Hc. f_equal.
    apply cpu_ext; simpl; [done|lia|done|]. set_solver.
  - unfold quiet. rewrite Hc. simpl. split_and!; [done|done|lia].
  - rewrite Hc. simpl. set_solver.
  - rewrite Hc. simpl. lia.
Qed.

(** ** Theorems *)

(** Lock operations and their sequences. *)
Inductive lock_op : Type := Acq (lk : lock) | Rel (lk : lock).

Definition run_op (o : lock_op) : K unit :=
  match o with Acq lk => acquire lk | Rel lk => release lk end.

Definition run_ops (os : list lock_op) : K unit := mfor os run_op.

(** The nesting depth counts the locks held, and holding one masks
    interrupts. *)
Definition lock_inv (s : kstate) : Prop :=
  s.(kcpu).(ncli) = Z.of_nat (size s.(kcpu).(held)) /\
  (s.(kcpu).(held) <> ∅ -> s.(kcpu).(int_enabled) = false) /\
  s.(kcpu).(intena) = false.

Lemma lock_inv_depth s : lock_inv s -> 0 <= s.(kcpu).(ncli).
Proof. intros (-> & _). lia. Qed.

Lemma acquired_inv lk s :
  lock_inv s -> lk ∉ s.(kcpu).(held) -> lock_inv (upd_cpu (acquired lk) s).
Proof.
  intros (Hn & Hi & He) Hl. unfold lock_inv, acquired, pushed. simpl.
  rewrite He. split_and!; [|done|by destruct (_ =? _)].
  rewrite size_union by set_solver. rewrite size_singleton. lia.
Qed.

Lemma released_inv lk s :
  lock_inv s -> lk ∈ s.(kcpu).(held) -> lock_inv (upd_cpu (released lk) s).
Proof.
  intros Hinv Hl. pose proof Hinv as (Hn & Hi & He). unfold lock_inv, released, upd_cpu.
  cbn [kcpu set_kcpu]. rewrite popped_pushed by (by apply lock_inv_depth). simpl. rewrite He.
  assert (size (held (kcpu s)) = S (size (held (kcpu s) ∖ {[lk]}))) as Hs.
  { rewrite (union_difference_L {[lk]} (held (kcpu s))) at 1 by set_solver.
    rewrite size_union by set_solver. by rewrite size_singleton. }
  split_and!; [lia| |by destruct (_ =? _)].
  intros _. destruct (ncli (kcpu s) =? 0); by rewrite andb_false_r.
Qed.

(** Locking discipline. In every sequence of acquire and release calls
    that does not panic, [ncli] is the number of locks held and interrupts are
    masked while any lock is held; and the locks held at the end are those of
    the start, with the acquired added and the released removed, in order. *)
Theorem lock_sequences os s env s' env' :
  lock_inv s -> run_ops os s env = Ok tt s' env' ->
  lock_inv s' /\ env' = env /\
  s'.(kcpu).(held) =
    foldl (fun h o => match o with Acq lk => {[lk]} ∪ h | Rel lk => h ∖ {[lk]} end) s.(kcpu).(held) os.
Proof.
  unfold run_ops. revert s. induction os as [|o os IH]; intros s Hinv Hrun.
  { simpl in Hrun. unfold ret in Hrun. by simplify_eq. }
  simpl in Hrun. pose proof (lock_inv_depth s Hinv) as Hd. destruct o as [lk|lk]; simpl in Hrun.
  - unfold bind at 1 in Hrun. rewrite acquire_eq in Hrun by done.
    case_bool_decide as Hl; [done|]. simpl.
    apply IH in Hrun as (? & ? & ?); [|by apply acquired_inv]. done.
  - unfold bind at 1 in Hrun.
    assert (0 < ncli (kcpu s) \/ ncli (kcpu s) = 0) as [Hp|Hz] by lia.
    + rewrite release_eq in Hrun by done. case_bool_decide as Hl; [|done]. simpl.
      apply IH in Hrun as (? & ? & Hh); [|by apply released_inv]. done.
    + assert (held (kcpu s) = ∅) as Hem.
      { destruct Hinv as (Hn & _). apply leibniz_equiv, size_empty_iff. lia. }
      unfold release, bind at 1 in Hrun. rewrite holding_eq in Hrun by done.
      rewrite Hem in Hrun. rewrite bool_decide_eq_false_2 in Hrun by set_solver. done.
Qed.

Lemma lock_sequences_witness :
  let os := [Acq log_lock; Acq ptable_lock; Rel log_lock; Acq kmem_lock; Rel ptable_lock] in
  exists s', run_ops os (kstate0 []) [] = Ok tt s' [] /\ lock_inv s' /\
    s'.(kcpu).(held) = {[kmem_lock]}.
Proof.
  intros os. destruct (run_ops os (kstate0 []) []) as [[] s' env'|e s' env'] eqn:Hrun;
    [|vm_compute in Hrun; done].
  assert (lock_inv (kstate0 [])) as Hi by (split_and!; done).
  destruct (lock_sequences os (kstate0 []) [] s' env' Hi Hrun) as (Hi' & -> & Hh).
  exists s'. split_and!; [done|apply Hi'..|]. rewrite Hh. vm_compute. reflexivity.
Defined.

(** Mutual exclusion. [acquire] succeeds exactly when the lock is free,
    and taking a lock that is held, or giving up one that is not, panics. *)
Theorem acquire_exclusive lk s env :
  lock_inv s ->
  (lk ∉ s.(kcpu).(held) ->
     exists s', acquire lk s env = Ok tt s' env /\ lk ∈ s'.(kcpu).(held)) /\
  (lk ∈ s.(kcpu).(held) -> exists s', acquire lk s env = Err (Panic "acquire") s' env) /\
  (lk ∉ s.(kcpu).(held) -> exists s', release lk s env = Err (Panic "release") s' env).
Proof.
  intros Hinv. pose proof (lock_inv_depth s Hinv) as Hd. split_and!; intros Hl.
  - rewrite acquire_eq, bool_decide_eq_false_2 by done. eexists. split; [done|]. simpl. set_solver.
  - rewrite acquire_eq, bool_decide_eq_true_2 by done. by eexists.
  - unfold release, bind at 1. rewrite holding_eq, bool_decide_eq_false_2 by done. by eexists.
Qed.

Lemma acquire_exclusive_witness :
  (log_lock ∉ (kstate0 []).(kcpu).(held) ->
     exists s', acquire log_lock (kstate0 []) [] = Ok tt s' [] /\ log_lock ∈ s'.(kcpu).(held)) /\
  (log_lock ∈ (kstate0 []).(kcpu).(held) ->
     exists s', acquire log_lock (kstate0 []) [] = Err (Panic "acquire") s' []) /\
  (log_lock ∉ (kstate0 []).(kcpu).(held) ->
     exists s', release log_lock (kstate0 []) [] = Err (Panic "release") s' []).
Proof. apply (acquire_exclusive log_lock (kstate0 []) []). split_and!; done. Defined.

(** C30: [pushcli] records the interrupt state after masking it, so a
    critical section entered with interrupts enabled leaves them masked: after
    acquire and release of a free lock from depth zero, interrupts are off,
    whatever they were before. *)
Theorem critical_section_masks lk s env :
  s.(kcpu).(ncli) = 0 -> lk ∉ s.(kcpu).(held) ->
  exists s', (acquire lk ;;; release lk) s env = Ok tt s' env /\
    s'.(kcpu).(int_enabled) = false /\ s'.(kcpu).(intena) = false /\
    s'.(kcpu).(ncli) = 0 /\ s'.(kcpu).(held) = s.(kcpu).(held).
Proof.
  intros Hn Hl. unfold bind. rewrite acquire_eq, bool_decide_eq_false_2 by (done || lia).
  rewrite release_eq by (simpl; lia). rewrite bool_decide_eq_true_2 by (simpl; set_solver).
  eexists. split; [reflexivity|]. unfold released, upd_cpu. cbn [kcpu set_kcpu]. rewrite popped_pushed by (simpl; lia). simpl.
  rewrite Hn. simpl. split_and!; [done|done|done|]. set_solver.
Qed.

Lemma critical_section_masks_witness :
  let s := upd_cpu (set_int_enabled true) (kstate0 []) in
  exists s', (acquire log_lock ;;; release log_lock) s [] = Ok tt s' [] /\
    s'.(kcpu).(int_enabled) = false /\ s'.(kcpu).(intena) = false /\
    s'.(kcpu).(ncli) = 0 /\ s'.(kcpu).(held) = s.(kcpu).(held).
Proof.
  intros s. apply (critical_section_masks log_lock s []); [done|]. simpl. set_solver.
Defined.

End Spinlock.
