(* ===== verification/Sched.v ===== *)
(** Giving up and regaining the processor (kernel/proc.c): sched, yield,
    sleep, wakeup, kill. The context switch [swtch] hands the processor to
    the scheduler and through it to other processes; it is [yield_cpu], the
    next step of the environment. *)
From S2P Require Import Prelude Types Spinlock.
Import Spinlock.

Module Sched.

(* swtch(&proc->context, cpu->scheduler), up to the switch back *)
Definition swtch : K unit := yield_cpu.

Definition sched : K unit :=
  h <- holding ptable_lock ;;
  if negb h then panic "sched ptable.lock" else
  n <- gets (fun s => s.(kcpu).(ncli)) ;;
  if negb (n =? 1) then panic "sched locks" else
  p <- cur ;;
  pr <- get_proc p ;;
  if bool_decide (pr.(state) = RUNNING) then panic "sched running" else
  b <- is_int ;;
  if (b : bool) then panic "sched interruptible" else
  en <- gets (fun s => s.(kcpu).(intena)) ;;
  swtch ;;;
  modify (upd_cpu (set_intena en)).

Definition yield : K unit :=
  acquire ptable_lock ;;;
  p <- cur ;;
  modify (upd_proc p (set_state RUNNABLE)) ;;;
  sched ;;;
  release ptable_lock.

(* a lock of the model is never null, so the check for that is left out *)
Definition sleep (c : channel) (lk : lock) : K unit :=
  o <- gets curproc ;;
  match o with
  | None => panic "sleep"
  | Some p =>
      when (bool_decide (lk <> ptable_lock))
        (acquire ptable_lock ;;; release lk) ;;;
      modify (upd_proc p (set_chan (Some c))) ;;;
      modify (upd_proc p (set_state SLEEPING)) ;;;
      sched ;;;
      p' <- cur ;;
      modify (upd_proc p' (set_chan None)) ;;;
      when (bool_decide (lk <> ptable_lock))
        (release ptable_lock ;;; acquire lk)
  end.

Definition wakeup1 (c : channel) : K unit :=
  mfor (seq 0 NPROC) (fun i =>
    p <- get_proc i ;;
    when (bool_decide (p.(state) = SLEEPING /\ p.(chan) = Some c))
      (modify (upd_proc i (set_state RUNNABLE)))).

Definition wakeup (c : channel) : K unit :=
  acquire ptable_lock ;;;
  wakeup1 c ;;;
  release ptable_lock.

Definition kill (n : Z) : K Z :=
  acquire ptable_lock ;;;
  o <- mfind (seq 0 NPROC) (fun i =>
    p <- get_proc i ;;
    if p.(pid) =? n then
      modify (upd_proc i (set_killed true)) ;;;
      when (bool_decide (p.(state) = SLEEPING))
        (modify (upd_proc i (set_state RUNNABLE))) ;;;
      release ptable_lock ;;;
      ret (Some 0)
    else ret None) ;;
  match o with
  | Some r => ret r
  | None => release ptable_lock ;;; ret (-1)
  end.

(** ** Specification *)

(** Waking one process. *)
Definition wake (c : channel) (p : proc) : proc :=
  if bool_decide (p.(state) = SLEEPING /\ p.(chan) = Some c)
  then set_state RUNNABLE p else p.

Definition woken (c : channel) (s : kstate) : kstate :=
  set_procs (wake c <$> s.(procs)) s.

(** Kernel code that may call [wakeup]: masked interrupts, a full process
    table, and the table's lock free. *)
Definition calm (s : kstate) : Prop :=
  quiet s /\ (ptable_lock ∉ s.(kcpu).(held)) /\ length s.(procs) = NPROC.

Lemma wakeup1_loop c s env pre suf :
  s.(procs) = pre ++ suf ->
  mfor (seq (length pre) (length suf)) (fun i =>
    p <- get_proc i ;;
    when (bool_decide (p.(state) = SLEEPING /\ p.(chan) = Some c))
      (modify (upd_proc i (set_state RUNNABLE)))) s env
  = Ok tt (set_procs (pre ++ (wake c <$> suf)) s) env.
Proof.
  revert s pre. induction suf as [|p suf IH]; intros s pre Hs.
  { simpl. unfold ret. rewrite app_nil_r in *. rewrite <- Hs. by destruct s. }
  assert (Hp : procs s !! length pre = Some p).
  { rewrite Hs. by apply list_lookup_middle. }
  set (s1 := set_procs (pre ++ wake c p :: suf) s).
  assert (Hbody : (p <- get_proc (length pre) ;;
    when (bool_decide (p.(state) = SLEEPING /\ p.(chan) = Some c))
      (modify (upd_proc (length pre) (set_state RUNNABLE)))) s env = Ok tt s1 env).
  { unfold get_proc, bind, gets, deref. rewrite Hp. unfold ret, when.
    unfold s1, wake. case_bool_decide; unfold modify, upd_proc.
    - rewrite Hs. f_equal. unfold set_procs. f_equal.
      clear. induction pre; simpl; [done|by f_equal].
    - rewrite <- Hs. by destruct s. }
  simpl. mstep Hbody.
  specialize (IH s1 (pre ++ [wake c p])). rewrite length_app in IH. simpl in IH.
  rewrite Nat.add_1_r in IH. rewrite IH by (unfold s1; simpl; by rewrite <- app_assoc).
  simpl. by rewrite <- app_assoc.
Qed.

Lemma wakeup1_eq c s env :
  length s.(procs) = NPROC -> wakeup1 c s env = Ok tt (woken c s) env.
Proof.
  intros Hl. unfold wakeup1. rewrite <- Hl.
  apply (wakeup1_loop c s env [] (procs s)). done.
Qed.

Lemma wakeup_eq c s env :
  calm s -> wakeup c s env = Ok tt (woken c s) env.
Proof.
  intros (Hq & Hl & Hn). unfold wakeup. mstep (acquire_quiet ptable_lock s env Hq Hl).
  rewrite (bind_ok _ _ _ _ _ _ _ (wakeup1_eq c (with_lock ptable_lock s) env Hn)).
  rewrite (release_quiet ptable_lock s) by done.
  unfold woken. do 2 f_equal.
Qed.

(** ** sleep *)

(** The state in which [sleep] switches away: the process is marked asleep
    on its channel, the caller's lock is free and only the process table is
    locked. *)
Definition asleep (p : nat) (c : channel) (s : kstate) : kstate :=
  upd_proc p (set_state SLEEPING) (upd_proc p (set_chan (Some c))
    (upd_cpu (fun k => Mkcpu false 1 false {[ptable_lock]}) s)).

Lemma sched_eq p pr s f env :
  s.(kcpu) = Mkcpu false 1 false {[ptable_lock]} ->
  s.(curproc) = Some p -> s.(procs) !! p = Some pr -> pr.(state) <> RUNNING ->
  sched s (f :: env) = Ok tt (upd_cpu (set_intena false) (f s)) env.
Proof.
  intros Hc Hp Hpr Hst. unfold sched.
  rewrite (bind_ok _ _ _ _ _ _ _ (holding_eq ptable_lock s _ ltac:(rewrite Hc; simpl; lia))).
  rewrite Hc. simpl.
  rewrite bool_decide_eq_true_2 by set_solver. simpl.
  replace (upd_cpu (popped ∘ pushed) s) with s
    by (unfold upd_cpu; rewrite Hc; simpl; symmetry; by apply set_kcpu_id).
  unfold gets, cur, get_proc, is_int, bind, deref, ret. rewrite Hc. simpl.
  rewrite Hp, Hpr. rewrite bool_decide_eq_false_2 by done. rewrite Hc. simpl.
  rewrite Hc. done.
Qed.

Lemma sleep_eq p pr c lk s f env :
  s.(kcpu) = Mkcpu false 1 false {[lk]} -> lk <> ptable_lock ->
  s.(curproc) = Some p -> s.(procs) !! p = Some pr ->
  (f (asleep p c s)).(kcpu) = (asleep p c s).(kcpu) ->
  (f (asleep p c s)).(curproc) = Some p ->
  sleep c lk s (f :: env) =
    Ok tt (set_kcpu s.(kcpu) (upd_proc p (set_chan None) (f (asleep p c s)))) env.
Proof.
  intros Hc Hlk Hp Hpr Hf1 Hf2. unfold sleep.
  unfold gets at 1. erewrite bind_ok by reflexivity. rewrite Hp.
  rewrite bool_decide_eq_true_2 by done. simpl.
  rewrite bind_assoc.
  rewrite (bind_ok _ _ _ _ _ _ _ (acquire_quiet ptable_lock s _
    ltac:(unfold quiet; rewrite Hc; simpl; split_and!; [done|done|lia])
    ltac:(rewrite Hc; simpl; set_solver))).
  rewrite (bind_ok _ _ _ _ _ _ _ (release_held lk (with_lock ptable_lock s) _
    ltac:(unfold quiet, with_lock, upd_cpu; rewrite Hc; simpl; split_and!; [done|done|lia])
    ltac:(unfold with_lock, upd_cpu; rewrite Hc; simpl; set_solver)
    ltac:(unfold with_lock, upd_cpu; rewrite Hc; simpl; lia))).
  unfold modify. erewrite bind_ok by reflexivity. erewrite bind_ok by reflexivity.
  replace (upd_proc p (set_state SLEEPING) (upd_proc p (set_chan (Some c))
    (without_lock lk (with_lock ptable_lock s)))) with (asleep p c s).
  2:{ unfold asleep, without_lock, with_lock, upd_cpu. rewrite Hc. simpl.
      replace (({[ptable_lock]} ∪ {[lk]}) ∖ {[lk]}) with ({[ptable_lock]} : gset lock);
        [done|]. set_solver. }
  assert (Hpr' : (asleep p c s).(procs) !! p =
    Some (set_state SLEEPING (set_chan (Some c) pr))).
  { unfold asleep, upd_proc, upd_cpu. simpl.
    by rewrite !list_lookup_alter_eq, Hpr. }
  rewrite (bind_ok _ _ _ _ _ _ _ (sched_eq p _ (asleep p c s) f env eq_refl Hp Hpr' ltac:(done))).
  set (s2 := f (asleep p c s)) in *.
  replace (upd_cpu (set_intena false) s2) with s2
    by (unfold upd_cpu; rewrite Hf1; simpl; symmetry; by apply set_kcpu_id).
  unfold cur. rewrite bind_assoc. unfold gets. erewrite bind_ok by reflexivity.
  rewrite Hf2. simpl. unfold ret. erewrite bind_ok by reflexivity.
  erewrite bind_ok by reflexivity.
  rewrite (bind_ok _ _ _ _ _ _ _ (release_held ptable_lock (upd_proc p (set_chan None) s2) _
    ltac:(unfold quiet; simpl; rewrite Hf1; simpl; split_and!; [done|done|lia])
    ltac:(simpl; rewrite Hf1; simpl; set_solver)
    ltac:(simpl; rewrite Hf1; simpl; lia))).
  rewrite acquire_quiet.
  - do 2 f_equal. unfold with_lock, without_lock, upd_cpu. simpl. rewrite Hf1, Hc. simpl.
    unfold set_kcpu. f_equal; simpl. f_equal. set_solver.
  - unfold quiet; simpl. rewrite Hf1. simpl. split_and!; [done|done|lia].
  - simpl. rewrite Hf1. simpl. set_solver.
Qed.

(** ** kill *)

(** The process [kill] marks. *)
Definition marked (p : proc) : proc :=
  let q := set_killed true p in
  if bool_decide (p.(state) = SLEEPING) then set_state RUNNABLE q else q.

Definition kill_body (n : Z) (i : nat) : K (option Z) :=
  p <- get_proc i ;;
  if p.(pid) =? n then
    modify (upd_proc i (set_killed true)) ;;;
    when (bool_decide (p.(state) = SLEEPING))
      (modify (upd_proc i (set_state RUNNABLE))) ;;;
    release ptable_lock ;;;
    ret (Some 0)
  else ret None.

Lemma kill_body_miss n i p s env :
  s.(procs) !! i = Some p -> p.(pid) <> n -> kill_body n i s env = Ok None s env.
Proof.
  intros Hp Hn. unfold kill_body, get_proc, bind, gets, deref, ret. rewrite Hp.
  by rewrite (proj2 (Z.eqb_neq _ _) Hn).
Qed.

Lemma kill_body_hit n i p s s0 env :
  quiet s0 -> ptable_lock ∉ s0.(kcpu).(held) -> s.(kcpu) = (with_lock ptable_lock s0).(kcpu) ->
  s.(procs) !! i = Some p -> p.(pid) = n ->
  kill_body n i s env = Ok (Some 0) (set_kcpu s0.(kcpu) (upd_proc i (fun _ => marked p) s)) env.
Proof.
  intros Hq Hl Hc Hp Hn. unfold kill_body.
  assert (Hg : get_proc i s env = Ok p s env) by (unfold get_proc, bind, gets, deref; by rewrite Hp).
  mstep Hg. rewrite (proj2 (Z.eqb_eq _ _) Hn). mrun.
  assert (Hw : forall s1, s1 = upd_proc i (set_killed true) s ->
    (when (bool_decide (p.(state) = SLEEPING)) (modify (upd_proc i (set_state RUNNABLE)))) s1 env
    = Ok tt (upd_proc i (fun _ => marked p) s) env).
  { intros s1 ->. unfold when, marked. case_bool_decide; unfold modify, ret, upd_proc.
    - cbn [procs set_procs]. rewrite list_alter_alter_eq.
      erewrite (list_alter_ext _ (fun _ => _)); [done| |done]. intros x Hx. simpl. congruence.
    - erewrite (list_alter_ext _ (fun _ => _)); [done| |done]. intros x Hx. simpl. congruence. }
  mstep (Hw _ eq_refl).
  rewrite (bind_ok _ _ _ _ _ _ _ (release_quiet ptable_lock s0 (upd_proc i (fun _ => marked p) s) env Hq Hl Hc)). done.
Qed.

Lemma kill_scan n s0 s env pre suf :
  quiet s0 -> ptable_lock ∉ s0.(kcpu).(held) -> s.(kcpu) = (with_lock ptable_lock s0).(kcpu) ->
  s.(procs) = pre ++ suf ->
  mfind (seq (length pre) (length suf)) (kill_body n) s env =
    match list_find (fun p => p.(pid) = n) suf with
    | Some (j, p) =>
        Ok (Some 0) (set_kcpu s0.(kcpu) (upd_proc (length pre + j) (fun _ => marked p) s)) env
    | None => Ok None s env
    end.
Proof.
  intros Hq Hl Hc. revert pre. induction suf as [|p suf IH]; intros pre Hs; [done|].
  assert (Hp : procs s !! length pre = Some p) by (rewrite Hs; by apply list_lookup_middle).
  simpl. case_decide as Hn.
  - rewrite (bind_ok _ _ _ _ _ _ _ (kill_body_hit n _ p s s0 env Hq Hl Hc Hp Hn)).
    by rewrite Nat.add_0_r.
  - rewrite (bind_ok _ _ _ _ _ _ _ (kill_body_miss n _ p s env Hp Hn)).
    specialize (IH (pre ++ [p])). rewrite length_app in IH. simpl in IH. rewrite Nat.add_1_r in IH.
    rewrite IH by (by rewrite <- app_assoc).
    destruct (list_find _ suf) as [[j q]|]; simpl; [|done]. by rewrite Nat.add_succ_r.
Qed.

Lemma kill_eq n s env :
  calm s ->
  kill n s env =
    match list_find (fun p => p.(pid) = n) s.(procs) with
    | Some (j, p) => Ok 0 (upd_proc j (fun _ => marked p) s) env
    | None => Ok (-1) s env
    end.
Proof.
  intros (Hq & Hl & Hn). unfold kill. mstep (acquire_quiet ptable_lock s env Hq Hl).
  assert (Hscan := kill_scan n s (with_lock ptable_lock s) env [] (procs s) Hq Hl eq_refl eq_refl).
  rewrite <- Hn. fold (kill_body n) in *. change (length ([] : list proc)) with 0%nat in Hscan.
  destruct (list_find _ (procs s)) as [[j p]|] eqn:Hf.
  - change (fun i : nat => _) with (kill_body n). mstep Hscan. unfold ret. by destruct s.
  - change (fun i : nat => _) with (kill_body n). mstep Hscan.
    rewrite (bind_ok _ _ _ _ _ _ _ (release_quiet ptable_lock s (with_lock ptable_lock s) env Hq Hl eq_refl)).
    unfold ret. by destruct s.
Qed.

(** ** Theorems *)

(** Wakeup makes exactly the processes that sleep on the channel
    runnable and changes nothing else in the kernel. *)
Theorem wakeup_exact c s env :
  calm s ->
  exists s', wakeup c s env = Ok tt s' env /\ set_procs s.(procs) s' = s /\
    length s'.(procs) = length s.(procs) /\
    forall i p, s.(procs) !! i = Some p ->
      s'.(procs) !! i = Some (if bool_decide (p.(state) = SLEEPING /\ p.(chan) = Some c)
                              then set_state RUNNABLE p else p).
Proof.
  intros Hc. rewrite wakeup_eq by done. eexists. split; [done|]. unfold woken.
  split_and!; [by destruct s|simpl; by rewrite length_fmap|].
  intros i p Hp. simpl. rewrite list_lookup_fmap, Hp. done.
Qed.

Definition demo_sleeper : kstate :=
  upd_proc 2 (fun p => set_chan (Some chan_ticks) (set_state SLEEPING (set_pid 7 p))) (kstate0 []).

Lemma demo_calm : calm demo_sleeper.
Proof. split_and!; try done. Qed.

Lemma wakeup_exact_witness :
  exists s', wakeup chan_ticks demo_sleeper [] = Ok tt s' [] /\
    set_procs demo_sleeper.(procs) s' = demo_sleeper /\
    length s'.(procs) = length demo_sleeper.(procs) /\
    forall i p, demo_sleeper.(procs) !! i = Some p ->
      s'.(procs) !! i = Some (if bool_decide (p.(state) = SLEEPING /\ p.(chan) = Some chan_ticks)
                              then set_state RUNNABLE p else p).
Proof. apply (wakeup_exact chan_ticks demo_sleeper []). exact demo_calm. Defined.

(** C28: sleep loses no wakeup. A process that holds one lock and sleeps
    gives the lock up and is marked asleep before anybody else runs: in the
    state in which it switches away the lock is free, the process sleeps on
    its channel, and a wakeup of that channel makes it runnable. Once it runs
    again it holds the lock and its channel is clear. *)
Theorem sleep_no_lost_wakeup p pr c lk s f env :
  s.(kcpu) = Mkcpu false 1 false {[lk]} -> lk <> ptable_lock ->
  s.(curproc) = Some p -> s.(procs) !! p = Some pr ->
  (f (asleep p c s)).(kcpu) = (asleep p c s).(kcpu) -> (f (asleep p c s)).(curproc) = Some p ->
  (lk ∉ (asleep p c s).(kcpu).(held)) /\
  (woken c (asleep p c s)).(procs) !! p = Some (set_state RUNNABLE (set_chan (Some c) pr)) /\
  exists s', sleep c lk s (f :: env) = Ok tt s' env /\ s'.(kcpu) = s.(kcpu) /\
    s'.(procs) = alter (set_chan None) p (f (asleep p c s)).(procs).
Proof.
  intros Hc Hlk Hp Hpr Hf1 Hf2. split_and!.
  - simpl. set_solver.
  - unfold woken. simpl. rewrite list_lookup_fmap, !list_lookup_alter_eq, Hpr. simpl.
    unfold wake. by rewrite bool_decide_eq_true_2.
  - eexists. split; [by apply (sleep_eq p pr c lk s f env)|]. done.
Qed.

Definition demo_running : kstate :=
  set_kcpu (Mkcpu false 1 false {[tickslock]})
    (set_curproc (Some 2%nat) (upd_proc 2 (set_state RUNNING) (kstate0 []))).

Lemma sleep_no_lost_wakeup_witness :
  (tickslock ∉ (asleep 2 chan_ticks demo_running).(kcpu).(held)) /\
  (woken chan_ticks (asleep 2 chan_ticks demo_running)).(procs) !! 2%nat =
    Some (set_state RUNNABLE (set_chan (Some chan_ticks) (set_state RUNNING zero_proc))) /\
  exists s', sleep chan_ticks tickslock demo_running [woken chan_ticks] = Ok tt s' [] /\
    s'.(kcpu) = demo_running.(kcpu) /\
    s'.(procs) = alter (set_chan None) 2%nat (woken chan_ticks (asleep 2 chan_ticks demo_running)).(procs).
Proof. by apply (sleep_no_lost_wakeup 2 _ chan_ticks tickslock demo_running (woken chan_ticks) []). Defined.

(** C29: kill marks the first process of the table with the given id as
    killed, makes it runnable if it sleeps, and returns 0; it returns -1 and
    changes nothing when there is none. Free slots keep id 0, so kill of id 0
    marks a free slot, whose next owner is then born killed. *)
Theorem kill_correct n s env :
  calm s ->
  (forall j p, s.(procs) !! j = Some p -> p.(pid) = n ->
     (forall i q, s.(procs) !! i = Some q -> (i < j)%nat -> q.(pid) <> n) ->
     exists s', kill n s env = Ok 0 s' env /\
       s'.(procs) = <[j := if bool_decide (p.(state) = SLEEPING)
                           then set_state RUNNABLE (set_killed true p)
                           else set_killed true p]> s.(procs)) /\
  ((forall i q, s.(procs) !! i = Some q -> q.(pid) <> n) -> kill n s env = Ok (-1) s env).
Proof.
  intros Hc. rewrite kill_eq by done. split.
  - intros j p Hj Hp Hfirst.
    assert (list_find (fun p => p.(pid) = n) s.(procs) = Some (j, p)) as ->.
    { apply list_find_Some. split_and!; [done|done|]. intros i q Hi Hlt. by eapply Hfirst. }
    eexists. split; [reflexivity|]. unfold upd_proc. simpl. rewrite list_insert_alter.
    apply list_alter_ext; [|done]. intros x Hx. done.
  - intros Hno. destruct (list_find (fun p => p.(pid) = n) s.(procs)) as [[j p]|] eqn:Hf; [|done].
    apply list_find_Some in Hf as (Hj & Hp & _). by destruct (Hno j p).
Qed.

Lemma kill_correct_witness :
  kill 99 demo_sleeper [] = Ok (-1) demo_sleeper [] /\
  exists s', kill 7 demo_sleeper [] = Ok 0 s' [] /\
    s'.(procs) !! 2%nat = Some (set_chan (Some chan_ticks) (set_state RUNNABLE (set_killed true (set_pid 7 zero_proc)))).
Proof.
  split.
  - apply (kill_correct 99 demo_sleeper [] demo_calm).
    intros i q Hq E. apply (f_equal (fmap pid)) in Hq. rewrite <- list_lookup_fmap in Hq.
    apply list_elem_of_lookup_2 in Hq. simpl in Hq. rewrite E in Hq. vm_compute in Hq.
    repeat (apply elem_of_cons in Hq as [?|Hq]; [done|]). by apply elem_of_nil in Hq.
  - destruct (proj1 (kill_correct 7 demo_sleeper [] demo_calm) 2%nat _ eq_refl eq_refl) as (s' & Hrun & Hs).
    + intros [|[|i]] q Hq Hi; [| |lia]; change (Some zero_proc = Some q) in Hq; injection Hq as <-; done.
    + exists s'. split; [done|]. rewrite Hs. reflexivity.
Defined.

End Sched.
