(* ===== verification/Dll.v ===== *)
(** Circular doubly linked lists given by two link functions: the shape of
    the buffer cache's LRU list. [seg nx pv a l z] says that following
    [nx] from [a] visits the nodes of [l] and arrives at [z], and that [pv]
    leads back. *)
From S2P Require Import Prelude.

Module Dll.
Section Dll.
Implicit Types (nx pv : nat -> nat) (a b z : nat) (l : list nat).

Fixpoint seg nx pv a l z : Prop :=
  match l with
  | [] => nx a = z /\ pv z = a
  | x :: l' => nx a = x /\ pv x = a /\ seg nx pv x l' z
  end.

(** Update of a link. *)
Definition fupd (f : nat -> nat) (i v : nat) : nat -> nat :=
  fun j => if decide (j = i) then v else f j.

Lemma fupd_eq f i v : fupd f i v i = v.
Proof. unfold fupd. by rewrite decide_True. Qed.

Lemma fupd_ne f i j v : j <> i -> fupd f i v j = f j.
Proof. intros. unfold fupd. by rewrite decide_False. Qed.

Lemma seg_ext nx pv nx' pv' a l z :
  (forall i, i ∈ a :: l -> nx' i = nx i) ->
  (forall i, i ∈ l ++ [z] -> pv' i = pv i) ->
  seg nx pv a l z -> seg nx' pv' a l z.
Proof.
  revert a. induction l as [|x l IH]; simpl; intros a Hn Hp H.
  - rewrite Hn, Hp by set_solver. done.
  - destruct H as (? & ? & H). rewrite Hn, Hp by set_solver.
    split_and!; [done|done|]. apply IH; [set_solver|set_solver|done].
Qed.

Lemma seg_app nx pv a l1 b l2 z :
  seg nx pv a (l1 ++ b :: l2) z <-> seg nx pv a l1 b /\ seg nx pv b l2 z.
Proof.
  revert a. induction l1 as [|x l1 IH]; simpl; intros a; [naive_solver|].
  rewrite IH. naive_solver.
Qed.

(** The predecessor of the target and the successor of the source. *)
Lemma seg_pv_end nx pv a l z : seg nx pv a l z -> pv z ∈ a :: l.
Proof.
  revert a. induction l as [|x l IH]; simpl; intros a H.
  - destruct H as [_ ->]. set_solver.
  - destruct H as (_ & _ & H). apply IH in H. set_solver.
Qed.

Lemma seg_nx_start nx pv a l z : seg nx pv a l z -> nx a ∈ l ++ [z].
Proof. destruct l; simpl; [intros [-> _]|intros [-> _]]; set_solver. Qed.

Lemma seg_nx_head nx pv a l z : seg nx pv a l z -> nx a = default z (head l).
Proof. destruct l; simpl; naive_solver. Qed.

(** Unlinking [b]:  b->next->prev = b->prev; b->prev->next = b->next. *)
Lemma seg_unlink nx pv a l1 b l2 z :
  NoDup (a :: l1 ++ b :: l2) -> NoDup (l1 ++ b :: l2 ++ [z]) ->
  seg nx pv a l1 b -> seg nx pv b l2 z ->
  seg (fupd nx (pv b) (nx b)) (fupd pv (nx b) (pv b)) a (l1 ++ l2) z.
Proof.
  revert a. induction l1 as [|x l1 IH]; simpl; intros a Hs Ht H1 H2.
  - destruct H1 as [_ Hpb]. rewrite Hpb.
    destruct l2 as [|y l2]; simpl in *.
    + destruct H2 as [-> _]. rewrite !fupd_eq. done.
    + destruct H2 as (-> & Hpy & H2). rewrite !fupd_eq. split_and!; [done|done|].
      apply NoDup_cons in Hs as [Ha Hs]. apply NoDup_cons in Hs as [_ Hs].
      apply NoDup_cons in Ht as [_ Ht]. apply NoDup_cons in Ht as [Hy _].
      eapply seg_ext; [| |exact H2].
      * intros i Hi. apply fupd_ne. intros ->. apply Ha. set_solver.
      * intros i Hi. apply fupd_ne. intros ->. by apply Hy.
  - destruct H1 as (Hna & Hpx & H1).
    assert (pv b ∈ x :: l1) by (by eapply seg_pv_end).
    assert (nx b ∈ l2 ++ [z]) by (by eapply seg_nx_start).
    apply NoDup_cons in Hs as [Ha Hs]. apply NoDup_cons in Ht as [Hx Ht].
    assert (a <> pv b) by (intros ->; apply Ha; set_solver).
    assert (x <> nx b) by (intros ->; apply Hx; set_solver).
    rewrite !fupd_ne by done.
    split_and!; [done|done|]. by apply IH.
Qed.

(** Inserting [b] at the front:  b->next = a->next; b->prev = a;
    a->next->prev = b; a->next = b. *)
Lemma seg_push nx pv a l b z :
  b ∉ a :: l -> b <> z -> NoDup (a :: l) -> NoDup (l ++ [z]) ->
  seg nx pv a l z ->
  seg (fupd (fupd nx b (nx a)) a b) (fupd (fupd pv b a) (nx a) b) a (b :: l) z.
Proof.
  intros Hb Hbz Hs Ht H. simpl. rewrite fupd_eq.
  assert (Hna : nx a ∈ l ++ [z]) by (by eapply seg_nx_start).
  apply not_elem_of_cons in Hb as [Hba Hbl].
  assert (b <> nx a).
  { intros E. rewrite <- E in Hna. apply elem_of_app in Hna as [?|?%list_elem_of_singleton]; done. }
  rewrite fupd_ne, fupd_eq by done. split_and!; [done|done|].
  apply NoDup_cons in Hs as [Ha Hs].
  destruct l as [|y l]; simpl in *.
  - destruct H as [-> _]. by rewrite fupd_ne, !fupd_eq by done.
  - destruct H as (-> & _ & H). rewrite fupd_ne, !fupd_eq by done.
    split_and!; [done|done|].
    apply NoDup_cons in Ht as [Hy Ht].
    eapply seg_ext; [| |exact H]; intros i Hi; rewrite !fupd_ne; try done;
      intros ->; set_solver.
Qed.
End Dll.
End Dll.
