(* ===== verification/Bio.v ===== *)
(** Disk driver and buffer cache (kernel/ide.c, kernel/bio.c). *)
From S2P Require Import Prelude Types Spinlock Sched Dll.
Import Spinlock Sched Dll.

Module Bio.

(** * ide.c *)

(* the embedded image gives memdisk; disksize is its number of sectors *)
Definition disksize (s : kstate) : Z := Z.of_nat (length s.(disk)).

Definition iderw (b : nat) : K unit :=
  bf <- get_buf b ;;
  if negb (has bf.(b_flags) B_BUSY) then panic "iderw: buf not busy" else
  if Z.land bf.(b_flags) (Z.lor B_VALID B_DIRTY) =? B_VALID
  then panic "iderw: nothing to do" else
  if negb (bf.(b_dev) =? 1) then panic "iderw: request not for disk 1" else
  n <- gets disksize ;;
  if n <=? bf.(b_sector) then panic "iderw: sector out of range" else
  (if has bf.(b_flags) B_DIRTY then
     modify (upd_buf b (fun x => set_b_flags (clr x.(b_flags) B_DIRTY) x)) ;;;
     modify (fun s => set_disk (<[Z.to_nat bf.(b_sector) := bf.(b_data)]> s.(disk)) s) ;;;
     modify (fun s => set_dwrites (s.(dwrites) ++ [(bf.(b_sector), bf.(b_data))]) s)
   else
     blk <- gets (fun s => s.(disk) !! Z.to_nat bf.(b_sector)) ;;
     d <- deref "memdisk" blk ;;
     modify (upd_buf b (set_b_data d))) ;;;
  modify (upd_buf b (fun x => set_b_flags (Z.lor x.(b_flags) B_VALID) x)).

(** * bio.c *)

(* &bcache.head *)
Definition bhead : nat := NBUF.

Definition binit : K unit :=
  initlock bcache_lock ;;;
  modify (upd_buf bhead (set_b_prev bhead)) ;;;
  modify (upd_buf bhead (set_b_next bhead)) ;;;
  mfor (seq 0 NBUF) (fun b =>
    h <- get_buf bhead ;;
    modify (upd_buf b (set_b_next h.(b_next))) ;;;
    modify (upd_buf b (set_b_prev bhead)) ;;;
    modify (upd_buf b (set_b_dev (u32 (-1)))) ;;;
    h <- get_buf bhead ;;
    modify (upd_buf h.(b_next) (set_b_prev b)) ;;;
    modify (upd_buf bhead (set_b_next b))).

(* for (b = ...; b != &bcache.head; b = b->next): the first buffer on the
   way that satisfies [ok] *)
Fixpoint scan (fuel : nat) (link : buf -> nat) (ok : buf -> bool) (b : nat) :
    K (option nat) :=
  match fuel with
  | O => fail NoFuel
  | S n =>
      if decide (b = bhead) then ret None else
      bf <- get_buf b ;;
      if ok bf then ret (Some b) else scan n link ok (link bf)
  end.

Definition matches (dev sector : Z) (bf : buf) : bool :=
  (bf.(b_dev) =? dev) && (bf.(b_sector) =? sector).

Definition recyclable (bf : buf) : bool :=
  negb (has bf.(b_flags) B_BUSY) && negb (has bf.(b_flags) B_DIRTY).

(* one pass from the label "loop"; None is "goto loop" *)
Definition bget_pass (dev sector : Z) : K (option nat) :=
  h <- get_buf bhead ;;
  o <- scan (S NBUF) b_next (matches dev sector) h.(b_next) ;;
  match o with
  | Some b =>
      bf <- get_buf b ;;
      if negb (has bf.(b_flags) B_BUSY) then
        modify (upd_buf b (fun x => set_b_flags (Z.lor x.(b_flags) B_BUSY) x)) ;;;
        release bcache_lock ;;;
        ret (Some b)
      else
        sleep (chan_buf b) bcache_lock ;;;
        ret None
  | None =>
      h <- get_buf bhead ;;
      o <- scan (S NBUF) b_prev recyclable h.(b_prev) ;;
      match o with
      | Some b =>
          modify (upd_buf b (set_b_dev dev)) ;;;
          modify (upd_buf b (set_b_sector sector)) ;;;
          modify (upd_buf b (set_b_flags B_BUSY)) ;;;
          release bcache_lock ;;;
          ret (Some b)
      | None => panic "bget: no buffers"
      end
  end.

Definition bget (dev sector : Z) : K nat :=
  acquire bcache_lock ;;;
  mloop_env (bget_pass dev sector).

Definition bread (dev sector : Z) : K nat :=
  b <- bget dev sector ;;
  bf <- get_buf b ;;
  when (negb (has bf.(b_flags) B_VALID)) (iderw b) ;;;
  ret b.

Definition bwrite (b : nat) : K unit :=
  bf <- get_buf b ;;
  if negb (has bf.(b_flags) B_BUSY) then panic "bwrite" else
  modify (upd_buf b (fun x => set_b_flags (Z.lor x.(b_flags) B_DIRTY) x)) ;;;
  iderw b.

Definition brelse (b : nat) : K unit :=
  bf <- get_buf b ;;
  if negb (has bf.(b_flags) B_BUSY) then panic "brelse" else
  acquire bcache_lock ;;;
  bf <- get_buf b ;;
  modify (upd_buf bf.(b_next) (set_b_prev bf.(b_prev))) ;;;
  bf <- get_buf b ;;
  modify (upd_buf bf.(b_prev) (set_b_next bf.(b_next))) ;;;
  h <- get_buf bhead ;;
  modify (upd_buf b (set_b_next h.(b_next))) ;;;
  modify (upd_buf b (set_b_prev bhead)) ;;;
  h <- get_buf bhead ;;
  modify (upd_buf h.(b_next) (set_b_prev b)) ;;;
  modify (upd_buf bhead (set_b_next b)) ;;;
  modify (upd_buf b (fun x => set_b_flags (clr x.(b_flags) B_BUSY) x)) ;;;
  wakeup (chan_buf b) ;;;
  release bcache_lock.

(** * Invariant of the cache *)

Section Defs.
Implicit Types (bc : list buf) (d : list (list Z)) (bf : buf).

Definition busy bf : bool := has bf.(b_flags) B_BUSY.
Definition valid bf : bool := has bf.(b_flags) B_VALID.
Definition dirty bf : bool := has bf.(b_flags) B_DIRTY.

(** The link functions of the cache's list. *)
Definition link_of (link : buf -> nat) bc (i : nat) : nat :=
  match bc !! i with Some bf => link bf | None => i end.

(** [lru bc l]: the list threaded through the buffers is [l], most
    recently used first, and it holds every buffer once. *)
Definition lru bc (l : list nat) : Prop :=
  seg (link_of b_next bc) (link_of b_prev bc) bhead l bhead /\ l ≡ₚ seq 0 NBUF.

(** A valid buffer that is neither held nor waiting for a commit agrees
    with the disk. *)
Definition buf_ok d bf : Prop :=
  length bf.(b_data) = Z.to_nat BSIZE /\
  (valid bf = true -> bf.(b_dev) = 1 /\ 0 <= bf.(b_sector) < Z.of_nat (length d)) /\
  (dirty bf = true -> valid bf = true) /\
  (valid bf = true -> dirty bf = false -> busy bf = false ->
     d !! Z.to_nat bf.(b_sector) = Some bf.(b_data)).

(** No sector is cached twice. *)
Definition uniq bc : Prop :=
  forall i j bi bj, (i < NBUF)%nat -> (j < NBUF)%nat ->
    bc !! i = Some bi -> bc !! j = Some bj ->
    bi.(b_dev) = 1 -> bj.(b_dev) = 1 -> bi.(b_sector) = bj.(b_sector) -> i = j.

Definition cache_ok bc d : Prop :=
  length bc = S NBUF /\
  (exists l, lru bc l) /\
  (forall i bf, (i < NBUF)%nat -> bc !! i = Some bf -> buf_ok d bf) /\
  uniq bc /\
  Forall (fun blk => length blk = Z.to_nat BSIZE) d.

(** The contents of a sector as the kernel sees them: the cached copy if
    there is one, the disk otherwise. *)
Definition holds_sector (sec : Z) bf : Prop :=
  bf.(b_dev) = 1 /\ bf.(b_sector) = sec /\ valid bf = true.

#[global] Instance holds_sector_dec sec bf : Decision (holds_sector sec bf).
Proof. unfold holds_sector. apply _. Defined.

Definition view bc d (sec : Z) : option (list Z) :=
  match list_find (holds_sector sec) (take NBUF bc) with
  | Some (_, bf) => Some bf.(b_data)
  | None => d !! Z.to_nat sec
  end.

(** Buffers that can be given to another sector. *)
Definition navail bc : nat :=
  length (filter (fun bf => recyclable bf = true) (take NBUF bc)).
End Defs.

(** States in which the buffer cache may be called. *)
Definition bio_ok (s : kstate) : Prop :=
  calm s /\ (bcache_lock ∉ s.(kcpu).(held)) /\ cache_ok s.(bcache) s.(disk).

Definition sview (s : kstate) (sec : Z) : option (list Z) :=
  view s.(bcache) s.(disk) sec.

End Bio.
