(* ===== verification/BioFacts.v ===== *)
(** Facts about the disk driver and the buffer cache: what each operation of
    [Bio] does to the cache, its list, and the contents of the sectors. *)
From S2P Require Import Prelude Types Spinlock Sched Dll Bio.
Import Spinlock Sched Dll Bio.

Module BioFacts.

(** * Scanning the list *)

Lemma get_buf_eq i bf s env : s.(bcache) !! i = Some bf -> get_buf i s env = Ok bf s env.
Proof. intros H. unfold get_buf, bind, gets, deref. by rewrite H. Qed.

Lemma scan_seg link pv ok s env a l fuel :
  seg (link_of link s.(bcache)) pv a l bhead ->
  Forall (fun i => i <> bhead /\ is_Some (s.(bcache) !! i)) l ->
  (length l < fuel)%nat ->
  exists o, scan fuel link ok (link_of link s.(bcache) a) s env = Ok o s env /\
    match o with
    | Some b => b ∈ l /\ exists bf, s.(bcache) !! b = Some bf /\ ok bf = true
    | None => forall i bf, i ∈ l -> s.(bcache) !! i = Some bf -> ok bf = false
    end.
Proof.
  revert a fuel. induction l as [|x l IH]; intros a fuel Hseg Hl Hf.
  - destruct fuel as [|n]; [simpl in Hf; lia|]. destruct Hseg as [-> _]. cbn [scan].
    rewrite decide_True by done. exists None. split; [done|]. set_solver.
  - destruct fuel as [|n]; [simpl in Hf; lia|]. destruct Hseg as (-> & _ & Hseg).
    apply Forall_cons in Hl as [[Hx [bf Hbf]] Hl]. cbn [scan].
    rewrite decide_False by done. mstep (get_buf_eq x bf s env Hbf).
    destruct (ok bf) eqn:Hok.
    + exists (Some x). split; [done|]. split; [set_solver|eauto].
    + replace (link bf) with (link_of link (bcache s) x)
        by (unfold link_of; by rewrite Hbf).
      destruct (IH x n Hseg Hl ltac:(simpl in Hf; lia)) as (o & -> & Ho).
      exists o. split; [done|]. destruct o as [b|]; [set_solver|].
      intros i bf' [->|Hi]%elem_of_cons Hbf'; [congruence|eauto].
Qed.

Lemma seg_reverse nx pv a l z : seg nx pv a l z -> seg pv nx z (reverse l) a.
Proof.
  revert a. induction l as [|x l IH]; simpl; intros a H; [naive_solver|].
  destruct H as (? & ? & H). rewrite reverse_cons.
  apply seg_app. split; [by apply IH|]. done.
Qed.

Lemma lru_elem bc l i : lru bc l -> i ∈ l <-> (i < NBUF)%nat.
Proof.
  intros [_ Hp]. rewrite Hp, elem_of_seq. unfold NBUF. lia.
Qed.

Lemma lru_entries bc l :
  length bc = S NBUF -> lru bc l ->
  Forall (fun i => i <> bhead /\ is_Some (bc !! i)) l /\ length l = NBUF.
Proof.
  intros Hlen Hl. split.
  - apply Forall_forall. intros i Hi. apply (lru_elem _ _ _ Hl) in Hi.
    split; [unfold bhead; lia|]. apply lookup_lt_is_Some. lia.
  - destruct Hl as [_ Hp]. by rewrite Hp, length_seq.
Qed.

(** Both scans of [bget] visit every buffer, whatever the links. *)
Lemma scan_all (fwd : bool) ok s env h :
  cache_ok s.(bcache) s.(disk) -> s.(bcache) !! bhead = Some h ->
  exists o,
    scan (S NBUF) (if fwd then b_next else b_prev) ok
      ((if fwd then b_next else b_prev) h) s env = Ok o s env /\
    match o with
    | Some b => (b < NBUF)%nat /\ exists bf, s.(bcache) !! b = Some bf /\ ok bf = true
    | None => forall i bf, (i < NBUF)%nat -> s.(bcache) !! i = Some bf -> ok bf = false
    end.
Proof.
  intros (Hlen & [l Hl] & _) Hh.
  destruct (lru_entries _ _ Hlen Hl) as [Hall Hll].
  set (link := if fwd then b_next else b_prev).
  assert (exists pv l', seg (link_of link (bcache s)) pv bhead l' bhead /\ l' ≡ₚ l)
    as (pv & l' & Hseg & Hperm).
  { destruct Hl as [Hl _]. destruct fwd.
    - by eexists _, l.
    - eexists _, (reverse l). split; [by apply seg_reverse|]. apply reverse_Permutation. }
  destruct (scan_seg link pv ok s env bhead l' (S NBUF) Hseg) as (o & Ho & Hpost).
  { by rewrite Hperm. }
  { rewrite Hperm. lia. }
  exists o. split.
  { rewrite <- Ho. f_equal. unfold link_of. by rewrite Hh. }
  destruct o as [b|].
  - destruct Hpost as [Hb ?]. split; [|done]. rewrite Hperm in Hb. by eapply lru_elem.
  - intros i bf Hi. apply Hpost. rewrite Hperm. by eapply lru_elem.
Qed.

(** * Updating one buffer *)

Lemma upd_buf_insert b f bf s :
  s.(bcache) !! b = Some bf -> upd_buf b f s = set_bcache (<[b := f bf]> s.(bcache)) s.
Proof.
  intros H. unfold upd_buf. f_equal. rewrite list_insert_alter.
  apply list_alter_ext; [|done]. intros x Hx. congruence.
Qed.

Lemma upd_buf_twice b f g s :
  upd_buf b f (upd_buf b g s) = upd_buf b (fun x => f (g x)) s.
Proof. unfold upd_buf. simpl. unfold set_bcache. f_equal. apply list_alter_alter_eq. Qed.

Lemma link_of_insert link bc b bf bf' i :
  bc !! b = Some bf -> link bf' = link bf ->
  link_of link (<[b := bf']> bc) i = link_of link bc i.
Proof.
  intros Hb Hlink. unfold link_of. destruct (decide (i = b)) as [->|Hne].
  - rewrite list_lookup_insert_eq by (by eapply lookup_lt_Some). by rewrite Hb.
  - by rewrite list_lookup_insert_ne.
Qed.

Lemma lru_insert bc b bf bf' l :
  bc !! b = Some bf -> bf'.(b_next) = bf.(b_next) -> bf'.(b_prev) = bf.(b_prev) ->
  lru bc l -> lru (<[b := bf']> bc) l.
Proof.
  intros Hb Hn Hp [Hseg ?]. split; [|done].
  eapply seg_ext; [| |exact Hseg]; intros i _; by eapply link_of_insert.
Qed.

(** The cache stays well formed when one buffer changes its contents or is
    given to a sector no other buffer holds, and the disk changes only where
    the other buffers do not look. *)
Lemma cache_ok_update bc d d' b bf bf' :
  cache_ok bc d -> (b < NBUF)%nat -> bc !! b = Some bf ->
  bf'.(b_next) = bf.(b_next) -> bf'.(b_prev) = bf.(b_prev) ->
  buf_ok d' bf' ->
  (forall i bi, (i < NBUF)%nat -> i <> b -> bc !! i = Some bi ->
     bi.(b_dev) = 1 -> bf'.(b_dev) = 1 -> bi.(b_sector) <> bf'.(b_sector)) ->
  (forall i bi, (i < NBUF)%nat -> i <> b -> bc !! i = Some bi -> buf_ok d' bi) ->
  Forall (fun blk => length blk = Z.to_nat BSIZE) d' ->
  cache_ok (<[b := bf']> bc) d'.
Proof.
  intros (Hlen & [l Hl] & _ & Hu & _) Hb Hbf Hn Hp Hok' Hfresh Hrest Hd'.
  assert (Hlt : (b < length bc)%nat) by (by eapply lookup_lt_Some).
  split_and!; [by rewrite length_insert | | | | done].
  - exists l. by eapply lru_insert.
  - intros i bi Hi Hbi. destruct (decide (i = b)) as [->|Hne].
    + rewrite list_lookup_insert_eq in Hbi by done. naive_solver.
    + rewrite list_lookup_insert_ne in Hbi by done. eauto.
  - intros i j bi bj Hi Hj Hbi Hbj Hdi Hdj Hs.
    destruct (decide (i = b)) as [->|Hib], (decide (j = b)) as [->|Hjb]; [done| | |].
    + rewrite list_lookup_insert_eq in Hbi by done. simplify_eq.
      rewrite list_lookup_insert_ne in Hbj by done. by destruct (Hfresh j bj Hj Hjb Hbj Hdj Hdi).
    + rewrite list_lookup_insert_eq in Hbj by done. simplify_eq.
      rewrite list_lookup_insert_ne in Hbi by done. by destruct (Hfresh i bi Hi Hib Hbi Hdi Hdj).
    + rewrite list_lookup_insert_ne in Hbi, Hbj by done. by eapply Hu.
Qed.

(** * Contents of sectors *)

Lemma view_hit bc d sec i bf :
  uniq bc -> (i < NBUF)%nat -> bc !! i = Some bf -> holds_sector sec bf ->
  view bc d sec = Some bf.(b_data).
Proof.
  intros Hu Hi Hbf Hh. unfold view.
  destruct (list_find (holds_sector sec) (take NBUF bc)) as [[j bj]|] eqn:Hf.
  - apply list_find_Some in Hf as (Hj & Hhj & _).
    apply lookup_take_Some in Hj as [Hj Hjn].
    destruct Hh as (? & ? & ?), Hhj as (? & ? & ?).
    assert (i = j) as -> by (eapply Hu; eauto; congruence). congruence.
  - apply list_find_None in Hf. rewrite Forall_lookup in Hf.
    exfalso. eapply (Hf i); [|exact Hh]. apply lookup_take_Some. done.
Qed.

Lemma view_miss bc d sec :
  (forall i bf, (i < NBUF)%nat -> bc !! i = Some bf -> ~ holds_sector sec bf) ->
  view bc d sec = d !! Z.to_nat sec.
Proof.
  intros H. unfold view.
  destruct (list_find (holds_sector sec) (take NBUF bc)) as [[j bj]|] eqn:Hf; [|done].
  apply list_find_Some in Hf as (Hj & Hhj & _). apply lookup_take_Some in Hj as [Hj Hjn].
  by destruct (H j bj).
Qed.

(** The cached copy of a sector, if any. *)
Lemma view_cases bc d sec :
  uniq bc ->
  (exists i bf, (i < NBUF)%nat /\ bc !! i = Some bf /\ holds_sector sec bf /\
     view bc d sec = Some bf.(b_data)) \/
  (forall i bf, (i < NBUF)%nat -> bc !! i = Some bf -> ~ holds_sector sec bf) /\
     view bc d sec = d !! Z.to_nat sec.
Proof.
  intros Hu. destruct (list_find (holds_sector sec) (take NBUF bc)) as [[j bj]|] eqn:Hf.
  - left. apply list_find_Some in Hf as (Hj & Hhj & _).
    apply lookup_take_Some in Hj as [Hj Hjn]. exists j, bj. split_and!; [done..|].
    by eapply view_hit.
  - right. apply list_find_None in Hf. rewrite Forall_lookup in Hf.
    assert (forall i bf, (i < NBUF)%nat -> bc !! i = Some bf -> ~ holds_sector sec bf) as Hno.
    { intros i bf Hi Hbf. eapply Hf. apply lookup_take_Some. done. }
    split; [done|]. by apply view_miss.
Qed.

(** Replacing a buffer keeps the contents of every sector when the old copy
    was on disk and the new copy is what its sector contained. *)
Lemma view_insert bc d b bf bf' :
  uniq bc -> uniq (<[b := bf']> bc) -> (b < NBUF)%nat -> bc !! b = Some bf ->
  (valid bf = true -> holds_sector bf.(b_sector) bf' /\ bf'.(b_data) = bf.(b_data) \/
     d !! Z.to_nat bf.(b_sector) = Some bf.(b_data)) ->
  (valid bf' = true -> view bc d bf'.(b_sector) = Some bf'.(b_data)) ->
  forall sec, view (<[b := bf']> bc) d sec = view bc d sec.
Proof.
  intros Hu Hu' Hb Hbf Hold Hnew sec.
  assert (Hlt : (b < length bc)%nat) by (by eapply lookup_lt_Some).
  destruct (view_cases (<[b := bf']> bc) d sec Hu') as [(i & bi & Hi & Hbi & Hh & ->)|[Hno ->]].
  - destruct (decide (i = b)) as [->|Hne].
    + rewrite list_lookup_insert_eq in Hbi by done. simplify_eq.
      destruct Hh as (? & <- & ?). symmetry. by apply Hnew.
    + rewrite list_lookup_insert_ne in Hbi by done. symmetry. by eapply view_hit.
  - assert (Hno' : forall i bi, i <> b -> (i < NBUF)%nat -> bc !! i = Some bi -> ~ holds_sector sec bi).
    { intros i bi Hne Hi Hbi. eapply Hno; [done|]. by rewrite list_lookup_insert_ne. }
    destruct (decide (holds_sector sec bf)) as [Hh|Hh].
    + rewrite (view_hit bc d sec b bf) by done. destruct Hh as (? & <- & Hv).
      destruct (Hold Hv) as [[Hc _]| -> ]; [|done]. exfalso.
      eapply Hno; [exact Hb| |exact Hc]. by apply list_lookup_insert_eq.
    + symmetry. apply view_miss. intros i bi Hi Hbi.
      destruct (decide (i = b)) as [->|Hne]; [congruence|by eapply Hno'].
Qed.

(** * iderw *)

Lemma iderw_read b bf d s env :
  s.(bcache) !! b = Some bf -> busy bf = true -> valid bf = false -> dirty bf = false ->
  bf.(b_dev) = 1 -> 0 <= bf.(b_sector) < disksize s ->
  s.(disk) !! Z.to_nat bf.(b_sector) = Some d ->
  iderw b s env =
    Ok tt (set_bcache (<[b := set_b_flags (Z.lor bf.(b_flags) B_VALID) (set_b_data d bf)]>
                         s.(bcache)) s) env.
Proof.
  unfold busy, valid, dirty. intros Hb Hbu Hv Hd Hdev Hsec Hdisk.
  unfold iderw. mstep (get_buf_eq b bf s env Hb). rewrite Hbu. simpl.
  assert ((Z.land (b_flags bf) (Z.lor B_VALID B_DIRTY) =? B_VALID) = false) as ->.
  { apply Z.eqb_neq. intros E. rewrite Z.land_lor_distr_r in E.
    revert Hv Hd. unfold has. intros.
    apply negb_false_iff, Z.eqb_eq in Hv, Hd. rewrite Hv, Hd in E. done. }
  rewrite Hdev. simpl. unfold gets at 1. erewrite bind_ok by reflexivity.
  rewrite (proj2 (Z.leb_gt _ _)) by lia. rewrite Hd.
  unfold gets, deref, modify, ret, bind. rewrite Hdisk.
  rewrite (upd_buf_insert b _ bf s) by done.
  rewrite (upd_buf_insert _ _ (set_b_data d bf))
    by (apply list_lookup_insert_eq; by eapply lookup_lt_Some).
  simpl. by rewrite list_insert_insert_eq.
Qed.

(** * bget, bread *)

(** The buffer handed out for [sec]: the cached one, or a recycled one. *)
Definition taken (sec : Z) (bf : buf) : buf :=
  if matches 1 sec bf then set_b_flags (Z.lor bf.(b_flags) B_BUSY) bf
  else set_b_flags B_BUSY (set_b_sector sec (set_b_dev 1 bf)).

Definition no_match (bc : list buf) (sec : Z) : Prop :=
  forall i bf, (i < NBUF)%nat -> bc !! i = Some bf -> matches 1 sec bf = false.

(** No process holds the buffer of [sec]. *)
Definition not_busy (bc : list buf) (sec : Z) : Prop :=
  forall i bf, (i < NBUF)%nat -> bc !! i = Some bf -> matches 1 sec bf = true -> busy bf = false.

Lemma navail_pos bc : (0 < navail bc)%nat ->
  exists i bf, (i < NBUF)%nat /\ bc !! i = Some bf /\ recyclable bf = true.
Proof.
  unfold navail. intros H.
  destruct (filter _ (take NBUF bc)) as [|bf l] eqn:Hf; [simpl in H; lia|].
  assert (bf ∈ filter (fun bf => recyclable bf = true) (take NBUF bc)) as Hin
    by (rewrite Hf; set_solver).
  apply list_elem_of_filter in Hin as [Hr Hin].
  apply list_elem_of_lookup in Hin as [i Hi]. apply lookup_take_Some in Hi as [Hi ?].
  eauto.
Qed.

Lemma bhead_lookup bc d : cache_ok bc d -> exists h, bc !! bhead = Some h.
Proof. intros (Hlen & _). apply lookup_lt_is_Some. unfold bhead. lia. Qed.

Lemma bget_eq sec s env :
  bio_ok s -> not_busy s.(bcache) sec ->
  (0 < navail s.(bcache))%nat \/ ~ no_match s.(bcache) sec ->
  exists b bf, (b < NBUF)%nat /\ s.(bcache) !! b = Some bf /\ busy bf = false /\
    (matches 1 sec bf = true \/ recyclable bf = true /\ no_match s.(bcache) sec) /\
    bget 1 sec s env = Ok b (set_bcache (<[b := taken sec bf]> s.(bcache)) s) env.
Proof.
  intros ((Hq & _) & Hlk & Hc) Hnb Hav. unfold bget.
  rewrite (bind_ok _ _ _ _ _ _ _ (acquire_quiet bcache_lock s env Hq Hlk)).
  unfold mloop_env. cbn [mloop].
  set (s0 := with_lock bcache_lock s).
  assert (Hrel : forall bc', release bcache_lock (set_bcache bc' s0) env = Ok tt (set_bcache bc' s) env).
  { intros bc'. by rewrite (release_quiet bcache_lock s). }
  destruct (bhead_lookup _ _ Hc) as [h Hh].
  destruct (scan_all true (matches 1 sec) s0 env h Hc Hh) as (o & Ho & Hpost).
  unfold bget_pass. rewrite !bind_assoc. mstep (get_buf_eq bhead h s0 env Hh).
  rewrite bind_assoc. mstep Ho.
  destruct o as [b|].
  - destruct Hpost as (Hb & bf & Hbf & Hm). exists b, bf.
    assert (Hnb' : busy bf = false) by (by eapply Hnb).
    split_and!; [done|done|done|by left|].
    rewrite bind_assoc. mstep (get_buf_eq b bf s0 env Hbf).
    unfold busy in Hnb'. rewrite Hnb'. simpl. unfold modify, bind.
    rewrite (upd_buf_insert b _ bf s0) by done. rewrite Hrel.
    unfold taken. by rewrite Hm.
  - destruct (scan_all false recyclable s0 env h Hc Hh) as (o & Ho' & Hpost').
    rewrite bind_assoc. mstep (get_buf_eq bhead h s0 env Hh). rewrite bind_assoc. mstep Ho'.
    destruct o as [b|].
    + destruct Hpost' as (Hb & bf & Hbf & Hr). exists b, bf.
      split_and!; [done|done| |by right|].
      { unfold recyclable in Hr. unfold busy. destruct (has (b_flags bf) B_BUSY); done. }
      unfold modify, bind. rewrite !upd_buf_twice, (upd_buf_insert b _ bf s0) by done.
      rewrite Hrel. unfold taken. by rewrite (Hpost b bf Hb Hbf).
    + exfalso. destruct Hav as [Hav|Hav].
      * destruct (navail_pos _ Hav) as (i & bf & Hi & Hbf & Hr).
        by rewrite (Hpost' i bf Hi Hbf) in Hr.
      * by apply Hav.
Qed.

Lemma matches_spec sec bf : matches 1 sec bf = true <-> bf.(b_dev) = 1 /\ bf.(b_sector) = sec.
Proof. unfold matches. rewrite andb_true_iff, !Z.eqb_eq. done. Qed.

Lemma holds_matches sec bf : holds_sector sec bf -> matches 1 sec bf = true.
Proof. intros (? & ? & _). by apply matches_spec. Qed.

Lemma recyclable_spec bf : recyclable bf = true <-> busy bf = false /\ dirty bf = false.
Proof. unfold recyclable, busy, dirty. rewrite andb_true_iff, !negb_true_iff. done. Qed.

Lemma navail_insert bc b bf bf' :
  (b < NBUF)%nat -> bc !! b = Some bf ->
  (navail (<[b := bf']> bc) + (if recyclable bf then 1 else 0) =
   navail bc + (if recyclable bf' then 1 else 0))%nat.
Proof.
  intros Hb Hbf. unfold navail. rewrite take_insert_lt by done.
  assert (take NBUF bc !! b = Some bf) as Ht by (by apply lookup_take_Some).
  pose proof (lookup_lt_Some _ _ _ Ht) as Hlt.
  rewrite (insert_take_drop (take NBUF bc)) by done.
  rewrite <- (take_drop_middle (take NBUF bc) b bf) at 3 by done.
  rewrite !filter_app, !length_app, !filter_cons.
  destruct (recyclable bf), (recyclable bf'); repeat case_decide; simpl; try done; lia.
Qed.

Lemma taken_facts sec bf :
  let bf' := taken sec bf in
  bf'.(b_dev) = 1 /\ bf'.(b_sector) = sec /\ busy bf' = true /\
  valid bf' = matches 1 sec bf && valid bf /\ dirty bf' = matches 1 sec bf && dirty bf.
Proof.
  simpl. unfold taken. destruct (matches 1 sec bf) eqn:Hm; [|done].
  apply matches_spec in Hm as [? ?]. unfold busy, valid, dirty. simpl.
  rewrite !has_lor, !orb_false_r, orb_true_r. done.
Qed.

(** The buffer [bread] returns for [sec], whose contents on disk are [blk]. *)
Definition filled (sec : Z) (blk : list Z) (bf : buf) : buf :=
  if matches 1 sec bf && valid bf then taken sec bf
  else set_b_flags (Z.lor (taken sec bf).(b_flags) B_VALID) (set_b_data blk (taken sec bf)).

Lemma filled_facts sec blk bf :
  let bf' := filled sec blk bf in
  (dirty bf = true -> valid bf = true) ->
  holds_sector sec bf' /\ busy bf' = true /\
  bf'.(b_next) = bf.(b_next) /\ bf'.(b_prev) = bf.(b_prev) /\
  (if matches 1 sec bf && valid bf
   then bf'.(b_data) = bf.(b_data) /\ dirty bf' = dirty bf
   else bf'.(b_data) = blk /\ dirty bf' = false).
Proof.
  intros bf' Hdv. subst bf'. unfold filled, holds_sector.
  destruct (matches 1 sec bf) eqn:Hm; simpl.
  - apply matches_spec in Hm as Hm'. destruct Hm' as [Hdev Hse].
    assert (valid bf = false -> dirty bf = false) as Hd
      by (destruct (dirty bf); [intros Hv; rewrite Hdv in Hv; done|done]).
    destruct (valid bf) eqn:Hval; unfold taken; rewrite Hm; unfold busy, valid, dirty in *;
      simpl; rewrite !has_lor, ?Hval, ?Hd by done; split_and!; try done;
      rewrite ?orb_true_r, ?orb_false_r; done.
  - unfold taken. rewrite Hm. done.
Qed.

Lemma bread_eq sec s env :
  bio_ok s -> 0 <= sec < disksize s -> not_busy s.(bcache) sec ->
  (0 < navail s.(bcache))%nat \/ ~ no_match s.(bcache) sec ->
  exists b bf blk, (b < NBUF)%nat /\ s.(bcache) !! b = Some bf /\ busy bf = false /\
    (matches 1 sec bf = true \/ recyclable bf = true /\ no_match s.(bcache) sec) /\
    s.(disk) !! Z.to_nat sec = Some blk /\
    bread 1 sec s env = Ok b (set_bcache (<[b := filled sec blk bf]> s.(bcache)) s) env.
Proof.
  intros Hok Hsec Hnb Hav.
  destruct (bget_eq sec s env Hok Hnb Hav) as (b & bf & Hb & Hbf & Hnb0 & Hcase & Hget).
  destruct Hok as (_ & _ & (_ & _ & Hbufs & _)).
  destruct (Hbufs b bf Hb Hbf) as (_ & _ & Hdv & _).
  pose proof (lookup_lt_Some _ _ _ Hbf) as Hlt.
  destruct (lookup_lt_is_Some_2 (disk s) (Z.to_nat sec)) as [blk Hblk];
    [unfold disksize in Hsec; lia|].
  exists b, bf, blk. split_and!; try done.
  set (s1 := set_bcache (<[b:=taken sec bf]> (bcache s)) s) in *.
  assert (Hs1 : s1.(bcache) !! b = Some (taken sec bf)) by (by apply list_lookup_insert_eq).
  unfold bread. mstep Hget. mstep (get_buf_eq b _ s1 env Hs1).
  destruct (taken_facts sec bf) as (Hdev & Hse & Hbu & Hv & Hd).
  unfold filled. unfold valid in Hv at 1. rewrite Hv.
  destruct (matches 1 sec bf && valid bf) eqn:Hmv; [done|].
  erewrite bind_ok.
  2:{ apply (iderw_read b (taken sec bf) blk); try done; rewrite ?Hse; try done.
      rewrite Hd. destruct (matches 1 sec bf); [|done]. simpl in *.
      destruct (dirty bf); [|done]. by rewrite Hdv in Hmv. }
  simpl. by rewrite list_insert_insert_eq.
Qed.

(** [grabs sec bc d b bf bc']: buffer [b] of [bc'] is held and has the contents
    of [sec]; every sector and every other buffer is as it was in [bc]. *)
Definition grabs (sec : Z) (bc : list buf) (d : list (list Z)) (b : nat) (bf : buf)
    (bc' : list buf) : Prop :=
  (b < NBUF)%nat /\ bc' !! b = Some bf /\
  holds_sector sec bf /\ busy bf = true /\
  view bc d sec = Some bf.(b_data) /\
  cache_ok bc' d /\
  (forall sec', view bc' d sec' = view bc d sec') /\
  (forall i, i <> b -> bc' !! i = bc !! i) /\
  (exists bf0, bc !! b = Some bf0 /\ busy bf0 = false /\
     (holds_sector sec bf0 /\ dirty bf0 = dirty bf \/ dirty bf0 = false /\ dirty bf = false)) /\
  navail bc = (navail bc' + if dirty bf then 0 else 1)%nat.

Section Filled.
Context (sec : Z) (bc : list buf) (d : list (list Z)) (b : nat) (bf : buf) (blk : list Z).
Hypothesis Hc : cache_ok bc d.
Hypothesis Hsec : 0 <= sec < Z.of_nat (length d).
Hypothesis Hb : (b < NBUF)%nat.
Hypothesis Hbf : bc !! b = Some bf.
Hypothesis Hnb : busy bf = false.
Hypothesis Hcase : matches 1 sec bf = true \/ recyclable bf = true /\ no_match bc sec.
Hypothesis Hblk : d !! Z.to_nat sec = Some blk.

(** No other buffer is one of the sector. *)
Lemma filled_only i bi : (i < NBUF)%nat -> i <> b -> bc !! i = Some bi -> ~ (b_dev bi = 1 /\ b_sector bi = sec).
Proof.
  intros Hi Hne Hbi [Hdi Hsi]. pose proof Hc as (_ & _ & _ & Hu & _). destruct Hcase as [Hm|[_ Hno]].
  - apply matches_spec in Hm as [??]. apply Hne. eapply Hu; eauto. congruence.
  - specialize (Hno i bi Hi Hbi). by rewrite (proj2 (matches_spec sec bi)) in Hno.
Qed.

Lemma filled_reads : view bc d sec = Some (b_data (filled sec blk bf)).
Proof.
  pose proof Hc as (_ & _ & Hbufs & Hu & _). destruct (Hbufs b bf Hb Hbf) as (_ & _ & Hdv & _).
  destruct (filled_facts sec blk bf Hdv) as (_ & _ & _ & _ & Hdata).
  destruct (matches 1 sec bf && valid bf) eqn:Hmv; destruct Hdata as [-> _].
  - apply andb_true_iff in Hmv as [Hm Hva]. apply matches_spec in Hm as [??]. by eapply view_hit.
  - rewrite <- Hblk. apply view_miss.
    intros i bi Hi Hbi (Hdi & Hsi & Hvi). destruct (decide (i = b)) as [->|Hne].
    + simplify_eq. rewrite Hvi, (proj2 (matches_spec (b_sector bf) bf)) in Hmv; done.
    + by eapply filled_only.
Qed.

Lemma filled_cache_ok : cache_ok (<[b := filled sec blk bf]> bc) d.
Proof.
  pose proof Hc as (_ & _ & Hbufs & _ & Hd). destruct (Hbufs b bf Hb Hbf) as (Hdl & _ & Hdv & _).
  destruct (filled_facts sec blk bf Hdv) as ((Hd' & Hs' & Hv') & Hbu & Hn & Hp & Hdata).
  eapply cache_ok_update; eauto.
  - split_and!; [|by rewrite Hs'|done|by rewrite Hbu].
    destruct (matches 1 sec bf && valid bf); destruct Hdata as [-> _]; [done|].
    rewrite Forall_lookup in Hd. by eapply Hd.
  - rewrite Hs'. intros i bi Hi Hne Hbi Hdi _ Hsi. by eapply filled_only.
Qed.

Lemma filled_avail :
  navail bc = (navail (<[b := filled sec blk bf]> bc) + if dirty (filled sec blk bf) then 0 else 1)%nat.
Proof.
  pose proof Hc as (_ & _ & Hbufs & _). destruct (Hbufs b bf Hb Hbf) as (_ & _ & Hdv & _).
  destruct (filled_facts sec blk bf Hdv) as (_ & Hbu & _ & _ & Hdata). set (bf' := filled sec blk bf) in *.
  pose proof (navail_insert bc b bf bf' Hb Hbf) as Hna.
  assert (recyclable bf' = false) as Hr'.
  { apply not_true_iff_false. rewrite recyclable_spec. rewrite Hbu. by intros [? _]. }
  assert (recyclable bf = negb (dirty bf')) as Hr.
  { unfold recyclable. unfold busy in Hnb. rewrite Hnb. simpl. f_equal. fold (dirty bf).
    destruct (matches 1 sec bf && valid bf) eqn:Hmv; destruct Hdata as [_ ->]; [done|].
    destruct (dirty bf) eqn:Hdi; [|done]. rewrite Hdv in Hmv by done.
    destruct Hcase as [Hm|[Hrc _]]; [by rewrite Hm in Hmv|].
    apply recyclable_spec in Hrc as [_ Hrd]. congruence. }
  rewrite Hr, Hr' in Hna. destruct (dirty bf'); simpl in Hna; lia.
Qed.

Lemma grabs_filled : grabs sec bc d b (filled sec blk bf) (<[b := filled sec blk bf]> bc).
Proof.
  pose proof Hc as (_ & _ & Hbufs & Hu & _). destruct (Hbufs b bf Hb Hbf) as (_ & _ & Hdv & Hcoh).
  destruct (filled_facts sec blk bf Hdv) as (Hh & Hbu & Hn & Hp & Hdata). pose proof filled_cache_ok as Hc'.
  pose proof filled_reads as Hview. pose proof filled_avail as Hav.
  set (bf' := filled sec blk bf) in *. pose proof (lookup_lt_Some _ _ _ Hbf) as Hlt.
  split_and!; try done.
  - by apply list_lookup_insert_eq.
  - apply (view_insert bc d b bf bf'); try done; [by destruct Hc' as (_&_&_&?&_)| |].
    + intros Hva. rewrite Hva, andb_true_r in Hdata. destruct Hcase as [Hm|[Hr _]].
      * left. rewrite Hm in Hdata. apply matches_spec in Hm as [? ->]. naive_solver.
      * right. apply recyclable_spec in Hr as [??]. by apply Hcoh.
    + intros _. destruct Hh as (_ & -> & _). done.
  - intros i Hi. by apply list_lookup_insert_ne.
  - exists bf. split_and!; [done|done|].
    destruct (matches 1 sec bf && valid bf) eqn:Hmv.
    + left. apply andb_true_iff in Hmv as [Hm Hva]. apply matches_spec in Hm as [??].
      destruct Hdata as [_ ->]. done.
    + right. destruct Hdata as [_ ->]. split; [|done]. destruct Hcase as [Hm|[Hr _]].
      * rewrite Hm in Hmv. destruct (dirty bf); [by rewrite Hdv in Hmv|done].
      * by apply recyclable_spec in Hr as [??].
Qed.
End Filled.

Lemma bread_spec sec s env :
  bio_ok s -> 0 <= sec < disksize s -> not_busy s.(bcache) sec ->
  (0 < navail s.(bcache))%nat \/ ~ no_match s.(bcache) sec ->
  exists b bf bc', bread 1 sec s env = Ok b (set_bcache bc' s) env /\
    grabs sec s.(bcache) s.(disk) b bf bc'.
Proof.
  intros Hok Hsec Hnb Hav.
  destruct (bread_eq sec s env Hok Hsec Hnb Hav) as (b & bf & blk & Hb & Hbf & Hnb0 & Hcase & Hblk & ->).
  eexists b, _, _. split; [done|]. apply grabs_filled; try done. apply Hok.
Qed.

(** * bwrite *)

(** A buffer after it has been written to the disk. *)
Definition synced (bf : buf) : buf :=
  set_b_flags (Z.lor (clr (Z.lor bf.(b_flags) B_DIRTY) B_DIRTY) B_VALID) bf.

Lemma synced_facts bf :
  valid (synced bf) = true /\ dirty (synced bf) = false /\ busy (synced bf) = busy bf.
Proof.
  unfold valid, dirty, busy, synced. simpl.
  rewrite !has_lor, has_clr_same, (has_clr_other _ B_DIRTY B_BUSY), has_lor by done.
  rewrite orb_true_r, !orb_false_r. done.
Qed.

Definition disk_write (sec : Z) (blk : list Z) (s : kstate) : kstate :=
  set_dwrites (s.(dwrites) ++ [(sec, blk)])
    (set_disk (<[Z.to_nat sec := blk]> s.(disk)) s).

Lemma bwrite_eq b bf s env :
  s.(bcache) !! b = Some bf -> busy bf = true -> bf.(b_dev) = 1 ->
  0 <= bf.(b_sector) < disksize s ->
  bwrite b s env =
    Ok tt (disk_write bf.(b_sector) bf.(b_data)
             (set_bcache (<[b := synced bf]> s.(bcache)) s)) env.
Proof.
  intros Hb Hbu Hdev Hsec. unfold bwrite. mstep (get_buf_eq b bf s env Hb).
  unfold busy in Hbu. rewrite Hbu. simpl. unfold modify at 1.
  erewrite bind_ok by reflexivity. rewrite (upd_buf_insert b _ bf s) by done.
  set (bf1 := set_b_flags (Z.lor (b_flags bf) B_DIRTY) bf).
  set (s1 := set_bcache (<[b:=bf1]> (bcache s)) s).
  assert (Hb1 : s1.(bcache) !! b = Some bf1)
    by (apply list_lookup_insert_eq; by eapply lookup_lt_Some).
  unfold iderw. mstep (get_buf_eq b bf1 s1 env Hb1).
  assert (has (b_flags bf1) B_BUSY = true) as -> by (simpl; by rewrite has_lor, Hbu).
  assert (Hd : has (b_flags bf1) B_DIRTY = true) by (simpl; by rewrite has_lor, orb_true_r).
  assert ((Z.land (b_flags bf1) (Z.lor B_VALID B_DIRTY) =? B_VALID) = false) as ->.
  { apply Z.eqb_neq. intros E. simpl in E.
    assert (Z.testbit (Z.land (Z.lor (b_flags bf) B_DIRTY) (Z.lor B_VALID B_DIRTY)) 2 = Z.testbit B_VALID 2)
      as Ht by (by rewrite E).
    rewrite Z.land_spec, Z.lor_spec in Ht. unfold B_DIRTY, B_VALID in Ht. simpl in Ht.
    by rewrite orb_true_r in Ht. }
  assert ((b_dev bf1 =? 1) = true) as -> by (simpl; by rewrite Hdev).
  cbn [negb]. rewrite bind_gets.
  assert ((disksize s1 <=? b_sector bf1) = false) as -> by (apply Z.leb_gt; apply Hsec).
  rewrite Hd. unfold modify, bind.
  rewrite (upd_buf_insert b _ bf1 s1) by done.
  erewrite (upd_buf_insert b _ _ (set_dwrites _ _))
    by (apply list_lookup_insert_eq; simpl; rewrite length_insert; by eapply lookup_lt_Some).
  simpl. by rewrite !list_insert_insert_eq.
Qed.

Lemma bwrite_cache_ok b bf bc d :
  cache_ok bc d -> (b < NBUF)%nat -> bc !! b = Some bf -> bf.(b_dev) = 1 ->
  0 <= bf.(b_sector) < Z.of_nat (length d) ->
  cache_ok (<[b := synced bf]> bc) (<[Z.to_nat bf.(b_sector) := bf.(b_data)]> d).
Proof.
  intros Hc Hb Hbf Hdev Hsec. pose proof Hc as (_ & _ & Hbufs & Hu & Hd).
  destruct (Hbufs b bf Hb Hbf) as (Hdl & _).
  destruct (synced_facts bf) as (Hsv & Hsd & _).
  assert (Hfr : forall i bi, (i < NBUF)%nat -> i <> b -> bc !! i = Some bi ->
     b_dev bi = 1 -> b_sector bi <> b_sector bf).
  { intros i bi Hi Hne Hbi Hdi E. apply Hne. by eapply Hu. }
  eapply cache_ok_update; eauto.
  - unfold buf_ok. rewrite length_insert. split_and!; [done|done|done|].
    intros _ _ _. apply list_lookup_insert_eq. lia.
  - intros i bi Hi Hne Hbi. destruct (Hbufs i bi Hi Hbi) as (Hdl' & Hv' & Hdv' & Hcoh').
    unfold buf_ok. rewrite length_insert. split_and!; [done|done|done|].
    intros Hva Hdi Hbu. destruct (Hv' Hva) as [Hdev' ?].
    rewrite list_lookup_insert_ne; [by apply Hcoh'|].
    specialize (Hfr i bi Hi Hne Hbi Hdev'). lia.
  - by apply Forall_insert.
Qed.

Lemma bwrite_view b bf bc d sec :
  cache_ok bc d -> (b < NBUF)%nat -> bc !! b = Some bf -> holds_sector bf.(b_sector) bf ->
  0 <= bf.(b_sector) < Z.of_nat (length d) -> 0 <= sec ->
  view (<[b := synced bf]> bc) (<[Z.to_nat bf.(b_sector) := bf.(b_data)]> d) sec = view bc d sec.
Proof.
  intros Hc Hb Hbf Hh Hsec Hsec'.
  pose proof Hh as (Hdev & _ & Hva).
  destruct (bwrite_cache_ok b bf bc d Hc Hb Hbf Hdev Hsec) as (_ & _ & _ & Hu' & _).
  pose proof Hc as (_ & _ & _ & Hu & _).
  destruct (synced_facts bf) as (Hsv & _ & _).
  assert (Hlt : (b < length bc)%nat) by (by eapply lookup_lt_Some).
  destruct (decide (sec = b_sector bf)) as [->|Hne].
  - rewrite (view_hit bc d _ b bf) by done.
    by rewrite (view_hit _ _ _ b (synced bf)) by (try done; by apply list_lookup_insert_eq).
  - destruct (view_cases bc d sec Hu) as [(i & bi & Hi & Hbi & Hhi & ->)|[Hno ->]].
    + rewrite (view_hit _ _ _ i bi); [done..| |done].
      rewrite list_lookup_insert_ne; [done|]. intros ->. simplify_eq. by destruct Hhi as (_ & ? & _).
    + rewrite view_miss; [apply list_lookup_insert_ne; lia|].
      intros i bi Hi Hbi Hhi. destruct (decide (i = b)) as [->|Hib].
      * rewrite list_lookup_insert_eq in Hbi by done. simplify_eq. by destruct Hhi as (_ & ? & _).
      * rewrite list_lookup_insert_ne in Hbi by done. by eapply Hno.
Qed.

End BioFacts.
