(* ===== verification/BioList.v ===== *)
(** The LRU list of the buffer cache: [binit] and [brelse] as operations on
    the doubly linked list, refined to operations on a list of buffers. *)
From S2P Require Import Prelude Types Spinlock Sched Dll Bio BioFacts.
Import Spinlock Sched Dll Bio BioFacts.

Module BioList.

(** The pointer assignments of [brelse]. *)
Definition unlink (b : nat) (bc : list buf) : list buf :=
  alter (set_b_next (link_of b_next bc b)) (link_of b_prev bc b)
    (alter (set_b_prev (link_of b_prev bc b)) (link_of b_next bc b) bc).

Definition push_front (b : nat) (bc : list buf) : list buf :=
  let n := link_of b_next bc bhead in
  alter (set_b_next b) bhead
    (alter (set_b_prev b) n
      (alter (set_b_prev bhead) b (alter (set_b_next n) b bc))).

(** The list after [b] has been used. *)
Definition move_front (b : nat) (l : list nat) : list nat :=
  b :: filter (fun i => i <> b) l.

(** What a buffer holds, apart from its links. *)
Definition payload (bf : buf) : Z * Z * Z * list Z :=
  (bf.(b_flags), bf.(b_dev), bf.(b_sector), bf.(b_data)).

Definition same_payload (bc bc' : list buf) : Prop :=
  forall i, payload <$> bc' !! i = payload <$> bc !! i.

Definition unbusy (bf : buf) : buf := set_b_flags (clr bf.(b_flags) B_BUSY) bf.

(** ** Links under updates *)

Lemma link_next_upd bc i v j : (i < length bc)%nat ->
  link_of b_next (alter (set_b_next v) i bc) j = fupd (link_of b_next bc) i v j.
Proof.
  intros Hi. unfold link_of, fupd. rewrite list_lookup_alter.
  destruct (lookup_lt_is_Some_2 bc i Hi) as [bf Hbf].
  repeat case_decide; subst; rewrite ?Hbf; try done.
Qed.

Lemma link_prev_upd bc i v j : (i < length bc)%nat ->
  link_of b_prev (alter (set_b_prev v) i bc) j = fupd (link_of b_prev bc) i v j.
Proof.
  intros Hi. unfold link_of, fupd. rewrite list_lookup_alter.
  destruct (lookup_lt_is_Some_2 bc i Hi) as [bf Hbf].
  repeat case_decide; subst; rewrite ?Hbf; try done.
Qed.

Lemma link_same (link : buf -> nat) f bc i j : (forall x, link (f x) = link x) ->
  link_of link (alter f i bc) j = link_of link bc j.
Proof.
  intros Hf. unfold link_of. rewrite list_lookup_alter.
  case_decide; subst; [|done]. destruct (bc !! j); simpl; [apply Hf|done].
Qed.

Lemma length_alter_buf (f : buf -> buf) i bc : length (alter f i bc) = length bc.
Proof. apply length_alter. Qed.

Lemma unlink_links b bc :
  (link_of b_next bc b < length bc)%nat -> (link_of b_prev bc b < length bc)%nat ->
  let nx := link_of b_next bc in let pv := link_of b_prev bc in
  (forall j, link_of b_next (unlink b bc) j = fupd nx (pv b) (nx b) j) /\
  (forall j, link_of b_prev (unlink b bc) j = fupd pv (nx b) (pv b) j).
Proof.
  intros Hn Hp nx pv. subst nx pv. unfold unlink. split; intros j.
  - rewrite link_next_upd by (by rewrite length_alter_buf).
    unfold fupd. case_decide; [done|]. by rewrite link_same.
  - rewrite link_same by done. by rewrite link_prev_upd.
Qed.

Lemma push_links b bc :
  (b < length bc)%nat -> (bhead < length bc)%nat -> (link_of b_next bc bhead < length bc)%nat ->
  let nx := link_of b_next bc in let pv := link_of b_prev bc in
  (forall j, link_of b_next (push_front b bc) j = fupd (fupd nx b (nx bhead)) bhead b j) /\
  (forall j, link_of b_prev (push_front b bc) j = fupd (fupd pv b bhead) (nx bhead) b j).
Proof.
  intros Hb Hh Hn nx pv. subst nx pv. unfold push_front. split; intros j.
  - rewrite link_next_upd by (by rewrite !length_alter_buf).
    unfold fupd at 1 2. case_decide; [done|]. rewrite !link_same by done.
    by rewrite link_next_upd.
  - rewrite link_same by done. rewrite link_prev_upd by (by rewrite !length_alter_buf).
    unfold fupd at 1 2. case_decide; [done|].
    rewrite link_prev_upd by (by rewrite !length_alter_buf).
    unfold fupd. case_decide; [done|]. by rewrite link_same.
Qed.

(** ** brelse moves the buffer to the front *)

Lemma NoDup_head l : l ≡ₚ seq 0 NBUF -> NoDup (bhead :: l) /\ NoDup (l ++ [bhead]).
Proof.
  intros Hp. assert (Hnd : NoDup l) by (rewrite Hp; apply NoDup_seq).
  assert (bhead ∉ l) by (rewrite Hp, elem_of_seq; unfold bhead; lia).
  split; [by constructor|]. apply NoDup_app. split_and!; [done| |apply NoDup_singleton].
  set_solver.
Qed.

Lemma lru_move_front bc l b :
  length bc = S NBUF -> lru bc l -> (b < NBUF)%nat ->
  lru (push_front b (unlink b bc)) (move_front b l).
Proof.
  intros Hlen Hl Hb. pose proof Hl as [Hseg Hperm].
  destruct (NoDup_head l Hperm) as [Hnd1 Hnd2].
  assert (Hin : b ∈ l) by (by eapply lru_elem).
  apply list_elem_of_split in Hin as (l1 & l2 & ->).
  apply seg_app in Hseg as [Hs1 Hs2].
  assert (Hnb : (b ∉ l1 ++ l2) /\ b <> bhead).
  { apply NoDup_cons in Hnd1 as [Hh Hnd1]. apply NoDup_app in Hnd1 as (_ & Hx & Hnd1).
    apply NoDup_cons in Hnd1 as [Hb2 _]. set_solver. }
  assert (Hmv : move_front b (l1 ++ b :: l2) = b :: l1 ++ l2).
  { unfold move_front. f_equal. rewrite filter_app, filter_cons_False by naive_solver.
    rewrite !filter_all; [done| |]; apply Forall_forall; intros x Hx ->; set_solver. }
  rewrite Hmv. split.
  2:{ by rewrite <- Hperm, Permutation_middle. }
  assert (Hrange : forall i, i ∈ bhead :: l1 ++ b :: l2 -> (i < length bc)%nat).
  { intros i [->|Hi]%elem_of_cons; [unfold bhead; lia|].
    rewrite Hperm, elem_of_seq in Hi. lia. }
  assert (Hnx : (link_of b_next bc b < length bc)%nat).
  { apply Hrange. apply seg_nx_start in Hs2. set_solver. }
  assert (Hpv : (link_of b_prev bc b < length bc)%nat).
  { apply Hrange. apply seg_pv_end in Hs1. set_solver. }
  destruct (unlink_links b bc Hnx Hpv) as [Hun Hup].
  assert (Hlu : length (unlink b bc) = length bc)
    by (unfold unlink; by rewrite !length_alter_buf).
  assert (Hsu : seg (link_of b_next (unlink b bc)) (link_of b_prev (unlink b bc)) bhead (l1 ++ l2) bhead).
  { eapply seg_ext; [intros; apply Hun|intros; apply Hup|].
    apply seg_unlink; [done|by rewrite <- app_assoc in Hnd2|done|done]. }
  destruct (push_links b (unlink b bc)) as [Hqn Hqp].
  { rewrite Hlu. apply Hrange. set_solver. }
  { rewrite Hlu. apply Hrange. set_solver. }
  { rewrite Hlu. apply Hrange. apply seg_nx_start in Hsu. set_solver. }
  eapply seg_ext; [intros; apply Hqn|intros; apply Hqp|].
  assert (Hnd' : NoDup (bhead :: l1 ++ l2) /\ NoDup ((l1 ++ l2) ++ [bhead])).
  { assert (Hsub : l1 ++ b :: l2 ≡ₚ b :: l1 ++ l2) by (by rewrite Permutation_middle).
    rewrite Hsub in Hnd1, Hnd2. simpl in Hnd2.
    apply NoDup_cons in Hnd2 as [_ ?]. split; [|done].
    apply NoDup_cons in Hnd1 as [? Hnd1]. apply NoDup_cons in Hnd1 as [_ Hnd1].
    constructor; [set_solver|done]. }
  apply seg_push; try done; try apply Hnd'; try apply Hnb.
  rewrite not_elem_of_cons. naive_solver.
Qed.

(** ** The rest of the cache is untouched *)

Lemma same_payload_alter f i bc :
  (forall x, payload (f x) = payload x) -> same_payload bc (alter f i bc).
Proof.
  intros Hf j. rewrite list_lookup_alter. case_decide; subst; [|done].
  destruct (bc !! j); simpl; [by rewrite Hf|done].
Qed.

Lemma same_payload_trans bc1 bc2 bc3 :
  same_payload bc1 bc2 -> same_payload bc2 bc3 -> same_payload bc1 bc3.
Proof. intros H1 H2 i. by rewrite H2, H1. Qed.

Lemma move_payload b bc : same_payload bc (push_front b (unlink b bc)).
Proof.
  unfold push_front, unlink.
  repeat (eapply same_payload_trans; [|by apply same_payload_alter]). by intros i.
Qed.

Lemma payload_buf bf bf' d :
  payload bf' = payload bf -> buf_ok d bf -> buf_ok d bf'.
Proof. unfold payload, buf_ok, valid, dirty, busy. intros [= -> -> -> ->]. done. Qed.

Lemma same_payload_lookup bc bc' i bf' :
  same_payload bc bc' -> bc' !! i = Some bf' ->
  exists bf, bc !! i = Some bf /\ payload bf' = payload bf.
Proof.
  intros H Hi. specialize (H i). rewrite Hi in H. simpl in H.
  destruct (bc !! i) as [bf|]; simpl in H; [|done]. exists bf. split; [done|congruence].
Qed.

Lemma same_payload_length bc bc' : same_payload bc bc' -> length bc' = length bc.
Proof.
  intros H. assert (Hf : payload <$> bc' = payload <$> bc).
  { apply list_eq. intros i. rewrite !list_lookup_fmap. apply H. }
  rewrite <- (length_fmap payload bc'), Hf. apply length_fmap.
Qed.

Lemma cache_ok_payload bc bc' d l :
  cache_ok bc d -> same_payload bc bc' -> lru bc' l -> cache_ok bc' d.
Proof.
  intros (Hlen & _ & Hbufs & Hu & Hd) Hsp Hl.
  split_and!; [by rewrite (same_payload_length bc) | by exists l | | | done].
  - intros i bf' Hi Hbf'. destruct (same_payload_lookup _ _ _ _ Hsp Hbf') as (bf & Hbf & Hp).
    eapply payload_buf; [done|eauto].
  - intros i j bi bj Hi Hj Hbi Hbj. 
    destruct (same_payload_lookup _ _ _ _ Hsp Hbi) as (bi' & Hbi' & [= _ -> -> _]).
    destruct (same_payload_lookup _ _ _ _ Hsp Hbj) as (bj' & Hbj' & [= _ -> -> _]).
    by apply Hu.
Qed.

Lemma view_payload bc bc' d sec :
  cache_ok bc d -> cache_ok bc' d -> same_payload bc bc' -> view bc' d sec = view bc d sec.
Proof.
  intros (_ & _ & _ & Hu & _) (_ & _ & _ & Hu' & _) Hsp.
  assert (Hh : forall bf bf', payload bf' = payload bf -> holds_sector sec bf -> holds_sector sec bf').
  { unfold payload, holds_sector, valid. intros bf bf' [= -> -> -> _]. done. }
  destruct (view_cases bc' d sec Hu') as [(i & bf' & Hi & Hbf' & Hhs & ->)|[Hno ->]].
  - destruct (same_payload_lookup _ _ _ _ Hsp Hbf') as (bf & Hbf & Hp).
    rewrite (view_hit bc d sec i bf) by eauto. unfold payload in Hp. congruence.
  - symmetry. apply view_miss. intros i bf Hi Hbf Hhs.
    specialize (Hsp i) as Hi'. rewrite Hbf in Hi'. simpl in Hi'.
    destruct (bc' !! i) as [bf'|] eqn:Hbf'; simpl in Hi'; [|done].
    eapply Hno; [exact Hi|exact Hbf'|]. eapply Hh; [|exact Hhs]. congruence.
Qed.

(** ** brelse *)

Lemma get_link i s env : (i < length s.(bcache))%nat ->
  exists x, get_buf i s env = Ok x s env /\ s.(bcache) !! i = Some x /\
    b_next x = link_of b_next s.(bcache) i /\ b_prev x = link_of b_prev s.(bcache) i.
Proof.
  intros Hi. destruct (lookup_lt_is_Some_2 _ _ Hi) as [x Hx].
  exists x. split_and!; [by apply get_buf_eq|done| |]; unfold link_of; by rewrite Hx.
Qed.

Definition brelsed (b : nat) (bc : list buf) : list buf :=
  alter unbusy b (push_front b (unlink b bc)).

Lemma seg_ne nx pv l b : seg nx pv bhead l bhead -> b ∈ l -> NoDup (bhead :: l) -> nx b <> b.
Proof.
  intros Hs Hb Hnd. apply list_elem_of_split in Hb as (l1 & l2 & ->).
  apply seg_app in Hs as [_ Hs]. apply seg_nx_start in Hs as Hn. intros E. rewrite E in Hn.
  apply NoDup_cons in Hnd as [Hh Hnd]. apply NoDup_app in Hnd as (_ & _ & Hnd).
  apply NoDup_cons in Hnd as [Hb _].
  apply elem_of_app in Hn as [?|?%list_elem_of_singleton]; [done|]. subst. set_solver.
Qed.

Lemma brelse_eq b bf s env :
  bio_ok s -> (b < NBUF)%nat -> s.(bcache) !! b = Some bf -> busy bf = true ->
  brelse b s env = Ok tt (woken (chan_buf b) (set_bcache (brelsed b s.(bcache)) s)) env.
Proof.
  intros ((Hq & Hpt & Hnp) & Hlk & (Hlen & [l Hl] & _)) Hb Hbf Hbu.
  unfold brelse. mstep (get_buf_eq b bf s env Hbf). unfold busy in Hbu. rewrite Hbu. cbn [negb].
  mstep (acquire_quiet bcache_lock s env Hq Hlk). set (s0 := with_lock bcache_lock s).
  set (bc := bcache s) in *.
  pose proof Hl as [Hseg Hperm]. destruct (NoDup_head l Hperm) as [Hnd1 Hnd2].
  assert (Hin : b ∈ l) by (by eapply lru_elem).
  assert (Hrange : forall i, i ∈ bhead :: l -> (i < length bc)%nat).
  { intros i [->|Hi]%elem_of_cons; [unfold bhead; lia|].
    rewrite Hperm, elem_of_seq in Hi. lia. }
  pose proof (seg_ne _ _ _ _ Hseg Hin Hnd1) as Hnx.
  assert (Hpv : link_of b_prev bc b <> b).
  { apply (seg_ne (link_of b_prev bc) (link_of b_next bc) (reverse l));
      [by apply seg_reverse|by apply elem_of_reverse|by rewrite reverse_Permutation]. }
  (* first read of b *)
  mstep (get_buf_eq b bf s0 env Hbf). rewrite bind_modify.
  replace (b_next bf) with (link_of b_next bc b) by (unfold link_of; by rewrite Hbf).
  replace (b_prev bf) with (link_of b_prev bc b) by (unfold link_of; by rewrite Hbf).
  (* second read of b: unchanged *)
  set (s1 := upd_buf _ _ s0).
  assert (Hbf1 : s1.(bcache) !! b = Some bf)
    by (unfold s1, upd_buf; simpl; by rewrite list_lookup_alter_ne).
  mstep (get_buf_eq b bf s1 env Hbf1). rewrite bind_modify.
  replace (b_next bf) with (link_of b_next bc b) by (unfold link_of; by rewrite Hbf).
  replace (b_prev bf) with (link_of b_prev bc b) by (unfold link_of; by rewrite Hbf).
  change (upd_buf (link_of b_prev bc b) (set_b_next (link_of b_next bc b)) s1)
    with (set_bcache (unlink b bc) s0).
  (* the head *)
  assert (Hlu : length (unlink b bc) = S NBUF) by (unfold unlink; by rewrite !length_alter_buf).
  destruct (get_link bhead (set_bcache (unlink b bc) s0) env ltac:(simpl; rewrite Hlu; unfold bhead; lia))
    as (h & Hh & Hh' & Hhn & _).
  mstep Hh. rewrite !bind_modify. rewrite Hhn.
  set (s2 := upd_buf b (set_b_prev bhead) _).
  assert (Hh2 : s2.(bcache) !! bhead = Some h).
  { unfold s2, upd_buf. simpl. rewrite !list_lookup_alter_ne by (unfold bhead; lia). done. }
  mstep (get_buf_eq bhead h s2 env Hh2). rewrite !bind_modify. rewrite Hhn.
  change (upd_buf b _ (upd_buf bhead _ (upd_buf _ _ s2)))
    with (set_bcache (brelsed b bc) s0).
  erewrite bind_ok.
  2:{ apply wakeup_eq. split_and!; [by apply quiet_with_lock| |done].
      simpl. set_solver. }
  rewrite (release_quiet bcache_lock s) by done. done.
Qed.

End BioList.
