(* ===== verification/BioAbs.v ===== *)
(** What a client of the buffer cache sees: the buffers that are held, the
    sectors that wait for a commit, the disk, and how many buffers are free.
    Each cache operation is described on these. *)
From S2P Require Import Prelude Types Spinlock Sched Dll Bio BioFacts BioList.
Import Spinlock Sched Dll Bio BioFacts BioList.

Module BioAbs.

(** Buffer [i] is held, with the given contents. *)
Definition held_buf (bc : list buf) (i : nat) (pl : Z * Z * Z * list Z) : Prop :=
  exists bf, (i < NBUF)%nat /\ bc !! i = Some bf /\ busy bf = true /\ payload bf = pl.

(** Sector [sec] waits for a commit with contents [blk]. *)
Definition pending (bc : list buf) (sec : Z) (blk : list Z) : Prop :=
  exists i bf, (i < NBUF)%nat /\ bc !! i = Some bf /\ dirty bf = true /\
    holds_sector sec bf /\ bf.(b_data) = blk.

(** Two caches a client cannot tell apart. *)
Definition same_client (bc bc' : list buf) : Prop :=
  (forall i pl, held_buf bc' i pl <-> held_buf bc i pl) /\
  (forall sec blk, pending bc' sec blk <-> pending bc sec blk).

Lemma pending_view bc d sec blk : uniq bc -> pending bc sec blk -> view bc d sec = Some blk.
Proof. intros Hu (i & bf & Hi & Hbf & _ & Hh & <-). by eapply view_hit. Qed.

Lemma pending_cached bc sec blk : pending bc sec blk -> ~ no_match bc sec.
Proof.
  intros (i & bf & Hi & Hbf & _ & Hh & _) Hno. specialize (Hno i bf Hi Hbf).
  apply holds_matches in Hh. congruence.
Qed.

Lemma held_valid bc d i pl : cache_ok bc d -> held_buf bc i pl ->
  exists bf, (i < NBUF)%nat /\ bc !! i = Some bf /\ buf_ok d bf /\ busy bf = true /\ payload bf = pl.
Proof. intros (_ & _ & Hb & _) (bf & ? & ? & ? & ?). exists bf. split_and!; eauto. Qed.

(** Outside of held buffers and pending sectors the cache agrees with the
    disk. *)
Lemma view_clean bc d sec :
  cache_ok bc d ->
  not_busy bc sec -> (forall blk, ~ pending bc sec blk) ->
  view bc d sec = d !! Z.to_nat sec.
Proof.
  intros (_ & _ & Hb & Hu & _) Hnb Hnp.
  destruct (view_cases bc d sec Hu) as [(i & bf & Hi & Hbf & Hh & ->)|[_ ->]]; [|done].
  destruct (Hb i bf Hi Hbf) as (_ & _ & _ & Hcoh). symmetry.
  pose proof Hh as (_ & <- & Hv). apply Hcoh; [done| |].
  - apply not_true_iff_false. intros Hd. eapply Hnp. by exists i, bf.
  - eapply Hnb; [done..|]. by apply holds_matches.
Qed.

(** ** Taking a buffer *)

Lemma grabs_held sec bc d b bf bc' i pl :
  grabs sec bc d b bf bc' ->
  held_buf bc' i pl <-> (i = b /\ pl = payload bf \/ held_buf bc i pl).
Proof.
  intros (Hb & Hbf & _ & Hbu & _ & _ & _ & Ho & (bf0 & Hbf0 & Hnb & _) & _). split.
  - intros (bi & Hi & Hbi & Hbui & <-). destruct (decide (i = b)) as [->|Hne].
    + left. naive_solver.
    + right. rewrite Ho in Hbi by done. by exists bi.
  - intros [[-> ->]|(bi & Hi & Hbi & Hbui & <-)].
    + by exists bf.
    + exists bi. split_and!; [done| |done|done]. rewrite Ho; [done|]. intros ->. congruence.
Qed.

Lemma grabs_pending sec bc d b bf bc' sec' blk :
  uniq bc -> grabs sec bc d b bf bc' -> pending bc' sec' blk <-> pending bc sec' blk.
Proof.
  intros Hu (Hb & Hbf & Hh & Hbu & Hv & _ & _ & Ho & (bf0 & Hbf0 & Hnb & Hc) & _). split.
  - intros (i & bi & Hi & Hbi & Hd & Hhi & <-). destruct (decide (i = b)) as [->|Hne].
    + simplify_eq. destruct Hc as [[Hh0 Hd0]|[_ ?]]; [|congruence].
      assert (sec' = sec) as -> by (destruct Hh as (_ & <- & _), Hhi as (_ & ? & _); congruence).
      exists b, bf0. split_and!; [done|done|congruence|done|].
      rewrite (view_hit bc d sec b bf0) in Hv by done. congruence.
    + rewrite Ho in Hbi by done. by exists i, bi.
  - intros (i & bi & Hi & Hbi & Hd & Hhi & <-). destruct (decide (i = b)) as [->|Hne].
    + simplify_eq. destruct Hc as [[Hh0 Hd0]|[? _]]; [|congruence].
      assert (sec' = sec) as -> by (destruct Hh0 as (_ & <- & _), Hhi as (_ & ? & _); congruence).
      exists b, bf. split_and!; [done|done|congruence|done|].
      rewrite (view_hit bc d sec b _ Hu Hb Hbf0 Hh0) in Hv. congruence.
    + exists i, bi. split_and!; [done| |done..]. by rewrite Ho.
Qed.

(** ** Releasing a buffer *)

Lemma brelsed_lookup b bc i bf' :
  brelsed b bc !! i = Some bf' ->
  exists bf, bc !! i = Some bf /\
    payload bf' = payload (if decide (i = b) then unbusy bf else bf).
Proof.
  unfold brelsed. rewrite list_lookup_alter. intros H.
  destruct (decide (b = i)) as [->|Hne].
  - destruct (push_front i (unlink i bc) !! i) as [x|] eqn:Hx; simpl in H; [|done].
    destruct (same_payload_lookup _ _ _ _ (move_payload i bc) Hx) as (bf & Hbf & Hp).
    exists bf. split; [done|]. simplify_eq. rewrite decide_True by done.
    unfold payload in *. simpl. congruence.
  - destruct (same_payload_lookup _ _ _ _ (move_payload b bc) H) as (bf & Hbf & Hp).
    exists bf. rewrite decide_False by done. done.
Qed.

Lemma brelsed_lookup_inv b bc i bf :
  bc !! i = Some bf ->
  exists bf', brelsed b bc !! i = Some bf' /\
    payload bf' = payload (if decide (i = b) then unbusy bf else bf).
Proof.
  intros H. assert (Hi : (i < length (brelsed b bc))%nat).
  { unfold brelsed. rewrite length_alter, (same_payload_length bc) by apply move_payload.
    by eapply lookup_lt_Some. }
  destruct (lookup_lt_is_Some_2 _ _ Hi) as [bf' Hbf']. exists bf'. split; [done|].
  destruct (brelsed_lookup _ _ _ _ Hbf') as (bf2 & Hbf2 & Hp). assert (bf2 = bf) as -> by congruence. done.
Qed.

Lemma unbusy_facts bf :
  busy (unbusy bf) = false /\ valid (unbusy bf) = valid bf /\ dirty (unbusy bf) = dirty bf.
Proof.
  unfold busy, valid, dirty, unbusy. simpl.
  rewrite has_clr_same, !has_clr_other by done. done.
Qed.

Lemma payload_facts bf bf' : payload bf' = payload bf ->
  busy bf' = busy bf /\ valid bf' = valid bf /\ dirty bf' = dirty bf /\
  b_dev bf' = b_dev bf /\ b_sector bf' = b_sector bf /\ b_data bf' = b_data bf.
Proof. unfold payload, busy, valid, dirty. by intros [= -> -> -> ->]. Qed.

Lemma brelsed_ok b bf bc d :
  cache_ok bc d -> (b < NBUF)%nat -> bc !! b = Some bf ->
  (valid bf = true -> dirty bf = false -> d !! Z.to_nat bf.(b_sector) = Some bf.(b_data)) ->
  cache_ok (brelsed b bc) d /\
  (forall sec, view (brelsed b bc) d sec = view bc d sec) /\
  navail (brelsed b bc) = (navail (<[b := unbusy bf]> bc))%nat.
Proof.
  intros Hc Hb Hbf Hclean. pose proof Hc as (Hlen & [l Hl] & Hbufs & Hu & Hd).
  destruct (Hbufs b bf Hb Hbf) as (Hdl & Hv & Hdv & _).
  destruct (unbusy_facts bf) as (Hub & Huv & Hud).
  assert (Hins : cache_ok (<[b := unbusy bf]> bc) d).
  { eapply cache_ok_update; eauto.
    - unfold buf_ok. rewrite Huv, Hud. split_and!; [done|done|done|]. intros ? ? _. by apply Hclean. }
  assert (Hsp : same_payload (<[b := unbusy bf]> bc) (brelsed b bc)).
  { intros i. destruct ((<[b:=unbusy bf]> bc) !! i) as [bi|] eqn:Hbi.
    - destruct (decide (i = b)) as [->|Hne].
      + rewrite list_lookup_insert_eq in Hbi by (by eapply lookup_lt_Some). simplify_eq.
        destruct (brelsed_lookup_inv b bc b bf Hbf) as (bf' & -> & Hp).
        rewrite decide_True in Hp by done. simpl. by rewrite Hp.
      + rewrite list_lookup_insert_ne in Hbi by done.
        destruct (brelsed_lookup_inv b bc i bi Hbi) as (bf' & -> & Hp).
        rewrite decide_False in Hp by done. simpl. by rewrite Hp.
    - apply lookup_ge_None in Hbi. rewrite length_insert in Hbi. simpl.
      rewrite (proj2 (lookup_ge_None _ _)); [done|].
      unfold brelsed. rewrite length_alter, (same_payload_length bc) by apply move_payload. done. }
  assert (Hlru : lru (brelsed b bc) (move_front b l)).
  { destruct (lru_move_front bc l b Hlen Hl Hb) as [Hseg Hp]. split; [|done].
    eapply seg_ext; [| |exact Hseg]; intros i _; unfold brelsed; by apply link_same. }
  assert (Hc' : cache_ok (brelsed b bc) d) by (by eapply cache_ok_payload).
  split_and!; [done| |].
  - intros sec. rewrite (view_payload (<[b := unbusy bf]> bc)) by done.
    apply (view_insert bc d b bf); try done; [by destruct Hins as (_&_&_&?&_)| |].
    + intros Hva. left. destruct (Hv Hva) as [? _]. unfold holds_sector. rewrite Huv. done.
    + rewrite Huv. intros Hva. destruct (Hv Hva) as [? _]. by apply (view_hit bc d _ b bf).
  - unfold navail. assert (payload <$> brelsed b bc = payload <$> (<[b := unbusy bf]> bc)) as Hpl.
    { apply list_eq. intros i. rewrite !list_lookup_fmap. apply Hsp. }
    assert (forall l1 l2 : list buf, payload <$> l1 = payload <$> l2 ->
      length (filter (fun x => recyclable x = true) (take NBUF l1)) =
      length (filter (fun x => recyclable x = true) (take NBUF l2))) as Hcount; [|by apply Hcount].
    generalize NBUF. intros n. revert n. clear.
    intros n l1. revert n. induction l1 as [|x l1 IH]; intros n [|y l2] [=]; [done|].
    destruct n; [done|]. simpl. rewrite !filter_cons.
    assert (recyclable x = recyclable y) as -> by (unfold recyclable; congruence).
    case_decide; simpl; [f_equal|]; by apply IH.
Qed.

Lemma brelsed_held b bc i pl :
  held_buf (brelsed b bc) i pl <-> held_buf bc i pl /\ i <> b.
Proof.
  split.
  - intros (bf' & Hi & Hbf' & Hbu & <-).
    destruct (brelsed_lookup _ _ _ _ Hbf') as (bf & Hbf & Hp).
    destruct (payload_facts _ _ Hp) as (Hb & _). case_decide; subst.
    + destruct (unbusy_facts bf) as (? & _). congruence.
    + split; [|done]. exists bf. split_and!; [done|done|congruence|done].
  - intros [(bf & Hi & Hbf & Hbu & <-) Hne].
    destruct (brelsed_lookup_inv b bc i bf Hbf) as (bf' & Hbf' & Hp).
    rewrite decide_False in Hp by done. destruct (payload_facts _ _ Hp) as (Hb & _).
    exists bf'. split_and!; [done|done|congruence|done].
Qed.

Lemma brelsed_pending b bc sec blk :
  pending (brelsed b bc) sec blk <-> pending bc sec blk.
Proof.
  assert (Hfact : forall bf bf' i, payload bf' = payload (if decide (i = b) then unbusy bf else bf) ->
    dirty bf' = dirty bf /\ (holds_sector sec bf' <-> holds_sector sec bf) /\ b_data bf' = b_data bf).
  { intros bf bf' i Hp. destruct (payload_facts _ _ Hp) as (_ & Hv & Hd & Hdev & Hs & Hda).
    destruct (unbusy_facts bf) as (_ & Hv' & Hd'). unfold holds_sector.
    case_decide; rewrite Hd, Hv, Hdev, Hs, Hda; rewrite ?Hv', ?Hd'; done. }
  split; intros (i & bi & Hi & Hbi & Hd & Hh & <-).
  - destruct (brelsed_lookup _ _ _ _ Hbi) as (bf & Hbf & Hp).
    destruct (Hfact _ _ _ Hp) as (? & ? & ->). exists i, bf. split_and!; try done; [congruence|tauto].
  - destruct (brelsed_lookup_inv b bc i bi Hbi) as (bf & Hbf & Hp).
    destruct (Hfact _ _ _ Hp) as (? & ? & <-). exists i, bf. split_and!; try done; [congruence|tauto].
Qed.

(** ** The operations, as a client sees them *)

(** Cache operations change the cache, the disk and the run queue only. *)
Definition frame (s s' : kstate) : Prop :=
  exists bc pr d w, length pr = length s.(procs) /\
    s' = set_dwrites w (set_disk d (set_procs pr (set_bcache bc s))).

Lemma frame_refl s : frame s s.
Proof. exists (bcache s), (procs s), (disk s), (dwrites s). by destruct s. Qed.

Lemma frame_trans s1 s2 s3 : frame s1 s2 -> frame s2 s3 -> frame s1 s3.
Proof.
  intros (bc & pr & d & w & Hl & ->) (bc' & pr' & d' & w' & Hl' & ->).
  exists bc', pr', d', w'. split; [simpl in *; congruence|done].
Qed.

Lemma frame_bio_ok s s' :
  frame s s' -> bio_ok s -> cache_ok s'.(bcache) s'.(disk) -> bio_ok s'.
Proof.
  intros (bc & pr & d & w & Hl & ->) ((Hq & Hp & Hn) & Hlk & _) Hc.
  split_and!; [split_and!; [done|done|simpl in *; congruence]|done|done].
Qed.

Lemma frame_klog s s' : frame s s' -> s'.(klog) = s.(klog).
Proof. by intros (bc & pr & d & w & Hl & ->). Qed.

Lemma frame_icache s s' : frame s s' -> s'.(icache) = s.(icache).
Proof. by intros (bc & pr & d & w & Hl & ->). Qed.

Lemma frame_set_icache ic s s' : frame s s' -> frame (set_icache ic s) (set_icache ic s').
Proof. intros (bc & pr & d & w & Hl & ->). by exists bc, pr, d, w. Qed.

Lemma set_icache_same s : set_icache s.(icache) s = s.
Proof. by destruct s. Qed.

Definition held_by (s : kstate) := held_buf s.(bcache).
Definition pend (s : kstate) := pending s.(bcache).
Definition avail (s : kstate) : nat := navail s.(bcache).

Lemma bread_abs sec s env :
  bio_ok s -> 0 <= sec < disksize s -> not_busy s.(bcache) sec ->
  (0 < avail s)%nat \/ (exists blk, pend s sec blk) ->
  exists b bf s', bread 1 sec s env = Ok b s' env /\
    frame s s' /\ bio_ok s' /\ s'.(disk) = s.(disk) /\ s'.(dwrites) = s.(dwrites) /\
    (b < NBUF)%nat /\ s'.(bcache) !! b = Some bf /\ holds_sector sec bf /\ busy bf = true /\
    sview s sec = Some bf.(b_data) /\
    (forall i pl, held_by s' i pl <-> (i = b /\ pl = payload bf \/ held_by s i pl)) /\
    (forall pl, ~ held_by s b pl) /\
    (forall sec' blk, pend s' sec' blk <-> pend s sec' blk) /\
    avail s = (avail s' + if dirty bf then 0 else 1)%nat.
Proof.
  intros Hok Hsec Hnb Hav.
  destruct (bread_spec sec s env Hok Hsec Hnb) as (b & bf & bc' & Hr & Hg).
  { destruct Hav as [?|[blk Hp]]; [by left|right]. by eapply pending_cached. }
  pose proof Hg as (Hb & Hbf & Hh & Hbu & Hv & Hc & _ & _ & (bf0 & Hbf0 & Hnb0 & _) & Hna).
  assert (Hf : frame s (set_bcache bc' s)).
  { exists bc', (procs s), (disk s), (dwrites s). by destruct s. }
  exists b, bf, (set_bcache bc' s). split_and!; try done.
  - by eapply frame_bio_ok.
  - intros i pl. by eapply grabs_held.
  - intros pl (bf1 & _ & Hbf1 & Hbu1 & _). congruence.
  - intros sec' blk. eapply grabs_pending; [|done]. apply Hok.
Qed.

Lemma brelse_abs b bf s env :
  bio_ok s -> (b < NBUF)%nat -> s.(bcache) !! b = Some bf -> busy bf = true ->
  (valid bf = true -> dirty bf = false -> s.(disk) !! Z.to_nat bf.(b_sector) = Some bf.(b_data)) ->
  exists s', brelse b s env = Ok tt s' env /\
    frame s s' /\ bio_ok s' /\ s'.(disk) = s.(disk) /\ s'.(dwrites) = s.(dwrites) /\
    (forall i pl, held_by s' i pl <-> held_by s i pl /\ i <> b) /\
    (forall sec' blk, pend s' sec' blk <-> pend s sec' blk) /\
    avail s' = (avail s + if dirty bf then 0 else 1)%nat.
Proof.
  intros Hok Hb Hbf Hbu Hclean.
  rewrite (brelse_eq b bf s env Hok Hb Hbf Hbu).
  assert (Hc : cache_ok s.(bcache) s.(disk)) by apply Hok.
  destruct (brelsed_ok b bf _ _ Hc Hb Hbf Hclean) as (Hc' & _ & Hna).
  set (s' := woken (chan_buf b) (set_bcache (brelsed b (bcache s)) s)).
  assert (Hf : frame s s').
  { exists (brelsed b (bcache s)), (wake (chan_buf b) <$> procs s), (disk s), (dwrites s).
    split; [by rewrite length_fmap|]. by destruct s. }
  exists s'. split_and!; try done.
  - by eapply frame_bio_ok.
  - intros i pl. apply brelsed_held.
  - intros sec' blk. apply brelsed_pending.
  - unfold avail, s'. simpl. rewrite Hna.
    pose proof (navail_insert (bcache s) b bf (unbusy bf) Hb Hbf) as Hn.
    destruct (unbusy_facts bf) as (Hu1 & _ & Hu3). unfold recyclable in Hn.
    fold (busy bf) (dirty bf) (busy (unbusy bf)) (dirty (unbusy bf)) in Hn.
    rewrite Hbu, Hu1, Hu3 in Hn. destruct (dirty bf); simpl in Hn; lia.
Qed.

(** Writing [v] to the held buffer [b] and from there to the disk. *)
Lemma write_abs b bf v s env :
  bio_ok s -> (b < NBUF)%nat -> s.(bcache) !! b = Some bf -> busy bf = true ->
  valid bf = true -> length v = Z.to_nat BSIZE ->
  let bf' := synced (set_b_data v bf) in
  exists s', bwrite b (upd_buf b (set_b_data v) s) env = Ok tt s' env /\
    frame s s' /\ bio_ok s' /\ s'.(disk) = <[Z.to_nat bf.(b_sector) := v]> s.(disk) /\
    s'.(dwrites) = s.(dwrites) ++ [(bf.(b_sector), v)] /\
    s'.(bcache) !! b = Some bf' /\
    (forall i pl, held_by s' i pl <-> (i = b /\ pl = payload bf' \/ held_by s i pl /\ i <> b)) /\
    (forall sec' blk, pend s' sec' blk <-> pend s sec' blk /\ sec' <> bf.(b_sector)) /\
    avail s' = avail s.
Proof.
  intros Hok Hb Hbf Hbu Hva Hv bf'. pose proof Hok as (_ & _ & Hc).
  pose proof Hc as (_ & _ & Hbufs & Hu & _).
  destruct (Hbufs b bf Hb Hbf) as (_ & Hsec & Hdv & _). destruct (Hsec Hva) as [Hdev Hrange].
  pose proof (lookup_lt_Some _ _ _ Hbf) as Hlt.
  rewrite (upd_buf_insert b _ bf s Hbf).
  set (bf1 := set_b_data v bf) in *. set (bc1 := <[b := bf1]> (bcache s)).
  assert (Hc1 : cache_ok bc1 (disk s)).
  { apply (cache_ok_update _ (disk s) _ b bf); try done; [| |by eauto|apply Hc].
    - unfold buf_ok. split_and!; [done|done|done|]. intros _ _ E. unfold busy, bf1 in *. simpl in E. congruence.
    - intros i bi Hi Hne Hbi Hdi _ E. apply Hne. by eapply Hu. }
  assert (Hbf1 : bc1 !! b = Some bf1) by (by apply list_lookup_insert_eq).
  rewrite (bwrite_eq b bf1 (set_bcache bc1 s)) by done.
  pose proof (bwrite_cache_ok b bf1 bc1 (disk s) Hc1 Hb Hbf1 Hdev Hrange) as Hc2.
  assert (Hbc2 : <[b := synced bf1]> bc1 = <[b := bf']> (bcache s)) by apply list_insert_insert_eq.
  rewrite Hbc2 in Hc2. destruct (synced_facts bf1) as (Hsv & Hsd & Hsb).
  set (s' := disk_write (b_sector bf1) (b_data bf1) _).
  assert (Hs' : bcache s' = <[b := bf']> (bcache s)) by apply Hbc2.
  assert (Hb' : bcache s' !! b = Some bf') by (rewrite Hs'; by apply list_lookup_insert_eq).
  assert (Ho : forall i, i <> b -> bcache s' !! i = bcache s !! i)
    by (intros; rewrite Hs'; by apply list_lookup_insert_ne).
  assert (Hf : frame s s').
  { exists (bcache s'), (procs s), (disk s'), (dwrites s'). by destruct s. }
  exists s'. split_and!; try done.
  - eapply frame_bio_ok; [done|done|]. rewrite Hs'. apply Hc2.
  - intros i pl. split.
    + intros (bi & Hi & Hbi & Hbui & <-). destruct (decide (i = b)) as [->|Hne].
      * left. simplify_eq. done.
      * right. rewrite Ho in Hbi by done. split; [|done]. by exists bi.
    + intros [[-> ->]|[(bi & Hi & Hbi & Hbui & <-) Hne]].
      * exists bf'. split_and!; [done|done| |done]. unfold bf'. by rewrite Hsb.
      * exists bi. split_and!; [done|by rewrite Ho|done|done].
  - intros sec' blk. split.
    + intros (i & bi & Hi & Hbi & Hdi & Hhi & <-). destruct (decide (i = b)) as [->|Hne].
      * simplify_eq. unfold bf' in Hdi. congruence.
      * rewrite Ho in Hbi by done. split; [by exists i, bi|].
        destruct Hhi as (Hdi' & <- & _). intros E. apply Hne. by eapply Hu.
    + intros [(i & bi & Hi & Hbi & Hdi & Hhi & <-) Hne'].
      assert (i <> b) by (intros ->; simplify_eq; by destruct Hhi as (_ & ? & _)).
      exists i, bi. split_and!; try done. by rewrite Ho.
  - unfold avail. rewrite Hs'. pose proof (navail_insert (bcache s) b bf bf' Hb Hbf) as Hn.
    unfold recyclable in Hn. fold (busy bf) (busy bf') in Hn.
    assert (busy bf' = true) as E by (unfold bf'; rewrite Hsb; done). rewrite E, Hbu in Hn. simpl in Hn. lia.
Qed.

End BioAbs.
