(* ===== verification/BioRep.v ===== *)
(** The interface the rest of the file system uses: the buffer cache as a set
    [H] of held buffers and a map [P] of sectors that wait for a commit, on
    top of a disk. [rep H P s] says that the kernel state [s] stands for
    them; each operation of bio.c is a transition of [H], [P] and the disk.
    Module BioInit: the cache that binit leaves satisfies it. *)
From S2P Require Import Prelude Types Spinlock Sched Dll Bio BioFacts BioList BioAbs.
Import Spinlock Sched Dll Bio BioFacts BioList BioAbs.

Module BioRep.

(** A held buffer: its index, flags, device, sector and data. *)
Definition hbuf : Type := nat * (Z * Z * Z * list Z).
Definition hb_sector (e : hbuf) : Z := e.2.1.2.
Definition hb_clean (e : hbuf) : bool := negb (has e.2.1.1.1 B_DIRTY).
Definition nclean (H : list hbuf) : nat := length (filter (fun e => hb_clean e = true) H).

Definition hb_ok (e : hbuf) : Prop :=
  has e.2.1.1.1 B_VALID = true /\ e.2.1.1.2 = 1.

Definition rep (H : list hbuf) (P : gmap Z (list Z)) (s : kstate) : Prop :=
  bio_ok s /\
  (forall i pl, held_by s i pl <-> (i, pl) ∈ H) /\
  Forall hb_ok H /\ NoDup H.*1 /\
  (forall sec blk, pend s sec blk <-> P !! sec = Some blk) /\
  (avail s + size P + nclean H = NBUF)%nat.

(** A sector as the kernel sees it. *)
Definition rview (P : gmap Z (list Z)) (d : list (list Z)) (sec : Z) : option (list Z) :=
  match P !! sec with Some blk => Some blk | None => d !! Z.to_nat sec end.

(** A buffer of the disk with its flags left open. *)
Definition hb (b : nat) (fl sec : Z) (blk : list Z) : hbuf := (b, (fl, 1, sec, blk)).

Lemma rep_bio_ok H P s : rep H P s -> bio_ok s.
Proof. by intros (? & _). Qed.

Lemma nclean_cons e H : nclean (e :: H) = ((if hb_clean e then 1 else 0) + nclean H)%nat.
Proof. unfold nclean. rewrite filter_cons. destruct (hb_clean e); simpl; done. Qed.

#[export] Instance nclean_perm : Proper ((≡ₚ) ==> eq) nclean.
Proof. intros H H' Hp. unfold nclean. by rewrite Hp. Qed.

Lemma rep_perm H H' P s : H ≡ₚ H' -> rep H P s -> rep H' P s.
Proof.
  intros Hp (H1 & H2 & H3 & H4 & H5 & H6). split_and!; [done| | | |done|].
  - intros i pl. rewrite H2. by rewrite Hp.
  - by rewrite <- Hp.
  - by rewrite <- Hp.
  - by rewrite <- Hp.
Qed.

(** What a held buffer looks like in the cache. *)
Lemma rep_buf H P s b fl sec blk :
  rep H P s -> hb b fl sec blk ∈ H ->
  exists bf, (b < NBUF)%nat /\ s.(bcache) !! b = Some bf /\ busy bf = true /\
    bf.(b_flags) = fl /\ bf.(b_dev) = 1 /\ bf.(b_sector) = sec /\ bf.(b_data) = blk /\
    valid bf = true /\ dirty bf = has fl B_DIRTY /\ 0 <= sec < disksize s /\
    length blk = Z.to_nat BSIZE.
Proof.
  intros (Hok & Hh & Hv & _) Hin. rewrite Forall_forall in Hv. destruct (Hv _ Hin) as [Hva _].
  apply Hh in Hin. destruct Hin as (bf & Hb & Hbf & Hbu & Hpl).
  unfold payload in Hpl. simplify_eq. simpl in Hva.
  destruct Hok as (_ & _ & _ & _ & Hbufs & _). destruct (Hbufs b bf Hb Hbf) as (Hl & Hr & _).
  specialize (Hr Hva). exists bf. split_and!; by try apply Hr.
Qed.

Lemma rep_not_busy H P s sec :
  rep H P s -> (forall e, e ∈ H -> hb_sector e <> sec) -> not_busy s.(bcache) sec.
Proof.
  intros (_ & Hh & _) Hs i bf Hi Hbf [Hd Hsec]%matches_spec.
  apply not_true_iff_false. intros Hbu.
  assert ((i, payload bf) ∈ H) as Hin by (apply Hh; by exists bf).
  by apply (Hs _ Hin).
Qed.

(** Two held buffers are buffers of different sectors. *)
Lemma rep_distinct H P s b fl sec blk e :
  rep (hb b fl sec blk :: H) P s -> e ∈ H -> hb_sector e <> sec.
Proof.
  intros Hr Hin E. destruct e as [i [[[fl' dev'] sec'] blk']]. unfold hb_sector in E. simpl in E. subst sec'.
  pose proof Hr as ((_ & _ & _ & _ & _ & Hu & _) & Hh & Hv & Hnd & _).
  rewrite Forall_cons, Forall_forall in Hv. destruct Hv as [_ Hv].
  destruct (Hv _ Hin) as [_ Hdev]. simpl in Hdev. subst dev'.
  destruct (rep_buf _ _ _ b fl sec blk Hr ltac:(left)) as (bf & Hb & Hbf & _ & _ & Hd & Hs & _).
  destruct (rep_buf _ _ _ i fl' sec blk' Hr ltac:(by right)) as (bi & Hi & Hbi & _ & _ & Hdi & Hsi & _).
  assert (b = i) as -> by (eapply Hu; eauto; congruence).
  apply NoDup_cons in Hnd as [Hnd _]. apply Hnd. by apply (list_elem_of_fmap_2 fst) in Hin.
Qed.

Lemma rep_view H P s sec :
  rep H P s -> (forall e, e ∈ H -> hb_sector e <> sec) ->
  sview s sec = rview P s.(disk) sec.
Proof.
  intros Hr Hs. pose proof Hr as (Hok & _ & _ & _ & Hp & _). unfold rview.
  destruct (P !! sec) as [blk|] eqn:E.
  - apply Hp in E. eapply pending_view; [apply Hok|done].
  - apply view_clean; [apply Hok|by eapply rep_not_busy|].
    intros blk Hpb. apply Hp in Hpb. congruence.
Qed.

(** ** bread *)

Lemma bread_rep H P s sec env :
  rep H P s -> 0 <= sec < disksize s -> (forall e, e ∈ H -> hb_sector e <> sec) ->
  (size P + nclean H < NBUF)%nat \/ is_Some (P !! sec) ->
  exists b fl blk s', bread 1 sec s env = Ok b s' env /\ frame s s' /\
    s'.(disk) = s.(disk) /\ s'.(dwrites) = s.(dwrites) /\
    rview P s.(disk) sec = Some blk /\
    has fl B_DIRTY = bool_decide (is_Some (P !! sec)) /\
    rep (hb b fl sec blk :: H) P s'.
Proof.
  intros Hr Hsec Hs Hav. pose proof Hr as (Hok & Hh & Hv & Hnd & Hp & Hn).
  destruct (bread_abs sec s env Hok Hsec) as (b & bf & s' & Hrun & Hf & Hok' & Hd & Hw & Hb & Hbf & Hhs & Hbu & Hview & Hheld & Hnh & Hpend & Hna).
  { by eapply rep_not_busy. }
  { destruct Hav as [?|[blk E]]; [left; lia|right]. exists blk. by apply Hp. }
  rewrite (rep_view H P s sec Hr Hs) in Hview.
  destruct Hhs as (Hdev & Hsc & Hva).
  assert (Hdirty : dirty bf = bool_decide (is_Some (P !! sec))).
  { destruct (dirty bf) eqn:E; symmetry; [apply bool_decide_eq_true_2|apply bool_decide_eq_false_2].
    - exists bf.(b_data). apply Hp, Hpend. by exists b, bf.
    - intros [blk Hblk]. apply Hp, Hpend in Hblk as (i & bi & Hi & Hbi & Hdi & Hhi & _).
      destruct Hok' as (_ & _ & _ & _ & _ & Hu & _). destruct Hhi as (? & ? & _).
      assert (i = b) as -> by (eapply Hu; eauto; congruence). congruence. }
  exists b, (b_flags bf), (b_data bf), s'. split_and!; [done..|].
  assert (Hpl : payload bf = (b_flags bf, 1, sec, b_data bf)) by (unfold payload; congruence).
  unfold hb. rewrite <- Hpl. split_and!; [done| | | | |].
  - intros i pl. rewrite Hheld, Hh, elem_of_cons. naive_solver.
  - constructor; [|done]. split; simpl; [apply Hva|done].
  - simpl. constructor; [|done]. intros (e & Ee & He)%list_elem_of_fmap.
    destruct e as [i pl]. simpl in Ee. subst i. apply Hh in He. by apply (Hnh pl).
  - intros sec' blk. by rewrite Hpend.
  - rewrite nclean_cons. unfold hb_clean. simpl. fold (dirty bf). destruct (dirty bf); simpl in *; lia.
Qed.

(** ** brelse *)

Lemma brelse_rep H P s b fl sec blk env :
  rep (hb b fl sec blk :: H) P s ->
  (has fl B_DIRTY = false -> s.(disk) !! Z.to_nat sec = Some blk) ->
  exists s', brelse b s env = Ok tt s' env /\ frame s s' /\
    s'.(disk) = s.(disk) /\ s'.(dwrites) = s.(dwrites) /\ rep H P s'.
Proof.
  intros Hr Hcl. pose proof Hr as (Hok & Hh & Hv & Hnd & Hp & Hn).
  destruct (rep_buf _ _ _ b fl sec blk Hr ltac:(left)) as (bf & Hb & Hbf & Hbu & Hfl & Hdev & Hsec & Hdat & Hva & Hdi & _).
  destruct (brelse_abs b bf s env Hok Hb Hbf Hbu) as (s' & Hrun & Hf & Hok' & Hd & Hw & Hheld & Hpend & Hna).
  { intros _ E. rewrite Hsec, Hdat. apply Hcl. congruence. }
  exists s'. split_and!; [done..|].
  apply Forall_cons in Hv as [_ Hv]. simpl in Hnd. apply NoDup_cons in Hnd as [Hnb Hnd].
  split_and!; [done| |done|done| |].
  - intros i pl. rewrite Hheld, Hh, elem_of_cons. split.
    + intros [[E|?] Hne]; [|done]. unfold hb in E. congruence.
    + intros Hin. split; [by right|]. intros ->. apply Hnb. by apply (list_elem_of_fmap_2 fst) in Hin.
  - intros sec' blk'. by rewrite Hpend.
  - rewrite nclean_cons in Hn. unfold hb_clean in Hn. simpl in Hn. rewrite Hna, Hdi.
    destruct (has fl B_DIRTY); simpl in *; lia.
Qed.

(** ** Changing a held buffer *)

(** The sectors that wait for a commit after a buffer has got contents [v]
    and dirty bit [dt]. *)
Definition put_pend (dt : bool) (sec : Z) (v : list Z) (P : gmap Z (list Z)) : gmap Z (list Z) :=
  if dt then <[sec := v]> P else P.

Lemma frame_bcache bc (s : kstate) : frame s (set_bcache bc s).
Proof. exists bc, s.(procs), s.(disk), s.(dwrites). by destruct s. Qed.

Section Update.
Context (H : list hbuf) (P : gmap Z (list Z)) (s : kstate) (b : nat) (fl sec : Z) (blk : list Z).
Context (fl' : Z) (v : list Z).
Hypothesis Hr : rep (hb b fl sec blk :: H) P s.
Hypothesis Hv : length v = Z.to_nat BSIZE.
Hypothesis Hb' : has fl' B_BUSY = true.
Hypothesis Hv' : has fl' B_VALID = true.
Hypothesis Hd' : has fl B_DIRTY = true -> has fl' B_DIRTY = true.

Definition updated (bf : buf) : buf := set_b_flags fl' (set_b_data v bf).
Definition updated_state (bf : buf) : kstate := set_bcache (<[b := updated bf]> s.(bcache)) s.

Lemma updated_at bf : s.(bcache) !! b = Some bf -> (updated_state bf).(bcache) !! b = Some (updated bf).
Proof. intros Hbf. apply list_lookup_insert_eq. by eapply lookup_lt_Some. Qed.

Lemma updated_other bf i : i <> b -> (updated_state bf).(bcache) !! i = s.(bcache) !! i.
Proof. intros Hi. by apply list_lookup_insert_ne. Qed.

(** The only buffer of the sector is the held one. *)
Lemma held_only i bi : (i < NBUF)%nat -> s.(bcache) !! i = Some bi -> b_dev bi = 1 -> b_sector bi = sec -> i = b.
Proof.
  intros Hi Hbi Hdi Hsi. pose proof Hr as ((_ & _ & _ & _ & _ & Hu & _) & _).
  destruct (rep_buf _ _ _ b fl sec blk Hr ltac:(left)) as (bf & Hb & Hbf & _ & _ & Hdev & Hsec & _).
  eapply Hu; eauto; congruence.
Qed.

Lemma update_cache bf : s.(bcache) !! b = Some bf ->
  frame s (updated_state bf) /\ bio_ok (updated_state bf).
Proof.
  intros Hbf. pose proof Hr as (Hok & _). pose proof Hok as (_ & _ & Hc). pose proof Hc as (_ & _ & _ & Hu & _).
  destruct (rep_buf _ _ _ b fl sec blk Hr ltac:(left)) as (bf0 & Hb & Hbf0 & Hbu & Hfl & Hdev & Hsec & Hdat & Hvab & Hdi & Hrange & _).
  simplify_eq.
  assert (Hf : frame s (updated_state bf)).
  { apply frame_bcache. }
  split; [done|]. eapply frame_bio_ok; [done..|].
  change (cache_ok (<[b := updated bf]> (bcache s)) (disk s)).
  apply (cache_ok_update _ (disk s) _ b bf); try done; [| |by destruct Hc as (_ & _ & ? & _); eauto|by destruct Hc as (_ & _ & _ & _ & ?)].
  - unfold buf_ok, valid, dirty, busy, updated. simpl. rewrite Hb', Hv'. done.
  - intros i bi Hi Hne Hbi Hdi' _ E. apply Hne. by eapply Hu.
Qed.

Lemma update_held bf : s.(bcache) !! b = Some bf ->
  forall i pl, held_by (updated_state bf) i pl <-> (i, pl) ∈ hb b fl' sec v :: H.
Proof.
  intros Hbf i pl. pose proof Hr as (_ & Hh & _ & Hnd & _). simpl in Hnd. apply NoDup_cons in Hnd as [Hnb _].
  destruct (rep_buf _ _ _ b fl sec blk Hr ltac:(left)) as (bf0 & Hb & Hbf0 & _ & _ & Hdev & Hsec & _). simplify_eq.
  assert (Hpl : payload (updated bf) = (fl', 1, b_sector bf, v)) by (unfold payload, updated; simpl; congruence).
  rewrite elem_of_cons. split.
  - intros (bi & Hi & Hbi & Hbui & <-). destruct (decide (i = b)) as [->|Hne].
    + left. rewrite updated_at in Hbi by done. simplify_eq. unfold hb. by rewrite Hpl.
    + right. rewrite updated_other in Hbi by done.
      assert ((i, payload bi) ∈ hb b fl (b_sector bf) blk :: H) as Hin by (apply Hh; by exists bi).
      apply elem_of_cons in Hin as [E|?]; [|done]. unfold hb in E. congruence.
  - intros [E|Hin].
    + unfold hb in E. simplify_eq. exists (updated bf). rewrite updated_at by done. done.
    + assert (i <> b) by (intros ->; apply Hnb; by apply (list_elem_of_fmap_2 fst) in Hin).
      assert (held_by s i pl) as (bi & Hi & Hbi & Hbui & <-) by (apply Hh; by right).
      exists bi. split_and!; [done| |done|done]. by rewrite updated_other.
Qed.

Lemma update_pend bf : s.(bcache) !! b = Some bf ->
  forall sec' blk', pend (updated_state bf) sec' blk' <-> put_pend (has fl' B_DIRTY) sec v P !! sec' = Some blk'.
Proof.
  intros Hbf sec' blk'. pose proof Hr as (_ & _ & _ & _ & Hp & _).
  destruct (rep_buf _ _ _ b fl sec blk Hr ltac:(left)) as (bf0 & Hb & Hbf0 & _ & _ & Hdev & Hsec & _ & _ & Hdi & _).
  rewrite Hbf in Hbf0. injection Hbf0 as <-. unfold put_pend. split.
  - intros (i & bi & Hi & Hbi & Hdb & Hhs & <-). destruct (decide (i = b)) as [->|Hne].
    + rewrite updated_at in Hbi by done. injection Hbi as <-. destruct Hhs as (_ & <- & _). unfold dirty, updated in Hdb. simpl in Hdb.
      rewrite Hdb. simpl. by rewrite Hsec, lookup_insert_eq.
    + rewrite updated_other in Hbi by done. destruct Hhs as (Hd1 & <- & Hv1).
      assert (b_sector bi <> sec) by (intros E; apply Hne; by eapply held_only).
      assert (P !! b_sector bi = Some (b_data bi)) as HP by (apply Hp; exists i, bi; by split_and!).
      destruct (has fl' B_DIRTY); [|done]. by rewrite lookup_insert_ne.
  - intros HP. destruct (decide (sec' = sec)) as [->|Hne].
    + destruct (has fl' B_DIRTY) eqn:Hdt.
      * rewrite lookup_insert_eq in HP. simplify_eq. exists b, (updated bf). rewrite updated_at by done. split_and!; try done.
      * apply Hp in HP as (i & bi & Hi & Hbi & Hdb & (Hd1 & Hs1 & _) & <-).
        assert (i = b) as -> by (by eapply held_only).
        simplify_eq. rewrite <- Hdi in *. by specialize (Hd' Hdb).
    + assert (P !! sec' = Some blk') as HP'.
      { destruct (has fl' B_DIRTY); [|done]. by rewrite lookup_insert_ne in HP. }
      apply Hp in HP' as (i & bi & Hi & Hbi & Hdb & Hhs & <-).
      assert (i <> b) by (intros ->; destruct Hhs as (_ & ? & _); simplify_eq).
      exists i, bi. split_and!; try done. by rewrite updated_other.
Qed.

Lemma update_avail bf : s.(bcache) !! b = Some bf ->
  (avail (updated_state bf) + size (put_pend (has fl' B_DIRTY) sec v P) + nclean (hb b fl' sec v :: H) = NBUF)%nat.
Proof.
  intros Hbf. pose proof Hr as (_ & _ & _ & _ & Hp & Hn).
  destruct (rep_buf _ _ _ b fl sec blk Hr ltac:(left)) as (bf0 & Hb & Hbf0 & Hbu & Hfl & Hdev & Hsec & Hdat & Hvab & Hdi & _).
  rewrite Hbf in Hbf0. injection Hbf0 as <-.
  unfold avail. simpl. pose proof (navail_insert (bcache s) b bf (updated bf) Hb Hbf) as Hni.
  unfold recyclable in Hni. fold (busy bf) in Hni. rewrite Hbu in Hni. unfold updated in Hni at 2. simpl in Hni.
  rewrite Hb' in Hni. simpl in Hni. rewrite nclean_cons in *. unfold hb_clean in *. simpl in *.
  unfold avail in Hn. unfold put_pend. destruct (has fl B_DIRTY) eqn:E1.
  - rewrite (Hd' eq_refl). simpl in *.
    assert (P !! sec = Some blk) as HP by (apply Hp; exists b, bf; by split_and!).
    rewrite map_size_insert_Some by (by eexists). lia.
  - destruct (has fl' B_DIRTY) eqn:E2; simpl in *; [|lia].
    rewrite map_size_insert_None; [lia|]. apply eq_None_not_Some. intros [blk' HP].
    apply Hp in HP as (i & bi & Hi & Hbi & Hdb & (Hd1 & Hs1 & _) & <-).
    assert (i = b) as -> by (by eapply held_only). simplify_eq. congruence.
Qed.

Lemma rep_update :
  let s' := upd_buf b (fun x => set_b_flags fl' (set_b_data v x)) s in
  frame s s' /\ s'.(disk) = s.(disk) /\ s'.(dwrites) = s.(dwrites) /\
  rep (hb b fl' sec v :: H) (put_pend (has fl' B_DIRTY) sec v P) s'.
Proof.
  intros s'. pose proof Hr as (_ & _ & Hva & Hnd & _).
  destruct (rep_buf _ _ _ b fl sec blk Hr ltac:(left)) as (bf & _ & Hbf & _).
  unfold s'. rewrite (upd_buf_insert b _ bf s Hbf). fold (updated bf). fold (updated_state bf).
  destruct (update_cache bf Hbf) as [Hf Hok]. split_and!; [done..|]. apply Forall_cons in Hva as [_ Hva].
  split_and!; [done|by apply update_held|by constructor|exact Hnd|by apply update_pend|by apply update_avail].
Qed.
End Update.

(** Assigning a held buffer's data, and marking it for the commit. *)
Lemma set_data_rep H P s b fl sec blk v :
  rep (hb b fl sec blk :: H) P s -> length v = Z.to_nat BSIZE ->
  let s' := upd_buf b (set_b_data v) s in
  frame s s' /\ s'.(disk) = s.(disk) /\ s'.(dwrites) = s.(dwrites) /\
  rep (hb b fl sec v :: H) (put_pend (has fl B_DIRTY) sec v P) s'.
Proof.
  intros Hr Hv.
  destruct (rep_buf _ _ _ b fl sec blk Hr ltac:(left)) as (bf & Hb & Hbf & Hbu & Hfl & _ & _ & _ & Hva & _).
  unfold busy in Hbu. unfold valid in Hva. rewrite Hfl in Hbu, Hva.
  pose proof (rep_update H P s b fl sec blk fl v Hr Hv Hbu Hva (fun x => x)) as Hres.
  cbv zeta in *. rewrite (upd_buf_insert b _ bf s Hbf) in Hres. rewrite (upd_buf_insert b _ bf s Hbf).
  replace (set_b_flags fl (set_b_data v bf)) with (set_b_data v bf) in Hres; [done|].
  destruct bf. simpl in *. by subst.
Qed.

Lemma set_dirty_rep H P s b fl sec blk :
  rep (hb b fl sec blk :: H) P s ->
  let s' := upd_buf b (fun x => set_b_flags (Z.lor x.(b_flags) B_DIRTY) x) s in
  frame s s' /\ s'.(disk) = s.(disk) /\ s'.(dwrites) = s.(dwrites) /\
  rep (hb b (Z.lor fl B_DIRTY) sec blk :: H) (<[sec := blk]> P) s'.
Proof.
  intros Hr.
  destruct (rep_buf _ _ _ b fl sec blk Hr ltac:(left)) as (bf & Hb & Hbf & Hbu & Hfl & _ & _ & Hda & Hva & _ & _ & Hl).
  unfold busy in Hbu. unfold valid in Hva. rewrite Hfl in Hbu, Hva.
  pose proof (rep_update H P s b fl sec blk (Z.lor fl B_DIRTY) blk Hr Hl
    ltac:(by rewrite has_lor, Hbu) ltac:(by rewrite has_lor, Hva)
    ltac:(intros _; by rewrite has_lor, orb_true_r)) as Hres.
  cbv zeta in *. rewrite (upd_buf_insert b _ bf s Hbf) in Hres. rewrite (upd_buf_insert b _ bf s Hbf). rewrite has_lor in Hres.
  rewrite orb_true_r in Hres. simpl in Hres.
  replace (set_b_flags (Z.lor fl B_DIRTY) (set_b_data blk bf)) with (set_b_flags (Z.lor (b_flags bf) B_DIRTY) bf) in Hres; [done|].
  destruct bf. simpl in *. by subst.
Qed.

(** ** bwrite *)

Lemma bwrite_rep H P s b fl sec blk env :
  rep (hb b fl sec blk :: H) P s ->
  exists fl' s', bwrite b s env = Ok tt s' env /\ frame s s' /\ has fl' B_DIRTY = false /\
    s'.(disk) = <[Z.to_nat sec := blk]> s.(disk) /\
    s'.(dwrites) = s.(dwrites) ++ [(sec, blk)] /\
    rep (hb b fl' sec blk :: H) (delete sec P) s'.
Proof.
  intros Hr. pose proof Hr as (Hok & Hh & Hv & Hnd & Hp & Hn).
  destruct (rep_buf _ _ _ b fl sec blk Hr ltac:(left)) as (bf & Hb & Hbf & Hbu & Hfl & Hdev & Hsec & Hda & Hva & Hdi & Hrange & Hl).
  destruct (write_abs b bf blk s env Hok Hb Hbf Hbu Hva Hl) as (s' & Hrun & Hf & Hok' & Hd & Hw & Hbf' & Hheld & Hpend & Hna).
  replace (upd_buf b (set_b_data blk) s) with s in Hrun.
  2:{ rewrite (upd_buf_insert b _ bf s Hbf), <- Hda. replace (set_b_data (b_data bf) bf) with bf by (by destruct bf).
      rewrite list_insert_id by done. by destruct s. }
  replace (set_b_data blk bf) with bf in * by (rewrite <- Hda; by destruct bf).
  destruct (synced_facts bf) as (Hsv & Hsd & Hsb).
  exists (b_flags (synced bf)), s'. rewrite Hsec in *. split_and!; [done..|].
  simpl in Hnd. apply NoDup_cons in Hnd as [Hnb Hnd].
  assert (Hpl : payload (synced bf) = (b_flags (synced bf), 1, sec, blk)) by (unfold payload; simpl; congruence).
  split_and!; [done| | |by constructor| |].
  - intros i pl. rewrite Hheld, Hh, !elem_of_cons. unfold hb. rewrite Hpl. split.
    + intros [[-> ->]|[[E|?] Hne]]; [by left|congruence|by right].
    + intros [E|Hin]; [left; by simplify_eq|]. right. split; [by right|].
      intros ->. apply Hnb. by apply (list_elem_of_fmap_2 fst) in Hin.
  - apply Forall_cons in Hv as [_ Hv]. constructor; [|done]. split; [apply Hsv|done].
  - intros sec' blk'. rewrite Hpend, Hp. rewrite lookup_delete_Some. naive_solver.
  - rewrite nclean_cons in *. unfold hb_clean in *. cbn -[b_flags nclean] in *.
    fold (dirty (synced bf)). rewrite Hsd, Hna.
    destruct (P !! sec) as [blk'|] eqn:E.
    + assert (has fl B_DIRTY = true) as E2.
      { apply Hp in E as (i & bi & Hi & Hbi & Hdb & Hhs & _).
        destruct Hok as (_ & _ & _ & _ & _ & Hu & _). destruct Hhs as (? & ? & _).
        assert (i = b) as -> by (eapply Hu; eauto; congruence). congruence. }
      rewrite E2 in Hn. simpl in *. rewrite map_size_delete_Some by (by eexists).
      assert (size P <> 0)%nat by (intros Hz; apply map_size_empty_inv in Hz; subst P; by rewrite lookup_empty in E). lia.
    + rewrite delete_id by done. destruct (has fl B_DIRTY) eqn:E2; simpl in *; [|lia].
      assert (P !! sec = Some (b_data bf)) as E3 by (apply Hp; by exists b, bf). congruence.
Qed.

(** Reading a held buffer. *)
Lemma get_buf_rep H P s b fl sec blk env :
  rep H P s -> hb b fl sec blk ∈ H ->
  exists bf, get_buf b s env = Ok bf s env /\ bf.(b_flags) = fl /\ bf.(b_dev) = 1 /\
    bf.(b_sector) = sec /\ bf.(b_data) = blk.
Proof.
  intros Hr Hin. destruct (rep_buf _ _ _ b fl sec blk Hr Hin) as (bf & _ & Hbf & _ & ? & ? & ? & ? & _).
  exists bf. split_and!; try done. by apply get_buf_eq.
Qed.

(** Changes elsewhere in the kernel state. *)
Lemma rep_other H P s s' :
  s'.(kcpu) = s.(kcpu) -> length s'.(procs) = length s.(procs) -> s'.(bcache) = s.(bcache) ->
  s'.(disk) = s.(disk) -> rep H P s -> rep H P s'.
Proof.
  intros E1 E2 E3 E4. unfold rep, bio_ok, calm, quiet, held_by, pend, avail.
  by rewrite E1, E2, E3, E4.
Qed.

(** Computing new data from the old. *)
Lemma upd_data_rep H P s b fl sec blk (f : list Z -> list Z) :
  rep (hb b fl sec blk :: H) P s -> length (f blk) = Z.to_nat BSIZE ->
  let s' := upd_buf b (fun x => set_b_data (f x.(b_data)) x) s in
  frame s s' /\ s'.(disk) = s.(disk) /\ s'.(dwrites) = s.(dwrites) /\
  rep (hb b fl sec (f blk) :: H) (put_pend (has fl B_DIRTY) sec (f blk) P) s'.
Proof.
  intros Hr Hv. destruct (rep_buf _ _ _ b fl sec blk Hr ltac:(left)) as (bf & _ & Hbf & _ & _ & _ & _ & Hda & _).
  pose proof (set_data_rep H P s b fl sec blk (f blk) Hr Hv) as Hres. cbv zeta in *.
  rewrite (upd_buf_insert b _ bf s Hbf) in Hres. rewrite (upd_buf_insert b _ bf s Hbf).
  by rewrite Hda.
Qed.

End BioRep.

(** ** The cache at boot: [binit] of kernel/bio.c establishes the invariant *)

Module BioInit.
Import BioRep.

(** The cache before [binit]: zero-initialised memory. *)
Definition cold (bc : list buf) : Prop :=
  length bc = S NBUF /\
  Forall (fun bf => bf.(b_flags) = 0 /\ length bf.(b_data) = Z.to_nat BSIZE) bc.

(** The cache after [binit]: buffer [i] behind [i + 1], buffer [NBUF - 1]
    first. *)
Definition linked (i : nat) (bf : buf) : buf :=
  set_b_next (match i with O => bhead | S j => j end)
    (set_b_prev (S i) (set_b_dev (u32 (-1)) bf)).

Definition warm (bc : list buf) : list buf :=
  imap (fun i bf => if decide (i = bhead) then set_b_next (NBUF - 1) (set_b_prev 0 bf) else linked i bf) bc.

Lemma binit_eq s env :
  length s.(bcache) = S NBUF ->
  binit s env = Ok tt (upd_cpu (fun c => set_held (c.(held) ∖ {[bcache_lock]}) c) (set_bcache (warm s.(bcache)) s)) env.
Proof.
  intros Hl. destruct s as [c pr cu ini np fi bc]. simpl in *.
  do 11 (destruct bc as [|[] bc]; [done|]). destruct bc; [|done]. clear Hl.
  unfold binit, initlock, upd_cpu. mrun. cbn -[held set_held u32]. reflexivity.
Qed.

Lemma warm_lookup bc i bf' :
  warm bc !! i = Some bf' -> (i < NBUF)%nat -> exists bf, bc !! i = Some bf /\ bf' = linked i bf.
Proof.
  unfold warm. rewrite list_lookup_imap. intros H Hi.
  destruct (bc !! i) as [bf|]; simpl in H; [|done]. simplify_eq.
  rewrite decide_False by (unfold bhead; lia). by exists bf.
Qed.

Lemma warm_lru bc : length bc = S NBUF -> lru (warm bc) (rev (seq 0 NBUF)).
Proof.
  intros Hl. do 11 (destruct bc as [|? bc]; [done|]). destruct bc; [|done].
  split; [|symmetry; apply Permutation_rev]. repeat split.
Qed.

(** The state [binit] leaves. *)
Definition after_binit (s : kstate) : kstate :=
  upd_cpu (fun c => set_held (c.(held) ∖ {[bcache_lock]}) c) (set_bcache (warm s.(bcache)) s).

Lemma warm_rep s :
  calm s -> cold s.(bcache) -> Forall (fun blk => length blk = Z.to_nat BSIZE) s.(disk) ->
  rep [] ∅ (after_binit s).
Proof.
  intros (Hq & Hp & Hn) [Hl Hc] Hd.
  assert (Hb : forall i bf', warm s.(bcache) !! i = Some bf' -> (i < NBUF)%nat ->
    bf'.(b_flags) = 0 /\ length bf'.(b_data) = Z.to_nat BSIZE /\ bf'.(b_dev) = u32 (-1)).
  { intros i bf' H Hi. destruct (warm_lookup _ _ _ H Hi) as (bf & Hbf & ->).
    rewrite Forall_forall in Hc. destruct (Hc bf) as [? ?]; [by eapply list_elem_of_lookup_2|]. done. }
  assert (Hcache : cache_ok (warm s.(bcache)) s.(disk)).
  { split_and!; [unfold warm; by rewrite length_imap| | | |done].
    - eexists. by apply warm_lru.
    - intros i bf Hi Hbf. destruct (Hb i bf Hbf Hi) as (Hf & Hdl & _).
      unfold buf_ok, valid, dirty. rewrite Hf, !has_0. done.
    - intros i j bi bj Hi Hj Hbi _ Hdi. destruct (Hb i bi Hbi Hi) as (_ & _ & E). rewrite E in Hdi. done. }
  unfold rep. split_and?; [| | |constructor| |].
  - unfold bio_ok. split_and?; [|simpl; set_solver|done]. unfold calm. split_and?; [apply Hq|simpl; set_solver|done].
  - intros i pl. rewrite elem_of_nil. split; [|done]. intros (bf & Hi & Hbf & Hbu & _). simpl in Hbf.
    destruct (Hb i bf Hbf Hi) as (E & _). unfold busy in Hbu. by rewrite E, has_0 in Hbu.
  - constructor.
  - intros sec blk. rewrite lookup_empty. split; [|done]. intros (i & bf & Hi & Hbf & Hdi & _). simpl in Hbf.
    destruct (Hb i bf Hbf Hi) as (E & _). unfold dirty in Hdi. by rewrite E, has_0 in Hdi.
  - rewrite map_size_empty. unfold avail, navail. simpl. rewrite filter_all.
    + rewrite length_take. unfold warm. rewrite length_imap, Hl. done.
    + apply Forall_forall. intros bf Hin. apply list_elem_of_lookup_1 in Hin as [i Hi].
      apply lookup_take_Some in Hi as [Hi Hlt]. destruct (Hb i bf Hi Hlt) as (E & _).
      unfold recyclable. by rewrite E, !has_0.
Qed.

End BioInit.
