(* ===== verification/BioSpec.v ===== *)
(** What the buffer cache promises (kernel/bio.c): initialisation, the
    contents [bread] returns and the buffer it recycles, the order [brelse]
    keeps. *)
From S2P Require Import Prelude Types Spinlock Sched Dll Bio BioFacts BioList BioAbs BioRep.
Import Spinlock Sched Dll Bio BioFacts BioList BioAbs BioRep BioInit.

Module BioSpec.

(** A scan stops at the first buffer on its way that satisfies the test. *)
Lemma scan_first link pv ok s env a l fuel b s' env' :
  seg (link_of link s.(bcache)) pv a l bhead ->
  Forall (fun i => i <> bhead /\ is_Some (s.(bcache) !! i)) l ->
  scan fuel link ok (link_of link s.(bcache) a) s env = Ok (Some b) s' env' ->
  exists l1 l2, l = l1 ++ b :: l2 /\ forall i bf, i ∈ l1 -> s.(bcache) !! i = Some bf -> ok bf = false.
Proof.
  revert a fuel. induction l as [|x l IH]; intros a fuel Hseg Hl Hrun; (destruct fuel as [|n]; [done|]).
  - destruct Hseg as [Hx _]. cbn [scan] in Hrun. by rewrite Hx, decide_True in Hrun.
  - destruct Hseg as (Hx & _ & Hseg). apply Forall_cons in Hl as [[Hxh [bf Hbf]] Hl]. cbn [scan] in Hrun.
    rewrite Hx, decide_False in Hrun by done. rewrite (bind_ok _ _ _ _ _ _ _ (get_buf_eq x bf s env Hbf)) in Hrun.
    destruct (ok bf) eqn:Hok.
    + injection Hrun as <- _ _. exists [], l. split; [done|]. by intros i bf' ?%elem_of_nil.
    + replace (link bf) with (link_of link (bcache s) x) in Hrun by (unfold link_of; by rewrite Hbf).
      destruct (IH x n Hseg Hl Hrun) as (l1 & l2 & -> & Hno). exists (x :: l1), l2. split; [done|].
      intros i bf' [->|Hi]%elem_of_cons Hbf'; [congruence|eauto].
Qed.

(** When the sector is not cached: the second scan of [bget]. *)
Lemma bget_miss sec s env :
  bio_ok s -> no_match s.(bcache) sec ->
  exists h o, s.(bcache) !! bhead = Some h /\
    scan (S NBUF) b_prev recyclable (b_prev h) (with_lock bcache_lock s) env = Ok o (with_lock bcache_lock s) env /\
    match o with
    | Some b => (exists s', bget 1 sec s env = Ok b s' env) /\ (b < NBUF)%nat /\
        exists bf, s.(bcache) !! b = Some bf /\ recyclable bf = true
    | None => bget 1 sec s env = Err (Panic "bget: no buffers") (with_lock bcache_lock s) env /\
        forall i bf, (i < NBUF)%nat -> s.(bcache) !! i = Some bf -> recyclable bf = false
    end.
Proof.
  intros ((Hq & _) & Hlk & Hc) Hno. destruct (bhead_lookup _ _ Hc) as [h Hh].
  set (s0 := with_lock bcache_lock s).
  destruct (scan_all true (matches 1 sec) s0 env h Hc Hh) as (o1 & Ho1 & Hpost1).
  assert (o1 = None) as ->.
  { destruct o1 as [b|]; [|done]. destruct Hpost1 as (Hb & bf & Hbf & Hm). by rewrite (Hno b bf Hb Hbf) in Hm. }
  destruct (scan_all false recyclable s0 env h Hc Hh) as (o & Ho & Hpost).
  exists h, o. split_and?; [done|done|].
  unfold bget. rewrite (bind_ok _ _ _ _ _ _ _ (acquire_quiet bcache_lock s env Hq Hlk)).
  unfold mloop_env. cbn [mloop]. fold s0. unfold bget_pass. rewrite !bind_assoc.
  rewrite (bind_ok _ _ _ _ _ _ _ (get_buf_eq bhead h s0 env Hh)), bind_assoc.
  rewrite (bind_ok _ _ _ _ _ _ _ Ho1), bind_assoc.
  rewrite (bind_ok _ _ _ _ _ _ _ (get_buf_eq bhead h s0 env Hh)), bind_assoc, (bind_ok _ _ _ _ _ _ _ Ho).
  destruct o as [b|]; [|done]. split; [|done]. unfold modify, bind.
  rewrite (release_quiet bcache_lock s) by done. by eexists.
Qed.

(** The buffer taken on a miss is the least recently used one that is neither
    held nor dirty. *)
Lemma bget_victim sec s env l b s' env' :
  bio_ok s -> no_match s.(bcache) sec -> lru s.(bcache) l -> bget 1 sec s env = Ok b s' env' ->
  exists l1 l2, l = l1 ++ b :: l2 /\
    forall i bf, i ∈ l2 -> s.(bcache) !! i = Some bf -> recyclable bf = false.
Proof.
  intros Hok Hno Hl Hrun. pose proof Hok as (_ & _ & (Hlen & _)).
  destruct (bget_miss sec s env Hok Hno) as (h & o & Hh & Hscan & Ho).
  destruct o as [b'|]; [|destruct Ho as [Ho _]; by rewrite Ho in Hrun].
  destruct Ho as [[s1 Hb] _]. rewrite Hb in Hrun. injection Hrun as -> _ _.
  destruct (lru_entries _ _ Hlen Hl) as [Hall _]. pose proof Hl as [Hseg _].
  replace (b_prev h) with (link_of b_prev (bcache (with_lock bcache_lock s)) bhead) in Hscan
    by (unfold link_of; simpl; by rewrite Hh).
  destruct (scan_first b_prev (link_of b_next (bcache s)) recyclable (with_lock bcache_lock s) env bhead (reverse l)
    (S NBUF) b (with_lock bcache_lock s) env) as (l1 & l2 & Hr & Hfirst); [by apply seg_reverse|by apply Forall_reverse|done|].
  exists (reverse l2), (reverse l1). split.
  - rewrite <- (reverse_involutive l), Hr, reverse_app, reverse_cons, <- app_assoc. done.
  - intros i bf Hi. apply Hfirst. by apply elem_of_reverse.
Qed.

Lemma bread_bget sec s env b s' env' : bread 1 sec s env = Ok b s' env' ->
  exists s1 env1, bget 1 sec s env = Ok b s1 env1.
Proof.
  unfold bread, bind, when. destruct (bget 1 sec s env) as [b1 s1 env1|]; [|done].
  destruct (get_buf b1 s1 env1) as [bf s2 env2|]; [|done].
  destruct (negb _); [destruct (iderw b1 s2 env2) as [? s3 env3|]; [|done]|]; unfold ret; intros [= <- _ _]; eauto.
Qed.

Lemma brelsed_lru b bc l :
  length bc = S NBUF -> lru bc l -> (b < NBUF)%nat -> lru (brelsed b bc) (move_front b l).
Proof.
  intros Hlen Hl Hb. destruct (lru_move_front bc l b Hlen Hl Hb) as [Hseg Hp]. split; [|done].
  eapply seg_ext; [| |exact Hseg]; intros i _; unfold brelsed; by apply link_same.
Qed.

Lemma navail_some bc i bf : (i < NBUF)%nat -> bc !! i = Some bf -> recyclable bf = true -> (0 < navail bc)%nat.
Proof.
  intros Hi Hbf Hr. unfold navail.
  assert (bf ∈ filter (fun bf => recyclable bf = true) (take NBUF bc)) as Hin.
  { apply list_elem_of_filter. split; [done|]. apply list_elem_of_lookup. exists i. by rewrite lookup_take_lt. }
  destruct (filter _ _); [by apply elem_of_nil in Hin|simpl; lia].
Qed.

Lemma no_match_dec bc sec : {no_match bc sec} + {~ no_match bc sec}.
Proof.
  destruct (decide (Forall (fun bf => matches 1 sec bf = false) (take NBUF bc))) as [Hf|Hf]; [left|right].
  - intros i bf Hi Hbf. rewrite Forall_lookup in Hf. apply (Hf i). by rewrite lookup_take_lt.
  - intros Hno. apply Hf, Forall_lookup. intros i bf [Hbf Hi]%lookup_take_Some. by eapply Hno.
Qed.

(** ** Theorems *)

(** Initialisation. On zeroed memory [binit] links all buffers into one
    list and establishes the cache's invariant; every sector then reads as the
    disk has it, and every buffer can be recycled. *)
Theorem binit_establishes s env :
  calm s -> cold s.(bcache) -> Forall (fun blk => length blk = Z.to_nat BSIZE) s.(disk) ->
  exists s', binit s env = Ok tt s' env /\ bio_ok s' /\ lru s'.(bcache) (rev (seq 0 NBUF)) /\
    (forall sec, sview s' sec = s.(disk) !! Z.to_nat sec) /\ navail s'.(bcache) = NBUF.
Proof.
  intros Hc Hcold Hd. pose proof (warm_rep s Hc Hcold Hd) as Hr. exists (after_binit s).
  pose proof Hcold as [Hl _]. split_and?.
  - by apply binit_eq.
  - by eapply rep_bio_ok.
  - by apply warm_lru.
  - intros sec. rewrite (rep_view [] ∅ (after_binit s) sec Hr) by (by intros e ?%elem_of_nil).
    unfold rview. by rewrite lookup_empty.
  - pose proof Hr as (_ & _ & _ & _ & _ & Hn). rewrite map_size_empty in Hn. unfold nclean, avail in Hn. cbn [filter list_filter length] in Hn. lia.
Qed.

(** C21: reading through the cache. If no other process holds the sector's
    buffer, [bread] returns a held buffer with the sector's current contents;
    no sector's contents, no other buffer and no disk block change, and a
    buffer that had to be recycled is the least recently used one that is
    neither held nor dirty. It panics exactly when the sector is not cached
    and every buffer is held or dirty. *)
Theorem bread_contents sec s env l :
  bio_ok s -> 0 <= sec < disksize s -> not_busy s.(bcache) sec -> lru s.(bcache) l ->
  (exists b bf s', bread 1 sec s env = Ok b s' env /\ bio_ok s' /\ s'.(disk) = s.(disk) /\
     s'.(bcache) !! b = Some bf /\ holds_sector sec bf /\ busy bf = true /\ sview s sec = Some bf.(b_data) /\
     (forall sec', sview s' sec' = sview s sec') /\ (forall i, i <> b -> s'.(bcache) !! i = s.(bcache) !! i) /\
     (no_match s.(bcache) sec -> exists l1 l2, l = l1 ++ b :: l2 /\
        forall i bi, i ∈ l2 -> s.(bcache) !! i = Some bi -> recyclable bi = false)) \/
  (exists s', bread 1 sec s env = Err (Panic "bget: no buffers") s' env /\ no_match s.(bcache) sec /\
     forall i bf, (i < NBUF)%nat -> s.(bcache) !! i = Some bf -> recyclable bf = false).
Proof.
  intros Hok Hsec Hnb Hl.
  assert (Hgood : (0 < navail s.(bcache))%nat \/ ~ no_match s.(bcache) sec -> exists b bf s',
     bread 1 sec s env = Ok b s' env /\ bio_ok s' /\ s'.(disk) = s.(disk) /\
     s'.(bcache) !! b = Some bf /\ holds_sector sec bf /\ busy bf = true /\ sview s sec = Some bf.(b_data) /\
     (forall sec', sview s' sec' = sview s sec') /\ (forall i, i <> b -> s'.(bcache) !! i = s.(bcache) !! i) /\
     (no_match s.(bcache) sec -> exists l1 l2, l = l1 ++ b :: l2 /\
        forall i bi, i ∈ l2 -> s.(bcache) !! i = Some bi -> recyclable bi = false)).
  { intros Hav. destruct (bread_spec sec s env Hok Hsec Hnb Hav) as (b & bf & bc' & Hrun & Hg).
    pose proof Hg as (Hb & Hbf & Hh & Hbu & Hv & Hc & Hview & Ho & _).
    exists b, bf, (set_bcache bc' s). split_and?; try done.
    - destruct Hok as (? & ? & _). done.
    - intros Hno. destruct (bread_bget _ _ _ _ _ _ Hrun) as (s1 & env1 & Hget). by eapply bget_victim. }
  destruct (no_match_dec s.(bcache) sec) as [Hno|Hno]; [|left; auto].
  destruct (bget_miss sec s env Hok Hno) as (h & o & Hh & _ & Ho). destruct o as [b|].
  - left. destruct Ho as (_ & Hb & bf & Hbf & Hr). apply Hgood. left. by eapply navail_some.
  - right. destruct Ho as [Hrun Hall]. exists (with_lock bcache_lock s). split_and?; [|done|done].
    unfold bread. by rewrite (bind_err _ _ _ _ _ _ _ Hrun).
Qed.

(** Releasing a buffer. [brelse] of a held buffer ends the hold and moves
    the buffer to the front of the list, keeping the order of the others; no
    sector's contents change. A buffer that is not held makes it panic. *)
Theorem brelse_front b bf s env l :
  bio_ok s -> (b < NBUF)%nat -> s.(bcache) !! b = Some bf -> lru s.(bcache) l ->
  (valid bf = true -> dirty bf = false -> s.(disk) !! Z.to_nat bf.(b_sector) = Some bf.(b_data)) ->
  if busy bf
  then exists s', brelse b s env = Ok tt s' env /\ bio_ok s' /\
    lru s'.(bcache) (b :: filter (fun i => i <> b) l) /\ (forall sec, sview s' sec = sview s sec) /\
    (exists bf', s'.(bcache) !! b = Some bf' /\ busy bf' = false /\ bf'.(b_data) = bf.(b_data))
  else brelse b s env = Err (Panic "brelse") s env.
Proof.
  intros Hok Hb Hbf Hl Hclean. destruct (busy bf) eqn:Hbu.
  - destruct (brelse_abs b bf s env Hok Hb Hbf Hbu Hclean) as (s' & Hrun & Hf & Hok' & _).
    rewrite (brelse_eq b bf s env Hok Hb Hbf Hbu) in Hrun. injection Hrun as Hs'.
    pose proof Hok as (_ & _ & Hc). pose proof Hc as (Hlen & _).
    destruct (brelsed_ok b bf _ _ Hc Hb Hbf Hclean) as (_ & Hview & _).
    exists s'. rewrite <- Hs' in Hok' |- *. split_and?.
    + by rewrite (brelse_eq b bf s env Hok Hb Hbf Hbu).
    + done.
    + by apply brelsed_lru.
    + intros sec. unfold sview. simpl. apply Hview.
    + destruct (brelsed_lookup_inv b (bcache s) b bf Hbf) as (bf' & Hbf' & Hp). exists bf'. split; [done|].
      rewrite decide_True in Hp by done. destruct (payload_facts _ _ Hp) as (-> & _ & _ & _ & _ & ->).
      destruct (unbusy_facts bf) as (-> & _). done.
  - unfold brelse. rewrite (bind_ok _ _ _ _ _ _ _ (get_buf_eq b bf s env Hbf)).
    unfold busy in Hbu. by rewrite Hbu.
Qed.

(** A three-sector disk, the kernel after [binit] on it, and after reading
    sector 1. *)
Definition demo_disk : list (list Z) := replicate 3 (replicate (Z.to_nat BSIZE) 7).
Definition demo_boot : kstate := kstate0 demo_disk.
Definition demo_warm : kstate := after_binit demo_boot.
Definition demo_read : kstate := match bread 1 1 demo_warm [] with Ok _ s _ => s | Err _ s _ => s end.

Lemma demo_boot_calm : calm demo_boot.
Proof. split_and!; try done. Qed.
Lemma demo_cold : cold demo_boot.(bcache).
Proof. split; [done|]. apply Forall_replicate. done. Qed.
Lemma demo_blocks : Forall (fun blk => length blk = Z.to_nat BSIZE) demo_boot.(disk).
Proof. apply Forall_replicate. apply length_replicate. Qed.
Lemma demo_bio_ok : bio_ok demo_warm.
Proof. eapply rep_bio_ok, warm_rep; [exact demo_boot_calm|exact demo_cold|exact demo_blocks]. Qed.

Lemma demo_not_busy sec : not_busy demo_warm.(bcache) sec.
Proof.
  intros i bf Hi Hbf Hm. destruct (warm_lookup _ _ _ Hbf Hi) as (bf0 & Hbf0 & ->).
  apply list_elem_of_lookup_2, elem_of_replicate in Hbf0 as [-> _]. done.
Qed.

Lemma demo_read_facts : bio_ok demo_read /\ lru demo_read.(bcache) [9; 8; 7; 6; 5; 4; 3; 2; 1; 0]%nat /\
  exists bf, demo_read.(bcache) !! 0%nat = Some bf /\ busy bf = true /\ bf.(b_data) = replicate (Z.to_nat BSIZE) 7 /\
    bf.(b_sector) = 1.
Proof.
  destruct (bread_spec 1 demo_warm [] demo_bio_ok) as (b & bf & bc' & Hrun & Hg).
  { vm_compute. done. } { apply demo_not_busy. }
  { left. apply (navail_some _ 0 (linked 0 zero_buf)); [unfold NBUF; lia|done|done]. }
  destruct Hg as (_ & _ & _ & _ & _ & Hc & _). pose proof demo_bio_ok as (H1 & H2 & _).
  assert (E : demo_read = set_bcache bc' demo_warm) by (unfold demo_read; by rewrite Hrun).
  split_and?.
  - rewrite E. done.
  - split; [vm_compute; repeat split|]. symmetry. apply (Permutation_rev (seq 0 NBUF)).
  - eexists. split; [vm_compute; reflexivity|]. vm_compute. done.
Qed.

Lemma binit_establishes_witness :
  exists s', binit demo_boot [] = Ok tt s' [] /\ bio_ok s' /\ lru s'.(bcache) (rev (seq 0 NBUF)) /\
    (forall sec, sview s' sec = demo_disk !! Z.to_nat sec) /\ navail s'.(bcache) = NBUF.
Proof. apply (binit_establishes demo_boot []); [exact demo_boot_calm|exact demo_cold|exact demo_blocks]. Defined.

Lemma bread_contents_witness :
  (exists b bf s', bread 1 1 demo_warm [] = Ok b s' [] /\ bio_ok s' /\ s'.(disk) = demo_warm.(disk) /\
     s'.(bcache) !! b = Some bf /\ holds_sector 1 bf /\ busy bf = true /\ sview demo_warm 1 = Some bf.(b_data) /\
     (forall sec', sview s' sec' = sview demo_warm sec') /\
     (forall i, i <> b -> s'.(bcache) !! i = demo_warm.(bcache) !! i) /\
     (no_match demo_warm.(bcache) 1 -> exists l1 l2, rev (seq 0 NBUF) = l1 ++ b :: l2 /\
        forall i bi, i ∈ l2 -> demo_warm.(bcache) !! i = Some bi -> recyclable bi = false)) \/
  (exists s', bread 1 1 demo_warm [] = Err (Panic "bget: no buffers") s' [] /\ no_match demo_warm.(bcache) 1 /\
     forall i bf, (i < NBUF)%nat -> demo_warm.(bcache) !! i = Some bf -> recyclable bf = false).
Proof.
  apply (bread_contents 1 demo_warm [] (rev (seq 0 NBUF)));
    [exact demo_bio_ok|vm_compute; done|apply demo_not_busy|by apply warm_lru].
Defined.

Lemma brelse_front_witness :
  exists s', brelse 0 demo_read [] = Ok tt s' [] /\ bio_ok s' /\
    lru s'.(bcache) [0; 9; 8; 7; 6; 5; 4; 3; 2; 1]%nat /\ (forall sec, sview s' sec = sview demo_read sec) /\
    (exists bf', s'.(bcache) !! 0%nat = Some bf' /\ busy bf' = false /\ bf'.(b_data) = replicate (Z.to_nat BSIZE) 7).
Proof.
  destruct demo_read_facts as (Hok & Hl & bf & Hbf & Hbu & Hd & Hs).
  pose proof (brelse_front 0 bf demo_read [] _ Hok ltac:(unfold NBUF; lia) Hbf Hl) as H.
  rewrite Hbu, Hd in H. apply H. intros _ _. rewrite Hs. vm_compute. reflexivity.
Defined.

End BioSpec.
