(* ===== verification/Log.v ===== *)
(** The redo log (kernel/log.c) and the super block reader it uses
    (readsb of kernel/fs.c). *)
From S2P Require Import Prelude Types Spinlock Sched Bio.
Import Spinlock Sched Bio.

Module Log.

(** struct superblock *)
Record superblock : Type := Mksb {
  sb_size : Z;
  sb_nblocks : Z;
  sb_ninodes : Z;
  sb_nlog : Z
}.

Definition sb_of_block (d : list Z) : superblock :=
  Mksb (get32 0 d) (get32 4 d) (get32 8 d) (get32 12 d).

Definition readsb (dev : Z) : K superblock :=
  bp <- bread dev 1 ;;
  bf <- get_buf bp ;;
  let sb := sb_of_block bf.(b_data) in
  brelse bp ;;;
  ret sb.

(** struct logheader, as it lies at the start of a block *)
Definition LOGHEADER_SIZE : Z := 4 + 4 * LOGSIZE.
Definition hd_n (d : list Z) : Z := s32 (get32 0 d).
Definition hd_sector (d : list Z) (i : nat) : Z := s32 (get32 (4 + 4 * i) d).

Definition get_log : K log := gets klog.

(* bread(log.dev, log.start + k): the int sum becomes a uint sector *)
Definition log_sector (l : log) (k : Z) : Z := u32 (l.(l_start) + k).

(* log.lh.n does not change while the loop runs *)
Definition install_trans : K unit :=
  lg <- get_log ;;
  mfor (seq 0 (Z.to_nat lg.(lh_n))) (fun tail =>
    lg <- get_log ;;
    lbuf <- bread lg.(l_dev) (log_sector lg (Z.of_nat tail + 1)) ;;
    lg <- get_log ;;
    o <- deref "log.lh.sector" (lg.(lh_sector) !! tail) ;;
    dbuf <- bread lg.(l_dev) (u32 o) ;;
    lb <- get_buf lbuf ;;
    modify (upd_buf dbuf (set_b_data lb.(b_data))) ;;;
    bwrite dbuf ;;;
    brelse lbuf ;;;
    brelse dbuf).

Definition read_head : K unit :=
  lg <- get_log ;;
  b <- bread lg.(l_dev) (log_sector lg 0) ;;
  bf <- get_buf b ;;
  modify (upd_log (set_lh_n (hd_n bf.(b_data)))) ;;;
  mfor (seq 0 (Z.to_nat (hd_n bf.(b_data)))) (fun i =>
    if Z.of_nat i <? LOGSIZE then
      modify (upd_log (fun l =>
        set_lh_sector (<[i := hd_sector bf.(b_data) i]> l.(lh_sector)) l))
    else undefined "log.lh.sector") ;;;
  brelse b.

Definition write_head : K unit :=
  lg <- get_log ;;
  b <- bread lg.(l_dev) (log_sector lg 0) ;;
  lg <- get_log ;;
  modify (upd_buf b (fun x => set_b_data (put32 0 lg.(lh_n) x.(b_data)) x)) ;;;
  mfor (seq 0 (Z.to_nat lg.(lh_n))) (fun i =>
    lg <- get_log ;;
    v <- deref "log.lh.sector" (lg.(lh_sector) !! i) ;;
    modify (upd_buf b (fun x => set_b_data (put32 (4 + 4 * i) v x.(b_data)) x))) ;;;
  bwrite b ;;;
  brelse b.

Definition recover_from_log : K unit :=
  read_head ;;;
  install_trans ;;;
  modify (upd_log (set_lh_n 0)) ;;;
  write_head.

Definition initlog : K unit :=
  if BSIZE <=? LOGHEADER_SIZE then panic "initlog: too big logheader" else
  initlock log_lock ;;;
  sb <- readsb ROOTDEV ;;
  modify (upd_log (set_l_start (s32 (sb.(sb_size) - sb.(sb_nlog))))) ;;;
  modify (upd_log (set_l_size (s32 sb.(sb_nlog)))) ;;;
  modify (upd_log (set_l_dev ROOTDEV)) ;;;
  recover_from_log.

Definition begin_trans : K unit :=
  acquire log_lock ;;;
  mloop_env (
    lg <- get_log ;;
    if lg.(l_busy) then
      sleep chan_log log_lock ;;; ret None
    else ret (Some tt)) ;;;
  modify (upd_log (set_l_busy true)) ;;;
  release log_lock.

Definition commit_trans : K unit :=
  lg <- get_log ;;
  when (0 <? lg.(lh_n))
    (write_head ;;;
     install_trans ;;;
     modify (upd_log (set_lh_n 0)) ;;;
     write_head) ;;;
  acquire log_lock ;;;
  modify (upd_log (set_l_busy false)) ;;;
  wakeup chan_log ;;;
  release log_lock.

(* the absorption loop: the first i < lh.n with lh.sector[i] == sector *)
Definition absorb (lg : log) (sector : Z) : nat :=
  match list_find (fun v => u32 v = sector) (take (Z.to_nat lg.(lh_n)) lg.(lh_sector)) with
  | Some (i, _) => i
  | None => Z.to_nat lg.(lh_n)
  end.

Definition log_write (b : nat) : K unit :=
  lg <- get_log ;;
  if (LOGSIZE <=? lg.(lh_n)) || (lg.(l_size) - 1 <=? lg.(lh_n))
  then panic "too big a transaction" else
  if negb lg.(l_busy) then panic "write outside of trans" else
  bf <- get_buf b ;;
  let i := absorb lg bf.(b_sector) in
  modify (upd_log (fun l => set_lh_sector (<[i := s32 bf.(b_sector)]> l.(lh_sector)) l)) ;;;
  lbuf <- bread bf.(b_dev) (log_sector lg (Z.of_nat i + 1)) ;;
  bf <- get_buf b ;;
  modify (upd_buf lbuf (set_b_data bf.(b_data))) ;;;
  bwrite lbuf ;;;
  brelse lbuf ;;;
  lg <- get_log ;;
  when (Z.of_nat i =? lg.(lh_n))
    (modify (upd_log (fun l => set_lh_n (l.(lh_n) + 1) l))) ;;;
  modify (upd_buf b (fun x => set_b_flags (Z.lor x.(b_flags) B_DIRTY) x)).

End Log.
