(* ===== verification/LogSpec.v ===== *)
(** What the log promises, on disks alone: the effect of a sequence of
    sector writes, the recovery of a disk from its log, and that recovery
    makes the write sequence of a transaction atomic. *)
From S2P Require Import Prelude Types Log.
Import Log.

Module LogSpec.

Implicit Types (d : list (list Z)) (ws es : list (Z * list Z)).

Definition write_sector d (w : Z * list Z) : list (list Z) := <[Z.to_nat w.1 := w.2]> d.
Definition apply_writes ws d : list (list Z) := foldl write_sector d ws.

(** The transaction recorded by the header [h] in the log at [start]. *)
Definition log_entries (start : Z) (h : list Z) d : list (Z * list Z) :=
  (fun i => (hd_sector h i, default [] (d !! Z.to_nat (start + Z.of_nat i + 1))))
    <$> seq 0 (Z.to_nat (hd_n h)).

(** The header with an empty transaction. *)
Definition clear_head (h : list Z) : list Z := put32 0 0 h.

(** The disk after recovery. *)
Definition recover (start : Z) d : list (list Z) :=
  match d !! Z.to_nat start with
  | Some h => <[Z.to_nat start := clear_head h]> (apply_writes (log_entries start h d) d)
  | None => d
  end.

Definition in_log (start size sec : Z) : Prop := start <= sec < start + size.

(** Equality outside the log. *)
Definition data_eq (start size : Z) d d' : Prop :=
  forall sec, 0 <= sec -> ~ in_log start size sec -> d !! Z.to_nat sec = d' !! Z.to_nat sec.

#[export] Instance data_eq_equiv start size : Equivalence (data_eq start size).
Proof.
  split.
  - by intros d sec _ _.
  - intros d d' H sec H1 H2. by rewrite H.
  - intros d d' d'' H H' sec H1 H2. by rewrite H, H'.
Qed.

(** ** Sequences of writes *)

Lemma apply_app ws ws' d : apply_writes (ws ++ ws') d = apply_writes ws' (apply_writes ws d).
Proof. apply foldl_app. Qed.

Lemma length_apply ws d : length (apply_writes ws d) = length d.
Proof.
  revert d. induction ws as [|w ws IH]; intros d; simpl; [done|].
  rewrite IH. apply length_insert.
Qed.

Lemma apply_other ws d sec :
  0 <= sec -> Forall (fun w => 0 <= w.1 /\ w.1 <> sec) ws ->
  apply_writes ws d !! Z.to_nat sec = d !! Z.to_nat sec.
Proof.
  intros Hs Hw. revert d. induction Hw as [|w ws [H0 Hne] _ IH]; intros d; simpl; [done|].
  rewrite IH. apply list_lookup_insert_ne. lia.
Qed.

(** A sector that is written ends up with the same contents on every disk. *)
Lemma apply_written ws d d' sec :
  0 <= sec -> Forall (fun w => 0 <= w.1) ws -> length d = length d' -> sec ∈ ws.*1 ->
  apply_writes ws d !! Z.to_nat sec = apply_writes ws d' !! Z.to_nat sec.
Proof.
  intros Hs Hf Hl. revert d d' Hl. induction Hf as [|w ws H0 Hf IH]; intros d d' Hl; simpl.
  { by intros ?%elem_of_nil. }
  intros Hin. destruct (decide (sec ∈ ws.*1)) as [Hin'|Hn].
  - apply IH; [|done]. unfold write_sector. by rewrite !length_insert.
  - apply elem_of_cons in Hin as [->|?]; [|done].
    assert (Forall (fun x => 0 <= x.1 /\ x.1 <> w.1) ws) as Ho.
    { apply Forall_forall. intros x Hx. rewrite Forall_forall in Hf. split; [by apply Hf|].
      intros E. apply Hn. rewrite <- E. by apply list_elem_of_fmap_2. }
    rewrite !apply_other by done. unfold write_sector.
    destruct (decide (Z.to_nat w.1 < length d)%nat).
    + by rewrite !list_lookup_insert_eq by lia.
    + rewrite !list_insert_ge by lia. rewrite !lookup_ge_None_2 by lia. done.
Qed.

(** Redoing a sequence whose first part has already been done. *)
Lemma apply_redo ws k d :
  Forall (fun w => 0 <= w.1) ws ->
  apply_writes ws (apply_writes (take k ws) d) = apply_writes ws d.
Proof.
  intros Hf. apply list_eq. intros i. rewrite <- (Nat2Z.id i).
  destruct (decide (Z.of_nat i ∈ ws.*1)) as [Hin|Hn].
  - apply apply_written; [lia|done| |done]. apply length_apply.
  - assert (Forall (fun w => 0 <= w.1 /\ w.1 <> Z.of_nat i) ws) as Ho.
    { apply Forall_forall. intros w Hw. rewrite Forall_forall in Hf. split; [by apply Hf|].
      intros E. apply Hn. rewrite <- E. by apply list_elem_of_fmap_2. }
    rewrite (apply_other ws), (apply_other (take k ws)), (apply_other ws); [done|lia|done|lia|by apply Forall_take|lia|done].
Qed.

Lemma apply_in_log start size ws d :
  0 <= start -> Forall (fun w => in_log start size w.1) ws ->
  data_eq start size (apply_writes ws d) d.
Proof.
  intros Hst Hw sec Hs Hn. apply apply_other; [done|].
  eapply Forall_impl; [exact Hw|]. intros w H. unfold in_log in *. simpl in *. split; [lia|]. intros E. lia.
Qed.

Lemma apply_data_eq start size ws d d' :
  Forall (fun w => 0 <= w.1) ws -> length d = length d' ->
  data_eq start size d d' -> data_eq start size (apply_writes ws d) (apply_writes ws d').
Proof.
  intros Hf Hl He sec Hs Hn. destruct (decide (sec ∈ ws.*1)) as [Hin|Hni].
  - by apply apply_written.
  - assert (Forall (fun w => 0 <= w.1 /\ w.1 <> sec) ws) as Ho.
    { apply Forall_forall. intros w Hw. rewrite Forall_forall in Hf. split; [by apply Hf|].
      intros E. apply Hni. rewrite <- E. by apply list_elem_of_fmap_2. }
    rewrite !apply_other by done. by apply He.
Qed.

Lemma insert_head_data_eq start size h d :
  0 <= start -> 0 < size -> data_eq start size (<[Z.to_nat start := h]> d) d.
Proof. intros Hst Hsz sec Hs Hn. apply list_lookup_insert_ne. unfold in_log in Hn. lia. Qed.

(** ** Atomicity *)

(** The log at [start] with [size] sectors holds the entries [es] under the
    header [h]. *)
Definition logged (start size : Z) (h : list Z) es d : Prop :=
  d !! Z.to_nat start = Some h /\
  hd_n h = Z.of_nat (length es) /\ Z.of_nat (length es) < size /\
  forall i e, es !! i = Some e ->
    hd_sector h i = e.1 /\ d !! Z.to_nat (start + Z.of_nat i + 1) = Some e.2.

Lemma logged_entries start size h es d :
  logged start size h es d -> log_entries start h d = es.
Proof.
  intros (_ & Hn & _ & He). unfold log_entries. rewrite Hn, Nat2Z.id.
  apply list_eq. intros i. rewrite list_lookup_fmap.
  destruct (es !! i) as [[sec blk]|] eqn:E.
  - rewrite lookup_seq_lt by (by eapply lookup_lt_Some). simpl.
    destruct (He i _ E) as [-> ->]. done.
  - rewrite lookup_seq_ge; [done|]. by apply lookup_ge_None.
Qed.

(** Writes to data sectors leave the log alone. *)
Lemma logged_apply start size h es d ws :
  0 <= start -> logged start size h es d ->
  Forall (fun w => 0 <= w.1 /\ ~ in_log start size w.1) ws ->
  logged start size h es (apply_writes ws d).
Proof.
  intros Hst (Hh & Hn & Hsz & He) Hw.
  assert (Ho : forall sec, 0 <= sec -> in_log start size sec ->
    apply_writes ws d !! Z.to_nat sec = d !! Z.to_nat sec).
  { intros sec Hs Hin. apply apply_other; [done|]. eapply Forall_impl; [exact Hw|].
    intros w [? Hnl]. split; [done|]. intros E. apply Hnl. by rewrite E. }
  split_and!; [|done|done|].
  - rewrite Ho; [done..|]. unfold in_log; lia.
  - intros i e Hi. destruct (He i e Hi) as [? Hb]. split; [done|].
    pose proof (lookup_lt_Some _ _ _ Hi). rewrite Ho; [done|lia|]. unfold in_log. lia.
Qed.

Lemma recover_logged start size h es d :
  0 <= start -> logged start size h es d ->
  data_eq start size (recover start d) (apply_writes es d).
Proof.
  intros Hst Hl. pose proof Hl as (Hh & _ & Hsz & _). unfold recover. rewrite Hh.
  rewrite (logged_entries _ _ _ _ _ Hl). by apply insert_head_data_eq; [|lia].
Qed.

Lemma recover_empty start size h d :
  0 <= start -> 0 < size -> d !! Z.to_nat start = Some h -> hd_n h = 0 ->
  data_eq start size (recover start d) d.
Proof.
  intros Hst Hsz Hh Hn. apply (recover_logged start size h []); [done|].
  split_and!; [done|done|done|by intros ? ?].
Qed.

Lemma hd_n_clear h : (4 <= length h)%nat -> hd_n (clear_head h) = 0.
Proof.
  intros H. unfold hd_n, clear_head. rewrite get_put_same by lia. done.
Qed.

(** The write sequence of a transaction: the log, the header, the installed
    sectors, the cleared header. *)
Definition trans_writes (start : Z) ws (h : list Z) es : list (Z * list Z) :=
  ws ++ [(start, h)] ++ es ++ [(start, clear_head h)].

Section Atomic.
Context (start size : Z) (d0 : list (list Z)) (ws es : list (Z * list Z)) (h h0 : list Z).
Context (Hstart : 0 <= start < Z.of_nat (length d0)) (Hsize : 0 < size).
Context (Hempty : d0 !! Z.to_nat start = Some h0) (Hn0 : hd_n h0 = 0).
Context (Hws : Forall (fun w => start < w.1 < start + size) ws).
Context (Hes : Forall (fun w => 0 <= w.1 /\ ~ in_log start size w.1) es).
Context (Hh : (4 <= length h)%nat).
Context (Hlog : logged start size h es (apply_writes (ws ++ [(start, h)]) d0)).

Let Hes0 : Forall (fun w : Z * list Z => 0 <= w.1) es.
Proof. eapply Forall_impl; [exact Hes|]. by intros w [? _]. Qed.

Let Hws0 : Forall (fun w => in_log start size w.1) (ws ++ [(start, h)]).
Proof.
  apply Forall_app. split.
  - eapply Forall_impl; [exact Hws|]. unfold in_log. simpl. lia.
  - apply Forall_singleton. unfold in_log. simpl. lia.
Qed.

(** Before the header is written the log is empty. *)
Lemma crash_before k :
  let dc := apply_writes (take k ws) d0 in
  logged start size h0 [] dc /\ data_eq start size dc d0.
Proof.
  assert (Hl : Forall (fun w => in_log start size w.1) (take k ws)).
  { apply Forall_take. by apply Forall_app in Hws0 as [? _]. }
  cbv zeta. split; [|apply apply_in_log; [lia|done]].
  split_and!; [|done|done|by intros ? ?]. rewrite apply_other; [done|lia|].
  apply Forall_take. eapply Forall_impl; [exact Hws|]. simpl. intros w ?. lia.
Qed.

(** From the header on, the log holds the transaction. *)
Lemma crash_after k :
  let dc := apply_writes (take k es) (apply_writes (ws ++ [(start, h)]) d0) in
  logged start size h es dc /\ data_eq start size (apply_writes es dc) (apply_writes es d0).
Proof.
  set (d1 := apply_writes (ws ++ [(start, h)]) d0). cbv zeta. split.
  - apply logged_apply; [lia|done|by apply Forall_take].
  - rewrite apply_redo by done. apply apply_data_eq; [done|apply length_apply|].
    apply apply_in_log; [lia|done].
Qed.

(** When the header has been cleared the log is empty again. *)
Lemma crash_done :
  let dc := apply_writes (trans_writes start ws h es) d0 in
  logged start size (clear_head h) [] dc /\ data_eq start size dc (apply_writes es d0).
Proof.
  cbv zeta. unfold trans_writes. split.
  - split_and!; [|by apply hd_n_clear|done|by intros ? ?].
    rewrite !app_assoc, apply_app. apply list_lookup_insert_eq. rewrite length_apply. simpl. lia.
  - rewrite !apply_app.
    etrans; [apply (apply_in_log start size [_]); [lia|apply Forall_singleton; unfold in_log; simpl; lia]|].
    apply apply_data_eq; [done|by rewrite !length_apply|].
    rewrite <- apply_app. apply apply_in_log; [lia|done].
Qed.

(** At every moment the disk is one from which recovery yields the old or
    the new contents. *)
Lemma crash_any k :
  let dc := apply_writes (take k (trans_writes start ws h es)) d0 in
  exists h1 es1, logged start size h1 es1 dc /\ (es1 = [] \/ es1 = es) /\
    (data_eq start size (apply_writes es1 dc) d0 \/
     data_eq start size (apply_writes es1 dc) (apply_writes es d0)).
Proof.
  cbv zeta. destruct (decide (k <= length ws)%nat) as [Hk|Hk].
  { unfold trans_writes. rewrite take_app_le by lia.
    destruct (crash_before k) as [? ?]. exists h0, []. split_and!; [done|by left|by left]. }
  destruct (decide (k <= length ws + 1 + length es)%nat) as [Hk2|Hk2].
  - unfold trans_writes. rewrite app_assoc, take_app_ge by (rewrite length_app; simpl; lia).
    rewrite length_app. rewrite take_app_le by (simpl; lia). rewrite apply_app.
    destruct (crash_after (k - (length ws + length [(start, h)]))) as [? ?].
    exists h, es. split_and!; [done|by right|by right].
  - rewrite take_ge by (unfold trans_writes; rewrite !length_app; simpl; lia).
    destruct crash_done as [? ?]. exists (clear_head h), []. split_and!; [done|by left|by right].
Qed.
End Atomic.

End LogSpec.
