(* ===== verification/LogFacts.v ===== *)
(** Running the log: log_write, commit_trans and recover_from_log on kernel
    states whose buffer cache is described by [BioRep.rep]. *)
From S2P Require Import Prelude Types Spinlock Sched Bio BioFacts BioAbs BioRep Log LogSpec.
Import Spinlock Sched Bio BioFacts BioAbs BioRep Log LogSpec.

Module LogFacts.

(** ** The entries of a transaction *)

(** The log slot of a sector, and the entries with the sector's new
    contents: absorbed if it is already there, appended otherwise. *)
Fixpoint slot (es : list (Z * list Z)) (sec : Z) : nat :=
  match es with
  | [] => 0
  | e :: es' => if e.1 =? sec then 0 else S (slot es' sec)
  end.

Fixpoint put_ent (sec : Z) (blk : list Z) (es : list (Z * list Z)) : list (Z * list Z) :=
  match es with
  | [] => [(sec, blk)]
  | e :: es' => if e.1 =? sec then (sec, blk) :: es' else e :: put_ent sec blk es'
  end.

Section Entries.
Implicit Types (es : list (Z * list Z)) (sec : Z) (blk : list Z).

Lemma slot_le es sec : (slot es sec <= length es)%nat.
Proof. induction es as [|e es IH]; simpl; [done|]. destruct (_ =? _); lia. Qed.

Lemma put_ent_lookup es sec blk i :
  put_ent sec blk es !! i = if decide (i = slot es sec) then Some (sec, blk) else es !! i.
Proof.
  revert i. induction es as [|e es IH]; intros i; simpl.
  - case_decide as E; [by subst|]. destruct i; [done|]. by destruct i.
  - destruct (Z.eqb_spec e.1 sec) as [E|E].
    + destruct i; simpl; repeat case_decide; done.
    + destruct i as [|i]; simpl; [done|]. rewrite IH. repeat case_decide; congruence.
Qed.

Lemma put_ent_length es sec blk :
  length (put_ent sec blk es) = if decide (slot es sec = length es) then S (length es) else length es.
Proof.
  induction es as [|e es IH]; simpl; [done|]. destruct (_ =? _) eqn:E; simpl; [done|].
  rewrite IH. repeat case_decide; lia.
Qed.

Lemma put_ent_sectors es sec blk :
  (put_ent sec blk es).*1 = <[slot es sec := sec]> (es.*1 ++ if decide (slot es sec = length es) then [sec] else []).
Proof.
  induction es as [|e es IH]; csimpl; [done|].
  destruct (Z.eqb_spec e.1 sec) as [E|E]; csimpl; [by rewrite app_nil_r|].
  rewrite IH. repeat case_decide; try lia; done.
Qed.

Lemma slot_elem es sec : slot es sec = length es <-> sec ∉ es.*1.
Proof.
  induction es as [|e es IH]; csimpl; [split; [intros _ ?%elem_of_nil; done|done]|].
  rewrite elem_of_cons. destruct (Z.eqb_spec e.1 sec) as [E|E].
  - split; [lia|]. intros H. exfalso. apply H. by left.
  - rewrite <- Nat.succ_inj_wd in IH. rewrite IH. split.
    + intros H [?|?]; [congruence|done].
    + intros H ?. apply H. by right.
Qed.

Lemma put_ent_elem es sec blk x : x ∈ (put_ent sec blk es).*1 <-> x = sec \/ x ∈ es.*1.
Proof.
  induction es as [|e es IH]; csimpl.
  - rewrite elem_of_cons, elem_of_nil. done.
  - destruct (Z.eqb_spec e.1 sec) as [E|E]; csimpl; rewrite !elem_of_cons; [subst; tauto|].
    rewrite IH. tauto.
Qed.

Lemma put_ent_nodup es sec blk : NoDup es.*1 -> NoDup (put_ent sec blk es).*1.
Proof.
  induction es as [|e es IH]; csimpl; [intros; apply NoDup_singleton|].
  intros [Hn Hd]%NoDup_cons. destruct (Z.eqb_spec e.1 sec) as [E|E]; csimpl.
  - subst. by constructor.
  - constructor; [|by apply IH]. rewrite put_ent_elem. intros [?|?]; done.
Qed.

Lemma put_ent_map es sec blk :
  (list_to_map (put_ent sec blk es) : gmap Z (list Z)) = <[sec := blk]> (list_to_map es).
Proof.
  induction es as [|e es IH]; csimpl; [done|].
  destruct (Z.eqb_spec e.1 sec) as [E|E]; csimpl.
  - subst. by rewrite insert_insert_eq.
  - rewrite IH. by rewrite insert_insert_ne.
Qed.

Lemma put_ent_Forall (Q : Z * list Z -> Prop) es sec blk :
  Q (sec, blk) -> Forall Q es -> Forall Q (put_ent sec blk es).
Proof.
  intros Hq. induction 1 as [|e es He Hf IH]; csimpl; [by constructor|].
  destruct (_ =? _); by constructor.
Qed.

Lemma list_find_slot es sec :
  list_find (fun v => v = sec) es.*1 =
    if decide (slot es sec = length es) then None else Some (slot es sec, sec).
Proof.
  induction es as [|e es IH]; csimpl; [done|].
  destruct (Z.eqb_spec e.1 sec) as [E|E].
  - rewrite decide_True by done. by rewrite E.
  - rewrite decide_False by done. rewrite IH. repeat case_decide; csimpl; try lia; done.
Qed.

(** The map of the entries. *)
Lemma ents_lookup es sec : (list_to_map es : gmap Z (list Z)) !! sec = None <-> sec ∉ es.*1.
Proof. split; [apply not_elem_of_list_to_map_2|apply not_elem_of_list_to_map_1]. Qed.

Lemma ents_size es : NoDup es.*1 -> size (list_to_map es : gmap Z (list Z)) = length es.
Proof.
  induction es as [|e es IH]; csimpl; [intros; apply map_size_empty|].
  intros [Hn Hd]%NoDup_cons. rewrite map_size_insert_None by (by apply ents_lookup). by rewrite IH.
Qed.
End Entries.

(** Changes to the cache, the disk, the run queue and the log only. *)
Definition lframe (s s' : kstate) : Prop := frame (set_klog s'.(klog) s) s'.

(** [frames] chains the frames of consecutive steps. *)
Ltac frames := solve [repeat (first [eassumption | eapply frame_trans; [eassumption|]])].

Lemma lframe_refl s : lframe s s.
Proof. unfold lframe. replace (set_klog (klog s) s) with s by (by destruct s). apply frame_refl. Qed.

Lemma lframe_trans s1 s2 s3 : lframe s1 s2 -> lframe s2 s3 -> lframe s1 s3.
Proof.
  unfold lframe. intros (bc & pr & d & w & Hl & E) (bc' & pr' & d' & w' & Hl' & E').
  exists bc', pr', d', w'. rewrite E in E', Hl'. simpl in *. split; [congruence|]. rewrite E' at 1. done.
Qed.

Lemma frame_lframe s s' : frame s s' -> lframe s s'.
Proof.
  intros Hf. unfold lframe. rewrite (frame_klog _ _ Hf).
  replace (set_klog (klog s) s) with s by (by destruct s). done.
Qed.

Lemma lframe_log f s : lframe s (upd_log f s).
Proof. unfold lframe, upd_log. simpl. apply frame_refl. Qed.

Lemma lframe_kcpu s s' : lframe s s' -> s'.(kcpu) = s.(kcpu).
Proof. intros (bc & pr & d & w & Hl & ->). done. Qed.

Lemma rep_log H P f s : rep H P s -> rep H P (upd_log f s).
Proof. by apply rep_other. Qed.

Section Geom.
Context (start size : Z).

(** The in-memory header lists the entries. *)
Definition logst (es : list (Z * list Z)) (lg : log) : Prop :=
  lg.(l_start) = start /\ lg.(l_size) = size /\ lg.(l_dev) = 1 /\
  lg.(lh_n) = Z.of_nat (length es) /\ length lg.(lh_sector) = Z.to_nat LOGSIZE /\
  take (length es) lg.(lh_sector) = es.*1.

Definition geom (s : kstate) : Prop :=
  0 <= start /\ 0 < size /\ start + size <= disksize s /\ disksize s < 2 ^ 31.

(** A sector the file system may log. *)
Definition data_sector (s : kstate) (sec : Z) : Prop :=
  0 <= sec < disksize s /\ ~ in_log start size sec.

Lemma absorb_slot es lg sec :
  logst es lg -> Forall (fun e => 0 <= e.1 < 2 ^ 31) es -> absorb lg sec = slot es sec.
Proof.
  intros (_ & _ & _ & Hn & _ & Ht) Hf. unfold absorb. rewrite Hn, Nat2Z.id, Ht.
  assert (list_find (fun v => u32 v = sec) es.*1 = list_find (fun v => v = sec) es.*1) as ->.
  { clear Hn Ht. induction Hf as [|e es He _ IH]; csimpl; [done|].
    rewrite IH. assert (u32 e.1 = e.1) as E by (unfold u32; rewrite Z.mod_small; lia).
    repeat case_decide; congruence. }
  rewrite list_find_slot. pose proof (slot_le es sec). case_decide; done.
Qed.

Lemma log_sector_eq lg k s :
  lg.(l_start) = start -> geom s -> 0 <= k < size -> log_sector lg k = start + k.
Proof. intros E (?&?&?&?) Hk. unfold log_sector, u32. rewrite E, Z.mod_small; lia. Qed.

(** Recording [sec] in its slot of the in-memory header. *)
Definition note (i : nat) (sec : Z) (lg : log) : log :=
  set_lh_sector (<[i := s32 sec]> lg.(lh_sector)) lg.
Definition bump (i : nat) (lg : log) : log :=
  if Z.of_nat i =? lg.(lh_n) then set_lh_n (lg.(lh_n) + 1) lg else lg.

Lemma bump_busy i lg : (bump i lg).(l_busy) = lg.(l_busy).
Proof. unfold bump. by destruct (Z.of_nat i =? lh_n lg). Qed.

Lemma logst_note es lg sec blk :
  logst es lg -> 0 <= sec < 2 ^ 31 -> (length es < Z.to_nat LOGSIZE)%nat ->
  logst (put_ent sec blk es) (bump (slot es sec) (note (slot es sec) sec lg)).
Proof.
  intros (H1 & H2 & H3 & H4 & H5 & H6) Hsec Hlen. pose proof (slot_le es sec) as Hle.
  unfold bump, note. simpl. rewrite H4, s32_small by lia.
  destruct (Z.eqb_spec (Z.of_nat (slot es sec)) (Z.of_nat (length es))) as [E|E];
    unfold logst; simpl; rewrite put_ent_length, length_insert.
  - rewrite decide_True by lia. split_and!; try done; [lia|].
    rewrite put_ent_sectors, decide_True by lia. rewrite <- H6.
    assert (slot es sec = length es) as -> by lia.
    rewrite take_insert_lt by lia.
    rewrite (take_S_r _ _ (default 0 (lh_sector lg !! length es))).
    { rewrite !insert_app_r_alt by (rewrite length_take; lia).
      by rewrite length_take, Nat.min_l, Nat.sub_diag by lia. }
    destruct (lh_sector lg !! length es) eqn:El; [done|]. apply lookup_ge_None in El. lia.
  - rewrite decide_False by lia. split_and!; try done.
    rewrite put_ent_sectors, decide_False by lia. rewrite app_nil_r, <- H6.
    by rewrite take_insert_lt by lia.
Qed.
End Geom.

(** ** write_head *)

(** The block [write_head] writes: the count and the sectors over the old
    contents [h]. *)
Fixpoint fill (i : nat) (ss : list Z) (h : list Z) : list Z :=
  match ss with
  | [] => h
  | v :: ss' => fill (S i) ss' (put32 (4 + 4 * i) v h)
  end.
Definition head_block (ss : list Z) (h : list Z) : list Z :=
  fill 0 ss (put32 0 (Z.of_nat (length ss)) h).

Lemma length_fill i ss h :
  (4 + 4 * (i + length ss) <= length h)%nat -> length (fill i ss h) = length h.
Proof.
  revert i h. induction ss as [|v ss IH]; intros i h Hl; cbn [fill length] in *; [done|].
  rewrite IH; rewrite length_put_le; lia.
Qed.

Lemma fill_before i ss h off :
  (4 + 4 * (i + length ss) <= length h)%nat -> (off + 4 <= 4 + 4 * i)%nat ->
  get32 off (fill i ss h) = get32 off h.
Proof.
  revert i h. induction ss as [|v ss IH]; intros i h Hl Ho; cbn [fill length] in *; [done|].
  rewrite IH by (rewrite ?length_put_le; lia). apply get_put_other; lia.
Qed.

Lemma fill_at i ss h j v :
  (4 + 4 * (i + length ss) <= length h)%nat -> ss !! j = Some v ->
  get32 (4 + 4 * (i + j)) (fill i ss h) = v mod 2 ^ 32.
Proof.
  revert i h j. induction ss as [|w ss IH]; intros i h j Hl Hj; cbn [fill length] in *; [done|].
  destruct j as [|j]; simpl in Hj.
  - simplify_eq. rewrite Nat.add_0_r, fill_before by (rewrite ?length_put_le; lia).
    rewrite get_put_same by lia. done.
  - replace (i + S j)%nat with (S i + j)%nat by lia. apply IH; [|done].
    rewrite length_put_le; lia.
Qed.

Lemma length_head_block ss h :
  (4 + 4 * length ss <= length h)%nat -> length (head_block ss h) = length h.
Proof. intros. unfold head_block. rewrite length_fill; rewrite length_put_le; lia. Qed.

Lemma hd_n_block ss h :
  (4 + 4 * length ss <= length h)%nat -> Z.of_nat (length ss) < 2 ^ 31 ->
  hd_n (head_block ss h) = Z.of_nat (length ss).
Proof.
  intros Hl Hn. unfold hd_n, head_block. rewrite fill_before by (rewrite ?length_put_le; lia).
  rewrite get_put_same by lia. change (256 ^ Z.of_nat 4) with (2 ^ 32).
  rewrite Z.mod_small by lia. apply s32_small. lia.
Qed.

Lemma hd_sector_block ss h i v :
  (4 + 4 * length ss <= length h)%nat -> ss !! i = Some v -> 0 <= v < 2 ^ 31 ->
  hd_sector (head_block ss h) i = v.
Proof.
  intros Hl Hi Hv. unfold hd_sector, head_block.
  rewrite (fill_at 0 ss _ i v); [|rewrite length_put_le; lia|done].
  rewrite Z.mod_small by lia. apply s32_small; lia.
Qed.

Lemma write_head_loop P b fl sec ss s env i h :
  rep [hb b fl sec h] P s -> has fl B_DIRTY = false ->
  (forall j v, ss !! j = Some v -> s.(klog).(lh_sector) !! (i + j)%nat = Some v) ->
  (4 + 4 * (i + length ss) <= Z.to_nat BSIZE)%nat ->
  exists s', mfor (seq i (length ss)) (fun i =>
      lg <- get_log ;;
      v <- deref "log.lh.sector" (lg.(lh_sector) !! i) ;;
      modify (upd_buf b (fun x => set_b_data (put32 (4 + 4 * i) v x.(b_data)) x))) s env = Ok tt s' env /\
    frame s s' /\ s'.(disk) = s.(disk) /\ s'.(dwrites) = s.(dwrites) /\
    rep [hb b fl sec (fill i ss h)] P s'.
Proof.
  revert s i h. induction ss as [|v ss IH]; intros s i h Hr Hfl Hss Hl; simpl.
  { exists s. split_and!; try done. apply frame_refl. }
  destruct (rep_buf _ _ _ b fl sec h Hr ltac:(left)) as (_ & _ & _ & _ & _ & _ & _ & _ & _ & _ & _ & Hlen).
  destruct (upd_data_rep [] P s b fl sec h (put32 (4 + 4 * i) v) Hr) as (Hf1 & Hd1 & Hw1 & Hr1).
  { rewrite length_put_le; simpl in Hl; lia. }
  rewrite Hfl in Hr1. unfold put_pend in Hr1.
  set (s1 := upd_buf b _ s) in *.
  destruct (IH s1 (S i) (put32 (4 + 4 * i) v h) Hr1 Hfl) as (s' & Hrun & Hf & Hd & Hw & Hr').
  { intros j w Hj. rewrite (frame_klog _ _ Hf1). rewrite Nat.add_succ_comm. by apply Hss. }
  { simpl in Hl. lia. }
  exists s'. split_and!; [|exact (frame_trans _ _ _ Hf1 Hf)|congruence|congruence|done].
  unfold get_log. mrun. rewrite <- (Nat.add_0_r i) at 1. rewrite (Hss 0%nat v eq_refl). simpl. mrun.
  done.
Qed.

Section Head.
Context (start size : Z).

Lemma write_head_run es P s env h :
  rep [] P s -> logst start size es s.(klog) -> geom start size s ->
  P !! start = None -> (stdpp.base.size P < NBUF)%nat -> (length es <= Z.to_nat LOGSIZE)%nat ->
  s.(disk) !! Z.to_nat start = Some h ->
  exists s', write_head s env = Ok tt s' env /\ frame s s' /\
    s'.(disk) = <[Z.to_nat start := head_block es.*1 h]> s.(disk) /\
    s'.(dwrites) = s.(dwrites) ++ [(start, head_block es.*1 h)] /\
    rep [] P s'.
Proof.
  intros Hr Hlg Hg HP Hsz Hles Hh. pose proof Hg as (Hst & Hsz0 & Hend & _).
  pose proof Hlg as (Hs1 & Hs2 & Hs3 & Hs4 & Hs5 & Hs6). unfold write_head, get_log. mrun.
  rewrite Hs3, (log_sector_eq start size _ 0 s Hs1 Hg) by lia. rewrite Z.add_0_r.
  destruct (bread_rep [] P s start env Hr) as (b & fl & blk & s1 & Hrun1 & Hf1 & Hd1 & Hw1 & Hv1 & Hfl1 & Hr1).
  { lia. } { by intros e ?%elem_of_nil. } { left. unfold nclean. simpl. unfold base.size in *; lia. }
  mstep Hrun1. mrun. unfold rview in Hv1. rewrite HP in Hv1. assert (blk = h) as -> by congruence.
  rewrite bool_decide_eq_false_2 in Hfl1 by (rewrite HP; by intros [? ?]).
  rewrite (frame_klog _ _ Hf1), Hs4.
  destruct (rep_buf _ _ _ b fl start h Hr1 ltac:(left)) as (_ & _ & _ & _ & _ & _ & _ & _ & _ & _ & _ & Hlen).
  change (Z.to_nat BSIZE) with 512%nat in Hlen. change (Z.to_nat LOGSIZE) with 10%nat in *.
  destruct (upd_data_rep [] P s1 b fl start h (put32 0 (Z.of_nat (length es))) Hr1) as (Hf2 & Hd2 & Hw2 & Hr2).
  { rewrite length_put_le; [done|lia]. }
  rewrite Hfl1 in Hr2. unfold put_pend in Hr2. set (s2 := upd_buf b _ s1) in *.
  destruct (write_head_loop P b fl start es.*1 s2 env 0 _ Hr2 Hfl1) as (s3 & Hrun3 & Hf3 & Hd3 & Hw3 & Hr3).
  { intros j v Hj. simpl. rewrite (frame_klog _ _ Hf1).
    rewrite <- (lookup_take_lt _ (length es)), Hs6; [done|].
    apply lookup_lt_Some in Hj. by rewrite length_fmap in Hj. }
  { rewrite length_fmap. change (Z.to_nat BSIZE) with 512%nat. lia. }
  rewrite length_fmap in Hrun3. rewrite Nat2Z.id. mstep Hrun3.
  rewrite <- (length_fmap fst) in Hr3 at 1. fold (head_block es.*1 h) in Hr3.
  destruct (bwrite_rep _ _ s3 b _ _ _ env Hr3) as (fl4 & s4 & Hrun4 & Hf4 & Hfl4 & Hd4 & Hw4 & Hr4).
  mstep Hrun4. rewrite delete_id in Hr4 by done.
  destruct (brelse_rep _ _ s4 b _ _ _ env Hr4) as (s5 & Hrun5 & Hf5 & Hd5 & Hw5 & Hr5).
  { intros _. rewrite Hd4. apply list_lookup_insert_eq.
    rewrite Hd3, Hd2, Hd1. by eapply lookup_lt_Some. }
  exists s5. split_and!; [done| | | |done].
  - frames.
  - congruence.
  - congruence.
Qed.
End Head.

(** ** install_trans *)

Section Install.
Context (start size : Z).

(** The sectors still pending when the entries [es] remain to be installed:
    all of them in a commit, none in a recovery. *)
Definition remaining (commit : bool) (es : list (Z * list Z)) : gmap Z (list Z) :=
  if commit then list_to_map es else ∅.

Lemma remaining_other c es sec :
  Forall (fun e => ~ in_log start size e.1) es -> in_log start size sec -> remaining c es !! sec = None.
Proof.
  intros Hf Hin. destruct c; [|done]. apply ents_lookup.
  intros (e & -> & He)%list_elem_of_fmap. rewrite Forall_forall in Hf. by apply (Hf e).
Qed.

Lemma remaining_cons c e es :
  e.1 ∉ es.*1 \/ c = false -> delete e.1 (remaining c (e :: es)) = remaining c es.
Proof.
  intros Hn. destruct c; simpl; [|by rewrite delete_empty].
  destruct Hn as [Hn|?]; [|done].
  rewrite delete_insert_eq, delete_id; [done|]. by apply ents_lookup.
Qed.

Lemma remaining_size c es :
  NoDup es.*1 \/ c = false -> (stdpp.base.size (remaining c es) <= length es)%nat.
Proof.
  intros Hn. destruct c; simpl; [|rewrite map_size_empty; lia].
  destruct Hn as [?|?]; [by rewrite ents_size|done].
Qed.

Definition install_step (tail : nat) : K unit :=
  lg <- get_log ;;
  lbuf <- bread lg.(l_dev) (log_sector lg (Z.of_nat tail + 1)) ;;
  lg <- get_log ;;
  o <- deref "log.lh.sector" (lg.(lh_sector) !! tail) ;;
  dbuf <- bread lg.(l_dev) (u32 o) ;;
  lb <- get_buf lbuf ;;
  modify (upd_buf dbuf (set_b_data lb.(b_data))) ;;;
  bwrite dbuf ;;;
  brelse lbuf ;;;
  brelse dbuf.

Lemma install_step_run c e es s env tail :
  rep [] (remaining c (e :: es)) s ->
  s.(klog).(l_start) = start -> s.(klog).(l_dev) = 1 ->
  s.(klog).(lh_sector) !! tail = Some e.1 ->
  geom start size s -> Forall (fun e => data_sector start size s e.1) (e :: es) ->
  NoDup (e :: es).*1 \/ c = false -> (length (e :: es) < NBUF)%nat \/ c = false ->
  Z.of_nat tail + 1 < size -> s.(disk) !! Z.to_nat (start + (Z.of_nat tail + 1)) = Some e.2 ->
  exists s', install_step tail s env = Ok tt s' env /\ frame s s' /\
    s'.(disk) = <[Z.to_nat e.1 := e.2]> s.(disk) /\
    s'.(dwrites) = s.(dwrites) ++ [e] /\
    rep [] (remaining c es) s'.
Proof.
  intros Hr Hls Hld Hsec Hg Hdat Hnd Hlen Htl Hblk. destruct e as [sec blk]. cbn [fst snd] in *.
  pose proof Hg as (Hst & Hsz & Hend & Hmax).
  pose proof Hdat as [Hd1 _]%Forall_cons. cbn [fst] in Hd1. destruct Hd1 as [Hrange Hnl].
  assert (Hnlog : Forall (fun e => ~ in_log start size e.1) ((sec, blk) :: es)).
  { eapply Forall_impl; [exact Hdat|]. by intros x [_ ?]. }
  assert (Hsize : (stdpp.base.size (remaining c ((sec, blk) :: es)) < NBUF)%nat).
  { pose proof (remaining_size c _ Hnd). destruct Hlen as [?| ->]; [lia|]. simpl. rewrite map_size_empty. unfold NBUF. lia. }
  set (ls := start + (Z.of_nat tail + 1)) in *.
  assert (Hls' : in_log start size ls) by (unfold in_log, ls; lia).
  unfold install_step, get_log. mrun. rewrite Hld, (log_sector_eq start size _ _ s Hls Hg) by lia. fold ls.
  destruct (bread_rep [] _ s ls env Hr) as (lb & fl & b1 & s1 & Hrun1 & Hf1 & Hk1 & Hw1 & Hv1 & Hfl1 & Hr1).
  { unfold ls; lia. } { by intros x ?%elem_of_nil. } { left. unfold nclean. simpl. lia. }
  unfold rview in Hv1. rewrite (remaining_other c _ ls Hnlog Hls') in Hv1, Hfl1.
  rewrite bool_decide_eq_false_2 in Hfl1 by (by intros [? ?]).
  assert (b1 = blk) as -> by congruence.
  mstep Hrun1. mrun. rewrite (frame_klog _ _ Hf1), Hsec, Hld. simpl. mrun.
  assert (u32 sec = sec) as -> by (unfold u32; rewrite Z.mod_small; lia).
  destruct (bread_rep _ _ s1 sec env Hr1) as (db & fl2 & b2 & s2 & Hrun2 & Hf2 & Hk2 & Hw2 & Hv2 & Hfl2 & Hr2).
  { unfold disksize in *. rewrite Hk1. lia. }
  { intros x [->|?%elem_of_nil]%elem_of_cons; [|done]. unfold hb_sector, hb. simpl. intros E. apply Hnl. by rewrite <- E. }
  { destruct c; [right|left].
    - simpl. rewrite lookup_insert_eq. by eexists.
    - simpl. rewrite map_size_empty. unfold nclean. rewrite filter_cons. destruct (decide _); simpl; unfold NBUF; lia. }
  mstep Hrun2.
  destruct (get_buf_rep _ _ s2 lb fl ls blk env Hr2 ltac:(right; left)) as (bf & Hget & _ & _ & _ & Hbd).
  mstep Hget. rewrite Hbd. mrun.
  destruct (rep_buf _ _ _ lb fl ls blk Hr1 ltac:(left)) as (_ & _ & _ & _ & _ & _ & _ & _ & _ & _ & _ & Hbl).
  destruct (set_data_rep _ _ s2 db fl2 sec b2 blk Hr2 Hbl) as (Hf3 & Hk3 & Hw3 & Hr3).
  set (s3 := upd_buf db _ s2) in *.
  destruct (bwrite_rep _ _ s3 db _ _ _ env Hr3) as (fl4 & s4 & Hrun4 & Hf4 & Hfl4 & Hk4 & Hw4 & Hr4).
  mstep Hrun4. apply (rep_perm _ [hb lb fl ls blk; hb db fl4 sec blk]) in Hr4; [|apply perm_swap].
  assert (Hne : Z.to_nat sec <> Z.to_nat ls) by (intros E; apply Hnl; unfold in_log, ls in *; lia).
  destruct (brelse_rep _ _ s4 lb _ _ _ env Hr4) as (s5 & Hrun5 & Hf5 & Hk5 & Hw5 & Hr5).
  { intros _. rewrite Hk4, list_lookup_insert_ne by done. rewrite Hk3, Hk2, Hk1. done. }
  mstep Hrun5.
  destruct (brelse_rep _ _ s5 db _ _ _ env Hr5) as (s6 & Hrun6 & Hf6 & Hk6 & Hw6 & Hr6).
  { intros _. rewrite Hk5, Hk4. apply list_lookup_insert_eq. rewrite Hk3, Hk2, Hk1.
    unfold disksize in Hrange. lia. }
  exists s6. split_and!; [done|frames|congruence|congruence|].
  replace (delete sec (put_pend (has fl2 B_DIRTY) sec blk (remaining c ((sec, blk) :: es)))) with (remaining c es) in Hr6; [done|].
  unfold put_pend. rewrite <- (remaining_cons c (sec, blk) es).
  - simpl. destruct (has fl2 B_DIRTY); [by rewrite delete_insert_eq|done].
  - destruct Hnd as [[? _]%NoDup_cons|?]; [by left|by right].
Qed.

Lemma install_loop c es : forall s env k,
  rep [] (remaining c es) s ->
  s.(klog).(l_start) = start -> s.(klog).(l_dev) = 1 ->
  (forall i e, es !! i = Some e -> s.(klog).(lh_sector) !! (k + i)%nat = Some e.1 /\
     s.(disk) !! Z.to_nat (start + (Z.of_nat (k + i) + 1)) = Some e.2) ->
  geom start size s -> Forall (fun e => data_sector start size s e.1) es ->
  NoDup es.*1 \/ c = false -> (length es < NBUF)%nat \/ c = false ->
  Z.of_nat (k + length es) < size ->
  exists s', mfor (seq k (length es)) install_step s env = Ok tt s' env /\ frame s s' /\
    s'.(disk) = apply_writes es s.(disk) /\
    s'.(dwrites) = s.(dwrites) ++ es /\
    rep [] ∅ s'.
Proof.
  induction es as [|e es IH]; intros s env k Hr Hls Hld Hes Hg Hdat Hnd Hlen Hk; simpl.
  { exists s. rewrite app_nil_r. split_and!; try done; [apply frame_refl|]. by destruct c. }
  destruct (Hes 0%nat e eq_refl) as [Hs0 Hb0]. rewrite Nat.add_0_r in Hs0, Hb0.
  destruct (install_step_run c e es s env k) as (s1 & Hrun & Hf & Hd & Hw & Hr1); try done.
  { simpl in Hk. lia. }
  mstep Hrun.
  assert (Hds : disksize s1 = disksize s) by (unfold disksize; by rewrite Hd, length_insert).
  destruct (IH s1 env (S k)) as (s' & Hrun' & Hf' & Hd' & Hw' & Hr'); try done.
  - by rewrite (frame_klog _ _ Hf).
  - by rewrite (frame_klog _ _ Hf).
  - intros i x Hi. destruct (Hes (S i) x Hi) as [Ha Hb]. rewrite Nat.add_succ_r in Ha, Hb.
    rewrite (frame_klog _ _ Hf). split; [done|]. rewrite Hd.
    apply Forall_cons in Hdat as [[Hr1' Hnl] _].
    assert (S i < length (e :: es))%nat by (simpl; apply lookup_lt_Some in Hi; lia).
    destruct Hg as (? & ? & ? & ?). rewrite list_lookup_insert_ne; [done|].
    unfold in_log in Hnl. simpl in *. lia.
  - unfold geom. by rewrite Hds.
  - apply Forall_cons in Hdat as [_ Hdat]. unfold data_sector. by rewrite Hds.
  - destruct Hnd as [[_ ?]%NoDup_cons|?]; [by left|by right].
  - destruct Hlen; [left; simpl in *; lia|by right].
  - simpl in Hk. lia.
  - exists s'. split_and!; [done|frames| | |done].
    + rewrite Hd', Hd. done.
    + rewrite Hw', Hw, <- app_assoc. done.
Qed.
End Install.

(** ** log_write *)

Section Write.
Context (start size : Z).

(** Copying a held buffer to a sector of the log, before any continuation. *)
Lemma log_copy_run P s env b fl sec blk ls {A} (k : K A) :
  rep [hb b fl sec blk] P s -> 0 <= ls < disksize s -> ls <> sec -> P !! ls = None ->
  (stdpp.base.size P + nclean [hb b fl sec blk] < NBUF)%nat ->
  exists s', (lbuf <- bread 1 ls ;; bf <- get_buf b ;;
      modify (upd_buf lbuf (set_b_data bf.(b_data))) ;;; bwrite lbuf ;;; brelse lbuf ;;; k) s env = k s' env /\
    frame s s' /\ s'.(disk) = write_sector s.(disk) (ls, blk) /\ s'.(dwrites) = s.(dwrites) ++ [(ls, blk)] /\
    rep [hb b fl sec blk] P s'.
Proof.
  intros Hr Hls Hne HP Hav.
  destruct (bread_rep _ _ s ls env Hr) as (lb & fl2 & b2 & s2 & Hrun2 & Hf2 & Hk2 & Hw2 & Hv2 & Hfl2 & Hr2); [done| |by left|].
  { intros x [->|?%elem_of_nil]%elem_of_cons; [|done]. unfold hb_sector, hb. simpl. congruence. }
  rewrite HP in Hfl2. rewrite bool_decide_eq_false_2 in Hfl2 by (by intros [? ?]). mstep Hrun2.
  destruct (get_buf_rep _ _ s2 b fl sec blk env Hr2 ltac:(right; left)) as (bf & Hget & _ & _ & _ & Hbd).
  mstep Hget. rewrite Hbd. mrun.
  destruct (rep_buf _ _ _ b fl sec blk Hr ltac:(left)) as (_ & _ & _ & _ & _ & _ & _ & _ & _ & _ & _ & Hbl).
  destruct (set_data_rep _ _ s2 lb fl2 ls b2 blk Hr2 Hbl) as (Hf3 & Hk3 & Hw3 & Hr3).
  rewrite Hfl2 in Hr3. unfold put_pend in Hr3. set (s3 := upd_buf lb _ s2) in *.
  destruct (bwrite_rep _ _ s3 lb _ _ _ env Hr3) as (fl4 & s4 & Hrun4 & Hf4 & Hfl4 & Hk4 & Hw4 & Hr4).
  rewrite (delete_id _ _ HP) in Hr4. mstep Hrun4.
  destruct (brelse_rep _ _ s4 lb _ _ _ env Hr4) as (s5 & Hrun5 & Hf5 & Hk5 & Hw5 & Hr5).
  { intros _. rewrite Hk4. apply list_lookup_insert_eq. rewrite Hk3, Hk2. unfold disksize in Hls. lia. }
  mstep Hrun5. exists s5. split_and!; [done|frames| |by rewrite Hw5, Hw4, Hw3, Hw2|done].
  by rewrite Hk5, Hk4, Hk3, Hk2.
Qed.

Lemma log_write_run es P s env b fl sec blk :
  rep [hb b fl sec blk] P s -> logst start size es s.(klog) -> s.(klog).(l_busy) = true ->
  geom start size s -> data_sector start size s sec ->
  Forall (fun e => data_sector start size s e.1) es ->
  (length es < Z.to_nat LOGSIZE)%nat -> Z.of_nat (length es) < size - 1 ->
  (forall sec', in_log start size sec' -> P !! sec' = None) ->
  (stdpp.base.size P + nclean [hb b fl sec blk] < NBUF)%nat ->
  let w := (start + (Z.of_nat (slot es sec) + 1), blk) in
  exists s', log_write b s env = Ok tt s' env /\ lframe s s' /\
    s'.(disk) = write_sector s.(disk) w /\ s'.(dwrites) = s.(dwrites) ++ [w] /\
    logst start size (put_ent sec blk es) s'.(klog) /\ s'.(klog).(l_busy) = true /\
    rep [hb b (Z.lor fl B_DIRTY) sec blk] (<[sec := blk]> P) s'.
Proof.
  intros Hr Hlg Hbusy Hg [Hrange Hnl] Hdat Hle Hsz HP Hav w.
  pose proof Hg as (Hst & Hsz0 & Hend & Hmax). pose proof Hlg as (Hs1 & Hs2 & Hs3 & Hs4 & Hs5 & Hs6).
  pose proof (slot_le es sec) as Hslot.
  assert (Habs : absorb s.(klog) sec = slot es sec).
  { eapply absorb_slot; [done|]. eapply Forall_impl; [exact Hdat|]. intros x [? _]. lia. }
  unfold log_write, get_log. mrun. rewrite Hs2, Hs4, Hbusy.
  change (Z.to_nat LOGSIZE) with 10%nat in *. unfold LOGSIZE.
  rewrite (proj2 (Z.leb_gt _ _)) by lia. rewrite (proj2 (Z.leb_gt _ _)) by lia. cbn [orb negb].
  destruct (get_buf_rep _ _ s b fl sec blk env Hr ltac:(left)) as (bf & Hget & Hbfl & Hbdev & Hbsec & Hbd).
  mstep Hget. rewrite Hbdev, Hbsec, Habs. mrun.
  set (i := slot es sec) in *. set (s1 := upd_log _ s).
  assert (Hr1 : rep [hb b fl sec blk] P s1) by (by apply rep_log).
  rewrite (log_sector_eq start size _ _ s Hs1 Hg) by lia. set (ls := start + (Z.of_nat i + 1)) in *.
  assert (Hls : in_log start size ls) by (unfold in_log, ls; lia).
  match goal with |- context [brelse _ ;;; ?k] =>
    destruct (log_copy_run P s1 env b fl sec blk ls k Hr1) as (s5 & Hrun5 & Hf5 & Hk5 & Hw5 & Hr5) end.
  { change (disksize s1) with (disksize s). unfold ls. lia. }
  { intros E. apply Hnl. by rewrite <- E. } { by apply HP. } { done. }
  rewrite Hrun5. mrun. pose proof (frame_klog _ _ Hf5) as Hk15.
  assert (Hbump : (when (Z.of_nat i =? lh_n (klog s5)) (modify (upd_log (fun l => set_lh_n (lh_n l + 1) l)))) s5 env
    = Ok tt (upd_log (bump i) s5) env).
  { unfold when, upd_log, bump, modify, ret. destruct (_ =? _); [done|]. by destruct s5. }
  mstep Hbump.
  pose proof (rep_log _ _ (bump i) _ Hr5) as Hr6. set (s6 := upd_log (bump i) s5) in *.
  destruct (set_dirty_rep _ _ s6 b fl sec blk Hr6) as (Hf7 & Hk7 & Hw7 & Hr7).
  eexists. split; [reflexivity|]. set (s7 := upd_buf b _ s6) in *.
  assert (Hlog7 : klog s7 = bump i (note i sec (klog s))).
  { change (klog s7) with (bump i (klog s5)). by rewrite Hk15. }
  split_and!.
  - apply (lframe_trans _ s1); [apply lframe_log|].
    apply (lframe_trans _ s5); [apply frame_lframe; frames|].
    apply (lframe_trans _ s6); [apply lframe_log|]. by apply frame_lframe.
  - by rewrite Hk7.
  - by rewrite Hw7.
  - rewrite Hlog7. apply logst_note; [done|lia|exact Hle].
  - rewrite Hlog7, bump_busy. exact Hbusy.
  - done.
Qed.
End Write.

(** ** Transactions *)

(** How the file system changes a sector: read it, compute the new
    contents in the buffer, log it, let it go (bzero, bfree, iupdate, ...). *)
Definition log_update (sec : Z) (f : list Z -> list Z) : K unit :=
  b <- bread ROOTDEV sec ;;
  modify (upd_buf b (fun x => set_b_data (f x.(b_data)) x)) ;;;
  log_write b ;;;
  brelse b.

Definition transaction (ups : list (Z * (list Z -> list Z))) : K unit :=
  begin_trans ;;;
  mfor ups (fun u => log_update u.1 u.2) ;;;
  commit_trans.

(** What the updates make of the sectors logged so far, over the disk [d]. *)
Definition entry_of (es : list (Z * list Z)) (d : list (list Z)) (sec : Z) : list Z :=
  default [] (rview (list_to_map es) d sec).
Definition log_entry (d : list (list Z)) (es : list (Z * list Z)) (u : Z * (list Z -> list Z)) :=
  put_ent u.1 (u.2 (entry_of es d u.1)) es.
Definition log_entries_of (d : list (list Z)) (ups : list (Z * (list Z -> list Z))) (es : list (Z * list Z)) :=
  foldl (log_entry d) es ups.

(** Updates keep the size of a sector. *)
Definition keeps_size (f : list Z -> list Z) : Prop :=
  forall blk, length blk = Z.to_nat BSIZE -> length (f blk) = Z.to_nat BSIZE.

Section Trans.
Context (start size : Z).

(** Within a transaction that began on disk [d0] with the write history
    [w0] and has logged [es]. *)
Definition tinv (w0 : list (Z * list Z)) (d0 : list (list Z)) (es : list (Z * list Z)) (s : kstate) : Prop :=
  rep [] (list_to_map es) s /\ NoDup es.*1 /\
  logst start size es s.(klog) /\ s.(klog).(l_busy) = true /\
  (log_lock ∉ s.(kcpu).(held)) /\
  geom start size s /\ Forall (fun e => data_sector start size s e.1) es /\
  (exists ws, s.(dwrites) = w0 ++ ws /\ s.(disk) = apply_writes ws d0 /\
     Forall (fun w => start < w.1 < start + size) ws) /\
  (forall i e, es !! i = Some e -> s.(disk) !! Z.to_nat (start + Z.of_nat i + 1) = Some e.2).

Lemma ents_not_log (s : kstate) (es : list (Z * list Z)) sec :
  Forall (fun e => data_sector start size s e.1) es -> in_log start size sec ->
  (list_to_map es : gmap Z (list Z)) !! sec = None.
Proof.
  intros Hf. apply (remaining_other start size true).
  eapply Forall_impl; [exact Hf|]. by intros e [_ ?].
Qed.

(** The log writes of a transaction do not show in data sectors. *)
Lemma tinv_view w0 d0 es s sec :
  tinv w0 d0 es s -> 0 <= sec -> ~ in_log start size sec ->
  rview (list_to_map es) s.(disk) sec = rview (list_to_map es) d0 sec.
Proof.
  intros (_ & _ & _ & _ & _ & Hg & _ & (ws & _ & -> & Hws) & _) Hs Hn. unfold rview.
  destruct (list_to_map es !! sec); [done|]. apply (apply_in_log start size); [apply Hg| |done|done].
  eapply Forall_impl; [exact Hws|]. unfold in_log. simpl. lia.
Qed.

(** Logging [v] for sector [sec] keeps the transaction's invariant. *)
Lemma tinv_put w0 d0 es s s4 sec v (w := (start + (Z.of_nat (slot es sec) + 1), v)) :
  tinv w0 d0 es s -> data_sector start size s sec -> Z.of_nat (length es) < size - 1 -> lframe s s4 ->
  rep [] (<[sec := v]> (list_to_map es)) s4 ->
  logst start size (put_ent sec v es) s4.(klog) -> s4.(klog).(l_busy) = true ->
  s4.(disk) = write_sector s.(disk) w -> s4.(dwrites) = s.(dwrites) ++ [w] ->
  tinv w0 d0 (put_ent sec v es) s4.
Proof.
  intros Hti Hds Hsz Hlf Hr4 Hlg4 Hb4 Hd4 Hw4.
  pose proof Hti as (Hr & Hnd & Hlg & Hbusy & Hlk & Hg & Hdat & (ws & Hw & Hd & Hws) & Hes).
  pose proof (slot_le es sec) as Hslot. pose proof Hg as (Hst & Hsz0 & Hend & Hmax).
  assert (Hds4 : disksize s4 = disksize s) by (unfold disksize; by rewrite Hd4; unfold write_sector; rewrite length_insert).
  split_and!.
  - by rewrite put_ent_map.
  - by apply put_ent_nodup.
  - done.
  - done.
  - by rewrite (lframe_kcpu _ _ Hlf).
  - unfold geom. by rewrite Hds4.
  - unfold data_sector. rewrite Hds4. apply put_ent_Forall; [done|exact Hdat].
  - exists (ws ++ [w]). split_and!.
    + by rewrite Hw4, Hw, app_assoc.
    + by rewrite Hd4, Hd, apply_app.
    + apply Forall_app. split; [done|]. apply Forall_singleton. simpl. lia.
  - intros i e Hi. rewrite put_ent_lookup in Hi. rewrite Hd4. unfold write_sector, w. cbn [fst snd].
    case_decide as E.
    + simplify_eq. rewrite <- Z.add_assoc. apply list_lookup_insert_eq. unfold disksize in Hend. lia.
    + rewrite list_lookup_insert_ne by lia. by apply Hes.
Qed.

Lemma log_update_run w0 d0 es s env sec f :
  tinv w0 d0 es s -> data_sector start size s sec -> keeps_size f ->
  (length es < NBUF - 1)%nat \/ sec ∈ es.*1 -> (length es < NBUF)%nat ->
  Z.of_nat (length es) < size - 1 ->
  exists s', log_update sec f s env = Ok tt s' env /\ lframe s s' /\
    tinv w0 d0 (log_entry d0 es (sec, f)) s'.
Proof.
  intros Hti [Hrange Hnl] Hf Hlen Hlen' Hsz.
  pose proof Hti as (Hr & Hnd & Hlg & Hbusy & Hlk & Hg & Hdat & (ws & Hw & Hd & Hws) & Hes).
  pose proof (slot_le es sec) as Hslot. unfold NBUF in Hlen, Hlen'.
  unfold log_update. unfold ROOTDEV.
  destruct (bread_rep [] _ s sec env Hr) as (b & fl & blk & s1 & Hrun1 & Hf1 & Hk1 & Hw1 & Hv1 & Hfl1 & Hr1).
  { done. } { by intros e ?%elem_of_nil. }
  { left. rewrite ents_size by done. unfold nclean, NBUF. simpl. lia. }
  mstep Hrun1. mrun.
  destruct (rep_buf _ _ _ b fl sec blk Hr1 ltac:(left)) as (_ & _ & _ & _ & _ & _ & _ & _ & _ & _ & _ & Hbl).
  destruct (upd_data_rep _ _ s1 b fl sec blk f Hr1 (Hf _ Hbl)) as (Hf2 & Hk2 & Hw2 & Hr2).
  set (s2 := upd_buf b _ s1) in *. set (P := put_pend _ _ _ _) in Hr2.
  assert (Hds : disksize s2 = disksize s) by (unfold disksize; by rewrite Hk2, Hk1).
  assert (Hdat2 : forall x, data_sector start size s2 x <-> data_sector start size s x)
    by (intros; unfold data_sector; by rewrite Hds).
  assert (HP : <[sec := f blk]> P = <[sec := f blk]> (list_to_map es)).
  { unfold P, put_pend. destruct (has fl B_DIRTY); [apply insert_insert_eq|done]. }
  assert (Hsize : (stdpp.base.size P + nclean [hb b fl sec (f blk)] < NBUF)%nat).
  { unfold P, put_pend. rewrite nclean_cons. unfold hb_clean. simpl. rewrite Hfl1.
    case_bool_decide as Hin; simpl.
    - rewrite map_size_insert_Some by done. rewrite ents_size by done. unfold nclean, NBUF. simpl. lia.
    - assert (sec ∉ es.*1) by (by apply ents_lookup, eq_None_not_Some).
      rewrite ents_size by done. destruct Hlen; [|done]. unfold nclean, NBUF. simpl. lia. }
  destruct (log_write_run start size es P s2 env b fl sec (f blk) Hr2) as (s3 & Hrun3 & Hf3 & Hk3 & Hw3 & Hlg3 & Hb3 & Hr3).
  { by rewrite (frame_klog _ _ Hf2), (frame_klog _ _ Hf1). }
  { by rewrite (frame_klog _ _ Hf2), (frame_klog _ _ Hf1). }
  { unfold geom. by rewrite Hds. } { by apply Hdat2. }
  { eapply Forall_impl; [exact Hdat|]. intros x. by apply Hdat2. }
  { change (Z.to_nat LOGSIZE) with 10%nat. lia. } { lia. }
  { intros x Hx. unfold P, put_pend. pose proof (ents_not_log s es x Hdat Hx).
    destruct (has fl B_DIRTY); [|done]. rewrite lookup_insert_ne; [done|]. intros ->. done. }
  { done. }
  mstep Hrun3. rewrite HP in Hr3.
  destruct (brelse_rep _ _ s3 b _ _ _ env Hr3) as (s4 & Hrun4 & Hf4 & Hk4 & Hw4 & Hr4).
  { rewrite has_lor. by rewrite orb_true_r. }
  exists s4. split; [done|].
  assert (Hlf : lframe s s4).
  { apply (lframe_trans _ s2); [apply frame_lframe; frames|].
    apply (lframe_trans _ s3); [done|]. by apply frame_lframe. }
  split; [done|]. unfold log_entry, entry_of. cbn [fst snd].
  rewrite <- (tinv_view w0 d0 es s) by (done || lia). rewrite Hv1. cbn [default].
  apply (tinv_put w0 d0 es s); try done; try (by rewrite (frame_klog _ _ Hf4)).
  - by rewrite Hk4, Hk3, Hk2, Hk1.
  - by rewrite Hw4, Hw3, Hw2, Hw1.
Qed.
End Trans.

(** ** Beginning and committing *)

Section Commit.
Context (start size : Z).

(** Between transactions. *)
Definition quiescent (s : kstate) : Prop :=
  rep [] ∅ s /\ logst start size [] s.(klog) /\ s.(klog).(l_busy) = false /\
  (log_lock ∉ s.(kcpu).(held)) /\ geom start size s /\
  exists h, s.(disk) !! Z.to_nat start = Some h /\ hd_n h = 0.

Lemma begin_trans_run s env :
  quiet s -> log_lock ∉ s.(kcpu).(held) -> s.(klog).(l_busy) = false ->
  begin_trans s env = Ok tt (upd_log (set_l_busy true) s) env.
Proof.
  intros Hq Hlk Hb. unfold begin_trans. mstep (acquire_quiet log_lock s env Hq Hlk).
  set (s1 := with_lock log_lock s).
  assert (Hloop : mloop_env (lg <- get_log ;;
    if lg.(l_busy) then sleep chan_log log_lock ;;; ret None else ret (Some tt)) s1 env = Ok tt s1 env).
  { unfold mloop_env, get_log. simpl. unfold gets, bind. simpl. by rewrite Hb. }
  mstep Hloop. mrun. by rewrite (release_quiet log_lock s).
Qed.

Lemma begin_tinv s : quiescent s ->
  tinv start size s.(dwrites) s.(disk) [] (upd_log (set_l_busy true) s).
Proof.
  intros (Hr & Hlg & Hb & Hlk & Hg & h & Hh & Hn). split_and!; try done.
  - constructor.
  - exists []. by rewrite app_nil_r.
Qed.

(** The last steps of [commit_trans]. *)
Lemma end_trans_run s env :
  bio_ok s -> log_lock ∉ s.(kcpu).(held) ->
  (acquire log_lock ;;; modify (upd_log (set_l_busy false)) ;;; wakeup chan_log ;;; release log_lock) s env
  = Ok tt (woken chan_log (upd_log (set_l_busy false) s)) env.
Proof.
  intros ((Hq & Hp & Hn) & _) Hlk. mstep (acquire_quiet log_lock s env Hq Hlk). mrun.
  rewrite (bind_ok _ _ _ _ _ _ _ (wakeup_eq chan_log (upd_log (set_l_busy false) (with_lock log_lock s)) env
    ltac:(split_and!; [by apply (quiet_with_lock log_lock)|simpl; set_solver|done]))).
  by rewrite (release_quiet log_lock s).
Qed.

Lemma rep_woken H P c s : rep H P s -> rep H P (woken c s).
Proof. apply rep_other; try done. simpl. by rewrite length_fmap. Qed.

Lemma lframe_woken c s : lframe s (woken c s).
Proof.
  apply frame_lframe. exists (bcache s), (wake c <$> procs s), (disk s), (dwrites s).
  rewrite length_fmap. split; [done|]. by destruct s.
Qed.

(** The writes of a commit. *)
Definition commit_writes (ws es : list (Z * list Z)) (h : list Z) : list (Z * list Z) :=
  match es with [] => ws | _ => trans_writes start ws h es end.

Lemma commit_body_run w0 d0 es s env h :
  tinv start size w0 d0 es s -> (0 < length es < NBUF)%nat -> Z.of_nat (length es) < size ->
  s.(disk) !! Z.to_nat start = Some h -> length h = Z.to_nat BSIZE ->
  exists s', (write_head ;;; install_trans ;;; modify (upd_log (set_lh_n 0)) ;;; write_head) s env = Ok tt s' env /\
    lframe s s' /\ rep [] ∅ s' /\ logst start size [] s'.(klog) /\ s'.(klog).(l_busy) = true /\
    let h' := head_block es.*1 h in
    let t := [(start, h')] ++ es ++ [(start, clear_head h')] in
    s'.(dwrites) = s.(dwrites) ++ t /\ s'.(disk) = apply_writes t s.(disk).
Proof.
  intros Hti Hlen Hsz Hh Hhl.
  pose proof Hti as (Hr & Hnd & Hlg & Hbusy & Hlk & Hg & Hdat & _ & Hes).
  pose proof Hg as (Hst & Hsz0 & Hend & Hmax). unfold NBUF in Hlen.
  pose proof Hlg as (Hs1 & Hs2 & Hs3 & Hs4 & Hs5 & Hs6).
  set (h' := head_block es.*1 h).
  assert (Hlog0 : in_log start size start) by (unfold in_log; lia).
  destruct (write_head_run start size es _ s env h Hr Hlg Hg) as (s1 & Hrun1 & Hf1 & Hd1 & Hw1 & Hr1).
  { by eapply ents_not_log. }
  { rewrite ents_size by done. unfold NBUF. lia. }
  { change (Z.to_nat LOGSIZE) with 10%nat. lia. } { done. }
  mstep Hrun1. unfold install_trans, get_log at 1. mrun. rewrite (frame_klog _ _ Hf1), Hs4, Nat2Z.id.
  change (fun tail : nat => _) with install_step.
  assert (Hds1 : disksize s1 = disksize s) by (unfold disksize; by rewrite Hd1, length_insert).
  destruct (install_loop start size true es s1 env 0 Hr1) as (s2 & Hrun2 & Hf2 & Hd2 & Hw2 & Hr2).
  { by rewrite (frame_klog _ _ Hf1). } { by rewrite (frame_klog _ _ Hf1). }
  { intros i e Hi. rewrite (frame_klog _ _ Hf1). simpl. pose proof (lookup_lt_Some _ _ _ Hi). split.
    - rewrite <- (lookup_take_lt _ (length es)), Hs6 by done. by rewrite list_lookup_fmap, Hi.
    - rewrite Hd1, list_lookup_insert_ne by lia. rewrite Z.add_assoc. by apply Hes. }
  { unfold geom. by rewrite Hds1. } { unfold data_sector. by rewrite Hds1. }
  { by left. } { left. unfold NBUF. lia. } { simpl. lia. }
  mstep Hrun2. mrun.
  assert (Hk2 : klog s2 = klog s) by (by rewrite (frame_klog _ _ Hf2), (frame_klog _ _ Hf1)).
  set (s3 := upd_log (set_lh_n 0) s2).
  assert (Hlg3 : logst start size [] (klog s3)).
  { unfold s3, logst, upd_log. simpl. rewrite Hk2. done. }
  assert (Hds3 : disksize s3 = disksize s).
  { change (disksize s3) with (disksize s2). unfold disksize in *. by rewrite Hd2, length_apply. }
  assert (Hh3 : disk s3 !! Z.to_nat start = Some h').
  { change (disk s3) with (disk s2). rewrite Hd2, apply_other, Hd1.
    - apply list_lookup_insert_eq. unfold disksize in Hend. lia.
    - done.
    - eapply Forall_impl; [exact Hdat|]. intros e [? Hnl]. split; [lia|]. intros E. apply Hnl. by rewrite E. }
  destruct (write_head_run start size [] ∅ s3 env h') as (s4 & Hrun4 & Hf4 & Hd4 & Hw4 & Hr4); try done.
  { unfold geom. by rewrite Hds3. }
  { rewrite map_size_empty. unfold NBUF. lia. } { simpl. lia. }
  exists s4. change (head_block ([] : list (Z * list Z)).*1 h') with (clear_head h') in *.
  rewrite (frame_klog _ _ Hf4). split_and!; [done| |done|done| | |].
  - apply (lframe_trans _ s2); [apply frame_lframe; frames|].
    apply (lframe_trans _ s3); [apply lframe_log|]. by apply frame_lframe.
  - unfold s3, upd_log. simpl. by rewrite Hk2.
  - rewrite Hw4. change (dwrites s3) with (dwrites s2). rewrite Hw2, Hw1, <- !app_assoc. done.
  - rewrite Hd4. change (disk s3) with (disk s2). rewrite !apply_app, Hd2, Hd1. done.
Qed.

Lemma commit_trans_run w0 d0 es s env h :
  tinv start size w0 d0 es s -> (length es < NBUF)%nat -> Z.of_nat (length es) < size ->
  s.(disk) !! Z.to_nat start = Some h -> length h = Z.to_nat BSIZE -> hd_n h = 0 ->
  exists s' ws, commit_trans s env = Ok tt s' env /\ lframe s s' /\ quiescent s' /\
    Forall (fun w => start < w.1 < start + size) ws /\ s.(disk) = apply_writes ws d0 /\
    let t := commit_writes ws es (head_block es.*1 h) in
    s'.(dwrites) = w0 ++ t /\ s'.(disk) = apply_writes t d0.
Proof.
  intros Hti Hlen Hsz Hh Hhl Hn.
  pose proof Hti as (Hr & Hnd & Hlg & Hbusy & Hlk & Hg & Hdat & (ws & Hw & Hd & Hws) & Hes).
  unfold commit_trans, get_log. mrun. pose proof Hlg as (_ & _ & _ & Hs4 & _). rewrite Hs4.
  destruct es as [|e es].
  - simpl. mrun. rewrite end_trans_run; [|apply Hr|done].
    eexists _, ws. split; [reflexivity|]. unfold quiescent. split_and?; try done.
    + eapply lframe_trans; [apply lframe_log|apply lframe_woken].
    + by apply rep_woken, rep_log.
    + by exists h.
  - destruct (commit_body_run w0 d0 (e :: es) s env h Hti) as (s1 & Hrun & Hf & Hr1 & Hlg1 & Hb1 & Hw1 & Hd1); try done.
    { simpl in *. lia. }
    rewrite (proj2 (Z.ltb_lt _ _)) by (simpl; lia). unfold when. mstep Hrun.
    set (h' := head_block (e :: es).*1 h) in *.
    rewrite end_trans_run; [|apply Hr1|by rewrite (lframe_kcpu _ _ Hf)].
    eexists _, ws. split; [reflexivity|].
    assert (Hgeom : disksize s1 = disksize s) by (unfold disksize; by rewrite Hd1, length_apply).
    unfold quiescent. split_and?; try done.
    + eapply lframe_trans; [exact Hf|]. eapply lframe_trans; [apply lframe_log|apply lframe_woken].
    + by apply rep_woken, rep_log.
    + simpl. by rewrite (lframe_kcpu _ _ Hf).
    + unfold geom. change (disksize (woken _ _)) with (disksize s1). by rewrite Hgeom.
    + exists (clear_head h'). split.
      * simpl. rewrite Hd1, !apply_app. apply list_lookup_insert_eq. rewrite !length_apply.
        destruct Hg as (? & ? & ? & _). unfold disksize in *. simpl. lia.
      * apply hd_n_clear. unfold h'. rewrite length_head_block; rewrite ?length_fmap, Hhl; change (Z.to_nat BSIZE) with 512%nat; unfold NBUF in *; simpl in *; lia.
    + simpl. rewrite Hw1, Hw. unfold trans_writes. by rewrite !app_assoc.
    + simpl. rewrite Hd1, Hd. unfold trans_writes. by rewrite !apply_app.
Qed.
End Commit.

End LogFacts.
