(* ===== verification/Crash.v ===== *)
(** Transactions are atomic: whole transactions and recovery, run on the
    kernel state, against the specification on disks. *)
From S2P Require Import Prelude Types Spinlock Sched Bio BioFacts BioAbs BioRep Log LogSpec LogFacts.
Import Spinlock Sched Bio BioFacts BioAbs BioRep BioInit Log LogSpec LogFacts.

Module Crash.

(** ** The effect of a transaction without a log *)

(** The sectors changed one after the other, in place. *)
Definition apply_updates (ups : list (Z * (list Z -> list Z))) (d : list (list Z)) : list (list Z) :=
  foldl (fun d u => alter u.2 (Z.to_nat u.1) d) d ups.

Lemma apply_lookup es d sec :
  NoDup es.*1 -> Forall (fun e => 0 <= e.1) es -> 0 <= sec < Z.of_nat (length d) ->
  apply_writes es d !! Z.to_nat sec = rview (list_to_map es) d sec.
Proof.
  unfold rview. intros Hnd Hf Hs. revert d Hs. induction es as [|e es IH]; intros d Hs; csimpl; [done|].
  apply NoDup_cons in Hnd as [Hn Hnd]. apply Forall_cons in Hf as [H0 Hf].
  rewrite IH; [|done|done|unfold write_sector; by rewrite length_insert].
  unfold write_sector. destruct (decide (sec = e.1)) as [->|Hne].
  - rewrite lookup_insert_eq. rewrite (proj2 (ents_lookup es e.1) Hn).
    apply list_lookup_insert_eq. lia.
  - rewrite lookup_insert_ne by done. destruct (list_to_map es !! sec); [done|].
    apply list_lookup_insert_ne. lia.
Qed.

Lemma put_ent_writes es d sec (f : list Z -> list Z) :
  NoDup es.*1 -> Forall (fun e => 0 <= e.1) es -> 0 <= sec < Z.of_nat (length d) ->
  apply_writes (put_ent sec (f (entry_of es d sec)) es) d = alter f (Z.to_nat sec) (apply_writes es d).
Proof.
  intros Hnd Hf Hs. apply list_eq. intros i. rewrite list_lookup_alter.
  destruct (decide (i < length d)%nat) as [Hi|Hi].
  2:{ case_decide; [lia|]. by rewrite !lookup_ge_None_2 by (rewrite length_apply; lia). }
  rewrite <- (Nat2Z.id i).
  rewrite (apply_lookup (put_ent _ _ _)) by first [by apply put_ent_nodup | by apply put_ent_Forall; [simpl; lia|] | lia].
  rewrite !(apply_lookup es) by (done || lia).
  unfold rview at 1. rewrite put_ent_map. destruct (decide (Z.to_nat sec = Z.to_nat (Z.of_nat i))) as [E|E].
  - assert (sec = Z.of_nat i) as -> by lia. rewrite lookup_insert_eq. unfold entry_of.
    destruct (rview (list_to_map es) d (Z.of_nat i)) as [blk|] eqn:Er; [done|].
    rewrite <- apply_lookup in Er by done. apply lookup_ge_None in Er. rewrite length_apply in Er. lia.
  - rewrite lookup_insert_ne by lia. done.
Qed.

Lemma entries_updates ups d es :
  NoDup es.*1 -> Forall (fun e => 0 <= e.1) es ->
  Forall (fun u => 0 <= u.1 < Z.of_nat (length d)) ups ->
  apply_writes (log_entries_of d ups es) d = apply_updates ups (apply_writes es d).
Proof.
  intros Hnd Hf Hu. revert es Hnd Hf. induction Hu as [|[sec f] ups Hs _ IH]; intros es Hnd Hf; [done|].
  simpl in *. rewrite IH.
  - unfold log_entry. simpl. by rewrite put_ent_writes.
  - by apply put_ent_nodup.
  - apply put_ent_Forall; [simpl; lia|done].
Qed.

Lemma log_entry_length d es u : (length es <= length (log_entry d es u))%nat.
Proof. unfold log_entry. rewrite put_ent_length. case_decide; lia. Qed.

Lemma log_entries_length d ups es : (length es <= length (log_entries_of d ups es))%nat.
Proof.
  revert es. induction ups as [|u ups IH]; intros es; [done|]. simpl.
  etrans; [apply (log_entry_length d es u)|apply IH].
Qed.

Section Run.
Context (start size : Z).

(** Updates a transaction may make. *)
Definition updates_ok (s : kstate) (ups : list (Z * (list Z -> list Z))) : Prop :=
  Forall (fun u => data_sector start size s u.1 /\ keeps_size u.2) ups.

Lemma updates_run w0 d0 ups : forall es s env,
  tinv start size w0 d0 es s -> updates_ok s ups ->
  (length (log_entries_of d0 ups es) < NBUF)%nat ->
  Z.of_nat (length (log_entries_of d0 ups es)) < size - 1 ->
  exists s', mfor ups (fun u => log_update u.1 u.2) s env = Ok tt s' env /\ lframe s s' /\
    tinv start size w0 d0 (log_entries_of d0 ups es) s'.
Proof.
  induction ups as [|[sec f] ups IH]; intros es s env Hti Hok Hlen Hsz; simpl.
  { exists s. split_and!; [done|apply lframe_refl|apply Hti..]. }
  apply Forall_cons in Hok as [[Hds Hks] Hok]. simpl in *.
  pose proof (log_entries_length d0 ups (log_entry d0 es (sec, f))) as Hmono.
  pose proof (log_entry_length d0 es (sec, f)) as Hmono1.
  destruct (log_update_run start size w0 d0 es s env sec f Hti Hds Hks) as (s1 & Hrun & Hf & Hti1).
  { destruct (decide (sec ∈ es.*1)) as [?|Hn]; [by right|left].
    assert (length (log_entry d0 es (sec, f)) = S (length es)).
    { unfold log_entry. rewrite put_ent_length, decide_True; [done|]. by apply slot_elem. }
    lia. }
  { lia. } { lia. }
  mstep Hrun. assert (Hds1 : disksize s1 = disksize s).
  { destruct Hti as (_ & _ & _ & _ & _ & _ & _ & (ws & _ & Hd & _) & _).
    destruct Hti1 as (_ & _ & _ & _ & _ & _ & _ & (ws1 & _ & Hd1 & _) & _).
    unfold disksize. by rewrite Hd, Hd1, !length_apply. }
  destruct (IH (log_entry d0 es (sec, f)) s1 env Hti1) as (s' & Hrun' & Hf' & Hti'); [|done|done|].
  { eapply Forall_impl; [exact Hok|]. intros u. unfold data_sector. by rewrite Hds1. }
  exists s'. split_and?; [done|by eapply lframe_trans|done].
Qed.

Lemma tinv_head w0 d0 es s : tinv start size w0 d0 es s -> s.(disk) !! Z.to_nat start = d0 !! Z.to_nat start.
Proof.
  intros (_ & _ & _ & _ & _ & (? & _) & _ & (ws & _ & -> & Hws) & _).
  apply apply_other; [done|]. eapply Forall_impl; [exact Hws|]. simpl. intros w ?. lia.
Qed.

Lemma rep_block H P s i blk : rep H P s -> s.(disk) !! i = Some blk -> length blk = Z.to_nat BSIZE.
Proof.
  intros ((_ & _ & _ & _ & _ & _ & Hd) & _) Hi. rewrite Forall_forall in Hd. apply Hd.
  by eapply list_elem_of_lookup_2.
Qed.

(** The header a commit writes describes the log it has written. *)
Lemma tinv_logged w0 d0 es s h ws :
  tinv start size w0 d0 es s -> Z.of_nat (length es) < size -> (length es <= Z.to_nat LOGSIZE)%nat ->
  length h = Z.to_nat BSIZE -> s.(disk) = apply_writes ws d0 ->
  let h' := head_block es.*1 h in
  logged start size h' es (apply_writes (ws ++ [(start, h')]) d0).
Proof.
  intros (_ & _ & _ & _ & _ & Hg & Hdat & _ & Hes) Hsz Hlen Hh Hd h'.
  destruct Hg as (Hst & Hsz0 & Hend & Hmax). unfold disksize in Hend.
  change (Z.to_nat LOGSIZE) with 10%nat in Hlen. change (Z.to_nat BSIZE) with 512%nat in Hh.
  rewrite apply_app, <- Hd. simpl. unfold write_sector. simpl. split_and!; [|  |done|].
  - apply list_lookup_insert_eq. lia.
  - unfold h'. rewrite hd_n_block; rewrite length_fmap; [done|lia|lia].
  - intros i e Hi. pose proof (lookup_lt_Some _ _ _ Hi). split.
    + unfold h'. apply hd_sector_block; [rewrite length_fmap; lia|by rewrite list_lookup_fmap, Hi|].
      rewrite Forall_forall in Hdat. destruct (Hdat e) as [? _]; [by eapply list_elem_of_lookup_2|lia].
    + rewrite list_lookup_insert_ne by lia. by apply Hes.
Qed.

Lemma transaction_run ups s env :
  quiescent start size s -> updates_ok s ups ->
  let es := log_entries_of s.(disk) ups [] in
  (length es < NBUF)%nat -> Z.of_nat (length es) < size - 1 ->
  exists s' ws h h0, transaction ups s env = Ok tt s' env /\ lframe s s' /\ quiescent start size s' /\
    s.(disk) !! Z.to_nat start = Some h0 /\ hd_n h0 = 0 /\ (4 <= length h)%nat /\
    Forall (fun w => start < w.1 < start + size) ws /\
    Forall (fun e => data_sector start size s e.1) es /\
    logged start size h es (apply_writes (ws ++ [(start, h)]) s.(disk)) /\
    s'.(dwrites) = s.(dwrites) ++ commit_writes start ws es h /\
    s'.(disk) = apply_writes (commit_writes start ws es h) s.(disk).
Proof.
  intros Hq Hok es Hlen Hsz. pose proof Hq as (Hr & _ & Hb & Hlk & Hg & h0 & Hh0 & Hn0).
  pose proof (rep_bio_ok _ _ _ Hr) as ((Hqt & _) & _).
  unfold transaction. mstep (begin_trans_run s env Hqt Hlk Hb).
  pose proof (begin_tinv start size s Hq) as Hti. set (s1 := upd_log _ s) in *.
  destruct (updates_run _ _ ups [] s1 env Hti Hok Hlen Hsz) as (s2 & Hrun2 & Hf2 & Hti2).
  mstep Hrun2. fold es in Hti2.
  pose proof (tinv_head _ _ _ _ Hti2) as Hh2. rewrite Hh0 in Hh2.
  pose proof Hti2 as (Hr2 & _ & _ & _ & _ & _ & Hdat2 & _).
  pose proof (rep_block _ _ _ _ _ Hr2 Hh2) as Hhl.
  destruct (commit_trans_run start size _ _ es s2 env h0 Hti2) as (s' & ws & Hrun & Hf & Hq' & Hws & Hd2 & Hw & Hd); try done.
  { lia. }
  exists s', ws, (head_block es.*1 h0), h0. unfold NBUF in Hlen.
  assert (Hle : (length es <= Z.to_nat LOGSIZE)%nat) by (change (Z.to_nat LOGSIZE) with 10%nat; lia).
  assert (Hds2 : disksize s2 = disksize s) by (unfold disksize; by rewrite Hd2, length_apply).
  split_and?; try done.
  - apply (lframe_trans _ s1); [apply lframe_log|]. by eapply lframe_trans.
  - rewrite length_head_block; rewrite ?length_fmap; rewrite Hhl; change (Z.to_nat BSIZE) with 512%nat; lia.
  - unfold data_sector in *. by rewrite Hds2 in Hdat2.
  - eapply tinv_logged; try done. lia.
Qed.
End Run.

(** ** Recovery *)

(** Loading the sectors of the header [h] into the in-memory header. *)
Fixpoint load (i n : nat) (h : list Z) (lg : log) : log :=
  match n with
  | O => lg
  | S n' => load (S i) n' h (set_lh_sector (<[i := hd_sector h i]> lg.(lh_sector)) lg)
  end.

Lemma load_other i n h lg :
  (load i n h lg).(l_start) = lg.(l_start) /\ (load i n h lg).(l_size) = lg.(l_size) /\
  (load i n h lg).(l_busy) = lg.(l_busy) /\ (load i n h lg).(l_dev) = lg.(l_dev) /\
  (load i n h lg).(lh_n) = lg.(lh_n) /\ length (load i n h lg).(lh_sector) = length lg.(lh_sector) /\
  forall j, (j < i)%nat -> (load i n h lg).(lh_sector) !! j = lg.(lh_sector) !! j.
Proof.
  revert i lg. induction n as [|n IH]; intros i lg; simpl; [done|].
  destruct (IH (S i) (set_lh_sector (<[i:=hd_sector h i]> (lh_sector lg)) lg)) as (-> & -> & -> & -> & -> & -> & Ho).
  simpl. rewrite length_insert. split_and!; try done.
  intros j Hj. rewrite Ho by lia. simpl. apply list_lookup_insert_ne. lia.
Qed.

Lemma load_at i n h lg j :
  (i <= j < i + n)%nat -> (i + n <= length lg.(lh_sector))%nat ->
  (load i n h lg).(lh_sector) !! j = Some (hd_sector h j).
Proof.
  revert i lg. induction n as [|n IH]; intros i lg Hj Hl; simpl; [lia|].
  destruct (decide (j = i)) as [->|Hne].
  - destruct (load_other (S i) n h (set_lh_sector (<[i:=hd_sector h i]> (lh_sector lg)) lg)) as (_ & _ & _ & _ & _ & _ & Ho).
    rewrite Ho by lia. simpl. apply list_lookup_insert_eq. lia.
  - apply IH; [lia|]. simpl. rewrite length_insert. lia.
Qed.

Lemma read_head_loop h n : forall i s env, (i + n <= Z.to_nat LOGSIZE)%nat ->
  mfor (seq i n) (fun i =>
    if Z.of_nat i <? LOGSIZE then
      modify (upd_log (fun l => set_lh_sector (<[i := hd_sector h i]> l.(lh_sector)) l))
    else undefined "log.lh.sector") s env = Ok tt (upd_log (load i n h) s) env.
Proof.
  induction n as [|n IH]; intros i s env Hn; simpl.
  { unfold ret, upd_log. simpl. by destruct s. }
  change (Z.to_nat LOGSIZE) with 10%nat in *.
  rewrite (proj2 (Z.ltb_lt _ _)) by (unfold LOGSIZE; lia). mrun. rewrite IH by lia. done.
Qed.

Section Recover.
Context (start size : Z).

(** Just after boot: a cold cache, the geometry of the log known. *)
Definition booting (s : kstate) : Prop :=
  rep [] ∅ s /\ s.(klog).(l_start) = start /\ s.(klog).(l_size) = size /\
  s.(klog).(l_dev) = 1 /\ length s.(klog).(lh_sector) = Z.to_nat LOGSIZE /\
  s.(klog).(l_busy) = false /\ (log_lock ∉ s.(kcpu).(held)) /\ geom start size s.

Lemma empty_room (H : list hbuf) : (length H < NBUF)%nat ->
  (stdpp.base.size (∅ : gmap Z (list Z)) + nclean H < NBUF)%nat.
Proof.
  intros Hl. rewrite map_size_empty. unfold nclean.
  pose proof (length_filter (fun e => hb_clean e = true) H). lia.
Qed.

Lemma read_head_run s env h :
  booting s -> s.(disk) !! Z.to_nat start = Some h -> 0 <= hd_n h <= LOGSIZE ->
  exists s', read_head s env = Ok tt s' env /\ lframe s s' /\ rep [] ∅ s' /\
    s'.(disk) = s.(disk) /\ s'.(dwrites) = s.(dwrites) /\
    s'.(klog) = load 0 (Z.to_nat (hd_n h)) h (set_lh_n (hd_n h) s.(klog)).
Proof.
  intros (Hr & Hs1 & Hs2 & Hs3 & Hs4 & Hs5 & Hlk & Hg) Hh Hn. pose proof Hg as (Hst & Hsz & Hend & _).
  unfold read_head, get_log. mrun. rewrite Hs3, (log_sector_eq start size _ 0 s Hs1 Hg), Z.add_0_r by lia.
  destruct (bread_rep [] ∅ s start env Hr) as (b & fl & blk & s1 & Hrun1 & Hf1 & Hk1 & Hw1 & Hv1 & Hfl1 & Hr1).
  { lia. } { by intros e ?%elem_of_nil. } { left. apply empty_room. unfold NBUF. simpl. lia. }
  assert (blk = h) as -> by (unfold rview in Hv1; rewrite lookup_empty in Hv1; congruence).
  mstep Hrun1. destruct (get_buf_rep _ _ s1 b fl start h env Hr1 ltac:(left)) as (bf & Hget & _ & _ & _ & Hbd).
  mstep Hget. rewrite Hbd. mrun. unfold LOGSIZE in *. mstep (read_head_loop h (Z.to_nat (hd_n h)) 0 (upd_log (set_lh_n (hd_n h)) s1) env ltac:(unfold LOGSIZE; lia)).
  set (s2 := upd_log _ (upd_log _ s1)).
  assert (Hr2 : rep [hb b fl start h] ∅ s2) by (by apply rep_log, rep_log).
  destruct (brelse_rep _ _ s2 b _ _ _ env Hr2) as (s3 & Hrun3 & Hf3 & Hk3 & Hw3 & Hr3).
  { intros _. change (disk s2) with (disk s1). by rewrite Hk1. }
  exists s3. split_and?; try done.
  - apply (lframe_trans _ s1); [by apply frame_lframe|].
    apply (lframe_trans _ s2); [|by apply frame_lframe].
    eapply lframe_trans; [apply lframe_log|apply lframe_log].
  - by rewrite Hk3.
  - by rewrite Hw3.
  - rewrite (frame_klog _ _ Hf3). unfold s2, upd_log. simpl. by rewrite (frame_klog _ _ Hf1).
Qed.

Lemma recover_run s env h es :
  booting s -> logged start size h es s.(disk) -> (length es <= Z.to_nat LOGSIZE)%nat ->
  Forall (fun e => data_sector start size s e.1) es ->
  exists s', recover_from_log s env = Ok tt s' env /\ lframe s s' /\ quiescent start size s' /\
    s'.(disk) = recover start s.(disk) /\
    s'.(dwrites) = s.(dwrites) ++ es ++ [(start, clear_head h)].
Proof.
  intros Hboot Hlog Hlen Hdat. pose proof Hboot as (Hr & Hs1 & Hs2 & Hs3 & Hs4 & Hs5 & Hlk & Hg).
  pose proof Hg as (Hst & Hsz & Hend & _). pose proof Hlog as (Hh & Hn & Hles & Hes).
  change (Z.to_nat LOGSIZE) with 10%nat in *.
  pose proof (rep_block _ _ _ _ _ Hr Hh) as Hhl. change (Z.to_nat BSIZE) with 512%nat in Hhl.
  destruct (read_head_run s env h Hboot Hh) as (s1 & Hrun1 & Hf1 & Hr1 & Hk1 & Hw1 & Hkl1); [unfold LOGSIZE; lia|].
  unfold recover_from_log. mstep Hrun1. unfold install_trans, get_log at 1. mrun.
  destruct (load_other 0 (Z.to_nat (hd_n h)) h (set_lh_n (hd_n h) (klog s))) as (L1 & L2 & L3 & L4 & L5 & L6 & _).
  rewrite <- Hkl1 in L1, L2, L3, L4, L5, L6. simpl in L1, L2, L3, L4, L5, L6.
  rewrite L5, Hn, Nat2Z.id. change (fun tail : nat => _) with install_step.
  destruct (install_loop start size false es s1 env 0 Hr1) as (s2 & Hrun2 & Hf2 & Hk2 & Hw2 & Hr2); try by right.
  { congruence. } { congruence. }
  { intros i e Hi. pose proof (lookup_lt_Some _ _ _ Hi). destruct (Hes i e Hi) as [E1 E2]. simpl. split.
    - rewrite Hkl1, load_at; [by rewrite E1| lia|]. simpl. rewrite Hs4. lia.
    - rewrite Hk1, Z.add_assoc. done. }
  { unfold geom, disksize. by rewrite Hk1. } { unfold data_sector, disksize. by rewrite Hk1. }
  { simpl. lia. }
  mstep Hrun2. mrun. set (s3 := upd_log (set_lh_n 0) s2).
  assert (Hr3 : rep [] ∅ s3) by (by apply rep_log).
  assert (Hkl2 : klog s2 = klog s1) by (by rewrite (frame_klog _ _ Hf2)).
  assert (Hlg3 : logst start size [] (klog s3)).
  { unfold s3, logst, upd_log. simpl. rewrite Hkl2. split_and!; try done; [congruence..|].
    etrans; [exact L6|exact Hs4]. }
  assert (Hds3 : disksize s3 = disksize s).
  { unfold disksize. simpl. by rewrite Hk2, length_apply, Hk1. }
  assert (Hg3 : geom start size s3) by (unfold geom; by rewrite Hds3).
  assert (Hh3 : disk s3 !! Z.to_nat start = Some h).
  { simpl. rewrite Hk2, Hk1. destruct (logged_apply start size h es (disk s) es Hst Hlog) as [? _]; [|done].
    eapply Forall_impl; [exact Hdat|]. intros e [? ?]. split; [lia|done]. }
  destruct (write_head_run start size [] ∅ s3 env h Hr3 Hlg3 Hg3) as (s4 & Hrun4 & Hf4 & Hk4 & Hw4 & Hr4); try done.
  { rewrite map_size_empty. unfold NBUF. lia. } { simpl. lia. }
  change (head_block ([] : list (Z * list Z)).*1 h) with (clear_head h) in *.
  assert (Hlf : lframe s s4).
  { apply (lframe_trans _ s1); [done|]. apply (lframe_trans _ s2); [by apply frame_lframe|].
    apply (lframe_trans _ s3); [apply lframe_log|]. by apply frame_lframe. }
  exists s4. unfold quiescent. split_and?; try done.
  - by rewrite (frame_klog _ _ Hf4).
  - rewrite (frame_klog _ _ Hf4). simpl. rewrite Hkl2. congruence.
  - by rewrite (lframe_kcpu _ _ Hlf).
  - unfold geom, disksize. rewrite Hk4, length_insert. exact Hg3.
  - exists (clear_head h). split; [|apply hd_n_clear; lia]. rewrite Hk4. apply list_lookup_insert_eq.
    unfold disksize in Hds3, Hend. lia.
  - rewrite Hk4. simpl. rewrite Hk2, Hk1. unfold recover. rewrite Hh.
    by rewrite (logged_entries _ _ _ _ _ Hlog).
  - rewrite Hw4. simpl. rewrite Hw2, Hw1. by rewrite app_assoc.
Qed.
End Recover.

(** ** Theorems *)

Lemma log_entries_sectors d ups : forall es x,
  x ∈ (log_entries_of d ups es).*1 <-> x ∈ es.*1 \/ x ∈ ups.*1.
Proof.
  induction ups as [|u ups IH]; intros es x; csimpl.
  - rewrite elem_of_nil. tauto.
  - rewrite IH. unfold log_entry. rewrite put_ent_elem, elem_of_cons. tauto.
Qed.

Lemma log_entries_nodup d ups : forall es, NoDup es.*1 -> NoDup (log_entries_of d ups es).*1.
Proof. induction ups as [|u ups IH]; intros es H; [done|]. simpl. by apply IH, put_ent_nodup. Qed.

(** The number of sectors a transaction changes. *)
Definition nsectors (ups : list (Z * (list Z -> list Z))) : nat :=
  stdpp.base.size (list_to_set ups.*1 : gset Z).

Lemma log_entries_count d ups : length (log_entries_of d ups []) = nsectors ups.
Proof.
  rewrite <- (length_fmap fst). unfold nsectors.
  rewrite <- (size_list_to_set (C := gset Z)) by (apply log_entries_nodup; constructor).
  f_equal. apply leibniz_equiv. intros x. rewrite !elem_of_list_to_set, log_entries_sectors, elem_of_nil. tauto.
Qed.

Lemma updates_range start size s ups :
  updates_ok start size s ups -> Forall (fun u => 0 <= u.1 < Z.of_nat (length s.(disk))) ups.
Proof. intros H. eapply Forall_impl; [exact H|]. by intros u [[? _] _]. Qed.

Lemma commit_new start size ws es h d d' :
  data_eq start size (apply_writes (trans_writes start ws h es) d) (apply_writes es d) ->
  0 <= start -> Forall (fun w => start < w.1 < start + size) ws ->
  d' = apply_writes (commit_writes start ws es h) d -> data_eq start size d' (apply_writes es d).
Proof.
  intros Hd Hst Hws ->. destruct es as [|e es]; [|done]. simpl. apply apply_in_log; [done|].
  eapply Forall_impl; [exact Hws|]. unfold in_log. simpl. lia.
Qed.

(** A log left by a crash in a transaction, whatever was committed. *)
Lemma commit_crash start size d0 ws es h h0 k :
  0 <= start < Z.of_nat (length d0) -> 0 < size ->
  d0 !! Z.to_nat start = Some h0 -> hd_n h0 = 0 ->
  Forall (fun w => start < w.1 < start + size) ws ->
  Forall (fun w => 0 <= w.1 /\ ~ in_log start size w.1) es -> (4 <= length h)%nat ->
  logged start size h es (apply_writes (ws ++ [(start, h)]) d0) ->
  let dc := apply_writes (take k (commit_writes start ws es h)) d0 in
  exists h1 es1, logged start size h1 es1 dc /\ (es1 = [] \/ es1 = es) /\
    (data_eq start size (apply_writes es1 dc) d0 \/
     data_eq start size (apply_writes es1 dc) (apply_writes es d0)).
Proof.
  intros Hst Hsz Hh0 Hn0 Hws Hes Hh Hlog. destruct es as [|e es].
  - simpl. destruct (crash_before start size d0 ws h h0 Hst Hsz Hh0 Hn0 Hws Hh k) as [? ?].
    exists h0, []. split_and!; [done|by left|by left].
  - by eapply (crash_any start size d0 ws (e :: es) h h0).
Qed.

(** C1: transactions are atomic. A transaction that begins with an idle log,
    changes at most nine sectors and fits the log runs to its end and changes
    the data sectors the way in-place updates would; and if the machine stops
    after any number [k] of its disk writes, [recover_from_log] on the disk
    it leaves ends in a state whose data sectors are either all old or all
    new. *)
Theorem transaction_atomic start size ups s env :
  quiescent start size s -> updates_ok start size s ups ->
  (nsectors ups < NBUF)%nat -> Z.of_nat (nsectors ups) < size - 1 ->
  exists s' ws, transaction ups s env = Ok tt s' env /\ quiescent start size s' /\
    s'.(dwrites) = s.(dwrites) ++ ws /\ s'.(disk) = apply_writes ws s.(disk) /\
    data_eq start size s'.(disk) (apply_updates ups s.(disk)) /\
    forall k sb envb, booting start size sb -> sb.(disk) = apply_writes (take k ws) s.(disk) ->
      exists sr, recover_from_log sb envb = Ok tt sr envb /\ quiescent start size sr /\
        (data_eq start size sr.(disk) s.(disk) \/
         data_eq start size sr.(disk) (apply_updates ups s.(disk))).
Proof.
  intros Hq Hok Hn Hsz. rewrite <- (log_entries_count (disk s)) in Hn, Hsz.
  destruct (transaction_run start size ups s env Hq Hok Hn Hsz)
    as (s' & ws & h & h0 & Hrun & Hf & Hq' & Hh0 & Hn0 & Hhl & Hws & Hdat & Hlog & Hw & Hd).
  set (es := log_entries_of (disk s) ups []) in *.
  assert (Hup : apply_updates ups (disk s) = apply_writes es (disk s)).
  { symmetry. apply (entries_updates ups (disk s) []); [constructor|constructor|by eapply updates_range]. }
  pose proof Hq as (_ & _ & _ & _ & (Hst & Hsz0 & Hend & Hmax) & _). unfold disksize in Hend.
  assert (Hes : Forall (fun w => 0 <= w.1 /\ ~ in_log start size w.1) es).
  { eapply Forall_impl; [exact Hdat|]. intros e [? ?]. split; [lia|done]. }
  exists s', (commit_writes start ws es h). rewrite Hup. split_and?; try done.
  { eapply (commit_new start size ws es h); [|done|done|done].
    apply (crash_done start size (disk s) ws es h); try done; lia. }
  intros k sb envb Hb Hdb.
  destruct (commit_crash start size (disk s) ws es h h0 k) as (h1 & es1 & Hl1 & Hes1 & Hcase); try done; [lia|].
  rewrite <- Hdb in Hl1, Hcase.
  assert (Hds : disksize sb = disksize s) by (unfold disksize; by rewrite Hdb, length_apply).
  destruct (recover_run start size sb envb h1 es1 Hb Hl1) as (sr & Hrr & _ & Hqr & Hdr & _).
  { destruct Hes1 as [->| ->]; [simpl; lia|]. change (Z.to_nat LOGSIZE) with 10%nat. unfold NBUF in Hn. lia. }
  { destruct Hes1 as [->| ->]; [constructor|]. unfold data_sector. by rewrite Hds. }
  exists sr. split_and?; [done|done|]. rewrite Hdr.
  pose proof (recover_logged start size h1 es1 (disk sb) Hst Hl1) as Hrec.
  destruct Hcase; [left|right]; by etrans.
Qed.

(** A disk of thirty sectors whose last ten are an empty log, and the state
    of a kernel that has just initialised its cache on it. *)
Definition demo_img : list (list Z) := replicate 30 (replicate (Z.to_nat BSIZE) 0).
Definition demo : kstate :=
  upd_log (fun l => set_l_start 20 (set_l_size 10 (set_l_dev 1 l))) (BioInit.after_binit (kstate0 demo_img)).

Lemma demo_rep : rep [] ∅ demo.
Proof.
  apply rep_log, BioInit.warm_rep.
  - split_and!; try done; simpl; set_solver.
  - split; [done|]. apply Forall_replicate. done.
  - apply Forall_replicate. done.
Qed.

Lemma demo_geom : geom 20 10 demo.
Proof. unfold geom, disksize. simpl. lia. Qed.

Lemma demo_quiescent : quiescent 20 10 demo.
Proof.
  unfold quiescent. split_and?; [exact demo_rep|done|done|simpl; set_solver|exact demo_geom|].
  exists (replicate (Z.to_nat BSIZE) 0). split; [done|]. vm_compute. reflexivity.
Qed.

Definition demo_ups : list (Z * (list Z -> list Z)) := [(3, put32 0 7); (5, put32 8 9); (3, put32 4 1)].

Lemma demo_ups_ok : updates_ok 20 10 demo demo_ups.
Proof.
  assert (Hk : forall off v, (off + 4 <= Z.to_nat BSIZE)%nat -> keeps_size (put32 off v)).
  { intros off v Ho blk Hb. rewrite length_put_le; [done|]. by rewrite Hb. }
  repeat constructor; try (by apply Hk; change (Z.to_nat BSIZE) with 512%nat; lia);
    unfold disksize, in_log; simpl; lia.
Qed.

Lemma transaction_atomic_witness :
  exists s' ws, transaction demo_ups demo [] = Ok tt s' [] /\ quiescent 20 10 s' /\
    s'.(dwrites) = demo.(dwrites) ++ ws /\ s'.(disk) = apply_writes ws demo.(disk) /\
    data_eq 20 10 s'.(disk) (apply_updates demo_ups demo.(disk)) /\
    forall k sb envb, booting 20 10 sb -> sb.(disk) = apply_writes (take k ws) demo.(disk) ->
      exists sr, recover_from_log sb envb = Ok tt sr envb /\ quiescent 20 10 sr /\
        (data_eq 20 10 sr.(disk) demo.(disk) \/
         data_eq 20 10 sr.(disk) (apply_updates demo_ups demo.(disk))).
Proof.
  apply (transaction_atomic 20 10 demo_ups demo []); [exact demo_quiescent|exact demo_ups_ok| |].
  - vm_compute. lia.
  - vm_compute. done.
Defined.

(** C2: recovery can be interrupted. If the machine stops after any number of
    the disk writes of [recover_from_log] and boots again, the second recovery
    ends with the data sectors the first one would have produced. *)
Theorem recovery_restartable start size s env h es :
  booting start size s -> logged start size h es s.(disk) -> (length es <= Z.to_nat LOGSIZE)%nat ->
  Forall (fun e => data_sector start size s e.1) es ->
  exists s' ws, recover_from_log s env = Ok tt s' env /\ quiescent start size s' /\
    s'.(dwrites) = s.(dwrites) ++ ws /\
    data_eq start size s'.(disk) (apply_writes es s.(disk)) /\
    forall k sb envb, booting start size sb -> sb.(disk) = apply_writes (take k ws) s.(disk) ->
      exists sr, recover_from_log sb envb = Ok tt sr envb /\ quiescent start size sr /\
        data_eq start size sr.(disk) s'.(disk).
Proof.
  intros Hb Hl Hlen Hdat.
  destruct (recover_run start size s env h es Hb Hl Hlen Hdat) as (s' & Hrun & _ & Hq & Hd & Hw).
  pose proof Hb as (Hr & _ & _ & _ & _ & _ & _ & (Hst & Hsz & Hend & _)). unfold disksize in Hend.
  pose proof Hl as (Hh & Hn & Hes & _). pose proof (rep_block _ _ _ _ _ Hr Hh) as Hhl.
  change (Z.to_nat BSIZE) with 512%nat in Hhl.
  assert (Hes' : Forall (fun w => 0 <= w.1 /\ ~ in_log start size w.1) es).
  { eapply Forall_impl; [exact Hdat|]. intros e [? ?]. split; [lia|done]. }
  assert (Hes0 : Forall (fun w : Z * list Z => 0 <= w.1) es).
  { eapply Forall_impl; [exact Hes'|]. by intros w [? _]. }
  assert (Heq : data_eq start size (disk s') (apply_writes es (disk s))).
  { rewrite Hd. by eapply recover_logged. }
  exists s', (es ++ [(start, clear_head h)]). split_and?; try done.
  intros k sb envb Hbb Hdb.
  assert (Hds : disksize sb = disksize s) by (unfold disksize; by rewrite Hdb, length_apply).
  destruct (decide (k <= length es)%nat) as [Hk|Hk].
  - rewrite take_app_le in Hdb by done.
    assert (Hlb : logged start size h es (disk sb)) by (rewrite Hdb; apply logged_apply; [done|done|by apply Forall_take]).
    destruct (recover_run start size sb envb h es Hbb Hlb Hlen) as (sr & Hrr & _ & Hqr & Hdr & _).
    { unfold data_sector. by rewrite Hds. }
    exists sr. split_and?; [done|done|]. rewrite Hdr. etrans; [by eapply recover_logged|].
    rewrite Hdb, apply_redo by done. by symmetry.
  - rewrite take_ge in Hdb by (rewrite length_app; simpl; lia). rewrite apply_app in Hdb.
    assert (Hlb : logged start size (clear_head h) [] (disk sb)).
    { rewrite Hdb. split_and!; [|apply hd_n_clear; lia|done|by intros ? ?].
      apply list_lookup_insert_eq. rewrite length_apply. simpl. lia. }
    destruct (recover_run start size sb envb _ [] Hbb Hlb) as (sr & Hrr & _ & Hqr & Hdr & _); [simpl; lia|constructor|].
    exists sr. split_and?; [done|done|]. rewrite Hdr. etrans; [by eapply recover_logged|].
    rewrite Hdb. etrans; [|by symmetry]. apply (apply_in_log start size [_]); [done|].
    apply Forall_singleton. unfold in_log. simpl. lia.
Qed.

(** The same disk after a crash that left two committed sectors in the log. *)
Definition crashed_img : list (list Z) :=
  <[20%nat := head_block [3; 5] (replicate 512 0)]>
    (<[21%nat := replicate 512 7]> (<[22%nat := replicate 512 9]> demo_img)).
Definition crashed : kstate :=
  upd_log (fun l => set_l_start 20 (set_l_size 10 (set_l_dev 1 l))) (BioInit.after_binit (kstate0 crashed_img)).

Lemma crashed_booting : booting 20 10 crashed.
Proof.
  unfold booting. split_and?; try done.
  apply rep_log, BioInit.warm_rep.
  - split_and!; try done; simpl; set_solver.
  - split; [done|]. apply Forall_replicate. done.
  - unfold crashed, crashed_img, demo_img. simpl. repeat constructor.
Qed.

Lemma recovery_restartable_witness :
  exists s' ws, recover_from_log crashed [] = Ok tt s' [] /\ quiescent 20 10 s' /\
    s'.(dwrites) = crashed.(dwrites) ++ ws /\
    data_eq 20 10 s'.(disk) (apply_writes [(3, replicate 512 7); (5, replicate 512 9)] crashed.(disk)) /\
    forall k sb envb, booting 20 10 sb -> sb.(disk) = apply_writes (take k ws) crashed.(disk) ->
      exists sr, recover_from_log sb envb = Ok tt sr envb /\ quiescent 20 10 sr /\
        data_eq 20 10 sr.(disk) s'.(disk).
Proof.
  apply (recovery_restartable 20 10 crashed [] (head_block [3; 5] (replicate 512 0))).
  - exact crashed_booting.
  - split_and!; [done|vm_compute; done|done|].
    intros [|[|i]] e He; simpl in He; simplify_eq; (split; [vm_compute; reflexivity|reflexivity]).
  - vm_compute. lia.
  - repeat constructor; unfold disksize, in_log; simpl; lia.
Defined.

End Crash.
