(* ===== verification/Inode.v ===== *)
(** Disk blocks and inodes (kernel/fs.c, from bzero to stati). A [struct
    inode *] is an index into the inode cache, the null pointer is [None]. *)
From S2P Require Import Prelude Types Spinlock Sched Bio Log.
Import Spinlock Sched Bio Log.

Module Inode.

(** ** Blocks *)

Definition bzero (dev bno : Z) : K unit :=
  bp <- bread dev (u32 bno) ;;
  modify (upd_buf bp (set_b_data (replicate (Z.to_nat BSIZE) 0))) ;;;
  log_write bp ;;;
  brelse bp.

(** The bit of block [bi] in a bitmap block. *)
Definition bit_mask (bi : Z) : Z := Z.shiftl 1 (bi mod 8).
Definition bit_byte (bi : Z) : nat := Z.to_nat (bi / 8).
Definition bit_used (d : list Z) (bi : Z) : bool :=
  negb (Z.land (d !!! bit_byte bi) (bit_mask bi) =? 0).
Definition bit_set (bi : Z) (d : list Z) : list Z :=
  <[bit_byte bi := Z.lor (d !!! bit_byte bi) (bit_mask bi)]> d.
Definition bit_clear (bi : Z) (d : list Z) : list Z :=
  <[bit_byte bi := Z.land (d !!! bit_byte bi) (Z.lnot (bit_mask bi))]> d.

(* for (bi = 0; bi < BPB && b + bi < sb.size; bi++): the first free bit *)
Fixpoint free_bit (n : nat) (bi b size : Z) (d : list Z) : option Z :=
  match n with
  | O => None
  | S n' =>
      if b + bi <? size then
        if bit_used d bi then free_bit n' (bi + 1) b size d else Some bi
      else None
  end.

(* the values b takes: 0, BPB, 2 BPB, ... below sb.size *)
Definition bitmap_bases (size : Z) : list Z :=
  (fun k => Z.of_nat k * BPB) <$> seq 0 (Z.to_nat ((size + BPB - 1) / BPB)).

Definition balloc (dev : Z) : K Z :=
  sb <- readsb dev ;;
  o <- mfind (bitmap_bases sb.(sb_size)) (fun b =>
    bp <- bread dev (BBLOCK b sb.(sb_ninodes)) ;;
    bf <- get_buf bp ;;
    match free_bit (Z.to_nat BPB) 0 b sb.(sb_size) bf.(b_data) with
    | Some bi =>
        modify (upd_buf bp (fun x => set_b_data (bit_set bi x.(b_data)) x)) ;;;
        log_write bp ;;;
        brelse bp ;;;
        bzero dev (b + bi) ;;;
        ret (Some (b + bi))
    | None =>
        brelse bp ;;;
        ret None
    end) ;;
  match o with
  | Some b => ret b
  | None => panic "balloc: out of blocks"
  end.

Definition bfree (dev b : Z) : K unit :=
  sb <- readsb dev ;;
  bp <- bread dev (BBLOCK b sb.(sb_ninodes)) ;;
  let bi := b mod BPB in
  bf <- get_buf bp ;;
  if negb (bit_used bf.(b_data) bi) then panic "freeing free block" else
  modify (upd_buf bp (fun x => set_b_data (bit_clear bi x.(b_data)) x)) ;;;
  log_write bp ;;;
  brelse bp.

(** ** Inodes on disk: struct dinode *)

Definition dinode_off (inum : Z) : nat := Z.to_nat (inum mod IPB * DINODE_SIZE).

Definition d_type (d : list Z) (o : nat) : Z := s16 (get16 o d).
Definition d_major (d : list Z) (o : nat) : Z := s16 (get16 (o + 2) d).
Definition d_minor (d : list Z) (o : nat) : Z := s16 (get16 (o + 4) d).
Definition d_nlink (d : list Z) (o : nat) : Z := s16 (get16 (o + 6) d).
Definition d_size (d : list Z) (o : nat) : Z := get32 (o + 8) d.
Definition d_addrs (d : list Z) (o : nat) : list Z :=
  (fun i => get32 (o + 12 + 4 * i) d) <$> seq 0 13.

(* the assignments of iupdate, in order *)
Definition put_dinode (ip : inode) (o : nat) (d : list Z) : list Z :=
  splice (o + 12) (mjoin (le_bytes 4 <$> ip.(i_addrs)))
    (put32 (o + 8) ip.(i_size)
      (put16 (o + 6) ip.(i_nlink)
        (put16 (o + 4) ip.(i_minor)
          (put16 (o + 2) ip.(i_major)
            (put16 o ip.(i_type) d))))).

(** ** The inode cache *)

Definition iinit : K unit := initlock icache_lock.

(* the loop of iget: the matching entry, or the first empty slot *)
Fixpoint iget_scan (l : list inode) (i : nat) (empty : option nat) (dev inum : Z) :
    nat + option nat :=
  match l with
  | [] => inr empty
  | ip :: l' =>
      if (0 <? ip.(i_ref)) && (ip.(i_dev) =? dev) && (ip.(i_inum) =? inum) then inl i
      else
        let empty' :=
          match empty with
          | None => if ip.(i_ref) =? 0 then Some i else None
          | Some _ => empty
          end in
        iget_scan l' (S i) empty' dev inum
  end.

Definition iget (dev inum : Z) : K nat :=
  acquire icache_lock ;;;
  ic <- gets icache ;;
  match iget_scan ic 0 None dev inum with
  | inl ip =>
      modify (upd_inode ip (fun x => set_i_ref (x.(i_ref) + 1) x)) ;;;
      release icache_lock ;;;
      ret ip
  | inr None => panic "iget: no inodes"
  | inr (Some ip) =>
      modify (upd_inode ip (set_i_dev dev)) ;;;
      modify (upd_inode ip (set_i_inum inum)) ;;;
      modify (upd_inode ip (set_i_ref 1)) ;;;
      modify (upd_inode ip (set_i_flags 0)) ;;;
      release icache_lock ;;;
      ret ip
  end.

Definition ialloc (dev type : Z) : K nat :=
  sb <- readsb dev ;;
  o <- mfind (seq 1 (Z.to_nat (sb.(sb_ninodes) - 1))) (fun k =>
    let inum := Z.of_nat k in
    bp <- bread dev (IBLOCK inum) ;;
    bf <- get_buf bp ;;
    let o := dinode_off inum in
    if d_type bf.(b_data) o =? 0 then
      modify (upd_buf bp (fun x =>
        set_b_data (splice o (replicate (Z.to_nat DINODE_SIZE) 0) x.(b_data)) x)) ;;;
      modify (upd_buf bp (fun x => set_b_data (put16 o type x.(b_data)) x)) ;;;
      log_write bp ;;;
      brelse bp ;;;
      ip <- iget dev inum ;;
      ret (Some ip)
    else
      brelse bp ;;;
      ret None) ;;
  match o with
  | Some ip => ret ip
  | None => panic "ialloc: no inodes"
  end.

Definition iupdate (ip : nat) : K unit :=
  i <- get_inode ip ;;
  bp <- bread i.(i_dev) (IBLOCK i.(i_inum)) ;;
  i <- get_inode ip ;;
  modify (upd_buf bp (fun x =>
    set_b_data (put_dinode i (dinode_off i.(i_inum)) x.(b_data)) x)) ;;;
  log_write bp ;;;
  brelse bp.

Definition idup (ip : nat) : K nat :=
  acquire icache_lock ;;;
  modify (upd_inode ip (fun x => set_i_ref (x.(i_ref) + 1) x)) ;;;
  release icache_lock ;;;
  ret ip.

(* the assignments of ilock from the disk inode *)
Definition load_dinode (d : list Z) (o : nat) (x : inode) : inode :=
  set_i_addrs (d_addrs d o)
    (set_i_size (d_size d o)
      (set_i_nlink (d_nlink d o)
        (set_i_minor (d_minor d o)
          (set_i_major (d_major d o)
            (set_i_type (d_type d o) x))))).

Definition ilock (p : option nat) : K unit :=
  match p with
  | None => panic "ilock"
  | Some ip =>
      i <- get_inode ip ;;
      if i.(i_ref) <? 1 then panic "ilock" else
      acquire icache_lock ;;;
      mloop_env (
        i <- get_inode ip ;;
        if has i.(i_flags) I_BUSY then
          sleep (chan_inode ip) icache_lock ;;; ret None
        else ret (Some tt)) ;;;
      modify (upd_inode ip (fun x => set_i_flags (Z.lor x.(i_flags) I_BUSY) x)) ;;;
      release icache_lock ;;;
      i <- get_inode ip ;;
      when (negb (has i.(i_flags) I_VALID))
        (bp <- bread i.(i_dev) (IBLOCK i.(i_inum)) ;;
         bf <- get_buf bp ;;
         i <- get_inode ip ;;
         modify (upd_inode ip (load_dinode bf.(b_data) (dinode_off i.(i_inum)))) ;;;
         brelse bp ;;;
         modify (upd_inode ip (fun x => set_i_flags (Z.lor x.(i_flags) I_VALID) x)) ;;;
         i <- get_inode ip ;;
         when (i.(i_type) =? 0) (panic "ilock: no type"))
  end.

Definition iunlock (p : option nat) : K unit :=
  match p with
  | None => panic "iunlock"
  | Some ip =>
      i <- get_inode ip ;;
      if negb (has i.(i_flags) I_BUSY) || (i.(i_ref) <? 1) then panic "iunlock" else
      acquire icache_lock ;;;
      modify (upd_inode ip (fun x => set_i_flags (clr x.(i_flags) I_BUSY) x)) ;;;
      wakeup (chan_inode ip) ;;;
      release icache_lock
  end.

(** ** Contents *)

Definition bmap (ip : nat) (bn : Z) : K Z :=
  i <- get_inode ip ;;
  if bn <? NDIRECT then
    addr <- deref "ip->addrs" (i.(i_addrs) !! Z.to_nat bn) ;;
    if addr =? 0 then
      addr <- balloc i.(i_dev) ;;
      modify (upd_inode ip (fun x => set_i_addrs (<[Z.to_nat bn := addr]> x.(i_addrs)) x)) ;;;
      ret addr
    else ret addr
  else
  let bn := bn - NDIRECT in
  if bn <? NINDIRECT then
    addr <- deref "ip->addrs" (i.(i_addrs) !! Z.to_nat NDIRECT) ;;
    addr <- (if addr =? 0 then
               addr <- balloc i.(i_dev) ;;
               modify (upd_inode ip (fun x =>
                 set_i_addrs (<[Z.to_nat NDIRECT := addr]> x.(i_addrs)) x)) ;;;
               ret addr
             else ret addr) ;;
    i <- get_inode ip ;;
    bp <- bread i.(i_dev) addr ;;
    bf <- get_buf bp ;;
    let a := get32 (Z.to_nat (4 * bn)) bf.(b_data) in
    addr <- (if a =? 0 then
               addr <- balloc i.(i_dev) ;;
               modify (upd_buf bp (fun x =>
                 set_b_data (put32 (Z.to_nat (4 * bn)) addr x.(b_data)) x)) ;;;
               log_write bp ;;;
               ret addr
             else ret a) ;;
    brelse bp ;;;
    ret addr
  else panic "bmap: out of range".

Definition itrunc (ip : nat) : K unit :=
  mfor (seq 0 (Z.to_nat NDIRECT)) (fun k =>
    i <- get_inode ip ;;
    addr <- deref "ip->addrs" (i.(i_addrs) !! k) ;;
    when (negb (addr =? 0))
      (bfree i.(i_dev) addr ;;;
       modify (upd_inode ip (fun x => set_i_addrs (<[k := 0]> x.(i_addrs)) x)))) ;;;
  i <- get_inode ip ;;
  ind <- deref "ip->addrs" (i.(i_addrs) !! Z.to_nat NDIRECT) ;;
  when (negb (ind =? 0))
    (bp <- bread i.(i_dev) ind ;;
     mfor (seq 0 (Z.to_nat NINDIRECT)) (fun j =>
       bf <- get_buf bp ;;
       let a := get32 (4 * j) bf.(b_data) in
       when (negb (a =? 0)) (bfree i.(i_dev) a)) ;;;
     brelse bp ;;;
     bfree i.(i_dev) ind ;;;
     modify (upd_inode ip (fun x => set_i_addrs (<[Z.to_nat NDIRECT := 0]> x.(i_addrs)) x))) ;;;
  modify (upd_inode ip (set_i_size 0)) ;;;
  iupdate ip.

Definition iput (ip : nat) : K unit :=
  acquire icache_lock ;;;
  i <- get_inode ip ;;
  when ((i.(i_ref) =? 1) && has i.(i_flags) I_VALID && (i.(i_nlink) =? 0))
    (if has i.(i_flags) I_BUSY then panic "iput busy" else
     modify (upd_inode ip (fun x => set_i_flags (Z.lor x.(i_flags) I_BUSY) x)) ;;;
     release icache_lock ;;;
     itrunc ip ;;;
     modify (upd_inode ip (set_i_type 0)) ;;;
     iupdate ip ;;;
     acquire icache_lock ;;;
     modify (upd_inode ip (set_i_flags 0)) ;;;
     wakeup (chan_inode ip)) ;;;
  modify (upd_inode ip (fun x => set_i_ref (x.(i_ref) - 1) x)) ;;;
  release icache_lock.

Definition iunlockput (ip : nat) : K unit :=
  iunlock (Some ip) ;;;
  iput ip.

(** struct stat *)
Record stat : Type := Mkstat {
  st_dev : Z;
  st_ino : Z;
  st_type : Z;
  st_nlink : Z;
  st_size : Z
}.

Definition stati (ip : nat) : K stat :=
  i <- get_inode ip ;;
  ret (Mkstat (s32 i.(i_dev)) i.(i_inum) i.(i_type) i.(i_nlink) i.(i_size)).

End Inode.
