(* ===== verification/Console.v ===== *)
(** The console (kernel/console.c), with the UART's output side
    (uartputc of kernel/uart.c) and the process listing it offers (procdump of
    kernel/proc.c). The UART is a list of the characters sent; what it
    receives is a list given to the interrupt handler. *)
From S2P Require Import Prelude Types Spinlock Sched Inode.
From Stdlib Require Import Ascii.
Import Spinlock Sched Inode.

Module Console.

(** Characters of a C string literal. *)
Fixpoint chars (s : string) : list Z :=
  match s with
  | EmptyString => []
  | String a s' => Z.of_nat (nat_of_ascii a) :: chars s'
  end.

(** ** Output *)

(* the wait for room in the transmit FIFO has no effect on the kernel *)
Definition uartputc (c : Z) : K unit :=
  modify (fun s => set_uart_tx (s.(uart_tx) ++ [u8 c]) s).

Definition BACKSPACE : Z := 256.

(* [panicked] is set by panic only, after which nothing runs *)
Definition consputc (c : Z) : K unit :=
  if c =? BACKSPACE then
    uartputc 8 ;;; uartputc 32 ;;; uartputc 8
  else uartputc c.

(** [printint]'s digits: the do-while loop, low digit first. *)
Definition digit (d : Z) : Z := if d <? 10 then 48 + d else 55 + d.

Fixpoint digits (fuel : nat) (x base : Z) : list Z :=
  match fuel with
  | O => []
  | S f =>
      digit (x mod base) ::
      (if x / base =? 0 then [] else digits f (x / base) base)
  end.

(* buf[] of printint before it is printed backwards *)
Definition printint_buf (xx base : Z) (sign : bool) : list Z :=
  let neg := sign && (xx <? 0) in
  let x := if neg then u32 (- xx) else u32 xx in
  digits 32 x base ++ (if neg then [45] else []).

Definition printint (xx base : Z) (sign : bool) : K unit :=
  mfor (rev (printint_buf xx base sign)) consputc.

(** Arguments of cprintf: words and strings. *)
Inductive parg : Type := PInt (v : Z) | PStr (s : option (list Z)).

Fixpoint cprintf_loop (fmt : list Z) (args : list parg) : K unit :=
  match fmt with
  | [] => ret tt
  | c :: fmt1 =>
      if negb (c =? 37) then consputc c ;;; cprintf_loop fmt1 args else
      match fmt1 with
      | [] => ret tt
      | d :: fmt2 =>
          if d =? 100 then
            match args with
            | PInt v :: args' => printint (s32 v) 10 true ;;; cprintf_loop fmt2 args'
            | _ => undefined "argp"
            end
          else if (d =? 120) || (d =? 112) then
            match args with
            | PInt v :: args' => printint (s32 v) 16 false ;;; cprintf_loop fmt2 args'
            | _ => undefined "argp"
            end
          else if d =? 115 then
            match args with
            | PStr s :: args' =>
                mfor (default (chars "(null)") s) consputc ;;; cprintf_loop fmt2 args'
            | _ => undefined "argp"
            end
          else if d =? 37 then consputc 37 ;;; cprintf_loop fmt2 args
          else consputc 37 ;;; consputc d ;;; cprintf_loop fmt2 args
      end
  end.

Definition cprintf (fmt : list Z) (args : list parg) : K unit :=
  lk <- gets cons_locking ;;
  when lk (acquire cons_lock) ;;;
  cprintf_loop fmt args ;;;
  lk <- gets cons_locking ;;
  when lk (release cons_lock).

Definition clock : K unit := modify (set_cons_locking true).
Definition cunlock : K unit := modify (set_cons_locking false).

(** The name stored in a process, up to its NUL. *)
Fixpoint upto_nul (l : list Z) : list Z :=
  match l with
  | [] => []
  | c :: l' => if c =? 0 then [] else c :: upto_nul l'
  end.

Definition state_name (st : procstate) : list Z :=
  chars (match st with
         | UNUSED => "unused" | EMBRYO => "embryo" | SLEEPING => "sleep "
         | RUNNABLE => "runble" | RUNNING => "run   " | ZOMBIE => "zombie"
         end).

Definition newline : list Z := [10].

(* show_callstk walks the compiler's stack frames: a parameter *)
Definition procdump (show_callstk : list Z -> K unit) : K unit :=
  cprintf (chars "==== PROCDUMP START====" ++ newline) [] ;;;
  mfor (seq 0 NPROC) (fun i =>
    p <- get_proc i ;;
    if decide (p.(state) = UNUSED) then ret tt else
    pp <- deref "p->parent" p.(parent) ;;
    par <- get_proc pp ;;
    cprintf (chars "%d %s %d:%s %d" ++ newline)
      [PInt p.(pid); PStr (Some (state_name p.(state))); PInt p.(pid);
       PStr (Some (upto_nul p.(name))); PInt par.(pid)]) ;;;
  cprintf (chars "====SHOW CALL STACK====" ++ newline) [] ;;;
  show_callstk (chars "procdump: ") ;;;
  cprintf (chars "==== PROCDUMP  END ====" ++ newline) [].

(** ** Input *)

Definition INPUT_BUF : Z := 512.
Definition upd_input (f : inputbuf -> inputbuf) (s : kstate) : kstate :=
  set_input (f s.(input)) s.
Definition get_input : K inputbuf := gets input.

(* input.buf[i % INPUT_BUF] *)
Definition in_at (b : inputbuf) (i : Z) : Z := b.(in_buf) !!! Z.to_nat (i mod INPUT_BUF).

(* the loop of ^U; it ends since e runs down to w *)
Fixpoint kill_line (fuel : nat) : K unit :=
  match fuel with
  | O => fail NoFuel
  | S f =>
      b <- get_input ;;
      if negb (b.(in_e) =? b.(in_w)) && negb (in_at b (u32 (b.(in_e) - 1)) =? 10) then
        modify (upd_input (fun x => set_in_e (u32 (x.(in_e) - 1)) x)) ;;;
        consputc BACKSPACE ;;;
        kill_line f
      else ret tt
  end.

(* one turn of the loop of consoleintr *)
Definition console_char (show_callstk : list Z -> K unit) (c : Z) : K unit :=
  if c =? 12 then procdump show_callstk
  else if c =? 21 then
    b <- get_input ;;
    kill_line (S (Z.to_nat (u32 (b.(in_e) - b.(in_w)))))
  else if (c =? 8) || (c =? 127) then
    b <- get_input ;;
    when (negb (b.(in_e) =? b.(in_w)))
      (modify (upd_input (fun x => set_in_e (u32 (x.(in_e) - 1)) x)) ;;;
       consputc BACKSPACE)
  else
    b <- get_input ;;
    when (negb (c =? 0) && (u32 (b.(in_e) - b.(in_r)) <? INPUT_BUF))
      (let c := if c =? 13 then 10 else c in
       modify (upd_input (fun x =>
         set_in_e (u32 (x.(in_e) + 1))
           (set_in_buf (<[Z.to_nat (x.(in_e) mod INPUT_BUF) := u8 c]> x.(in_buf)) x))) ;;;
       consputc c ;;;
       b <- get_input ;;
       when ((c =? 10) || (c =? 4) || (b.(in_e) =? u32 (b.(in_r) + INPUT_BUF)))
         (modify (upd_input (fun x => set_in_w x.(in_e) x)) ;;;
          wakeup chan_input)).

(* [cs]: what getc returns until it returns a negative number *)
Definition consoleintr (show_callstk : list Z -> K unit) (cs : list Z) : K unit :=
  acquire input_lock ;;;
  mfor cs (console_char show_callstk) ;;;
  release input_lock.

(* while (input.r == input.w): true when the process has been killed *)
Definition cons_wait : K bool :=
  mloop_env (
    b <- get_input ;;
    if b.(in_r) =? b.(in_w) then
      p <- cur ;;
      pr <- get_proc p ;;
      if pr.(killed) then ret (Some true)
      else sleep chan_input input_lock ;;; ret None
    else ret (Some false)).

(* while (n > 0); the bytes stored through dst, and whether the process has
   been killed *)
Fixpoint cons_loop (n : nat) (target : Z) : K (bool * list Z) :=
  match n with
  | O => ret (false, [])
  | S n' =>
      dead <- cons_wait ;;
      if (dead : bool) then ret (true, []) else
      b <- get_input ;;
      let c := in_at b b.(in_r) in
      modify (upd_input (fun x => set_in_r (u32 (x.(in_r) + 1)) x)) ;;;
      if c =? 4 then
        when (Z.of_nat n <? target)
          (modify (upd_input (fun x => set_in_r (u32 (x.(in_r) - 1)) x))) ;;;
        ret (false, [])
      else if c =? 10 then ret (false, [c])
      else
        r <- cons_loop n' target ;;
        ret (r.1, c :: r.2)
  end.

(** The result and the bytes stored at [dst]. *)
Definition consoleread (ip : nat) (n : Z) : K (Z * list Z) :=
  iunlock (Some ip) ;;;
  acquire input_lock ;;;
  r <- cons_loop (Z.to_nat n) (u32 n) ;;
  release input_lock ;;;
  ilock (Some ip) ;;;
  if (r.1 : bool) then ret (-1, r.2)
  else ret (Z.of_nat (length r.2), r.2).

Definition consolewrite (ip : nat) (buf : list Z) (n : Z) : K Z :=
  iunlock (Some ip) ;;;
  acquire cons_lock ;;;
  mfor (take (Z.to_nat n) buf) (fun c => consputc (Z.land c 255)) ;;;
  release cons_lock ;;;
  ilock (Some ip) ;;;
  ret n.

Definition consoleinit : K unit :=
  initlock cons_lock ;;;
  initlock input_lock ;;;
  modify (fun s => set_devsw (<[Z.to_nat CONSOLE := (Some consoleread_fn, Some consolewrite_fn)]> s.(devsw)) s) ;;;
  clock.

End Console.
