(* ===== verification/Fs.v ===== *)
(** File contents, directories and path names (kernel/fs.c, from readi to
    nameiparent). Transfers to and from buffers are lists of bytes: readi
    returns what it stores at [dst], writei takes the bytes at [src]. Names
    and paths are the bytes of C strings without the NUL. *)
From S2P Require Import Prelude Types Spinlock Sched Bio Log Inode Console.
Import Spinlock Sched Bio Log Inode Console.

Module Fs.

(** ** Reading and writing *)

(* the chunk of one iteration: min(n - tot, BSIZE - off % BSIZE) *)
Definition chunk (n tot off : Z) : Z := Z.min (n - tot) (BSIZE - off mod BSIZE).

(* enough iterations for n bytes from any offset *)
Definition chunks (n : Z) : nat := S (S (S (Z.to_nat (n / BSIZE)))).

Fixpoint readi_loop (fuel : nat) (ip : nat) (tot off n : Z) : K (list Z) :=
  match fuel with
  | O => fail NoFuel
  | S f =>
      if tot <? n then
        a <- bmap ip (off / BSIZE) ;;
        i <- get_inode ip ;;
        bp <- bread i.(i_dev) a ;;
        let m := chunk n tot off in
        bf <- get_buf bp ;;
        let bs := take (Z.to_nat m) (drop (Z.to_nat (off mod BSIZE)) bf.(b_data)) in
        brelse bp ;;;
        rest <- readi_loop f ip (tot + m) (u32 (off + m)) n ;;
        ret (bs ++ rest)
      else ret []
  end.

Definition readi (ip : nat) (off n : Z) : K (Z * list Z) :=
  i <- get_inode ip ;;
  if i.(i_type) =? T_DEV then
    if (i.(i_major) <? 0) || (NDEV <=? i.(i_major)) then ret (-1, []) else
    d <- gets (fun s => s.(devsw) !! Z.to_nat i.(i_major)) ;;
    d <- deref "devsw" d ;;
    match d.1 with
    | Some consoleread_fn => consoleread ip (s32 n)
    | Some consolewrite_fn => undefined "devsw.read"
    | None => ret (-1, [])
    end
  else
  if (i.(i_size) <? off) || (u32 (off + n) <? off) then ret (-1, []) else
  let n := if i.(i_size) <? off + n then i.(i_size) - off else n in
  bs <- readi_loop (chunks n) ip 0 off n ;;
  ret (s32 n, bs).

Fixpoint writei_loop (fuel : nat) (ip : nat) (src : list Z) (tot off n : Z) : K Z :=
  match fuel with
  | O => fail NoFuel
  | S f =>
      if tot <? n then
        a <- bmap ip (off / BSIZE) ;;
        i <- get_inode ip ;;
        bp <- bread i.(i_dev) a ;;
        let m := chunk n tot off in
        let bs := take (Z.to_nat m) (drop (Z.to_nat tot) src) in
        modify (upd_buf bp (fun x =>
          set_b_data (splice (Z.to_nat (off mod BSIZE)) bs x.(b_data)) x)) ;;;
        log_write bp ;;;
        brelse bp ;;;
        writei_loop f ip src (tot + m) (u32 (off + m)) n
      else ret off
  end.

Definition writei (ip : nat) (src : list Z) (off n : Z) : K Z :=
  i <- get_inode ip ;;
  if i.(i_type) =? T_DEV then
    if (i.(i_major) <? 0) || (NDEV <=? i.(i_major)) then ret (-1) else
    d <- gets (fun s => s.(devsw) !! Z.to_nat i.(i_major)) ;;
    d <- deref "devsw" d ;;
    match d.2 with
    | Some consolewrite_fn => consolewrite ip src (s32 n)
    | Some consoleread_fn => undefined "devsw.write"
    | None => ret (-1)
    end
  else
  if (i.(i_size) <? off) || (u32 (off + n) <? off) then ret (-1) else
  if MAXFILE * BSIZE <? u32 (off + n) then ret (-1) else
  off <- writei_loop (chunks n) ip src 0 off n ;;
  i <- get_inode ip ;;
  when ((0 <? n) && (i.(i_size) <? off))
    (modify (upd_inode ip (set_i_size off)) ;;;
     iupdate ip) ;;;
  ret (s32 n).

(** ** Directories *)

(** strncmp on strings kept as lists: past the end is the NUL. *)
Definition byte_at (l : list Z) : Z := match l with [] => 0 | c :: _ => c end.

Fixpoint strncmp_list (n : nat) (p q : list Z) : Z :=
  match n with
  | O => 0
  | S n' =>
      let a := byte_at p in
      let b := byte_at q in
      if negb (a =? 0) && (a =? b) then strncmp_list n' (tail p) (tail q)
      else u8 a - u8 b
  end.

Definition namecmp (s t : list Z) : Z := strncmp_list (Z.to_nat DIRSIZ) s t.

(** strncpy(de.name, name, DIRSIZ) *)
Fixpoint strncpy_list (n : nat) (t : list Z) : list Z :=
  match n with
  | O => []
  | S n' => if byte_at t =? 0 then replicate n 0 else byte_at t :: strncpy_list n' (tail t)
  end.

(** struct dirent: two bytes of inode number, the name *)
Definition de_inum (de : list Z) : Z := get16 0 de.
Definition de_name (de : list Z) : list Z := drop 2 de.
Definition mk_dirent (inum : Z) (name : list Z) : list Z :=
  le_bytes 2 inum ++ strncpy_list (Z.to_nat DIRSIZ) name.

Definition nentries (size : Z) : nat := S (S (Z.to_nat (size / DIRENT_SIZE))).

(* the loop of dirlookup: the entry's offset and inode *)
Fixpoint dirlookup_loop (fuel : nat) (dp : nat) (name : list Z) (off : Z) :
    K (option (Z * nat)) :=
  match fuel with
  | O => fail NoFuel
  | S f =>
      d <- get_inode dp ;;
      if off <? d.(i_size) then
        r <- readi dp off DIRENT_SIZE ;;
        if negb (r.1 =? DIRENT_SIZE) then panic "dirlink read" else
        if de_inum r.2 =? 0 then dirlookup_loop f dp name (u32 (off + DIRENT_SIZE)) else
        if namecmp name (de_name r.2) =? 0 then
          d <- get_inode dp ;;
          ip <- iget d.(i_dev) (de_inum r.2) ;;
          ret (Some (off, ip))
        else dirlookup_loop f dp name (u32 (off + DIRENT_SIZE))
      else ret None
  end.

Definition dirlookup (dp : nat) (name : list Z) : K (option (Z * nat)) :=
  d <- get_inode dp ;;
  if negb (d.(i_type) =? T_DIR) then panic "dirlookup not DIR" else
  dirlookup_loop (nentries d.(i_size)) dp name 0.

(* the offset of the first empty entry, or the directory's size *)
Fixpoint dirlink_loop (fuel : nat) (dp : nat) (off : Z) : K Z :=
  match fuel with
  | O => fail NoFuel
  | S f =>
      d <- get_inode dp ;;
      if off <? d.(i_size) then
        r <- readi dp off DIRENT_SIZE ;;
        if negb (r.1 =? DIRENT_SIZE) then panic "dirlink read" else
        if de_inum r.2 =? 0 then ret off
        else dirlink_loop f dp (off + DIRENT_SIZE)
      else ret off
  end.

Definition dirlink (dp : nat) (name : list Z) (inum : Z) : K Z :=
  o <- dirlookup dp name ;;
  match o with
  | Some (_, ip) => iput ip ;;; ret (-1)
  | None =>
      d <- get_inode dp ;;
      off <- dirlink_loop (nentries d.(i_size)) dp 0 ;;
      r <- writei dp (mk_dirent inum name) off DIRENT_SIZE ;;
      if negb (r =? DIRENT_SIZE) then panic "dirlink" else ret 0
  end.

(** ** Paths *)

Fixpoint skip_slashes (p : list Z) : list Z :=
  match p with
  | c :: p' => if c =? 47 then skip_slashes p' else p
  | [] => []
  end.

(* while (path[0] != '/' and path[0] != 0): the element and what follows *)
Fixpoint span_elem (p : list Z) : list Z * list Z :=
  match p with
  | c :: p' => if c =? 47 then ([], p) else let r := span_elem p' in (c :: r.1, r.2)
  | [] => ([], [])
  end.

(** The rest of the path and the name. *)
Definition skipelem (path : list Z) : option (list Z * list Z) :=
  match skip_slashes path with
  | [] => None
  | p =>
      let r := span_elem p in
      let name :=
        if DIRSIZ <=? Z.of_nat (length r.1) then take (Z.to_nat DIRSIZ) r.1 else r.1 in
      Some (skip_slashes r.2, name)
  end.

(* the loop of namex: the inode, and the last name set *)
Fixpoint namex_loop (fuel : nat) (ip : nat) (path : list Z) (nameiparent : bool) (name : list Z) :
    K (option nat * list Z) :=
  match fuel with
  | O => fail NoFuel
  | S f =>
      match skipelem path with
      | None =>
          if nameiparent then iput ip ;;; ret (None, name) else ret (Some ip, name)
      | Some (path, name) =>
          ilock (Some ip) ;;;
          i <- get_inode ip ;;
          if negb (i.(i_type) =? T_DIR) then iunlockput ip ;;; ret (None, name) else
          if nameiparent && bool_decide (path = []) then
            iunlock (Some ip) ;;; ret (Some ip, name)
          else
          o <- dirlookup ip name ;;
          match o with
          | None => iunlockput ip ;;; ret (None, name)
          | Some (_, next) => iunlockput ip ;;; namex_loop f next path nameiparent name
          end
      end
  end.

Definition namex (path : list Z) (nameiparent : bool) : K (option nat * list Z) :=
  ip <- (if byte_at path =? 47 then iget ROOTDEV ROOTINO
         else
           p <- cur ;;
           pr <- get_proc p ;;
           c <- deref "proc->cwd" pr.(cwd) ;;
           idup c) ;;
  namex_loop (S (length path)) ip path nameiparent [].

Definition namei (path : list Z) : K (option nat) :=
  r <- namex path false ;; ret r.1.

Definition nameiparent (path : list Z) : K (option nat * list Z) := namex path true.

End Fs.
