(* ===== verification/Kalloc.v ===== *)
(** The page allocator (kernel/kalloc.c). Free pages are threaded through
    their first word, in the kernel's memory. *)
From S2P Require Import Prelude Types Spinlock Cstring.
Import Spinlock Cstring.

(** Addresses and data that the link step fixes: the end of the kernel, the
    entry points that are stored in memory, the first user program. *)
Class Image := {
  kern_end : Z;
  trapret_addr : Z;
  forkret_addr : Z;
  error_init_addr : Z;
  initcode : list Z
}.

Module Kalloc.

Definition upd_mem (f : memory -> memory) (s : kstate) : kstate := set_mem (f s.(mem)) s.
Definition load_word (p : Z) : K Z := gets (fun s => load32 s.(mem) p).
Definition store_word (p v : Z) : K unit := modify (upd_mem (fun m => store32 m p v)).

(** What the allocator calls a page. *)
Definition KPAGE : Z := 4 * PGSIZE.

Section Kalloc.
Context `{Image}.

Definition kinit1 : K unit :=
  initlock kmem_lock ;;;
  modify (set_use_lock false).

Definition kinit2 : K unit := modify (set_use_lock true).

Definition kfree (v : Z) : K unit :=
  if negb (v mod KPAGE =? 0) then panic "kfree - unaligned" else
  if v <? kern_end then panic "kfree - under kern_end" else
  if PHYSTOP <=? v2p v then panic "kfree - over PHYSTOP" else
  modify (upd_mem (memset v 0 KPAGE)) ;;;
  ul <- gets use_lock ;;
  when ul (acquire kmem_lock) ;;;
  fl <- gets freelist ;;
  store_word v fl ;;;
  modify (set_freelist v) ;;;
  ul <- gets use_lock ;;
  when ul (release kmem_lock).

(* for (; p + 4 * PGSIZE <= vend; p += 4 * PGSIZE) *)
Fixpoint freerange_loop (fuel : nat) (p vend : Z) : K unit :=
  match fuel with
  | O => fail NoFuel
  | S f =>
      if p + KPAGE <=? vend then kfree p ;;; freerange_loop f (p + KPAGE) vend
      else ret tt
  end.

Definition freerange (vstart vend : Z) : K unit :=
  freerange_loop (S (Z.to_nat ((vend - vstart) / KPAGE + 1))) (ALIGNUP vstart KPAGE) vend.

Definition kalloc : K Z :=
  ul <- gets use_lock ;;
  when ul (acquire kmem_lock) ;;;
  r <- gets freelist ;;
  when (negb (r =? 0)) (n <- load_word r ;; modify (set_freelist n)) ;;;
  ul <- gets use_lock ;;
  when ul (release kmem_lock) ;;;
  ret r.
End Kalloc.

End Kalloc.
