(* ===== verification/Pipe.v ===== *)
(** Pipes (kernel/pipe.c, less pipealloc, which is with the file table). A
    pipe is named by the address of the page that holds it. *)
From S2P Require Import Prelude Types Spinlock Sched Cstring Kalloc.
Import Spinlock Sched Kalloc.

Module Pipe.

Definition PIPESIZE : Z := 512.

(* p->data[i % PIPESIZE] *)
Definition pipe_index (i : Z) : nat := Z.to_nat (i mod PIPESIZE).

Section Pipe.
Context `{Image}.

Definition pipeclose (p : Z) (writable : bool) : K unit :=
  acquire (pipe_lock p) ;;;
  (if writable then
     modify (upd_pipe p (set_p_writeopen false)) ;;;
     wakeup (chan_nread p)
   else
     modify (upd_pipe p (set_p_readopen false)) ;;;
     wakeup (chan_nwrite p)) ;;;
  pp <- get_pipe p ;;
  if negb pp.(p_readopen) && negb pp.(p_writeopen) then
    release (pipe_lock p) ;;;
    modify (fun s => set_pipes (delete p s.(pipes)) s) ;;;
    kfree p
  else release (pipe_lock p).

(* while (p->nwrite == p->nread + PIPESIZE): true when the readers left *)
Definition wait_room (p : Z) : K bool :=
  mloop_env (
    pp <- get_pipe p ;;
    if pp.(p_nwrite) =? u32 (pp.(p_nread) + PIPESIZE) then
      if negb pp.(p_readopen) then ret (Some true)
      else
        wakeup (chan_nread p) ;;;
        sleep (chan_nwrite p) (pipe_lock p) ;;;
        ret None
    else ret (Some false)).

Definition put_byte (p c : Z) : K unit :=
  modify (upd_pipe p (fun x =>
    set_p_nwrite (u32 (x.(p_nwrite) + 1))
      (set_p_data (<[pipe_index x.(p_nwrite) := c]> x.(p_data)) x))).

Definition pipewrite (p : Z) (addr : list Z) (n : Z) : K Z :=
  acquire (pipe_lock p) ;;;
  o <- mfind (take (Z.to_nat n) addr) (fun c =>
    broken <- wait_room p ;;
    if (broken : bool) then
      release (pipe_lock p) ;;;
      ret (Some (-1))
    else
      put_byte p c ;;;
      ret None) ;;
  match o with
  | Some r => ret r
  | None =>
      wakeup (chan_nread p) ;;;
      release (pipe_lock p) ;;;
      ret n
  end.

(* while (p->nread == p->nwrite && p->writeopen): true when killed *)
Definition wait_data (p : Z) : K bool :=
  mloop_env (
    pp <- get_pipe p ;;
    if (pp.(p_nread) =? pp.(p_nwrite)) && pp.(p_writeopen) then
      c <- cur ;;
      pr <- get_proc c ;;
      if pr.(killed) then ret (Some true)
      else sleep (chan_nread p) (pipe_lock p) ;;; ret None
    else ret (Some false)).

(* for (i = 0; i < n; i++), leaving the loop when the pipe is empty *)
Fixpoint take_bytes (n : nat) (p : Z) : K (list Z) :=
  match n with
  | O => ret []
  | S n' =>
      pp <- get_pipe p ;;
      if pp.(p_nread) =? pp.(p_nwrite) then ret [] else
      let c := pp.(p_data) !!! pipe_index pp.(p_nread) in
      modify (upd_pipe p (fun x => set_p_nread (u32 (x.(p_nread) + 1)) x)) ;;;
      rest <- take_bytes n' p ;;
      ret (c :: rest)
  end.

(** The result and the bytes stored at [addr]. *)
Definition piperead (p : Z) (n : Z) : K (Z * list Z) :=
  acquire (pipe_lock p) ;;;
  dead <- wait_data p ;;
  if (dead : bool) then
    release (pipe_lock p) ;;;
    ret (-1, [])
  else
    bs <- take_bytes (Z.to_nat n) p ;;
    wakeup (chan_nwrite p) ;;;
    release (pipe_lock p) ;;;
    ret (Z.of_nat (length bs), bs).
End Pipe.

End Pipe.
