(* ===== verification/File.v ===== *)
(** Open files (kernel/file.c) and the creation of pipes (pipealloc of
    kernel/pipe.c). A [struct file *] is an index into the file table. *)
From S2P Require Import Prelude Types Spinlock Sched Log Inode Console Fs Kalloc Pipe.
Import Spinlock Sched Log Inode Console Fs Kalloc Pipe.

Module File.

Section File.
Context `{Image}.

Definition fileinit : K unit := initlock ftable_lock.

Definition filealloc : K (option nat) :=
  acquire ftable_lock ;;;
  o <- mfind (seq 0 NFILE) (fun f =>
    x <- get_file f ;;
    if x.(f_ref) =? 0 then
      modify (upd_file f (set_f_ref 1)) ;;;
      release ftable_lock ;;;
      ret (Some f)
    else ret None) ;;
  match o with
  | Some f => ret (Some f)
  | None => release ftable_lock ;;; ret None
  end.

Definition filedup (f : nat) : K nat :=
  acquire ftable_lock ;;;
  x <- get_file f ;;
  if x.(f_ref) <? 1 then panic "filedup" else
  modify (upd_file f (fun y => set_f_ref (y.(f_ref) + 1) y)) ;;;
  release ftable_lock ;;;
  ret f.

Definition fileclose (f : nat) : K unit :=
  acquire ftable_lock ;;;
  x <- get_file f ;;
  if x.(f_ref) <? 1 then panic "fileclose" else
  modify (upd_file f (fun y => set_f_ref (y.(f_ref) - 1) y)) ;;;
  ff <- get_file f ;;
  if 0 <? ff.(f_ref) then release ftable_lock else
  modify (upd_file f (set_f_ref 0)) ;;;
  modify (upd_file f (set_f_type FD_NONE)) ;;;
  release ftable_lock ;;;
  match ff.(f_type) with
  | FD_PIPE => pipeclose ff.(f_pipe) ff.(f_writable)
  | FD_INODE =>
      begin_trans ;;;
      iput ff.(f_ip) ;;;
      commit_trans
  | FD_NONE => ret tt
  end.

(** The result and the structure stored at [st]. *)
Definition filestat (f : nat) : K (Z * option stat) :=
  x <- get_file f ;;
  if decide (x.(f_type) = FD_INODE) then
    ilock (Some x.(f_ip)) ;;;
    st <- stati x.(f_ip) ;;
    iunlock (Some x.(f_ip)) ;;;
    ret (0, Some st)
  else ret (-1, None).

Definition fileread (f : nat) (n : Z) : K (Z * list Z) :=
  x <- get_file f ;;
  if negb x.(f_readable) then ret (-1, []) else
  match x.(f_type) with
  | FD_PIPE => piperead x.(f_pipe) n
  | FD_INODE =>
      ilock (Some x.(f_ip)) ;;;
      x <- get_file f ;;
      r <- readi x.(f_ip) x.(f_off) (u32 n) ;;
      when (0 <? r.1)
        (modify (upd_file f (fun y => set_f_off (u32 (y.(f_off) + r.1)) y))) ;;;
      iunlock (Some x.(f_ip)) ;;;
      ret r
  | FD_NONE => panic "fileread"
  end.

Definition max_write : Z := (LOGSIZE - 1 - 1 - 2) / 2 * 512.

(* while (i < n): Some i at the end of the loop or at the break *)
Fixpoint filewrite_loop (fuel : nat) (f : nat) (addr : list Z) (i n : Z) : K Z :=
  match fuel with
  | O => fail NoFuel
  | S fl =>
      if i <? n then
        let n1 := if max_write <? n - i then max_write else n - i in
        begin_trans ;;;
        x <- get_file f ;;
        ilock (Some x.(f_ip)) ;;;
        x <- get_file f ;;
        r <- writei x.(f_ip) (drop (Z.to_nat i) addr) x.(f_off) n1 ;;
        when (0 <? r)
          (modify (upd_file f (fun y => set_f_off (u32 (y.(f_off) + r)) y))) ;;;
        iunlock (Some x.(f_ip)) ;;;
        commit_trans ;;;
        if r <? 0 then ret i else
        if negb (r =? n1) then panic "short filewrite" else
        filewrite_loop fl f addr (i + r) n
      else ret i
  end.

Definition filewrite (f : nat) (addr : list Z) (n : Z) : K Z :=
  x <- get_file f ;;
  if negb x.(f_writable) then ret (-1) else
  match x.(f_type) with
  | FD_PIPE => pipewrite x.(f_pipe) addr n
  | FD_INODE =>
      i <- filewrite_loop (S (S (Z.to_nat (n / max_write)))) f addr 0 n ;;
      ret (if i =? n then n else -1)
  | FD_NONE => panic "filewrite"
  end.

(** The new read and write ends. *)
Definition pipealloc : K (option (nat * nat)) :=
  o0 <- filealloc ;;
  o1 <- match o0 with
        | None => ret None
        | Some _ => filealloc
        end ;;
  p <- match o1 with
       | None => ret 0
       | Some _ => kalloc
       end ;;
  match o0, o1 with
  | Some f0, Some f1 =>
      if p =? 0 then fileclose f0 ;;; fileclose f1 ;;; ret None else
      modify (fun s => set_pipes (<[p := Mkpipe (replicate (Z.to_nat PIPESIZE) 0) 0 0 true true]> s.(pipes)) s) ;;;
      initlock (pipe_lock p) ;;;
      modify (upd_file f0 (set_f_type FD_PIPE)) ;;;
      modify (upd_file f0 (set_f_readable true)) ;;;
      modify (upd_file f0 (set_f_writable false)) ;;;
      modify (upd_file f0 (set_f_pipe p)) ;;;
      modify (upd_file f1 (set_f_type FD_PIPE)) ;;;
      modify (upd_file f1 (set_f_readable false)) ;;;
      modify (upd_file f1 (set_f_writable true)) ;;;
      modify (upd_file f1 (set_f_pipe p)) ;;;
      ret (Some (f0, f1))
  | Some f0, None => fileclose f0 ;;; ret None
  | None, _ => ret None
  end.
End File.

End File.
