(* ===== verification/Sleeplock.v ===== *)
(** Sleeping locks (kernel/sleeplock.c), named by their address. *)
From S2P Require Import Prelude Types Spinlock Sched.
Import Spinlock Sched.

Module Sleeplock.

Definition get_sleeplock (a : Z) : K sleeplock :=
  o <- gets (fun s => s.(sleeplocks) !! a) ;; deref "sleeplock" o.
Definition upd_sleeplock (a : Z) (f : sleeplock -> sleeplock) (s : kstate) : kstate :=
  set_sleeplocks (alter f a s.(sleeplocks)) s.

Definition initsleeplock (a : Z) : K unit :=
  initlock (sleeplock_lk a) ;;;
  modify (fun s => set_sleeplocks (<[a := Mksleeplock false 0]> s.(sleeplocks)) s).

Definition acquiresleep (a : Z) : K unit :=
  acquire (sleeplock_lk a) ;;;
  mloop_env (
    l <- get_sleeplock a ;;
    if l.(sl_locked) then
      sleep (chan_sleeplock a) (sleeplock_lk a) ;;; ret None
    else ret (Some tt)) ;;;
  modify (upd_sleeplock a (set_sl_locked true)) ;;;
  p <- cur ;;
  pr <- get_proc p ;;
  modify (upd_sleeplock a (set_sl_pid pr.(pid))) ;;;
  release (sleeplock_lk a).

Definition releasesleep (a : Z) : K unit :=
  acquire (sleeplock_lk a) ;;;
  modify (upd_sleeplock a (set_sl_locked false)) ;;;
  modify (upd_sleeplock a (set_sl_pid 0)) ;;;
  wakeup (chan_sleeplock a) ;;;
  release (sleeplock_lk a).

Definition holdingsleep (a : Z) : K bool :=
  acquire (sleeplock_lk a) ;;;
  l <- get_sleeplock a ;;
  p <- cur ;;
  pr <- get_proc p ;;
  let r := l.(sl_locked) && (l.(sl_pid) =? pr.(pid)) in
  release (sleeplock_lk a) ;;;
  ret r.

End Sleeplock.
