(* ===== verification/Vm.v ===== *)
(** Virtual memory (kernel/vm.c). Page tables live in the kernel's memory;
    page directories and tables are named by their kernel addresses. *)
From S2P Require Import Prelude Types Spinlock Sched Cstring Kalloc Console Fs.
Import Spinlock Sched Cstring Kalloc Console Fs.

Module Vm.

Section Vm.
Context `{Image}.

Definition setupvm : K Z :=
  p <- kalloc ;;
  ret p.

(** The address of the page table entry of [va], 0 if there is none. *)
Definition walkpgdir (pgdir va : Z) (alloc : bool) : K Z :=
  let pde := pgdir + 4 * PDE_IDX va in
  e <- load_word pde ;;
  pgtab <- (if negb (Z.land e PDE_TYPES =? 0) then ret (p2v (PTE_ADDR e))
            else if negb alloc then ret 0
            else
              t <- setupvm ;;
              if t =? 0 then ret 0 else
              modify (upd_mem (memset t 0 PGSIZE)) ;;;
              store_word pde (Z.lor (v2p t) PDE_COARSE) ;;;
              ret t) ;;
  ret (if pgtab =? 0 then 0 else pgtab + 4 * PTE_IDX va).

Definition mk_pte (pa ap : Z) : Z :=
  Z.lor (Z.lor (Z.lor (Z.lor pa (Z.shiftl (Z.land ap 3) 4)) PTE_CACHE) PTE_BUF) PTE_SMALL.

(* for (;;): from a to last, both page aligned *)
Fixpoint mappages_loop (fuel : nat) (pgdir a last pa ap : Z) : K Z :=
  match fuel with
  | O => fail NoFuel
  | S f =>
      pte <- walkpgdir pgdir a true ;;
      if pte =? 0 then ret (-1) else
      e <- load_word pte ;;
      if negb (Z.land e PTE_TYPES =? 0) then panic "remap" else
      store_word pte (mk_pte pa ap) ;;;
      if a =? last then ret 0
      else mappages_loop f pgdir (u32 (a + PTE_SZ)) last (u32 (pa + PTE_SZ)) ap
  end.

Definition mappages (pgdir va size pa ap : Z) : K Z :=
  let a := ALIGNDOWN va PTE_SZ in
  let last := ALIGNDOWN (va + size - 1) PTE_SZ in
  mappages_loop (S (Z.to_nat (u32 (last - a) / PTE_SZ))) pgdir a last pa ap.

Definition switchuvm (o : option nat) : K unit :=
  match o with
  | None => panic "switchuvm: no process"
  | Some i =>
      p <- get_proc i ;;
      if p.(kstack) =? 0 then panic "switchuvm: no kstack" else
      if p.(pgdir) =? 0 then panic "switchuvm: no pgdir" else
      pushcli ;;;
      modify (set_ttbr0 (v2p p.(pgdir))) ;;;
      popcli
  end.

(** Copying bytes of the kernel image or of a buffer into memory. *)
Fixpoint store_bytes (p : Z) (l : list Z) (m : memory) : memory :=
  match l with
  | [] => m
  | c :: l' => store_bytes (p + 1) l' (store8 m p c)
  end.

Definition inituvm (pgdir : Z) (init : list Z) : K unit :=
  if PTE_SZ <=? Z.of_nat (length init) then panic "inituvm: more than a page" else
  mem <- kalloc ;;
  modify (upd_mem (memset mem 0 PTE_SZ)) ;;;
  mappages pgdir 0 PTE_SZ (v2p mem) AP_KU ;;;
  modify (upd_mem (store_bytes mem init)).

(* for (i = 0; i < sz; i += PTE_SZ) *)
Fixpoint loaduvm_loop (fuel : nat) (pgdir addr : Z) (ip : nat) (offset i sz : Z) : K Z :=
  match fuel with
  | O => fail NoFuel
  | S f =>
      if i <? sz then
        pte <- walkpgdir pgdir (u32 (addr + i)) false ;;
        if pte =? 0 then panic "loaduvm: address should exist" else
        e <- load_word pte ;;
        let pa := PTE_ADDR e in
        let n := if sz - i <? PTE_SZ then sz - i else PTE_SZ in
        r <- readi ip (u32 (offset + i)) n ;;
        modify (upd_mem (store_bytes (p2v pa) r.2)) ;;;
        if negb (r.1 =? n) then ret (-1)
        else loaduvm_loop f pgdir addr ip offset (i + PTE_SZ) sz
      else ret 0
  end.

Definition loaduvm (pgdir addr : Z) (ip : nat) (offset sz : Z) : K Z :=
  if negb (addr mod PTE_SZ =? 0) then panic "loaduvm: addr must be page aligned" else
  loaduvm_loop (S (S (Z.to_nat (sz / PTE_SZ)))) pgdir addr ip offset 0 sz.

(* for (a = ALIGNUP(newsz, PTE_SZ); a < oldsz; a += PTE_SZ) *)
Fixpoint deallocuvm_loop (fuel : nat) (pgdir a oldsz : Z) : K unit :=
  match fuel with
  | O => fail NoFuel
  | S f =>
      if a <? oldsz then
        pte <- walkpgdir pgdir a false ;;
        if pte =? 0 then
          deallocuvm_loop f pgdir (u32 (ALIGNUP a PDE_SZ + PTE_SZ)) oldsz
        else
          e <- load_word pte ;;
          when (negb (Z.land e PTE_TYPES =? 0))
            (let pa := PTE_ADDR e in
             if pa =? 0 then panic "deallocuvm" else
             kfree (p2v pa) ;;;
             store_word pte 0) ;;;
          deallocuvm_loop f pgdir (u32 (a + PTE_SZ)) oldsz
      else ret tt
  end.

Definition deallocuvm (pgdir oldsz newsz : Z) : K Z :=
  if oldsz <=? newsz then ret oldsz else
  deallocuvm_loop (S (S (Z.to_nat (oldsz / PTE_SZ)))) pgdir (ALIGNUP newsz PTE_SZ) oldsz ;;;
  ret newsz.

(* for (; a < newsz; a += PTE_SZ) *)
Fixpoint allocuvm_loop (fuel : nat) (pgdir a oldsz newsz : Z) : K Z :=
  match fuel with
  | O => fail NoFuel
  | S f =>
      if a <? newsz then
        mem <- kalloc ;;
        if mem =? 0 then
          cprintf (chars "allocuvm out of memory" ++ newline) [] ;;;
          deallocuvm pgdir newsz oldsz ;;;
          ret 0
        else
          modify (upd_mem (memset mem 0 PTE_SZ)) ;;;
          mappages pgdir a PTE_SZ (v2p mem) AP_KU ;;;
          allocuvm_loop f pgdir (u32 (a + PTE_SZ)) oldsz newsz
      else ret newsz
  end.

Definition allocuvm (pgdir oldsz newsz : Z) : K Z :=
  if UADDR_SZ <=? newsz then ret 0 else
  if newsz <? oldsz then ret oldsz else
  allocuvm_loop (S (S (Z.to_nat (newsz / PTE_SZ)))) pgdir (ALIGNUP oldsz PTE_SZ) oldsz newsz.

Definition freevm (pgdir : Z) : K unit :=
  if pgdir =? 0 then panic "freevm: no pgdir" else
  deallocuvm pgdir UADDR_SZ 0 ;;;
  mfor (seq 0 (Z.to_nat NUM_UPDE)) (fun i =>
    e <- load_word (pgdir + 4 * Z.of_nat i) ;;
    when (negb (Z.land e PDE_TYPES =? 0)) (kfree (p2v (PTE_ADDR e)))) ;;;
  kfree pgdir.

Definition clearpteu (pgdir uva : Z) : K unit :=
  pte <- walkpgdir pgdir uva false ;;
  if pte =? 0 then panic "clearpteu" else
  e <- load_word pte ;;
  store_word pte (Z.lor (Z.land e (u32 (Z.lnot (Z.shiftl 3 4)))) (Z.shiftl AP_KO 4)).

(* for (i = 0; i < sz; i += PTE_SZ): None is "goto bad" *)
Fixpoint copyuvm_loop (fuel : nat) (pgdir d i sz : Z) : K (option unit) :=
  match fuel with
  | O => fail NoFuel
  | S f =>
      if i <? sz then
        pte <- walkpgdir pgdir i false ;;
        if pte =? 0 then panic "copyuvm: pte should exist" else
        e <- load_word pte ;;
        if Z.land e PTE_TYPES =? 0 then panic "copyuvm: page not present" else
        let pa := PTE_ADDR e in
        let ap := PTE_AP e in
        mem <- kalloc ;;
        if mem =? 0 then ret None else
        modify (upd_mem (memmove mem (p2v pa) PTE_SZ)) ;;;
        r <- mappages d i PTE_SZ (v2p mem) ap ;;
        if r <? 0 then ret None
        else copyuvm_loop f pgdir d (u32 (i + PTE_SZ)) sz
      else ret (Some tt)
  end.

Definition copyuvm (pgdir sz : Z) : K Z :=
  d <- setupvm ;;
  if d =? 0 then ret 0 else
  o <- copyuvm_loop (S (S (Z.to_nat (sz / PTE_SZ)))) pgdir d 0 sz ;;
  match o with
  | Some _ => ret d
  | None => freevm d ;;; ret 0
  end.

(* the entry is read even when walkpgdir finds none: a load from address 0 *)
Definition uva2ka (pgdir uva : Z) : K Z :=
  pte <- walkpgdir pgdir uva false ;;
  if pte =? 0 then undefined "uva2ka: null pte" else
  e <- load_word pte ;;
  if Z.land e PTE_TYPES =? 0 then ret 0 else
  if negb (PTE_AP e =? AP_KU) then ret 0 else
  ret (p2v (PTE_ADDR e)).

(* while (len > 0) *)
Fixpoint copyout_loop (fuel : nat) (pgdir va : Z) (buf : list Z) (len : Z) : K Z :=
  match fuel with
  | O => fail NoFuel
  | S f =>
      if 0 <? len then
        let va0 := ALIGNDOWN va PTE_SZ in
        pa0 <- uva2ka pgdir va0 ;;
        if pa0 =? 0 then ret (-1) else
        let n := PTE_SZ - (va - va0) in
        let n := if len <? n then len else n in
        modify (upd_mem (store_bytes (pa0 + (va - va0)) (take (Z.to_nat n) buf))) ;;;
        copyout_loop f pgdir (u32 (va0 + PTE_SZ)) (drop (Z.to_nat n) buf) (len - n)
      else ret 0
  end.

Definition copyout (pgdir va : Z) (p : list Z) (len : Z) : K Z :=
  copyout_loop (S (S (S (Z.to_nat (len / PTE_SZ))))) pgdir va p len.

(** ** The processor's view of user memory *)

(** The address translation of the MMU for the lower half: the page table
    that TTBR0 points at. *)
Definition translate (s : kstate) (va : Z) : option Z :=
  let pgdir := p2v s.(ttbr0) in
  let e := load32 s.(mem) (pgdir + 4 * PDE_IDX va) in
  if Z.land e PDE_TYPES =? 0 then None else
  let pte := load32 s.(mem) (p2v (PTE_ADDR e) + 4 * PTE_IDX va) in
  if Z.land pte PTE_TYPES =? 0 then None else
  Some (p2v (PTE_ADDR pte) + va mod PTE_SZ).

(** A load or store of a byte at a user address by kernel code. *)
Definition uload8 (va : Z) : K Z :=
  o <- gets (fun s => translate s va) ;;
  a <- deref "user address" o ;;
  gets (fun s => s.(mem) a).

Definition ustore8 (va v : Z) : K unit :=
  o <- gets (fun s => translate s va) ;;
  a <- deref "user address" o ;;
  modify (upd_mem (fun m => store8 m a v)).

Definition uload32 (va : Z) : K Z :=
  b0 <- uload8 va ;; b1 <- uload8 (va + 1) ;;
  b2 <- uload8 (va + 2) ;; b3 <- uload8 (va + 3) ;;
  ret (le_val [b0; b1; b2; b3]).

Fixpoint uload_bytes (n : nat) (va : Z) : K (list Z) :=
  match n with
  | O => ret []
  | S n' => c <- uload8 va ;; l <- uload_bytes n' (va + 1) ;; ret (c :: l)
  end.

Fixpoint ustore_bytes (va : Z) (l : list Z) : K unit :=
  match l with
  | [] => ret tt
  | c :: l' => ustore8 va c ;;; ustore_bytes (va + 1) l'
  end.
End Vm.

End Vm.
