(* ===== verification/Proc.v ===== *)
(** Processes (kernel/proc.c): creation, growth, fork, exit, wait and one
    round of the scheduler. sched, sleep, wakeup and kill are in Sched.v. *)
From S2P Require Import Prelude Types Spinlock Sched Cstring Log Inode Console Fs Kalloc Pipe File Vm.
Import Spinlock Sched Cstring Log Inode Console Fs Kalloc Pipe File Vm.

Module Proc.

(** struct trapframe, by the offsets of its words *)
Definition TF_SIZE : Z := 72.
Definition tf_sp_usr : Z := 0.
Definition tf_lr_usr : Z := 4.
Definition tf_r14_svc : Z := 8.
Definition tf_spsr : Z := 12.
Definition tf_r (n : Z) : Z := 16 + 4 * n.
Definition tf_pc : Z := 68.

(** struct context: r4 to r12, lr *)
Definition CONTEXT_SIZE : Z := 40.
Definition ctx_lr : Z := 36.

(** safestrcpy into a character array kept as a list *)
Fixpoint safestrcpy_list (k : nat) (t old : list Z) : list Z :=
  match k with
  | O => 0 :: tail old
  | S k' =>
      if byte_at t =? 0 then 0 :: 0 :: drop 2 old
      else byte_at t :: safestrcpy_list k' (tail t) (tail old)
  end.
Definition copy_name (t old : list Z) : list Z := safestrcpy_list 15 t old.

(** include/arm.h: spsr_usr, from the status register [cpsr] *)
Definition spsr_usr (cpsr : Z) : Z :=
  Z.lor (Z.land (Z.land cpsr (Z.lnot 128)) (Z.lnot 31)) 16.

Section Proc.
Context `{Image}.

Definition pinit : K unit := initlock ptable_lock.

Definition allocproc : K (option nat) :=
  acquire ptable_lock ;;;
  o <- mfind (seq 0 NPROC) (fun i =>
    p <- get_proc i ;;
    ret (if decide (p.(state) = UNUSED) then Some i else None)) ;;
  match o with
  | None => release ptable_lock ;;; ret None
  | Some p =>
      modify (upd_proc p (set_state EMBRYO)) ;;;
      n <- gets nextpid ;;
      modify (set_nextpid (s32 (n + 1))) ;;;
      modify (upd_proc p (set_pid n)) ;;;
      release ptable_lock ;;;
      ks <- kalloc ;;
      modify (upd_proc p (set_kstack ks)) ;;;
      if ks =? 0 then
        modify (upd_proc p (set_state UNUSED)) ;;;
        ret None
      else
        let sp := ks + KSTACKSIZE - TF_SIZE in
        modify (upd_proc p (set_tf sp)) ;;;
        let sp := sp - 4 in
        store_word sp trapret_addr ;;;
        let sp := sp - 4 in
        store_word sp (ks + KSTACKSIZE) ;;;
        let sp := sp - CONTEXT_SIZE in
        modify (upd_proc p (set_context sp)) ;;;
        modify (upd_mem (memset sp 0 CONTEXT_SIZE)) ;;;
        store_word (sp + ctx_lr) (u32 (forkret_addr + 4)) ;;;
        ret (Some p)
  end.

Definition userinit (cpsr : Z) : K unit :=
  o <- allocproc ;;
  modify (set_initproc o) ;;;
  p <- deref "userinit: p" o ;;
  d <- setupvm ;;
  modify (upd_proc p (set_pgdir d)) ;;;
  if d =? 0 then panic "userinit: out of memory?" else
  inituvm d initcode ;;;
  modify (upd_proc p (set_sz PTE_SZ)) ;;;
  pr <- get_proc p ;;
  modify (upd_mem (memset pr.(tf) 0 TF_SIZE)) ;;;
  store_word (pr.(tf) + tf_r14_svc) error_init_addr ;;;
  store_word (pr.(tf) + tf_spsr) (spsr_usr cpsr) ;;;
  store_word (pr.(tf) + tf_sp_usr) PTE_SZ ;;;
  store_word (pr.(tf) + tf_lr_usr) 0 ;;;
  store_word (pr.(tf) + tf_pc) 0 ;;;
  modify (upd_proc p (fun x => set_name (copy_name (chars "initcode") x.(name)) x)) ;;;
  c <- namei (chars "/") ;;
  modify (upd_proc p (set_cwd c)) ;;;
  acquire ptable_lock ;;;
  modify (upd_proc p (set_state RUNNABLE)) ;;;
  release ptable_lock.

Definition growproc (n : Z) : K Z :=
  c <- cur ;;
  p <- get_proc c ;;
  o <- (if 0 <? n then
          sz <- allocuvm p.(pgdir) p.(sz) (u32 (p.(sz) + n)) ;;
          ret (if sz =? 0 then None else Some sz)
        else if n <? 0 then
          sz <- deallocuvm p.(pgdir) p.(sz) (u32 (p.(sz) + n)) ;;
          ret (if sz =? 0 then None else Some sz)
        else ret (Some p.(sz))) ;;
  match o with
  | None => ret (-1)
  | Some sz =>
      modify (upd_proc c (set_sz sz)) ;;;
      switchuvm (Some c) ;;;
      ret 0
  end.

Definition fork : K Z :=
  c <- cur ;;
  o <- allocproc ;;
  match o with
  | None => ret (-1)
  | Some np =>
      x <- get_proc np ;;
      let pid := x.(pid) in
      p <- get_proc c ;;
      d <- copyuvm p.(pgdir) p.(sz) ;;
      modify (upd_proc np (set_pgdir d)) ;;;
      if d =? 0 then
        x <- get_proc np ;;
        kfree x.(kstack) ;;;
        modify (upd_proc np (set_kstack 0)) ;;;
        modify (upd_proc np (set_state UNUSED)) ;;;
        ret (-1)
      else
        p <- get_proc c ;;
        x <- get_proc np ;;
        modify (upd_proc np (set_sz p.(sz))) ;;;
        modify (upd_proc np (set_parent (Some c))) ;;;
        modify (upd_mem (memmove x.(tf) p.(tf) TF_SIZE)) ;;;
        store_word (x.(tf) + tf_r 0) 0 ;;;
        mfor (seq 0 NOFILE) (fun i =>
          p <- get_proc c ;;
          o <- deref "proc->ofile" (p.(ofile) !! i) ;;
          match o with
          | None => ret tt
          | Some f =>
              f <- filedup f ;;
              modify (upd_proc np (fun y => set_ofile (<[i := Some f]> y.(ofile)) y))
          end) ;;;
        p <- get_proc c ;;
        d <- deref "proc->cwd" p.(cwd) ;;
        d <- idup d ;;
        modify (upd_proc np (set_cwd (Some d))) ;;;
        modify (upd_proc np (fun y => set_name (copy_name p.(name) y.(name)) y)) ;;;
        acquire ptable_lock ;;;
        modify (upd_proc np (set_state RUNNABLE)) ;;;
        release ptable_lock ;;;
        ret pid
  end.

(** wakeup1 of a process pointer; nobody sleeps on a null channel *)
Definition wakeup1_proc (o : option nat) : K unit :=
  match o with Some p => wakeup1 (chan_proc p) | None => ret tt end.

Definition exit : K unit :=
  c <- cur ;;
  ini <- gets initproc ;;
  if bool_decide (ini = Some c) then panic "init exiting" else
  mfor (seq 0 NOFILE) (fun fd =>
    p <- get_proc c ;;
    o <- deref "proc->ofile" (p.(ofile) !! fd) ;;
    match o with
    | None => ret tt
    | Some f =>
        fileclose f ;;;
        modify (upd_proc c (fun y => set_ofile (<[fd := None]> y.(ofile)) y))
    end) ;;;
  p <- get_proc c ;;
  d <- deref "proc->cwd" p.(cwd) ;;
  iput d ;;;
  modify (upd_proc c (set_cwd None)) ;;;
  acquire ptable_lock ;;;
  p <- get_proc c ;;
  wakeup1_proc p.(parent) ;;;
  mfor (seq 0 NPROC) (fun i =>
    x <- get_proc i ;;
    when (bool_decide (x.(parent) = Some c))
      (ini <- gets initproc ;;
       modify (upd_proc i (set_parent ini)) ;;;
       when (bool_decide (x.(state) = ZOMBIE)) (wakeup1_proc ini))) ;;;
  modify (upd_proc c (set_state ZOMBIE)) ;;;
  sched ;;;
  panic "zombie exit".

(* freeing the zombie child i *)
Definition reap (i : nat) : K Z :=
  x <- get_proc i ;;
  let pid := x.(pid) in
  kfree x.(kstack) ;;;
  modify (upd_proc i (set_kstack 0)) ;;;
  freevm x.(pgdir) ;;;
  modify (upd_proc i (set_state UNUSED)) ;;;
  modify (upd_proc i (set_pid 0)) ;;;
  modify (upd_proc i (set_parent None)) ;;;
  modify (upd_proc i (fun y => set_name (<[0%nat := 0]> y.(name)) y)) ;;;
  modify (upd_proc i (set_killed false)) ;;;
  release ptable_lock ;;;
  ret pid.

Definition is_child (c : nat) (x : proc) : bool := bool_decide (x.(parent) = Some c).

Definition wait : K Z :=
  c <- cur ;;
  acquire ptable_lock ;;;
  mloop_env (
    o <- mfind (seq 0 NPROC) (fun i =>
      x <- get_proc i ;;
      if is_child c x && bool_decide (x.(state) = ZOMBIE) then
        pid <- reap i ;;
        ret (Some pid)
      else ret None) ;;
    match o with
    | Some pid => ret (Some pid)
    | None =>
        havekids <- gets (fun s => existsb (is_child c) s.(procs)) ;;
        p <- get_proc c ;;
        if negb havekids || p.(killed) then
          release ptable_lock ;;;
          ret (Some (-1))
        else
          sleep (chan_proc c) ptable_lock ;;;
          ret None
    end).

(** One round of the scheduler's loop; each switch to a process is a step
    of the environment, up to the switch back. *)
Definition scheduler_round : K unit :=
  sti ;;;
  acquire ptable_lock ;;;
  mfor (seq 0 NPROC) (fun i =>
    p <- get_proc i ;;
    when (bool_decide (p.(state) = RUNNABLE))
      (modify (set_curproc (Some i)) ;;;
       switchuvm (Some i) ;;;
       modify (upd_proc i (set_state RUNNING)) ;;;
       swtch ;;;
       modify (set_curproc None))) ;;;
  release ptable_lock.

Definition forkret : K unit :=
  release ptable_lock ;;;
  f <- gets first ;;
  when f (modify (set_first false) ;;; initlog).
End Proc.

End Proc.
