(* ===== verification/Exec.v ===== *)
(** Loading programs (kernel/exec.c, include/elf.h). *)
From S2P Require Import Prelude Types Spinlock Sched Cstring Log Inode Console Fs Kalloc Pipe File Vm Proc.
Import Spinlock Sched Cstring Log Inode Console Fs Kalloc Pipe File Vm Proc.

Module Exec.

(** struct elfhdr and struct proghdr, by the offsets of their fields *)
Definition ELF_MAGIC : Z := 1179403647.
Definition ELFHDR_SIZE : Z := 52.
Definition elf_magic (e : list Z) : Z := get32 0 e.
Definition elf_entry (e : list Z) : Z := get32 24 e.
Definition elf_phoff (e : list Z) : Z := get32 28 e.
Definition elf_phnum (e : list Z) : Z := get16 44 e.

Definition PROGHDR_SIZE : Z := 32.
Definition ELF_PROG_LOAD : Z := 1.
Definition ph_type (p : list Z) : Z := get32 0 p.
Definition ph_off (p : list Z) : Z := get32 4 p.
Definition ph_vaddr (p : list Z) : Z := get32 8 p.
Definition ph_filesz (p : list Z) : Z := get32 16 p.
Definition ph_memsz (p : list Z) : Z := get32 20 p.

(** The part of a path behind its last slash. *)
Fixpoint last_elem (s last : list Z) : list Z :=
  match s with
  | [] => last
  | c :: s' => last_elem s' (if c =? 47 then s' else last)
  end.

Section Exec.
Context `{Image}.

(* the loop over the program headers; None is "goto bad" *)
Fixpoint load_segments (n : nat) (ip : nat) (pgdir off sz : Z) : K (option Z) :=
  match n with
  | O => ret (Some sz)
  | S n' =>
      r <- readi ip (u32 off) PROGHDR_SIZE ;;
      if negb (r.1 =? PROGHDR_SIZE) then ret None else
      let ph := r.2 in
      if negb (ph_type ph =? ELF_PROG_LOAD)
      then load_segments n' ip pgdir (off + PROGHDR_SIZE) sz else
      if ph_memsz ph <? ph_filesz ph then ret None else
      sz <- allocuvm pgdir sz (u32 (ph_vaddr ph + ph_memsz ph)) ;;
      if sz =? 0 then ret None else
      l <- loaduvm pgdir (ph_vaddr ph) ip (ph_off ph) (ph_filesz ph) ;;
      if l <? 0 then ret None
      else load_segments n' ip pgdir (off + PROGHDR_SIZE) sz
  end.

(* the loop over argv: the stack pointer and the string addresses *)
Fixpoint push_args (argv : list (list Z)) (argc pgdir sp : Z) (ustack : list Z) :
    K (option (Z * list Z)) :=
  match argv with
  | [] => ret (Some (sp, ustack))
  | a :: argv' =>
      if MAXARG <=? argc then ret None else
      let len := Z.of_nat (length a) in
      let sp := Z.land (u32 (sp - (len + 1))) (u32 (Z.lnot 3)) in
      r <- copyout pgdir sp (a ++ [0]) (len + 1) ;;
      if r <? 0 then ret None
      else push_args argv' (argc + 1) pgdir sp (ustack ++ [sp])
  end.

(* bad: *)
Definition exec_bad (pgdir : Z) (ip : option nat) : K Z :=
  when (negb (pgdir =? 0)) (freevm pgdir) ;;;
  match ip with Some i => iunlockput i | None => ret tt end ;;;
  ret (-1).

Definition exec (path : list Z) (argv : list (list Z)) : K Z :=
  o <- namei path ;;
  match o with
  | None => ret (-1)
  | Some ip =>
      ilock (Some ip) ;;;
      r <- readi ip 0 ELFHDR_SIZE ;;
      (* the result is compared as an unsigned number *)
      if u32 r.1 <? ELFHDR_SIZE then exec_bad 0 (Some ip) else
      if r.1 <? 0 then undefined "exec: elf" else
      let elf := r.2 in
      if negb (elf_magic elf =? ELF_MAGIC) then exec_bad 0 (Some ip) else
      pgdir <- setupvm ;;
      if pgdir =? 0 then exec_bad 0 (Some ip) else
      o <- load_segments (Z.to_nat (elf_phnum elf)) ip pgdir (s32 (elf_phoff elf)) 0 ;;
      match o with
      | None => exec_bad pgdir (Some ip)
      | Some sz =>
          iunlockput ip ;;;
          let sz := ALIGNUP sz PTE_SZ in
          sz <- allocuvm pgdir sz (u32 (sz + 2 * PTE_SZ)) ;;
          if sz =? 0 then exec_bad pgdir None else
          clearpteu pgdir (u32 (sz - 2 * PTE_SZ)) ;;;
          o <- push_args argv 0 pgdir sz [] ;;
          match o with
          | None => exec_bad pgdir None
          | Some (sp, ustack) =>
              let argc := Z.of_nat (length ustack) in
              c <- cur ;;
              p <- get_proc c ;;
              store_word (p.(tf) + tf_r 0) argc ;;;
              store_word (p.(tf) + tf_r 1) (u32 (sp - (argc + 1) * 4)) ;;;
              let sp := u32 (sp - (argc + 1) * 4) in
              r <- copyout pgdir sp (mjoin (le_bytes 4 <$> (ustack ++ [0]))) ((argc + 1) * 4) ;;
              if r <? 0 then exec_bad pgdir None else
              modify (upd_proc c (fun x => set_name (copy_name (last_elem path path) x.(name)) x)) ;;;
              let oldpgdir := p.(Types.pgdir) in
              modify (upd_proc c (set_pgdir pgdir)) ;;;
              modify (upd_proc c (set_sz sz)) ;;;
              store_word (p.(tf) + tf_pc) (elf_entry elf) ;;;
              store_word (p.(tf) + tf_sp_usr) sp ;;;
              switchuvm (Some c) ;;;
              freevm oldpgdir ;;;
              ret 0
          end
      end
  end.
End Exec.

End Exec.
