(* ===== verification/Syscall.v ===== *)
(** System calls: argument fetching and dispatch (kernel/syscall.c), the
    process calls (kernel/sysproc.c) and the file system calls
    (kernel/sysfile.c). *)
From S2P Require Import Prelude Types Spinlock Sched Cstring Log Inode Console Fs Kalloc Pipe File Vm Proc Exec.
Import Spinlock Sched Cstring Log Inode Console Fs Kalloc Pipe File Vm Proc Exec.

Module Syscall.

(** include/syscall.h *)
Definition SYS_fork : Z := 1.
Definition SYS_exit : Z := 2.
Definition SYS_wait : Z := 3.
Definition SYS_pipe : Z := 4.
Definition SYS_read : Z := 5.
Definition SYS_kill : Z := 6.
Definition SYS_exec : Z := 7.
Definition SYS_fstat : Z := 8.
Definition SYS_chdir : Z := 9.
Definition SYS_dup : Z := 10.
Definition SYS_getpid : Z := 11.
Definition SYS_sbrk : Z := 12.
Definition SYS_sleep : Z := 13.
Definition SYS_uptime : Z := 14.
Definition SYS_open : Z := 15.
Definition SYS_write : Z := 16.
Definition SYS_mknod : Z := 17.
Definition SYS_unlink : Z := 18.
Definition SYS_link : Z := 19.
Definition SYS_mkdir : Z := 20.
Definition SYS_close : Z := 21.

Section Args.
(** The current process. *)
Definition curp : K proc := c <- cur ;; get_proc c.

Definition fetchint (addr : Z) : K (option Z) :=
  p <- curp ;;
  if (p.(sz) <=? addr) || (p.(sz) <? u32 (addr + 4)) then ret None else
  v <- uload32 addr ;;
  ret (Some v).

(* for (s = addr; s < ep; s++): the string up to its NUL *)
Fixpoint fetchstr_loop (n : nat) (s : Z) : K (option (list Z)) :=
  match n with
  | O => ret None
  | S n' =>
      c <- uload8 s ;;
      if c =? 0 then ret (Some []) else
      r <- fetchstr_loop n' (s + 1) ;;
      ret (cons c <$> r)
  end.

Definition fetchstr (addr : Z) : K (option (list Z)) :=
  p <- curp ;;
  if p.(sz) <=? addr then ret None else
  fetchstr_loop (Z.to_nat (p.(sz) - addr)) addr.

Definition argint (n : Z) : K Z :=
  if 3 <? n then panic "too many system call parameters" else
  p <- curp ;;
  v <- load_word (p.(tf) + tf_r 1 + 4 * n) ;;
  ret (s32 v).

Definition argptr (n size : Z) : K (option Z) :=
  i <- argint n ;;
  p <- curp ;;
  if (p.(sz) <=? u32 i) || (p.(sz) <? u32 (u32 i + size)) then ret None
  else ret (Some (u32 i)).

Definition argstr (n : Z) : K (option (list Z)) :=
  addr <- argint n ;;
  fetchstr (u32 addr).

(** The descriptor and the file. *)
Definition argfd (n : Z) : K (option (Z * nat)) :=
  fd <- argint n ;;
  if (fd <? 0) || (Z.of_nat NOFILE <=? fd) then ret None else
  p <- curp ;;
  o <- deref "proc->ofile" (p.(ofile) !! Z.to_nat fd) ;;
  ret ((fun f => (fd, f)) <$> o).

Definition fdalloc (f : nat) : K Z :=
  c <- cur ;;
  o <- mfind (seq 0 NOFILE) (fun fd =>
    p <- get_proc c ;;
    o <- deref "proc->ofile" (p.(ofile) !! fd) ;;
    match o with
    | None =>
        modify (upd_proc c (fun y => set_ofile (<[fd := Some f]> y.(ofile)) y)) ;;;
        ret (Some (Z.of_nat fd))
    | Some _ => ret None
    end) ;;
  ret (default (-1) o).
End Args.

Section Calls.
Context `{Image}.

(** ** sysproc.c *)

Definition sys_fork : K Z := fork.
Definition sys_exit : K Z := exit ;;; ret 0.
Definition sys_wait : K Z := wait.
Definition sys_kill : K Z := pid <- argint 0 ;; kill pid.
Definition sys_getpid : K Z := p <- curp ;; ret p.(pid).

Definition sys_sbrk : K Z :=
  n <- argint 0 ;;
  p <- curp ;;
  let addr := s32 p.(sz) in
  r <- growproc n ;;
  ret (if r <? 0 then -1 else addr).

(* the comparison is unsigned: n is converted *)
Definition sys_sleep : K Z :=
  n <- argint 0 ;;
  acquire tickslock ;;;
  ticks0 <- gets ticks ;;
  r <- mloop_env (
    t <- gets ticks ;;
    if u32 (t - ticks0) <? u32 n then
      p <- curp ;;
      if p.(killed) then release tickslock ;;; ret (Some (-1))
      else sleep chan_ticks tickslock ;;; ret None
    else ret (Some 0)) ;;
  if r <? 0 then ret (-1) else
  release tickslock ;;;
  ret 0.

Definition sys_uptime : K Z :=
  acquire tickslock ;;;
  t <- gets ticks ;;
  release tickslock ;;;
  ret (s32 t).

(** ** sysfile.c *)

Definition sys_dup : K Z :=
  o <- argfd 0 ;;
  match o with
  | None => ret (-1)
  | Some (_, f) =>
      fd <- fdalloc f ;;
      if fd <? 0 then ret (-1) else
      filedup f ;;;
      ret fd
  end.

Definition sys_read : K Z :=
  o <- argfd 0 ;;
  match o with
  | None => ret (-1)
  | Some (_, f) =>
      n <- argint 2 ;;
      o <- argptr 1 n ;;
      match o with
      | None => ret (-1)
      | Some p =>
          r <- fileread f n ;;
          ustore_bytes p r.2 ;;;
          ret r.1
      end
  end.

Definition sys_write : K Z :=
  o <- argfd 0 ;;
  match o with
  | None => ret (-1)
  | Some (_, f) =>
      n <- argint 2 ;;
      o <- argptr 1 n ;;
      match o with
      | None => ret (-1)
      | Some p =>
          bs <- uload_bytes (Z.to_nat n) p ;;
          filewrite f bs n
      end
  end.

Definition sys_close : K Z :=
  o <- argfd 0 ;;
  match o with
  | None => ret (-1)
  | Some (fd, f) =>
      c <- cur ;;
      modify (upd_proc c (fun y => set_ofile (<[Z.to_nat fd := None]> y.(ofile)) y)) ;;;
      fileclose f ;;;
      ret 0
  end.

(** struct stat in memory: type, dev, ino, nlink, size at 0, 4, 8, 12, 16 *)
Definition STAT_SIZE : Z := 20.
Definition store_stat (va : Z) (st : stat) : K unit :=
  ustore_bytes va (le_bytes 2 st.(st_type)) ;;;
  ustore_bytes (va + 4) (le_bytes 4 st.(st_dev)) ;;;
  ustore_bytes (va + 8) (le_bytes 4 st.(st_ino)) ;;;
  ustore_bytes (va + 12) (le_bytes 2 st.(st_nlink)) ;;;
  ustore_bytes (va + 16) (le_bytes 4 st.(st_size)).

Definition sys_fstat : K Z :=
  o <- argfd 0 ;;
  match o with
  | None => ret (-1)
  | Some (_, f) =>
      o <- argptr 1 STAT_SIZE ;;
      match o with
      | None => ret (-1)
      | Some st =>
          r <- filestat f ;;
          match r.2 with Some x => store_stat st x | None => ret tt end ;;;
          ret r.1
      end
  end.

Definition add_nlink (k : Z) (ip : nat) : K unit :=
  modify (upd_inode ip (fun x => set_i_nlink (s16 (x.(i_nlink) + k)) x)).

(* bad: of sys_link *)
Definition link_bad (ip : nat) : K Z :=
  ilock (Some ip) ;;;
  add_nlink (-1) ip ;;;
  iupdate ip ;;;
  iunlockput ip ;;;
  commit_trans ;;;
  ret (-1).

Definition sys_link : K Z :=
  o <- argstr 0 ;;
  match o with
  | None => ret (-1)
  | Some old =>
      o <- argstr 1 ;;
      match o with
      | None => ret (-1)
      | Some new =>
          o <- namei old ;;
          match o with
          | None => ret (-1)
          | Some ip =>
              begin_trans ;;;
              ilock (Some ip) ;;;
              i <- get_inode ip ;;
              if i.(i_type) =? T_DIR then
                iunlockput ip ;;; commit_trans ;;; ret (-1)
              else
                add_nlink 1 ip ;;;
                iupdate ip ;;;
                iunlock (Some ip) ;;;
                r <- nameiparent new ;;
                match r.1 with
                | None => link_bad ip
                | Some dp =>
                    ilock (Some dp) ;;;
                    d <- get_inode dp ;;
                    i <- get_inode ip ;;
                    l <- (if negb (d.(i_dev) =? i.(i_dev)) then ret (-1)
                          else dirlink dp r.2 i.(i_inum)) ;;
                    if l <? 0 then iunlockput dp ;;; link_bad ip
                    else
                      iunlockput dp ;;;
                      iput ip ;;;
                      commit_trans ;;;
                      ret 0
                end
          end
      end
  end.

(* for (off = 2*sizeof(de); off < dp->size; off += sizeof(de)) *)
Fixpoint isdirempty_loop (fuel : nat) (dp : nat) (off : Z) : K bool :=
  match fuel with
  | O => fail NoFuel
  | S f =>
      d <- get_inode dp ;;
      if off <? d.(i_size) then
        r <- readi dp off DIRENT_SIZE ;;
        if negb (r.1 =? DIRENT_SIZE) then panic "isdirempty: readi" else
        if negb (de_inum r.2 =? 0) then ret false
        else isdirempty_loop f dp (off + DIRENT_SIZE)
      else ret true
  end.

Definition isdirempty (dp : nat) : K bool :=
  d <- get_inode dp ;;
  isdirempty_loop (nentries d.(i_size)) dp (2 * DIRENT_SIZE).

(* bad: of sys_unlink *)
Definition unlink_bad (dp : nat) : K Z :=
  iunlockput dp ;;;
  commit_trans ;;;
  ret (-1).

Definition sys_unlink : K Z :=
  o <- argstr 0 ;;
  match o with
  | None => ret (-1)
  | Some path =>
      r <- nameiparent path ;;
      match r.1 with
      | None => ret (-1)
      | Some dp =>
          let name := r.2 in
          begin_trans ;;;
          ilock (Some dp) ;;;
          if (namecmp name (chars ".") =? 0) || (namecmp name (chars "..") =? 0)
          then unlink_bad dp else
          o <- dirlookup dp name ;;
          match o with
          | None => unlink_bad dp
          | Some (off, ip) =>
              ilock (Some ip) ;;;
              i <- get_inode ip ;;
              if i.(i_nlink) <? 1 then panic "unlink: nlink < 1" else
              e <- (if i.(i_type) =? T_DIR then isdirempty ip else ret true) ;;
              if negb e then iunlockput ip ;;; unlink_bad dp else
              w <- writei dp (replicate (Z.to_nat DIRENT_SIZE) 0) off DIRENT_SIZE ;;
              if negb (w =? DIRENT_SIZE) then panic "unlink: writei" else
              i <- get_inode ip ;;
              when (i.(i_type) =? T_DIR) (add_nlink (-1) dp ;;; iupdate dp) ;;;
              iunlockput dp ;;;
              add_nlink (-1) ip ;;;
              iupdate ip ;;;
              iunlockput ip ;;;
              commit_trans ;;;
              ret 0
          end
      end
  end.

Definition create (path : list Z) (type major minor : Z) : K (option nat) :=
  r <- nameiparent path ;;
  match r.1 with
  | None => ret None
  | Some dp =>
      let name := r.2 in
      ilock (Some dp) ;;;
      o <- dirlookup dp name ;;
      match o with
      | Some (_, ip) =>
          iunlockput dp ;;;
          ilock (Some ip) ;;;
          i <- get_inode ip ;;
          if (type =? T_FILE) && (i.(i_type) =? T_FILE) then ret (Some ip)
          else iunlockput ip ;;; ret None
      | None =>
          d <- get_inode dp ;;
          ip <- ialloc d.(i_dev) type ;;
          ilock (Some ip) ;;;
          modify (upd_inode ip (set_i_major major)) ;;;
          modify (upd_inode ip (set_i_minor minor)) ;;;
          modify (upd_inode ip (set_i_nlink 1)) ;;;
          iupdate ip ;;;
          when (type =? T_DIR)
            (add_nlink 1 dp ;;;
             iupdate dp ;;;
             i <- get_inode ip ;;
             d <- get_inode dp ;;
             l <- dirlink ip (chars ".") i.(i_inum) ;;
             l <- (if l <? 0 then ret l else dirlink ip (chars "..") d.(i_inum)) ;;
             when (l <? 0) (panic "create dots")) ;;;
          i <- get_inode ip ;;
          l <- dirlink dp name i.(i_inum) ;;
          if l <? 0 then panic "create: dirlink" else
          iunlockput dp ;;;
          ret (Some ip)
      end
  end.

Definition sys_open : K Z :=
  o <- argstr 0 ;;
  match o with
  | None => ret (-1)
  | Some path =>
      omode <- argint 1 ;;
      o <- (if has omode O_CREATE then
              begin_trans ;;;
              ip <- create path T_FILE 0 0 ;;
              commit_trans ;;;
              ret ip
            else
              o <- namei path ;;
              match o with
              | None => ret None
              | Some ip =>
                  ilock (Some ip) ;;;
                  i <- get_inode ip ;;
                  if (i.(i_type) =? T_DIR) && negb (omode =? O_RDONLY)
                  then iunlockput ip ;;; ret None
                  else ret (Some ip)
              end) ;;
      match o with
      | None => ret (-1)
      | Some ip =>
          o <- filealloc ;;
          match o with
          | None => iunlockput ip ;;; ret (-1)
          | Some f =>
              fd <- fdalloc f ;;
              if fd <? 0 then fileclose f ;;; iunlockput ip ;;; ret (-1) else
              iunlock (Some ip) ;;;
              modify (upd_file f (set_f_type FD_INODE)) ;;;
              modify (upd_file f (set_f_ip ip)) ;;;
              modify (upd_file f (set_f_off 0)) ;;;
              modify (upd_file f (set_f_readable (negb (has omode O_WRONLY)))) ;;;
              modify (upd_file f (set_f_writable (has omode O_WRONLY || has omode O_RDWR))) ;;;
              ret fd
          end
      end
  end.

Definition sys_mkdir : K Z :=
  begin_trans ;;;
  o <- argstr 0 ;;
  o <- match o with None => ret None | Some path => create path T_DIR 0 0 end ;;
  match o with
  | None => commit_trans ;;; ret (-1)
  | Some ip => iunlockput ip ;;; commit_trans ;;; ret 0
  end.

Definition sys_mknod : K Z :=
  begin_trans ;;;
  o <- argstr 0 ;;
  o <- match o with
       | None => ret None
       | Some path =>
           major <- argint 1 ;;
           minor <- argint 2 ;;
           create path T_DEV (s16 major) (s16 minor)
       end ;;
  match o with
  | None => commit_trans ;;; ret (-1)
  | Some ip => iunlockput ip ;;; commit_trans ;;; ret 0
  end.

Definition sys_chdir : K Z :=
  o <- argstr 0 ;;
  o <- match o with None => ret None | Some path => namei path end ;;
  match o with
  | None => ret (-1)
  | Some ip =>
      ilock (Some ip) ;;;
      i <- get_inode ip ;;
      if negb (i.(i_type) =? T_DIR) then iunlockput ip ;;; ret (-1) else
      iunlock (Some ip) ;;;
      c <- cur ;;
      p <- get_proc c ;;
      d <- deref "proc->cwd" p.(cwd) ;;
      iput d ;;;
      modify (upd_proc c (set_cwd (Some ip))) ;;;
      ret 0
  end.

(* for (i = 0;; i++): argv up to its null pointer; None is "return -1" *)
Fixpoint fetch_argv (n : nat) (uargv : Z) : K (option (list (list Z))) :=
  match n with
  | O => ret None
  | S n' =>
      o <- fetchint uargv ;;
      match o with
      | None => ret None
      | Some uarg =>
          if uarg =? 0 then ret (Some []) else
          o <- fetchstr uarg ;;
          match o with
          | None => ret None
          | Some a =>
              r <- fetch_argv n' (u32 (uargv + 4)) ;;
              ret (cons a <$> r)
          end
      end
  end.

Definition sys_exec : K Z :=
  o <- argstr 0 ;;
  match o with
  | None => ret (-1)
  | Some path =>
      uargv <- argint 1 ;;
      o <- fetch_argv (Z.to_nat MAXARG) (u32 uargv) ;;
      match o with
      | None => ret (-1)
      | Some argv => exec path argv
      end
  end.

Definition sys_pipe : K Z :=
  o <- argptr 0 8 ;;
  match o with
  | None => ret (-1)
  | Some fd =>
      o <- pipealloc ;;
      match o with
      | None => ret (-1)
      | Some (rf, wf) =>
          fd0 <- fdalloc rf ;;
          fd1 <- (if fd0 <? 0 then ret (-1) else fdalloc wf) ;;
          if fd1 <? 0 then
            when (0 <=? fd0)
              (c <- cur ;;
               modify (upd_proc c (fun y => set_ofile (<[Z.to_nat fd0 := None]> y.(ofile)) y))) ;;;
            fileclose rf ;;;
            fileclose wf ;;;
            ret (-1)
          else
            ustore_bytes fd (le_bytes 4 fd0) ;;;
            ustore_bytes (fd + 4) (le_bytes 4 fd1) ;;;
            ret 0
      end
  end.

(** ** Dispatch *)

(** The table [syscalls], indices 0 to 21. *)
Definition syscalls : list (option (K Z)) :=
  [ None; Some sys_fork; Some sys_exit; Some sys_wait; Some sys_pipe; Some sys_read;
    Some sys_kill; Some sys_exec; Some sys_fstat; Some sys_chdir; Some sys_dup;
    Some sys_getpid; Some sys_sbrk; Some sys_sleep; Some sys_uptime; Some sys_open;
    Some sys_write; Some sys_mknod; Some sys_unlink; Some sys_link; Some sys_mkdir;
    Some sys_close ].

Definition NELEM : Z := Z.of_nat (length syscalls).

(* the bound admits the index just behind the table *)
Definition syscall : K unit :=
  p <- curp ;;
  r0 <- load_word (p.(tf) + tf_r 0) ;;
  let num := s32 r0 in
  h <- (if (0 <? num) && (num <=? NELEM) then deref "syscalls" (syscalls !! Z.to_nat num)
        else ret None) ;;
  match h with
  | Some call =>
      r <- call ;;
      if negb (num =? SYS_exec) then
        p <- curp ;;
        store_word (p.(tf) + tf_r 0) (u32 r)
      else ret tt
  | None =>
      cprintf (chars "%d %s: unknown sys call %d" ++ newline)
        [PInt p.(pid); PStr (Some (upto_nul p.(name))); PInt num] ;;;
      store_word (p.(tf) + tf_r 0) (u32 (-1))
  end.
End Calls.

End Syscall.
