(* ===== verification/PipeFacts.v ===== *)
(** Pipes are bounded queues: the ring buffer of kernel/pipe.c with its
    free-running unsigned counters implements a first-in first-out queue of at
    most PIPESIZE bytes. *)
From S2P Require Import Prelude Types Spinlock Sched Kalloc Pipe.
Import Spinlock Sched Kalloc Pipe.

Module PipeFacts.

(** ** The queue in a pipe *)

(** The number of bytes: the difference of the counters, modulo 2^32. *)
Definition fill (pp : pipe) : Z := u32 (pp.(p_nwrite) - pp.(p_nread)).

Definition queue (pp : pipe) : list Z :=
  (fun i => pp.(p_data) !!! pipe_index (pp.(p_nread) + Z.of_nat i)) <$> seq 0 (Z.to_nat (fill pp)).

Definition pipe_ok (pp : pipe) : Prop :=
  length pp.(p_data) = Z.to_nat PIPESIZE /\
  0 <= pp.(p_nread) < 2 ^ 32 /\ 0 <= pp.(p_nwrite) < 2 ^ 32 /\ fill pp <= PIPESIZE.

(** One byte in, one byte out. *)
Definition put (c : Z) (x : pipe) : pipe :=
  set_p_nwrite (u32 (x.(p_nwrite) + 1)) (set_p_data (<[pipe_index x.(p_nwrite) := c]> x.(p_data)) x).
Definition get (x : pipe) : pipe := set_p_nread (u32 (x.(p_nread) + 1)) x.

Lemma fill_range pp : 0 <= fill pp < 2 ^ 32.
Proof. unfold fill, u32. apply Z.mod_pos_bound. lia. Qed.

Lemma length_queue pp : length (queue pp) = Z.to_nat (fill pp).
Proof. unfold queue. by rewrite length_fmap, length_seq. Qed.

Lemma queue_lookup pp i : (i < Z.to_nat (fill pp))%nat ->
  queue pp !! i = Some (pp.(p_data) !!! pipe_index (pp.(p_nread) + Z.of_nat i)).
Proof. intros Hi. unfold queue. by rewrite list_lookup_fmap, lookup_seq_lt. Qed.

Lemma u32_add_r a b : u32 (a + u32 b) = u32 (a + b).
Proof. unfold u32. by rewrite Zplus_mod_idemp_r. Qed.

Lemma u32_add_l a b : u32 (u32 a + b) = u32 (a + b).
Proof. unfold u32. by rewrite Zplus_mod_idemp_l. Qed.

(** The size of the ring divides the range of the counters. *)
Lemma index_u32 x : pipe_index (u32 x) = pipe_index x.
Proof.
  unfold pipe_index, u32, PIPESIZE. f_equal. change (2 ^ 32) with (512 * 2 ^ 23).
  rewrite Z.rem_mul_r by lia. rewrite (Z.mul_comm 512 (_ mod _)), Z.mod_add, Z.mod_mod by lia. done.
Qed.

Lemma index_eq x y : pipe_index x = pipe_index y -> x mod PIPESIZE = y mod PIPESIZE.
Proof.
  unfold pipe_index. intros H. pose proof (Z.mod_pos_bound x PIPESIZE eq_refl).
  pose proof (Z.mod_pos_bound y PIPESIZE eq_refl). lia.
Qed.

Lemma index_distinct x i j :
  0 <= i < PIPESIZE -> 0 <= j < PIPESIZE -> pipe_index (x + i) = pipe_index (x + j) -> i = j.
Proof.
  intros Hi Hj H%index_eq. unfold PIPESIZE in *.
  assert ((x + i - (x + j)) mod 512 = 0) as H0.
  { rewrite Zminus_mod, H, Z.sub_diag. done. }
  apply Z.mod_divide in H0 as [k Hk]; [|lia]. lia.
Qed.

Lemma index_lt x pp : pipe_ok pp -> (pipe_index x < length pp.(p_data))%nat.
Proof.
  intros (-> & _). unfold pipe_index. pose proof (Z.mod_pos_bound x PIPESIZE eq_refl).
  change (Z.to_nat PIPESIZE) with 512%nat. unfold PIPESIZE in *. lia.
Qed.

Lemma full_iff pp : pipe_ok pp ->
  (pp.(p_nwrite) =? u32 (pp.(p_nread) + PIPESIZE)) = bool_decide (fill pp = PIPESIZE).
Proof.
  intros (_ & Hr & Hw & Hf). apply eq_true_iff_eq. rewrite Z.eqb_eq, bool_decide_eq_true.
  unfold fill, u32, PIPESIZE in *. split.
  - intros ->. rewrite Zminus_mod_idemp_l. by replace (p_nread pp + 512 - p_nread pp) with 512 by lia.
  - intros H. pose proof (Z.div_mod (p_nwrite pp - p_nread pp) (2 ^ 32) ltac:(lia)).
    rewrite H in *. set (q := (_ - _) / _) in *.
    replace (p_nread pp + 512) with (p_nwrite pp + (- q) * 2 ^ 32) by lia.
    rewrite Z.mod_add, Z.mod_small by lia. done.
Qed.

Lemma empty_iff pp : pipe_ok pp -> (pp.(p_nread) =? pp.(p_nwrite)) = bool_decide (fill pp = 0).
Proof.
  intros (_ & Hr & Hw & _). apply eq_true_iff_eq. rewrite Z.eqb_eq, bool_decide_eq_true.
  unfold fill, u32. split.
  - intros ->. by rewrite Z.sub_diag.
  - intros H. apply Z.mod_divide in H as [k Hk]; [|lia]. assert (k = 0) by nia. lia.
Qed.

Lemma put_fill c pp : pipe_ok pp -> fill pp < PIPESIZE -> fill (put c pp) = fill pp + 1.
Proof.
  intros _ Hf. pose proof (fill_range pp) as Hr. unfold fill, put, u32, PIPESIZE in *. simpl.
  rewrite Zminus_mod_idemp_l. replace (p_nwrite pp + 1 - p_nread pp) with (p_nwrite pp - p_nread pp + 1) by lia.
  rewrite <- Zplus_mod_idemp_l. rewrite Z.mod_small; lia.
Qed.

Lemma put_ok c pp : pipe_ok pp -> fill pp < PIPESIZE -> pipe_ok (put c pp).
Proof.
  intros Hok Hf. pose proof (put_fill c pp Hok Hf) as E. destruct Hok as (Hl & Hr & Hw & _).
  pose proof (Z.mod_pos_bound (p_nwrite pp + 1) (2 ^ 32) eq_refl).
  unfold pipe_ok. rewrite E. unfold put, u32. simpl. rewrite length_insert. split_and?; done || lia.
Qed.

Lemma write_index pp : pipe_index pp.(p_nwrite) = pipe_index (pp.(p_nread) + fill pp).
Proof.
  rewrite <- (index_u32 (_ + fill pp)). unfold fill. rewrite u32_add_r, index_u32. f_equal. lia.
Qed.

Lemma put_queue c pp : pipe_ok pp -> fill pp < PIPESIZE -> queue (put c pp) = queue pp ++ [c].
Proof.
  intros Hok Hf. pose proof (put_fill c pp Hok Hf) as E. pose proof (fill_range pp).
  apply list_eq. intros i. destruct (decide (i < S (Z.to_nat (fill pp)))%nat) as [Hi|Hi].
  2:{ rewrite !lookup_ge_None_2; [done| |]; rewrite ?length_app, length_queue, ?E; simpl; lia. }
  rewrite queue_lookup by (rewrite E; lia).
  change (p_nread (put c pp)) with (p_nread pp).
  change (p_data (put c pp)) with (<[pipe_index (p_nwrite pp) := c]> (p_data pp)).
  rewrite write_index. destruct (decide (i < Z.to_nat (fill pp))%nat) as [Hlt|Hge].
  - rewrite lookup_app_l by (by rewrite length_queue). rewrite queue_lookup by done.
    rewrite list_lookup_total_insert_ne; [done|]. intros Heq.
    apply index_distinct in Heq; unfold PIPESIZE in *; lia.
  - assert (i = Z.to_nat (fill pp)) as -> by lia. rewrite lookup_app_r by (by rewrite length_queue).
    rewrite length_queue, Nat.sub_diag, Z2Nat.id by lia. simpl.
    rewrite list_lookup_total_insert_eq; [done|]. by apply index_lt.
Qed.

Lemma get_fill pp : pipe_ok pp -> 0 < fill pp -> fill (get pp) = fill pp - 1.
Proof.
  intros _ Hf. pose proof (fill_range pp) as Hr. unfold fill, get, u32 in *. simpl.
  rewrite Zminus_mod_idemp_r. replace (p_nwrite pp - (p_nread pp + 1)) with (p_nwrite pp - p_nread pp - 1) by lia.
  rewrite <- Zminus_mod_idemp_l. rewrite Z.mod_small; lia.
Qed.

Lemma get_ok pp : pipe_ok pp -> 0 < fill pp -> pipe_ok (get pp).
Proof.
  intros Hok Hf. pose proof (get_fill pp Hok Hf) as E. destruct Hok as (Hl & Hr & Hw & ?).
  pose proof (Z.mod_pos_bound (p_nread pp + 1) (2 ^ 32) eq_refl).
  unfold pipe_ok. rewrite E. unfold get, u32. simpl. split_and?; done || lia.
Qed.

Lemma get_queue pp : pipe_ok pp -> 0 < fill pp ->
  queue pp = pp.(p_data) !!! pipe_index pp.(p_nread) :: queue (get pp).
Proof.
  intros Hok Hf. pose proof (get_fill pp Hok Hf) as E. pose proof (fill_range pp).
  apply list_eq. intros [|i].
  - rewrite queue_lookup by lia. simpl. by rewrite Z.add_0_r.
  - simpl. destruct (decide (S i < Z.to_nat (fill pp))%nat) as [Hi|Hi].
    + rewrite !queue_lookup by lia. f_equal. change (p_data (get pp)) with (p_data pp). f_equal.
      change (p_nread (get pp)) with (u32 (p_nread pp + 1)).
      rewrite <- (index_u32 (u32 _ + _)), u32_add_l, index_u32. f_equal. lia.
    + rewrite !lookup_ge_None_2; [done| |]; rewrite length_queue; lia.
Qed.

Lemma queue_nil pp : fill pp = 0 -> queue pp = [].
Proof. intros E. unfold queue. by rewrite E. Qed.

(** ** Running the operations *)

(** The kernel state with a changed pipe. *)
Definition with_pipe (p : Z) (pp : pipe) (s : kstate) : kstate := set_pipes (<[p := pp]> s.(pipes)) s.

Lemma get_pipe_eq p pp s env : s.(pipes) !! p = Some pp -> get_pipe p s env = Ok pp s env.
Proof. intros H. unfold get_pipe, bind, gets, deref. by rewrite H. Qed.

Lemma upd_pipe_eq p f pp s : s.(pipes) !! p = Some pp -> upd_pipe p f s = with_pipe p (f pp) s.
Proof.
  intros H. unfold upd_pipe, with_pipe. f_equal. apply map_eq. intros i.
  destruct (decide (i = p)) as [->|Hne].
  - by rewrite lookup_alter_eq, H, lookup_insert_eq.
  - by rewrite lookup_alter_ne, lookup_insert_ne.
Qed.

Lemma with_pipe_twice p pp pp' s : with_pipe p pp' (with_pipe p pp s) = with_pipe p pp' s.
Proof. unfold with_pipe, set_pipes. simpl. by rewrite insert_insert_eq. Qed.

Lemma with_pipe_lookup p pp s : (with_pipe p pp s).(pipes) !! p = Some pp.
Proof. simpl. apply lookup_insert_eq. Qed.

Lemma wait_room_eq p pp s env :
  s.(pipes) !! p = Some pp -> pipe_ok pp -> fill pp < PIPESIZE -> wait_room p s env = Ok false s env.
Proof.
  intros Hp Hok Hf. unfold wait_room, mloop_env. cbn [mloop]. rewrite bind_assoc.
  mstep (get_pipe_eq p pp s env Hp). rewrite full_iff, bool_decide_eq_false_2 by (done || lia). done.
Qed.

Lemma wait_data_eq p pp s env :
  s.(pipes) !! p = Some pp -> pipe_ok pp -> 0 < fill pp \/ pp.(p_writeopen) = false ->
  wait_data p s env = Ok false s env.
Proof.
  intros Hp Hok Hf. unfold wait_data, mloop_env. cbn [mloop]. rewrite bind_assoc.
  mstep (get_pipe_eq p pp s env Hp). rewrite empty_iff by done.
  destruct Hf as [Hf| ->]; [rewrite bool_decide_eq_false_2 by lia; done|]. by rewrite andb_false_r.
Qed.

(** The pipe after a whole transfer. *)
Definition puts (bs : list Z) (pp : pipe) : pipe := foldl (fun x c => put c x) pp bs.
Definition drops (n : nat) (pp : pipe) : pipe := Nat.iter n get pp.

Lemma puts_ok bs pp : pipe_ok pp -> fill pp + Z.of_nat (length bs) <= PIPESIZE ->
  pipe_ok (puts bs pp) /\ queue (puts bs pp) = queue pp ++ bs /\
  (puts bs pp).(p_readopen) = pp.(p_readopen) /\ (puts bs pp).(p_writeopen) = pp.(p_writeopen).
Proof.
  revert pp. induction bs as [|c bs IH]; intros pp Hok Hf; simpl in *; [by rewrite app_nil_r|].
  destruct (IH (put c pp)) as (H1 & H2 & H3 & H4).
  - apply put_ok; [done|lia].
  - rewrite put_fill by (done || lia). lia.
  - split_and!; try done; [apply H1..|]. rewrite H2, put_queue by (done || lia). by rewrite <- app_assoc.
Qed.

Definition write_body (p : Z) (c : Z) : K (option Z) :=
  broken <- wait_room p ;;
  if (broken : bool) then
    release (pipe_lock p) ;;;
    ret (Some (-1))
  else
    put_byte p c ;;;
    ret None.

Lemma write_loop p bs : forall pp s env,
  s.(pipes) !! p = Some pp -> pipe_ok pp -> fill pp + Z.of_nat (length bs) <= PIPESIZE ->
  mfind bs (write_body p) s env = Ok None (with_pipe p (puts bs pp) s) env.
Proof.
  induction bs as [|c bs IH]; intros pp s env Hp Hok Hf; simpl in *.
  { unfold ret, with_pipe. rewrite insert_id by done. by destruct s. }
  assert (Hbody : write_body p c s env = Ok None (with_pipe p (put c pp) s) env).
  { unfold write_body. mstep (wait_room_eq p pp s env Hp Hok ltac:(lia)). unfold put_byte. mrun.
    unfold ret. by rewrite (upd_pipe_eq p _ pp s Hp). }
  mstep Hbody. rewrite (IH (put c pp)).
  - by rewrite with_pipe_twice.
  - apply with_pipe_lookup.
  - apply put_ok; [done|lia].
  - rewrite put_fill by (done || lia). lia.
Qed.

Lemma take_loop p n : forall pp s env,
  s.(pipes) !! p = Some pp -> pipe_ok pp ->
  exists pp', take_bytes n p s env = Ok (take n (queue pp)) (with_pipe p pp' s) env /\
    pipe_ok pp' /\ queue pp' = drop n (queue pp) /\
    pp'.(p_readopen) = pp.(p_readopen) /\ pp'.(p_writeopen) = pp.(p_writeopen).
Proof.
  induction n as [|n IH]; intros pp s env Hp Hok.
  { exists pp. split_and!; try done; [|apply Hok..]. simpl. unfold ret, with_pipe.
    rewrite insert_id by done. by destruct s. }
  cbn [take_bytes]. mstep (get_pipe_eq p pp s env Hp). rewrite empty_iff by done.
  pose proof (fill_range pp) as Hr. case_bool_decide as E.
  { exists pp. rewrite queue_nil by done. split_and!; try done; [|apply Hok..].
    unfold ret, with_pipe. rewrite insert_id by done. by destruct s. }
  mrun. rewrite (upd_pipe_eq p _ pp s Hp). fold (get pp).
  destruct (IH (get pp) (with_pipe p (get pp) s) env) as (pp' & Hrun & Hok' & Hq & Hro & Hwo).
  { apply with_pipe_lookup. } { apply get_ok; [done|lia]. }
  exists pp'. rewrite (get_queue pp Hok ltac:(lia)). split_and!; try done; [|apply Hok'..].
  change (set_p_nread (u32 (p_nread pp + 1)) pp) with (get pp).
  mstep Hrun. unfold ret. by rewrite with_pipe_twice.
Qed.

(** The frame of a pipe operation: the pipe and the run queue. *)
Definition pipe_step (p : Z) (pp : pipe) (c : channel) (s : kstate) : kstate :=
  woken c (with_pipe p pp s).

Lemma unlock_woken lk c s s' env :
  calm s -> lk ∉ s.(kcpu).(held) -> lk <> ptable_lock -> s'.(kcpu) = (with_lock lk s).(kcpu) ->
  length s'.(procs) = NPROC ->
  (wakeup c ;;; release lk) s' env = Ok tt (set_kcpu s.(kcpu) (woken c s')) env.
Proof.
  intros (Hq & Hp & Hn) Hl Hne Hc Hlen.
  rewrite (bind_ok _ _ _ _ _ _ _ (wakeup_eq c s' env
    ltac:(split_and!; [unfold quiet; rewrite Hc; apply (quiet_with_lock lk); done|rewrite Hc; simpl; set_solver|done]))).
  by rewrite (release_quiet lk s).
Qed.

Lemma pipewrite_run p pp addr n s env :
  calm s -> pipe_lock p ∉ s.(kcpu).(held) -> s.(pipes) !! p = Some pp -> pipe_ok pp ->
  0 <= n -> fill pp + Z.of_nat (length (take (Z.to_nat n) addr)) <= PIPESIZE ->
  pipewrite p addr n s env = Ok n (pipe_step p (puts (take (Z.to_nat n) addr) pp) (chan_nread p) s) env.
Proof.
  intros Hc Hl Hp Hok Hn Hf. unfold pipewrite. destruct Hc as (Hq & Hpt & Hlen).
  mstep (acquire_quiet (pipe_lock p) s env Hq Hl). fold (write_body p).
  change (fun c : Z => _) with (write_body p).
  rewrite (bind_ok _ _ _ _ _ _ _ (write_loop p _ pp (with_lock (pipe_lock p) s) env Hp Hok Hf)).
  rewrite <- bind_assoc.
  rewrite (bind_ok _ _ _ _ _ _ _ (unlock_woken (pipe_lock p) (chan_nread p) s
    (with_pipe p (puts (take (Z.to_nat n) addr) pp) (with_lock (pipe_lock p) s)) env
    (conj Hq (conj Hpt Hlen)) Hl ltac:(done) eq_refl Hlen)).
  unfold ret. by destruct s.
Qed.

Lemma piperead_run p pp n s env :
  calm s -> pipe_lock p ∉ s.(kcpu).(held) -> s.(pipes) !! p = Some pp -> pipe_ok pp ->
  0 < fill pp \/ pp.(p_writeopen) = false ->
  exists pp', let bs := take (Z.to_nat n) (queue pp) in
    piperead p n s env = Ok (Z.of_nat (length bs), bs) (pipe_step p pp' (chan_nwrite p) s) env /\
    pipe_ok pp' /\ queue pp' = drop (Z.to_nat n) (queue pp) /\
    pp'.(p_readopen) = pp.(p_readopen) /\ pp'.(p_writeopen) = pp.(p_writeopen).
Proof.
  intros Hc Hl Hp Hok Hf. destruct Hc as (Hq & Hpt & Hlen). unfold piperead.
  mstep (acquire_quiet (pipe_lock p) s env Hq Hl).
  rewrite (bind_ok _ _ _ _ _ _ _ (wait_data_eq p pp (with_lock (pipe_lock p) s) env Hp Hok Hf)).
  destruct (take_loop p (Z.to_nat n) pp (with_lock (pipe_lock p) s) env Hp Hok) as (pp' & Hrun & Hok' & Hqq & Ho).
  exists pp'. cbv zeta. split; [|done]. mstep Hrun. rewrite <- bind_assoc.
  rewrite (bind_ok _ _ _ _ _ _ _ (unlock_woken (pipe_lock p) (chan_nwrite p) s
    (with_pipe p pp' (with_lock (pipe_lock p) s)) env
    (conj Hq (conj Hpt Hlen)) Hl ltac:(done) eq_refl Hlen)).
  unfold ret. by destruct s.
Qed.

(** ** Theorems *)

(** C32: pipewrite appends to the queue. When the bytes fit, a write of [n]
    bytes returns [n] without sleeping, and the pipe then holds its old
    contents followed by the bytes, also when the 32-bit counters wrap
    around. *)
Theorem pipewrite_appends p pp addr n s env :
  calm s -> pipe_lock p ∉ s.(kcpu).(held) -> s.(pipes) !! p = Some pp -> pipe_ok pp ->
  n = Z.of_nat (length addr) -> Z.of_nat (length (queue pp)) + n <= PIPESIZE ->
  exists s' pp', pipewrite p addr n s env = Ok n s' env /\ s'.(pipes) = <[p := pp']> s.(pipes) /\
    pipe_ok pp' /\ queue pp' = queue pp ++ addr /\ s'.(kcpu) = s.(kcpu).
Proof.
  intros Hc Hl Hp Hok -> Hf. rewrite length_queue in Hf. pose proof (fill_range pp).
  assert (Ht : take (Z.to_nat (Z.of_nat (length addr))) addr = addr) by (rewrite Nat2Z.id; by apply take_ge).
  rewrite (pipewrite_run p pp) by (done || rewrite ?Ht; lia). rewrite Ht.
  destruct (puts_ok addr pp Hok ltac:(lia)) as (Hok' & Hq & _).
  eexists _, _. split; [reflexivity|]. split_and?; done.
Qed.

(** C33: piperead takes from the front of the queue. When the pipe holds
    bytes, or its write end is closed, a read of [n] bytes returns the first
    [n] bytes of the queue, or all of them, and leaves the rest. *)
Theorem piperead_takes p pp n s env :
  calm s -> pipe_lock p ∉ s.(kcpu).(held) -> s.(pipes) !! p = Some pp -> pipe_ok pp ->
  queue pp <> [] \/ pp.(p_writeopen) = false ->
  exists s' pp', let bs := take (Z.to_nat n) (queue pp) in
    piperead p n s env = Ok (Z.of_nat (length bs), bs) s' env /\ s'.(pipes) = <[p := pp']> s.(pipes) /\
    pipe_ok pp' /\ queue pp' = drop (Z.to_nat n) (queue pp) /\ s'.(kcpu) = s.(kcpu).
Proof.
  intros Hc Hl Hp Hok Hne.
  destruct (piperead_run p pp n s env Hc Hl Hp Hok) as (pp' & Hrun & Hok' & Hq & _).
  { destruct Hne as [Hne|]; [left|by right]. pose proof (fill_range pp).
    destruct (decide (fill pp = 0)); [|lia]. exfalso. by apply Hne, queue_nil. }
  exists (pipe_step p pp' (chan_nwrite p) s), pp'. cbv zeta in *. split_and?; done.
Qed.

(** A pipe whose counters are about to wrap around. *)
Definition demo_pipe : pipe :=
  Mkpipe (<[511%nat := 5]> (replicate 512 0)) (2 ^ 32 - 1) 0 true true.
Definition demo_piped : kstate := set_pipes {[4096 := demo_pipe]} (kstate0 []).

Lemma demo_pipe_ok : pipe_ok demo_pipe.
Proof. unfold pipe_ok. split_and?; vm_compute; done. Qed.

Lemma demo_piped_calm : calm demo_piped.
Proof. split_and!; done. Qed.

Lemma pipewrite_appends_witness :
  exists s' pp', pipewrite 4096 [6; 7] 2 demo_piped [] = Ok 2 s' [] /\
    s'.(pipes) = <[4096 := pp']> demo_piped.(pipes) /\
    pipe_ok pp' /\ queue pp' = [5; 6; 7] /\ s'.(kcpu) = demo_piped.(kcpu).
Proof.
  apply (pipewrite_appends 4096 demo_pipe [6; 7] 2 demo_piped []);
    [exact demo_piped_calm|done|done|exact demo_pipe_ok|done|vm_compute; done].
Defined.

Lemma piperead_takes_witness :
  exists s' pp', piperead 4096 10 demo_piped [] = Ok (1, [5]) s' [] /\
    s'.(pipes) = <[4096 := pp']> demo_piped.(pipes) /\
    pipe_ok pp' /\ queue pp' = [] /\ s'.(kcpu) = demo_piped.(kcpu).
Proof.
  apply (piperead_takes 4096 demo_pipe 10 demo_piped []);
    [exact demo_piped_calm|done|done|exact demo_pipe_ok|by left].
Defined.

End PipeFacts.
