(* ===== verification/KallocFacts.v ===== *)
(** The allocator's free list: kernel/kalloc.c keeps a stack of free pages
    threaded through the pages themselves. *)
From S2P Require Import Prelude Types Spinlock Cstring Kalloc.
Import Spinlock Cstring Kalloc.

Module KallocFacts.

Section Facts.
Context `{Image}.

(** ** The free list *)

Definition page_ok (a : Z) : Prop :=
  a mod KPAGE = 0 /\ kern_end <= a /\ v2p a < PHYSTOP /\ 0 < a < 2 ^ 32.

(** A free page is zero but for the link in its first word. *)
Definition clean_page (m : memory) (a : Z) : Prop :=
  forall i, 4 <= i < KPAGE -> m (a + i) = 0.

Fixpoint chain (m : memory) (a : Z) (l : list Z) : Prop :=
  match l with
  | [] => a = 0
  | p :: l' => a = p /\ page_ok p /\ clean_page m p /\ chain m (load32 m p) l'
  end.

(** The state's free pages are [l]. *)
Definition free_pages (s : kstate) (l : list Z) : Prop :=
  chain s.(mem) s.(freelist) l /\ NoDup l /\
  quiet s /\ (kmem_lock ∉ s.(kcpu).(held)).

Lemma chain_ok m a l : chain m a l -> Forall page_ok l.
Proof. revert a. induction l as [|p l IH]; intros a Hc; [done|]. destruct Hc as (_ & ? & _ & ?). constructor; eauto. Qed.

(** Memory outside the free pages may change. *)
Lemma chain_frame m m' a l :
  chain m a l -> (forall p i, p ∈ l -> 0 <= i < KPAGE -> m' (p + i) = m (p + i)) -> chain m' a l.
Proof.
  revert a. induction l as [|p l IH]; intros a Hc Hm; [done|].
  destruct Hc as (-> & Hp & Hcl & Hc). simpl. split_and?; [done|done| |].
  - intros i Hi. rewrite Hm; [by apply Hcl|left|unfold KPAGE, PGSIZE in *; lia].
  - rewrite (load32_other m m').
    + apply IH; [done|]. intros q i Hq. apply Hm. by right.
    + intros i Hi. apply Hm; [left|unfold KPAGE, PGSIZE; lia].
Qed.

(** Different pages do not overlap. *)
Lemma pages_disjoint p q i : p mod KPAGE = 0 -> q mod KPAGE = 0 -> p <> q ->
  0 <= i < KPAGE -> q + i < p \/ p + KPAGE <= q + i.
Proof.
  intros Hp Hq Hne Hi. unfold KPAGE, PGSIZE in *.
  apply Z.mod_divide in Hp as [a ->]; [|lia]. apply Z.mod_divide in Hq as [b ->]; [|lia].
  assert (a < b \/ b < a) as [|] by nia; nia.
Qed.

(** ** The optional lock *)

Definition locked (s : kstate) : kstate := if s.(use_lock) then with_lock kmem_lock s else s.

Lemma lock_eq s env : quiet s -> kmem_lock ∉ s.(kcpu).(held) ->
  (when s.(use_lock) (acquire kmem_lock)) s env = Ok tt (locked s) env.
Proof.
  intros Hq Hl. unfold locked, when. destruct (use_lock s); [by apply acquire_quiet|done].
Qed.

Lemma unlock_eq s s' env : quiet s -> kmem_lock ∉ s.(kcpu).(held) ->
  s'.(kcpu) = (locked s).(kcpu) -> s'.(use_lock) = s.(use_lock) ->
  (when s'.(use_lock) (release kmem_lock)) s' env = Ok tt (set_kcpu s.(kcpu) s') env.
Proof.
  intros Hq Hl Hc Hu. rewrite Hu. unfold locked, when in *. destruct (use_lock s).
  - by apply release_quiet.
  - unfold ret. f_equal. rewrite <- Hc. by destruct s'.
Qed.

(** ** kfree and kalloc *)

(** The memory after [kfree v] with list head [fl]. *)
Definition freed (v fl : Z) (m : memory) : memory := store32 (memset v 0 KPAGE m) v fl.

Lemma kfree_eq v s env :
  page_ok v -> quiet s -> kmem_lock ∉ s.(kcpu).(held) ->
  kfree v s env = Ok tt (set_freelist v (upd_mem (freed v s.(freelist)) s)) env.
Proof.
  intros (Ha & Hk & Hp & _) Hq Hl. unfold kfree. rewrite Ha. cbn [Z.eqb negb].
  rewrite (proj2 (Z.ltb_ge _ _)) by done. rewrite (proj2 (Z.leb_gt _ _)) by done. mrun.
  set (s1 := upd_mem (memset v 0 KPAGE) s).
  rewrite (bind_ok _ _ _ _ _ _ _ (lock_eq s1 env Hq Hl)). unfold store_word. mrun.
  set (s2 := set_freelist v _).
  assert (Hc2 : kcpu s2 = kcpu (locked s1)) by done.
  assert (Hu2 : use_lock s2 = use_lock s1) by (unfold s2, locked; destruct (use_lock s1) eqn:E; exact E).
  rewrite (unlock_eq s1 s2 env Hq Hl Hc2 Hu2). f_equal.
  unfold s2, s1, locked, freed, upd_mem. simpl. destruct (use_lock s); by destruct s.
Qed.

Lemma freed_other v fl m a : a < v \/ v + KPAGE <= a -> freed v fl m a = m a.
Proof.
  intros Ha. unfold freed. rewrite store32_other by (unfold KPAGE, PGSIZE in *; lia).
  rewrite memset_filled. unfold filled, KPAGE, PGSIZE in *. rewrite (Z.mod_small (4 * 65536)) by lia. mem_cases.
Qed.

Lemma freed_clean v fl m : clean_page (freed v fl m) v.
Proof.
  intros i Hi. unfold freed. rewrite store32_other by lia. rewrite memset_filled.
  unfold filled, KPAGE, PGSIZE in *. rewrite (Z.mod_small (4 * 65536)) by lia. mem_cases.
Qed.

Lemma freed_link v fl m : 0 <= fl < 2 ^ 32 -> load32 (freed v fl m) v = fl.
Proof. apply load_store32. Qed.

Lemma head_range m a l : chain m a l -> 0 <= a < 2 ^ 32.
Proof. destruct l; simpl; [intros ->; lia|]. intros (-> & (_ & _ & _ & ?) & _). lia. Qed.

Lemma kfree_pages v l s :
  free_pages s l -> page_ok v -> v ∉ l ->
  free_pages (set_freelist v (upd_mem (freed v s.(freelist)) s)) (v :: l).
Proof.
  intros (Hc & Hnd & Hq & Hl) Hv Hn. unfold free_pages. split_and?; [|by constructor|done|done].
  simpl. split_and?; [done|done|apply freed_clean|].
  rewrite freed_link by (by eapply head_range).
  eapply chain_frame; [exact Hc|]. intros p i Hp Hi. apply freed_other.
  pose proof (chain_ok _ _ _ Hc) as Hok. rewrite Forall_forall in Hok. destruct (Hok p Hp) as (Hpa & _).
  apply pages_disjoint; [apply Hv|done| |done]. intros ->. done.
Qed.

Lemma kalloc_eq s env l :
  free_pages s l ->
  kalloc s env = Ok s.(freelist)
    (if s.(freelist) =? 0 then s else set_freelist (load32 s.(mem) s.(freelist)) s) env.
Proof.
  intros (Hc & Hnd & Hq & Hl). unfold kalloc. mrun.
  rewrite (bind_ok _ _ _ _ _ _ _ (lock_eq s env Hq Hl)). mrun.
  assert (Hfl : freelist (locked s) = freelist s) by (unfold locked; by destruct (use_lock s)).
  assert (Hmem : mem (locked s) = mem s) by (unfold locked; by destruct (use_lock s)).
  rewrite Hfl. set (s2 := if freelist s =? 0 then locked s else set_freelist (load32 (mem s) (freelist s)) (locked s)).
  assert (Hw : (when (negb (freelist s =? 0)) (n <- load_word (freelist s) ;; modify (set_freelist n))) (locked s) env = Ok tt s2 env).
  { unfold s2, when, load_word. destruct (freelist s =? 0); [done|]. simpl. mrun. by rewrite Hmem. }
  mstep Hw. mrun.
  assert (Hc2 : kcpu s2 = kcpu (locked s)) by (unfold s2; by destruct (_ =? _)).
  assert (Hu2 : use_lock s2 = use_lock s).
  { unfold s2, locked. destruct (_ =? _), (use_lock s) eqn:E; exact E. }
  rewrite (bind_ok _ _ _ _ _ _ _ (unlock_eq s s2 env Hq Hl Hc2 Hu2)). unfold ret. f_equal.
  unfold s2, locked. destruct (_ =? _), (use_lock s); by destruct s.
Qed.

(** [kalloc] as a pop. *)
Lemma kalloc_stack l s env :
  free_pages s l ->
  exists s', kalloc s env = Ok (match l with [] => 0 | p :: _ => p end) s' env /\
    free_pages s' (tail l) /\ s'.(mem) = s.(mem) /\ s'.(kcpu) = s.(kcpu) /\
    match l with
    | [] => s' = s
    | p :: l' => page_ok p /\ (p ∉ l') /\ clean_page s'.(mem) p
    end.
Proof.
  intros Hf. rewrite (kalloc_eq s env l Hf). pose proof Hf as (Hc & Hnd & Hq & Hl).
  destruct l as [|p l]; simpl in Hc.
  - rewrite Hc. eexists. split; [reflexivity|]. split_and?; done.
  - destruct Hc as (Hp & Hok & Hcl & Hc). rewrite Hp.
    assert (p <> 0) by (destruct Hok as (_ & _ & _ & ?); lia).
    rewrite (proj2 (Z.eqb_neq p 0)) by done. eexists. split; [reflexivity|].
    apply NoDup_cons in Hnd as [Hn Hnd]. unfold free_pages. simpl. split_and?; done.
Qed.

(** ** Theorems *)

(** Kfree of a page that is not free pushes it on the stack of free
    pages, cleared, and leaves the other free pages as they are. *)
Theorem kfree_pushes v l s env :
  free_pages s l -> page_ok v -> v ∉ l ->
  exists s', kfree v s env = Ok tt s' env /\ free_pages s' (v :: l) /\
    s'.(kcpu) = s.(kcpu) /\
    forall a, a < v \/ v + KPAGE <= a -> s'.(mem) a = s.(mem) a.
Proof.
  intros Hf Hv Hn. pose proof Hf as (_ & _ & Hq & Hl). rewrite kfree_eq by done.
  eexists. split; [reflexivity|]. split_and?; [by apply kfree_pages|done|].
  intros a Ha. by apply freed_other.
Qed.

(** Kalloc returns 0 when no page is free, and otherwise takes the most
    recently freed page off the stack: a page no earlier caller still has,
    zero but for its first word. *)
Theorem kalloc_pops l s env :
  free_pages s l ->
  exists s', kalloc s env = Ok (match l with [] => 0 | p :: _ => p end) s' env /\
    free_pages s' (tail l) /\ s'.(mem) = s.(mem) /\ s'.(kcpu) = s.(kcpu) /\
    match l with
    | [] => s' = s
    | p :: l' => page_ok p /\ (p ∉ l') /\ clean_page s'.(mem) p
    end.
Proof. apply kalloc_stack. Qed.
End Facts.

(** A kernel image that ends at 512 KB, and two free pages behind it. *)
#[local] Instance demo_image : Image := {|
  kern_end := KERNBASE + 524288; trapret_addr := 0; forkret_addr := 0; error_init_addr := 0; initcode := []
|}.

Definition page1 : Z := KERNBASE + 4 * KPAGE.
Definition page2 : Z := KERNBASE + 5 * KPAGE.

Lemma demo_pages_ok : page_ok page1 /\ page_ok page2.
Proof. split; (split_and!; vm_compute; done). Qed.

Lemma demo_free0 : free_pages (kstate0 []) [].
Proof. split_and!; try done. constructor. Qed.

Definition demo_freed : kstate :=
  set_freelist page1 (upd_mem (freed page1 0) (kstate0 [])).

Lemma demo_free1 : free_pages demo_freed [page1].
Proof. apply (kfree_pages page1 [] (kstate0 [])); [exact demo_free0|apply demo_pages_ok|by apply not_elem_of_nil]. Qed.

Lemma kfree_pushes_witness :
  exists s', kfree page2 demo_freed [] = Ok tt s' [] /\ free_pages s' [page2; page1] /\
    s'.(kcpu) = demo_freed.(kcpu) /\
    forall a, a < page2 \/ page2 + KPAGE <= a -> s'.(mem) a = demo_freed.(mem) a.
Proof.
  apply (kfree_pushes page2 [page1] demo_freed []); [exact demo_free1|apply demo_pages_ok|].
  intros [E|E%elem_of_nil]%elem_of_cons; [vm_compute in E; done|done].
Defined.

Lemma kalloc_pops_witness :
  exists s', kalloc demo_freed [] = Ok page1 s' [] /\ free_pages s' [] /\
    s'.(mem) = demo_freed.(mem) /\ s'.(kcpu) = demo_freed.(kcpu) /\
    page_ok page1 /\ (page1 ∉ []) /\ clean_page s'.(mem) page1.
Proof. apply (kalloc_pops [page1] demo_freed []). exact demo_free1. Defined.

End KallocFacts.
