(* ===== verification/VmFacts.v ===== *)
(** Page tables (kernel/vm.c): what the entries of a page directory mean,
    and what walkpgdir, mappages and allocuvm do to them. *)
From S2P Require Import Prelude Types Spinlock Cstring Kalloc KallocFacts Vm.
Import Spinlock Cstring Kalloc KallocFacts Vm.

Module VmFacts.

(** ** Bits of addresses and descriptors *)

Lemma lor_add k a b : 0 <= k -> a mod 2 ^ k = 0 -> 0 <= b < 2 ^ k -> Z.lor a b = a + b.
Proof.
  intros Hk Ha Hb. symmetry. apply Z.add_nocarry_lor. apply Z.bits_inj'. intros n Hn.
  rewrite Z.land_spec, Z.bits_0. destruct (decide (n < k)) as [|].
  - rewrite <- (Z.mod_pow2_bits_low a k n) by lia. by rewrite Ha, Z.bits_0.
  - rewrite <- (Z.mod_small b (2 ^ k)) by done. rewrite Z.mod_pow2_bits_high by lia. apply andb_false_r.
Qed.

Lemma aligndown_pow k v : 0 <= k <= 32 -> ALIGNDOWN v (2 ^ k) = u32 v - u32 v mod 2 ^ k.
Proof.
  intros Hk. pose proof (Z.pow_le_mono_r 2 k 32 ltac:(lia) ltac:(lia)) as Hp. pose proof (Z.pow_pos_nonneg 2 k ltac:(lia) ltac:(lia)).
  unfold ALIGNDOWN. assert (u32 (Z.lnot (2 ^ k - 1)) = Z.ldiff (Z.ones 32) (Z.ones k)) as ->.
  { unfold u32. rewrite <- Z.land_ones by lia. replace (2 ^ k - 1) with (Z.ones k) by (rewrite Z.ones_equiv; lia).
    by rewrite Z.land_comm, <- Z.ldiff_land. }
  assert (Z.land (u32 v) (Z.ldiff (Z.ones 32) (Z.ones k)) = Z.ldiff (Z.land (u32 v) (Z.ones 32)) (Z.ones k)) as ->.
  { apply Z.bits_inj'. intros n Hn. rewrite !Z.land_spec, !Z.ldiff_spec, Z.land_spec.
    destruct (Z.testbit _ _), (Z.testbit _ _), (Z.testbit _ _); done. }
  rewrite Z.land_ones, Z.ldiff_ones_r by lia. unfold u32. rewrite Z.mod_mod by lia.
  rewrite Z.shiftl_mul_pow2, Z.shiftr_div_pow2 by lia.
  pose proof (Z.div_mod (v mod 2 ^ 32) (2 ^ k)). lia.
Qed.

Lemma aligndown_12 v : ALIGNDOWN v PTE_SZ = u32 v - u32 v mod PTE_SZ.
Proof. by apply (aligndown_pow 12). Qed.

Lemma alignup_pow k v : 0 <= k <= 28 -> 0 <= v <= UADDR_SZ -> ALIGNUP v (2 ^ k) = (v + 2 ^ k - 1) / 2 ^ k * 2 ^ k.
Proof.
  intros Hk Hv. pose proof (Z.pow_le_mono_r 2 k 28 ltac:(lia) ltac:(lia)) as Hp. pose proof (Z.pow_pos_nonneg 2 k ltac:(lia) ltac:(lia)).
  change (ALIGNUP v (2 ^ k)) with (ALIGNDOWN (v + 2 ^ k - 1) (2 ^ k)). rewrite aligndown_pow by lia.
  change (2 ^ 28) with UADDR_SZ in Hp. unfold UADDR_SZ in *. rewrite u32_small by (change (2 ^ 32) with 4294967296; lia).
  pose proof (Z.div_mod (v + 2 ^ k - 1) (2 ^ k)). lia.
Qed.

Lemma land_3 v : Z.land v 3 = v mod 4.
Proof. change 3 with (Z.ones 2). by rewrite Z.land_ones. Qed.

Definition user_va (va : Z) : Prop := 0 <= va < UADDR_SZ.

Lemma pde_idx va : user_va va -> PDE_IDX va = va / PDE_SZ /\ 0 <= PDE_IDX va < NUM_UPDE.
Proof.
  unfold user_va, UADDR_SZ. intros Hva. unfold PDE_IDX, u32. rewrite Z.mod_small by (change (2 ^ 32) with 4294967296; lia).
  rewrite Z.shiftr_div_pow2 by (unfold PDE_SHIFT; lia). change (2 ^ PDE_SHIFT) with 1048576. unfold PDE_SZ, NUM_UPDE.
  Z.to_euclidean_division_equations. lia.
Qed.

Lemma pte_idx va : user_va va -> PTE_IDX va = (va / PTE_SZ) mod NUM_PTE /\ 0 <= PTE_IDX va < NUM_PTE.
Proof.
  unfold user_va, UADDR_SZ. intros Hva. unfold PTE_IDX, u32. rewrite Z.mod_small by (change (2 ^ 32) with 4294967296; lia).
  rewrite Z.shiftr_div_pow2 by (unfold PTE_SHIFT; lia). change (NUM_PTE - 1) with (Z.ones 8). rewrite Z.land_ones by lia.
  change (2 ^ PTE_SHIFT) with PTE_SZ. change (2 ^ 8) with NUM_PTE. split; [done|]. apply Z.mod_pos_bound. done.
Qed.

(** The two indices identify the page. *)
Lemma idx_inj va va' : user_va va -> user_va va' ->
  PDE_IDX va = PDE_IDX va' -> PTE_IDX va = PTE_IDX va' -> va / PTE_SZ = va' / PTE_SZ.
Proof.
  intros H1 H2. rewrite (proj1 (pde_idx va H1)), (proj1 (pde_idx va' H2)), (proj1 (pte_idx va H1)), (proj1 (pte_idx va' H2)).
  unfold PDE_SZ, PTE_SZ, NUM_PTE. intros. Z.to_euclidean_division_equations. lia.
Qed.

Lemma p2v_v2p a : 0 <= a < 2 ^ 32 -> p2v (v2p a) = a.
Proof.
  intros Ha. unfold p2v, v2p, u32. rewrite Zplus_mod_idemp_l. rewrite <- (Z.mod_small a (2 ^ 32)) at 2 by done. f_equal. lia.
Qed.

Lemma v2p_aligned a k : a mod KPAGE = 0 -> 0 <= k <= 18 -> v2p a mod 2 ^ k = 0.
Proof.
  intros Ha Hk. unfold v2p, u32.
  assert (Hd : (2 ^ k | KPAGE)).
  { exists (2 ^ (18 - k)). change KPAGE with (2 ^ 18). rewrite <- Z.pow_add_r by lia. f_equal. lia. }
  assert (Hd2 : (2 ^ k | 2 ^ 32)).
  { exists (2 ^ (32 - k)). rewrite <- Z.pow_add_r by lia. f_equal. lia. }
  rewrite Z.mod_mod_divide by done.
  apply Z.mod_divide; [apply Z.pow_nonzero; lia|].
  apply Z.divide_sub_r; [|apply (Z.divide_trans _ _ _ Hd); by exists 8192].
  apply Z.mod_divide in Ha; [|done]. exact (Z.divide_trans _ _ _ Hd Ha).
Qed.

(** The entries that the code writes, read back. *)
Lemma mk_pte_add pa ap : pa mod PTE_SZ = 0 -> 0 <= ap < 4 -> mk_pte pa ap = pa + 16 * ap + 14.
Proof.
  intros Hp Ha. unfold mk_pte. rewrite <- !Z.lor_assoc. change (Z.lor PTE_CACHE (Z.lor PTE_BUF PTE_SMALL)) with 14.
  rewrite land_3, (Z.mod_small ap) by lia. rewrite Z.shiftl_mul_pow2 by lia.
  rewrite (lor_add 4 (ap * 2 ^ 4) 14) by (try apply Z.mod_mul; lia).
  rewrite (lor_add 12 pa) by (try done; lia). lia.
Qed.

Lemma mk_pte_fields pa ap : pa mod PTE_SZ = 0 -> 0 <= pa < 2 ^ 32 -> 0 <= ap < 4 ->
  Z.land (mk_pte pa ap) PTE_TYPES <> 0 /\ PTE_ADDR (mk_pte pa ap) = pa /\ PTE_AP (mk_pte pa ap) = ap /\
  0 <= mk_pte pa ap < 2 ^ 32.
Proof.
  intros Hp Hpa Ha. rewrite mk_pte_add by done. unfold PTE_SZ in Hp. change (2 ^ 32) with 4294967296 in *.
  assert (Hr : 0 <= pa + 16 * ap + 14 < 4294967296) by (Z.to_euclidean_division_equations; lia).
  split_and?; try lia.
  - rewrite land_3. Z.to_euclidean_division_equations. lia.
  - unfold PTE_ADDR. rewrite aligndown_12. unfold u32, PTE_SZ. change (2 ^ 32) with 4294967296. rewrite Z.mod_small by done.
    Z.to_euclidean_division_equations. lia.
  - unfold PTE_AP. rewrite land_3, Z.shiftr_div_pow2 by lia. change (2 ^ 4) with 16. Z.to_euclidean_division_equations. lia.
Qed.

Lemma coarse_fields t : t mod KPAGE = 0 -> 0 <= t < 2 ^ 32 ->
  Z.land (Z.lor (v2p t) PDE_COARSE) PDE_TYPES <> 0 /\ p2v (PTE_ADDR (Z.lor (v2p t) PDE_COARSE)) = t /\
  0 <= Z.lor (v2p t) PDE_COARSE < 2 ^ 32.
Proof.
  intros Ht Hr. pose proof (v2p_aligned t 12 Ht ltac:(lia)) as H12.
  assert (Hv : 0 <= v2p t < 2 ^ 32) by (apply Z.mod_pos_bound; lia).
  rewrite (lor_add 12) by (done || (unfold PDE_COARSE; lia)). unfold PDE_COARSE. change (2 ^ 12) with 4096 in H12.
  assert (Hs : 0 <= v2p t + 1 < 2 ^ 32) by (change (2 ^ 32) with 4294967296 in *; Z.to_euclidean_division_equations; lia).
  split_and?; try lia.
  - unfold PDE_TYPES. rewrite land_3. Z.to_euclidean_division_equations. lia.
  - unfold PTE_ADDR. rewrite aligndown_12. unfold u32 at 1 2. rewrite Z.mod_small by done. unfold PTE_SZ.
    replace (v2p t + 1 - (v2p t + 1) mod 4096) with (v2p t) by (Z.to_euclidean_division_equations; lia). by apply p2v_v2p.
Qed.

#[local] Opaque memset store32 load32.

Section Facts.
Context `{Image}.

(** ** What a page directory means *)

(** The page table of slot [i] of directory [d]. *)
Definition table (m : memory) (d i : Z) : option Z :=
  let e := load32 m (d + 4 * i) in
  if Z.land e PDE_TYPES =? 0 then None else Some (p2v (PTE_ADDR e)).

(** The entry of the page of [va], 0 where there is no page table. *)
Definition pte (m : memory) (d va : Z) : Z :=
  match table m d (PDE_IDX va) with
  | None => 0
  | Some t => load32 m (t + 4 * PTE_IDX va)
  end.

Definition mapped (m : memory) (d va : Z) : Prop := Z.land (pte m d va) PTE_TYPES <> 0.

Definition user_slot (i : Z) : Prop := 0 <= i < NUM_UPDE.

Definition is_table (m : memory) (d p : Z) : Prop :=
  exists i, user_slot i /\ table m d i = Some p.

(** The directory and its page tables are different allocated pages, and no
    two slots share a table. *)
Record space (s : kstate) (l : list Z) (d : Z) : Prop := {
  sp_free : free_pages s l;
  sp_dir : page_ok d;
  sp_dir_used : d ∉ l;
  sp_tables : forall t, is_table s.(mem) d t -> page_ok t /\ t <> d /\ t ∉ l;
  sp_inj : forall i j t, user_slot i -> user_slot j ->
    table s.(mem) d i = Some t -> table s.(mem) d j = Some t -> i = j
}.

(** An access at an offset of a page is clear of the other pages. *)
Lemma page_apart p q x y : page_ok p -> page_ok q -> p <> q ->
  0 <= x < KPAGE -> 0 <= y <= KPAGE - 4 -> p + x < q + y \/ q + y + 4 <= p + x.
Proof.
  intros (Hp & _) (Hq & _) Hne Hx Hy. destruct (pages_disjoint q p x Hq Hp) as [|]; [done|done|lia|lia].
Qed.

Lemma store32_page m p q y v i : page_ok p -> page_ok q -> p <> q ->
  0 <= y <= KPAGE - 4 -> 0 <= i < KPAGE -> store32 m (q + y) v (p + i) = m (p + i).
Proof. intros Hp Hq Hne Hy Hi. apply store32_other. by apply page_apart. Qed.

Lemma load32_page m m' p x : 0 <= x <= KPAGE - 4 ->
  (forall i, 0 <= i < KPAGE -> m' (p + i) = m (p + i)) -> load32 m' (p + x) = load32 m (p + x).
Proof. intros Hx Hm. apply load32_other. intros i Hi. rewrite <- Z.add_assoc. apply Hm. lia. Qed.

Lemma free_frame s s' l :
  free_pages s l -> s'.(kcpu) = s.(kcpu) -> s'.(freelist) = s.(freelist) -> quiet s' ->
  (forall p i, p ∈ l -> 0 <= i < KPAGE -> s'.(mem) (p + i) = s.(mem) (p + i)) -> free_pages s' l.
Proof.
  intros (Hc & Hnd & Hq & Hl) Hk Hf Hq' Hm. unfold free_pages. rewrite Hf, Hk. split_and?; try done.
  by eapply chain_frame.
Qed.

(** The tables of a directory whose page is left alone. *)
Lemma table_frame m m' d i : user_slot i ->
  (forall j, 0 <= j < KPAGE -> m' (d + j) = m (d + j)) -> table m' d i = table m d i.
Proof.
  intros Hi Hm. unfold table. unfold user_slot, NUM_UPDE in Hi. rewrite (load32_page m m' d); [done|unfold KPAGE, PGSIZE; lia|done].
Qed.

(** Storing one entry of a table changes that entry only. *)
Lemma store_pte s l d va t v (m' := store32 s.(mem) (t + 4 * PTE_IDX va) v) :
  space s l d -> user_va va -> table s.(mem) d (PDE_IDX va) = Some t -> 0 <= v < 2 ^ 32 ->
  space (set_mem m' s) l d /\ pte m' d va = v /\
  (forall i, user_slot i -> table m' d i = table s.(mem) d i) /\
  (forall va', user_va va' -> va' / PTE_SZ <> va / PTE_SZ -> pte m' d va' = pte s.(mem) d va') /\
  (forall p i, page_ok p -> p <> t -> 0 <= i < KPAGE -> m' (p + i) = s.(mem) (p + i)).
Proof.
  intros Hs Hva Ht Hv. pose proof (pde_idx va Hva) as [_ Hi]. pose proof (pte_idx va Hva) as [_ Hj]. unfold NUM_PTE in Hj.
  destruct (sp_tables _ _ _ Hs t) as (Hok & Htd & Htl); [by exists (PDE_IDX va)|].
  assert (Hoff : forall p i, page_ok p -> p <> t -> 0 <= i < KPAGE -> m' (p + i) = s.(mem) (p + i)).
  { intros p i Hp Hne Hpi. apply store32_page; try done. unfold KPAGE, PGSIZE. lia. }
  assert (Htab : forall i, user_slot i -> table m' d i = table s.(mem) d i).
  { intros i Hii. apply table_frame; [done|]. intros j Hjj. apply Hoff; [by destruct Hs|done|done]. }
  split_and?; [|unfold pte; rewrite Htab, Ht by done; by apply load_store32|done| |done].
  - destruct Hs as [Hf Hd Hdl Hts Hinj]. constructor; [|done|done| |].
    + eapply free_frame; [exact Hf|done|done|apply Hf|]. intros p i Hp Hpi. simpl.
      apply Hoff; [|by intros ->|done]. destruct Hf as (Hc & _). apply chain_ok in Hc. rewrite Forall_forall in Hc. by apply Hc.
    + intros t' (i & Hii & E). simpl in E. rewrite Htab in E by done. apply Hts. by exists i.
    + simpl. intros i j t' Hii Hjj. rewrite !Htab by done. by apply Hinj.
  - intros va' Hva' Hne. unfold pte. pose proof (pde_idx va' Hva') as [_ Hi']. rewrite Htab by done.
    pose proof (pte_idx va' Hva') as [_ Hj']. unfold NUM_PTE in Hj'.
    destruct (table s.(mem) d (PDE_IDX va')) as [t'|] eqn:E; [|done].
    destruct (decide (t' = t)) as [->|Hne'].
    + assert (PDE_IDX va' = PDE_IDX va) by (by eapply (sp_inj _ _ _ Hs)).
      assert (PTE_IDX va' <> PTE_IDX va) by (intros ?; apply Hne; by apply idx_inj).
      apply load_store32_other. lia.
    + apply load32_page; [unfold KPAGE, PGSIZE; lia|]. intros i Hpi. apply Hoff; [|done|done].
      apply (sp_tables _ _ _ Hs). by exists (PDE_IDX va').
Qed.
(** ** Taking a page for a new table *)

Lemma kalloc_cons s env t l : free_pages s (t :: l) ->
  let s1 := set_freelist (load32 s.(mem) t) s in
  kalloc s env = Ok t s1 env /\ free_pages s1 l /\ page_ok t /\ t ∉ l.
Proof.
  intros Hf. rewrite (kalloc_eq s env _ Hf). destruct Hf as ((-> & Hok & Hcl & Hc) & Hnd & Hq & Hl).
  assert (t <> 0) by (destruct Hok as (_ & _ & _ & ?); lia). rewrite (proj2 (Z.eqb_neq t 0)) by done.
  apply NoDup_cons in Hnd as [Hn Hnd]. by unfold free_pages.
Qed.

Lemma kalloc_nil s env : free_pages s [] -> kalloc s env = Ok 0 s env.
Proof. intros Hf. rewrite (kalloc_eq s env _ Hf). destruct Hf as (-> & _). done. Qed.

Lemma memset_page m t n : 0 <= n < 2 ^ 32 ->
  (forall i, 0 <= i < n -> memset t 0 n m (t + i) = 0) /\
  (forall a, a < t \/ t + n <= a -> memset t 0 n m a = m a).
Proof.
  intros Hn. split; [intros i Hi|intros a Ha]; rewrite memset_filled; unfold filled, u32; rewrite (Z.mod_small n) by done; mem_cases.
Qed.

Lemma load32_zero m p : (forall i, 0 <= i < 4 -> m (p + i) = 0) -> load32 m p = 0.
Proof. intros Hm. rewrite load32_bytes. rewrite <- (Z.add_0_r p) at 1. rewrite !Hm by lia. done. Qed.

(** The memory once page [t] is the table of slot [i]. *)
Definition with_table (m : memory) (d i t : Z) : memory :=
  store32 (memset t 0 PGSIZE m) (d + 4 * i) (Z.lor (v2p t) PDE_COARSE).

Lemma with_table_frame m d i t p j : page_ok p -> page_ok d -> page_ok t -> p <> d -> p <> t -> user_slot i ->
  0 <= j < KPAGE -> with_table m d i t (p + j) = m (p + j).
Proof.
  intros Hp Hd Ht Hpd Hpt Hi Hj. unfold with_table. unfold user_slot, NUM_UPDE in Hi.
  rewrite store32_page by (done || (unfold KPAGE, PGSIZE; lia)).
  apply memset_page; [unfold PGSIZE; lia|].
  destruct (pages_disjoint t p j (proj1 Ht) (proj1 Hp)); [done|done|lia|]. unfold KPAGE in *. unfold PGSIZE in *. lia.
Qed.

Lemma with_table_table m d i t j : page_ok d -> page_ok t -> d <> t -> user_slot i -> user_slot j ->
  table (with_table m d i t) d j = if decide (j = i) then Some t else table m d j.
Proof.
  intros Hd Ht Hne Hi Hj. unfold table, with_table. destruct (coarse_fields t) as (Hty & Had & Hr); [apply Ht|destruct Ht as (_ & _ & _ & ?); lia|].
  destruct (decide (j = i)) as [->|Hji].
  - rewrite load_store32 by done. by rewrite (proj2 (Z.eqb_neq _ _)), Had by done.
  - unfold user_slot, NUM_UPDE in *. rewrite load_store32_other by lia.
    rewrite (load32_page m (memset t 0 PGSIZE m) d); [done|unfold KPAGE, PGSIZE; lia|].
    intros k Hk. apply memset_page; [unfold PGSIZE; lia|].
    destruct (pages_disjoint t d k (proj1 Ht) (proj1 Hd)); [done|done|lia|]. unfold KPAGE in *. unfold PGSIZE in *. lia.
Qed.

Lemma with_table_zero m d i t j : page_ok d -> page_ok t -> t <> d -> user_slot i -> 0 <= j < NUM_PTE ->
  load32 (with_table m d i t) (t + 4 * j) = 0.
Proof.
  intros Hd Ht Hne Hi Hj. unfold user_slot, NUM_UPDE, NUM_PTE in *. apply load32_zero. intros k Hk. unfold with_table.
  rewrite <- Z.add_assoc. rewrite store32_page by (done || (unfold KPAGE, PGSIZE; lia)).
  apply memset_page; unfold PGSIZE; lia.
Qed.

(** The state once [t], the first free page, is the table of [va]. *)
Definition table_added (s : kstate) (d va t : Z) : kstate :=
  upd_mem (fun m => with_table m d (PDE_IDX va) t) (set_freelist (load32 s.(mem) t) s).

Lemma table_added_ok s d va t l (s' := table_added s d va t) :
  space s (t :: l) d -> user_va va -> table s.(mem) d (PDE_IDX va) = None ->
  space s' l d /\ table s'.(mem) d (PDE_IDX va) = Some t /\
  (forall i, user_slot i -> i <> PDE_IDX va -> table s'.(mem) d i = table s.(mem) d i) /\
  (forall va', user_va va' -> pte s'.(mem) d va' = pte s.(mem) d va') /\
  (forall p i, page_ok p -> p <> d -> p <> t -> 0 <= i < KPAGE -> s'.(mem) (p + i) = s.(mem) (p + i)).
Proof.
  intros [Hf Hd Hdl Hts Hinj] Hva Hn. destruct (kalloc_cons s [] t l Hf) as (_ & Hf1 & Ht & Htl).
  apply not_elem_of_cons in Hdl as [Hdt Hdl]. pose proof (pde_idx va Hva) as [_ Hi].
  assert (Htab : forall j, user_slot j -> table s'.(mem) d j = if decide (j = PDE_IDX va) then Some t else table s.(mem) d j).
  { intros j Hj. unfold s', table_added. simpl. by apply with_table_table. }
  assert (Hfr : forall p i, page_ok p -> p <> d -> p <> t -> 0 <= i < KPAGE -> s'.(mem) (p + i) = s.(mem) (p + i)).
  { intros p i Hp Hpd Hpt Hpi. unfold s', table_added. simpl. by apply with_table_frame. }
  assert (Hold : forall p, is_table s.(mem) d p -> page_ok p /\ p <> d /\ p <> t /\ p ∉ l).
  { intros p Hp. destruct (Hts p Hp) as (Hpo & Hpd & Hpl). apply not_elem_of_cons in Hpl as [Hpt Hpl]. done. }
  split_and?.
  - constructor; [|done|done| |].
    + eapply free_frame; [exact Hf1|done|done|apply Hf1|]. intros p i Hp Hpi. change (mem (set_freelist _ s)) with s.(mem).
      destruct Hf1 as (Hc & _). apply chain_ok in Hc. rewrite Forall_forall in Hc. apply Hfr; [by apply Hc| | |done]; by intros ->.
    + intros p (i & Hii & E). rewrite Htab in E by done. destruct (decide _); [by simplify_eq|].
      destruct (Hold p) as (? & ? & ? & ?); [by exists i|done].
    + intros i j p Hii Hjj. rewrite !Htab by done. destruct (decide (i = _)) as [->|], (decide (j = _)) as [->|]; try done.
      * intros [= <-] E. destruct (Hold t) as (_ & _ & ? & _); [by exists j|done].
      * intros E [= <-]. destruct (Hold t) as (_ & _ & ? & _); [by exists i|done].
      * by apply Hinj.
  - rewrite Htab by done. by rewrite decide_True.
  - intros i Hii Hne. rewrite Htab by done. by rewrite decide_False.
  - intros va' Hva'. unfold pte. pose proof (pde_idx va' Hva') as [_ Hi']. pose proof (pte_idx va' Hva') as [_ Hj'].
    rewrite Htab by done. destruct (decide _) as [E|Hne].
    + rewrite E, Hn. unfold s', table_added. simpl. by apply with_table_zero.
    + destruct (table s.(mem) d (PDE_IDX va')) as [t'|] eqn:E'; [|done].
      destruct (Hold t') as (? & ? & ? & ?); [by exists (PDE_IDX va')|].
      unfold NUM_PTE in Hj'. apply load32_page; [unfold KPAGE, PGSIZE; lia|]. intros i Hpi. by apply Hfr.
  - done.
Qed.

(** ** walkpgdir *)

Lemma upd_mem_twice f g (s : kstate) : upd_mem f (upd_mem g s) = upd_mem (fun m => f (g m)) s.
Proof. by destruct s. Qed.

Lemma walkpgdir_found s env d l va alloc t :
  space s l d -> user_va va -> table s.(mem) d (PDE_IDX va) = Some t ->
  walkpgdir d va alloc s env = Ok (t + 4 * PTE_IDX va) s env.
Proof.
  intros Hs Hva Ht. pose proof (pde_idx va Hva) as [_ Hi]. pose proof (pte_idx va Hva) as [_ Hj].
  destruct (sp_tables _ _ _ Hs t) as ((_ & _ & _ & Hr) & _); [by exists (PDE_IDX va)|].
  unfold walkpgdir, load_word. mrun. unfold table in Ht. destruct (Z.land _ PDE_TYPES =? 0); [done|]. simplify_eq. mrun.
  by rewrite (proj2 (Z.eqb_neq _ 0)) by lia.
Qed.

Lemma walkpgdir_absent s env d va :
  table s.(mem) d (PDE_IDX va) = None -> walkpgdir d va false s env = Ok 0 s env.
Proof.
  intros Ht. unfold walkpgdir, load_word. mrun. unfold table in Ht. destruct (Z.land _ PDE_TYPES =? 0); [|discriminate Ht]. mrun. done.
Qed.

Lemma walkpgdir_alloc s env d l va :
  space s l d -> user_va va -> table s.(mem) d (PDE_IDX va) = None ->
  walkpgdir d va true s env =
    match l with
    | [] => Ok 0 s env
    | t :: _ => Ok (t + 4 * PTE_IDX va) (table_added s d va t) env
    end.
Proof.
  intros Hs Hva Ht. unfold walkpgdir, load_word. mrun. unfold table in Ht. destruct (Z.land _ PDE_TYPES =? 0); [|discriminate Ht]. mrun.
  unfold setupvm. pose proof (sp_free _ _ _ Hs) as Hf. destruct l as [|t l].
  - mrun. mstep (kalloc_nil s env Hf). mrun. done.
  - destruct (kalloc_cons s env t l Hf) as (E & _ & (_ & _ & _ & Hr) & _). mrun. mstep E. mrun.
    rewrite (proj2 (Z.eqb_neq t 0)) by lia. unfold store_word. mrun.
    rewrite (proj2 (Z.eqb_neq t 0)) by lia. by rewrite upd_mem_twice.
Qed.
(** ** mappages *)

(** Page [va] of directory [d] has been given the entry [e], and nothing
    else changed: the other entries, the pages that are not tables of [d],
    the rest of the state. At most one free page became a table. *)
Record entered (s : kstate) (l : list Z) (d va e : Z) (s' : kstate) (l' : list Z) : Prop := {
  en_space : space s' l' d;
  en_pte : pte s'.(mem) d va = e;
  en_other : forall va', user_va va' -> va' / PTE_SZ <> va / PTE_SZ -> pte s'.(mem) d va' = pte s.(mem) d va';
  en_pages : forall p i, page_ok p -> p <> d -> ~ is_table s'.(mem) d p -> 0 <= i < KPAGE ->
    s'.(mem) (p + i) = s.(mem) (p + i);
  en_free : l' = l \/ exists t, l = t :: l' /\ is_table s'.(mem) d t;
  en_tables : forall p, is_table s'.(mem) d p -> is_table s.(mem) d p \/ p ∈ l;
  en_keeps : forall p, is_table s.(mem) d p -> is_table s'.(mem) d p;
  en_rest : exists m fl, s' = set_mem m (set_freelist fl s)
}.

Lemma present_entry m d va t : table m d (PDE_IDX va) = Some t -> load32 m (t + 4 * PTE_IDX va) = pte m d va.
Proof. intros E. unfold pte. by rewrite E. Qed.

Lemma entered_store s l d va t e :
  space s l d -> user_va va -> table s.(mem) d (PDE_IDX va) = Some t -> 0 <= e < 2 ^ 32 ->
  entered s l d va e (upd_mem (fun m => store32 m (t + 4 * PTE_IDX va) e) s) l.
Proof.
  intros Hs Hva Ht He. destruct (store_pte s l d va t e Hs Hva Ht He) as (H1 & H2 & H3 & H4 & H5).
  unfold upd_mem. constructor; simpl; try done.
  - intros p i Hp Hd Hnt Hi. apply H5; [done| |done]. intros ->. apply Hnt. exists (PDE_IDX va).
    pose proof (pde_idx va Hva) as [_ Hii]. split; [done|]. by rewrite H3.
  - by left.
  - intros p (i & Hi & E). left. exists i. by rewrite <- H3.
  - intros p (i & Hi & E). exists i. split; [done|]. by rewrite H3.
  - exists (store32 s.(mem) (t + 4 * PTE_IDX va) e), s.(freelist). by destruct s.
Qed.

Lemma entered_new s l d va t e :
  space s (t :: l) d -> user_va va -> table s.(mem) d (PDE_IDX va) = None -> 0 <= e < 2 ^ 32 ->
  entered s (t :: l) d va e
    (upd_mem (fun m => store32 m (t + 4 * PTE_IDX va) e) (table_added s d va t)) l.
Proof.
  intros Hs Hva Ht He. destruct (table_added_ok s d va t l Hs Hva Ht) as (H1 & H2 & H3 & H4 & H5).
  destruct (entered_store _ l d va t e H1 Hva H2 He) as [E1 E2 E3 E4 _ E6 E8 (m & fl & E7)].
  pose proof (pde_idx va Hva) as [_ Hi].
  destruct (store_pte _ _ _ _ t e H1 Hva H2 He) as (_ & _ & Htab & _).
  constructor; try done.
  - intros va' Hva' Hne. rewrite E3 by done. by apply H4.
  - intros p i Hp Hpd Hnt Hpi. rewrite E4 by done. apply H5; try done. intros ->. apply Hnt.
    exists (PDE_IDX va). split; [done|]. etrans; [apply Htab; done|done].
  - right. exists t. split; [done|]. exists (PDE_IDX va). split; [done|]. etrans; [apply Htab; done|done].
  - intros p (i & Hii & E). simpl in E. rewrite Htab in E by done. destruct (decide (i = PDE_IDX va)) as [->|Hne].
    + right. rewrite H2 in E. injection E as ->. left.
    + left. exists i. split; [done|]. by rewrite <- H3.
  - intros p (i & Hii & E). apply E8. exists i. split; [done|]. rewrite H3; [done|done|]. intros ->. by rewrite Ht in E.
  - exists m, fl. rewrite E7. unfold table_added, upd_mem. by destruct s.
Qed.

Lemma align_page va : user_va va -> va mod PTE_SZ = 0 ->
  ALIGNDOWN va PTE_SZ = va /\ ALIGNDOWN (va + PTE_SZ - 1) PTE_SZ = va.
Proof.
  intros Hva Hal. rewrite !aligndown_12. unfold user_va, UADDR_SZ, u32, PTE_SZ in *. change (2 ^ 32) with 4294967296.
  rewrite !(Z.mod_small _ 4294967296) by lia. Z.to_euclidean_division_equations. lia.
Qed.

(** One page. *)
Lemma mappages_page s env d l va pa ap :
  space s l d -> user_va va -> va mod PTE_SZ = 0 -> 0 <= mk_pte pa ap < 2 ^ 32 ->
  ~ mapped s.(mem) d va -> (table s.(mem) d (PDE_IDX va) <> None \/ l <> []) ->
  exists s' l', mappages d va PTE_SZ pa ap s env = Ok 0 s' env /\ entered s l d va (mk_pte pa ap) s' l'.
Proof.
  intros Hs Hva Hal He Hm Hl. unfold mappages.
  destruct (align_page va Hva Hal) as [-> ->].
  rewrite Z.sub_diag. change (S (Z.to_nat (u32 0 / PTE_SZ))) with 1%nat. cbn [mappages_loop].
  unfold mapped in Hm. apply dec_stable in Hm.
  destruct (table s.(mem) d (PDE_IDX va)) as [t|] eqn:Ht.
  - mstep (walkpgdir_found s env d l va true t Hs Hva Ht). pose proof (pte_idx va Hva) as [_ Hj].
    destruct (sp_tables _ _ _ Hs t) as ((_ & _ & _ & Hr) & _); [exists (PDE_IDX va); split; [apply (pde_idx va Hva)|done]|].
    rewrite (proj2 (Z.eqb_neq _ 0)) by lia. unfold load_word, store_word. mrun.
    rewrite (present_entry _ _ _ _ Ht), Hm. cbn [Z.eqb negb]. mrun. rewrite Z.eqb_refl.
    eexists _, l. split; [reflexivity|]. by apply entered_store.
  - destruct l as [|t l]; [by destruct Hl|]. mstep (walkpgdir_alloc s env d _ va Hs Hva Ht). pose proof (pte_idx va Hva) as [_ Hj].
    destruct (table_added_ok s d va t l Hs Hva Ht) as (H1 & H2 & _ & H4 & _).
    destruct (sp_tables _ _ _ H1 t) as ((_ & _ & _ & Hr) & _); [exists (PDE_IDX va); split; [apply (pde_idx va Hva)|done]|].
    rewrite (proj2 (Z.eqb_neq _ 0)) by lia. unfold load_word, store_word. mrun.
    rewrite (present_entry _ _ _ _ H2), H4, Hm by done. cbn [Z.eqb negb]. mrun. rewrite Z.eqb_refl.
    eexists _, l. split; [reflexivity|]. by apply entered_new.
Qed.

Lemma mappages_fails s env d l va pa ap :
  space s l d -> user_va va -> va mod PTE_SZ = 0 ->
  (mapped s.(mem) d va -> mappages d va PTE_SZ pa ap s env = Err (Panic "remap") s env) /\
  (table s.(mem) d (PDE_IDX va) = None -> l = [] -> mappages d va PTE_SZ pa ap s env = Ok (-1) s env).
Proof.
  intros Hs Hva Hal. unfold mappages.
  destruct (align_page va Hva Hal) as [-> ->].
  rewrite Z.sub_diag. change (S (Z.to_nat (u32 0 / PTE_SZ))) with 1%nat. cbn [mappages_loop]. split.
  - unfold mapped. intros Hm. destruct (table s.(mem) d (PDE_IDX va)) as [t|] eqn:Ht; [|unfold pte in Hm; by rewrite Ht in Hm].
    mstep (walkpgdir_found s env d l va true t Hs Hva Ht). pose proof (pte_idx va Hva) as [_ Hj].
    destruct (sp_tables _ _ _ Hs t) as ((_ & _ & _ & Hr) & _); [exists (PDE_IDX va); split; [apply (pde_idx va Hva)|done]|].
    rewrite (proj2 (Z.eqb_neq _ 0)) by lia. unfold load_word. mrun.
    rewrite (present_entry _ _ _ _ Ht). by rewrite (proj2 (Z.eqb_neq _ 0)) by done.
  - intros Ht ->. mstep (walkpgdir_alloc s env d _ va Hs Hva Ht). done.
Qed.

(** ** allocuvm *)

(** The state once the first free page [p] is taken and its first [PTE_SZ]
    bytes are cleared. *)
Definition page_taken (s : kstate) (p : Z) : kstate :=
  upd_mem (memset p 0 PTE_SZ) (set_freelist (load32 s.(mem) p) s).

(** Taking the first free page [p] and writing to it alone. *)
Lemma page_written_ok s d p l f (s' := upd_mem f (set_freelist (load32 s.(mem) p) s)) :
  space s (p :: l) d -> (forall m a, a < p \/ p + KPAGE <= a -> f m a = m a) ->
  space s' l d /\
  (forall i, user_slot i -> table s'.(mem) d i = table s.(mem) d i) /\
  (forall va, user_va va -> pte s'.(mem) d va = pte s.(mem) d va) /\
  (forall q i, page_ok q -> q <> p -> 0 <= i < KPAGE -> s'.(mem) (q + i) = s.(mem) (q + i)).
Proof.
  intros [Hf Hd Hdl Hts Hinj] Hw. destruct (kalloc_cons s [] p l Hf) as (_ & Hf1 & Hp & Hpl).
  apply not_elem_of_cons in Hdl as [Hdp Hdl].
  assert (Hfr : forall q i, page_ok q -> q <> p -> 0 <= i < KPAGE -> s'.(mem) (q + i) = s.(mem) (q + i)).
  { intros q i Hq Hqp Hi. apply Hw. by apply (pages_disjoint p q i (proj1 Hp) (proj1 Hq)). }
  assert (Htab : forall i, user_slot i -> table s'.(mem) d i = table s.(mem) d i).
  { intros i Hi. apply table_frame; [done|]. intros j Hj. by apply Hfr. }
  split_and?; [|done| |done].
  - constructor; [|done|done| |].
    + eapply free_frame; [exact Hf1|done|done|apply Hf1|]. intros q i Hq Hqi. change (mem (set_freelist _ s)) with s.(mem).
      destruct Hf1 as (Hc & _). apply chain_ok in Hc. rewrite Forall_forall in Hc. apply Hfr; [by apply Hc|by intros ->|done].
    + intros t (i & Hi & E). rewrite Htab in E by done. destruct (Hts t) as (? & ? & Htl); [by exists i|].
      apply not_elem_of_cons in Htl as [? ?]. done.
    + intros i j t Hi Hj. rewrite !Htab by done. by apply Hinj.
  - intros va Hva. pose proof (pde_idx va Hva) as [_ Hi]. pose proof (pte_idx va Hva) as [_ Hj]. unfold pte, NUM_PTE in *.
    rewrite Htab by done. destruct (table s.(mem) d (PDE_IDX va)) as [t|] eqn:E; [|done].
    destruct (Hts t) as (Ht & _ & Htl); [by exists (PDE_IDX va)|]. apply not_elem_of_cons in Htl as [? ?].
    apply load32_page; [unfold KPAGE, PGSIZE; lia|]. intros i Hii. by apply Hfr.
Qed.

Lemma memset_local p n v m a : 0 <= n <= KPAGE -> a < p \/ p + KPAGE <= a -> memset p v n m a = m a.
Proof.
  intros Hn Ha. rewrite memset_filled. unfold filled, u32. rewrite (Z.mod_small n) by (unfold KPAGE, PGSIZE in Hn; lia). mem_cases.
Qed.

Lemma page_taken_ok s d p l (s' := page_taken s p) :
  space s (p :: l) d ->
  space s' l d /\
  (forall i, user_slot i -> table s'.(mem) d i = table s.(mem) d i) /\
  (forall va, user_va va -> pte s'.(mem) d va = pte s.(mem) d va) /\
  (forall i, 0 <= i < PTE_SZ -> s'.(mem) (p + i) = 0) /\
  (forall q i, page_ok q -> q <> p -> 0 <= i < KPAGE -> s'.(mem) (q + i) = s.(mem) (q + i)).
Proof.
  intros Hs. destruct (page_written_ok s d p l (memset p 0 PTE_SZ) Hs) as (H1 & H2 & H3 & H4).
  { intros m a Ha. apply memset_local; [unfold PTE_SZ, KPAGE, PGSIZE; lia|done]. }
  split_and?; try done. intros i Hi. unfold s', page_taken. simpl. apply memset_page; [unfold PTE_SZ; lia|done].
Qed.

(** The pages [ps], taken from the free list, are mapped from [a] on; the
    page mapped at [va] has the permission [ap va] and the contents [src va].
    Nothing else of the address space, and no other page in use, has changed. *)
Record grown (ap : Z -> Z) (src : Z -> Z -> Z) (s : kstate) (l : list Z) (d a : Z) (ps : list Z) (s' : kstate) (l' : list Z) : Prop := {
  gr_space : space s' l' d;
  gr_pages : forall k p, ps !! k = Some p -> p ∈ l /\ (p ∉ l') /\ p <> d /\ ~ is_table s'.(mem) d p /\
    pte s'.(mem) d (a + Z.of_nat k * PTE_SZ) = mk_pte (v2p p) (ap (a + Z.of_nat k * PTE_SZ)) /\
    forall i, 0 <= i < PTE_SZ -> s'.(mem) (p + i) = src (a + Z.of_nat k * PTE_SZ) i;
  gr_distinct : NoDup ps;
  gr_other : forall va, user_va va -> va < a \/ a + Z.of_nat (length ps) * PTE_SZ <= va ->
    pte s'.(mem) d va = pte s.(mem) d va;
  gr_frame : forall q i, page_ok q -> q <> d -> q ∉ l -> ~ is_table s.(mem) d q -> 0 <= i < KPAGE ->
    s'.(mem) (q + i) = s.(mem) (q + i);
  gr_tables : forall q, is_table s'.(mem) d q -> is_table s.(mem) d q \/ q ∈ l;
  gr_left : l' ⊆ l;
  gr_all : forall q, q ∈ l -> q ∈ l' \/ q ∈ ps \/ is_table s'.(mem) d q;
  gr_keeps : forall q, is_table s.(mem) d q -> is_table s'.(mem) d q;
  gr_rest : exists m fl, s' = set_mem m (set_freelist fl s)
}.

Lemma grown_nil ap src s l d a : space s l d -> grown ap src s l d a [] s l.
Proof. intros Hs. constructor; try done; [constructor|by left|by left|]. exists s.(mem), s.(freelist). by destruct s. Qed.

(** One page more: [f] writes the contents to the page [p]. *)
Lemma grown_cons ap src s p l d a f s3 l3 ps s' l' :
  space s (p :: l) d -> user_va a -> a mod PTE_SZ = 0 -> (forall m b, b < p \/ p + KPAGE <= b -> f m b = m b) ->
  (forall i, 0 <= i < PTE_SZ -> f s.(mem) (p + i) = src a i) ->
  entered (upd_mem f (set_freelist (load32 s.(mem) p) s)) l d a (mk_pte (v2p p) (ap a)) s3 l3 ->
  grown ap src s3 l3 d (a + PTE_SZ) ps s' l' -> grown ap src s (p :: l) d a (p :: ps) s' l'.
Proof.
  intros Hs Hva Hal Hw Hf [E1 E2 E3 E4 E5 E6 E8 (m3 & fl3 & E7)] [G1 G2 G3 G4 G5 G6 G7 G9 G10 (m' & fl' & G8)].
  destruct (kalloc_cons s [] p l (sp_free _ _ _ Hs)) as (_ & _ & Hp & Hpl).
  pose proof (sp_dir_used _ _ _ Hs) as Hdl. apply not_elem_of_cons in Hdl as [Hdp Hdl].
  destruct (page_written_ok s d p l f Hs Hw) as (T1 & T2 & T3 & T5).
  assert (Hl3 : l3 ⊆ l) by (destruct E5 as [->|(t & -> & _)]; set_solver).
  assert (Htp : ~ is_table s.(mem) d p).
  { intros Hp'. destruct (sp_tables _ _ _ Hs p Hp') as (_ & _ & ?). set_solver. }
  assert (HT : forall q, is_table (f s.(mem)) d q -> is_table s.(mem) d q).
  { intros q (i & Hi & E). exists i. by rewrite <- T2. }
  assert (HT' : forall q, is_table s.(mem) d q -> is_table (f s.(mem)) d q).
  { intros q (i & Hi & E). exists i. split; [done|]. etrans; [by apply T2|done]. }
  assert (Hp3 : ~ is_table s3.(mem) d p) by (intros [?%HT|?]%E6; done).
  assert (Hps : p ∉ l3) by set_solver.
  assert (Hpd : p <> d) by congruence.
  constructor; try done.
  - intros [|k] q.
    + intros [= <-]. rewrite Z.mul_0_l, Z.add_0_r. split_and?; [set_solver|set_solver|done|intros [?|?]%G6; done| |].
      * rewrite G4; [done|done|left; unfold PTE_SZ; lia].
      * intros i Hi. assert (0 <= i < KPAGE) by (unfold KPAGE, PGSIZE, PTE_SZ in *; lia).
        rewrite G5, E4 by done. by apply Hf.
    + simpl. intros Hk. replace (a + Z.of_nat (S k) * PTE_SZ) with (a + PTE_SZ + Z.of_nat k * PTE_SZ) by lia.
      destruct (G2 k q Hk) as (? & ? & ? & ? & Hq & ?). split_and?; try done. set_solver.
  - constructor; [|done]. intros Hin. apply list_elem_of_lookup in Hin as [k Hk]. destruct (G2 k p Hk) as (? & _). done.
  - intros va Hv Hr. simpl in Hr. unfold PTE_SZ in Hr, Hal. rewrite G4, E3, T3; try done; unfold PTE_SZ.
    + Z.to_euclidean_division_equations. lia.
    + lia.
  - intros q i Hq Hqd Hql Hqt Hi. apply not_elem_of_cons in Hql as [? ?].
    assert (~ is_table s3.(mem) d q) by (intros [?%HT|?]%E6; done).
    rewrite G5, E4, T5; try done. set_solver.
  - intros q [[Hq%HT|Hq]%E6|Hq]%G6; [by left|right; set_solver|right; set_solver].
  - set_solver.
  - intros q [->|Hq]%elem_of_cons; [right; left; left|].
    destruct E5 as [->|(t & -> & Ht)]; [destruct (G9 q Hq) as [?|[?|?]]; set_solver|].
    apply elem_of_cons in Hq as [->|Hq]; [right; right; by apply G10|]. destruct (G9 q Hq) as [?|[?|?]]; set_solver.
  - intros q Hq. by apply G10, E8, HT'.
  - exists m', fl'. rewrite G8, E7. by destruct s.
Qed.

Lemma v2p_pte p : page_ok p -> 0 <= mk_pte (v2p p) AP_KU < 2 ^ 32.
Proof.
  intros (Hp & _). apply mk_pte_fields; [by apply (v2p_aligned p 12)|apply Z.mod_pos_bound; lia|done].
Qed.

Lemma allocuvm_loop_ok d oldsz newsz env n : newsz < UADDR_SZ -> forall fuel s l a,
  (n < fuel)%nat -> space s l d -> 0 <= a -> a mod PTE_SZ = 0 ->
  newsz <= a + Z.of_nat n * PTE_SZ -> (n = 0%nat \/ a + (Z.of_nat n - 1) * PTE_SZ < newsz) ->
  (forall va, a <= va < newsz -> ~ mapped s.(mem) d va) -> (2 * n <= length l)%nat ->
  exists s' ps l', allocuvm_loop fuel d a oldsz newsz s env = Ok newsz s' env /\
    length ps = n /\ grown (fun _ => AP_KU) (fun _ _ => 0) s l d a ps s' l'.
Proof.
  intros Hnew. induction n as [|n IH]; intros fuel s l a Hfuel Hs Ha Hal Hub Hlb Hun Hlen.
  - destruct fuel as [|fuel]; [lia|]. cbn [allocuvm_loop]. rewrite (proj2 (Z.ltb_ge _ _)) by lia.
    exists s, [], l. split_and?; [done|done|by apply grown_nil].
  - destruct fuel as [|fuel]; [lia|]. cbn [allocuvm_loop]. destruct Hlb as [|Hlb]; [done|]. unfold PTE_SZ in Hub, Hlb.
    rewrite (proj2 (Z.ltb_lt _ _)) by lia. destruct l as [|p l]; [simpl in Hlen; lia|].
    destruct (kalloc_cons s env p l (sp_free _ _ _ Hs)) as (Ek & _ & Hp & _).
    mstep Ek. rewrite (proj2 (Z.eqb_neq p 0)) by (destruct Hp as (_ & _ & _ & ?); lia). mrun.
    change (upd_mem (memset p 0 PTE_SZ) _) with (page_taken s p).
    destruct (page_taken_ok s d p l Hs) as (T1 & T2 & T3 & _).
    assert (Hva : user_va a) by (unfold user_va; lia).
    destruct (mappages_page (page_taken s p) env d l a (v2p p) AP_KU) as (s3 & l3 & Em & He); try done.
    { by apply v2p_pte. } { unfold mapped. rewrite T3 by done. apply Hun. lia. } { right. intros ->. simpl in Hlen. lia. }
    mstep Em. replace (u32 (a + PTE_SZ)) with (a + PTE_SZ).
    2: { unfold u32, PTE_SZ, user_va, UADDR_SZ in *. rewrite Z.mod_small; [done|]. change (2 ^ 32) with 4294967296. lia. }
    assert (length l <= S (length l3))%nat by (destruct (en_free _ _ _ _ _ _ _ He) as [->|(t & -> & _)]; simpl; lia).
    destruct (IH fuel s3 l3 (a + PTE_SZ)) as (s' & ps & l' & El & Hlp & Hg).
    + lia.
    + by apply en_space in He.
    + unfold PTE_SZ. lia.
    + unfold PTE_SZ in *. Z.to_euclidean_division_equations. lia.
    + unfold PTE_SZ. lia.
    + unfold PTE_SZ. lia.
    + intros va Hv. unfold mapped. rewrite (en_other _ _ _ _ _ _ _ He), T3; [apply Hun|..]; unfold user_va; unfold PTE_SZ in Hv; try lia.
      unfold PTE_SZ in *. Z.to_euclidean_division_equations. lia.
    + simpl in Hlen. lia.
    + exists s', (p :: ps), l'. split_and?; [done|simpl; lia|].
      eapply (grown_cons (fun _ => AP_KU) (fun _ _ => 0) s p l d a (memset p 0 PTE_SZ)); try done.
      * intros m b Hb. apply memset_local; [unfold PTE_SZ, KPAGE, PGSIZE; lia|done].
      * intros i Hi. apply memset_page; [unfold PTE_SZ; lia|done].
Qed.

(** ** setupvm *)

Lemma page_low_bits p : page_ok p -> Z.land p 3 = 0.
Proof. intros (Hp & _). rewrite land_3. unfold KPAGE, PGSIZE in Hp. Z.to_euclidean_division_equations. lia. Qed.

(** A page off the free list is an empty directory: what is left in it is
    the link to the next free page, whose low bits are clear. *)
Lemma fresh_directory s d l (s' := set_freelist (load32 s.(mem) d) s) :
  free_pages s (d :: l) -> space s' l d /\ forall i, user_slot i -> table s'.(mem) d i = None.
Proof.
  intros Hf. destruct (kalloc_cons s [] d l Hf) as (_ & Hf1 & Hd & Hdl).
  assert (Hn : forall i, user_slot i -> table s'.(mem) d i = None).
  { intros i Hi. unfold table. simpl. destruct Hf as ((_ & _ & Hcl & Hc) & _).
    destruct (decide (i = 0)) as [->|Hne].
    - rewrite Z.mul_0_r, Z.add_0_r. destruct l as [|q l]; simpl in Hc; [by rewrite Hc|].
      destruct Hc as (-> & Hq & _). unfold PDE_TYPES. by rewrite page_low_bits.
    - unfold user_slot, NUM_UPDE in Hi. rewrite load32_zero; [done|]. intros k Hk. rewrite <- Z.add_assoc. apply Hcl.
      unfold KPAGE, PGSIZE. lia. }
  split; [|done]. constructor; try done.
  - intros t (i & Hi & E). by rewrite Hn in E.
  - intros i j t Hi _ E. by rewrite Hn in E.
Qed.

(** ** Theorems *)

(** Setupvm gives an address space that maps nothing, although it does
    not clear the page it takes: the only word left in it, the allocator's
    link, is an invalid descriptor. It fails exactly when no page is free. *)
Theorem setupvm_empty s env l :
  free_pages s l ->
  match l with
  | [] => setupvm s env = Ok 0 s env
  | d :: l' => exists s', setupvm s env = Ok d s' env /\ space s' l' d /\ s'.(mem) = s.(mem) /\
      forall va, user_va va -> ~ mapped s'.(mem) d va
  end.
Proof.
  intros Hf. unfold setupvm. destruct l as [|d l].
  - by mstep (kalloc_nil s env Hf).
  - destruct (kalloc_cons s env d l Hf) as (E & _). mstep E. destruct (fresh_directory s d l Hf) as (Hs & Hn).
    eexists. split_and?; [reflexivity|done|done|]. intros va Hva. unfold mapped, pte.
    rewrite Hn by (by apply pde_idx). by intros ?.
Qed.

(** Mappages of one page panics if the page is mapped already, fails
    without effect if a page table is needed and no page is free, and
    otherwise makes the page translate to [pa] with permission [ap],
    leaving every other page of the address space and every other page of
    memory as it was, with at most one free page spent on a table. *)
Theorem mappages_maps s env d l va pa ap :
  space s l d -> user_va va -> va mod PTE_SZ = 0 -> pa mod PTE_SZ = 0 -> 0 <= pa < 2 ^ 32 -> 0 <= ap < 4 ->
  (mapped s.(mem) d va -> mappages d va PTE_SZ pa ap s env = Err (Panic "remap") s env) /\
  (table s.(mem) d (PDE_IDX va) = None -> l = [] -> mappages d va PTE_SZ pa ap s env = Ok (-1) s env) /\
  (~ mapped s.(mem) d va -> (table s.(mem) d (PDE_IDX va) <> None \/ l <> []) ->
   exists s' l', mappages d va PTE_SZ pa ap s env = Ok 0 s' env /\
     entered s l d va (mk_pte pa ap) s' l' /\
     mapped s'.(mem) d va /\ PTE_ADDR (pte s'.(mem) d va) = pa /\ PTE_AP (pte s'.(mem) d va) = ap).
Proof.
  intros Hs Hva Hal Hpa Hpr Hap. destruct (mk_pte_fields pa ap Hpa Hpr Hap) as (M1 & M2 & M3 & M4).
  destruct (mappages_fails s env d l va pa ap Hs Hva Hal) as (F1 & F2). split_and?; [done|done|].
  intros Hm Hl. destruct (mappages_page s env d l va pa ap Hs Hva Hal M4 Hm Hl) as (s' & l' & E & He).
  exists s', l'. unfold mapped. rewrite (en_pte _ _ _ _ _ _ _ He). split_and?; done.
Qed.

(** Allocuvm grows an address space from [oldsz] to [newsz]: given two
    free pages for each new page, it returns [newsz] with every page from
    [oldsz] rounded up to [newsz] mapped to a page of its own, zeroed and
    accessible to the user, taken off the free list, and everything else
    mapped as before. A size beyond the user half is refused. *)
Lemma allocuvm_run s env d l oldsz newsz
    (a := ALIGNUP oldsz PTE_SZ) (n := Z.to_nat ((newsz - a + PTE_SZ - 1) / PTE_SZ)) :
  space s l d -> 0 <= oldsz <= newsz ->
  (forall va, a <= va < newsz -> ~ mapped s.(mem) d va) -> (2 * n <= length l)%nat ->
  if decide (UADDR_SZ <= newsz) then allocuvm d oldsz newsz s env = Ok 0 s env
  else exists s' ps l', allocuvm d oldsz newsz s env = Ok newsz s' env /\
    length ps = n /\ grown (fun _ => AP_KU) (fun _ _ => 0) s l d a ps s' l'.
Proof.
  intros Hs Hsz Hun Hlen. unfold allocuvm. destruct (decide (UADDR_SZ <= newsz)) as [Hbig|Hsmall].
  { by rewrite (proj2 (Z.leb_le _ _)). }
  rewrite (proj2 (Z.leb_gt _ _)), (proj2 (Z.ltb_ge _ _)) by lia. fold a.
  assert (Ha : a = oldsz + PTE_SZ - 1 - (oldsz + PTE_SZ - 1) mod PTE_SZ).
  { unfold a. rewrite (alignup_pow 12) by lia. change (2 ^ 12) with PTE_SZ. pose proof (Z.div_mod (oldsz + PTE_SZ - 1) PTE_SZ). unfold PTE_SZ in *. lia. }
  clearbody a. assert (Hn : Z.of_nat n = (newsz - a + PTE_SZ - 1) / PTE_SZ).
  { unfold n. rewrite Z2Nat.id; [done|]. unfold PTE_SZ in *. Z.to_euclidean_division_equations. lia. }
  clearbody n. unfold PTE_SZ in Ha, Hn.
  apply (allocuvm_loop_ok d oldsz newsz env n); try done; unfold PTE_SZ in *; try (Z.to_euclidean_division_equations; lia).
Qed.

End Facts.

(** ** Witnesses *)

#[local] Existing Instance demo_image.

Definition page3 : Z := KERNBASE + 6 * KPAGE.

Definition demo_free3 : kstate :=
  let s2 := set_freelist page2 (upd_mem (freed page2 demo_freed.(freelist)) demo_freed) in
  set_freelist page3 (upd_mem (freed page3 s2.(freelist)) s2).

Lemma demo_free3_pages : free_pages demo_free3 [page3; page2; page1].
Proof.
  apply (kfree_pages page3 [page2; page1]); [|split_and!; vm_compute; done|].
  - apply (kfree_pages page2 [page1] demo_freed); [exact demo_free1|apply demo_pages_ok|].
    rewrite list_elem_of_singleton. vm_compute. done.
  - rewrite !elem_of_cons, elem_of_nil. vm_compute. intros [E|[E|E]]; done.
Qed.

Lemma setupvm_empty_witness :
  exists s', setupvm demo_free3 [] = Ok page3 s' [] /\ space s' [page2; page1] page3 /\ s'.(mem) = demo_free3.(mem) /\
    forall va, user_va va -> ~ mapped s'.(mem) page3 va.
Proof. apply (setupvm_empty demo_free3 [] [page3; page2; page1]). exact demo_free3_pages. Defined.

Definition demo_space : kstate := set_freelist (load32 demo_free3.(mem) page3) demo_free3.

Lemma demo_space_ok : space demo_space [page2; page1] page3 /\
  forall va, user_va va -> ~ mapped demo_space.(mem) page3 va.
Proof.
  destruct (fresh_directory demo_free3 page3 [page2; page1] demo_free3_pages) as (Hs & Hn). split; [exact Hs|].
  intros va Hva. unfold mapped, pte. rewrite Hn by (by apply pde_idx). by intros ?.
Qed.

Lemma mappages_maps_witness :
  exists s' l', mappages page3 8192 PTE_SZ 1048576 AP_KU demo_space [] = Ok 0 s' [] /\
    entered demo_space [page2; page1] page3 8192 (mk_pte 1048576 AP_KU) s' l' /\
    mapped s'.(mem) page3 8192 /\ PTE_ADDR (pte s'.(mem) page3 8192) = 1048576 /\ PTE_AP (pte s'.(mem) page3 8192) = AP_KU.
Proof.
  apply (mappages_maps demo_space [] page3 [page2; page1] 8192 1048576 AP_KU);
    [apply demo_space_ok|done|done|done|done|done|apply demo_space_ok; done|by right].
Defined.

End VmFacts.
