(* ===== verification/ProcFacts.v ===== *)
(** Process creation (kernel/proc.c, allocproc): the slot, the pid and the
    kernel stack that a new process starts from. *)
From S2P Require Import Prelude Types Spinlock Sched Cstring Kalloc Vm Proc KallocFacts VmFacts.
Import Spinlock Sched Cstring Kalloc Vm Proc KallocFacts VmFacts.

Module ProcFacts.

#[local] Opaque memset store32 load32.

Section Facts.
Context `{Image}.

Definition unused_slot (i : nat) : K (option nat) :=
  p <- get_proc i ;;
  ret (if decide (p.(state) = UNUSED) then Some i else None).

(** The scan finds the first free slot. *)
Lemma scan_unused s env suf : forall pre, s.(procs) = pre ++ suf ->
  mfind (seq (length pre) (length suf)) unused_slot s env =
    Ok ((fun jp => (length pre + jp.1)%nat) <$> list_find (fun p => p.(state) = UNUSED) suf) s env.
Proof.
  induction suf as [|p suf IH]; intros pre Hs; [done|].
  assert (Hp : procs s !! length pre = Some p) by (rewrite Hs; by apply list_lookup_middle).
  cbn [length seq mfind list_find].
  assert (E : unused_slot (length pre) s env = Ok (if decide (p.(state) = UNUSED) then Some (length pre) else None) s env).
  { unfold unused_slot, get_proc, bind, gets, deref. by rewrite Hp. }
  mstep E. case_decide; [simpl; by rewrite Nat.add_0_r|].
  specialize (IH (pre ++ [p])). rewrite length_app in IH. simpl in IH. rewrite Nat.add_1_r in IH.
  rewrite IH by (by rewrite <- app_assoc).
  destruct (list_find _ suf) as [[j q]|]; simpl; [|done]. by rewrite Nat.add_succ_r.
Qed.

(** The words [allocproc] leaves on the kernel stack [ks], from the top. *)
Definition stack_top (ks : Z) : Z := ks + KSTACKSIZE.
Definition frame_at (ks : Z) : Z := stack_top ks - TF_SIZE.
Definition context_at (ks : Z) : Z := frame_at ks - 8 - CONTEXT_SIZE.

Definition born (p : proc) (pid ks : Z) : proc :=
  set_context (context_at ks) (set_tf (frame_at ks) (set_kstack ks (set_pid pid (set_state EMBRYO p)))).

Definition stack_mem (m : memory) (ks : Z) : memory :=
  let m := store32 m (frame_at ks - 4) trapret_addr in
  let m := store32 m (frame_at ks - 8) (stack_top ks) in
  let m := memset (context_at ks) 0 CONTEXT_SIZE m in
  store32 m (context_at ks + ctx_lr) (u32 (forkret_addr + 4)).

Lemma stack_mem_words m ks : page_ok ks -> 0 <= trapret_addr < 2 ^ 32 ->
  load32 (stack_mem m ks) (frame_at ks - 4) = trapret_addr /\
  load32 (stack_mem m ks) (frame_at ks - 8) = stack_top ks /\
  load32 (stack_mem m ks) (context_at ks + ctx_lr) = u32 (forkret_addr + 4) /\
  (forall i, 0 <= i < ctx_lr -> stack_mem m ks (context_at ks + i) = 0) /\
  (forall a, a < ks \/ stack_top ks <= a -> stack_mem m ks a = m a).
Proof.
  intros (Hal & _ & _ & Hk) Ht. unfold stack_mem, context_at, frame_at, stack_top, ctx_lr, CONTEXT_SIZE, TF_SIZE, KSTACKSIZE.
  unfold KPAGE, PGSIZE in Hal. change (2 ^ 32) with 4294967296 in *.
  assert (0 <= ks + 4096 < 4294967296) by (Z.to_euclidean_division_equations; lia).
  assert (Hms : forall m a, a < ks + 4096 - 72 - 8 - 40 \/ ks + 4096 - 72 - 8 <= a ->
    memset (ks + 4096 - 72 - 8 - 40) 0 40 m a = m a).
  { intros m' a Ha. apply memset_page; [lia|]. lia. }
  assert (Hml : forall m a, ks + 4096 - 72 - 8 <= a ->
    load32 (memset (ks + 4096 - 72 - 8 - 40) 0 40 m) a = load32 m a).
  { intros m' a Ha. apply load32_other. intros i Hi. apply Hms. lia. }
  split_and?.
  - rewrite load_store32_other, Hml, load_store32_other by lia. by apply load_store32.
  - rewrite load_store32_other, Hml by lia. apply load_store32. change (2 ^ 32) with 4294967296. lia.
  - apply load_store32. apply Z.mod_pos_bound. lia.
  - intros i Hi. rewrite store32_other by lia. apply memset_page; lia.
  - intros a Ha. rewrite store32_other by lia. rewrite Hms by lia. by rewrite !store32_other by lia.
Qed.

(** The state once slot [j] is claimed, and once its stack is filled in. *)
Definition claimed (j : nat) (s : kstate) : kstate :=
  set_nextpid (s32 (s.(nextpid) + 1))
    (upd_proc j (fun p => set_pid s.(nextpid) (set_state EMBRYO p)) s).

Definition created (j : nat) (ks : Z) (s : kstate) : kstate :=
  upd_proc j (fun p => born p s.(nextpid) ks)
    (set_nextpid (s32 (s.(nextpid) + 1))
       (upd_mem (fun m => stack_mem m ks) (set_freelist (load32 s.(mem) ks) s))).

Lemma upd_proc_twice j f g (s : kstate) : upd_proc j f (upd_proc j g s) = upd_proc j (f ∘ g) s.
Proof. unfold upd_proc. simpl. rewrite list_alter_alter_eq. by destruct s. Qed.

Definition out_of_memory (j : nat) (s : kstate) : kstate :=
  set_nextpid (s32 (s.(nextpid) + 1))
    (upd_proc j (fun p => set_state UNUSED (set_kstack 0 (set_pid s.(nextpid) (set_state EMBRYO p)))) s).

Lemma allocproc_eq s env l :
  calm s -> free_pages s l ->
  allocproc s env =
    match list_find (fun p => p.(state) = UNUSED) s.(procs), l with
    | None, _ => Ok None s env
    | Some (j, _), [] => Ok None (out_of_memory j s) env
    | Some (j, _), ks :: _ => Ok (Some j) (created j ks s) env
    end.
Proof.
  intros (Hq & Hl & Hn) Hf. unfold allocproc. mstep (acquire_quiet ptable_lock s env Hq Hl).
  pose proof (scan_unused (with_lock ptable_lock s) env s.(procs) [] eq_refl) as Hscan. rewrite Hn in Hscan.
  change (fun i : nat => _) with unused_slot. mstep Hscan.
  destruct (list_find _ s.(procs)) as [[j p]|]; simpl.
  2: { rewrite (bind_ok _ _ _ _ _ _ _ (release_quiet ptable_lock s (with_lock ptable_lock s) env Hq Hl eq_refl)).
       unfold ret. by destruct s. }
  mrun. simpl.
  match goal with |- bind (release _) _ ?s1 _ = _ =>
    rewrite (bind_ok _ _ _ _ _ _ _ (release_quiet ptable_lock s s1 env Hq Hl eq_refl)) end.
  match goal with |- bind kalloc _ ?s1 _ = _ => assert (E : s1 = claimed j s) end.
  { unfold claimed, upd_proc. simpl. rewrite list_alter_alter_eq. by destruct s. }
  rewrite E. clear E. assert (Hf2 : free_pages (claimed j s) l) by exact Hf.
  destruct l as [|ks l].
  - mstep (kalloc_nil (claimed j s) env Hf2). mrun. cbn [Z.eqb]. mrun. unfold ret. f_equal.
    unfold out_of_memory, claimed, upd_proc. simpl. rewrite !list_alter_alter_eq. by destruct s.
  - destruct (kalloc_cons (claimed j s) env ks l Hf2) as (Ek & _ & (_ & _ & _ & Hr) & _). mstep Ek. mrun.
    rewrite (proj2 (Z.eqb_neq ks 0)) by lia. unfold store_word. mrun. unfold ret. f_equal.
    unfold created, claimed, upd_proc, upd_mem. simpl. rewrite !list_alter_alter_eq.
    replace (ks + KSTACKSIZE - TF_SIZE - 4 - 4) with (ks + KSTACKSIZE - TF_SIZE - 8) by lia.
    unfold stack_mem, context_at, frame_at, stack_top. by destruct s.
Qed.

Lemma created_free j ks l s : free_pages s (ks :: l) -> 0 <= trapret_addr < 2 ^ 32 -> free_pages (created j ks s) l.
Proof.
  intros Hf Ht. destruct (kalloc_cons s [] ks l Hf) as (_ & Hf1 & Hks & Hkl).
  eapply free_frame; [exact Hf1|done|done|apply Hf1|]. intros p i Hp Hi.
  assert (Hpo : page_ok p) by (destruct Hf1 as (Hc & _); apply chain_ok in Hc; rewrite Forall_forall in Hc; by apply Hc).
  destruct (stack_mem_words s.(mem) ks Hks Ht) as (_ & _ & _ & _ & Hfr). simpl. apply Hfr.
  unfold stack_top, KSTACKSIZE. destruct (pages_disjoint ks p i (proj1 Hks) (proj1 Hpo)); [by intros ->|done|lia|].
  change KPAGE with 262144 in *. lia.
Qed.

Lemma get_proc_eq i p s env : s.(procs) !! i = Some p -> get_proc i s env = Ok p s env.
Proof. intros Hp. unfold get_proc, bind, gets, deref, ret. by rewrite Hp. Qed.

(** ** Theorems *)

(** Allocproc takes the first free slot of the table, gives it the next
    pid and a free page as its kernel stack, on which the first switch to
    the process finds a context that enters forkret past its prologue and
    then returns to trapret; it fails when the table is full, or when no page
    is free, in which case the slot is free again. The slot's [killed] flag
    is not reset. Other processes and other pages are left alone. *)
Theorem allocproc_new s env l :
  calm s -> free_pages s l -> 0 <= trapret_addr < 2 ^ 32 ->
  ((forall i p, s.(procs) !! i = Some p -> p.(state) <> UNUSED) -> allocproc s env = Ok None s env) /\
  (forall j p, s.(procs) !! j = Some p -> p.(state) = UNUSED ->
    (forall i q, s.(procs) !! i = Some q -> (i < j)%nat -> q.(state) <> UNUSED) ->
    exists s' p', s'.(procs) = <[j := p']> s.(procs) /\ s'.(nextpid) = s32 (s.(nextpid) + 1) /\
      p'.(pid) = s.(nextpid) /\ p'.(killed) = p.(killed) /\
      match l with
      | [] => allocproc s env = Ok None s' env /\ p'.(state) = UNUSED /\ s'.(mem) = s.(mem)
      | ks :: l' => allocproc s env = Ok (Some j) s' env /\ free_pages s' l' /\
          p'.(state) = EMBRYO /\ p'.(kstack) = ks /\
          p'.(tf) = ks + KSTACKSIZE - TF_SIZE /\ p'.(context) = p'.(tf) - 8 - CONTEXT_SIZE /\
          load32 s'.(mem) (p'.(context) + ctx_lr) = u32 (forkret_addr + 4) /\
          load32 s'.(mem) (p'.(context) + CONTEXT_SIZE) = ks + KSTACKSIZE /\
          load32 s'.(mem) (p'.(context) + CONTEXT_SIZE + 4) = trapret_addr /\
          forall a, a < ks \/ ks + KPAGE <= a -> s'.(mem) a = s.(mem) a
      end).
Proof.
  intros Hc Hf Ht. rewrite (allocproc_eq s env l Hc Hf). split.
  - intros Hno. destruct (list_find _ s.(procs)) as [[j p]|] eqn:E; [|done].
    apply list_find_Some in E as (Hj & Hp & _). by destruct (Hno j p).
  - intros j p Hj Hp Hfirst.
    assert (list_find (fun p => p.(state) = UNUSED) s.(procs) = Some (j, p)) as ->.
    { apply list_find_Some. split_and!; [done|done|]. intros i q Hi Hlt. by eapply Hfirst. }
    assert (Halt : forall f, alter f j s.(procs) = <[j := f p]> s.(procs)).
    { intros f. rewrite list_insert_alter. apply list_alter_ext; [|done]. intros x Hx. simpl. congruence. }
    destruct l as [|ks l].
    + exists (out_of_memory j s), (set_state UNUSED (set_kstack 0 (set_pid s.(nextpid) (set_state EMBRYO p)))).
      split_and?; try done. unfold out_of_memory, upd_proc. simpl. apply Halt.
    + destruct (kalloc_cons s env ks l Hf) as (_ & Hf1 & Hk & Hkl).
      destruct (stack_mem_words s.(mem) ks Hk Ht) as (W1 & W2 & W3 & _ & W5).
      exists (created j ks s), (born p s.(nextpid) ks). split_and?; try done.
      * unfold created, upd_proc. simpl. apply Halt.
      * by apply created_free.
      * simpl. replace (context_at ks + CONTEXT_SIZE) with (frame_at ks - 8) by (unfold context_at; lia). exact W2.
      * simpl. replace (context_at ks + CONTEXT_SIZE + 4) with (frame_at ks - 4) by (unfold context_at; lia). exact W1.
      * intros a Ha. simpl. apply W5. unfold stack_top, KSTACKSIZE, KPAGE, PGSIZE in *. lia.
Qed.
End Facts.

#[local] Existing Instance demo_image.

Lemma demo_free3_calm : calm demo_free3.
Proof. split_and!; done. Qed.

(** In the table as the boot code leaves it, slot 0 becomes process 1. *)
Lemma allocproc_new_witness :
  exists s' p', s'.(procs) = <[0%nat := p']> demo_free3.(procs) /\ s'.(nextpid) = s32 (demo_free3.(nextpid) + 1) /\
    p'.(pid) = demo_free3.(nextpid) /\ p'.(killed) = false /\
    allocproc demo_free3 [] = Ok (Some 0%nat) s' [] /\ free_pages s' [page2; page1] /\
    p'.(state) = EMBRYO /\ p'.(kstack) = page3 /\
    p'.(tf) = page3 + KSTACKSIZE - TF_SIZE /\ p'.(context) = p'.(tf) - 8 - CONTEXT_SIZE /\
    load32 s'.(mem) (p'.(context) + ctx_lr) = u32 (forkret_addr + 4) /\
    load32 s'.(mem) (p'.(context) + CONTEXT_SIZE) = page3 + KSTACKSIZE /\
    load32 s'.(mem) (p'.(context) + CONTEXT_SIZE + 4) = trapret_addr /\
    forall a, a < page3 \/ page3 + KPAGE <= a -> s'.(mem) a = demo_free3.(mem) a.
Proof.
  apply (proj2 (allocproc_new demo_free3 [] [page3; page2; page1] demo_free3_calm demo_free3_pages ltac:(done)) 0%nat zero_proc);
    [reflexivity|reflexivity|]. intros i q _ Hi. lia.
Defined.

End ProcFacts.
