(* ===== verification/BlockFacts.v ===== *)
(** Block allocation within a transaction (kernel/fs.c: readsb, bzero,
    balloc, bfree): the free-block bitmap and what the allocator makes of
    it. *)
From S2P Require Import Prelude Types Spinlock Sched Bio BioFacts BioAbs BioRep Log LogSpec LogFacts Crash Inode.
Import Spinlock Sched Bio BioFacts BioAbs BioRep Log LogSpec LogFacts Inode.

Module BlockFacts.

(** ** Bits *)

Lemma bit_mask_testbit bi k : 0 <= k -> Z.testbit (bit_mask bi) k = (k =? bi mod 8).
Proof.
  intros Hk. unfold bit_mask. rewrite Z.shiftl_1_l. pose proof (Z.mod_pos_bound bi 8 eq_refl).
  rewrite Z.pow2_bits_eqb by lia. apply Z.eqb_sym.
Qed.

Lemma land_mask v bi : (Z.land v (bit_mask bi) =? 0) = negb (Z.testbit v (bi mod 8)).
Proof.
  pose proof (Z.mod_pos_bound bi 8 eq_refl) as Hb.
  destruct (Z.testbit v (bi mod 8)) eqn:E; simpl.
  - apply Z.eqb_neq. intros H. assert (Z.testbit (Z.land v (bit_mask bi)) (bi mod 8) = true) as Ht.
    { rewrite Z.land_spec, E, bit_mask_testbit by lia. by rewrite Z.eqb_refl. }
    by rewrite H, Z.testbit_0_l in Ht.
  - apply Z.eqb_eq. apply Z.bits_inj'. intros k Hk. rewrite Z.land_spec, bit_mask_testbit, Z.testbit_0_l by done.
    destruct (Z.eqb_spec k (bi mod 8)) as [->|]; [by rewrite E|by rewrite andb_false_r].
Qed.

Lemma bit_used_testbit d bi : bit_used d bi = Z.testbit (d !!! bit_byte bi) (bi mod 8).
Proof. unfold bit_used. by rewrite land_mask, negb_involutive. Qed.

(** The bits of a block are numbered by byte and position. *)
Lemma bit_byte_mod bi bj : 0 <= bi -> 0 <= bj -> bit_byte bi = bit_byte bj -> bi mod 8 = bj mod 8 -> bi = bj.
Proof.
  intros Hi Hj Hb Hm. unfold bit_byte in Hb.
  assert (bi / 8 = bj / 8) by (pose proof (Z.div_pos bi 8); pose proof (Z.div_pos bj 8); lia).
  rewrite (Z.div_mod bi 8), (Z.div_mod bj 8) by lia. congruence.
Qed.

Lemma bit_byte_lt bi : 0 <= bi < BPB -> (bit_byte bi < Z.to_nat BSIZE)%nat.
Proof.
  intros Hi. unfold bit_byte, BPB, BSIZE in *. assert (bi / 8 < 512) by (apply Z.div_lt_upper_bound; lia).
  pose proof (Z.div_pos bi 8). lia.
Qed.

Lemma bit_set_spec d bi bj :
  length d = Z.to_nat BSIZE -> 0 <= bi < BPB -> 0 <= bj ->
  bit_used (bit_set bi d) bj = bool_decide (bi = bj) || bit_used d bj.
Proof.
  intros Hl Hi Hj. rewrite !bit_used_testbit. unfold bit_set.
  pose proof (Z.mod_pos_bound bj 8 eq_refl).
  destruct (decide (bit_byte bi = bit_byte bj)) as [E|E].
  - rewrite <- E. rewrite list_lookup_total_insert_eq by (rewrite Hl; by apply bit_byte_lt).
    rewrite Z.lor_spec, bit_mask_testbit by lia. rewrite orb_comm. f_equal.
    case_bool_decide as Hb; [subst; apply Z.eqb_refl|]. apply Z.eqb_neq. intros Hm. apply Hb.
    apply bit_byte_mod; [lia..|done|by symmetry].
  - rewrite list_lookup_total_insert_ne by done. rewrite bool_decide_eq_false_2; [done|by intros ->].
Qed.

Lemma bit_clear_spec d bi bj :
  length d = Z.to_nat BSIZE -> 0 <= bi < BPB -> 0 <= bj ->
  bit_used (bit_clear bi d) bj = bool_decide (bi <> bj) && bit_used d bj.
Proof.
  intros Hl Hi Hj. rewrite !bit_used_testbit. unfold bit_clear.
  pose proof (Z.mod_pos_bound bj 8 eq_refl).
  destruct (decide (bit_byte bi = bit_byte bj)) as [E|E].
  - rewrite <- E. rewrite list_lookup_total_insert_eq by (rewrite Hl; by apply bit_byte_lt).
    rewrite Z.land_spec, Z.lnot_spec, bit_mask_testbit by lia. rewrite andb_comm. f_equal.
    case_bool_decide as Hb; [|subst; by rewrite Z.eqb_refl].
    apply negb_true_iff, Z.eqb_neq. intros Hm. apply Hb.
    apply bit_byte_mod; [lia..|done|by symmetry].
  - rewrite list_lookup_total_insert_ne by done. rewrite bool_decide_eq_true_2; [done|]. by intros ->.
Qed.

Lemma length_bit_set bi d : length (bit_set bi d) = length d.
Proof. apply length_insert. Qed.
Lemma length_bit_clear bi d : length (bit_clear bi d) = length d.
Proof. apply length_insert. Qed.

(** The search finds the first free bit below the bound. *)
Lemma free_bit_spec n bi b size d :
  match free_bit n bi b size d with
  | Some bj => bi <= bj < bi + Z.of_nat n /\ b + bj < size /\ bit_used d bj = false /\
      forall k, bi <= k < bj -> bit_used d k = true
  | None => forall k, bi <= k < bi + Z.of_nat n -> b + k < size -> bit_used d k = true
  end.
Proof.
  revert bi. induction n as [|n IH]; intros bi; simpl; [intros; lia|].
  destruct (Z.ltb_spec (b + bi) size) as [Hs|Hs]; [|intros; lia].
  destruct (bit_used d bi) eqn:E.
  - specialize (IH (bi + 1)). destruct (free_bit n (bi + 1) b size d) as [bj|].
    + destruct IH as (H1 & H2 & H3 & H4). split_and?; [lia..|done|].
      intros k Hk. destruct (decide (k = bi)) as [->|]; [done|]. apply H4. lia.
    + intros k Hk Hb. destruct (decide (k = bi)) as [->|]; [done|]. apply IH; [lia|done].
  - split_and?; [lia..|done|]. intros; lia.
Qed.

(** ** Reading within a transaction *)

Section Trans.
Context (start size : Z).

(** The contents of a sector in a transaction that has logged [es] over the
    disk [d0]. *)
Definition seen (es : list (Z * list Z)) (d0 : list (list Z)) (sec : Z) : option (list Z) :=
  rview (list_to_map es) d0 sec.

Lemma seen_put es d0 sec blk sec' :
  seen (put_ent sec blk es) d0 sec' = if decide (sec' = sec) then Some blk else seen es d0 sec'.
Proof.
  unfold seen, rview. rewrite put_ent_map. destruct (decide (sec' = sec)) as [->|].
  - by rewrite lookup_insert_eq.
  - by rewrite lookup_insert_ne.
Qed.

Lemma seen_entry es d0 sec f blk :
  seen es d0 sec = Some blk ->
  forall sec', seen (log_entry d0 es (sec, f)) d0 sec' = if decide (sec' = sec) then Some (f blk) else seen es d0 sec'.
Proof.
  intros Hs sec'. unfold log_entry, entry_of. cbn [fst snd]. unfold seen in Hs. rewrite Hs. simpl.
  apply seen_put.
Qed.

(** Reading a sector and letting it go. *)
(** Reading a sector; the inode cache may change before the buffer is
    released. *)
Lemma read_load w0 d0 es s env sec :
  tinv start size w0 d0 es s -> data_sector start size s sec -> (length es < NBUF)%nat ->
  exists b fl blk s1, bread 1 sec s env = Ok b s1 env /\ seen es d0 sec = Some blk /\
    length blk = Z.to_nat BSIZE /\
    (exists bf, get_buf b s1 env = Ok bf s1 env /\ bf.(b_data) = blk) /\
    rep [hb b fl sec blk] (list_to_map es) s1 /\ frame s s1 /\
    s1.(disk) = s.(disk) /\ s1.(dwrites) = s.(dwrites) /\
    forall ic, exists s2, brelse b (set_icache ic s1) env = Ok tt s2 env /\ lframe (set_icache ic s) s2 /\
      tinv start size w0 d0 es s2.
Proof.
  intros Hti [Hr Hnl] Hlen.
  pose proof Hti as (Hrep & Hnd & Hlg & Hbusy & Hlk & Hg & Hdat & (ws & Hw & Hd & Hws) & Hes).
  destruct (bread_rep [] _ s sec env Hrep Hr) as (b & fl & blk & s1 & Hrun & Hf & Hk & Hkw & Hv & Hfl & Hr1).
  { by intros e ?%elem_of_nil. }
  { left. rewrite ents_size by done. unfold nclean. simpl. lia. }
  destruct (rep_buf _ _ _ b fl sec blk Hr1 ltac:(left)) as (_ & _ & _ & _ & _ & _ & _ & _ & _ & _ & _ & Hbl).
  destruct (get_buf_rep _ _ s1 b fl sec blk env Hr1 ltac:(left)) as (bf & Hget & _ & _ & _ & Hbd).
  pose proof (tinv_view start size w0 d0 es s sec Hti ltac:(lia) Hnl) as Hview.
  exists b, fl, blk, s1. split_and?; try done.
  - unfold seen. by rewrite <- Hview.
  - by exists bf.
  - intros ic. destruct (brelse_rep _ _ (set_icache ic s1) b _ _ _ env Hr1) as (s2 & Hrun2 & Hf2 & Hk2 & Hkw2 & Hr2).
    { intros Hcl. simpl. rewrite Hk. rewrite Hcl in Hfl. symmetry in Hfl. apply bool_decide_eq_false in Hfl.
      unfold rview in Hv. destruct (list_to_map es !! sec) eqn:E; [|done]. exfalso. apply Hfl. by eexists. }
    assert (frame (set_icache ic s) s2) as Hf3 by exact (frame_trans _ _ _ (frame_set_icache ic _ _ Hf) Hf2).
    exists s2. split_and?; [done|by apply frame_lframe|].
    assert (Hds : disk s2 = disk s) by (simpl in Hk2; congruence).
    unfold tinv. rewrite (frame_klog _ _ Hf3), Hds. unfold geom, data_sector, disksize. rewrite Hds.
    rewrite (lframe_kcpu _ _ (frame_lframe _ _ Hf3)).
    split_and?; try done; try apply Hg. exists ws. split_and?; try done. simpl in Hkw2. congruence.
Qed.

Lemma read_run w0 d0 es s env sec :
  tinv start size w0 d0 es s -> data_sector start size s sec -> (length es < NBUF)%nat ->
  exists b fl blk s1, bread 1 sec s env = Ok b s1 env /\ seen es d0 sec = Some blk /\
    length blk = Z.to_nat BSIZE /\
    (exists bf, get_buf b s1 env = Ok bf s1 env /\ bf.(b_data) = blk) /\
    rep [hb b fl sec blk] (list_to_map es) s1 /\ frame s s1 /\
    s1.(disk) = s.(disk) /\ s1.(dwrites) = s.(dwrites) /\
    exists s2, brelse b s1 env = Ok tt s2 env /\ lframe s s2 /\ tinv start size w0 d0 es s2.
Proof.
  intros Hti Hd Hlen. destruct (read_load w0 d0 es s env sec Hti Hd Hlen)
    as (b & fl & blk & s1 & Hrun & Hs & Hl & Hget & Hr & Hf & Hk & Hw & Hrel).
  exists b, fl, blk, s1. split_and?; try done. destruct (Hrel (icache s)) as (s2 & Hrun2 & Hlf & Hti2).
  rewrite <- (frame_icache _ _ Hf), set_icache_same, (frame_icache _ _ Hf), set_icache_same in *. by exists s2.
Qed.

Lemma readsb_run w0 d0 es s env blk :
  tinv start size w0 d0 es s -> data_sector start size s 1 -> (length es < NBUF)%nat ->
  seen es d0 1 = Some blk ->
  exists s', readsb 1 s env = Ok (sb_of_block blk) s' env /\ lframe s s' /\ tinv start size w0 d0 es s'.
Proof.
  intros Hti Hs1 Hlen Hsb.
  destruct (read_run w0 d0 es s env 1 Hti Hs1 Hlen) as (b & fl & blk' & s1 & Hrun & Hseen & _ & (bf & Hget & Hbd) & _ & _ & _ & _ & s2 & Hrel & Hlf & Hti2).
  assert (blk' = blk) as -> by congruence.
  exists s2. split_and?; [|done|done]. unfold readsb. mstep Hrun. mstep Hget. rewrite Hbd. mstep Hrel. done.
Qed.

(** ** The allocator *)

(** Room for [k] more sectors in the transaction. *)
Definition room (k : nat) (es : list (Z * list Z)) : Prop :=
  (length es + k < NBUF)%nat /\ Z.of_nat (length es + k) < size.

Lemma room_entry k d0 es u : room (S k) es -> room k (log_entry d0 es u).
Proof.
  intros [H1 H2]. unfold room, log_entry. rewrite put_ent_length. case_decide; split; lia.
Qed.

Lemma update_run w0 d0 es s env sec f :
  tinv start size w0 d0 es s -> data_sector start size s sec -> keeps_size f -> room 1 es ->
  exists s', log_update sec f s env = Ok tt s' env /\ lframe s s' /\
    tinv start size w0 d0 (log_entry d0 es (sec, f)) s'.
Proof. intros Hti Hds Hk [H1 H2]. apply log_update_run; try done; [left| |]; lia. Qed.

(** Sector numbers do not change within a transaction. *)
Lemma tinv_disksize w0 d0 es s : tinv start size w0 d0 es s -> disksize s = Z.of_nat (length d0).
Proof.
  intros (_ & _ & _ & _ & _ & _ & _ & (ws & _ & Hd & _) & _). unfold disksize. by rewrite Hd, length_apply.
Qed.

Definition on_disk (d0 : list (list Z)) (sec : Z) : Prop :=
  0 <= sec < Z.of_nat (length d0) /\ ~ in_log start size sec.

Lemma on_disk_sector w0 d0 es s sec : tinv start size w0 d0 es s -> on_disk d0 sec -> data_sector start size s sec.
Proof. intros Hti Hd. unfold data_sector. by rewrite (tinv_disksize _ _ _ _ Hti). Qed.

Definition zeros : list Z := replicate (Z.to_nat BSIZE) 0.

Lemma bzero_run w0 d0 es s env x :
  tinv start size w0 d0 es s -> on_disk d0 x -> 0 <= x < 2 ^ 31 -> room 1 es ->
  exists s', bzero 1 x s env = Ok tt s' env /\ lframe s s' /\
    tinv start size w0 d0 (log_entry d0 es (x, fun _ => zeros)) s'.
Proof.
  intros Hti Hx Hr Hroom.
  destruct (update_run w0 d0 es s env x (fun _ => zeros) Hti) as (s' & Hrun & Hf & Hti').
  - by eapply on_disk_sector.
  - by intros blk _.
  - done.
  - exists s'. split_and?; [|done|done]. unfold bzero.
    assert (u32 x = x) as -> by (unfold u32; rewrite Z.mod_small; lia). exact Hrun.
Qed.

(** A read-check-update of one sector, as bfree and balloc make. *)
Lemma checked_update_run w0 d0 es s env sec f :
  tinv start size w0 d0 es s -> on_disk d0 sec -> keeps_size f -> room 1 es ->
  exists b bf blk s1, bread 1 sec s env = Ok b s1 env /\ get_buf b s1 env = Ok bf s1 env /\
    bf.(b_data) = blk /\ seen es d0 sec = Some blk /\ length blk = Z.to_nat BSIZE /\ frame s s1 /\
    (exists s2, brelse b s1 env = Ok tt s2 env /\ lframe s s2 /\ tinv start size w0 d0 es s2) /\
    exists s2, (modify (upd_buf b (fun x => set_b_data (f x.(b_data)) x)) ;;; log_write b ;;; brelse b) s1 env
        = Ok tt s2 env /\ lframe s s2 /\ tinv start size w0 d0 (log_entry d0 es (sec, f)) s2.
Proof.
  intros Hti Hd Hk Hroom. pose proof (on_disk_sector _ _ _ _ _ Hti Hd) as Hds.
  destruct (read_run w0 d0 es s env sec Hti Hds) as (b & fl & blk & s1 & Hrun & Hseen & Hl & (bf & Hget & Hbd) & _ & Hfr & _ & _ & Hrel).
  { destruct Hroom. lia. }
  destruct (update_run w0 d0 es s env sec f Hti Hds Hk Hroom) as (s2 & Hrun2 & Hf2 & Hti2).
  unfold log_update, ROOTDEV in Hrun2. rewrite (bind_ok _ _ _ _ _ _ _ Hrun) in Hrun2.
  exists b, bf, blk, s1. split_and?; try done. by exists s2.
Qed.

Lemma keeps_bit_set bi : keeps_size (bit_set bi).
Proof. intros blk H. by rewrite length_bit_set. Qed.
Lemma keeps_bit_clear bi : keeps_size (bit_clear bi).
Proof. intros blk H. by rewrite length_bit_clear. Qed.

(** The file system's geometry as the super block [sb] states it, and what
    must hold for the allocator to work: the super block and the bitmap are
    on the disk, and blocks that the bitmap calls free are plain blocks. *)
Record fs_ok (d0 : list (list Z)) (es : list (Z * list Z)) (sb : superblock) : Prop := {
  fs_sb : exists blk, seen es d0 1 = Some blk /\ sb_of_block blk = sb;
  fs_sb_disk : on_disk d0 1;
  fs_size : 0 <= sb.(sb_size) < 2 ^ 31;
  fs_bitmap : forall x, 0 <= x < sb.(sb_size) -> on_disk d0 (BBLOCK x sb.(sb_ninodes));
  fs_free : forall x bm, 0 <= x < sb.(sb_size) -> seen es d0 (BBLOCK x sb.(sb_ninodes)) = Some bm ->
    bit_used bm (x mod BPB) = false ->
    on_disk d0 x /\ x <> 1 /\ forall y, 0 <= y < sb.(sb_size) -> x <> BBLOCK y sb.(sb_ninodes);
  fs_ninodes : 0 <= sb.(sb_ninodes)
}.

(** Is block [x] in use? *)
Definition used (es : list (Z * list Z)) (d0 : list (list Z)) (sb : superblock) (x : Z) : bool :=
  match seen es d0 (BBLOCK x sb.(sb_ninodes)) with
  | Some bm => bit_used bm (x mod BPB)
  | None => true
  end.

Lemma bfree_run w0 d0 es sb s env x :
  tinv start size w0 d0 es s -> fs_ok d0 es sb -> room 1 es ->
  0 <= x < sb.(sb_size) -> used es d0 sb x = true ->
  exists s', bfree 1 x s env = Ok tt s' env /\ lframe s s' /\
    tinv start size w0 d0 (log_entry d0 es (BBLOCK x sb.(sb_ninodes), bit_clear (x mod BPB))) s'.
Proof.
  intros Hti Hfs Hroom Hx Hused. destruct (fs_sb _ _ _ Hfs) as (sbk & Hsbk & Hsb).
  destruct (readsb_run w0 d0 es s env sbk Hti) as (s1 & Hrun1 & Hf1 & Hti1); try done.
  { eapply on_disk_sector; [done|apply Hfs]. } { destruct Hroom. lia. }
  unfold bfree. mstep Hrun1. rewrite Hsb.
  destruct (checked_update_run w0 d0 es s1 env (BBLOCK x (sb_ninodes sb)) (bit_clear (x mod BPB)) Hti1)
    as (b & bf & blk & s2 & Hrun2 & Hget & Hbd & Hseen & Hl & _ & _ & (s3 & Hrun3 & Hf3 & Hti3)).
  { by apply (fs_bitmap _ _ _ Hfs). } { apply keeps_bit_clear. } { done. }
  mstep Hrun2. mstep Hget. rewrite Hbd. unfold used in Hused. rewrite Hseen in Hused. rewrite Hused. simpl.
  exists s3. split_and?; [done|by eapply lframe_trans|done].
Qed.

(** One step of balloc's outer loop. *)
Definition balloc_body (sb : superblock) (b : Z) : K (option Z) :=
  bp <- bread 1 (BBLOCK b sb.(sb_ninodes)) ;;
  bf <- get_buf bp ;;
  match free_bit (Z.to_nat BPB) 0 b sb.(sb_size) bf.(b_data) with
  | Some bi =>
      modify (upd_buf bp (fun x => set_b_data (bit_set bi x.(b_data)) x)) ;;;
      log_write bp ;;;
      brelse bp ;;;
      bzero 1 (b + bi) ;;;
      ret (Some (b + bi))
  | None =>
      brelse bp ;;;
      ret None
  end.

(** What an allocation of [x] does to the transaction. *)
Definition allocated (d0 : list (list Z)) (sb : superblock) (x : Z) (es : list (Z * list Z)) :=
  log_entry d0 (log_entry d0 es (BBLOCK x sb.(sb_ninodes), bit_set (x mod BPB))) (x, fun _ => zeros).

Lemma base_block b bi n : b mod BPB = 0 -> 0 <= bi < BPB ->
  BBLOCK (b + bi) n = BBLOCK b n /\ (b + bi) mod BPB = bi.
Proof.
  intros Hb Hi. apply Z.mod_divide in Hb as [k ->]; [|done]. unfold BBLOCK.
  rewrite (Z.add_comm (k * BPB)), Z.div_add, Z.mod_add by done.
  rewrite Z.div_mul, (Z.div_small bi), (Z.mod_small bi) by done. split; lia.
Qed.

Lemma balloc_body_run w0 d0 es sb s env b :
  tinv start size w0 d0 es s -> fs_ok d0 es sb -> room 2 es -> b mod BPB = 0 -> 0 <= b < sb.(sb_size) ->
  exists o s', balloc_body sb b s env = Ok o s' env /\ lframe s s' /\
    match o with
    | Some x => b <= x < b + BPB /\ x < sb.(sb_size) /\ used es d0 sb x = false /\
        (forall y, b <= y < x -> used es d0 sb y = true) /\
        tinv start size w0 d0 (allocated d0 sb x es) s'
    | None => tinv start size w0 d0 es s' /\
        forall y, b <= y < b + BPB -> y < sb.(sb_size) -> used es d0 sb y = true
    end.
Proof.
  intros Hti Hfs Hroom Hb Hbs. unfold balloc_body.
  pose proof (fs_bitmap _ _ _ Hfs b Hbs) as Hbm.
  assert (Hroom1 : room 1 es) by (destruct Hroom; split; lia).
  pose proof (read_run w0 d0 es s env _ Hti (on_disk_sector _ _ _ _ _ Hti Hbm)) as Hread.
  destruct Hread as (bp & fl & blk & s1 & Hrun1 & Hseen & Hl & (bf & Hget & Hbd) & _ & _ & _ & _ & (s2 & Hrel & Hf2 & Hti2)).
  { destruct Hroom. lia. }
  assert (Hused : forall k, 0 <= k < BPB -> used es d0 sb (b + k) = bit_used blk k).
  { intros k Hk. unfold used. destruct (base_block b k (sb_ninodes sb) Hb Hk) as [-> ->]. by rewrite Hseen. }
  mstep Hrun1. mstep Hget. rewrite Hbd.
  pose proof (free_bit_spec (Z.to_nat BPB) 0 b (sb_size sb) blk) as Hfree.
  change (0 + Z.of_nat (Z.to_nat BPB)) with BPB in Hfree.
  destruct (free_bit _ 0 b (sb_size sb) blk) as [bi|].
  - destruct Hfree as (Hbi & Hlt & Hfr & Hfirst).
    destruct (base_block b bi (sb_ninodes sb) Hb Hbi) as [Hbb Hmod].
    destruct (fs_free _ _ _ Hfs (b + bi) blk) as (Hxd & _ & Hxb); [lia|by rewrite Hbb|by rewrite Hmod|].
    destruct (checked_update_run w0 d0 es s env (BBLOCK b (sb_ninodes sb)) (bit_set bi) Hti Hbm (keeps_bit_set bi) Hroom1)
      as (bp' & bf' & blk' & s1' & Hrun1' & _ & _ & _ & _ & _ & _ & (s3 & Hrun3 & Hf3 & Hti3)).
    rewrite Hrun1 in Hrun1'. injection Hrun1' as <- <-.
    destruct (bzero_run w0 d0 _ s3 env (b + bi) Hti3 Hxd) as (s4 & Hrun4 & Hf4 & Hti4).
    { pose proof (fs_size _ _ _ Hfs). lia. } { by apply room_entry. }
    exists (Some (b + bi)), s4. split_and?; [|by eapply lframe_trans|lia|lia|lia| | |].
    + unfold bind, modify in Hrun3 |- *. simpl in Hrun3 |- *. destruct (log_write bp _ env) as [[] sa ea|]; [|done].
      destruct (brelse bp sa ea) as [[] sb' eb|]; [|done]. injection Hrun3 as -> ->. by rewrite Hrun4.
    + rewrite Hused; [done|lia].
    + intros y Hy. replace y with (b + (y - b)) by lia. rewrite Hused by lia. apply Hfirst. lia.
    + unfold allocated. by rewrite Hbb, Hmod.
  - exists None, s2. split_and?; [by mstep Hrel|done|done|].
    intros y Hy Hlt. replace y with (b + (y - b)) by lia. rewrite Hused by lia. apply Hfree; lia.
Qed.

(** The search over the bitmap blocks from base [k] on. *)
Lemma balloc_search w0 d0 sb env n : forall k es s,
  tinv start size w0 d0 es s -> fs_ok d0 es sb -> room 2 es ->
  (forall j, (j < k + n)%nat -> Z.of_nat j * BPB < sb.(sb_size)) ->
  exists o s', mfind ((fun k => Z.of_nat k * BPB) <$> seq k n) (balloc_body sb) s env = Ok o s' env /\ lframe s s' /\
    match o with
    | Some x => Z.of_nat k * BPB <= x < sb.(sb_size) /\ used es d0 sb x = false /\
        (forall y, Z.of_nat k * BPB <= y < x -> used es d0 sb y = true) /\
        tinv start size w0 d0 (allocated d0 sb x es) s'
    | None => tinv start size w0 d0 es s' /\
        forall y, Z.of_nat k * BPB <= y < Z.of_nat (k + n) * BPB -> y < sb.(sb_size) -> used es d0 sb y = true
    end.
Proof.
  induction n as [|n IH]; intros k es s Hti Hfs Hroom Hk; simpl.
  { exists None, s. split_and?; [done|apply lframe_refl|done|]. intros y Hy. lia. }
  destruct (balloc_body_run w0 d0 es sb s env (Z.of_nat k * BPB) Hti Hfs Hroom) as (o & s1 & Hrun & Hf & Ho).
  { by rewrite Z.mod_mul. } { split; [unfold BPB, BSIZE; lia|apply Hk; lia]. }
  mstep Hrun. destruct o as [x|].
  - destruct Ho as (Hx & Hxs & Hu & Hfirst & Hti'). exists (Some x), s1. split_and?; try done; lia.
  - destruct Ho as (Hti1 & Hall). destruct (IH (S k) es s1 Hti1 Hfs Hroom) as (o & s2 & Hrun2 & Hf2 & Ho2).
    { intros j Hj. apply Hk. lia. }
    exists o, s2. split_and?; [done|by eapply lframe_trans|].
    assert (Hnext : forall y, Z.of_nat k * BPB <= y -> y < sb_size sb -> ~ Z.of_nat (S k) * BPB <= y -> used es d0 sb y = true).
    { intros y H1 H2 H3. apply Hall; lia. }
    destruct o as [x|].
    + destruct Ho2 as (Hx & Hu & Hfirst & Hti2). assert (0 < BPB) by done. split_and?; try done; try lia.
      intros y Hy. destruct (decide (Z.of_nat (S k) * BPB <= y)); [apply Hfirst; lia|]. apply Hnext; [lia..|done].
    + destruct Ho2 as (Hti2 & Hall2). split; [done|].
      intros y Hy Hys. destruct (decide (Z.of_nat (S k) * BPB <= y)); [apply Hall2; [lia|done]|].
      apply Hnext; [lia..|done].
Qed.

Lemma balloc_run w0 d0 es sb s env :
  tinv start size w0 d0 es s -> fs_ok d0 es sb -> room 2 es ->
  exists o s', lframe s s' /\
    match o with
    | Some x => balloc 1 s env = Ok x s' env /\ 0 <= x < sb.(sb_size) /\ used es d0 sb x = false /\
        (forall y, 0 <= y < x -> used es d0 sb y = true) /\
        tinv start size w0 d0 (allocated d0 sb x es) s'
    | None => balloc 1 s env = Err (Panic "balloc: out of blocks") s' env /\
        forall y, 0 <= y < sb.(sb_size) -> used es d0 sb y = true
    end.
Proof.
  intros Hti Hfs Hroom. destruct (fs_sb _ _ _ Hfs) as (sbk & Hsbk & Hsb).
  destruct (readsb_run w0 d0 es s env sbk Hti) as (s1 & Hrun1 & Hf1 & Hti1); try done.
  { eapply on_disk_sector; [done|apply Hfs]. } { destruct Hroom. lia. }
  pose proof (fs_size _ _ _ Hfs) as Hsz.
  set (n := Z.to_nat ((sb_size sb + BPB - 1) / BPB)).
  assert (Hn : Z.of_nat n = (sb_size sb + BPB - 1) / BPB).
  { unfold n. rewrite Z2Nat.id; [done|]. apply Z.div_pos; unfold BPB, BSIZE; lia. }
  destruct (balloc_search w0 d0 sb env n 0 es s1 Hti1 Hfs Hroom) as (o & s2 & Hrun2 & Hf2 & Ho).
  { intros j Hj. assert (Z.of_nat j < (sb_size sb + BPB - 1) / BPB) as Hjn by lia.
    pose proof (Z.mul_div_le (sb_size sb + BPB - 1) BPB eq_refl). unfold BPB, BSIZE in *. lia. }
  exists o, s2. split; [by eapply lframe_trans|].
  unfold balloc. rewrite (bind_ok _ _ _ _ _ _ _ Hrun1), Hsb. unfold bitmap_bases. fold n.
  change (fun b : Z => _) with (balloc_body sb). rewrite (bind_ok _ _ _ _ _ _ _ Hrun2).
  destruct o as [x|].
  - destruct Ho as (Hx & Hu & Hfirst & Hti2). split_and?; try done; try lia.
  - split; [done|]. destruct Ho as [_ Hall]. intros y Hy. apply Hall; [|lia].
    rewrite Nat.add_0_l, Hn. pose proof (Z.mul_succ_div_gt (sb_size sb + BPB - 1) BPB eq_refl).
    unfold BPB, BSIZE in *. lia.
Qed.

(** ** What the file system sees of an allocation *)

Lemma seen_length w0 d0 es s sec :
  tinv start size w0 d0 es s -> on_disk d0 sec -> (length es < NBUF)%nat ->
  exists blk, seen es d0 sec = Some blk /\ length blk = Z.to_nat BSIZE.
Proof.
  intros Hti Hd Hlen.
  destruct (read_run w0 d0 es s [] sec Hti (on_disk_sector _ _ _ _ _ Hti Hd) Hlen)
    as (b & fl & blk & s1 & _ & Hseen & Hl & _).
  by exists blk.
Qed.

Lemma bitmap_not_sb sb x : 0 <= sb.(sb_ninodes) -> 0 <= x -> BBLOCK x sb.(sb_ninodes) <> 1.
Proof.
  intros Hn Hx. unfold BBLOCK. assert (0 < BPB) by done. assert (0 < IPB) by done.
  pose proof (Z.div_pos x BPB). pose proof (Z.div_pos (sb_ninodes sb) IPB). lia.
Qed.

(** Changing one bit of the bitmap: the bits of the other blocks stay. *)
Lemma bitmap_update es es' d0 sb x (f : list Z -> list Z) (v : bool) blk :
  0 <= sb.(sb_ninodes) -> 0 <= x < sb.(sb_size) ->
  seen es d0 (BBLOCK x sb.(sb_ninodes)) = Some blk ->
  (forall k, 0 <= k < BPB -> bit_used (f blk) k = if decide (k = x mod BPB) then v else bit_used blk k) ->
  (forall y, 0 <= y < sb.(sb_size) -> seen es' d0 (BBLOCK y sb.(sb_ninodes)) =
     if decide (BBLOCK y sb.(sb_ninodes) = BBLOCK x sb.(sb_ninodes)) then Some (f blk)
     else seen es d0 (BBLOCK y sb.(sb_ninodes))) ->
  forall y, 0 <= y < sb.(sb_size) -> used es' d0 sb y = if decide (y = x) then v else used es d0 sb y.
Proof.
  intros Hn Hx Hblk Hbits Hseen y Hy. unfold used. rewrite Hseen by done. assert (0 < BPB) by done.
  pose proof (Z.mod_pos_bound y BPB). pose proof (Z.div_mod y BPB). pose proof (Z.div_mod x BPB).
  destruct (decide (y = x)) as [->|Hne].
  - rewrite decide_True, Hbits, decide_True by (done || lia). done.
  - destruct (decide (BBLOCK y _ = _)) as [E|E]; [|done]. rewrite E, Hblk, Hbits, decide_False; try done; [|lia].
    intros Hm. apply Hne. unfold BBLOCK in E. assert (y / BPB = x / BPB) by lia. lia.
Qed.

Lemma allocated_seen es d0 sb x blk blk' sec :
  seen es d0 (BBLOCK x sb.(sb_ninodes)) = Some blk -> seen es d0 x = Some blk' ->
  x <> BBLOCK x sb.(sb_ninodes) ->
  seen (allocated d0 sb x es) d0 sec =
    if decide (sec = x) then Some zeros
    else if decide (sec = BBLOCK x sb.(sb_ninodes)) then Some (bit_set (x mod BPB) blk) else seen es d0 sec.
Proof.
  intros Hb Hx Hne. unfold allocated. pose proof (seen_entry es d0 _ (bit_set (x mod BPB)) blk Hb) as H1.
  rewrite (seen_entry _ d0 x (fun _ => zeros) blk') by (by rewrite H1, decide_False).
  destruct (decide (sec = x)); [done|]. by rewrite H1.
Qed.

Lemma allocated_ok w0 d0 es sb s x :
  tinv start size w0 d0 es s -> fs_ok d0 es sb -> (length es < NBUF)%nat ->
  0 <= x < sb.(sb_size) -> used es d0 sb x = false ->
  let es' := allocated d0 sb x es in
  fs_ok d0 es' sb /\ seen es' d0 x = Some zeros /\
  (forall y, 0 <= y < sb.(sb_size) -> used es' d0 sb y = if decide (y = x) then true else used es d0 sb y) /\
  (forall sec, sec <> x -> sec <> BBLOCK x sb.(sb_ninodes) -> seen es' d0 sec = seen es d0 sec).
Proof.
  intros Hti Hfs Hlen Hx Hu es'.
  destruct (seen_length w0 d0 es s _ Hti (fs_bitmap _ _ _ Hfs x Hx) Hlen) as (blk & Hblk & Hl).
  assert (Hbu : bit_used blk (x mod BPB) = false) by (unfold used in Hu; by rewrite Hblk in Hu).
  destruct (fs_free _ _ _ Hfs x blk Hx Hblk Hbu) as (Hxd & Hx1 & Hxb).
  destruct (seen_length w0 d0 es s x Hti Hxd Hlen) as (blk' & Hblk' & _).
  pose proof (fun sec => allocated_seen es d0 sb x blk blk' sec Hblk Hblk' (Hxb x Hx)) as Hseen.
  fold es' in Hseen. pose proof (fs_ninodes _ _ _ Hfs) as Hni.
  assert (Hused : forall y, 0 <= y < sb_size sb -> used es' d0 sb y = if decide (y = x) then true else used es d0 sb y).
  { apply (bitmap_update es es' d0 sb x (bit_set (x mod BPB)) true blk); try done.
    - intros k Hk. pose proof (Z.mod_pos_bound x BPB eq_refl). rewrite bit_set_spec by (done || lia).
      destruct (decide (k = x mod BPB)) as [->|?]; [by rewrite bool_decide_eq_true_2|by rewrite bool_decide_eq_false_2].
    - intros y Hy. rewrite Hseen, decide_False by (intros E; by apply (Hxb y Hy)). done. }
  split_and?; try done.
  - constructor; try apply Hfs.
    + destruct (fs_sb _ _ _ Hfs) as (sbk & Hsbk & Hsb). exists sbk. split; [|done].
      rewrite Hseen, !decide_False; try done. intros E. symmetry in E. revert E. apply bitmap_not_sb; lia.
    + intros y bm Hy Hbm Hyu. specialize (Hused y Hy). unfold used in Hused. rewrite Hbm, Hyu in Hused.
      case_decide; [done|]. destruct (seen es d0 (BBLOCK y _)) as [bm0|] eqn:E; [|done].
      by apply (fs_free _ _ _ Hfs y bm0).
  - by rewrite Hseen, decide_True.
  - intros sec H1 H2. by rewrite Hseen, !decide_False.
Qed.

Lemma freed_used w0 d0 es sb s x :
  tinv start size w0 d0 es s -> fs_ok d0 es sb -> (length es < NBUF)%nat -> 0 <= x < sb.(sb_size) ->
  let es' := log_entry d0 es (BBLOCK x sb.(sb_ninodes), bit_clear (x mod BPB)) in
  (forall y, 0 <= y < sb.(sb_size) -> used es' d0 sb y = if decide (y = x) then false else used es d0 sb y) /\
  (forall sec, sec <> BBLOCK x sb.(sb_ninodes) -> seen es' d0 sec = seen es d0 sec).
Proof.
  intros Hti Hfs Hlen Hx es'.
  destruct (seen_length w0 d0 es s _ Hti (fs_bitmap _ _ _ Hfs x Hx) Hlen) as (blk & Hblk & Hl).
  pose proof (seen_entry es d0 _ (bit_clear (x mod BPB)) blk Hblk) as Hseen. fold es' in Hseen. split.
  - apply (bitmap_update es es' d0 sb x (bit_clear (x mod BPB)) false blk); try done; [apply Hfs|].
    intros k Hk. pose proof (Z.mod_pos_bound x BPB eq_refl). rewrite bit_clear_spec by (done || lia).
    destruct (decide (k = x mod BPB)) as [->|?]; [by rewrite bool_decide_eq_false_2 by tauto|].
    by rewrite bool_decide_eq_true_2 by congruence.
  - intros sec Hs. by rewrite Hseen, decide_False.
Qed.

Lemma bfree_panics w0 d0 es sb s env x :
  tinv start size w0 d0 es s -> fs_ok d0 es sb -> room 1 es ->
  0 <= x < sb.(sb_size) -> used es d0 sb x = false ->
  exists s', bfree 1 x s env = Err (Panic "freeing free block") s' env.
Proof.
  intros Hti Hfs Hroom Hx Hused. destruct (fs_sb _ _ _ Hfs) as (sbk & Hsbk & Hsb).
  destruct (readsb_run w0 d0 es s env sbk Hti) as (s1 & Hrun1 & Hf1 & Hti1); try done.
  { eapply on_disk_sector; [done|apply Hfs]. } { destruct Hroom. lia. }
  unfold bfree. mstep Hrun1. rewrite Hsb.
  destruct (checked_update_run w0 d0 es s1 env (BBLOCK x (sb_ninodes sb)) (bit_clear (x mod BPB)) Hti1)
    as (b & bf & blk & s2 & Hrun2 & Hget & Hbd & Hseen & _).
  { by apply (fs_bitmap _ _ _ Hfs). } { apply keeps_bit_clear. } { done. }
  mstep Hrun2. mstep Hget. rewrite Hbd. unfold used in Hused. rewrite Hseen in Hused. rewrite Hused. simpl.
  by exists s2.
Qed.

End Trans.

(** ** Theorems *)

(** C18: block allocation. Within a transaction with room for two more
    sectors, [balloc] returns the first block whose bitmap bit is clear; it
    sets that bit and no other, the block then reads as zeros, every other
    sector reads as before, and the file system's layout stays well formed.
    It panics exactly when every block of the file system is in use. *)
Theorem balloc_first_free start size w0 d0 es sb s env :
  tinv start size w0 d0 es s -> fs_ok start size d0 es sb -> room size 2 es ->
  (exists x s' es', balloc 1 s env = Ok x s' env /\
     0 <= x < sb.(sb_size) /\ used es d0 sb x = false /\ (forall y, 0 <= y < x -> used es d0 sb y = true) /\
     tinv start size w0 d0 es' s' /\ fs_ok start size d0 es' sb /\ seen es' d0 x = Some zeros /\
     (forall y, 0 <= y < sb.(sb_size) -> used es' d0 sb y = if decide (y = x) then true else used es d0 sb y) /\
     (forall sec, sec <> x -> sec <> BBLOCK x sb.(sb_ninodes) -> seen es' d0 sec = seen es d0 sec)) \/
  (exists s', balloc 1 s env = Err (Panic "balloc: out of blocks") s' env /\
     forall y, 0 <= y < sb.(sb_size) -> used es d0 sb y = true).
Proof.
  intros Hti Hfs Hroom.
  destruct (balloc_run start size w0 d0 es sb s env Hti Hfs Hroom) as ([x|] & s' & _ & H); [left|right].
  - destruct H as (Hrun & Hx & Hu & Hfirst & Hti').
    destruct (allocated_ok start size w0 d0 es sb s x Hti Hfs) as (? & ? & ? & ?); try done.
    { destruct Hroom. lia. }
    by exists x, s', (allocated d0 sb x es).
  - by exists s'.
Qed.

(** Block freeing. Within a transaction with room for one more sector,
    [bfree] of a block in use clears its bit of the bitmap and changes nothing
    else; freeing a free block panics. *)
Theorem bfree_clears start size w0 d0 es sb s env x :
  tinv start size w0 d0 es s -> fs_ok start size d0 es sb -> room size 1 es -> 0 <= x < sb.(sb_size) ->
  if used es d0 sb x
  then exists s' es', bfree 1 x s env = Ok tt s' env /\ tinv start size w0 d0 es' s' /\
    (forall y, 0 <= y < sb.(sb_size) -> used es' d0 sb y = if decide (y = x) then false else used es d0 sb y) /\
    (forall sec, sec <> BBLOCK x sb.(sb_ninodes) -> seen es' d0 sec = seen es d0 sec)
  else exists s', bfree 1 x s env = Err (Panic "freeing free block") s' env.
Proof.
  intros Hti Hfs Hroom Hx. destruct (used es d0 sb x) eqn:Hu.
  - destruct (bfree_run start size w0 d0 es sb s env x Hti Hfs Hroom Hx Hu) as (s' & Hrun & _ & Hti').
    destruct (freed_used start size w0 d0 es sb s x Hti Hfs) as [? ?]; [destruct Hroom; lia|done|].
    by eexists s', _.
  - by eapply bfree_panics.
Qed.

(** A thirty-sector file system: super block, one inode block, the bitmap in
    block 4, a file in blocks 6 and 7, a directory with one entry in block 8,
    the log in blocks 20 to 29; blocks 9 to 19 are free. *)
Definition demo_sb : superblock := Mksb 30 14 8 10.
Definition demo_sb_block : list Z :=
  put32 12 10 (put32 8 8 (put32 4 14 (put32 0 30 (replicate 512 0)))).
Definition demo_bitmap : list Z := 255 :: 1 :: 240 :: 63 :: replicate 508 0.
Definition demo_dir_block : list Z := 5 :: 0 :: 97 :: replicate 509 0.
Definition demo_fs_img : list (list Z) :=
  <[1%nat := demo_sb_block]> (<[4%nat := demo_bitmap]> (<[8%nat := demo_dir_block]> Crash.demo_img)).
Definition demo_fs : kstate :=
  upd_log (fun l => set_l_start 20 (set_l_size 10 (set_l_dev 1 l))) (BioInit.after_binit (kstate0 demo_fs_img)).
Definition demo_in_trans : kstate := upd_log (set_l_busy true) demo_fs.

Lemma demo_fs_quiescent : quiescent 20 10 demo_fs.
Proof.
  unfold quiescent. split_and?; [|done|done|simpl; set_solver|unfold geom, disksize; simpl; lia|].
  - apply rep_log, BioInit.warm_rep.
    + split_and!; try done; simpl; set_solver.
    + split; [done|]. apply Forall_replicate. done.
    + unfold demo_fs, demo_fs_img, Crash.demo_img. simpl. repeat constructor.
  - exists (replicate (Z.to_nat BSIZE) 0). split; [done|]. vm_compute. reflexivity.
Qed.

Lemma demo_tinv : tinv 20 10 [] demo_fs_img [] demo_in_trans.
Proof. exact (begin_tinv 20 10 demo_fs demo_fs_quiescent). Qed.

Lemma demo_bblock x : 0 <= x < 30 -> BBLOCK x 8 = 4.
Proof. intros Hx. unfold BBLOCK. rewrite Z.div_small by (unfold BPB, BSIZE; lia). done. Qed.

Lemma demo_free x : 0 <= x < 30 -> bit_used demo_bitmap (x mod BPB) = false -> 6 <= x < 20.
Proof.
  intros Hx. rewrite Z.mod_small by (unfold BPB, BSIZE; lia).
  assert (Hall : forall k, (k < 30)%nat ->
    bit_used demo_bitmap (Z.of_nat k) = false -> (6 <= k < 20)%nat).
  { intros k Hk. do 30 (destruct k as [|k]; [vm_compute; (discriminate || lia)|]). lia. }
  intros Hu. specialize (Hall (Z.to_nat x)). rewrite Z2Nat.id in Hall by lia. specialize (Hall ltac:(lia) Hu). lia.
Qed.

Lemma demo_fs_ok : fs_ok 20 10 demo_fs_img [] demo_sb.
Proof.
  constructor; try (simpl; lia).
  - exists demo_sb_block. split; [done|]. vm_compute. reflexivity.
  - unfold on_disk, in_log. simpl. lia.
  - intros x Hx. change (sb_ninodes demo_sb) with 8. rewrite demo_bblock by exact Hx. unfold on_disk, in_log. simpl. lia.
  - intros x bm Hx. change (sb_ninodes demo_sb) with 8. change (sb_size demo_sb) with 30 in *.
    rewrite demo_bblock by done. intros Hbm Hu. assert (bm = demo_bitmap) as -> by (by injection Hbm).
    apply demo_free in Hu; [|done]. split_and?; [|lia|].
    + unfold on_disk, in_log. simpl. lia.
    + intros y Hy. rewrite demo_bblock by done. lia.
Qed.

Lemma balloc_first_free_witness :
  (exists x s' es', balloc 1 demo_in_trans [] = Ok x s' [] /\
     0 <= x < 30 /\ used [] demo_fs_img demo_sb x = false /\
     (forall y, 0 <= y < x -> used [] demo_fs_img demo_sb y = true) /\
     tinv 20 10 [] demo_fs_img es' s' /\ fs_ok 20 10 demo_fs_img es' demo_sb /\ seen es' demo_fs_img x = Some zeros /\
     (forall y, 0 <= y < 30 -> used es' demo_fs_img demo_sb y =
        if decide (y = x) then true else used [] demo_fs_img demo_sb y) /\
     (forall sec, sec <> x -> sec <> BBLOCK x 8 -> seen es' demo_fs_img sec = seen [] demo_fs_img sec)) \/
  (exists s', balloc 1 demo_in_trans [] = Err (Panic "balloc: out of blocks") s' [] /\
     forall y, 0 <= y < 30 -> used [] demo_fs_img demo_sb y = true).
Proof.
  apply (balloc_first_free 20 10 [] demo_fs_img [] demo_sb demo_in_trans []);
    [exact demo_tinv|exact demo_fs_ok|split; unfold NBUF; simpl; lia].
Defined.

Lemma bfree_clears_witness :
  exists s' es', bfree 1 5 demo_in_trans [] = Ok tt s' [] /\ tinv 20 10 [] demo_fs_img es' s' /\
    (forall y, 0 <= y < 30 -> used es' demo_fs_img demo_sb y =
       if decide (y = 5) then false else used [] demo_fs_img demo_sb y) /\
    (forall sec, sec <> 4 -> seen es' demo_fs_img sec = seen [] demo_fs_img sec).
Proof.
  apply (bfree_clears 20 10 [] demo_fs_img [] demo_sb demo_in_trans [] 5);
    [exact demo_tinv|exact demo_fs_ok|split; unfold NBUF; simpl; lia|simpl; lia].
Defined.

End BlockFacts.
