(* ===== verification/InodeFacts.v ===== *)
(** Inodes (kernel/fs.c): the on-disk format, copying inodes to disk and
    allocating them. *)
From S2P Require Import Prelude Types Spinlock Sched Bio BioFacts BioAbs BioRep Log LogSpec LogFacts Crash Inode BlockFacts.
Import Spinlock Sched Bio BioFacts BioAbs BioRep Log LogSpec LogFacts Inode BlockFacts.

Module InodeFacts.

(** ** The on-disk format *)

(** What a [struct dinode] holds. *)
Record dinode : Type := Mkdinode {
  di_type : Z;
  di_major : Z;
  di_minor : Z;
  di_nlink : Z;
  di_size : Z;
  di_addrs : list Z
}.

Definition read_dinode (d : list Z) (o : nat) : dinode :=
  Mkdinode (d_type d o) (d_major d o) (d_minor d o) (d_nlink d o) (d_size d o) (d_addrs d o).

Definition dinode_of (i : inode) : dinode :=
  Mkdinode i.(i_type) i.(i_major) i.(i_minor) i.(i_nlink) i.(i_size) i.(i_addrs).

(** The values the C types of the fields admit. *)
Definition is_short (z : Z) : Prop := - 2 ^ 15 <= z < 2 ^ 15.
Definition is_uint (z : Z) : Prop := 0 <= z < 2 ^ 32.
Definition inode_ok (i : inode) : Prop :=
  is_short i.(i_type) /\ is_short i.(i_major) /\ is_short i.(i_minor) /\ is_short i.(i_nlink) /\
  is_uint i.(i_size) /\ length i.(i_addrs) = 13%nat /\ Forall is_uint i.(i_addrs).

Lemma s16_id z : is_short z -> s16 (z mod 256 ^ Z.of_nat 2) = z.
Proof. unfold is_short, s16. change (256 ^ Z.of_nat 2) with 65536. intros. Z.to_euclidean_division_equations. lia. Qed.

Lemma words_cons z l : mjoin (le_bytes 4 <$> (z :: l)) = le_bytes 4 z ++ mjoin (le_bytes 4 <$> l).
Proof. done. Qed.

Lemma length_words l : length (mjoin (le_bytes 4 <$> l)) = (4 * length l)%nat.
Proof. induction l as [|z l IH]; [done|]. rewrite words_cons, length_app, IH, length_le_bytes. simpl. lia. Qed.

Lemma get_words l i z : l !! i = Some z -> get32 (4 * i) (mjoin (le_bytes 4 <$> l)) = z mod 2 ^ 32.
Proof.
  revert i. induction l as [|y l IH]; intros i Hi; [done|]. unfold get_le in *. rewrite words_cons. destruct i as [|i].
  - simpl in Hi. injection Hi as ->. rewrite Nat.mul_0_r, drop_0.
    rewrite <- (length_le_bytes 4 z) at 1. rewrite take_app_length, le_val_bytes. done.
  - replace (4 * S i)%nat with (length (le_bytes 4 y) + 4 * i)%nat by (rewrite length_le_bytes; lia).
    rewrite drop_app_add. by apply IH.
Qed.

Lemma get_splice_in n off new d k :
  (off + length new <= length d)%nat -> (k + n <= length new)%nat ->
  get_le n (off + k) (splice off new d) = get_le n k new.
Proof.
  intros Hl Hk. unfold get_le. f_equal. apply list_eq. intros i.
  destruct (decide (i < n)%nat); [|by rewrite !lookup_take_ge by lia].
  rewrite !lookup_take_lt, !lookup_drop by lia. rewrite lookup_splice_in by lia. f_equal. lia.
Qed.

Lemma get_splice_out n off new d k :
  (off + length new <= length d)%nat -> (k + n <= off \/ off + length new <= k)%nat ->
  get_le n k (splice off new d) = get_le n k d.
Proof. intros. unfold get_le. f_equal. by apply sub_splice_other. Qed.

Ltac dinode_len := repeat first
  [rewrite length_put_le | rewrite length_splice | rewrite length_words | lia].

Lemma length_put_dinode i o d :
  length i.(i_addrs) = 13%nat -> (o + 64 <= length d)%nat -> length (put_dinode i o d) = length d.
Proof. intros Ha Ho. unfold put_dinode. dinode_len. Qed.

Lemma get_put_dinode i o d n k :
  length i.(i_addrs) = 13%nat -> (o + 64 <= length d)%nat -> (k + n <= o \/ o + 64 <= k)%nat ->
  get_le n k (put_dinode i o d) = get_le n k d.
Proof.
  intros Ha Ho Hk. unfold put_dinode. rewrite get_splice_out by dinode_len.
  rewrite !get_put_other by dinode_len. done.
Qed.

(** Writing an inode and reading it back. *)
Lemma read_put_same i o d : inode_ok i -> (o + 64 <= length d)%nat -> read_dinode (put_dinode i o d) o = dinode_of i.
Proof.
  intros (Ht & Hmj & Hmn & Hnl & Hsz & Ha & Hf) Ho. unfold read_dinode, dinode_of.
  assert (Hhd : forall n k, (k + n <= o + 12)%nat -> get_le n k (put_dinode i o d) =
    get_le n k (put32 (o + 8) (i_size i) (put16 (o + 6) (i_nlink i) (put16 (o + 4) (i_minor i)
      (put16 (o + 2) (i_major i) (put16 o (i_type i) d)))))).
  { intros n k Hk. unfold put_dinode. apply get_splice_out; dinode_len. }
  f_equal.
  - unfold d_type. rewrite Hhd by lia. rewrite !get_put_other by dinode_len. rewrite get_put_same by dinode_len. by apply s16_id.
  - unfold d_major. rewrite Hhd by lia. rewrite !get_put_other by dinode_len. rewrite get_put_same by dinode_len. by apply s16_id.
  - unfold d_minor. rewrite Hhd by lia. rewrite !get_put_other by dinode_len. rewrite get_put_same by dinode_len. by apply s16_id.
  - unfold d_nlink. rewrite Hhd by lia. rewrite !get_put_other by dinode_len. rewrite get_put_same by dinode_len. by apply s16_id.
  - unfold d_size. rewrite Hhd by lia. rewrite get_put_same by dinode_len. apply Z.mod_small. exact Hsz.
  - unfold d_addrs. apply list_eq. intros j. rewrite list_lookup_fmap.
    destruct (decide (j < 13)%nat) as [Hj|Hj].
    + rewrite lookup_seq_lt by done. cbn [fmap option_fmap option_map]. rewrite Nat.add_0_l.
      destruct (lookup_lt_is_Some_2 (i_addrs i) j) as [z Hz]; [lia|]. rewrite Hz. f_equal.
      unfold put_dinode. rewrite get_splice_in by dinode_len. rewrite (get_words _ _ _ Hz).
      apply Z.mod_small. rewrite Forall_forall in Hf. apply Hf. by eapply list_elem_of_lookup_2.
    + rewrite lookup_seq_ge by lia. rewrite lookup_ge_None_2 by lia. done.
Qed.

Lemma read_put_other i o d o' :
  length i.(i_addrs) = 13%nat -> (o + 64 <= length d)%nat -> (o' + 64 <= o \/ o + 64 <= o')%nat ->
  read_dinode (put_dinode i o d) o' = read_dinode d o'.
Proof.
  intros Ha Ho Hd. unfold read_dinode, d_type, d_major, d_minor, d_nlink, d_size, d_addrs.
  rewrite !get_put_dinode by (done || lia). f_equal. apply list_fmap_ext.
  intros k j Hj. apply lookup_seq in Hj as [-> Hj]. apply get_put_dinode; [done|done|lia].
Qed.

(** The slots of a block. *)
Lemma dinode_off_bound inum : (dinode_off inum + 64 <= Z.to_nat BSIZE)%nat.
Proof.
  unfold dinode_off. pose proof (Z.mod_pos_bound inum IPB eq_refl) as Hm.
  change IPB with 8 in *. unfold DINODE_SIZE, BSIZE. lia.
Qed.

Lemma dinode_off_disjoint i j : 0 <= i -> 0 <= j -> i <> j -> IBLOCK i = IBLOCK j ->
  (dinode_off i + 64 <= dinode_off j \/ dinode_off j + 64 <= dinode_off i)%nat.
Proof.
  intros Hi Hj Hne. unfold IBLOCK, dinode_off. change IPB with 8. unfold DINODE_SIZE. intros. Z.to_euclidean_division_equations. lia.
Qed.

(** ** Inodes within a transaction *)

Section Trans.
Context (start size : Z).

(** The inode [inum] as the disk has it, in a transaction that has logged
    [es] over [d0]. *)
Definition disk_inode (es : list (Z * list Z)) (d0 : list (list Z)) (inum : Z) : option dinode :=
  (fun blk => read_dinode blk (dinode_off inum)) <$> seen es d0 (IBLOCK inum).

Lemma get_inode_eq ip i s env : s.(icache) !! ip = Some i -> get_inode ip s env = Ok i s env.
Proof. intros H. unfold get_inode. mrun. by rewrite H. Qed.

Lemma lframe_icache s s' : lframe s s' -> s'.(icache) = s.(icache).
Proof. intros H. by apply frame_icache in H. Qed.

Lemma keeps_put_dinode i inum : length i.(i_addrs) = 13%nat -> keeps_size (put_dinode i (dinode_off inum)).
Proof.
  intros Ha blk Hb. rewrite length_put_dinode; [done|done|]. rewrite Hb. apply dinode_off_bound.
Qed.

Lemma iupdate_run w0 d0 es s env ip i :
  tinv start size w0 d0 es s -> room size 1 es ->
  s.(icache) !! ip = Some i -> i.(i_dev) = 1 -> length i.(i_addrs) = 13%nat ->
  on_disk start size d0 (IBLOCK i.(i_inum)) ->
  exists s', iupdate ip s env = Ok tt s' env /\ lframe s s' /\
    tinv start size w0 d0 (log_entry d0 es (IBLOCK i.(i_inum), put_dinode i (dinode_off i.(i_inum)))) s'.
Proof.
  intros Hti Hroom Hi Hdev Ha Hd. unfold iupdate. mstep (get_inode_eq _ _ _ env Hi). rewrite Hdev.
  destruct (checked_update_run start size w0 d0 es s env (IBLOCK (i_inum i)) (put_dinode i (dinode_off (i_inum i))) Hti Hd)
    as (b & bf & blk & s1 & Hrun1 & _ & _ & _ & _ & Hfr & _ & (s2 & Hrun2 & Hf2 & Hti2)).
  { by apply keeps_put_dinode. } { done. }
  mstep Hrun1. rewrite <- (frame_icache _ _ Hfr) in Hi. mstep (get_inode_eq _ _ _ env Hi).
  by exists s2.
Qed.

(** What an update of one slot of an inode block does to the inodes. *)
Lemma slot_update w0 d0 es s inum (f : list Z -> list Z) v :
  tinv start size w0 d0 es s -> (length es < NBUF)%nat -> 0 <= inum -> on_disk start size d0 (IBLOCK inum) ->
  (forall blk, length blk = Z.to_nat BSIZE -> read_dinode (f blk) (dinode_off inum) = v /\
     forall o, (o + 64 <= dinode_off inum \/ dinode_off inum + 64 <= o)%nat -> read_dinode (f blk) o = read_dinode blk o) ->
  let es' := log_entry d0 es (IBLOCK inum, f) in
  (forall j, 0 <= j -> disk_inode es' d0 j = if decide (j = inum) then Some v else disk_inode es d0 j) /\
  (forall sec, sec <> IBLOCK inum -> seen es' d0 sec = seen es d0 sec).
Proof.
  intros Hti Hlen Hn Hd Hf es'.
  destruct (seen_length start size w0 d0 es s _ Hti Hd Hlen) as (blk & Hblk & Hl).
  pose proof (seen_entry es d0 _ f blk Hblk) as Hseen. fold es' in Hseen. destruct (Hf blk Hl) as [Hv Ho]. split.
  - intros j Hj. unfold disk_inode. rewrite Hseen. destruct (decide (j = inum)) as [->|Hne].
    + rewrite decide_True by done. simpl. by rewrite Hv.
    + destruct (decide (IBLOCK j = IBLOCK inum)) as [E|E]; [|done]. rewrite E, Hblk. simpl. f_equal. apply Ho.
      apply dinode_off_disjoint; try done.
  - intros sec Hs. by rewrite Hseen, decide_False.
Qed.

End Trans.

(** ** The inode cache *)

(** A cache entry in use for inode [inum] of device [dev]. *)
Definition live (dev inum : Z) (x : inode) : Prop := 0 < x.(i_ref) /\ x.(i_dev) = dev /\ x.(i_inum) = inum.

#[global] Instance live_dec dev inum x : Decision (live dev inum x).
Proof. unfold live. apply _. Defined.

(** Reference counts are not negative, and an inode has at most one entry in
    use. *)
Definition icache_ok (ic : list inode) : Prop :=
  (forall i x, ic !! i = Some x -> 0 <= x.(i_ref)) /\
  (forall dev inum i j x y, ic !! i = Some x -> ic !! j = Some y -> live dev inum x -> live dev inum y -> i = j).

Lemma iget_scan_spec l : forall i e dev inum,
  match iget_scan l i e dev inum with
  | inl k => exists j x, k = (i + j)%nat /\ l !! j = Some x /\ live dev inum x
  | inr o => Forall (fun x => ~ live dev inum x) l /\
      match e with
      | Some _ => o = e
      | None =>
          match o with
          | Some k => exists j x, k = (i + j)%nat /\ l !! j = Some x /\ x.(i_ref) = 0
          | None => Forall (fun x => x.(i_ref) <> 0) l
          end
      end
  end.
Proof.
  induction l as [|x l IH]; intros i e dev inum; simpl.
  { split; [constructor|]. destruct e; [done|constructor]. }
  destruct ((0 <? i_ref x) && (i_dev x =? dev) && (i_inum x =? inum)) eqn:E.
  - exists 0%nat, x. split_and?; [lia|done|]. unfold live. lia.
  - assert (Hx : ~ live dev inum x) by (unfold live; lia).
    set (e' := match e with None => if i_ref x =? 0 then Some i else None | Some _ => e end).
    specialize (IH (S i) e' dev inum). destruct (iget_scan l (S i) e' dev inum) as [k|o].
    + destruct IH as (j & y & -> & Hj & Hl). exists (S j), y. split_and?; [lia|done|done].
    + destruct IH as [Hf Ho]. split; [by constructor|]. unfold e' in Ho. destruct e as [e0|]; [done|].
      destruct (Z.eqb_spec (i_ref x) 0) as [E0|E0].
      * subst o. exists 0%nat, x. split_and?; [lia|done|done].
      * destruct o as [k|]; [|by constructor]. destruct Ho as (j & y & -> & Hj & H0).
        exists (S j), y. split_and?; [lia|done|done].
Qed.

(** A fresh entry. *)
Definition fresh (dev inum : Z) (x : inode) : inode :=
  set_i_flags 0 (set_i_ref 1 (set_i_inum inum (set_i_dev dev x))).
Definition more (x : inode) : inode := set_i_ref (x.(i_ref) + 1) x.

Lemma upd_inode_twice ip f g s : upd_inode ip g (upd_inode ip f s) = upd_inode ip (g ∘ f) s.
Proof. unfold upd_inode. simpl. unfold set_icache. f_equal. apply list_alter_alter_eq. Qed.

Lemma iget_eq dev inum s env :
  quiet s -> icache_lock ∉ s.(kcpu).(held) ->
  iget dev inum s env =
    match iget_scan s.(icache) 0 None dev inum with
    | inl ip => Ok ip (upd_inode ip more s) env
    | inr (Some ip) => Ok ip (upd_inode ip (fresh dev inum) s) env
    | inr None => Err (Panic "iget: no inodes") (with_lock icache_lock s) env
    end.
Proof.
  intros Hq Hlk. unfold iget. mstep (acquire_quiet icache_lock s env Hq Hlk). mrun.
  change (icache (with_lock icache_lock s)) with (icache s).
  destruct (iget_scan (icache s) 0 None dev inum) as [ip|[ip|]]; [| |done].
  - mrun. by rewrite (bind_ok _ _ _ _ _ _ _
      (release_quiet icache_lock s (upd_inode ip more (with_lock icache_lock s)) env Hq Hlk eq_refl)).
  - mrun. rewrite !upd_inode_twice. by rewrite (bind_ok _ _ _ _ _ _ _
      (release_quiet icache_lock s (upd_inode ip (fresh dev inum) (with_lock icache_lock s)) env Hq Hlk eq_refl)).
Qed.

Lemma upd_inode_lookup ip f s j :
  (upd_inode ip f s).(icache) !! j = if decide (j = ip) then f <$> s.(icache) !! ip else s.(icache) !! j.
Proof.
  unfold upd_inode. simpl. destruct (decide (j = ip)) as [->|].
  - apply list_lookup_alter_eq.
  - by apply list_lookup_alter_ne.
Qed.

(** Changing an entry so that it is in use for an inode no other entry is in
    use for. *)
Lemma icache_ok_upd ip f dev inum x s :
  icache_ok s.(icache) -> s.(icache) !! ip = Some x -> live dev inum (f x) ->
  (forall j y, j <> ip -> s.(icache) !! j = Some y -> ~ live dev inum y) ->
  icache_ok (upd_inode ip f s).(icache).
Proof.
  intros [Hr Hu] Hx Hf Ho. split.
  - intros i y. rewrite upd_inode_lookup. case_decide; [|by apply Hr].
    rewrite Hx. intros [= <-]. destruct Hf. lia.
  - assert (Hkey : forall dev' inum' j y, j <> ip -> icache s !! j = Some y -> live dev' inum' y ->
      live dev' inum' (f x) -> False).
    { intros dev' inum' j y Hj Hy Hl Hl'. destruct Hf as (_ & E1 & E2). destruct Hl' as (_ & E1' & E2').
      apply (Ho j y Hj Hy). by subst. }
    intros dev' inum' i j y z. rewrite !upd_inode_lookup.
    case_decide as H1; case_decide as H2; subst; rewrite ?Hx; intros E1 E2 L1 L2; simplify_eq/=; try done.
    + exfalso. eauto.
    + exfalso. eauto.
    + by eapply Hu.
Qed.

(** [iget] on a well-formed cache: the entry in use for the inode, else a
    free one. *)
Lemma upd_inode_set s ip (f : inode -> inode) x : s.(icache) !! ip = Some x ->
  upd_inode ip f s = set_icache (<[ip := f x]> s.(icache)) s.
Proof.
  intros Hx. unfold upd_inode. f_equal. apply list_eq. intros k. rewrite list_lookup_alter.
  case_decide as E; [subst k|by rewrite list_lookup_insert_ne].
  rewrite Hx, list_lookup_insert_eq by (by eapply lookup_lt_Some). done.
Qed.

Lemma iget_run dev inum s env :
  quiet s -> icache_lock ∉ s.(kcpu).(held) -> icache_ok s.(icache) ->
  (exists ip (x : inode) (f : inode -> inode), iget dev inum s env = Ok ip (upd_inode ip f s) env /\ s.(icache) !! ip = Some x /\
     live dev inum (f x) /\ icache_ok (upd_inode ip f s).(icache) /\
     ((live dev inum x /\ f = more) \/
      (x.(i_ref) = 0 /\ f = fresh dev inum /\ Forall (fun y => ~ live dev inum y) s.(icache)))) \/
  (iget dev inum s env = Err (Panic "iget: no inodes") (with_lock icache_lock s) env /\
     Forall (fun y => ~ live dev inum y) s.(icache) /\ Forall (fun y => y.(i_ref) <> 0) s.(icache)).
Proof.
  intros Hq Hlk Hic. rewrite (iget_eq dev inum s env Hq Hlk).
  pose proof (iget_scan_spec (icache s) 0 None dev inum) as Hscan.
  destruct (iget_scan (icache s) 0 None dev inum) as [ip|[ip|]]; [left|left|right].
  - destruct Hscan as (j & x & -> & Hx & Hl). exists j, x, more.
    assert (Hlm : live dev inum (more x)) by (destruct Hl as (? & ? & ?); unfold live, more; simpl; lia).
    split_and?; try done; [|by left]. eapply icache_ok_upd; try done.
    intros k y Hk Hy Hly. apply Hk. destruct Hic as [_ Hu]. by eapply Hu.
  - destruct Hscan as (Hno & j & x & -> & Hx & H0). exists j, x, (fresh dev inum).
    split_and?; try done; [|by right]. eapply icache_ok_upd; try done.
    intros k y Hk Hy. rewrite Forall_forall in Hno. apply Hno. by eapply list_elem_of_lookup_2.
  - by destruct Hscan.
Qed.

(** ** Allocation *)

(** A new inode of the given type. *)
Definition new_dinode (type : Z) : dinode := Mkdinode type 0 0 0 0 (replicate 13 0).

Definition init_slot (type : Z) (o : nat) (d : list Z) : list Z :=
  put16 o type (splice o (replicate (Z.to_nat DINODE_SIZE) 0) d).

Lemma length_init_slot type o d : (o + 64 <= length d)%nat -> length (init_slot type o d) = length d.
Proof. intros Ho. unfold init_slot. change (Z.to_nat DINODE_SIZE) with 64%nat. dinode_len; simpl; lia. Qed.

Lemma get_zero n k m : (k + n <= m)%nat -> get_le n k (replicate m 0) = 0.
Proof.
  intros Hk. unfold get_le. rewrite drop_replicate, take_replicate, Nat.min_l by lia.
  clear. induction n as [|n IH]; [done|]. simpl. rewrite IH. done.
Qed.

Lemma read_init_slot type o d : is_short type -> (o + 64 <= length d)%nat ->
  read_dinode (init_slot type o d) o = new_dinode type /\
  forall o', (o' + 64 <= o \/ o + 64 <= o')%nat -> read_dinode (init_slot type o d) o' = read_dinode d o'.
Proof.
  intros Ht Ho. unfold init_slot. change (Z.to_nat DINODE_SIZE) with 64%nat.
  set (d1 := splice o (replicate 64 0) d).
  assert (Hl : length d1 = length d) by (apply length_splice; simpl; lia).
  assert (Hz : forall n k, (2 <= k)%nat -> (k + n <= 64)%nat -> get_le n (o + k) (put16 o type d1) = 0).
  { intros n k Hk Hn. rewrite get_put_other by lia. unfold d1. rewrite get_splice_in by (simpl; lia).
    apply get_zero. lia. }
  split.
  - unfold read_dinode, new_dinode, d_type, d_major, d_minor, d_nlink, d_size, d_addrs.
    rewrite get_put_same by lia. rewrite !Hz by lia. rewrite s16_id by done. f_equal.
    change (replicate 13 0) with ((fun _ : nat => 0) <$> seq 0 13). apply list_fmap_ext.
    intros k j Hj. apply lookup_seq in Hj as [-> Hj]. rewrite <- Nat.add_assoc. apply Hz; lia.
  - intros o' Hd. unfold read_dinode, d_type, d_major, d_minor, d_nlink, d_size, d_addrs.
    assert (Hout : forall n k, (k + n <= o \/ o + 64 <= k)%nat -> get_le n k (put16 o type d1) = get_le n k d).
    { intros n k Hk. rewrite get_put_other by lia. apply get_splice_out; simpl; lia. }
    rewrite !Hout by lia. f_equal. apply list_fmap_ext.
    intros k j Hj. apply lookup_seq in Hj as [-> Hj]. apply Hout. lia.
Qed.

Section Alloc.
Context (start size : Z).

(** One step of the search of [ialloc]. *)
Definition ialloc_body (type : Z) (k : nat) : K (option nat) :=
  let inum := Z.of_nat k in
  bp <- bread 1 (IBLOCK inum) ;;
  bf <- get_buf bp ;;
  let o := dinode_off inum in
  if d_type bf.(b_data) o =? 0 then
    modify (upd_buf bp (fun x =>
      set_b_data (splice o (replicate (Z.to_nat DINODE_SIZE) 0) x.(b_data)) x)) ;;;
    modify (upd_buf bp (fun x => set_b_data (put16 o type x.(b_data)) x)) ;;;
    log_write bp ;;;
    brelse bp ;;;
    ip <- iget 1 inum ;;
    ret (Some ip)
  else
    brelse bp ;;;
    ret None.

Definition used_inode (es : list (Z * list Z)) (d0 : list (list Z)) (inum : Z) : Prop :=
  exists di, disk_inode es d0 inum = Some di /\ di.(di_type) <> 0.

(** The transaction after allocating inode [inum]. *)
Definition ialloced (d0 : list (list Z)) (type inum : Z) (es : list (Z * list Z)) :=
  log_entry d0 es (IBLOCK inum, init_slot type (dinode_off inum)).

Lemma keeps_init_slot type inum : keeps_size (init_slot type (dinode_off inum)).
Proof. intros blk Hb. rewrite length_init_slot; [done|]. rewrite Hb. apply dinode_off_bound. Qed.

Lemma ialloc_body_run w0 d0 es s env type k :
  tinv start size w0 d0 es s -> room size 1 es -> on_disk start size d0 (IBLOCK (Z.of_nat k)) ->
  exists s', lframe s s' /\
    ((used_inode es d0 (Z.of_nat k) /\ tinv start size w0 d0 es s' /\
      ialloc_body type k s env = Ok None s' env) \/
     ((exists di, disk_inode es d0 (Z.of_nat k) = Some di /\ di.(di_type) = 0) /\
      tinv start size w0 d0 (ialloced d0 type (Z.of_nat k) es) s' /\
      ialloc_body type k s env = (ip <- iget 1 (Z.of_nat k) ;; ret (Some ip)) s' env)).
Proof.
  intros Hti Hroom Hd.
  destruct (checked_update_run start size w0 d0 es s env _ (init_slot type (dinode_off (Z.of_nat k))) Hti Hd
    (keeps_init_slot type _) Hroom)
    as (b & bf & blk & s1 & Hrun1 & Hget & Hbd & Hseen & _ & _ & (s2 & Hrel & Hf2 & Hti2) & (s3 & Hrun3 & Hf3 & Hti3)).
  unfold ialloc_body. mstep Hrun1. mstep Hget. rewrite Hbd.
  assert (Hdi : disk_inode es d0 (Z.of_nat k) = Some (read_dinode blk (dinode_off (Z.of_nat k)))).
  { unfold disk_inode. by rewrite Hseen. }
  destruct (Z.eqb_spec (d_type blk (dinode_off (Z.of_nat k))) 0) as [E|E].
  - exists s3. split; [done|]. right. split_and?; [by eexists|done|].
    unfold bind, modify in Hrun3 |- *. simpl in Hrun3 |- *. rewrite upd_buf_twice. unfold init_slot in Hrun3.
    destruct (log_write b _ env) as [[] sa ea|]; [|done].
    destruct (brelse b sa ea) as [[] sb' eb|]; [|done]. by injection Hrun3 as -> ->.
  - exists s2. split; [done|]. left. split_and?; [by eexists|done|]. by mstep Hrel.
Qed.

Lemma ialloc_search w0 d0 es type env n : forall k s,
  tinv start size w0 d0 es s -> room size 1 es ->
  (forall j, (k <= j < k + n)%nat -> on_disk start size d0 (IBLOCK (Z.of_nat j))) ->
  exists s', lframe s s' /\
    ((tinv start size w0 d0 es s' /\ mfind (seq k n) (ialloc_body type) s env = Ok None s' env /\
      forall j, (k <= j < k + n)%nat -> used_inode es d0 (Z.of_nat j)) \/
     exists m, (k <= m < k + n)%nat /\
      (exists di, disk_inode es d0 (Z.of_nat m) = Some di /\ di.(di_type) = 0) /\
      (forall j, (k <= j < m)%nat -> used_inode es d0 (Z.of_nat j)) /\
      tinv start size w0 d0 (ialloced d0 type (Z.of_nat m) es) s' /\
      mfind (seq k n) (ialloc_body type) s env = (ip <- iget 1 (Z.of_nat m) ;; ret (Some ip)) s' env).
Proof.
  induction n as [|n IH]; intros k s Hti Hroom Hd; simpl.
  { exists s. split; [apply lframe_refl|]. left. split_and?; [done|done|]. intros; lia. }
  destruct (ialloc_body_run w0 d0 es s env type k Hti Hroom) as (s1 & Hf1 & [(Hu & Hti1 & Hrun)|(Hfree & Hti1 & Hrun)]).
  { apply Hd. lia. }
  - mstep Hrun. destruct (IH (S k) s1 Hti1 Hroom) as (s2 & Hf2 & Hcase).
    { intros j Hj. apply Hd. lia. }
    assert (Hall : forall m, (forall j, (S k <= j < m)%nat -> used_inode es d0 (Z.of_nat j)) ->
      forall j, (k <= j < m)%nat -> used_inode es d0 (Z.of_nat j)).
    { intros m Hm j Hj. destruct (decide (j = k)) as [->|]; [done|]. apply Hm. lia. }
    exists s2. split; [by eapply lframe_trans|]. destruct Hcase as [(Hti2 & Hrun2 & Hus)|(m & Hm & Hfree & Hus & Hti2 & Hrun2)].
    + left. split_and?; [done|done|]. rewrite <- Nat.add_succ_comm. by apply Hall.
    + right. exists m. split_and?; [lia|lia|done|by apply Hall|done|done].
  - exists s1. split; [done|]. right. exists k. split_and?; [lia|lia|done|intros; lia|done|].
    unfold bind at 1. rewrite Hrun. unfold bind, ret. by destruct (iget 1 (Z.of_nat k) s1 env).
Qed.

End Alloc.

(** ** Theorems *)

Lemma tinv_quiet start size w0 d0 es s : tinv start size w0 d0 es s -> quiet s.
Proof. intros (Hr & _). by destruct (rep_bio_ok _ _ _ Hr) as ((Hq & _) & _). Qed.

(** Writing an inode to disk. [iupdate] logs the inode's block; inode
    [inum] of the disk then holds the values of the in-memory copy, and every
    other inode and every other sector is as before. *)
Theorem iupdate_writes start size w0 d0 es s env ip i :
  tinv start size w0 d0 es s -> room size 1 es ->
  s.(icache) !! ip = Some i -> inode_ok i -> i.(i_dev) = 1 -> 0 <= i.(i_inum) ->
  on_disk start size d0 (IBLOCK i.(i_inum)) ->
  exists s' es', iupdate ip s env = Ok tt s' env /\ tinv start size w0 d0 es' s' /\ s'.(icache) = s.(icache) /\
    (forall j, 0 <= j -> disk_inode es' d0 j = if decide (j = i.(i_inum)) then Some (dinode_of i) else disk_inode es d0 j) /\
    (forall sec, sec <> IBLOCK i.(i_inum) -> seen es' d0 sec = seen es d0 sec).
Proof.
  intros Hti Hroom Hi Hok Hdev Hn Hd. pose proof Hok as (_ & _ & _ & _ & _ & Ha & _).
  destruct (iupdate_run start size w0 d0 es s env ip i Hti Hroom Hi Hdev Ha Hd) as (s' & Hrun & Hf & Hti').
  destruct (slot_update start size w0 d0 es s (i_inum i) (put_dinode i (dinode_off (i_inum i))) (dinode_of i) Hti)
    as [H1 H2]; [destruct Hroom; lia|done|done| |].
  { intros blk Hb. pose proof (dinode_off_bound (i_inum i)). rewrite <- Hb in H. split.
    - by apply read_put_same.
    - intros o Ho. apply read_put_other; [done|done|lia]. }
  eexists s', _. split_and?; [done|done|by apply lframe_icache|done|done].
Qed.

(** Inode allocation. Within a transaction [ialloc] takes the first free
    inode of the disk: it gets the type asked for and zeros everywhere else,
    all other inodes stay, and the returned cache entry is the only one in use
    for it. It panics when every inode is in use, or when no cache entry is
    left. *)
Theorem ialloc_first_free start size w0 d0 es sb s env type blk1 :
  tinv start size w0 d0 es s -> room size 1 es -> is_short type ->
  on_disk start size d0 1 -> seen es d0 1 = Some blk1 -> sb_of_block blk1 = sb ->
  (forall k, 1 <= k < sb.(sb_ninodes) -> on_disk start size d0 (IBLOCK k)) ->
  icache_ok s.(icache) -> icache_lock ∉ s.(kcpu).(held) ->
  (exists m ip s' es' x, ialloc 1 type s env = Ok ip s' env /\ 1 <= m < sb.(sb_ninodes) /\
     (exists di, disk_inode es d0 m = Some di /\ di.(di_type) = 0) /\
     (forall j, 1 <= j < m -> used_inode es d0 j) /\
     tinv start size w0 d0 es' s' /\ icache_ok s'.(icache) /\ s'.(icache) !! ip = Some x /\ live 1 m x /\
     (forall j, 0 <= j -> disk_inode es' d0 j = if decide (j = m) then Some (new_dinode type) else disk_inode es d0 j)) \/
  (exists s', ialloc 1 type s env = Err (Panic "iget: no inodes") s' env /\
     Forall (fun x => x.(i_ref) <> 0) s.(icache)) \/
  (exists s', ialloc 1 type s env = Err (Panic "ialloc: no inodes") s' env /\
     forall j, 1 <= j < sb.(sb_ninodes) -> used_inode es d0 j).
Proof.
  intros Hti Hroom Htype Hd1 Hs1 Hsb Hblocks Hic Hlk.
  assert (Hlen : (length es < NBUF)%nat) by (destruct Hroom; lia).
  destruct (readsb_run start size w0 d0 es s env blk1 Hti) as (s1 & Hrun1 & Hf1 & Hti1); try done.
  { by eapply on_disk_sector. }
  destruct (ialloc_search start size w0 d0 es type env (Z.to_nat (sb_ninodes sb - 1)) 1 s1 Hti1 Hroom)
    as (s2 & Hf2 & Hcase).
  { intros j Hj. apply Hblocks. lia. }
  assert (Hialloc : ialloc 1 type s env =
    match mfind (seq 1 (Z.to_nat (sb_ninodes sb - 1))) (ialloc_body type) s1 env with
    | Ok (Some ip) s' env' => Ok ip s' env'
    | Ok None s' env' => Err (Panic "ialloc: no inodes") s' env'
    | Err e s' env' => Err e s' env'
    end).
  { unfold ialloc. mstep Hrun1. rewrite Hsb. unfold bind at 1. fold (ialloc_body type).
    by destruct (mfind _ (ialloc_body type) s1 env) as [[?|] ? ?|]. }
  rewrite Hialloc. clear Hialloc.
  assert (Hnat : forall n : nat, (forall j, (1 <= j < n)%nat -> used_inode es d0 (Z.of_nat j)) ->
    forall j, 1 <= j < Z.of_nat n -> used_inode es d0 j).
  { intros n Hn j Hj. specialize (Hn (Z.to_nat j)). rewrite Z2Nat.id in Hn by lia. apply Hn. lia. }
  destruct Hcase as [(Hti2 & Hrun2 & Hused)|(m & Hm & Hfree & Hused & Hti2 & Hrun2)]; rewrite Hrun2.
  { right; right. exists s2. split; [done|]. intros j Hj. apply (Hnat _ Hused). lia. }
  assert (Hlf : lframe s s2) by (by eapply lframe_trans).
  rewrite <- (lframe_icache _ _ Hlf) in Hic |- *. rewrite <- (lframe_kcpu _ _ Hlf) in Hlk.
  assert (Hdisk : forall j, 0 <= j -> disk_inode (ialloced d0 type (Z.of_nat m) es) d0 j =
    if decide (j = Z.of_nat m) then Some (new_dinode type) else disk_inode es d0 j).
  { apply (slot_update start size w0 d0 es s (Z.of_nat m) (init_slot type _) (new_dinode type) Hti Hlen); [lia|apply Hblocks; lia|].
    intros blk Hb. apply read_init_slot; [done|]. rewrite Hb. apply dinode_off_bound. }
  destruct (iget_run 1 (Z.of_nat m) s2 env (tinv_quiet _ _ _ _ _ _ Hti2) Hlk Hic)
    as [(ip & x & f & Hrun & Hx & Hl & Hic' & _)|(Hrun & _ & Hfull)]; [left|right; left].
  - exists (Z.of_nat m), ip, (upd_inode ip f s2), (ialloced d0 type (Z.of_nat m) es), (f x).
    unfold bind. rewrite Hrun. split_and?; try done; try lia; [by apply Hnat|].
    by rewrite upd_inode_lookup, decide_True, Hx.
  - exists (with_lock icache_lock s2). unfold bind. by rewrite Hrun.
Qed.

(** C19: the inode cache keeps one entry per inode. On a well-formed cache
    [iget] returns the entry in use for the inode with one more reference and
    otherwise as it was; or, when no entry is in use for the inode, takes an
    entry that was free, which then has the inode's numbers, one reference and
    no valid contents. All other entries and the rest of the state stay, and
    the cache is well formed again. It panics exactly when the inode is not
    cached and every entry is in use. *)
Theorem iget_unique dev inum s env :
  quiet s -> icache_lock ∉ s.(kcpu).(held) -> icache_ok s.(icache) ->
  let cached := exists j y, s.(icache) !! j = Some y /\ live dev inum y in
  let full := forall j y, s.(icache) !! j = Some y -> y.(i_ref) <> 0 in
  (exists ip x x', iget dev inum s env = Ok ip (set_icache (<[ip := x']> s.(icache)) s) env /\
     s.(icache) !! ip = Some x /\ icache_ok (<[ip := x']> s.(icache)) /\ live dev inum x' /\
     (live dev inum x /\ x' = set_i_ref (x.(i_ref) + 1) x \/
      ~ cached /\ x.(i_ref) = 0 /\ x'.(i_ref) = 1 /\ x'.(i_flags) = 0)) \/
  (exists s', iget dev inum s env = Err (Panic "iget: no inodes") s' env /\ ~ cached /\ full).
Proof.
  intros Hq Hlk Hic cached full.
  assert (Hnone : Forall (fun y => ~ live dev inum y) s.(icache) -> ~ cached).
  { intros Hno (j & y & Hy & Hl). rewrite Forall_forall in Hno. by apply (Hno y); [eapply list_elem_of_lookup_2|]. }
  destruct (iget_run dev inum s env Hq Hlk Hic) as [(ip & x & f & Hrun & Hx & Hl & Hic' & Hcase)|(Hrun & Hno & Hfull)].
  - left. exists ip, x, (f x). rewrite (upd_inode_set s ip f x Hx) in Hrun, Hic'. split_and?; try done.
    destruct Hcase as [[Hlx ->]|(H0 & -> & Hno)]; [by left|right]. split_and?; try done. by apply Hnone.
  - right. exists (with_lock icache_lock s). split_and?; [done|by apply Hnone|]. rewrite Forall_forall in Hfull.
    intros j y Hy. apply Hfull. by eapply list_elem_of_lookup_2.
Qed.

(** An inode of a file in the middle of the demonstration disk's inode block. *)
Definition demo_inode : inode := Mkinode 1 3 1 3 T_FILE 0 0 1 700 (6 :: 7 :: replicate 11 0).
Definition demo_cached : kstate := upd_inode 0 (fun _ => demo_inode) demo_in_trans.

Lemma demo_inode_ok : inode_ok demo_inode.
Proof. unfold inode_ok, is_short, is_uint. simpl. split_and?; try lia; try done. repeat constructor; lia. Qed.

Lemma demo_icache_tail i x : demo_cached.(icache) !! S i = Some x -> x = zero_inode.
Proof.
  change (icache demo_cached) with (demo_inode :: replicate 49 zero_inode). cbn [lookup list_lookup].
  intros Hx. by apply list_elem_of_lookup_2, elem_of_replicate in Hx as [-> _].
Qed.

Lemma demo_icache_ok : icache_ok demo_cached.(icache).
Proof.
  split.
  - intros [|i] x Hx; [by injection Hx as <-|]. by rewrite (demo_icache_tail i x Hx).
  - assert (Hz : forall i x dev inum, icache demo_cached !! S i = Some x -> ~ live dev inum x).
    { intros i x dev inum Hx [H0 _]. rewrite (demo_icache_tail i x Hx) in H0. simpl in H0. lia. }
    intros dev inum [|i] [|j] x y Hx Hy Lx Ly; [done|exfalso; by eapply Hz..].
Qed.

Lemma iupdate_writes_witness :
  exists s' es', iupdate 0 demo_cached [] = Ok tt s' [] /\ tinv 20 10 [] demo_fs_img es' s' /\
    s'.(icache) = demo_cached.(icache) /\
    (forall j, 0 <= j -> disk_inode es' demo_fs_img j =
       if decide (j = 3) then Some (dinode_of demo_inode) else disk_inode [] demo_fs_img j) /\
    (forall sec, sec <> 2 -> seen es' demo_fs_img sec = seen [] demo_fs_img sec).
Proof.
  apply (iupdate_writes 20 10 [] demo_fs_img [] demo_cached [] 0 demo_inode);
    [exact demo_tinv|split; unfold NBUF; simpl; lia|done|exact demo_inode_ok|done|simpl; lia|].
  unfold on_disk, in_log. simpl. change (IBLOCK 3) with 2. lia.
Defined.

Lemma ialloc_first_free_witness :
  (exists m ip s' es' x, ialloc 1 T_DIR demo_cached [] = Ok ip s' [] /\ 1 <= m < 8 /\
     (exists di, disk_inode [] demo_fs_img m = Some di /\ di.(di_type) = 0) /\
     (forall j, 1 <= j < m -> used_inode [] demo_fs_img j) /\
     tinv 20 10 [] demo_fs_img es' s' /\ icache_ok s'.(icache) /\ s'.(icache) !! ip = Some x /\ live 1 m x /\
     (forall j, 0 <= j -> disk_inode es' demo_fs_img j =
        if decide (j = m) then Some (new_dinode T_DIR) else disk_inode [] demo_fs_img j)) \/
  (exists s', ialloc 1 T_DIR demo_cached [] = Err (Panic "iget: no inodes") s' [] /\
     Forall (fun x => x.(i_ref) <> 0) demo_cached.(icache)) \/
  (exists s', ialloc 1 T_DIR demo_cached [] = Err (Panic "ialloc: no inodes") s' [] /\
     forall j, 1 <= j < 8 -> used_inode [] demo_fs_img j).
Proof.
  apply (ialloc_first_free 20 10 [] demo_fs_img [] demo_sb demo_cached [] T_DIR demo_sb_block).
  - exact demo_tinv.
  - split; unfold NBUF; simpl; lia.
  - unfold is_short, T_DIR. lia.
  - unfold on_disk, in_log. simpl. lia.
  - done.
  - vm_compute. reflexivity.
  - simpl. intros k Hk. unfold IBLOCK. change IPB with 8. rewrite Z.div_small by lia. unfold on_disk, in_log. simpl. lia.
  - exact demo_icache_ok.
  - simpl. set_solver.
Defined.

Lemma iget_unique_witness :
  (exists ip x x', iget 1 3 demo_cached [] = Ok ip (set_icache (<[ip := x']> demo_cached.(icache)) demo_cached) [] /\
     demo_cached.(icache) !! ip = Some x /\ icache_ok (<[ip := x']> demo_cached.(icache)) /\ live 1 3 x' /\
     (live 1 3 x /\ x' = set_i_ref (x.(i_ref) + 1) x \/
      ~ (exists j y, demo_cached.(icache) !! j = Some y /\ live 1 3 y) /\ x.(i_ref) = 0 /\ x'.(i_ref) = 1 /\ x'.(i_flags) = 0)) \/
  (exists s', iget 1 3 demo_cached [] = Err (Panic "iget: no inodes") s' [] /\
     ~ (exists j y, demo_cached.(icache) !! j = Some y /\ live 1 3 y) /\
     forall j y, demo_cached.(icache) !! j = Some y -> y.(i_ref) <> 0).
Proof.
  apply (iget_unique 1 3 demo_cached []); [done|simpl; set_solver|exact demo_icache_ok].
Defined.

End InodeFacts.
