(* ===== verification/FileData.v ===== *)
(** File contents (kernel/fs.c: bmap, readi, writei): reading and writing the
    bytes of a file through the blocks its inode names. Reading is proved
    against an interface, [Reader], that transactions and the idle file
    system both implement. *)
From S2P Require Import Prelude Types Spinlock Sched Bio BioFacts BioAbs BioRep Log LogSpec LogFacts Crash Inode BlockFacts InodeFacts Console Fs.
Import Spinlock Sched Bio BioFacts BioAbs BioRep Log LogSpec LogFacts Inode BlockFacts InodeFacts Fs.

Module FileData.

(** ** Reading sectors: the interface *)

(** In the states of [I] the sectors read as [v] says: a sector can be read
    and released, which changes the buffer cache and the run queue only; the
    caller may store into the inode cache in between. *)
Class Reader (I : kstate -> Prop) (v : Z -> option (list Z)) : Prop := {
  reader_length sec blk : v sec = Some blk -> length blk = Z.to_nat BSIZE;
  reader_load s env sec blk : I s -> v sec = Some blk ->
    exists b bf s1, bread 1 sec s env = Ok b s1 env /\ get_buf b s1 env = Ok bf s1 env /\
      bf.(b_data) = blk /\ s1.(icache) = s.(icache) /\
      forall ic, exists s2, brelse b (set_icache ic s1) env = Ok tt s2 env /\ I s2 /\
        lframe (set_icache ic s) s2
}.

Lemma reader_read I v `{!Reader I v} s env sec blk : I s -> v sec = Some blk ->
  exists b bf s1 s2, bread 1 sec s env = Ok b s1 env /\ get_buf b s1 env = Ok bf s1 env /\
    bf.(b_data) = blk /\ brelse b s1 env = Ok tt s2 env /\ I s2 /\
    s1.(icache) = s.(icache) /\ s2.(icache) = s.(icache).
Proof.
  intros HI Hv. destruct (reader_load s env sec blk HI Hv) as (b & bf & s1 & Hrun & Hget & Hbd & Hic & Hrel).
  destruct (Hrel (icache s1)) as (s2 & Hrun2 & HI2 & Hf2). rewrite set_icache_same in Hrun2.
  pose proof (lframe_icache _ _ Hf2) as Hic2. simpl in Hic2. exists b, bf, s1, s2. split_and?; congruence.
Qed.
Arguments reader_read {I v _} s env sec blk.

(** What reading leaves alone: all but the buffers, the run queue, the log and
    the inode cache. *)
Definition kframe (s s' : kstate) : Prop := exists ic, lframe (set_icache ic s) s'.

Lemma kframe_refl s : kframe s s.
Proof. exists (icache s). rewrite set_icache_same. apply lframe_refl. Qed.

Lemma kframe_lframe s1 s2 s3 : kframe s1 s2 -> lframe s2 s3 -> kframe s1 s3.
Proof. intros [ic H1] H2. exists ic. by eapply lframe_trans. Qed.

Lemma kframe_icache s s' : kframe s s' -> s'.(icache) = s.(icache) -> lframe s s'.
Proof.
  intros [ic Hf] Hic. rewrite (lframe_icache _ _ Hf) in Hic. simpl in Hic. by rewrite Hic, set_icache_same in Hf.
Qed.

Lemma lframe_set_icache ic s s' : lframe s s' -> lframe (set_icache ic s) (set_icache ic s').
Proof. unfold lframe. intros Hf. exact (frame_set_icache ic _ _ Hf). Qed.

#[global] Instance kframe_reader I v s0 : Reader I v -> Reader (fun s => I s /\ kframe s0 s) v.
Proof.
  intros HR. split; [exact reader_length|]. intros s env sec blk [HI [ic0 Hf0]] Hv.
  destruct (reader_load s env sec blk HI Hv) as (b & bf & s1 & Hrun & Hget & Hbd & Hic & Hrel).
  exists b, bf, s1. split_and?; try done. intros ic. destruct (Hrel ic) as (s2 & Hrun2 & HI2 & Hf2).
  exists s2. split_and?; try done. exists ic. eapply lframe_trans; [|done]. exact (lframe_set_icache ic _ _ Hf0).
Qed.

(** The sectors of a transaction. *)
Definition trans_view (start size : Z) (es : list (Z * list Z)) (d0 : list (list Z)) (sec : Z) : option (list Z) :=
  if bool_decide (0 <= sec < Z.of_nat (length d0)) && negb (bool_decide (start <= sec < start + size))
  then seen es d0 sec else None.

Lemma trans_view_spec start size es d0 sec blk :
  trans_view start size es d0 sec = Some blk <-> on_disk start size d0 sec /\ seen es d0 sec = Some blk.
Proof.
  unfold trans_view, on_disk, in_log. repeat case_bool_decide; simpl; intuition (done || lia).
Qed.

(** Within a transaction that has logged [es] over [d0]. *)
Definition in_trans (start size : Z) (w0 : list (Z * list Z)) (d0 : list (list Z)) (es : list (Z * list Z)) (s : kstate) : Prop :=
  tinv start size w0 d0 es s /\ (length es < NBUF)%nat.

#[global] Instance trans_reader start size w0 d0 es s0 :
  in_trans start size w0 d0 es s0 ->
  Reader (in_trans start size w0 d0 es) (trans_view start size es d0).
Proof.
  intros [Hti0 Hlen]. split.
  - intros sec blk [Hd Hs]%trans_view_spec.
    destruct (seen_length start size w0 d0 es s0 sec Hti0 Hd Hlen) as (blk' & Hs' & Hl). congruence.
  - intros s env sec blk [Hti _] [Hd Hs]%trans_view_spec.
    destruct (read_load start size w0 d0 es s env sec Hti (on_disk_sector _ _ _ _ _ _ _ Hti Hd) Hlen)
      as (b & fl & blk' & s1 & Hrun & Hseen & _ & (bf & Hget & Hbd) & _ & Hfr & _ & _ & Hrel).
    exists b, bf, s1. split_and?; try done; [congruence|by apply frame_icache|].
    intros ic. destruct (Hrel ic) as (s2 & Hrun2 & Hf & Hti2). exists s2.
    by split_and?.
Qed.

(** Between transactions, on the disk [d]. *)
Definition idle (start size : Z) (d : list (list Z)) (s : kstate) : Prop :=
  quiescent start size s /\ s.(disk) = d.

Definition disk_view (d : list (list Z)) (sec : Z) : option (list Z) :=
  if bool_decide (0 <= sec) then d !! Z.to_nat sec else None.

#[global] Instance idle_reader start size d s0 :
  idle start size d s0 -> Reader (idle start size d) (disk_view d).
Proof.
  intros [(Hr0 & _) Hd0]. split.
  - intros sec blk. unfold disk_view. case_bool_decide; [|done]. rewrite <- Hd0. by eapply Crash.rep_block.
  - intros s env sec blk [Hq Hd] Hv. unfold disk_view in Hv. case_bool_decide as Hs; [|done].
    pose proof Hq as (Hr & Hlg & Hb & Hlk & Hg & h & Hh & Hn).
    destruct (bread_rep [] ∅ s sec env Hr) as (b & fl & blk' & s1 & Hrun & Hf & Hk & Hw & Hrv & Hfl & Hr1).
    { apply lookup_lt_Some in Hv. rewrite <- Hd in Hv. unfold disksize. lia. }
    { by intros e ?%elem_of_nil. } { left. apply Crash.empty_room. unfold NBUF. simpl. lia. }
    assert (blk' = blk) as -> by (unfold rview in Hrv; rewrite lookup_empty in Hrv; congruence).
    destruct (get_buf_rep _ _ s1 b fl sec blk env Hr1 ltac:(left)) as (bf & Hget & _ & _ & _ & Hbd).
    exists b, bf, s1. split_and?; try done; [by apply frame_icache|]. intros ic.
    destruct (brelse_rep _ _ (set_icache ic s1) b _ _ _ env Hr1) as (s2 & Hrun2 & Hf2 & Hk2 & Hw2 & Hr2).
    { intros _. simpl. by rewrite Hk, Hd. }
    assert (Hfr : frame (set_icache ic s) s2) by exact (frame_trans _ _ _ (frame_set_icache ic _ _ Hf) Hf2).
    pose proof (lframe_kcpu _ _ (frame_lframe _ _ Hfr)) as Hcpu. simpl in Hk2, Hcpu.
    assert (Hds : disk s2 = disk s) by congruence.
    exists s2. split_and?; try done; [|by apply frame_lframe].
    unfold idle. split; [|congruence]. unfold quiescent, geom, disksize. rewrite (frame_klog _ _ Hfr), Hcpu, Hds.
    split_and?; try done; [apply Hg..|]. by exists h.
Qed.

(** ** The blocks of a file *)

Section View.
Context (v : Z -> option (list Z)).

(** The block that holds the [bn]th block of the file, when there is one. *)
Definition mapped (i : inode) (bn : Z) : option Z :=
  if bn <? NDIRECT then a ← i.(i_addrs) !! Z.to_nat bn; guard (a <> 0);; Some a
  else if bn <? MAXFILE then
    ind ← i.(i_addrs) !! Z.to_nat NDIRECT; guard (ind <> 0);;
    blk ← v ind;
    let a := get32 (Z.to_nat (4 * (bn - NDIRECT))) blk in guard (a <> 0);; Some a
  else None.

Definition file_block (i : inode) (bn : Z) : option (list Z) := mapped i bn ≫= v.

(** The [k]th byte of the file. *)
Definition file_byte (i : inode) (k : Z) : option Z :=
  blk ← file_block i (k / BSIZE); blk !! Z.to_nat (k mod BSIZE).

(** Every block below the file's size is there. *)
Definition file_ok (i : inode) : Prop :=
  i.(i_dev) = 1 /\ 0 <= i.(i_size) <= MAXFILE * BSIZE /\
  forall bn, 0 <= bn -> bn * BSIZE < i.(i_size) -> is_Some (file_block i bn).

End View.

Section Read.
Context (I : kstate -> Prop) (v : Z -> option (list Z)) {HR : Reader I v}.

Lemma bmap_run s env ip i bn a :
  I s -> s.(icache) !! ip = Some i -> i.(i_dev) = 1 -> 0 <= bn -> mapped v i bn = Some a ->
  exists s', bmap ip bn s env = Ok a s' env /\ I s' /\ s'.(icache) = s.(icache).
Proof.
  intros HI Hi Hdev Hbn Hm. unfold bmap. mstep (get_inode_eq _ _ _ env Hi). unfold mapped in Hm.
  destruct (Z.ltb_spec bn NDIRECT) as [Hd|Hd].
  - destruct (i_addrs i !! Z.to_nat bn) as [a'|]; [|done]. simpl in Hm. case_guard; [|done]. simpl in Hm. simplify_eq.
    unfold deref. mrun. rewrite (proj2 (Z.eqb_neq a 0)) by done. by exists s.
  - destruct (Z.ltb_spec bn MAXFILE) as [Hx|Hx]; [|done].
    rewrite (proj2 (Z.ltb_lt (bn - NDIRECT) NINDIRECT)) by (unfold MAXFILE in Hx; lia).
    destruct (i_addrs i !! Z.to_nat NDIRECT) as [ind|]; [|done]. simpl in Hm. case_guard; [|done]. simpl in Hm.
    destruct (v ind) as [blk|] eqn:Hv; [|done]. simpl in Hm. case_guard; [|done]. simpl in Hm. injection Hm as <-.
    unfold deref. mrun. rewrite (proj2 (Z.eqb_neq ind 0)) by done. mrun.
    mstep (get_inode_eq _ _ _ env Hi). rewrite Hdev.
    destruct (reader_read s env ind blk HI Hv) as (b & bf & s1 & s2 & Hrun & Hget & Hbd & Hrel & HI2 & _ & Hic).
    mstep Hrun. mstep Hget. rewrite Hbd. rewrite (proj2 (Z.eqb_neq (get32 _ blk) 0)) by done. mrun.
    mstep Hrel. by exists s2.
Qed.

(** The iterations [n - tot] bytes from [off] take. *)
Definition turns (off r : Z) : Z := if r <=? 0 then 0 else (off mod BSIZE + r + BSIZE - 1) / BSIZE.

Lemma turns_step n tot off : 0 <= off -> 0 <= tot < n ->
  let m := chunk n tot off in
  0 < m <= n - tot /\ m <= BSIZE - off mod BSIZE /\ turns (off + m) (n - (tot + m)) < turns off (n - tot).
Proof.
  intros Ho Ht m. unfold m, chunk, turns, BSIZE. clear m.
  destruct (Z.leb_spec (n - tot) 0); [lia|].
  destruct (Z.leb_spec (n - (tot + (n - tot) `min` (512 - off mod 512))) 0);
    Z.to_euclidean_division_equations; lia.
Qed.

Lemma file_byte_block i blk off k :
  file_block v i (off / BSIZE) = Some blk -> 0 <= off -> 0 <= k < BSIZE - off mod BSIZE ->
  file_byte v i (off + k) = blk !! Z.to_nat (off mod BSIZE + k).
Proof.
  intros Hb Ho Hk. unfold file_byte.
  assert ((off + k) / BSIZE = off / BSIZE /\ (off + k) mod BSIZE = off mod BSIZE + k) as [-> ->].
  { unfold BSIZE in *. Z.to_euclidean_division_equations. lia. }
  by rewrite Hb.
Qed.

Lemma readi_loop_run ip i fuel : forall tot off n s env,
  I s -> s.(icache) !! ip = Some i -> file_ok v i -> 0 <= off -> 0 <= tot <= n -> off + (n - tot) <= i.(i_size) ->
  turns off (n - tot) < Z.of_nat fuel ->
  exists bs s', readi_loop fuel ip tot off n s env = Ok bs s' env /\ I s' /\ s'.(icache) = s.(icache) /\
    length bs = Z.to_nat (n - tot) /\
    forall k, 0 <= k < n - tot -> bs !! Z.to_nat k = file_byte v i (off + k).
Proof.
  induction fuel as [|fuel IH]; intros tot off n s env HI Hi Hok Ho Ht Hsz Hfuel.
  { unfold turns in Hfuel. destruct (Z.leb_spec (n - tot) 0); [lia|]. unfold BSIZE in *.
    Z.to_euclidean_division_equations. lia. }
  simpl. destruct (Z.ltb_spec tot n) as [Hlt|Hlt].
  2:{ exists [], s. split_and?; try done; [simpl; lia|]. intros k Hk. lia. }
  pose proof Hok as (Hdev & Hmax & Hblk).
  destruct (turns_step n tot off Ho ltac:(lia)) as (Hm & Hmb & Hturn). set (m := chunk n tot off) in *.
  destruct (Hblk (off / BSIZE)) as [blk Hfb]; [unfold BSIZE; Z.to_euclidean_division_equations; lia..|].
  pose proof Hfb as Hfb'. unfold file_block in Hfb. destruct (mapped v i (off / BSIZE)) as [a|] eqn:Ha; [|done].
  simpl in Hfb.
  destruct (bmap_run s env ip i (off / BSIZE) a HI Hi Hdev) as (s1 & Hrun1 & HI1 & Hic1); [|done|].
  { unfold BSIZE. Z.to_euclidean_division_equations. lia. }
  mstep Hrun1. rewrite <- Hic1 in Hi. mstep (get_inode_eq _ _ _ env Hi). rewrite Hdev.
  destruct (reader_read s1 env a blk HI1 Hfb) as (b & bf & s2 & s3 & Hrun & Hget & Hbd & Hrel & HI3 & _ & Hic).
  mstep Hrun. mstep Hget. rewrite Hbd. mstep Hrel.
  pose proof (reader_length a blk Hfb) as Hl. change (Z.to_nat BSIZE) with 512%nat in Hl. change (MAXFILE * BSIZE) with 71680 in Hmax.
  assert (Hu : u32 (off + m) = off + m) by (unfold u32; apply Z.mod_small; lia). rewrite Hu.
  rewrite <- Hic in Hi.
  destruct (IH (tot + m) (off + m) n s3 env HI3 Hi Hok) as (bs & s4 & Hrun4 & HI4 & Hic4 & Hlen & Hbytes); try lia.
  mstep Hrun4. unfold ret. eexists _, s4. split_and?; [reflexivity|done|congruence| |].
  - rewrite length_app, length_take, length_drop, Hlen, Hl. unfold BSIZE in *. Z.to_euclidean_division_equations. lia.
  - intros k Hk. assert (Hlt' : length (take (Z.to_nat m) (drop (Z.to_nat (off mod BSIZE)) blk)) = Z.to_nat m).
    { rewrite length_take, length_drop, Hl. unfold BSIZE in *. Z.to_euclidean_division_equations. lia. }
    destruct (decide (k < m)) as [Hkm|Hkm].
    + rewrite lookup_app_l by lia. rewrite lookup_take_lt, lookup_drop by lia.
      rewrite (file_byte_block i blk off k Hfb' Ho ltac:(lia)). f_equal.
      unfold BSIZE in *. Z.to_euclidean_division_equations. lia.
    + rewrite lookup_app_r by lia. rewrite Hlt'. specialize (Hbytes (k - m)).
      replace (off + m + (k - m)) with (off + k) in Hbytes by lia. rewrite <- Hbytes by lia. f_equal. lia.
Qed.

Lemma turns_chunks off n : 0 <= off -> 0 <= n -> turns off n < Z.of_nat (chunks n).
Proof.
  intros Ho Hn. unfold turns, chunks. destruct (Z.leb_spec n 0); [lia|].
  rewrite !Nat2Z.inj_succ, Z2Nat.id by (apply Z.div_pos; unfold BSIZE; lia).
  unfold BSIZE. Z.to_euclidean_division_equations. lia.
Qed.

Lemma readi_run ip i off n s env :
  I s -> s.(icache) !! ip = Some i -> file_ok v i -> i.(i_type) <> T_DEV -> 0 <= off < 2 ^ 32 -> 0 <= n < 2 ^ 32 ->
  if bool_decide (off <= i.(i_size) /\ off + n < 2 ^ 32)
  then let m := Z.min n (i.(i_size) - off) in
    exists bs s', readi ip off n s env = Ok (m, bs) s' env /\ I s' /\ s'.(icache) = s.(icache) /\
      length bs = Z.to_nat m /\ forall k, 0 <= k < m -> bs !! Z.to_nat k = file_byte v i (off + k)
  else readi ip off n s env = Ok (-1, []) s env.
Proof.
  intros HI Hi Hok Ht Hoff Hn. pose proof Hok as (_ & Hmax & _). change (MAXFILE * BSIZE) with 71680 in Hmax.
  unfold readi. rewrite (bind_ok _ _ _ _ _ _ _ (get_inode_eq _ _ _ env Hi)).
  rewrite (proj2 (Z.eqb_neq _ _) Ht).
  assert (Hcond : (i_size i <? off) || (u32 (off + n) <? off) = negb (bool_decide (off <= i_size i /\ off + n < 2 ^ 32))).
  { destruct (Z.ltb_spec (i_size i) off); simpl; [rewrite bool_decide_eq_false_2 by lia; done|].
    unfold u32. case_bool_decide as Hc; simpl.
    - rewrite Z.mod_small by lia. apply Z.ltb_ge. lia.
    - rewrite <- (Z.mod_unique_pos (off + n) (2 ^ 32) 1 (off + n - 2 ^ 32)) by lia. apply Z.ltb_lt. lia. }
  rewrite Hcond. case_bool_decide as Hc; [|done]. simpl.
  assert (Hmin : (if i_size i <? off + n then i_size i - off else n) = Z.min n (i_size i - off)).
  { destruct (Z.ltb_spec (i_size i) (off + n)); lia. }
  rewrite Hmin. set (m := Z.min n (i_size i - off)).
  destruct (readi_loop_run ip i (chunks m) 0 off m s env HI Hi Hok) as (bs & s' & Hrun & HI' & Hic & Hl & Hb);
    [lia|lia|lia|rewrite Z.sub_0_r; apply turns_chunks; lia|].
  rewrite Z.sub_0_r in Hl, Hb. rewrite (bind_ok _ _ _ _ _ _ _ Hrun). exists bs, s'. split_and?; try done.
  unfold ret. do 2 f_equal. unfold s32. rewrite Z.mod_small by lia. lia.
Qed.

End Read.

(** ** Writing *)

(** The file's blocks are different from each other and from the block that
    lists them. *)
Definition layout_ok (v : Z -> option (list Z)) (i : inode) : Prop :=
  (forall bn bn' a, mapped v i bn = Some a -> mapped v i bn' = Some a -> 0 <= bn -> 0 <= bn' -> bn = bn') /\
  (forall bn a, mapped v i bn = Some a -> i.(i_addrs) !! Z.to_nat NDIRECT <> Some a).

Lemma mapped_stable v v' i bn :
  (forall ind, i.(i_addrs) !! Z.to_nat NDIRECT = Some ind -> v' ind = v ind) -> mapped v' i bn = mapped v i bn.
Proof.
  intros Hv. unfold mapped. destruct (bn <? NDIRECT); [done|]. destruct (bn <? MAXFILE); [|done].
  destruct (i_addrs i !! Z.to_nat NDIRECT) as [ind|]; [|done]. simpl. case_guard; [|done]. simpl. by rewrite Hv.
Qed.

(** Overwriting part of one block of the file. *)
Lemma write_block v v' i off a blk bs :
  layout_ok v i -> 0 <= off -> mapped v i (off / BSIZE) = Some a -> v a = Some blk -> length blk = Z.to_nat BSIZE ->
  off mod BSIZE + Z.of_nat (length bs) <= BSIZE ->
  (forall sec, v' sec = if decide (sec = a) then Some (splice (Z.to_nat (off mod BSIZE)) bs blk) else v sec) ->
  (forall bn, mapped v' i bn = mapped v i bn) /\
  forall k, 0 <= k -> file_byte v' i k =
    if decide (off <= k < off + Z.of_nat (length bs)) then bs !! Z.to_nat (k - off) else file_byte v i k.
Proof.
  intros [Hinj Hind] Ho Ha Hblk Hl Hbs Hv'.
  assert (Hm : forall bn, mapped v' i bn = mapped v i bn).
  { intros bn. apply mapped_stable. intros ind Hi. rewrite Hv', decide_False; [done|]. intros ->. by apply (Hind _ _ Ha). }
  split; [done|]. intros k Hk. unfold file_byte, file_block. rewrite Hm.
  pose proof (Z.mod_pos_bound off BSIZE eq_refl) as Hob. pose proof (Z.mod_pos_bound k BSIZE eq_refl) as Hkb.
  pose proof (Z.div_mod off BSIZE ltac:(done)) as Hoe. pose proof (Z.div_mod k BSIZE ltac:(done)) as Hke.
  change (Z.to_nat BSIZE) with 512%nat in Hl. unfold BSIZE in *.
  destruct (decide (k / 512 = off / 512)) as [E|E].
  - rewrite E, Ha. simpl. rewrite Hv', decide_True, Hblk by done. simpl. case_decide as Hr.
    + rewrite lookup_splice_in by lia. f_equal. lia.
    + rewrite lookup_splice_out by lia. done.
  - rewrite decide_False by lia. destruct (mapped v i (k / 512)) as [a'|] eqn:Ha'; [|done]. simpl.
    rewrite Hv', decide_False; [done|]. intros ->. apply E. apply (Hinj _ _ a); try done; apply Z.div_pos; lia.
Qed.

(** The file's bytes from [off] are replaced by those of [src]: the mapping of
    the file, its other bytes and all other sectors stay. *)
Definition overwritten (v v' : Z -> option (list Z)) (i : inode) (off : Z) (src : list Z) : Prop :=
  (forall bn, mapped v' i bn = mapped v i bn) /\
  (forall k, 0 <= k -> file_byte v' i k =
     if decide (off <= k < off + Z.of_nat (length src)) then src !! Z.to_nat (k - off) else file_byte v i k) /\
  (forall sec, (forall bn, 0 <= bn -> mapped v i bn <> Some sec) -> v' sec = v sec) /\
  (forall sec, is_Some (v sec) -> is_Some (v' sec)).

Lemma overwritten_nil v i off : overwritten v v i off [].
Proof. unfold overwritten. split_and?; try done. intros k Hk. rewrite decide_False; [done|]. simpl. lia. Qed.

Lemma overwritten_app v1 v2 v3 i off a b :
  overwritten v1 v2 i off a -> overwritten v2 v3 i (off + Z.of_nat (length a)) b -> overwritten v1 v3 i off (a ++ b).
Proof.
  intros (Hm & Hb & Hs & He) (Hm' & Hb' & Hs' & He'). unfold overwritten. split_and?.
  - intros bn. by rewrite Hm'.
  - intros k Hk. rewrite Hb', Hb, length_app by done.
    repeat case_decide; try lia; try done.
    + rewrite lookup_app_r by lia. f_equal. lia.
    + by rewrite lookup_app_l by lia.
  - intros sec Hsec. rewrite Hs'; [by apply Hs|]. intros bn Hbn. rewrite Hm. by apply Hsec.
  - auto.
Qed.

Lemma overwritten_layout v v' i off src : overwritten v v' i off src -> layout_ok v i -> layout_ok v' i.
Proof.
  intros (Hm & _) [Hinj Hind]. split.
  - intros bn bn' a. rewrite !Hm. apply Hinj.
  - intros bn a. rewrite Hm. apply Hind.
Qed.

Lemma overwritten_ok v v' i off src : overwritten v v' i off src -> file_ok v i -> file_ok v' i.
Proof.
  intros (Hm & _ & _ & He) (Hdev & Hsz & Hblk). unfold file_ok. split_and?; try done; try lia.
  intros bn Hbn Hlt. destruct (Hblk bn Hbn Hlt) as [blk Hfb]. unfold file_block in *. rewrite Hm.
  destruct (mapped v i bn) as [a|]; [|done]. simpl in *. apply He. by eexists.
Qed.

(** Views that agree on every sector have the same files. *)
Lemma mapped_ext v v' i bn : (forall sec, v' sec = v sec) -> mapped v' i bn = mapped v i bn.
Proof. intros Hv. apply mapped_stable. intros ind _. apply Hv. Qed.

Lemma file_byte_ext v v' i k : (forall sec, v' sec = v sec) -> file_byte v' i k = file_byte v i k.
Proof.
  intros Hv. unfold file_byte, file_block. rewrite (mapped_ext v v' i _ Hv).
  destruct (mapped v i (k / BSIZE)) as [a|]; [|done]. simpl. by rewrite Hv.
Qed.

Lemma overwritten_ext v v' w w' i off src :
  (forall sec, w sec = v sec) -> (forall sec, w' sec = v' sec) -> overwritten v v' i off src -> overwritten w w' i off src.
Proof.
  intros Hv Hw (Hm & Hb & Hs & He). unfold overwritten. split_and?.
  - intros bn. by rewrite (mapped_ext v' w' i bn Hw), (mapped_ext v w i bn Hv).
  - intros k Hk. by rewrite (file_byte_ext v' w' i k Hw), (file_byte_ext v w i k Hv), Hb.
  - intros sec Hsec. rewrite Hv, Hw. apply Hs. intros bn Hbn. rewrite <- (mapped_ext v w i bn Hv). by apply Hsec.
  - intros sec. rewrite Hv, Hw. apply He.
Qed.

Section Write.
Context (start size : Z) (w0 : list (Z * list Z)) (d0 : list (list Z)).
Abbreviation view es := (trans_view start size es d0).

Lemma view_entry es a f blk :
  view es a = Some blk ->
  forall sec, view (log_entry d0 es (a, f)) sec = if decide (sec = a) then Some (f blk) else view es sec.
Proof.
  intros Hv sec. pose proof Hv as [Hd Hs]%trans_view_spec.
  assert (Hent : forall sec', view (log_entry d0 es (a, f)) sec' =
    if bool_decide (0 <= sec' < Z.of_nat (length d0)) && negb (bool_decide (start <= sec' < start + size))
    then if decide (sec' = a) then Some (f blk) else seen es d0 sec' else None).
  { intros sec'. unfold trans_view. destruct (_ && _); [|done]. by rewrite (seen_entry es d0 a f blk Hs). }
  rewrite Hent. destruct (decide (sec = a)) as [->|]; [|done]. unfold trans_view in Hv. by destruct (_ && _).
Qed.

Lemma room_le k k' es : (k <= k')%nat -> room size k' es -> room size k es.
Proof. intros Hk [H1 H2]. split; lia. Qed.

(** The body of writei's loop on one chunk. *)
Lemma write_chunk es s env ip i off a blk bs :
  in_trans start size w0 d0 es s -> room size 1 es -> s.(icache) !! ip = Some i -> i.(i_dev) = 1 ->
  0 <= off -> mapped (view es) i (off / BSIZE) = Some a -> view es a = Some blk ->
  off mod BSIZE + Z.of_nat (length bs) <= BSIZE ->
  exists s', (a <- bmap ip (off / BSIZE) ;; i <- get_inode ip ;; bp <- bread i.(i_dev) a ;;
      modify (upd_buf bp (fun x => set_b_data (splice (Z.to_nat (off mod BSIZE)) bs x.(b_data)) x)) ;;;
      log_write bp ;;; brelse bp) s env = Ok tt s' env /\
    tinv start size w0 d0 (log_entry d0 es (a, splice (Z.to_nat (off mod BSIZE)) bs)) s' /\ lframe s s'.
Proof.
  intros Hin Hroom Hi Hdev Ho Ha Hblk Hbs.
  pose proof (trans_reader start size w0 d0 es s Hin) as HR.
  destruct (bmap_run (fun t => in_trans start size w0 d0 es t /\ kframe s t) (view es) s env ip i (off / BSIZE) a)
    as (s1 & Hrun1 & [[Hti1 _] Hk1] & Hic1); try done.
  { split; [done|apply kframe_refl]. } { apply Z.div_pos; unfold BSIZE; lia. }
  mstep Hrun1. rewrite <- Hic1 in Hi. mstep (get_inode_eq _ _ _ env Hi). rewrite Hdev.
  apply trans_view_spec in Hblk as [Hd Hs].
  destruct (update_run start size w0 d0 es s1 env a (splice (Z.to_nat (off mod BSIZE)) bs) Hti1) as (s2 & Hrun2 & Hf2 & Hti2).
  - by eapply on_disk_sector.
  - intros b Hb. rewrite length_splice; [done|]. rewrite Hb.
    pose proof (Z.mod_pos_bound off BSIZE eq_refl). unfold BSIZE in *. lia.
  - done.
  - exists s2. split_and?; [done|done|]. eapply lframe_trans; [by apply kframe_icache|done].
Qed.

Lemma writei_turn fuel ip src tot off n s s' env :
  let bs := take (Z.to_nat (chunk n tot off)) (drop (Z.to_nat tot) src) in
  tot < n ->
  (a <- bmap ip (off / BSIZE) ;; i <- get_inode ip ;; bp <- bread i.(i_dev) a ;;
   modify (upd_buf bp (fun x => set_b_data (splice (Z.to_nat (off mod BSIZE)) bs x.(b_data)) x)) ;;;
   log_write bp ;;; brelse bp) s env = Ok tt s' env ->
  writei_loop (S fuel) ip src tot off n s env =
  writei_loop fuel ip src (tot + chunk n tot off) (u32 (off + chunk n tot off)) n s' env.
Proof.
  intros bs Hlt. simpl. rewrite (proj2 (Z.ltb_lt _ _) Hlt). unfold bind. fold bs.
  destruct (bmap ip _ s env) as [a sa ea|]; [|done].
  destruct (get_inode ip sa ea) as [i sb eb|]; [|done]. destruct (bread _ a sb eb) as [bp sc ec|]; [|done].
  unfold modify. destruct (log_write bp _ ec) as [? sd ed|]; [|done]. destruct (brelse bp sd ed) as [? se ee|]; [|done].
  by intros [= _ -> ->].
Qed.

(** What a run of writei's loop leaves. *)
Abbreviation written i es es' off src := (overwritten (view es) (view es') i off src).

Lemma written_step i es off a blk bs :
  layout_ok (view es) i -> 0 <= off -> mapped (view es) i (off / BSIZE) = Some a -> view es a = Some blk ->
  length blk = Z.to_nat BSIZE -> off mod BSIZE + Z.of_nat (length bs) <= BSIZE ->
  written i es (log_entry d0 es (a, splice (Z.to_nat (off mod BSIZE)) bs)) off bs.
Proof.
  intros Hlay Ho Ha Hblk Hl Hbs.
  pose proof (view_entry es a (splice (Z.to_nat (off mod BSIZE)) bs) blk Hblk) as Hv.
  destruct (write_block _ _ i off a blk bs Hlay Ho Ha Hblk Hl Hbs Hv) as [Hm Hb].
  unfold overwritten. split_and?; try done.
  - intros sec Hsec. rewrite Hv, decide_False; [done|]. intros ->. apply (Hsec (off / BSIZE)); [|done].
    apply Z.div_pos; unfold BSIZE; lia.
  - intros sec Hsec. rewrite Hv. case_decide; [by eexists|done].
Qed.

Lemma writei_loop_run ip i src fuel : forall tot off n es s env,
  tinv start size w0 d0 es s -> room size (Z.to_nat (turns off (n - tot))) es ->
  s.(icache) !! ip = Some i -> file_ok (view es) i -> layout_ok (view es) i ->
  0 <= off -> 0 <= tot <= n -> off + (n - tot) <= i.(i_size) -> Z.of_nat (length src) = n ->
  turns off (n - tot) < Z.of_nat fuel ->
  exists es' s', writei_loop fuel ip src tot off n s env = Ok (off + (n - tot)) s' env /\
    tinv start size w0 d0 es' s' /\ lframe s s' /\
    (length es' <= length es + Z.to_nat (turns off (n - tot)))%nat /\
    written i es es' off (drop (Z.to_nat tot) src).
Proof.
  induction fuel as [|fuel IH]; intros tot off n es s env Hti Hroom Hi Hok Hlay Ho Ht Hsz Hsrc Hfuel.
  { unfold turns in Hfuel. destruct (Z.leb_spec (n - tot) 0); [lia|]. unfold BSIZE in *.
    Z.to_euclidean_division_equations. lia. }
  destruct (Z.ltb_spec tot n) as [Hlt|Hlt].
  2:{ exists es, s. simpl. rewrite (proj2 (Z.ltb_ge _ _) Hlt). split_and?; try done; [unfold ret; f_equal; lia|apply lframe_refl|lia|].
      rewrite drop_ge by lia. apply overwritten_nil. }
  pose proof Hok as (Hdev & Hmax & Hblk). change (MAXFILE * BSIZE) with 71680 in Hmax.
  destruct (turns_step n tot off Ho ltac:(lia)) as (Hm & Hmb & Hturn). set (m := chunk n tot off) in *.
  assert (Ht0 : 0 <= turns (off + m) (n - (tot + m))).
  { unfold turns. destruct (_ <=? 0) eqn:E; [lia|]. unfold BSIZE. Z.to_euclidean_division_equations. lia. }
  destruct (Hblk (off / BSIZE)) as [blk Hfb]; [unfold BSIZE; Z.to_euclidean_division_equations; lia..|].
  unfold file_block in Hfb. destruct (mapped (view es) i (off / BSIZE)) as [a|] eqn:Ha; [|done]. simpl in Hfb.
  set (bs := take (Z.to_nat m) (drop (Z.to_nat tot) src)).
  assert (Hlbs : Z.of_nat (length bs) = m) by (unfold bs; rewrite length_take, length_drop; lia).
  assert (Hin : in_trans start size w0 d0 es s) by (split; [done|destruct Hroom; lia]).
  pose proof (trans_reader start size w0 d0 es s Hin) as HR. pose proof (reader_length a blk Hfb) as Hl.
  destruct (write_chunk es s env ip i off a blk bs Hin) as (s1 & Hrun1 & Hti1 & Hic1); try done; [|lia|].
  { eapply room_le; [|done]. lia. }
  pose proof (written_step i es off a blk bs Hlay Ho Ha Hfb Hl ltac:(lia)) as Hw.
  set (es1 := log_entry d0 es (a, splice (Z.to_nat (off mod BSIZE)) bs)) in *.
  assert (Hu : u32 (off + m) = off + m) by (unfold u32; apply Z.mod_small; lia).
  rewrite <- (lframe_icache _ _ Hic1) in Hi.
  assert (Hle1 : (length es1 <= S (length es))%nat).
  { unfold es1, log_entry. rewrite put_ent_length. case_decide; lia. }
  destruct (IH (tot + m) (off + m) n es1 s1 env Hti1) as (es' & s' & Hrun' & Hti' & Hic' & Hle & Hw'); try done; try lia.
  { destruct Hroom. split; lia. } { by eapply overwritten_ok. } { by eapply overwritten_layout. }
  exists es', s'. split_and?; [|done|by eapply lframe_trans|lia|].
  - rewrite (writei_turn _ _ _ _ _ _ _ _ _ Hlt Hrun1). fold m. rewrite Hu, Hrun'. f_equal. lia.
  - rewrite <- (take_drop (Z.to_nat m) (drop (Z.to_nat tot) src)), drop_drop. fold bs.
    eapply overwritten_app; [exact Hw|]. rewrite Hlbs.
    by replace (Z.to_nat tot + Z.to_nat m)%nat with (Z.to_nat (tot + m)) by lia.
Qed.

(** Reading back what a file was given. *)
Lemma read_back es s env ip i off src :
  let n := Z.of_nat (length src) in
  in_trans start size w0 d0 es s -> s.(icache) !! ip = Some i -> file_ok (view es) i -> i.(i_type) <> T_DEV ->
  0 <= off -> off + n <= i.(i_size) ->
  (forall k, off <= k < off + n -> file_byte (view es) i k = src !! Z.to_nat (k - off)) ->
  exists s', readi ip off n s env = Ok (n, src) s' env.
Proof.
  intros n Hin Hi Hok Ht Ho Hsz Hb. pose proof Hok as (_ & Hmax & _). change (MAXFILE * BSIZE) with 71680 in Hmax.
  pose proof (trans_reader _ _ _ _ _ _ Hin) as HR.
  pose proof (readi_run (in_trans start size w0 d0 es) (view es) ip i off n s env Hin) as Hread.
  rewrite bool_decide_eq_true_2, Z.min_l in Hread by lia.
  destruct Hread as (bs & s' & Hrun & _ & _ & Hl & Hbs); try done; try lia.
  exists s'. rewrite Hrun. do 2 f_equal. apply list_eq_same_length with (length src); [done|lia|].
  intros k x y Hk Hx Hy. specialize (Hbs (Z.of_nat k)). rewrite Nat2Z.id in Hbs.
  rewrite Hb in Hbs by lia. rewrite Z.add_simpl_l, Nat2Z.id in Hbs.
  rewrite Hbs in Hx by lia. congruence.
Qed.

End Write.

Lemma writei_run start size w0 d0 es ip i src off s env :
  let n := Z.of_nat (length src) in
  tinv start size w0 d0 es s -> room size (Z.to_nat (turns off n)) es ->
  s.(icache) !! ip = Some i -> file_ok (trans_view start size es d0) i -> layout_ok (trans_view start size es d0) i ->
  i.(i_type) <> T_DEV -> 0 <= off -> off + n <= i.(i_size) ->
  exists es' s', writei ip src off n s env = Ok n s' env /\ tinv start size w0 d0 es' s' /\
    lframe s s' /\ (length es' <= length es + Z.to_nat (turns off n))%nat /\
    overwritten (trans_view start size es d0) (trans_view start size es' d0) i off src.
Proof.
  intros n Hti Hroom Hi Hok Hlay Ht Ho Hsz. pose proof Hok as (_ & Hmax & _).
  change (MAXFILE * BSIZE) with 71680 in Hmax.
  destruct (writei_loop_run start size w0 d0 ip i src (chunks n) 0 off n es s env Hti)
    as (es' & s' & Hrun & Hti' & Hic & Hle & Hw); rewrite ?Z.sub_0_r; try done; try lia.
  { apply turns_chunks; lia. }
  rewrite Z.sub_0_r in Hrun, Hle. rewrite drop_0 in Hw. exists es', s'. split_and?; try done.
  unfold writei. mstep (get_inode_eq _ _ _ env Hi). rewrite (proj2 (Z.eqb_neq _ _) Ht).
  rewrite (proj2 (Z.ltb_ge (i_size i) off)) by lia.
  assert (Hu : u32 (off + n) = off + n) by (unfold u32; apply Z.mod_small; lia). rewrite Hu.
  rewrite (proj2 (Z.ltb_ge (off + n) off)) by lia. change (MAXFILE * BSIZE) with 71680.
  rewrite (proj2 (Z.ltb_ge 71680 (off + n))) by lia. simpl. mstep Hrun. rewrite <- (lframe_icache _ _ Hic) in Hi.
  mstep (get_inode_eq _ _ _ env Hi). rewrite (proj2 (Z.ltb_ge (i_size i) (off + n))) by lia.
  rewrite andb_false_r. unfold when. mrun. unfold ret. f_equal. unfold s32. rewrite Z.mod_small by lia. lia.
Qed.

(** ** Theorems *)

(** C9: reading a file. Whenever sectors can be read, as in a transaction or
    between transactions, [readi] of a file whose blocks are all there returns
    -1 if the offset is behind the end or the range overflows, and else the
    number of bytes up to the end of the file with exactly those bytes. *)
Theorem readi_contents (I : kstate -> Prop) (v : Z -> option (list Z)) ip i off n s env :
  Reader I v -> I s -> s.(icache) !! ip = Some i -> file_ok v i -> i.(i_type) <> T_DEV ->
  0 <= off < 2 ^ 32 -> 0 <= n < 2 ^ 32 ->
  if bool_decide (off <= i.(i_size) /\ off + n < 2 ^ 32)
  then let m := Z.min n (i.(i_size) - off) in
    exists bs s', readi ip off n s env = Ok (m, bs) s' env /\ I s' /\ s'.(icache) = s.(icache) /\
      length bs = Z.to_nat m /\ forall k, 0 <= k < m -> bs !! Z.to_nat k = file_byte v i (off + k)
  else readi ip off n s env = Ok (-1, []) s env.
Proof. intros HR. exact (readi_run I v ip i off n s env). Qed.

(** Writing inside a file. Within a transaction with room for the blocks
    touched, [writei] of a range below the file's size returns the number of
    bytes; afterwards the file has the new bytes in the range and its old
    bytes elsewhere, no sector that is not a block of the file has changed,
    and [readi] of the range returns what was written. *)
Theorem writei_overwrites start size w0 d0 es ip i src off s env :
  let n := Z.of_nat (length src) in
  let view es := trans_view start size es d0 in
  tinv start size w0 d0 es s -> room size (Z.to_nat (turns off n)) es ->
  s.(icache) !! ip = Some i -> file_ok (view es) i -> layout_ok (view es) i -> i.(i_type) <> T_DEV ->
  0 <= off -> off + n <= i.(i_size) ->
  exists es' s', writei ip src off n s env = Ok n s' env /\ tinv start size w0 d0 es' s' /\
    (forall k, 0 <= k -> file_byte (view es') i k =
       if decide (off <= k < off + n) then src !! Z.to_nat (k - off) else file_byte (view es) i k) /\
    (forall sec, (forall bn, 0 <= bn -> mapped (view es) i bn <> Some sec) -> view es' sec = view es sec) /\
    exists s'', readi ip off n s' env = Ok (n, src) s'' env.
Proof.
  intros n view Hti Hroom Hi Hok Hlay Ht Ho Hsz. pose proof Hok as (_ & Hmax & _).
  change (MAXFILE * BSIZE) with 71680 in Hmax.
  destruct (writei_run start size w0 d0 es ip i src off s env Hti Hroom Hi Hok Hlay Ht Ho Hsz)
    as (es' & s' & Hwr & Hti' & Hic & Hle & Hw). fold n in Hle.
  pose proof Hw as (_ & Hb & Hother & _).
  exists es', s'. split_and?; try done.
  apply (read_back start size w0 d0 es' s' env ip i off src); try done.
  - split; [done|destruct Hroom; lia].
  - by rewrite (lframe_icache _ _ Hic).
  - by eapply overwritten_ok.
  - intros k Hk. by rewrite Hb, decide_True by lia.
Qed.

Lemma demo_mapped v bn a : 0 <= bn -> mapped v demo_inode bn = Some a -> (bn = 0 /\ a = 6) \/ (bn = 1 /\ a = 7).
Proof.
  intros Hbn. unfold mapped. destruct (Z.ltb_spec bn NDIRECT) as [Hd|Hd].
  - unfold NDIRECT in Hd. replace bn with (Z.of_nat (Z.to_nat bn)) in Hd |- * by lia.
    generalize dependent (Z.to_nat bn). intros k Hk. rewrite Nat2Z.id.
    do 12 (destruct k as [|k]; [vm_compute; intros; simplify_eq; lia|]). lia.
  - destruct (bn <? MAXFILE); [|done]. change (i_addrs demo_inode !! Z.to_nat NDIRECT) with (Some 0). done.
Qed.

Lemma demo_layout v : layout_ok v demo_inode.
Proof.
  split.
  - intros bn bn' a H1 H2 H3 H4. apply demo_mapped in H1, H2; [|done..]. lia.
  - intros bn a Ha. change (i_addrs demo_inode !! Z.to_nat NDIRECT) with (Some 0). intros [= <-].
    unfold mapped in Ha. destruct (bn <? NDIRECT).
    + destruct (i_addrs demo_inode !! Z.to_nat bn); [|done]. simpl in Ha. case_guard; [|done]. simpl in Ha. by simplify_eq.
    + destruct (bn <? MAXFILE); [|done]. change (i_addrs demo_inode !! Z.to_nat NDIRECT) with (Some 0) in Ha. done.
Qed.

Lemma demo_file_ok : file_ok (trans_view 20 10 [] demo_fs_img) demo_inode.
Proof.
  unfold file_ok. split_and?; [done|simpl; lia|vm_compute; done|]. intros bn Hbn Hlt. simpl in Hlt. unfold BSIZE in Hlt.
  assert (bn = 0 \/ bn = 1) as [-> | ->] by lia; by eexists.
Qed.

Lemma readi_contents_witness :
  exists bs s', readi 0 500 400 demo_cached [] = Ok (200, bs) s' [] /\
    in_trans 20 10 [] demo_fs_img [] s' /\ s'.(icache) = demo_cached.(icache) /\ length bs = 200%nat /\
    forall k, 0 <= k < 200 -> bs !! Z.to_nat k = file_byte (trans_view 20 10 [] demo_fs_img) demo_inode (500 + k).
Proof.
  assert (Hin : in_trans 20 10 [] demo_fs_img [] demo_cached) by (split; [exact demo_tinv|unfold NBUF; simpl; lia]).
  apply (readi_contents (in_trans 20 10 [] demo_fs_img []) (trans_view 20 10 [] demo_fs_img) 0 demo_inode 500 400 demo_cached []);
    [exact (trans_reader _ _ _ _ _ _ Hin)|exact Hin|done|exact demo_file_ok|done|lia|lia].
Defined.

Lemma writei_overwrites_witness :
  exists es' s', writei 0 [1; 2; 3] 510 3 demo_cached [] = Ok 3 s' [] /\ tinv 20 10 [] demo_fs_img es' s' /\
    (forall k, 0 <= k -> file_byte (trans_view 20 10 es' demo_fs_img) demo_inode k =
       if decide (510 <= k < 510 + 3) then [1; 2; 3] !! Z.to_nat (k - 510)
       else file_byte (trans_view 20 10 [] demo_fs_img) demo_inode k) /\
    (forall sec, (forall bn, 0 <= bn -> mapped (trans_view 20 10 [] demo_fs_img) demo_inode bn <> Some sec) ->
       trans_view 20 10 es' demo_fs_img sec = trans_view 20 10 [] demo_fs_img sec) /\
    exists s'', readi 0 510 3 s' [] = Ok (3, [1; 2; 3]) s'' [].
Proof.
  apply (writei_overwrites 20 10 [] demo_fs_img [] 0 demo_inode [1; 2; 3] 510 demo_cached []);
    [exact demo_tinv|change (Z.to_nat _) with 2%nat; split; unfold NBUF; simpl; lia|done|exact demo_file_ok|apply demo_layout|done|lia|simpl; lia].
Defined.

End FileData.
