(* ===== verification/Append.v ===== *)
(** Growing files (kernel/fs.c: bmap with balloc, writei, iupdate): writing
    behind the end of a file, within its direct blocks. *)
From S2P Require Import Prelude Types Spinlock Sched Bio BioFacts BioAbs BioRep Log LogSpec LogFacts Crash Inode BlockFacts InodeFacts Console Fs FileData.
Import Spinlock Sched Bio BioFacts BioAbs BioRep Log LogSpec LogFacts Inode BlockFacts InodeFacts Fs FileData.

Module Append.

Lemma unset_ext (f g : Z -> bool) n : (forall y, 0 <= y < n -> f y = g y) ->
  filter (fun y => f y = false) (seqZ 0 n) = filter (fun y => g y = false) (seqZ 0 n).
Proof.
  intros Hfg. assert (Hr : forall y, y ∈ seqZ 0 n -> f y = g y) by (intros y Hy%elem_of_seqZ; apply Hfg; lia).
  induction (seqZ 0 n) as [|y l IH]; [done|]. rewrite !filter_cons, Hr by left.
  rewrite IH by (intros z Hz; apply Hr; by right). done.
Qed.

Section Grow.
Context (start size : Z) (w0 : list (Z * list Z)) (d0 : list (list Z)) (sb : superblock).
Abbreviation view es := (trans_view start size es d0).

(** A sector that neither the bitmap nor the super block uses. *)
Definition plain (sec : Z) : Prop := sec <> 1 /\ forall y, 0 <= y < sb.(sb_size) -> sec <> BBLOCK y sb.(sb_ninodes).

(** A block that is in use for data. *)
Definition taken_block (es : list (Z * list Z)) (a : Z) : Prop :=
  (0 <= a < sb.(sb_size) /\ on_disk start size d0 a) /\ used es d0 sb a = true /\ plain a.

(** The file's blocks are its own and marked as used, as is block 0, whose
    number means no block. *)
Definition good (es : list (Z * list Z)) (i : inode) : Prop :=
  fs_ok start size d0 es sb /\ (0 < sb.(sb_size) /\ used es d0 sb 0 = true) /\ layout_ok (view es) i /\ i.(i_dev) = 1 /\ length i.(i_addrs) = 13%nat /\
  (forall bn a, 0 <= bn -> mapped (view es) i bn = Some a -> taken_block es a) /\
  (forall ind, i.(i_addrs) !! Z.to_nat NDIRECT = Some ind -> ind <> 0 -> taken_block es ind).

(** A sector in use that does not belong to the file. *)
Definition foreign (es : list (Z * list Z)) (i : inode) (sec : Z) : Prop :=
  (0 <= sec < sb.(sb_size) -> used es d0 sb sec = true) /\ plain sec /\
  (forall bn, 0 <= bn -> mapped (view es) i bn <> Some sec) /\ i.(i_addrs) !! Z.to_nat NDIRECT <> Some sec.

(** The file has the bytes [src] from [off] on and keeps its other bytes; its
    blocks stay, and what is not its own does not change. *)
Record extends (es : list (Z * list Z)) (i : inode) (es' : list (Z * list Z)) (i' : inode) (off : Z) (src : list Z) : Prop := {
  ex_good : good es' i';
  ex_inode : exists ad, i' = set_i_addrs ad i;
  ex_new k : off <= k < off + Z.of_nat (length src) -> file_byte (view es') i' k = src !! Z.to_nat (k - off);
  ex_old k b : 0 <= k -> ~ (off <= k < off + Z.of_nat (length src)) ->
    file_byte (view es) i k = Some b -> file_byte (view es') i' k = Some b;
  ex_map bn a : 0 <= bn -> mapped (view es) i bn = Some a -> mapped (view es') i' bn = Some a;
  ex_other sec : foreign es i sec -> view es' sec = view es sec /\ foreign es' i' sec
}.

Lemma extends_refl es i off : good es i -> extends es i es i off [].
Proof.
  intros Hg. split; try done.
  - exists (i_addrs i). by destruct i.
  - simpl. lia.
Qed.

Lemma extends_app es1 i1 es2 i2 es3 i3 off a b : 0 <= off ->
  extends es1 i1 es2 i2 off a -> extends es2 i2 es3 i3 (off + Z.of_nat (length a)) b ->
  extends es1 i1 es3 i3 off (a ++ b).
Proof.
  intros Hoff [Hg1 [ad1 Hi1] Hn1 Ho1 Hm1 Hs1] [Hg2 [ad2 Hi2] Hn2 Ho2 Hm2 Hs2]. split.
  - done.
  - exists ad2. by rewrite Hi2, Hi1.
  - intros k Hk. rewrite length_app in Hk. destruct (decide (k < off + Z.of_nat (length a))) as [Hlt|Hge].
    + rewrite lookup_app_l by lia. destruct (lookup_lt_is_Some_2 a (Z.to_nat (k - off))) as [c Hc]; [lia|].
      rewrite Hc. apply Ho2; [lia|lia|]. rewrite Hn1 by lia. done.
    + rewrite lookup_app_r by lia. rewrite Hn2 by lia. f_equal. lia.
  - intros k c Hk Hout Hb. rewrite length_app in Hout. apply Ho2; [done|lia|]. apply Ho1; [done|lia|done].
  - intros bn c Hbn Hc. auto.
  - intros sec Hf. destruct (Hs1 sec Hf) as [E1 Hf2]. destruct (Hs2 sec Hf2) as [E2 Hf3]. split; [congruence|done].
Qed.

(** ** Overwriting a block the file has *)

Lemma log_view es a f blk : view es a = Some blk ->
  (forall sec, view (log_entry d0 es (a, f)) sec = if decide (sec = a) then Some (f blk) else view es sec) /\
  (forall sec, seen (log_entry d0 es (a, f)) d0 sec = if decide (sec = a) then Some (f blk) else seen es d0 sec).
Proof.
  intros Hv. split; [by apply view_entry|]. apply trans_view_spec in Hv as [_ Hs]. by apply seen_entry.
Qed.

(** A change of a plain sector leaves the bitmap alone. *)
Lemma plain_change es es' a : plain a -> (forall sec, sec <> a -> seen es' d0 sec = seen es d0 sec) ->
  (forall y, 0 <= y < sb.(sb_size) -> used es' d0 sb y = used es d0 sb y) /\
  (fs_ok start size d0 es sb -> fs_ok start size d0 es' sb).
Proof.
  intros [H1 Hp] Hs. split.
  - intros y Hy. unfold used. rewrite Hs; [done|]. intros E. by apply (Hp y Hy).
  - intros [Hsb Hsd Hsz Hbm Hfr Hni]. split; try done.
    + destruct Hsb as (blk & Hb & E). exists blk. by rewrite Hs.
    + intros x bm Hx. rewrite Hs by (intros E; by apply (Hp x Hx)). by apply Hfr.
Qed.

Lemma taken_change es es' x : (forall y, 0 <= y < sb.(sb_size) -> used es' d0 sb y = used es d0 sb y) ->
  taken_block es x -> taken_block es' x.
Proof. intros Hu ([Hxr Hxd] & Hxu & Hxp). split; [done|split; [by rewrite Hu|done]]. Qed.

Lemma overwrite_step es i off a blk bs :
  good es i -> 0 <= off -> mapped (view es) i (off / BSIZE) = Some a -> view es a = Some blk ->
  length blk = Z.to_nat BSIZE -> off mod BSIZE + Z.of_nat (length bs) <= BSIZE ->
  extends es i (log_entry d0 es (a, splice (Z.to_nat (off mod BSIZE)) bs)) i off bs.
Proof.
  intros (Hfs & [Hs0 Hu0] & Hlay & Hdev & Hlen & Hown & Hind) Ho Ha Hblk Hl Hbs.
  set (es' := log_entry d0 es (a, splice (Z.to_nat (off mod BSIZE)) bs)).
  destruct (log_view es a (splice (Z.to_nat (off mod BSIZE)) bs) blk Hblk) as [Hv Hs]. fold es' in Hv, Hs.
  destruct (write_block (view es) (view es') i off a blk bs Hlay Ho Ha Hblk Hl Hbs Hv) as [Hm Hb].
  destruct (Hown (off / BSIZE) a) as ([Har _] & Hau & Hap); [apply Z.div_pos; unfold BSIZE; lia|done|].
  destruct (plain_change es es' a Hap) as [Hused Hfs']; [intros sec Hne; by rewrite Hs, decide_False|].
  pose proof (fun x => taken_change es es' x Hused) as Htb.
  split.
  - unfold good. split_and?; auto.
    + rewrite Hused; [done|lia].
    + destruct Hlay as [Hinj Hi]. split; [intros bn bn' c; rewrite !Hm; apply Hinj|intros bn c; rewrite Hm; apply Hi].
    + intros bn c Hbn. rewrite Hm. eauto.
  - exists (i_addrs i). by destruct i.
  - intros k Hk. by rewrite Hb, decide_True by lia.
  - intros k c Hk Hout. rewrite Hb, decide_False by done. done.
  - intros bn c _. by rewrite Hm.
  - intros sec (Hu & Hp & Hno & Hni). split.
    + rewrite Hv, decide_False; [done|]. intros ->. apply (Hno (off / BSIZE)); [apply Z.div_pos; unfold BSIZE; lia|done].
    + unfold foreign. split_and?; [intros Hr; rewrite Hused; auto|apply Hp..| |done]. intros bn Hbn. rewrite Hm. auto.
Qed.


(** ** A new block *)

Lemma mapped_neg v i bn : bn < 0 -> mapped v i bn = mapped v i 0.
Proof.
  intros Hb. unfold mapped. rewrite (proj2 (Z.ltb_lt bn NDIRECT)) by (unfold NDIRECT; lia).
  by replace (Z.to_nat bn) with 0%nat by lia.
Qed.

Lemma alloc_step es i bn x s off :
  tinv start size w0 d0 es s -> (length es < NBUF)%nat -> good es i -> 0 <= bn < NDIRECT ->
  i.(i_addrs) !! Z.to_nat bn = Some 0 -> 0 <= x < sb.(sb_size) -> used es d0 sb x = false ->
  let es' := allocated d0 sb x es in
  let i' := set_i_addrs (<[Z.to_nat bn := x]> i.(i_addrs)) i in
  extends es i es' i' off [] /\ mapped (view es') i' bn = Some x /\ view es' x = Some zeros.
Proof.
  intros Hti Hlen (Hfs & [Hs0 Hu0] & [Hinj Hlind] & Hdev & Hl & Hown & Hind) Hbn Ha Hx Hux es' i'.
  destruct (allocated_ok start size w0 d0 es sb s x Hti Hfs Hlen Hx Hux) as (Hfs' & Hz & Hused & Hseen). fold es' in Hfs', Hz, Hused, Hseen.
  destruct (seen_length start size w0 d0 es s _ Hti (fs_bitmap _ _ _ _ _ Hfs x Hx) Hlen) as (bm & Hbm & _).
  assert (Hbu : bit_used bm (x mod BPB) = false) by (unfold used in Hux; by rewrite Hbm in Hux).
  destruct (fs_free _ _ _ _ _ Hfs x bm Hx Hbm Hbu) as (Hxd & Hx1 & Hxb).
  assert (Hx0 : x <> 0) by (intros ->; congruence).
  assert (Hview : forall sec, sec <> x -> sec <> BBLOCK x (sb_ninodes sb) -> view es' sec = view es sec).
  { intros sec H1 H2. unfold trans_view. destruct (_ && _); [|done]. by apply Hseen. }
  assert (Hold : forall a, taken_block es a -> a <> x /\ view es' a = view es a /\ taken_block es' a).
  { intros a ([Har Had] & Hau & Hap). assert (a <> x) by congruence. split; [done|split; [apply Hview; [done|by apply Hap]|]].
    split; [done|split; [|done]]. by rewrite Hused, decide_False by done. }
  assert (Hadd : forall k : nat, i_addrs i' !! k = if decide (k = Z.to_nat bn) then Some x else i_addrs i !! k).
  { intros k. simpl. case_decide as E; [subst k; apply list_lookup_insert_eq; apply lookup_lt_Some in Ha; done|by rewrite list_lookup_insert_ne]. }
  assert (Hm : forall k, 0 <= k -> mapped (view es') i' k = if decide (k = bn) then Some x else mapped (view es) i k).
  { intros k Hk. unfold mapped. rewrite !Hadd. destruct (Z.ltb_spec k NDIRECT) as [Hlt|Hge].
    - destruct (decide (k = bn)) as [->|Hne]; [rewrite decide_True by done; simpl; by rewrite option_guard_True|].
      by rewrite decide_False by lia.
    - rewrite (decide_False (P := k = bn)) by lia. destruct (k <? MAXFILE); [|done].
      rewrite decide_False by (unfold NDIRECT in *; lia). destruct (i_addrs i !! Z.to_nat NDIRECT) as [ind|] eqn:Ei; [|done]. simpl.
      case_guard as Hi0; [|done]. simpl. destruct (Hold ind (Hind ind eq_refl Hi0)) as (_ & -> & _). done. }
  assert (Hnone : mapped (view es) i bn = None).
  { unfold mapped. rewrite (proj2 (Z.ltb_lt _ _)) by lia. rewrite Ha. done. }
  assert (Hind' : i_addrs i' !! Z.to_nat NDIRECT = i_addrs i !! Z.to_nat NDIRECT).
  { rewrite Hadd, decide_False; [done|]. unfold NDIRECT in *. lia. }
  assert (Hxind : i_addrs i !! Z.to_nat NDIRECT <> Some x).
  { intros E. by destruct (Hold x (Hind x E Hx0)) as (? & _). }
  split_and?; [split| |].
  - unfold good. split_and?; try done.
    + rewrite Hused by lia. by case_decide.
    + split.
      * intros k k' a Hk Hk' H0 H0'. rewrite Hm in Hk, Hk' by done. repeat case_decide; simplify_eq; try done;
          first [by eapply Hinj|exfalso; match goal with H : mapped (view es) i ?k1 = Some ?a, H1 : 0 <= ?k1 |- _ =>
            by destruct (Hold a (Hown k1 a H1 H)) as (? & _) end].
      * intros k a Hk. rewrite Hind'. assert (exists k0, 0 <= k0 /\ mapped (view es') i' k0 = Some a) as (k0 & Hk0 & Hka).
        { destruct (Z_lt_le_dec k 0) as [Hneg|Hpos]; [exists 0; by rewrite <- (mapped_neg _ _ k)|by exists k]. }
        rewrite Hm in Hka by done. case_decide; simplify_eq; [done|by eapply Hlind].
    + unfold i'. simpl. by rewrite length_insert.
    + intros k a Hk. rewrite Hm by done. case_decide; intros E; simplify_eq.
      * split; [done|split; [by rewrite Hused, decide_True by done|done]].
      * by apply Hold, (Hown k).
    + intros ind. rewrite Hind'. intros E E0. by apply Hold, Hind.
  - by eexists.
  - simpl. lia.
  - intros k b Hk _ Hb. unfold file_byte, file_block in *. assert (Hk' : 0 <= k / BSIZE) by (apply Z.div_pos; unfold BSIZE; lia).
    rewrite Hm by done. destruct (mapped (view es) i (k / BSIZE)) as [a|] eqn:Em; [|done].
    rewrite decide_False by congruence. simpl in *. by destruct (Hold a (Hown _ a Hk' Em)) as (_ & -> & _).
  - intros k a Hk E. rewrite Hm by done. rewrite decide_False by congruence. done.
  - intros sec (Hu & Hp & Hno & Hni).
    assert (Hsx : sec <> x) by (intros ->; rewrite Hu in Hux by done; done).
    split; [apply Hview; [done|by apply Hp]|]. unfold foreign. split_and?.
    + intros Hr. rewrite Hused by done. case_decide; auto.
    + apply Hp.
    + intros k Hk. rewrite Hm by done. case_decide; [congruence|auto].
    + by rewrite Hind'.
  - rewrite Hm, decide_True by lia. done.
  - apply trans_view_spec. split; [done|exact Hz].
Qed.


(** ** Mapping a block, with allocation *)

Lemma kframe_trans s1 s2 s3 : kframe s1 s2 -> kframe s2 s3 -> kframe s1 s3.
Proof.
  intros [ic1 H1] [ic2 H2]. exists ic2. eapply lframe_trans; [|exact H2]. exact (lframe_set_icache ic2 _ _ H1).
Qed.

Lemma kframe_upd s s' ip f : lframe s s' -> kframe s (upd_inode ip f s').
Proof. intros Hf. eexists. exact (lframe_set_icache _ _ _ Hf). Qed.

Lemma upd_inode_insert s ip f i : s.(icache) !! ip = Some i -> (upd_inode ip f s).(icache) = <[ip := f i]> s.(icache).
Proof. intros Hi. by rewrite (upd_inode_set s ip f i Hi). Qed.

(** Every block is in use. *)
Definition full (es : list (Z * list Z)) : Prop := forall y, 0 <= y < sb.(sb_size) -> used es d0 sb y = true.

(** The number of free blocks. *)
Definition frees (es : list (Z * list Z)) : list Z := filter (fun y => used es d0 sb y = false) (seqZ 0 sb.(sb_size)).

Lemma frees_full es : full es -> frees es = [].
Proof.
  intros Hf. destruct (frees es) as [|y l] eqn:E; [done|].
  assert (Hy : y ∈ frees es) by (rewrite E; left). apply list_elem_of_filter in Hy as [Hy Hr%elem_of_seqZ].
  rewrite Hf in Hy by lia. done.
Qed.

Lemma frees_ext es es' : (forall y, 0 <= y < sb.(sb_size) -> used es' d0 sb y = used es d0 sb y) -> frees es' = frees es.
Proof. apply unset_ext. Qed.

(** Taking one block leaves all the others. *)
Lemma frees_take es es' x :
  (forall y, 0 <= y < sb.(sb_size) -> used es' d0 sb y = if decide (y = x) then true else used es d0 sb y) ->
  (length (frees es) <= S (length (frees es')))%nat.
Proof.
  intros Hu. assert (Hsub : frees es ⊆ x :: frees es').
  { intros y [Hy Hr]%list_elem_of_filter. apply elem_of_cons. destruct (decide (y = x)); [by left|right].
    apply list_elem_of_filter. split; [|done]. apply elem_of_seqZ in Hr. rewrite Hu, decide_False by lia. done. }
  apply (submseteq_length (frees es) (x :: frees es')), NoDup_submseteq; [|done].
  unfold frees. apply NoDup_filter, NoDup_seqZ.
Qed.

Lemma log_entry_twice es a f g :
  length (log_entry d0 (log_entry d0 es (a, f)) (a, g)) = length (log_entry d0 es (a, f)).
Proof.
  unfold log_entry. simpl. generalize (f (entry_of es d0 a)) as b1. intros b1.
  generalize (g (entry_of (put_ent a b1 es) d0 a)) as b2. intros b2.
  induction es as [|e es IH]; simpl; [by rewrite Z.eqb_refl|].
  destruct (e.1 =? a) eqn:E; simpl; [by rewrite Z.eqb_refl|]. rewrite E. simpl. by rewrite IH.
Qed.

Lemma log_entry_grow es u : (length (log_entry d0 es u) <= S (length es))%nat.
Proof. unfold log_entry. rewrite put_ent_length. case_decide; lia. Qed.

Lemma bmap_grow es s env ip i bn off :
  tinv start size w0 d0 es s -> good es i -> room size 2 es -> s.(icache) !! ip = Some i -> 0 <= bn < NDIRECT ->
  (exists a es' i' s' blk, bmap ip bn s env = Ok a s' env /\ tinv start size w0 d0 es' s' /\ extends es i es' i' off [] /\
     mapped (view es') i' bn = Some a /\ view es' a = Some blk /\ s'.(icache) = <[ip := i']> s.(icache) /\ kframe s s' /\
     (forall f, (length (log_entry d0 es' (a, f)) <= length es + 2)%nat) /\ (length es' <= length es + 2)%nat /\
     (length (frees es) <= S (length (frees es')))%nat /\ (is_Some (mapped (view es) i bn) -> i' = i /\ es' = es)) \/
  (exists s', bmap ip bn s env = Err (Panic "balloc: out of blocks") s' env /\ full es).
Proof.
  intros Hti Hgood Hroom Hi Hbn. pose proof Hgood as (Hfs & _ & _ & Hdev & Hl & Hown & _).
  assert (Hlen : (length es < NBUF)%nat) by (destruct Hroom; lia).
  destruct (mapped (view es) i bn) as [a|] eqn:Hm.
  - left. assert (Hin : in_trans start size w0 d0 es s) by done. pose proof (trans_reader start size w0 d0 es s Hin) as HR.
    destruct (bmap_run (fun t => in_trans start size w0 d0 es t /\ kframe s t) (view es) s env ip i bn a)
      as (s1 & Hrun1 & [[Hti1 _] Hk1] & Hic1); try done; [split; [done|apply kframe_refl]|lia|].
    destruct (Hown bn a ltac:(lia) Hm) as ([_ Had] & _).
    destruct (seen_length start size w0 d0 es s a Hti Had Hlen) as (blk & Hblk & _).
    exists a, es, i, s1, blk. split_and?; try done; [by apply extends_refl|by apply trans_view_spec|by rewrite list_insert_id| |lia..].
    intros f. pose proof (log_entry_grow es (a, f)). lia.
  - destruct (lookup_lt_is_Some_2 (i_addrs i) (Z.to_nat bn)) as [a0 Ha0]; [unfold NDIRECT in *; lia|].
    assert (a0 = 0) as ->.
    { unfold mapped in Hm. rewrite (proj2 (Z.ltb_lt _ _)), Ha0 in Hm by lia. simpl in Hm. case_guard; [done|]. lia. }
    destruct (balloc_run start size w0 d0 es sb s env Hti Hfs Hroom) as ([x|] & s1 & Hf1 & Hcase).
    + left. destruct Hcase as (Hrun & Hx & Hu & _ & Hti1).
      destruct (alloc_step es i bn x s off Hti Hlen Hgood Hbn Ha0 Hx Hu) as (Hex & Hmx & Hvx).
      set (f := fun y => set_i_addrs (<[Z.to_nat bn := x]> (i_addrs y)) y).
      eexists x, _, _, (upd_inode ip f s1), zeros. split_and?; [|exact Hti1|exact Hex|exact Hmx|exact Hvx| |by apply kframe_upd| | | |by intros [? ?]].
      * unfold bmap. mstep (get_inode_eq _ _ _ env Hi). rewrite (proj2 (Z.ltb_lt _ _)) by lia. unfold deref. rewrite Ha0. mrun.
        rewrite Z.eqb_refl, Hdev. by mstep Hrun.
      * rewrite <- (lframe_icache _ _ Hf1) in Hi |- *. exact (upd_inode_insert s1 ip f i Hi).
      * intros g. unfold allocated. rewrite log_entry_twice. etrans; [apply log_entry_grow|]. rewrite Nat.add_comm. apply le_n_S, log_entry_grow.
      * unfold allocated. etrans; [apply log_entry_grow|]. rewrite Nat.add_comm. apply le_n_S, log_entry_grow.
      * apply (frees_take _ _ x). apply (allocated_ok start size w0 d0 es sb s x Hti Hfs Hlen Hx Hu).
    + right. destruct Hcase as [Hrun Hfull]. exists s1. split; [|done].
      unfold bmap. mstep (get_inode_eq _ _ _ env Hi). rewrite (proj2 (Z.ltb_lt _ _)) by lia. unfold deref. rewrite Ha0. mrun.
      rewrite Z.eqb_refl, Hdev. by rewrite (bind_err _ _ _ _ _ _ _ Hrun).
Qed.


(** ** The loop of writei *)

(** One turn. *)
Lemma grow_chunk es s env ip i off bs :
  tinv start size w0 d0 es s -> good es i -> room size 3 es -> s.(icache) !! ip = Some i ->
  0 <= off < NDIRECT * BSIZE -> off mod BSIZE + Z.of_nat (length bs) <= BSIZE -> frees es <> [] ->
  exists es' i' s', (a <- bmap ip (off / BSIZE) ;; i <- get_inode ip ;; bp <- bread i.(i_dev) a ;;
      modify (upd_buf bp (fun x => set_b_data (splice (Z.to_nat (off mod BSIZE)) bs x.(b_data)) x)) ;;;
      log_write bp ;;; brelse bp) s env = Ok tt s' env /\
    tinv start size w0 d0 es' s' /\ extends es i es' i' off bs /\ s'.(icache) = <[ip := i']> s.(icache) /\ kframe s s' /\
    (length es' <= length es + 2)%nat /\ (length (frees es) <= S (length (frees es')))%nat.
Proof.
  intros Hti Hgood Hroom Hi Ho Hbs Hfree. set (bn := off / BSIZE).
  assert (Hbn : 0 <= bn < NDIRECT) by (unfold bn, NDIRECT, BSIZE in *; Z.to_euclidean_division_equations; lia).
  destruct (bmap_grow es s env ip i bn off Hti Hgood (room_le size 2 3 es ltac:(lia) Hroom) Hi Hbn)
    as [(a & es1 & i1 & s1 & blk & Hrun & Hti1 & Hex1 & Hm1 & Hv1 & Hic1 & Hk1 & Hle & Hle1 & Hfr1 & _)|(s1 & _ & Hfull)];
    [|by apply frees_full in Hfull].
  pose proof (ex_good _ _ _ _ _ _ Hex1) as Hgood1. pose proof Hgood1 as (Hfs1 & _ & _ & Hdev1 & _ & Hown1 & _).
  assert (Hi1 : icache s1 !! ip = Some i1) by (rewrite Hic1; apply list_lookup_insert_eq; by eapply lookup_lt_Some).
  assert (Hlen1 : (length es1 < NBUF)%nat) by (destruct Hroom; lia).
  pose proof Hv1 as [Hd1 Hs1]%trans_view_spec.
  assert (Hl : length blk = Z.to_nat BSIZE).
  { destruct (seen_length start size w0 d0 es1 s1 a Hti1 Hd1 Hlen1) as (blk' & Hb' & Hl'). by simplify_eq. }
  mstep Hrun. mstep (get_inode_eq _ _ _ env Hi1). rewrite Hdev1.
  destruct (update_run start size w0 d0 es1 s1 env a (splice (Z.to_nat (off mod BSIZE)) bs) Hti1) as (s2 & Hrun2 & Hf2 & Hti2).
  { by eapply on_disk_sector. }
  { intros b Hb. rewrite length_splice; [done|]. rewrite Hb.
    pose proof (Z.mod_pos_bound off BSIZE eq_refl). unfold BSIZE in *. lia. }
  { destruct Hroom. split; lia. }
  exists (log_entry d0 es1 (a, splice (Z.to_nat (off mod BSIZE)) bs)), i1, s2. split_and?; [done|done| | | |apply Hle|].
  - apply (extends_app _ _ es1 i1 _ _ off [] bs ltac:(lia) Hex1). simpl. rewrite Z.add_0_r.
    apply (overwrite_step es1 i1 off a blk bs Hgood1); [lia|done..].
  - rewrite (lframe_icache _ _ Hf2). done.
  - by eapply kframe_lframe.
  - rewrite (frees_ext es1 (log_entry _ _ _)); [done|]. destruct (Hown1 bn a ltac:(lia) Hm1) as (_ & _ & Hp).
    apply (plain_change es1 _ a Hp). intros sec Hne. rewrite (proj2 (log_view es1 a _ blk Hv1)), decide_False by done. done.
Qed.


Lemma turns_nonneg off r : 0 <= off -> 0 <= turns off r.
Proof.
  intros Ho. unfold turns. destruct (Z.leb_spec r 0); [lia|]. unfold BSIZE. Z.to_euclidean_division_equations. lia.
Qed.

Lemma grow_loop ip src n fuel : forall tot off es i s env,
  tinv start size w0 d0 es s -> good es i -> room size (2 * Z.to_nat (turns off (n - tot)) + 1) es ->
  s.(icache) !! ip = Some i -> 0 <= off -> 0 <= tot <= n -> off + (n - tot) <= NDIRECT * BSIZE -> Z.of_nat (length src) = n ->
  turns off (n - tot) <= Z.of_nat (length (frees es)) -> turns off (n - tot) < Z.of_nat fuel ->
  exists es' i' s', writei_loop fuel ip src tot off n s env = Ok (off + (n - tot)) s' env /\
    tinv start size w0 d0 es' s' /\ extends es i es' i' off (drop (Z.to_nat tot) src) /\
    s'.(icache) = <[ip := i']> s.(icache) /\ kframe s s' /\ room size 1 es' /\
    (length (frees es) <= length (frees es') + Z.to_nat (turns off (n - tot)))%nat.
Proof.
  induction fuel as [|fuel IH]; intros tot off es i s env Hti Hgood Hroom Hi Ho Ht Hmax Hsrc Hfree Hfuel.
  { pose proof (turns_nonneg off (n - tot) Ho). lia. }
  destruct (Z.ltb_spec tot n) as [Hlt|Hge].
  2:{ exists es, i, s. simpl. rewrite (proj2 (Z.ltb_ge _ _) Hge). rewrite drop_ge by lia. split_and?; [unfold ret; f_equal; lia|done|by apply extends_refl|by rewrite list_insert_id|apply kframe_refl| |lia].
      eapply room_le; [|done]. lia. }
  destruct (turns_step n tot off Ho ltac:(lia)) as (Hm & Hmb & Hturn). set (m := chunk n tot off) in *.
  pose proof (turns_nonneg (off + m) (n - (tot + m)) ltac:(lia)) as Ht0.
  set (bs := take (Z.to_nat m) (drop (Z.to_nat tot) src)).
  assert (Hlbs : Z.of_nat (length bs) = m) by (unfold bs; rewrite length_take, length_drop; lia).
  destruct (grow_chunk es s env ip i off bs Hti Hgood) as (es1 & i1 & s1 & Hrun1 & Hti1 & Hex1 & Hic1 & Hk1 & Hle1 & Hfr1); try done; try lia.
  { eapply room_le; [|done]. lia. } { intros E. rewrite E in Hfree. simpl in Hfree. lia. }
  assert (Hi1 : icache s1 !! ip = Some i1) by (rewrite Hic1; apply list_lookup_insert_eq; by eapply lookup_lt_Some).
  assert (Hu : u32 (off + m) = off + m) by (unfold u32, NDIRECT, BSIZE in *; apply Z.mod_small; lia).
  destruct (IH (tot + m) (off + m) es1 i1 s1 env Hti1 (ex_good _ _ _ _ _ _ Hex1))
    as (es' & i' & s' & Hrun' & Hti' & Hex' & Hic' & Hk' & Hr' & Hfr'); try done; try lia.
  { destruct Hroom. split; lia. }
  exists es', i', s'. split_and?; [|done| | |by eapply kframe_trans|done|lia].
  - rewrite (writei_turn _ _ _ _ _ _ _ _ _ Hlt Hrun1). fold m. rewrite Hu, Hrun'. f_equal. lia.
  - rewrite <- (take_drop (Z.to_nat m) (drop (Z.to_nat tot) src)), drop_drop. fold bs.
    eapply extends_app; [done|exact Hex1|]. rewrite Hlbs.
    by replace (Z.to_nat tot + Z.to_nat m)%nat with (Z.to_nat (tot + m)) by lia.
  - rewrite Hic', Hic1. apply list_insert_insert_eq.
Qed.

(** ** Writing the inode *)

Lemma good_addrs es i : good es i -> Forall is_uint i.(i_addrs).
Proof.
  intros (Hfs & _ & _ & _ & Hl & Hown & Hind). pose proof (fs_size _ _ _ _ _ Hfs) as Hsz.
  assert (Hr : forall a, taken_block es a -> is_uint a) by (intros a ([? _] & _); unfold is_uint; lia).
  apply Forall_lookup. intros k a Ha. destruct (decide (a = 0)) as [->|Hne]; [unfold is_uint; lia|]. apply Hr.
  pose proof (lookup_lt_Some _ _ _ Ha) as Hk. rewrite Hl in Hk. destruct (decide (k = 12%nat)) as [->|Hn].
  - by apply Hind.
  - apply (Hown (Z.of_nat k)); [lia|]. unfold mapped. rewrite (proj2 (Z.ltb_lt _ _)) by (unfold NDIRECT; lia).
    rewrite Nat2Z.id, Ha. simpl. by rewrite option_guard_True.
Qed.

(** A change of one foreign sector leaves the file. *)
Lemma foreign_change es es' i sec0 : good es i -> foreign es i sec0 ->
  (forall sec, sec <> sec0 -> seen es' d0 sec = seen es d0 sec) ->
  good es' i /\ (forall k, 0 <= k -> file_byte (view es') i k = file_byte (view es) i k) /\
  (forall sec, sec <> sec0 -> view es' sec = view es sec) /\ (forall sec, foreign es i sec -> foreign es' i sec).
Proof.
  intros (Hfs & [Hs0 Hu0] & [Hinj Hlind] & Hdev & Hl & Hown & Hind) (_ & Hp & Hno & Hni) Hs.
  destruct (plain_change es es' sec0 Hp Hs) as [Hused Hfs'].
  assert (Hv : forall sec, sec <> sec0 -> view es' sec = view es sec).
  { intros sec Hne. unfold trans_view. destruct (_ && _); [|done]. by apply Hs. }
  assert (Hm : forall bn, mapped (view es') i bn = mapped (view es) i bn).
  { intros bn. apply mapped_stable. intros ind Hi. apply Hv. congruence. }
  pose proof (fun x => taken_change es es' x Hused) as Htb.
  split_and?.
  - unfold good. split_and?; auto.
    + rewrite Hused; [done|lia].
    + split; [intros bn bn' c; rewrite !Hm; apply Hinj|intros bn c; rewrite Hm; apply Hlind].
    + intros bn c Hbn. rewrite Hm. eauto.
  - intros k Hk. unfold file_byte, file_block. rewrite Hm. destruct (mapped (view es) i (k / BSIZE)) as [a|] eqn:E; [|done].
    simpl. rewrite Hv; [done|]. intros ->. apply (Hno (k / BSIZE)); [apply Z.div_pos; unfold BSIZE; lia|done].
  - done.
  - intros sec (Hu & Hpl & Hno' & Hni'). unfold foreign. split_and?; [intros Hr; rewrite Hused; auto|apply Hpl..| |done].
    intros bn Hbn. rewrite Hm. auto.
Qed.

(** A file is complete when it has all its bytes. *)
Lemma file_ok_bytes es i s : tinv start size w0 d0 es s -> (length es < NBUF)%nat ->
  file_ok (view es) i <-> i.(i_dev) = 1 /\ 0 <= i.(i_size) <= MAXFILE * BSIZE /\
    forall k, 0 <= k < i.(i_size) -> is_Some (file_byte (view es) i k).
Proof.
  intros Hti Hlen. unfold file_ok. split; intros (Hdev & Hsz & Hblk); split_and?; try done; try lia.
  - intros k Hk. unfold file_byte. destruct (Hblk (k / BSIZE)) as [blk Hfb];
      [unfold BSIZE; Z.to_euclidean_division_equations; lia..|].
    rewrite Hfb. simpl. unfold file_block in Hfb. destruct (mapped (view es) i (k / BSIZE)) as [a|]; [|done]. simpl in Hfb.
    apply trans_view_spec in Hfb as [Hd Hs]. destruct (seen_length start size w0 d0 es s a Hti Hd Hlen) as (? & ? & ?).
    apply lookup_lt_is_Some_2. pose proof (Z.mod_pos_bound k BSIZE eq_refl). simplify_eq. lia.
  - intros bn Hbn Hlt. destruct (Hblk (bn * BSIZE)) as [b Hb]; [unfold BSIZE in *; lia|].
    unfold file_byte in Hb. rewrite Z.div_mul in Hb by done. destruct (file_block (view es) i bn); [by eexists|done].
Qed.

Lemma extends_bytes es i es' i' off src : extends es i es' i' off src -> 0 <= off <= i.(i_size) ->
  (forall k, 0 <= k < i.(i_size) -> is_Some (file_byte (view es) i k)) ->
  forall k, 0 <= k < off + Z.of_nat (length src) -> file_byte (view es') i' k =
    (if decide (off <= k) then src !! Z.to_nat (k - off) else file_byte (view es) i k) /\
    is_Some (file_byte (view es') i' k).
Proof.
  intros Hex Ho Hall k Hk. case_decide as E.
  - rewrite (ex_new _ _ _ _ _ _ Hex) by lia. split; [done|]. apply lookup_lt_is_Some_2. lia.
  - destruct (Hall k) as [b Hb]; [lia|]. rewrite Hb. rewrite (ex_old _ _ _ _ _ _ Hex k b) by (done || lia). by split.
Qed.

(** The end of writei: the new size is put into the inode, which is written. *)
Lemma set_size_run es s env ip i z :
  tinv start size w0 d0 es s -> good es i -> room size 1 es -> s.(icache) !! ip = Some i -> inode_ok (set_i_size z i) ->
  0 <= i.(i_inum) -> on_disk start size d0 (IBLOCK i.(i_inum)) -> foreign es i (IBLOCK i.(i_inum)) ->
  let i' := set_i_size z i in
  exists es' s', (modify (upd_inode ip (set_i_size z)) ;;; iupdate ip) s env = Ok tt s' env /\ tinv start size w0 d0 es' s' /\
    (length es' <= S (length es))%nat /\ frees es' = frees es /\ s'.(icache) = <[ip := i']> s.(icache) /\ kframe s s' /\ good es' i' /\
    (forall k, 0 <= k -> file_byte (view es') i' k = file_byte (view es) i k) /\
    (forall j, 0 <= j -> disk_inode es' d0 j = if decide (j = i.(i_inum)) then Some (dinode_of i') else disk_inode es d0 j) /\
    (forall sec, foreign es i sec -> foreign es' i' sec /\ (sec <> IBLOCK i.(i_inum) -> view es' sec = view es sec)).
Proof.
  intros Hti Hgood Hroom Hi Hok Hn Hd Hf i'. pose proof Hgood as (_ & _ & _ & Hdev & Hl & _).
  set (s1 := upd_inode ip (set_i_size z) s).
  pose proof (upd_inode_insert s ip (set_i_size z) i Hi) as Hi1. fold s1 i' in Hi1.
  assert (Hi' : icache s1 !! ip = Some i') by (rewrite Hi1; apply list_lookup_insert_eq; by eapply lookup_lt_Some).
  destruct (iupdate_run start size w0 d0 es s1 env ip i') as (s2 & Hrun & Hf2 & Hti2); try done.
  destruct (slot_update start size w0 d0 es s (i_inum i) (put_dinode i' (dinode_off (i_inum i))) (dinode_of i') Hti)
    as [Hdi Hs]; [destruct Hroom; lia|done|done| |].
  { intros blk Hb. pose proof (dinode_off_bound (i_inum i)) as Hob. rewrite <- Hb in Hob. split.
    - by apply read_put_same.
    - intros o Ho. apply read_put_other; [done|done|lia]. }
  destruct (foreign_change es _ i _ Hgood Hf Hs) as (Hg' & Hb' & Hv' & Hf').
  eexists _, s2. split_and?; [|exact Hti2|apply log_entry_grow| |by rewrite (lframe_icache _ _ Hf2)| |exact Hg'|exact Hb'|exact Hdi|].
  - unfold bind, modify. exact Hrun.
  - apply frees_ext. destruct Hf as (_ & Hp & _). by apply (plain_change es _ _ Hp).
  - eapply kframe_lframe; [|exact Hf2]. apply kframe_upd, lframe_refl.
  - intros sec Hsec. split; [by apply Hf'|]. apply Hv'.
Qed.

Lemma good_inode_ok es i ad z : inode_ok i -> good es (set_i_addrs ad i) -> 0 <= z < 2 ^ 32 -> inode_ok (set_i_size z (set_i_addrs ad i)).
Proof.
  intros Hiok Hg Hz. pose proof Hg as (_ & _ & _ & _ & Hl1 & _). destruct Hiok as (? & ? & ? & ? & ? & _).
  pose proof (good_addrs es _ Hg) as Hau. unfold inode_ok, is_uint. simpl in *. split_and?; try done; lia.
Qed.

(** A write that makes the file longer. *)
Lemma writei_grow_run es ip i src off s env :
  let n := Z.of_nat (length src) in
  tinv start size w0 d0 es s -> room size (2 * Z.to_nat (turns off n) + 1) es ->
  s.(icache) !! ip = Some i -> file_ok (view es) i -> good es i -> inode_ok i -> i.(i_type) <> T_DEV ->
  0 <= i.(i_inum) -> on_disk start size d0 (IBLOCK i.(i_inum)) -> foreign es i (IBLOCK i.(i_inum)) ->
  0 <= off <= i.(i_size) -> i.(i_size) < off + n <= NDIRECT * BSIZE -> turns off n <= Z.of_nat (length (frees es)) ->
  exists es1 i1 es' s', let i' := set_i_size (off + n) i1 in
    writei ip src off n s env = Ok n s' env /\ tinv start size w0 d0 es' s' /\ room size 0 es' /\
    (length (frees es) <= length (frees es') + Z.to_nat (turns off n))%nat /\
    s'.(icache) = <[ip := i']> s.(icache) /\ kframe s s' /\ extends es i es1 i1 off src /\ file_ok (view es') i' /\ good es' i' /\
    (forall k, 0 <= k -> file_byte (view es') i' k = file_byte (view es1) i1 k) /\
    (forall j, 0 <= j -> disk_inode es' d0 j = if decide (j = i.(i_inum)) then Some (dinode_of i') else disk_inode es1 d0 j) /\
    (forall sec, foreign es i sec -> foreign es' i' sec /\ (sec <> IBLOCK i.(i_inum) -> view es' sec = view es sec)).
Proof.
  intros n Hti Hroom Hi Hok Hgood Hiok Ht Hn Hd Hf Ho Hsz Hfree.
  change (NDIRECT * BSIZE) with 6144 in Hsz.
  destruct (grow_loop ip src n (chunks n) 0 off es i s env Hti Hgood)
    as (es1 & i1 & s1 & Hrun & Hti1 & Hex & Hic1 & Hk1 & Hroom1 & Hfr1); rewrite ?Z.sub_0_r; try done; try lia.
  { change (NDIRECT * BSIZE) with 6144. lia. } { apply turns_chunks; lia. }
  rewrite Z.sub_0_r in Hrun, Hfr1. rewrite drop_0 in Hex. pose proof Hex as [Hg1 [ad Ei1] _ _ _ Hother].
  assert (Hi1 : icache s1 !! ip = Some i1) by (rewrite Hic1; apply list_lookup_insert_eq; by eapply lookup_lt_Some).
  assert (En : i_inum i1 = i_inum i) by (by rewrite Ei1).
  assert (Hiok1 : inode_ok (set_i_size (off + n) i1)) by (rewrite Ei1 in *; eapply good_inode_ok; [done|done|lia]).
  destruct (set_size_run es1 s1 env ip i1 (off + n) Hti1 Hg1 Hroom1 Hi1 Hiok1)
    as (es' & s' & Hrun' & Hti' & Hle' & Hfr' & Hic' & Hk' & Hg' & Hb' & Hdi' & Hf'); rewrite ?En; try done; [by apply Hother|].
  rewrite En in Hdi', Hf'.
  assert (Hlen : (length es < NBUF)%nat) by (destruct Hroom; lia).
  assert (Hlen' : (length es' < NBUF)%nat) by (destruct Hroom1; lia).
  exists es1, i1, es', s'. cbv zeta. split_and?; try done.
  - unfold writei. mstep (get_inode_eq _ _ _ env Hi). rewrite (proj2 (Z.eqb_neq _ _) Ht).
    rewrite (proj2 (Z.ltb_ge (i_size i) off)) by lia.
    assert (Hu : u32 (off + n) = off + n) by (unfold u32; apply Z.mod_small; lia). rewrite Hu.
    rewrite (proj2 (Z.ltb_ge (off + n) off)) by lia. change (MAXFILE * BSIZE) with 71680.
    rewrite (proj2 (Z.ltb_ge 71680 (off + n))) by lia. simpl. mstep Hrun. mstep (get_inode_eq _ _ _ env Hi1).
    rewrite (proj2 (Z.ltb_lt 0 n)) by lia. rewrite (proj2 (Z.ltb_lt (i_size i1) (off + n))) by (rewrite Ei1; simpl; lia).
    unfold when. simpl. mstep Hrun'. unfold ret. f_equal. unfold s32. rewrite Z.mod_small by lia. lia.
  - destruct Hroom1. split; lia.
  - by rewrite Hfr'.
  - rewrite Hic', Hic1. apply list_insert_insert_eq.
  - by eapply kframe_trans.
  - apply (file_ok_bytes es' _ s' Hti' Hlen'). split_and?; [apply Hg'|simpl; lia|simpl; change (MAXFILE * BSIZE) with 71680; lia|].
    intros k Hk. simpl in Hk. rewrite Hb' by lia.
    by apply (extends_bytes es i es1 i1 off src Hex Ho (proj2 (proj2 (proj1 (file_ok_bytes es i s Hti Hlen) Hok)))).
  - intros sec Hsec. destruct (Hother sec Hsec) as [Ev Hfo]. destruct (Hf' sec Hfo) as [Hfo' Ev'].
    split; [done|]. intros Hne. by rewrite Ev', Ev.
Qed.

Lemma view_disk_inode es es' j : on_disk start size d0 (IBLOCK j) -> view es' (IBLOCK j) = view es (IBLOCK j) ->
  disk_inode es' d0 j = disk_inode es d0 j.
Proof.
  intros [Hr Hl] Hv. unfold trans_view in Hv. unfold disk_inode.
  rewrite bool_decide_eq_true_2, bool_decide_eq_false_2 in Hv by done. simpl in Hv. by rewrite Hv.
Qed.

End Grow.

(** ** Theorems *)

(** C10: writing behind the end of a file. Within a transaction, with room for
    two sectors per block touched and one for the inode and with enough free
    blocks, [writei] of a range that starts at or below the end of the file
    and ends behind it, within the direct blocks, returns the number of bytes.
    The file is then as long as the range requires, complete, and has its old
    bytes before the range and the new ones in it, also for [readi]; the inode
    on disk has the new size and addresses; every sector in use that is not
    the file's, the inode's block apart, and every other inode is unchanged. *)
Theorem writei_extends start size w0 d0 sb es ip i src off s env :
  let n := Z.of_nat (length src) in
  let view es := trans_view start size es d0 in
  tinv start size w0 d0 es s -> room size (2 * Z.to_nat (turns off n) + 1) es ->
  s.(icache) !! ip = Some i -> file_ok (view es) i -> good start size d0 sb es i -> inode_ok i -> i.(i_type) <> T_DEV ->
  0 <= i.(i_inum) -> on_disk start size d0 (IBLOCK i.(i_inum)) -> foreign start size d0 sb es i (IBLOCK i.(i_inum)) ->
  0 <= off <= i.(i_size) -> i.(i_size) < off + n <= NDIRECT * BSIZE -> turns off n <= Z.of_nat (length (frees d0 sb es)) ->
  exists es' s' ad, let i' := set_i_size (off + n) (set_i_addrs ad i) in
    writei ip src off n s env = Ok n s' env /\ tinv start size w0 d0 es' s' /\
    s'.(icache) = <[ip := i']> s.(icache) /\ file_ok (view es') i' /\ good start size d0 sb es' i' /\
    (forall k, 0 <= k < off + n -> file_byte (view es') i' k =
       if decide (off <= k) then src !! Z.to_nat (k - off) else file_byte (view es) i k) /\
    (exists s'', readi ip off n s' env = Ok (n, src) s'' env) /\
    disk_inode es' d0 i.(i_inum) = Some (dinode_of i') /\
    (forall sec, foreign start size d0 sb es i sec -> sec <> IBLOCK i.(i_inum) -> view es' sec = view es sec) /\
    (forall j, 0 <= j -> j <> i.(i_inum) -> on_disk start size d0 (IBLOCK j) -> foreign start size d0 sb es i (IBLOCK j) ->
       disk_inode es' d0 j = disk_inode es d0 j).
Proof.
  intros n view Hti Hroom Hi Hok Hgood Hiok Ht Hn Hd Hf Ho Hsz Hfree.
  destruct (writei_grow_run start size w0 d0 sb es ip i src off s env Hti Hroom Hi Hok Hgood Hiok Ht Hn Hd Hf Ho Hsz Hfree)
    as (es1 & i1 & es' & s' & Hrun & Hti' & Hroom' & _ & Hic' & _ & Hex & Hok' & Hg' & Hb' & Hdi & Hoth).
  fold n in Hrun, Hic', Hok', Hg', Hb', Hdi. pose proof Hex as [_ [ad Ei1] _ _ _ Hother].
  assert (Hlen : (length es < NBUF)%nat) by (destruct Hroom; lia).
  assert (Hby : forall k, 0 <= k < off + n -> file_byte (view es') (set_i_size (off + n) i1) k =
       if decide (off <= k) then src !! Z.to_nat (k - off) else file_byte (view es) i k).
  { intros k Hk. rewrite Hb' by lia. 
    by apply (extends_bytes start size d0 sb es i es1 i1 off src Hex Ho (proj2 (proj2 (proj1 (file_ok_bytes start size w0 d0 es i s Hti Hlen) Hok)))). }
  exists es', s', ad. cbv zeta. rewrite <- Ei1. split_and?; try done.
  - apply (read_back start size w0 d0 es' s' env ip (set_i_size (off + n) i1) off src); try done; try lia.
    + split; [done|]. destruct Hroom'. lia.
    + rewrite Hic'. apply list_lookup_insert_eq. by eapply lookup_lt_Some.
    + by rewrite Ei1.
    + intros k Hk. by rewrite Hby, decide_True by lia.
  - rewrite Hdi by done. by rewrite decide_True.
  - intros sec Hsec. apply (Hoth sec Hsec).
  - intros j Hj Hne Hdj Hfj. rewrite Hdi, decide_False by done. apply (view_disk_inode start size); [done|]. by apply Hother.
Qed.

Lemma demo_plain sec : sec <> 1 -> sec <> 4 -> plain demo_sb sec.
Proof. intros H1 H4. split; [done|]. intros y Hy. rewrite demo_bblock; done. Qed.

Lemma demo_good : good 20 10 demo_fs_img demo_sb [] demo_inode.
Proof.
  unfold good. split_and?; [exact demo_fs_ok|done|vm_compute; reflexivity|apply demo_layout|done|done| |].
  - intros bn a Hbn Ha. apply demo_mapped in Ha as [[_ ->]|[_ ->]]; [| |done];
      (split; [unfold on_disk, in_log; simpl; lia|split; [vm_compute; reflexivity|by apply demo_plain]]).
  - intros ind. change (i_addrs demo_inode !! Z.to_nat NDIRECT) with (Some 0). by intros [= <-].
Qed.

Lemma demo_foreign : foreign 20 10 demo_fs_img demo_sb [] demo_inode 2.
Proof.
  unfold foreign. split_and?; [intros _; vm_compute; reflexivity|by apply demo_plain..| |done].
  intros bn Hbn Ha. apply demo_mapped in Ha; lia.
Qed.

Lemma writei_extends_witness :
  let src := replicate 600 7 in
  let view es := trans_view 20 10 es demo_fs_img in
  exists es' s' ad, let i' := set_i_size 1300 (set_i_addrs ad demo_inode) in
    writei 0 src 700 600 demo_cached [] = Ok 600 s' [] /\ tinv 20 10 [] demo_fs_img es' s' /\
    s'.(icache) = <[0%nat := i']> demo_cached.(icache) /\ file_ok (view es') i' /\ good 20 10 demo_fs_img demo_sb es' i' /\
    (forall k, 0 <= k < 1300 -> file_byte (view es') i' k =
       if decide (700 <= k) then src !! Z.to_nat (k - 700) else file_byte (view []) demo_inode k) /\
    (exists s'', readi 0 700 600 s' [] = Ok (600, src) s'' []) /\
    disk_inode es' demo_fs_img 3 = Some (dinode_of i') /\
    (forall sec, foreign 20 10 demo_fs_img demo_sb [] demo_inode sec -> sec <> 2 -> view es' sec = view [] sec) /\
    (forall j, 0 <= j -> j <> 3 -> on_disk 20 10 demo_fs_img (IBLOCK j) -> foreign 20 10 demo_fs_img demo_sb [] demo_inode (IBLOCK j) ->
       disk_inode es' demo_fs_img j = disk_inode [] demo_fs_img j).
Proof.
  apply (writei_extends 20 10 [] demo_fs_img demo_sb [] 0 demo_inode (replicate 600 7) 700 demo_cached []);
    [exact demo_tinv|change (Z.to_nat _) with 2%nat; split; unfold NBUF; simpl; lia|done|exact demo_file_ok|exact demo_good|
     exact demo_inode_ok|done|simpl; lia|unfold on_disk, in_log; change (IBLOCK (i_inum demo_inode)) with 2; simpl; lia|
     exact demo_foreign|simpl; lia|change (NDIRECT * BSIZE) with 6144; simpl; lia|].
  change (turns _ _) with 2. change (length (frees demo_fs_img demo_sb [])) with 11%nat. lia.
Defined.

End Append.
