(* ===== verification/Dir.v ===== *)
(** Directories (kernel/fs.c: namecmp, dirlookup, dirlink): entry names, the
    lookup of a name, and entering a name. *)
From S2P Require Import Prelude Types Spinlock Sched Bio BioFacts BioAbs BioRep Log LogSpec LogFacts Crash Inode BlockFacts InodeFacts Console Fs FileData.
Import Spinlock Sched Bio BioFacts BioAbs BioRep Log LogSpec LogFacts Inode BlockFacts InodeFacts Console Fs FileData.

Module Dir.

(** ** Names *)

(** What a directory keeps of a name: at most DIRSIZ bytes, up to a NUL. *)
Definition dir_name (s : list Z) : list Z := take (Z.to_nat DIRSIZ) (upto_nul s).

Definition is_byte (c : Z) : Prop := 0 <= c < 256.

Lemma byte_at_ok l : Forall is_byte l -> is_byte (byte_at l) /\ Forall is_byte (tail l).
Proof. intros [|c l' Hc Hl]; simpl; [split; [unfold is_byte; lia|constructor]|done]. Qed.

Lemma upto_nul_unfold l :
  upto_nul l = if byte_at l =? 0 then [] else byte_at l :: upto_nul (tail l).
Proof. by destruct l. Qed.

Lemma strncmp_list_eq n s t : Forall is_byte s -> Forall is_byte t ->
  strncmp_list n s t = 0 <-> take n (upto_nul s) = take n (upto_nul t).
Proof.
  revert s t. induction n as [|n IH]; intros s t Hs Ht; [done|].
  destruct (byte_at_ok s Hs) as [Ha Hs']. destruct (byte_at_ok t Ht) as [Hb Ht'].
  simpl. rewrite (upto_nul_unfold s), (upto_nul_unfold t). set (a := byte_at s) in *. set (b := byte_at t) in *.
  unfold is_byte in Ha, Hb.
  assert (u8 a = a /\ u8 b = b) as [-> ->] by (unfold u8; rewrite !Z.mod_small by lia; done).
  destruct (Z.eqb_spec a 0) as [E|E], (Z.eqb_spec b 0) as [E'|E'], (Z.eqb_spec a b) as [E2|E2]; simpl;
    try (split; [lia|congruence]); try lia; try (split; [lia|intros; simplify_eq; lia]).
  - split; [done|lia].
  - rewrite IH by done. rewrite E2. split; [by intros ->|]. by intros [= ?].
Qed.

(** The name written into an entry is the name looked up. *)
Lemma strncpy_list_name n s : take n (upto_nul (strncpy_list n s)) = take n (upto_nul s).
Proof.
  revert s. induction n as [|n IH]; intros s; [done|]. simpl. rewrite (upto_nul_unfold s).
  destruct (byte_at s =? 0) eqn:E; [done|]. simpl. rewrite E. simpl. by rewrite IH.
Qed.

Lemma length_strncpy_list n s : length (strncpy_list n s) = n.
Proof.
  revert s. induction n as [|n IH]; intros s; [done|]. simpl. destruct (_ =? 0); simpl; [by rewrite length_replicate|by rewrite IH].
Qed.

Lemma strncpy_list_bytes n s : Forall is_byte s -> Forall is_byte (strncpy_list n s).
Proof.
  revert s. induction n as [|n IH]; intros s Hs; [constructor|]. destruct (byte_at_ok s Hs) as [Ha Hs']. simpl.
  destruct (_ =? 0); [|constructor; auto]. constructor; [unfold is_byte; lia|]. apply Forall_replicate. unfold is_byte. lia.
Qed.

Lemma dirent_inum inum name : de_inum (mk_dirent inum name) = inum mod 65536.
Proof.
  unfold de_inum, mk_dirent, get_le. rewrite drop_0. rewrite <- (length_le_bytes 2 inum) at 1.
  by rewrite take_app_length, le_val_bytes.
Qed.

Lemma dirent_name inum name : de_name (mk_dirent inum name) = strncpy_list (Z.to_nat DIRSIZ) name.
Proof. done. Qed.

Lemma length_mk_dirent inum name : length (mk_dirent inum name) = Z.to_nat DIRENT_SIZE.
Proof. unfold mk_dirent. by rewrite length_app, length_le_bytes, length_strncpy_list. Qed.

(** ** Entries *)

Section Entries.
Context (v : Z -> option (list Z)) (i : inode).

(** The [k]th entry of the directory. *)
Definition entry (k : Z) : option (list Z) :=
  mapM (fun j => file_byte v i (DIRENT_SIZE * k + Z.of_nat j)) (seq 0 (Z.to_nat DIRENT_SIZE)).

Definition nents : Z := i.(i_size) / DIRENT_SIZE.

(** An entry in use for the name. *)
Definition matches_name (name : list Z) (k : Z) : bool :=
  match entry k with
  | Some e => negb (de_inum e =? 0) && (namecmp name (de_name e) =? 0)
  | None => false
  end.

Definition dir_ok : Prop := file_ok v i /\ i.(i_type) = T_DIR /\ i.(i_size) mod DIRENT_SIZE = 0.

Lemma entry_lookup k e j : entry k = Some e -> (j < 16)%nat ->
  length e = 16%nat /\ e !! j = file_byte v i (DIRENT_SIZE * k + Z.of_nat j).
Proof.
  intros He Hj. unfold entry in He. apply mapM_Some in He as Hf. pose proof (Forall2_length _ _ _ Hf) as Hl.
  rewrite length_seq in Hl. change (Z.to_nat DIRENT_SIZE) with 16%nat in Hl. split; [done|].
  destruct (lookup_lt_is_Some_2 e j) as [x Hx]; [lia|].
  destruct (Forall2_lookup_r _ _ _ _ _ Hf Hx) as (j' & Hj' & Hb). apply lookup_seq in Hj' as [-> _].
  rewrite Hx. symmetry. exact Hb.
Qed.

Lemma entry_intro k bs : length bs = 16%nat ->
  (forall j, 0 <= j < 16 -> bs !! Z.to_nat j = file_byte v i (DIRENT_SIZE * k + j)) -> entry k = Some bs.
Proof.
  intros Hl Hb. unfold entry. apply mapM_Some. apply Forall2_same_length_lookup_2; [by rewrite length_seq|].
  intros j x y Hx Hy. apply lookup_seq in Hx as [-> Hj]. change (Z.to_nat DIRENT_SIZE) with 16%nat in Hj.
  rewrite <- Hb by lia. by rewrite Nat2Z.id.
Qed.
End Entries.

Section Lookup.
Context (I : kstate -> Prop) (v : Z -> option (list Z)) {HR : Reader I v} (dp : nat) (i : inode).

Lemma read_entry k s env :
  I s -> s.(icache) !! dp = Some i -> dir_ok v i -> 0 <= k < nents i ->
  exists e s', readi dp (DIRENT_SIZE * k) DIRENT_SIZE s env = Ok (DIRENT_SIZE, e) s' env /\
    entry v i k = Some e /\ I s' /\ s'.(icache) = s.(icache).
Proof.
  intros HI Hi (Hok & Ht & Hmod) Hk. pose proof Hok as (_ & Hmax & _). change (MAXFILE * BSIZE) with 71680 in Hmax.
  assert (Hsz : DIRENT_SIZE * k + DIRENT_SIZE <= i_size i).
  { unfold nents, DIRENT_SIZE in *. Z.to_euclidean_division_equations. lia. }
  unfold DIRENT_SIZE in *.
  pose proof (readi_run I v dp i (16 * k) 16 s env HI Hi Hok) as Hread.
  rewrite bool_decide_eq_true_2, Z.min_l in Hread by lia.
  destruct Hread as (bs & s' & Hrun & HI' & Hic & Hl & Hb); [by rewrite Ht|lia|lia|].
  exists bs, s'. split_and?; try done. by apply entry_intro.
Qed.

Lemma lookup_loop name fuel : forall k s env,
  I s -> s.(icache) !! dp = Some i -> dir_ok v i -> 0 <= k <= nents i -> nents i - k < Z.of_nat fuel ->
  exists s', I s' /\ s'.(icache) = s.(icache) /\
    ((dirlookup_loop fuel dp name (DIRENT_SIZE * k) s env = Ok None s' env /\
      forall j, k <= j < nents i -> matches_name v i name j = false) \/
     exists j e, k <= j < nents i /\ entry v i j = Some e /\ matches_name v i name j = true /\
      (forall j', k <= j' < j -> matches_name v i name j' = false) /\
      dirlookup_loop fuel dp name (DIRENT_SIZE * k) s env =
        (ip <- iget 1 (de_inum e) ;; ret (Some (DIRENT_SIZE * j, ip))) s' env).
Proof.
  induction fuel as [|fuel IH]; intros k s env HI Hi Hok Hk Hfuel; [lia|].
  pose proof Hok as ((Hdev & Hmax & _) & Ht & Hmod). change (MAXFILE * BSIZE) with 71680 in Hmax.
  simpl. mstep (get_inode_eq _ _ _ env Hi). destruct (Z.ltb_spec (DIRENT_SIZE * k) (i_size i)) as [Hlt|Hge].
  2:{ exists s. split_and?; try done. left. split; [done|]. intros j Hj. unfold nents, DIRENT_SIZE in *.
      Z.to_euclidean_division_equations. lia. }
  assert (Hkn : k < nents i) by (unfold nents, DIRENT_SIZE in *; Z.to_euclidean_division_equations; lia).
  destruct (read_entry k s env HI Hi Hok ltac:(lia)) as (e & s1 & Hrun & He & HI1 & Hic1).
  mstep Hrun. cbn [fst snd]. rewrite Z.eqb_refl. cbn [negb].
  assert (Hmn : matches_name v i name k = negb (de_inum e =? 0) && (namecmp name (de_name e) =? 0))
    by (unfold matches_name; by rewrite He).
  assert (Hu : u32 (DIRENT_SIZE * k + DIRENT_SIZE) = DIRENT_SIZE * (k + 1)).
  { unfold u32, nents, DIRENT_SIZE in *. rewrite Z.mod_small; [lia|]. Z.to_euclidean_division_equations. lia. }
  rewrite Hu. rewrite <- Hic1 in Hi.
  destruct (de_inum e =? 0) eqn:E0; [|destruct (namecmp name (de_name e) =? 0) eqn:E1]; simpl in Hmn.
  2:{ exists s1. split_and?; try done. right. exists k, e. split_and?; try done; [intros; lia|].
      mstep (get_inode_eq _ _ _ env Hi). by rewrite Hdev. }
  all: destruct (IH (k + 1) s1 env HI1 Hi Hok ltac:(lia) ltac:(lia)) as (s2 & HI2 & Hic2 & Hcase);
    exists s2; split_and?; [done|congruence|].
  all: destruct Hcase as [[Hrun2 Hno]|(j & e' & Hj & He' & Hm & Hno & Hrun2)]; [left|right].
  1,3: split; [done|]; intros j Hj; destruct (decide (j = k)) as [->|]; [done|apply Hno; lia].
  all: exists j, e'; split_and?; try done; try lia; intros j' Hj';
    destruct (decide (j' = k)) as [->|]; [done|apply Hno; lia].
Qed.

Lemma dirlookup_run name s env :
  I s -> s.(icache) !! dp = Some i -> dir_ok v i ->
  exists s', I s' /\ s'.(icache) = s.(icache) /\
    ((dirlookup dp name s env = Ok None s' env /\ forall j, 0 <= j < nents i -> matches_name v i name j = false) \/
     exists j e, 0 <= j < nents i /\ entry v i j = Some e /\ matches_name v i name j = true /\
      (forall j', 0 <= j' < j -> matches_name v i name j' = false) /\
      dirlookup dp name s env = (ip <- iget 1 (de_inum e) ;; ret (Some (DIRENT_SIZE * j, ip))) s' env).
Proof.
  intros HI Hi Hok. pose proof Hok as ((_ & Hmax & _) & Ht & _).
  destruct (lookup_loop name (nentries (i_size i)) 0 s env HI Hi Hok) as (s' & HI' & Hic' & Hcase).
  { unfold nents, DIRENT_SIZE. Z.to_euclidean_division_equations. lia. }
  { unfold nentries, nents. rewrite !Nat2Z.inj_succ, Z2Nat.id; [lia|]. apply Z.div_pos; unfold DIRENT_SIZE; lia. }
  exists s'. split_and?; try done. unfold dirlookup.
  rewrite (bind_ok _ _ _ _ _ _ _ (get_inode_eq _ _ _ env Hi)), Ht. exact Hcase.
Qed.

End Lookup.

(** ** Entering a name *)

Section Enter.
Context (I : kstate -> Prop) (v : Z -> option (list Z)) {HR : Reader I v} (dp : nat) (i : inode).

(** A free entry. *)
Definition free_entry (k : Z) : Prop := exists e, entry v i k = Some e /\ de_inum e = 0.

Lemma free_loop k0 fuel : forall k s env,
  I s -> s.(icache) !! dp = Some i -> dir_ok v i -> 0 <= k <= k0 -> k0 < nents i -> k0 - k < Z.of_nat fuel ->
  free_entry k0 -> (forall j, k <= j < k0 -> ~ free_entry j) ->
  exists s', I s' /\ s'.(icache) = s.(icache) /\
    dirlink_loop fuel dp (DIRENT_SIZE * k) s env = Ok (DIRENT_SIZE * k0) s' env.
Proof.
  induction fuel as [|fuel IH]; intros k s env HI Hi Hok Hk Hk0 Hfuel Hfree Hno; [lia|].
  simpl. mstep (get_inode_eq _ _ _ env Hi).
  rewrite (proj2 (Z.ltb_lt (DIRENT_SIZE * k) (i_size i)))
    by (unfold nents, DIRENT_SIZE in *; Z.to_euclidean_division_equations; lia).
  destruct (read_entry I v dp i k s env HI Hi Hok ltac:(lia)) as (e & s1 & Hrun & He & HI1 & Hic1).
  mstep Hrun. cbn [fst snd]. rewrite Z.eqb_refl. cbn [negb].
  destruct (Z.eqb_spec (de_inum e) 0) as [E|E].
  - destruct (decide (k = k0)) as [->|]; [by exists s1|]. exfalso. apply (Hno k); [lia|]. by exists e.
  - assert (k <> k0) by (intros ->; destruct Hfree as (e' & He' & H0); congruence).
    replace (DIRENT_SIZE * k + DIRENT_SIZE) with (DIRENT_SIZE * (k + 1)) by (unfold DIRENT_SIZE; lia).
    rewrite <- Hic1 in Hi.
    destruct (IH (k + 1) s1 env HI1 Hi Hok) as (s2 & HI2 & Hic2 & Hrun2); try done; try lia.
    { intros j Hj. apply Hno. lia. }
    exists s2. split_and?; [done|congruence|done].
Qed.
End Enter.

(** The entries after the [k0]th has been overwritten. *)
Lemma entry_written start size d0 i es es' k0 src j :
  overwritten (trans_view start size es d0) (trans_view start size es' d0) i (DIRENT_SIZE * k0) src -> length src = 16%nat -> 0 <= j -> 0 <= k0 ->
  entry (trans_view start size es' d0) i j = if decide (j = k0) then Some src else entry (trans_view start size es d0) i j.
Proof.
  intros (_ & Hb & _) Hl Hj Hk0. unfold DIRENT_SIZE in *. rewrite Hl in Hb. case_decide as E.
  - subst j. apply entry_intro; [done|]. intros m Hm. unfold DIRENT_SIZE. rewrite Hb, decide_True by lia. f_equal. lia.
  - unfold entry. apply Forall_mapM_ext. apply Forall_forall. intros m Hm. apply elem_of_seq in Hm.
    change (Z.to_nat DIRENT_SIZE) with 16%nat in Hm. unfold DIRENT_SIZE. by rewrite Hb, decide_False by lia.
Qed.

Lemma turns_entry k : 0 <= k -> turns (DIRENT_SIZE * k) DIRENT_SIZE = 1.
Proof. intros Hk. unfold turns, DIRENT_SIZE, BSIZE. simpl. Z.to_euclidean_division_equations. lia. Qed.

Lemma dirlink_run start size w0 d0 es s env dp i name inum k0 :
  let v := trans_view start size es d0 in
  tinv start size w0 d0 es s -> room size 1 es -> s.(icache) !! dp = Some i ->
  dir_ok v i -> layout_ok v i ->
  (forall j, 0 <= j < nents i -> matches_name v i name j = false) ->
  0 <= k0 < nents i -> free_entry v i k0 -> (forall j, 0 <= j < k0 -> ~ free_entry v i j) ->
  exists es' s', dirlink dp name inum s env = Ok 0 s' env /\ tinv start size w0 d0 es' s' /\
    s'.(icache) = s.(icache) /\ (length es' <= S (length es))%nat /\
    overwritten (trans_view start size es d0) (trans_view start size es' d0) i (DIRENT_SIZE * k0) (mk_dirent inum name).
Proof.
  intros v Hti Hroom Hi Hok Hlay Hno Hk0 Hfree Hfirst.
  assert (Hin : in_trans start size w0 d0 es s) by (split; [done|destruct Hroom; lia]).
  pose proof (trans_reader _ _ _ _ _ _ Hin) as HR. unfold dirlink.
  destruct (dirlookup_run (in_trans start size w0 d0 es) v dp i name s env Hin Hi Hok) as (s1 & Hin1 & Hic1 & Hcase).
  destruct Hcase as [[Hrun1 _]|(j & e & Hj & _ & Hm & _)]; [|by rewrite Hno in Hm].
  mstep Hrun1. rewrite <- Hic1 in Hi. mstep (get_inode_eq _ _ _ env Hi).
  destruct (free_loop (in_trans start size w0 d0 es) v dp i k0 (nentries (i_size i)) 0 s1 env Hin1 Hi Hok)
    as (s2 & [Hti2 _] & Hic2 & Hrun2); try done; try lia.
  { unfold nentries, nents in *. rewrite !Nat2Z.inj_succ, Z2Nat.id; lia. }
  rewrite Z.mul_0_r in Hrun2. mstep Hrun2. rewrite <- Hic2 in Hi.
  pose proof Hok as (Hfile & Ht & Hmod). pose proof (length_mk_dirent inum name) as Hl.
  destruct (writei_run start size w0 d0 es dp i (mk_dirent inum name) (DIRENT_SIZE * k0) s2 env Hti2)
    as (es' & s3 & Hrun3 & Hti3 & Hic3 & Hle & Hw); rewrite ?Hl; change (Z.of_nat (Z.to_nat DIRENT_SIZE)) with DIRENT_SIZE; try done.
  { by rewrite turns_entry by lia. } { by rewrite Ht. } { unfold DIRENT_SIZE; lia. }
  { unfold nents, DIRENT_SIZE in *. Z.to_euclidean_division_equations. lia. }
  rewrite Hl in Hrun3, Hle. change (Z.of_nat (Z.to_nat DIRENT_SIZE)) with DIRENT_SIZE in Hrun3, Hle.
  rewrite turns_entry in Hle by lia.
  apply lframe_icache in Hic3. exists es', s3. split_and?; [by mstep Hrun3|done|congruence|lia|done].
Qed.

(** ** Theorems *)

(** Entry [k] is in use and has the name. *)
Definition named (v : Z -> option (list Z)) (i : inode) (name : list Z) (k : Z) : Prop :=
  exists e, entry v i k = Some e /\ de_inum e <> 0 /\ dir_name (de_name e) = dir_name name.

Definition byte_file (v : Z -> option (list Z)) (i : inode) : Prop :=
  forall k b, file_byte v i k = Some b -> is_byte b.

Lemma entry_bytes v i k e : byte_file v i -> entry v i k = Some e -> Forall is_byte e.
Proof.
  intros Hb He. apply Forall_lookup. intros j x Hx. pose proof (lookup_lt_Some _ _ _ Hx) as Hj.
  assert (Hl : length e = 16%nat) by (apply (entry_lookup v i k e 0 He); lia).
  destruct (entry_lookup v i k e j He ltac:(lia)) as [_ Hj']. apply (Hb (DIRENT_SIZE * k + Z.of_nat j)). congruence.
Qed.

Lemma matches_named v i name k : byte_file v i -> Forall is_byte name ->
  matches_name v i name k = true <-> named v i name k.
Proof.
  intros Hb Hn. unfold matches_name, named. destruct (entry v i k) as [e|] eqn:He; [|naive_solver].
  pose proof (entry_bytes v i k e Hb He) as Heb.
  assert (Forall is_byte (de_name e)) as Hnb by (by apply Forall_drop).
  rewrite andb_true_iff, negb_true_iff, Z.eqb_neq, Z.eqb_eq. unfold namecmp.
  rewrite (strncmp_list_eq _ name (de_name e) Hn Hnb). unfold dir_name. naive_solver.
Qed.

Lemma not_matches v i name k : byte_file v i -> Forall is_byte name ->
  matches_name v i name k = false <-> ~ named v i name k.
Proof. intros Hb Hn. rewrite <- (matches_named v i name k Hb Hn). by destruct (matches_name v i name k). Qed.

(** Looking up a name. [dirlookup] in a well-formed directory finds the
    first entry in use whose name agrees with the given one on the DIRSIZ
    bytes a directory keeps; it returns the entry's offset with the inode that
    [iget] gives for the entry's number. It returns nothing exactly when there
    is no such entry. *)
Theorem dirlookup_first (I : kstate -> Prop) (v : Z -> option (list Z)) dp i name s env :
  Reader I v -> I s -> s.(icache) !! dp = Some i -> dir_ok v i -> byte_file v i -> Forall is_byte name ->
  exists s', I s' /\ s'.(icache) = s.(icache) /\
    ((dirlookup dp name s env = Ok None s' env /\ forall k, 0 <= k < nents i -> ~ named v i name k) \/
     exists k e, 0 <= k < nents i /\ entry v i k = Some e /\ named v i name k /\
       (forall k', 0 <= k' < k -> ~ named v i name k') /\
       dirlookup dp name s env = (ip <- iget 1 (de_inum e) ;; ret (Some (DIRENT_SIZE * k, ip))) s' env).
Proof.
  intros HR HI Hi Hok Hb Hn.
  destruct (dirlookup_run I v dp i name s env HI Hi Hok) as (s' & HI' & Hic' & Hcase).
  exists s'. split_and?; try done. destruct Hcase as [[Hrun Hno]|(k & e & Hk & He & Hm & Hno & Hrun)]; [left|right].
  - split; [done|]. intros k Hk. apply not_matches; auto.
  - exists k, e. split_and?; try done; try lia; [by apply matches_named|]. intros k' Hk'. apply not_matches; auto.
Qed.

(** C11: entering a name. Within a transaction with room for a sector, in a
    directory that has a free entry and not yet the name, [dirlink] puts the
    name and inode number into the first free entry and leaves all other
    entries and all sectors outside the directory alone; a following
    [dirlookup] of the name finds that entry. *)
Theorem dirlink_enters start size w0 d0 es s env dp i name inum k0 :
  let v es := trans_view start size es d0 in
  tinv start size w0 d0 es s -> room size 1 es -> s.(icache) !! dp = Some i ->
  dir_ok (v es) i -> layout_ok (v es) i -> byte_file (v es) i -> Forall is_byte name -> 0 < inum < 65536 ->
  (forall j, 0 <= j < nents i -> ~ named (v es) i name j) ->
  0 <= k0 < nents i -> free_entry (v es) i k0 -> (forall j, 0 <= j < k0 -> ~ free_entry (v es) i j) ->
  exists es' s', dirlink dp name inum s env = Ok 0 s' env /\ tinv start size w0 d0 es' s' /\
    (forall j, 0 <= j -> entry (v es') i j = if decide (j = k0) then Some (mk_dirent inum name) else entry (v es) i j) /\
    (forall sec, (forall bn, 0 <= bn -> mapped (v es) i bn <> Some sec) -> v es' sec = v es sec) /\
    exists s'', dirlookup dp name s' env = (ip <- iget 1 inum ;; ret (Some (DIRENT_SIZE * k0, ip))) s'' env.
Proof.
  intros v Hti Hroom Hi Hok Hlay Hb Hn Hin Hno Hk0 Hfree Hfirst.
  assert (Hno' : forall j, 0 <= j < nents i -> matches_name (v es) i name j = false).
  { intros j Hj. apply not_matches; auto. }
  destruct (dirlink_run start size w0 d0 es s env dp i name inum k0 Hti Hroom Hi Hok Hlay Hno' Hk0 Hfree Hfirst)
    as (es' & s' & Hrun & Hti' & Hic' & Hle & Hw).
  pose proof (fun j Hj => entry_written start size d0 i es es' k0 _ j Hw (length_mk_dirent inum name) Hj (proj1 Hk0)) as Hent.
  pose proof Hw as (_ & _ & Hsec & _). exists es', s'. split_and?; try done.
  assert (Hintr : in_trans start size w0 d0 es' s') by (split; [done|destruct Hroom; lia]).
  pose proof (trans_reader _ _ _ _ _ _ Hintr) as HR. rewrite <- Hic' in Hi.
  assert (Hok' : dir_ok (v es') i) by (destruct Hok as (? & ? & ?); unfold dir_ok; split_and?; try done; by eapply overwritten_ok).
  destruct (dirlookup_run (in_trans start size w0 d0 es') (v es') dp i name s' env Hintr Hi Hok')
    as (s'' & _ & _ & Hcase).
  assert (Hk0m : matches_name (v es') i name k0 = true).
  { unfold matches_name. rewrite Hent, decide_True by lia. rewrite dirent_inum, dirent_name, Z.mod_small by lia.
    rewrite (proj2 (Z.eqb_neq inum 0)) by lia. apply Z.eqb_eq, strncmp_list_eq; [done|by apply strncpy_list_bytes|].
    symmetry. apply strncpy_list_name. }
  destruct Hcase as [[_ Hall]|(k & e & Hk & He & Hm & Hbefore & Hlk)]; [by rewrite Hall in Hk0m|].
  assert (k = k0) as ->.
  { destruct (decide (k = k0)) as [|Hne]; [done|]. exfalso. specialize (Hno' k Hk). unfold matches_name, v in Hno', Hm.
    by rewrite Hent, decide_False, Hno' in Hm by (done || lia). }
  rewrite Hent, decide_True in He by lia. injection He as <-. rewrite dirent_inum, Z.mod_small in Hlk by lia. by exists s''.
Qed.

(** The demonstration directory: entry 0 is "a", entry 1 is free. *)
Definition demo_dir : inode := Mkinode 1 1 1 3 T_DIR 0 0 1 32 (8 :: replicate 12 0).
Definition demo_in_dir : kstate := upd_inode 0 (fun _ => demo_dir) demo_in_trans.
Definition demo_view : Z -> option (list Z) := trans_view 20 10 [] demo_fs_img.

Lemma demo_dir_mapped v bn a : 0 <= bn -> mapped v demo_dir bn = Some a -> bn = 0 /\ a = 8.
Proof.
  intros Hbn. unfold mapped. destruct (Z.ltb_spec bn NDIRECT) as [Hd|Hd].
  - unfold NDIRECT in Hd. replace bn with (Z.of_nat (Z.to_nat bn)) in Hd |- * by lia.
    generalize dependent (Z.to_nat bn). intros k Hk. rewrite Nat2Z.id.
    do 12 (destruct k as [|k]; [vm_compute; intros; simplify_eq; lia|]). lia.
  - destruct (bn <? MAXFILE); [|done]. change (i_addrs demo_dir !! Z.to_nat NDIRECT) with (Some 0). done.
Qed.

Lemma demo_dir_layout v : layout_ok v demo_dir.
Proof.
  split.
  - intros bn bn' a H1 H2 H3 H4. apply demo_dir_mapped in H1, H2; [|done..]. lia.
  - intros bn a Ha. change (i_addrs demo_dir !! Z.to_nat NDIRECT) with (Some 0). intros [= <-].
    unfold mapped in Ha. destruct (bn <? NDIRECT).
    + destruct (i_addrs demo_dir !! Z.to_nat bn); [|done]. simpl in Ha. case_guard; [|done]. simpl in Ha. by simplify_eq.
    + destruct (bn <? MAXFILE); [|done]. change (i_addrs demo_dir !! Z.to_nat NDIRECT) with (Some 0) in Ha. done.
Qed.

Lemma demo_dir_ok : dir_ok demo_view demo_dir.
Proof.
  unfold dir_ok, file_ok. split_and?; try done. intros bn Hbn Hlt. simpl in Hlt. unfold BSIZE in Hlt.
  assert (bn = 0) as -> by lia. by eexists.
Qed.

Lemma demo_dir_bytes : byte_file demo_view demo_dir.
Proof.
  intros k b Hb. unfold file_byte, file_block in Hb.
  destruct (mapped demo_view demo_dir (k / BSIZE)) as [a|] eqn:Ha; [|done]. simpl in Hb.
  assert (a = 8) as ->.
  { destruct (Z_lt_le_dec (k / BSIZE) 0) as [Hn|Hn]; [|by apply demo_dir_mapped in Ha as [_ ->]].
    unfold mapped in Ha. rewrite (proj2 (Z.ltb_lt _ _)) in Ha by (unfold NDIRECT; lia).
    replace (Z.to_nat (k / BSIZE)) with 0%nat in Ha by lia. by injection Ha as <-. }
  change (demo_view 8) with (Some demo_dir_block) in Hb. simpl in Hb.
  assert (Hf : Forall is_byte demo_dir_block).
  { do 3 (apply Forall_cons; split; [unfold is_byte; lia|]). apply Forall_replicate. unfold is_byte. lia. }
  rewrite Forall_lookup in Hf. by eapply Hf.
Qed.

Lemma demo_in_trans_dir : in_trans 20 10 [] demo_fs_img [] demo_in_dir.
Proof. split; [exact demo_tinv|unfold NBUF; simpl; lia]. Qed.

Lemma dirlookup_first_witness :
  exists s', in_trans 20 10 [] demo_fs_img [] s' /\ s'.(icache) = demo_in_dir.(icache) /\
    ((dirlookup 0 [97] demo_in_dir [] = Ok None s' [] /\ forall k, 0 <= k < 2 -> ~ named demo_view demo_dir [97] k) \/
     exists k e, 0 <= k < 2 /\ entry demo_view demo_dir k = Some e /\ named demo_view demo_dir [97] k /\
       (forall k', 0 <= k' < k -> ~ named demo_view demo_dir [97] k') /\
       dirlookup 0 [97] demo_in_dir [] = (ip <- iget 1 (de_inum e) ;; ret (Some (DIRENT_SIZE * k, ip))) s' []).
Proof.
  apply (dirlookup_first (in_trans 20 10 [] demo_fs_img []) demo_view 0 demo_dir [97] demo_in_dir []);
    [exact (trans_reader _ _ _ _ _ _ demo_in_trans_dir)|exact demo_in_trans_dir|done|exact demo_dir_ok|exact demo_dir_bytes|].
  repeat constructor; lia.
Defined.

Lemma demo_entry0 : entry demo_view demo_dir 0 = Some (take 16 demo_dir_block).
Proof. vm_compute. reflexivity. Qed.
Lemma demo_entry1 : entry demo_view demo_dir 1 = Some (replicate 16 0).
Proof. vm_compute. reflexivity. Qed.

Lemma dirlink_enters_witness :
  exists es' s', dirlink 0 [98] 7 demo_in_dir [] = Ok 0 s' [] /\ tinv 20 10 [] demo_fs_img es' s' /\
    (forall j, 0 <= j -> entry (trans_view 20 10 es' demo_fs_img) demo_dir j =
       if decide (j = 1) then Some (mk_dirent 7 [98]) else entry demo_view demo_dir j) /\
    (forall sec, (forall bn, 0 <= bn -> mapped demo_view demo_dir bn <> Some sec) ->
       trans_view 20 10 es' demo_fs_img sec = demo_view sec) /\
    exists s'', dirlookup 0 [98] s' [] = (ip <- iget 1 7 ;; ret (Some (16, ip))) s'' [].
Proof.
  apply (dirlink_enters 20 10 [] demo_fs_img [] demo_in_dir [] 0 demo_dir [98] 7 1);
    [exact demo_tinv|split; unfold NBUF; simpl; lia|done|exact demo_dir_ok|apply demo_dir_layout|exact demo_dir_bytes
    |repeat constructor; lia|lia| |vm_compute; split; done| |].
  - intros j Hj. change (nents demo_dir) with 2 in Hj. intros (e & He & Hi & Hn).
    assert (j = 0 \/ j = 1) as [-> | ->] by lia.
    + assert (e = take 16 demo_dir_block) as -> by (pose proof demo_entry0; unfold demo_view in *; congruence). by vm_compute in Hn.
    + assert (e = replicate 16 0) as -> by (pose proof demo_entry1; unfold demo_view in *; congruence). by vm_compute in Hi.
  - exists (replicate 16 0). split; [exact demo_entry1|done].
  - intros j Hj (e & He & H0). assert (j = 0) as -> by lia. 
    assert (e = take 16 demo_dir_block) as -> by (pose proof demo_entry0; unfold demo_view in *; congruence). by vm_compute in H0.
Defined.

End Dir.
