(* ===== verification/Path.v ===== *)
(** Path names (kernel/fs.c: skipelem): the elements of a path. *)
From S2P Require Import Prelude Types Fs.
Import Fs.

Module Path.

(** ** The elements of a path, as a specification *)

(** The pieces between slashes. *)
Fixpoint split_slash (p : list Z) : list (list Z) :=
  match p with
  | [] => [[]]
  | c :: p' =>
      if c =? 47 then [] :: split_slash p'
      else match split_slash p' with
           | [] => [[c]]
           | e :: es => (c :: e) :: es
           end
  end.

(** The elements: the pieces that are not empty. *)
Definition elements (p : list Z) : list (list Z) := filter (fun e => e <> []) (split_slash p).

Lemma split_slash_cons p : exists e es, split_slash p = e :: es.
Proof.
  induction p as [|c p (e & es & IH)]; simpl; [by eexists _, _|].
  rewrite IH. destruct (c =? 47); by eexists _, _.
Qed.

Lemma elements_slash c p : c = 47 -> elements (c :: p) = elements p.
Proof. intros ->. unfold elements. simpl. rewrite filter_cons_False by naive_solver. done. Qed.

Lemma elements_skip p : elements (skip_slashes p) = elements p.
Proof.
  induction p as [|c p IH]; simpl; [done|]. destruct (Z.eqb_spec c 47) as [E|E]; [|done].
  by rewrite elements_slash.
Qed.

Lemma skip_slashes_length p : (length (skip_slashes p) <= length p)%nat.
Proof. induction p as [|c p IH]; simpl; [done|]. destruct (c =? 47); simpl; lia. Qed.

Lemma skip_slashes_head p : match skip_slashes p with [] => True | c :: _ => c <> 47 end.
Proof. induction p as [|c p IH]; simpl; [done|]. by destruct (Z.eqb_spec c 47). Qed.

Lemma skip_slashes_nil p : elements p = [] -> skip_slashes p = [].
Proof.
  rewrite <- elements_skip. pose proof (skip_slashes_head p) as Hh. destruct (skip_slashes p) as [|c q]; [done|].
  unfold elements. simpl. rewrite (proj2 (Z.eqb_neq c 47) Hh).
  destruct (split_slash_cons q) as (e & es & ->). by rewrite filter_cons_True.
Qed.

(** The element at the front and what follows it. *)
Lemma span_elem_split p :
  let r := span_elem p in
  p = r.1 ++ r.2 /\ Forall (fun c => c <> 47) r.1 /\ (r.2 = [] \/ exists q, r.2 = 47 :: q) /\
  exists es, split_slash p = r.1 :: es /\ filter (fun e => e <> []) es = elements r.2.
Proof.
  induction p as [|c p IH]; simpl.
  { split_and?; try done; [by left|]. exists []. done. }
  destruct (Z.eqb_spec c 47) as [->|E]; simpl.
  - split_and?; try done; [by right; exists p|]. exists (split_slash p). split; [done|].
    by rewrite elements_slash.
  - destruct IH as (Hp & Hf & Hr & es & Hs & He). split_and?; [by f_equal|by constructor|done|].
    rewrite Hs. by exists es.
Qed.

(** Path elements. [skipelem] returns nothing exactly when the path has
    no element; otherwise it returns the first element, cut to DIRSIZ bytes,
    and a shorter path without a leading slash that has exactly the remaining
    elements, and is empty when there are none. *)
Theorem skipelem_elements path :
  match skipelem path with
  | None => elements path = []
  | Some (rest, name) =>
      exists e, elements path = e :: elements rest /\ name = take (Z.to_nat DIRSIZ) e /\
        (length rest < length path)%nat /\
        match rest with [] => True | c :: _ => c <> 47 end /\
        (rest = [] <-> elements rest = [])
  end.
Proof.
  unfold skipelem. pose proof (elements_skip path) as Hel. pose proof (skip_slashes_head path) as Hh.
  pose proof (skip_slashes_length path) as Hlen. destruct (skip_slashes path) as [|c p] eqn:Hsk; [by rewrite <- Hel|].
  destruct (span_elem_split (c :: p)) as (Hp & Hf & Hr & es & Hs & He). set (r := span_elem (c :: p)) in *.
  assert (Hne : r.1 <> []).
  { unfold r. simpl. rewrite (proj2 (Z.eqb_neq c 47) Hh). done. }
  exists r.1. rewrite elements_skip. split_and?.
  - rewrite <- Hel. unfold elements. rewrite Hs, filter_cons_True by done. by rewrite He.
  - destruct (Z.leb_spec DIRSIZ (Z.of_nat (length r.1))); [done|]. rewrite take_ge; [done|].
    unfold DIRSIZ in *. lia.
  - pose proof (skip_slashes_length r.2). assert (length (c :: p) = length (r.1 ++ r.2)) as Hl by (by rewrite <- Hp).
    rewrite length_app in Hl. destruct r.1 as [|x l]; [done|]. simpl in Hl, Hlen. lia.
  - apply skip_slashes_head.
  - split.
    + intros H0. rewrite <- elements_skip, H0. done.
    + apply skip_slashes_nil.
Qed.

(** The paths of the comment at skipelem. *)
Lemma skipelem_examples :
  skipelem [97; 47; 98; 98; 47; 99] = Some ([98; 98; 47; 99], [97]) /\
  skipelem [47; 47; 47; 97; 47; 47; 98; 98] = Some ([98; 98], [97]) /\
  skipelem [97] = Some ([], [97]) /\ skipelem [] = None /\ skipelem [47; 47; 47; 47] = None.
Proof. done. Qed.

End Path.
