(* ===== verification/IputFacts.v ===== *)
(** Dropping references to inodes (kernel/fs.c: iput): what [iput] does to the
    cache, and that freeing an unlinked inode needs a transaction. *)
From S2P Require Import Prelude Types Spinlock Sched Bio BioFacts BioAbs BioRep Log LogSpec LogFacts Crash Inode BlockFacts InodeFacts Fs FileData Dir.
Import Spinlock Sched Bio BioFacts BioAbs BioRep Log LogSpec LogFacts Inode BlockFacts InodeFacts Fs FileData.

Module IputFacts.

(** The last reference to an inode that no directory entry names. *)
Definition last_ref (i : inode) : bool :=
  (i.(i_ref) =? 1) && has i.(i_flags) I_VALID && (i.(i_nlink) =? 0).

Definition less (x : inode) : inode := set_i_ref (x.(i_ref) - 1) x.

Lemma iput_keep ip i s env :
  quiet s -> icache_lock ∉ s.(kcpu).(held) -> s.(icache) !! ip = Some i -> last_ref i = false ->
  iput ip s env = Ok tt (upd_inode ip less s) env.
Proof.
  intros Hq Hlk Hi Hl. unfold iput. mstep (acquire_quiet icache_lock s env Hq Hlk).
  set (s0 := with_lock icache_lock s). assert (Hi0 : s0.(icache) !! ip = Some i) by done.
  mstep (get_inode_eq ip i s0 env Hi0). unfold last_ref in Hl. rewrite Hl. unfold when. mrun.
  exact (release_quiet icache_lock s (upd_inode ip less s0) env Hq Hlk eq_refl).
Qed.

(** Dropping a reference. Unless it is the last reference to an unlinked
    inode, [iput] takes one reference from the entry and changes nothing else;
    a well-formed cache with a reference to drop stays well formed. *)
Theorem iput_drops ip i s env :
  quiet s -> icache_lock ∉ s.(kcpu).(held) -> s.(icache) !! ip = Some i -> last_ref i = false ->
  icache_ok s.(icache) -> 0 < i.(i_ref) ->
  exists s', iput ip s env = Ok tt s' env /\ s' = set_icache s'.(icache) s /\ icache_ok s'.(icache) /\
    forall j, s'.(icache) !! j = if decide (j = ip) then Some (set_i_ref (i.(i_ref) - 1) i) else s.(icache) !! j.
Proof.
  intros Hq Hlk Hi Hl [Hr Hu] Hpos. exists (upd_inode ip less s).
  assert (Hlook : forall j, icache (upd_inode ip less s) !! j =
    if decide (j = ip) then Some (set_i_ref (i_ref i - 1) i) else icache s !! j).
  { intros j. rewrite upd_inode_lookup, Hi. done. }
  split_and?; [by eapply iput_keep|done| |done].
  assert (Hold : forall j y, icache (upd_inode ip less s) !! j = Some y -> exists x, icache s !! j = Some x /\
    0 <= i_ref y <= i_ref x /\ i_dev y = i_dev x /\ i_inum y = i_inum x).
  { intros j y. rewrite Hlook. case_decide as E; intros Hy; simplify_eq.
    - exists i. simpl. split_and?; try done; lia.
    - exists y. pose proof (Hr _ _ Hy). split_and?; try done; lia. }
  split.
  - intros j y Hy. destruct (Hold j y Hy) as (x & _ & ? & _). lia.
  - intros dev inum j k y z Hy Hz (Ly & Dy & Ny) (Lz & Dz & Nz).
    destruct (Hold j y Hy) as (x & Hx & Hxr & Hxd & Hxn). destruct (Hold k z Hz) as (w & Hw & Hwr & Hwd & Hwn).
    apply (Hu dev inum j k x w Hx Hw); unfold live; split_and?; congruence || lia.
Qed.

(** ** Freeing needs a transaction *)

Section Idle.
Context (start size : Z) (d : list (list Z)).

Lemma log_write_idle b s env : quiescent start size s -> 1 < size ->
  forall s', s'.(klog) = s.(klog) -> log_write b s' env = Err (Panic "write outside of trans") s' env.
Proof.
  intros (_ & (_ & Hsz & _ & Hn & _) & Hb & _) Hs s' Hk. unfold log_write, get_log. mrun. rewrite Hk, Hn, Hsz, Hb.
  change (Z.of_nat (length ([] : list (Z * list Z)))) with 0.
  rewrite (proj2 (Z.leb_gt LOGSIZE 0)) by done. rewrite (proj2 (Z.leb_gt (size - 1) 0)) by lia. done.
Qed.

(** [bfree] outside a transaction. *)
Lemma bfree_idle sbk sb bm x s env :
  idle start size d s -> 1 < size -> disk_view d 1 = Some sbk -> sb_of_block sbk = sb ->
  disk_view d (BBLOCK x sb.(sb_ninodes)) = Some bm -> bit_used bm (x mod BPB) = true ->
  exists s', bfree 1 x s env = Err (Panic "write outside of trans") s' env.
Proof.
  intros Hidle Hsz Hsbk Hsb Hbm Hu. pose proof (idle_reader start size d s Hidle) as HR.
  destruct (reader_read s env 1 sbk Hidle Hsbk) as (b & bf & s1 & s2 & Hrun1 & Hget1 & Hbd1 & Hrel1 & Hidle2 & _).
  unfold bfree. assert (Hrsb : readsb 1 s env = Ok sb s2 env).
  { unfold readsb. mstep Hrun1. mstep Hget1. rewrite Hbd1, Hsb. by mstep Hrel1. }
  mstep Hrsb. pose proof Hidle2 as [(Hr & _) Hd2].
  destruct (bread_rep [] ∅ s2 (BBLOCK x (sb_ninodes sb)) env Hr) as (b2 & fl & blk & s3 & Hrun2 & Hf & _ & _ & Hv & _ & Hr3).
  { unfold disk_view in Hbm. case_bool_decide; [|done]. apply lookup_lt_Some in Hbm. unfold disksize. rewrite Hd2. lia. }
  { by intros e ?%elem_of_nil. } { left. apply Crash.empty_room. unfold NBUF. simpl. lia. }
  assert (blk = bm) as ->.
  { unfold rview in Hv. rewrite lookup_empty, Hd2 in Hv. unfold disk_view in Hbm. case_bool_decide; [congruence|done]. }
  mstep Hrun2. destruct (get_buf_rep _ _ s3 b2 fl _ bm env Hr3 ltac:(left)) as (bf2 & Hget2 & _ & _ & _ & Hbd2).
  mstep Hget2. rewrite Hbd2, Hu. cbn [negb]. mrun. eexists.
  unfold bind. rewrite (log_write_idle b2 s2 env (proj1 Hidle2) Hsz); [done|]. exact (frame_klog _ _ Hf).
Qed.
End Idle.

(** C20: an unlinked inode cannot be freed between transactions. When the log
    is idle, [iput] of the last reference to an unlinked file or directory with
    a first block panics; so do the callers that do not begin a transaction
    (exit, sys_chdir, namex, exec) when they drop such a reference. *)
Theorem iput_outside_trans start size d sbk sb bm ip i a s env :
  idle start size d s -> 1 < size -> icache_lock ∉ s.(kcpu).(held) ->
  s.(icache) !! ip = Some i -> last_ref i = true -> has i.(i_flags) I_BUSY = false -> i.(i_dev) = 1 ->
  i.(i_addrs) !! 0%nat = Some a -> a <> 0 ->
  disk_view d 1 = Some sbk -> sb_of_block sbk = sb ->
  disk_view d (BBLOCK a sb.(sb_ninodes)) = Some bm -> bit_used bm (a mod BPB) = true ->
  exists s', iput ip s env = Err (Panic "write outside of trans") s' env.
Proof.
  intros Hidle Hsz Hlk Hi Hl Hnb Hdev Ha Hane Hsbk Hsb Hbm Hu.
  pose proof Hidle as [(Hr & _) _]. destruct (rep_bio_ok _ _ _ Hr) as ((Hq & _) & _).
  unfold iput. mstep (acquire_quiet icache_lock s env Hq Hlk).
  set (s0 := with_lock icache_lock s). assert (Hi0 : s0.(icache) !! ip = Some i) by done.
  mstep (get_inode_eq ip i s0 env Hi0). unfold last_ref in Hl. rewrite Hl, Hnb. unfold when. mrun.
  set (bf := fun x => set_i_flags (Z.lor (i_flags x) I_BUSY) x).
  mstep (release_quiet icache_lock s (upd_inode ip bf s0) env Hq Hlk eq_refl).
  change (set_kcpu (kcpu s) (upd_inode ip bf s0)) with (upd_inode ip bf s). set (s1 := upd_inode ip bf s).
  assert (Hi1 : s1.(icache) !! ip = Some (bf i)) by (unfold s1; by rewrite upd_inode_lookup, decide_True, Hi).
  destruct (bfree_idle start size d sbk sb bm a s1 env) as (s' & Hrun); try done.
  exists s'. unfold itrunc. mrun. change (seq 0 (Z.to_nat NDIRECT)) with (0%nat :: seq 1 11). cbn [mfor]. mrun.
  mstep (get_inode_eq ip (bf i) s1 env Hi1). change (i_addrs (bf i)) with (i_addrs i). rewrite Ha.
  unfold deref. mrun. unfold when. rewrite (proj2 (Z.eqb_neq a 0)) by done. cbn [negb].
  change (i_dev (bf i)) with (i_dev i). rewrite Hdev. mrun. by rewrite (bind_err _ _ _ _ _ _ _ Hrun).
Qed.

(** The demonstration directory after its last link has gone, held once. *)
Definition demo_unlinked : inode := set_i_nlink 0 (set_i_flags I_VALID Dir.demo_dir).
Definition demo_cwd : kstate := upd_inode 0 (fun _ => demo_unlinked) demo_fs.

Lemma iput_drops_witness :
  exists s', iput 0 demo_cached [] = Ok tt s' [] /\ s' = set_icache s'.(icache) demo_cached /\ icache_ok s'.(icache) /\
    forall j, s'.(icache) !! j = if decide (j = 0%nat) then Some (set_i_ref 0 demo_inode) else demo_cached.(icache) !! j.
Proof.
  apply (iput_drops 0 demo_inode demo_cached []);
    [done|simpl; set_solver|done|done|exact demo_icache_ok|simpl; lia].
Defined.

Lemma iput_outside_trans_witness :
  exists s', iput 0 demo_cwd [] = Err (Panic "write outside of trans") s' [].
Proof.
  apply (iput_outside_trans 20 10 demo_fs_img demo_sb_block demo_sb demo_bitmap 0 demo_unlinked 8);
    try done; try (simpl; set_solver).
  split; [exact demo_fs_quiescent|done].
Defined.

End IputFacts.
