(* ===== verification/ConsoleFacts.v ===== *)
(** The console (kernel/console.c): the input ring is a queue of committed
    bytes followed by a line being edited; number formatting. *)
From S2P Require Import Prelude Types Spinlock Sched Inode Console.
Import Spinlock Sched Inode Console.

Module ConsoleFacts.

(** ** Line editing, as a specification *)

(** The committed bytes and the line being edited. *)
Definition line_state : Type := list Z * list Z.

Definition edit (c : Z) (q : line_state) : line_state :=
  let '(Q, E) := q in
  if c =? 21 then (Q, [])
  else if (c =? 8) || (c =? 127) then (Q, removelast E)
  else if (c =? 0) || bool_decide (length (Q ++ E) = Z.to_nat INPUT_BUF) then (Q, E)
  else
    let c := if c =? 13 then 10 else c in
    let E' := E ++ [c] in
    if (c =? 10) || (c =? 4) || bool_decide (length (Q ++ E') = Z.to_nat INPUT_BUF) then (Q ++ E', []) else (Q, E').

(** What a key sends to the terminal: the character, or for each character
    taken back a backspace, a blank and a backspace. *)
Definition erase : list Z := [8; 32; 8].

Definition echo (c : Z) (q : line_state) : list Z :=
  let '(Q, E) := q in
  if c =? 21 then concat (replicate (length E) erase)
  else if (c =? 8) || (c =? 127) then if bool_decide (E = []) then [] else erase
  else if (c =? 0) || bool_decide (length (Q ++ E) = Z.to_nat INPUT_BUF) then []
  else [if c =? 13 then 10 else c].

(** Does the key end the line? *)
Definition commits (c : Z) (q : line_state) : bool :=
  let '(Q, E) := q in
  if (c =? 21) || ((c =? 8) || (c =? 127)) || ((c =? 0) || bool_decide (length (Q ++ E) = Z.to_nat INPUT_BUF)) then false
  else (c =? 13) || (c =? 10) || (c =? 4) || bool_decide (S (length (Q ++ E)) = Z.to_nat INPUT_BUF).

(** The same for a sequence of keys. *)
Fixpoint echoes (cs : list Z) (q : line_state) : list Z :=
  match cs with
  | [] => []
  | c :: cs' => echo c q ++ echoes cs' (edit c q)
  end.

Fixpoint some_commit (cs : list Z) (q : line_state) : bool :=
  match cs with
  | [] => false
  | c :: cs' => commits c q || some_commit cs' (edit c q)
  end.

(** ** The ring *)

Definition ring (b : inputbuf) (Q E : list Z) : Prop :=
  length b.(in_buf) = Z.to_nat INPUT_BUF /\ 0 <= b.(in_r) < 2 ^ 32 /\
  b.(in_w) = u32 (b.(in_r) + Z.of_nat (length Q)) /\
  b.(in_e) = u32 (b.(in_r) + Z.of_nat (length (Q ++ E))) /\
  (length (Q ++ E) <= Z.to_nat INPUT_BUF)%nat /\
  (forall i x, (Q ++ E) !! i = Some x -> in_at b (b.(in_r) + Z.of_nat i) = x).

Lemma u32_range x : 0 <= u32 x < 2 ^ 32.
Proof. apply Z.mod_pos_bound. lia. Qed.

Lemma u32_inj x i j : 0 <= i < 2 ^ 32 -> 0 <= j < 2 ^ 32 -> u32 (x + i) = u32 (x + j) -> i = j.
Proof.
  intros Hi Hj H. unfold u32 in H. assert ((x + i - (x + j)) mod 2 ^ 32 = 0) as H0.
  { rewrite Zminus_mod, H, Z.sub_diag. done. }
  apply Z.mod_divide in H0 as [k Hk]; [|lia]. lia.
Qed.

Lemma u32_shift x k : u32 (u32 x + k) = u32 (x + k).
Proof. unfold u32. by rewrite Zplus_mod_idemp_l. Qed.

Lemma u32_diff x k : 0 <= k < 2 ^ 32 -> u32 (u32 (x + k) - x) = k.
Proof.
  intros Hk. unfold u32. rewrite Zminus_mod_idemp_l. replace (x + k - x) with k by lia. by apply Z.mod_small.
Qed.

Lemma in_at_u32 b x : in_at b (u32 x) = in_at b x.
Proof.
  unfold in_at, u32, INPUT_BUF. do 2 f_equal. change (2 ^ 32) with (512 * 2 ^ 23).
  rewrite Z.rem_mul_r by lia. rewrite (Z.mul_comm 512 (_ mod _)), Z.mod_add, Z.mod_mod by lia. done.
Qed.

(** Distinct positions of the ring. *)
Lemma ring_distinct x i j : 0 <= i < INPUT_BUF -> 0 <= j < INPUT_BUF ->
  Z.to_nat ((x + i) mod INPUT_BUF) = Z.to_nat ((x + j) mod INPUT_BUF) -> i = j.
Proof. unfold INPUT_BUF. intros Hi Hj H. Z.to_euclidean_division_equations. lia. Qed.

Lemma ring_empty b Q E : ring b Q E -> (b.(in_e) =? b.(in_w)) = bool_decide (E = []).
Proof.
  intros (_ & Hr & Hw & He & Hl & _). rewrite Hw, He. change (Z.to_nat INPUT_BUF) with 512%nat in Hl.
  apply eq_true_iff_eq. rewrite Z.eqb_eq, bool_decide_eq_true. rewrite length_app in *. split.
  - intros H. apply u32_inj in H; [|lia..]. destruct E; [done|simpl in H; lia].
  - intros ->. simpl. do 2 f_equal. lia.
Qed.

Lemma ring_count b Q E : ring b Q E -> u32 (b.(in_e) - b.(in_r)) = Z.of_nat (length (Q ++ E)).
Proof.
  intros (_ & Hr & _ & He & Hl & _). rewrite He. change (Z.to_nat INPUT_BUF) with 512%nat in Hl. apply u32_diff. lia.
Qed.

Lemma ring_full b Q E : ring b Q E ->
  (b.(in_e) =? u32 (b.(in_r) + INPUT_BUF)) = bool_decide (length (Q ++ E) = Z.to_nat INPUT_BUF).
Proof.
  intros (_ & Hr & _ & He & Hl & _). rewrite He. change (Z.to_nat INPUT_BUF) with 512%nat in *. unfold INPUT_BUF.
  apply eq_true_iff_eq. rewrite Z.eqb_eq, bool_decide_eq_true. split.
  - intros H. apply u32_inj in H; lia.
  - intros ->. done.
Qed.

Lemma ring_back b (Q E : list Z) (c : Z) :
  b.(in_e) = u32 (b.(in_r) + Z.of_nat (length (Q ++ E ++ [c]))) <->
  b.(in_e) = u32 (b.(in_r) + Z.of_nat (length (Q ++ E)) + 1).
Proof. rewrite app_assoc, (length_app (Q ++ E)). simpl. by rewrite Nat2Z.inj_add, Z.add_assoc. Qed.

Lemma u32_pred x : u32 (u32 (x + 1) - 1) = u32 x.
Proof. unfold u32. rewrite Zminus_mod_idemp_l. f_equal. lia. Qed.

Lemma ring_last b Q E c : ring b Q (E ++ [c]) -> in_at b (u32 (b.(in_e) - 1)) = c.
Proof.
  intros (_ & _ & _ & He & _ & Hat). apply ring_back in He. rewrite He, u32_pred, in_at_u32.
  apply Hat. rewrite app_assoc, lookup_app_r, Nat.sub_diag; done.
Qed.

(** The four moves of the ring. *)
Definition push (c : Z) (b : inputbuf) : inputbuf :=
  set_in_e (u32 (b.(in_e) + 1)) (set_in_buf (<[Z.to_nat (b.(in_e) mod INPUT_BUF) := u8 c]> b.(in_buf)) b).
Definition pop (b : inputbuf) : inputbuf := set_in_e (u32 (b.(in_e) - 1)) b.
Definition commit (b : inputbuf) : inputbuf := set_in_w b.(in_e) b.
Definition next (b : inputbuf) : inputbuf := set_in_r (u32 (b.(in_r) + 1)) b.

Lemma ring_pop b Q E c : ring b Q (E ++ [c]) -> ring (pop b) Q E.
Proof.
  intros (Hb & Hr & Hw & He & Hl & Hat). apply ring_back in He. rewrite app_assoc in *. unfold ring. simpl.
  split_and?; try done; try lia.
  - by rewrite He, u32_pred.
  - rewrite length_app in Hl. lia.
  - intros i x Hi. apply Hat. by apply lookup_app_l_Some.
Qed.

Lemma ring_commit b Q E : ring b Q E -> ring (commit b) (Q ++ E) [].
Proof.
  intros (Hb & Hr & Hw & He & Hl & Hat). unfold ring. by rewrite app_nil_r.
Qed.

Lemma ring_push b Q E c : ring b Q E -> 0 <= c < 256 ->
  (length (Q ++ E) < Z.to_nat INPUT_BUF)%nat -> ring (push c b) Q (E ++ [c]).
Proof.
  intros (Hb & Hr & Hw & He & Hl & Hat) Hc Hlt. change (Z.to_nat INPUT_BUF) with 512%nat in *.
  unfold ring. rewrite app_assoc. simpl. change (Z.to_nat INPUT_BUF) with 512%nat. rewrite length_insert. split_and?; try done; try lia.
  - rewrite He, u32_shift, (length_app (Q ++ E)). simpl. f_equal. lia.
  - rewrite length_app. simpl. lia.
  - intros i x Hi. unfold in_at. simpl. rewrite He.
    assert (Hpos : Z.to_nat (u32 (in_r b + Z.of_nat (length (Q ++ E))) mod INPUT_BUF) =
      Z.to_nat ((in_r b + Z.of_nat (length (Q ++ E))) mod INPUT_BUF)).
    { unfold u32, INPUT_BUF. f_equal. change (2 ^ 32) with (512 * 2 ^ 23).
      rewrite Z.rem_mul_r by lia. rewrite (Z.mul_comm 512 (_ mod _)), Z.mod_add, Z.mod_mod by lia. done. }
    rewrite Hpos. destruct (decide (i < length (Q ++ E))%nat) as [Hi'|Hi'].
    + rewrite list_lookup_total_insert_ne; [apply Hat; by rewrite lookup_app_l in Hi|].
      intros Heq. apply ring_distinct in Heq; unfold INPUT_BUF; lia.
    + apply lookup_lt_Some in Hi as Hi2. rewrite length_app in Hi2. simpl in Hi2.
      assert (i = length (Q ++ E)) as -> by lia. rewrite lookup_app_r, Nat.sub_diag in Hi by lia. injection Hi as <-.
      rewrite list_lookup_total_insert_eq; [unfold u8; rewrite Z.mod_small; lia|].
      rewrite Hb. pose proof (Z.mod_pos_bound (in_r b + Z.of_nat (length (Q ++ E))) INPUT_BUF eq_refl). unfold INPUT_BUF in *. lia.
Qed.

(** ** Typing *)

(** The readers of the console wake if [w]. *)
Definition roused (w : bool) (pr : list proc) : list proc :=
  if w then wake chan_input <$> pr else pr.

(** Nothing changes but the input ring, whose read position stays; [o] is
    sent to the terminal, and the readers of the console wake if [w]. *)
Definition cframe (o : list Z) (w : bool) (s s' : kstate) : Prop :=
  exists b, b.(in_r) = s.(input).(in_r) /\
    s' = set_procs (roused w s.(procs)) (set_uart_tx (s.(uart_tx) ++ o) (set_input b s)).

Lemma wake_idem c p : wake c (wake c p) = wake c p.
Proof.
  unfold wake. destruct (bool_decide (state p = SLEEPING /\ chan p = Some c)) eqn:E.
  - by rewrite bool_decide_eq_false_2 by (simpl; by intros [? _]).
  - by rewrite E.
Qed.

Lemma roused_twice w w' pr : roused w' (roused w pr) = roused (w || w') pr.
Proof.
  destruct w, w'; simpl; try done. rewrite <- list_fmap_compose. apply list_fmap_ext. intros i p _. apply wake_idem.
Qed.

Lemma length_roused w pr : length (roused w pr) = length pr.
Proof. destruct w; simpl; [apply length_fmap|done]. Qed.

Lemma cframe_refl s : cframe [] false s s.
Proof. exists (input s). split; [done|]. rewrite app_nil_r. by destruct s. Qed.

Lemma cframe_trans o1 o2 w1 w2 o w s1 s2 s3 :
  cframe o1 w1 s1 s2 -> cframe o2 w2 s2 s3 -> o = o1 ++ o2 -> w = w1 || w2 -> cframe o w s1 s3.
Proof.
  intros (b & Hb & ->) (b' & Hb' & ->) -> ->. exists b'. split; [by rewrite Hb'|].
  rewrite <- roused_twice, app_assoc. done.
Qed.

Lemma cframe_input f s : (f s.(input)).(in_r) = s.(input).(in_r) -> cframe [] false s (upd_input f s).
Proof. intros Hf. exists (f (input s)). split; [done|]. rewrite app_nil_r. by destruct s. Qed.

Lemma cframe_woken s : cframe [] true s (woken chan_input s).
Proof. exists (input s). split; [done|]. rewrite app_nil_r. by destruct s. Qed.

Lemma cframe_tx o s : cframe o false s (set_uart_tx (s.(uart_tx) ++ o) s).
Proof. exists (input s). split; [done|]. by destruct s. Qed.

Lemma cframe_calm o w s s' : cframe o w s s' -> calm s -> calm s'.
Proof. intros (b & _ & ->) (Hq & Hp & Hn). split_and!; try done. simpl. by rewrite length_roused. Qed.

Lemma consputc_back s env : consputc BACKSPACE s env = Ok tt (set_uart_tx (s.(uart_tx) ++ erase) s) env.
Proof.
  change (consputc BACKSPACE) with (uartputc 8 ;;; uartputc 32 ;;; uartputc 8). unfold uartputc. mrun.
  change (Ok tt (set_uart_tx (((s.(uart_tx) ++ [8]) ++ [32]) ++ [8]) s) env = Ok tt (set_uart_tx (s.(uart_tx) ++ erase) s) env).
  by rewrite <- !app_assoc.
Qed.

Lemma consputc_char c s env : 0 <= c < 256 -> consputc c s env = Ok tt (set_uart_tx (s.(uart_tx) ++ [c]) s) env.
Proof.
  intros Hc. unfold consputc, uartputc. rewrite (proj2 (Z.eqb_neq c BACKSPACE)) by (unfold BACKSPACE; lia).
  unfold modify, u8. by rewrite Z.mod_small by lia.
Qed.

Lemma consputc_run c s env : exists tx, consputc c s env = Ok tt (set_uart_tx tx s) env.
Proof. unfold consputc, uartputc. destruct (c =? BACKSPACE); eexists; reflexivity. Qed.

(** Taking back one character. *)
Lemma pop_back s env : (modify (upd_input pop) ;;; consputc BACKSPACE) s env =
  Ok tt (set_uart_tx (s.(uart_tx) ++ erase) (upd_input pop s)) env.
Proof. mrun. exact (consputc_back (upd_input pop s) env). Qed.

Lemma cframe_back s : cframe erase false s (set_uart_tx (s.(uart_tx) ++ erase) (upd_input pop s)).
Proof. eapply cframe_trans; [by apply (cframe_input pop)|exact (cframe_tx erase (upd_input pop s))|done|done]. Qed.

Lemma kill_line_run Q E : forall fuel s env,
  ring s.(input) Q E -> 10 ∉ E -> (length E < fuel)%nat ->
  exists s', kill_line fuel s env = Ok tt s' env /\ cframe (concat (replicate (length E) erase)) false s s' /\ ring s'.(input) Q [].
Proof.
  induction E as [|c E IH] using rev_ind; intros fuel s env Hr Hn Hf; (destruct fuel as [|fuel]; [lia|]); simpl; unfold get_input; mrun;
    rewrite (ring_empty _ _ _ Hr).
  - rewrite bool_decide_eq_true_2 by done. exists s. split_and?; [done|apply cframe_refl|done].
  - rewrite bool_decide_eq_false_2 by (by destruct E). rewrite (ring_last _ _ _ _ Hr).
    rewrite (proj2 (Z.eqb_neq c 10)) by (intros ->; set_solver). cbn [negb andb]. mrun.
    mstep (consputc_back (upd_input pop s) env).
    destruct (IH fuel (set_uart_tx (s.(uart_tx) ++ erase) (upd_input pop s)) env) as (s' & Hrun & Hc & Hr').
    { apply (ring_pop _ _ _ c Hr). } { set_solver. } { rewrite length_app in Hf. simpl in Hf. lia. }
    exists s'. split_and?; [done| |done]. eapply cframe_trans; [apply cframe_back|exact Hc| |done].
    by rewrite length_app, Nat.add_comm.
Qed.

Lemma ring_edit_length b Q E : ring b Q E -> u32 (b.(in_e) - b.(in_w)) = Z.of_nat (length E).
Proof.
  intros (_ & Hr & Hw & He & Hl & _). rewrite He, Hw. change (Z.to_nat INPUT_BUF) with 512%nat in Hl. rewrite length_app in *.
  unfold u32. rewrite <- Zminus_mod. replace (_ - _) with (Z.of_nat (length E)) by lia. apply Z.mod_small. lia.
Qed.

Lemma removelast_snoc (E : list Z) c : removelast (E ++ [c]) = E.
Proof. apply removelast_last. Qed.

(** A key that is not for editing. *)
Lemma commits_char c (Q E : list Z) (c' := if c =? 13 then 10 else c) :
  (c =? 21) = false -> (c =? 8) || (c =? 127) = false -> (c =? 0) = false -> length (Q ++ E) <> Z.to_nat INPUT_BUF ->
  commits c (Q, E) = (c' =? 10) || (c' =? 4) || bool_decide (length (Q ++ E ++ [c']) = Z.to_nat INPUT_BUF).
Proof.
  intros H1 H2 H3 H4. unfold commits. rewrite H1, H2, H3, bool_decide_eq_false_2 by done. cbn [orb].
  replace (length (Q ++ E ++ [c'])) with (S (length (Q ++ E))) by (rewrite !length_app; simpl; lia).
  unfold c'. destruct (Z.eqb_spec c 13) as [->|]; done.
Qed.

Lemma console_char_run sc c Q E s env :
  calm s -> ring s.(input) Q E -> 10 ∉ E -> 0 <= c < 256 -> c <> 12 ->
  exists s', console_char sc c s env = Ok tt s' env /\ cframe (echo c (Q, E)) (commits c (Q, E)) s s' /\
    ring s'.(input) (edit c (Q, E)).1 (edit c (Q, E)).2 /\ 10 ∉ (edit c (Q, E)).2.
Proof.
  intros Hcalm Hr Hn Hc H12. unfold console_char. rewrite (proj2 (Z.eqb_neq c 12)) by done.
  destruct (c =? 21) eqn:E21.
  { unfold edit, echo, commits. rewrite E21. unfold get_input. mrun. rewrite (ring_edit_length _ _ _ Hr).
    destruct (kill_line_run Q E (S (Z.to_nat (Z.of_nat (length E)))) s env Hr Hn) as (s' & Hrun & Hf & Hr'); [lia|].
    exists s'. split_and?; try done. set_solver. }
  destruct ((c =? 8) || (c =? 127)) eqn:Ebs.
  { unfold edit, echo, commits. rewrite E21, Ebs. unfold get_input, when. mrun. rewrite (ring_empty _ _ _ Hr). destruct E as [|x E _] using rev_ind.
    - rewrite bool_decide_eq_true_2 by done. exists s. split_and?; [done|apply cframe_refl|done|done].
    - rewrite bool_decide_eq_false_2 by (by destruct E). cbn [negb]. rewrite pop_back.
      eexists. split; [reflexivity|]. cbn [fst snd]. rewrite removelast_snoc. split_and?; [apply cframe_back| |set_solver].
      apply (ring_pop _ _ _ x Hr). }
  unfold get_input at 1, when at 1. mrun. rewrite (ring_count _ _ _ Hr).
  destruct ((c =? 0) || bool_decide (length (Q ++ E) = Z.to_nat INPUT_BUF)) eqn:Edrop.
  { unfold edit, echo, commits. rewrite E21, Ebs, Edrop. cbn [orb].
    assert (negb (c =? 0) && (Z.of_nat (length (Q ++ E)) <? INPUT_BUF) = false) as ->.
    { destruct (c =? 0); [done|]. cbn [orb] in Edrop. apply bool_decide_eq_true_1 in Edrop. rewrite Edrop. done. }
    exists s. split_and?; [done|apply cframe_refl|done|done]. }
  pose proof Edrop as [E0 Hfull%bool_decide_eq_false_1]%orb_false_iff. pose proof Hr as (_ & _ & _ & _ & Hl & _).
  rewrite E0, (commits_char c Q E) by done. unfold edit, echo. rewrite E21, Ebs, Edrop. cbn [negb andb].
  change (Z.to_nat INPUT_BUF) with 512%nat in Hl, Hfull.
  rewrite (proj2 (Z.ltb_lt _ _)) by (unfold INPUT_BUF; lia). set (c' := if c =? 13 then 10 else c).
  assert (Hc' : 0 <= c' < 256) by (unfold c'; destruct (c =? 13); lia).
  mrun. set (s1 := upd_input (push c') s).
  assert (Hr1 : ring s1.(input) Q (E ++ [c'])) by (apply ring_push; unfold INPUT_BUF; [done|done|lia]).
  mstep (consputc_char c' s1 env Hc'). set (s2 := set_uart_tx _ s1). unfold get_input. mrun.
  assert (Hf2 : cframe [c'] false s s2) by (eapply cframe_trans; [by apply (cframe_input (push c'))|apply (cframe_tx [c'])|done|done]).
  rewrite (ring_full s2.(input) Q (E ++ [c']) Hr1).
  destruct ((c' =? 10) || (c' =? 4) || bool_decide (length (Q ++ E ++ [c']) = Z.to_nat INPUT_BUF)) eqn:Ecm; unfold when.
  - mrun. set (s3 := upd_input commit s2).
    assert (Hf3 : cframe [c'] false s s3) by (eapply cframe_trans; [exact Hf2|by apply (cframe_input commit)|done|done]).
    exists (woken chan_input s3). split_and?.
    + apply (wakeup_eq chan_input s3 env). by eapply cframe_calm.
    + eapply cframe_trans; [exact Hf3|apply cframe_woken|done|done].
    + apply ring_commit. exact Hr1.
    + simpl. set_solver.
  - exists s2. split_and?; [done|done|done|]. simpl. rewrite !orb_false_iff, Z.eqb_neq in Ecm. set_solver.
Qed.

Lemma console_chars_run sc cs : forall Q E s env,
  calm s -> ring s.(input) Q E -> 10 ∉ E -> Forall (fun c => 0 <= c < 256 /\ c <> 12) cs ->
  let q := foldl (fun q c => edit c q) (Q, E) cs in
  exists s', mfor cs (console_char sc) s env = Ok tt s' env /\ cframe (echoes cs (Q, E)) (some_commit cs (Q, E)) s s' /\
    ring s'.(input) q.1 q.2 /\ 10 ∉ q.2.
Proof.
  induction cs as [|c cs IH]; intros Q E s env Hc Hr Hn Hf; cbn [foldl mfor echoes some_commit].
  { exists s. split_and?; [done|apply cframe_refl|done|done]. }
  apply Forall_cons in Hf as [[Hc0 Hc12] Hf].
  destruct (console_char_run sc c Q E s env Hc Hr Hn Hc0 Hc12) as (s1 & Hrun1 & Hf1 & Hr1 & Hn1).
  mstep Hrun1. destruct (IH _ _ s1 env (cframe_calm _ _ _ _ Hf1 Hc) Hr1 Hn1 Hf) as (s2 & Hrun2 & Hf2 & Hr2 & Hn2).
  rewrite <- surjective_pairing in Hr2, Hn2, Hf2.
  exists s2. split_and?; [done|by eapply cframe_trans|done|done].
Qed.

Lemma consoleintr_run sc cs Q E s env :
  calm s -> input_lock ∉ s.(kcpu).(held) -> ring s.(input) Q E -> 10 ∉ E ->
  Forall (fun c => 0 <= c < 256 /\ c <> 12) cs ->
  let q := foldl (fun q c => edit c q) (Q, E) cs in
  exists s', consoleintr sc cs s env = Ok tt s' env /\ cframe (echoes cs (Q, E)) (some_commit cs (Q, E)) s s' /\
    ring s'.(input) q.1 q.2 /\ 10 ∉ q.2.
Proof.
  intros Hc Hlk Hr Hn Hf q. pose proof Hc as (Hq & Hp & Hnp). unfold consoleintr.
  mstep (acquire_quiet input_lock s env Hq Hlk). set (s0 := with_lock input_lock s).
  destruct (console_chars_run sc cs Q E s0 env) as (s1 & Hrun & Hf1 & Hr1 & Hn1); try done.
  { unfold calm. split_and?; [by apply quiet_with_lock|simpl; set_solver|done]. }
  mstep Hrun. exists (set_kcpu s.(kcpu) s1). destruct Hf1 as (b & Hb & ->). split_and?; try done.
  - by apply release_quiet.
  - exists b. split; [done|]. by destruct s.
Qed.

(** ** Reading *)

(** What reading at most [n] bytes takes from the committed bytes, of which
    [got] says whether some have been taken: the bytes and what is left, or
    nothing if the reader would have to wait. *)
Fixpoint read_line (n : nat) (got : bool) (Q : list Z) : option (list Z * list Z) :=
  match n with
  | O => Some ([], Q)
  | S n' =>
      match Q with
      | [] => None
      | c :: Q' =>
          if c =? 4 then Some ([], if got then Q else Q')
          else if c =? 10 then Some ([c], Q')
          else r ← read_line n' true Q'; Some (c :: r.1, r.2)
      end
  end.

Lemma ring_next b c Q E : ring b (c :: Q) E -> ring (next b) Q E.
Proof.
  intros (Hb & Hr & Hw & He & Hl & Hat). simpl in *. unfold ring. simpl. pose proof (u32_range (in_r b + 1)).
  split_and?; try done; try lia.
  - rewrite u32_shift, Hw. f_equal. lia.
  - rewrite u32_shift, He. f_equal. lia.
  - intros i x Hi. change (in_at (next b)) with (in_at b).
    assert (in_at b (u32 (in_r b + 1) + Z.of_nat i) = in_at b (in_r b + 1 + Z.of_nat i)) as ->.
    { rewrite <- in_at_u32, u32_shift, in_at_u32. done. }
    rewrite <- (Hat (S i) x Hi). f_equal. lia.
Qed.

Lemma ring_prev b c Q E : ring b (c :: Q) E ->
  ring (set_in_r (u32 ((next b).(in_r) - 1)) (next b)) (c :: Q) E.
Proof.
  intros Hr. pose proof Hr as (_ & H32 & _). simpl. rewrite u32_pred. unfold u32. rewrite Z.mod_small by lia.
  by destruct b.
Qed.

Lemma ring_ready b c Q E : ring b (c :: Q) E -> (b.(in_r) =? b.(in_w)) = false /\ in_at b b.(in_r) = c.
Proof.
  intros (_ & Hr & Hw & _ & Hl & Hat). change (Z.to_nat INPUT_BUF) with 512%nat in Hl. split.
  - apply Z.eqb_neq. rewrite Hw. simpl in *. rewrite length_app in Hl. intros H.
    rewrite <- (Z.add_0_r (in_r b)) in H at 1. rewrite <- (Z.mod_small (in_r b + 0) (2 ^ 32)) in H by lia.
    apply u32_inj in H; lia.
  - rewrite <- (Hat 0%nat c eq_refl). f_equal. simpl. lia.
Qed.

Lemma cons_wait_ready s env c Q E : ring s.(input) (c :: Q) E -> cons_wait s env = Ok false s env.
Proof.
  intros Hr. destruct (ring_ready _ _ _ _ Hr) as [Hne _]. unfold cons_wait, mloop_env. simpl. unfold get_input. mrun.
  by rewrite Hne.
Qed.

Lemma cons_loop_run n : forall target Q E s env bs Q',
  ring s.(input) Q E -> Z.of_nat n <= target -> read_line n (Z.of_nat n <? target) Q = Some (bs, Q') ->
  exists b, cons_loop n target s env = Ok (false, bs) (set_input b s) env /\ ring b Q' E.
Proof.
  induction n as [|n IH]; intros target Q E s env bs Q' Hr Ht Hline; simpl in *.
  { injection Hline as <- <-. exists (input s). split; [|done]. by destruct s. }
  destruct Q as [|c Q]; [done|]. mstep (cons_wait_ready s env c Q E Hr). unfold get_input. mrun.
  destruct (ring_ready _ _ _ _ Hr) as [_ ->]. destruct (c =? 4) eqn:E4.
  - injection Hline as <- <-. unfold when. destruct (Z.of_nat (S n) <? target).
    + mrun. exists (set_in_r (u32 ((next s.(input)).(in_r) - 1)) (next s.(input))). split; [done|by apply ring_prev].
    + mrun. exists (next s.(input)). split; [done|by eapply ring_next].
  - destruct (c =? 10).
    + injection Hline as <- <-. exists (next s.(input)). split; [done|by eapply ring_next].
    + destruct (read_line n true Q) as [[bs' Q'']|] eqn:Hl; [|done]. simpl in Hline. injection Hline as <- <-.
      destruct (IH target Q E (upd_input next s) env bs' Q'') as (b & Hrun & Hrb).
      { by eapply ring_next. } { lia. } { by rewrite (proj2 (Z.ltb_lt _ _)) by lia. }
      exists b. split; [|done]. mstep Hrun. done.
Qed.

(** ** Numbers *)

(** The value a text of digits denotes. *)
Definition digit_val (c : Z) : Z := if c <? 58 then c - 48 else c - 55.
Definition num (base : Z) (l : list Z) : Z := foldl (fun a c => a * base + digit_val c) 0 l.

Lemma digit_range d : 0 <= d < 16 -> digit_val (digit d) = d /\ 48 <= digit d < 71.
Proof.
  intros Hd. unfold digit, digit_val. destruct (Z.ltb_spec d 10).
  - rewrite (proj2 (Z.ltb_lt _ _)) by lia. lia.
  - rewrite (proj2 (Z.ltb_ge _ _)) by lia. lia.
Qed.

Lemma digits_spec base fuel : forall x, 10 <= base <= 16 -> 0 <= x < base ^ Z.of_nat fuel -> (0 < fuel)%nat ->
  num base (rev (digits fuel x base)) = x /\ Forall (fun c => 48 <= c < 71) (digits fuel x base) /\
  (length (digits fuel x base) <= fuel)%nat /\
  (0 < x -> exists c l, rev (digits fuel x base) = c :: l /\ digit_val c <> 0).
Proof.
  induction fuel as [|fuel IH]; intros x Hb Hx Hf; [lia|]. cbn [digits].
  pose proof (Z.mod_pos_bound x base ltac:(lia)) as Hm. pose proof (Z.div_mod x base ltac:(lia)) as Hdm.
  destruct (digit_range (x mod base) ltac:(lia)) as [Hdv Hdr].
  destruct (Z.eqb_spec (x / base) 0) as [E|E].
  - simpl. unfold num. simpl. rewrite Hdv. split_and?; [lia|by constructor|lia|].
    intros Hpos. eexists _, []. split; [done|]. lia.
  - assert (0 <= x / base) by (apply Z.div_pos; lia).
    destruct fuel as [|fuel]; [exfalso; apply E; apply Z.div_small; change (base ^ Z.of_nat 1) with (base ^ 1) in Hx; rewrite Z.pow_1_r in Hx; lia|].
    destruct (IH (x / base)) as (Hn & Hall & Hl & Hlead); [done| |lia|].
    { split; [done|]. apply Z.div_lt_upper_bound; [lia|]. rewrite <- Z.pow_succ_r, <- Nat2Z.inj_succ by lia. lia. }
    cbn [rev]. split_and?.
    + unfold num in *. rewrite foldl_app, Hn. simpl. rewrite Hdv. lia.
    + by constructor.
    + simpl in *. lia.
    + intros _. destruct Hlead as (c & l & Hr & Hc); [lia|]. rewrite Hr. by eexists c, _.
Qed.

Lemma digits_length base fuel k : forall x, 10 <= base <= 16 -> 0 <= x < 10 ^ Z.of_nat k -> (0 < k)%nat ->
  (length (digits fuel x base) <= k)%nat.
Proof.
  revert k. induction fuel as [|fuel IH]; intros k x Hb Hx Hk; cbn [digits]; [simpl; lia|].
  destruct (Z.eqb_spec (x / base) 0) as [E|E]; [simpl; lia|].
  destruct k as [|[|k]]; [lia| |].
  - exfalso. apply E. apply Z.div_small. simpl in Hx. lia.
  - simpl. apply le_n_S. apply IH; [done| |lia]. split; [apply Z.div_pos; lia|].
    apply Z.div_lt_upper_bound; [lia|]. rewrite (Nat2Z.inj_succ (S k)), Z.pow_succ_r in Hx by lia. nia.
Qed.

Lemma consputc_list l : forall s env, Forall (fun c => 0 <= c < 256) l ->
  mfor l consputc s env = Ok tt (set_uart_tx (s.(uart_tx) ++ l) s) env.
Proof.
  induction l as [|c l IH]; intros s env Hl.
  { simpl. rewrite app_nil_r. by destruct s. }
  apply Forall_cons in Hl as [Hc Hl]. cbn [mfor]. unfold consputc at 1, uartputc.
  rewrite (proj2 (Z.eqb_neq c BACKSPACE)) by (unfold BACKSPACE; lia). mrun. rewrite IH by done. simpl.
  unfold u8. rewrite Z.mod_small by lia. by rewrite <- app_assoc.
Qed.

(** ** Theorems *)

(** C35: typing. The interrupt handler implements the line editor: whatever is
    typed (except the key for the process listing), the ring afterwards holds
    the committed bytes and the edited line that the specification [edit]
    gives, so ^U clears exactly the current line, a full ring drops input, and
    a newline, ^D or a full ring commits the line. Exactly the characters that
    [echo] gives are sent to the terminal, the processes waiting for input wake
    if some line has been committed and stay asleep otherwise, and nothing else
    changes. *)
Theorem consoleintr_edits sc cs Q E s env :
  calm s -> input_lock ∉ s.(kcpu).(held) -> ring s.(input) Q E -> 10 ∉ E ->
  Forall (fun c => 0 <= c < 256 /\ c <> 12) cs ->
  let q := foldl (fun q c => edit c q) (Q, E) cs in
  exists s', consoleintr sc cs s env = Ok tt s' env /\ cframe (echoes cs (Q, E)) (some_commit cs (Q, E)) s s' /\
    ring s'.(input) q.1 q.2 /\ 10 ∉ q.2.
Proof. apply consoleintr_run. Qed.

(** Reading the console. When the committed bytes hold what the reader
    waits for, the loop of [consoleread] returns a line at most, with its
    newline, stops in front of an end-of-file mark unless it comes first, and
    takes exactly those bytes from the ring. *)
Theorem cons_loop_reads n Q E s env bs Q' :
  ring s.(input) Q E -> read_line n false Q = Some (bs, Q') ->
  exists s', cons_loop n (Z.of_nat n) s env = Ok (false, bs) s' env /\ s' = set_input s'.(input) s /\ ring s'.(input) Q' E.
Proof.
  intros Hr Hl. destruct (cons_loop_run n (Z.of_nat n) Q E s env bs Q' Hr) as (b & Hrun & Hrb); [lia| |].
  { by rewrite Z.ltb_irrefl. }
  by exists (set_input b s).
Qed.

(** Typing "hi", erasing the last letter, then "o", return and "x". *)
Definition demo_keys : list Z := [104; 105; 8; 111; 13; 120].
Definition demo_console : kstate := kstate0 [].

Lemma demo_ring : ring demo_console.(input) [] [].
Proof. unfold ring. split_and?; try done. vm_compute. lia. Qed.

Lemma consoleintr_edits_witness :
  exists s', consoleintr (fun _ => ret tt) demo_keys demo_console [] = Ok tt s' [] /\
    cframe [104; 105; 8; 32; 8; 111; 10; 120] true demo_console s' /\ ring s'.(input) [104; 111; 10] [120] /\ 10 ∉ [120].
Proof.
  apply (consoleintr_edits (fun _ => ret tt) demo_keys [] [] demo_console []).
  - split_and!; try done.
  - simpl. set_solver.
  - exact demo_ring.
  - set_solver.
  - repeat constructor; lia.
Defined.

Definition demo_typed : kstate :=
  match consoleintr (fun _ => ret tt) demo_keys demo_console [] with Ok _ s _ => s | Err _ s _ => s end.

Lemma demo_typed_ring : ring demo_typed.(input) [104; 111; 10] [120].
Proof.
  unfold ring. split_and?; try (vm_compute; done); [change (4 <= 512)%nat; lia|]. intros i x Hi.
  do 4 (destruct i as [|i]; [injection Hi as <-; vm_compute; done|]). done.
Qed.

Lemma cons_loop_reads_witness :
  exists s', cons_loop 10 10 demo_typed [] = Ok (false, [104; 111; 10]) s' [] /\
    s' = set_input s'.(input) demo_typed /\ ring s'.(input) [] [120].
Proof. apply (cons_loop_reads 10 [104; 111; 10] [120] demo_typed []); [exact demo_typed_ring|done]. Defined.

(** Printing numbers. In base 10 and 16, [printint] sends the digits of
    the number, highest first, without leading zeros, behind a minus sign when
    the number is printed as signed and negative; read back they give the
    number, and its buffer of 16 characters is large enough. *)
Theorem printint_value xx base sign s env :
  10 <= base <= 16 -> - 2 ^ 31 <= xx < 2 ^ 31 ->
  let neg := sign && (xx <? 0) in
  exists ds, printint xx base sign s env = Ok tt (set_uart_tx (s.(uart_tx) ++ (if neg then [45] else []) ++ ds) s) env /\
    num base ds = (if neg then - xx else u32 xx) /\
    (num base ds <> 0 -> exists c l, ds = c :: l /\ digit_val c <> 0) /\
    (length (printint_buf xx base sign) <= 16)%nat.
Proof.
  intros Hb Hx neg. set (x := if neg then u32 (- xx) else u32 xx).
  assert (Hx0 : 0 <= x < 2 ^ 32) by (unfold x; destruct neg; apply u32_range).
  assert (Hxv : x = if neg then - xx else u32 xx).
  { unfold x, neg, u32. destruct sign; simpl; [|done]. destruct (Z.ltb_spec xx 0); [|done]. apply Z.mod_small. lia. }
  destruct (digits_spec base 32 x Hb) as (Hn & Hall & _ & Hlead); [|lia|].
  { split; [lia|]. apply Z.lt_le_trans with (10 ^ 32); [lia|]. apply Z.pow_le_mono_l. lia. }
  assert (Hbuf : printint_buf xx base sign = digits 32 x base ++ if neg then [45] else []) by done.
  exists (rev (digits 32 x base)). split_and?.
  - unfold printint. rewrite Hbuf, rev_app_distr. rewrite consputc_list; [by destruct neg|].
    apply Forall_app. split; [destruct neg; repeat constructor; lia|].
    apply Forall_rev. eapply Forall_impl; [exact Hall|]. simpl. lia.
  - by rewrite Hn.
  - rewrite Hn. intros Hne. apply Hlead. lia.
  - rewrite Hbuf, length_app. pose proof (digits_length base 32 10 x Hb ltac:(change (10 ^ Z.of_nat 10) with 10000000000; lia) ltac:(lia)).
    assert (length (if neg then [45%Z] else []) <= 1)%nat by (by destruct neg; [apply le_n|apply le_0_n]).
    lia.
Qed.

Lemma printint_value_witness :
  exists ds, printint (-305) 10 true demo_console [] = Ok tt (set_uart_tx ([] ++ [45] ++ ds) demo_console) [] /\
    num 10 ds = 305 /\ (num 10 ds <> 0 -> exists c l, ds = c :: l /\ digit_val c <> 0) /\
    (length (printint_buf (-305) 10 true) <= 16)%nat.
Proof. apply (printint_value (-305) 10 true demo_console []); lia. Defined.

End ConsoleFacts.
