(* ===== verification/SyscallFacts.v ===== *)
(** The argument checks of kernel/syscall.c. *)
From S2P Require Import Prelude Types Cstring Kalloc Vm Proc Syscall.
Import Cstring Kalloc Vm Proc Syscall.

Module SyscallFacts.

#[local] Opaque load32.

(** Process [c] runs and [v] is the word of its argument [n]. *)
Record calling (s : kstate) (c : nat) (p : proc) (n v : Z) : Prop := {
  ca_cur : s.(curproc) = Some c;
  ca_proc : s.(procs) !! c = Some p;
  ca_arg : 0 <= n <= 3;
  ca_word : load32 s.(mem) (p.(tf) + tf_r 1 + 4 * n) = v;
  ca_range : 0 <= v < 2 ^ 32
}.

Lemma curp_eq s env c p n v : calling s c p n v -> curp s env = Ok p s env.
Proof. intros [Hc Hp _ _ _]. unfold curp, cur, get_proc, bind, gets, deref, ret. by rewrite Hc, Hp. Qed.

Lemma argint_eq s env c p n v : calling s c p n v -> argint n s env = Ok (s32 v) s env.
Proof.
  intros Hc. unfold argint. rewrite (proj2 (Z.ltb_ge _ _)) by (destruct Hc; lia).
  mstep (curp_eq s env c p n v Hc). unfold load_word. mrun. by rewrite (ca_word _ _ _ _ _ Hc).
Qed.

Lemma u32_s32 v : 0 <= v < 2 ^ 32 -> u32 (s32 v) = v.
Proof.
  intros Hv. unfold u32, s32. change (2 ^ 32) with 4294967296 in *. change (2 ^ 31) with 2147483648.
  Z.to_euclidean_division_equations. lia.
Qed.

(** C34: for a process within the user half of the address space, argptr
    accepts a pointer [v] and a size exactly when both ends [v] and
    [v + size] lie in the process. For a size that is not negative that is
    the whole block; a negative size passes as long as [v + size] does not
    fall below 0. *)
Theorem argptr_checks s env c p n size v :
  calling s c p n v -> 0 <= p.(sz) <= UADDR_SZ -> - 2 ^ 31 <= size < 2 ^ 31 ->
  argptr n size s env =
    Ok (if decide (v < p.(sz) /\ 0 <= v + size <= p.(sz)) then Some v else None) s env.
Proof.
  intros Hc Hsz Hs. unfold argptr. mstep (argint_eq s env c p n v Hc). mstep (curp_eq s env c p n v Hc).
  pose proof (ca_range _ _ _ _ _ Hc) as Hv. rewrite u32_s32 by done. unfold UADDR_SZ in Hsz.
  change (2 ^ 31) with 2147483648 in Hs. change (2 ^ 32) with 4294967296 in Hv.
  destruct (Z.leb_spec p.(sz) v); simpl; [by rewrite decide_False by lia|].
  destruct (Z.ltb_spec p.(sz) (u32 (v + size))) as [Hlt|Hge]; unfold u32 in *; change (2 ^ 32) with 4294967296 in *;
    case_decide as Hd; try done; exfalso; Z.to_euclidean_division_equations; lia.
Qed.

(** A process of 8192 bytes whose argument 1 is the address 4096. *)
Definition demo_call : kstate :=
  upd_mem (fun m => store32 m (1024 + tf_r 1 + 4) 4096)
    (set_curproc (Some 0%nat) (upd_proc 0 (fun p => set_tf 1024 (set_sz 8192 p)) (kstate0 []))).

Lemma argptr_checks_witness :
  argptr 1 4096 demo_call [] = Ok (Some 4096) demo_call [] /\
  argptr 1 4097 demo_call [] = Ok None demo_call [] /\
  argptr 1 (-1) demo_call [] = Ok (Some 4096) demo_call [].
Proof.
  assert (Hc : calling demo_call 0 (set_tf 1024 (set_sz 8192 zero_proc)) 1 4096).
  { split; [done|done|lia|by vm_compute|lia]. }
  split_and!; [apply (argptr_checks _ _ _ _ _ 4096 _ Hc)|apply (argptr_checks _ _ _ _ _ 4097 _ Hc)|
    apply (argptr_checks _ _ _ _ _ (-1) _ Hc)]; done.
Defined.

End SyscallFacts.
