(* ===== verification/User.v ===== *)
(** User programs: the system calls as an interface ([Sys], after
    include/user.h), programs as computations over their static data and the
    world that the calls act on, and what the programs rely on ([Stdio]). *)
From S2P Require Import Prelude Types Inode.
Import Inode.

(** What [fstat] stores, and the calls of include/user.h on a world [W].
    Strings are bytes without the NUL. [u_exec] gives [None] when the program
    is replaced, and the result of the call when it fails. *)
Class Sys (W : Type) := {
  u_fork : W -> Z * W;
  u_exit : W -> W;
  u_wait : W -> Z * W;
  u_pipe : W -> Z * (Z * Z) * W;
  u_read : Z -> Z -> W -> Z * list Z * W;
  u_write : Z -> list Z -> W -> Z * W;
  u_close : Z -> W -> Z * W;
  u_kill : Z -> W -> Z * W;
  u_exec : list Z -> list (list Z) -> W -> option Z * W;
  u_open : list Z -> Z -> W -> Z * W;
  u_mknod : list Z -> Z -> Z -> W -> Z * W;
  u_unlink : list Z -> W -> Z * W;
  u_fstat : Z -> W -> Z * option stat * W;
  u_link : list Z -> list Z -> W -> Z * W;
  u_mkdir : list Z -> W -> Z * W;
  u_chdir : list Z -> W -> Z * W;
  u_dup : Z -> W -> Z * W;
  u_getpid : W -> Z * W;
  u_sbrk : Z -> W -> Z * W;
  u_sleep : Z -> W -> Z * W;
  u_uptime : W -> Z * W
}.

Module User.

(** A running program: its static data and the world. *)
Record ust (G W : Type) : Type := Mkust { glob : G; wld : W }.
Arguments Mkust {G W} glob wld.
Arguments glob {G W} u.
Arguments wld {G W} u.

Definition U (G W A : Type) : Type := M (ust G W) A.

Section Calls.
Context {G W : Type}.

(** A system call, and reads and writes of the static data. *)
Definition call {A} (f : W -> A * W) : U G W A :=
  fun s env => let '(a, w) := f s.(wld) in Ok a (Mkust s.(glob) w) env.
Definition getg {A} (f : G -> A) : U G W A := gets (fun s => f s.(glob)).
Definition modg (f : G -> G) : U G W unit := modify (fun s => Mkust (f s.(glob)) s.(wld)).
Definition set_wld (w : W) (s : ust G W) : ust G W := Mkust s.(glob) w.

Lemma bind_call {A B} (f : W -> A * W) (k : A -> U G W B) s env a w :
  f s.(wld) = (a, w) -> bind (call f) k s env = k a (set_wld w s) env.
Proof. intros E. unfold bind, call. by rewrite E. Qed.

Context `{Sys W}.

(** [exit] does not return. *)
Definition exit {A} : U G W A :=
  call (fun w => (tt, u_exit w)) ;;; fail Exited.

Definition exec (path : list Z) (argv : list (list Z)) : U G W Z :=
  r <- call (u_exec path argv) ;;
  match r with Some v => ret v | None => fail Exited end.
End Calls.

(** Run the call whose result [E] gives. *)
Ltac ucall E :=
  match goal with |- context [bind (call ?f) ?k ?s ?env] => rewrite (bind_call f k s env _ _ E) end.

(** ** What input and output programs rely on *)

(** [pending w fd] are the blocks that reads from [fd] will return, one after
    the other; [written w fd] is what has been written to [fd]. A read that
    has room for the next block returns it; at the end reads return 0. *)
Class Stdio (W : Type) `{Sys W} := {
  pending : W -> Z -> list (list Z);
  written : W -> Z -> list Z;
  read_next : forall w fd n b bs, pending w fd = b :: bs ->
    0 < Z.of_nat (length b) <= n ->
    exists w', u_read fd n w = (Z.of_nat (length b), b, w') /\
      pending w' fd = bs /\ (forall fd', fd' <> fd -> pending w' fd' = pending w fd') /\
      forall fd', written w' fd' = written w fd';
  read_end : forall w fd n, pending w fd = [] -> u_read fd n w = (0, [], w);
  write_all : forall w fd bs,
    exists w', u_write fd bs w = (Z.of_nat (length bs), w') /\
      (forall fd', pending w' fd' = pending w fd') /\
      written w' fd = written w fd ++ bs /\
      forall fd', fd' <> fd -> written w' fd' = written w fd'
}.

(** ** A world to run programs in *)

(** Blocks to be read, bytes written, and the results of all other calls,
    which are answered from a list. *)
Record tty : Type := Mktty { t_in : gmap Z (list (list Z)); t_out : gmap Z (list Z); t_answers : list Z }.

Definition answer (t : tty) : Z * tty :=
  match t.(t_answers) with
  | [] => (-1, t)
  | a :: l => (a, Mktty t.(t_in) t.(t_out) l)
  end.

Definition tty_read (fd n : Z) (t : tty) : Z * list Z * tty :=
  match t.(t_in) !! fd with
  | Some (b :: bs) =>
      let got := take (Z.to_nat n) b in
      let rest := drop (Z.to_nat n) b in
      (Z.of_nat (length got), got,
       Mktty (<[fd := match rest with [] => bs | _ => rest :: bs end]> t.(t_in)) t.(t_out) t.(t_answers))
  | _ => (0, [], t)
  end.

Definition tty_write (fd : Z) (bs : list Z) (t : tty) : Z * tty :=
  (Z.of_nat (length bs),
   Mktty t.(t_in) (<[fd := default [] (t.(t_out) !! fd) ++ bs]> t.(t_out)) t.(t_answers)).

#[global] Instance tty_sys : Sys tty := {|
  u_fork := answer; u_exit := fun t => t; u_wait := answer;
  u_pipe := fun t => let '(r, t') := answer t in (r, (3, 4), t');
  u_read := tty_read; u_write := tty_write; u_close := fun _ => answer; u_kill := fun _ => answer;
  u_exec := fun _ _ t => let '(r, t') := answer t in (if r =? 0 then None else Some r, t');
  u_open := fun _ _ => answer; u_mknod := fun _ _ _ => answer; u_unlink := fun _ => answer;
  u_fstat := fun _ t => let '(r, t') := answer t in (r, None, t');
  u_link := fun _ _ => answer; u_mkdir := fun _ => answer; u_chdir := fun _ => answer;
  u_dup := fun _ => answer; u_getpid := answer; u_sbrk := fun _ => answer;
  u_sleep := fun _ => answer; u_uptime := answer
|}.

Lemma tty_read_next w fd n b bs :
  default [] (w.(t_in) !! fd) = b :: bs -> 0 < Z.of_nat (length b) <= n ->
  exists w', tty_read fd n w = (Z.of_nat (length b), b, w') /\
    default [] (w'.(t_in) !! fd) = bs /\
    (forall fd', fd' <> fd -> default [] (w'.(t_in) !! fd') = default [] (w.(t_in) !! fd')) /\
    forall fd', default [] (w'.(t_out) !! fd') = default [] (w.(t_out) !! fd').
Proof.
  intros E Hn. unfold tty_read. destruct (t_in w !! fd) as [[|b' bs']|]; simplify_eq/=.
  rewrite take_ge, drop_ge by lia. eexists. split; [done|]. simpl.
  rewrite lookup_insert_eq. split_and!; [done| |done]. intros fd' Hne. by rewrite lookup_insert_ne.
Qed.

Lemma tty_read_end w fd n : default [] (w.(t_in) !! fd) = [] -> tty_read fd n w = (0, [], w).
Proof. unfold tty_read. by destruct (t_in w !! fd) as [[|b bs]|]. Qed.

Lemma tty_write_all w fd bs :
  exists w', tty_write fd bs w = (Z.of_nat (length bs), w') /\
    (forall fd', default [] (w'.(t_in) !! fd') = default [] (w.(t_in) !! fd')) /\
    default [] (w'.(t_out) !! fd) = default [] (w.(t_out) !! fd) ++ bs /\
    forall fd', fd' <> fd -> default [] (w'.(t_out) !! fd') = default [] (w.(t_out) !! fd').
Proof.
  eexists. split; [done|]. simpl. split_and!; [done|by rewrite lookup_insert_eq|].
  intros fd' Hne. by rewrite lookup_insert_ne.
Qed.

#[global] Instance tty_stdio : Stdio tty := {|
  pending := fun t fd => default [] (t.(t_in) !! fd);
  written := fun t fd => default [] (t.(t_out) !! fd);
  read_next := tty_read_next; read_end := tty_read_end; write_all := tty_write_all
|}.

End User.
