(* ===== verification/Ulib.v ===== *)
(** The user library (ulib/ulib.c, ulib/printf.c). The string routines work
    on the byte memory of [Cstring]; pointers are addresses. Where a program's
    strings are lists of bytes without the NUL, [strchr_in] is strchr and the
    end of the list is the NUL. *)
From S2P Require Import Prelude Types Cstring Inode Console Fs User.
Import Cstring Inode Console Fs User.

Module Ulib.

(** ** Strings in memory *)

(* the copying loop up to the NUL: None if no NUL is met within [fuel] bytes *)
Fixpoint strcpy (fuel : nat) (s t : Z) (m : memory) : option memory :=
  match fuel with
  | O => None
  | S f =>
      let c := m t in
      let m' := store8 m s c in
      if c =? 0 then Some m' else strcpy f (s + 1) (t + 1) m'
  end.

(* while the strings agree and do not end *)
Fixpoint strcmp (fuel : nat) (p q : Z) (m : memory) : option Z :=
  match fuel with
  | O => None
  | S f =>
      if negb (m p =? 0) && (m p =? m q) then strcmp f (p + 1) (q + 1) m
      else Some (u8 (m p) - u8 (m q))
  end.

(* for (n = 0; s[n]; n++) *)
Fixpoint strlen_loop (fuel : nat) (n s : Z) (m : memory) : option Z :=
  match fuel with
  | O => None
  | S f => if negb (m (s + n) =? 0) then strlen_loop f (n + 1) s m else Some n
  end.
Definition strlen (fuel : nat) (s : Z) (m : memory) : option Z := u32 <$> strlen_loop fuel 0 s m.

Definition memset (dst v n : Z) (m : memory) : memory :=
  let c := Z.land v 255 in
  let val := u32 (Z.lor (Z.lor (Z.lor (Z.shiftl c 24) (Z.shiftl c 16)) (Z.shiftl c 8)) c) in
  let '(n1, p1, m1) := set_head (Z.to_nat (u32 n)) dst c m in
  let '(n2, p2, m2) := set_words n1 p1 val m1 in
  set_tail n2 p2 c m2.

(* the address of [c], 0 if the string ends first *)
Fixpoint strchr (fuel : nat) (s c : Z) (m : memory) : option Z :=
  match fuel with
  | O => None
  | S f =>
      if m s =? 0 then Some 0
      else if m s =? c then Some s
      else strchr f (s + 1) c m
  end.

(* n bytes, upwards *)
Definition memmove (vdst vsrc n : Z) (m : memory) : memory :=
  copy_up (Z.to_nat n) vdst vsrc m.

(** ** Strings as lists *)

(** strchr, as the offset of the character. *)
Fixpoint strchr_in (s : list Z) (c : Z) : option nat :=
  match s with
  | [] => None
  | d :: s' => if d =? c then Some O else S <$> strchr_in s' c
  end.

(* as long as there are digits *)
Fixpoint atoi_loop (n : Z) (s : list Z) : Z :=
  match s with
  | c :: s' => if (48 <=? c) && (c <=? 57) then atoi_loop (s32 (n * 10 + c - 48)) s' else n
  | [] => n
  end.
Definition atoi (s : list Z) : Z := atoi_loop 0 s.

Section Io.
Context {G W : Type} `{Sys W}.

(* for (i=0; i+1 < max; ): what is stored at buf, before the NUL *)
Fixpoint gets_loop (n : nat) : U G W (list Z) :=
  match n with
  | O => ret []
  | S n' =>
      r <- call (u_read 0 1) ;;
      if r.1 <? 1 then ret [] else
      let c := byte_at r.2 in
      if (c =? 10) || (c =? 13) then ret [c] else
      l <- gets_loop n' ;;
      ret (c :: l)
  end.
Definition gets (max : Z) : U G W (list Z) := gets_loop (Z.to_nat (max - 1)).

Definition stat (n : list Z) : U G W (Z * option stat) :=
  fd <- call (u_open n O_RDONLY) ;;
  if fd <? 0 then ret (-1, None) else
  r <- call (u_fstat fd) ;;
  call (u_close fd) ;;;
  ret r.

(** ** printf *)

Definition putc (fd c : Z) : U G W unit := call (u_write fd [u8 c]) ;;; ret tt.

Definition digit_upper (d : Z) : Z := if d <? 10 then 48 + d else 55 + d.

(* do ... while ((x /= base) != 0): buf, lowest digit first *)
Fixpoint digits_upper (fuel : nat) (x base : Z) : list Z :=
  match fuel with
  | O => []
  | S f =>
      digit_upper (x mod base) ::
      (if x / base =? 0 then [] else digits_upper f (x / base) base)
  end.

Definition printint (fd xx base : Z) (sgn : bool) : U G W unit :=
  let neg := sgn && (xx <? 0) in
  let x := if neg then u32 (- xx) else u32 xx in
  let buf := digits_upper 32 x base ++ (if neg then [45] else []) in
  mfor (rev buf) (putc fd).

(** [state] tells whether the character before was a percent sign. *)
Fixpoint printf_loop (fd : Z) (fmt : list Z) (state : bool) (ap : list parg) : U G W unit :=
  match fmt with
  | [] => ret tt
  | c :: fmt' =>
      if negb state then
        if c =? 37 then printf_loop fd fmt' true ap
        else putc fd c ;;; printf_loop fd fmt' false ap
      else if c =? 100 then
        match ap with
        | PInt v :: ap' => printint fd (s32 v) 10 true ;;; printf_loop fd fmt' false ap'
        | _ => undefined "ap"
        end
      else if (c =? 120) || (c =? 112) then
        match ap with
        | PInt v :: ap' => printint fd (s32 v) 16 false ;;; printf_loop fd fmt' false ap'
        | _ => undefined "ap"
        end
      else if c =? 115 then
        match ap with
        | PStr s :: ap' =>
            mfor (default (chars "(null)") s) (putc fd) ;;; printf_loop fd fmt' false ap'
        | _ => undefined "ap"
        end
      else if c =? 99 then
        match ap with
        | PInt v :: ap' => putc fd v ;;; printf_loop fd fmt' false ap'
        | _ => undefined "ap"
        end
      else if c =? 37 then putc fd c ;;; printf_loop fd fmt' false ap
      else putc fd 37 ;;; putc fd c ;;; printf_loop fd fmt' false ap
  end.

Definition printf (fd : Z) (fmt : list Z) (ap : list parg) : U G W unit :=
  printf_loop fd fmt false ap.
End Io.

End Ulib.
