(* ===== verification/Grep.v ===== *)
(** grep (user/grep.c): the matcher of Kernighan and Pike and the loop that
    splits the input into lines. Patterns and lines are C strings: lists of
    bytes whose end is the NUL. *)
From S2P Require Import Prelude Types Cstring Inode Console Fs User Ulib.
Import Cstring Inode Console Fs User Ulib.

Module Grep.

(** ** The matcher *)

(* do ... while ( *text != 0 && ( *text++ == c || c == '.')), with matchhere(re, .) as [here] *)
Fixpoint matchstar_with (here : list Z -> bool) (c : Z) (text : list Z) : bool :=
  here text ||
  match text with
  | [] => false
  | d :: text' => if (d =? c) || (c =? 46) then matchstar_with here c text' else false
  end.

Fixpoint matchhere (re text : list Z) : bool :=
  match re with
  | [] => true
  | c :: re' =>
      match re' with
      | d :: re'' =>
          if d =? 42 then matchstar_with (matchhere re'') c text
          else
            match text with
            | [] => false
            | x :: text' => if (c =? 46) || (c =? x) then matchhere re' text' else false
            end
      | [] =>
          if c =? 36 then match text with [] => true | _ => false end
          else
            match text with
            | [] => false
            | x :: text' => if (c =? 46) || (c =? x) then matchhere re' text' else false
            end
      end
  end.

Definition matchstar (c : Z) (re text : list Z) : bool := matchstar_with (matchhere re) c text.

(* do { ... } while ( *text++ != 0) *)
Fixpoint match_loop (re text : list Z) : bool :=
  matchhere re text || match text with [] => false | _ :: text' => match_loop re text' end.

(** The function [match] of the source. *)
Definition match_ (re text : list Z) : bool :=
  match re with
  | c :: re' => if c =? 94 then matchhere re' text else match_loop re text
  | [] => match_loop re text
  end.

(** ** The loop over the input *)

Definition BUFSZ : Z := 1024.

(** strchr(p, newline) in the array: None if it runs off the end. *)
Fixpoint find_nl (l : list Z) : option (option nat) :=
  match l with
  | [] => None
  | c :: l' =>
      if c =? 0 then Some None
      else if c =? 10 then Some (Some O)
      else match find_nl l' with Some o => Some (S <$> o) | None => None end
  end.

Section Loop.
Context {W : Type} `{Sys W}.

(* while ((q = strchr(p, newline)) != 0): the final p *)
Fixpoint grep_lines (fuel : nat) (pattern : list Z) (p : nat) : U (list Z) W nat :=
  match fuel with
  | O => fail NoFuel
  | S f =>
      buf <- getg (fun b => b) ;;
      o <- deref "grep: strchr" (find_nl (drop p buf)) ;;
      match o with
      | None => ret p
      | Some k =>
          let q := (p + k)%nat in
          modg (fun b => <[q := 0]> b) ;;;
          buf <- getg (fun b => b) ;;
          when (match_ pattern (upto_nul (drop p buf)))
            (modg (fun b => <[q := 10]> b) ;;;
             buf <- getg (fun b => b) ;;
             call (u_write 1 (take (k + 1) (drop p buf))) ;;; ret tt) ;;;
          grep_lines f pattern (q + 1)
      end
  end.

(* while ((n = read(fd, buf+m, sizeof(buf)-m)) > 0) *)
Fixpoint grep_loop (fuel : nat) (pattern : list Z) (fd m : Z) : U (list Z) W unit :=
  match fuel with
  | O => fail NoFuel
  | S f =>
      r <- call (u_read fd (BUFSZ - m)) ;;
      let n := r.1 in
      if 0 <? n then
        if m <? 0 then undefined "grep: buf+m" else
        modg (splice (Z.to_nat m) r.2) ;;;
        let m := m + n in
        p <- grep_lines (S (Z.to_nat BUFSZ)) pattern 0 ;;
        let m := if (p =? 0)%nat then 0 else m in
        if 0 <? m then
          let m' := m - Z.of_nat p in
          modg (fun b => splice 0 (take (Z.to_nat m') (drop p b)) b) ;;;
          grep_loop f pattern fd m'
        else grep_loop f pattern fd m
      else ret tt
  end.

(** [fuel] bounds the number of reads. *)
Definition grep (fuel : nat) (pattern : list Z) (fd : Z) : U (list Z) W unit :=
  grep_loop fuel pattern fd 0.

Definition main (fuel : nat) (argv : list (list Z)) : U (list Z) W unit :=
  match argv with
  | _ :: pattern :: files =>
      match files with
      | [] => grep fuel pattern 0 ;;; exit
      | _ =>
          mfor files (fun file =>
            fd <- call (u_open file 0) ;;
            if fd <? 0 then
              printf 1 (chars "grep: cannot open %s" ++ newline) [PStr (Some file)] ;;; exit
            else
              grep fuel pattern fd ;;;
              call (u_close fd) ;;; ret tt) ;;;
          exit
      end
  | _ => printf 2 (chars "usage: grep pattern [file ...]" ++ newline) [] ;;; exit
  end.
End Loop.

(** ** What a pattern means *)

(** A pattern is an optional anchor, a list of items and an optional anchor;
    an item is a character or a dot, once or any number of times. *)
Inductive item : Type := One (c : Z) | Many (c : Z).

Fixpoint items (re : list Z) : list item * bool :=
  match re with
  | [] => ([], false)
  | c :: re' =>
      match re' with
      | d :: re'' =>
          if d =? 42 then let '(l, e) := items re'' in (Many c :: l, e)
          else let '(l, e) := items re' in (One c :: l, e)
      | [] => if c =? 36 then ([], true) else ([One c], false)
      end
  end.

Definition admits (c x : Z) : Prop := c = 46 \/ x = c.

(** The strings that a list of items describes. *)
Fixpoint lang (l : list item) (u : list Z) : Prop :=
  match l with
  | [] => u = []
  | One c :: l' => exists x u', u = x :: u' /\ admits c x /\ lang l' u'
  | Many c :: l' => exists u1 u2, u = u1 ++ u2 /\ Forall (admits c) u1 /\ lang l' u2
  end.

(** [text] begins with a string of [re], which is all of it if [re] ends in
    a dollar sign. *)
Definition begins (re text : list Z) : Prop :=
  exists u v, text = u ++ v /\ lang (items re).1 u /\ ((items re).2 = true -> v = []).

Lemma admits_test c x : (c =? 46) || (c =? x) = true <-> admits c x.
Proof. unfold admits. rewrite orb_true_iff, !Z.eqb_eq. naive_solver. Qed.

Lemma admits_star c x : (x =? c) || (c =? 46) = true <-> admits c x.
Proof. unfold admits. rewrite orb_true_iff, !Z.eqb_eq. naive_solver. Qed.

(** The loop of matchstar looks at every way to split off characters. *)
Lemma matchstar_spec here c text :
  matchstar_with here c text = true <->
  exists u v, text = u ++ v /\ Forall (admits c) u /\ here v = true.
Proof.
  induction text as [|x text IH]; simpl; rewrite orb_true_iff.
  - split.
    + intros [Hh|]; [|done]. by exists [], [].
    + intros ([|] & [|] & E & _ & Hh); [by left|done..].
  - split.
    + intros [Hh|Hs]; [by exists [], (x :: text)|].
      destruct ((x =? c) || (c =? 46)) eqn:E; [|done]. apply admits_star in E. apply IH in Hs as (u & v & -> & Hu & Hh).
      exists (x :: u), v. split_and!; [done|by constructor|done].
    + intros (u & v & E & Hu & Hh). destruct u as [|y u]; simpl in E; subst; [by left|]. injection E as -> ->.
      right. apply Forall_cons in Hu as [Hy Hu]. apply admits_star in Hy. rewrite Hy. apply IH. by exists u, v.
Qed.

(** A step over one character. *)
Lemma begins_one c re x text b :
  (exists u v, x :: text = u ++ v /\ lang (One c :: (items re).1) u /\ (b = true -> v = [])) <->
  admits c x /\ exists u v, text = u ++ v /\ lang (items re).1 u /\ (b = true -> v = []).
Proof.
  split.
  - intros (u & v & E & (y & u' & -> & Hy & Hl) & Hv). simplify_eq/=. split; [done|]. by exists u', v.
  - intros (Hx & u & v & -> & Hl & Hv). exists (x :: u), v. split_and!; [done| |done]. by exists x, u.
Qed.

(** Unfolding at two characters of the pattern. *)
Lemma matchhere_cons c d re text :
  matchhere (c :: d :: re) text =
    if d =? 42 then matchstar c re text
    else match text with
         | [] => false
         | x :: text' => if (c =? 46) || (c =? x) then matchhere (d :: re) text' else false
         end.
Proof. done. Qed.

Lemma items_cons c d re :
  items (c :: d :: re) =
    if d =? 42 then let '(l, e) := items re in (Many c :: l, e)
    else let '(l, e) := items (d :: re) in (One c :: l, e).
Proof. done. Qed.

Lemma matchhere_spec_n n : forall re text, (length re <= n)%nat ->
  (matchhere re text = true <-> begins re text).
Proof.
  induction n as [|n IH]; intros re text Hn; unfold begins.
  - destruct re; [|simpl in Hn; lia]. simpl. split; [|done]. intros _. by exists [], text.
  - destruct re as [|c re]; [simpl; split; [|done]; intros _; by exists [], text|].
    assert (Hone : forall b, b = (items re).2 ->
      (match text with [] => false | x :: text' => if (c =? 46) || (c =? x) then matchhere re text' else false end = true <->
       exists u v, text = u ++ v /\ lang (One c :: (items re).1) u /\ (b = true -> v = []))).
    { intros b ->. destruct text as [|x text].
      - split; [done|]. intros (u & v & E & (y & u' & -> & _) & _). done.
      - rewrite begins_one, <- admits_test. change (exists u v, _) with (begins re text).
        rewrite <- (IH re text) by (simpl in Hn; lia). destruct ((c =? 46) || (c =? x)); naive_solver. }
    destruct re as [|d re].
    + cbn [matchhere items]. destruct (c =? 36) eqn:E; [|by apply (Hone false)]. simpl. destruct text as [|x text].
      * split; [|done]. intros _. by exists [], [].
      * split; [done|]. intros (u & v & Eq & -> & Hv). specialize (Hv eq_refl). by subst v.
    + rewrite matchhere_cons, items_cons.
      destruct (d =? 42); [|destruct (items (d :: re)) as [l e]; by apply (Hone e)].
      unfold matchstar. rewrite matchstar_spec. destruct (items re) as [l e] eqn:E. simpl. split.
      * intros (u & v & -> & Hu & Hh). apply IH in Hh as (u' & v' & -> & Hl & Hv'); [|simpl in Hn; lia]. rewrite E in *.
        exists (u ++ u'), v'. split_and!; [by rewrite <- app_assoc| |done]. by exists u, u'.
      * intros (u & v & -> & (u1 & u2 & -> & Hu1 & Hl) & Hv). exists u1, (u2 ++ v). split_and!; [by rewrite <- app_assoc|done|].
        apply IH; [simpl in Hn; lia|]. exists u2, v. by rewrite E.
Qed.

Lemma matchhere_spec re text : matchhere re text = true <-> begins re text.
Proof. by apply (matchhere_spec_n (length re)). Qed.

Lemma match_loop_spec re text : match_loop re text = true <-> exists w t, text = w ++ t /\ begins re t.
Proof.
  induction text as [|x text IH]; simpl; rewrite orb_true_iff, matchhere_spec.
  - split; [|intros ([|] & [|] & E & Hb); [by left|done..]]. intros [Hb|]; [|done]. by exists [], [].
  - rewrite IH. split.
    + intros [Hb|(w & t & -> & Hb)]; [by exists [], (x :: text)|by exists (x :: w), t].
    + intros (w & t & E & Hb). destruct w as [|y w]; simplify_eq/=; [by left|]. right. by exists w, t.
Qed.

(** C40: the matcher decides the language of the pattern: [match_ re text]
    holds exactly when some part of the text is described by the pattern,
    where the part starts at the beginning if the pattern starts with a caret
    and reaches to the end if it ends with a dollar sign. *)
Theorem match_language re text :
  let anchored := match re with c :: _ => c =? 94 | [] => false end in
  let body := if anchored then tail re else re in
  match_ re text = true <->
  exists w u v, text = w ++ u ++ v /\ lang (items body).1 u /\
    (anchored = true -> w = []) /\ ((items body).2 = true -> v = []).
Proof.
  unfold match_. destruct re as [|c re]; simpl.
  - rewrite match_loop_spec. split.
    + intros (w & t & -> & u & v & -> & Hl & Hv). by exists w, u, v.
    + intros (w & u & v & -> & Hl & _ & Hv). exists w, (u ++ v). split; [done|]. by exists u, v.
  - destruct (c =? 94); simpl tail.
    + rewrite matchhere_spec. split.
      * intros (u & v & -> & Hl & Hv). by exists [], u, v.
      * intros (w & u & v & -> & Hl & Hw & Hv). rewrite (Hw eq_refl). by exists u, v.
    + rewrite match_loop_spec. split.
      * intros (w & t & -> & u & v & -> & Hl & Hv). by exists w, u, v.
      * intros (w & u & v & -> & Hl & _ & Hv). exists w, (u ++ v). split; [done|]. by exists u, v.
Qed.

(** ** What grep prints *)

(** The complete lines of a text, without their newlines, and the rest. *)
Fixpoint split_lines (l : list Z) : list (list Z) * list Z :=
  match l with
  | [] => ([], [])
  | c :: l' =>
      let '(ls, r) := split_lines l' in
      if c =? 10 then ([] :: ls, r)
      else match ls with
           | [] => ([], c :: r)
           | ln :: ls' => ((c :: ln) :: ls', r)
           end
  end.

Definition unlines (ls : list (list Z)) : list Z := mjoin ((fun ln => ln ++ [10]) <$> ls).
Definition plain (l : list Z) : Prop := Forall (fun c => c <> 0 /\ c <> 10) l.

Lemma unlines_cons ln ls : unlines (ln :: ls) = ln ++ 10 :: unlines ls.
Proof. unfold unlines. simpl. by rewrite <- app_assoc. Qed.

Lemma split_lines_spec l : Forall (fun c => c <> 0) l ->
  let '(ls, r) := split_lines l in l = unlines ls ++ r /\ Forall plain ls /\ plain r.
Proof.
  induction l as [|c l IH]; intros Hl; [by repeat constructor|].
  apply Forall_cons in Hl as [Hc Hl]. specialize (IH Hl). simpl.
  destruct (split_lines l) as [ls r]. destruct IH as (-> & Hls & Hr).
  destruct (Z.eqb_spec c 10) as [->|Hne].
  - split_and!; [done| |done]. constructor; [by constructor|done].
  - destruct ls as [|ln ls]; split_and!; try done.
    + by constructor.
    + apply Forall_cons in Hls as [Hln Hls]. constructor; [by constructor|done].
Qed.

(** The lines that match, with their newlines. *)
Definition matching (pattern : list Z) (ls : list (list Z)) : list Z :=
  unlines (filter (fun ln => match_ pattern ln = true) ls).

Lemma find_nl_line ln z : plain ln -> find_nl (ln ++ 10 :: z) = Some (Some (length ln)).
Proof.
  induction ln as [|c ln IH]; intros Hp; [done|]. apply Forall_cons in Hp as [[H0 H1] Hp]. simpl.
  rewrite (proj2 (Z.eqb_neq c 0)), (proj2 (Z.eqb_neq c 10)), IH by done. done.
Qed.

Lemma find_nl_none r z : plain r -> find_nl (r ++ 0 :: z) = Some None.
Proof.
  induction r as [|c r IH]; intros Hp; [done|]. apply Forall_cons in Hp as [[H0 H1] Hp]. simpl.
  rewrite (proj2 (Z.eqb_neq c 0)), (proj2 (Z.eqb_neq c 10)), IH by done. done.
Qed.

Lemma upto_nul_plain ln z : plain ln -> upto_nul (ln ++ 0 :: z) = ln.
Proof.
  induction ln as [|c ln IH]; intros Hp; [done|]. apply Forall_cons in Hp as [[H0 H1] Hp]. simpl.
  by rewrite (proj2 (Z.eqb_neq c 0)), IH by done.
Qed.

Lemma insert_middle {A} (l1 l2 : list A) x y n : n = length l1 -> <[n := x]> (l1 ++ y :: l2) = l1 ++ x :: l2.
Proof. intros ->. rewrite insert_app_r_alt by lia. by rewrite Nat.sub_diag. Qed.

Lemma drop_middle {A} (l1 l2 : list A) n : n = length l1 -> drop n (l1 ++ l2) = l2.
Proof. intros ->. apply drop_app_length. Qed.

Section Output.
Context {W : Type} `{Stdio W}.

(** Only the output of descriptor 1 has changed, by [bs]. *)
Definition printed (w w' : W) (bs : list Z) : Prop :=
  (forall fd, pending w' fd = pending w fd) /\ written w' 1 = written w 1 ++ bs.

(** One line: the buffer keeps its length and what follows the line. *)
Lemma grep_line f pattern pre ln z w env :
  plain ln ->
  exists buf' w', length buf' = length (pre ++ ln) /\ printed w w' (matching pattern [ln]) /\
    grep_lines (S f) pattern (length pre) (Mkust (pre ++ ln ++ 10 :: z) w) env =
    grep_lines f pattern (length (buf' ++ [0])) (Mkust ((buf' ++ if match_ pattern ln then [10] else [0]) ++ z) w') env.
Proof.
  intros Hp. cbn [grep_lines]. unfold getg, modg. mrun. cbn [glob wld].
  rewrite (drop_middle pre _ _ eq_refl), find_nl_line by done. unfold deref. mrun. cbn [glob wld].
  rewrite (app_assoc pre), insert_middle by (by rewrite length_app). rewrite <- app_assoc.
  rewrite (drop_middle pre _ _ eq_refl), upto_nul_plain by done.
  exists (pre ++ ln). unfold matching. rewrite filter_cons. destruct (match_ pattern ln) eqn:E; cbn [when].
  - destruct (write_all w 1 (ln ++ [10])) as (w' & Ew & Hp' & Hw' & _). exists w'. split_and!; [done| |].
    + split; [done|]. rewrite Hw'. case_decide; [|done]. unfold unlines. simpl. by rewrite app_nil_r.
    + unfold modg, getg. mrun. cbn [glob wld]. rewrite (app_assoc pre), insert_middle by (by rewrite length_app). rewrite <- (app_assoc pre).
      rewrite (drop_middle pre _ _ eq_refl). replace (take (length ln + 1) (ln ++ 10 :: z)) with (ln ++ [10]).
      2: { change (10 :: z) with ([10] ++ z). rewrite (app_assoc ln). by rewrite take_app_length' by (rewrite length_app; simpl; lia). }
      ucall Ew. mrun. f_equal; [rewrite !length_app; simpl; lia|].
      unfold set_wld. simpl. by rewrite <- !app_assoc.
  - exists w. split_and!; [done| |].
    + split; [done|]. case_decide; [congruence|]. unfold unlines. simpl. by rewrite app_nil_r.
    + mrun. f_equal; [rewrite !length_app; simpl; lia|]. by rewrite <- !app_assoc.
Qed.

Lemma matching_cons pattern ln ls : matching pattern (ln :: ls) = matching pattern [ln] ++ matching pattern ls.
Proof.
  unfold matching. rewrite !filter_cons. case_decide; [|done]. unfold unlines. simpl. by rewrite app_nil_r.
Qed.

(** All lines of the buffer. *)
Lemma grep_lines_run pattern r z env ls : Forall plain ls -> plain r -> forall f pre w, (length ls < f)%nat ->
  exists buf' w', length buf' = length (pre ++ unlines ls) /\ printed w w' (matching pattern ls) /\
    grep_lines f pattern (length pre) (Mkust (pre ++ unlines ls ++ r ++ 0 :: z) w) env =
    Ok (length buf') (Mkust (buf' ++ r ++ 0 :: z) w') env.
Proof.
  intros Hls Hr. induction ls as [|ln ls IH]; intros f pre w Hf.
  - destruct f as [|f]; [simpl in Hf; lia|]. exists pre, w. split_and!; [by rewrite app_nil_r| |].
    + split; [done|]. by rewrite app_nil_r.
    + cbn [grep_lines unlines]. unfold getg. mrun. cbn [glob]. simpl. rewrite drop_app_length, find_nl_none by done. done.
  - apply Forall_cons in Hls as [Hln Hls]. destruct f as [|f]; [simpl in Hf; lia|].
    replace (unlines (ln :: ls) ++ r ++ 0 :: z) with (ln ++ 10 :: (unlines ls ++ r ++ 0 :: z)) by (by rewrite unlines_cons, <- app_assoc).
    destruct (grep_line f pattern pre ln (unlines ls ++ r ++ 0 :: z) w env Hln) as (b1 & w1 & L1 & [P1 W1] & ->).
    replace (length (b1 ++ [0])) with (length (b1 ++ if match_ pattern ln then [10] else [0])) by (rewrite !length_app; by destruct (match_ pattern ln)).
    destruct (IH Hls f (b1 ++ if match_ pattern ln then [10] else [0]) w1) as (b2 & w2 & L2 & [P2 W2] & ->); [simpl in Hf; lia|].
    exists b2, w2. split_and!; [|split|done].
    + rewrite L2. rewrite unlines_cons, !length_app, L1, !length_app. simpl. destruct (match_ pattern ln); simpl; lia.
    + intros fd. by rewrite P2.
    + by rewrite W2, W1, <- app_assoc, (matching_cons pattern ln ls).
Qed.

Lemma length_unlines ls : (length ls <= length (unlines ls))%nat.
Proof.
  induction ls as [|ln ls IH]; [done|]. rewrite unlines_cons, length_app. simpl. lia.
Qed.

(** Grep of an input that arrives in one block, is shorter than the
    buffer and has no NUL prints the complete lines that match, in order, and
    nothing else, on descriptor 1; a last line without a newline is not
    looked at. *)
Theorem grep_prints pattern fd b w env fuel :
  pending w fd = [b] -> 0 < Z.of_nat (length b) < BUFSZ -> Forall (fun c => c <> 0) b -> (2 <= fuel)%nat ->
  exists s', grep fuel pattern fd (Mkust (replicate (Z.to_nat BUFSZ) 0) w) env = Ok tt s' env /\
    written s'.(wld) 1 = written w 1 ++ matching pattern (split_lines b).1.
Proof.
  intros Hp Hb Hz Hfuel. destruct fuel as [|fuel]; [lia|]. unfold grep. cbn [grep_loop].
  destruct (read_next w fd (BUFSZ - 0) b [] Hp) as (w1 & Er & Hp1 & _ & Hw1); [lia|]. ucall Er. cbn [fst snd].
  rewrite (proj2 (Z.ltb_lt _ _)) by lia. cbn [Z.ltb Z.compare]. unfold modg. mrun. unfold set_wld. cbn [glob wld].
  pose proof (split_lines_spec b Hz) as Hs. destruct (split_lines b) as [ls r]. destruct Hs as (Eb & Hls & Hr). cbn [fst].
  set (z := replicate (Z.to_nat (BUFSZ - 1 - Z.of_nat (length b))) 0).
  assert (Esp : splice (Z.to_nat 0) b (replicate (Z.to_nat BUFSZ) 0) = [] ++ unlines ls ++ r ++ 0 :: z).
  { unfold splice. rewrite (app_assoc (unlines ls)), <- Eb. change (Z.to_nat 0) with 0%nat. rewrite Nat.add_0_l, drop_replicate.
    replace (Z.to_nat BUFSZ - length b)%nat with (S (Z.to_nat (BUFSZ - 1 - Z.of_nat (length b)))) by lia. done. }
  rewrite Esp. pose proof (length_unlines ls) as Hll. assert (Hlb : length b = (length (unlines ls) + length r)%nat) by (by rewrite Eb, length_app).
  destruct (grep_lines_run pattern r z env ls Hls Hr (S (Z.to_nat BUFSZ)) [] w1) as (b2 & w2 & L2 & [P2 W2] & Er2); [unfold BUFSZ in *; lia|].
  change (length []) with 0%nat in Er2. mstep Er2. simpl in L2.
  assert (Hend : forall s m, s.(wld) = w2 -> grep_loop fuel pattern fd m s env = Ok tt s env).
  { intros s m Es. destruct fuel as [|fuel]; [lia|]. cbn [grep_loop]. assert (Ee : u_read fd (BUFSZ - m) (wld s) = (0, [], w2)).
    { rewrite Es. apply read_end. by rewrite P2. }
    ucall Ee. simpl. unfold set_wld, ret. rewrite <- Es. by destruct s. }
  match goal with |- context [if ?c then _ else _] => destruct c end; unfold modg; mrun; rewrite Hend by done;
    (eexists; split; [reflexivity|]); simpl; by rewrite W2, Hw1.
Qed.
End Output.

(** *** Lines from an earlier read *)

Definition demo_tty (blocks : list (list Z)) : tty := Mktty {[0 := blocks]} ∅ [].

Definition demo_text : list Z := chars "xabcy" ++ [10] ++ chars "no" ++ [10].

Lemma grep_prints_witness :
  exists s', grep 2 (chars "a.c") 0 (Mkust (replicate (Z.to_nat BUFSZ) 0) (demo_tty [demo_text])) [] = Ok tt s' [] /\
    written s'.(wld) 1 = chars "xabcy" ++ [10].
Proof.
  destruct (grep_prints (chars "a.c") 0 demo_text (demo_tty [demo_text]) [] 2) as (s' & E & Hw); [done|done| |lia|].
  { repeat constructor; done. }
  exists s'. split; [exact E|]. rewrite Hw. vm_compute. reflexivity.
Defined.

(** The buffer is not terminated after a read, so the scan goes on in what an
    earlier, longer read left behind: after the line [long line] the line [x]
    makes grep print the tail of the first line again. *)
Example grep_stale_line :
  match grep 3 (chars "n") 0 (Mkust (replicate (Z.to_nat BUFSZ) 0)
          (demo_tty [chars "long line" ++ [10]; chars "x" ++ [10]])) [] with
  | Ok _ s _ => written s.(wld) 1 = chars "long line" ++ [10] ++ chars "ng line" ++ [10]
  | Err _ _ _ => False
  end.
Proof. vm_compute. reflexivity. Qed.

End Grep.
