(* ===== verification/Sh.v ===== *)
(** The shell (user/sh.c): the recursive-descent parser over the command
    line's buffer, the NUL-termination of the words in place, and the
    interpreter of parsed commands over the system calls. Pointers into the
    buffer are offsets; malloc is taken to succeed, so a node is a value of
    the inductive type [cmd]. *)
From S2P Require Import Prelude Types Cstring Inode Console Fs User Ulib.
Import Cstring Inode Console Fs User Ulib.

Module Sh.

(** Commands over a type of words: pairs of offsets while parsing, strings
    when run. *)
Inductive cmd (A : Type) : Type :=
| EXEC (argv : list A)
| REDIR (c : cmd A) (file : A) (mode fd : Z)
| PIPE (left right : cmd A)
| LIST (left right : cmd A)
| BACK (c : cmd A).
Arguments EXEC {A} argv.
Arguments REDIR {A} c file mode fd.
Arguments PIPE {A} left right.
Arguments LIST {A} left right.
Arguments BACK {A} c.

Definition MAXARGS : nat := 10.

Fixpoint cmd_map {A B} (f : A -> B) (c : cmd A) : cmd B :=
  match c with
  | EXEC argv => EXEC (f <$> argv)
  | REDIR c file mode fd => REDIR (cmd_map f c) (f file) mode fd
  | PIPE l r => PIPE (cmd_map f l) (cmd_map f r)
  | LIST l r => LIST (cmd_map f l) (cmd_map f r)
  | BACK c => BACK (cmd_map f c)
  end.

(** ** Parsing *)

Definition whitespace : list Z := [32; 9; 13; 10; 11].
(** The characters <|>&;() *)
Definition symbols : list Z := [60; 124; 62; 38; 59; 40; 41].

Definition is_in (s : list Z) (c : Z) : bool := match strchr_in s c with Some _ => true | None => false end.

(** A word: the offsets of its start and of the character behind it. *)
Definition word : Type := nat * nat.

(** The parser's state is the position [*ps]. *)
Definition P (A : Type) : Type := M nat A.

Definition get_pos : P nat := Prelude.gets (fun s => s).

Section Parser.
Context (buf : list Z) (es : nat).

Definition ch (s : nat) : Z := default 0 (buf !! s).

(* while (s < es && strchr(whitespace, *s)), for n = es - s *)
Fixpoint skip (n s : nat) : nat :=
  match n with
  | O => s
  | S n' => if is_in whitespace (ch s) then skip n' (S s) else s
  end.
Definition skip_ws (s : nat) : nat := skip (es - s) s.

(* while (s < es && !strchr(whitespace, *s) && !strchr(symbols, *s)) *)
Fixpoint scan (n s : nat) : nat :=
  match n with
  | O => s
  | S n' => if negb (is_in whitespace (ch s)) && negb (is_in symbols (ch s)) then scan n' (S s) else s
  end.

(** The token and its extent. *)
Definition gettoken : P (Z * word) :=
  s <- get_pos ;;
  let q := skip_ws s in
  let c := ch q in
  let '(tok, eq) :=
    if c =? 0 then (0, q)
    else if (c =? 124) || (c =? 40) || (c =? 41) || (c =? 59) || (c =? 38) || (c =? 60) then (c, S q)
    else if c =? 62 then if ch (S q) =? 62 then (43, S (S q)) else (c, S q)
    else (97, scan (es - q) q) in
  modify (fun _ => skip_ws eq) ;;;
  ret (tok, (q, eq)).

Definition peek (toks : list Z) : P bool :=
  modify skip_ws ;;;
  s <- get_pos ;;
  ret (negb (ch s =? 0) && is_in toks (ch s)).

(* while (peek(ps, es, "<>")) *)
Fixpoint parseredirs (fuel : nat) (c : cmd word) : P (cmd word) :=
  match fuel with
  | O => fail NoFuel
  | S f =>
      b <- peek (chars "<>") ;;
      if b then
        t <- gettoken ;;
        w <- gettoken ;;
        if negb (w.1 =? 97) then panic "missing file for redirection" else
        parseredirs f
          (if t.1 =? 60 then REDIR c w.2 O_RDONLY 0
           else if t.1 =? 62 then REDIR c w.2 (Z.lor O_WRONLY O_CREATE) 1
           else if t.1 =? 43 then REDIR c w.2 (Z.lor O_WRONLY O_CREATE) 1
           else c)
      else ret c
  end.

(** Adding an argument to the EXEC node inside the redirections around it:
    the pointer [cmd] of parseexec points at that node. *)
Fixpoint add_arg (w : word) (c : cmd word) : cmd word :=
  match c with
  | EXEC argv => EXEC (argv ++ [w])
  | REDIR c file mode fd => REDIR (add_arg w c) file mode fd
  | _ => c
  end.

(* while (!peek(ps, es, "|)&;")) *)
Fixpoint parseargs (fuel : nat) (ret_ : cmd word) (argc : nat) : P (cmd word) :=
  match fuel with
  | O => fail NoFuel
  | S f =>
      b <- peek (chars "|)&;") ;;
      if b then ret ret_ else
      t <- gettoken ;;
      if t.1 =? 0 then ret ret_ else
      if negb (t.1 =? 97) then panic "syntax" else
      let ret_ := add_arg t.2 ret_ in
      let argc := S argc in
      if (MAXARGS <=? argc)%nat then panic "too many args" else
      ret_ <- parseredirs f ret_ ;;
      parseargs f ret_ argc
  end.

(* while (peek(ps, es, "&")) *)
Fixpoint parseback (fuel : nat) (c : cmd word) : P (cmd word) :=
  match fuel with
  | O => fail NoFuel
  | S f =>
      b <- peek (chars "&") ;;
      if b then gettoken ;;; parseback f (BACK c) else ret c
  end.

(** parseline, parsepipe, parseexec and parseblock call each other: the body
    of each of the last three, with the functions it calls as arguments. *)
Definition parsepipe_body (parseexec parsepipe : P (cmd word)) : P (cmd word) :=
  c <- parseexec ;;
  b <- peek (chars "|") ;;
  if b then
    gettoken ;;;
    r <- parsepipe ;;
    ret (PIPE c r)
  else ret c.

Definition parseexec_body (fuel : nat) (parseblock : P (cmd word)) : P (cmd word) :=
  b <- peek (chars "(") ;;
  if b then parseblock else
  c <- parseredirs fuel (EXEC []) ;;
  parseargs fuel c 0.

Definition parseblock_body (fuel : nat) (parseline : P (cmd word)) : P (cmd word) :=
  b <- peek (chars "(") ;;
  if negb b then panic "parseblock" else
  gettoken ;;;
  c <- parseline ;;
  b <- peek (chars ")") ;;
  if negb b then panic "syntax - missing )" else
  gettoken ;;;
  parseredirs fuel c.

Fixpoint parseline (fuel : nat) : P (cmd word) :=
  match fuel with
  | O => fail NoFuel
  | S f =>
      c <- parsepipe f ;;
      c <- parseback f c ;;
      b <- peek (chars ";") ;;
      if b then
        gettoken ;;;
        r <- parseline f ;;
        ret (LIST c r)
      else ret c
  end

with parsepipe (fuel : nat) : P (cmd word) :=
  match fuel with O => fail NoFuel | S f => parsepipe_body (parseexec f) (parsepipe f) end

with parseexec (fuel : nat) : P (cmd word) :=
  match fuel with O => fail NoFuel | S f => parseexec_body f (parseblock f) end

with parseblock (fuel : nat) : P (cmd word) :=
  match fuel with O => fail NoFuel | S f => parseblock_body f (parseline f) end.
End Parser.

(* for (i=0; ecmd->argv[i]; i++) the end of the word gets a NUL *)
Fixpoint nulterminate (c : cmd word) (buf : list Z) : list Z :=
  match c with
  | EXEC argv => foldl (fun b w => <[w.2 := 0]> b) buf argv
  | REDIR c file _ _ => <[file.2 := 0]> (nulterminate c buf)
  | PIPE l r => nulterminate r (nulterminate l buf)
  | LIST l r => nulterminate r (nulterminate l buf)
  | BACK c => nulterminate c buf
  end.

(** The depth of calls and the number of turns of a loop that a line of
    [es] characters can lead to. *)
Definition parse_fuel (es : nat) : nat := 4 * es + 8.

(** The tree and the buffer with its words terminated. The failure
    [leftovers] is the message of that name followed by a syntax panic. *)
Definition parsecmd (buf : list Z) : P (cmd word * list Z) :=
  let es := length (upto_nul buf) in
  c <- parseline buf es (parse_fuel es) ;;
  peek buf es [] ;;;
  s <- get_pos ;;
  if negb (s =? es)%nat then panic "leftovers" else
  ret (c, nulterminate c buf).

(** The word as runcmd sees it: the C string that begins at its start. *)
Definition cstr (buf : list Z) (w : word) : list Z := upto_nul (drop w.1 buf).

(** ** Running *)

Section Run.
Context {W : Type} `{Sys W}.
Abbreviation U := (U unit W).

Definition sh_panic {A} (s : list Z) : U A :=
  printf 2 (chars "%s" ++ newline) [PStr (Some s)] ;;; exit.

Definition fork1 : U Z :=
  pid <- call u_fork ;;
  if pid =? -1 then sh_panic (chars "fork") else ret pid.

(** Does not return. *)
Fixpoint runcmd (c : cmd (list Z)) : U unit :=
  match c with
  | EXEC argv =>
      match argv with
      | [] => exit
      | a :: _ =>
          exec a argv ;;;
          printf 2 (chars "exec %s failed" ++ newline) [PStr (Some a)] ;;;
          exit
      end
  | REDIR c file mode fd =>
      call (u_close fd) ;;;
      r <- call (u_open file mode) ;;
      if r <? 0 then
        printf 2 (chars "open %s failed" ++ newline) [PStr (Some file)] ;;; exit
      else runcmd c ;;; exit
  | LIST l r =>
      pid <- fork1 ;;
      when (pid =? 0) (runcmd l) ;;;
      call u_wait ;;;
      runcmd r ;;;
      exit
  | PIPE l r =>
      o <- call u_pipe ;;
      let p := o.2 in
      if o.1 <? 0 then sh_panic (chars "pipe") else
      pid <- fork1 ;;
      when (pid =? 0)
        (call (u_close 1) ;;; call (u_dup p.2) ;;; call (u_close p.1) ;;; call (u_close p.2) ;;;
         runcmd l) ;;;
      pid <- fork1 ;;
      when (pid =? 0)
        (call (u_close 0) ;;; call (u_dup p.1) ;;; call (u_close p.1) ;;; call (u_close p.2) ;;;
         runcmd r) ;;;
      call (u_close p.1) ;;; call (u_close p.2) ;;;
      call u_wait ;;; call u_wait ;;;
      exit
  | BACK c =>
      pid <- fork1 ;;
      when (pid =? 0) (runcmd c) ;;;
      exit
  end.

Definition NBUF_SH : Z := 100.

(** The line read, None at the end of the input. *)
Definition getcmd : U (option (list Z)) :=
  printf 2 (chars "$ ") [] ;;;
  l <- gets NBUF_SH ;;
  ret (if byte_at l =? 0 then None else Some (upto_nul l)).

(** The child's part: parse and run. *)
Definition run_line (line : list Z) : U unit :=
  match parsecmd (line ++ [0]) 0%nat [] with
  | Ok (c, buf) _ _ => runcmd (cmd_map (cstr buf) c)
  | Err (Panic msg) s _ =>
      if bool_decide (msg = "leftovers") then
        printf 2 (chars "leftovers: %s" ++ newline) [PStr (Some (drop s line))] ;;;
        sh_panic (chars "syntax")
      else sh_panic (chars msg)
  | Err e _ _ => fail e
  end.

(* while ((fd = open("console", O_RDWR)) >= 0) *)
Fixpoint open_console (fuel : nat) : U unit :=
  match fuel with
  | O => fail NoFuel
  | S f =>
      fd <- call (u_open (chars "console") O_RDWR) ;;
      if 0 <=? fd then
        if 3 <=? fd then call (u_close fd) ;;; ret tt else open_console f
      else ret tt
  end.

(* while (getcmd(buf, sizeof(buf)) >= 0) *)
Fixpoint command_loop (fuel : nat) : U unit :=
  match fuel with
  | O => fail NoFuel
  | S f =>
      o <- getcmd ;;
      match o with
      | None => ret tt
      | Some line =>
          if bool_decide (take 3 line = chars "cd ") then
            let path := drop 3 (removelast line) in
            r <- call (u_chdir path) ;;
            when (r <? 0)
              (printf 2 (chars "cannot cd %s" ++ newline) [PStr (Some path)]) ;;;
            command_loop f
          else
            pid <- fork1 ;;
            when (pid =? 0) (run_line line) ;;;
            call u_wait ;;;
            command_loop f
      end
  end.

(** [fuel] bounds the number of commands. *)
Definition main (fuel : nat) : U unit :=
  open_console fuel ;;;
  command_loop fuel ;;;
  exit.
End Run.

End Sh.
