(* ===== verification/ShFacts.v ===== *)
(** The shell's parser (user/sh.c): it stops on every line, and the words of
    the tree it builds read back from the buffer in which it has terminated
    them. *)
From S2P Require Import Prelude Types Cstring Inode Console Fs User Ulib Sh.
Import Cstring Inode Console Fs User Ulib Sh.

Module ShFacts.

(** A parser either panics or gives a result and a position with [Q]. *)
Definition runs {A} (p : P A) (s : nat) (Q : A -> nat -> Prop) : Prop :=
  forall env, wp p (fun a s' _ => Q a s') (fun e _ _ => exists msg, e = Panic msg) s env.

Lemma runs_bind {A B} (p : P A) (k : A -> P B) s Q :
  runs p s (fun a s' => runs (k a) s' Q) -> runs (bind p k) s Q.
Proof. intros Hp env. apply wp_bind. eapply wp_mono; [apply Hp| |done]. intros a s' env' Hk. apply Hk. Qed.

Lemma runs_ret {A} (a : A) s (Q : A -> nat -> Prop) : Q a s -> runs (ret a) s Q.
Proof. by intros HQ env. Qed.

Lemma runs_panic {A} msg s (Q : A -> nat -> Prop) : runs (panic msg) s Q.
Proof. intros env. by exists msg. Qed.

Lemma runs_mono {A} (p : P A) s (Q Q' : A -> nat -> Prop) :
  runs p s Q -> (forall a s', Q a s' -> Q' a s') -> runs p s Q'.
Proof. intros Hp HQ env. eapply wp_mono; [apply Hp| |done]. intros a s' env'. apply HQ. Qed.

(** The words of a tree. *)
Fixpoint words {A} (c : cmd A) : list A :=
  match c with
  | EXEC argv => argv
  | REDIR c file _ _ => words c ++ [file]
  | PIPE l r => words l ++ words r
  | LIST l r => words l ++ words r
  | BACK c => words c
  end.

Lemma words_add_arg w c : words (add_arg w c) ⊆ w :: words c.
Proof. induction c; simpl; set_solver. Qed.

Section Parser.
Context (buf : list Z) (es : nat).
Hypothesis Hend : ch buf es = 0.
Hypothesis Hin : forall i, (i < es)%nat -> ch buf i <> 0.

Abbreviation ch := (ch buf).
Abbreviation skip_ws := (skip_ws buf es).

Definition is_word_char (c : Z) : bool := negb (is_in whitespace c) && negb (is_in symbols c).

(** A word of the line: its characters and what follows it. *)
Definition good_word (w : word) : Prop :=
  (w.1 < w.2 <= es)%nat /\ (forall i, (w.1 <= i < w.2)%nat -> is_word_char (ch i) = true) /\
  (w.2 = es \/ is_word_char (ch w.2) = false).

Definition good (c : cmd word) : Prop := Forall good_word (words c).

Lemma skip_range n s : (s <= skip buf n s <= s + n)%nat.
Proof. revert s. induction n as [|n IH]; intros s; simpl; [lia|]. destruct (is_in _ _); [|lia]. specialize (IH (S s)). lia. Qed.

Lemma skip_ws_range s : (s <= es)%nat -> (s <= skip_ws s <= es)%nat.
Proof. intros Hs. unfold Sh.skip_ws. pose proof (skip_range (es - s) s). lia. Qed.

Lemma skip_stops n s : (skip buf n s < s + n)%nat -> is_in whitespace (ch (skip buf n s)) = false.
Proof.
  revert s. induction n as [|n IH]; intros s; simpl; [lia|]. destruct (is_in whitespace (ch s)) eqn:E; [|done].
  intros Hlt. apply IH. lia.
Qed.

Lemma scan_range n s : (s <= scan buf n s <= s + n)%nat.
Proof. revert s. induction n as [|n IH]; intros s; simpl; [lia|]. destruct (_ && _); [|lia]. specialize (IH (S s)). lia. Qed.

Lemma scan_word n s :
  (forall i, (s <= i < scan buf n s)%nat -> is_word_char (ch i) = true) /\
  (scan buf n s = (s + n)%nat \/ is_word_char (ch (scan buf n s)) = false).
Proof.
  revert s. induction n as [|n IH]; intros s; simpl; [split; [lia|left; lia]|].
  destruct (negb _ && negb _) eqn:E; [|split; [lia|by right]]. destruct (IH (S s)) as [H1 H2]. split.
  - intros i Hi. destruct (decide (i = s)) as [->|]; [done|]. apply H1. lia.
  - destruct H2 as [->|H2]; [left; lia|by right].
Qed.

(** What gettoken and peek return. *)
Definition token_ok (s : nat) (t : Z * word) (s' : nat) : Prop :=
  (s <= s' <= es)%nat /\ ((skip_ws s < es)%nat -> (s < s')%nat) /\ (t.1 <> 0 -> (skip_ws s < es)%nat) /\
  (t.1 = 97 -> good_word t.2).

Lemma gettoken_runs s : (s <= es)%nat -> runs (gettoken buf es) s (token_ok s).
Proof.
  intros Hs env. unfold wp, gettoken, get_pos, bind, Prelude.gets. set (q := skip_ws s).
  pose proof (skip_ws_range s Hs) as Hq. fold q in Hq.
  assert (Hlt : ch q <> 0 -> (q < es)%nat) by (intros Hc; destruct (decide (q = es)) as [E|]; [by rewrite E in Hc|lia]).
  assert (Hok : forall tok eq, (q <= eq <= es)%nat -> (ch q <> 0 -> (q < eq)%nat) -> (tok <> 0 -> ch q <> 0) ->
    (tok = 97 -> good_word (q, eq)) -> token_ok s (tok, (q, eq)) (skip_ws eq)).
  { intros tok eq He Hp Ht Hw. pose proof (skip_ws_range eq ltac:(lia)). split_and!; simpl; [lia|lia| | |done].
    - intros Hl. specialize (Hp (Hin _ Hl)). lia.
    - intros Hn. apply Hlt. auto. }
  destruct (Z.eqb_spec (ch q) 0) as [E0|E0]; simpl; [apply Hok; [lia|done|done|lia]|]. specialize (Hlt E0).
  destruct (_ || _) eqn:Es; simpl; [apply Hok; [lia|lia|done|]; intros E; rewrite E in Es; done|].
  destruct (Z.eqb_spec (ch q) 62) as [E62|E62]; simpl.
  - destruct (Z.eqb_spec (ch (S q)) 62) as [E2|E2]; simpl; [|apply Hok; [lia|lia|done|lia]].
    assert (S q <> es) by (intros E; rewrite E in E2; lia). apply Hok; [lia|lia|done|lia].
  - pose proof (scan_range (es - q) q) as Hr. pose proof (scan_word (es - q) q) as [Hw He].
    assert (Hfirst : is_word_char (ch q) = true).
    { unfold is_word_char. pose proof (skip_stops (es - s) s) as Hws. change (skip buf (es - s) s) with q in Hws. rewrite Hws by lia.
      unfold is_in, symbols. cbn [strchr_in]. rewrite !(Z.eqb_sym _ (ch q)). rewrite !orb_false_iff in Es.
      destruct Es as [[[[[-> ->] ->] ->] ->] ->]. by rewrite (proj2 (Z.eqb_neq _ _) E62). }
    assert (Hadv : (q < scan buf (es - q) q)%nat).
    { destruct (es - q)%nat as [|n] eqn:En; [lia|]. simpl. unfold is_word_char in Hfirst. rewrite Hfirst. pose proof (scan_range n (S q)). lia. }
    apply Hok; [lia|lia|done|]. intros _. split_and!; simpl; [lia|lia|done|]. destruct He as [->|He]; [left; lia|by right].
Qed.

Definition peek_ok (toks : list Z) (s : nat) (b : bool) (s' : nat) : Prop :=
  s' = skip_ws s /\ (b = true -> (skip_ws s' < es)%nat).

Lemma skip_ws_idem s : (s <= es)%nat -> skip_ws (skip_ws s) = skip_ws s.
Proof.
  intros Hs. pose proof (skip_ws_range s Hs) as Hr. destruct (decide (skip_ws s = es)) as [E|Hne].
  - rewrite E. unfold Sh.skip_ws. by rewrite Nat.sub_diag.
  - pose proof (skip_stops (es - s) s) as Hw. change (skip buf (es - s) s) with (skip_ws s) in Hw.
    unfold Sh.skip_ws at 1. destruct (es - skip_ws s)%nat; [done|]. simpl. by rewrite Hw by lia.
Qed.

Lemma peek_runs toks s : (s <= es)%nat -> runs (peek buf es toks) s (peek_ok toks s).
Proof.
  intros Hs env. unfold wp, peek, get_pos, bind, modify, Prelude.gets. simpl. split; [done|].
  pose proof (skip_ws_range s Hs). intros Hb. rewrite skip_ws_idem by done. destruct (decide (skip_ws s = es)) as [E|]; [|lia].
  by rewrite E, Hend in Hb.
Qed.

(** A parsing function gives a tree of good words, without going back. *)
Definition tree_ok (s : nat) (c : cmd word) (s' : nat) : Prop := (s <= s' <= es)%nat /\ good c.

Lemma tree_ok_le s0 s c s' : (s0 <= s)%nat -> tree_ok s c s' -> tree_ok s0 c s'.
Proof. intros ? [? ?]. split; [lia|done]. Qed.

Ltac step_peek := apply runs_bind; eapply runs_mono; [by apply peek_runs|]; intros ? ? [-> ?].
Ltac step_token := apply runs_bind; eapply runs_mono; [apply gettoken_runs|].

Lemma good_redir c w mode fd : good c -> good_word w -> good (REDIR c w mode fd).
Proof. intros Hc Hw. apply Forall_app. split; [done|by apply Forall_singleton]. Qed.

Lemma parseredirs_runs f : forall c s, (s <= es)%nat -> (es - s < f)%nat -> good c ->
  runs (parseredirs buf es f c) s (tree_ok s).
Proof.
  induction f as [|f IH]; intros c s Hs Hf Hc; [lia|]. cbn [parseredirs]. pose proof (skip_ws_range s Hs).
  step_peek. destruct a; [|apply runs_ret; by split; [lia|]].
  step_token; [lia|]. intros t s1 (Hs1 & Ht & _). step_token; [lia|]. intros w s2 (Hs2 & Hw & Hw0 & Hgw).
  destruct (Z.eqb_spec w.1 97) as [E|]; [|apply runs_panic]. cbn [negb].
  eapply runs_mono; [apply IH; [lia| |]|].
  - rewrite E in Hw0. specialize (Hw (Hw0 ltac:(done))). lia.
  - repeat case_match; try done; by apply good_redir; auto.
  - intros c' s' Hok. eapply tree_ok_le; [|exact Hok]. lia.
Qed.

Lemma good_add_arg w c : good c -> good_word w -> good (add_arg w c).
Proof.
  unfold good. rewrite !Forall_forall. intros Hc Hw x Hx. apply words_add_arg in Hx. set_solver.
Qed.

Lemma parseargs_runs f : forall c argc s, (s <= es)%nat -> (es - s < f)%nat -> good c ->
  runs (parseargs buf es f c argc) s (tree_ok s).
Proof.
  induction f as [|f IH]; intros c argc s Hs Hf Hc; [lia|]. cbn [parseargs]. pose proof (skip_ws_range s Hs).
  step_peek. destruct a; [apply runs_ret; by split; [lia|]|].
  step_token; [lia|]. intros t s1 (Hs1 & Ht & Ht0 & Hw).
  destruct (Z.eqb_spec t.1 0) as [E0|E0]; [apply runs_ret; by split; [lia|]|].
  destruct (Z.eqb_spec t.1 97) as [E|]; [|apply runs_panic]. cbn [negb]. specialize (Ht (Ht0 E0)).
  destruct (_ <=? _)%nat; [apply runs_panic|].
  apply runs_bind. eapply runs_mono; [apply parseredirs_runs; [lia|lia|]|].
  { apply good_add_arg; auto. }
  intros c' s2 [Hs2 Hc']. eapply runs_mono; [apply IH; [lia|lia|done]|]. intros c2 s3 Hok. eapply tree_ok_le; [|exact Hok]. lia.
Qed.

Lemma parseback_runs f : forall c s, (s <= es)%nat -> (es - s < f)%nat -> good c ->
  runs (parseback buf es f c) s (tree_ok s).
Proof.
  induction f as [|f IH]; intros c s Hs Hf Hc; [lia|]. cbn [parseback]. pose proof (skip_ws_range s Hs).
  step_peek. destruct a; [|apply runs_ret; by split; [lia|]].
  step_token; [lia|]. intros t s1 (Hs1 & Ht & _). specialize (Ht (H0 eq_refl)).
  eapply runs_mono; [apply IH; [lia|lia|done]|]. intros c2 s3 Hok. eapply tree_ok_le; [|exact Hok]. lia.
Qed.

(** The four functions that call each other. *)
Lemma parse_runs f : forall s, (s <= es)%nat ->
  ((4 * (es - s) + 8 <= f)%nat -> runs (parseline buf es f) s (tree_ok s)) /\
  ((4 * (es - s) + 7 <= f)%nat -> runs (parsepipe buf es f) s (tree_ok s)) /\
  ((4 * (es - s) + 6 <= f)%nat -> runs (parseexec buf es f) s (tree_ok s)) /\
  ((4 * (es - s) + 5 <= f)%nat -> runs (parseblock buf es f) s (tree_ok s)).
Proof.
  induction f as [|f IH]; intros s Hs; [lia|]. pose proof (skip_ws_range s Hs) as Hsk.
  split_and!; intros Hf; cbn [parseline parsepipe parseexec parseblock]; unfold parsepipe_body, parseexec_body, parseblock_body.
  - apply runs_bind. eapply runs_mono; [apply IH; lia|]. intros c s1 [Hs1 Hc].
    apply runs_bind. eapply runs_mono; [apply parseback_runs; [lia|lia|done]|]. intros c' s2 [Hs2 Hc'].
    pose proof (skip_ws_range s2 ltac:(lia)). apply runs_bind; eapply runs_mono; [apply peek_runs; lia|]; intros b s3 [-> Hb].
    destruct b; [|apply runs_ret; by split; [lia|]].
    step_token; [lia|]. intros t s4 (Hs4 & Ht & _). specialize (Ht (Hb eq_refl)).
    apply runs_bind. eapply runs_mono; [apply IH; lia|]. intros r s5 [Hs5 Hr]. apply runs_ret. split; [lia|].
    by apply Forall_app.
  - apply runs_bind. eapply runs_mono; [apply IH; lia|]. intros c s1 [Hs1 Hc].
    pose proof (skip_ws_range s1 ltac:(lia)). apply runs_bind; eapply runs_mono; [apply peek_runs; lia|]; intros b s3 [-> Hb].
    destruct b; [|apply runs_ret; by split; [lia|]].
    step_token; [lia|]. intros t s4 (Hs4 & Ht & _). specialize (Ht (Hb eq_refl)).
    apply runs_bind. eapply runs_mono; [apply IH; lia|]. intros r s5 [Hs5 Hr]. apply runs_ret. split; [lia|].
    by apply Forall_app.
  - step_peek. destruct a.
    + eapply runs_mono; [apply IH; lia|]. intros c s1 Hok. eapply tree_ok_le; [|exact Hok]. lia.
    + apply runs_bind. eapply runs_mono; [apply parseredirs_runs; [lia|lia|by constructor]|]. intros c s1 [Hs1 Hc].
      eapply runs_mono; [apply parseargs_runs; [lia|lia|done]|]. intros c2 s3 Hok. eapply tree_ok_le; [|exact Hok]. lia.
  - step_peek. destruct a; [|apply runs_panic]. cbn [negb].
    step_token; [lia|]. intros t s1 (Hs1 & Ht & _). specialize (Ht (H eq_refl)).
    apply runs_bind. eapply runs_mono; [apply IH; lia|]. intros c s2 [Hs2 Hc].
    pose proof (skip_ws_range s2 ltac:(lia)). apply runs_bind; eapply runs_mono; [apply peek_runs; lia|]; intros b s3 [-> Hb].
    destruct b; [|apply runs_panic]. cbn [negb]. step_token; [lia|]. intros t' s4 (Hs4 & _).
    eapply runs_mono; [apply parseredirs_runs; [lia|lia|done]|]. intros c2 s5 Hok. eapply tree_ok_le; [|exact Hok]. lia.
Qed.
End Parser.


(** ** Terminating the words in place *)

Definition nul_at (b : list Z) (w : word) : list Z := <[w.2 := 0]> b.

Lemma nulterminate_words c : forall buf, nulterminate c buf = foldl nul_at buf (words c).
Proof.
  induction c as [argv|c IH file mode fd|l IHl r IHr|l IHl r IHr|c IH]; intros buf; simpl; [done| | | |done].
  - by rewrite foldl_app, IH.
  - by rewrite foldl_app, IHl, IHr.
  - by rewrite foldl_app, IHl, IHr.
Qed.

Lemma foldl_nul_length l : forall b, length (foldl nul_at b l) = length b.
Proof. induction l as [|w l IH]; intros b; [done|]. simpl. rewrite IH. apply length_insert. Qed.

Lemma foldl_nul_other l i : (forall w, w ∈ l -> w.2 <> i) -> forall b, foldl nul_at b l !! i = b !! i.
Proof.
  induction l as [|w l IH]; intros Hi b; [done|]. simpl. rewrite IH by (intros; apply Hi; by right).
  unfold nul_at. apply list_lookup_insert_ne. apply Hi. left.
Qed.

Lemma foldl_nul_keeps l i : forall b, b !! i = Some 0 -> foldl nul_at b l !! i = Some 0.
Proof.
  induction l as [|w l IH]; intros b Hb; [done|]. simpl. apply IH. unfold nul_at.
  destruct (decide (w.2 = i)) as [->|]; [|by rewrite list_lookup_insert_ne].
  apply list_lookup_insert_eq. by eapply lookup_lt_Some.
Qed.

Lemma foldl_nul_at l w : w ∈ l -> forall b, (w.2 < length b)%nat -> foldl nul_at b l !! w.2 = Some 0.
Proof.
  induction l as [|x l IH]; intros Hw b Hb; [by apply elem_of_nil in Hw|]. simpl.
  apply elem_of_cons in Hw as [->|Hw]; [apply foldl_nul_keeps; by apply list_lookup_insert_eq|].
  apply IH; [done|]. unfold nul_at. by rewrite length_insert.
Qed.

Lemma upto_nul_take l : forall k, l !! k = Some 0 -> (forall j, (j < k)%nat -> l !! j <> Some 0) -> upto_nul l = take k l.
Proof.
  induction l as [|c l IH]; intros k Hk Hj; [done|]. destruct k as [|k]; simpl in *; [by simplify_eq|].
  destruct (Z.eqb_spec c 0) as [->|Hc]; [by destruct (Hj 0%nat); [lia|]|]. f_equal. apply IH; [done|].
  intros j Hlt. apply (Hj (S j)). lia.
Qed.

Lemma length_upto_nul line rest : 0 ∉ line -> upto_nul (line ++ 0 :: rest) = line.
Proof.
  induction line as [|c line IH]; intros Hn; [done|]. apply not_elem_of_cons in Hn as [Hc Hn]. simpl.
  rewrite (proj2 (Z.eqb_neq c 0)) by done. by rewrite IH.
Qed.

Section Words.
Context (line rest : list Z).
Hypothesis Hline : 0 ∉ line.
Let buf := line ++ 0 :: rest.
Let es := length line.

Lemma line_end : ch buf es = 0.
Proof. unfold ch, buf, es. by rewrite lookup_app_r, Nat.sub_diag. Qed.

Lemma line_char i : (i < es)%nat -> line !! i = Some (ch buf i) /\ ch buf i <> 0.
Proof.
  intros Hi. unfold ch, buf. rewrite lookup_app_l by done. destruct (lookup_lt_is_Some_2 line i Hi) as [c Hc]. rewrite Hc.
  split; [done|]. simpl. intros ->. apply Hline. by eapply list_elem_of_lookup_2.
Qed.

(** A word reads back as the characters it was made of. *)
Lemma word_reads ws w : Forall (good_word buf es) ws -> w ∈ ws ->
  cstr (foldl nul_at buf ws) w = take (w.2 - w.1) (drop w.1 line).
Proof.
  intros Hg Hw. rewrite Forall_forall in Hg. destruct (Hg w Hw) as (Hr & Hc & _).
  set (b' := foldl nul_at buf ws). assert (Hlen : length b' = length buf) by apply foldl_nul_length.
  assert (Hbuf : (es < length buf)%nat) by (unfold buf, es; rewrite length_app; simpl; lia).
  assert (Hsame : forall i, (w.1 <= i < w.2)%nat -> b' !! i = line !! i).
  { intros i Hi. unfold b'. rewrite foldl_nul_other; [unfold buf; apply lookup_app_l; unfold es in Hr; lia|].
    intros x Hx E. destruct (Hg x Hx) as (Hxr & _ & [Ex|Ex]); [lia|]. rewrite E, Hc in Ex by lia. done. }
  unfold cstr. rewrite (upto_nul_take _ (w.2 - w.1)).
  - apply list_eq. intros j. destruct (decide (j < w.2 - w.1)%nat); [|by rewrite !lookup_take_ge by lia].
    rewrite !lookup_take_lt, !lookup_drop by lia. apply Hsame. lia.
  - rewrite lookup_drop. replace (w.1 + (w.2 - w.1))%nat with w.2 by lia. apply foldl_nul_at; [done|lia].
  - intros j Hj. rewrite lookup_drop, Hsame by lia. destruct (line_char (w.1 + j)) as [-> Hn]; [lia|]. congruence.
Qed.

Lemma word_chars w : good_word buf es w -> Forall (fun c => is_word_char c = true /\ c <> 0) (take (w.2 - w.1) (drop w.1 line)).
Proof.
  intros (Hr & Hc & _). apply Forall_lookup_2. intros j c Hj. apply lookup_take_Some in Hj as [Hj Hlt].
  rewrite lookup_drop in Hj. destruct (line_char (w.1 + j)) as [E Hn]; [lia|]. rewrite E in Hj. injection Hj as <-.
  split; [apply Hc; lia|done].
Qed.

End Words.

(** C37: parsing ends on every line: parsecmd gives a tree or one of the
    shell's error messages, within the bounds on its loops and recursion.
    In the buffer whose words it has terminated in place, every word of the
    tree is the nonempty run of word characters of the line at which it was
    found, unharmed by the terminators of the others. *)
Theorem parsecmd_total line rest env :
  0 ∉ line ->
  match parsecmd (line ++ 0 :: rest) 0%nat env with
  | Ok (c, buf') _ _ => forall w, w ∈ words c ->
      (w.1 < w.2 <= length line)%nat /\ cstr buf' w = take (w.2 - w.1) (drop w.1 line) /\
      Forall (fun x => is_word_char x = true /\ x <> 0) (cstr buf' w)
  | Err e _ _ => exists msg, e = Panic msg
  end.
Proof.
  intros Hline. unfold parsecmd. rewrite length_upto_nul by done. set (buf := line ++ 0 :: rest). set (es := length line).
  pose proof (parse_runs buf es (line_end line rest) (fun i Hi => proj2 (line_char line rest Hline i Hi)) (parse_fuel es) 0 ltac:(lia)) as (Hp & _).
  specialize (Hp ltac:(unfold parse_fuel; lia) env). unfold wp in Hp. unfold bind.
  destruct (parseline buf es (parse_fuel es) 0%nat env) as [c s1 env1|e s1 env1]; [|done]. destruct Hp as [Hs1 Hg].
  unfold peek, get_pos, bind, modify, Prelude.gets, ret. simpl. destruct (_ =? _)%nat; simpl; [|by eexists].
  intros w Hw. rewrite nulterminate_words. pose proof Hg as Hg'. unfold good in Hg'. rewrite Forall_forall in Hg'.
  unfold buf, es in *. rewrite word_reads by done. split_and!; [apply (Hg' w Hw)..|done|].
  apply word_chars with (rest := rest); [done|]. by apply Hg'.
Qed.

Lemma parsecmd_total_witness :
  match parsecmd (chars "ls -l | wc" ++ 0 :: [7; 7]) 0%nat [] with
  | Ok (c, buf') _ _ => forall w, w ∈ words c ->
      (w.1 < w.2 <= 10)%nat /\ cstr buf' w = take (w.2 - w.1) (drop w.1 (chars "ls -l | wc")) /\
      Forall (fun x => is_word_char x = true /\ x <> 0) (cstr buf' w)
  | Err e _ _ => exists msg, e = Panic msg
  end.
Proof. apply (parsecmd_total (chars "ls -l | wc") [7; 7]). rewrite list_elem_of_In. vm_compute. intros Hin. repeat (destruct Hin as [Hin|Hin]; [done|]). done. Defined.

End ShFacts.
