(* ===== verification/ShPrint.v ===== *)
(** Printing commands, and the shell's parser (user/sh.c) as the inverse of
    printing: every command whose words and redirections the syntax has is
    printed to a line that parses to it. *)
From S2P Require Import Prelude Types Cstring Inode Console Fs User Ulib Sh ShFacts.
Import Cstring Inode Console Fs User Ulib Sh ShFacts.

Module ShPrint.

(** ** Printing *)

(** What the parser expects where a command stands: a line, a command before
    an ampersand, a part of a pipeline, an operand of a pipe. *)
Inductive level : Type := Lline | Lback | Lpipe | Lexec.

Definition paren (b : bool) (t : list Z) : list Z := if b then 40 :: t ++ [41] else t.

Definition pr_words (l : list (list Z)) : list Z := mjoin ((fun w => w ++ [32]) <$> l).
Definition pr_redir (f : list Z) (fd : Z) : list Z := (if fd =? 0 then 60 else 62) :: f ++ [32].

Fixpoint pr (lv : level) (c : cmd (list Z)) : list Z :=
  match c with
  | EXEC argv => pr_words argv
  | REDIR c f _ fd => pr Lexec c ++ pr_redir f fd
  | PIPE l r => paren (match lv with Lexec => true | _ => false end) (pr Lexec l ++ 124 :: pr Lpipe r)
  | BACK c => paren (match lv with Lexec | Lpipe => true | _ => false end) (pr Lback c ++ [38])
  | LIST l r => paren (match lv with Lline => false | _ => true end) (pr Lback l ++ 59 :: pr Lline r)
  end.

(** ** What can be printed *)

Definition word_ok (w : list Z) : Prop := w <> [] /\ Forall (fun c => is_word_char c = true /\ c <> 0) w.

Definition redir_ok (mode fd : Z) : Prop :=
  (mode = O_RDONLY /\ fd = 0) \/ (mode = Z.lor O_WRONLY O_CREATE /\ fd = 1).

Fixpoint printable (c : cmd (list Z)) : Prop :=
  match c with
  | EXEC argv => Forall word_ok argv /\ (length argv < MAXARGS)%nat
  | REDIR c f mode fd => printable c /\ word_ok f /\ redir_ok mode fd
  | PIPE l r => printable l /\ printable r
  | LIST l r => printable l /\ printable r
  | BACK c => printable c
  end.

(** The redirections around a command, the innermost first. *)
Definition redir : Type := list Z * Z * Z.
Definition wrap (rs : list redir) (c : cmd (list Z)) : cmd (list Z) :=
  foldl (fun c r => REDIR c r.1.1 r.1.2 r.2) c rs.
Definition pr_redirs (rs : list redir) : list Z := mjoin ((fun r => pr_redir r.1.1 r.2) <$> rs).
Definition redirs_ok (rs : list redir) : Prop := Forall (fun r => word_ok r.1.1 /\ redir_ok r.1.2 r.2) rs.

(** ** Tokens of a line *)

Section Line.
Context (line rest : list Z).
Hypothesis Hline : 0 ∉ line.
Abbreviation buf := (line ++ 0 :: rest).
Abbreviation es := (length line).

(** What is left of the line at a position. *)
Definition left (s : nat) (t : list Z) : Prop := (s <= es)%nat /\ drop s line = t.

Definition begins_plain (t : list Z) : Prop := is_in whitespace (byte_at t) = false.

Lemma left_ch s t : left s t -> ch buf s = byte_at t.
Proof.
  intros [Hs <-]. unfold ch. destruct (decide (s = es)) as [->|Hne].
  - rewrite drop_all, lookup_app_r, Nat.sub_diag by lia. done.
  - rewrite lookup_app_l by lia. destruct (lookup_lt_is_Some_2 line s) as [c Hc]; [lia|]. rewrite Hc.
    by rewrite (drop_S line c s Hc).
Qed.

Lemma left_app s t u : left s (t ++ u) -> left (s + length t) u.
Proof.
  intros [Hs E]. assert (length (drop s line) = length (t ++ u)) as Hl by (by rewrite E).
  rewrite length_drop, length_app in Hl. split; [lia|]. by rewrite <- drop_drop, E, drop_app_length.
Qed.

Lemma left_cons s c u : left s (c :: u) -> left (S s) u.
Proof. intros Hl. rewrite <- Nat.add_1_r. by apply (left_app s [c]). Qed.

Lemma left_lt s c u : left s (c :: u) -> (s < es)%nat.
Proof. intros [Hs E]. destruct (decide (s = es)) as [->|]; [by rewrite drop_all in E|lia]. Qed.

Lemma left_nonzero s c u : left s (c :: u) -> c <> 0.
Proof. intros [Hs E] ->. apply Hline. rewrite <- (take_drop s line), E. apply elem_of_app. right. left. Qed.

Lemma skip_plain s t : left s t -> begins_plain t -> skip_ws buf es s = s.
Proof.
  intros Hl Hp. unfold skip_ws. destruct (es - s)%nat; [done|]. simpl. by rewrite (left_ch s t Hl), Hp.
Qed.

Lemma skip_space s t : left s (32 :: t) -> begins_plain t -> skip_ws buf es s = S s.
Proof.
  intros Hl Hp. pose proof (left_lt _ _ _ Hl) as Hlt. unfold skip_ws. destruct (es - s)%nat as [|n] eqn:E; [lia|]. simpl.
  rewrite (left_ch s _ Hl). simpl. pose proof (skip_plain (S s) t (left_cons _ _ _ Hl) Hp) as Hk. unfold skip_ws in Hk.
  by replace (es - S s)%nat with n in Hk by lia.
Qed.

Lemma peek_plain toks s t env : left s t -> begins_plain t ->
  peek buf es toks s env = Ok (negb (byte_at t =? 0) && is_in toks (byte_at t)) s env.
Proof.
  intros Hl Hp. unfold peek, get_pos, bind, modify, Prelude.gets, ret. by rewrite (skip_plain s t Hl Hp), (left_ch s t Hl).
Qed.

(** The text of a word. *)
Definition text (w : word) : list Z := take (w.2 - w.1) (drop w.1 line).

Lemma scan_text w t s n : Forall (fun c => is_word_char c = true /\ c <> 0) w -> left s (w ++ 32 :: t) ->
  (length w <= n)%nat -> scan buf n s = (s + length w)%nat.
Proof.
  revert s n. induction w as [|c w IH]; intros s n Hw Hl Hn.
  - rewrite Nat.add_0_r. destruct n; [done|]. simpl. by rewrite (left_ch s _ Hl).
  - apply Forall_cons in Hw as [[Hc _] Hw]. destruct n as [|n]; [simpl in Hn; lia|]. simpl.
    rewrite (left_ch s _ Hl). simpl. unfold is_word_char in Hc. rewrite Hc.
    rewrite IH; [lia|done|by eapply left_cons|simpl in Hn; lia].
Qed.

Lemma word_char_symbol c : is_word_char c = true ->
  (c =? 124) || (c =? 40) || (c =? 41) || (c =? 59) || (c =? 38) || (c =? 60) = false /\ (c =? 62) = false /\
  is_in whitespace c = false.
Proof.
  unfold is_word_char, is_in, symbols. intros [Hw Hs]%andb_true_iff. split_and!.
  3: { by destruct (strchr_in whitespace c). }
  all: cbn [strchr_in] in Hs; rewrite !(Z.eqb_sym c); repeat (destruct (_ =? c); [done|]); done.
Qed.

Lemma gettoken_word w t s env : word_ok w -> left s (w ++ 32 :: t) -> begins_plain t ->
  gettoken buf es s env = Ok (97, (s, (s + length w)%nat)) (s + length w + 1)%nat env /\ text (s, (s + length w)%nat) = w.
Proof.
  intros [Hne Hw] Hl Hp. destruct w as [|c w]; [done|].
  pose proof Hw as Hc. apply Forall_cons in Hc as [[Hc Hc0] _]. destruct (word_char_symbol c Hc) as (Hs1 & Hs2 & Hs3).
  split.
  - unfold gettoken, get_pos, bind, modify, Prelude.gets, ret. rewrite (skip_plain s _ Hl) by done.
    rewrite (left_ch s _ Hl). cbn [app byte_at]. rewrite (proj2 (Z.eqb_neq c 0)), Hs1, Hs2 by done.
    pose proof (left_app _ _ _ Hl) as Hl'. pose proof (left_lt _ _ _ Hl').
    rewrite (scan_text (c :: w) t s) by (done || lia).
    rewrite (skip_space _ t Hl' Hp). by rewrite Nat.add_1_r.
  - unfold text. simpl. destruct Hl as [_ ->]. replace (s + S (length w) - s)%nat with (length (c :: w)) by (simpl; lia).
    apply take_app_length.
Qed.

Lemma gettoken_symbol c t s env : left s (c :: t) -> begins_plain t ->
  (c =? 124) || (c =? 40) || (c =? 41) || (c =? 59) || (c =? 38) || (c =? 60) || ((c =? 62) && negb (byte_at t =? 62)) = true ->
  exists w, gettoken buf es s env = Ok (c, w) (S s) env.
Proof.
  intros Hl Hp Hc. assert (Hpc : begins_plain (c :: t)).
  { unfold begins_plain. simpl. destruct (is_in whitespace c) eqn:E; [|done]. exfalso. unfold is_in, whitespace in E.
    cbn [strchr_in] in E. revert Hc E. clear. intros Hc.
    do 5 (match goal with |- context [?k =? c] => destruct (Z.eqb_spec k c) as [<-|]; [done|] end). done. }
  unfold gettoken, get_pos, bind, modify, Prelude.gets, ret. rewrite (skip_plain s _ Hl Hpc), (left_ch s _ Hl). cbn [byte_at].
  rewrite (proj2 (Z.eqb_neq c 0)) by (by eapply left_nonzero).
  destruct (_ || _ || _ || _ || _ || (c =? 60)) eqn:Es.
  - rewrite (skip_plain (S s) t) by (done || by eapply left_cons). by eexists.
  - simpl in Hc. apply andb_true_iff in Hc as [-> Hc]. rewrite (left_ch (S s) t) by (by eapply left_cons).
    apply negb_true_iff in Hc. rewrite Hc. rewrite (skip_plain (S s) t) by (done || by eapply left_cons). by eexists.
Qed.

Lemma gettoken_end s env : left s [] -> exists w, gettoken buf es s env = Ok (0, w) s env.
Proof.
  intros Hl. unfold gettoken, get_pos, bind, modify, Prelude.gets, ret. rewrite (skip_plain s [] Hl) by done.
  rewrite (left_ch s _ Hl). simpl. rewrite (skip_plain s [] Hl) by done. by eexists.
Qed.

(** ** Parsing what was printed *)

Definition yields (p : P (cmd word)) (s n : nat) (c : cmd (list Z)) : Prop :=
  forall env, exists d, p s env = Ok d (s + n)%nat env /\ cmd_map text d = c.

Lemma word_plain w t : word_ok w -> begins_plain (w ++ t).
Proof.
  intros [Hne Hw]. destruct w as [|c w]; [done|]. apply Forall_cons in Hw as [[Hc _] _]. by apply word_char_symbol in Hc as (_ & _ & ?).
Qed.

(** A word character is none of the symbols. *)
Lemma word_not_in w t toks : word_ok w -> Forall (fun c => is_in symbols c = true) toks ->
  is_in toks (byte_at (w ++ t)) = false.
Proof.
  intros [Hne Hw] Ht. destruct w as [|c w]; [done|]. apply Forall_cons in Hw as [[Hc _] _]. simpl.
  unfold is_word_char in Hc. apply andb_true_iff in Hc as [_ Hc]. apply negb_true_iff in Hc.
  induction Ht as [|x toks Hx Ht IH]; [done|]. unfold is_in in *. simpl. destruct (Z.eqb_spec x c) as [->|]; [congruence|].
  by destruct (strchr_in toks c).
Qed.

Lemma redir_plain r rs post : begins_plain (pr_redirs (r :: rs) ++ post).
Proof. unfold begins_plain, pr_redirs, pr_redir. simpl. by destruct (_ =? 0). Qed.

Lemma pr_redirs_cons r rs post :
  pr_redirs (r :: rs) ++ post = (if r.2 =? 0 then 60 else 62) :: r.1.1 ++ 32 :: pr_redirs rs ++ post.
Proof. unfold pr_redirs, pr_redir. simpl. by rewrite <- !app_assoc. Qed.

Lemma length_pr_redirs_cons r rs : length (pr_redirs (r :: rs)) = (length r.1.1 + 2 + length (pr_redirs rs))%nat.
Proof. rewrite <- (app_nil_r (pr_redirs (r :: rs))), pr_redirs_cons. simpl. rewrite !length_app. simpl. rewrite app_nil_r. lia. Qed.

Lemma redirs_yield rs : forall f d s post, redirs_ok rs -> left s (pr_redirs rs ++ post) ->
  begins_plain post -> is_in (chars "<>") (byte_at post) = false -> (es - s < f)%nat ->
  yields (parseredirs buf es f d) s (length (pr_redirs rs)) (wrap rs (cmd_map text d)).
Proof.
  induction rs as [|r rs IH]; intros f d s post Hok Hl Hp Hn Hf env; (destruct f as [|f]; [lia|]); cbn [parseredirs].
  - rewrite (bind_ok _ _ _ _ _ _ _ (peek_plain (chars "<>") s post env Hl Hp)). rewrite Hn, andb_false_r.
    exists d. split; [|done]. unfold ret. simpl. by rewrite Nat.add_0_r.
  - apply Forall_cons in Hok as [[Hw Hm] Hok]. rewrite pr_redirs_cons in Hl.
    assert (Hp2 : begins_plain (pr_redirs rs ++ post)) by (destruct rs; [done|apply redir_plain]).
    rewrite (bind_ok _ _ _ _ _ _ _ (peek_plain (chars "<>") s _ env Hl ltac:(by unfold begins_plain; simpl; destruct (_ =? 0)))). 
    replace (negb _ && is_in (chars "<>") _) with true by (simpl; by destruct (r.2 =? 0)).
    destruct (gettoken_symbol _ _ s env Hl) as (w0 & E0); [by apply word_plain| |].
    { destruct (r.2 =? 0); [done|]. simpl. destruct Hw as [Hne Hw]. destruct (r.1.1) as [|c w]; [done|]. simpl.
      apply Forall_cons in Hw as [[Hc _] _]. apply word_char_symbol in Hc as (_ & -> & _). done. }
    mstep E0. apply left_cons in Hl. destruct (gettoken_word _ _ (S s) env Hw Hl Hp2) as [E1 Ht]. mstep E1. cbn [fst snd].
    replace (negb (97 =? 97)) with false by done.
    assert (Hl2 : left (S s + length r.1.1 + 1) (pr_redirs rs ++ post)) by (apply left_app in Hl; apply left_cons in Hl; by rewrite Nat.add_1_r).
    assert (S s <= es)%nat by (destruct Hl; lia).
    match goal with |- exists d, parseredirs _ _ _ ?d1 _ _ = _ /\ _ => destruct (IH f d1 _ post Hok Hl2 Hp Hn ltac:(lia) env) as (d' & Ed & Hd) end.
    exists d'. rewrite Ed. split; [f_equal; rewrite length_pr_redirs_cons; lia|]. rewrite Hd. simpl. f_equal.
    destruct Hm as [[-> ->]|[-> ->]]; simpl in Ht |- *; by rewrite Ht.
Qed.

(** What may follow an operand of a pipe. *)
Definition follows (toks : list Z) (t : list Z) : Prop := t = [] \/ byte_at t ∈ toks.

Lemma follows_plain toks t : toks ⊆ [124; 41; 38; 59] -> follows toks t ->
  begins_plain t /\ is_in (chars "<>") (byte_at t) = false /\ is_in (chars "(") (byte_at t) = false.
Proof.
  intros Ht [->|Hin]; [done|]. apply Ht in Hin. unfold begins_plain.
  repeat (apply elem_of_cons in Hin as [->|Hin]; [done|]). by apply elem_of_nil in Hin.
Qed.

Lemma args_done f d argc s post env : follows [124; 41; 38; 59] post -> left s post -> (0 < f)%nat ->
  parseargs buf es f d argc s env = Ok d s env.
Proof.
  intros Hfo Hl Hf. destruct f as [|f]; [lia|]. cbn [parseargs]. destruct (follows_plain _ _ ltac:(done) Hfo) as (Hp & _).
  mstep (peek_plain (chars "|)&;") s post env Hl Hp). destruct Hfo as [->|Hin].
  - simpl. destruct (gettoken_end s env Hl) as (w & E). mstep E. done.
  - replace (negb _ && _) with true; [done|].
    repeat (apply elem_of_cons in Hin as [->|Hin]; [done|]). by apply elem_of_nil in Hin.
Qed.

Lemma pr_words_cons w ws t : pr_words (w :: ws) ++ t = w ++ 32 :: pr_words ws ++ t.
Proof. unfold pr_words. simpl. by rewrite <- !app_assoc. Qed.

Lemma length_pr_words_cons w ws : length (pr_words (w :: ws)) = (length w + 1 + length (pr_words ws))%nat.
Proof. rewrite <- (app_nil_r (pr_words (w :: ws))), pr_words_cons, length_app. simpl. rewrite app_nil_r. lia. Qed.

Lemma symbols_in toks : toks ⊆ symbols -> Forall (fun c => is_in symbols c = true) toks.
Proof.
  intros Ht. apply Forall_forall. intros c Hc. apply Ht in Hc. repeat (apply elem_of_cons in Hc as [->|Hc]; [done|]). by apply elem_of_nil in Hc.
Qed.

Lemma args_yield rs post : redirs_ok rs -> follows [124; 41; 38; 59] post -> forall ws w f dargs argc s,
  Forall word_ok (w :: ws) -> (argc + length (w :: ws) < MAXARGS)%nat ->
  left s (pr_words (w :: ws) ++ pr_redirs rs ++ post) -> (es - s < f)%nat ->
  yields (parseargs buf es f (EXEC dargs) argc) s (length (pr_words (w :: ws) ++ pr_redirs rs))
    (wrap rs (EXEC ((text <$> dargs) ++ w :: ws))).
Proof.
  intros Hrs Hfo. destruct (follows_plain _ _ ltac:(done) Hfo) as (Hp & Hr & _). induction ws as [|w' ws IH];
    intros w f dargs argc s Hws Hargc Hl Hf env; (destruct f as [|f]; [lia|]); cbn [parseargs]; rewrite pr_words_cons in Hl;
    apply Forall_cons in Hws as [Hw Hws].
  all: mstep (peek_plain (chars "|)&;") s _ env Hl ltac:(by apply word_plain)).
  all: rewrite word_not_in, andb_false_r by (done || apply symbols_in; vm_compute; set_solver).
  - assert (Hp2 : begins_plain (pr_redirs rs ++ post)) by (destruct rs; [done|apply redir_plain]).
    destruct (gettoken_word _ _ s env Hw Hl Hp2) as [E1 Ht]. mstep E1. cbn [fst snd]. cbn [Z.eqb Pos.eqb negb].
    simpl in Hargc. rewrite (proj2 (Nat.leb_gt _ _)) by lia.
    apply left_app, left_cons in Hl. rewrite <- Nat.add_1_r in Hl.
    destruct (redirs_yield rs f (add_arg (s, (s + length w)%nat) (EXEC dargs)) _ post Hrs Hl Hp Hr ltac:(destruct Hl; lia) env) as (d & Ed & Hd).
    assert (0 < f)%nat by (destruct Hl; lia).
    mstep Ed. exists d. rewrite (args_done _ _ _ _ post) by (done || by apply left_app).
    split; [f_equal; rewrite length_app, length_pr_words_cons; simpl; lia|]. rewrite Hd. simpl. by rewrite fmap_app; simpl; rewrite Ht.
  - pose proof Hws as Hws'. apply Forall_cons in Hws' as [Hw' _].
    assert (Hp2 : begins_plain (pr_words (w' :: ws) ++ pr_redirs rs ++ post)) by (rewrite pr_words_cons; by apply word_plain).
    destruct (gettoken_word _ _ s env Hw Hl Hp2) as [E1 Ht]. mstep E1. cbn [fst snd]. cbn [Z.eqb Pos.eqb negb].
    simpl in Hargc. rewrite (proj2 (Nat.leb_gt _ _)) by lia.
    apply left_app, left_cons in Hl. rewrite <- Nat.add_1_r in Hl.
    assert (Hr2 : is_in (chars "<>") (byte_at (pr_words (w' :: ws) ++ pr_redirs rs ++ post)) = false).
    { rewrite pr_words_cons. apply word_not_in; [done|]. apply symbols_in. vm_compute. set_solver. }
    destruct (redirs_yield [] f (add_arg (s, (s + length w)%nat) (EXEC dargs)) _ _ ltac:(constructor) Hl Hp2 Hr2 ltac:(destruct Hl; lia) env) as (d & Ed & Hd).
    mstep Ed. simpl in Hd. destruct d as [dargs'| | | |]; try done. injection Hd as Hd.
    change (length (pr_redirs [])) with 0%nat. rewrite Nat.add_0_r.
    destruct (IH w' f dargs' (S argc) _ Hws ltac:(simpl; lia) Hl ltac:(destruct Hl; lia) env) as (d & E & Hd2).
    exists d. rewrite E. split; [f_equal; rewrite !length_app, (length_pr_words_cons w); lia|].
    rewrite Hd2, Hd, fmap_app. simpl. by rewrite Ht, <- app_assoc.
Qed.

(** ** The four functions *)

Definition wraps (n : nat) (c : cmd (list Z)) : cmd (list Z) := Nat.iter n BACK c.

(** A command at each level, with what may surround it. *)
Definition exec_yields (c : cmd (list Z)) : Prop := forall f s rs post,
  redirs_ok rs -> follows [124; 41; 38; 59] post -> left s (pr Lexec c ++ pr_redirs rs ++ post) ->
  (4 * (es - s) + 6 <= f)%nat ->
  yields (parseexec buf es f) s (length (pr Lexec c ++ pr_redirs rs)) (wrap rs c).

Definition pipe_yields (c : cmd (list Z)) : Prop := forall f s post,
  follows [41; 38; 59] post -> left s (pr Lpipe c ++ post) -> (4 * (es - s) + 7 <= f)%nat ->
  yields (parsepipe buf es f) s (length (pr Lpipe c)) c.

Definition back_yields (c : cmd (list Z)) : Prop := forall f s n post,
  follows [41; 59] post -> left s (pr Lback c ++ replicate n 38 ++ post) -> (4 * (es - s) + 7 <= f)%nat ->
  yields (d <- parsepipe buf es f ;; parseback buf es f d) s (length (pr Lback c) + n) (wraps n c).

Definition line_yields (c : cmd (list Z)) : Prop := forall f s post,
  follows [41] post -> left s (pr Lline c ++ post) -> (4 * (es - s) + 8 <= f)%nat ->
  yields (parseline buf es f) s (length (pr Lline c)) c.

Lemma pr_plain c : printable c -> forall lv t, begins_plain t -> begins_plain (pr lv c ++ t).
Proof.
  induction c as [argv|c IH file mode fd|l IHl r IHr|l IHl r IHr|c IH]; intros Hc lv t Ht; simpl in *.
  - destruct argv as [|w ws]; [done|]. rewrite pr_words_cons. destruct Hc as [Hw _]. apply Forall_cons in Hw as [Hw _]. by apply word_plain.
  - rewrite <- app_assoc. apply IH; [apply Hc|]. unfold begins_plain, pr_redir. simpl. by destruct (fd =? 0).
  - unfold paren. destruct lv; simpl; try done; rewrite <- app_assoc; (apply IHl; [apply Hc|done]).
  - unfold paren. destruct lv; simpl; try done; rewrite <- app_assoc; (apply IHl; [apply Hc|done]).
  - unfold paren. destruct lv; simpl; try done; rewrite <- app_assoc; (apply IH; [apply Hc|done]).
Qed.

(** Consuming a symbol that peek has seen. *)
Lemma take_symbol {A} c t toks s env (k : P A) (k' : P A) :
  left s (c :: t) -> begins_plain t -> c ∈ [124; 40; 41; 59; 38; 60] -> is_in toks c = true ->
  (b <- peek buf es toks ;; if b then gettoken buf es ;;; k else k') s env = k (S s) env.
Proof.
  intros Hl Hp Hc Ht. assert (Hsym : (c =? 124) || (c =? 40) || (c =? 41) || (c =? 59) || (c =? 38) || (c =? 60) = true /\ c <> 0 /\ is_in whitespace c = false).
  { repeat (apply elem_of_cons in Hc as [->|Hc]; [done|]). by apply elem_of_nil in Hc. }
  destruct Hsym as (Hsym & Hc0 & Hws).
  mstep (peek_plain toks s (c :: t) env Hl Hws). cbn [byte_at]. rewrite Ht, (proj2 (Z.eqb_neq c 0)) by done. cbn [negb andb].
  destruct (gettoken_symbol c t s env Hl Hp) as (w & E); [by rewrite Hsym|]. by mstep E.
Qed.

Lemma skip_symbol {A} toks t s env (k k' : P A) :
  left s t -> begins_plain t -> is_in toks (byte_at t) = false ->
  (b <- peek buf es toks ;; if b then k' else k) s env = k s env.
Proof. intros Hl Hp Ht. mstep (peek_plain toks s t env Hl Hp). by rewrite Ht, andb_false_r. Qed.

Lemma follows_not toks t x : follows toks t -> x ∉ toks -> is_in [x] (byte_at t) = false \/ x = 0.
Proof.
  intros [->|Hin] Hx; unfold is_in; simpl.
  - destruct (Z.eqb_spec x 0); [by right|by left].
  - left. destruct (Z.eqb_spec x (byte_at t)) as [->|]; done.
Qed.

Lemma exec_words argv : printable (EXEC argv) -> exec_yields (EXEC argv).
Proof.
  intros [Hw Hn] f s rs post Hrs Hfo Hl Hf env. destruct (follows_plain _ _ ltac:(done) Hfo) as (Hp & Hr & Hb).
  destruct f as [|f]; [lia|]. cbn [parseexec]. unfold parseexec_body. cbn [pr] in Hl |- *. rewrite (skip_symbol (chars "(") _ s env _ _ Hl).
  2: { destruct argv as [|w ws]; [destruct rs; [done|apply redir_plain]|]. rewrite pr_words_cons. apply word_plain. by apply Forall_cons in Hw as [? _]. }
  2: { destruct argv as [|w ws].
    - destruct rs as [|r rs]; [done|]. unfold pr_redirs, pr_redir. simpl. by destruct (_ =? 0).
    - rewrite pr_words_cons. apply word_not_in; [by apply Forall_cons in Hw as [? _]|]. apply symbols_in. vm_compute. set_solver. }
  destruct argv as [|w ws].
  - destruct (redirs_yield rs f (EXEC []) s post Hrs Hl Hp Hr ltac:(destruct Hl; lia) env) as (d & Ed & Hd). mstep Ed.
    exists d. rewrite (args_done _ _ _ _ post) by (done || lia || by apply left_app). done.
  - rewrite pr_words_cons in Hl. pose proof Hw as Hw'. apply Forall_cons in Hw' as [Hw1 _].
    assert (Hr2 : is_in (chars "<>") (byte_at (w ++ 32 :: pr_words ws ++ pr_redirs rs ++ post)) = false).
    { apply word_not_in; [done|]. apply symbols_in. vm_compute. set_solver. }
    destruct (redirs_yield [] f (EXEC []) s _ ltac:(constructor) Hl ltac:(by apply word_plain) Hr2 ltac:(destruct Hl; lia) env) as (d & Ed & Hd).
    mstep Ed. simpl in Hd. destruct d as [dargs| | | |]; try done. injection Hd as Hd.
    change (length (pr_redirs [])) with 0%nat. rewrite Nat.add_0_r. rewrite <- pr_words_cons in Hl.
    destruct (args_yield rs post Hrs Hfo ws w f dargs 0 s Hw Hn Hl ltac:(destruct Hl; lia) env) as (d & E & Hd2).
    exists d. rewrite E, Hd2, Hd. done.
Qed.

Lemma exec_redir c file mode fd : word_ok file -> redir_ok mode fd -> exec_yields c -> exec_yields (REDIR c file mode fd).
Proof.
  intros Hw Hm Hc f s rs post Hrs Hfo Hl Hf.
  assert (E : pr Lexec (REDIR c file mode fd) ++ pr_redirs rs = pr Lexec c ++ pr_redirs ((file, mode, fd) :: rs)).
  { unfold pr_redirs. simpl. by rewrite <- app_assoc. }
  rewrite E. rewrite app_assoc, E, <- app_assoc in Hl.
  apply (Hc f s ((file, mode, fd) :: rs) post); [by constructor|done|done|done].
Qed.

Lemma peek_true toks c t s env : left s (c :: t) -> is_in whitespace c = false -> is_in toks c = true ->
  peek buf es toks s env = Ok true s env.
Proof.
  intros Hl Hw Ht. rewrite (peek_plain toks s (c :: t) env Hl Hw). cbn [byte_at]. rewrite Ht.
  by rewrite (proj2 (Z.eqb_neq c 0)) by (by eapply left_nonzero).
Qed.

Lemma exec_block c : printable c -> pr Lexec c = 40 :: pr Lline c ++ [41] -> line_yields c -> exec_yields c.
Proof.
  intros Hpc Epr Hc f s rs post Hrs Hfo Hl Hf env. destruct (follows_plain _ _ ltac:(done) Hfo) as (Hp & Hr & _).
  rewrite Epr in *. rewrite <- app_comm_cons, <- app_assoc in Hl. pose proof (left_lt _ _ _ Hl) as Hlt.
  destruct f as [|[|f]]; [lia..|]. cbn [parseexec parseblock]. unfold parseexec_body, parseblock_body.
  mstep (peek_true (chars "(") 40 _ s env Hl eq_refl eq_refl). mstep (peek_true (chars "(") 40 _ s env Hl eq_refl eq_refl). cbn [negb].
  assert (Hp1 : begins_plain (pr Lline c ++ [41] ++ pr_redirs rs ++ post)) by (by apply pr_plain).
  destruct (gettoken_symbol 40 _ s env Hl Hp1 eq_refl) as (w & E). mstep E. apply left_cons in Hl.
  destruct (Hc f (S s) ([41] ++ pr_redirs rs ++ post)) with (env := env) as (d & Ed & Hd); [right; left|done|lia|].
  mstep Ed. apply left_app in Hl.
  mstep (peek_true (chars ")") 41 _ _ env Hl eq_refl eq_refl). cbn [negb].
  assert (Hp2 : begins_plain (pr_redirs rs ++ post)) by (destruct rs; [done|apply redir_plain]).
  destruct (gettoken_symbol 41 _ _ env Hl Hp2 eq_refl) as (w2 & E2). mstep E2. apply left_cons in Hl.
  destruct (redirs_yield rs f d _ post Hrs Hl Hp Hr ltac:(destruct Hl; lia) env) as (d2 & Ed2 & Hd2).
  exists d2. rewrite Ed2. split; [f_equal; rewrite length_app; simpl; rewrite length_app; simpl; lia|]. by rewrite Hd2, Hd.
Qed.

Lemma pipe_of_exec c : pr Lpipe c = pr Lexec c -> exec_yields c -> pipe_yields c.
Proof.
  intros Epr Hc f s post Hfo Hl Hf env. destruct f as [|f]; [lia|]. cbn [parsepipe]. unfold parsepipe_body. rewrite Epr in *.
  assert (Hfo' : follows [124; 41; 38; 59] post) by (destruct Hfo as [->|?]; [by left|right; set_solver]).
  destruct (Hc f s [] post) with (env := env) as (d & Ed & Hd); [constructor|done|done|lia|]. rewrite app_nil_r in Ed. mstep Ed.
  apply left_app in Hl. destruct (follows_plain _ _ ltac:(done) Hfo') as (Hp & _). exists d. split; [|done].
  rewrite (skip_symbol (chars "|") post) by (done || by destruct (follows_not _ _ 124 Hfo ltac:(set_solver))). done.
Qed.

Lemma pipe_pipe l r : printable r -> exec_yields l -> pipe_yields r -> pipe_yields (PIPE l r).
Proof.
  intros Hpr Hl_ Hr_ f s post Hfo Hl Hf env. cbn [pr paren] in *. destruct f as [|f]; [lia|]. cbn [parsepipe]. unfold parsepipe_body. rewrite <- app_assoc, <- app_comm_cons in Hl.
  destruct (Hl_ f s [] (124 :: pr Lpipe r ++ post)) with (env := env) as (d & Ed & Hd); [constructor|right; left|done|lia|].
  rewrite app_nil_r in Ed. mstep Ed. apply left_app in Hl. pose proof (left_lt _ _ _ Hl).
  assert (Hp : begins_plain post) by (apply (follows_plain [41; 38; 59]); [set_solver|done]).
  rewrite (take_symbol 124 (pr Lpipe r ++ post)) by (done || (by apply pr_plain) || set_solver). apply left_cons in Hl.
  destruct (Hr_ f (S (s + length (pr Lexec l))) post) with (env := env) as (d2 & Ed2 & Hd2); [done|exact Hl|lia|]. mstep Ed2.
  exists (PIPE d d2). split; [unfold ret; f_equal; rewrite length_app; simpl; lia|]. simpl. by rewrite Hd, Hd2.
Qed.

(** The ampersands behind a command. *)
Lemma backs_yield n : forall f d s post, follows [41; 59] post -> left s (replicate n 38 ++ post) -> (es - s < f)%nat ->
  yields (parseback buf es f d) s n (wraps n (cmd_map text d)).
Proof.
  induction n as [|n IH]; intros f d s post Hfo Hl Hf env; (destruct f as [|f]; [lia|]); cbn [parseback].
  - destruct (follows_plain [41; 59] post ltac:(set_solver) Hfo) as (Hp & _). exists d. split; [|done].
    rewrite (skip_symbol (chars "&") post) by (done || by destruct (follows_not _ _ 38 Hfo ltac:(set_solver))).
    unfold ret. by rewrite Nat.add_0_r.
  - assert (Hp : begins_plain (replicate n 38 ++ post)) by (destruct n; [by apply (follows_plain [41; 59]); [set_solver|]|done]).
    simpl in Hl. pose proof (left_lt _ _ _ Hl). rewrite (take_symbol 38 (replicate n 38 ++ post)) by (done || set_solver). apply left_cons in Hl.
    destruct (IH f (BACK d) (S s) post Hfo Hl ltac:(lia) env) as (d' & E & Hd). exists d'. rewrite E. split; [f_equal; lia|].
    rewrite Hd. simpl. unfold wraps. by rewrite <- Nat.iter_succ_r.
Qed.

Lemma back_of_pipe c : pr Lback c = pr Lpipe c -> pipe_yields c -> back_yields c.
Proof.
  intros Epr Hc f s n post Hfo Hl Hf env. rewrite Epr in *.
  destruct (Hc f s (replicate n 38 ++ post)) with (env := env) as (d & Ed & Hd); [|done|lia|].
  { destruct n; [|right; simpl; set_solver]. destruct Hfo as [->|?]; [by left|right; set_solver]. }
  mstep Ed. apply left_app in Hl. destruct (backs_yield n f d _ post Hfo Hl ltac:(destruct Hl; lia) env) as (d' & E & Hd').
  exists d'. rewrite E. split; [f_equal; lia|]. by rewrite Hd', Hd.
Qed.

Lemma back_back c : back_yields c -> back_yields (BACK c).
Proof.
  intros Hc f s n post Hfo Hl Hf env. cbn [pr paren] in *. rewrite <- app_assoc in Hl.
  destruct (Hc f s (S n) post Hfo Hl Hf env) as (d & E & Hd). exists d. rewrite E. split; [f_equal; rewrite length_app; simpl; lia|].
  rewrite Hd. unfold wraps. by rewrite Nat.iter_succ_r.
Qed.

Lemma line_of_back c : pr Lline c = pr Lback c -> back_yields c -> line_yields c.
Proof.
  intros Epr Hc f s post Hfo Hl Hf env. destruct f as [|f]; [lia|]. cbn [parseline]. rewrite Epr in *.
  assert (Hfo' : follows [41; 59] post) by (destruct Hfo as [->|?]; [by left|right; set_solver]).
  destruct (Hc f s 0%nat post Hfo' Hl ltac:(lia) env) as (d & E & Hd). rewrite <- bind_assoc. mstep E.
  apply left_app in Hl. rewrite Nat.add_0_r. destruct (follows_plain [41] post ltac:(set_solver) Hfo) as (Hp & _).
  exists d. split; [|done]. rewrite (skip_symbol (chars ";") post) by (done || by destruct (follows_not _ _ 59 Hfo ltac:(set_solver))). done.
Qed.

Lemma line_list l r : printable r -> back_yields l -> line_yields r -> line_yields (LIST l r).
Proof.
  intros Hpr Hl_ Hr_ f s post Hfo Hl Hf env. cbn [pr paren] in *. destruct f as [|f]; [lia|]. cbn [parseline]. rewrite <- app_assoc, <- app_comm_cons in Hl.
  destruct (Hl_ f s 0%nat (59 :: pr Lline r ++ post)) with (env := env) as (d & E & Hd); [right; set_solver|done|lia|].
  rewrite <- bind_assoc. mstep E. apply left_app in Hl. rewrite Nat.add_0_r. pose proof (left_lt _ _ _ Hl).
  assert (Hp : begins_plain post) by (apply (follows_plain [41]); [set_solver|done]).
  rewrite (take_symbol 59 (pr Lline r ++ post)) by (done || (by apply pr_plain) || set_solver). apply left_cons in Hl.
  destruct (Hr_ f (S (s + length (pr Lback l))) post) with (env := env) as (d2 & Ed2 & Hd2); [done|exact Hl|lia|]. mstep Ed2.
  exists (LIST d d2). split; [unfold ret; f_equal; rewrite length_app; simpl; lia|]. simpl. by rewrite Hd2, Hd.
Qed.

Lemma all_yield c : printable c -> exec_yields c /\ pipe_yields c /\ back_yields c /\ line_yields c.
Proof.
  induction c as [argv|c IH file mode fd|l IHl r IHr|l IHl r IHr|c IH]; intros Hc.
  - assert (exec_yields (EXEC argv)) by (by apply exec_words).
    assert (pipe_yields (EXEC argv)) by (by apply pipe_of_exec).
    assert (back_yields (EXEC argv)) by (by apply back_of_pipe). split_and!; try done. by apply line_of_back.
  - destruct Hc as (Hc & Hw & Hm). destruct (IH Hc) as (He & _).
    assert (exec_yields (REDIR c file mode fd)) by (by apply exec_redir).
    assert (pipe_yields (REDIR c file mode fd)) by (by apply pipe_of_exec).
    assert (back_yields (REDIR c file mode fd)) by (by apply back_of_pipe). split_and!; try done. by apply line_of_back.
  - destruct Hc as (Hpl & Hpr). destruct (IHl Hpl) as (El & _), (IHr Hpr) as (_ & Pr & _).
    assert (pipe_yields (PIPE l r)) by (by apply pipe_pipe). assert (back_yields (PIPE l r)) by (by apply back_of_pipe).
    assert (line_yields (PIPE l r)) by (by apply line_of_back). split_and!; try done. by apply exec_block.
  - destruct Hc as (Hpl & Hpr). destruct (IHl Hpl) as (_ & _ & Bl & _), (IHr Hpr) as (_ & _ & _ & Lr).
    assert (line_yields (LIST l r)) by (by apply line_list). assert (exec_yields (LIST l r)) by (by apply exec_block).
    assert (pipe_yields (LIST l r)) by (by apply pipe_of_exec). split_and!; try done. by apply back_of_pipe.
  - destruct (IH Hc) as (_ & _ & Bc & _). assert (back_yields (BACK c)) by (by apply back_back).
    assert (line_yields (BACK c)) by (by apply line_of_back). assert (exec_yields (BACK c)) by (by apply exec_block).
    split_and!; try done. by apply pipe_of_exec.
Qed.
End Line.

Lemma cmd_map_ext {A B} (f g : A -> B) c : (forall w, w ∈ words c -> f w = g w) -> cmd_map f c = cmd_map g c.
Proof.
  induction c as [argv|c IH file mode fd|l IHl r IHr|l IHl r IHr|c IH]; intros Hw; simpl in *.
  - f_equal. apply list_fmap_ext. intros i x Hx. apply Hw. by eapply list_elem_of_lookup_2.
  - rewrite IH, Hw by set_solver. done.
  - rewrite IHl, IHr by set_solver. done.
  - rewrite IHl, IHr by set_solver. done.
  - by rewrite IH.
Qed.

Lemma pr_words_nonzero argv : Forall word_ok argv -> 0 ∉ pr_words argv.
Proof.
  induction 1 as [|w ws [_ Hw] _ IH]; [by apply not_elem_of_nil|]. rewrite <- (app_nil_r (pr_words _)), pr_words_cons, app_nil_r.
  rewrite Forall_forall in Hw. intros [Hin|[Hin|Hin]%elem_of_cons]%elem_of_app; [by apply Hw in Hin as [_ ?]|done|done].
Qed.

Lemma pr_nonzero c : printable c -> forall lv, 0 ∉ pr lv c.
Proof.
  assert (Hparen : forall b t, 0 ∉ t -> 0 ∉ paren b t).
  { intros [] t Ht; [|done]. unfold paren. rewrite elem_of_cons, elem_of_app, list_elem_of_singleton. naive_solver lia. }
  induction c as [argv|c IH file mode fd|l IHl r IHr|l IHl r IHr|c IH]; intros Hc lv; simpl in *.
  - by apply pr_words_nonzero, Hc.
  - destruct Hc as (Hc & [_ Hw] & _). rewrite Forall_forall in Hw. specialize (IH Hc Lexec). unfold pr_redir.
    rewrite elem_of_app, elem_of_cons, elem_of_app, list_elem_of_singleton.
    intros [?|[Hz|[Hz|?]]]; [done|by destruct (fd =? 0)|by apply Hw in Hz as [_ ?]|done].
  - apply Hparen. destruct Hc as [Hl Hr]. specialize (IHl Hl Lexec). specialize (IHr Hr Lpipe). rewrite elem_of_app, elem_of_cons. naive_solver lia.
  - apply Hparen. destruct Hc as [Hl Hr]. specialize (IHl Hl Lback). specialize (IHr Hr Lline). rewrite elem_of_app, elem_of_cons. naive_solver lia.
  - apply Hparen. specialize (IH Hc Lback). rewrite elem_of_app, list_elem_of_singleton. naive_solver lia.
Qed.

(** C36: parsing is the inverse of printing. Every command built from words
    of word characters, at most nine of them per program, and from the
    redirections of the syntax, printed with parentheses only where the
    grammar needs them, is parsed back to itself, with its words read from
    the buffer that the parser has split in place. *)
Theorem parse_print c rest env :
  printable c ->
  exists d buf' s', parsecmd (pr Lline c ++ 0 :: rest) 0%nat env = Ok (d, buf') s' env /\ cmd_map (cstr buf') d = c.
Proof.
  intros Hc. set (line := pr Lline c). assert (Hline : 0 ∉ line) by (by apply pr_nonzero).
  unfold parsecmd. rewrite length_upto_nul by done.
  destruct (all_yield line rest Hline c Hc) as (_ & _ & _ & Hy).
  assert (Hl0 : left line 0 (pr Lline c ++ [])) by (split; [lia|by rewrite app_nil_r]).
  destruct (Hy (parse_fuel (length line)) 0%nat [] ltac:(by left) Hl0 ltac:(unfold parse_fuel; lia) env) as (d & Ed & Hd).
  mstep Ed. fold line. rewrite Nat.add_0_l.
  assert (Hle : left line (length line) []) by (split; [lia|apply drop_all]).
  mstep (peek_plain line rest [] _ [] env Hle ltac:(done)). unfold get_pos. mrun. rewrite Nat.eqb_refl. cbn [negb].
  eexists _, _, _. split; [reflexivity|]. rewrite <- Hd. apply cmd_map_ext. intros w Hw. rewrite nulterminate_words. unfold text.
  apply word_reads; [done| |done].
  pose proof (parse_runs _ _ (line_end line rest) (fun i Hi => proj2 (line_char line rest Hline i Hi)) (parse_fuel (length line)) 0 ltac:(lia)) as (Hp & _).
  specialize (Hp ltac:(unfold parse_fuel; lia) env). unfold wp in Hp. rewrite Ed in Hp. apply Hp.
Qed.

(** [(a | b x) < f ; c &] *)
Definition demo_cmd : cmd (list Z) :=
  LIST (REDIR (PIPE (EXEC [chars "a"]) (EXEC [chars "b"; chars "x"])) (chars "f") O_RDONLY 0)
       (BACK (EXEC [chars "c"])).

Lemma demo_printable : printable demo_cmd.
Proof.
  assert (forall w, w <> [] -> forallb (fun c => is_word_char c && negb (c =? 0)) w = true -> word_ok w) as Hw.
  { intros w Hne Hw. split; [done|]. apply Forall_forall. intros c Hc. rewrite forallb_forall in Hw.
    apply list_elem_of_In, Hw, andb_true_iff in Hc as [? ?%negb_true_iff%Z.eqb_neq]. done. }
  assert (forall ws, Forall (fun w => w <> []) ws ->
    forallb (forallb (fun c => is_word_char c && negb (c =? 0))) ws = true -> Forall word_ok ws) as Hws.
  { intros ws Hne E. rewrite forallb_forall in E. apply Forall_forall. intros w Hin. rewrite Forall_forall in Hne.
    apply Hw; [by apply Hne|by apply E, list_elem_of_In]. }
  simpl. split_and!; try (by apply Hws; [repeat constructor|]); try (by apply Hw); try (unfold MAXARGS; simpl; lia); try done; by left.
Qed.

Lemma parse_print_witness :
  exists d buf' s', parsecmd (pr Lline demo_cmd ++ [0]) 0%nat [] = Ok (d, buf') s' [] /\ cmd_map (cstr buf') d = demo_cmd.
Proof. apply (parse_print demo_cmd [] []). exact demo_printable. Defined.

End ShPrint.
