(* ===== verification/UlibFacts.v ===== *)
(** What the user library prints and reads (ulib/printf.c, atoi of
    ulib/ulib.c), against the [Stdio] interface. *)
From S2P Require Import Prelude Types Cstring Console User Ulib.
Import Cstring Console User Ulib.

Module UlibFacts.

(** ** Output *)

Create HintDb says.

Section Output.
Context {G W : Type} `{Stdio W}.

(** [w'] is [w] after [out] was written to [fd]. *)
Definition wrote (fd : Z) (out : list Z) (w w' : W) : Prop :=
  written w' fd = written w fd ++ out /\ (forall fd', pending w' fd' = pending w fd') /\
  forall fd', fd' <> fd -> written w' fd' = written w fd'.

(** The computation writes [out] to [fd] and does nothing else. *)
Definition says (fd : Z) (out : list Z) (m : U G W unit) : Prop :=
  forall s env, exists w', m s env = Ok tt (set_wld w' s) env /\ wrote fd out s.(wld) w'.

Lemma wrote_nil fd w : wrote fd [] w w.
Proof. split_and!; [by rewrite app_nil_r|done|done]. Qed.

Lemma wrote_app fd o1 o2 w1 w2 w3 : wrote fd o1 w1 w2 -> wrote fd o2 w2 w3 -> wrote fd (o1 ++ o2) w1 w3.
Proof.
  intros (E1 & P1 & O1) (E2 & P2 & O2). split_and!.
  - by rewrite E2, E1, app_assoc.
  - intros fd'. by rewrite P2, P1.
  - intros fd' Hne. by rewrite O2, O1.
Qed.

Lemma says_ret fd : says fd [] (ret tt).
Proof. intros s env. exists s.(wld). split; [by destruct s|apply wrote_nil]. Qed.

Lemma says_bind fd o1 o2 m k : says fd o1 m -> says fd o2 k -> says fd (o1 ++ o2) (m ;;; k).
Proof.
  intros Hm Hk s env. destruct (Hm s env) as (w1 & E1 & R1). destruct (Hk (set_wld w1 s) env) as (w2 & E2 & R2).
  exists w2. mstep E1. rewrite E2. split; [done|by eapply wrote_app].
Qed.

Lemma says_putc fd c : says fd [u8 c] (putc fd c).
Proof.
  intros s env. destruct (write_all s.(wld) fd [u8 c]) as (w' & E & P & Wr & O). exists w'. unfold putc. ucall E.
  split; [done|]. by split_and!.
Qed.

Lemma says_chars fd l : Forall (fun c => 0 <= c < 256) l -> says fd l (mfor l (putc fd)).
Proof.
  induction 1 as [|c l Hc _ IH]; [apply says_ret|]. simpl. change (c :: l) with ([c] ++ l).
  replace [c] with [u8 c] by (unfold u8; rewrite Z.mod_small; [done|lia]). apply says_bind; [apply says_putc|done].
Qed.
End Output.

#[export] Hint Resolve says_ret says_putc says_bind says_chars : says.

(** ** Numbers *)

(** What [printint] writes. *)
Definition fmt_int (xx base : Z) (sgn : bool) : list Z :=
  let neg := sgn && (xx <? 0) in
  (if neg then [45] else []) ++ rev (digits_upper 32 (if neg then u32 (- xx) else u32 xx) base).

Lemma digits_upper_range fuel x base : 2 <= base <= 16 -> 0 <= x ->
  Forall (fun c => 48 <= c < 71) (digits_upper fuel x base).
Proof.
  intros Hb. revert x. induction fuel as [|f IH]; intros x Hx; simpl; [constructor|]. constructor.
  - pose proof (Z.mod_pos_bound x base). unfold digit_upper. destruct (Z.ltb_spec (x mod base) 10); lia.
  - destruct (_ =? _); [constructor|]. apply IH. apply Z.div_pos; lia.
Qed.

Lemma fmt_int_range xx base sgn : 2 <= base <= 16 -> Forall (fun c => 0 <= c < 256) (fmt_int xx base sgn).
Proof.
  intros Hb. unfold fmt_int. apply Forall_app. split; [destruct (sgn && _); repeat constructor; lia|].
  apply Forall_rev. eapply Forall_impl; [apply digits_upper_range; [done|]|simpl; lia].
  destruct (sgn && _); unfold u32; apply Z.mod_pos_bound; lia.
Qed.

Lemma says_printint {G W} `{Stdio W} fd xx base sgn : 2 <= base <= 16 ->
  says (G := G) fd (fmt_int xx base sgn) (printint fd xx base sgn).
Proof.
  intros Hb. unfold printint. pose proof (fmt_int_range xx base sgn Hb) as Hr. unfold fmt_int in *.
  rewrite rev_app_distr. replace (rev (if sgn && (xx <? 0) then [45] else [])) with (if sgn && (xx <? 0) then [45] else [])
    by (by destruct (sgn && _)). by apply says_chars.
Qed.

(** Reading decimal digits back. *)
Fixpoint dec (n : Z) (l : list Z) : Z := match l with [] => n | c :: l' => dec (10 * n + (c - 48)) l' end.

Lemma dec_app n l k : dec n (l ++ k) = dec (dec n l) k.
Proof. revert n. induction l as [|c l IH]; intros n; simpl; [done|apply IH]. Qed.

Lemma dec_digits fuel x : 0 <= x < 10 ^ Z.of_nat fuel -> (0 < fuel)%nat -> dec 0 (rev (digits_upper fuel x 10)) = x.
Proof.
  revert x. induction fuel as [|f IH]; intros x Hx Hf; [lia|]. cbn [digits_upper rev]. rewrite dec_app.
  assert (Hm := Z.mod_pos_bound x 10 ltac:(lia)). assert (Hd := Z.div_mod x 10 ltac:(lia)).
  unfold digit_upper. rewrite (proj2 (Z.ltb_lt (x mod 10) 10)) by lia. destruct (Z.eqb_spec (x / 10) 0) as [E|E].
  - simpl. lia.
  - rewrite Nat2Z.inj_succ, Z.pow_succ_r in Hx by lia. assert (0 <= x / 10 < 10 ^ Z.of_nat f) by (split; [apply Z.div_pos|apply Z.div_lt_upper_bound]; lia).
    rewrite IH; [simpl; lia|done|]. destruct f; [simpl in *; lia|lia].
Qed.

Lemma digits_dec fuel x : 0 <= x -> Forall (fun c => 48 <= c <= 57) (digits_upper fuel x 10).
Proof.
  revert x. induction fuel as [|f IH]; intros x Hx; simpl; [constructor|]. constructor.
  - assert (Hm := Z.mod_pos_bound x 10 ltac:(lia)). unfold digit_upper. rewrite (proj2 (Z.ltb_lt _ 10)) by lia. lia.
  - destruct (_ =? _); [constructor|]. apply IH, Z.div_pos; lia.
Qed.

(** The value grows with every digit, so no step of atoi wraps around. *)
Lemma dec_mono n l : 0 <= n -> Forall (fun c => 48 <= c <= 57) l -> n <= dec n l.
Proof.
  intros Hn Hl. revert n Hn. induction Hl as [|c l Hc _ IH]; intros n Hn; simpl; [lia|]. pose proof (IH (10 * n + (c - 48)) ltac:(lia)). lia.
Qed.

Lemma atoi_loop_dec n l : 0 <= n -> Forall (fun c => 48 <= c <= 57) l -> dec n l < 2 ^ 31 -> atoi_loop n l = dec n l.
Proof.
  intros Hn Hl. revert n Hn. induction Hl as [|c l Hc Hl IH]; intros n Hn Hd; [done|]. cbn [atoi_loop dec] in *.
  rewrite (proj2 (Z.leb_le 48 c)), (proj2 (Z.leb_le c 57)) by lia. cbn [andb].
  pose proof (dec_mono (10 * n + (c - 48)) l ltac:(lia) Hl) as Hm.
  assert (s32 (n * 10 + c - 48) = 10 * n + (c - 48)) as -> by (rewrite s32_small by lia; lia).
  apply IH; [lia|done].
Qed.

(** Atoi reads back what printf prints: for every non-negative int the
    decimal conversion writes digits from which atoi gives the number. *)
Theorem atoi_printed {G W} `{Stdio W} fd x (s : ust G W) env : 0 <= x < 2 ^ 31 ->
  exists ds w', printf fd [37; 100] [PInt x] s env = Ok tt (set_wld w' s) env /\ wrote fd ds s.(wld) w' /\ atoi ds = x.
Proof.
  intros Hx. destruct (says_printint (G := G) fd x 10 true ltac:(lia) s env) as (w' & E & Hw).
  exists (fmt_int x 10 true), w'. split_and!; [|done|].
  - unfold printf. cbn [printf_loop]. assert (s32 x = x) as Es by (apply s32_small; lia). cbn. rewrite Es. by mstep E.
  - unfold fmt_int, atoi. rewrite (proj2 (Z.ltb_ge x 0)) by lia. cbn [app andb]. rewrite u32_small by lia.
    assert (Hds : Forall (fun c => 48 <= c <= 57) (rev (digits_upper 32 x 10))) by (apply Forall_rev, digits_dec; lia).
    assert (Hdec : dec 0 (rev (digits_upper 32 x 10)) = x) by (apply dec_digits; [split; [lia|]; change (10 ^ Z.of_nat 32) with 100000000000000000000000000000000; lia|lia]).
    rewrite atoi_loop_dec by (done || lia). done.
Qed.

Lemma atoi_printed_witness : let s : ust unit tty := Mkust tt (Mktty ∅ ∅ []) in
  exists ds w', printf 1 [37; 100] [PInt 2022] s [] = Ok tt (set_wld w' s) [] /\ wrote 1 ds s.(wld) w' /\ atoi ds = 2022.
Proof. apply atoi_printed. lia. Defined.

End UlibFacts.
