(* ===== verification/Umalloc.v ===== *)
(** The user-level allocator (ulib/umalloc.c), by Kernighan and Ritchie: free
    blocks form a circular list in address order, with headers in memory. The
    heap grows by sbrk; memory above the break has arbitrary contents, and
    sbrk itself does not change it here, since the allocator reads no byte
    that it has not written. *)
From S2P Require Import Prelude Cstring User.
Import Cstring User.

Module Umalloc.

(** The memory of the program, and the static variable [freep]. A header is
    eight bytes: the pointer and the size in units of headers. *)
Record heap : Type := Mkheap { umem : memory; freep : Z }.

Definition HDR : Z := 8.

Section Umalloc.
Context {W : Type} `{Sys W}.

(** Where the linker puts the static variable [base]. *)
Context (base : Z).

Abbreviation P := (U heap W).

(** p->s.ptr, p->s.size and assignments to them; [freep = p]. *)
Definition get_ptr (p : Z) : P Z := getg (fun h => load32 h.(umem) p).
Definition get_size (p : Z) : P Z := getg (fun h => load32 h.(umem) (p + 4)).
Definition put_ptr (p v : Z) : P unit := modg (fun h => Mkheap (store32 h.(umem) p v) h.(freep)).
Definition put_size (p v : Z) : P unit := modg (fun h => Mkheap (store32 h.(umem) (p + 4) (u32 v)) h.(freep)).
Definition set_freep (p : Z) : P unit := modg (fun h => Mkheap h.(umem) p).

(* for (p = freep; !(bp > p && bp < p->s.ptr); p = p->s.ptr) *)
Fixpoint free_search (fuel : nat) (bp p : Z) : P Z :=
  match fuel with
  | O => fail NoFuel
  | S f =>
      q <- get_ptr p ;;
      if (p <? bp) && (bp <? q) then ret p
      else if (q <=? p) && ((p <? bp) || (bp <? q)) then ret p
      else free_search f bp q
  end.

Definition free (fuel : nat) (ap : Z) : P unit :=
  let bp := ap - HDR in
  fp <- getg freep ;;
  p <- free_search fuel bp fp ;;
  n <- get_size bp ;;
  q <- get_ptr p ;;
  (if bp + HDR * n =? q then
     qn <- get_size q ;;
     put_size bp (n + qn) ;;;
     q <- get_ptr p ;;
     qp <- get_ptr q ;;
     put_ptr bp qp
   else put_ptr bp q) ;;;
  pn <- get_size p ;;
  (if p + HDR * pn =? bp then
     bn <- get_size bp ;;
     put_size p (pn + bn) ;;;
     bptr <- get_ptr bp ;;
     put_ptr p bptr
   else put_ptr p bp) ;;;
  set_freep p.

Definition morecore (fuel : nat) (nu : Z) : P Z :=
  let nu := if nu <? 4096 then 4096 else nu in
  p <- call (u_sbrk (s32 (nu * HDR))) ;;
  if p =? -1 then ret 0 else
  put_size p nu ;;;
  free fuel (p + HDR) ;;;
  getg freep.

(* for (p = prevp->s.ptr; ; prevp = p, p = p->s.ptr) *)
Fixpoint malloc_loop (fuel : nat) (nunits prevp p : Z) : P Z :=
  match fuel with
  | O => fail NoFuel
  | S f =>
      size <- get_size p ;;
      if nunits <=? size then
        p <- (if size =? nunits then
                q <- get_ptr p ;;
                put_ptr prevp q ;;;
                ret p
              else
                put_size p (size - nunits) ;;;
                size' <- get_size p ;;
                let p := p + HDR * size' in
                put_size p nunits ;;;
                ret p) ;;
        set_freep prevp ;;;
        ret (p + HDR)
      else
        fp <- getg freep ;;
        if p =? fp then
          p <- morecore fuel nunits ;;
          if p =? 0 then ret 0 else
          q <- get_ptr p ;;
          malloc_loop f nunits p q
        else
          q <- get_ptr p ;;
          malloc_loop f nunits p q
  end.

Definition malloc (fuel : nat) (nbytes : Z) : P Z :=
  let nunits := u32 (nbytes + HDR - 1) / HDR + 1 in
  fp <- getg freep ;;
  prevp <- (if fp =? 0 then
              put_ptr base base ;;;
              set_freep base ;;;
              put_size base 0 ;;;
              ret base
            else ret fp) ;;
  p <- get_ptr prevp ;;
  malloc_loop fuel nunits prevp p.
End Umalloc.

End Umalloc.
