(* ===== verification/Blocks.v ===== *)
(** Lists of memory blocks: which bytes they hold, blocks in address order,
    joining of adjacent blocks, and blocks linked through headers in memory.
    This is the vocabulary of the allocator's invariant. *)
From stdpp Require Import sorting.
From S2P Require Import Prelude Cstring.
Import Cstring.

Module Blocks.

(** ** Blocks *)

(** A block: its address and its size in headers. [cnt l x] tells how many
    blocks of [l] the byte at [x] lies in. *)
Abbreviation block := (Z * Z)%type.

Definition inb (x : Z) (b : block) : Z := if (b.1 <=? x) && (x <? b.1 + 8 * b.2) then 1 else 0.
Fixpoint cnt (l : list block) (x : Z) : Z :=
  match l with [] => 0 | b :: l' => inb x b + cnt l' x end.

(** The list that starts at the first of the blocks, or at [e]. *)
Definition first (l : list block) (e : Z) : Z := match l with [] => e | b :: _ => b.1 end.

(** The blocks [l] linked through their headers; the last points to [e]. *)
Fixpoint linked (m : memory) (l : list block) (e : Z) : Prop :=
  match l with
  | [] => True
  | b :: l' => load32 m b.1 = first l' e /\ load32 m (b.1 + 4) = b.2 /\ linked m l' e
  end.

(** Headers and blocks in order; in order and with a gap between them. *)
Definition ord (x y : block) : Prop := x.1 + 8 <= y.1 /\ x.1 + 8 * x.2 <= y.1.
Definition gap (x y : block) : Prop := x.1 + 8 <= y.1 /\ x.1 + 8 * x.2 < y.1.

(** A block in front of a list, joined with the first block if adjacent; a
    block put in its place in an ordered list. *)
Definition join (x : block) (l : list block) : list block :=
  match l with
  | y :: l' => if x.1 + 8 * x.2 =? y.1 then (x.1, x.2 + y.2) :: l' else x :: l
  | [] => [x]
  end.
Fixpoint place (b : block) (l : list block) : list block :=
  match l with
  | [] => [b]
  | y :: l' => if b.1 <? y.1 then join b l else join y (place b l')
  end.

#[global] Arguments join : simpl never.

Lemma cnt_app l k x : cnt (l ++ k) x = cnt l x + cnt k x.
Proof. induction l as [|b l IH]; simpl; [done|]. rewrite IH. lia. Qed.

Lemma inb_bounds x b : 0 <= inb x b <= 1.
Proof. unfold inb. by destruct (_ && _). Qed.

Lemma cnt_nonneg l x : 0 <= cnt l x.
Proof. induction l as [|b l IH]; simpl; [lia|]. pose proof (inb_bounds x b). lia. Qed.

Lemma cnt_in l x b : b ∈ l -> inb x b <= cnt l x.
Proof.
  induction 1 as [b l|b c l _ IH]; simpl.
  - pose proof (cnt_nonneg l x). lia.
  - pose proof (inb_bounds x c). lia.
Qed.

#[global] Instance cnt_perm x : Proper ((≡ₚ) ==> eq) (fun l => cnt l x).
Proof. intros l k Hp. induction Hp; simpl; lia. Qed.

Lemma inb_in x b : b.1 <= x < b.1 + 8 * b.2 -> inb x b = 1.
Proof. intros Hx. unfold inb. by rewrite (proj2 (Z.leb_le _ _)), (proj2 (Z.ltb_lt _ _)) by lia. Qed.

Lemma inb_split x a n k : 0 <= k <= n -> inb x (a, n) = inb x (a, k) + inb x (a + 8 * k, n - k).
Proof.
  intros Hk. unfold inb. simpl.
  repeat match goal with |- context [?a <=? ?b] => destruct (Z.leb_spec a b) | |- context [?a <? ?b] => destruct (Z.ltb_spec a b) end; simpl; lia.
Qed.

Lemma cnt_join x b l : 0 <= b.2 -> Forall (fun y => 0 <= y.2) l -> cnt (join b l) x = inb x b + cnt l x.
Proof.
  intros Hb Hl. unfold join. destruct b as [a n], l as [|[c k] l]; simpl in *; [done|].
  apply Forall_cons in Hl as [Hk _]. simpl in Hk. destruct (Z.eqb_spec (a + 8 * n) c) as [<-|]; simpl; [|done].
  rewrite (inb_split x a (n + k) n) by lia. replace (n + k - n) with k by lia. lia.
Qed.

Lemma join_sizes b l : 1 <= b.2 -> Forall (fun y => 1 <= y.2) l -> Forall (fun y => 1 <= y.2) (join b l).
Proof.
  intros Hb Hl. unfold join. destruct l as [|c l]; [by constructor|]. destruct (_ =? _); [|by constructor].
  inversion Hl; subst. constructor; simpl; [lia|done].
Qed.

Lemma place_sizes b l : 1 <= b.2 -> Forall (fun y => 1 <= y.2) l -> Forall (fun y => 1 <= y.2) (place b l).
Proof.
  intros Hb Hl. induction Hl as [|c l Hc Hl IH]; simpl; [by constructor|].
  destruct (_ <? _); [apply join_sizes; [done|by constructor]|by apply join_sizes].
Qed.

Lemma sizes_weaken l : Forall (fun y : block => 1 <= y.2) l -> Forall (fun y => 0 <= y.2) l.
Proof. intros Hl. eapply Forall_impl; [exact Hl|]. intros y Hy. simpl in *. lia. Qed.

Lemma cnt_place x b l : 1 <= b.2 -> Forall (fun y => 1 <= y.2) l -> cnt (place b l) x = inb x b + cnt l x.
Proof.
  intros Hb Hl. induction Hl as [|c l Hc Hl IH]; simpl; [done|]. destruct (_ <? _).
  - rewrite cnt_join by (first [lia|constructor; [lia|by apply sizes_weaken]]). done.
  - rewrite cnt_join by (first [lia|by apply sizes_weaken, place_sizes]). rewrite IH. lia.
Qed.

(** ** Order *)

Lemma first_sorted (R : block -> block -> Prop) b l :
  StronglySorted R (b :: l) -> forall y k, l = y :: k -> R b y.
Proof. intros Hs y k ->. apply StronglySorted_inv in Hs as [_ Hs]. by apply Forall_cons in Hs as [? _]. Qed.

Lemma behind b l : StronglySorted gap l -> (forall y k, l = y :: k -> b < y.1) -> Forall (fun y => b < y.1) l.
Proof.
  intros Hs Hf. destruct l as [|y l]; [done|]. pose proof (Hf _ _ eq_refl) as Hby.
  apply StronglySorted_inv in Hs as [_ Hs]. constructor; [done|]. eapply Forall_impl; [exact Hs|]. intros z Hz. unfold gap in Hz. lia.
Qed.

(** All blocks of a list in order lie behind one that lies before the first. *)
Lemma gap_all b l : StronglySorted gap l -> (forall y k, l = y :: k -> gap b y) ->
  Forall (fun y => 1 <= y.2) l -> Forall (gap b) l.
Proof.
  intros Hs Hf Hp. destruct l as [|y l]; [done|]. pose proof (Hf _ _ eq_refl) as Hby.
  apply StronglySorted_inv in Hs as [_ Hs]. apply Forall_cons in Hp as [Hy _]. constructor; [done|].
  eapply Forall_impl; [exact Hs|]. intros z Hz. unfold gap in *. lia.
Qed.

Lemma join_sorted b l : StronglySorted gap l -> (forall y k, l = y :: k -> ord b y) -> 1 <= b.2 ->
  Forall (fun y => 1 <= y.2) l -> StronglySorted gap (join b l).
Proof.
  intros Hs Hf Hb Hp. unfold join. destruct l as [|y l]; [by repeat constructor|]. pose proof (Hf _ _ eq_refl) as Hby.
  apply Forall_cons in Hp as [Hy Hp]. destruct (Z.eqb_spec (b.1 + 8 * b.2) y.1) as [E|E].
  - apply StronglySorted_inv in Hs as [Hs Hy']. constructor; [done|]. eapply Forall_impl; [exact Hy'|].
    intros z Hz. unfold gap in *. simpl. lia.
  - constructor; [done|]. apply gap_all; [done| |by constructor]. intros y' k [= <- <-]. unfold ord, gap in *. lia.
Qed.

(** The block before which or behind which a list begins, after [place]. *)
Lemma join_first b l y k : join b l = y :: k -> y.1 = b.1.
Proof. unfold join. destruct l as [|c l]; [|destruct (_ =? _)]; intros [= <- <-]; done. Qed.

Lemma place_first b l y k : place b l = y :: k -> y.1 = b.1 \/ exists c l', l = c :: l' /\ y.1 = c.1.
Proof.
  destruct l as [|c l]; simpl; [intros [= <- <-]; by left|].
  destruct (_ <? _); intros E%join_first; [by left|]. right. eauto.
Qed.

Lemma place_sorted b l : StronglySorted gap l -> Forall (fun y => ord b y \/ ord y b) l -> 1 <= b.2 ->
  Forall (fun y => 1 <= y.2) l -> StronglySorted gap (place b l).
Proof.
  intros Hs Ho Hb Hp. induction l as [|c l IH]; simpl; [by repeat constructor|].
  inversion Ho as [|? ? Hc Hol]; inversion Hp as [|? ? Hcp Hpl]; subst. destruct (Z.ltb_spec b.1 c.1) as [Hlt|Hge].
  - apply join_sorted; [done| |done|done]. intros y k [= <- <-]. unfold ord in *. lia.
  - apply StronglySorted_inv in Hs as [Hs Hcl]. apply join_sorted; [by apply IH| |done|by apply place_sizes].
    intros y k [E|(c' & l' & -> & E)]%place_first; [unfold ord in *; lia|].
    apply Forall_cons in Hcl as [Hcc _]. unfold gap, ord in *. lia.
Qed.

(** Behind blocks that lie before it, [place] acts on the rest of the list. *)
Lemma join_gap c l : (forall y k, l = y :: k -> gap c y) -> join c l = c :: l.
Proof.
  unfold join. destruct l as [|y l]; [done|]. intros Hf. specialize (Hf _ _ eq_refl). unfold gap in Hf. by rewrite (proj2 (Z.eqb_neq _ _)) by lia.
Qed.

Lemma place_at b l1 c l2 : StronglySorted gap (l1 ++ c :: l2) -> Forall (fun y => y.1 < b.1) (l1 ++ [c]) ->
  (forall y k, l2 = y :: k -> b.1 < y.1) -> place b (l1 ++ c :: l2) = l1 ++ join c (join b l2).
Proof.
  intros Hs Hlt H2. induction l1 as [|d l1 IH]; simpl in *.
  - apply Forall_cons in Hlt as [Hc _]. rewrite (proj2 (Z.ltb_ge _ _)) by lia. f_equal.
    destruct l2 as [|y l2]; simpl; [done|]. by rewrite (proj2 (Z.ltb_lt _ _)) by (by eapply H2).
  - apply Forall_cons in Hlt as [Hd Hlt]. apply StronglySorted_inv in Hs as [Hs Hd'].
    rewrite (proj2 (Z.ltb_ge _ _)) by lia. rewrite IH by done. rewrite join_gap; [done|].
    intros y k E. destruct l1 as [|d1 l1]; simpl in E.
    + apply join_first in E. apply Forall_cons in Hd' as [Hdc _]. unfold gap in *. by rewrite E.
    + injection E as <- _. by apply Forall_cons in Hd' as [? _].
Qed.

(** ** Linked headers *)

Lemma first_app l k e : first (l ++ k) e = first l (first k e).
Proof. by destruct l. Qed.

Lemma linked_app m l k e : linked m (l ++ k) e <-> linked m l (first k e) /\ linked m k e.
Proof. induction l as [|b l IH]; simpl; [tauto|]. rewrite IH, first_app. tauto. Qed.

Lemma linked_frame m m' l e : (forall b x, b ∈ l -> b.1 <= x < b.1 + 8 -> m' x = m x) -> linked m l e -> linked m' l e.
Proof.
  intros Hm. induction l as [|b l IH]; simpl; [done|]. intros (Hp & Hn & Hl).
  assert (forall o, 0 <= o <= 4 -> load32 m' (b.1 + o) = load32 m (b.1 + o)) as Hb.
  { intros o Ho. apply load32_other. intros i Hi. apply (Hm b); [left|lia]. }
  split_and!; [|rewrite Hb by lia; done|apply IH; [|done]; intros c x Hc; apply Hm; by right].
  rewrite <- (Z.add_0_r b.1), Hb, Z.add_0_r by lia. done.
Qed.

Lemma linked_at m l1 b l2 e : linked m (l1 ++ b :: l2) e ->
  load32 m b.1 = first l2 e /\ load32 m (b.1 + 4) = b.2.
Proof. intros (_ & Hp & Hn & _)%linked_app. done. Qed.

End Blocks.
