(* ===== verification/UmallocFacts.v ===== *)
(** The allocator of ulib/umalloc.c keeps its heap in order: free blocks in
    address order, never adjacent to each other, and together with the live
    blocks a tiling of the memory obtained from sbrk. *)
From stdpp Require Import sorting.
From S2P Require Import Prelude Types Cstring User Umalloc Blocks.
Import Cstring User Umalloc Blocks.

(** What the allocator relies on: sbrk of a positive size moves the break up
    and returns the old one, or fails and leaves it. *)
Class Brk (W : Type) `{Sys W} := {
  brk : W -> Z;
  sbrk_spec : forall w n, 0 < n ->
    (exists w', u_sbrk n w = (-1, w') /\ brk w' = brk w) \/
    (exists w', u_sbrk n w = (brk w, w') /\ brk w' = brk w + n /\ brk w' <= UADDR_SZ)
}.

Module UmallocFacts.

(** ** Running the allocator *)

Section Run.
Context {W : Type} `{Brk W} (base : Z).

Implicit Types (s : ust heap W) (env : list (ust heap W -> ust heap W)).
Abbreviation mem s := (s.(glob).(umem)).

Lemma search_fwd s l p l2 b fuel env : linked (mem s) (l ++ p :: l2) base -> StronglySorted gap (l ++ p :: l2) ->
  base <= p.1 < b -> (forall y k, l2 = y :: k -> b < y.1) -> (length l < fuel)%nat ->
  free_search fuel b (first l p.1) s env = Ok p.1 s env.
Proof.
  revert fuel. induction l as [|c l IH]; intros [|fuel] Hseg Hs Hp H2 Hf; simpl in Hf; try lia; cbn [app first free_search] in *.
  - unfold get_ptr, getg. mrun. destruct Hseg as (E & _). rewrite E. rewrite (proj2 (Z.ltb_lt p.1 b)) by lia. cbn [andb orb].
    destruct l2 as [|y l2]; cbn [first].
    + rewrite (proj2 (Z.ltb_ge b base)), (proj2 (Z.leb_le base p.1)) by lia. done.
    + rewrite (proj2 (Z.ltb_lt b y.1)) by (by eapply H2). done.
  - unfold get_ptr, getg. mrun. destruct Hseg as (E & _ & Hseg). rewrite E, first_app. cbn [first].
    apply StronglySorted_inv in Hs as [Hs Hc].
    assert (c.1 < first l p.1 < b) as [Hcn Hnb].
    { destruct l as [|d l]; cbn [first app] in *; apply Forall_cons in Hc as [Hcd _]; unfold gap in Hcd; [lia|].
      apply StronglySorted_inv in Hs as [_ Hd]. rewrite Forall_app in Hd. destruct Hd as [_ [Hd _]%Forall_cons]. unfold gap in Hd. lia. }
    rewrite (proj2 (Z.ltb_ge b _)), (proj2 (Z.leb_gt _ c.1)) by lia. rewrite andb_false_r. cbn [andb]. apply IH; done || lia.
Qed.

Lemma search_wrap s l b fuel env : linked (mem s) l base -> StronglySorted gap l -> base < b ->
  Forall (fun y => b < y.1) l -> free_search (length l + fuel) b (first l base) s env = free_search fuel b base s env.
Proof.
  intros Hseg Hs Hb Hl. induction l as [|c l IH]; [done|]. cbn [app first free_search length Nat.add linked] in *.
  destruct Hseg as (E & _ & Hseg). apply StronglySorted_inv in Hs as [Hs Hc]. apply Forall_cons in Hl as [Hcb Hl].
  unfold get_ptr, getg at 1. mrun. rewrite E, (proj2 (Z.ltb_ge c.1 b)) by lia. cbn [andb orb].
  rewrite <- IH by done. destruct (Z.leb_spec (first l base) c.1); [|done]. cbn [andb]. rewrite (proj2 (Z.ltb_ge b _)); [done|].
  destruct l as [|d l]; cbn [first]; [lia|]. apply Forall_cons in Hc as [Hcd _]. unfold gap in Hcd. cbn [first] in *. lia.
Qed.

(** The search stops at the last block before [b], wherever it starts. *)
Lemma search_finds s L1 p L2 b fp fuel env (L := L1 ++ p :: L2) :
  linked (mem s) L base -> StronglySorted gap L -> first L 0 = base -> base < b -> p.1 < b -> (forall y k, L2 = y :: k -> b < y.1) ->
  fp ∈ L.*1 -> (length L < fuel)%nat -> free_search fuel b fp s env = Ok p.1 s env.
Proof.
  intros Hseg Hs Hbase Hb Hp H2 (f & Ef & Hin)%list_elem_of_fmap Hfuel.
  assert (base <= p.1) as Hbp.
  { unfold L in *. destruct L1 as [|c L1]; simpl in Hbase; [lia|]. cbn [app] in Hs. apply StronglySorted_inv in Hs as [_ Hc].
    rewrite Forall_app in Hc. destruct Hc as [_ [Hc _]%Forall_cons]. unfold gap in Hc. lia. }
  assert (forall K, (length K <= length L1)%nat -> (exists J, L1 = J ++ K) -> forall fuel, (length L1 < fuel)%nat ->
    free_search fuel b (first K p.1) s env = Ok p.1 s env) as Hfwd.
  { intros K Hlen (J & EJ) fuel' Hf'. unfold L in *. rewrite EJ, <- app_assoc in Hseg, Hs. apply linked_app in Hseg as [_ Hseg].
    apply StronglySorted_app_1_r in Hs. apply (search_fwd s K p L2); try done; lia. }
  unfold L in Hin. rewrite (cons_middle p L1 L2), app_assoc, elem_of_app in Hin. destruct Hin as [Hin|Hin].
  - assert (exists J K, L1 = J ++ K /\ fp = first K p.1) as (J & K & EK & ->).
    { apply elem_of_app in Hin as [(J & K & ->)%list_elem_of_split| ->%list_elem_of_singleton].
      - exists J, (f :: K). by subst fp.
      - exists L1, []. rewrite app_nil_r. by subst fp. }
    apply Hfwd; [rewrite EK, length_app; lia|by exists J|]. unfold L in Hfuel. rewrite length_app in Hfuel. lia.
  - apply list_elem_of_split in Hin as (J & K & EK). subst fp.
    assert (L = (L1 ++ p :: J) ++ f :: K) as EL by (unfold L; rewrite EK, <- app_assoc; done).
    unfold L in *. clear L. rewrite EL in Hseg, Hs, Hfuel. apply linked_app in Hseg as [Hseg1 Hseg2].
    apply StronglySorted_app_1_r in Hs as Hs2. rewrite !length_app in Hfuel. simpl in Hfuel.
    replace fuel with (length (f :: K) + (fuel - length (f :: K)))%nat by (simpl; lia).
    change f.1 with (first (f :: K) base). rewrite search_wrap; try done.
    + destruct L1 as [|c L1]; simpl in Hbase.
      * subst. replace p.1 with (first [] p.1) at 1 by done. apply Hfwd; [simpl; lia|by exists []|simpl in *; lia].
      * replace base with (first (c :: L1) p.1) by done. apply Hfwd; [lia|by exists []|simpl in *; lia].
    + assert (Forall (fun y => b < y.1) L2) as Hall.
      { apply behind; [|done]. rewrite <- EL in Hs. apply StronglySorted_app_1_r in Hs. by apply StronglySorted_inv in Hs as [? _]. }
      rewrite EK in Hall. by apply Forall_app in Hall as [_ ?].
Qed.
(** What the two halves of [free] do: put the block [x] in front of the list
    at [q], joined with its first block if adjacent. *)
Definition joined (m : memory) (x n q : Z) : memory :=
  if x + 8 * n =? q then
    let m1 := store32 m (x + 4) (u32 (n + load32 m (q + 4))) in store32 m1 x (load32 m1 q)
  else store32 m x q.

Lemma joined_frame m x n q y : y < x \/ x + 8 <= y -> joined m x n q y = m y.
Proof. intros Hy. unfold joined. destruct (_ =? _); rewrite ?store32_other by lia; done. Qed.

(** Blocks lie in the lower half of the address space. *)
Definition low (y : block) : Prop := 0 <= y.1 /\ 0 <= y.2 /\ y.1 + 8 * y.2 <= 2 ^ 31.

Lemma first_low l e : Forall low l -> 0 <= e <= 2 ^ 31 -> 0 <= first l e < 2 ^ 32.
Proof. intros Hl He. destruct Hl as [|y l [? ?] _]; simpl; lia. Qed.

Lemma joined_linked m x n l e : 0 <= e <= 2 ^ 31 -> (l = [] -> e < x) -> linked m l e -> StronglySorted gap l -> low (x, n) -> Forall low l ->
  load32 m (x + 4) = n -> (forall y k, l = y :: k -> ord (x, n) y) -> linked (joined m x n (first l e)) (join (x, n) l) e.
Proof.
  intros He Hex Hseg Hs (Hx1 & Hx2 & Hx3) Hl Hn Ho. simpl in *. pose proof (first_low l e Hl He) as Hf. unfold joined, join. cbn [fst snd].
  assert (forall m', (forall a, a < x \/ x + 8 <= a -> m' a = m a) -> linked m' l e) as Hfr.
  { intros m' Hm'. eapply linked_frame; [|exact Hseg]. intros c a Hc Ha. apply Hm'. right. destruct l as [|y l]; [by apply not_elem_of_nil in Hc|].
    pose proof (Ho _ _ eq_refl) as [Hoy _]. simpl in Hoy. apply list_elem_of_In in Hc as [<-|Hc%list_elem_of_In]; [lia|].
    apply StronglySorted_inv in Hs as [_ Hs]. rewrite Forall_forall in Hs. destruct (Hs _ Hc). lia. }
  destruct l as [|y l]; cbn [first] in *.
  - specialize (Hex eq_refl). rewrite (proj2 (Z.eqb_neq _ _)) by lia. split_and!; simpl; [by apply load_store32| |done].
    rewrite load_store32_other by lia. done.
  - destruct (Ho _ _ eq_refl) as [Hoy Hoy2]. cbn [fst snd] in *. apply Forall_cons in Hl as [(Hy1 & Hy2 & Hy3) Hl].
    destruct (Z.eqb_spec (x + 8 * n) y.1) as [E|E].
    + destruct Hseg as (Ep & En & _). rewrite En, (load_store32_other m y.1) by lia. rewrite Ep.
      pose proof (first_low l e Hl He). split_and!; cbn [fst snd].
      * by apply load_store32.
      * rewrite load_store32_other by lia. unfold u32. rewrite Z.mod_small by lia. apply load_store32. lia.
      * apply (Hfr _). intros a Ha. rewrite !store32_other by lia. done.
    + split_and!; cbn [fst snd first].
      * by apply load_store32.
      * rewrite load_store32_other by lia. done.
      * apply (Hfr _). intros a Ha. rewrite !store32_other by lia. done.
Qed.

Lemma join_low x n l : low (x, n) -> Forall low l -> (forall y k, l = y :: k -> ord (x, n) y) -> Forall low (join (x, n) l).
Proof.
  intros Hx Hl Ho. unfold join. destruct l as [|y l]; [by constructor|]. apply Forall_cons in Hl as [Hy Hl].
  unfold low in *. simpl in *. destruct (Z.eqb_spec (x + 8 * n) y.1); repeat constructor; simpl; done || lia.
Qed.

Lemma free_links s L1 p L2 b n fuel env (L := L1 ++ p :: L2) :
  linked (mem s) L base -> StronglySorted gap L -> first L 0 = base -> 0 <= base -> base + 8 <= b -> ord p (b, n) ->
  (forall y k, L2 = y :: k -> ord (b, n) y) -> 1 <= n -> Forall low L -> low (b, n) -> Forall (fun y => 1 <= y.2) L2 ->
  load32 (mem s) (b + 4) = n -> s.(glob).(freep) ∈ L.*1 -> (length L < fuel)%nat ->
  exists m', free fuel (b + 8) s env = Ok tt (Mkust (Mkheap m' p.1) s.(wld)) env /\
    linked m' (L1 ++ join p (join (b, n) L2)) base /\
    forall x, (x < p.1 \/ p.1 + 8 <= x) -> (x < b \/ b + 8 <= x) -> m' x = mem s x.
Proof.
  intros Hseg Hs Hbase Hb0 Hbb Hpb Ho Hn Hlow Hblow Hsz Hbn Hfp Hfuel. destruct s as [[m fp] w]. cbn [glob wld umem freep] in *.
  destruct p as [p pn]. pose proof (linked_at _ _ _ _ _ Hseg) as [Ep En]. cbn [fst snd] in *. destruct Hpb as [Hpb1 Hpb2]. cbn [fst snd] in *.
  assert (Forall low L2 /\ low (p, pn)) as [Hlow2 Hplow] by (unfold L in Hlow; apply Forall_app in Hlow as [_ [? ?]%Forall_cons]; done).
  unfold L in Hseg. pose proof Hseg as [Hseg1 (_ & _ & Hseg2)]%linked_app.
  assert (StronglySorted gap L2) as Hs2 by (apply StronglySorted_app_1_r, StronglySorted_inv in Hs as [? _]; done).
  assert (0 <= base <= 2 ^ 31) as Hbr by (destruct Hblow; simpl in *; lia).
  set (q := first L2 base) in *. set (m1 := joined m b n q). set (m2 := joined m1 p pn b).
  exists m2. split_and!.
  - unfold free, HDR. rewrite (Z.add_simpl_r b 8). unfold getg at 1. mrun. cbn [glob freep].
    rewrite (bind_ok _ _ _ _ _ _ _ (search_finds (Mkust (Mkheap m fp) w) L1 (p, pn) L2 b fp fuel env Hseg Hs Hbase ltac:(lia) ltac:(simpl; lia)
      ltac:(intros y k E; destruct (Ho y k E); simpl in *; lia) Hfp Hfuel)). cbn [fst].
    unfold get_size, get_ptr, put_size, put_ptr, set_freep, getg, modg. mrun. cbn [glob umem wld freep]. rewrite Hbn, Ep.
    match goal with |- bind ?a _ _ _ = _ => assert (a (Mkust (Mkheap m fp) w) env = Ok tt (Mkust (Mkheap m1 fp) w) env) as Ea end.
    { unfold m1, joined. destruct (_ =? _); [|done]. mrun. cbn [glob umem]. rewrite (load_store32_other m p), Ep by lia. done. }
    mstep Ea. clear Ea. mrun. cbn [glob umem]. rewrite (load32_other m m1 (p + 4)), En by (intros; apply joined_frame; lia).
    unfold m2, joined. destruct (_ =? _); mrun; done.
  - assert (exists n' l', join (b, n) L2 = (b, n') :: l') as (n' & l' & Ej).
    { unfold join. destruct L2; [|destruct (_ =? _)]; eauto. }
    assert (Hjl := join_low b n L2 Hblow Hlow2 Ho). assert (Hjs := join_sorted (b, n) L2 Hs2 Ho Hn Hsz).
    assert (Hj1 := joined_linked m b n L2 base Hbr ltac:(lia) Hseg2 Hs2 Hblow Hlow2 Hbn Ho). fold q m1 in Hj1.
    apply linked_app. split.
    + replace (first (join (p, pn) (join (b, n) L2)) base) with p by (rewrite Ej; unfold join; destruct (_ =? _); done).
      eapply linked_frame; [|exact Hseg1]. intros c x Hc Hx. unfold L in Hs.
      assert (Hcp := StronglySorted_app_1_elem_of _ _ _ _ _ Hs Hc ltac:(left)). destruct Hcp as [Hcp _]. simpl in Hcp.
      unfold m2, m1. rewrite !joined_frame by lia. done.
    + unfold m2. replace b with (first (join (b, n) L2) base) at 1 by (by rewrite Ej). apply joined_linked; try done.
      * intros E. by rewrite Ej in E.
      * rewrite (load32_other m m1 (p + 4)), En by (intros; apply joined_frame; lia). done.
      * rewrite Ej. intros y k [= <- <-]. done.
  - intros x Hx1 Hx2. unfold m2, m1. rewrite !joined_frame by lia. done.
Qed.
(** ** The heap *)

(** [F] are the free blocks, [live] the blocks handed out. The free blocks
    and the static header form a ring in address order, no two free blocks are
    adjacent, and every byte from [lo] to [hi] is in exactly one block. *)
Record heap_inv (lo hi : Z) (h : heap) (F live : list block) : Prop := {
  inv_place : 0 < base /\ base + 8 <= lo <= hi /\ hi <= 2 ^ 31;
  inv_ring : linked h.(umem) ((base, 0) :: F) base;
  inv_freep : h.(freep) ∈ base :: F.*1;
  inv_sorted : StronglySorted gap F;
  inv_sizes : Forall (fun y => 1 <= y.2) (F ++ live);
  inv_live : Forall (fun y => load32 h.(umem) (y.1 + 4) = y.2) live;
  inv_tiles : forall x, cnt (F ++ live) x = if (lo <=? x) && (x <? hi) then 1 else 0
}.

Lemma tiles_le lo hi l : (forall x, cnt l x = if (lo <=? x) && (x <? hi) then 1 else 0) -> forall x, cnt l x <= 1.
Proof. intros Ht x. rewrite Ht. by destruct (_ && _). Qed.

Lemma tiles_range lo hi l y : (forall x, cnt l x = if (lo <=? x) && (x <? hi) then 1 else 0) -> y ∈ l -> 1 <= y.2 ->
  lo <= y.1 /\ y.1 + 8 * y.2 <= hi.
Proof.
  intros Ht Hy Hn. assert (forall x, y.1 <= x < y.1 + 8 * y.2 -> lo <= x < hi) as Hx.
  { intros x Hx. pose proof (cnt_in l x y Hy) as Hc. rewrite inb_in, Ht in Hc by done.
    destruct (Z.leb_spec lo x); destruct (Z.ltb_spec x hi); simpl in Hc; lia. }
  pose proof (Hx y.1). pose proof (Hx (y.1 + 8 * y.2 - 1)). lia.
Qed.

Lemma tiles_apart l b y : (forall x, cnt (b :: l) x <= 1) -> y ∈ l -> 1 <= b.2 -> 1 <= y.2 -> ord b y \/ ord y b.
Proof.
  intros Ht Hy Hb Hyn. unfold ord. destruct (decide (b.1 + 8 * b.2 <= y.1)); [lia|]. destruct (decide (y.1 + 8 * y.2 <= b.1)); [lia|].
  pose proof (Ht (Z.max b.1 y.1)) as Hc. simpl in Hc. pose proof (cnt_in l (Z.max b.1 y.1) y Hy) as Hi.
  rewrite inb_in in Hc by lia. rewrite inb_in in Hi by lia. lia.
Qed.

Lemma inv_ring_sorted lo hi h F live : heap_inv lo hi h F live -> StronglySorted gap ((base, 0) :: F).
Proof.
  intros [Hp _ _ Hs Hn _ Ht]. constructor; [done|]. rewrite Forall_forall. intros y Hy. rewrite Forall_forall in Hn.
  destruct (tiles_range lo hi _ y Ht) as [? _]; [apply elem_of_app; by left|apply Hn, elem_of_app; by left|]. unfold gap. simpl. lia.
Qed.

Lemma inv_low lo hi h F live : heap_inv lo hi h F live -> Forall low ((base, 0) :: F ++ live).
Proof.
  intros [Hp _ _ Hs Hn _ Ht]. constructor; [unfold low; simpl; lia|]. rewrite Forall_forall in *. intros y Hy.
  specialize (Hn _ Hy). simpl in Hn. destruct (tiles_range lo hi _ y Ht Hy Hn). unfold low. lia.
Qed.

Lemma freep_nonzero lo hi h F live : heap_inv lo hi h F live -> h.(freep) <> 0.
Proof.
  intros [Hp _ Hfp _ Hn _ Ht]. apply elem_of_cons in Hfp as [->|(y & -> & Hy)%list_elem_of_fmap]; [lia|].
  assert (1 <= y.2) by (rewrite Forall_forall in Hn; apply Hn; set_solver).
  destruct (tiles_range _ _ _ y Ht) as [? _]; [set_solver|done|]. lia.
Qed.

(** The last block before [b]. *)
Lemma split_before b c l : c.1 < b -> Forall (fun y => y.1 <> b) l -> StronglySorted gap (c :: l) ->
  exists l1 p l2, c :: l = l1 ++ p :: l2 /\ Forall (fun y => y.1 < b) (l1 ++ [p]) /\ forall y k, l2 = y :: k -> b < y.1.
Proof.
  revert c. induction l as [|d l IH]; intros c Hc Hne Hs.
  - exists [], c, []. split_and!; [done|by repeat constructor|done].
  - apply Forall_cons in Hne as [Hd Hne]. destruct (Z.lt_ge_cases d.1 b) as [Hlt|Hge].
    + destruct (IH d Hlt Hne) as (l1 & p & l2 & E & H1 & H2); [by apply StronglySorted_inv in Hs as [? _]|].
      exists (c :: l1), p, l2. rewrite E. split_and!; [done|by constructor|done].
    + exists [], c, (d :: l). split_and!; [done|by repeat constructor|]. intros y k [= <- <-]. lia.
Qed.

Lemma outside_block x y l : y ∈ l -> cnt l x = 0 -> 1 <= y.2 -> x < y.1 \/ y.1 + 8 <= x.
Proof.
  intros Hy Hc Hn. destruct (Z.lt_ge_cases x y.1); [by left|]. destruct (Z.le_gt_cases (y.1 + 8) x); [by right|].
  pose proof (cnt_in l x y Hy) as Hi. rewrite inb_in in Hi by lia. lia.
Qed.

(** A byte of a live block is in no free block. *)
Lemma cnt_excl l k y x : cnt (l ++ k) x <= 1 -> y ∈ k -> y.1 <= x < y.1 + 8 * y.2 -> cnt l x = 0.
Proof.
  intros Hc Hy Hx. rewrite cnt_app in Hc. pose proof (cnt_in k x y Hy) as Hi. rewrite inb_in in Hi by done.
  pose proof (cnt_nonneg l x). lia.
Qed.

(** The headers of the ring lie in free blocks and in [base], so a byte of a
    live block is in none of them. *)
Lemma node_apart F c x : Forall (fun y => 1 <= y.2) F -> c ∈ (base, 0) :: F -> cnt F x = 0 -> x < base \/ base + 8 <= x ->
  x < c.1 \/ c.1 + 8 <= x.
Proof.
  intros Hn [->|Hc]%elem_of_cons Hx Hb; [done|]. rewrite Forall_forall in Hn. apply (outside_block x c F); [done|done|by apply Hn].
Qed.

Lemma live_apart lo hi h F live c y x : heap_inv lo hi h F live -> c ∈ (base, 0) :: F -> y ∈ live ->
  y.1 <= x < y.1 + 8 * y.2 -> x < c.1 \/ c.1 + 8 <= x.
Proof.
  intros [Hp _ _ _ Hn _ Ht] Hc Hy Hx. pose proof Hn as [HnF HnL]%Forall_app. apply (node_apart F); [done|done| |].
  - apply (cnt_excl F live y); [by apply (tiles_le lo hi)|done|done].
  - rewrite Forall_forall in HnL. specialize (HnL y Hy). simpl in HnL. destruct (tiles_range lo hi _ y Ht) as [? _]; [set_solver|done|]. lia.
Qed.

Lemma join_nonempty x l : exists n k, join x l = (x.1, n) :: k.
Proof. unfold join. destruct x, l; [|destruct (_ =? _)]; eauto. Qed.

(** A live block among the others. *)
Lemma live_block lo hi h F live live' b n (R := F ++ live') : heap_inv lo hi h F live -> live ≡ₚ (b, n) :: live' ->
  1 <= n /\ lo <= b /\ b + 8 * n <= hi /\ load32 h.(umem) (b + 4) = n /\ Forall (fun y => 1 <= y.2) R /\
  Forall (fun y => ord (b, n) y \/ ord y (b, n)) R /\ forall x, inb x (b, n) + cnt R x = if (lo <=? x) && (x <? hi) then 1 else 0.
Proof.
  intros [Hp Hring Hfp Hs Hn Hl Ht] Hlive.
  assert (F ++ live ≡ₚ (b, n) :: R) as Hperm by (rewrite Hlive; unfold R; by rewrite Permutation_middle).
  assert (forall x, cnt ((b, n) :: R) x = if (lo <=? x) && (x <? hi) then 1 else 0) as Ht'.
  { intros x. rewrite <- Ht. symmetry. by apply (cnt_perm x). }
  rewrite Hperm in Hn. apply Forall_cons in Hn as [Hbn Hn]. rewrite Hlive in Hl. apply Forall_cons in Hl as [Hbl _].
  destruct (tiles_range lo hi _ (b, n) Ht') as [Hblo Hbhi]; [left|done|]. split_and!; try done.
  rewrite Forall_forall in Hn |- *. intros y Hy. apply (tiles_apart R); [by apply (tiles_le lo hi)|done|done|by apply Hn].
Qed.

(** Where [free] puts it. *)
Lemma free_point lo hi h F live live' b n : heap_inv lo hi h F live -> live ≡ₚ (b, n) :: live' ->
  exists L1 p L2, (base, 0) :: F = L1 ++ p :: L2 /\ ord p (b, n) /\ (forall y k, L2 = y :: k -> ord (b, n) y) /\
    Forall (fun y => 1 <= y.2) L2 /\ (base, 0) :: place (b, n) F = L1 ++ join p (join (b, n) L2).
Proof.
  intros Hinv Hlive. assert (Hrs := inv_ring_sorted _ _ _ _ _ Hinv).
  destruct (live_block _ _ _ _ _ _ _ _ Hinv Hlive) as (Hn & Hb & _ & _ & HnF & Hap & _). destruct Hinv as [Hp _ _ _ _ _ _].
  apply Forall_app in Hap as [Hap _]. apply Forall_app in HnF as [HnF _].
  destruct (split_before b (base, 0) F) as (L1 & p & L2 & EL & H1 & H2); [simpl; lia| |done|].
  { eapply Forall_impl; [exact Hap|]. intros y. unfold ord. simpl. lia. }
  assert (Forall (fun y => y = (base, 0) \/ ord (b, n) y \/ ord y (b, n)) ((base, 0) :: F)) as HL.
  { constructor; [by left|]. eapply Forall_impl; [exact Hap|]. simpl. tauto. }
  rewrite EL in HL. apply Forall_app in HL as [_ [HpL HL2]%Forall_cons]. exists L1, p, L2. split_and!; [done| | | |].
  - apply Forall_app in H1 as [_ [Hpb _]%Forall_cons]. destruct HpL as [->|[Ho|Ho]]; [unfold ord; simpl; lia| |done]. unfold ord in Ho. simpl in Ho. lia.
  - intros y k E. pose proof (H2 y k E) as Hby. rewrite E in HL2. apply Forall_cons in HL2 as [[->|[Ho|Ho]] _]; [simpl in Hby; lia|done|].
    unfold ord in Ho. simpl in Ho. lia.
  - destruct L1 as [|c L1]; injection EL as E1 E2; [by subst|]. rewrite E2 in HnF. by apply Forall_app in HnF as [_ [_ ?]%Forall_cons].
  - rewrite <- place_at; [|by rewrite <- EL|done|done]. rewrite <- EL. simpl. rewrite (proj2 (Z.ltb_ge b base)) by lia.
    rewrite join_gap; [done|]. intros y k [E|(c & l' & -> & E)]%place_first; unfold gap; rewrite E; cbn [fst snd] in *; [lia|].
    apply first_sorted with (y := c) (k := l') in Hrs; [|done]. unfold gap in Hrs. simpl in Hrs. lia.
Qed.

Lemma free_keeps lo hi h F live live' b n w fuel env :
  heap_inv lo hi h F live -> live ≡ₚ (b, n) :: live' -> (S (length F) < fuel)%nat ->
  exists h', free fuel (b + 8) (Mkust h w) env = Ok tt (Mkust h' w) env /\ heap_inv lo hi h' (place (b, n) F) live' /\
    forall x, cnt ((b, n) :: F) x = 0 -> x < base \/ base + 8 <= x -> h'.(umem) x = h.(umem) x.
Proof.
  intros Hinv Hlive Hfuel. assert (Hrs := inv_ring_sorted _ _ _ _ _ Hinv). assert (Hlow := inv_low _ _ _ _ _ Hinv).
  destruct (live_block _ _ _ _ _ _ _ _ Hinv Hlive) as (Hn & Hb & Hbhi & Hbn & HnR & Hap & Ht).
  destruct (free_point _ _ _ _ _ _ _ _ Hinv Hlive) as (L1 & p & L2 & EL & Hop & Ho2 & Hn2 & Eplace).
  pose proof Hinv as [Hp Hring Hfp Hs _ Hl _]. rewrite Hlive in Hl. apply Forall_cons in Hl as [_ Hl].
  apply Forall_app in HnR as [HnF HnL]. apply Forall_app in Hap as [HapF HapL].
  assert (p ∈ (base, 0) :: F) as HpF by (rewrite EL; set_solver).
  destruct (free_links (Mkust h w) L1 p L2 b n fuel env) as (m' & Em & Hseg & Hfr); rewrite <- ?EL; try done; try (unfold low; simpl; lia).
  { rewrite app_comm_cons in Hlow. by apply Forall_app in Hlow as [? _]. }
  exists (Mkheap m' p.1). split_and!; [done| |].
  - constructor; cbn [umem freep]; [done|by rewrite Eplace| | | | |].
    + destruct (join_nonempty p (join (b, n) L2)) as (k & l & Ej). change (base :: (place (b, n) F).*1) with (((base, 0) :: place (b, n) F).*1).
      rewrite Eplace, Ej, fmap_app. set_solver.
    + by apply place_sorted.
    + apply Forall_app. split; [by apply place_sizes|done].
    + rewrite Forall_forall in Hl, HapL, HnL |- *. intros y Hy. rewrite <- (Hl y Hy). apply load32_other. intros i Hi.
      specialize (HapL y Hy). specialize (HnL y Hy). unfold ord in HapL. simpl in *. apply Hfr; [|lia].
      apply (live_apart lo hi h F live p y); [done|done|rewrite Hlive; by right|lia].
    + intros x. rewrite <- Ht. rewrite !cnt_app, cnt_place by done. lia.
  - intros x Hx Hbx. pose proof (cnt_nonneg F x). pose proof (inb_bounds x (b, n)). cbn [cnt] in Hx. apply Hfr.
    + apply (node_apart F); [done|done|lia|done].
    + apply (outside_block x (b, n) ((b, n) :: F)); [left|simpl; lia|done].
Qed.

(** Taking a block out of the ring, whole or its upper part. *)

Lemma ring_split F K1 prev p K3 : (base, 0) :: F = K1 ++ prev :: p :: K3 ->
  exists F1, F = F1 ++ p :: K3 /\ (base, 0) :: F1 = K1 ++ [prev].
Proof.
  intros EL. destruct K1 as [|c K1]; injection EL as E1 E2; [by exists []; subst|].
  exists (K1 ++ [prev]). by rewrite <- app_assoc; subst.
Qed.

Lemma take_whole lo hi h F live K1 prev p K3 :
  heap_inv lo hi h F live -> (base, 0) :: F = K1 ++ prev :: p :: K3 ->
  exists F', (base, 0) :: F' = K1 ++ prev :: K3 /\
    heap_inv lo hi (Mkheap (store32 h.(umem) prev.1 (first K3 base)) prev.1) F' (p :: live).
Proof.
  intros Hinv EL. assert (Hrs := inv_ring_sorted _ _ _ _ _ Hinv). assert (Hlow := inv_low _ _ _ _ _ Hinv).
  pose proof Hinv as [Hp Hring Hfp Hs Hn Hl Ht]. rewrite EL in Hring, Hrs.
  destruct (ring_split _ _ _ _ _ EL) as (F1 & EF & EF1).
  assert (F ++ live ≡ₚ (F1 ++ K3) ++ p :: live) as Hperm by (rewrite EF; solve_Permutation).
  exists (F1 ++ K3). assert ((base, 0) :: F1 ++ K3 = K1 ++ prev :: K3) as EL' by (rewrite app_comm_cons, EF1, <- app_assoc; done).
  split; [done|]. apply StronglySorted_app in Hrs as (Hx & Hs1 & Hs2). apply StronglySorted_inv in Hs2 as [Hs2 Hx2].
  pose proof Hring as [Hr1 (Hr2 & Hr3 & Hr4 & Hr5 & Hr6)]%linked_app. cbn [first] in *.
  rewrite Forall_forall in Hx2.
  assert (0 <= first K3 base < 2 ^ 32) as Hf.
  { apply first_low; [|lia]. rewrite EF in Hlow. apply Forall_cons in Hlow as [_ Hlow]. by apply Forall_app in Hlow as [[_ [_ ?]%Forall_cons]%Forall_app _]. }
  constructor; cbn [umem freep]; try done.
  - rewrite EL'. apply linked_app. cbn [first linked]. split_and!.
    + eapply linked_frame; [|exact Hr1]. intros c x Hc Hxc. destruct (Hx c prev Hc ltac:(set_solver)). apply store32_other. lia.
    + by apply load_store32.
    + rewrite load_store32_other by lia. done.
    + eapply linked_frame; [|exact Hr6]. intros c x Hc Hxc. destruct (Hx2 c ltac:(set_solver)). apply store32_other. lia.
  - change (base :: (F1 ++ K3).*1) with (((base, 0) :: F1 ++ K3).*1). rewrite EL', fmap_app. set_solver.
  - rewrite EF in Hs. apply StronglySorted_app in Hs as (Ha & Hb & Hc). apply StronglySorted_app. apply StronglySorted_inv in Hc as [Hc _].
    split_and!; [|done|done]. intros x y Hx' Hy. apply Ha; [done|by right].
  - by rewrite <- Hperm.
  - constructor.
    + rewrite load_store32_other; [done|]. destruct (Hx2 p ltac:(left)). lia.
    + rewrite Forall_forall in Hl |- *. intros y Hy. rewrite <- (Hl y Hy). apply load32_other. intros i Hi. apply store32_other.
      destruct (live_apart lo hi h F live prev y (y.1 + 4 + i)) as [?|?]; [done|rewrite EL; set_solver|done| |lia|lia].
      rewrite Forall_forall in Hn. specialize (Hn y ltac:(set_solver)). simpl in Hn. lia.
  - intros x. rewrite <- Ht. symmetry. by apply (cnt_perm x).
Qed.
Lemma take_upper lo hi h F live K1 prev a n K3 u (b := a + 8 * (n - u))
    (m' := store32 (store32 h.(umem) (a + 4) (n - u)) (b + 4) u) :
  heap_inv lo hi h F live -> (base, 0) :: F = K1 ++ prev :: (a, n) :: K3 -> 1 <= u < n ->
  exists F', (base, 0) :: F' = K1 ++ prev :: (a, n - u) :: K3 /\ heap_inv lo hi (Mkheap m' prev.1) F' ((b, u) :: live).
Proof.
  intros Hinv EL Hu. assert (Hrs := inv_ring_sorted _ _ _ _ _ Hinv). assert (Hlow := inv_low _ _ _ _ _ Hinv).
  pose proof Hinv as [Hp Hring Hfp Hs Hn Hl Ht].
  destruct (ring_split _ _ _ _ _ EL) as (F1 & EF & EF1).
  exists (F1 ++ (a, n - u) :: K3).
  assert ((base, 0) :: F1 ++ (a, n - u) :: K3 = K1 ++ prev :: (a, n - u) :: K3) as EL' by (rewrite app_comm_cons, EF1, <- app_assoc; done).
  split; [done|]. rewrite EF, app_comm_cons in Hring, Hrs. apply StronglySorted_app in Hrs as (Hx & Hs1 & Hs2).
  apply StronglySorted_inv in Hs2 as [Hs2 Hx2]. pose proof Hring as [Hr1 (Hr2 & Hr3 & Hr4)]%linked_app. cbn [first fst snd] in *.
  assert (0 <= a /\ a + 8 * n <= 2 ^ 31) as [Ha0 Ha1].
  { rewrite EF in Hlow. apply Forall_cons in Hlow as [_ Hlow]. apply Forall_app in Hlow as [[_ [(? & ? & ?) _]%Forall_cons]%Forall_app _]. done. }
  assert (forall x, x < a \/ a + 8 * n <= x -> m' x = h.(umem) x) as Hout by (intros x Hxx; unfold m', b; rewrite !store32_other by lia; done).
  rewrite Forall_forall in Hx2. constructor; cbn [umem freep]; try done.
  - rewrite app_comm_cons. apply linked_app. split; [|split; [|split]]; cbn [first fst snd].
    + eapply linked_frame; [|exact Hr1]. intros c x Hc Hxc. destruct (Hx c (a, n) Hc ltac:(set_solver)). simpl in *. apply Hout. lia.
    + unfold m', b. rewrite !load_store32_other by lia. done.
    + unfold m', b. rewrite load_store32_other by lia. apply load_store32. lia.
    + eapply linked_frame; [|exact Hr4]. intros c x Hc Hxc. destruct (Hx2 c Hc). simpl in *. apply Hout. lia.
  - change (base :: (F1 ++ (a, n - u) :: K3).*1) with (((base, 0) :: F1 ++ (a, n - u) :: K3).*1). rewrite EL', fmap_app. set_solver.
  - rewrite EF in Hs. apply StronglySorted_app in Hs as (Ha & Hb & Hc). apply StronglySorted_inv in Hc as [Hc Hc'].
    apply StronglySorted_app. split_and!; [|done|].
    + intros x y Hx' [->|Hy]%elem_of_cons; [apply (Ha x (a, n)); [done|left]|apply Ha; [done|by right]].
    + constructor; [done|]. eapply Forall_impl; [exact Hc'|]. intros y. unfold gap. simpl. lia.
  - rewrite EF in Hn. rewrite !Forall_app, !Forall_cons in Hn |- *. cbn [snd] in *. destruct Hn as ((? & ? & ?) & ?). split_and!; [done|lia|done|constructor; simpl; [lia|done]].
  - constructor; [cbn [fst snd]; unfold m'; apply load_store32; lia|].
    rewrite Forall_forall in Hl |- *. intros y Hy. rewrite <- (Hl y Hy). apply load32_other. intros i Hi.
    assert (1 <= y.2) by (rewrite Forall_forall in Hn; apply Hn; set_solver).
    destruct (tiles_apart (F1 ++ K3 ++ live) (a, n) y) as [Ho|Ho]; [|set_solver|simpl; lia|done| |].
    + intros x. rewrite <- (tiles_le lo hi _ Ht x). apply Z.eq_le_incl. apply (cnt_perm x). rewrite EF. solve_Permutation.
    + unfold ord in Ho. simpl in Ho. apply Hout. lia.
    + unfold ord in Ho. simpl in Ho. apply Hout. lia.
  - intros x. rewrite <- Ht, EF. rewrite !cnt_app. cbn [cnt]. rewrite (inb_split x a n (n - u)) by lia.
    replace (n - (n - u)) with u by lia. fold b. lia.
Qed.
(** ** The search for a block *)

(** A node of the ring and the next one, which is not [base]. *)
Lemma node_next lo hi h F live prev p : heap_inv lo hi h F live -> prev ∈ (base, 0) :: F -> p ∈ F ->
  load32 h.(umem) prev.1 = p.1 -> exists K1 K3, (base, 0) :: F = K1 ++ prev :: p :: K3.
Proof.
  intros Hinv Hprev Hp E. assert (Hrs := inv_ring_sorted _ _ _ _ _ Hinv). destruct Hinv as [_ Hring _ _ _ _ _].
  apply list_elem_of_split in Hprev as (K1 & K2 & EL). assert (Hr := Hring). rewrite EL in Hr. apply linked_at in Hr as [En _].
  rewrite E in En. assert (base < p.1) as Hb.
  { apply StronglySorted_inv in Hrs as [_ Hrs]. rewrite Forall_forall in Hrs. destruct (Hrs p Hp) as [? _]. simpl in *. lia. }
  destruct K2 as [|y K3]; cbn [first] in En; [lia|]. exists K1, K3. rewrite EL. do 3 f_equal.
  assert (p ∈ (base, 0) :: F) as (J1 & J2 & EJ)%list_elem_of_split by (by right).
  assert (Hr := Hring). rewrite EJ in Hr. apply linked_at in Hr as [_ E1]. rewrite EL, cons_middle, app_assoc in Hring.
  apply linked_at in Hring as [_ E2]. destruct y, p. simpl in *. subst. done.
Qed.

Lemma loop_search h w u l0 f e prev fuel env :
  linked h.(umem) (l0 ++ [f]) e -> h.(freep) = f.1 -> f.1 ∉ l0.*1 -> load32 h.(umem) prev.1 = first (l0 ++ [f]) e -> (length l0 < fuel)%nat ->
  (exists prev' p' fuel', prev' ∈ prev :: l0 /\ p' ∈ l0 ++ [f] /\ u <= p'.2 /\ load32 h.(umem) prev'.1 = p'.1 /\
     malloc_loop fuel u prev.1 (first (l0 ++ [f]) e) (Mkust h w) env = malloc_loop (S fuel') u prev'.1 p'.1 (Mkust h w) env) \/
  (Forall (fun y => y.2 < u) (l0 ++ [f]) /\ exists prev',
     malloc_loop fuel u prev.1 (first (l0 ++ [f]) e) (Mkust h w) env = malloc_loop (fuel - length l0) u prev' f.1 (Mkust h w) env).
Proof.
  intros Hseg Hfp. revert prev fuel. induction l0 as [|c l IH]; intros prev fuel Hnin Hprev Hfuel; cbn [app first] in *.
  - destruct (Z.le_gt_cases u f.2).
    + left. exists prev, f, (fuel - 1)%nat. split_and!; [set_solver|set_solver|done|done|]. f_equal. simpl in *. lia.
    + right. split; [by repeat constructor|]. exists prev.1. by rewrite Nat.sub_0_r.
  - destruct (Z.le_gt_cases u c.2) as [Hle|Hgt].
    + left. exists prev, c, (fuel - 1)%nat. split_and!; [set_solver|set_solver|done|done|]. f_equal. simpl in *. lia.
    + destruct Hseg as (Ep & En & Hseg). simpl in Hfuel. rewrite fmap_cons, not_elem_of_cons in Hnin. destruct Hnin as [Hne Hnin].
      destruct fuel as [|fuel]; [lia|].
      assert (malloc_loop (S fuel) u prev.1 c.1 (Mkust h w) env = malloc_loop fuel u c.1 (first (l ++ [f]) e) (Mkust h w) env) as Est.
      { cbn [malloc_loop]. unfold get_size, get_ptr, getg. mrun. cbn [glob]. rewrite En, (proj2 (Z.leb_gt u _)) by lia.
        mrun. cbn [glob]. rewrite Hfp, (proj2 (Z.eqb_neq c.1 f.1)) by done. mrun. cbn [glob]. by rewrite Ep. }
      rewrite Est. destruct (IH Hseg c fuel Hnin Ep ltac:(lia)) as [(prev' & p' & fuel' & H1 & H2 & H3 & H4 & H5)|(Hall & prev' & Hr)].
      * left. exists prev', p', fuel'. split_and!; [set_solver|set_solver|done|done|done].
      * right. split; [by constructor|]. exists prev'. done.
Qed.

(** The whole ring, from the block behind [freep] to [freep]. *)
Lemma ring_rotate lo hi h F live : heap_inv lo hi h F live ->
  exists l0 f, h.(freep) = f.1 /\ Permutation ((base, 0) :: F) (l0 ++ [f]) /\ ~ (f.1 ∈ l0.*1) /\
    linked h.(umem) (l0 ++ [f]) (load32 h.(umem) f.1) /\ load32 h.(umem) f.1 = first (l0 ++ [f]) (load32 h.(umem) f.1).
Proof.
  intros Hinv. assert (Hrs := inv_ring_sorted _ _ _ _ _ Hinv). destruct Hinv as [_ Hring Hfp _ _ _ _].
  change (base :: F.*1) with (((base, 0) :: F).*1) in Hfp. apply list_elem_of_fmap in Hfp as (f & Ef & Hf).
  apply list_elem_of_split in Hf as (K1 & K2 & EL). rewrite EL in Hring, Hrs. exists (K2 ++ K1), f.
  apply linked_at in Hring as HE. destruct HE as [En _]. apply linked_app in Hring as [Hr1 Hr2]. split_and!.
  - done.
  - rewrite EL. solve_Permutation.
  - apply StronglySorted_app in Hrs as (Hx & _ & Hs2). apply StronglySorted_inv in Hs2 as [_ Hx2]. rewrite Forall_forall in Hx2.
    rewrite list_elem_of_fmap. intros (y & Ey & [Hy|Hy]%elem_of_app); [destruct (Hx2 y Hy)|destruct (Hx y f Hy ltac:(left))]; lia.
  - rewrite <- app_assoc. apply linked_app. split.
    + assert (first (K1 ++ [f]) (load32 (umem h) f.1) = base) as -> by (destruct K1; injection EL as E1 E2; simpl; by subst).
      by destruct Hr2 as (_ & _ & ?).
    + apply linked_app. split; [done|]. simpl. destruct Hr2 as (_ & ? & _). done.
  - rewrite En at 1. rewrite <- app_assoc. destruct K2; [|done]. simpl. destruct K1; injection EL as E1 E2; simpl; by subst.
Qed.
(** Bytes that neither a free block nor the static header holds. *)
Definition untouched (F : list block) (h h' : heap) : Prop :=
  forall x, cnt F x = 0 -> x < base \/ base + 8 <= x -> h'.(umem) x = h.(umem) x.

Lemma loop_take lo hi h F live w u prev p fuel env :
  heap_inv lo hi h F live -> prev ∈ (base, 0) :: F -> p ∈ F -> load32 h.(umem) prev.1 = p.1 -> 1 <= u <= p.2 ->
  exists b h' F', malloc_loop (S fuel) u prev.1 p.1 (Mkust h w) env = Ok (b + 8) (Mkust h' w) env /\
    heap_inv lo hi h' F' ((b, u) :: live) /\ untouched F h h'.
Proof.
  intros Hinv Hprev Hp E Hu. destruct (node_next _ _ _ _ _ _ _ Hinv Hprev Hp E) as (K1 & K3 & EL).
  assert (Hlow := inv_low _ _ _ _ _ Hinv). rewrite Forall_cons, Forall_forall in Hlow. destruct Hlow as [_ Hlow].
  destruct (Hlow p) as (Hl1 & Hl2 & Hl3); [set_solver|]. pose proof Hinv as [_ Hring _ _ Hn _ _]. apply Forall_app in Hn as [Hn _].
  rewrite EL, cons_middle, app_assoc in Hring. destruct (linked_at _ _ _ _ _ Hring) as [Ep En].
  cbn [malloc_loop]. unfold get_size, get_ptr, put_size, put_ptr, set_freep, getg, modg, HDR. mrun. cbn [glob]. rewrite En, (proj2 (Z.leb_le u _)) by lia.
  destruct (Z.eqb_spec p.2 u) as [Eu|Eu].
  - destruct (take_whole _ _ _ _ _ _ _ _ _ Hinv EL) as (F' & _ & Hinv'). exists p.1, (Mkheap (store32 h.(umem) prev.1 (first K3 base)) prev.1), F'.
    mrun. cbn [glob umem freep wld]. rewrite Ep. split_and!; [done|destruct p; simpl in *; by subst|].
    intros x Hx Hb. simpl. apply store32_other. pose proof (node_apart F prev x Hn Hprev Hx Hb). lia.
  - destruct p as [a n]. cbn [fst snd] in *.
    destruct (take_upper _ _ _ _ _ _ _ _ _ _ u Hinv EL ltac:(lia)) as (F' & _ & Hinv'). eexists _, _, F'. split; [|split; [exact Hinv'|]].
    + mrun. cbn [glob umem freep wld]. rewrite (u32_small (n - u)), (u32_small u) by lia. rewrite load_store32 by lia. done.
    + intros x Hx Hb. simpl. destruct (Z.lt_ge_cases x a); [rewrite !store32_other by lia; done|].
      destruct (Z.le_gt_cases (a + 8 * n) x); [rewrite !store32_other by lia; done|].
      pose proof (cnt_in F x (a, n) Hp) as Hi. rewrite inb_in in Hi by (simpl; lia). lia.
Qed.

(** A list to which a block was added has a block that is at least as large. *)
Lemma join_fits c k y : Forall (fun y => 0 <= y.2) (c :: k) -> y ∈ c :: k -> exists y', y' ∈ join c k /\ y.2 <= y'.2.
Proof.
  intros Hk Hy. unfold join. destruct k as [|d k]; [by exists y|]. apply Forall_cons in Hk as [Hc [Hd Hk]%Forall_cons].
  destruct (_ =? _); [|by exists y]. apply elem_of_cons in Hy as [->|[->|Hy]%elem_of_cons].
  - eexists. split; [left|]. simpl. lia.
  - eexists. split; [left|]. simpl. lia.
  - exists y. split; [by right|done].
Qed.

Lemma place_fits b l : 1 <= b.2 -> Forall (fun y => 1 <= y.2) l -> exists y, y ∈ place b l /\ b.2 <= y.2.
Proof.
  intros Hb Hl. induction Hl as [|c l Hc Hl IH]; simpl; [exists b; split; [left|done]|]. destruct (_ <? _).
  - apply join_fits; [constructor; [lia|]; apply sizes_weaken; by constructor|left].
  - destruct IH as (y & Hy & Hby). destruct (join_fits c (place b l) y) as (y' & Hy' & Hyy'); [|by right|exists y'; split; [done|lia]].
    constructor; [lia|by apply sizes_weaken, place_sizes].
Qed.

Lemma length_place b l : (length (place b l) <= S (length l))%nat.
Proof.
  assert (forall c k, (length (join c k) <= S (length k))%nat) as Hj by (intros c [|d k]; unfold join; [|destruct (_ =? _)]; simpl; lia).
  induction l as [|c l IH]; simpl; [lia|]. destruct (_ <? _); [apply (Hj b (c :: l))|]. rewrite Hj. lia.
Qed.

Lemma heap_grow lo hi h F live nu : heap_inv lo hi h F live -> 1 <= nu -> hi + 8 * nu <= 2 ^ 31 ->
  heap_inv lo (hi + 8 * nu) (Mkheap (store32 h.(umem) (hi + 4) nu) h.(freep)) F ((hi, nu) :: live).
Proof.
  intros Hinv Hnu Hhi. pose proof Hinv as [Hp Hring Hfp Hs Hn Hl Ht].
  assert (forall y, y ∈ F ++ live -> lo <= y.1 /\ y.1 + 8 * y.2 <= hi /\ 1 <= y.2) as Hrange.
  { intros y Hy. rewrite Forall_forall in Hn. specialize (Hn y Hy). simpl in Hn. destruct (tiles_range lo hi _ y Ht Hy Hn). done. }
  constructor; cbn [umem freep]; try done.
  - lia.
  - eapply linked_frame; [|exact Hring]. intros c x [->|Hc]%elem_of_cons Hx; apply store32_other; simpl in *; [lia|].
    destruct (Hrange c ltac:(set_solver)) as (? & ? & ?). lia.
  - rewrite Forall_app, Forall_cons in *. simpl. tauto.
  - constructor; [apply load_store32; simpl; lia|]. rewrite Forall_forall in Hl |- *. intros y Hy. rewrite <- (Hl y Hy).
    destruct (Hrange y ltac:(set_solver)) as (? & ? & ?). apply load_store32_other. lia.
  - intros x. rewrite cnt_app. cbn [cnt]. specialize (Ht x). rewrite cnt_app in Ht. unfold inb. simpl.
    destruct (Z.leb_spec lo x), (Z.ltb_spec x hi), (Z.leb_spec hi x), (Z.ltb_spec x (hi + 8 * nu)); simpl in *; lia.
Qed.

(** The system refuses the memory that [morecore] asks for when [n] units are
    wanted: at least 4096 units of eight bytes. *)
Definition refused (n : Z) (w : W) : Prop := (u_sbrk (8 * Z.max n 4096) w).1 = -1.

Lemma morecore_grows lo h F live w u fuel env :
  heap_inv lo (brk w) h F live -> 1 <= u -> 8 * u < 2 ^ 31 -> (S (length F) < fuel)%nat ->
  exists w', (morecore fuel u (Mkust h w) env = Ok 0 (Mkust h w') env /\ brk w' = brk w /\ refused u w) \/
    (exists h' nu, morecore fuel u (Mkust h w) env = Ok h'.(freep) (Mkust h' w') env /\ u <= nu /\ h'.(freep) <> 0 /\
       brk w' = brk w + 8 * nu /\ heap_inv lo (brk w') h' (place (brk w, nu) F) live /\ untouched ((brk w, nu) :: F) h h').
Proof.
  intros Hinv Hu1 Hu2 Hfuel. unfold morecore. set (nu := if u <? 4096 then 4096 else u).
  assert (u <= nu /\ 1 <= nu /\ 8 * nu < 2 ^ 31) as (Hnu1 & Hnu2 & Hnu3) by (unfold nu; destruct (Z.ltb_spec u 4096); lia).
  unfold HDR. rewrite s32_small by lia. pose proof Hinv as [Hp _ _ _ _ _ _].
  destruct (sbrk_spec w (nu * 8) ltac:(lia)) as [(w' & Ew & Hb)|(w' & Ew & Hb & Hmax)]; exists w'.
  - left. rewrite (bind_call (u_sbrk (nu * 8)) _ (Mkust h w) env _ _ Ew). split_and!; [done|done|].
    unfold refused. replace (8 * Z.max u 4096) with (nu * 8) by (unfold nu; destruct (Z.ltb_spec u 4096); lia). by rewrite Ew.
  - right. rewrite (bind_call (u_sbrk (nu * 8)) _ (Mkust h w) env _ _ Ew). rewrite (proj2 (Z.eqb_neq _ (-1))) by lia.
    unfold put_size at 1, modg. mrun. rewrite (u32_small nu) by lia. unfold set_wld. cbn [glob wld].
    assert (brk w + 8 * nu <= 2 ^ 31) as Hhi by (rewrite <- Z.mul_comm, <- Hb; unfold UADDR_SZ in Hmax; lia).
    destruct (free_keeps lo (brk w + 8 * nu) _ F _ live (brk w) nu w' fuel env (heap_grow _ _ _ _ _ _ Hinv Hnu2 Hhi) ltac:(done) Hfuel)
      as (h' & Ef & Hinv' & Hfr).
    exists h', nu. mstep Ef. split_and!; try done; [|lia|rewrite Hb, Z.mul_comm; done|].
    + by eapply freep_nonzero.
    + intros x Hx Hbx. rewrite Hfr by done. simpl. apply store32_other.
      destruct (outside_block x (brk w, nu) _ ltac:(left) Hx Hnu2); simpl in *; lia.
Qed.

(** One round from [freep] takes a block if some free block is large enough,
    and otherwise comes back to [freep]. *)
Lemma loop_round lo hi h F live w u fuel env : heap_inv lo hi h F live -> 1 <= u -> (length F < fuel)%nat ->
  (exists b h' F', malloc_loop fuel u h.(freep) (load32 h.(umem) h.(freep)) (Mkust h w) env = Ok (b + 8) (Mkust h' w) env /\
     heap_inv lo hi h' F' ((b, u) :: live) /\ untouched F h h') \/
  (Forall (fun y => y.2 < u) F /\ exists prev fuel', fuel = (length F + S fuel')%nat /\
     malloc_loop fuel u h.(freep) (load32 h.(umem) h.(freep)) (Mkust h w) env = malloc_loop (S fuel') u prev h.(freep) (Mkust h w) env).
Proof.
  intros Hinv Hu Hfuel. destruct (ring_rotate _ _ _ _ _ Hinv) as (l0 & f & Ef & Hperm & Hnin & Hseg & Hfirst).
  assert (length l0 = length F) as Hlen by (apply Permutation_length in Hperm; rewrite length_app in Hperm; simpl in Hperm; lia).
  rewrite Ef, Hfirst. destruct (loop_search h w u l0 f _ f fuel env Hseg Ef Hnin Hfirst ltac:(lia))
    as [(prev & p & fuel' & Hprev & Hp & Hup & E & ->)|(Hall & prev & ->)].
  - left. apply (loop_take _ _ _ _ _ _ _ _ _ _ _ Hinv); [rewrite Hperm; set_solver| |done|lia].
    rewrite <- Hperm in Hp. apply elem_of_cons in Hp as [->|]; [simpl in Hup; lia|done].
  - right. rewrite <- Hperm in Hall. apply Forall_cons in Hall as [_ Hall]. split; [done|].
    exists prev, (fuel - length F - 1)%nat. split; [lia|]. f_equal. lia.
Qed.

Lemma malloc_loop_gets lo h F live w u fuel env :
  heap_inv lo (brk w) h F live -> 1 <= u -> 8 * u < 2 ^ 31 -> (2 * length F + 4 <= fuel)%nat ->
  exists w', (malloc_loop fuel u h.(freep) (load32 h.(umem) h.(freep)) (Mkust h w) env = Ok 0 (Mkust h w') env /\
       brk w' = brk w /\ refused u w /\ Forall (fun y => y.2 < u) F) \/
    (exists b h' F', malloc_loop fuel u h.(freep) (load32 h.(umem) h.(freep)) (Mkust h w) env = Ok (b + 8) (Mkust h' w') env /\
       brk w <= brk w' /\ heap_inv lo (brk w') h' F' ((b, u) :: live) /\
       forall x, cnt F x = 0 -> x < base \/ base + 8 <= x < brk w -> h'.(umem) x = h.(umem) x).
Proof.
  intros Hinv Hu1 Hu2 Hfuel. pose proof Hinv as [Hp Hring Hfp _ Hn _ _]. apply Forall_app in Hn as [HnF _].
  destruct (loop_round _ _ _ _ _ w u fuel env Hinv Hu1 ltac:(lia)) as [(b & h' & F' & E & Hi & Hun)|(Hall & prev & fuel' & Ef & ->)].
  { exists w. right. exists b, h', F'. split_and!; [done|lia|done|]. intros x Hx Hb. apply Hun; [done|lia]. }
  assert (Forall (fun y => y.2 < u) ((base, 0) :: F)) as Hall' by (constructor; [simpl; lia|done]).
  assert (load32 h.(umem) (h.(freep) + 4) < u) as Hsz.
  { change (base :: F.*1) with (((base, 0) :: F).*1) in Hfp. apply list_elem_of_fmap in Hfp as (f & -> & Hf). rewrite Forall_forall in Hall'.
    specialize (Hall' f Hf). simpl in Hall'. apply list_elem_of_split in Hf as (K1 & K2 & EL). rewrite EL in Hring. by apply linked_at in Hring as [_ ->]. }
  assert (malloc_loop (S fuel') u prev h.(freep) (Mkust h w) env =
    (p <- morecore (S fuel') u ;; if p =? 0 then ret 0 else q <- get_ptr p ;; malloc_loop fuel' u p q) (Mkust h w) env) as Estep.
  { cbn [malloc_loop]. unfold get_size at 1, getg. mrun. cbn [glob]. rewrite (proj2 (Z.leb_gt u _)) by done. mrun. cbn [glob]. by rewrite Z.eqb_refl. }
  rewrite Estep. clear Estep. destruct (morecore_grows lo h F live w u (S fuel') env Hinv Hu1 Hu2 ltac:(lia)) as (w' & [(Em & Hb & Href)|(h1 & nu & Em & Hnu & Hne & Hb & Hinv1 & Hun1)]);
    exists w'; rewrite !(bind_ok _ _ _ _ _ _ _ Em).
  - left. done.
  - right. rewrite (proj2 (Z.eqb_neq _ 0)) by done. unfold get_ptr at 1, getg. mrun. cbn [glob].
    pose proof (length_place (brk w, nu) F) as Hlen.
    destruct (loop_round _ _ _ _ _ w' u fuel' env Hinv1 Hu1 ltac:(lia)) as [(b & h' & F' & E & Hi & Hun)|(Hall1 & _)].
    + exists b, h', F'. split_and!; [done|lia|done|]. intros x Hx Hbx.
      assert (inb x (brk w, nu) = 0) as Hi0 by (unfold inb; simpl; rewrite (proj2 (Z.leb_gt (brk w) x)) by lia; done).
      rewrite Hun; [apply Hun1; [simpl; lia|lia]| |lia]. rewrite cnt_place by (simpl; done || lia). lia.
    + exfalso. destruct (place_fits (brk w, nu) F ltac:(simpl; lia) HnF) as (y & Hy & Hle). rewrite Forall_forall in Hall1.
      specialize (Hall1 y Hy). simpl in *. lia.
Qed.

(** ** malloc and free *)

Lemma blocks_room lo hi l : StronglySorted gap l -> (forall y, y ∈ l -> 1 <= y.2 /\ lo <= y.1 /\ y.1 + 8 * y.2 <= hi) -> lo <= hi ->
  8 * Z.of_nat (length l) <= hi - lo.
Proof.
  revert lo. induction l as [|y l IH]; intros lo Hs Hr Hle; simpl; [lia|].
  apply StronglySorted_inv in Hs as [Hs Hy]. rewrite Forall_forall in Hy. destruct (Hr y ltac:(left)) as (H1 & H2 & H3).
  specialize (IH (y.1 + 8 * y.2) Hs). rewrite Nat2Z.inj_succ. enough (8 * Z.of_nat (length l) <= hi - (y.1 + 8 * y.2)) by lia.
  apply IH; [|lia]. intros z Hz. destruct (Hr z ltac:(by right)) as (? & ? & ?). destruct (Hy z Hz). lia.
Qed.

Lemma inv_room lo hi h F live : heap_inv lo hi h F live -> 8 * Z.of_nat (length F) <= hi - lo.
Proof.
  intros [Hp _ _ Hs Hn _ Ht]. apply blocks_room; [done| |lia]. intros y Hy. rewrite Forall_forall in Hn.
  assert (y ∈ F ++ live) as Hy' by set_solver. specialize (Hn y Hy'). simpl in Hn. destruct (tiles_range lo hi _ y Ht Hy' Hn). done.
Qed.

(** Before the first call nothing is allocated; later the invariant holds. *)
Definition heap_ok (lo : Z) (w : W) (h : heap) (live : list block) : Prop :=
  (h.(freep) = 0 /\ live = [] /\ brk w = lo /\ 0 < base /\ base + 8 <= lo <= 2 ^ 31) \/
  exists F, heap_inv lo (brk w) h F live.

Lemma inv_new lo hi h F b u live : heap_inv lo hi h F ((b, u) :: live) ->
  lo <= b /\ b + 8 * u <= hi /\ forall y, y ∈ live -> b + 8 * u <= y.1 \/ y.1 + 8 * y.2 <= b.
Proof.
  intros [_ _ _ _ Hn _ Ht]. rewrite Forall_forall in Hn. assert (1 <= u) as Hu by (apply (Hn (b, u)); set_solver).
  destruct (tiles_range lo hi _ (b, u) Ht) as [? ?]; [set_solver|done|]. split_and!; [done|done|]. intros y Hy.
  destruct (tiles_apart (F ++ live) (b, u) y) as [[_ Ho]|[_ Ho]]; [|set_solver|done|apply Hn; set_solver|by left|by right].
  intros x. rewrite <- (tiles_le lo hi _ Ht x). apply Z.eq_le_incl, (cnt_perm x). solve_Permutation.
Qed.

Lemma inv_start lo h : 0 < base -> base + 8 <= lo <= 2 ^ 31 ->
  heap_inv lo lo (Mkheap (store32 (store32 h.(umem) base base) (base + 4) 0) base) [] [].
Proof.
  intros Hb Hlo. constructor; cbn [umem freep app]; try done; try lia; try (by constructor).
  - simpl. rewrite load_store32_other, !load_store32 by lia. done.
  - intros x. simpl. destruct (Z.leb_spec lo x), (Z.ltb_spec x lo); done || lia.
Qed.

Lemma malloc_units nbytes : 0 <= nbytes < 2 ^ 31 - 16 -> exists u,
  u32 (nbytes + HDR - 1) / HDR + 1 = u /\ 1 <= u /\ 8 * u < 2 ^ 31 /\ nbytes <= 8 * (u - 1) < nbytes + 8.
Proof. intros Hn. eexists. split; [done|]. unfold HDR. rewrite u32_small by lia. Z.div_mod_to_equations. lia. Qed.

Lemma live_kept lo hi h F live y x : heap_inv lo hi h F live -> y ∈ live -> y.1 <= x < y.1 + 8 * y.2 ->
  cnt F x = 0 /\ base + 8 <= x < hi.
Proof.
  intros Hinv Hy Hx. pose proof Hinv as [Hp _ _ _ Hn _ Ht]. split; [apply (cnt_excl F live y); [by apply (tiles_le lo hi)|done|done]|].
  rewrite Forall_forall in Hn. specialize (Hn y ltac:(set_solver)). simpl in Hn. destruct (tiles_range lo hi _ y Ht); [set_solver|done|]. lia.
Qed.

(** C38: malloc of less than 2^31 - 16 bytes, on a heap in order, needs [n]
    units: the bytes rounded up to whole units, and a header. It returns null
    only if no free block has [n] units and sbrk refuses the request that
    [morecore] makes for them; the break and the live blocks then stay. Otherwise
    it returns a block of [n] units that lies between the start of the heap and
    the break and overlaps no live block. The heap stays in order and no byte
    of a live block changes. *)
Theorem malloc_allocates lo h live w nbytes fuel env :
  heap_ok lo w h live -> 0 <= nbytes < 2 ^ 31 - 16 -> brk w - lo + 4 <= Z.of_nat fuel ->
  exists r h' w' n, malloc base fuel nbytes (Mkust h w) env = Ok r (Mkust h' w') env /\ brk w <= brk w' /\
    nbytes <= 8 * (n - 1) < nbytes + 8 /\
    (r = 0 /\ refused n w /\ brk w' = brk w /\ (exists F, heap_inv lo (brk w') h' F live /\ Forall (fun y => y.2 < n) F) \/
     heap_ok lo w' h' ((r - 8, n) :: live) /\ lo <= r - 8 /\ r + 8 * (n - 1) <= brk w' /\
       forall y, y ∈ live -> r + 8 * (n - 1) <= y.1 \/ y.1 + 8 * y.2 <= r - 8) /\
    forall y x, y ∈ live -> y.1 <= x < y.1 + 8 * y.2 -> h'.(umem) x = h.(umem) x.
Proof.
  intros Hok Hn Hfuel. destruct (malloc_units nbytes Hn) as (u & Eu & Hu1 & Hu2 & Hu3). unfold malloc. rewrite Eu.
  assert (exists h1 F, (fp <- getg freep ;; prevp <- (if fp =? 0 then put_ptr base base ;;; set_freep base ;;; put_size base 0 ;;; ret base else ret fp) ;;
      p <- get_ptr prevp ;; malloc_loop fuel u prevp p) (Mkust h w) env =
      malloc_loop fuel u h1.(freep) (load32 h1.(umem) h1.(freep)) (Mkust h1 w) env /\ heap_inv lo (brk w) h1 F live /\
      forall y x, y ∈ live -> h1.(umem) x = h.(umem) x) as (h1 & F & -> & Hinv & Hsame).
  { unfold getg, put_ptr, set_freep, put_size, get_ptr, getg, modg. mrun. cbn [glob]. destruct Hok as [(Hf & -> & Hlo & Hb1 & Hb2)|(F & Hinv)].
    - rewrite Hf, Z.eqb_refl. mrun. cbn [glob umem freep wld]. eexists _, []. split; [|split; [rewrite Hlo; by apply (inv_start lo h)|]]; [done|].
      intros y x Hy. by apply not_elem_of_nil in Hy.
    - exists h, F. assert (h.(freep) <> 0) as Hne by (by eapply freep_nonzero). rewrite (proj2 (Z.eqb_neq _ _)) by done. by mrun. }
  pose proof (inv_room _ _ _ _ _ Hinv) as Hroom.
  destruct (malloc_loop_gets lo h1 F live w u fuel env Hinv Hu1 Hu2 ltac:(lia)) as (w' & [(E & Hb & Href & Hsmall)|(b & h' & F' & E & Hb & Hinv' & Hun)]).
  - exists 0, h1, w', u. split_and!; [done|lia|lia|lia| |].
    + left. split_and!; [done|done|done|exists F; by rewrite Hb].
    + intros y x Hy _. by apply (Hsame y).
  - exists (b + 8), h', w', u. destruct (inv_new _ _ _ _ _ _ _ Hinv') as (H1 & H2 & H3). split_and!; [done|done|lia|lia| |].
    + right. rewrite Z.add_simpl_r. split_and!; [by right; exists F'|lia|lia|]. intros y Hy. destruct (H3 y Hy); lia.
    + intros y x Hy Hx. destruct (live_kept _ _ _ _ _ y x Hinv Hy Hx). rewrite Hun by (done || lia). by apply (Hsame y).
Qed.

(** C39: free of a live block, on a heap in order, puts it back: the heap
    stays in order with the other live blocks, and no byte of them changes. *)
Theorem free_returns lo h live live' b n w fuel env :
  heap_ok lo w h live -> live ≡ₚ (b, n) :: live' -> brk w - lo + 4 <= Z.of_nat fuel ->
  exists h', free fuel (b + 8) (Mkust h w) env = Ok tt (Mkust h' w) env /\ heap_ok lo w h' live' /\
    forall y x, y ∈ live' -> y.1 <= x < y.1 + 8 * y.2 -> h'.(umem) x = h.(umem) x.
Proof.
  intros [(_ & -> & _)|(F & Hinv)] Hl Hfuel; [by apply Permutation_nil_l in Hl|]. pose proof (inv_room _ _ _ _ _ Hinv) as Hroom.
  destruct (free_keeps lo (brk w) h F live live' b n w fuel env Hinv Hl ltac:(lia)) as (h' & E & Hinv' & Hun).
  exists h'. split_and!; [done|by right; eexists|]. intros y x Hy Hx. destruct (live_kept _ _ _ _ _ y x Hinv' Hy Hx) as [Hc Hx'].
  apply Hun; [|lia]. pose proof Hinv as [_ _ _ _ Hn _ _]. rewrite Hl, Forall_app, Forall_cons in Hn. destruct Hn as (HnF & Hbn & _).
  rewrite cnt_place in Hc by done. done.
Qed.

(** Blocks with gaps between them that fill a range are one block. *)
Lemma tiles_one lo hi l : StronglySorted gap l -> Forall (fun y => 1 <= y.2) l ->
  (forall x, cnt l x = if (lo <=? x) && (x <? hi) then 1 else 0) -> lo < hi -> exists n, l = [(lo, n)] /\ 8 * n = hi - lo.
Proof.
  intros Hs Hn Ht Hlt. rewrite Forall_forall in Hn. assert (forall x, lo <= x < hi -> cnt l x = 1) as Hin.
  { intros x Hx. by rewrite Ht, (proj2 (Z.leb_le _ _)), (proj2 (Z.ltb_lt _ _)) by lia. }
  destruct l as [|y l]; [by specialize (Hin lo ltac:(lia))|].
  assert (1 <= y.2) as Hy by (apply Hn; left). destruct (tiles_range lo hi _ y Ht ltac:(left) Hy) as [H1 H2].
  apply StronglySorted_inv in Hs as [_ Hgap].
  assert (forall x k, Forall (gap y) k -> x <= y.1 + 8 * y.2 -> cnt k x = 0) as Hk.
  { intros x k Hk Hx. induction Hk as [|c k [_ Hc] _ IH]; [done|]. simpl. rewrite IH. unfold inb. by rewrite (proj2 (Z.leb_gt c.1 _)) by lia. }
  assert (forall x, lo <= x < hi -> x <= y.1 + 8 * y.2 -> y.1 <= x < y.1 + 8 * y.2) as Hx.
  { intros x Hx Hxy. specialize (Hin x Hx). cbn [cnt] in Hin. rewrite Hk in Hin by done. unfold inb in Hin.
    destruct (Z.leb_spec y.1 x), (Z.ltb_spec x (y.1 + 8 * y.2)); simpl in Hin; lia. }
  pose proof (Hx lo). pose proof (Hx (y.1 + 8 * y.2)). destruct l as [|z l].
  - exists y.2. destruct y as [a n]. simpl in *. split; [f_equal; f_equal; lia|lia].
  - assert (1 <= z.2) as Hz by (apply Hn; set_solver). destruct (tiles_range lo hi _ z Ht ltac:(set_solver) Hz).
    apply Forall_cons in Hgap as [[_ Hg] _]. lia.
Qed.

(** Nothing is lost and nothing stays split: when every block has been
    freed, the free list is one block that spans the whole heap. *)
Theorem all_freed_one_block lo h w : heap_ok lo w h [] -> lo < brk w ->
  h.(freep) ∈ [base; lo] /\ load32 h.(umem) base = lo /\ load32 h.(umem) lo = base /\ 8 * load32 h.(umem) (lo + 4) = brk w - lo.
Proof.
  intros [(_ & _ & E & _)|(F & [Hp Hring Hfp Hs Hn _ Ht])] Hlt; [lia|]. rewrite app_nil_r in Hn, Ht.
  destruct (tiles_one lo (brk w) F Hs Hn Ht Hlt) as (n & -> & En). simpl in Hring, Hfp. destruct Hring as (E1 & _ & E2 & E3 & _).
  split_and!; [done|done|done|lia].
Qed.

(** The size of a request wraps around: the largest one is served like an
    empty one. *)
Lemma malloc_wraps fuel : malloc base fuel (2 ^ 32 - 1) = malloc (W := W) base fuel 0.
Proof. reflexivity. Qed.
End Run.

(** ** A world with a heap *)

(** The world is the break. *)
#[local] Instance arena_sys : Sys Z := {|
  u_fork := fun w => (-1, w); u_exit := fun w => w; u_wait := fun w => (-1, w); u_pipe := fun w => (-1, (0, 0), w);
  u_read := fun _ _ w => (-1, [], w); u_write := fun _ _ w => (-1, w); u_close := fun _ w => (-1, w); u_kill := fun _ w => (-1, w);
  u_exec := fun _ _ w => (Some (-1), w); u_open := fun _ _ w => (-1, w); u_mknod := fun _ _ _ w => (-1, w);
  u_unlink := fun _ w => (-1, w); u_fstat := fun _ w => (-1, None, w); u_link := fun _ _ w => (-1, w); u_mkdir := fun _ w => (-1, w);
  u_chdir := fun _ w => (-1, w); u_dup := fun _ w => (-1, w); u_getpid := fun w => (-1, w);
  u_sbrk := fun n w => if w + n <=? UADDR_SZ then (w, w + n) else (-1, w);
  u_sleep := fun _ w => (-1, w); u_uptime := fun w => (-1, w)
|}.

Lemma arena_sbrk (w n : Z) : 0 < n -> (exists w', u_sbrk n w = (-1, w') /\ w' = w) \/
  (exists w', u_sbrk n w = (w, w') /\ w' = w + n /\ w' <= UADDR_SZ).
Proof. intros _. simpl. destruct (Z.leb_spec (w + n) UADDR_SZ); [right|left]; eauto. Qed.

#[local] Instance arena_brk : Brk Z := {| brk := fun w => w; sbrk_spec := arena_sbrk |}.

Lemma malloc_allocates_witness : let h := Mkheap (fun _ => 0) 0 in
  heap_ok 64 4096 (4096 : Z) h [] /\
  exists r h' w' n, malloc 64 4 100 (Mkust h (4096 : Z)) [] = Ok r (Mkust h' w') [] /\ brk (4096 : Z) <= brk w' /\
    100 <= 8 * (n - 1) < 100 + 8 /\
    (r = 0 /\ refused n (4096 : Z) /\ brk w' = brk (4096 : Z) /\ (exists F, heap_inv 64 4096 (brk w') h' F [] /\ Forall (fun y => y.2 < n) F) \/
     heap_ok 64 4096 w' h' [(r - 8, n)] /\ 4096 <= r - 8 /\ r + 8 * (n - 1) <= brk w' /\
       forall y, y ∈ [] -> r + 8 * (n - 1) <= y.1 \/ y.1 + 8 * y.2 <= r - 8) /\
    forall y x, y ∈ [] -> y.1 <= x < y.1 + 8 * y.2 -> h'.(umem) x = h.(umem) x.
Proof.
  intros h. assert (heap_ok 64 4096 (4096 : Z) h []) as Hok by (left; split_and!; done).
  split; [exact Hok|]. apply (malloc_allocates 64 4096 h [] (4096 : Z) 100 4 []); [exact Hok|lia|simpl; lia].
Defined.

(** A heap with one live block of one unit, and the same block free. *)
Definition demo_heap : heap :=
  Mkheap (store32 (store32 (store32 (fun _ => 0) 64 64) 68 0) 4100 1) 64.
Definition demo_free : heap :=
  Mkheap (store32 (store32 (store32 (store32 (fun _ => 0) 64 4096) 68 0) 4096 64) 4100 1) 64.

Lemma demo_tile x : cnt [(4096, 1)] x = if (4096 <=? x) && (x <? 4104) then 1 else 0.
Proof. unfold cnt, inb. simpl. by destruct (_ && _). Qed.

Lemma demo_heap_ok : heap_ok 64 4096 (4104 : Z) demo_heap [(4096, 1)].
Proof.
  right. exists []. constructor; [vm_compute; split_and!; done|vm_compute; done|by repeat constructor..|exact demo_tile].
Qed.

Lemma demo_free_ok : heap_ok 64 4096 (4104 : Z) demo_free [].
Proof.
  right. exists [(4096, 1)]. constructor; [vm_compute; split_and!; done|vm_compute; done|by repeat constructor..|exact demo_tile].
Qed.

Lemma free_returns_witness :
  exists h', free 16 (4096 + 8) (Mkust demo_heap (4104 : Z)) [] = Ok tt (Mkust h' (4104 : Z)) [] /\ heap_ok 64 4096 (4104 : Z) h' [] /\
    forall y x, y ∈ [] -> y.1 <= x < y.1 + 8 * y.2 -> h'.(umem) x = demo_heap.(umem) x.
Proof. apply (free_returns 64 4096 demo_heap [(4096, 1)] [] 4096 1 (4104 : Z) 16 []); [exact demo_heap_ok|done|simpl; lia]. Defined.

Lemma all_freed_one_block_witness :
  demo_free.(freep) ∈ [64; 4096] /\ load32 demo_free.(umem) 64 = 4096 /\ load32 demo_free.(umem) 4096 = 64 /\
  8 * load32 demo_free.(umem) (4096 + 4) = brk (4104 : Z) - 4096.
Proof. apply (all_freed_one_block 64 4096 demo_free (4104 : Z)); [exact demo_free_ok|simpl; lia]. Defined.

End UmallocFacts.
