(* ===== verification/Programs.v ===== *)
(** The small user programs (user/cat.c, echo.c, kill.c, ln.c, ls.c, mkdir.c,
    rm.c, wc.c, zombie.c, init.c, forktest.c, stressfs.c). [argv] is the list
    of the arguments, the program's name first. Loops that read until the end
    of a file, and the endless loop of init, have a fuel. *)
From S2P Require Import Prelude Types Inode Console Fs User Ulib.
Import Inode Console Fs User Ulib.

Module Programs.

Section Programs.
Context {W : Type} `{Sys W}.

(** ** cat *)

Definition CATBUF : Z := 512.

(* while ((n = read(fd, buf, sizeof(buf))) > 0); the static data is buf *)
Fixpoint cat (fuel : nat) (fd : Z) : U (list Z) W unit :=
  match fuel with
  | O => fail NoFuel
  | S f =>
      r <- call (u_read fd CATBUF) ;;
      let n := r.1 in
      modg (splice 0 r.2) ;;;
      if 0 <? n then
        buf <- getg (fun b => b) ;;
        call (u_write 1 (take (Z.to_nat n) buf)) ;;;
        cat f fd
      else if n <? 0 then
        printf 1 (chars "cat: read error" ++ newline) [] ;;; exit
      else ret tt
  end.

Definition cat_main (fuel : nat) (argv : list (list Z)) : U (list Z) W unit :=
  if (length argv <=? 1)%nat then cat fuel 0 ;;; exit else
  mfor (tail argv) (fun arg =>
    fd <- call (u_open arg 0) ;;
    if fd <? 0 then
      printf 1 (chars "cat: cannot open %s" ++ newline) [PStr (Some arg)] ;;; exit
    else
      cat fuel fd ;;;
      call (u_close fd) ;;; ret tt) ;;;
  exit.

(** ** wc *)

Definition is_space (c : Z) : bool := match strchr_in [32; 13; 9; 10; 11] c with Some _ => true | None => false end.

(** The counters of lines, words and characters, and inword. *)
Record counts : Type := Mkcounts { n_l : Z; n_w : Z; n_c : Z; inword : bool }.

(* the body of for (i=0; i<n; i++) *)
Definition wc_char (k : counts) (b : Z) : counts :=
  let c := s32 (k.(n_c) + 1) in
  let l := if b =? 10 then s32 (k.(n_l) + 1) else k.(n_l) in
  if is_space b then Mkcounts l k.(n_w) c false
  else if negb k.(inword) then Mkcounts l (s32 (k.(n_w) + 1)) c true
  else Mkcounts l k.(n_w) c k.(inword).

Fixpoint wc_loop (fuel : nat) (fd : Z) (k : counts) : U (list Z) W (counts * Z) :=
  match fuel with
  | O => fail NoFuel
  | S f =>
      r <- call (u_read fd CATBUF) ;;
      let n := r.1 in
      modg (splice 0 r.2) ;;;
      if 0 <? n then
        buf <- getg (fun b => b) ;;
        wc_loop f fd (fold_left wc_char (take (Z.to_nat n) buf) k)
      else ret (k, n)
  end.

Definition wc (fuel : nat) (fd : Z) (name : list Z) : U (list Z) W unit :=
  r <- wc_loop fuel fd (Mkcounts 0 0 0 false) ;;
  let '(k, n) := r in
  if n <? 0 then printf 1 (chars "wc: read error" ++ newline) [] ;;; exit
  else printf 1 (chars "%d %d %d %s" ++ newline) [PInt k.(n_l); PInt k.(n_w); PInt k.(n_c); PStr (Some name)].

Definition wc_main (fuel : nat) (argv : list (list Z)) : U (list Z) W unit :=
  if (length argv <=? 1)%nat then wc fuel 0 [] ;;; exit else
  mfor (tail argv) (fun arg =>
    fd <- call (u_open arg 0) ;;
    if fd <? 0 then
      printf 1 (chars "wc: cannot open %s" ++ newline) [PStr (Some arg)] ;;; exit
    else
      wc fuel fd arg ;;;
      call (u_close fd) ;;; ret tt) ;;;
  exit.

(** ** Programs without static data *)

Context {G : Type}.

Definition echo_main (argv : list (list Z)) : U G W unit :=
  mfor (seq 1 (length argv - 1)) (fun i =>
    arg <- deref "argv" (argv !! i) ;;
    printf 1 (chars "%s%s") [PStr (Some arg); PStr (Some (if (i + 1 <? length argv)%nat then chars " " else newline))]) ;;;
  exit.

Definition kill_main (argv : list (list Z)) : U G W unit :=
  if (length argv <? 1)%nat then printf 2 (chars "usage: kill pid..." ++ newline) [] ;;; exit else
  mfor (tail argv) (fun arg => call (u_kill (atoi arg)) ;;; ret tt) ;;;
  exit.

Definition ln_main (argv : list (list Z)) : U G W unit :=
  match argv with
  | [_; old; new] =>
      r <- call (u_link old new) ;;
      when (r <? 0) (printf 2 (chars "link %s %s: failed" ++ newline) [PStr (Some old); PStr (Some new)]) ;;;
      exit
  | _ => printf 2 (chars "Usage: ln old new" ++ newline) [] ;;; exit
  end.

Definition mkdir_main (argv : list (list Z)) : U G W unit :=
  if (length argv <? 2)%nat then printf 2 (chars "Usage: mkdir files..." ++ newline) [] ;;; exit else
  mfind (tail argv) (fun arg =>
    r <- call (u_mkdir arg) ;;
    if r <? 0 then printf 2 (chars "mkdir: %s failed to create" ++ newline) [PStr (Some arg)] ;;; ret (Some tt)
    else ret None) ;;;
  exit.

Definition rm_main (argv : list (list Z)) : U G W unit :=
  if (length argv <? 2)%nat then printf 2 (chars "Usage: rm files..." ++ newline) [] ;;; exit else
  mfind (tail argv) (fun arg =>
    r <- call (u_unlink arg) ;;
    if r <? 0 then printf 2 (chars "rm: %s failed to delete" ++ newline) [PStr (Some arg)] ;;; ret (Some tt)
    else ret None) ;;;
  exit.

Definition zombie_main : U G W unit :=
  pid <- call u_fork ;;
  when (0 <? pid) (call (u_sleep 5) ;;; ret tt) ;;;
  exit.

(* while ((wpid=wait()) >= 0 && wpid != pid) *)
Fixpoint init_wait (fuel : nat) (pid : Z) : U G W unit :=
  match fuel with
  | O => fail NoFuel
  | S f =>
      wpid <- call u_wait ;;
      if (0 <=? wpid) && negb (wpid =? pid) then
        printf 1 (chars "zombie!" ++ newline) [] ;;; init_wait f pid
      else ret tt
  end.

(* for (;;): one shell after the other *)
Fixpoint init_loop (fuel : nat) : U G W unit :=
  match fuel with
  | O => fail NoFuel
  | S f =>
      printf 1 (chars "init: starting sh" ++ newline) [] ;;;
      pid <- call u_fork ;;
      if pid <? 0 then printf 1 (chars "init: fork failed" ++ newline) [] ;;; exit else
      if pid =? 0 then
        exec (chars "sh") [chars "sh"] ;;;
        printf 1 (chars "init: exec sh failed" ++ newline) [] ;;; exit
      else
        init_wait fuel pid ;;;
        init_loop f
  end.

Definition init_main (fuel : nat) : U G W unit :=
  fd <- call (u_open (chars "console") O_RDWR) ;;
  when (fd <? 0)
    (call (u_mknod (chars "console") 1 1) ;;;
     call (u_open (chars "console") O_RDWR) ;;; ret tt) ;;;
  call (u_dup 0) ;;;
  call (u_dup 0) ;;;
  init_loop fuel.

(** ** forktest *)

Definition FORKS : nat := 1000.

Definition wprintf (fd : Z) (s : list Z) : U G W unit := call (u_write fd s) ;;; ret tt.

Definition forktest : U G W unit :=
  wprintf 1 (chars "fork test" ++ newline) ;;;
  o <- mfind (seq 0 FORKS) (fun n =>
    pid <- call u_fork ;;
    if pid <? 0 then ret (Some n)
    else if pid =? 0 then exit
    else ret None) ;;
  match o with
  | None => wprintf 1 (chars "fork claimed to work N times!" ++ newline) ;;; exit
  | Some n =>
      mfor (seq 0 n) (fun _ =>
        r <- call u_wait ;;
        when (r <? 0) (wprintf 1 (chars "wait stopped early" ++ newline) ;;; exit)) ;;;
      r <- call u_wait ;;
      if negb (r =? -1) then wprintf 1 (chars "wait got too many" ++ newline) ;;; exit else
      wprintf 1 (chars "fork test OK" ++ newline)
  end.

Definition forktest_main : U G W unit := forktest ;;; exit.

(** ** stressfs *)

Definition stressfs_main : U G W unit :=
  printf 1 (chars "stressfs starting" ++ newline) [] ;;;
  let data := replicate 512 97 in
  o <- mfind (seq 0 4) (fun i =>
    pid <- call u_fork ;;
    ret (if 0 <? pid then Some i else None)) ;;
  let i := Z.of_nat (default 4%nat o) in
  printf 1 (chars "write %d" ++ newline) [PInt i] ;;;
  let path := chars "stressfs" ++ [u8 (48 + i)] in
  fd <- call (u_open path (Z.lor O_CREATE O_RDWR)) ;;
  mfor (seq 0 20) (fun _ => call (u_write fd data) ;;; ret tt) ;;;
  call (u_close fd) ;;;
  printf 1 (chars "read" ++ newline) [] ;;;
  fd <- call (u_open path O_RDONLY) ;;
  mfor (seq 0 20) (fun _ => call (u_read fd 512) ;;; ret tt) ;;;
  call (u_close fd) ;;;
  call u_wait ;;;
  exit.
End Programs.

(** ** ls *)

Section Ls.
Context {W : Type} `{Sys W}.

(* for (p=path+strlen(path); p >= path && p[0] != '/'; p--): what follows the last slash *)
Fixpoint after_slash (path : list Z) : list Z :=
  match path with
  | [] => []
  | c :: path' => if existsb (Z.eqb 47) path' then after_slash path' else if c =? 47 then path' else path
  end.

(** The static data is the array [buf] of fmtname. *)
Definition fmtname (path : list Z) : U (list Z) W (list Z) :=
  let p := after_slash path in
  if DIRSIZ <=? Z.of_nat (length p) then ret p else
  modg (splice 0 p) ;;;
  modg (splice (length p) (replicate (Z.to_nat DIRSIZ - length p) 32)) ;;;
  getg upto_nul.

Definition ls_line (path : list Z) (st : Inode.stat) : U (list Z) W unit :=
  name <- fmtname path ;;
  printf 1 (chars "%s %d %d %d" ++ newline)
    [PStr (Some name); PInt st.(st_type); PInt st.(st_ino); PInt st.(st_size)].

(* while (read(fd, &de, sizeof(de)) == sizeof(de)) *)
Fixpoint ls_loop (fuel : nat) (fd : Z) (path : list Z) : U (list Z) W unit :=
  match fuel with
  | O => fail NoFuel
  | S f =>
      r <- call (u_read fd DIRENT_SIZE) ;;
      if negb (r.1 =? DIRENT_SIZE) then ret tt else
      let de := r.2 in
      if get16 0 de =? 0 then ls_loop f fd path else
      let buf := path ++ [47] ++ upto_nul (take (Z.to_nat DIRSIZ) (drop 2 de)) in
      q <- stat buf ;;
      if q.1 <? 0 then
        printf 1 (chars "ls: cannot stat %s" ++ newline) [PStr (Some buf)] ;;;
        ls_loop f fd path
      else
        st <- deref "st" q.2 ;;
        ls_line buf st ;;;
        ls_loop f fd path
  end.

Definition ls (fuel : nat) (path : list Z) : U (list Z) W unit :=
  fd <- call (u_open path 0) ;;
  if fd <? 0 then printf 2 (chars "ls: cannot open %s" ++ newline) [PStr (Some path)] else
  q <- call (u_fstat fd) ;;
  if q.1 <? 0 then
    printf 2 (chars "ls: cannot stat %s" ++ newline) [PStr (Some path)] ;;;
    call (u_close fd) ;;; ret tt
  else
    st <- deref "st" q.2 ;;
    (if st.(st_type) =? T_FILE then ls_line path st
     else if st.(st_type) =? T_DIR then
       if 512 <? Z.of_nat (length path) + 1 + DIRSIZ + 1 then
         printf 1 (chars "ls: path too long" ++ newline) []
       else ls_loop fuel fd path
     else ret tt) ;;;
    call (u_close fd) ;;; ret tt.

Definition ls_main (fuel : nat) (argv : list (list Z)) : U (list Z) W unit :=
  if (length argv <? 2)%nat then ls fuel (chars ".") ;;; exit else
  mfor (tail argv) (ls fuel) ;;;
  exit.
End Ls.

End Programs.
