(* ===== verification/UserTests.v ===== *)
(** The tests of the kernel through its calls (user/usertests.c). [buf],
    [name] and [uninit] are the program's arrays; the allocator's memory is
    that of Umalloc. Loops that read to the end of a file, or that only end
    when a call fails, have a fuel. [sbrktest], [preempt] and [fsfull] are not
    called by main. *)
From S2P Require Import Prelude Types Inode Console Fs User Ulib Cstring Umalloc.
Import Inode Console Fs User Ulib.

Module UserTests.

(** The static data. *)
Record tests : Type := Mktests { t_buf : list Z; t_name : list Z; t_uninit : list Z; t_heap : Umalloc.heap }.

Definition BUFSIZE : Z := 8192.

Definition upd_buf (f : list Z -> list Z) (g : tests) : tests := Mktests (f g.(t_buf)) g.(t_name) g.(t_uninit) g.(t_heap).
Definition upd_name (f : list Z -> list Z) (g : tests) : tests := Mktests g.(t_buf) (f g.(t_name)) g.(t_uninit) g.(t_heap).

Section UserTests.
Context {W : Type} `{Sys W}.

Abbreviation T := (U tests W).

(** printf of a constant line to the standard output, and then exit. *)
Definition say (s : string) : T unit := printf 1 (chars s ++ newline) [].
Definition die (s : string) : T unit := say s ;;; exit.

(** read into [buf], and write from it. *)
Definition read_buf (fd n : Z) : T Z :=
  r <- call (u_read fd n) ;;
  modg (upd_buf (splice 0 r.2)) ;;;
  ret r.1.

Definition write_buf (fd n : Z) : T Z :=
  b <- getg t_buf ;;
  call (u_write fd (take (Z.to_nat n) b)).

Definition buf_at (i : nat) : T Z := getg (fun g => nth i g.(t_buf) 0).

(** ** Simple file system tests *)

Definition opentest : T unit :=
  say "open test" ;;;
  fd <- call (u_open (chars "echo") 0) ;;
  when (fd <? 0) (die "open echo failed!") ;;;
  call (u_close fd) ;;;
  fd <- call (u_open (chars "doesnotexist") 0) ;;
  when (0 <=? fd) (die "open doesnotexist succeeded!") ;;;
  say "open test ok".

Definition writetest : T unit :=
  say "small file test" ;;;
  fd <- call (u_open (chars "small") (Z.lor O_CREATE O_RDWR)) ;;
  (if 0 <=? fd then say "creat small succeeded; ok" else die "error: creat small failed!") ;;;
  mfor (seq 0 100) (fun i =>
    r <- call (u_write fd (chars "aaaaaaaaaa")) ;;
    when (negb (r =? 10))
      (printf 1 (chars "error: write aa %d new file failed" ++ newline) [PInt (Z.of_nat i)] ;;; exit) ;;;
    r <- call (u_write fd (chars "bbbbbbbbbb")) ;;
    when (negb (r =? 10))
      (printf 1 (chars "error: write bb %d new file failed" ++ newline) [PInt (Z.of_nat i)] ;;; exit)) ;;;
  say "writes ok" ;;;
  call (u_close fd) ;;;
  fd <- call (u_open (chars "small") O_RDONLY) ;;
  (if 0 <=? fd then say "open small succeeded ok" else die "error: open small failed!") ;;;
  i <- read_buf fd 2000 ;;
  (if i =? 2000 then say "read succeeded ok" else die "read failed") ;;;
  call (u_close fd) ;;;
  r <- call (u_unlink (chars "small")) ;;
  when (r <? 0) (die "unlink small failed") ;;;
  say "small file test ok".

(* for (;;): the blocks read so far *)
Fixpoint writetest1_read (fuel : nat) (fd n : Z) : T unit :=
  match fuel with
  | O => fail NoFuel
  | S f =>
      i <- read_buf fd 512 ;;
      if i =? 0 then
        when (n =? MAXFILE - 1) (printf 1 (chars "read only %d blocks from big") [PInt n] ;;; exit)
      else
        when (negb (i =? 512)) (printf 1 (chars "read failed %d" ++ newline) [PInt i] ;;; exit) ;;;
        v <- getg (fun g => s32 (get32 0 g.(t_buf))) ;;
        when (negb (v =? n)) (printf 1 (chars "read content of block %d is %d" ++ newline) [PInt n; PInt v] ;;; exit) ;;;
        writetest1_read f fd (n + 1)
  end.

Definition writetest1 (fuel : nat) : T unit :=
  say "big files test" ;;;
  fd <- call (u_open (chars "big") (Z.lor O_CREATE O_RDWR)) ;;
  when (fd <? 0) (die "error: creat big failed!") ;;;
  mfor (seq 0 (Z.to_nat MAXFILE)) (fun i =>
    modg (upd_buf (put_le 4 0 (Z.of_nat i))) ;;;
    r <- write_buf fd 512 ;;
    when (negb (r =? 512)) (printf 1 (chars "error: write big file failed" ++ newline) [PInt (Z.of_nat i)] ;;; exit)) ;;;
  call (u_close fd) ;;;
  fd <- call (u_open (chars "big") O_RDONLY) ;;
  when (fd <? 0) (die "error: open big failed!") ;;;
  writetest1_read fuel fd 0 ;;;
  call (u_close fd) ;;;
  r <- call (u_unlink (chars "big")) ;;
  when (r <? 0) (die "unlink big failed") ;;;
  say "big files ok".

(** name[i] = c *)
Definition set_char (i : nat) (c : Z) : T unit := modg (upd_name (<[i := u8 c]>)).

Definition createtest : T unit :=
  say "many creates, followed by unlink test" ;;;
  set_char 0 97 ;;;
  set_char 2 0 ;;;
  mfor (seq 0 52) (fun i =>
    set_char 1 (48 + Z.of_nat i) ;;;
    name <- getg t_name ;;
    fd <- call (u_open (upto_nul name) (Z.lor O_CREATE O_RDWR)) ;;
    call (u_close fd) ;;; ret tt) ;;;
  set_char 0 97 ;;;
  set_char 2 0 ;;;
  mfor (seq 0 52) (fun i =>
    set_char 1 (48 + Z.of_nat i) ;;;
    name <- getg t_name ;;
    call (u_unlink (upto_nul name)) ;;; ret tt) ;;;
  say "many creates, followed by unlink; ok".

Definition dirtest : T unit :=
  say "mkdir test" ;;;
  r <- call (u_mkdir (chars "dir0")) ;;
  when (r <? 0) (die "mkdir failed") ;;;
  r <- call (u_chdir (chars "dir0")) ;;
  when (r <? 0) (die "chdir dir0 failed") ;;;
  r <- call (u_chdir (chars "..")) ;;
  when (r <? 0) (die "chdir .. failed") ;;;
  r <- call (u_unlink (chars "dir0")) ;;
  when (r <? 0) (die "unlink dir0 failed") ;;;
  say "mkdir test".

Definition echoargv : list (list Z) := [chars "echo"; chars "ALL"; chars "TESTS"; chars "PASSED"].

Definition exectest : T unit :=
  say "exec test" ;;;
  r <- exec (chars "echo") echoargv ;;
  when (r <? 0) (die "exec echo failed").

(** ** Pipes and processes *)

(* while ((n = read(fds[0], buf, cc)) > 0); None is the return in the loop *)
Fixpoint pipe1_read (fuel : nat) (fd seq cc total : Z) : T (option Z) :=
  match fuel with
  | O => fail NoFuel
  | S f =>
      n <- read_buf fd cc ;;
      if 0 <? n then
        b <- getg t_buf ;;
        let good := forallb (fun i => Z.land (nth i b 0) 255 =? Z.land (s32 (seq + Z.of_nat i)) 255) (List.seq 0 (Z.to_nat n)) in
        if negb good then say "pipe1 oops 2" ;;; ret None else
        let cc := cc * 2 in
        pipe1_read f fd (s32 (seq + n)) (if BUFSIZE <? cc then BUFSIZE else cc) (s32 (total + n))
      else ret (Some total)
  end.

Definition pipe1 (fuel : nat) : T unit :=
  say "pipe test" ;;;
  p <- call u_pipe ;;
  let fds := p.2 in
  when (negb (p.1 =? 0)) (die "pipe() failed") ;;;
  pid <- call u_fork ;;
  if pid =? 0 then
    call (u_close fds.1) ;;;
    mfor (seq 0 5) (fun n =>
      modg (upd_buf (splice 0 ((fun i => u8 (Z.of_nat (n * 1033 + i))) <$> seq 0 1033))) ;;;
      r <- write_buf fds.2 1033 ;;
      when (negb (r =? 1033)) (die "pipe1 oops 1")) ;;;
    exit
  else if 0 <? pid then
    call (u_close fds.2) ;;;
    o <- pipe1_read fuel fds.1 0 1 0 ;;
    match o with
    | None => ret tt
    | Some total =>
        when (negb (total =? 5 * 1033)) (printf 1 (chars "pipe1 oops 3 total %d" ++ newline) [PInt total] ;;; exit) ;;;
        call (u_close fds.1) ;;;
        call u_wait ;;;
        say "pipe1 ok"
    end
  else die "fork() failed".

(** for (;;) ; *)
Fixpoint loop_forever (fuel : nat) : T unit :=
  match fuel with O => fail NoFuel | S f => loop_forever f end.

Definition preempt (fuel : nat) : T unit :=
  printf 1 (chars "preempt: ") [] ;;;
  pid1 <- call u_fork ;;
  when (pid1 =? 0) (loop_forever fuel) ;;;
  pid2 <- call u_fork ;;
  when (pid2 =? 0) (loop_forever fuel) ;;;
  p <- call u_pipe ;;
  let pfds := p.2 in
  pid3 <- call u_fork ;;
  when (pid3 =? 0)
    (call (u_close pfds.1) ;;;
     r <- call (u_write pfds.2 (chars "x")) ;;
     when (negb (r =? 1)) (printf 1 (chars "preempt write error") []) ;;;
     call (u_close pfds.2) ;;;
     loop_forever fuel) ;;;
  call (u_close pfds.2) ;;;
  r <- read_buf pfds.1 BUFSIZE ;;
  if negb (r =? 1) then printf 1 (chars "preempt read error") [] else
  call (u_close pfds.1) ;;;
  printf 1 (chars "kill... ") [] ;;;
  call (u_kill pid1) ;;;
  call (u_kill pid2) ;;;
  call (u_kill pid3) ;;;
  printf 1 (chars "wait... ") [] ;;;
  call u_wait ;;;
  call u_wait ;;;
  call u_wait ;;;
  say "preempt ok".

Definition exitwait : T unit :=
  o <- mfind (seq 0 100) (fun _ =>
    pid <- call u_fork ;;
    if pid <? 0 then say "fork failed" ;;; ret (Some tt) else
    if negb (pid =? 0) then
      r <- call u_wait ;;
      if negb (r =? pid) then say "wait wrong pid" ;;; ret (Some tt) else ret None
    else exit) ;;
  match o with Some _ => ret tt | None => say "exitwait ok" end.

(** The allocator works on its part of the static data. *)
Definition on_heap {A} (m : U Umalloc.heap W A) : T A := fun s env =>
  let put (h : Umalloc.heap) := Mktests s.(glob).(t_buf) s.(glob).(t_name) s.(glob).(t_uninit) h in
  match m (Mkust s.(glob).(t_heap) s.(wld)) [] with
  | Ok a s' _ => Ok a (Mkust (put s'.(glob)) s'.(wld)) env
  | Err e s' _ => Err e (Mkust (put s'.(glob)) s'.(wld)) env
  end.

Section Mem.
Variable base : Z.

Definition t_malloc (fuel : nat) (n : Z) : T Z := on_heap (Umalloc.malloc base fuel n).
Definition t_free (fuel : nat) (p : Z) : T unit := on_heap (Umalloc.free fuel p).

(* while ((m2 = malloc(10001)) != 0): the list of the blocks, by m1 *)
Fixpoint mem_fill (fuel : nat) (m1 : Z) : T Z :=
  match fuel with
  | O => fail NoFuel
  | S f =>
      m2 <- t_malloc fuel 10001 ;;
      if m2 =? 0 then ret m1 else
      on_heap (Umalloc.put_ptr m2 m1) ;;;
      mem_fill f m2
  end.

(* while (m1) *)
Fixpoint mem_drain (fuel : nat) (m1 : Z) : T unit :=
  match fuel with
  | O => fail NoFuel
  | S f =>
      if m1 =? 0 then ret tt else
      m2 <- on_heap (Umalloc.get_ptr m1) ;;
      t_free fuel m1 ;;;
      mem_drain f m2
  end.

Definition mem (fuel : nat) : T unit :=
  say "mem test" ;;;
  ppid <- call u_getpid ;;
  pid <- call u_fork ;;
  if pid =? 0 then
    say "mem test alloc to full" ;;;
    m1 <- mem_fill fuel 0 ;;
    mem_drain fuel m1 ;;;
    say "mem test alloc to full ok" ;;;
    m1 <- t_malloc fuel (1024 * 20) ;;
    when (m1 =? 0) (say "couldn't allocate mem?!!" ;;; call (u_kill ppid) ;;; exit) ;;;
    t_free fuel m1 ;;;
    say "mem ok" ;;;
    exit
  else if pid <? 0 then say "fork failed!"
  else call u_wait ;;; ret tt.
End Mem.

(** ** More file system tests *)

(* while ((n = read(fd, buf, sizeof(buf))) > 0): buf, nc and np *)
Fixpoint sharedfd_read (fuel : nat) (fd : Z) (buf : list Z) (nc np : Z) : T (Z * Z) :=
  match fuel with
  | O => fail NoFuel
  | S f =>
      r <- call (u_read fd 10) ;;
      let buf := splice 0 r.2 buf in
      if 0 <? r.1 then
        let count c := Z.of_nat (length (filter (fun x => x = c) buf)) in
        sharedfd_read f fd buf (nc + count 99) (np + count 112)
      else ret (nc, np)
  end.

Definition sharedfd (fuel : nat) : T unit :=
  say "sharedfd test" ;;;
  call (u_unlink (chars "sharedfd")) ;;;
  fd <- call (u_open (chars "sharedfd") (Z.lor O_CREATE O_RDWR)) ;;
  if fd <? 0 then printf 1 (chars "fstests: cannot open sharedfd for writing") [] else
  pid <- call u_fork ;;
  let buf := replicate 10 (if pid =? 0 then 99 else 112) in
  mfind (seq 0 1000) (fun _ =>
    r <- call (u_write fd buf) ;;
    if negb (r =? 10) then say "fstests: write sharedfd failed" ;;; ret (Some tt) else ret None) ;;;
  (if pid =? 0 then exit else call u_wait ;;; ret tt) ;;;
  call (u_close fd) ;;;
  fd <- call (u_open (chars "sharedfd") 0) ;;
  if fd <? 0 then say "fstests: cannot open sharedfd for reading" else
  k <- sharedfd_read fuel fd buf 0 0 ;;
  call (u_close fd) ;;;
  call (u_unlink (chars "sharedfd")) ;;;
  if (k.1 =? 10000) && (k.2 =? 10000) then say "sharedfd ok"
  else printf 1 (chars "sharedfd oops %d %d" ++ newline) [PInt k.1; PInt k.2] ;;; exit.

(* while ((n = read(fd, buf, sizeof(buf))) > 0): the total *)
Fixpoint twofiles_read (fuel : nat) (fd c total : Z) : T Z :=
  match fuel with
  | O => fail NoFuel
  | S f =>
      n <- read_buf fd BUFSIZE ;;
      if 0 <? n then
        b <- getg t_buf ;;
        when (negb (forallb (fun x => x =? c) (take (Z.to_nat n) b))) (die "wrong char") ;;;
        twofiles_read f fd c (total + n)
      else ret total
  end.

Definition twofiles (fuel : nat) : T unit :=
  say "twofiles test" ;;;
  call (u_unlink (chars "f1")) ;;;
  call (u_unlink (chars "f2")) ;;;
  pid <- call u_fork ;;
  when (pid <? 0) (die "fork failed") ;;;
  let fname := if negb (pid =? 0) then chars "f1" else chars "f2" in
  fd <- call (u_open fname (Z.lor O_CREATE O_RDWR)) ;;
  when (fd <? 0) (die "create failed") ;;;
  modg (upd_buf (splice 0 (replicate 512 (if negb (pid =? 0) then 112 else 99)))) ;;;
  mfor (seq 0 12) (fun _ =>
    n <- write_buf fd 500 ;;
    when (negb (n =? 500)) (printf 1 (chars "write failed %d" ++ newline) [PInt n] ;;; exit)) ;;;
  call (u_close fd) ;;;
  (if negb (pid =? 0) then call u_wait ;;; ret tt else exit) ;;;
  mfor (seq 0 2) (fun i =>
    fd <- call (u_open (if (i =? 0)%nat then chars "f2" else chars "f1") 0) ;;
    total <- twofiles_read fuel fd (if (i =? 0)%nat then 99 else 112) 0 ;;
    call (u_close fd) ;;;
    when (negb (total =? 12 * 500)) (printf 1 (chars "wrong length %d" ++ newline) [PInt total] ;;; exit)) ;;;
  call (u_unlink (chars "f1")) ;;;
  call (u_unlink (chars "f2")) ;;;
  say "twofiles ok".

(* the checks of one name, in the loop over i *)
Definition createdelete_check (i : nat) (name : list Z) : T unit :=
  fd <- call (u_open name 0) ;;
  (if ((i =? 0)%nat || (10 <=? i)%nat) && (fd <? 0) then
     printf 1 (chars "oops createdelete %s didn't exist" ++ newline) [PStr (Some name)] ;;; exit
   else if ((1 <=? i)%nat && (i <? 10)%nat) && (0 <=? fd) then
     printf 1 (chars "oops createdelete %s did exist" ++ newline) [PStr (Some name)] ;;; exit
   else ret tt) ;;;
  when (0 <=? fd) (call (u_close fd) ;;; ret tt).

Definition createdelete : T unit :=
  say "createdelete test" ;;;
  pid <- call u_fork ;;
  when (pid <? 0) (die "fork failed") ;;;
  let c := if negb (pid =? 0) then 112 else 99 in
  mfor (seq 0 20) (fun i =>
    fd <- call (u_open [c; 48 + Z.of_nat i] (Z.lor O_CREATE O_RDWR)) ;;
    when (fd <? 0) (die "create failed") ;;;
    call (u_close fd) ;;;
    when ((0 <? i)%nat && (i mod 2 =? 0)%nat)
      (r <- call (u_unlink [c; 48 + Z.of_nat (i / 2)]) ;;
       when (r <? 0) (die "unlink failed"))) ;;;
  (if pid =? 0 then exit else call u_wait ;;; ret tt) ;;;
  mfor (seq 0 20) (fun i =>
    createdelete_check i [112; 48 + Z.of_nat i] ;;;
    createdelete_check i [99; 48 + Z.of_nat i]) ;;;
  mfor (seq 0 20) (fun i =>
    call (u_unlink [112; 48 + Z.of_nat i]) ;;;
    call (u_unlink [99; 48 + Z.of_nat i]) ;;; ret tt) ;;;
  say "createdelete ok".

Definition unlinkread : T unit :=
  say "unlinkread test" ;;;
  fd <- call (u_open (chars "unlinkread") (Z.lor O_CREATE O_RDWR)) ;;
  when (fd <? 0) (die "create unlinkread failed") ;;;
  call (u_write fd (chars "hello")) ;;;
  call (u_close fd) ;;;
  fd <- call (u_open (chars "unlinkread") O_RDWR) ;;
  when (fd <? 0) (die "open unlinkread failed") ;;;
  r <- call (u_unlink (chars "unlinkread")) ;;
  when (negb (r =? 0)) (die "unlink unlinkread failed") ;;;
  fd1 <- call (u_open (chars "unlinkread") (Z.lor O_CREATE O_RDWR)) ;;
  call (u_write fd1 (chars "yyy")) ;;;
  call (u_close fd1) ;;;
  r <- read_buf fd BUFSIZE ;;
  when (negb (r =? 5)) (printf 1 (chars "unlinkread read failed") [] ;;; exit) ;;;
  c <- buf_at 0 ;;
  when (negb (c =? 104)) (die "unlinkread wrong data") ;;;
  r <- write_buf fd 10 ;;
  when (negb (r =? 10)) (die "unlinkread write failed") ;;;
  call (u_close fd) ;;;
  call (u_unlink (chars "unlinkread")) ;;;
  say "unlinkread ok".

Definition linktest : T unit :=
  say "linktest" ;;;
  call (u_unlink (chars "lf1")) ;;;
  call (u_unlink (chars "lf2")) ;;;
  fd <- call (u_open (chars "lf1") (Z.lor O_CREATE O_RDWR)) ;;
  when (fd <? 0) (die "create lf1 failed") ;;;
  r <- call (u_write fd (chars "hello")) ;;
  when (negb (r =? 5)) (die "write lf1 failed") ;;;
  call (u_close fd) ;;;
  r <- call (u_link (chars "lf1") (chars "lf2")) ;;
  when (r <? 0) (die "link lf1 lf2 failed") ;;;
  call (u_unlink (chars "lf1")) ;;;
  r <- call (u_open (chars "lf1") 0) ;;
  when (0 <=? r) (die "unlinked lf1 but it is still there!") ;;;
  fd <- call (u_open (chars "lf2") 0) ;;
  when (fd <? 0) (die "open lf2 failed") ;;;
  r <- read_buf fd BUFSIZE ;;
  when (negb (r =? 5)) (die "read lf2 failed") ;;;
  call (u_close fd) ;;;
  r <- call (u_link (chars "lf2") (chars "lf2")) ;;
  when (0 <=? r) (die "link lf2 lf2 succeeded! oops") ;;;
  call (u_unlink (chars "lf2")) ;;;
  r <- call (u_link (chars "lf2") (chars "lf1")) ;;
  when (0 <=? r) (die "link non-existant succeeded! oops") ;;;
  r <- call (u_link (chars ".") (chars "lf1")) ;;
  when (0 <=? r) (die "link . lf1 succeeded! oops") ;;;
  say "linktest ok".


(** A struct dirent of 16 bytes: inum, and a name of 14 bytes. *)
Definition entry_inum (de : list Z) : Z := get16 0 de.
Definition entry_char (i : nat) (de : list Z) : Z := nth (2 + i) de 0.

(* while (read(fd, &de, sizeof(de)) > 0): fa, and the number of files *)
Fixpoint concreate_list (fuel : nat) (fd : Z) (de : list Z) (fa : list bool) (n : Z) : T Z :=
  match fuel with
  | O => fail NoFuel
  | S f =>
      r <- call (u_read fd DIRENT_SIZE) ;;
      let de := splice 0 r.2 de in
      if 0 <? r.1 then
        if entry_inum de =? 0 then concreate_list f fd de fa n else
        if (entry_char 0 de =? 67) && (entry_char 2 de =? 0) then
          let i := entry_char 1 de - 48 in
          let nm := upto_nul (drop 2 de) in
          when ((i <? 0) || (40 <=? i)) (printf 1 (chars "concreate weird file %s" ++ newline) [PStr (Some nm)] ;;; exit) ;;;
          when (nth (Z.to_nat i) fa false) (printf 1 (chars "concreate duplicate file %s" ++ newline) [PStr (Some nm)] ;;; exit) ;;;
          concreate_list f fd de (<[Z.to_nat i := true]> fa) (n + 1)
        else concreate_list f fd de fa n
      else ret n
  end.

Definition concreate (fuel : nat) : T unit :=
  say "concreate test" ;;;
  mfor (seq 0 40) (fun i =>
    let file := [67; 48 + Z.of_nat i] in
    call (u_unlink file) ;;;
    pid <- call u_fork ;;
    (if negb (pid =? 0) && (i mod 3 =? 1)%nat then call (u_link (chars "C0") file) ;;; ret tt
     else if (pid =? 0) && (i mod 5 =? 1)%nat then call (u_link (chars "C0") file) ;;; ret tt
     else
       fd <- call (u_open file (Z.lor O_CREATE O_RDWR)) ;;
       when (fd <? 0) (printf 1 (chars "concreate create %s failed" ++ newline) [PStr (Some file)] ;;; exit) ;;;
       call (u_close fd) ;;; ret tt) ;;;
    if pid =? 0 then exit else call u_wait ;;; ret tt) ;;;
  fd <- call (u_open (chars ".") 0) ;;
  n <- concreate_list fuel fd (replicate 16 0) (replicate 40 false) 0 ;;
  call (u_close fd) ;;;
  when (negb (n =? 40)) (die "concreate not enough files in directory listing") ;;;
  mfor (seq 0 40) (fun i =>
    let file := [67; 48 + Z.of_nat i] in
    pid <- call u_fork ;;
    when (pid <? 0) (die "fork failed") ;;;
    (if ((i mod 3 =? 0)%nat && (pid =? 0)) || ((i mod 3 =? 1)%nat && negb (pid =? 0)) then
       mfor (seq 0 4) (fun _ => fd <- call (u_open file 0) ;; call (u_close fd) ;;; ret tt)
     else mfor (seq 0 4) (fun _ => call (u_unlink file) ;;; ret tt)) ;;;
    if pid =? 0 then exit else call u_wait ;;; ret tt) ;;;
  say "concreate ok".

(* for (i = 0; i < 100; i++), with the random number x *)
Fixpoint linkunlink_loop (n : nat) (x : Z) : T unit :=
  match n with
  | O => ret tt
  | S n' =>
      let x := u32 (x * 1103515245 + 12345) in
      (if x mod 3 =? 0 then fd <- call (u_open (chars "x") (Z.lor O_RDWR O_CREATE)) ;; call (u_close fd) ;;; ret tt
       else if x mod 3 =? 1 then call (u_link (chars "cat") (chars "x")) ;;; ret tt
       else call (u_unlink (chars "x")) ;;; ret tt) ;;;
      linkunlink_loop n' x
  end.

Definition linkunlink : T unit :=
  say "linkunlink test" ;;;
  call (u_unlink (chars "x")) ;;;
  pid <- call u_fork ;;
  when (pid <? 0) (die "fork failed") ;;;
  linkunlink_loop 100 (if negb (pid =? 0) then 1 else 97) ;;;
  (if negb (pid =? 0) then call u_wait ;;; ret tt else exit) ;;;
  say "linkunlink ok".

Definition bigdir_name (i : nat) : list Z := [120; 48 + Z.of_nat (i / 64); 48 + Z.of_nat (i mod 64)].

Definition bigdir : T unit :=
  say "bigdir test" ;;;
  call (u_unlink (chars "bd")) ;;;
  fd <- call (u_open (chars "bd") O_CREATE) ;;
  when (fd <? 0) (die "bigdir create failed") ;;;
  call (u_close fd) ;;;
  mfor (seq 0 500) (fun i =>
    r <- call (u_link (chars "bd") (bigdir_name i)) ;;
    when (negb (r =? 0)) (die "bigdir link failed")) ;;;
  call (u_unlink (chars "bd")) ;;;
  mfor (seq 0 500) (fun i =>
    r <- call (u_unlink (bigdir_name i)) ;;
    when (negb (r =? 0)) (printf 1 (chars "bigdir unlink failed") [] ;;; exit)) ;;;
  say "bigdir ok".

(* the calls that have to fail *)
Definition subdir_refused : T unit :=
  r <- call (u_open (chars "dd/dd/ff") O_RDONLY) ;;
  when (0 <=? r) (die "open (unlinked) dd/dd/ff succeeded!") ;;;
  r <- call (u_open (chars "dd/ff/ff") (Z.lor O_CREATE O_RDWR)) ;;
  when (0 <=? r) (die "create dd/ff/ff succeeded!") ;;;
  r <- call (u_open (chars "dd/xx/ff") (Z.lor O_CREATE O_RDWR)) ;;
  when (0 <=? r) (die "create dd/xx/ff succeeded!") ;;;
  r <- call (u_open (chars "dd") O_CREATE) ;;
  when (0 <=? r) (die "create dd succeeded!") ;;;
  r <- call (u_open (chars "dd") O_RDWR) ;;
  when (0 <=? r) (die "open dd rdwr succeeded!") ;;;
  r <- call (u_open (chars "dd") O_WRONLY) ;;
  when (0 <=? r) (die "open dd wronly succeeded!") ;;;
  r <- call (u_link (chars "dd/ff/ff") (chars "dd/dd/xx")) ;;
  when (r =? 0) (die "link dd/ff/ff dd/dd/xx succeeded!") ;;;
  r <- call (u_link (chars "dd/xx/ff") (chars "dd/dd/xx")) ;;
  when (r =? 0) (die "link dd/xx/ff dd/dd/xx succeeded!") ;;;
  r <- call (u_link (chars "dd/ff") (chars "dd/dd/ffff")) ;;
  when (r =? 0) (die "link dd/ff dd/dd/ffff succeeded!") ;;;
  r <- call (u_mkdir (chars "dd/ff/ff")) ;;
  when (r =? 0) (die "mkdir dd/ff/ff succeeded!") ;;;
  r <- call (u_mkdir (chars "dd/xx/ff")) ;;
  when (r =? 0) (die "mkdir dd/xx/ff succeeded!") ;;;
  r <- call (u_mkdir (chars "dd/dd/ffff")) ;;
  when (r =? 0) (die "mkdir dd/dd/ffff succeeded!") ;;;
  r <- call (u_unlink (chars "dd/xx/ff")) ;;
  when (r =? 0) (die "unlink dd/xx/ff succeeded!") ;;;
  r <- call (u_unlink (chars "dd/ff/ff")) ;;
  when (r =? 0) (die "unlink dd/ff/ff succeeded!") ;;;
  r <- call (u_chdir (chars "dd/ff")) ;;
  when (r =? 0) (die "chdir dd/ff succeeded!") ;;;
  r <- call (u_chdir (chars "dd/xx")) ;;
  when (r =? 0) (die "chdir dd/xx succeeded!").

Definition subdir : T unit :=
  say "subdir test" ;;;
  call (u_unlink (chars "ff")) ;;;
  r <- call (u_mkdir (chars "dd")) ;;
  when (negb (r =? 0)) (die "subdir mkdir dd failed") ;;;
  fd <- call (u_open (chars "dd/ff") (Z.lor O_CREATE O_RDWR)) ;;
  when (fd <? 0) (die "create dd/ff failed") ;;;
  call (u_write fd (chars "ff")) ;;;
  call (u_close fd) ;;;
  r <- call (u_unlink (chars "dd")) ;;
  when (0 <=? r) (die "unlink dd (non-empty dir) succeeded!") ;;;
  r <- call (u_mkdir (chars "/dd/dd")) ;;
  when (negb (r =? 0)) (die "subdir mkdir dd/dd failed") ;;;
  fd <- call (u_open (chars "dd/dd/ff") (Z.lor O_CREATE O_RDWR)) ;;
  when (fd <? 0) (die "create dd/dd/ff failed") ;;;
  call (u_write fd (chars "FF")) ;;;
  call (u_close fd) ;;;
  fd <- call (u_open (chars "dd/dd/../ff") 0) ;;
  when (fd <? 0) (die "open dd/dd/../ff failed") ;;;
  cc <- read_buf fd BUFSIZE ;;
  c <- buf_at 0 ;;
  when (negb (cc =? 2) || negb (c =? 102)) (die "dd/dd/../ff wrong content") ;;;
  call (u_close fd) ;;;
  r <- call (u_link (chars "dd/dd/ff") (chars "dd/dd/ffff")) ;;
  when (negb (r =? 0)) (die "link dd/dd/ff dd/dd/ffff failed") ;;;
  r <- call (u_unlink (chars "dd/dd/ff")) ;;
  when (negb (r =? 0)) (die "unlink dd/dd/ff failed") ;;;
  r <- call (u_open (chars "dd/dd/ff") O_RDONLY) ;;
  when (0 <=? r) (die "open (unlinked) dd/dd/ff succeeded") ;;;
  r <- call (u_chdir (chars "dd")) ;;
  when (negb (r =? 0)) (die "chdir dd failed") ;;;
  r <- call (u_chdir (chars "dd/../../dd")) ;;
  when (negb (r =? 0)) (die "chdir dd/../../dd failed") ;;;
  r <- call (u_chdir (chars "dd/../../../dd")) ;;
  when (negb (r =? 0)) (die "chdir dd/../../dd failed") ;;;
  r <- call (u_chdir (chars "./..")) ;;
  when (negb (r =? 0)) (die "chdir ./.. failed") ;;;
  fd <- call (u_open (chars "dd/dd/ffff") 0) ;;
  when (fd <? 0) (die "open dd/dd/ffff failed") ;;;
  r <- read_buf fd BUFSIZE ;;
  when (negb (r =? 2)) (die "read dd/dd/ffff wrong len") ;;;
  call (u_close fd) ;;;
  subdir_refused ;;;
  r <- call (u_unlink (chars "dd/dd/ffff")) ;;
  when (negb (r =? 0)) (die "unlink dd/dd/ff failed") ;;;
  r <- call (u_unlink (chars "dd/ff")) ;;
  when (negb (r =? 0)) (die "unlink dd/ff failed") ;;;
  r <- call (u_unlink (chars "dd")) ;;
  when (r =? 0) (die "unlink non-empty dd succeeded!") ;;;
  r <- call (u_unlink (chars "dd/dd")) ;;
  when (r <? 0) (die "unlink dd/dd failed") ;;;
  r <- call (u_unlink (chars "dd")) ;;
  when (r <? 0) (die "unlink dd failed") ;;;
  say "subdir ok".

(** for (sz = 499; sz < 12*512; sz += 471) *)
Definition bigwrite_sizes : list Z := (fun k => 499 + 471 * Z.of_nat k) <$> seq 0 12.

Definition bigwrite : T unit :=
  say "bigwrite test" ;;;
  call (u_unlink (chars "bigwrite")) ;;;
  mfor bigwrite_sizes (fun sz =>
    fd <- call (u_open (chars "bigwrite") (Z.lor O_CREATE O_RDWR)) ;;
    when (fd <? 0) (die "cannot create bigwrite") ;;;
    mfor (seq 0 2) (fun _ =>
      cc <- write_buf fd sz ;;
      when (negb (cc =? sz)) (printf 1 (chars "write(%d) ret %d" ++ newline) [PInt sz; PInt cc] ;;; exit)) ;;;
    call (u_close fd) ;;;
    call (u_unlink (chars "bigwrite")) ;;; ret tt) ;;;
  say "bigwrite ok".

(* for (i = 0; ; i++): the total *)
Fixpoint bigfile_read (fuel : nat) (fd i total : Z) : T Z :=
  match fuel with
  | O => fail NoFuel
  | S f =>
      cc <- read_buf fd 300 ;;
      when (cc <? 0) (die "read bigfile failed") ;;;
      if cc =? 0 then ret total else
      when (negb (cc =? 300)) (die "short read bigfile") ;;;
      c <- buf_at 0 ;;
      c' <- buf_at 299 ;;
      when (negb (c =? i / 2) || negb (c' =? i / 2)) (die "read bigfile wrong data") ;;;
      bigfile_read f fd (i + 1) (total + cc)
  end.

Definition bigfile (fuel : nat) : T unit :=
  say "bigfile test" ;;;
  call (u_unlink (chars "bigfile")) ;;;
  fd <- call (u_open (chars "bigfile") (Z.lor O_CREATE O_RDWR)) ;;
  when (fd <? 0) (printf 1 (chars "cannot create bigfile") [] ;;; exit) ;;;
  mfor (seq 0 20) (fun i =>
    modg (upd_buf (splice 0 (replicate 600 (Z.of_nat i)))) ;;;
    r <- write_buf fd 600 ;;
    when (negb (r =? 600)) (die "write bigfile failed")) ;;;
  call (u_close fd) ;;;
  fd <- call (u_open (chars "bigfile") 0) ;;
  when (fd <? 0) (die "cannot open bigfile") ;;;
  total <- bigfile_read fuel fd 0 0 ;;
  call (u_close fd) ;;;
  when (negb (total =? 20 * 600)) (die "read bigfile wrong total") ;;;
  call (u_unlink (chars "bigfile")) ;;;
  say "bigfile test ok".

Definition fourteen : T unit :=
  say "fourteen test" ;;;
  r <- call (u_mkdir (chars "12345678901234")) ;;
  when (negb (r =? 0)) (die "mkdir 12345678901234 failed") ;;;
  r <- call (u_mkdir (chars "12345678901234/123456789012345")) ;;
  when (negb (r =? 0)) (die "mkdir 12345678901234/123456789012345 failed") ;;;
  fd <- call (u_open (chars "123456789012345/123456789012345/123456789012345") O_CREATE) ;;
  when (fd <? 0) (die "create 123456789012345/123456789012345/123456789012345 failed") ;;;
  call (u_close fd) ;;;
  fd <- call (u_open (chars "12345678901234/12345678901234/12345678901234") 0) ;;
  when (fd <? 0) (die "open 12345678901234/12345678901234/12345678901234 failed") ;;;
  call (u_close fd) ;;;
  r <- call (u_mkdir (chars "12345678901234/12345678901234")) ;;
  when (r =? 0) (die "mkdir 12345678901234/12345678901234 succeeded!") ;;;
  r <- call (u_mkdir (chars "123456789012345/12345678901234")) ;;
  when (r =? 0) (die "mkdir 12345678901234/123456789012345 succeeded!") ;;;
  say "fourteen ok".

Definition rmdot : T unit :=
  say "rmdot test" ;;;
  r <- call (u_mkdir (chars "dots")) ;;
  when (negb (r =? 0)) (die "mkdir dots failed") ;;;
  r <- call (u_chdir (chars "dots")) ;;
  when (negb (r =? 0)) (die "chdir dots failed") ;;;
  r <- call (u_unlink (chars ".")) ;;
  when (r =? 0) (die "rm . worked!") ;;;
  r <- call (u_unlink (chars "..")) ;;
  when (r =? 0) (die "rm .. worked!") ;;;
  r <- call (u_chdir (chars "/")) ;;
  when (negb (r =? 0)) (die "chdir / failed") ;;;
  r <- call (u_unlink (chars "dots/.")) ;;
  when (r =? 0) (die "unlink dots/. worked!") ;;;
  r <- call (u_unlink (chars "dots/..")) ;;
  when (r =? 0) (die "unlink dots/.. worked!") ;;;
  r <- call (u_unlink (chars "dots")) ;;
  when (negb (r =? 0)) (die "unlink dots failed!") ;;;
  say "rmdot ok".

Definition dirfile : T unit :=
  say "dir vs file" ;;;
  fd <- call (u_open (chars "dirfile") O_CREATE) ;;
  when (fd <? 0) (die "create dirfile failed") ;;;
  call (u_close fd) ;;;
  r <- call (u_chdir (chars "dirfile")) ;;
  when (r =? 0) (die "chdir dirfile succeeded!") ;;;
  fd <- call (u_open (chars "dirfile/xx") 0) ;;
  when (0 <=? fd) (die "create dirfile/xx succeeded!") ;;;
  fd <- call (u_open (chars "dirfile/xx") O_CREATE) ;;
  when (0 <=? fd) (die "create dirfile/xx succeeded!") ;;;
  r <- call (u_mkdir (chars "dirfile/xx")) ;;
  when (r =? 0) (die "mkdir dirfile/xx succeeded!") ;;;
  r <- call (u_unlink (chars "dirfile/xx")) ;;
  when (r =? 0) (die "unlink dirfile/xx succeeded!") ;;;
  r <- call (u_link (chars "README") (chars "dirfile/xx")) ;;
  when (r =? 0) (die "link to dirfile/xx succeeded!") ;;;
  r <- call (u_unlink (chars "dirfile")) ;;
  when (negb (r =? 0)) (die "unlink dirfile failed!") ;;;
  fd <- call (u_open (chars ".") O_RDWR) ;;
  when (0 <=? fd) (die "open . for writing succeeded!") ;;;
  fd <- call (u_open (chars ".") 0) ;;
  r <- call (u_write fd (chars "x")) ;;
  when (0 <? r) (die "write . succeeded!") ;;;
  call (u_close fd) ;;;
  say "dir vs file OK".

Definition iref : T unit :=
  say "empty file name" ;;;
  mfor (seq 0 51) (fun _ =>
    r <- call (u_mkdir (chars "irefd")) ;;
    when (negb (r =? 0)) (die "mkdir irefd failed") ;;;
    r <- call (u_chdir (chars "irefd")) ;;
    when (negb (r =? 0)) (die "chdir irefd failed") ;;;
    call (u_mkdir []) ;;;
    call (u_link (chars "README") []) ;;;
    fd <- call (u_open [] O_CREATE) ;;
    when (0 <=? fd) (call (u_close fd) ;;; ret tt) ;;;
    fd <- call (u_open (chars "xx") O_CREATE) ;;
    when (0 <=? fd) (call (u_close fd) ;;; ret tt) ;;;
    call (u_unlink (chars "xx")) ;;; ret tt) ;;;
  call (u_chdir (chars "/")) ;;;
  say "empty file name OK".

Definition forktest : T unit :=
  say "fork test" ;;;
  o <- mfind (seq 0 1000) (fun n =>
    pid <- call u_fork ;;
    if pid <? 0 then ret (Some n) else if pid =? 0 then exit else ret None) ;;
  match o with
  | None => die "fork claimed to work 1000 times!"
  | Some n =>
      mfor (seq 0 n) (fun _ => r <- call u_wait ;; when (r <? 0) (die "wait stopped early")) ;;;
      r <- call u_wait ;;
      when (negb (r =? -1)) (die "wait got too many") ;;;
      say "fork test OK"
  end.

(** link("nosuchfile", (char* )p): the call with the bare pointer [p], which
    need not point at a string. *)
Variable link_nosuchfile : Z -> W -> Z * W.

Definition validateint (p : Z) : T unit := ret tt.

(** for (p = 0; p <= (uint)hi; p += 4096), with hi = 1100*1024 *)
Definition validatetest : T unit :=
  say "validate test" ;;;
  mfor ((fun k => 4096 * Z.of_nat k) <$> seq 0 276) (fun p =>
    pid <- call u_fork ;;
    when (pid =? 0) (validateint p ;;; exit) ;;;
    call (u_sleep 0) ;;;
    call (u_sleep 0) ;;;
    call (u_kill pid) ;;;
    call u_wait ;;;
    r <- call (link_nosuchfile p) ;;
    when (negb (r =? -1)) (die "link should not succeed")) ;;;
  say "validate ok".

Definition bsstest : T unit :=
  say "bss test" ;;;
  u <- getg t_uninit ;;
  mfor u (fun c => when (negb (c =? 0)) (die "bss test failed")) ;;;
  say "bss test ok".

Definition bigarg : list Z := chars "bigargs test: failed" ++ newline ++ replicate 199 32.

Definition bigargtest : T unit :=
  call (u_unlink (chars "bigarg-ok")) ;;;
  pid <- call u_fork ;;
  (if pid =? 0 then
     say "bigarg test" ;;;
     exec (chars "echo") (replicate (Z.to_nat MAXARG - 1) bigarg) ;;;
     say "bigarg test ok" ;;;
     fd <- call (u_open (chars "bigarg-ok") O_CREATE) ;;
     call (u_close fd) ;;;
     exit
   else when (pid <? 0) (die "bigargtest: fork failed")) ;;;
  call u_wait ;;;
  fd <- call (u_open (chars "bigarg-ok") 0) ;;
  when (fd <? 0) (die "bigarg test failed!") ;;;
  call (u_close fd) ;;;
  call (u_unlink (chars "bigarg-ok")) ;;; ret tt.

(** ** Running out of blocks *)

Definition fsfull_name (n : Z) : list Z :=
  upto_nul [102; u8 (48 + n / 1000); 48 + (n mod 1000) / 100; 48 + (n mod 100) / 10; 48 + n mod 10].

(* while (1): the bytes written to the file *)
Fixpoint fsfull_fill (fuel : nat) (fd total : Z) : T Z :=
  match fuel with
  | O => fail NoFuel
  | S f =>
      cc <- write_buf fd 512 ;;
      if cc <? 512 then ret total else fsfull_fill f fd (total + cc)
  end.

(* for (nfiles = 0; ; nfiles++): the number of the last file *)
Fixpoint fsfull_files (fuel : nat) (nfiles : Z) : T Z :=
  match fuel with
  | O => fail NoFuel
  | S f =>
      let name := fsfull_name nfiles in
      printf 1 (chars "writing %s" ++ newline) [PStr (Some name)] ;;;
      fd <- call (u_open name (Z.lor O_CREATE O_RDWR)) ;;
      if fd <? 0 then printf 1 (chars "open %s failed" ++ newline) [PStr (Some name)] ;;; ret nfiles else
      total <- fsfull_fill fuel fd 0 ;;
      printf 1 (chars "wrote %d bytes" ++ newline) [PInt total] ;;;
      call (u_close fd) ;;;
      if total =? 0 then ret nfiles else fsfull_files f (nfiles + 1)
  end.

Definition fsfull (fuel : nat) : T unit :=
  say "fsfull test" ;;;
  nfiles <- fsfull_files fuel 0 ;;
  mfor (rev (seq 0 (S (Z.to_nat nfiles)))) (fun n => call (u_unlink (fsfull_name (Z.of_nat n))) ;;; ret tt) ;;;
  say "fsfull test finished".

(** ** Growing and shrinking the address space *)

(** *a and *a = v: a load or a store of a byte, which ends the process when
    the page is not mapped for it (the abort handler kills it). *)
Variable u_load : Z -> W -> option Z * W.
Variable u_store : Z -> Z -> W -> bool * W.

Definition peek_at (a : Z) : T Z :=
  r <- call (u_load a) ;;
  match r with Some v => ret v | None => fail Exited end.

Definition poke_at (a v : Z) : T unit :=
  r <- call (u_store a v) ;;
  if r : bool then ret tt else fail Exited.

(** sbrk, its result taken as a pointer. *)
Definition sbrk (n : Z) : T Z := r <- call (u_sbrk (s32 n)) ;; ret (u32 r).

Definition BIG : Z := 100 * 1024 * 1024.

(* for (;;) sleep(1000) *)
Fixpoint sit (fuel : nat) : T unit :=
  match fuel with O => fail NoFuel | S f => call (u_sleep 1000) ;;; sit f end.

(* for (i = 0; i < 5000; i++): the address after the last byte *)
Fixpoint sbrktest_bytes (n : nat) (i a : Z) : T Z :=
  match n with
  | O => ret a
  | S n' =>
      b <- sbrk 1 ;;
      when (negb (b =? a))
        (printf 1 (chars "sbrk test failed %d %x %x" ++ newline) [PInt i; PInt a; PInt b] ;;; exit) ;;;
      poke_at b 1 ;;;
      sbrktest_bytes n' (i + 1) (u32 (b + 1))
  end.

(* can we read the kernel's memory? *)
Definition sbrktest_kernel (a : Z) : T unit :=
  ppid <- call u_getpid ;;
  pid <- call u_fork ;;
  when (pid <? 0) (die "fork failed") ;;;
  when (pid =? 0)
    (v <- peek_at a ;;
     printf 1 (chars "oops could read %x = %x" ++ newline) [PInt a; PInt v] ;;;
     call (u_kill ppid) ;;;
     exit) ;;;
  call u_wait ;;; ret tt.

(* if we run the system out of memory, does it clean up the last failed
   allocation?  pids has one element *)
Definition sbrktest_full (fuel : nat) : T Z :=
  p <- call u_pipe ;;
  let fds := p.2 in
  when (negb (p.1 =? 0)) (die "pipe() failed") ;;;
  pid <- call u_fork ;;
  when (pid =? 0)
    (a <- sbrk 0 ;;
     sbrk (BIG - a) ;;;
     call (u_write fds.2 (chars "x")) ;;;
     sit fuel) ;;;
  when (negb (pid =? -1)) (call (u_read fds.1 1) ;;; ret tt) ;;;
  c <- sbrk 4096 ;;
  when (negb (pid =? -1)) (call (u_kill pid) ;;; call u_wait ;;; ret tt) ;;;
  ret c.

Definition sbrktest (fuel : nat) : T unit :=
  say "sbrk test" ;;;
  oldbrk <- sbrk 0 ;;
  a <- sbrk 0 ;;
  a <- sbrktest_bytes 5000 0 a ;;
  pid <- call u_fork ;;
  when (pid <? 0) (die "sbrk test fork failed") ;;;
  sbrk 1 ;;;
  c <- sbrk 1 ;;
  when (negb (c =? u32 (a + 1))) (die "sbrk test failed post-fork") ;;;
  when (pid =? 0) exit ;;;
  call u_wait ;;;
  a <- sbrk 0 ;;
  let amt := u32 (BIG - a) in
  p <- sbrk amt ;;
  when (negb (p =? a)) (die "sbrk test failed to grow big address space; enough phys mem?") ;;;
  let lastaddr := BIG - 1 in
  poke_at lastaddr 99 ;;;
  a <- sbrk 0 ;;
  c <- sbrk (-4096) ;;
  when (c =? 4294967295) (die "sbrk could not deallocate") ;;;
  c <- sbrk 0 ;;
  when (negb (c =? u32 (a - 4096)))
    (printf 1 (chars "sbrk deallocation produced wrong address, a %x c %x" ++ newline) [PInt a; PInt c] ;;; exit) ;;;
  a <- sbrk 0 ;;
  c <- sbrk 4096 ;;
  bad <- (if negb (c =? a) then ret true else b <- sbrk 0 ;; ret (negb (b =? u32 (a + 4096)))) ;;
  when bad (printf 1 (chars "sbrk re-allocation failed, a %x c %x" ++ newline) [PInt a; PInt c] ;;; exit) ;;;
  v <- peek_at lastaddr ;;
  when (v =? 99) (die "sbrk de-allocation didn't really deallocate") ;;;
  a <- sbrk 0 ;;
  b <- sbrk 0 ;;
  c <- sbrk (- (b - oldbrk)) ;;
  when (negb (c =? a)) (printf 1 (chars "sbrk downsize failed, a %x c %x" ++ newline) [PInt a; PInt c] ;;; exit) ;;;
  mfor (seq 0 40) (fun k => sbrktest_kernel (KERNBASE + 50000 * Z.of_nat k)) ;;;
  c <- sbrktest_full fuel ;;
  when (c =? 4294967295) (die "failed sbrk leaked memory") ;;;
  b <- sbrk 0 ;;
  when (oldbrk <? b) (b <- sbrk 0 ;; sbrk (- (b - oldbrk)) ;;; ret tt) ;;;
  say "sbrk test OK".

(** rand, on the state it keeps. *)
Definition rand (randstate : Z) : Z * Z :=
  let s := u32 (randstate * 1664525 + 1013904223) in (s, s).

(** ** main *)

Definition usertests_main (base : Z) (fuel : nat) : T unit :=
  say "usertests starting" ;;;
  fd <- call (u_open (chars "usertests.ran") 0) ;;
  when (0 <=? fd) (die "already ran user tests -- rebuild fs.img") ;;;
  fd <- call (u_open (chars "usertests.ran") O_CREATE) ;;
  call (u_close fd) ;;;
  bigargtest ;;;
  bigwrite ;;;
  bigargtest ;;;
  bsstest ;;;
  validatetest ;;;
  opentest ;;;
  writetest ;;;
  writetest1 fuel ;;;
  createtest ;;;
  mem base fuel ;;;
  pipe1 fuel ;;;
  exitwait ;;;
  rmdot ;;;
  fourteen ;;;
  bigfile fuel ;;;
  subdir ;;;
  concreate fuel ;;;
  linkunlink ;;;
  linktest ;;;
  unlinkread ;;;
  createdelete ;;;
  twofiles fuel ;;;
  sharedfd fuel ;;;
  dirfile ;;;
  iref ;;;
  forktest ;;;
  bigdir ;;;
  exectest ;;;
  exit.

End UserTests.

End UserTests.
