(* ===== verification/Hoare.v ===== *)
(** Partial correctness of kernel code that other processes may interrupt
    where it gives up the processor: triples with an assumption about what the
    others do there, and their rules. *)
From S2P Require Import Prelude Types.

Module Hoare.

Section Triple.
Context (rely : (kstate -> kstate) -> Prop).

(** [triple b P m Q]: run in a state with [P] against others whose steps all
    satisfy [rely], [m] ends in a state with [Q] if it returns. [b]: may the
    processor be given up? *)
Definition triple (b : bool) {A} (P : kstate -> Prop) (m : K A) (Q : A -> kstate -> Prop) : Prop :=
  forall s env a s' env', P s -> (b = true -> Forall (rely) env) -> m s env = Ok a s' env' ->
  Q a s' /\ if b then Forall (rely) env' else env' = env.

Lemma triple_here b {A} (P : kstate -> Prop) (m : K A) (Q : A -> kstate -> Prop) :
  (forall s env a s' env', P s -> m s env = Ok a s' env' -> Q a s' /\ env' = env) -> triple b P m Q.
Proof. intros Hm s env a s' env' HP Hb Hrun. destruct (Hm _ _ _ _ _ HP Hrun) as [HQ ->]. destruct b; auto. Qed.

Lemma triple_bind b {A B} P (m : K A) (k : A -> K B) R Q :
  triple b P m R -> (forall a, triple b (R a) (k a) Q) -> triple b P (bind m k) Q.
Proof.
  intros Hm Hk s env a s' env' HP Hb Hrun. unfold bind in Hrun. destruct (m s env) as [x s1 env1|] eqn:E; [|done].
  destruct (Hm _ _ _ _ _ HP Hb E) as [HR H1]. destruct b.
  - apply (Hk x s1 env1 a s' env' HR); auto.
  - subst env1. by apply (Hk x s1 env a s' env' HR).
Qed.

Lemma triple_mono b {A} (P P' : kstate -> Prop) (m : K A) (Q Q' : A -> kstate -> Prop) :
  triple b P m Q -> (forall s, P' s -> P s) -> (forall a s, Q a s -> Q' a s) -> triple b P' m Q'.
Proof. intros Hm HP HQ s env a s' env' H0 Hb Hrun. destruct (Hm s env a s' env' (HP s H0) Hb Hrun). split; [auto|done]. Qed.

Lemma triple_from b {A} (P P' : kstate -> Prop) (m : K A) (Q : A -> kstate -> Prop) :
  triple b P m Q -> (forall s, P' s -> P s) -> triple b P' m Q.
Proof. intros Hm HP. by eapply triple_mono. Qed.

Lemma triple_may {A} P (m : K A) Q : triple false P m Q -> triple true P m Q.
Proof. intros Hm s env a s' env' HP Hb Hrun. destruct (Hm s env a s' env' HP ltac:(done) Hrun) as [HQ ->]. auto. Qed.

Lemma triple_weak b {A} P (m : K A) Q : triple false P m Q -> triple b P m Q.
Proof. destruct b; [apply triple_may|done]. Qed.

(** Facts that follow from the precondition. *)
Lemma triple_learn b {A} (F : Prop) (P : kstate -> Prop) (m : K A) Q :
  (forall s, P s -> F) -> (F -> triple b P m Q) -> triple b P m Q.
Proof. intros HF Hm s env a s' env' HP. by apply (Hm (HF s HP)). Qed.

Lemma triple_pure b {A} (F : Prop) (P : kstate -> Prop) (m : K A) Q :
  (F -> triple b P m Q) -> triple b (fun s => F /\ P s) m Q.
Proof. intros Hm s env a s' env' [HF HP]. by apply Hm. Qed.

Lemma triple_ex b {A X} (P : X -> kstate -> Prop) (m : K A) Q :
  (forall x, triple b (P x) m Q) -> triple b (fun s => exists x, P x s) m Q.
Proof. intros Hm s env a s' env' [x HP]. by apply (Hm x). Qed.

Lemma triple_ret b {A} (P : kstate -> Prop) (Q : A -> kstate -> Prop) a : (forall s, P s -> Q a s) -> triple b P (ret a) Q.
Proof. intros HQ. apply triple_here. intros s env a' s' env' HP [= -> -> ->]. auto. Qed.

Lemma triple_bind_ret b {A B} P (a : A) (k : A -> K B) Q : triple b P (k a) Q -> triple b P (bind (ret a) k) Q.
Proof. done. Qed.

Lemma triple_gets b {A} (f : kstate -> A) P : triple b P (gets f) (fun a s => a = f s /\ P s).
Proof. apply triple_here. intros s env a s' env' HP [= <- <- <-]. auto. Qed.

(** Reading, when the value does not matter. *)
Lemma triple_read b {A} (f : kstate -> A) P : triple b P (gets f) (fun _ => P).
Proof. eapply triple_mono; [apply triple_gets|intros s Hs; exact Hs|]. by intros a s []. Qed.

Lemma triple_assoc b {A B C} P (m : K A) (k : A -> K B) (l : B -> K C) Q :
  triple b P (x <- m ;; y <- k x ;; l y) Q -> triple b P (y <- (x <- m ;; k x) ;; l y) Q.
Proof. intros Hm s env a s' env' HP Hb. rewrite bind_assoc. by apply Hm. Qed.

Lemma triple_modify b f (P : kstate -> Prop) Q : (forall s, P s -> Q tt (f s)) -> triple b P (modify f) Q.
Proof. intros HQ. apply triple_here. intros s env a s' env' HP [= <- <- <-]. auto. Qed.

Lemma triple_fail b {A} e P (Q : A -> kstate -> Prop) : triple b P (fail e) Q.
Proof. by intros s env a s' env' _ _ [=]. Qed.

Lemma triple_deref b {A} what (o : option A) P : triple b P (deref what o) (fun a s => o = Some a /\ P s).
Proof. destruct o; simpl; [by apply triple_ret|apply triple_fail]. Qed.

Lemma triple_mfind b {A B} (l : list A) (body : A -> K (option B)) (I : kstate -> Prop) Q :
  (forall x, x ∈ l -> triple b I (body x) (fun o s => match o with Some y => Q y s | None => I s end)) ->
  triple b I (mfind l body) (fun o s => match o with Some y => Q y s | None => I s end).
Proof.
  induction l as [|x l IH]; intros Hb; simpl; [by apply triple_ret|].
  eapply triple_bind; [apply Hb; left|]. intros [y|]; [by apply triple_ret|]. apply IH. intros z Hz. apply Hb. by right.
Qed.

Lemma triple_get_file b f P : triple b P (get_file f) (fun x s => s.(ftable) !! f = Some x /\ P s).
Proof.
  unfold get_file. eapply triple_bind; [apply triple_gets|]. intros o.
  eapply triple_mono; [apply triple_deref|intros s Hs; exact Hs|]. simpl. intros x s [-> [E HP]]. done.
Qed.

Lemma triple_get_proc b i P : triple b P (get_proc i) (fun x s => s.(procs) !! i = Some x /\ P s).
Proof.
  unfold get_proc. eapply triple_bind; [apply triple_gets|]. intros o.
  eapply triple_mono; [apply triple_deref|intros s Hs; exact Hs|]. simpl. intros x s [-> [E HP]]. done.
Qed.

End Triple.

(** Code that never returns. *)
Lemma never_bind {A B} (m : K A) (k : A -> K B) :
  (forall a s env b s' env', k a s env <> Ok b s' env') -> forall s env b s' env', bind m k s env <> Ok b s' env'.
Proof. intros Hk s env b s' env'. unfold bind. by destruct (m s env). Qed.

End Hoare.
