(* ===== verification/Locking.v ===== *)
(** Spin locks over whole system calls: every operation that a system call can
    reach gives back exactly the locks it takes, on each of its paths, and
    whenever a process gives up the processor it holds the lock of the process
    table and no other. *)
From S2P Require Import Prelude Types Hoare Spinlock Sched Cstring Bio Log Inode Console Fs Kalloc Pipe File Vm Proc Exec Syscall.
Import Hoare Spinlock Sched Cstring Bio Log Inode Console Fs Kalloc Pipe File Vm Proc Exec Syscall.

Module Locking.

(** The locks that are held are [L], and interrupts are disabled once for each
    of them and [k] times more; whether the allocator and the console use
    their locks does not change after the start of the system. *)
Definition locks (k : Z) (L : gset lock) (ul cl : bool) (s : kstate) : Prop :=
  s.(kcpu).(held) = L /\ s.(kcpu).(ncli) = Z.of_nat (size L) + k /\ s.(use_lock) = ul /\ s.(cons_locking) = cl.

(** What the other processes do while this one waits. *)
Definition tidy (e : kstate -> kstate) : Prop :=
  forall ul cl s, locks 0 {[ptable_lock]} ul cl s -> locks 0 {[ptable_lock]} ul cl (e s).

Class Bal {A} (m : K A) : Prop :=
  bal L ul cl : triple tidy true (locks 0 L ul cl) m (fun _ => locks 0 L ul cl).

(** ** The primitives *)

Lemma locks_other k L ul cl f :
  (forall s, kcpu (f s) = kcpu s /\ use_lock (f s) = use_lock s /\ cons_locking (f s) = cons_locking s) ->
  triple tidy true (locks k L ul cl) (modify f) (fun _ => locks k L ul cl).
Proof.
  intros Hf. apply triple_modify. intros s (H1 & H2 & H3 & H4). destruct (Hf s) as (E1 & E2 & E3). unfold locks.
  by rewrite E1, E2, E3.
Qed.

(** A change of the processor's state. *)
Lemma locks_cpu k k' L L' ul cl f :
  (forall c, held c = L -> ncli c = Z.of_nat (size L) + k -> held (f c) = L' /\ ncli (f c) = Z.of_nat (size L') + k') ->
  triple tidy true (locks k L ul cl) (modify (upd_cpu f)) (fun _ => locks k' L' ul cl).
Proof.
  intros Hf. apply triple_modify. intros s (H1 & H2 & H3 & H4). destruct (Hf _ H1 H2) as [E1 E2]. by split_and!.
Qed.

Lemma pushcli_locks k L ul cl :
  triple tidy true (locks k L ul cl) pushcli (fun _ => locks (k + 1) L ul cl).
Proof.
  unfold pushcli, cli. eapply triple_bind; [by apply (locks_cpu k k L L)|]. intros ?.
  eapply triple_bind; [apply triple_read|]. intros n.
  eapply (triple_bind _ _ _ _ _ (fun _ => locks k L ul cl)).
  - unfold when. destruct (_ =? 0); [|by apply triple_ret]. eapply triple_bind; [apply triple_read|]. intros b'.
    by apply (locks_cpu k k L L).
  - intros ?. apply locks_cpu. intros c Hh Hn. simpl. split; [done|lia].
Qed.

Lemma popcli_locks k L ul cl :
  triple tidy true (locks k L ul cl) popcli (fun _ => locks (k - 1) L ul cl).
Proof.
  unfold popcli, is_int. eapply triple_bind; [apply triple_read|]. intros b. destruct b; [apply triple_fail|].
  eapply triple_bind; [apply (locks_cpu k (k - 1) L L); intros c Hh Hn; simpl; split; [done|lia]|]. intros ?.
  eapply triple_bind; [apply triple_read|]. intros n. destruct (_ <? 0); [apply triple_fail|].
  eapply triple_bind; [apply triple_read|]. intros en. unfold when, sti. destruct (_ && _); [|by apply triple_ret].
  by apply (locks_cpu (k - 1) (k - 1) L L).
Qed.

Lemma holding_locks k L ul cl lk :
  triple tidy true (locks k L ul cl) (holding lk) (fun h s => h = bool_decide (lk ∈ L) /\ locks k L ul cl s).
Proof.
  unfold holding. eapply triple_bind; [apply pushcli_locks|]. intros ?.
  eapply (triple_bind _ _ _ _ _ (fun r s => r = bool_decide (lk ∈ L) /\ locks (k + 1) L ul cl s)).
  { eapply triple_mono; [apply triple_gets|intros s Hs; exact Hs|]. intros r s [-> Hs]. split; [|done].
    destruct Hs as (-> & _). done. }
  intros r. apply triple_pure. intros ->. eapply triple_bind; [apply popcli_locks|]. intros ?. apply triple_ret.
  intros s Hs. split; [done|]. by replace (k + 1 - 1) with k in Hs by lia.
Qed.

Lemma acquire_locks L ul cl lk :
  triple tidy true (locks 0 L ul cl) (acquire lk) (fun _ s => (lk ∉ L) /\ locks 0 ({[lk]} ∪ L) ul cl s).
Proof.
  unfold acquire. eapply triple_bind; [apply pushcli_locks|]. intros ?. eapply triple_bind; [apply holding_locks|]. intros h.
  apply triple_pure. intros ->. case_bool_decide as Hin; [apply triple_fail|]. unfold spin, xchg_locked.
  apply triple_assoc. eapply triple_bind; [apply triple_read|]. intros old. apply triple_assoc.
  eapply triple_bind.
  { apply (locks_cpu _ 0 L ({[lk]} ∪ L)). intros c Hh Hn. simpl. split; [by rewrite Hh|]. rewrite size_union, size_singleton by set_solver. lia. }
  intros ?. apply triple_bind_ret. destruct old; [apply triple_fail|]. by apply triple_ret.
Qed.

Lemma release_locks L ul cl lk : (lk ∉ L) ->
  triple tidy true (locks 0 ({[lk]} ∪ L) ul cl) (release lk) (fun _ => locks 0 L ul cl).
Proof.
  intros Hn. unfold release. eapply triple_bind; [apply holding_locks|]. intros h. apply triple_pure. intros ->.
  destruct (negb _); [apply triple_fail|].
  eapply triple_bind.
  { apply (locks_cpu 0 1 _ L). intros c Hh Hc. simpl. split; [rewrite Hh; set_solver|]. rewrite size_union, size_singleton in Hc by set_solver. lia. }
  intros ?. eapply triple_from; [apply (popcli_locks 1)|done].
Qed.

Lemma initlock_locks ul cl lk : triple tidy true (locks 0 ∅ ul cl) (initlock lk) (fun _ => locks 0 ∅ ul cl).
Proof. apply locks_cpu. intros c Hh Hn. simpl. rewrite Hh. split; [set_solver|done]. Qed.

(** Giving up a lock that may not be the last one taken. *)
Lemma release_any L ul cl lk :
  triple tidy true (locks 0 L ul cl) (release lk) (fun _ s => (lk ∈ L) /\ locks 0 (L ∖ {[lk]}) ul cl s).
Proof.
  destruct (decide (lk ∈ L)) as [Hin|Hn].
  - eapply triple_mono; [apply (release_locks (L ∖ {[lk]}) ul cl lk); set_solver| |done].
    intros s Hs. by rewrite <- union_difference_singleton_L.
  - unfold release. eapply triple_bind; [apply holding_locks|]. intros h. apply triple_pure. intros ->.
    rewrite bool_decide_eq_false_2 by done. apply triple_fail.
Qed.

(** A process switches away only with the process table's lock. *)
Lemma sched_locks L ul cl :
  triple tidy true (locks 0 L ul cl) sched (fun _ s => L = {[ptable_lock]} /\ locks 0 {[ptable_lock]} ul cl s).
Proof.
  unfold sched. eapply triple_bind; [apply holding_locks|]. intros h. apply triple_pure. intros ->.
  case_bool_decide as Hin; simpl; [|apply triple_fail].
  eapply (triple_bind _ _ _ _ _ (fun n s => n = Z.of_nat (size L) /\ locks 0 L ul cl s)).
  { eapply triple_mono; [apply triple_gets|intros s Hs; exact Hs|]. intros n s [-> Hs]. split; [|done]. destruct Hs as (_ & -> & _). lia. }
  intros n. apply triple_pure. intros ->. destruct (Z.eqb_spec (Z.of_nat (size L)) 1) as [E|E]; simpl; [|apply triple_fail].
  assert (L = {[ptable_lock]}) as ->.
  { destruct (size_1_elem_of L ltac:(lia)) as [x Hx]. apply leibniz_equiv. rewrite Hx in Hin |- *. set_solver. }
  unfold cur. apply triple_assoc. eapply triple_bind; [apply triple_read|]. intros o. eapply triple_bind; [apply triple_deref|].
  intros p. apply triple_pure. intros _. unfold get_proc. apply triple_assoc. eapply triple_bind; [apply triple_read|]. intros o'.
  eapply triple_bind; [apply triple_deref|]. intros pr. apply triple_pure. intros _. destruct (bool_decide _); [apply triple_fail|].
  unfold is_int. eapply triple_bind; [apply triple_read|]. intros [|]; [apply triple_fail|].
  eapply triple_bind; [apply triple_read|]. intros en.
  eapply (triple_bind _ _ _ _ _ (fun _ => locks 0 {[ptable_lock]} ul cl)).
  { intros s [|e env] a s' env' Hs Henv Hrun; [done|]. injection Hrun as <- <- <-.
    apply Forall_cons in Henv as [He Henv]; [|done]. split; [by apply He|done]. }
  intros ?. eapply triple_mono; [by apply (locks_cpu 0 0 {[ptable_lock]} {[ptable_lock]})|intros s Hs; exact Hs|]. by intros ? s Hs.
Qed.

(** ** Operations that give back what they take *)

#[export] Instance bal_ret {A} (a : A) : Bal (ret a).
Proof. intros L ul cl. by apply triple_ret. Qed.

#[export] Instance bal_deref {A} what (o : option A) : Bal (deref what o).
Proof. intros L ul cl. destruct o; [by apply triple_ret|apply triple_fail]. Qed.

Lemma bal_mfor {A} (l : list A) body : (forall x, Bal (body x)) -> Bal (mfor l body).
Proof.
  intros Hb L ul cl. induction l as [|x l IH]; simpl; [by apply triple_ret|]. eapply triple_bind; [apply Hb|]. intros ?. exact IH.
Qed.

Lemma bal_mfind {A B} (l : list A) (body : A -> K (option B)) : (forall x, Bal (body x)) -> Bal (mfind l body).
Proof.
  intros Hb L ul cl. induction l as [|x l IH]; simpl; [by apply triple_ret|]. eapply triple_bind; [apply Hb|].
  intros [?|]; [by apply triple_ret|exact IH].
Qed.

(** Loops whose last turn ends differently. *)
Lemma triple_mloop_env {A} (body : K (option A)) P (Q : A -> kstate -> Prop) :
  triple tidy true P body (fun o s => match o with Some a => Q a s | None => P s end) -> triple tidy true P (mloop_env body) Q.
Proof.
  intros Hb. assert (Hloop : forall fuel, triple tidy true P (mloop fuel body) Q).
  { induction fuel as [|fuel IH]; simpl; [apply triple_fail|]. eapply triple_bind; [exact Hb|]. intros [a|]; [by apply triple_ret|exact IH]. }
  intros s env. unfold mloop_env. apply Hloop.
Qed.

Lemma bal_mloop_env {A} (body : K (option A)) : Bal body -> Bal (mloop_env body).
Proof. intros Hb L ul cl. apply triple_mloop_env. eapply triple_mono; [apply Hb|intros s Hs; exact Hs|]. by intros [?|] s Hs. Qed.

Lemma read_use_lock L ul cl :
  triple tidy true (locks 0 L ul cl) (gets use_lock) (fun a s => a = ul /\ locks 0 L ul cl s).
Proof.
  eapply triple_mono; [apply triple_gets|intros s Hs; exact Hs|]. intros a s [-> Hs]. split; [|done]. apply Hs.
Qed.

Lemma read_cons_locking L ul cl :
  triple tidy true (locks 0 L ul cl) (gets cons_locking) (fun a s => a = cl /\ locks 0 L ul cl s).
Proof.
  eapply triple_mono; [apply triple_gets|intros s Hs; exact Hs|]. intros a s [-> Hs]. split; [|done]. apply Hs.
Qed.

(** Following the shape of a computation, with the locks held at each point. *)
Ltac lk_step :=
  lazymatch goal with
  | |- Bal _ => intros ? ? ?
  | |- forall _, _ => intro
  | |- triple _ _ _ (bind (acquire _) _) _ => eapply triple_bind; [apply acquire_locks|intros ?; apply triple_pure; intros ?]
  | |- triple _ _ _ (bind (release _) _) _ => eapply triple_bind; [apply release_locks; assumption|intros ?; cbv beta]
  | |- triple _ _ _ (bind pushcli _) _ => eapply triple_bind; [apply pushcli_locks|intros ?; cbv beta]
  | |- triple _ _ _ (bind (bind _ _) _) _ => apply triple_assoc
  | |- triple _ _ _ (bind (ret _) _) _ => apply triple_bind_ret
  | |- triple _ _ _ (bind (gets use_lock) _) _ => eapply triple_bind; [apply read_use_lock|intros ?; apply triple_pure; intros ->]
  | |- triple _ _ _ (bind (gets cons_locking) _) _ => eapply triple_bind; [apply read_cons_locking|intros ?; apply triple_pure; intros ->]
  | |- triple _ _ _ (bind (gets _) _) _ => eapply triple_bind; [apply triple_read|intros ?; cbv beta]
  | |- triple _ _ _ (bind (when true _) _) _ => cbn [when]
  | |- triple _ _ _ (bind (when false _) _) _ => cbn [when]
  | |- triple _ _ _ (when true _) _ => cbn [when]
  | |- triple _ _ _ (when false _) _ => cbn [when]
  | |- triple _ _ _ (bind (when ?b ?m) _) _ =>
      tryif is_var b then destruct b; cbn [when]
      else match goal with |- triple _ _ ?P _ _ => eapply (triple_bind _ _ _ _ _ (fun _ => P)); [|intros ?; cbv beta] end
  | |- triple _ _ ?P (bind _ _) _ => eapply (triple_bind _ _ _ _ _ (fun _ => P)); [|intros ?; cbv beta]
  | |- triple _ _ _ (match ?x with _ => _ end) _ => destruct x
  | |- triple _ _ _ (when ?b _) _ => destruct b; cbn [when]
  | |- triple _ _ _ (ret _) _ => apply triple_ret; intros ? ?; assumption
  | |- triple _ _ _ (fail _) _ => apply triple_fail
  | |- triple _ _ _ (panic _) _ => apply triple_fail
  | |- triple _ _ _ (undefined _) _ => apply triple_fail
  | |- triple _ _ _ (gets _) _ => apply triple_read
  | |- triple _ _ _ (modify (upd_cpu _)) _ => apply locks_cpu
  | |- triple _ _ _ (modify _) _ => apply locks_other; done
  | |- triple _ _ _ (release _) _ => apply release_locks; assumption
  | |- triple _ _ _ (initlock _) _ => apply initlock_locks
  | |- triple _ _ _ popcli _ => apply (popcli_locks (0 + 1))
  | |- triple _ _ _ (mfor _ _) _ => apply bal_mfor
  | |- triple _ _ _ (mfind _ _) _ => apply bal_mfind
  | |- triple _ _ _ (mloop_env _) _ => apply bal_mloop_env
  | |- triple _ _ _ _ _ => apply bal; apply _
  end.
Ltac lks := repeat (cbv zeta; lk_step).

(** cur and sleep *)

#[export] Instance bal_cur : Bal cur.
Proof. unfold cur. lks. Qed.

#[export] Instance bal_sleep ch lk : Bal (sleep ch lk).
Proof.
  intros L ul cl. unfold sleep. eapply triple_bind; [apply triple_read|]. intros [p|]; [|apply triple_fail].
  case_bool_decide as Hlk; cbn [when].
  - apply triple_assoc. eapply triple_bind; [apply acquire_locks|]. intros ?. apply triple_pure. intros Hpt.
    eapply triple_bind; [apply release_any|]. intros ?. apply triple_pure. intros Hin.
    do 2 (eapply triple_bind; [by apply locks_other|intros ?; cbv beta]).
    eapply triple_bind; [apply sched_locks|]. intros ?. apply triple_pure. intros HL.
    assert (L = {[lk]}) as ->.
    { apply set_eq. intros x. rewrite elem_of_singleton. split; [|intros ->; set_solver]. intros Hx. destruct (decide (x = lk)) as [|Hne]; [done|].
      assert (Hx2 : x ∈ ({[ptable_lock]} ∪ L) ∖ {[lk]}) by set_solver. rewrite HL in Hx2. set_solver. }
    eapply triple_bind; [by apply (bal_cur {[ptable_lock]})|]. intros p'. eapply triple_bind; [by apply locks_other|]. intros ?.
    eapply triple_bind; [apply release_any|]. intros ?. apply triple_pure. intros _.
    eapply triple_mono; [apply acquire_locks|intros s Hs; exact Hs|]. intros ? s [_ Hs].
    by replace ({[lk]} ∪ {[ptable_lock]} ∖ {[ptable_lock]}) with ({[lk]} : gset lock) in Hs by set_solver.
  - apply triple_bind_ret. do 2 (eapply triple_bind; [by apply locks_other|intros ?; cbv beta]).
    eapply triple_bind; [apply sched_locks|]. intros ?. apply triple_pure. intros ->.
    eapply triple_bind; [by apply (bal_cur {[ptable_lock]})|]. intros p'. eapply triple_bind; [by apply locks_other|]. intros ?. by apply triple_ret.
Qed.

(* an operation is looked up by its name, never by its definition *)
#[local] Hint Constants Opaque : typeclass_instances.

Section Balance.
Context `{Image}.

(** Types.v *)

#[export] Instance bal_get_proc i : Bal (get_proc i).
Proof. unfold get_proc. lks. Qed.
#[export] Instance bal_get_buf i : Bal (get_buf i).
Proof. unfold get_buf. lks. Qed.
#[export] Instance bal_get_inode i : Bal (get_inode i).
Proof. unfold get_inode. lks. Qed.
#[export] Instance bal_get_file i : Bal (get_file i).
Proof. unfold get_file. lks. Qed.
#[export] Instance bal_get_pipe p : Bal (get_pipe p).
Proof. unfold get_pipe. lks. Qed.

(** Spinlock.v *)

#[export] Instance bal_is_int : Bal is_int.
Proof. unfold is_int. lks. Qed.

(** Sched.v *)

#[export] Instance bal_wakeup1 ch : Bal (wakeup1 ch).
Proof. unfold wakeup1. lks. Qed.
#[export] Instance bal_wakeup ch : Bal (wakeup ch).
Proof. unfold wakeup. lks. Qed.
#[export] Instance bal_kill n : Bal (kill n).
Proof.
  intros L ul cl. unfold kill. lk_step. eapply triple_bind; [apply (triple_mfind _ _ _ _ _ (fun _ => locks 0 L ul cl))|].
  - intros i _. lks.
  - intros [r|]; lks.
Qed.

(** Bio.v *)

#[export] Instance bal_iderw b : Bal (iderw b).
Proof. unfold iderw. lks. Qed.
#[export] Instance bal_scan fuel link ok b : Bal (scan fuel link ok b).
Proof. revert b. induction fuel; intros b; simpl; lks. Qed.
Lemma bget_pass_locks L ul cl dev sector : (bcache_lock ∉ L) ->
  triple tidy true (locks 0 ({[bcache_lock]} ∪ L) ul cl) (bget_pass dev sector)
    (fun o => match o with Some _ => locks 0 L ul cl | None => locks 0 ({[bcache_lock]} ∪ L) ul cl end).
Proof. intros Hn. unfold bget_pass. lks. Qed.
#[export] Instance bal_bget dev sector : Bal (bget dev sector).
Proof.
  intros L ul cl. unfold bget. lk_step. eapply triple_mloop_env, triple_mono; [by apply bget_pass_locks|done|by intros [?|] s Hs].
Qed.
#[export] Instance bal_bread dev sector : Bal (bread dev sector).
Proof. unfold bread. lks. Qed.
#[export] Instance bal_bwrite b : Bal (bwrite b).
Proof. unfold bwrite. lks. Qed.
#[export] Instance bal_brelse b : Bal (brelse b).
Proof. unfold brelse. lks. Qed.

(** Log.v *)

#[export] Instance bal_readsb dev : Bal (readsb dev).
Proof. unfold readsb. lks. Qed.
#[export] Instance bal_get_log : Bal get_log.
Proof. unfold get_log. lks. Qed.
#[export] Instance bal_install_trans : Bal install_trans.
Proof. unfold install_trans. lks. Qed.
#[export] Instance bal_write_head : Bal write_head.
Proof. unfold write_head. lks. Qed.
#[export] Instance bal_begin_trans : Bal begin_trans.
Proof. unfold begin_trans. lks. Qed.
#[export] Instance bal_commit_trans : Bal commit_trans.
Proof. unfold commit_trans. lks. Qed.
#[export] Instance bal_log_write b : Bal (log_write b).
Proof. unfold log_write. lks. Qed.

(** Inode.v *)

#[export] Instance bal_bzero dev bno : Bal (bzero dev bno).
Proof. unfold bzero. lks. Qed.
#[export] Instance bal_balloc dev : Bal (balloc dev).
Proof. unfold balloc. lks. Qed.
#[export] Instance bal_bfree dev b : Bal (bfree dev b).
Proof. unfold bfree. lks. Qed.
#[export] Instance bal_iget dev inum : Bal (iget dev inum).
Proof. unfold iget. lks. Qed.
#[export] Instance bal_ialloc dev type : Bal (ialloc dev type).
Proof. unfold ialloc. lks. Qed.
#[export] Instance bal_iupdate ip : Bal (iupdate ip).
Proof. unfold iupdate. lks. Qed.
#[export] Instance bal_idup ip : Bal (idup ip).
Proof. unfold idup. lks. Qed.
#[export] Instance bal_ilock p : Bal (ilock p).
Proof. unfold ilock. lks. Qed.
#[export] Instance bal_iunlock p : Bal (iunlock p).
Proof. unfold iunlock. lks. Qed.
#[export] Instance bal_bmap ip bn : Bal (bmap ip bn).
Proof. unfold bmap. lks. Qed.
#[export] Instance bal_itrunc ip : Bal (itrunc ip).
Proof. unfold itrunc. lks. Qed.
#[export] Instance bal_iput ip : Bal (iput ip).
Proof. unfold iput. lks. Qed.
#[export] Instance bal_iunlockput ip : Bal (iunlockput ip).
Proof. unfold iunlockput. lks. Qed.
#[export] Instance bal_stati ip : Bal (stati ip).
Proof. unfold stati. lks. Qed.

(** Console.v *)

#[export] Instance bal_uartputc ch : Bal (uartputc ch).
Proof. unfold uartputc. lks. Qed.
#[export] Instance bal_consputc ch : Bal (consputc ch).
Proof. unfold consputc. lks. Qed.
#[export] Instance bal_printint xx base sign : Bal (printint xx base sign).
Proof. unfold printint. lks. Qed.
#[export] Instance bal_cprintf_loop fmt args : Bal (cprintf_loop fmt args).
Proof.
  revert args. cut ((forall args, Bal (cprintf_loop fmt args)) /\ (forall args, Bal (cprintf_loop (tail fmt) args))); [tauto|].
  induction fmt as [|x fmt [IH1 IH2]]; [split; intros args; simpl; lks|].
  split; [|exact IH1]. intros args. simpl. destruct (negb _); [lks|]. destruct fmt as [|d fmt]; cbn [tail] in IH2; lks.
Qed.
#[export] Instance bal_cprintf fmt args : Bal (cprintf fmt args).
Proof. unfold cprintf. lks. Qed.
#[export] Instance bal_get_input : Bal get_input.
Proof. unfold get_input. lks. Qed.
#[export] Instance bal_cons_wait : Bal cons_wait.
Proof. unfold cons_wait. lks. Qed.
#[export] Instance bal_cons_loop n target : Bal (cons_loop n target).
Proof. revert target. induction n; simpl; lks. Qed.
#[export] Instance bal_consoleread ip n : Bal (consoleread ip n).
Proof. unfold consoleread. lks. Qed.
#[export] Instance bal_consolewrite ip buf n : Bal (consolewrite ip buf n).
Proof. unfold consolewrite. lks. Qed.

(** Fs.v *)

#[export] Instance bal_readi_loop fuel ip tot off n : Bal (readi_loop fuel ip tot off n).
Proof. revert ip tot off n. induction fuel; simpl; lks. Qed.
#[export] Instance bal_readi ip off n : Bal (readi ip off n).
Proof. unfold readi. lks. Qed.
#[export] Instance bal_writei_loop fuel ip src tot off n : Bal (writei_loop fuel ip src tot off n).
Proof. revert ip src tot off n. induction fuel; simpl; lks. Qed.
#[export] Instance bal_writei ip src off n : Bal (writei ip src off n).
Proof. unfold writei. lks. Qed.
#[export] Instance bal_dirlookup_loop fuel dp name off : Bal (dirlookup_loop fuel dp name off).
Proof. revert dp name off. induction fuel; simpl; lks. Qed.
#[export] Instance bal_dirlookup dp name : Bal (dirlookup dp name).
Proof. unfold dirlookup. lks. Qed.
#[export] Instance bal_dirlink_loop fuel dp off : Bal (dirlink_loop fuel dp off).
Proof. revert dp off. induction fuel; simpl; lks. Qed.
#[export] Instance bal_dirlink dp name inum : Bal (dirlink dp name inum).
Proof. unfold dirlink. lks. Qed.
#[export] Instance bal_namex_loop fuel ip path nameiparent name : Bal (namex_loop fuel ip path nameiparent name).
Proof. revert ip path nameiparent name. induction fuel; simpl; lks. Qed.
#[export] Instance bal_namex path nameiparent : Bal (namex path nameiparent).
Proof. unfold namex. lks. Qed.
#[export] Instance bal_namei path : Bal (namei path).
Proof. unfold namei. lks. Qed.
#[export] Instance bal_nameiparent path : Bal (nameiparent path).
Proof. unfold nameiparent. lks. Qed.

(** Kalloc.v *)

#[export] Instance bal_load_word p : Bal (load_word p).
Proof. unfold load_word. lks. Qed.
#[export] Instance bal_store_word p v : Bal (store_word p v).
Proof. unfold store_word. lks. Qed.
#[export] Instance bal_kfree v : Bal (kfree v).
Proof. unfold kfree. lks. Qed.
#[export] Instance bal_kalloc : Bal kalloc.
Proof. unfold kalloc. lks. Qed.

(** Pipe.v *)

#[export] Instance bal_pipeclose p writable : Bal (pipeclose p writable).
Proof. unfold pipeclose. lks. Qed.
#[export] Instance bal_wait_room p : Bal (wait_room p).
Proof. unfold wait_room. lks. Qed.
#[export] Instance bal_put_byte p ch : Bal (put_byte p ch).
Proof. unfold put_byte. lks. Qed.
#[export] Instance bal_pipewrite p addr n : Bal (pipewrite p addr n).
Proof.
  intros L ul cl. unfold pipewrite. lk_step. eapply triple_bind; [apply (triple_mfind _ _ _ _ _ (fun _ => locks 0 L ul cl))|].
  - intros i _. lks.
  - intros [r|]; lks.
Qed.
#[export] Instance bal_wait_data p : Bal (wait_data p).
Proof. unfold wait_data. lks. Qed.
#[export] Instance bal_take_bytes n p : Bal (take_bytes n p).
Proof. revert p. induction n; simpl; lks. Qed.
#[export] Instance bal_piperead p n : Bal (piperead p n).
Proof. unfold piperead. lks. Qed.

(** Vm.v *)

#[export] Instance bal_setupvm : Bal setupvm.
Proof. unfold setupvm. lks. Qed.
#[export] Instance bal_walkpgdir pgdir va alloc : Bal (walkpgdir pgdir va alloc).
Proof. unfold walkpgdir. lks. Qed.
#[export] Instance bal_mappages_loop fuel pgdir a last pa ap : Bal (mappages_loop fuel pgdir a last pa ap).
Proof. revert pgdir a last pa ap. induction fuel; simpl; lks. Qed.
#[export] Instance bal_mappages pgdir va size pa ap : Bal (mappages pgdir va size pa ap).
Proof. unfold mappages. lks. Qed.
#[export] Instance bal_switchuvm o : Bal (switchuvm o).
Proof. unfold switchuvm. lks. Qed.
#[export] Instance bal_loaduvm_loop fuel pgdir addr ip offset i sz : Bal (loaduvm_loop fuel pgdir addr ip offset i sz).
Proof. revert pgdir addr ip offset i sz. induction fuel; simpl; lks. Qed.
#[export] Instance bal_loaduvm pgdir addr ip offset sz : Bal (loaduvm pgdir addr ip offset sz).
Proof. unfold loaduvm. lks. Qed.
#[export] Instance bal_deallocuvm_loop fuel pgdir a oldsz : Bal (deallocuvm_loop fuel pgdir a oldsz).
Proof. revert pgdir a oldsz. induction fuel; simpl; lks. Qed.
#[export] Instance bal_deallocuvm pgdir oldsz newsz : Bal (deallocuvm pgdir oldsz newsz).
Proof. unfold deallocuvm. lks. Qed.
#[export] Instance bal_allocuvm_loop fuel pgdir a oldsz newsz : Bal (allocuvm_loop fuel pgdir a oldsz newsz).
Proof. revert pgdir a oldsz newsz. induction fuel; simpl; lks. Qed.
#[export] Instance bal_allocuvm pgdir oldsz newsz : Bal (allocuvm pgdir oldsz newsz).
Proof. unfold allocuvm. lks. Qed.
#[export] Instance bal_freevm pgdir : Bal (freevm pgdir).
Proof. unfold freevm. lks. Qed.
#[export] Instance bal_clearpteu pgdir uva : Bal (clearpteu pgdir uva).
Proof. unfold clearpteu. lks. Qed.
#[export] Instance bal_copyuvm_loop fuel pgdir d i sz : Bal (copyuvm_loop fuel pgdir d i sz).
Proof. revert pgdir d i sz. induction fuel; simpl; lks. Qed.
#[export] Instance bal_copyuvm pgdir sz : Bal (copyuvm pgdir sz).
Proof. unfold copyuvm. lks. Qed.
#[export] Instance bal_uva2ka pgdir uva : Bal (uva2ka pgdir uva).
Proof. unfold uva2ka. lks. Qed.
#[export] Instance bal_copyout_loop fuel pgdir va buf len : Bal (copyout_loop fuel pgdir va buf len).
Proof. revert pgdir va buf len. induction fuel; simpl; lks. Qed.
#[export] Instance bal_copyout pgdir va p len : Bal (copyout pgdir va p len).
Proof. unfold copyout. lks. Qed.
#[export] Instance bal_uload8 va : Bal (uload8 va).
Proof. unfold uload8. lks. Qed.
#[export] Instance bal_ustore8 va v : Bal (ustore8 va v).
Proof. unfold ustore8. lks. Qed.
#[export] Instance bal_uload32 va : Bal (uload32 va).
Proof. unfold uload32. lks. Qed.
#[export] Instance bal_uload_bytes n va : Bal (uload_bytes n va).
Proof. revert va. induction n; simpl; lks. Qed.
#[export] Instance bal_ustore_bytes va l : Bal (ustore_bytes va l).
Proof. revert va. induction l; simpl; lks. Qed.

(** Exec.v *)

#[export] Instance bal_load_segments n ip pgdir off sz : Bal (load_segments n ip pgdir off sz).
Proof. revert ip pgdir off sz. induction n; simpl; lks. Qed.
#[export] Instance bal_push_args argv argc pgdir sp ustack : Bal (push_args argv argc pgdir sp ustack).
Proof. revert argc sp ustack. induction argv; intros argc sp ustack; simpl; lks. Qed.
#[export] Instance bal_exec_bad pgdir ip : Bal (exec_bad pgdir ip).
Proof. unfold exec_bad. lks. Qed.
#[export] Instance bal_exec path argv : Bal (exec path argv).
Proof. unfold exec. lks. Qed.

(** Proc.v *)

#[export] Instance bal_growproc n : Bal (growproc n).
Proof. unfold growproc. lks. Qed.

(** File.v *)

#[export] Instance bal_filestat f : Bal (filestat f).
Proof. unfold filestat. lks. Qed.
#[export] Instance bal_fileread f n : Bal (fileread f n).
Proof. unfold fileread. lks. Qed.
#[export] Instance bal_filewrite_loop fuel f addr i n : Bal (filewrite_loop fuel f addr i n).
Proof. revert i. induction fuel; intros i; simpl; lks. Qed.
#[export] Instance bal_filewrite f addr n : Bal (filewrite f addr n).
Proof. unfold filewrite. lks. Qed.

(** Syscall.v *)

#[export] Instance bal_curp : Bal curp.
Proof. unfold curp. lks. Qed.
#[export] Instance bal_fetchint addr : Bal (fetchint addr).
Proof. unfold fetchint. lks. Qed.
#[export] Instance bal_fetchstr_loop n s : Bal (fetchstr_loop n s).
Proof. revert s. induction n; simpl; lks. Qed.
#[export] Instance bal_fetchstr addr : Bal (fetchstr addr).
Proof. unfold fetchstr. lks. Qed.
#[export] Instance bal_argint n : Bal (argint n).
Proof. unfold argint. lks. Qed.
#[export] Instance bal_argptr n size : Bal (argptr n size).
Proof. unfold argptr. lks. Qed.
#[export] Instance bal_argstr n : Bal (argstr n).
Proof. unfold argstr. lks. Qed.
#[export] Instance bal_argfd n : Bal (argfd n).
Proof. unfold argfd. lks. Qed.
#[export] Instance bal_sys_kill : Bal sys_kill.
Proof. unfold sys_kill. lks. Qed.
#[export] Instance bal_sys_getpid : Bal sys_getpid.
Proof. unfold sys_getpid. lks. Qed.
#[export] Instance bal_sys_sbrk : Bal sys_sbrk.
Proof. unfold sys_sbrk. lks. Qed.
#[export] Instance bal_sys_sleep : Bal sys_sleep.
Proof.
  intros L ul cl. unfold sys_sleep. eapply triple_bind; [apply bal_argint|]. intros n. do 2 lk_step.
  eapply (triple_bind _ _ _ _ _ (fun r => if r <? 0 then locks 0 L ul cl else locks 0 ({[tickslock]} ∪ L) ul cl)).
  - apply triple_mloop_env. lks.
  - intros r. destruct (r <? 0); lks.
Qed.
#[export] Instance bal_sys_uptime : Bal sys_uptime.
Proof. unfold sys_uptime. lks. Qed.
#[export] Instance bal_sys_read : Bal sys_read.
Proof. unfold sys_read. lks. Qed.
#[export] Instance bal_sys_write : Bal sys_write.
Proof. unfold sys_write. lks. Qed.
#[export] Instance bal_store_stat va st : Bal (store_stat va st).
Proof. unfold store_stat. lks. Qed.
#[export] Instance bal_sys_fstat : Bal sys_fstat.
Proof. unfold sys_fstat. lks. Qed.
#[export] Instance bal_add_nlink k ip : Bal (add_nlink k ip).
Proof. unfold add_nlink. lks. Qed.
#[export] Instance bal_link_bad ip : Bal (link_bad ip).
Proof. unfold link_bad. lks. Qed.
#[export] Instance bal_sys_link : Bal sys_link.
Proof. unfold sys_link. lks. Qed.
#[export] Instance bal_isdirempty_loop fuel dp off : Bal (isdirempty_loop fuel dp off).
Proof. revert dp off. induction fuel; simpl; lks. Qed.
#[export] Instance bal_isdirempty dp : Bal (isdirempty dp).
Proof. unfold isdirempty. lks. Qed.
#[export] Instance bal_unlink_bad dp : Bal (unlink_bad dp).
Proof. unfold unlink_bad. lks. Qed.
#[export] Instance bal_sys_unlink : Bal sys_unlink.
Proof. unfold sys_unlink. lks. Qed.
#[export] Instance bal_create path type major minor : Bal (create path type major minor).
Proof. unfold create. lks. Qed.
#[export] Instance bal_sys_mkdir : Bal sys_mkdir.
Proof. unfold sys_mkdir. lks. Qed.
#[export] Instance bal_sys_mknod : Bal sys_mknod.
Proof. unfold sys_mknod. lks. Qed.
#[export] Instance bal_sys_chdir : Bal sys_chdir.
Proof. unfold sys_chdir. lks. Qed.
#[export] Instance bal_fetch_argv n uargv : Bal (fetch_argv n uargv).
Proof. revert uargv. induction n; simpl; lks. Qed.
#[export] Instance bal_sys_exec : Bal sys_exec.
Proof. unfold sys_exec. lks. Qed.


(** ** Descriptors and processes *)

#[export] Instance bal_filealloc : Bal filealloc.
Proof.
  intros L ul cl. unfold filealloc. lk_step. eapply triple_bind; [apply (triple_mfind _ _ _ _ _ (fun _ => locks 0 L ul cl))|].
  - intros i _. lks.
  - intros [r|]; lks.
Qed.
#[export] Instance bal_filedup f : Bal (filedup f).
Proof. unfold filedup. lks. Qed.
#[export] Instance bal_fileclose f : Bal (fileclose f).
Proof. unfold fileclose. lks. Qed.
(** pipealloc initialises the new pipe's lock, which nobody may hold. *)
Lemma pipealloc_locks ul cl : triple tidy true (locks 0 ∅ ul cl) pipealloc (fun _ => locks 0 ∅ ul cl).
Proof. unfold pipealloc. lks. Qed.
#[export] Instance bal_fdalloc f : Bal (fdalloc f).
Proof. unfold fdalloc. lks. Qed.
#[export] Instance bal_allocproc : Bal allocproc.
Proof. unfold allocproc. lks. Qed.
#[export] Instance bal_fork : Bal fork.
Proof. unfold fork. lks. Qed.

Lemma reap_locks L ul cl i : (ptable_lock ∉ L) ->
  triple tidy true (locks 0 ({[ptable_lock]} ∪ L) ul cl) (reap i) (fun _ => locks 0 L ul cl).
Proof. intros Hn. unfold reap. lks. Qed.

#[export] Instance bal_wait : Bal wait.
Proof.
  intros L ul cl. unfold wait. eapply triple_bind; [apply bal_cur|]. intros c. lk_step. apply triple_mloop_env.
  eapply triple_bind; [apply (triple_mfind _ _ _ _ _ (fun _ => locks 0 L ul cl))|].
  - intros i _. eapply triple_bind; [apply bal_get_proc|]. intros x. destruct (_ && _); [|lks].
    eapply triple_bind; [by apply reap_locks|]. intros pid. lks.
  - intros [pid|]; lks.
Qed.

#[export] Instance bal_sys_fork : Bal sys_fork.
Proof. exact bal_fork. Qed.
#[export] Instance bal_sys_wait : Bal sys_wait.
Proof. exact bal_wait. Qed.
#[export] Instance bal_sys_dup : Bal sys_dup.
Proof. unfold sys_dup. lks. Qed.
#[export] Instance bal_sys_close : Bal sys_close.
Proof. unfold sys_close. lks. Qed.
#[export] Instance bal_sys_open : Bal sys_open.
Proof. unfold sys_open. lks. Qed.
Lemma sys_pipe_locks ul cl : triple tidy true (locks 0 ∅ ul cl) sys_pipe (fun _ => locks 0 ∅ ul cl).
Proof.
  unfold sys_pipe. eapply triple_bind; [apply bal_argptr|]. intros [fd|]; [|lks].
  eapply triple_bind; [apply pipealloc_locks|]. intros [[rf wf]|]; lks.
Qed.

(** ** Every system call *)

(** exit does not return. *)
Lemma exit_never s env a s' env' : sys_exit s env <> Ok a s' env'.
Proof.
  unfold sys_exit, bind. destruct (exit s env) eqn:E; [|done]. exfalso. revert E. unfold exit. apply never_bind. intros c s1 env1.
  apply never_bind. intros ini s2 env2. destruct (bool_decide _); [done|]. do 11 (apply never_bind; intros ? ? ?). done.
Qed.

Lemma syscalls_locks ul cl :
  Forall (fun o => match o with Some m => triple tidy true (locks 0 ∅ ul cl) m (fun _ => locks 0 ∅ ul cl) | None => True end) syscalls.
Proof.
  unfold syscalls. repeat (apply Forall_cons; split); try done;
    first [exact (sys_pipe_locks ul cl)|apply bal|intros s env a s' env' _ _ Hrun; by apply exit_never in Hrun].
Qed.

Lemma syscall_locks ul cl : triple tidy true (locks 0 ∅ ul cl) syscall (fun _ => locks 0 ∅ ul cl).
Proof.
  unfold syscall. eapply triple_bind; [apply bal_curp|]. intros p. eapply triple_bind; [apply bal_load_word|]. intros r0. cbv zeta.
  eapply (triple_bind _ _ _ _ _ (fun h s => match h with Some m => triple tidy true (locks 0 ∅ ul cl) m (fun _ => locks 0 ∅ ul cl)
    | None => True end /\ locks 0 ∅ ul cl s)).
  { destruct (_ && _); [|by apply triple_ret]. eapply triple_mono; [apply triple_deref|intros s Hs; exact Hs|].
    simpl. intros h s [Hh Hs]. split; [|done]. pose proof (syscalls_locks ul cl) as Hall. rewrite Forall_lookup in Hall. exact (Hall _ _ Hh). }
  intros [m|]; apply triple_pure; intros Hm; [|lks]. eapply triple_bind; [apply Hm|]. intros r. lks.
Qed.

End Balance.

(** ** Theorems *)

(** C7: locks over a system call. A system call that begins with no spin lock
    held and interrupts not disabled by [pushcli] ends that way, whichever
    call it is and whichever of its paths it takes, error paths included,
    against other processes that come back from the scheduler, like this one,
    with the process table's lock and no other. *)
Theorem syscall_unlocks `{Image} s env s' env' :
  s.(kcpu).(held) = ∅ -> s.(kcpu).(ncli) = 0 -> Forall tidy env -> syscall s env = Ok tt s' env' ->
  s'.(kcpu).(held) = ∅ /\ s'.(kcpu).(ncli) = 0.
Proof.
  intros Hh Hn Henv Hrun. assert (Hl : locks 0 ∅ s.(use_lock) s.(cons_locking) s) by (by split_and!).
  destruct (syscall_locks _ _ s env tt s' env' Hl (fun _ => Henv) Hrun) as [(Hh' & Hn' & _) _]. done.
Qed.

(** A process that calls sleep(1), and the tick it waits for. *)
Definition sleep_call : kstate :=
  set_curproc (Some 0%nat) (set_mem (fun a => if a =? tf_r 0 then SYS_sleep else if a =? tf_r 1 then 1 else 0) (kstate0 [])).

#[local] Instance demo_image : Image := {| kern_end := 0; trapret_addr := 0; forkret_addr := 0; error_init_addr := 0; initcode := [] |}.

Lemma syscall_unlocks_witness :
  exists s' env', syscall sleep_call [set_ticks 1] = Ok tt s' env' /\ s'.(kcpu).(held) = ∅ /\ s'.(kcpu).(ncli) = 0.
Proof.
  assert (Hok : match syscall sleep_call [set_ticks 1] with Ok _ _ _ => true | Err _ _ _ => false end = true) by (vm_compute; reflexivity).
  destruct (syscall sleep_call [set_ticks 1]) as [[] s' env'|] eqn:E; [|discriminate]. exists s', env'. split; [reflexivity|].
  apply (syscall_unlocks sleep_call [set_ticks 1] s' env'); [reflexivity|reflexivity| |exact E].
  apply Forall_singleton. intros ul cl s Hs. exact Hs.
Defined.

End Locking.
