(* ===== verification/Descr.v ===== *)
(** Descriptors and the table of open files: the reference count of every file
    is the number of descriptors that refer to it, an entry of the table has a
    kind exactly while it is in use, and processes that have ended or not begun
    have no descriptors. Every operation of the kernel that a system call can
    reach is shown to keep this up, on all of its paths and against every
    step of other processes that does so too. *)
From S2P Require Import Prelude Types Hoare Spinlock Sched Cstring Bio Log Inode Console Fs Kalloc Pipe File Vm Proc Exec Syscall.
Import Hoare Spinlock Sched Cstring Bio Log Inode Console Fs Kalloc Pipe File Vm Proc Exec Syscall.

Module Descr.

(** ** Sums over tables *)

Definition wsum {A} (w : A -> Z) (l : list A) : Z := foldr (fun x a => w x + a) 0 l.

Lemma wsum_insert {A} (w : A -> Z) l i x y : l !! i = Some x -> wsum w (<[i := y]> l) = wsum w l - w x + w y.
Proof.
  revert i. induction l as [|z l IH]; intros [|i] Hi; simplify_eq/=; [lia|]. rewrite (IH i Hi). lia.
Qed.

Lemma wsum_alter {A} (w : A -> Z) l i g : (forall x, l !! i = Some x -> w (g x) = w x) -> wsum w (alter g i l) = wsum w l.
Proof.
  revert i. induction l as [|z l IH]; intros [|i] Hi; simpl; [done..| |].
  - by rewrite (Hi z eq_refl).
  - fold (alter g i l). by rewrite (IH i).
Qed.

Lemma wsum_nonneg {A} (w : A -> Z) l : (forall x, 0 <= w x) -> 0 <= wsum w l.
Proof. intros Hw. induction l as [|x l IH]; simpl; [lia|]. specialize (Hw x). lia. Qed.

Lemma wsum_zero {A} (w : A -> Z) l : (forall x, x ∈ l -> w x = 0) -> wsum w l = 0.
Proof.
  induction l as [|x l IH]; intros Hw; simpl; [done|]. rewrite (Hw x) by left. rewrite IH; [done|].
  intros y Hy. apply Hw. by right.
Qed.

Lemma wsum_pos {A} (w : A -> Z) l i x : (forall x, 0 <= w x) -> l !! i = Some x -> w x <= wsum w l.
Proof.
  intros Hw. revert i. induction l as [|y l IH]; intros [|i] Hi; simplify_eq/=.
  - pose proof (wsum_nonneg w l Hw). lia.
  - specialize (IH i Hi). specialize (Hw y). lia.
Qed.

(** The descriptors for file [f] in one table, and in all of them. *)
Definition hits (f : nat) (o : option nat) : Z := if decide (o = Some f) then 1 else 0.
Definition fds (f : nat) (os : list (option nat)) : Z := wsum (hits f) os.
Definition total (f : nat) (s : kstate) : Z := wsum (fun p => fds f p.(ofile)) s.(procs).
Definition refs (f : nat) (s : kstate) : Z := default 0 (f_ref <$> s.(ftable) !! f).

Lemma hits_nonneg f o : 0 <= hits f o.
Proof. unfold hits. case_decide; lia. Qed.

Lemma fds_nonneg f os : 0 <= fds f os.
Proof. apply wsum_nonneg, hits_nonneg. Qed.

(** A process without descriptors: the slot is free or its owner has ended. *)
Definition idle (st : procstate) : Prop := st = UNUSED \/ st = ZOMBIE.
#[export] Instance idle_dec st : Decision (idle st).
Proof. unfold idle. apply _. Defined.

Definition blank (os : list (option nat)) : Prop := forall o, o ∈ os -> o = None.

(** ** The invariant *)

(** [owed f] references to [f] are in the hands of the running code, the
    entries [raw] have just been taken, and the processes of [W], which the
    code is working on, have the tables given there. *)
Record books (c : nat) (owed : nat -> Z) (raw : gset nat) (W : list (nat * list (option nat))) (s : kstate) : Prop := {
  bk_cur : s.(curproc) = Some c;
  bk_run : exists p, s.(procs) !! c = Some p /\ ~ idle p.(state);
  bk_tab i p : s.(procs) !! i = Some p -> length p.(ofile) = NOFILE /\ (idle p.(state) -> (i ∉ W.*1) -> blank p.(ofile));
  bk_known i os : (i, os) ∈ W -> exists p, s.(procs) !! i = Some p /\ p.(ofile) = os;
  bk_refs f : refs f s = total f s + owed f;
  bk_type f x : s.(ftable) !! f = Some x -> f ∉ raw -> (x.(f_type) = FD_NONE <-> x.(f_ref) <= 0);
  bk_raw f : f ∈ raw -> exists x, s.(ftable) !! f = Some x /\ x.(f_ref) = 1 /\ x.(f_type) = FD_NONE
}.

(** What the other processes may do while this one waits: they leave its
    table alone and every file's count in step with the descriptors. *)
Definition polite (c : nat) (e : kstate -> kstate) : Prop :=
  forall owed os s, books c owed ∅ [(c, os)] s -> books c owed ∅ [(c, os)] (e s).

(** Between system calls. *)
Definition fd_inv (s : kstate) : Prop :=
  (exists c p, s.(curproc) = Some c /\ s.(procs) !! c = Some p /\ ~ idle p.(state)) /\
  (forall i p, s.(procs) !! i = Some p -> length p.(ofile) = NOFILE /\ (idle p.(state) -> blank p.(ofile))) /\
  (forall f, refs f s = total f s) /\
  (forall f x, s.(ftable) !! f = Some x -> (x.(f_type) = FD_NONE <-> x.(f_ref) <= 0)).

Section Keep.
Context (c : nat).
Abbreviation triple := (Hoare.triple (polite c)).

(** ** Operations that keep the books *)

Definition may (b : bool) (raw : gset nat) (W : list (nat * list (option nat))) : Prop :=
  b = true -> raw = ∅ /\ exists os, W = [(c, os)].

Class Keeps (b : bool) {A} (m : K A) : Prop :=
  keeps owed raw W : may b raw W -> triple b (books c owed raw W) m (fun _ => books c owed raw W).

#[export] Instance keeps_ret b {A} (a : A) : Keeps b (ret a).
Proof. intros owed raw W _. by apply triple_ret. Qed.

#[export] Instance keeps_fail b {A} e : Keeps (A := A) b (fail e).
Proof. intros owed raw W _. apply triple_fail. Qed.

#[export] Instance keeps_panic b {A} msg : Keeps (A := A) b (panic msg).
Proof. apply keeps_fail. Qed.

#[export] Instance keeps_undefined b {A} what : Keeps (A := A) b (undefined what).
Proof. apply keeps_fail. Qed.

#[export] Instance keeps_gets b {A} (f : kstate -> A) : Keeps b (gets f).
Proof. intros owed raw W _. eapply triple_mono; [apply (triple_gets _ b f)|done|]. by intros a s []. Qed.

#[export] Instance keeps_bind b {A B} (m : K A) (k : A -> K B) : Keeps b m -> (forall a, Keeps b (k a)) -> Keeps b (bind m k).
Proof. intros Hm Hk owed raw W Hmay. eapply triple_bind; [by apply Hm|]. intros a. by apply Hk. Qed.

Lemma keeps_may {A} (m : K A) : Keeps false m -> Keeps true m.
Proof. intros Hm owed raw W _. by apply triple_may, Hm. Qed.

#[export] Instance keeps_when b t m : Keeps b m -> Keeps b (when t m).
Proof. intros Hm. unfold when. destruct t; [done|apply _]. Qed.

#[export] Instance keeps_deref b {A} what (o : option A) : Keeps b (deref what o).
Proof. unfold deref. destruct o; apply _. Qed.

#[export] Instance keeps_mfor b {A} (l : list A) body : (forall x, Keeps b (body x)) -> Keeps b (mfor l body).
Proof. intros Hb. induction l; simpl; apply _. Qed.

#[export] Instance keeps_mfind b {A B} (l : list A) (body : A -> K (option B)) : (forall x, Keeps b (body x)) -> Keeps b (mfind l body).
Proof. intros Hb. induction l; simpl; [apply _|]. apply keeps_bind; [done|]. intros [?|]; apply _. Qed.

#[export] Instance keeps_mloop b {A} fuel (body : K (option A)) : Keeps b body -> Keeps b (mloop fuel body).
Proof. intros Hb. induction fuel; simpl; [apply _|]. apply keeps_bind; [done|]. intros [?|]; apply _. Qed.

#[export] Instance keeps_mloop_env b {A} (body : K (option A)) : Keeps b body -> Keeps b (mloop_env body).
Proof.
  intros Hb owed raw W Hmay s env. unfold mloop_env. exact (keeps_mloop b _ body Hb owed raw W Hmay s env).
Qed.

#[export] Instance keeps_yield : Keeps true yield_cpu.
Proof.
  intros owed raw W Hmay s [|e env] a s' env' Hbk Henv Hrun; [done|]. injection Hrun as <- <- <-.
  destruct (Hmay eq_refl) as (-> & os & ->). apply Forall_cons in Henv as [He Henv]; [|done]. split; [by apply He|done].
Qed.

(** Changes of other parts of the state. *)
Lemma keeps_modify b f :
  (forall s, procs (f s) = procs s /\ curproc (f s) = curproc s /\ ftable (f s) = ftable s) -> Keeps b (modify f).
Proof.
  intros Hf owed raw W _. apply triple_modify. intros s [H1 H2 H3 H4 H5 H6 H7].
  destruct (Hf s) as (Ep & Ec & Ef). unfold refs, total in *. split; unfold refs, total; rewrite ?Ep, ?Ec, ?Ef; auto.
Qed.

Lemma books_upd_proc owed raw W s i g :
  books c owed raw W s -> (forall x, ofile (g x) = ofile x) ->
  (forall p, s.(procs) !! i = Some p -> idle (state (g p)) -> idle (state p) \/ (i <> c /\ i ∈ W.*1)) ->
  books c owed raw W (upd_proc i g s).
Proof.
  intros [H1 H2 H3 H4 H5 H6 H7] Ho Hi.
  assert (Hl : forall j, procs (upd_proc i g s) !! j = if decide (j = i) then g <$> procs s !! j else procs s !! j).
  { intros j. simpl. rewrite list_lookup_alter. repeat case_decide; by subst. }
  split; auto.
  - destruct H2 as (p & Hp & Hid). rewrite Hl, Hp. case_decide as E; [|by exists p]. subst i. exists (g p). split; [done|].
    intros Hg. destruct (Hi p Hp Hg) as [?|[? _]]; done.
  - intros j q. rewrite Hl. case_decide as E; [subst j|apply H3]. destruct (procs s !! i) as [p|] eqn:Hp; [|done]. intros [= <-].
    rewrite Ho. destruct (H3 i p Hp) as [Hlen Hb]. split; [done|]. intros Hg Hn. destruct (Hi p eq_refl Hg) as [?|[_ ?]]; [by apply Hb|done].
  - intros j os HW. destruct (H4 _ _ HW) as (p & Hp & <-). rewrite Hl, Hp. case_decide; [|eauto]. exists (g p). by rewrite Ho.
  - intros f. change (refs f (upd_proc i g s)) with (refs f s). rewrite H5. unfold total. simpl. rewrite wsum_alter; [done|].
    intros x _. by rewrite Ho.
Qed.

Lemma keeps_upd_proc b i g :
  (forall x, ofile (g x) = ofile x) -> (forall x, idle (state (g x)) -> idle (state x)) -> Keeps b (modify (upd_proc i g)).
Proof. intros Ho Hi owed raw W _. apply triple_modify. intros s Hbk. apply books_upd_proc; auto. Qed.

Lemma keeps_upd_file b i g :
  (forall x, f_ref (g x) = f_ref x /\ f_type (g x) = f_type x) -> Keeps b (modify (upd_file i g)).
Proof.
  intros Hg owed raw W _. apply triple_modify. intros s [H1 H2 H3 H4 H5 H6 H7].
  assert (Hl : forall f, ftable (upd_file i g s) !! f = (if decide (f = i) then g <$> ftable s !! f else ftable s !! f)).
  { intros f. simpl. rewrite list_lookup_alter. repeat case_decide; by subst. }
  split; simpl; auto.
  - intros f. change (total f (upd_file i g s)) with (total f s). rewrite <- (H5 f). unfold refs. rewrite Hl. case_decide; [|done]. destruct (ftable s !! f) as [x|]; [|done].
    simpl. apply Hg.
  - intros f x. change (alter g i (ftable s)) with (ftable (upd_file i g s)). rewrite Hl. case_decide; [|apply H6].
    destruct (ftable s !! f) as [y|] eqn:E; [|done]. intros [= <-]. destruct (Hg y) as [-> ->]. by apply H6.
  - intros f Hf. change (alter g i (ftable s)) with (ftable (upd_file i g s)). rewrite Hl. destruct (H7 f Hf) as (x & Hx & Hx1 & Hx2).
    rewrite Hx. case_decide; [|eauto]. simpl. destruct (Hg x) as [E1 E2]. exists (g x). by rewrite E1, E2.
Qed.
End Keep.

(** Following the shape of a computation. *)
Ltac keep_step :=
  match goal with
  | |- forall _, _ => intro
  | |- Keeps _ _ (bind _ _) => apply keeps_bind
  | |- Keeps _ _ (match ?x with _ => _ end) => destruct x
  | |- Keeps _ _ (when _ _) => apply keeps_when
  | |- Keeps _ _ (mfor _ _) => apply keeps_mfor
  | |- Keeps _ _ (mfind _ _) => apply keeps_mfind
  | |- Keeps _ _ (mloop _ _) => apply keeps_mloop
  | |- Keeps _ _ (mloop_env _) => apply keeps_mloop_env
  | |- Keeps _ _ (modify (upd_proc _ _)) => apply keeps_upd_proc; [done|first [done|by intros ? [?|?]]]
  | |- Keeps _ _ (modify (upd_file _ _)) => apply keeps_upd_file; done
  | |- Keeps _ _ (modify _) => apply keeps_modify; done
  | |- Keeps _ _ _ => apply _
  end.
Ltac keep := repeat (cbv zeta; keep_step).

#[global] Arguments Keeps c b {A} m : assert.

End Descr.
