(* ===== verification/DescrKeep.v ===== *)
(** Every operation that a system call can reach, apart from those that deal
    with descriptors themselves, keeps the books of Descr.v. *)
From S2P Require Import Prelude Types Spinlock Sched Cstring Bio Log Inode Console Fs Kalloc Pipe File Vm Proc Exec Syscall Descr.
Import Spinlock Sched Cstring Bio Log Inode Console Fs Kalloc Pipe File Vm Proc Exec Syscall Descr.

Module DescrKeep.

(* an operation is looked up by its name, never by its definition *)
#[local] Hint Constants Opaque : typeclass_instances.

Section Keep.
Context (c : nat) `{Image}.

(** Types.v *)

#[export] Instance keeps_get_proc sl i : Keeps c sl (get_proc i).
Proof. unfold get_proc. keep. Qed.
#[export] Instance keeps_get_buf sl i : Keeps c sl (get_buf i).
Proof. unfold get_buf. keep. Qed.
#[export] Instance keeps_get_inode sl i : Keeps c sl (get_inode i).
Proof. unfold get_inode. keep. Qed.
#[export] Instance keeps_get_file sl i : Keeps c sl (get_file i).
Proof. unfold get_file. keep. Qed.
#[export] Instance keeps_get_pipe sl p : Keeps c sl (get_pipe p).
Proof. unfold get_pipe. keep. Qed.
#[export] Instance keeps_cur sl : Keeps c sl cur.
Proof. unfold cur. keep. Qed.

(** Spinlock.v *)

#[export] Instance keeps_cli sl : Keeps c sl cli.
Proof. unfold cli. keep. Qed.
#[export] Instance keeps_sti sl : Keeps c sl sti.
Proof. unfold sti. keep. Qed.
#[export] Instance keeps_is_int sl : Keeps c sl is_int.
Proof. unfold is_int. keep. Qed.
#[export] Instance keeps_pushcli sl : Keeps c sl pushcli.
Proof. unfold pushcli. keep. Qed.
#[export] Instance keeps_popcli sl : Keeps c sl popcli.
Proof. unfold popcli. keep. Qed.
#[export] Instance keeps_initlock sl lk : Keeps c sl (initlock lk).
Proof. unfold initlock. keep. Qed.
#[export] Instance keeps_holding sl lk : Keeps c sl (holding lk).
Proof. unfold holding. keep. Qed.
#[export] Instance keeps_xchg_locked sl lk : Keeps c sl (xchg_locked lk).
Proof. unfold xchg_locked. keep. Qed.
#[export] Instance keeps_spin sl lk : Keeps c sl (spin lk).
Proof. unfold spin. keep. Qed.
#[export] Instance keeps_acquire sl lk : Keeps c sl (acquire lk).
Proof. unfold acquire. keep. Qed.
#[export] Instance keeps_release sl lk : Keeps c sl (release lk).
Proof. unfold release. keep. Qed.

(** Sched.v *)

#[export] Instance keeps_swtch : Keeps c true swtch.
Proof. unfold swtch. keep. Qed.
#[export] Instance keeps_sched : Keeps c true sched.
Proof. unfold sched. keep. Qed.
#[export] Instance keeps_yield : Keeps c true yield.
Proof. unfold yield. keep. Qed.
#[export] Instance keeps_sleep ch lk : Keeps c true (sleep ch lk).
Proof. unfold sleep. keep. Qed.
#[export] Instance keeps_wakeup1 sl ch : Keeps c sl (wakeup1 ch).
Proof. unfold wakeup1. keep. Qed.
#[export] Instance keeps_wakeup sl ch : Keeps c sl (wakeup ch).
Proof. unfold wakeup. keep. Qed.
#[export] Instance keeps_kill sl n : Keeps c sl (kill n).
Proof. unfold kill. keep. Qed.

(** Bio.v *)

#[export] Instance keeps_iderw sl b : Keeps c sl (iderw b).
Proof. unfold iderw. keep. Qed.
#[export] Instance keeps_scan sl fuel link ok b : Keeps c sl (scan fuel link ok b).
Proof. revert b. induction fuel; intros b; simpl; keep. Qed.
#[export] Instance keeps_bget_pass dev sector : Keeps c true (bget_pass dev sector).
Proof. unfold bget_pass. keep. Qed.
#[export] Instance keeps_bget dev sector : Keeps c true (bget dev sector).
Proof. unfold bget. keep. Qed.
#[export] Instance keeps_bread dev sector : Keeps c true (bread dev sector).
Proof. unfold bread. keep. Qed.
#[export] Instance keeps_bwrite sl b : Keeps c sl (bwrite b).
Proof. unfold bwrite. keep. Qed.
#[export] Instance keeps_brelse sl b : Keeps c sl (brelse b).
Proof. unfold brelse. keep. Qed.

(** Log.v *)

#[export] Instance keeps_readsb dev : Keeps c true (readsb dev).
Proof. unfold readsb. keep. Qed.
#[export] Instance keeps_get_log sl : Keeps c sl get_log.
Proof. unfold get_log. keep. Qed.
#[export] Instance keeps_install_trans : Keeps c true install_trans.
Proof. unfold install_trans. keep. Qed.
#[export] Instance keeps_write_head : Keeps c true write_head.
Proof. unfold write_head. keep. Qed.
#[export] Instance keeps_begin_trans : Keeps c true begin_trans.
Proof. unfold begin_trans. keep. Qed.
#[export] Instance keeps_commit_trans : Keeps c true commit_trans.
Proof. unfold commit_trans. keep. Qed.
#[export] Instance keeps_log_write b : Keeps c true (log_write b).
Proof. unfold log_write. keep. Qed.

(** Inode.v *)

#[export] Instance keeps_bzero dev bno : Keeps c true (bzero dev bno).
Proof. unfold bzero. keep. Qed.
#[export] Instance keeps_balloc dev : Keeps c true (balloc dev).
Proof. unfold balloc. keep. Qed.
#[export] Instance keeps_bfree dev b : Keeps c true (bfree dev b).
Proof. unfold bfree. keep. Qed.
#[export] Instance keeps_iget sl dev inum : Keeps c sl (iget dev inum).
Proof. unfold iget. keep. Qed.
#[export] Instance keeps_ialloc dev type : Keeps c true (ialloc dev type).
Proof. unfold ialloc. keep. Qed.
#[export] Instance keeps_iupdate ip : Keeps c true (iupdate ip).
Proof. unfold iupdate. keep. Qed.
#[export] Instance keeps_idup sl ip : Keeps c sl (idup ip).
Proof. unfold idup. keep. Qed.
#[export] Instance keeps_ilock p : Keeps c true (ilock p).
Proof. unfold ilock. keep. Qed.
#[export] Instance keeps_iunlock sl p : Keeps c sl (iunlock p).
Proof. unfold iunlock. keep. Qed.
#[export] Instance keeps_bmap ip bn : Keeps c true (bmap ip bn).
Proof. unfold bmap. keep. Qed.
#[export] Instance keeps_itrunc ip : Keeps c true (itrunc ip).
Proof. unfold itrunc. keep. Qed.
#[export] Instance keeps_iput ip : Keeps c true (iput ip).
Proof. unfold iput. keep. Qed.
#[export] Instance keeps_iunlockput ip : Keeps c true (iunlockput ip).
Proof. unfold iunlockput. keep. Qed.
#[export] Instance keeps_stati sl ip : Keeps c sl (stati ip).
Proof. unfold stati. keep. Qed.

(** Console.v *)

#[export] Instance keeps_uartputc sl ch : Keeps c sl (uartputc ch).
Proof. unfold uartputc. keep. Qed.
#[export] Instance keeps_consputc sl ch : Keeps c sl (consputc ch).
Proof. unfold consputc. keep. Qed.
#[export] Instance keeps_printint sl xx base sign : Keeps c sl (printint xx base sign).
Proof. unfold printint. keep. Qed.
#[export] Instance keeps_cprintf_loop sl fmt args : Keeps c sl (cprintf_loop fmt args).
Proof.
  revert args. cut ((forall args, Keeps c sl (cprintf_loop fmt args)) /\ (forall args, Keeps c sl (cprintf_loop (tail fmt) args))); [tauto|].
  induction fmt as [|x fmt [IH1 IH2]]; [split; intros args; simpl; keep|].
  split; [|exact IH1]. intros args. simpl. destruct (negb _); [keep|]. destruct fmt as [|d fmt]; cbn [tail] in IH2; keep.
Qed.
#[export] Instance keeps_cprintf sl fmt args : Keeps c sl (cprintf fmt args).
Proof. unfold cprintf. keep. Qed.
#[export] Instance keeps_get_input sl : Keeps c sl get_input.
Proof. unfold get_input. keep. Qed.
#[export] Instance keeps_cons_wait : Keeps c true cons_wait.
Proof. unfold cons_wait. keep. Qed.
#[export] Instance keeps_cons_loop n target : Keeps c true (cons_loop n target).
Proof. revert target. induction n; simpl; keep. Qed.
#[export] Instance keeps_consoleread ip n : Keeps c true (consoleread ip n).
Proof. unfold consoleread. keep. Qed.
#[export] Instance keeps_consolewrite ip buf n : Keeps c true (consolewrite ip buf n).
Proof. unfold consolewrite. keep. Qed.

(** Fs.v *)

#[export] Instance keeps_readi_loop fuel ip tot off n : Keeps c true (readi_loop fuel ip tot off n).
Proof. revert ip tot off n. induction fuel; simpl; keep. Qed.
#[export] Instance keeps_readi ip off n : Keeps c true (readi ip off n).
Proof. unfold readi. keep. Qed.
#[export] Instance keeps_writei_loop fuel ip src tot off n : Keeps c true (writei_loop fuel ip src tot off n).
Proof. revert ip src tot off n. induction fuel; simpl; keep. Qed.
#[export] Instance keeps_writei ip src off n : Keeps c true (writei ip src off n).
Proof. unfold writei. keep. Qed.
#[export] Instance keeps_dirlookup_loop fuel dp name off : Keeps c true (dirlookup_loop fuel dp name off).
Proof. revert dp name off. induction fuel; simpl; keep. Qed.
#[export] Instance keeps_dirlookup dp name : Keeps c true (dirlookup dp name).
Proof. unfold dirlookup. keep. Qed.
#[export] Instance keeps_dirlink_loop fuel dp off : Keeps c true (dirlink_loop fuel dp off).
Proof. revert dp off. induction fuel; simpl; keep. Qed.
#[export] Instance keeps_dirlink dp name inum : Keeps c true (dirlink dp name inum).
Proof. unfold dirlink. keep. Qed.
#[export] Instance keeps_namex_loop fuel ip path nameiparent name : Keeps c true (namex_loop fuel ip path nameiparent name).
Proof. revert ip path nameiparent name. induction fuel; simpl; keep. Qed.
#[export] Instance keeps_namex path nameiparent : Keeps c true (namex path nameiparent).
Proof. unfold namex. keep. Qed.
#[export] Instance keeps_namei path : Keeps c true (namei path).
Proof. unfold namei. keep. Qed.
#[export] Instance keeps_nameiparent path : Keeps c true (nameiparent path).
Proof. unfold nameiparent. keep. Qed.

(** Kalloc.v *)

#[export] Instance keeps_load_word sl p : Keeps c sl (load_word p).
Proof. unfold load_word. keep. Qed.
#[export] Instance keeps_store_word sl p v : Keeps c sl (store_word p v).
Proof. unfold store_word. keep. Qed.
#[export] Instance keeps_kfree sl v : Keeps c sl (kfree v).
Proof. unfold kfree. keep. Qed.
#[export] Instance keeps_kalloc sl : Keeps c sl kalloc.
Proof. unfold kalloc. keep. Qed.

(** Pipe.v *)

#[export] Instance keeps_pipeclose sl p writable : Keeps c sl (pipeclose p writable).
Proof. unfold pipeclose. keep. Qed.
#[export] Instance keeps_wait_room p : Keeps c true (wait_room p).
Proof. unfold wait_room. keep. Qed.
#[export] Instance keeps_put_byte sl p ch : Keeps c sl (put_byte p ch).
Proof. unfold put_byte. keep. Qed.
#[export] Instance keeps_pipewrite p addr n : Keeps c true (pipewrite p addr n).
Proof. unfold pipewrite. keep. Qed.
#[export] Instance keeps_wait_data p : Keeps c true (wait_data p).
Proof. unfold wait_data. keep. Qed.
#[export] Instance keeps_take_bytes sl n p : Keeps c sl (take_bytes n p).
Proof. revert p. induction n; simpl; keep. Qed.
#[export] Instance keeps_piperead p n : Keeps c true (piperead p n).
Proof. unfold piperead. keep. Qed.

(** Vm.v *)

#[export] Instance keeps_setupvm sl : Keeps c sl setupvm.
Proof. unfold setupvm. keep. Qed.
#[export] Instance keeps_walkpgdir sl pgdir va alloc : Keeps c sl (walkpgdir pgdir va alloc).
Proof. unfold walkpgdir. keep. Qed.
#[export] Instance keeps_mappages_loop sl fuel pgdir a last pa ap : Keeps c sl (mappages_loop fuel pgdir a last pa ap).
Proof. revert pgdir a last pa ap. induction fuel; simpl; keep. Qed.
#[export] Instance keeps_mappages sl pgdir va size pa ap : Keeps c sl (mappages pgdir va size pa ap).
Proof. unfold mappages. keep. Qed.
#[export] Instance keeps_switchuvm sl o : Keeps c sl (switchuvm o).
Proof. unfold switchuvm. keep. Qed.
#[export] Instance keeps_loaduvm_loop fuel pgdir addr ip offset i sz : Keeps c true (loaduvm_loop fuel pgdir addr ip offset i sz).
Proof. revert pgdir addr ip offset i sz. induction fuel; simpl; keep. Qed.
#[export] Instance keeps_loaduvm pgdir addr ip offset sz : Keeps c true (loaduvm pgdir addr ip offset sz).
Proof. unfold loaduvm. keep. Qed.
#[export] Instance keeps_deallocuvm_loop sl fuel pgdir a oldsz : Keeps c sl (deallocuvm_loop fuel pgdir a oldsz).
Proof. revert pgdir a oldsz. induction fuel; simpl; keep. Qed.
#[export] Instance keeps_deallocuvm sl pgdir oldsz newsz : Keeps c sl (deallocuvm pgdir oldsz newsz).
Proof. unfold deallocuvm. keep. Qed.
#[export] Instance keeps_allocuvm_loop sl fuel pgdir a oldsz newsz : Keeps c sl (allocuvm_loop fuel pgdir a oldsz newsz).
Proof. revert pgdir a oldsz newsz. induction fuel; simpl; keep. Qed.
#[export] Instance keeps_allocuvm sl pgdir oldsz newsz : Keeps c sl (allocuvm pgdir oldsz newsz).
Proof. unfold allocuvm. keep. Qed.
#[export] Instance keeps_freevm sl pgdir : Keeps c sl (freevm pgdir).
Proof. unfold freevm. keep. Qed.
#[export] Instance keeps_clearpteu sl pgdir uva : Keeps c sl (clearpteu pgdir uva).
Proof. unfold clearpteu. keep. Qed.
#[export] Instance keeps_copyuvm_loop sl fuel pgdir d i sz : Keeps c sl (copyuvm_loop fuel pgdir d i sz).
Proof. revert pgdir d i sz. induction fuel; simpl; keep. Qed.
#[export] Instance keeps_copyuvm sl pgdir sz : Keeps c sl (copyuvm pgdir sz).
Proof. unfold copyuvm. keep. Qed.
#[export] Instance keeps_uva2ka sl pgdir uva : Keeps c sl (uva2ka pgdir uva).
Proof. unfold uva2ka. keep. Qed.
#[export] Instance keeps_copyout_loop sl fuel pgdir va buf len : Keeps c sl (copyout_loop fuel pgdir va buf len).
Proof. revert pgdir va buf len. induction fuel; simpl; keep. Qed.
#[export] Instance keeps_copyout sl pgdir va p len : Keeps c sl (copyout pgdir va p len).
Proof. unfold copyout. keep. Qed.
#[export] Instance keeps_uload8 sl va : Keeps c sl (uload8 va).
Proof. unfold uload8. keep. Qed.
#[export] Instance keeps_ustore8 sl va v : Keeps c sl (ustore8 va v).
Proof. unfold ustore8. keep. Qed.
#[export] Instance keeps_uload32 sl va : Keeps c sl (uload32 va).
Proof. unfold uload32. keep. Qed.
#[export] Instance keeps_uload_bytes sl n va : Keeps c sl (uload_bytes n va).
Proof. revert va. induction n; simpl; keep. Qed.
#[export] Instance keeps_ustore_bytes sl va l : Keeps c sl (ustore_bytes va l).
Proof. revert va. induction l; simpl; keep. Qed.

(** Exec.v *)

#[export] Instance keeps_load_segments n ip pgdir off sz : Keeps c true (load_segments n ip pgdir off sz).
Proof. revert ip pgdir off sz. induction n; simpl; keep. Qed.
#[export] Instance keeps_push_args sl argv argc pgdir sp ustack : Keeps c sl (push_args argv argc pgdir sp ustack).
Proof. revert argc sp ustack. induction argv; intros argc sp ustack; simpl; keep. Qed.
#[export] Instance keeps_exec_bad pgdir ip : Keeps c true (exec_bad pgdir ip).
Proof. unfold exec_bad. keep. Qed.
#[export] Instance keeps_exec path argv : Keeps c true (exec path argv).
Proof. unfold exec. keep. Qed.

(** Proc.v *)

#[export] Instance keeps_growproc sl n : Keeps c sl (growproc n).
Proof. unfold growproc. keep. Qed.

(** File.v *)

#[export] Instance keeps_filestat f : Keeps c true (filestat f).
Proof. unfold filestat. keep. Qed.
#[export] Instance keeps_fileread f n : Keeps c true (fileread f n).
Proof. unfold fileread. keep. Qed.
#[export] Instance keeps_filewrite_loop fuel f addr i n : Keeps c true (filewrite_loop fuel f addr i n).
Proof. revert i. induction fuel; intros i; simpl; keep. Qed.
#[export] Instance keeps_filewrite f addr n : Keeps c true (filewrite f addr n).
Proof. unfold filewrite. keep. Qed.

(** Syscall.v *)

#[export] Instance keeps_curp sl : Keeps c sl curp.
Proof. unfold curp. keep. Qed.
#[export] Instance keeps_fetchint sl addr : Keeps c sl (fetchint addr).
Proof. unfold fetchint. keep. Qed.
#[export] Instance keeps_fetchstr_loop sl n s : Keeps c sl (fetchstr_loop n s).
Proof. revert s. induction n; simpl; keep. Qed.
#[export] Instance keeps_fetchstr sl addr : Keeps c sl (fetchstr addr).
Proof. unfold fetchstr. keep. Qed.
#[export] Instance keeps_argint sl n : Keeps c sl (argint n).
Proof. unfold argint. keep. Qed.
#[export] Instance keeps_argptr sl n size : Keeps c sl (argptr n size).
Proof. unfold argptr. keep. Qed.
#[export] Instance keeps_argstr sl n : Keeps c sl (argstr n).
Proof. unfold argstr. keep. Qed.
#[export] Instance keeps_argfd sl n : Keeps c sl (argfd n).
Proof. unfold argfd. keep. Qed.
#[export] Instance keeps_sys_kill sl : Keeps c sl sys_kill.
Proof. unfold sys_kill. keep. Qed.
#[export] Instance keeps_sys_getpid sl : Keeps c sl sys_getpid.
Proof. unfold sys_getpid. keep. Qed.
#[export] Instance keeps_sys_sbrk sl : Keeps c sl sys_sbrk.
Proof. unfold sys_sbrk. keep. Qed.
#[export] Instance keeps_sys_sleep : Keeps c true sys_sleep.
Proof. unfold sys_sleep. keep. Qed.
#[export] Instance keeps_sys_uptime sl : Keeps c sl sys_uptime.
Proof. unfold sys_uptime. keep. Qed.
#[export] Instance keeps_sys_read : Keeps c true sys_read.
Proof. unfold sys_read. keep. Qed.
#[export] Instance keeps_sys_write : Keeps c true sys_write.
Proof. unfold sys_write. keep. Qed.
#[export] Instance keeps_store_stat sl va st : Keeps c sl (store_stat va st).
Proof. unfold store_stat. keep. Qed.
#[export] Instance keeps_sys_fstat : Keeps c true sys_fstat.
Proof. unfold sys_fstat. keep. Qed.
#[export] Instance keeps_add_nlink sl k ip : Keeps c sl (add_nlink k ip).
Proof. unfold add_nlink. keep. Qed.
#[export] Instance keeps_link_bad ip : Keeps c true (link_bad ip).
Proof. unfold link_bad. keep. Qed.
#[export] Instance keeps_sys_link : Keeps c true sys_link.
Proof. unfold sys_link. keep. Qed.
#[export] Instance keeps_isdirempty_loop fuel dp off : Keeps c true (isdirempty_loop fuel dp off).
Proof. revert dp off. induction fuel; simpl; keep. Qed.
#[export] Instance keeps_isdirempty dp : Keeps c true (isdirempty dp).
Proof. unfold isdirempty. keep. Qed.
#[export] Instance keeps_unlink_bad dp : Keeps c true (unlink_bad dp).
Proof. unfold unlink_bad. keep. Qed.
#[export] Instance keeps_sys_unlink : Keeps c true sys_unlink.
Proof. unfold sys_unlink. keep. Qed.
#[export] Instance keeps_create path type major minor : Keeps c true (create path type major minor).
Proof. unfold create. keep. Qed.
#[export] Instance keeps_sys_mkdir : Keeps c true sys_mkdir.
Proof. unfold sys_mkdir. keep. Qed.
#[export] Instance keeps_sys_mknod : Keeps c true sys_mknod.
Proof. unfold sys_mknod. keep. Qed.
#[export] Instance keeps_sys_chdir : Keeps c true sys_chdir.
Proof. unfold sys_chdir. keep. Qed.
#[export] Instance keeps_fetch_argv sl n uargv : Keeps c sl (fetch_argv n uargv).
Proof. revert uargv. induction n; simpl; keep. Qed.
#[export] Instance keeps_sys_exec : Keeps c true sys_exec.
Proof. unfold sys_exec. keep. Qed.

(** The part of sys_open that finds or makes the inode. *)
Lemma keeps_open_inode path omode : Keeps c true
  (if has omode O_CREATE then
     begin_trans ;;; ip <- create path T_FILE 0 0 ;; commit_trans ;;; ret ip
   else
     o <- namei path ;;
     match o with
     | None => ret None
     | Some ip =>
         ilock (Some ip) ;;;
         i <- get_inode ip ;;
         if (i.(i_type) =? T_DIR) && negb (omode =? O_RDONLY) then iunlockput ip ;;; ret None
         else ret (Some ip)
     end).
Proof. keep. Qed.

(** The end of sys_open, after the kind of the file has been set. *)
Lemma keeps_open_file f ip omode (fd : Z) : Keeps c true
  (modify (upd_file f (set_f_ip ip)) ;;;
   modify (upd_file f (set_f_off 0)) ;;;
   modify (upd_file f (set_f_readable (negb (has omode O_WRONLY)))) ;;;
   modify (upd_file f (set_f_writable (has omode O_WRONLY || has omode O_RDWR))) ;;;
   ret fd).
Proof. keep. Qed.

(** The part of exit after the descriptors. *)
Lemma keeps_exit_parents : Keeps c true
  (p <- get_proc c ;;
   d <- deref "proc->cwd" p.(cwd) ;;
   iput d ;;;
   modify (upd_proc c (set_cwd None)) ;;;
   acquire ptable_lock ;;;
   p <- get_proc c ;;
   wakeup1_proc p.(parent) ;;;
   mfor (seq 0 NPROC) (fun i =>
     x <- get_proc i ;;
     when (bool_decide (x.(parent) = Some c))
       (ini <- gets initproc ;;
        modify (upd_proc i (set_parent ini)) ;;;
        when (bool_decide (x.(state) = ZOMBIE)) (wakeup1_proc ini)))).
Proof. unfold wakeup1_proc. keep. Qed.

End Keep.

End DescrKeep.
