(* ===== verification/DescrFacts.v ===== *)
(** Descriptors (kernel/file.c: filealloc, filedup, fileclose; pipealloc of
    kernel/pipe.c; fdalloc and the calls of kernel/sysfile.c; fork, exit and
    wait of kernel/proc.c): the books of Descr.v over whole system calls. *)
From S2P Require Import Prelude Types Hoare Spinlock Sched Cstring Bio Log Inode Console Fs Kalloc Pipe File Vm Proc Exec Syscall Locking Descr DescrKeep.
Import Hoare Spinlock Sched Cstring Bio Log Inode Console Fs Kalloc Pipe File Vm Proc Exec Syscall Descr DescrKeep.

Module DescrFacts.

(** The next operation keeps the books. *)
Ltac via H := eapply triple_bind; [by apply H|intros ?; cbv beta].

Section Facts.
Context (c : nat) `{Image}.

(** ** Changes of the tables *)

(** [k] more references to [f] are in hand. *)
Definition lend (owed : nat -> Z) (f : nat) (k : Z) : nat -> Z := fun g => owed g + (if decide (g = f) then k else 0).
Ltac ledger := intros ?; unfold lend, hits; repeat case_decide; simplify_eq; lia.

Lemma books_ext owed owed' raw W s : (forall g, owed g = owed' g) -> books c owed raw W s -> books c owed' raw W s.
Proof. intros E [H1 H2 H3 H4 H5 H6 H7]. split; auto. intros f. by rewrite <- E. Qed.

(** Starting and ending the work on a process. *)
Lemma books_track owed raw W s i p : books c owed raw W s -> s.(procs) !! i = Some p -> books c owed raw ((i, p.(ofile)) :: W) s.
Proof.
  intros [H1 H2 H3 H4 H5 H6 H7] Hp. split; auto.
  - intros j q Hq. destruct (H3 j q Hq) as [? Hb]. split; [done|]. intros Hid Hn. apply Hb; [done|]. simpl in Hn. set_solver.
  - intros j os [[= -> ->]|Hin]%elem_of_cons; [by exists p|by apply H4].
Qed.

Lemma books_untrack owed raw W s i os :
  books c owed raw ((i, os) :: W) s -> (forall p, s.(procs) !! i = Some p -> idle p.(state) -> blank p.(ofile)) ->
  books c owed raw W s.
Proof.
  intros [H1 H2 H3 H4 H5 H6 H7] Hi. split; auto.
  - intros j q Hq. destruct (H3 j q Hq) as [? Hb]. split; [done|]. intros Hid Hn. destruct (decide (j = i)) as [->|Hne]; [by apply Hi|].
    apply Hb; [done|]. simpl. set_solver.
  - intros j os' Hin. apply H4. by right.
Qed.

Lemma upd_file_lookup f g s f' :
  (upd_file f g s).(ftable) !! f' = if decide (f' = f) then g <$> s.(ftable) !! f' else s.(ftable) !! f'.
Proof. simpl. rewrite list_lookup_alter. repeat case_decide; by subst. Qed.

(** One entry of the file table gets a new count and kind. *)
Lemma books_file owed raw raw' W s f x g k :
  books c owed raw W s -> k = (g x).(f_ref) - x.(f_ref) -> s.(ftable) !! f = Some x -> (forall h, h <> f -> h ∈ raw' <-> h ∈ raw) ->
  (f ∉ raw' -> (g x).(f_type) = FD_NONE <-> (g x).(f_ref) <= 0) ->
  (f ∈ raw' -> (g x).(f_ref) = 1 /\ (g x).(f_type) = FD_NONE) ->
  books c (lend owed f k) raw' W (upd_file f g s).
Proof.
  intros [H1 H2 H3 H4 H5 H6 H7] -> Hx Hraw Hout Hin. split; try done.
  - intros h. change (total h (upd_file f g s)) with (total h s). unfold lend, refs. rewrite upd_file_lookup.
    specialize (H5 h). unfold refs in H5. case_decide as E; [subst h; rewrite Hx in *; simpl in *|]; lia.
  - intros h y. rewrite upd_file_lookup. case_decide as E; [subst h; rewrite Hx; intros [= <-]; done|].
    intros Hy Hn. apply (H6 h y Hy). by rewrite <- (Hraw h E).
  - intros h Hh. rewrite upd_file_lookup. case_decide as E; [subst h; rewrite Hx; simpl; eauto|].
    apply H7. by apply Hraw.
Qed.

(** One descriptor changes. *)
Lemma books_fd owed raw W s i os k o o' :
  books c owed raw ((i, os) :: W) s -> (i ∉ W.*1) -> os !! k = Some o ->
  books c (fun g => owed g + hits g o - hits g o') raw ((i, <[k := o']> os) :: W)
    (upd_proc i (fun y => set_ofile (<[k := o']> y.(ofile)) y) s).
Proof.
  intros [H1 H2 H3 H4 H5 H6 H7] HiW Hk. set (h := fun y => set_ofile (<[k := o']> y.(ofile)) y).
  destruct (H4 i os) as (p & Hp & Ho); [left|].
  assert (Hl : forall j, procs (upd_proc i h s) !! j = if decide (j = i) then Some (h p) else procs s !! j).
  { intros j. simpl. rewrite list_lookup_alter. repeat case_decide; subst; try done. by rewrite Hp. }
  split; try done.
  - rewrite Hl. case_decide as E; [|done]. subst i. destruct H2 as (p' & Hp' & Hn). exists (h p). split; [done|].
    by replace p with p' by congruence.
  - intros j q. rewrite Hl. case_decide as E; [intros [= <-]; subst j|apply H3]. destruct (H3 i p Hp) as [Hlen _].
    split; [simpl; by rewrite length_insert|]. simpl. set_solver.
  - intros j os' [[= -> ->]|HW]%elem_of_cons; rewrite Hl.
    + rewrite decide_True by done. exists (h p). split; [done|]. simpl. by rewrite Ho.
    + rewrite decide_False; [apply H4; by right|]. intros ->. apply HiW. by apply (list_elem_of_fmap_2 fst _ (i, os')).
  - intros g. change (refs g (upd_proc i h s)) with (refs g s). rewrite H5. unfold total.
    replace (procs (upd_proc i h s)) with (<[i := h p]> (procs s)).
    + rewrite (wsum_insert _ _ i p (h p) Hp). change (ofile (h p)) with (<[k := o']> (ofile p)). rewrite Ho.
      unfold fds. rewrite (wsum_insert (hits g) _ k o o' Hk). lia.
    + apply list_eq. intros j. rewrite Hl. case_decide; [subst; apply list_lookup_insert_eq; by eapply lookup_lt_Some|].
      by rewrite list_lookup_insert_ne.
Qed.

Lemma triple_cur b owed raw W : triple (polite c) b (books c owed raw W) cur (fun x s => x = c /\ books c owed raw W s).
Proof.
  unfold cur. eapply triple_bind; [apply triple_gets|]. intros o. eapply triple_mono; [apply triple_deref|intros s Hs; exact Hs|].
  simpl. intros x s [-> [E HP]]. split; [|done]. pose proof (bk_cur _ _ _ _ _ HP). congruence.
Qed.

(** ** The table of open files *)

Lemma filealloc_books owed raw W :
  triple (polite c) false (books c owed raw W) filealloc
    (fun o s => match o with
                | Some f => (f ∉ raw) /\ books c (lend owed f 1) ({[f]} ∪ raw) W s
                | None => books c owed raw W s
                end).
Proof.
  unfold filealloc. via (keeps_acquire c false).
  eapply triple_bind.
  - apply (triple_mfind (polite c) false _ _ (books c owed raw W) (fun f s => (f ∉ raw) /\ books c (lend owed f 1) ({[f]} ∪ raw) W s)).
    intros f _. eapply triple_bind; [apply triple_get_file|]. intros x. simpl. destruct (Z.eqb_spec (f_ref x) 0) as [E|E].
    + eapply triple_bind.
      { apply (triple_modify _ _ _ _ (fun _ s => (f ∉ raw) /\ books c (lend owed f 1) ({[f]} ∪ raw) W s)).
        intros s [Hx Hbk]. assert (Hr : f ∉ raw).
        { intros Hin. destruct (bk_raw _ _ _ _ _ Hbk f Hin) as (y & Hy & Hy1 & _). simplify_eq. lia. }
        split; [done|].
        apply (books_file owed raw _ W s f x (set_f_ref 1) 1 Hbk ltac:(simpl; lia) Hx); [set_solver|set_solver|]. intros _. split; [done|]. simpl.
        apply (bk_type _ _ _ _ _ Hbk f x Hx Hr). lia. }
      intros ?. apply triple_pure. intros Hr. via (keeps_release c false).
      by apply triple_ret.
    + apply triple_ret. by intros s [_ ?].
  - intros [f|]; [by apply triple_ret|]. via (keeps_release c false). by apply triple_ret.
Qed.

Lemma filedup_books owed raw W f : f ∉ raw ->
  triple (polite c) false (books c owed raw W) (filedup f) (fun f' s => f' = f /\ books c (lend owed f 1) raw W s).
Proof.
  intros Hr. unfold filedup. via (keeps_acquire c false).
  eapply triple_bind; [apply triple_get_file|]. intros x. simpl. destruct (Z.ltb_spec (f_ref x) 1) as [E|E]; [apply triple_fail|].
  eapply triple_bind.
  { apply (triple_modify _ _ _ _ (fun _ => books c (lend owed f 1) raw W)). intros s [Hx Hbk].
    apply (books_file owed raw _ W s f x _ 1 Hbk); [simpl; lia|done|done| |done]. intros _. simpl.
    rewrite (bk_type _ _ _ _ _ Hbk f x Hx Hr). lia. }
  intros ?. via (keeps_release c false). by apply triple_ret.
Qed.

Lemma upd_file_twice f g h s : upd_file f g (upd_file f h s) = upd_file f (g ∘ h) s.
Proof. unfold upd_file. simpl. by rewrite list_alter_alter_eq. Qed.

(** Closing: a file with one reference that nobody knows about yet, which
    needs no waiting, or any other one. *)
Lemma fileclose_gen b owed raw raw' W f :
  (forall h, h <> f -> h ∈ raw' <-> h ∈ raw) -> (f ∉ raw') ->
  f ∈ raw \/ ((f ∉ raw) /\ b = true /\ raw' = ∅ /\ exists os, W = [(c, os)]) ->
  triple (polite c) b (books c owed raw W) (fileclose f) (fun _ => books c (lend owed f (-1)) raw' W).
Proof.
  intros Hraw Hf' Hcase. unfold fileclose.
  eapply triple_bind; [apply triple_weak; by apply (keeps_acquire c false)|intros ?; cbv beta].
  eapply triple_bind; [apply triple_get_file|]. intros x. cbv beta.
  destruct (Z.ltb_spec (f_ref x) 1) as [E|E]; [apply triple_fail|].
  apply (triple_learn _ _ (f ∈ raw -> f_ref x = 1 /\ f_type x = FD_NONE)).
  { intros s [Hx Hbk] Hin. destruct (bk_raw _ _ _ _ _ Hbk f Hin) as (y & Hy & ? & ?). by simplify_eq. }
  intros Hrx. set (dec := fun y => set_f_ref (f_ref y - 1) y).
  set (P1 := fun s => exists s0, (books c owed raw W s0 /\ ftable s0 !! f = Some x) /\ s = upd_file f dec s0).
  eapply triple_bind; [apply (triple_modify _ _ _ _ (fun _ => P1)); intros s [Hx Hbk]; by exists s|]. intros ?.
  eapply triple_bind; [apply triple_get_file|]. intros ff. cbv beta.
  apply (triple_learn _ _ (ff = dec x)).
  { intros s [Hff (s0 & [_ Hx] & ->)]. rewrite upd_file_lookup, decide_True, Hx in Hff by done. by injection Hff. }
  intros ->. simpl. destruct (Z.ltb_spec 0 (f_ref x - 1)) as [E2|E2].
  - eapply triple_mono; [apply triple_weak; by apply (keeps_release c false ftable_lock (lend owed f (-1)) raw' W)| |done].
    intros s [_ (s0 & [Hbk Hx] & ->)]. assert (f ∉ raw) by (intros Hin; destruct (Hrx Hin); lia).
    apply (books_file owed raw _ W s0 f x dec (-1) Hbk); [simpl; lia|done|done| |done].
    intros _. simpl. rewrite (bk_type _ _ _ _ _ Hbk f x Hx) by done. lia.
  - eapply triple_bind.
    { apply (triple_modify _ _ _ _ (fun _ s => exists s0, (books c owed raw W s0 /\ ftable s0 !! f = Some x) /\ s = upd_file f (set_f_ref 0 ∘ dec) s0)).
      intros s [_ (s0 & H0 & ->)]. exists s0. by rewrite upd_file_twice. }
    intros ?. eapply triple_bind.
    { apply (triple_modify _ _ _ _ (fun _ => books c (lend owed f (-1)) raw' W)).
      intros s (s0 & [Hbk Hx] & ->). rewrite upd_file_twice.
      apply (books_file owed raw _ W s0 f x _ (-1) Hbk); [simpl; lia|done|done|done|done]. }
    intros ?. cbv beta. eapply triple_bind; [apply triple_weak; by apply (keeps_release c false)|intros ?; cbv beta].
    destruct (f_type x) eqn:Et; [by apply triple_ret|apply triple_weak; by apply (keeps_pipeclose c false)|].
    destruct Hcase as [Hin|(_ & -> & -> & os & ->)]; [by destruct (Hrx Hin)|].
    assert (Hm : may c true ∅ [(c, os)]) by (intros _; eauto).
    via (keeps_begin_trans c). via (keeps_iput c). by apply (keeps_commit_trans c).
Qed.

Lemma fileclose_books owed os f :
  triple (polite c) true (books c owed ∅ [(c, os)]) (fileclose f) (fun _ => books c (lend owed f (-1)) ∅ [(c, os)]).
Proof. apply fileclose_gen; [done|set_solver|right; split_and!; [set_solver|done|done|eauto]]. Qed.

Lemma fileclose_raw b owed raw W f : f ∈ raw ->
  triple (polite c) b (books c owed raw W) (fileclose f) (fun _ => books c (lend owed f (-1)) (raw ∖ {[f]}) W).
Proof. intros Hin. apply fileclose_gen; [set_solver|set_solver|by left]. Qed.

(** ** Descriptors *)

Lemma known_table owed raw os s p : books c owed raw [(c, os)] s -> s.(procs) !! c = Some p -> p.(ofile) = os /\ ~ idle p.(state).
Proof.
  intros Hbk Hp. destruct (bk_known _ _ _ _ _ Hbk c os) as (q & Hq & E); [left|].
  destruct (bk_run _ _ _ _ _ Hbk) as (q' & Hq' & Hi). by simplify_eq.
Qed.

Lemma fdalloc_books owed raw os f :
  triple (polite c) false (books c owed raw [(c, os)]) (fdalloc f)
    (fun fd s => (fd = -1 /\ books c owed raw [(c, os)] s) \/
       exists k, (fd = Z.of_nat k /\ os !! k = Some None) /\ books c (lend owed f (-1)) raw [(c, <[k := Some f]> os)] s).
Proof.
  unfold fdalloc. eapply triple_bind; [apply triple_cur|]. intros c'. apply triple_pure. intros ->.
  eapply triple_bind.
  { apply (triple_mfind (polite c) false _ _ (books c owed raw [(c, os)]) (fun fd s =>
      exists k, (fd = Z.of_nat k /\ os !! k = Some None) /\ books c (lend owed f (-1)) raw [(c, <[k := Some f]> os)] s)).
    intros k _. eapply triple_bind; [apply triple_get_proc|]. intros p. cbv beta.
    apply (triple_learn _ _ (ofile p = os /\ ~ idle (state p))); [intros s [Hp Hbk]; by eapply known_table|]. intros [Ho Hid].
    eapply triple_bind; [apply triple_deref|]. intros o. apply triple_pure. intros Hk. destruct o as [g|].
    - apply triple_ret. by intros s [_ ?].
    - eapply triple_bind.
      { apply (triple_modify _ _ _ _ (fun _ => books c (lend owed f (-1)) raw [(c, <[k := Some f]> os)])). intros s [Hp Hbk].
        rewrite Ho in Hk. eapply books_ext; [|apply (books_fd owed raw [] s c os k None (Some f) Hbk); [set_solver|done]]. ledger. }
      intros ?. apply triple_ret. intros s Hbk. exists k. rewrite Ho in Hk. done. }
  intros o. apply triple_ret. intros s Hs. destruct o as [fd|]; simpl; [by right|by left].
Qed.

(** The file that a descriptor argument names is open in the process. *)
Lemma argfd_books b owed os n :
  triple (polite c) b (books c owed ∅ [(c, os)]) (argfd n)
    (fun o s => match o with
                | Some (fd, f) => os !! Z.to_nat fd = Some (Some f) /\ books c owed ∅ [(c, os)] s
                | None => books c owed ∅ [(c, os)] s
                end).
Proof.
  apply triple_weak. unfold argfd. via (keeps_argint c false). destruct (_ || _); [by apply triple_ret|].
  unfold curp. eapply triple_bind; [eapply triple_bind; [apply triple_cur|intros c'; apply triple_pure; intros ->; apply triple_get_proc]|].
  intros p. cbv beta. apply (triple_learn _ _ (ofile p = os /\ ~ idle (state p))); [intros s [Hp Hbk]; by eapply known_table|].
  intros [Ho _]. eapply triple_bind; [apply triple_deref|]. intros o. apply triple_pure. intros Hk. apply triple_ret.
  intros s [_ Hbk]. rewrite Ho in Hk. by destruct o.
Qed.

(** ** System calls on descriptors *)

(** A system call leaves nothing owed. *)
Definition settles (m : K Z) : Prop :=
  forall owed os, triple (polite c) true (books c owed ∅ [(c, os)]) m (fun _ s => exists os', books c owed ∅ [(c, os')] s).

Lemma may_call os : may c true ∅ [(c, os)].
Proof. intros _. eauto. Qed.

Lemma keeps_settles m : Keeps c true m -> settles m.
Proof. intros Hm owed os. eapply triple_mono; [apply (Hm owed ∅ [(c, os)]), may_call|done|]. intros a s Hs. by exists os. Qed.

Lemma sys_dup_settles : settles sys_dup.
Proof.
  intros owed os. unfold sys_dup. eapply triple_bind; [apply argfd_books|]. intros [[fd f]|]; [|apply triple_ret; eauto].
  apply triple_pure. intros _. apply triple_may. eapply triple_bind; [apply fdalloc_books|]. intros r. cbv beta.
  destruct (Z.ltb_spec r 0) as [E|E].
  - apply triple_ret. intros s [[_ ?]|(k & [-> _] & _)]; [eauto|lia].
  - eapply (triple_from (polite c) false (fun s => exists k, books c (lend owed f (-1)) ∅ [(c, <[k := Some f]> os)] s)).
    + apply triple_ex. intros k. eapply triple_bind; [apply filedup_books; set_solver|]. intros f'. apply triple_ret.
      intros s [_ Hbk]. eexists. eapply books_ext; [|exact Hbk]. ledger.
    + intros s [[-> _]|(k & _ & ?)]; [lia|eauto].
Qed.

Lemma clear_fd b owed os k f : os !! k = Some (Some f) ->
  triple (polite c) b (books c owed ∅ [(c, os)]) (modify (upd_proc c (fun y => set_ofile (<[k := None]> y.(ofile)) y)))
    (fun _ => books c (lend owed f 1) ∅ [(c, <[k := None]> os)]).
Proof.
  intros Hk. apply triple_modify. intros s Hbk.
  eapply books_ext; [|apply (books_fd owed ∅ [] s c os k (Some f) None Hbk); [set_solver|done]]. ledger.
Qed.

Lemma sys_close_settles : settles sys_close.
Proof.
  intros owed os. unfold sys_close. eapply triple_bind; [apply argfd_books|]. intros [[fd f]|]; [|apply triple_ret; eauto].
  apply triple_pure. intros Hk. eapply triple_bind; [apply triple_cur|]. intros c'. apply triple_pure. intros ->.
  eapply triple_bind; [by apply (clear_fd true)|].
  intros ?. eapply triple_bind; [apply fileclose_books|]. intros ?. apply triple_ret. intros s Hbk. eexists.
  eapply books_ext; [|exact Hbk]. ledger.
Qed.

(** A file just taken gets its kind. *)
Lemma set_type_books b owed raw W f t : f ∈ raw -> t <> FD_NONE ->
  triple (polite c) b (books c owed raw W) (modify (upd_file f (set_f_type t))) (fun _ => books c owed (raw ∖ {[f]}) W).
Proof.
  intros Hin Ht. apply triple_modify. intros s Hbk. destruct (bk_raw _ _ _ _ _ Hbk f Hin) as (x & Hx & Hx1 & _).
  eapply books_ext; [|apply (books_file owed raw _ W s f x _ 0 Hbk); [simpl; lia|done|set_solver| |set_solver]].
  - ledger.
  - intros _. simpl. split; [done|lia].
Qed.

Lemma sys_open_settles : settles sys_open.
Proof.
  intros owed os. pose proof (may_call os) as Hmay. unfold sys_open. via (keeps_argstr c true).
  destruct a as [path|]; [|apply triple_ret; eauto]. via (keeps_argint c true). via (keeps_open_inode c).
  destruct a0 as [ip|]; [|apply triple_ret; eauto].
  eapply triple_bind; [apply triple_may, filealloc_books|]. intros [f|]; cbv beta.
  2:{ via (keeps_iunlockput c). apply triple_ret. eauto. }
  apply triple_pure. intros _. eapply triple_bind; [apply triple_may, fdalloc_books|]. intros fd. cbv beta.
  assert (Hone : ({[f]} ∪ ∅ : gset nat) ∖ {[f]} = ∅) by set_solver.
  destruct (Z.ltb_spec fd 0) as [E|E].
  - eapply (triple_from (polite c) true (books c (lend owed f 1) ({[f]} ∪ ∅) [(c, os)])).
    + eapply triple_bind; [apply (fileclose_raw true); set_solver|]. intros ?. rewrite Hone. via (keeps_iunlockput c).
      apply triple_ret. intros s Hbk. eexists. eapply books_ext; [|exact Hbk]. ledger.
    + intros s [[_ ?]|(k & [-> _] & _)]; [done|lia].
  - eapply (triple_from (polite c) true (fun s => exists k, books c owed ({[f]} ∪ ∅) [(c, <[k := Some f]> os)] s)).
    + apply triple_ex. intros k. pose proof (may_call (<[k := Some f]> os)) as Hmay'.
      eapply triple_bind; [apply triple_may; by apply (keeps_iunlock c false)|]. intros ?.
      eapply triple_bind; [apply (set_type_books true); [set_solver|done]|]. intros ?. rewrite Hone.
      eapply triple_mono; [by apply (keeps_open_file c _ _ _ _ owed ∅ [(c, <[k := Some f]> os)])|intros s Hs; exact Hs|]. intros ? s Hs. eexists. exact Hs.
    + intros s [[-> _]|(k & _ & Hbk)]; [lia|]. exists k. eapply books_ext; [|exact Hbk]. ledger.
Qed.

Lemma pipealloc_books owed W :
  triple (polite c) false (books c owed ∅ W) pipealloc
    (fun o s => match o with
                | Some (f0, f1) => books c (lend (lend owed f0 1) f1 1) ∅ W s
                | None => books c owed ∅ W s
                end).
Proof.
  unfold pipealloc. eapply triple_bind; [apply filealloc_books|]. intros [f0|]; cbv beta.
  2:{ do 2 apply triple_bind_ret. by apply triple_ret. }
  apply triple_pure. intros _. assert (H0 : ({[f0]} ∪ ∅ : gset nat) ∖ {[f0]} = ∅) by set_solver.
  eapply triple_bind; [apply filealloc_books|]. intros [f1|]; cbv beta.
  2:{ apply triple_bind_ret. eapply triple_bind; [apply (fileclose_raw false); set_solver|]. intros ?. rewrite H0. apply triple_ret.
      intros s Hbk. eapply books_ext; [|exact Hbk]. ledger. }
  apply triple_pure. intros Hne.
  assert (H1 : ({[f1]} ∪ ({[f0]} ∪ ∅) : gset nat) ∖ {[f0]} ∖ {[f1]} = ∅) by set_solver.
  via (keeps_kalloc c false). destruct (a =? 0).
  - eapply triple_bind; [apply (fileclose_raw false); set_solver|]. intros ?.
    eapply triple_bind; [apply (fileclose_raw false); set_solver|]. intros ?. rewrite H1. apply triple_ret.
    intros s Hbk. eapply books_ext; [|exact Hbk]. ledger.
  - eapply triple_bind; [by apply (keeps_modify c false)|]. intros ?. via (keeps_initlock c false).
    eapply triple_bind; [apply (set_type_books false); [set_solver|done]|]. intros ?.
    do 3 (eapply triple_bind; [by apply (keeps_upd_file c false)|intros ?; cbv beta]).
    eapply triple_bind; [apply (set_type_books false); [set_solver|done]|]. intros ?. rewrite H1.
    do 3 (eapply triple_bind; [by apply (keeps_upd_file c false)|intros ?; cbv beta]). by apply triple_ret.
Qed.

(** Two files whose references are in hand are given up. *)
Lemma close_both owed os f g : 
  triple (polite c) true (books c (lend (lend owed f 1) g 1) ∅ [(c, os)]) (fileclose f ;;; fileclose g ;;; ret (-1))
    (fun _ s => exists os', books c owed ∅ [(c, os')] s).
Proof.
  eapply triple_bind; [apply fileclose_books|]. intros ?. eapply triple_bind; [apply fileclose_books|]. intros ?. apply triple_ret.
  intros s Hbk. exists os. eapply books_ext; [|exact Hbk]. ledger.
Qed.

Lemma sys_pipe_settles : settles sys_pipe.
Proof.
  intros owed os. unfold sys_pipe. pose proof (may_call os) as Hmay. via (keeps_argptr c true).
  destruct a as [fd|]; [|apply triple_ret; eauto].
  eapply triple_bind; [apply triple_may, pipealloc_books|]. intros [[rf wf]|]; [|apply triple_ret; eauto].
  eapply triple_bind; [apply triple_may, fdalloc_books|]. intros fd0. cbv beta. destruct (Z.ltb_spec fd0 0) as [E0|E0].
  - apply triple_bind_ret. simpl. rewrite (proj2 (Z.leb_gt 0 fd0)) by lia. apply triple_bind_ret.
    eapply triple_from; [apply close_both|]. intros s [[_ ?]|(k & [-> _] & _)]; [done|lia].
  - eapply (triple_from (polite c) true (fun s => exists k, (fd0 = Z.of_nat k /\ os !! k = Some None) /\
      books c (lend owed wf 1) ∅ [(c, <[k := Some rf]> os)] s)).
    2:{ intros s [[-> _]|(k & Hk & Hbk)]; [lia|]. exists k. split; [done|]. eapply books_ext; [|exact Hbk]. ledger. }
    apply triple_ex. intros k. apply triple_pure. intros [-> Hk].
    eapply triple_bind; [apply triple_may, fdalloc_books|]. intros fd1. cbv beta. destruct (Z.ltb_spec fd1 0) as [E1|E1].
    + eapply (triple_from (polite c) true (books c (lend owed wf 1) ∅ [(c, <[k := Some rf]> os)])).
      2:{ intros s [[_ ?]|(k' & [-> _] & _)]; [done|lia]. }
      rewrite (proj2 (Z.leb_le _ _)) by lia. simpl. rewrite Nat2Z.id.
      eapply triple_bind; [eapply triple_bind; [apply triple_cur|]|intros ?].
      * intros c'. apply triple_pure. intros ->. apply (clear_fd true _ _ k rf).
        rewrite list_lookup_insert_eq; [done|]. by eapply lookup_lt_Some.
      * eapply triple_from; [apply close_both|]. intros s Hbk. eapply books_ext; [|exact Hbk]. ledger.
    + eapply (triple_from (polite c) true (fun s => exists os', books c owed ∅ [(c, os')] s)).
      * apply triple_ex. intros os'. pose proof (may_call os') as Hmay'.
        do 2 (eapply triple_bind; [apply triple_may; by apply (keeps_ustore_bytes c false)|intros ?; cbv beta]). apply triple_ret. eauto.
      * intros s [[-> _]|(k' & _ & Hbk)]; [lia|]. eexists. eapply books_ext; [|exact Hbk]. ledger.
Qed.

(** ** Processes *)

(** A slot that is taken from the table, or given back to it. *)
Lemma slot_unused owed raw W s np os :
  books c owed raw ((np, os) :: W) s -> np <> c -> blank os -> books c owed raw W (upd_proc np (set_state UNUSED) s).
Proof.
  intros Hbk Hne Hbl.
  assert (Hbk' : books c owed raw ((np, os) :: W) (upd_proc np (set_state UNUSED) s)).
  { apply books_upd_proc; [done|done|]. intros p _ _. right. split; [done|]. by left. }
  eapply books_untrack; [exact Hbk'|]. intros p Hp _. destruct (bk_known _ _ _ _ _ Hbk' np os) as (q & Hq & <-); [left|]. by simplify_eq.
Qed.

Lemma allocproc_books owed os0 :
  triple (polite c) false (books c owed ∅ [(c, os0)]) allocproc
    (fun o s => match o with
                | Some np => exists os, (np <> c /\ blank os /\ length os = NOFILE) /\ books c owed ∅ [(np, os); (c, os0)] s
                | None => books c owed ∅ [(c, os0)] s
                end).
Proof.
  unfold allocproc. via (keeps_acquire c false).
  eapply triple_bind.
  { apply (triple_mfind (polite c) false _ _ (books c owed ∅ [(c, os0)]) (fun np s =>
      exists os, (np <> c /\ blank os /\ length os = NOFILE) /\ books c owed ∅ [(np, os); (c, os0)] s)).
    intros i _. eapply triple_bind; [apply triple_get_proc|]. intros p. apply triple_ret. intros s [Hp Hbk].
    case_decide as E; [|done]. exists (ofile p). split; [|by apply books_track].
    assert (Hne : i <> c) by (intros ->; destruct (known_table _ _ _ _ _ Hbk Hp) as [_ []]; by left).
    destruct (bk_tab _ _ _ _ _ Hbk i p Hp) as [Hlen Hb]. split_and!; [done| |done]. apply Hb; [by left|set_solver]. }
  intros [np|]; cbv beta; [|via (keeps_release c false); by apply triple_ret].
  apply triple_ex. intros os. apply triple_pure. intros (Hne & Hbl & Hlen).
  eapply triple_bind; [apply (keeps_upd_proc c false np); [done|by intros ? [?|?]|done]|]. intros ?.
  via (keeps_gets c false (A := Z)). eapply triple_bind; [by apply (keeps_modify c false)|]. intros ?.
  eapply triple_bind; [by apply (keeps_upd_proc c false np)|]. intros ?. via (keeps_release c false). via (keeps_kalloc c false).
  eapply triple_bind; [by apply (keeps_upd_proc c false np)|]. intros ?. cbv beta. destruct (_ =? 0).
  - eapply triple_bind; [apply (triple_modify _ _ _ _ (fun _ => books c owed ∅ [(c, os0)])); intros s Hbk; by eapply slot_unused|].
    intros ?. by apply triple_ret.
  - eapply triple_bind; [by apply (keeps_upd_proc c false np)|]. intros ?. do 2 via (keeps_store_word c false).
    eapply triple_bind; [by apply (keeps_upd_proc c false np)|]. intros ?. eapply triple_bind; [by apply (keeps_modify c false)|]. intros ?.
    via (keeps_store_word c false). apply triple_ret. intros s Hbk. by exists os.
Qed.

(** The loop of fork over the descriptors. *)
Lemma copy_fds owed np os0 l : NoDup l -> np <> c -> forall os, (forall k, k ∈ l -> os !! k = Some None) ->
  triple (polite c) false (books c owed ∅ [(np, os); (c, os0)])
    (mfor l (fun i =>
       p <- get_proc c ;;
       o <- deref "proc->ofile" (p.(ofile) !! i) ;;
       match o with
       | None => ret tt
       | Some f =>
           f <- filedup f ;;
           modify (upd_proc np (fun y => set_ofile (<[i := Some f]> y.(ofile)) y))
       end))
    (fun _ s => exists os', books c owed ∅ [(np, os'); (c, os0)] s).
Proof.
  intros Hnd Hne. induction Hnd as [|i l Hi Hnd IH]; intros os Hos; simpl; [apply triple_ret; eauto|].
  eapply (triple_bind _ _ _ _ _ (fun _ s => exists os', (forall k, k ∈ l -> os' !! k = Some None) /\ books c owed ∅ [(np, os'); (c, os0)] s)).
  - via (keeps_get_proc c false). via (@keeps_deref c false). destruct a0 as [f|].
    + eapply triple_bind; [apply filedup_books; set_solver|]. intros f'. apply triple_pure. intros ->. apply triple_modify. intros s Hbk.
      exists (<[i := Some f]> os). split.
      * intros k Hk. rewrite list_lookup_insert_ne by (intros ->; done). apply Hos. by right.
      * eapply books_ext; [|apply (books_fd _ _ _ s np os i None (Some f) Hbk); [set_solver|apply Hos; by left]]. ledger.
    + apply triple_ret. intros s Hbk. exists os. split; [|done]. intros k Hk. apply Hos. by right.
  - intros ?. apply triple_ex. intros os'. apply triple_pure. intros Hos'. by apply IH.
Qed.

Lemma fork_settles : settles fork.
Proof.
  intros owed os0. unfold fork. apply triple_may. eapply triple_bind; [apply triple_cur|]. intros c'. apply triple_pure. intros ->.
  eapply triple_bind; [apply allocproc_books|]. intros [np|]; cbv beta; [|apply triple_ret; eauto].
  apply triple_ex. intros os. apply triple_pure. intros (Hne & Hbl & Hlen).
  do 2 via (keeps_get_proc c false). cbv zeta. via (keeps_copyuvm c false).
  eapply triple_bind; [by apply (keeps_upd_proc c false np)|]. intros ?. cbv beta. destruct (_ =? 0).
  - via (keeps_get_proc c false). via (keeps_kfree c false). eapply triple_bind; [by apply (keeps_upd_proc c false np)|]. intros ?.
    eapply triple_bind; [apply (triple_modify _ _ _ _ (fun _ => books c owed ∅ [(c, os0)])); intros s Hbk; by eapply slot_unused|].
    intros ?. apply triple_ret. eauto.
  - do 2 via (keeps_get_proc c false). do 2 (eapply triple_bind; [by apply (keeps_upd_proc c false np)|intros ?; cbv beta]).
    eapply triple_bind; [by apply (keeps_modify c false)|]. intros ?. via (keeps_store_word c false).
    eapply triple_bind; [apply (copy_fds owed np os0 (seq 0 NOFILE)); [apply NoDup_seq|done|]|].
    { intros k [_ Hk]%elem_of_seq. destruct (lookup_lt_is_Some_2 os k) as [o Ho]; [lia|]. rewrite Ho. f_equal.
      apply Hbl. by eapply list_elem_of_lookup_2. }
    intros ?. apply triple_ex. intros os'. via (keeps_get_proc c false). via (@keeps_deref c false). via (keeps_idup c false).
    do 2 (eapply triple_bind; [by apply (keeps_upd_proc c false np)|intros ?; cbv beta]). via (keeps_acquire c false).
    eapply triple_bind.
    { apply (triple_modify _ _ _ _ (fun _ => books c owed ∅ [(c, os0)])). intros s Hbk.
      apply (books_untrack _ _ _ _ np os'); [apply books_upd_proc; [done|done|by intros ? _ [?|?]]|].
      intros p Hp. simpl in Hp. rewrite list_lookup_alter_eq in Hp. destruct (procs s !! np); [|done]. injection Hp as <-. by intros [?|?]. }
    intros ?. via (keeps_release c false). apply triple_ret. eauto.
Qed.

(** A child that has ended gives its slot back. *)
Lemma reap_keeps owed raw W i os : i <> c -> blank os ->
  triple (polite c) false (books c owed raw ((i, os) :: W)) (reap i) (fun _ => books c owed raw W).
Proof.
  intros Hne Hbl. unfold reap. via (keeps_get_proc c false). via (keeps_kfree c false).
  eapply triple_bind; [by apply (keeps_upd_proc c false i)|]. intros ?. via (keeps_freevm c false).
  eapply triple_bind; [apply (triple_modify _ _ _ _ (fun _ => books c owed raw W)); intros s Hbk; by eapply slot_unused|]. intros ?.
  do 4 (eapply triple_bind; [by apply (keeps_upd_proc c false i)|intros ?; cbv beta]). via (keeps_release c false). by apply triple_ret.
Qed.

Lemma wait_settles : settles wait.
Proof.
  apply keeps_settles. unfold wait. apply keeps_bind; [apply keeps_cur|]. intros c'. apply keeps_bind; [apply keeps_acquire|]. intros ?.
  apply keeps_mloop_env, keeps_bind.
  2:{ intros [pid|]; [apply keeps_ret|]. apply keeps_bind; [apply keeps_gets|]. intros ?. apply keeps_bind; [apply keeps_get_proc|].
      intros ?. destruct (_ || _).
      - apply keeps_bind; [apply keeps_release|]. intros ?. apply keeps_ret.
      - apply keeps_bind; [apply keeps_sleep|]. intros ?. apply keeps_ret. }
  intros owed raw W Hm. destruct (Hm eq_refl) as (-> & os & ->).
  eapply triple_mono; [apply (triple_mfind (polite c) true _ _ (books c owed ∅ [(c, os)]) (fun _ => books c owed ∅ [(c, os)]))|done|by intros [?|] s].
  intros i _. apply triple_may. eapply triple_bind; [apply triple_get_proc|]. intros x. cbv beta.
  destruct (is_child c' x && bool_decide (state x = ZOMBIE)) eqn:E; [|apply triple_ret; by intros s []].
  apply andb_prop in E as [_ E%bool_decide_eq_true].
  apply (triple_learn _ _ (i <> c /\ blank (ofile x))).
  { intros s [Hx Hbk]. assert (Hne : i <> c) by (intros ->; destruct (known_table _ _ _ _ _ Hbk Hx) as [_ []]; by right).
    split; [done|]. apply (bk_tab _ _ _ _ _ Hbk i x Hx); [by right|set_solver]. }
  intros [Hne Hbl]. eapply triple_from; [|intros s [Hx Hbk]; exact (books_track _ _ _ _ _ _ Hbk Hx)].
  eapply triple_bind; [by apply reap_keeps|]. intros ?. by apply triple_ret.
Qed.

(** ** exit *)

Lemma exit_settles : settles sys_exit.
Proof.
  intros owed os s env a s' env' _ _ Hrun. by apply Locking.exit_never in Hrun.
Qed.

(** What exit does before it switches away for the last time. *)
Definition close_all : K unit :=
  mfor (seq 0 NOFILE) (fun fd =>
    p <- get_proc c ;;
    o <- deref "proc->ofile" (p.(ofile) !! fd) ;;
    match o with
    | None => ret tt
    | Some f =>
        fileclose f ;;;
        modify (upd_proc c (fun y => set_ofile (<[fd := None]> y.(ofile)) y))
    end).

Definition leave : K unit :=
  p <- get_proc c ;;
  d <- deref "proc->cwd" p.(cwd) ;;
  iput d ;;;
  modify (upd_proc c (set_cwd None)) ;;;
  acquire ptable_lock ;;;
  p <- get_proc c ;;
  wakeup1_proc p.(parent) ;;;
  mfor (seq 0 NPROC) (fun i =>
    x <- get_proc i ;;
    when (bool_decide (x.(parent) = Some c))
      (ini <- gets initproc ;;
       modify (upd_proc i (set_parent ini)) ;;;
       when (bool_decide (x.(state) = ZOMBIE)) (wakeup1_proc ini))).

Lemma exit_split s env : s.(curproc) = Some c ->
  exit s env = (ini <- gets initproc ;;
    if bool_decide (ini = Some c) then panic "init exiting" else
    close_all ;;; leave ;;; modify (upd_proc c (set_state ZOMBIE)) ;;; sched ;;; panic "zombie exit") s env.
Proof.
  intros Hc. assert (Hcur : cur s env = Ok c s env) by (unfold cur, bind, gets; by rewrite Hc).
  unfold exit. mstep Hcur. apply bind_ext. intros ini s0 env0. destruct (bool_decide _); [done|]. apply bind_ext. intros _ s1 env1. unfold leave. rewrite bind_assoc. apply bind_ext. intros p s2 env2.
  rewrite bind_assoc. apply bind_ext. intros d s3 env3. rewrite bind_assoc. apply bind_ext. intros _ s4 env4.
  rewrite bind_assoc. apply bind_ext. intros _ s5 env5. rewrite bind_assoc. apply bind_ext. intros _ s6 env6.
  rewrite bind_assoc. apply bind_ext. intros p' s7 env7. by rewrite bind_assoc.
Qed.

Lemma close_all_books owed os :
  triple (polite c) true (books c owed ∅ [(c, os)]) close_all (fun _ s => exists os', blank os' /\ books c owed ∅ [(c, os')] s).
Proof.
  apply (triple_learn _ _ (length os = NOFILE)).
  { intros s Hbk. destruct (bk_known _ _ _ _ _ Hbk c os) as (p & Hp & <-); [left|]. apply (bk_tab _ _ _ _ _ Hbk c p Hp). }
  intros Hlen. unfold close_all.
  assert (Hl : forall k o, os !! k = Some o -> k ∈ seq 0 NOFILE \/ o = None).
  { intros k o Hk%lookup_lt_Some. left. apply elem_of_seq. lia. }
  clear Hlen. revert os Hl. generalize (seq 0 NOFILE). intros l. induction l as [|k l IH]; intros os Hl; simpl.
  - apply triple_ret. intros s Hbk. exists os. split; [|done]. intros o [i Hi]%list_elem_of_lookup_1. destruct (Hl i o Hi); [set_solver|done].
  - eapply (triple_bind _ _ _ _ _ (fun _ s => exists os', (forall i o, os' !! i = Some o -> i ∈ l \/ o = None) /\ books c owed ∅ [(c, os')] s)).
    2:{ intros ?. apply triple_ex. intros os'. apply triple_pure. apply IH. }
    pose proof (may_call os) as Hmay. eapply triple_bind; [apply triple_get_proc|]. intros p. cbv beta.
    apply (triple_learn _ _ (ofile p = os)); [intros s [Hp Hbk]; by eapply known_table|]. intros Ho. rewrite Ho.
    eapply triple_bind; [apply triple_deref|]. intros o. apply triple_pure. intros Hk. destruct o as [f|].
    + eapply triple_from; [|intros s [_ Hbk]; exact Hbk]. eapply triple_bind; [apply fileclose_books|]. intros ?.
      eapply triple_mono; [by apply (clear_fd true)|intros s Hs; exact Hs|]. cbv beta. intros ? s Hbk. exists (<[k := None]> os). split.
      * intros i o Hi. destruct (decide (i = k)) as [->|Hne].
        -- rewrite list_lookup_insert_eq in Hi by (by eapply lookup_lt_Some). right. congruence.
        -- rewrite list_lookup_insert_ne in Hi by done. destruct (Hl i o Hi) as [[?|?]%elem_of_cons|?]; [done|by left|by right].
      * eapply books_ext; [|exact Hbk]. ledger.
    + apply triple_ret. intros s [_ Hbk]. exists os. split; [|done]. intros i o Hi.
      destruct (Hl i o Hi) as [[->|?]%elem_of_cons|?]; [right; congruence|auto..].
Qed.

(** What a process leaves behind when it ends. *)
Lemma leave_books owed os : blank os ->
  triple (polite c) true (books c owed ∅ [(c, os)]) (leave ;;; modify (upd_proc c (set_state ZOMBIE)))
    (fun _ s => (forall f, refs f s = total f s + owed f) /\
       exists p, s.(procs) !! c = Some p /\ p.(state) = ZOMBIE /\ blank p.(ofile)).
Proof.
  intros Hbl. eapply triple_bind; [apply (keeps_exit_parents c), may_call|]. intros ?. apply triple_modify. intros s Hbk. split.
  - intros f. change (refs f s = total f (upd_proc c (set_state ZOMBIE) s) + owed f). rewrite (bk_refs _ _ _ _ _ Hbk f).
    unfold total. simpl. by rewrite wsum_alter.
  - destruct (bk_known _ _ _ _ _ Hbk c os) as (p & Hp & <-); [left|]. exists (set_state ZOMBIE p). split_and!; [|done|done].
    simpl. by rewrite list_lookup_alter_eq, Hp.
Qed.

(** ** Every system call *)

Lemma syscalls_settle : Forall (fun o => match o with Some m => settles m | None => True end) syscalls.
Proof.
  unfold syscalls. repeat (apply Forall_cons; split); try done;
    first [exact fork_settles|exact exit_settles|exact wait_settles|exact sys_pipe_settles|exact sys_dup_settles|
      exact sys_open_settles|exact sys_close_settles|apply keeps_settles].
  - apply keeps_sys_read.
  - apply keeps_sys_kill.
  - apply keeps_sys_exec.
  - apply keeps_sys_fstat.
  - apply keeps_sys_chdir.
  - apply keeps_sys_getpid.
  - apply keeps_sys_sbrk.
  - apply keeps_sys_sleep.
  - apply keeps_sys_uptime.
  - apply keeps_sys_write.
  - apply keeps_sys_mknod.
  - apply keeps_sys_unlink.
  - apply keeps_sys_link.
  - apply keeps_sys_mkdir.
Qed.

Lemma syscall_books owed os :
  triple (polite c) true (books c owed ∅ [(c, os)]) syscall (fun _ s => exists os', books c owed ∅ [(c, os')] s).
Proof.
  unfold syscall. pose proof (may_call os) as Hmay. via (keeps_curp c true). via (keeps_load_word c true). cbv zeta.
  eapply (triple_bind _ _ _ _ _ (fun h s => match h with Some m => settles m | None => True end /\ books c owed ∅ [(c, os)] s)).
  { destruct (_ && _); [|by apply triple_ret]. eapply triple_mono; [apply triple_deref|intros s Hs; exact Hs|].
    simpl. intros h s [Hh Hbk]. split; [|done]. pose proof syscalls_settle as Hall. rewrite Forall_lookup in Hall. exact (Hall _ _ Hh). }
  intros [m|]; apply triple_pure; intros Hm.
  - eapply triple_bind; [apply Hm|]. intros r. apply triple_ex. intros os'. pose proof (may_call os') as Hmay'.
    destruct (negb _); [|apply triple_ret; eauto].
    eapply triple_bind; [by apply (keeps_curp c true owed ∅ [(c, os')])|]. intros ?.
    eapply triple_mono; [by apply (keeps_store_word c true _ _ owed ∅ [(c, os')])|intros s Hs; exact Hs|]. intros ? s Hs. eexists. exact Hs.
  - via (keeps_cprintf c true). eapply triple_mono; [by apply (keeps_store_word c true _ _ owed ∅ [(c, os)])|intros s Hs; exact Hs|].
    intros ? s Hs. eexists. exact Hs.
Qed.

(** The invariant between calls, in terms of the books. *)
Lemma fd_inv_books s : s.(curproc) = Some c ->
  fd_inv s <-> exists os, books c (fun _ => 0) ∅ [(c, os)] s.
Proof.
  intros Hc. split.
  - intros ((c' & p & Hc' & Hp & Hid) & Htab & Hrefs & Htype). assert (c' = c) as -> by congruence. exists (ofile p).
    split; try done; [by exists p| | | |].
    + intros i q Hq. destruct (Htab i q Hq). auto.
    + intros i os [= -> ->]%list_elem_of_singleton. by exists p.
    + intros f. rewrite Hrefs. lia.
    + intros f x Hx _. exact (Htype f x Hx).
  - intros (os & Hbk). pose proof Hbk as [_ (p & Hp & Hid) H3 _ H5 H6 _]. unfold fd_inv. split_and!; [by exists c, p| | |].
    + intros i q Hq. destruct (H3 i q Hq) as [Hl Hb]. split; [done|]. intros Hi. apply Hb; [done|]. intros Hin.
      assert (i = c) as -> by set_solver. by simplify_eq.
    + intros f. rewrite H5. lia.
    + intros f x Hx. apply (H6 f x Hx). set_solver.
Qed.

(** What the invariant says about one descriptor: its file is in use. *)
Lemma fd_inv_open s i p k f : fd_inv s -> s.(procs) !! i = Some p -> p.(ofile) !! k = Some (Some f) ->
  exists x, s.(ftable) !! f = Some x /\ 0 < x.(f_ref) /\ x.(f_type) <> FD_NONE.
Proof.
  intros (_ & _ & Hrefs & Htype) Hp Hk. specialize (Hrefs f).
  assert (1 <= total f s).
  { unfold total. etrans; [|apply (wsum_pos _ _ i p (fun x => fds_nonneg f (ofile x)) Hp)].
    unfold fds. etrans; [|apply (wsum_pos _ _ k (Some f) (hits_nonneg f) Hk)]. unfold hits. by rewrite decide_True. }
  unfold refs in Hrefs. destruct (ftable s !! f) as [x|] eqn:E; simpl in Hrefs; [|lia].
  exists x. rewrite (Htype f x E). split_and!; [done|lia|lia].
Qed.

End Facts.

(** ** Theorems *)

(** C3: descriptors and open files. If the reference count of every open
    file is the number of descriptors for it, entries of the file table have
    a kind exactly while they are in use, and processes that have ended or
    not begun have no descriptors, then this still holds when a system call
    returns, whichever call it was and whichever of its paths it took, against
    all other processes that keep to it while this one waits. In particular
    every descriptor is then for a file that is in use and has a kind. *)
Theorem syscall_descriptors `{Image} c s env s' env' :
  fd_inv s -> s.(curproc) = Some c -> Forall (polite c) env -> syscall s env = Ok tt s' env' ->
  fd_inv s' /\ s'.(curproc) = Some c /\
  forall i p k f, s'.(procs) !! i = Some p -> p.(ofile) !! k = Some (Some f) ->
    exists x, s'.(ftable) !! f = Some x /\ 0 < x.(f_ref) /\ x.(f_type) <> FD_NONE.
Proof.
  intros Hinv Hc Henv Hrun. apply (fd_inv_books c) in Hinv as (os & Hbk); [|done].
  destruct (syscall_books c _ os s env tt s' env' Hbk (fun _ => Henv) Hrun) as [(os' & Hbk') _].
  assert (Hinv' : fd_inv s') by (apply (fd_inv_books c); [apply (bk_cur _ _ _ _ _ Hbk')|eauto]).
  split_and!; [done|apply (bk_cur _ _ _ _ _ Hbk')|]. intros i p k f. by apply fd_inv_open.
Qed.

(** The end of a process. Before [exit] gives up the processor for the last
    time it has closed every descriptor: the counts of all files are again the
    numbers of descriptors for them, and the process is a zombie without any. *)
Theorem exit_descriptors `{Image} c s env s' env' :
  fd_inv s -> s.(curproc) = Some c -> s.(initproc) <> Some c -> Forall (polite c) env ->
  (close_all c ;;; leave c ;;; modify (upd_proc c (set_state ZOMBIE))) s env = Ok tt s' env' ->
  exit s env = (sched ;;; panic "zombie exit") s' env' /\
  (forall f, refs f s' = total f s') /\ exists p, s'.(procs) !! c = Some p /\ p.(state) = ZOMBIE /\ blank p.(ofile).
Proof.
  intros Hinv Hc Hini Henv Hrun. apply (fd_inv_books c) in Hinv as (os & Hbk); [|done].
  assert (Htr : triple (polite c) true (books c (fun _ => 0) ∅ [(c, os)]) (close_all c ;;; leave c ;;; modify (upd_proc c (set_state ZOMBIE)))
    (fun _ s => (forall f, refs f s = total f s + 0) /\ exists p, s.(procs) !! c = Some p /\ p.(state) = ZOMBIE /\ blank p.(ofile))).
  { eapply triple_bind; [apply close_all_books|]. intros ?. apply triple_ex. intros os'. apply triple_pure. intros Hbl. by apply leave_books. }
  destruct (Htr s env tt s' env' Hbk (fun _ => Henv) Hrun) as [[Hr Hz] _]. split_and!; [|intros f; rewrite Hr; lia|done].
  rewrite (exit_split c s env Hc), bind_gets, bool_decide_eq_false_2 by done.
  unfold bind in Hrun |- *. destruct (close_all c s env) as [? s1 env1|]; [|done]. destruct (leave c s1 env1) as [? s2 env2|]; [|done].
  injection Hrun as <- <-. done.
Qed.

(** A process with one open file that calls dup(0). *)
Definition caller : proc :=
  set_state RUNNING (set_tf 4096 (set_ofile (<[0%nat := Some 0%nat]> (replicate NOFILE None)) zero_proc)).
Definition dup_call : kstate :=
  set_curproc (Some 0%nat) (set_procs (<[0%nat := caller]> (replicate NPROC zero_proc))
    (set_ftable (<[0%nat := Mkfile FD_INODE 1 true false 0 0 0]> (replicate NFILE zero_file))
      (set_mem (fun a => if a =? 4096 + tf_r 0 then SYS_dup else 0) (kstate0 [])))).

Lemma wsum_cons {A} (w : A -> Z) x l : wsum w (x :: l) = w x + wsum w l.
Proof. done. Qed.

Lemma wsum_replicate {A} (w : A -> Z) n x : w x = 0 -> wsum w (replicate n x) = 0.
Proof. intros Hw. apply wsum_zero. by intros y [-> _]%elem_of_replicate. Qed.

Lemma dup_call_inv : fd_inv dup_call.
Proof.
  assert (Hp : forall i p, procs dup_call !! i = Some p -> (i = 0%nat /\ p = caller) \/ p = zero_proc).
  { intros [|i] p Hp; [left; by injection Hp as <-|right]. change (replicate 63 zero_proc !! i = Some p) in Hp.
    by apply lookup_replicate in Hp as [-> _]. }
  assert (Hf : forall f x, ftable dup_call !! f = Some x -> (f = 0%nat /\ x = Mkfile FD_INODE 1 true false 0 0 0) \/ (f <> 0%nat /\ x = zero_file)).
  { intros [|f] x Hx; [left; by injection Hx as <-|right]. change (replicate 99 zero_file !! f = Some x) in Hx.
    by apply lookup_replicate in Hx as [-> _]. }
  unfold fd_inv. split_and!.
  - exists 0%nat, caller. split_and!; [done|done|]. by intros [?|?].
  - intros i p [[-> ->]| ->]%Hp; (split; [done|]); [by intros [?|?]|]. intros _ o Ho. by apply elem_of_replicate in Ho as [-> _].
  - intros f. assert (Ht : total f dup_call = hits f (Some 0%nat)).
    { unfold total. change (procs dup_call) with (caller :: replicate 63 zero_proc).
      rewrite wsum_cons, (wsum_replicate _ 63).
      - unfold fds. change (ofile caller) with (Some 0%nat :: replicate 15 None). rewrite wsum_cons, wsum_replicate; [lia|done].
      - unfold fds. by apply wsum_replicate. }
    rewrite Ht. unfold refs. destruct (ftable dup_call !! f) as [x|] eqn:E.
    + destruct (Hf f x E) as [[-> ->]|[Hne ->]]; simpl; [done|]. unfold hits. by rewrite decide_False by congruence.
    + simpl. unfold hits. rewrite decide_False; [done|]. intros [= <-]. done.
  - intros f x Hx. destruct (Hf f x Hx) as [[_ ->]|[_ ->]]; simpl; [split; [done|lia]|by split].
Qed.

(** An image for the demonstration; dup does not look at it. *)
#[local] Instance demo_image : Image := {| kern_end := 0; trapret_addr := 0; forkret_addr := 0; error_init_addr := 0; initcode := [] |}.

Lemma syscall_descriptors_witness :
  exists s', (exists env', syscall dup_call [fun s => s] = Ok tt s' env') /\ fd_inv s' /\ s'.(curproc) = Some 0%nat /\
    forall i p k f, s'.(procs) !! i = Some p -> p.(ofile) !! k = Some (Some f) ->
      exists x, s'.(ftable) !! f = Some x /\ 0 < x.(f_ref) /\ x.(f_type) <> FD_NONE.
Proof.
  assert (Hok : match syscall dup_call [fun s => s] with Ok _ _ _ => true | Err _ _ _ => false end = true) by (vm_compute; reflexivity).
  destruct (syscall dup_call [fun s => s]) as [[] s' env'|] eqn:E; [|discriminate]. exists s'. split; [by exists env'|].
  apply (syscall_descriptors 0 dup_call [fun s => s] s' env'); [exact dup_call_inv|reflexivity| |exact E].
  apply Forall_singleton. intros owed os s Hs. exact Hs.
Defined.

End DescrFacts.
