(* ===== verification/ProgramFacts.v ===== *)
(** What cat, wc and echo do, against the [Stdio] interface. *)
From S2P Require Import Prelude Types Cstring Console User Ulib UlibFacts Programs.
Import Cstring Console User Ulib UlibFacts Programs.

Module ProgramFacts.

Section Facts.
Context {W : Type} `{Stdio W}.

(** [w'] is [w] after everything has been read from [fd]. *)
Definition drained (fd : Z) (w w' : W) : Prop :=
  pending w' fd = [] /\ forall fd', fd' <> fd -> pending w' fd' = pending w fd'.

Lemma buf_block n (b buf : list Z) : (length b <= length buf)%nat -> n = Z.of_nat (length b) ->
  take (Z.to_nat n) (splice 0 b buf) = b /\ length (splice 0 b buf) = length buf.
Proof.
  intros Hb ->. rewrite Nat2Z.id. split; [|by apply length_splice].
  rewrite <- (drop_0 (splice 0 b buf)). by apply sub_splice_same.
Qed.

(** ** cat *)

Lemma cat_run fd fuel buf w env : Forall (fun b => 0 < Z.of_nat (length b) <= CATBUF) (pending w fd) ->
  length buf = Z.to_nat CATBUF -> (length (pending w fd) < fuel)%nat ->
  exists buf' w', cat fuel fd (Mkust buf w) env = Ok tt (Mkust buf' w') env /\ length buf' = Z.to_nat CATBUF /\ drained fd w w' /\
    written w' 1 = written w 1 ++ concat (pending w fd) /\ forall fd', fd' <> 1 -> written w' fd' = written w fd'.
Proof.
  remember (pending w fd) as bs eqn:Ebs. symmetry in Ebs. intros Hbs. revert fuel buf w Ebs.
  induction Hbs as [|b bs Hb _ IH]; intros [|fuel] buf w Ebs Hbuf Hfuel; simpl in Hfuel; try lia; cbn [cat].
  - ucall (read_end w fd CATBUF Ebs). cbn. unfold modg. mrun. cbn. exists buf, w. unfold set_wld, splice. cbn.
    rewrite drop_0, app_nil_r. split_and!; done.
  - destruct (read_next w fd CATBUF b bs Ebs ltac:(lia)) as (w1 & E1 & P1 & P1' & W1). ucall E1. cbn [fst snd]. unfold modg, getg. mrun.
    rewrite (proj2 (Z.ltb_lt _ _)) by lia. unfold set_wld. cbn [glob wld]. mrun. cbn [glob].
    destruct (buf_block (Z.of_nat (length b)) b buf ltac:(lia) eq_refl) as [-> Hl].
    destruct (write_all w1 1 b) as (w2 & E2 & P2 & W2 & W2'). ucall E2. unfold set_wld. cbn [glob].
    destruct (IH fuel (splice 0 b buf) w2) as (buf' & w' & E & Hbuf' & (D1 & D2) & Wr & Wr'); [by rewrite P2|by rewrite Hl|lia|].
    exists buf', w'. split_and!; [done|done|split; [done|]| |].
    + intros fd' Hne. by rewrite D2, P2, P1'.
    + rewrite Wr, W2, W1. simpl. by rewrite app_assoc.
    + intros fd' Hne. by rewrite Wr', W2', W1.
Qed.

(** Cat without arguments copies its input: everything that can be read
    from descriptor 0, in blocks of up to 512 bytes, appears once and in order
    on descriptor 1, and nothing else is written. *)
Theorem cat_copies name fuel buf w env : Forall (fun b => 0 < Z.of_nat (length b) <= CATBUF) (pending w 0) ->
  length buf = Z.to_nat CATBUF -> (length (pending w 0) < fuel)%nat ->
  exists buf' w', cat_main fuel [name] (Mkust buf w) env = Err Exited (Mkust buf' (u_exit w')) env /\
    written w' 1 = written w 1 ++ concat (pending w 0) /\ drained 0 w w' /\ forall fd', fd' <> 1 -> written w' fd' = written w fd'.
Proof.
  intros Hbs Hbuf Hfuel. destruct (cat_run 0 fuel buf w env Hbs Hbuf Hfuel) as (buf' & w' & E & _ & D & Wr & Wr').
  exists buf', w'. split_and!; [|done|exact D|done]. unfold cat_main. simpl. by mstep E.
Qed.

(** ** wc *)

(** The words of a text: its longest parts without white space. *)
Fixpoint words (l : list Z) : list (list Z) :=
  match l with
  | [] => []
  | c :: l' =>
      if is_space c then words l'
      else match l' with
           | d :: _ => if is_space d then [c] :: words l'
                       else match words l' with w :: ws => (c :: w) :: ws | [] => [[c]] end
           | [] => [[c]]
           end
  end.
Definition n_lines (l : list Z) : nat := length (filter (fun c => c = 10) l).

(** Whether the first word continues the one before. *)
Definition joins (inw : bool) (l : list Z) : nat :=
  match l with c :: _ => if inw && negb (is_space c) then 1 else 0 | [] => 0 end.

Lemma n_words_cons c l : length (words (c :: l)) = ((if is_space c then 0 else 1) + length (words l) - joins (negb (is_space c)) l)%nat.
Proof.
  cbn [words]. destruct (is_space c) eqn:Ec; [destruct l; simpl; lia|]. destruct l as [|d l]; [done|]. unfold joins. cbn [negb andb].
  destruct (is_space d) eqn:Ed; cbn [negb].
  - cbn [length]. lia.
  - assert (exists w ws, words (d :: l) = w :: ws) as (w & ws & ->); [|simpl; lia].
    cbn [words]. rewrite Ed. destruct l as [|e l]; [eauto|]. destruct (is_space e); [eauto|]. destruct (words (e :: l)); eauto.
Qed.

Lemma joins_le inw l : (joins inw l <= length (words l))%nat.
Proof.
  destruct l as [|c l]; [done|]. unfold joins. destruct (is_space c) eqn:Ec; [rewrite andb_false_r; lia|]. cbn [words]. rewrite Ec.
  destruct inw; cbn [andb negb]; [|lia]. destruct l as [|e l]; [done|]. destruct (is_space e); [cbn [length]; lia|].
  destruct (words (e :: l)); cbn [length]; lia.
Qed.

Lemma wc_fold l k : 0 <= k.(n_l) <= k.(n_c) -> 0 <= k.(n_w) <= k.(n_c) -> k.(n_c) + Z.of_nat (length l) < 2 ^ 31 ->
  let k' := fold_left wc_char l k in
  k'.(n_l) = k.(n_l) + Z.of_nat (n_lines l) /\ k'.(n_c) = k.(n_c) + Z.of_nat (length l) /\
  k'.(n_w) = k.(n_w) + Z.of_nat (length (words l)) - Z.of_nat (joins k.(inword) l).
Proof.
  revert k. induction l as [|c l IH]; intros k Hl Hw Hc; [unfold n_lines; rewrite filter_nil; simpl; lia|]. cbn [fold_left]. cbn [length] in Hc. rewrite Nat2Z.inj_succ in Hc.
  set (k1 := wc_char k c).
  assert (k1.(n_c) = k.(n_c) + 1 /\ k1.(n_l) = k.(n_l) + (if c =? 10 then 1 else 0) /\ k1.(inword) = negb (is_space c) /\
    k1.(n_w) = k.(n_w) + (if is_space c || k.(inword) then 0 else 1)) as (E1 & E2 & E3 & E4).
  { unfold k1, wc_char. destruct (is_space c); [|destruct (inword k) eqn:Ei]; cbn [negb orb n_c n_l n_w inword]; rewrite !s32_small by lia;
      destruct (c =? 10); rewrite ?s32_small by lia; split_and!; try done; lia. }
  destruct (IH k1) as (I1 & I2 & I3); [destruct (c =? 10); lia|destruct (is_space c || _); lia|lia|].
  cbv zeta. rewrite I1, I2, I3, E1, E2, E3, E4. clear I1 I2 I3 IH. split_and!.
  - unfold n_lines. rewrite filter_cons. destruct (Z.eqb_spec c 10); [rewrite decide_True by done|rewrite decide_False by done]; simpl length; lia.
  - simpl length. lia.
  - pose proof (joins_le (negb (is_space c)) l). rewrite n_words_cons.
    change (joins (inword k) (c :: l)) with (if inword k && negb (is_space c) then 1%nat else 0%nat). destruct (is_space c); cbn [negb orb andb] in *.
    + rewrite andb_false_r. lia.
    + rewrite andb_true_r. destruct (inword k); lia.
Qed.

Lemma wc_read fd fuel buf w env k : Forall (fun b => 0 < Z.of_nat (length b) <= CATBUF) (pending w fd) ->
  length buf = Z.to_nat CATBUF -> (length (pending w fd) < fuel)%nat ->
  exists buf' w', wc_loop fuel fd k (Mkust buf w) env = Ok (fold_left wc_char (concat (pending w fd)) k, 0) (Mkust buf' w') env /\
    drained fd w w' /\ forall fd', written w' fd' = written w fd'.
Proof.
  remember (pending w fd) as bs eqn:Ebs. symmetry in Ebs. intros Hbs. revert fuel buf w k Ebs.
  induction Hbs as [|b bs Hb _ IH]; intros [|fuel] buf w k Ebs Hbuf Hfuel; simpl in Hfuel; try lia; cbn [wc_loop].
  - ucall (read_end w fd CATBUF Ebs). cbn. unfold modg. mrun. exists (splice 0 [] buf), w. split_and!; done.
  - destruct (read_next w fd CATBUF b bs Ebs ltac:(lia)) as (w1 & E1 & P1 & P1' & W1). ucall E1. cbn [fst snd]. unfold modg, getg. mrun.
    rewrite (proj2 (Z.ltb_lt _ _)) by lia. unfold set_wld. cbn [glob wld]. mrun. cbn [glob].
    destruct (buf_block (Z.of_nat (length b)) b buf ltac:(lia) eq_refl) as [-> Hl].
    destruct (IH fuel (splice 0 b buf) w1 (fold_left wc_char b k)) as (buf' & w' & E & (D1 & D2) & Wr); [done|by rewrite Hl|lia|].
    exists buf', w'. split_and!; [|split; [done|]|].
    + rewrite E. simpl. by rewrite fold_left_app.
    + intros fd' Hne. by rewrite D2, P1'.
    + intros fd'. by rewrite Wr, W1.
Qed.

Definition bytes (l : list Z) : Prop := Forall (fun c => 0 <= c < 256) l.

Lemma wc_report G l k c name : - 2 ^ 31 <= l < 2 ^ 31 -> - 2 ^ 31 <= k < 2 ^ 31 -> - 2 ^ 31 <= c < 2 ^ 31 -> bytes name ->
  says (G := G) 1 (fmt_int l 10 true ++ [32] ++ fmt_int k 10 true ++ [32] ++ fmt_int c 10 true ++ [32] ++ name ++ [10])
    (printf 1 (chars "%d %d %d %s" ++ newline) [PInt l; PInt k; PInt c; PStr (Some name)]).
Proof.
  intros Hl Hk Hc Hn. unfold printf.
  change (chars "%d %d %d %s" ++ newline) with [37; 100; 32; 37; 100; 32; 37; 100; 32; 37; 115; 10].
  cbn [printf_loop negb Z.eqb Pos.eqb orb default from_option id]. rewrite !s32_small by lia.
  repeat (apply says_bind; [first [apply says_printint; lia|by apply says_chars|apply (says_putc 1 32)]|]).
  change [10] with ([u8 10] ++ []). apply says_bind; [apply says_putc|apply says_ret].
Qed.

(** Wc counts: for an input of less than 2^31 bytes it prints the number
    of newlines, the number of words (longest parts without white space, also
    where a word spans two reads), the number of bytes, and the name. *)
Theorem wc_counts fd name fuel buf w env (text := concat (pending w fd)) :
  Forall (fun b => 0 < Z.of_nat (length b) <= CATBUF) (pending w fd) -> Z.of_nat (length text) < 2 ^ 31 ->
  length buf = Z.to_nat CATBUF -> (length (pending w fd) < fuel)%nat -> bytes name ->
  exists buf' w', wc fuel fd name (Mkust buf w) env = Ok tt (Mkust buf' w') env /\ drained fd w w' /\
    written w' 1 = written w 1 ++ fmt_int (Z.of_nat (n_lines text)) 10 true ++ [32] ++
      fmt_int (Z.of_nat (length (words text))) 10 true ++ [32] ++ fmt_int (Z.of_nat (length text)) 10 true ++ [32] ++ name ++ [10].
Proof.
  intros Hbs Htext Hbuf Hfuel Hname. unfold wc.
  destruct (wc_read fd fuel buf w env (Mkcounts 0 0 0 false) Hbs Hbuf Hfuel) as (buf' & w1 & E1 & (D1 & D2) & W1). mstep E1. fold text.
  destruct (wc_fold text (Mkcounts 0 0 0 false)) as (El & Ec & Ew); [simpl; lia..|]. cbn [n_l n_w n_c inword] in *.
  assert (joins false text = 0%nat) as Ej by (by destruct text). rewrite Ej, Z.sub_0_r in Ew. rewrite Z.add_0_l in El, Ec, Ew.
  change (0 <? 0) with false. cbv iota. rewrite El, Ec, Ew.
  assert (n_lines text <= length text /\ length (words text) <= length text)%nat as [Hll Hwl].
  { split; [apply length_filter|]. clear. induction text as [|c l IH]; [done|]. rewrite n_words_cons. simpl. destruct (is_space c); lia. }
  destruct (wc_report (list Z) (Z.of_nat (n_lines text)) (Z.of_nat (length (words text))) (Z.of_nat (length text)) name
    ltac:(lia) ltac:(lia) ltac:(lia) Hname (Mkust buf' w1) env) as (w' & E & Wr & P & _).
  exists buf', w'. split_and!.
  - exact E.
  - split; [by rewrite P|]. intros fd' Hne. by rewrite P, D2.
  - rewrite Wr. simpl wld. by rewrite W1.
Qed.

(** ** echo *)

Fixpoint echo_text (args : list (list Z)) : list Z :=
  match args with
  | [] => []
  | a :: rest => match rest with [] => a ++ [10] | _ => a ++ [32] ++ echo_text rest end
  end.

Lemma echo_args {G} args : Forall bytes args -> forall pre, says (G := G) 1 (echo_text args)
  (mfor (seq (length pre) (length args)) (fun i => arg <- deref "argv" ((pre ++ args) !! i) ;;
    printf 1 (chars "%s%s") [PStr (Some arg); PStr (Some (if (i + 1 <? length (pre ++ args))%nat then chars " " else newline))])).
Proof.
  induction 1 as [|a args Ha Hargs IH]; intros pre; [apply says_ret|]. cbn [length seq mfor].
  rewrite (lookup_app_r pre) by lia. rewrite Nat.sub_diag. cbn [lookup list_lookup deref].
  assert (Hp : forall sep, bytes sep -> says (G := G) 1 (a ++ sep) (bind (ret a) (fun arg => printf 1 (chars "%s%s") [PStr (Some arg); PStr (Some sep)]))).
  { intros sep Hsep s env. rewrite bind_ret. unfold printf. change (chars "%s%s") with [37; 115; 37; 115].
    cbn [printf_loop negb Z.eqb Pos.eqb orb default from_option id]. revert s env.
    rewrite <- (app_nil_r sep). apply says_bind; [by apply says_chars|]. apply says_bind; [rewrite app_nil_r; by apply says_chars|apply says_ret]. }
  specialize (IH (pre ++ [a])). rewrite length_app, <- app_assoc in IH. cbn [length app] in IH. rewrite Nat.add_1_r in IH.
  replace (echo_text (a :: args)) with ((a ++ if (length pre + 1 <? length (pre ++ a :: args))%nat then chars " " else newline) ++ echo_text args).
  - apply says_bind; [apply Hp; destruct (_ <? _)%nat; repeat constructor; lia|exact IH].
  - rewrite length_app. cbn [length]. destruct args as [|b args].
    + cbn [length echo_text]. rewrite (proj2 (Nat.ltb_ge _ _)) by lia. by rewrite app_nil_r.
    + cbn [length]. rewrite (proj2 (Nat.ltb_lt _ _)) by lia. rewrite <- app_assoc. done.
Qed.

(** Echo writes its arguments separated by blanks and followed by a
    newline, and nothing at all when it has no arguments. *)
Theorem echo_writes {G} name args (s : ust G W) env : Forall bytes args ->
  exists w', echo_main (name :: args) s env = Err Exited (set_wld (u_exit w') s) env /\ wrote 1 (echo_text args) s.(wld) w'.
Proof.
  intros Hargs. destruct (echo_args (G := G) args Hargs [name] s env) as (w' & E & Hw). exists w'. split; [|done].
  unfold echo_main. cbn [length]. rewrite Nat.sub_succ, Nat.sub_0_r. cbn [length app] in E. mstep E. done.
Qed.
End Facts.

(** ** Runs *)

Definition demo_io : tty := Mktty {[0 := [chars "on"; chars "e two"; newline]]} ∅ [].

Lemma demo_io_blocks : Forall (fun b => 0 < Z.of_nat (length b) <= CATBUF) (pending demo_io 0).
Proof. change (pending demo_io 0) with [chars "on"; chars "e two"; newline]. do 3 (constructor; [done|]). constructor. Qed.

Lemma cat_copies_witness :
  exists buf' w', cat_main 4 [chars "cat"] (Mkust (replicate 512 0) demo_io) [] = Err Exited (Mkust buf' (u_exit w')) [] /\
    written w' 1 = written demo_io 1 ++ concat (pending demo_io 0) /\ drained 0 demo_io w' /\
    forall fd', fd' <> 1 -> written w' fd' = written demo_io fd'.
Proof. apply (cat_copies (chars "cat") 4 (replicate 512 0) demo_io []); [exact demo_io_blocks|done|by apply Nat.ltb_lt]. Defined.

Lemma wc_counts_witness :
  exists buf' w', wc 4 0 (chars "f") (Mkust (replicate 512 0) demo_io) [] = Ok tt (Mkust buf' w') [] /\ drained 0 demo_io w' /\
    written w' 1 = chars "1 2 8 f" ++ newline.
Proof.
  destruct (wc_counts 0 (chars "f") 4 (replicate 512 0) demo_io []) as (buf' & w' & E & D & Wr); [exact demo_io_blocks|done|done|by apply Nat.ltb_lt|repeat constructor; lia|].
  exists buf', w'. split_and!; [exact E|exact D|]. rewrite Wr. vm_compute. reflexivity.
Defined.

Lemma echo_writes_witness : let s : ust unit tty := Mkust tt (Mktty ∅ ∅ []) in
  exists w', echo_main [chars "echo"; chars "a"; chars "b"] s [] = Err Exited (set_wld (u_exit w') s) [] /\ wrote 1 [97; 32; 98; 10] s.(wld) w'.
Proof. apply (echo_writes (chars "echo") [chars "a"; chars "b"]). repeat constructor; lia. Defined.

End ProgramFacts.
