(* ===== verification/Mkfs.v ===== *)
(** The file system builder (tools/mkfs.c), which runs on the build host. The
    image is the list of the sectors of the file it writes; writing behind
    the end extends the file with zeroes. Reading behind the end is the error
    exit of rsect; other errors of the host's lseek and write, and the
    messages on the host's terminal, are left out. What the host's files
    contain is a parameter: the blocks that reading a file returns. *)
From S2P Require Import Prelude Types Cstring Inode Console Fs.
Import Cstring Inode Console Fs.

Module Mkfs.

Definition nblocks : Z := 985.
Definition nlog : Z := LOGSIZE.
Definition ninodes : Z := 200.
Definition size : Z := 1024.
Definition bitblocks : Z := size / (512 * 8) + 1.
Definition zeroes : list Z := replicate 512 0.

Record mkstate : Type := Mkmk {
  fs_img : list (list Z);
  freeblock : Z;
  usedblocks : Z;
  freeinode : Z
}.

Definition B (A : Type) : Type := M mkstate A.

Definition set_img (v : list (list Z)) (s : mkstate) : mkstate := Mkmk v s.(freeblock) s.(usedblocks) s.(freeinode).
Definition set_freeinode (v : Z) (s : mkstate) : mkstate := Mkmk s.(fs_img) s.(freeblock) s.(usedblocks) v.
Definition set_blocks (f u : Z) (s : mkstate) : mkstate := Mkmk s.(fs_img) f u s.(freeinode).

(** Fields are stored in little-endian order whatever the host's order. *)
Definition xshort (x : Z) : list Z := le_bytes 2 x.
Definition xint (x : Z) : list Z := le_bytes 4 x.

(** The end of the host process with an error. *)
Definition exit1 {A} : B A := fail Exited.

Definition put_sector (sec : nat) (buf : list Z) (l : list (list Z)) : list (list Z) :=
  if (sec <? length l)%nat then <[sec := buf]> l else l ++ replicate (sec - length l) zeroes ++ [buf].
Definition wsect (sec : Z) (buf : list Z) : B unit := modify (fun s => set_img (put_sector (Z.to_nat sec) buf s.(fs_img)) s).
Definition rsect (sec : Z) : B (list Z) :=
  o <- gets (fun s => s.(fs_img) !! Z.to_nat sec) ;;
  match o with Some b => ret b | None => exit1 end.

Definition i2b (inum : Z) : Z := inum / IPB + 2.

(** A struct dinode is its 64 bytes. *)
Definition winode (inum : Z) (din : list Z) : B unit :=
  let bn := i2b inum in
  buf <- rsect bn ;;
  wsect bn (splice (dinode_off inum) din buf).

Definition rinode (inum : Z) : B (list Z) :=
  let bn := i2b inum in
  buf <- rsect bn ;;
  ret (take (Z.to_nat DINODE_SIZE) (drop (dinode_off inum) buf)).

Definition din_addr (din : list Z) (k : Z) : Z := get32 (Z.to_nat (12 + 4 * k)) din.
Definition din_set_addr (k a : Z) (din : list Z) : list Z := splice (Z.to_nat (12 + 4 * k)) (xint a) din.
Definition din_size (din : list Z) : Z := get32 8 din.
Definition din_set_size (sz : Z) (din : list Z) : list Z := splice 8 (xint sz) din.

Definition new_dinode (type : Z) : list Z :=
  din_set_size 0 (splice 6 (xshort 1) (splice 0 (xshort type) (replicate (Z.to_nat DINODE_SIZE) 0))).

Definition mk_ialloc (type : Z) : B Z :=
  inum <- gets freeinode ;;
  modify (set_freeinode (u32 (inum + 1))) ;;;
  winode inum (new_dinode type) ;;;
  ret inum.

Definition mk_balloc (used : Z) : B unit :=
  if negb (used <? 512 * 8) then panic "assert: used < 512*8" else
  wsect (ninodes / IPB + 3) (foldl (fun b i => bit_set (Z.of_nat i) b) zeroes (seq 0 (Z.to_nat used))).

(* freeblock++, usedblocks++ *)
Definition new_block : B Z :=
  fb <- gets freeblock ;;
  ub <- gets usedblocks ;;
  modify (set_blocks (u32 (fb + 1)) (u32 (ub + 1))) ;;;
  ret fb.

(** The block of the file for its block number [fbn], with the inode. *)
Definition append_block (din : list Z) (fbn : Z) : B (list Z * Z) :=
  if fbn <? NDIRECT then
    din <- (if din_addr din fbn =? 0 then fb <- new_block ;; ret (din_set_addr fbn fb din) else ret din) ;;
    ret (din, din_addr din fbn)
  else
    din <- (if din_addr din NDIRECT =? 0 then fb <- new_block ;; ret (din_set_addr NDIRECT fb din) else ret din) ;;
    indirect <- rsect (din_addr din NDIRECT) ;;
    let o := Z.to_nat (4 * (fbn - NDIRECT)) in
    if get32 o indirect =? 0 then
      fb <- new_block ;;
      let indirect := splice o (xint fb) indirect in
      wsect (din_addr din NDIRECT) indirect ;;;
      ret (din, get32 o indirect)
    else ret (din, get32 o indirect).

(* while (n > 0): the inode and the offset at the end *)
Fixpoint iappend_loop (fuel : nat) (din : list Z) (off : Z) (p : list Z) : B (list Z * Z) :=
  match p with
  | [] => ret (din, off)
  | _ =>
      match fuel with
      | O => fail NoFuel
      | S f =>
          let fbn := off / 512 in
          if negb (fbn <? MAXFILE) then panic "assert: fbn < MAXFILE" else
          r <- append_block din fbn ;;
          let '(din, x) := r in
          let n1 := Z.to_nat (Z.min (Z.of_nat (length p)) ((fbn + 1) * 512 - off)) in
          buf <- rsect x ;;
          wsect x (splice (Z.to_nat (off - fbn * 512)) (take n1 p) buf) ;;;
          iappend_loop f din (u32 (off + Z.of_nat n1)) (drop n1 p)
      end
  end.

(** Every turn appends at least a byte. *)
Definition iappend (inum : Z) (p : list Z) : B unit :=
  din <- rinode inum ;;
  r <- iappend_loop (length p) din (din_size din) p ;;
  let '(din, off) := r in
  winode inum (din_set_size off din).

(** struct dirent with the name copied by strcpy or strncpy into zeroes. *)
Definition dirent (inum : Z) (name : list Z) : list Z := xshort inum ++ strncpy_list (Z.to_nat DIRSIZ) name.

Section Main.
(** [host name] is what reading the file gives, [None] if it cannot be opened. *)
Context (host : list Z -> option (list (list Z))).

Definition skip_underscore (name : list Z) : list Z :=
  match name with c :: name' => if c =? 95 then name' else name | [] => name end.

Definition add_file (rootino : Z) (arg : list Z) : B unit :=
  match host arg with
  | None => exit1
  | Some blocks =>
      inum <- mk_ialloc T_FILE ;;
      iappend rootino (dirent inum (skip_underscore arg)) ;;;
      mfor blocks (iappend inum)
  end.

(** The superblock, in the order of its fields. *)
Definition sb_bytes : list Z := xint size ++ xint nblocks ++ xint ninodes ++ xint nlog.

Definition fix_root (rootino : Z) : B unit :=
  din <- rinode rootino ;;
  let off := din_size din in
  let off := u32 ((off / BSIZE + 1) * BSIZE) in
  winode rootino (din_set_size off din).

(** [files] are the arguments behind the name of the image. *)
Definition mkfs_main (files : list (list Z)) : B unit :=
  let used := ninodes / IPB + 3 + bitblocks in
  modify (set_blocks used used) ;;;
  if negb (nblocks + used + nlog =? size) then panic "assert: size" else
  mfor (seq 0 (Z.to_nat (nblocks + used + nlog))) (fun i => wsect (Z.of_nat i) zeroes) ;;;
  wsect 1 (splice 0 sb_bytes zeroes) ;;;
  rootino <- mk_ialloc T_DIR ;;
  if negb (rootino =? ROOTINO) then panic "assert: rootino" else
  iappend rootino (dirent rootino (chars ".")) ;;;
  iappend rootino (dirent rootino (chars "..")) ;;;
  mfor files (add_file rootino) ;;;
  fix_root rootino ;;;
  ub <- gets usedblocks ;;
  mk_balloc ub.
End Main.

(** The state before main: an empty image. *)
Definition mkstate0 : mkstate := Mkmk [] 0 0 1.

End Mkfs.
