(* ===== verification/MkfsFacts.v ===== *)
(** The image that tools/mkfs.c builds: iappend appends to one file and leaves
    the others alone. A file is described through its inode and the function
    [own], which names the file and the place that each block is used for, so
    that no block is used twice. *)
From S2P Require Import Prelude Types Cstring Inode Console Fs Mkfs.
Import Cstring Inode Console Fs Mkfs.

Module MkfsFacts.

(** ** Fields of an inode *)

Lemma din_addr_set k a din j : length din = 64%nat -> 0 <= k <= 12 -> 0 <= j <= 12 -> 0 <= a < 2 ^ 32 ->
  din_addr (din_set_addr k a din) j = if k =? j then a else din_addr din j.
Proof.
  intros Hl Hk Hj Ha. unfold din_addr, din_set_addr, xint. fold (put32 (Z.to_nat (12 + 4 * k)) a din). destruct (Z.eqb_spec k j) as [->|Hne].
  - rewrite get_put_same by lia. apply Z.mod_small. change (256 ^ Z.of_nat 4) with (2 ^ 32). lia.
  - apply get_put_other; lia.
Qed.

Lemma din_addr_size sz din j : length din = 64%nat -> 0 <= j <= 12 -> din_addr (din_set_size sz din) j = din_addr din j.
Proof. intros Hl Hj. unfold din_addr, din_set_size, xint. fold (put32 8 sz din). apply get_put_other; lia. Qed.

Lemma din_size_set sz din : length din = 64%nat -> 0 <= sz < 2 ^ 32 -> din_size (din_set_size sz din) = sz.
Proof.
  intros Hl Hs. unfold din_size, din_set_size, xint. fold (put32 8 sz din). rewrite get_put_same by lia. apply Z.mod_small.
  change (256 ^ Z.of_nat 4) with (2 ^ 32). lia.
Qed.

Definition din_type (din : list Z) : Z := get16 0 din.
Lemma din_type_addr k a din : length din = 64%nat -> 0 <= k <= 12 -> din_type (din_set_addr k a din) = din_type din.
Proof. intros Hl Hk. unfold din_type, din_set_addr, xint. fold (put32 (Z.to_nat (12 + 4 * k)) a din). apply get_put_other; lia. Qed.
Lemma din_type_size sz din : length din = 64%nat -> din_type (din_set_size sz din) = din_type din.
Proof. intros Hl. unfold din_type, din_set_size, xint. fold (put32 8 sz din). apply get_put_other; lia. Qed.

Lemma length_set_addr k a din : length din = 64%nat -> 0 <= k <= 12 -> length (din_set_addr k a din) = 64%nat.
Proof. intros Hl Hk. unfold din_set_addr. rewrite length_splice; [done|]. unfold xint. rewrite length_le_bytes. lia. Qed.
Lemma length_set_size sz din : length din = 64%nat -> length (din_set_size sz din) = 64%nat.
Proof. intros Hl. unfold din_set_size. rewrite length_splice; [done|]. unfold xint. rewrite length_le_bytes. lia. Qed.

(** ** Sectors *)

Definition rd (img : list (list Z)) (b : Z) : list Z := img !!! Z.to_nat b.
Definition wr (img : list (list Z)) (b : Z) (buf : list Z) : list (list Z) := <[Z.to_nat b := buf]> img.

Definition img_ok (img : list (list Z)) : Prop :=
  length img = Z.to_nat size /\ forall b, 0 <= b < size -> length (rd img b) = 512%nat.

Lemma rd_wr img b buf c : img_ok img -> 0 <= b < size -> 0 <= c -> rd (wr img b buf) c = if b =? c then buf else rd img c.
Proof.
  intros [Hl _] Hb Hc. unfold rd, wr. destruct (Z.eqb_spec b c) as [->|Hne].
  - apply list_lookup_total_insert_eq. lia.
  - apply list_lookup_total_insert_ne. lia.
Qed.

Lemma wr_ok img b buf : img_ok img -> 0 <= b < size -> length buf = 512%nat -> img_ok (wr img b buf).
Proof.
  intros Hi Hb Hbuf. split; [unfold wr; rewrite length_insert; apply Hi|]. intros c Hc. rewrite rd_wr by (done || lia).
  destruct (_ =? _); [done|by apply Hi].
Qed.

Lemma rsect_eq b s env : img_ok s.(fs_img) -> 0 <= b < size -> rsect b s env = Ok (rd s.(fs_img) b) s env.
Proof.
  intros [Hl _] Hb. unfold rsect. mrun. unfold rd. rewrite list_lookup_total_alt.
  destruct (fs_img s !! Z.to_nat b) eqn:E; [done|]. apply lookup_ge_None in E. lia.
Qed.

Lemma wsect_eq b buf s env : img_ok s.(fs_img) -> 0 <= b < size -> wsect b buf s env = Ok tt (set_img (wr s.(fs_img) b buf) s) env.
Proof. intros [Hl _] Hb. unfold wsect, modify, put_sector. rewrite (proj2 (Nat.ltb_lt _ _)) by lia. done. Qed.

Lemma length_zeroes : length zeroes = 512%nat.
Proof. reflexivity. Qed.

Lemma zeroes_word o : (o + 4 <= 512)%nat -> get32 o zeroes = 0.
Proof.
  intros Ho. unfold get_le, zeroes. rewrite drop_replicate, take_replicate. replace (Nat.min 4 (512 - o)) with 4%nat by lia. done.
Qed.

Lemma zeroes_byte i : (i < 512)%nat -> zeroes !! i = Some 0.
Proof. intros Hi. unfold zeroes. by apply lookup_replicate_2. Qed.

#[global] Opaque zeroes.

(** ** Files *)

(** The block with the number [bn] of the file, 0 if there is none. *)
Definition slot (img : list (list Z)) (din : list Z) (bn : Z) : Z :=
  if bn <? NDIRECT then din_addr din bn
  else if din_addr din NDIRECT =? 0 then 0
  else get32 (Z.to_nat (4 * (bn - NDIRECT))) (rd img (din_addr din NDIRECT)).

(** Blocks of files lie behind the bitmap. *)
Definition DATA : Z := 29.

(** The inode [din] of file [n] has [nb] blocks, all below [fb]; they hold
    [data] and then zeroes. The list of indirect blocks is at place -1. *)
Record rep (own : Z -> option (Z * Z)) (img : list (list Z)) (fb n : Z) (din : list Z) (nb : Z) (data : list Z) : Prop := {
  r_len : length din = 64%nat;
  r_nb : 0 <= nb <= MAXFILE;
  r_size : Z.of_nat (length data) <= nb * 512;
  r_ind : (din_addr din NDIRECT = 0 /\ nb <= NDIRECT) \/
    (DATA <= din_addr din NDIRECT < fb /\ own (din_addr din NDIRECT) = Some (n, -1));
  r_slot : forall bn, 0 <= bn < nb -> DATA <= slot img din bn < fb /\ own (slot img din bn) = Some (n, bn);
  r_free : forall bn, nb <= bn < MAXFILE -> slot img din bn = 0;
  r_bytes : forall k, 0 <= k < nb * 512 ->
    rd img (slot img din (k / 512)) !! Z.to_nat (k mod 512) = Some (default 0 (data !! Z.to_nat k))
}.

Lemma rep_addrs own img fb n din din' nb data : (forall k, 0 <= k <= 12 -> din_addr din' k = din_addr din k) -> length din' = 64%nat ->
  rep own img fb n din nb data -> rep own img fb n din' nb data.
Proof.
  intros Ha Hl' [Hl Hnb Hsz Hind Hslot Hfree Hbytes].
  assert (Hs : forall bn, 0 <= bn -> slot img din' bn = slot img din bn).
  { intros bn Hbn. unfold slot, NDIRECT. rewrite (Ha 12) by lia. destruct (Z.ltb_spec bn 12); [|done]. apply Ha. lia. }
  split; try done.
  - unfold NDIRECT in *. by rewrite (Ha 12) by lia.
  - intros bn Hbn. rewrite Hs by lia. by apply Hslot.
  - intros bn Hbn. rewrite Hs by lia. by apply Hfree.
  - intros k Hk. rewrite Hs by (apply Z.div_pos; lia). by apply Hbytes.
Qed.

(** From one state of the builder to another while it works on file [n]: new
    blocks are used for [n], and blocks that others own, or nobody, are left
    alone; blocks not yet handed out are zero. *)
Record grown (n : Z) (own : Z -> option (Z * Z)) (img : list (list Z)) (fb : Z)
    (own' : Z -> option (Z * Z)) (img' : list (list Z)) (fb' : Z) : Prop := {
  g_fb : fb <= fb';
  g_own : forall b, b < fb -> own' b = own b;
  g_new : forall b, fb <= b -> own' b = None \/ exists s, own' b = Some (n, s);
  g_rest : forall b, fb' <= b -> own' b = None;
  g_img : forall b, 0 <= b < fb -> (forall s, own b <> Some (n, s)) -> rd img' b = rd img b;
  g_zero : forall b, fb' <= b < size -> rd img' b = zeroes;
  g_ok : img_ok img'
}.

Lemma grown_trans n o1 i1 f1 o2 i2 f2 o3 i3 f3 :
  grown n o1 i1 f1 o2 i2 f2 -> grown n o2 i2 f2 o3 i3 f3 -> grown n o1 i1 f1 o3 i3 f3.
Proof.
  intros [A1 A2 A3 A4 A5 A6 A7] [B1 B2 B3 B4 B5 B6 B7]. split; [lia| | |done| |done|done].
  - intros b Hb. rewrite B2 by lia. by apply A2.
  - intros b Hb. destruct (Z.lt_ge_cases b f2); [rewrite B2 by done; by apply A3|by apply B3].
  - intros b Hb Ho. rewrite B5; [by apply A5|lia|]. intros s. by rewrite A2 by lia.
Qed.

(** A file whose blocks are left alone is still there. *)
Lemma rep_frame own own' img img' fb fb' n din nb data : fb <= fb' ->
  (forall b s, 0 <= b < fb -> own b = Some (n, s) -> own' b = Some (n, s) /\ rd img' b = rd img b) ->
  rep own img fb n din nb data -> rep own' img' fb' n din nb data.
Proof.
  intros Hfb Hf [Hl Hnb Hsz Hind Hslot Hfree Hbytes]. unfold DATA in *.
  assert (Hs : forall bn, slot img' din bn = slot img din bn).
  { intros bn. unfold slot. destruct (bn <? NDIRECT); [done|]. destruct (Z.eqb_spec (din_addr din NDIRECT) 0) as [|Hne]; [done|].
    destruct Hind as [[? _]|[? Ho]]; [done|].
    destruct (Hf (din_addr din NDIRECT) (-1)) as [_ E]; [lia|done|]. by rewrite E. }
  split; try done.
  - destruct Hind as [Hz|[Hr Ho]]; [by left|right]. destruct (Hf (din_addr din NDIRECT) (-1)) as [E _]; [lia|done|]. rewrite E. split; [unfold DATA; lia|done].
  - intros bn Hbn. rewrite Hs. destruct (Hslot bn Hbn) as [Hr Ho]. destruct (Hf (slot img din bn) bn) as [E _]; [lia|done|]. rewrite E. split; [unfold DATA; lia|done].
  - intros bn Hbn. rewrite Hs. by apply Hfree.
  - intros k Hk. rewrite Hs. destruct (Hslot (k / 512)) as [Hr Ho].
    { split; [apply Z.div_pos; lia|apply Z.div_lt_upper_bound; lia]. }
    destruct (Hf (slot img din (k / 512)) (k / 512)) as [_ E]; [lia|done|]. rewrite E. by apply Hbytes.
Qed.

Lemma file_rep_other own own' img img' fb fb' n m din nb data : m <> n -> grown m own img fb own' img' fb' ->
  rep own img fb n din nb data -> rep own' img' fb' n din nb data.
Proof.
  intros Hne G. apply rep_frame; [apply G|]. intros b s Hb Ho. split; [by rewrite (g_own _ _ _ _ _ _ _ G) by lia|].
  apply (g_img _ _ _ _ _ _ _ G); [done|]. intros s'. rewrite Ho. congruence.
Qed.

Ltac consts := change MAXFILE with 140 in *; change NDIRECT with 12 in *; change DATA with 29 in *; change size with 1024 in *.

(** ** New blocks *)

(** The builder with the next free block [fb]. *)
Definition st (img : list (list Z)) (fb fi : Z) : mkstate := Mkmk img fb fb fi.

Record mk_ok (own : Z -> option (Z * Z)) (img : list (list Z)) (fb : Z) : Prop := {
  m_img : img_ok img;
  m_fb : DATA <= fb <= size;
  m_rest : forall b, fb <= b -> own b = None;
  m_zero : forall b, fb <= b < size -> rd img b = zeroes;
  m_data : forall b p, own b = Some p -> DATA <= b
}.

Lemma grown_ok n own img fb own' img' fb' : mk_ok own img fb -> grown n own img fb own' img' fb' -> fb' <= size -> mk_ok own' img' fb'.
Proof.
  intros [Hi Hfb Hr Hz Hd] [A1 A2 A3 A4 A5 A6 A7] Hs. split; [done|lia|done|done|].
  intros b q Hb. destruct (Z.lt_ge_cases b fb); [rewrite A2 in Hb by done; by eapply Hd|lia].
Qed.

Lemma grown_refl n own img fb : mk_ok own img fb -> grown n own img fb own img fb.
Proof. intros [Hi Hfb Hr Hz Hd]. split; try done. intros b Hb. left. by apply Hr. Qed.

Definition claim (own : Z -> option (Z * Z)) (b : Z) (p : Z * Z) (c : Z) : option (Z * Z) := if c =? b then Some p else own c.

Lemma claim_new own b p : claim own b p b = Some p.
Proof. unfold claim. by rewrite Z.eqb_refl. Qed.
Lemma claim_old own b p c : c <> b -> claim own b p c = own c.
Proof. intros Hne. unfold claim. by rewrite (proj2 (Z.eqb_neq _ _)). Qed.

(** One block is taken for [n]; of the old blocks only those of [n] may be
    written. *)
Lemma grown_claim n own img img' fb s : mk_ok own img fb -> img_ok img' ->
  (forall b, 0 <= b < fb -> (forall s, own b <> Some (n, s)) -> rd img' b = rd img b) ->
  (forall b, fb < b < size -> rd img' b = rd img b) -> grown n own img fb (claim own fb (n, s)) img' (fb + 1).
Proof.
  intros [Hi Hfb Hr Hz Hd] Hi' Hold Hnew. split; [lia| | | |done| |done].
  - intros b Hb. by rewrite claim_old by lia.
  - intros b Hb. destruct (Z.eq_dec b fb) as [->|Hne]; [rewrite claim_new; eauto|]. rewrite claim_old by done. left. by apply Hr.
  - intros b Hb. rewrite claim_old by lia. apply Hr. lia.
  - intros b Hb. rewrite Hnew by lia. apply Hz. lia.
Qed.

Lemma new_block_eq img fb fi env : 0 <= fb < size -> new_block (st img fb fi) env = Ok fb (st img (fb + 1) fi) env.
Proof. intros Hfb. unfold size in Hfb. unfold new_block. mrun. unfold set_blocks, st. simpl. by rewrite u32_small by lia. Qed.

(** The bytes of a file that got one more block. *)
Lemma bytes_more img img' din din' nb data fb :
  Z.of_nat (length data) <= nb * 512 -> 0 <= nb ->
  (forall k, 0 <= k < nb * 512 -> rd img (slot img din (k / 512)) !! Z.to_nat (k mod 512) = Some (default 0 (data !! Z.to_nat k))) ->
  (forall bn, 0 <= bn < nb -> slot img' din' bn = slot img din bn /\ rd img' (slot img din bn) = rd img (slot img din bn)) ->
  slot img' din' nb = fb -> rd img' fb = zeroes ->
  forall k, 0 <= k < (nb + 1) * 512 -> rd img' (slot img' din' (k / 512)) !! Z.to_nat (k mod 512) = Some (default 0 (data !! Z.to_nat k)).
Proof.
  intros Hd Hnb Hb Hsame Hs Hz k Hk. destruct (Z.lt_ge_cases k (nb * 512)) as [Hlt|Hge].
  - destruct (Hsame (k / 512)) as [-> ->]; [split; [apply Z.div_pos; lia|apply Z.div_lt_upper_bound; lia]|]. apply Hb. lia.
  - replace (k / 512) with nb by (apply Z.div_unique with (k - nb * 512); lia). rewrite Hs, Hz.
    pose proof (Z.mod_pos_bound k 512). rewrite zeroes_byte by lia. rewrite lookup_ge_None_2 by lia. done.
Qed.

Lemma slot_direct img din bn : bn < NDIRECT -> slot img din bn = din_addr din bn.
Proof. intros Hb. unfold slot. by rewrite (proj2 (Z.ltb_lt _ _)). Qed.

(** Slots do not change when an address of a later block is set. *)
Lemma use_direct own img fb n din nb data : mk_ok own img fb -> fb < size -> rep own img fb n din nb data -> nb < NDIRECT ->
  let own' := claim own fb (n, nb) in let din' := din_set_addr nb fb din in
  grown n own img fb own' img (fb + 1) /\ rep own' img (fb + 1) n din' (nb + 1) data.
Proof.
  intros Hm Hfb [Hl Hnb Hsz Hind Hslot Hfree Hbytes] Hd own' din'. pose proof Hm as [Hi Hfb' Hr Hz Hdt]. consts.
  assert (Ha : forall j, 0 <= j <= 12 -> din_addr din' j = if nb =? j then fb else din_addr din j).
  { intros j Hj. apply din_addr_set; try done; lia. }
  assert (Hs : forall bn, 0 <= bn -> slot img din' bn = if nb =? bn then fb else slot img din bn).
  { intros bn Hbn. unfold slot. consts. destruct (Z.ltb_spec bn 12); [apply Ha; lia|]. rewrite (Ha 12) by lia.
    rewrite (proj2 (Z.eqb_neq nb 12)), (proj2 (Z.eqb_neq nb bn)) by lia. done. }
  split; [by apply grown_claim|]. split; consts.
  - apply length_set_addr; [done|lia].
  - lia.
  - lia.
  - rewrite Ha by lia. rewrite (proj2 (Z.eqb_neq nb 12)) by lia. destruct Hind as [[Hi0 _]|[Hi1 Hi2]]; [left; lia|right].
    unfold own'. rewrite claim_old by lia. split; [lia|done].
  - intros bn Hbn. rewrite Hs by lia. destruct (Z.eqb_spec nb bn) as [<-|Hne].
    + unfold own'. rewrite claim_new. split; [lia|done].
    + destruct (Hslot bn ltac:(lia)) as [H1 H2]. unfold own'. rewrite claim_old by lia. split; [lia|done].
  - intros bn Hbn. rewrite Hs by lia. rewrite (proj2 (Z.eqb_neq nb bn)) by lia. apply Hfree. lia.
  - apply (bytes_more img img din din' nb data fb); try done; try lia.
    + intros bn Hbn. rewrite Hs by lia. rewrite (proj2 (Z.eqb_neq nb bn)) by lia. done.
    + rewrite Hs by lia. by rewrite Z.eqb_refl.
    + apply Hz. consts. lia.
Qed.

(** The block of block numbers is taken; it is zero. *)
Lemma use_indirect own img fb n din nb data : mk_ok own img fb -> fb < size -> rep own img fb n din nb data -> din_addr din NDIRECT = 0 ->
  let own' := claim own fb (n, -1) in let din' := din_set_addr NDIRECT fb din in
  grown n own img fb own' img (fb + 1) /\ rep own' img (fb + 1) n din' nb data /\ din_addr din' NDIRECT = fb.
Proof.
  intros Hm Hfb [Hl Hnb Hsz Hind Hslot Hfree Hbytes] Hd own' din'. pose proof Hm as [Hi Hfb' Hr Hz Hdt]. consts.
  assert (Ha : forall j, 0 <= j <= 12 -> din_addr din' j = if 12 =? j then fb else din_addr din j).
  { intros j Hj. apply din_addr_set; try done; lia. }
  assert (Hnb' : nb <= 12) by (destruct Hind as [[_ ?]|[? _]]; lia).
  assert (Hs : forall bn, 0 <= bn < 140 -> slot img din' bn = slot img din bn).
  { intros bn Hbn. unfold slot. consts. destruct (Z.ltb_spec bn 12) as [Hlt|Hge]; [rewrite Ha, (proj2 (Z.eqb_neq 12 bn)) by lia; done|].
    rewrite (Ha 12) by lia. rewrite Z.eqb_refl, Hd. rewrite (proj2 (Z.eqb_neq fb 0)) by lia. rewrite Z.eqb_refl.
    rewrite Hz by lia. apply zeroes_word. lia. }
  split; [by apply grown_claim|]. split; [|rewrite Ha by lia; by rewrite Z.eqb_refl]. split; consts.
  - apply length_set_addr; [done|lia].
  - lia.
  - lia.
  - right. rewrite Ha by lia. rewrite Z.eqb_refl. unfold own'. rewrite claim_new. split; [lia|done].
  - intros bn Hbn. rewrite Hs by lia. destruct (Hslot bn Hbn) as [H1 H2]. unfold own'. rewrite claim_old by lia. split; [lia|done].
  - intros bn Hbn. rewrite Hs by lia. by apply Hfree.
  - intros k Hk. assert (0 <= k / 512 < nb) by (split; [apply Z.div_pos; lia|apply Z.div_lt_upper_bound; lia]).
    rewrite Hs by lia. by apply Hbytes.
Qed.

(** A block number is entered there. *)
Lemma use_entry own img fb n din nb data (ind := din_addr din NDIRECT)
    (img' := wr img ind (splice (Z.to_nat (4 * (nb - NDIRECT))) (xint fb) (rd img ind))) :
  mk_ok own img fb -> fb < size -> rep own img fb n din nb data -> DATA <= ind < fb -> own ind = Some (n, -1) -> NDIRECT <= nb < MAXFILE ->
  let own' := claim own fb (n, nb) in
  grown n own img fb own' img' (fb + 1) /\ rep own' img' (fb + 1) n din (nb + 1) data /\ slot img' din nb = fb /\
  get32 (Z.to_nat (4 * (nb - NDIRECT))) (rd img' ind) = fb.
Proof.
  intros Hm Hfb [Hl Hnb Hsz Hind Hslot Hfree Hbytes] Hir Hio Hnb' own'. pose proof Hm as [Hi Hfb' Hr Hz Hdt]. consts.
  assert (Hindl : length (rd img ind) = 512%nat) by (apply Hi; consts; lia).
  assert (Hrd : forall b, 0 <= b -> rd img' b = if ind =? b then splice (Z.to_nat (4 * (nb - 12))) (xint fb) (rd img ind) else rd img b).
  { intros b Hb. apply rd_wr; [done|consts; lia|done]. }
  assert (Hs : forall bn, 0 <= bn < 140 -> slot img' din bn = if nb =? bn then fb else slot img din bn).
  { intros bn Hbn. unfold slot. consts. fold ind. destruct (Z.ltb_spec bn 12); [by rewrite (proj2 (Z.eqb_neq nb bn)) by lia|].
    rewrite (proj2 (Z.eqb_neq ind 0)) by lia. rewrite Hrd by lia. rewrite Z.eqb_refl. unfold xint. fold (put32 (Z.to_nat (4 * (nb - 12))) fb (rd img ind)).
    destruct (Z.eqb_spec nb bn) as [<-|Hne].
    - rewrite get_put_same by lia. apply Z.mod_small. change (256 ^ Z.of_nat 4) with (2 ^ 32). lia.
    - apply get_put_other; lia. }
  assert (Hne : forall bn, 0 <= bn < nb -> slot img din bn <> ind).
  { intros bn Hbn E. destruct (Hslot bn Hbn) as [_ Ho]. rewrite E, Hio in Ho. injection Ho as Ho. lia. }
  split_and!.
  - apply grown_claim; [done| | |].
    + apply wr_ok; [done|consts; lia|]. rewrite length_splice by (unfold xint; rewrite length_le_bytes; lia). done.
    + intros b Hb Ho. rewrite Hrd by lia. destruct (Z.eqb_spec ind b) as [<-|]; [by specialize (Ho (-1))|done].
    + intros b Hb. rewrite Hrd by lia. by rewrite (proj2 (Z.eqb_neq ind b)) by lia.
  - split; consts; fold ind; try lia.
    + right. unfold own'. rewrite claim_old by lia. split; [lia|done].
    + intros bn Hbn. rewrite Hs by lia. destruct (Z.eqb_spec nb bn) as [<-|Hnb2].
      * unfold own'. rewrite claim_new. split; [lia|done].
      * destruct (Hslot bn ltac:(lia)) as [H1 H2]. unfold own'. rewrite claim_old by lia. split; [lia|done].
    + intros bn Hbn. rewrite Hs by lia. rewrite (proj2 (Z.eqb_neq nb bn)) by lia. apply Hfree. lia.
    + apply (bytes_more img img' din din nb data fb); try done; try lia.
      * intros bn Hbn. rewrite Hs by lia. rewrite (proj2 (Z.eqb_neq nb bn)) by lia. split; [done|]. destruct (Hslot bn Hbn) as [? _].
        rewrite Hrd by lia. rewrite (proj2 (Z.eqb_neq ind _)); [done|]. intros E. by apply (Hne bn Hbn).
      * rewrite Hs by lia. by rewrite Z.eqb_refl.
      * rewrite Hrd by lia. rewrite (proj2 (Z.eqb_neq ind fb)) by lia. apply Hz. consts. lia.
  - rewrite Hs by lia. by rewrite Z.eqb_refl.
  - pose proof (Hs nb ltac:(lia)) as E. rewrite Z.eqb_refl in E. unfold slot in E. consts. fold ind in E.
    rewrite (proj2 (Z.ltb_ge nb 12)), (proj2 (Z.eqb_neq ind 0)) in E by lia. done.
Qed.

(** ** Appending *)

(** The blocks a file of [nb] blocks takes on the disk; a file without
    indirect blocks has no list of them. *)
Definition blocks (nb : Z) : Z := nb + (if NDIRECT <? nb then 1 else 0).
Definition tight (din : list Z) (nb : Z) : Prop := nb <= NDIRECT -> din_addr din NDIRECT = 0.

Lemma rsect_st b img fb fi env : img_ok img -> 0 <= b < size -> rsect b (st img fb fi) env = Ok (rd img b) (st img fb fi) env.
Proof. intros Hi Hb. by apply (rsect_eq b (st img fb fi)). Qed.
Lemma wsect_st b buf img fb fi env : img_ok img -> 0 <= b < size -> wsect b buf (st img fb fi) env = Ok tt (st (wr img b buf) fb fi) env.
Proof. intros Hi Hb. by apply (wsect_eq b buf (st img fb fi)). Qed.

Lemma direct_run own img fb fi n din nb data fbn env :
  mk_ok own img fb -> rep own img fb n din nb data -> tight din nb -> 0 <= fbn <= nb -> fbn < NDIRECT ->
  let nb' := Z.max nb (fbn + 1) in let fb' := fb + blocks nb' - blocks nb in fb' <= size ->
  exists own' din', append_block din fbn (st img fb fi) env = Ok (din', slot img din' fbn) (st img fb' fi) env /\
    grown n own img fb own' img fb' /\ rep own' img fb' n din' nb' data /\ tight din' nb' /\ din_type din' = din_type din.
Proof.
  intros Hm Hrep Ht Hfbn Hd nb' fb' Hfit. pose proof Hrep as [Hl Hnb _ _ Hslot Hfree _]. pose proof Hm as [_ Hfb _ _ _].
  unfold append_block. rewrite (proj2 (Z.ltb_lt fbn NDIRECT)) by done. rewrite <- (slot_direct img din fbn) by done.
  unfold fb', nb', blocks, tight in *. consts. destruct (Z.lt_ge_cases fbn nb) as [Hlt|Hge].
  - destruct (Hslot fbn ltac:(lia)) as [Hr _]. rewrite (proj2 (Z.eqb_neq _ 0)) by lia. mrun. rewrite <- (slot_direct img din fbn) by done.
    exists own, din. rewrite Z.max_l by lia. rewrite Z.add_simpl_r. split_and!; try done. by apply grown_refl.
  - assert (fbn = nb) as -> by lia. rewrite Hfree by lia. cbn [Z.eqb]. rewrite Z.max_r in * by lia.
    rewrite (proj2 (Z.ltb_ge 12 (nb + 1))), (proj2 (Z.ltb_ge 12 nb)) in * by lia. replace (fb + (nb + 1 + 0) - (nb + 0)) with (fb + 1) in * by lia.
    mrun. rewrite (bind_ok _ _ _ _ _ _ _ (new_block_eq img fb fi env ltac:(consts; lia))). mrun.
    destruct (use_direct own img fb n din nb data Hm ltac:(consts; lia) Hrep Hd) as [G R].
    exists (claim own fb (n, nb)), (din_set_addr nb fb din). rewrite slot_direct by done. split_and!; try done.
    + intros _. rewrite din_addr_set by lia. rewrite (proj2 (Z.eqb_neq nb 12)) by lia. apply Ht. lia.
    + apply din_type_addr; [done|lia].
Qed.

Lemma entry_run own img fb fi n din nb data fbn env (ind := din_addr din NDIRECT) :
  mk_ok own img fb -> rep own img fb n din nb data -> DATA <= ind < fb -> own ind = Some (n, -1) -> 0 <= fbn <= nb -> NDIRECT <= fbn < MAXFILE ->
  let nb' := Z.max nb (fbn + 1) in let fb' := fb + (nb' - nb) in fb' <= size ->
  exists own' img', (indirect <- rsect ind ;;
      let o := Z.to_nat (4 * (fbn - NDIRECT)) in
      if get32 o indirect =? 0 then
        fb <- new_block ;; let indirect := splice o (xint fb) indirect in wsect ind indirect ;;; ret (din, get32 o indirect)
      else ret (din, get32 o indirect)) (st img fb fi) env = Ok (din, slot img' din fbn) (st img' fb' fi) env /\
    grown n own img fb own' img' fb' /\ rep own' img' fb' n din nb' data.
Proof.
  intros Hm Hrep Hir Hio Hfbn Hd nb' fb' Hfit. pose proof Hrep as [Hl Hnb _ _ Hslot Hfree _]. pose proof Hm as [Hi Hfb _ _ _].
  assert (Es : get32 (Z.to_nat (4 * (fbn - NDIRECT))) (rd img ind) = slot img din fbn).
  { unfold slot. fold ind. consts. by rewrite (proj2 (Z.ltb_ge fbn 12)), (proj2 (Z.eqb_neq ind 0)) by lia. }
  rewrite (bind_ok _ _ _ _ _ _ _ (rsect_st ind img fb fi env Hi ltac:(consts; lia))). cbv zeta. rewrite Es.
  unfold fb', nb' in *. consts. destruct (Z.lt_ge_cases fbn nb) as [Hlt|Hge].
  - destruct (Hslot fbn ltac:(lia)) as [Hr _]. rewrite (proj2 (Z.eqb_neq _ 0)) by lia. exists own, img. rewrite Z.max_l by lia.
    rewrite Z.sub_diag, Z.add_0_r. split_and!; try done. by apply grown_refl.
  - assert (fbn = nb) as -> by lia. rewrite Hfree by lia. cbn [Z.eqb]. rewrite Z.max_r in * by lia. replace (fb + (nb + 1 - nb)) with (fb + 1) in * by lia.
    rewrite (bind_ok _ _ _ _ _ _ _ (new_block_eq img fb fi env ltac:(consts; lia))).
    destruct (use_entry own img fb n din nb data Hm ltac:(consts; lia) Hrep ltac:(consts; lia) Hio ltac:(consts; lia)) as (G & R & Es' & Eg).
    rewrite (bind_ok _ _ _ _ _ _ _ (wsect_st ind _ img (fb + 1) fi env Hi ltac:(consts; lia))). unfold ind. consts.
    rewrite rd_wr, Z.eqb_refl in Eg by (try done; consts; lia). rewrite Eg. eexists _, _. split; [|split; [exact G|exact R]]. by rewrite Es'.
Qed.

Lemma append_block_run own img fb fi n din nb data fbn env :
  mk_ok own img fb -> rep own img fb n din nb data -> tight din nb -> 0 <= fbn <= nb -> fbn < MAXFILE ->
  let nb' := Z.max nb (fbn + 1) in let fb' := fb + blocks nb' - blocks nb in fb' <= size ->
  exists own' img' din', append_block din fbn (st img fb fi) env = Ok (din', slot img' din' fbn) (st img' fb' fi) env /\
    grown n own img fb own' img' fb' /\ rep own' img' fb' n din' nb' data /\ tight din' nb' /\ din_type din' = din_type din.
Proof.
  intros Hm Hrep Ht Hfbn Hmax nb' fb' Hfit. destruct (Z.lt_ge_cases fbn NDIRECT) as [Hd|Hd].
  { destruct (direct_run own img fb fi n din nb data fbn env Hm Hrep Ht Hfbn Hd Hfit) as (own' & din' & H1). by exists own', img, din'. }
  unfold append_block. rewrite (proj2 (Z.ltb_ge fbn NDIRECT)) by done. pose proof Hrep as [Hl Hnb _ Hind _ _ _]. pose proof Hm as [Hi Hfb _ _ _].
  destruct (Z.le_gt_cases nb NDIRECT) as [Hle|Hgt].
  - specialize (Ht Hle). assert (nb = NDIRECT /\ fbn = NDIRECT) as [-> ->] by lia. rewrite Ht. cbn [Z.eqb]. unfold fb', nb', blocks in *. consts.
    change (Z.max 12 (12 + 1)) with 13 in *. cbn [Z.ltb Z.compare Pos.compare Pos.compare_cont] in *. replace (fb + (13 + 1) - (12 + 0)) with (fb + 2) in * by lia.
    mrun. rewrite (bind_ok _ _ _ _ _ _ _ (new_block_eq img fb fi env ltac:(consts; lia))). mrun.
    destruct (use_indirect own img fb n din 12 data Hm ltac:(consts; lia) Hrep Ht) as (G & R & Ea). consts.
    assert (Hm1 := grown_ok _ _ _ _ _ _ _ Hm G ltac:(consts; lia)).
    destruct (entry_run (claim own fb (n, -1)) img (fb + 1) fi n (din_set_addr 12 fb din) 12 data 12 env Hm1 R) as (own' & img' & E & G' & R').
    { consts. rewrite Ea. lia. } { consts. rewrite Ea. apply claim_new. } { lia. } { consts. lia. } { change (Z.max 12 (12 + 1)) with 13. consts. lia. }
    change (Z.max 12 (12 + 1)) with 13 in *. replace (fb + 1 + (13 - 12)) with (fb + 2) in * by lia. consts.
    exists own', img', (din_set_addr 12 fb din). split_and!; [exact E|by eapply grown_trans|done| |apply din_type_addr; [done|lia]].
    unfold tight. consts. lia.
  - destruct Hind as [[_ ?]|[Hir Hio]]; [lia|]. rewrite (proj2 (Z.eqb_neq (din_addr din NDIRECT) 0)) by (unfold DATA in *; lia). mrun.
    assert (Hcost : fb' = fb + (nb' - nb)).
    { unfold fb', blocks. rewrite (proj2 (Z.ltb_lt NDIRECT nb)), (proj2 (Z.ltb_lt NDIRECT nb')) by lia. lia. }
    destruct (entry_run own img fb fi n din nb data fbn env Hm Hrep Hir Hio Hfbn ltac:(lia)) as (own' & img' & E & G' & R'); [fold nb'; lia|].
    fold nb' in E, G', R'. rewrite <- Hcost in E, G', R'. exists own', img', din. split_and!; try done. unfold tight. lia.
Qed.

Lemma write_rep own img fb n din nb data p1 (off := Z.of_nat (length data)) (fbn := off / 512) (x := slot img din fbn)
    (img' := wr img x (splice (Z.to_nat (off - fbn * 512)) p1 (rd img x))) :
  mk_ok own img fb -> rep own img fb n din nb data -> fbn < nb -> off + Z.of_nat (length p1) <= (fbn + 1) * 512 ->
  grown n own img fb own img' fb /\ rep own img' fb n din nb (data ++ p1).
Proof.
  intros Hm [Hl Hnb Hsz Hind Hslot Hfree Hbytes] Hlt Hfit. pose proof Hm as [Hi Hfb Hr Hz Hdt].
  assert (Hoff : 0 <= off - fbn * 512 < 512) by (unfold fbn; pose proof (Z.mod_pos_bound off 512); pose proof (Z.div_mod off 512); lia).
  assert (Hf0 : 0 <= fbn) by (apply Z.div_pos; lia). destruct (Hslot fbn ltac:(lia)) as [Hxr Hxo]. fold x in Hxr, Hxo.
  unfold DATA in *. assert (Hxl : length (rd img x) = 512%nat) by (apply Hi; lia).
  assert (Hspl : (Z.to_nat (off - fbn * 512) + length p1 <= length (rd img x))%nat) by lia.
  assert (Hrd : forall b, 0 <= b -> rd img' b = if x =? b then splice (Z.to_nat (off - fbn * 512)) p1 (rd img x) else rd img b)
    by (intros b Hb; apply rd_wr; [done|lia|done]).
  assert (Hs : forall bn, slot img' din bn = slot img din bn).
  { intros bn. unfold slot. destruct (bn <? NDIRECT); [done|]. destruct (Z.eqb_spec (din_addr din NDIRECT) 0); [done|].
    destruct Hind as [[? _]|[? Ho]]; [done|]. rewrite Hrd by lia. destruct (Z.eqb_spec x (din_addr din NDIRECT)) as [E|]; [|done].
    rewrite <- E, Hxo in Ho. injection Ho as Ho. lia. }
  assert (Hinj : forall bn, 0 <= bn < nb -> slot img din bn = x -> bn = fbn).
  { intros bn Hbn E. destruct (Hslot bn Hbn) as [_ Ho]. rewrite E, Hxo in Ho. by injection Ho as <-. }
  split.
  - split; try done.
    + intros b Hb. left. by apply Hr.
    + intros b Hb Ho. rewrite Hrd by lia. destruct (Z.eqb_spec x b) as [<-|]; [by specialize (Ho fbn)|done].
    + intros b Hb. rewrite Hrd, (proj2 (Z.eqb_neq x b)) by lia. by apply Hz.
    + apply wr_ok; [done|lia|]. by rewrite length_splice.
  - split; try done.
    + rewrite length_app. lia.
    + intros bn Hbn. rewrite Hs. by apply Hslot.
    + intros bn Hbn. rewrite Hs. by apply Hfree.
    + intros k Hk. rewrite Hs. assert (0 <= k / 512 < nb) as Hk512 by (split; [apply Z.div_pos; lia|apply Z.div_lt_upper_bound; lia]).
      destruct (Hslot (k / 512) Hk512) as [Hkr _]. rewrite Hrd by lia. pose proof (Hbytes k Hk) as Hb.
      pose proof (Z.mod_pos_bound k 512 ltac:(lia)) as Hmk. pose proof (Z.div_mod k 512 ltac:(lia)) as Hdk.
      destruct (Z.eqb_spec x (slot img din (k / 512))) as [E|Hne].
      * pose proof (Hinj _ Hk512 (eq_sym E)) as Ek. rewrite <- E in Hb.
        destruct (Z.lt_ge_cases k off) as [Hko|Hko]; [|destruct (Z.lt_ge_cases k (off + Z.of_nat (length p1))) as [Hkp|Hkp]].
        -- rewrite lookup_splice_out by lia. rewrite Hb, lookup_app_l by lia. done.
        -- rewrite lookup_splice_in by lia. rewrite lookup_app_r by lia. replace (Z.to_nat (k mod 512) - Z.to_nat (off - fbn * 512))%nat with (Z.to_nat k - length data)%nat by lia.
           destruct (p1 !! (Z.to_nat k - length data)%nat) eqn:Ep; [done|]. apply lookup_ge_None in Ep. lia.
        -- rewrite lookup_splice_out by lia. rewrite Hb. rewrite !lookup_ge_None_2; [done|rewrite length_app; lia|lia].
      * rewrite Hb. do 2 f_equal. destruct (Z.lt_ge_cases k off); [rewrite lookup_app_l by lia; done|].
        assert ((fbn + 1) * 512 <= k) as Hge.
        { assert (fbn <> k / 512) by (intros E; apply Hne; by rewrite <- E). assert (fbn <= k / 512) by (apply Z.div_le_mono; lia). lia. }
        rewrite !lookup_ge_None_2; [done|rewrite length_app; lia|lia].
Qed.

Definition nblk (len : Z) : Z := (len + 511) / 512.
Definition len (l : list Z) : Z := Z.of_nat (length l).

Lemma blocks_mono a b : a <= b -> blocks a <= blocks b.
Proof. intros Hab. unfold blocks. destruct (Z.ltb_spec NDIRECT a), (Z.ltb_spec NDIRECT b); lia. Qed.

Lemma nblk_at l k : 0 <= k -> k * 512 < l <= (k + 1) * 512 -> nblk l = k + 1.
Proof. intros Hk Hl. unfold nblk. symmetry. apply Z.div_unique with (l + 511 - (k + 1) * 512); lia. Qed.

Lemma nblk_mono a b : a <= b -> nblk a <= nblk b.
Proof. intros Hab. apply Z.div_le_mono; lia. Qed.

Lemma nblk_bounds l : 0 <= l -> l / 512 <= nblk l <= l / 512 + 1 /\ l <= nblk l * 512 /\ 0 <= nblk l.
Proof. intros Hl. unfold nblk. Z.div_mod_to_equations. lia. Qed.

Lemma loop_run n fi env fuel : forall p own img fb din data,
  mk_ok own img fb -> rep own img fb n din (nblk (len data)) data -> tight din (nblk (len data)) -> (length p <= fuel)%nat ->
  len data + len p <= MAXFILE * 512 ->
  let fb' := fb + blocks (nblk (len data + len p)) - blocks (nblk (len data)) in fb' <= size ->
  exists own' img' din', iappend_loop fuel din (len data) p (st img fb fi) env = Ok (din', len data + len p) (st img' fb' fi) env /\
    grown n own img fb own' img' fb' /\ rep own' img' fb' n din' (nblk (len data + len p)) (data ++ p) /\
    tight din' (nblk (len data + len p)) /\ din_type din' = din_type din.
Proof.
  induction fuel as [|fuel IH]; intros p own img fb din data Hm Hrep Ht Hfuel Hmax fb' Hfit.
  - destruct p; [|simpl in Hfuel; lia]. unfold fb', len in *. simpl length in *. rewrite Z.add_0_r, Z.add_simpl_r, app_nil_r in *.
    exists own, img, din. split_and!; try done. by apply grown_refl.
  - destruct p as [|c p0].
    { unfold fb', len in *. simpl length in *. rewrite Z.add_0_r, Z.add_simpl_r, app_nil_r in *. exists own, img, din. split_and!; try done. by apply grown_refl. }
    cbn [iappend_loop]. set (p := c :: p0) in *. assert (Hp : 1 <= len p) by (unfold len, p; simpl; lia).
    assert (Hd0 : 0 <= len data) by (unfold len; lia). set (off := len data) in *. set (fbn := off / 512).
    destruct (nblk_bounds off Hd0) as (Hn1 & Hn2 & Hn3). fold fbn in Hn1.
    assert (Hf0 : 0 <= fbn) by (apply Z.div_pos; lia). assert (Hfm : fbn < MAXFILE) by (apply Z.div_lt_upper_bound; lia).
    rewrite (proj2 (Z.ltb_lt fbn MAXFILE)) by done. cbn [negb].
    assert (Hoff : fbn * 512 <= off < (fbn + 1) * 512) by (unfold fbn; pose proof (Z.mod_pos_bound off 512); pose proof (Z.div_mod off 512); lia).
    set (n1 := Z.min (len p) ((fbn + 1) * 512 - off)). assert (Hn : 1 <= n1 <= len p) by lia.
    assert (Hnb1 : nblk (off + n1) = fbn + 1) by (apply nblk_at; lia).
    assert (Hge : fbn + 1 <= nblk (off + len p)) by (rewrite <- Hnb1; apply nblk_mono; lia). pose proof (blocks_mono _ _ Hge) as Hbm.
    assert (Hmaxn : Z.max (nblk off) (fbn + 1) = fbn + 1) by lia.
    destruct (append_block_run own img fb fi n din (nblk off) data fbn env Hm Hrep Ht ltac:(lia) Hfm) as (own1 & img1 & din1 & E1 & G1 & R1 & T1 & Ty1).
    { rewrite Hmaxn. unfold fb' in Hfit. lia. }
    rewrite Hmaxn in *. mstep E1. set (fb1 := fb + blocks (fbn + 1) - blocks (nblk off)) in *.
    assert (Hm1 : mk_ok own1 img1 fb1) by (eapply grown_ok; [exact Hm|exact G1|unfold fb', fb1 in *; lia]).
    pose proof R1 as [_ _ _ _ Hslot1 _ _]. destruct (Hslot1 fbn ltac:(lia)) as [Hxr _]. pose proof Hm1 as [Hi1 Hfb1 _ _ _].
    set (x := slot img1 din1 fbn) in *. assert (Hxs : 0 <= x < size) by (unfold DATA in *; lia). mstep (rsect_st x img1 fb1 fi env Hi1 Hxs). mstep (wsect_st x (splice (Z.to_nat (off - fbn * 512)) (take (Z.to_nat n1) p) (rd img1 x)) img1 fb1 fi env Hi1 Hxs).
    assert (Htl : len (take (Z.to_nat n1) p) = n1) by (unfold len in *; rewrite length_take; lia).
    destruct (write_rep own1 img1 fb1 n din1 (fbn + 1) data (take (Z.to_nat n1) p) Hm1 R1) as [G2 R2]; [change (fbn < fbn + 1); lia|change (len data + len (take (Z.to_nat n1) p) <= (fbn + 1) * 512); rewrite Htl; lia|].
    fold (len data) in G2, R2. fold off fbn x in G2, R2. set (img2 := wr img1 x _) in *. set (p1 := take (Z.to_nat n1) p) in *.
    assert (Hm2 : mk_ok own1 img2 fb1) by (eapply grown_ok; [exact Hm1|exact G2|lia]).
    assert (Hld : len (data ++ p1) = off + n1) by (unfold len in *; rewrite length_app; fold (len data) off; lia).
    assert (Hld2 : len (drop (Z.to_nat n1) p) = len p - n1) by (unfold len in *; rewrite length_drop; lia).
    rewrite <- Hnb1, <- Hld in R2, T1. assert (Eoff : u32 (off + Z.of_nat (Z.to_nat n1)) = len (data ++ p1)).
    { rewrite Z2Nat.id, Hld by lia. apply u32_small. change MAXFILE with 140 in *. lia. }
    change (Z.of_nat (length p)) with (len p). fold n1. rewrite Eoff.
    destruct (IH (drop (Z.to_nat n1) p) own1 img2 fb1 din1 (data ++ p1) Hm2 R2 T1) as (own' & img' & din' & E & G & R & T & Ty).
    { rewrite length_drop. unfold len in Hn. lia. } { lia. }
    { rewrite Hld, Hld2, Hnb1. unfold fb', fb1 in *. replace (off + n1 + (len p - n1)) with (off + len p) by lia. lia. }
    rewrite Hld, Hld2 in *. replace (off + n1 + (len p - n1)) with (off + len p) in * by lia. rewrite Hnb1 in *.
    replace (fb1 + blocks (nblk (off + len p)) - blocks (fbn + 1)) with fb' in * by (unfold fb', fb1; lia).
    rewrite <- app_assoc in R. unfold p1 in R. rewrite take_drop in R.
    exists own', img', din'. split_and!; [exact E| |done|done|congruence].
    eapply grown_trans; [exact G1|]. eapply grown_trans; [exact G2|exact G].
Qed.

(** ** The table of inodes *)

Definition dinode (img : list (list Z)) (n : Z) : list Z := take 64 (drop (dinode_off n) (rd img (i2b n))).
Definition put_inode (img : list (list Z)) (n : Z) (din : list Z) : list (list Z) :=
  wr img (i2b n) (splice (dinode_off n) din (rd img (i2b n))).

(** The sectors that hold inodes lie before the blocks of files. *)
Lemma i2b_range n : 0 <= n < ninodes -> 2 <= i2b n < 27.
Proof. intros Hn. unfold i2b, ninodes in *. change IPB with 8. Z.div_mod_to_equations. lia. Qed.

Lemma dinode_off_range n : (dinode_off n + 64 <= 512)%nat /\ Z.of_nat (dinode_off n) = n mod 8 * 64.
Proof. unfold dinode_off. change IPB with 8. change DINODE_SIZE with 64. pose proof (Z.mod_pos_bound n 8). lia. Qed.

Section Inodes.
Context (img : list (list Z)) (Hi : img_ok img) (n : Z) (Hn : 0 <= n < ninodes) (din : list Z) (Hd : length din = 64%nat).

Lemma rd_put_inode b : 0 <= b -> b <> i2b n -> rd (put_inode img n din) b = rd img b.
Proof.
  intros Hb Hne. pose proof (i2b_range n Hn). unfold put_inode. rewrite rd_wr by (done || (change size with 1024; lia)).
  by rewrite (proj2 (Z.eqb_neq (i2b n) b)) by done.
Qed.

Lemma put_inode_ok : img_ok (put_inode img n din).
Proof.
  pose proof (i2b_range n Hn). pose proof (dinode_off_range n) as [Ho _]. apply wr_ok; [done|change size with 1024; lia|].
  assert (length (rd img (i2b n)) = 512%nat) as Hl by (apply Hi; change size with 1024; lia). rewrite length_splice by lia. done.
Qed.

Lemma dinode_put m : 0 <= m < ninodes -> dinode (put_inode img n din) m = if n =? m then din else dinode img m.
Proof.
  intros Hm. pose proof (i2b_range n Hn) as Hr. pose proof (dinode_off_range n) as [Ho Ho']. pose proof (dinode_off_range m) as [Hom Hom'].
  assert (length (rd img (i2b n)) = 512%nat) as Hl by (apply Hi; change size with 1024; lia).
  unfold dinode. destruct (Z.eq_dec (i2b n) (i2b m)) as [E|E].
  - rewrite <- E. unfold put_inode. rewrite rd_wr, Z.eqb_refl by (done || (change size with 1024; lia)). destruct (Z.eqb_spec n m) as [<-|Hne].
    + rewrite <- Hd at 1. apply sub_splice_same. lia.
    + apply sub_splice_other; [lia|]. rewrite Hd. unfold i2b in E. change IPB with 8 in E.
      assert (n mod 8 <> m mod 8) by (Z.div_mod_to_equations; lia). lia.
  - pose proof (i2b_range m Hm). rewrite rd_put_inode by (done || lia). rewrite (proj2 (Z.eqb_neq n m)); [done|]. by intros ->.
Qed.
End Inodes.

Lemma rinode_run n img fb fi env : img_ok img -> 0 <= n < ninodes -> rinode n (st img fb fi) env = Ok (dinode img n) (st img fb fi) env.
Proof.
  intros Hi Hn. pose proof (i2b_range n Hn). unfold rinode. by rewrite (bind_ok _ _ _ _ _ _ _ (rsect_st (i2b n) img fb fi env Hi ltac:(change size with 1024; lia))).
Qed.

Lemma winode_run n din img fb fi env : img_ok img -> 0 <= n < ninodes ->
  winode n din (st img fb fi) env = Ok tt (st (put_inode img n din) fb fi) env.
Proof.
  intros Hi Hn. pose proof (i2b_range n Hn). assert (Hs : 0 <= i2b n < size) by (change size with 1024; lia). unfold winode.
  rewrite (bind_ok _ _ _ _ _ _ _ (rsect_st (i2b n) img fb fi env Hi Hs)). by apply wsect_st.
Qed.

Lemma length_dinode img n : img_ok img -> 0 <= n < ninodes -> length (dinode img n) = 64%nat.
Proof.
  intros Hi Hn. pose proof (i2b_range n Hn). pose proof (dinode_off_range n) as [Ho _]. unfold dinode.
  assert (length (rd img (i2b n)) = 512%nat) as Hl by (apply Hi; change size with 1024; lia). rewrite length_take, length_drop. lia.
Qed.

(** ** The file system under construction *)

(** The file [n] has type [t] and contains [data]. *)
Record file_at (own : Z -> option (Z * Z)) (img : list (list Z)) (fb n t : Z) (data : list Z) : Prop := {
  f_rep : rep own img fb n (dinode img n) (nblk (len data)) data;
  f_tight : tight (dinode img n) (nblk (len data));
  f_size : din_size (dinode img n) = len data;
  f_type : din_type (dinode img n) = t
}.

(** [fs n] is the type and the contents of file [n]; [fi] is the next inode.
    Outside the inodes and the blocks of files the image is [img0]. *)
Record fsinv (img0 : list (list Z)) (own : Z -> option (Z * Z)) (img : list (list Z)) (fb fi : Z) (fs : Z -> Z * list Z) : Prop := {
  i_ok : mk_ok own img fb;
  i_fi : 1 <= fi <= ninodes;
  i_files : forall n, 1 <= n < fi -> file_at own img fb n (fs n).1 (fs n).2;
  i_meta : forall b, 0 <= b < 2 \/ 27 <= b < DATA -> rd img b = rd img0 b
}.

Definition upd (fs : Z -> Z * list Z) (n : Z) (x : Z * list Z) (m : Z) : Z * list Z := if n =? m then x else fs m.

(** Files other than the one that is written to are still there. *)
Lemma file_other own img fb own' img' fb' n m t data din : mk_ok own img fb -> m <> n -> 0 <= n < ninodes -> 0 <= m < ninodes ->
  length din = 64%nat -> grown m own img fb own' img' fb' -> fb' <= size -> file_at own img fb n t data ->
  file_at own' (put_inode img' m din) fb' n t data.
Proof.
  intros Hm Hne Hn Hmn Hl G Hfit [R T Sz Ty]. pose proof (grown_ok _ _ _ _ _ _ _ Hm G Hfit) as Hm'. pose proof G as [_ Gown _ _ Gimg _ Gi].
  assert (Ed : dinode (put_inode img' m din) n = dinode img n).
  { rewrite dinode_put by done. rewrite (proj2 (Z.eqb_neq m n)) by done. unfold dinode. f_equal. f_equal. pose proof (i2b_range n Hn).
    apply Gimg; [destruct Hm as [_ ? _ _ _]; unfold DATA in *; lia|]. intros s E. destruct Hm as [_ _ _ _ Hd]. apply Hd in E. unfold DATA in E. lia. }
  split; rewrite Ed; try done. apply (rep_frame own' own' img' _ fb' fb'); [lia| |by apply (file_rep_other own own' img img' fb fb' n m)].
  intros b s Hb Ho. split; [done|]. apply rd_put_inode; try done; [lia|]. destruct Hm' as [_ _ _ _ Hd]. apply Hd in Ho. unfold DATA in Ho. pose proof (i2b_range m Hmn). lia.
Qed.

Lemma iappend_run img0 own img fb fi fs n p env (data := (fs n).2) (fb' := fb + blocks (nblk (len data + len p)) - blocks (nblk (len data))) :
  fsinv img0 own img fb fi fs -> 1 <= n < fi -> len data + len p <= MAXFILE * 512 -> fb' <= size ->
  exists own' img', iappend n p (st img fb fi) env = Ok tt (st img' fb' fi) env /\
    fsinv img0 own' img' fb' fi (upd fs n ((fs n).1, data ++ p)).
Proof.
  intros [Hm Hfi Hf Hmeta] Hn Hmax Hfit. pose proof (Hf n Hn) as [R T Sz Ty]. fold data in R, T, Sz. pose proof Hm as [Hi Hfb _ _ Hdata].
  assert (Hnn : 0 <= n < ninodes) by lia. unfold iappend. mstep (rinode_run n img fb fi env Hi Hnn). rewrite Sz.
  destruct (loop_run n fi env (length p) p own img fb (dinode img n) data Hm R T (le_n _) Hmax Hfit) as (own' & img' & din & E & G & R' & T' & Ty').
  mstep E. pose proof R' as [Hl _ _ _ _ _ _]. pose proof G as [_ _ _ _ Gimg _ Gi]. pose proof (grown_ok _ _ _ _ _ _ _ Hm G Hfit) as Hm'.
  set (din2 := din_set_size (len data + len p) din). assert (Hl2 : length din2 = 64%nat) by (by apply length_set_size).
  assert (Hsame : forall b, 0 <= b -> DATA <= b \/ (0 <= b < 2 \/ 27 <= b < DATA) -> rd (put_inode img' n din2) b = rd img' b).
  { intros b Hb Hr. apply rd_put_inode; try done. pose proof (i2b_range n Hnn). unfold DATA in Hr. lia. }
  exists own', (put_inode img' n din2). split; [by apply winode_run|]. split; [|done| |].
  - destruct Hm' as [Mi Mfb Mr Mz Md]. split; try done; [by apply put_inode_ok|]. intros b Hb. rewrite Hsame by (unfold DATA in *; lia). by apply Mz.
  - intros m Hmr. unfold upd. destruct (Z.eqb_spec n m) as [<-|Hne].
    + cbn [fst snd]. assert (Ed : dinode (put_inode img' n din2) n = din2) by (rewrite dinode_put by done; by rewrite Z.eqb_refl).
      assert (El : len (data ++ p) = len data + len p) by (unfold len; rewrite length_app; lia).
      assert (Ha : forall k, 0 <= k <= 12 -> din_addr din2 k = din_addr din k) by (intros k Hk; by apply din_addr_size).
      split; rewrite Ed, ?El.
      * apply (rep_frame own' own' img' _ fb' fb'); [lia| |by apply (rep_addrs own' img' fb' n din)].
        intros b s Hb Ho. split; [done|]. apply Hsame; [lia|left]. destruct Hm' as [_ _ _ _ Md]. by eapply Md.
      * intros Hle. rewrite Ha by (change NDIRECT with 12; lia). by apply T'.
      * apply din_size_set; [done|]. change MAXFILE with 140 in Hmax. unfold len in *. lia.
      * unfold din2. rewrite din_type_size by done. by rewrite Ty'.
    + apply (file_other own img fb own' img' fb' m n); try done; [lia|]. by apply Hf.
  - intros b Hb. rewrite Hsame; [|lia|by right]. rewrite Gimg; [by apply Hmeta|unfold DATA in *; lia|].
    intros s Eo. apply Hdata in Eo. unfold DATA in *. lia.
Qed.
End MkfsFacts.
