(* ===== verification/MkfsImage.v ===== *)
(** The whole run of tools/mkfs.c: what the image contains, and that the
    kernel's readi reads the files back. *)
From S2P Require Import Prelude Types Cstring Spinlock Sched Bio BioRep Log LogFacts Inode BlockFacts Console Fs FileData Mkfs MkfsFacts.
Import Cstring Log Inode BlockFacts Console Fs FileData Mkfs MkfsFacts.

Module MkfsImage.

(** ** New inodes and the size of the root directory *)

Lemma fsinv_put img0 own img fb fi fs n t data din : fsinv img0 own img fb fi fs -> 1 <= n <= fi -> n < ninodes ->
  rep own img fb n din (nblk (len data)) data -> tight din (nblk (len data)) -> din_size din = len data -> din_type din = t ->
  fsinv img0 own (put_inode img n din) fb (Z.max fi (n + 1)) (upd fs n (t, data)).
Proof.
  intros [Hm Hfi Hf Hmeta] Hn Hnn R T Sz Ty. pose proof Hm as [Hi Hfb Hr Hz Hd]. pose proof R as [Hl _ _ _ _ _ _]. pose proof (i2b_range n ltac:(lia)) as Hb2.
  assert (Hsame : forall b, 0 <= b -> DATA <= b \/ (0 <= b < 2 \/ 27 <= b < DATA) -> rd (put_inode img n din) b = rd img b).
  { intros b Hb Hrg. apply rd_put_inode; try done; unfold DATA in *; lia. }
  split; [| lia | |].
  - split; try done; [by apply put_inode_ok; try lia|]. intros b Hb. rewrite Hsame by (unfold DATA in *; lia). by apply Hz.
  - intros m Hmr. unfold upd. destruct (Z.eqb_spec n m) as [<-|Hne]; cbn [fst snd].
    + assert (Ed : dinode (put_inode img n din) n = din) by (rewrite dinode_put by (done || lia); by rewrite Z.eqb_refl). split; rewrite ?Ed; try done.
      apply (rep_frame own own img _ fb fb); [lia| |done]. intros b s Hb Ho. split; [done|]. apply Hsame; [lia|left]. by eapply Hd.
    + apply (file_other own img fb own img fb m n); try done; [lia|lia|by apply grown_refl|lia|]. apply Hf. lia.
  - intros b Hb. rewrite Hsame; [by apply Hmeta|unfold DATA in *; lia|by right].
Qed.

Lemma get_zeroes k o n : (o + k <= n)%nat -> get_le k o (replicate n 0) = 0.
Proof.
  intros Ho. unfold get_le. rewrite drop_replicate, take_replicate, Nat.min_l by lia. clear. induction k as [|k IH]; [done|]. simpl. rewrite IH. done.
Qed.

Lemma new_dinode_facts t : 0 <= t < 2 ^ 16 -> length (new_dinode t) = 64%nat /\ (forall j, 0 <= j <= 12 -> din_addr (new_dinode t) j = 0) /\
  din_size (new_dinode t) = 0 /\ din_type (new_dinode t) = t.
Proof.
  intros Ht. unfold new_dinode. set (z := replicate (Z.to_nat DINODE_SIZE) 0). assert (Hz : length z = 64%nat) by done.
  set (d1 := splice 0 (xshort t) z). set (d2 := splice 6 (xshort 1) d1).
  assert (Hl1 : length d1 = 64%nat) by (unfold d1; rewrite length_splice; [done|unfold xshort; rewrite length_le_bytes; lia]).
  assert (Hl2 : length d2 = 64%nat) by (unfold d2; rewrite length_splice; [done|unfold xshort; rewrite length_le_bytes; lia]).
  split_and!; [by apply length_set_size| | |].
  - intros j Hj. rewrite din_addr_size by done. unfold din_addr, d2, d1, xshort. fold (put16 0 t z). fold (put16 6 1 (put16 0 t z)).
    rewrite get_put_other by (rewrite ?length_put_le; lia). rewrite get_put_other by lia. unfold z. apply get_zeroes. change (Z.to_nat DINODE_SIZE) with 64%nat. lia.
  - by apply din_size_set.
  - rewrite din_type_size by done. unfold din_type, d2, d1, xshort. fold (put16 0 t z). fold (put16 6 1 (put16 0 t z)).
    rewrite get_put_other by (rewrite ?length_put_le; lia). rewrite get_put_same by lia. apply Z.mod_small. change (256 ^ Z.of_nat 2) with (2 ^ 16). lia.
Qed.

Lemma ialloc_run img0 own img fb fi fs t env : fsinv img0 own img fb fi fs -> fi < ninodes -> 0 <= t < 2 ^ 16 ->
  exists img', mk_ialloc t (st img fb fi) env = Ok fi (st img' fb (fi + 1)) env /\ fsinv img0 own img' fb (fi + 1) (upd fs fi (t, [])).
Proof.
  intros Hinv Hfi Ht. pose proof Hinv as [Hm Hfi' _ _]. pose proof Hm as [Hi _ _ _ _]. destruct (new_dinode_facts t Ht) as (Hl & Ha & Hs & Hty).
  exists (put_inode img fi (new_dinode t)). split.
  - unfold mk_ialloc. mrun. unfold set_freeinode, st. cbn [fs_img freeblock usedblocks freeinode]. rewrite u32_small by (unfold ninodes in *; lia).
    change (Mkmk img fb fb (fi + 1)) with (st img fb (fi + 1)). by rewrite (bind_ok _ _ _ _ _ _ _ (winode_run fi (new_dinode t) img fb (fi + 1) env Hi ltac:(lia))).
  - replace (fi + 1) with (Z.max fi (fi + 1)) by lia. apply (fsinv_put img0 own img fb fi fs fi t []); try done; try lia.
    + assert (Hslot : forall bn, 0 <= bn < MAXFILE -> slot img (new_dinode t) bn = 0).
      { intros bn Hbn. unfold slot. change NDIRECT with 12. rewrite (Ha 12) by lia. destruct (Z.ltb_spec bn 12); [apply Ha; lia|done]. }
      change (nblk (len [])) with 0. split; try done; try lia. left. split; [apply Ha; change NDIRECT with 12; lia|done].
Qed.

Lemma rep_pad own img fb n din nb data z : rep own img fb n din nb data -> len data + Z.of_nat z <= nb * 512 ->
  rep own img fb n din nb (data ++ replicate z 0).
Proof.
  intros [Hl Hnb Hsz Hind Hslot Hfree Hbytes] Hz. split; try done.
  - rewrite length_app, length_replicate. unfold len in Hz. lia.
  - intros k Hk. rewrite Hbytes by done. f_equal. destruct (decide (Z.to_nat k < length data)%nat); [by rewrite lookup_app_l by lia|].
    rewrite lookup_app_r, (lookup_ge_None_2 data) by lia. destruct (replicate z 0 !! (Z.to_nat k - length data)%nat) as [v|] eqn:E; [|done].
    by apply lookup_replicate in E as [-> _].
Qed.

(** The root directory is filled up with zeroes to a full block. *)
Definition padded (data : list Z) : list Z := data ++ replicate (Z.to_nat ((len data / 512 + 1) * 512 - len data)) 0.

Lemma len_padded data : len (padded data) = (len data / 512 + 1) * 512.
Proof.
  unfold padded, len. rewrite length_app, length_replicate. pose proof (Z.mod_pos_bound (Z.of_nat (length data)) 512).
  pose proof (Z.div_mod (Z.of_nat (length data)) 512). lia.
Qed.

Lemma nblk_padded data : len data mod 512 <> 0 -> nblk (len (padded data)) = nblk (len data).
Proof. intros Hm. rewrite len_padded. unfold nblk. assert (0 <= len data) by (unfold len; lia). Z.div_mod_to_equations. lia. Qed.

Lemma fix_root_run img0 own img fb fi fs n env (data := (fs n).2) : fsinv img0 own img fb fi fs -> 1 <= n < fi -> len data mod 512 <> 0 ->
  exists img', fix_root n (st img fb fi) env = Ok tt (st img' fb fi) env /\ fsinv img0 own img' fb fi (upd fs n ((fs n).1, padded data)).
Proof.
  intros Hinv Hn Hmod. pose proof Hinv as [Hm Hfi Hf _]. pose proof Hm as [Hi _ _ _ _]. pose proof (Hf n Hn) as [R T Sz Ty]. fold data in R, T, Sz.
  pose proof R as [Hl Hnb Hsz _ _ _ _]. assert (0 <= len data) by (unfold len; lia). change MAXFILE with 140 in Hnb. fold (len data) in Hsz.
  pose proof (len_padded data) as Hlp. pose proof (nblk_padded data Hmod) as Hnp. destruct (nblk_bounds (len data)) as (H1 & H2 & H3); [done|].
  assert (Hle : (len data / 512 + 1) * 512 <= nblk (len data) * 512) by (rewrite <- Hlp; rewrite <- Hnp; apply nblk_bounds; unfold len; lia).
  exists (put_inode img n (din_set_size (len (padded data)) (dinode img n))). split.
  - unfold fix_root. mstep (rinode_run n img fb fi env Hi ltac:(lia)). rewrite Sz. change BSIZE with 512.
    rewrite u32_small by (assert (0 <= len data / 512) by (apply Z.div_pos; lia); lia). rewrite Hlp. apply winode_run; [done|lia].
  - replace fi with (Z.max fi (n + 1)) by lia. apply fsinv_put; try done; [lia|lia| | | |].
    + rewrite Hnp. apply (rep_addrs own img fb n (dinode img n)); [intros k Hk; by apply din_addr_size|by apply length_set_size|].
      apply rep_pad; [done|]. rewrite Z2Nat.id by lia. lia.
    + rewrite Hnp. intros Hle'. rewrite din_addr_size by (done || (change NDIRECT with 12; lia)). by apply T.
    + apply din_size_set; [done|]. rewrite Hlp. assert (0 <= len data / 512) by (apply Z.div_pos; lia). lia.
    + rewrite din_type_size by done. done.
Qed.

(** ** Adding files *)

Definition cost (data : list Z) : Z := blocks (nblk (len data)).

Lemma len_app a b : len (a ++ b) = len a + len b.
Proof. unfold len. rewrite length_app. lia. Qed.
Lemma len_nonneg l : 0 <= len l.
Proof. unfold len. lia. Qed.

Lemma cost_mono a b : cost a <= cost (a ++ b).
Proof. unfold cost. apply blocks_mono, nblk_mono. rewrite len_app. pose proof (len_nonneg b). lia. Qed.

Lemma cost_nonneg a : 0 <= cost a.
Proof. unfold cost. change 0 with (blocks (nblk 0)). apply blocks_mono, nblk_mono, len_nonneg. Qed.

Lemma fsinv_ext img0 own img fb fi fs fs' : (forall n, 1 <= n < fi -> fs' n = fs n) -> fsinv img0 own img fb fi fs -> fsinv img0 own img fb fi fs'.
Proof. intros He [Hm Hfi Hf Hmeta]. split; try done. intros n Hn. rewrite He by done. by apply Hf. Qed.

Lemma append_run img0 own img fb fi fs n t d p env (fb' := fb + cost (d ++ p) - cost d) :
  fsinv img0 own img fb fi fs -> 1 <= n < fi -> fs n = (t, d) -> len (d ++ p) <= MAXFILE * 512 -> fb' <= size ->
  exists own' img', iappend n p (st img fb fi) env = Ok tt (st img' fb' fi) env /\ fsinv img0 own' img' fb' fi (upd fs n (t, d ++ p)).
Proof.
  intros Hinv Hn Hd Hmax Hfit. unfold fb', cost in *. rewrite len_app in *. pose proof (iappend_run img0 own img fb fi fs n p env Hinv Hn) as Hr.
  rewrite Hd in Hr. by apply Hr.
Qed.

Lemma appends_run img0 fi env n t bs : forall own img fb fs d (fb' := fb + cost (d ++ concat bs) - cost d),
  fsinv img0 own img fb fi fs -> 1 <= n < fi -> fs n = (t, d) -> len (d ++ concat bs) <= MAXFILE * 512 -> fb' <= size ->
  exists own' img', mfor bs (iappend n) (st img fb fi) env = Ok tt (st img' fb' fi) env /\
    fsinv img0 own' img' fb' fi (upd fs n (t, d ++ concat bs)).
Proof.
  induction bs as [|b bs IH]; intros own img fb fs d fb' Hinv Hn Hd Hmax Hfit; cbn [concat mfor] in *.
  - unfold fb' in *. rewrite app_nil_r, Z.add_simpl_r in *. exists own, img. split; [done|]. eapply fsinv_ext; [|exact Hinv].
    intros m Hm. unfold upd. destruct (Z.eqb_spec n m) as [<-|]; done.
  - assert (Efb : fb' = fb + cost ((d ++ b) ++ concat bs) - cost d) by (unfold fb'; cbn [concat]; by rewrite app_assoc).
    clearbody fb'. rewrite app_assoc in *. pose proof (cost_mono (d ++ b) (concat bs)) as Hc.
    destruct (append_run img0 own img fb fi fs n t d b env Hinv Hn Hd) as (own1 & img1 & E1 & Hinv1).
    { rewrite len_app in Hmax. pose proof (len_nonneg (concat bs)). lia. } { lia. }
    mstep E1. destruct (IH own1 img1 _ _ (d ++ b) Hinv1 Hn) as (own' & img' & E & Hinv'); [unfold upd; by rewrite Z.eqb_refl|done|lia|].
    replace (fb + cost (d ++ b) - cost d + cost ((d ++ b) ++ concat bs) - cost (d ++ b)) with fb' in * by lia.
    exists own', img'. split; [done|]. eapply fsinv_ext; [|exact Hinv']. intros m Hm. unfold upd. by destruct (n =? m).
Qed.

(** The entries of the files in the root directory. *)
Fixpoint entries (fi : Z) (args : list (list Z)) : list Z :=
  match args with [] => [] | a :: args' => dirent fi (skip_underscore a) ++ entries (fi + 1) args' end.
Fixpoint costs (blks : list (list (list Z))) : Z :=
  match blks with [] => 0 | b :: blks' => cost (concat b) + costs blks' end.

Lemma costs_nonneg blks : 0 <= costs blks.
Proof. induction blks as [|b blks IH]; simpl; [lia|]. pose proof (cost_nonneg (concat b)). lia. Qed.

Lemma add_file_run host img0 env own img fb fi fs root a b (root' := root ++ dirent fi (skip_underscore a))
    (fb' := fb + cost root' - cost root + cost (concat b)) :
  host a = Some b -> fsinv img0 own img fb fi fs -> 2 <= fi < ninodes -> fs 1 = (T_DIR, root) -> len (concat b) <= MAXFILE * 512 ->
  len root' <= MAXFILE * 512 -> fb' <= size ->
  exists own' img' fs', add_file host 1 a (st img fb fi) env = Ok tt (st img' fb' (fi + 1)) env /\
    fsinv img0 own' img' fb' (fi + 1) fs' /\ fs' 1 = (T_DIR, root') /\ fs' fi = (T_FILE, concat b) /\
    forall m, 2 <= m < fi -> fs' m = fs m.
Proof.
  intros Hh Hinv Hfi Hroot Hb Hr Hfit. unfold add_file. rewrite Hh. pose proof (cost_nonneg (concat b)) as Hcb.
  destruct (ialloc_run img0 own img fb fi fs T_FILE env Hinv ltac:(lia) ltac:(done)) as (img1 & E1 & Hinv1). mstep E1.
  destruct (append_run img0 own img1 fb (fi + 1) _ 1 T_DIR root (dirent fi (skip_underscore a)) env Hinv1) as (own2 & img2 & E2 & Hinv2);
    [lia|unfold upd; by rewrite (proj2 (Z.eqb_neq fi 1)) by lia|done|unfold fb' in *; fold root'; lia|]. fold root' in E2, Hinv2.
  mstep E2. destruct (appends_run img0 (fi + 1) env fi T_FILE b own2 img2 _ _ [] Hinv2) as (own3 & img3 & E3 & Hinv3);
    [lia|unfold upd; rewrite (proj2 (Z.eqb_neq 1 fi)) by lia; by rewrite Z.eqb_refl|done|unfold fb' in *; simpl app; change (cost []) with 0; lia|].
  change (cost []) with 0 in *. simpl app in *. rewrite Z.sub_0_r in *. fold fb' in E3, Hinv3.
  eexists own3, img3, _. split_and!; [exact E3|exact Hinv3| | |].
  - unfold upd. by rewrite (proj2 (Z.eqb_neq fi 1)) by lia.
  - unfold upd. by rewrite Z.eqb_refl.
  - intros m Hm. unfold upd. by rewrite (proj2 (Z.eqb_neq fi m)), (proj2 (Z.eqb_neq 1 m)) by lia.
Qed.

Lemma add_files_run host img0 env args blks : Forall2 (fun a b => host a = Some b) args blks ->
  forall own img fb fi fs root (root' := root ++ entries fi args) (fb' := fb + cost root' - cost root + costs blks) (fi' := fi + Z.of_nat (length args)),
  fsinv img0 own img fb fi fs -> 2 <= fi -> fi' <= ninodes -> fs 1 = (T_DIR, root) ->
  Forall (fun b => len (concat b) <= MAXFILE * 512) blks -> len root' <= MAXFILE * 512 -> fb' <= size ->
  exists own' img' fs', mfor args (add_file host 1) (st img fb fi) env = Ok tt (st img' fb' fi') env /\
    fsinv img0 own' img' fb' fi' fs' /\ fs' 1 = (T_DIR, root') /\
    (forall j b, blks !! j = Some b -> fs' (fi + Z.of_nat j) = (T_FILE, concat b)) /\ forall m, 2 <= m < fi -> fs' m = fs m.
Proof.
  induction 1 as [|a b args blks Hab _ IH]; intros own img fb fi fs root root' fb' fi' Hinv Hfi Hfi' Hroot Hblks Hr Hfit.
  - unfold fb', fi', root' in *. cbn [entries costs length mfor] in *. rewrite app_nil_r, Z.add_simpl_r, !Z.add_0_r in *. by exists own, img, fs.
  - inversion Hblks as [|? ? Hb Hblks']; subst. set (root1 := root ++ dirent fi (skip_underscore a)).
    assert (Er : root' = root1 ++ entries (fi + 1) args) by (unfold root', root1; cbn [entries]; by rewrite app_assoc).
    assert (Efb : fb' = fb + cost root' - cost root + (cost (concat b) + costs blks)) by done.
    assert (Efi : fi' = fi + 1 + Z.of_nat (length args)) by (unfold fi'; cbn [length]; lia).
    clearbody fb' root' fi'. subst root'. cbn [mfor]. pose proof (costs_nonneg blks) as Hcs.
    pose proof (cost_mono root1 (entries (fi + 1) args)) as Hcm. set (fb1 := fb + cost root1 - cost root + cost (concat b)).
    destruct (add_file_run host img0 env own img fb fi fs root a b Hab Hinv ltac:(lia) Hroot Hb) as (own1 & img1 & fs1 & E1 & Hinv1 & R1 & F1 & O1).
    { fold root1. rewrite len_app in Hr. pose proof (len_nonneg (entries (fi + 1) args)). lia. } { fold root1. lia. }
    fold root1 in E1, Hinv1, R1. fold fb1 in E1, Hinv1. mstep E1.
    destruct (IH own1 img1 fb1 (fi + 1) fs1 root1 Hinv1 ltac:(lia) ltac:(lia) R1 Hblks' Hr) as (own' & img' & fs' & E & Hinv' & R & F & O);
      [unfold fb1 in *; lia|].
    replace (fb1 + cost (root1 ++ entries (fi + 1) args) - cost root1 + costs blks) with fb' in * by (unfold fb1; lia). rewrite <- Efi in *.
    exists own', img', fs'. split_and!; [exact E|exact Hinv'|done| |].
    + intros [|j] c Hj; simpl in Hj; [injection Hj as <-; rewrite Z.add_0_r, O by lia; done|].
      replace (fi + Z.of_nat (S j)) with (fi + 1 + Z.of_nat j) by lia. by apply F.
    + intros m Hm. rewrite O by lia. apply O1. lia.
Qed.

(** ** What the kernel sees *)

(** File [n] of the image, read as the kernel reads it: the inode that ilock
    loads has type [t] and describes the bytes [data]. *)
Definition holds (img : list (list Z)) (n t : Z) (data : list Z) : Prop :=
  forall x, x.(i_dev) = 1 ->
  let i := load_dinode (img !!! Z.to_nat (IBLOCK n)) (dinode_off n) x in
  file_ok (disk_view img) i /\ i.(i_type) = t /\ i.(i_size) = len data /\
  forall k, 0 <= k < len data -> file_byte (disk_view img) i k = data !! Z.to_nat k.

Lemma get_sub k o m off l : (o + k <= m)%nat -> get_le k o (take m (drop off l)) = get_le k (off + o) l.
Proof.
  intros Ho. unfold get_le. f_equal. rewrite <- drop_drop. apply list_eq. intros i.
  destruct (decide (i < k)%nat); [|by rewrite !lookup_take_ge by lia].
  rewrite !lookup_take_lt, !lookup_drop by lia. rewrite lookup_take_lt by lia. by rewrite lookup_drop.
Qed.

Lemma view_rd img b : img_ok img -> 0 <= b < size -> disk_view img b = Some (rd img b).
Proof.
  intros [Hl _] Hb. unfold disk_view. rewrite bool_decide_eq_true_2 by lia. unfold rd. rewrite list_lookup_total_alt.
  destruct (img !! Z.to_nat b) eqn:E; [done|]. apply lookup_ge_None in E. lia.
Qed.

Lemma loaded_addr blk off x j : 0 <= j <= 12 ->
  (load_dinode blk off x).(i_addrs) !! Z.to_nat j = Some (din_addr (take 64 (drop off blk)) j).
Proof.
  intros Hj. unfold load_dinode. simpl. unfold d_addrs. rewrite list_lookup_fmap, lookup_seq_lt by lia. simpl. f_equal.
  unfold din_addr. rewrite get_sub by lia. f_equal. lia.
Qed.

Lemma loaded_mapped own img fb n nb data x bn (din := dinode img n) (i := load_dinode (rd img (i2b n)) (dinode_off n) x) :
  img_ok img -> fb <= size -> rep own img fb n din nb data -> 0 <= bn < nb -> mapped (disk_view img) i bn = Some (slot img din bn).
Proof.
  intros Hi Hfb [Hl Hnb _ Hind Hslot _ _] Hbn. destruct (Hslot bn Hbn) as [Hr _]. unfold mapped, i. unfold DATA in *.
  unfold slot in *. change NDIRECT with 12 in *. destruct (Z.ltb_spec bn 12) as [Hd|Hd].
  - rewrite loaded_addr by lia. fold (dinode img n) din. simpl. by rewrite option_guard_True by lia.
  - rewrite (proj2 (Z.ltb_lt bn MAXFILE)) by lia. rewrite (loaded_addr _ _ _ 12) by lia. fold (dinode img n) din. simpl.
    destruct (Z.eqb_spec (din_addr din 12) 0) as [E|E]; [lia|]. rewrite option_guard_True by done. simpl.
    destruct Hind as [[? _]|[? _]]; [done|]. rewrite view_rd by (done || lia). simpl. by rewrite option_guard_True by lia.
Qed.

Lemma file_at_holds own img fb n t data : mk_ok own img fb -> 0 <= n < ninodes -> 0 <= t < 2 ^ 15 -> file_at own img fb n t data -> holds img n t data.
Proof.
  intros [Hi Hfb _ _ _] Hn Ht [R T Sz Ty] x Hx i. pose proof R as [Hl Hnb Hsz Hind Hslot Hfree Hbytes]. pose proof (len_nonneg data) as Hld.
  unfold din_size, din_type, dinode in Sz, Ty. rewrite get_sub in Sz, Ty by lia. rewrite Nat.add_0_r in Ty.
  assert (Hsize : i.(i_size) = len data) by exact Sz.
  assert (Htype : i.(i_type) = t).
  { change (i_type i) with (s16 (get16 (dinode_off n) (rd img (i2b n)))). rewrite Ty. unfold s16. rewrite Z.mod_small by lia. lia. }
  destruct (nblk_bounds (len data) Hld) as (Hb1 & Hb2 & Hb3). unfold DATA in *.
  assert (Hblk : forall bn, 0 <= bn < nblk (len data) -> FileData.file_block (disk_view img) i bn = Some (rd img (slot img (dinode img n) bn))).
  { intros bn Hbn. unfold FileData.file_block. pose proof (loaded_mapped own img fb n _ data x bn Hi ltac:(lia) R Hbn) as E.
    change (mapped (disk_view img) i bn = Some (slot img (dinode img n) bn)) in E. rewrite E. simpl.
    destruct (Hslot bn Hbn) as [Hr _]. apply view_rd; [done|lia]. }
  split_and!; [split_and!|done|done|].
  - unfold i. simpl. done.
  - rewrite Hsize. lia.
  - rewrite Hsize. change BSIZE with 512. lia.
  - intros bn Hbn Hlt. rewrite Hsize in Hlt. change BSIZE with 512 in Hlt. rewrite Hblk; [by eexists|]. split; [done|].
    unfold nblk in *. Z.div_mod_to_equations. lia.
  - intros k Hk. unfold file_byte. change BSIZE with 512. assert (Hk512 : 0 <= k / 512 < nblk (len data)).
    { split; [apply Z.div_pos; lia|]. apply Z.div_lt_upper_bound; lia. }
    rewrite Hblk by done. simpl. rewrite Hbytes by lia. destruct (data !! Z.to_nat k) eqn:E; [done|]. apply lookup_ge_None in E. unfold len in Hk. lia.
Qed.

(** The bitmap with the first [k] bits set. *)
Lemma bitmap_bits k : (k <= 4096)%nat -> let bm := foldl (fun b i => bit_set (Z.of_nat i) b) zeroes (seq 0 k) in
  length bm = 512%nat /\ forall b, 0 <= b < 4096 -> bit_used bm b = (b <? Z.of_nat k).
Proof.
  induction k as [|k IH]; intros Hk.
  - split; [apply length_zeroes|]. intros b Hb. rewrite (proj2 (Z.ltb_ge b _)) by lia. simpl. rewrite bit_used_testbit.
    rewrite list_lookup_total_alt, zeroes_byte; [apply Z.testbit_0_l|]. unfold bit_byte. assert (b / 8 < 512) by (apply Z.div_lt_upper_bound; lia). lia.
  - rewrite seq_S, foldl_app. cbn [foldl]. destruct IH as [Hl Hb]; [lia|]. cbn [Nat.add]. split; [by rewrite length_bit_set|].
    intros b Hbr. rewrite bit_set_spec; [|done|change BPB with 4096; lia|lia]. rewrite Hb by done.
    destruct (Z.ltb_spec b (Z.of_nat (S k))), (Z.ltb_spec b (Z.of_nat k)); case_bool_decide; done || lia.
Qed.

(** ** The run *)

Lemma zero_run k fb fi env : mfor (seq 0 k) (fun i => wsect (Z.of_nat i) zeroes) (st [] fb fi) env = Ok tt (st (replicate k zeroes) fb fi) env.
Proof.
  enough (forall m, mfor (seq m k) (fun i => wsect (Z.of_nat i) zeroes) (st (replicate m zeroes) fb fi) env =
    Ok tt (st (replicate (m + k) zeroes) fb fi) env) as Hg by exact (Hg 0%nat).
  induction k as [|k IH]; intros m; cbn [seq mfor]; [by rewrite Nat.add_0_r|].
  assert (wsect (Z.of_nat m) zeroes (st (replicate m zeroes) fb fi) env = Ok tt (st (replicate (S m) zeroes) fb fi) env) as E.
  { unfold wsect, modify, put_sector. rewrite Nat2Z.id. unfold st. cbn [fs_img]. rewrite length_replicate, Nat.ltb_irrefl, Nat.sub_diag.
    unfold set_img. simpl. by rewrite <- replicate_cons_app. }
  mstep E. rewrite IH. do 3 f_equal. lia.
Qed.

Definition blank : list (list Z) := replicate (Z.to_nat size) zeroes.
Definition start_img : list (list Z) := wr blank 1 (splice 0 sb_bytes zeroes).

Lemma blank_ok : img_ok blank.
Proof.
  split; [apply length_replicate|]. intros b Hb. unfold rd, blank. rewrite list_lookup_total_alt, lookup_replicate_2 by lia. apply length_zeroes.
Qed.

Lemma rd_blank b : 0 <= b < size -> rd blank b = zeroes.
Proof. intros Hb. unfold rd, blank. by rewrite list_lookup_total_alt, lookup_replicate_2 by lia. Qed.

Lemma start_inv fs : fsinv start_img (fun _ => None) start_img DATA 1 fs.
Proof.
  assert (Hi : img_ok start_img) by (apply wr_ok; [apply blank_ok|change size with 1024; lia|reflexivity]).
  split; [|unfold ninodes; lia|lia|done]. split; try done.
  intros b Hb. unfold start_img. rewrite rd_wr; [|apply blank_ok|change size with 1024; lia|unfold DATA in *; lia].
  rewrite (proj2 (Z.eqb_neq 1 b)) by (unfold DATA in *; lia). apply rd_blank. unfold DATA in *. lia.
Qed.

Definition root_data (args : list (list Z)) : list Z :=
  dirent ROOTINO (chars ".") ++ dirent ROOTINO (chars "..") ++ entries 2 args.

Lemma main_run host args blks env (root := root_data args) (ub := DATA + cost root + costs blks) :
  Forall2 (fun a b => host a = Some b) args blks -> 2 + Z.of_nat (length args) <= ninodes ->
  Forall (fun b => len (concat b) <= MAXFILE * 512) blks -> len root <= MAXFILE * 512 -> len root mod 512 <> 0 -> ub <= size ->
  exists own img fs, mkfs_main host args mkstate0 env = Ok tt (st (wr img 28 (foldl (fun b i => bit_set (Z.of_nat i) b) zeroes (seq 0 (Z.to_nat ub)))) ub
      (2 + Z.of_nat (length args))) env /\
    fsinv start_img own img ub (2 + Z.of_nat (length args)) fs /\ fs 1 = (T_DIR, padded root) /\
    forall j b, blks !! j = Some b -> fs (2 + Z.of_nat j) = (T_FILE, concat b).
Proof.
  intros Hf Hn Hb Hr Hmod Hub. pose proof (costs_nonneg blks) as Hcs. unfold mkfs_main. change (ninodes / IPB + 3 + bitblocks) with DATA. mrun.
  change (set_blocks DATA DATA mkstate0) with (st [] DATA 1). change (nblocks + DATA + nlog) with size. rewrite Z.eqb_refl. cbn [negb].
  mstep (zero_run (Z.to_nat size) DATA 1 env). fold blank.
  mstep (wsect_st 1 (splice 0 sb_bytes zeroes) blank DATA 1 env blank_ok ltac:(change size with 1024; lia)). fold start_img.
  destruct (ialloc_run _ _ _ _ _ _ T_DIR env (start_inv (fun _ => (0, []))) ltac:(done) ltac:(done)) as (img1 & E1 & Hinv1). mstep E1.
  change (1 =? ROOTINO) with true. cbn [negb]. change (1 + 1) with 2 in *.
  set (dot := dirent 1 (chars ".")). set (dots := dirent 1 (chars "..")). assert (Hroot : root = (dot ++ dots) ++ entries 2 args) by (unfold root, root_data; by rewrite <- app_assoc).
  assert (Hc1 : cost ([] ++ dot) = 1) by reflexivity. assert (Hc2 : cost (dot ++ dots) = 1) by reflexivity. pose proof (cost_mono (dot ++ dots) (entries 2 args)) as Hc3. rewrite <- Hroot, Hc2 in Hc3.
  destruct (append_run _ _ img1 DATA 2 _ 1 T_DIR [] dot env Hinv1 ltac:(lia) ltac:(reflexivity) ltac:(done)) as (own2 & img2 & E2 & Hinv2); [done|].
  change (DATA + cost ([] ++ dot) - cost []) with 30 in *. cbn [app] in *. mstep E2.
  destruct (append_run _ own2 img2 30 2 _ 1 T_DIR dot dots env Hinv2 ltac:(lia) ltac:(reflexivity) ltac:(done)) as (own3 & img3 & E3 & Hinv3); [done|].
  change (30 + cost (dot ++ dots) - cost dot) with 30 in *. mstep E3.
  destruct (add_files_run host start_img env args blks Hf own3 img3 30 2 _ (dot ++ dots) Hinv3 ltac:(lia) Hn ltac:(reflexivity) Hb) as (own4 & img4 & fs4 & E4 & Hinv4 & R4 & F4 & _).
  { by rewrite <- Hroot. } { rewrite <- Hroot, Hc2. unfold ub, DATA in Hub. lia. }
  rewrite <- Hroot, Hc2 in *. replace (30 + cost root - 1 + costs blks) with ub in * by (unfold ub, DATA; lia). mstep E4.
  destruct (fix_root_run _ own4 img4 ub _ fs4 1 env Hinv4 ltac:(lia)) as (img5 & E5 & Hinv5); [by rewrite R4|]. rewrite R4 in Hinv5. cbn [fst snd] in Hinv5. mstep E5.
  pose proof Hinv5 as [[Hi5 Hfb5 _ _ _] _ _ _]. mrun. unfold st at 1. cbn [usedblocks]. unfold mk_balloc.
  rewrite (proj2 (Z.ltb_lt ub (512 * 8))) by (change size with 1024 in *; lia). cbn [negb].
  eexists own4, img5, _. split_and!; [apply (wsect_st 28); [done|change size with 1024; lia]|exact Hinv5|done|].
  intros j b Hj. unfold upd. rewrite (proj2 (Z.eqb_neq 1 _)) by lia. by apply F4.
Qed.

(** The bitmap block is neither an inode sector nor a block of a file. *)
Lemma file_at_bitmap own img fb n t data bm : mk_ok own img fb -> 0 <= n < ninodes -> length bm = 512%nat ->
  file_at own img fb n t data -> file_at own (wr img 28 bm) fb n t data.
Proof.
  intros [Hi Hfb _ _ Hd] Hn Hbm [R T Sz Ty]. pose proof (i2b_range n Hn) as Hb.
  assert (Hrd : forall b, 0 <= b -> b <> 28 -> rd (wr img 28 bm) b = rd img b).
  { intros b Hb0 Hne. rewrite rd_wr by (done || (change size with 1024; lia)). by rewrite (proj2 (Z.eqb_neq 28 b)) by lia. }
  assert (Ed : dinode (wr img 28 bm) n = dinode img n) by (unfold dinode; by rewrite Hrd by lia).
  split; rewrite Ed; try done. apply (rep_frame own own img _ fb fb); [lia| |done]. intros b s Hbr Ho. split; [done|]. apply Hrd; [lia|].
  apply Hd in Ho. unfold DATA in Ho. lia.
Qed.

Lemma bitmap_ok own img fb bm : mk_ok own img fb -> length bm = 512%nat -> mk_ok own (wr img 28 bm) fb.
Proof.
  intros [Hi Hfb Hr Hz Hd] Hbm. split; try done; [apply wr_ok; try done; change size with 1024; lia|].
  intros b Hb. unfold DATA in *. rewrite rd_wr by (done || (change size with 1024; lia)). rewrite (proj2 (Z.eqb_neq 28 b)) by lia. by apply Hz.
Qed.

(** The kernel's data after the image was found on the disk. *)
Definition booted (img : list (list Z)) : kstate :=
  upd_log (fun l => set_l_start (size - nlog) (set_l_size nlog (set_l_dev 1 l))) (BioInit.after_binit (kstate0 img)).

Lemma booted_idle img : img_ok img -> hd_n (rd img (size - nlog)) = 0 -> idle (size - nlog) nlog img (booted img).
Proof.
  intros [Hl Hs] Hh. split; [|done]. unfold LogFacts.quiescent. split_and?.
  - apply LogFacts.rep_log, BioInit.warm_rep; [split_and!; try done; simpl; set_solver|split; [done|apply Forall_replicate; done]|].
    simpl. rewrite Forall_lookup. intros i blk Hi. pose proof (lookup_lt_Some _ _ _ Hi) as Hlt. specialize (Hs (Z.of_nat i) ltac:(lia)).
    unfold rd in Hs. rewrite Nat2Z.id, list_lookup_total_alt, Hi in Hs. done.
  - done.
  - done.
  - simpl. set_solver.
  - change (disk (booted img)) with img. unfold LogFacts.geom, Bio.disksize. change (disk (booted img)) with img. rewrite Hl. change size with 1024. change nlog with 10. lia.
  - exists (rd img (size - nlog)). split; [|done]. change (disk (booted img)) with img. unfold rd. rewrite list_lookup_total_alt.
    destruct (img !! Z.to_nat (size - nlog)) eqn:E; [done|]. apply lookup_ge_None in E. rewrite Hl in E. change size with 1024 in E. change nlog with 10 in E. lia.
Qed.

Section Image.
Context (host : list Z -> option (list (list Z))) (args : list (list Z)) (blks : list (list (list Z))).

(** The files can be read and fit: the inodes, the size of each file, and
    the blocks in front of the log suffice, and the root directory does not
    end at the end of a block. *)
Record fits : Prop := {
  fit_host : Forall2 (fun a b => host a = Some b) args blks;
  fit_inodes : 2 + Z.of_nat (length args) <= ninodes;
  fit_files : Forall (fun b => len (concat b) <= MAXFILE * 512) blks;
  fit_root : len (root_data args) <= MAXFILE * 512 /\ len (root_data args) mod 512 <> 0;
  fit_disk : DATA + cost (root_data args) + costs blks <= size - nlog
}.

Lemma image_run env : fits ->
  let ub := DATA + cost (root_data args) + costs blks in
  exists img, mkfs_main host args mkstate0 env = Ok tt (Mkmk img ub ub (2 + Z.of_nat (length args))) env /\
    length img = Z.to_nat size /\ sb_of_block (img !!! 1%nat) = Mksb size nblocks ninodes nlog /\
    holds img ROOTINO T_DIR (padded (root_data args)) /\
    (forall j b, blks !! j = Some b -> holds img (2 + Z.of_nat j) T_FILE (concat b)) /\
    (forall b, 0 <= b < size -> bit_used (img !!! Z.to_nat (BBLOCK b ninodes)) b = (b <? ub)) /\
    idle (size - nlog) nlog img (booted img).
Proof.
  intros [Hf Hn Hb [Hr Hmod] Hd] ub. pose proof (cost_nonneg (root_data args)). pose proof (costs_nonneg blks).
  assert (Hub : DATA <= ub <= 1014) by (unfold ub; change (size - nlog) with 1014 in Hd; lia).
  destruct (main_run host args blks env Hf Hn Hb Hr Hmod) as (own & img & fs & E & [Hm Hfi Hfs Hmeta] & R & F); [fold ub; change size with 1024; lia|]. fold ub in E, Hm, Hfs.
  set (bm := foldl _ zeroes _) in E. destruct (bitmap_bits (Z.to_nat ub)) as [Hbl Hbits]; [unfold DATA in *; lia|]. fold bm in Hbl, Hbits.
  assert (Hm' := bitmap_ok _ _ _ bm Hm Hbl). pose proof Hm as [Hi Hfb _ Hz _]. pose proof Hm' as [Hi' _ _ Hz' _]. exists (wr img 28 bm).
  assert (Hrd : forall b, 0 <= b -> rd (wr img 28 bm) b = if 28 =? b then bm else rd img b).
  { intros b Hb0. apply rd_wr; [exact Hi|change size with 1024; lia|exact Hb0]. }
  clearbody bm. assert (Hfile : forall n, 1 <= n < 2 + Z.of_nat (length args) -> 0 <= (fs n).1 < 2 ^ 15 -> holds (wr img 28 bm) n (fs n).1 (fs n).2).
  { intros n Hnr Ht. apply (file_at_holds own _ ub); [done|lia|done|]. apply file_at_bitmap; [done|lia|done|]. by apply Hfs. }
  split_and!; [exact E|apply Hi'| | | | |].
  - change (wr img 28 bm !!! 1%nat) with (rd (wr img 28 bm) 1). rewrite Hrd by lia.
    change (28 =? 1) with false. cbv iota. rewrite Hmeta by lia. unfold start_img.
    rewrite (rd_wr blank 1 _ 1 blank_ok ltac:(change size with 1024; lia) ltac:(lia)). vm_compute. reflexivity.
  - specialize (Hfile 1). rewrite R in Hfile. cbn [fst snd] in Hfile. apply Hfile; [lia|unfold T_DIR; lia].
  - intros j b Hj. specialize (Hfile (2 + Z.of_nat j)). rewrite (F j b Hj) in Hfile. cbn [fst snd] in Hfile. apply Hfile; [|unfold T_FILE; lia].
    apply Forall2_length in Hf. apply lookup_lt_Some in Hj. lia.
  - intros b Hbr. change size with 1024 in Hbr. unfold BBLOCK. change BPB with 4096. rewrite (Z.div_small b) by lia.
    change (0 + ninodes / IPB + 3) with 28. change (wr img 28 bm !!! Z.to_nat 28) with (rd (wr img 28 bm) 28). rewrite Hrd by lia.
    rewrite Z.eqb_refl, Hbits by lia. by rewrite Z2Nat.id by (unfold DATA in *; lia).
  - apply booted_idle; [done|]. rewrite Hz' by (change (size - nlog) with 1014; change size with 1024; lia). vm_compute. reflexivity.
Qed.

(** C13: the image that mkfs writes. It has 1024 sectors and the superblock
    that the kernel expects; the root directory holds the entries of itself,
    of its parent and of the files, in order, and then zeroes; file number
    [j] of the arguments has inode [j + 2] and the contents that the host's
    file has; the bitmap marks exactly the blocks in front of the first unused
    one; the log is empty, so the kernel's file system is idle on the image. *)
Theorem mkfs_image env : fits ->
  let ub := DATA + cost (root_data args) + costs blks in
  exists img, mkfs_main host args mkstate0 env = Ok tt (Mkmk img ub ub (2 + Z.of_nat (length args))) env /\
    length img = Z.to_nat size /\ sb_of_block (img !!! 1%nat) = Mksb size nblocks ninodes nlog /\
    holds img ROOTINO T_DIR (padded (root_data args)) /\
    (forall j b, blks !! j = Some b -> holds img (2 + Z.of_nat j) T_FILE (concat b)) /\
    (forall b, 0 <= b < size -> bit_used (img !!! Z.to_nat (BBLOCK b ninodes)) b = (b <? ub)) /\
    idle (size - nlog) nlog img (booted img).
Proof. exact (image_run env). Qed.

(** C12: what the host's files contained the kernel reads: on a kernel that is
    idle on the image, [readi] of an inode loaded from it returns, for every
    offset and count in range, exactly the bytes of the host's file there. *)
Theorem mkfs_read_back env : fits ->
  exists img s0, mkfs_main host args mkstate0 env = Ok tt s0 env /\ s0.(fs_img) = img /\
  forall j b x s ip off n envk (data := concat b), blks !! j = Some b -> x.(i_dev) = 1 -> idle (size - nlog) nlog img s ->
    s.(icache) !! ip = Some (load_dinode (img !!! Z.to_nat (IBLOCK (2 + Z.of_nat j))) (dinode_off (2 + Z.of_nat j)) x) ->
    0 <= off <= len data -> 0 <= n < 2 ^ 31 ->
    exists s', readi ip off n s envk = Ok (Z.min n (len data - off), take (Z.to_nat n) (drop (Z.to_nat off) data)) s' envk.
Proof.
  intros Hfits. destruct (image_run env Hfits) as (img & E & _ & _ & _ & Hfile & _). eexists img, _. split_and!; [exact E|done|].
  intros j b x s ip off n envk data Hj Hx Hidle Hip Hoff Hn. destruct (Hfile j b Hj x Hx) as (Hok & Ht & Hsz & Hbytes). fold data in Hsz, Hbytes.
  set (i := load_dinode _ _ x) in *. pose proof Hok as (_ & Hmax & _). change (MAXFILE * BSIZE) with 71680 in Hmax.
  pose proof (readi_run _ _ (HR := idle_reader _ _ _ _ Hidle) ip i off n s envk Hidle Hip Hok ltac:(by rewrite Ht) ltac:(lia) ltac:(lia)) as Hr.
  rewrite bool_decide_eq_true_2 in Hr by lia. cbv zeta in Hr. rewrite Hsz in Hr. destruct Hr as (bs & s' & Er & _ & _ & Hl & Hb). exists s'. rewrite Er.
  do 2 f_equal. apply list_eq. intros q. destruct (decide (q < length bs)%nat) as [Hq|Hq].
  - specialize (Hb (Z.of_nat q) ltac:(lia)). rewrite Nat2Z.id in Hb. rewrite Hb, Hbytes by lia. rewrite lookup_take_lt, lookup_drop by lia. f_equal. lia.
  - rewrite lookup_ge_None_2 by lia. symmetry. apply lookup_ge_None_2. rewrite length_take, length_drop. unfold len in Hl. lia.
Qed.
End Image.

(** ** An image with two files *)

Definition demo_host (name : list Z) : option (list (list Z)) :=
  if bool_decide (name = chars "_cat") then Some [replicate 512 7; [8; 9]]
  else if bool_decide (name = chars "README") then Some [chars "xv6"] else None.
Definition demo_args : list (list Z) := [chars "_cat"; chars "README"].
Definition demo_blks : list (list (list Z)) := [[replicate 512 7; [8; 9]]; [chars "xv6"]].

Lemma demo_fits : fits demo_host demo_args demo_blks.
Proof.
  split; [repeat constructor|unfold ninodes; simpl; lia| |split; [|by vm_compute]|]; [repeat constructor; by vm_compute| |]; by vm_compute.
Qed.

Lemma mkfs_image_witness : exists img,
  mkfs_main demo_host demo_args mkstate0 [] = Ok tt (Mkmk img 33 33 4) [] /\
  holds img ROOTINO T_DIR (padded (root_data demo_args)) /\
  (forall j b, demo_blks !! j = Some b -> holds img (2 + Z.of_nat j) T_FILE (concat b)) /\
  idle (size - nlog) nlog img (booted img).
Proof.
  destruct (mkfs_image demo_host demo_args demo_blks [] demo_fits) as (img & E & _ & _ & Hr & Hf & _ & Hi).
  exists img. split; [exact E|]. split; [exact Hr|]. split; [exact Hf|exact Hi].
Defined.

Lemma mkfs_read_back_witness :
  exists img s0, mkfs_main demo_host demo_args mkstate0 [] = Ok tt s0 [] /\ s0.(fs_img) = img /\
  forall j b x s ip off n envk (data := concat b), demo_blks !! j = Some b -> x.(i_dev) = 1 -> idle (size - nlog) nlog img s ->
    s.(icache) !! ip = Some (load_dinode (img !!! Z.to_nat (IBLOCK (2 + Z.of_nat j))) (dinode_off (2 + Z.of_nat j)) x) ->
    0 <= off <= len data -> 0 <= n < 2 ^ 31 ->
    exists s', readi ip off n s envk = Ok (Z.min n (len data - off), take (Z.to_nat n) (drop (Z.to_nat off) data)) s' envk.
Proof. exact (mkfs_read_back demo_host demo_args demo_blks [] demo_fits). Defined.

End MkfsImage.
