(* ===== verification/Device.v ===== *)
(** The devices that interrupt the processor: the interrupt controller
    (kernel/picirq.c), the timer (kernel/timer.c) and the serial port
    (kernel/uart.c; sending a character is in Console.v).

    A store to a device register is appended to [regwrites], the trace of such
    stores. What a load from a register gives is decided by the device: it is
    an argument of the function that loads it. *)
From S2P Require Import Prelude Types Spinlock Sched Console.
Import Spinlock Sched Console.

Module Device.

(** include/device.h *)
Definition UART0 : Z := 270471168.
Definition UART_CLK : Z := 24000000.
Definition TIMER0 : Z := 270409728.
Definition TIMER1 : Z := 270409760.
Definition CLK_HZ : Z := 1000000.
Definition VIC_BASE : Z := 269746176.
Definition PIC_TIMER01 : Z := 4.
Definition PIC_UART0 : Z := 12.

(** Address of a register, counted in words from a base. *)
Definition reg (base n : Z) : Z := u32 (base + 4 * n).
Definition reg_write (base n v : Z) : K unit :=
  modify (fun s => set_regwrites (s.(regwrites) ++ [(reg base n, u32 v)]) s).

(** What an interrupt finds in the registers: the status of the controller,
    the masked status of the UART, and for each character polled from it the
    flag and the data register. *)
Record irq_input : Type := MkIrq {
  irq_status : Z;
  uart_mis : Z;
  uart_polls : list (Z * Z)
}.

(** ** Interrupt controller *)

Definition VIC_INTENABLE : Z := 4.
Definition VIC_INTCLEAR : Z := 5.
Definition NUM_INTSRC : nat := 32.

Definition default_isr (n : Z) : K unit :=
  cprintf (chars "unhandled interrupt: %d" ++ newline) [PInt n].

Definition set_isr (i : nat) (h : isr) : K unit :=
  modify (fun s => set_isrs (<[i := Some h]> s.(isrs)) s).

Definition pic_init (base : Z) : K unit :=
  modify (set_vic_base base) ;;;
  reg_write base VIC_INTCLEAR 4294967295 ;;;
  mfor (seq 0 NUM_INTSRC) (fun i => set_isr i default_isr_fn).

Definition pic_enable (n : Z) (h : isr) : K unit :=
  if (n <? 0) || (Z.of_nat NUM_INTSRC <=? n) then panic "invalid interrupt source" else
  set_isr (Z.to_nat n) h ;;;
  base <- gets vic_base ;;
  reg_write base VIC_INTENABLE (Z.shiftl 1 n).

Definition pic_disable (n : Z) : K unit :=
  if (n <? 0) || (Z.of_nat NUM_INTSRC <=? n) then panic "invalid interrupt source" else
  base <- gets vic_base ;;
  reg_write base VIC_INTCLEAR (Z.shiftl 1 n) ;;;
  set_isr (Z.to_nat n) default_isr_fn.

(** ** Timer *)

Definition TIMER_LOAD : Z := 0.
Definition TIMER_CONTROL : Z := 2.
Definition TIMER_INTCLR : Z := 3.
Definition TIMER_32BIT : Z := 2.
Definition TIMER_INTEN : Z := 32.
Definition TIMER_PERIODIC : Z := 64.
Definition TIMER_EN : Z := 128.

Definition timer0 : Z := p2v TIMER0.
Definition timer1 : Z := p2v TIMER1.

Definition ack_timer : K unit := reg_write timer0 TIMER_INTCLR 1.

Definition timer_init (hz : Z) : K unit :=
  initlock tickslock ;;;
  if hz =? 0 then undefined "CLK_HZ / hz" else
  reg_write timer0 TIMER_LOAD (Z.quot CLK_HZ hz) ;;;
  reg_write timer0 TIMER_CONTROL
    (Z.lor (Z.lor (Z.lor TIMER_EN TIMER_PERIODIC) TIMER_32BIT) TIMER_INTEN) ;;;
  pic_enable PIC_TIMER01 isr_timer_fn.

Definition isr_timer : K unit :=
  acquire tickslock ;;;
  modify (fun s => set_ticks (u32 (s.(ticks) + 1)) s) ;;;
  wakeup chan_ticks ;;;
  release tickslock ;;;
  ack_timer.

(* while ((int)timer1[TIMER_CURVAL] > 0);  [vals]: what the loads give *)
Fixpoint spin_curval (vals : list Z) : K unit :=
  match vals with
  | [] => fail Blocked
  | v :: vals' => if 0 <? s32 v then spin_curval vals' else ret tt
  end.

Definition micro_delay (us : Z) (vals : list Z) : K unit :=
  reg_write timer1 TIMER_CONTROL (Z.lor TIMER_EN TIMER_32BIT) ;;;
  reg_write timer1 TIMER_LOAD us ;;;
  spin_curval vals ;;;
  reg_write timer1 TIMER_CONTROL 0.

(** ** Serial port *)

Definition UART_IBRD : Z := 9.
Definition UART_FBRD : Z := 10.
Definition UART_LCR : Z := 11.
Definition UART_CR : Z := 12.
Definition UART_IMSC : Z := 14.
Definition UART_ICR : Z := 17.
Definition UARTFR_RXFE : Z := 16.
Definition UARTCR_RXE : Z := 512.
Definition UARTCR_TXE : Z := 256.
Definition UARTCR_EN : Z := 1.
Definition UARTLCR_FEN : Z := 16.
Definition UART_RXI : Z := 16.
Definition UART_TXI : Z := 32.
Definition UART_BITRATE : Z := 19200.

(* [cr], [lcr]: what UART_CR and UART_LCR hold before *)
Definition uart_init (addr cr lcr : Z) : K unit :=
  modify (set_ubase addr) ;;;
  let left := UART_CLK mod (16 * UART_BITRATE) in
  reg_write addr UART_IBRD (UART_CLK / (16 * UART_BITRATE)) ;;;
  reg_write addr UART_FBRD ((left * 4 + UART_BITRATE / 2) / UART_BITRATE) ;;;
  reg_write addr UART_CR (Z.lor cr (Z.lor (Z.lor UARTCR_EN UARTCR_RXE) UARTCR_TXE)) ;;;
  reg_write addr UART_LCR (Z.lor lcr UARTLCR_FEN).

Definition uart_enable_rx : K unit :=
  base <- gets ubase ;;
  reg_write base UART_IMSC UART_RXI ;;;
  pic_enable PIC_UART0 isr_uart_fn.

(* [fr], [dr]: the flag and data registers *)
Definition uartgetc (fr dr : Z) : Z :=
  if has fr UARTFR_RXFE then -1 else s32 dr.

(* the calls of getc in the loop of consoleintr, up to the first negative one *)
Fixpoint received (polls : list (Z * Z)) : list Z :=
  match polls with
  | [] => []
  | (fr, dr) :: polls' =>
      let c := uartgetc fr dr in
      if 0 <=? c then c :: received polls' else []
  end.

Definition isr_uart (show_callstk : list Z -> K unit) (inp : irq_input) : K unit :=
  when (has inp.(uart_mis) UART_RXI)
    (consoleintr show_callstk (received inp.(uart_polls))) ;;;
  base <- gets ubase ;;
  reg_write base UART_ICR (Z.lor UART_RXI UART_TXI).

(** ** Dispatch *)

(* isrs[i](tp, i) *)
Definition run_isr (show_callstk : list Z -> K unit) (inp : irq_input) (h : isr) (i : nat) : K unit :=
  match h with
  | default_isr_fn => default_isr (Z.of_nat i)
  | isr_timer_fn => isr_timer
  | isr_uart_fn => isr_uart show_callstk inp
  end.

Definition pic_dispatch (show_callstk : list Z -> K unit) (inp : irq_input) : K unit :=
  mfor (seq 0 NUM_INTSRC) (fun i =>
    when (has inp.(irq_status) (Z.shiftl 1 (Z.of_nat i)))
      (t <- gets isrs ;;
       h <- deref "isrs[i]" (mjoin (t !! i)) ;;
       run_isr show_callstk inp h i)).

End Device.
