(* ===== verification/Trap.v ===== *)
(** Exceptions (kernel/trap.c): the handlers the assembly stubs of trapasm.S
    call with the address of a trap frame, and the exception vectors. *)
From S2P Require Import Prelude Types Spinlock Console Kalloc Proc Syscall Device.
Import Spinlock Console Kalloc Proc Syscall Device.

(** include/arm.h: the vectors, and the addresses of their stubs *)
Inductive trap : Type :=
| TRAP_RESET | TRAP_UND | TRAP_SWI | TRAP_IABT | TRAP_DABT | TRAP_NA | TRAP_IRQ | TRAP_FIQ.

Definition all_traps : list trap :=
  [TRAP_RESET; TRAP_UND; TRAP_SWI; TRAP_IABT; TRAP_DABT; TRAP_NA; TRAP_IRQ; TRAP_FIQ].

Class Stubs := { trap_stub : trap -> Z }.

Module Trap.

(** Processor modes (include/arm.h) *)
Definition FIQ_MODE : Z := 17.
Definition IRQ_MODE : Z := 18.
Definition ABT_MODE : Z := 23.
Definition UND_MODE : Z := 27.

Section Trap.
Context `{Image} `{Stubs}.
Variable show_callstk : list Z -> K unit.

Definition swi_handler (r : Z) : K unit :=
  c <- cur ;;
  p <- get_proc c ;;
  when p.(killed) exit ;;;
  modify (upd_proc c (set_tf r)) ;;;
  syscall ;;;
  c <- cur ;;
  p <- get_proc c ;;
  when p.(killed) exit.

Definition irq_handler (r : Z) (inp : irq_input) : K unit :=
  o <- gets curproc ;;
  match o with
  | Some c => modify (upd_proc c (set_tf r))
  | None => ret tt
  end ;;;
  pic_dispatch show_callstk inp.

Definition reset_handler (r : Z) : K unit :=
  cli ;;;
  pc <- load_word (r + tf_pc) ;;
  cprintf (chars "reset at: 0x%x " ++ newline) [PInt pc] ;;;
  panic "reset - you reset the pc!".

Definition und_handler (r : Z) : K unit :=
  cli ;;;
  pc <- load_word (r + tf_pc) ;;
  cprintf (chars "und at: 0x%x " ++ newline) [PInt pc] ;;;
  panic "undefined instruction exception".

Definition abort_reason (fault_status : Z) : K unit :=
  let st := Z.land fault_status 13 in
  let say t := cprintf (chars t ++ newline) [] in
  if st =? 1 then say "reason: alignment"
  else if st =? 5 then say "reason: ext. abort on trnslt."
  else if st =? 5 then say "reason: sect. translation"
  else if st =? 9 then say "reason: sect. domain"
  else if st =? 13 then say "reason: sect. permission"
  else if st =? 8 then say "reason: ext. abort"
  else say "reason: unknown???".

(** The lines of dump_tf: a label and the offset of a word of the frame. *)
Definition tf_lines : list (string * Z) :=
  [ ("r14_svc: 0x%x", tf_r14_svc); ("   spsr: 0x%x", tf_spsr);
    ("     r0: 0x%x", tf_r 0); ("     r1: 0x%x", tf_r 1); ("     r2: 0x%x", tf_r 2);
    ("     r3: 0x%x", tf_r 3); ("     r4: 0x%x", tf_r 4); ("     r5: 0x%x", tf_r 5);
    ("     r6: 0x%x", tf_r 6); ("     r7: 0x%x", tf_r 7); ("     r8: 0x%x", tf_r 8);
    ("     r9: 0x%x", tf_r 9); ("    r10: 0x%x", tf_r 10); ("    r11: 0x%x", tf_r 11);
    ("    r12: 0x%x", tf_r 12); ("     pc: 0x%x", tf_pc) ]%string.

Definition dump_tf (tf : Z) : K unit :=
  mfor tf_lines (fun l =>
    v <- load_word (tf + l.2) ;;
    cprintf (chars l.1 ++ newline) [PInt v]).

(* [dfs], [dfa]: the fault status and address registers *)
Definition dabort_handler (r dfs dfa : Z) : K unit :=
  cli ;;;
  pc <- load_word (r + tf_pc) ;;
  cprintf (chars "program counter: 0x%x caused" ++ newline) [PInt pc] ;;;
  cprintf (chars "data abort at 0x%x, status 0x%x" ++ newline) [PInt dfa; PInt dfs] ;;;
  abort_reason dfs ;;;
  dump_tf r ;;;
  pc <- load_word (r + tf_pc) ;;
  if pc <? KERNBASE then exit else panic "data abort exception".

Definition iabort_handler (r ifs ifa : Z) : K unit :=
  cli ;;;
  pc <- load_word (r + tf_pc) ;;
  cprintf (chars "program counter: 0x%x caused" ++ newline) [PInt pc] ;;;
  cprintf (chars "prefetch abort at 0x%x, status 0x%x" ++ newline) [PInt ifa; PInt ifs] ;;;
  abort_reason ifs ;;;
  dump_tf r ;;;
  pc <- load_word (r + tf_pc) ;;
  if pc <? KERNBASE then exit else panic "prefetch abort exception".

Definition reserved_handler (r : Z) : K unit :=
  cli ;;;
  pc <- load_word (r + tf_pc) ;;
  cprintf (chars "n/a at: 0x%x " ++ newline) [PInt pc] ;;;
  panic "reserved exception".

Definition fiq_handler (r : Z) : K unit :=
  cli ;;;
  pc <- load_word (r + tf_pc) ;;
  cprintf (chars "fiq at: 0x%x " ++ newline) [PInt pc] ;;;
  panic "fiq exception - fiq not implemented, sorry!".

(** The kernel address of the page at VEC_TBL, as bootmain.c maps it. *)
Definition vec_table : Z := p2v (Z.land VEC_TBL (PDE_SZ - 1)).

(* trapasm.S: the stack pointer of a mode *)
Definition set_stk (mode stk : Z) : K unit :=
  modify (fun s => set_mode_sp (<[mode := stk]> s.(mode_sp)) s).

Definition LDR_PC : Z := 3852464152.  (* 0xE59FF018: LDR pc, [pc, #0x18] *)

Definition trap_init : K unit :=
  mfor (seq 0 8) (fun i => store_word (vec_table + 4 * Z.of_nat i) LDR_PC) ;;;
  mfor (zip (seq 8 8) all_traps) (fun e =>
    store_word (vec_table + 4 * Z.of_nat e.1) (trap_stub e.2)) ;;;
  mfor [FIQ_MODE; IRQ_MODE; ABT_MODE; UND_MODE] (fun mode =>
    stk <- kalloc ;;
    if stk =? 0 then panic "irq stack allocation failed" else
    set_stk mode stk).
End Trap.

End Trap.
