(* ===== verification/DeviceFacts.v ===== *)
(** Interrupts: which sources are enabled, what serving one does, and the
    composition with the process table and the console. *)
From S2P Require Import Prelude Types Spinlock Sched Console ConsoleFacts Kalloc Proc Syscall Device Trap.
Import Spinlock Sched Console ConsoleFacts Kalloc Proc Syscall Device Trap.

Module DeviceFacts.

(** ** The enable register *)

(** The interrupt controller's enable register after a trace of stores: a
    one bit stored to INTENABLE sets, and one stored to INTCLEAR clears the
    bit; zero bits have no effect. *)
Definition vic_step (base en : Z) (w : Z * Z) : Z :=
  if w.1 =? reg base VIC_INTENABLE then Z.lor en w.2
  else if w.1 =? reg base VIC_INTCLEAR then clr en w.2
  else en.
Definition vic_enabled (s : kstate) : Z := foldl (vic_step s.(vic_base)) 0 s.(regwrites).

(** Every enabled source has a handler of its own. *)
Definition wired (s : kstate) : Prop :=
  length s.(isrs) = NUM_INTSRC /\
  forall i, 0 <= i < 32 -> Z.testbit (vic_enabled s) i = true ->
    exists h, s.(isrs) !! Z.to_nat i = Some (Some h) /\ h <> default_isr_fn.

Lemma clr_testbit f g i : 0 <= i -> Z.testbit (clr f g) i = Z.testbit f i && negb (Z.testbit g i).
Proof. intros Hi. unfold clr. by rewrite Z.land_spec, Z.lnot_spec. Qed.

Lemma bit_testbit n i : 0 <= n -> 0 <= i -> Z.testbit (Z.shiftl 1 n) i = bool_decide (i = n).
Proof.
  intros Hn Hi. rewrite Z.shiftl_1_l. case_bool_decide as E.
  - subst. by apply Z.pow2_bits_true.
  - by apply Z.pow2_bits_false.
Qed.

Lemma has_bit f n : 0 <= n -> has f (Z.shiftl 1 n) = Z.testbit f n.
Proof.
  intros Hn. unfold has. rewrite Z.shiftl_1_l. destruct (Z.testbit f n) eqn:E.
  - destruct (Z.eqb_spec (Z.land f (2 ^ n)) 0) as [H0|]; [|done].
    apply (f_equal (fun z => Z.testbit z n)) in H0.
    by rewrite Z.land_spec, E, Z.pow2_bits_true, Z.testbit_0_l in H0.
  - destruct (Z.eqb_spec (Z.land f (2 ^ n)) 0) as [|H0]; [done|]. exfalso. apply H0.
    apply Z.bits_inj'. intros i Hi. rewrite Z.land_spec, Z.testbit_0_l.
    destruct (decide (i = n)) as [->|Hne]; [by rewrite E|]. by rewrite Z.pow2_bits_false, andb_false_r.
Qed.

Lemma u32_bit n : 0 <= n < 32 -> u32 (Z.shiftl 1 n) = Z.shiftl 1 n.
Proof.
  intros Hn. rewrite Z.shiftl_1_l. apply u32_small. split; [by apply Z.pow_nonneg|]. apply Z.pow_lt_mono_r; lia.
Qed.

Lemma reg_ne base m n : 0 <= m < 64 -> 0 <= n < 64 -> m <> n -> reg base m <> reg base n.
Proof.
  intros Hm Hn Hne E. unfold reg, u32 in E. assert ((base + 4 * m - (base + 4 * n)) mod 2 ^ 32 = 0) as H0.
  { rewrite Zminus_mod, E, Z.sub_diag. done. }
  apply Z.mod_divide in H0 as [k Hk]; lia.
Qed.

(** The calls that change the table or the enable register. *)
Inductive pic_op : Type := Enable (n : Z) (h : isr) | Disable (n : Z).
Definition run_pic (o : pic_op) : K unit :=
  match o with Enable n h => pic_enable n h | Disable n => pic_disable n end.
Definition pic_op_ok (o : pic_op) : Prop :=
  match o with Enable n h => 0 <= n < 32 /\ h <> default_isr_fn | Disable n => 0 <= n < 32 end.

(** The sources enabled after a sequence of calls. *)
Definition pic_spec (o : pic_op) (e : gset Z) : gset Z :=
  match o with Enable n _ => {[n]} ∪ e | Disable n => e ∖ {[n]} end.

Definition enables (s : kstate) (e : gset Z) : Prop :=
  forall i, 0 <= i < 32 -> Z.testbit (vic_enabled s) i = bool_decide (i ∈ e).

Lemma pic_range n : 0 <= n < 32 -> (n <? 0) || (Z.of_nat NUM_INTSRC <=? n) = false.
Proof. intros Hn. unfold NUM_INTSRC. rewrite orb_false_iff, Z.ltb_ge, Z.leb_gt. lia. Qed.

Lemma enabled_snoc s w : vic_enabled (set_regwrites (s.(regwrites) ++ [w]) s) = vic_step s.(vic_base) (vic_enabled s) w.
Proof. unfold vic_enabled. simpl. by rewrite foldl_app. Qed.

Lemma pic_enable_eq n h s env : 0 <= n < 32 ->
  exists s', pic_enable n h s env = Ok tt s' env /\
    s' = set_regwrites s'.(regwrites) (set_isrs (<[Z.to_nat n := Some h]> s.(isrs)) s) /\
    vic_enabled s' = Z.lor (vic_enabled s) (Z.shiftl 1 n).
Proof.
  intros Hn. unfold pic_enable. rewrite pic_range by done. unfold set_isr, reg_write. mrun. eexists. split_and?; [done|done|].
  rewrite (enabled_snoc (set_isrs _ s)). unfold vic_step. simpl. rewrite Z.eqb_refl, u32_bit by done. done.
Qed.

Lemma pic_disable_eq n s env : 0 <= n < 32 ->
  exists s', pic_disable n s env = Ok tt s' env /\
    s' = set_regwrites s'.(regwrites) (set_isrs (<[Z.to_nat n := Some default_isr_fn]> s.(isrs)) s) /\
    vic_enabled s' = clr (vic_enabled s) (Z.shiftl 1 n).
Proof.
  intros Hn. unfold pic_disable. rewrite pic_range by done. unfold set_isr, reg_write. mrun. eexists. split_and?; [done|done|].
  etransitivity; [exact (enabled_snoc s (reg s.(vic_base) VIC_INTCLEAR, u32 (Z.shiftl 1 n)))|]. unfold vic_step. cbn [fst snd].
  rewrite (proj2 (Z.eqb_neq _ _)) by (apply reg_ne; unfold VIC_INTCLEAR, VIC_INTENABLE; lia).
  rewrite Z.eqb_refl, u32_bit by done. done.
Qed.

Lemma run_pic_step o s env e : wired s -> enables s e -> pic_op_ok o ->
  exists s', run_pic o s env = Ok tt s' env /\ wired s' /\ enables s' (pic_spec o e).
Proof.
  intros [Hl Hw] He Ho. destruct o as [n h|n]; simpl in *.
  - destruct Ho as [Hn Hh]. destruct (pic_enable_eq n h s env Hn) as (s' & Hrun & Hs & Hen).
    exists s'. split_and?; [done| |].
    + split; [by rewrite Hs; simpl; rewrite length_insert|]. intros i Hi. rewrite Hen, Z.lor_spec, bit_testbit by lia.
      rewrite Hs. simpl. intros Hb. destruct (decide (i = n)) as [->|Hne].
      * exists h. split; [|done]. apply list_lookup_insert_eq. rewrite Hl. unfold NUM_INTSRC. lia.
      * rewrite bool_decide_eq_false_2, orb_false_r in Hb by done. rewrite list_lookup_insert_ne by lia. by apply Hw.
    + intros i Hi. rewrite Hen, Z.lor_spec, bit_testbit, He by lia. repeat case_bool_decide; set_solver.
  - destruct (pic_disable_eq n s env Ho) as (s' & Hrun & Hs & Hen). exists s'. split_and?; [done| |].
    + split; [by rewrite Hs; simpl; rewrite length_insert|]. intros i Hi. rewrite Hen, clr_testbit, bit_testbit by lia.
      rewrite Hs. simpl. intros [Hb Hne]%andb_true_iff. case_bool_decide as E; [done|].
      rewrite list_lookup_insert_ne by lia. by apply Hw.
    + intros i Hi. rewrite Hen, clr_testbit, bit_testbit, He by lia. repeat case_bool_decide; set_solver.
Qed.

Lemma set_default_loop suf : forall pre s env, s.(isrs) = pre ++ suf ->
  mfor (seq (length pre) (length suf)) (fun i => set_isr i default_isr_fn) s env =
  Ok tt (set_isrs (pre ++ replicate (length suf) (Some default_isr_fn)) s) env.
Proof.
  induction suf as [|x suf IH]; intros pre s env Hs; simpl.
  { unfold ret. rewrite app_nil_r in *. rewrite <- Hs. by destruct s. }
  unfold set_isr at 1. mrun. rewrite Hs.
  rewrite insert_app_r_alt, Nat.sub_diag by lia. cbn [insert list_insert].
  specialize (IH (pre ++ [Some default_isr_fn]) (set_isrs (pre ++ Some default_isr_fn :: suf) s) env).
  rewrite length_app, Nat.add_1_r in IH. rewrite IH by (simpl; by rewrite <- app_assoc).
  simpl. by rewrite <- app_assoc.
Qed.

Lemma pic_init_eq base s env : length s.(isrs) = NUM_INTSRC ->
  pic_init base s env = Ok tt
    (set_isrs (replicate NUM_INTSRC (Some default_isr_fn))
      (set_regwrites (s.(regwrites) ++ [(reg base VIC_INTCLEAR, u32 4294967295)]) (set_vic_base base s))) env.
Proof.
  intros Hl. unfold pic_init, reg_write. mrun. rewrite <- Hl.
  by apply (set_default_loop s.(isrs) [] (set_regwrites _ (set_vic_base base s))).
Qed.

Lemma pic_init_clears base s env : length s.(isrs) = NUM_INTSRC ->
  exists s', pic_init base s env = Ok tt s' env /\ wired s' /\ enables s' ∅.
Proof.
  intros Hl. rewrite pic_init_eq by done. eexists. split; [done|].
  set (s1 := set_regwrites _ _). assert (He : enables (set_isrs (replicate NUM_INTSRC (Some default_isr_fn)) s1) ∅).
  { intros i Hi. rewrite bool_decide_eq_false_2 by set_solver.
    change (vic_enabled _) with (vic_enabled s1). unfold s1. rewrite (enabled_snoc (set_vic_base base s)).
    unfold vic_step. cbn [fst snd vic_base set_vic_base].
    rewrite (proj2 (Z.eqb_neq _ _)) by (apply reg_ne; unfold VIC_INTCLEAR, VIC_INTENABLE; lia).
    rewrite Z.eqb_refl, clr_testbit by lia. change (u32 4294967295) with (Z.ones 32).
    rewrite Z.ones_spec_low by lia. apply andb_false_r. }
  split; [|done]. split; [done|]. intros i Hi. rewrite He by done. by rewrite bool_decide_eq_false_2 by set_solver.
Qed.

Lemma run_pics ops : forall s env e, wired s -> enables s e -> Forall pic_op_ok ops ->
  exists s', mfor ops run_pic s env = Ok tt s' env /\ wired s' /\ enables s' (foldl (fun e o => pic_spec o e) e ops).
Proof.
  induction ops as [|o ops IH]; intros s env e Hw He Ho; simpl; [by exists s|].
  apply Forall_cons in Ho as [Ho Hos]. destruct (run_pic_step o s env e Hw He Ho) as (s1 & Hrun & Hw1 & He1).
  mstep Hrun. by apply IH.
Qed.

(** ** Serving *)

Definition ticked (s : kstate) : kstate :=
  set_regwrites (s.(regwrites) ++ [(reg timer0 TIMER_INTCLR, 1)])
    (woken chan_ticks (set_ticks (u32 (s.(ticks) + 1)) s)).

Lemma isr_timer_eq s env : calm s -> tickslock ∉ s.(kcpu).(held) ->
  isr_timer s env = Ok tt (ticked s) env.
Proof.
  intros (Hq & Hp & Hn) Hl. unfold isr_timer. mstep (acquire_quiet tickslock s env Hq Hl). mrun.
  set (s1 := set_ticks _ _).
  assert (Hc1 : calm s1) by (split_and!; [by apply (quiet_with_lock tickslock)|simpl; set_solver|done]).
  mstep (wakeup_eq chan_ticks s1 env Hc1).
  mstep (release_quiet tickslock s (woken chan_ticks s1) env Hq Hl eq_refl).
  unfold ack_timer, reg_write, modify, ticked, woken, s1. by destruct s.
Qed.

Lemma ticked_calm s : calm s -> calm (ticked s).
Proof. intros (Hq & Hp & Hn). split_and!; try done. simpl. by rewrite length_fmap. Qed.

(** The table as the kernel's initialisation leaves it: the timer, the
    serial port and nothing else. *)
Definition attached (s : kstate) : Prop :=
  s.(isrs) !! 4%nat = Some (Some isr_timer_fn) /\ s.(isrs) !! 12%nat = Some (Some isr_uart_fn).

(** Of the 32 sources only the two attached ones are looked at further. *)
Lemma pic_dispatch_two sc inp s env :
  (forall i, 0 <= i < 32 -> Z.testbit inp.(irq_status) i = true -> i = 4 \/ i = 12) ->
  pic_dispatch sc inp s env =
  (let serve i := t <- gets isrs ;; h <- deref "isrs[i]" (mjoin (t !! i)) ;; run_isr sc inp h i in
   when (Z.testbit inp.(irq_status) 4) (serve 4%nat) ;;;
   when (Z.testbit inp.(irq_status) 12) (serve 12%nat)) s env.
Proof.
  intros Hst. unfold pic_dispatch. set (f := fun i => _).
  assert (Hnone : forall l s env, Forall (fun i => (i < 32)%nat /\ i <> 4%nat /\ i <> 12%nat) l -> mfor l f s env = Ok tt s env).
  { intros l s0 env0 Hl. apply mfor_none. eapply Forall_impl; [exact Hl|]. intros i (Hi & H4 & H12) s1 env1. unfold f. simpl.
    rewrite has_bit by lia. destruct (Z.testbit (irq_status inp) (Z.of_nat i)) eqn:E; [|done].
    apply Hst in E; lia. }
  change (seq 0 NUM_INTSRC) with (seq 0 4 ++ [4%nat] ++ seq 5 7 ++ [12%nat] ++ seq 13 19).
  rewrite mfor_app. mstep (Hnone (seq 0 4) s env ltac:(repeat constructor; lia)).
  rewrite mfor_app. cbn [mfor]. rewrite bind_assoc. unfold f at 1. cbn beta. rewrite has_bit by lia.
  apply bind_ext. intros [] s1 env1. rewrite bind_ret.
  rewrite mfor_app. mstep (Hnone (seq 5 7) s1 env1 ltac:(repeat constructor; lia)).
  rewrite mfor_app. cbn [mfor]. rewrite bind_assoc. unfold f at 1. cbn beta. rewrite has_bit by lia.
  rewrite <- (bind_unit (when _ _)). apply bind_ext. intros [] s2 env2. rewrite bind_ret.
  apply Hnone. repeat constructor; lia.
Qed.

(** The state after an interrupt that finds the bits [t] (timer) and [u]
    (serial port) set, when the console's ring is [b] afterwards, [o] has been
    sent to the terminal and the console's readers wake if [w]. *)
Definition served (t u : bool) (b : inputbuf) (o : list Z) (w : bool) (s : kstate) : kstate :=
  let s1 := if t then ticked s else s in
  let s2 := set_procs (roused w s1.(procs)) (set_uart_tx (s1.(uart_tx) ++ o) (set_input b s1)) in
  if u then set_regwrites (s2.(regwrites) ++ [(reg s.(ubase) UART_ICR, 48)]) s2 else s2.

(** The keys that the interrupt delivers: what the receive queue holds, if the
    serial port asks for service because it has received something. *)
Definition keys (inp : irq_input) : list Z :=
  if Z.testbit inp.(irq_status) 12 && has inp.(uart_mis) UART_RXI then received inp.(uart_polls) else [].

Lemma served_idle s : served false false s.(input) [] false s = s.
Proof. unfold served. cbn [roused]. rewrite app_nil_r. by destruct s. Qed.

Lemma consoleintr_none sc s env : quiet s -> input_lock ∉ s.(kcpu).(held) -> consoleintr sc [] s env = Ok tt s env.
Proof.
  intros Hq Hl. unfold consoleintr. mstep (acquire_quiet input_lock s env Hq Hl). cbn [mfor]. rewrite bind_ret.
  rewrite (release_quiet input_lock s _ env Hq Hl eq_refl). by destruct s.
Qed.

Lemma serve_uart sc inp Q E s env :
  attached s -> calm s -> input_lock ∉ s.(kcpu).(held) -> ring s.(input) Q E -> 10 ∉ E ->
  Forall (fun c => 0 <= c < 256 /\ c <> 12) (received inp.(uart_polls)) ->
  let u := Z.testbit inp.(irq_status) 12 in
  let q := foldl (fun q c => edit c q) (Q, E) (keys inp) in
  exists b,
    (when u (t <- gets isrs ;; h <- deref "isrs[i]" (mjoin (t !! 12%nat)) ;; run_isr sc inp h 12)) s env =
      Ok tt (served false u b (echoes (keys inp) (Q, E)) (some_commit (keys inp) (Q, E)) s) env /\
    (keys inp = [] -> b = s.(input)) /\ b.(in_r) = s.(input).(in_r) /\ ring b q.1 q.2 /\ 10 ∉ q.2.
Proof.
  intros [_ Ha] Hc Hl Hr Hn Hf u q. pose proof Hc as (Hq & _). unfold when, q, keys. fold u. destruct u; cbn [andb].
  2:{ exists s.(input). split_and?; try done. unfold ret. by rewrite served_idle. }
  rewrite bind_gets, Ha. cbn [mjoin option_join deref run_isr]. rewrite bind_ret.
  change (run_isr sc inp isr_uart_fn 12) with (isr_uart sc inp). unfold isr_uart, when.
  destruct (has inp.(uart_mis) UART_RXI); [destruct (received inp.(uart_polls)) as [|c cs] eqn:Ec|].
  - mstep (consoleintr_none sc s env Hq Hl). exists s.(input). split_and?; try done.
    unfold served. cbn [roused echoes]. rewrite app_nil_r. by destruct s.
  - destruct (consoleintr_run sc (c :: cs) Q E s env Hc Hl Hr Hn Hf) as (s1 & Hrun & (b & Hb & ->) & Hr1 & Hn1).
    mstep Hrun. exists b. split_and?; done.
  - rewrite bind_ret. exists s.(input). split_and?; try done.
    unfold served. cbn [roused echoes]. rewrite app_nil_r. by destruct s.
Qed.

(** C16: interrupts. On an interrupt from the timer, the serial port or both, the
    handler saves the frame in the interrupted process, advances the clock by
    one tick and wakes exactly the processes asleep on it when the timer's bit
    is set, feeds the received characters to the line editor when the serial
    port's is, and acknowledges at the device each source it served and no
    other. The characters [echoes] gives are sent to the terminal, and the
    console's readers wake if a line has been completed, and not otherwise;
    without input from the serial port the console's ring, the terminal and
    the readers are left alone. Nothing else of the kernel's state changes,
    and there is no switch to another process. *)
Theorem irq_serves sc r inp Q E s env (s0 := match s.(curproc) with
    | Some c => upd_proc c (set_tf r) s | None => s end) :
  attached s -> calm s -> tickslock ∉ s.(kcpu).(held) -> input_lock ∉ s.(kcpu).(held) ->
  ring s.(input) Q E -> 10 ∉ E ->
  Forall (fun c => 0 <= c < 256 /\ c <> 12) (received inp.(uart_polls)) ->
  (forall i, 0 <= i < 32 -> Z.testbit inp.(irq_status) i = true -> i = 4 \/ i = 12) ->
  let t := Z.testbit inp.(irq_status) 4 in
  let u := Z.testbit inp.(irq_status) 12 in
  let q := foldl (fun q c => edit c q) (Q, E) (keys inp) in
  exists b, irq_handler sc r inp s env = Ok tt (served t u b (echoes (keys inp) (Q, E)) (some_commit (keys inp) (Q, E)) s0) env /\
    (keys inp = [] -> b = s.(input)) /\ b.(in_r) = s.(input).(in_r) /\ ring b q.1 q.2 /\ 10 ∉ q.2.
Proof.
  intros Ha Hc Ht Hl Hr Hn Hf Hst t u q. unfold irq_handler. rewrite bind_gets.
  assert (Hs0 : attached s0 /\ calm s0 /\ s0.(kcpu) = s.(kcpu) /\ s0.(input) = s.(input)).
  { unfold s0. destruct (curproc s); [|done]. split_and?; [exact Ha| |done|done].
    destruct Hc as (Hq & Hp & Hlen). split; [exact Hq|split; [exact Hp|]]. simpl. by rewrite length_alter. }
  assert (Hfirst : match s.(curproc) with Some c => modify (upd_proc c (set_tf r)) | None => ret tt end s env = Ok tt s0 env)
    by (unfold s0; by destruct (curproc s)).
  mstep Hfirst. clear Hfirst. destruct Hs0 as (Ha0 & Hc0 & Hk & Hi). clearbody s0. rewrite <- Hk in Ht, Hl. rewrite <- Hi in Hr.
  rewrite pic_dispatch_two by done. cbv zeta. fold t u.
  assert (Htimer : (when t (t <- gets isrs ;; h <- deref "isrs[i]" (mjoin (t !! 4%nat)) ;; run_isr sc inp h 4)) s0 env =
    Ok tt (if t then ticked s0 else s0) env).
  { unfold when. destruct t; [|done]. rewrite bind_gets, (proj1 Ha0). cbn [mjoin option_join deref run_isr]. rewrite bind_ret. by apply isr_timer_eq. }
  mstep Htimer. set (s1 := if t then ticked s0 else s0).
  assert (Hs1 : attached s1 /\ calm s1 /\ s1.(kcpu) = s0.(kcpu) /\ s1.(input) = s0.(input)).
  { unfold s1. destruct t; [|done]. split_and?; [exact Ha0|by apply ticked_calm|done|done]. }
  destruct Hs1 as (Ha1 & Hc1 & Hk1 & Hi1). rewrite <- Hk1 in Hl. rewrite <- Hi1 in Hr.
  destruct (serve_uart sc inp Q E s1 env Ha1 Hc1 Hl Hr Hn Hf) as (b & Hrun & Hrest). fold u in Hrun.
  exists b. rewrite Hi1, Hi in Hrest. split; [|exact Hrest]. rewrite Hrun. unfold served, s1. by destruct t.
Qed.

(** The interrupt controller. From its initialisation on, whatever
    sequence of calls enables and disables sources, the calls succeed, the
    enable register holds exactly the sources enabled last, and every enabled
    source has a handler of its own, so no enabled interrupt is reported as
    unhandled. *)
Theorem pic_sequence base ops s env :
  length s.(isrs) = NUM_INTSRC -> Forall pic_op_ok ops ->
  exists s', (pic_init base ;;; mfor ops run_pic) s env = Ok tt s' env /\
    wired s' /\ enables s' (foldl (fun e o => pic_spec o e) ∅ ops).
Proof.
  intros Hl Ho. destruct (pic_init_clears base s env Hl) as (s1 & Hrun & Hw & He). mstep Hrun. by apply run_pics.
Qed.

(** ** Witnesses *)

Definition demo_attached : kstate :=
  set_isrs (<[4%nat := Some isr_timer_fn]> (<[12%nat := Some isr_uart_fn]> (replicate 32 (Some default_isr_fn))))
    (upd_proc 2 (fun p => set_chan (Some chan_ticks) (set_state SLEEPING (set_pid 7 p))) (kstate0 [])).

(* both sources; "hi", return, then nothing more *)
Definition demo_irq : irq_input := MkIrq 4112 16 [(0, 104); (0, 105); (0, 13); (16, 0)].

Lemma demo_bits i : 0 <= i < 32 -> Z.testbit demo_irq.(irq_status) i = true -> i = 4 \/ i = 12.
Proof.
  intros Hi Hb. assert (forallb (fun i => negb (Z.testbit 4112 i) || (i =? 4) || (i =? 12)) (Z.of_nat <$> seq 0 32) = true) as H by by vm_compute.
  rewrite forallb_forall in H. specialize (H i). rewrite <- list_elem_of_In in H.
  assert (i ∈ Z.of_nat <$> seq 0 32) as Hin by (apply list_elem_of_fmap; exists (Z.to_nat i); split; [lia|apply elem_of_seq; lia]).
  specialize (H Hin). simpl in Hb. rewrite Hb in H. simpl in H. lia.
Qed.

Lemma irq_serves_witness :
  exists b, irq_handler (fun _ => ret tt) 1024 demo_irq demo_attached [] =
      Ok tt (served true true b [104; 105; 10] true demo_attached) [] /\
    ([104; 105; 13] = [] -> b = demo_attached.(input)) /\ b.(in_r) = 0 /\ ring b [104; 105; 10] [] /\ 10 ∉ ([] : list Z).
Proof.
  apply (irq_serves (fun _ => ret tt) 1024 demo_irq [] [] demo_attached []).
  - done.
  - split_and!; done.
  - simpl. set_solver.
  - simpl. set_solver.
  - exact demo_ring.
  - set_solver.
  - repeat constructor; vm_compute; done.
  - exact demo_bits.
Defined.

Lemma pic_sequence_witness :
  exists s', (pic_init 4096 ;;; mfor [Enable 4 isr_timer_fn; Enable 12 isr_uart_fn; Disable 4] run_pic) (kstate0 []) [] = Ok tt s' [] /\
    wired s' /\ enables s' (({[12]} ∪ ({[4]} ∪ ∅)) ∖ {[4]}).
Proof.
  apply (pic_sequence 4096 [Enable 4 isr_timer_fn; Enable 12 isr_uart_fn; Disable 4] (kstate0 []) []); [done|].
  repeat constructor; done.
Defined.

End DeviceFacts.
