(* ===== verification/ClockFacts.v ===== *)
(** Sleeping for a number of ticks (sys_sleep of kernel/sysproc.c): while the
    clock advances, the call returns. *)
From S2P Require Import Prelude Types Spinlock Sched Kalloc Proc Syscall SyscallFacts Device DeviceFacts.
Import Spinlock Sched Kalloc Proc Syscall SyscallFacts Device DeviceFacts.

Module ClockFacts.

(** A kernel path that holds no lock. *)
Definition unlocked (s : kstate) : Prop := s.(kcpu) = Mkcpu false 0 false ∅.

(** The process [p] exists and has not been killed. *)
Definition alive (p : nat) (s : kstate) : Prop :=
  s.(curproc) = Some p /\ exists pr, s.(procs) !! p = Some pr /\ pr.(killed) = false.

(** What the others do while [p] sleeps: they leave it alive and schedule it
    again with the process table locked, between 1 and [m] ticks later. *)
Definition lets_tick (p : nat) (m : Z) (f : kstate -> kstate) : Prop :=
  forall s, alive p s -> alive p (f s) /\ (f s).(kcpu) = s.(kcpu) /\
    exists d, 1 <= d <= m /\ (f s).(ticks) = u32 (s.(ticks) + d).

Definition sleep_turn (ticks0 n : Z) : K (option Z) :=
  t <- gets ticks ;;
  if u32 (t - ticks0) <? u32 n then
    p <- curp ;;
    if p.(killed) then release tickslock ;;; ret (Some (-1))
    else sleep chan_ticks tickslock ;;; ret None
  else ret (Some 0).

Definition elapsed (t0 : Z) (s : kstate) : Z := u32 (s.(ticks) - t0).

Lemma elapsed_add t0 s s' d : s'.(ticks) = u32 (s.(ticks) + d) -> 0 <= d -> elapsed t0 s + d < 2 ^ 32 ->
  elapsed t0 s' = elapsed t0 s + d.
Proof.
  intros Ht Hd. unfold elapsed. rewrite Ht. unfold u32. intros Hlt. rewrite Zminus_mod_idemp_l.
  replace (s.(ticks) + d - t0) with (s.(ticks) - t0 + d) by lia. rewrite <- Zplus_mod_idemp_l. apply Z.mod_small.
  pose proof (Z.mod_pos_bound (s.(ticks) - t0) (2 ^ 32)). lia.
Qed.

Lemma alive_asleep p c s : alive p s -> alive p (asleep p c s).
Proof.
  intros (Hc & pr & Hp & Hk). split; [done|]. exists (set_state SLEEPING (set_chan (Some c) pr)).
  unfold asleep, upd_proc. simpl. by rewrite !list_lookup_alter_eq, Hp.
Qed.

(** One turn that sleeps. *)
Lemma sleep_turn_sleeps p m t0 n s f env :
  s.(kcpu) = Mkcpu false 1 false {[tickslock]} -> alive p s -> lets_tick p m f ->
  elapsed t0 s < n < 2 ^ 31 -> elapsed t0 s + m < 2 ^ 32 ->
  exists s', sleep_turn t0 n s (f :: env) = Ok None s' env /\ s'.(kcpu) = s.(kcpu) /\ alive p s' /\
    elapsed t0 s + 1 <= elapsed t0 s' <= elapsed t0 s + m.
Proof.
  intros Hk Ha Hf Hn Hm. pose proof Ha as (Hc & pr & Hp & Hkl). unfold sleep_turn. rewrite bind_gets. fold (elapsed t0 s).
  assert (H0 : 0 <= elapsed t0 s) by (unfold elapsed, u32; apply Z.mod_pos_bound; lia).
  rewrite (u32_small n) by lia. rewrite (proj2 (Z.ltb_lt _ _)) by lia.
  assert (Hcurp : forall e, curp s e = Ok pr s e) by (intros e; unfold curp, cur, get_proc, bind, gets, deref, ret; by rewrite Hc, Hp).
  mstep (Hcurp (f :: env)). rewrite Hkl.
  destruct (Hf (asleep p chan_ticks s) (alive_asleep p _ s Ha)) as ((Hc' & pr' & Hp' & Hk') & Hkc & d & Hd & Ht).
  mstep (sleep_eq p pr chan_ticks tickslock s f env Hk ltac:(done) Hc Hp Hkc Hc').
  set (s1 := f (asleep p chan_ticks s)) in *. set (s2 := set_kcpu _ _).
  assert (elapsed t0 s2 = elapsed t0 s + d) by (apply elapsed_add; [exact Ht|lia|lia]).
  exists s2. split_and?; [done|done| |lia|lia].
  split; [done|]. exists (set_chan None pr'). unfold s2, upd_proc. simpl. by rewrite list_lookup_alter_eq, Hp'.
Qed.

(** One turn that finds enough time gone. *)
Lemma sleep_turn_done t0 n s env : 0 <= n < 2 ^ 31 -> n <= elapsed t0 s -> sleep_turn t0 n s env = Ok (Some 0) s env.
Proof.
  intros Hn He. unfold sleep_turn. rewrite bind_gets. fold (elapsed t0 s). rewrite (u32_small n) by lia.
  by rewrite (proj2 (Z.ltb_ge _ _)) by lia.
Qed.

Lemma sleep_loop p m t0 n env : 0 <= n < 2 ^ 31 -> 1 <= m <= 2 ^ 31 -> Forall (lets_tick p m) env -> forall s fuel,
  s.(kcpu) = Mkcpu false 1 false {[tickslock]} -> alive p s ->
  elapsed t0 s < n + m -> n - elapsed t0 s <= Z.of_nat (length env) -> (length env < fuel)%nat ->
  exists s' k, mloop fuel (sleep_turn t0 n) s env = Ok 0 s' (drop k env) /\ s'.(kcpu) = s.(kcpu) /\ alive p s' /\
    (k <= length env)%nat /\ elapsed t0 s + Z.of_nat k <= elapsed t0 s' /\ n <= elapsed t0 s' < n + m /\
    (k = 0%nat \/ Z.of_nat k <= n - elapsed t0 s).
Proof.
  intros Hn Hm. induction env as [|f env IH]; intros Hf s fuel Hk Ha He Hlen Hfu; (destruct fuel as [|fuel]; [simpl in *; lia|]); cbn [mloop].
  { simpl in Hlen. mstep (sleep_turn_done t0 n s [] Hn ltac:(lia)). exists s, 0%nat. split_and?; try done; lia. }
  destruct (decide (n <= elapsed t0 s)) as [Hge|Hlt].
  { mstep (sleep_turn_done t0 n s (f :: env) Hn Hge). exists s, 0%nat. split_and?; try done; try lia. }
  apply Forall_cons in Hf as [Hf Hfs].
  destruct (sleep_turn_sleeps p m t0 n s f env Hk Ha Hf) as (s1 & Hrun & Hk1 & Ha1 & He1); [lia|lia|]. mstep Hrun.
  destruct (IH Hfs s1 fuel) as (s' & k & Hl & Hk' & Ha' & Hk0 & He' & Hn' & Hor); [by rewrite Hk1|done|lia|simpl in Hlen; lia|simpl in Hfu; lia|].
  exists s', (S k). rewrite <- Hk1. simpl in *. split_and?; try done; try lia.
Qed.

(** C17: sleeping ends. If every turn of the others lets at least one and at
    most [m] ticks pass, [sys_sleep] with argument [n] returns 0 after at most
    [n] turns, no earlier than [n] ticks after it was called and less than [m]
    ticks too late, with no lock held; the counter may wrap around in between. *)
Theorem sys_sleep_returns p pr n m s env :
  unlocked s -> alive p s -> calling s p pr 0 n -> n < 2 ^ 31 -> 1 <= m <= 2 ^ 31 ->
  Forall (lets_tick p m) env -> n <= Z.of_nat (length env) ->
  exists s' k, sys_sleep s env = Ok 0 s' (drop k env) /\ Z.of_nat k <= n /\
    n <= u32 (s'.(ticks) - s.(ticks)) < n + m /\ unlocked s' /\ alive p s'.
Proof.
  intros Hu Ha Hcall Hn Hm Hf Hlen. pose proof (ca_range _ _ _ _ _ Hcall) as Hr.
  unfold sys_sleep. mstep (argint_eq s env p pr 0 n Hcall). rewrite s32_small by lia.
  mstep (acquire_quiet tickslock s env ltac:(unfold quiet; rewrite Hu; done) ltac:(rewrite Hu; simpl; set_solver)).
  rewrite bind_gets. set (s1 := with_lock tickslock s).
  assert (Hk1 : s1.(kcpu) = Mkcpu false 1 false {[tickslock]}).
  { unfold s1, with_lock, upd_cpu. simpl. rewrite Hu. simpl. by rewrite (right_id_L ∅ (∪)). }
  assert (He1 : elapsed s.(ticks) s1 = 0) by (unfold elapsed; simpl; by rewrite Z.sub_diag).
  change (ticks s1) with (ticks s).
  destruct (sleep_loop p m s.(ticks) n env ltac:(lia) Hm Hf s1 (S (length env)) Hk1 Ha) as (s2 & k & Hrun & Hk2 & Ha2 & _ & _ & He2 & Hor); [lia..|].
  assert (Hloop : mloop_env (sleep_turn s.(ticks) n) s1 env = Ok 0 s2 (drop k env)) by exact Hrun.
  mstep Hloop. cbn [Z.ltb Z.compare]. rewrite Hk1 in Hk2.
  mstep (release_held tickslock s2 (drop k env) ltac:(unfold quiet; rewrite Hk2; simpl; split_and!; [done|done|lia])
    ltac:(rewrite Hk2; simpl; set_solver) ltac:(rewrite Hk2; simpl; lia)).
  exists (without_lock tickslock s2), k. split_and?; [done|destruct Hor; lia|apply He2|apply He2| |done].
  unfold unlocked, without_lock, upd_cpu. simpl. rewrite Hk2. simpl. by rewrite difference_diag_L.
Qed.

(** The others, when the timer interrupts once and the scheduler then comes
    back to [p]. *)
Definition timer_turn (p : nat) (s : kstate) : kstate := upd_proc p (set_state RUNNING) (ticked s).

Lemma timer_turn_ticks p : lets_tick p 1 (timer_turn p).
Proof.
  intros s (Hc & pr & Hp & Hk). split_and?; [split; [done|]|done|exists 1; split; [lia|done]].
  exists (set_state RUNNING (wake chan_ticks pr)). split.
  - unfold timer_turn, upd_proc, ticked, woken. simpl. by rewrite list_lookup_alter_eq, list_lookup_fmap, Hp.
  - unfold wake. by case_bool_decide.
Qed.

(** sleep(2), called just before the counter wraps. *)
Definition demo_nap : kstate :=
  set_ticks (2 ^ 32 - 1) (upd_mem (fun m => Cstring.Cstring.store32 m (1024 + tf_r 1) 2)
    (set_curproc (Some 0%nat) (upd_proc 0 (set_tf 1024) (kstate0 [])))).

Lemma sys_sleep_returns_witness :
  exists s' k, sys_sleep demo_nap (replicate 3 (timer_turn 0)) = Ok 0 s' (drop k (replicate 3 (timer_turn 0))) /\
    Z.of_nat k <= 2 /\ 2 <= u32 (s'.(ticks) - demo_nap.(ticks)) < 2 + 1 /\ unlocked s' /\ alive 0 s'.
Proof.
  apply (sys_sleep_returns 0 (set_tf 1024 zero_proc) 2 1 demo_nap (replicate 3 (timer_turn 0))); try lia.
  - done.
  - split; [done|]. by exists (set_tf 1024 zero_proc).
  - split; [done|done|lia|by vm_compute|lia].
  - apply Forall_replicate, timer_turn_ticks.
  - simpl. lia.
Defined.

End ClockFacts.
