(* ===== verification/TrapFacts.v ===== *)
(** Exceptions: what a fault does to the kernel, and the exception vectors. *)
From S2P Require Import Prelude Types Cstring Spinlock Console ConsoleFacts Kalloc KallocFacts VmFacts Proc Syscall Device Trap.
Import Cstring Spinlock Console ConsoleFacts Kalloc KallocFacts VmFacts Proc Syscall Device Trap.

Module TrapFacts.

#[local] Opaque load32 store32.

(** ** Messages *)

(** The arguments that a format consumes are there, with the right types. *)
Fixpoint well_fed (fmt : list Z) (args : list parg) : bool :=
  match fmt with
  | [] => true
  | c :: fmt1 =>
      if negb (c =? 37) then well_fed fmt1 args else
      match fmt1 with
      | [] => true
      | d :: fmt2 =>
          if (d =? 100) || (d =? 120) || (d =? 112) then
            match args with PInt _ :: args' => well_fed fmt2 args' | _ => false end
          else if d =? 115 then
            match args with PStr _ :: args' => well_fed fmt2 args' | _ => false end
          else well_fed fmt2 args
      end
  end.

(** A computation that only prints. *)
Definition prints (m : K unit) : Prop :=
  forall s env, exists tx, m s env = Ok tt (set_uart_tx tx s) env.

Lemma set_uart_twice tx tx' s : set_uart_tx tx' (set_uart_tx tx s) = set_uart_tx tx' s.
Proof. done. Qed.

Lemma prints_ret : prints (ret tt).
Proof. intros s env. exists s.(uart_tx). by destruct s. Qed.

Lemma prints_seq m k : prints m -> prints k -> prints (m ;;; k).
Proof.
  intros Hm Hk s env. destruct (Hm s env) as [tx Htx]. mstep Htx.
  destruct (Hk (set_uart_tx tx s) env) as [tx' Htx']. exists tx'. by rewrite Htx'.
Qed.

Lemma prints_consputc c : prints (consputc c).
Proof. intros s env. apply consputc_run. Qed.

Lemma prints_mfor {A} (l : list A) f : (forall x, prints (f x)) -> prints (mfor l f).
Proof. intros Hf. induction l; [apply prints_ret|]. by apply prints_seq. Qed.

Create HintDb printing.
#[local] Hint Resolve prints_ret prints_consputc : printing.
#[local] Hint Extern 1 (prints (_ ;;; _)) => apply prints_seq : printing.
#[local] Hint Extern 1 (prints (mfor _ _)) => apply prints_mfor; intros : printing.
#[local] Hint Extern 1 (prints (printint _ _ _)) => unfold printint : printing.

Lemma cprintf_loop_prints n : forall fmt args, (length fmt <= n)%nat -> well_fed fmt args = true -> prints (cprintf_loop fmt args).
Proof.
  induction n as [|n IH]; intros [|c fmt1] args Hl Hw; simpl in Hl; try lia; [apply prints_ret..|]. simpl in *.
  destruct (c =? 37); cbn [negb] in *; [|apply prints_seq; [apply prints_consputc|apply IH; [lia|done]]].
  destruct fmt1 as [|d fmt2]; [apply prints_ret|]. simpl in Hl.
  assert (Hrec : forall args, well_fed fmt2 args = true -> prints (cprintf_loop fmt2 args)) by (intros; apply IH; [lia|done]).
  destruct (d =? 100); cbn [orb] in *; [destruct args as [|[v|] args]; [done| |done]; auto with printing|].
  destruct (d =? 120); cbn [orb] in *; [destruct args as [|[v|] args]; [done| |done]; auto with printing|].
  destruct (d =? 112); cbn [orb] in *; [destruct args as [|[v|] args]; [done| |done]; auto with printing|].
  destruct (d =? 115); [destruct args as [|[|t] args]; [done|done|]; auto with printing|].
  destruct (d =? 37); auto with printing.
Qed.

(** Kernel code that may print. *)
Definition may_print (s : kstate) : Prop := quiet s /\ cons_lock ∉ s.(kcpu).(held).

Lemma cprintf_run fmt args s env : may_print s -> well_fed fmt args = true ->
  exists tx, cprintf fmt args s env = Ok tt (set_uart_tx tx s) env.
Proof.
  intros [Hq Hl] Hw. unfold cprintf. rewrite bind_gets. destruct (cons_locking s) eqn:Hcl; simpl.
  - mstep (acquire_quiet cons_lock s env Hq Hl).
    destruct (cprintf_loop_prints (length fmt) fmt args (le_n _) Hw (with_lock cons_lock s) env) as [tx Htx].
    mstep Htx. rewrite bind_gets. change (cons_locking _) with (cons_locking s). rewrite Hcl. cbn [when].
    exists tx. rewrite (release_quiet cons_lock s) by done. by destruct s.
  - rewrite bind_ret. destruct (cprintf_loop_prints (length fmt) fmt args (le_n _) Hw s env) as [tx Htx].
    mstep Htx. rewrite bind_gets. change (cons_locking _) with (cons_locking s). rewrite Hcl. by exists tx.
Qed.

(** Running a computation that prints and does nothing else here. *)
Definition says (m : K unit) : Prop :=
  forall s env, may_print s -> exists tx, m s env = Ok tt (set_uart_tx tx s) env.

Lemma says_cprintf fmt args : well_fed fmt args = true -> says (cprintf fmt args).
Proof. intros Hw s env Hm. by apply cprintf_run. Qed.

Lemma says_abort_reason st : says (abort_reason st).
Proof. unfold abort_reason. repeat case_match; by apply says_cprintf. Qed.

Lemma says_load p (k : Z -> K unit) : (forall v, says (k v)) -> says (v <- load_word p ;; k v).
Proof. intros Hk s env Hm. unfold load_word. rewrite bind_gets. by apply Hk. Qed.

Lemma says_mfor {A} (l : list A) f : Forall (fun x => says (f x)) l -> says (mfor l f).
Proof.
  induction 1 as [|x l Hx _ IH]; intros s env Hm; [by apply prints_ret|]. simpl.
  destruct (Hx s env Hm) as [tx Htx]. mstep Htx. destruct (IH (set_uart_tx tx s) env Hm) as [tx' Htx'].
  exists tx'. by rewrite Htx'.
Qed.

Lemma says_dump_tf r : says (dump_tf r).
Proof. apply says_mfor. repeat constructor; apply says_load; intros v; by apply says_cprintf. Qed.

(** Printing leaves the rest of a computation to run in the same state. *)
Lemma says_then {B} (m : K unit) (k : K B) s env : says m -> may_print s ->
  exists tx, (m ;;; k) s env = k (set_uart_tx tx s) env.
Proof. intros Hm Hs. destruct (Hm s env Hs) as [tx Htx]. exists tx. by mstep Htx. Qed.

Lemma cli_then {B} (k : K B) s env : quiet s -> (cli ;;; k) s env = k s env.
Proof.
  intros (Hi & _ & _). unfold cli. rewrite bind_modify. f_equal. unfold upd_cpu, set_int_enabled. rewrite <- Hi.
  destruct s as [[] ]. done.
Qed.

(** The common part of the two abort handlers. *)
Definition report (fmt : list Z) (r st fa : Z) : K unit :=
  pc <- load_word (r + tf_pc) ;;
  cprintf (chars "program counter: 0x%x caused" ++ newline) [PInt pc] ;;;
  cprintf fmt [PInt fa; PInt st] ;;;
  abort_reason st ;;;
  dump_tf r.

Lemma says_seq m k : says m -> says k -> says (m ;;; k).
Proof.
  intros Hm Hk s env Hs. destruct (Hm s env Hs) as [tx Htx]. mstep Htx.
  destruct (Hk (set_uart_tx tx s) env Hs) as [tx' Htx']. exists tx'. by rewrite Htx'.
Qed.

Lemma says_report fmt r st fa : well_fed fmt [PInt fa; PInt st] = true -> says (report fmt r st fa).
Proof.
  intros Hw. apply says_load. intros pc. apply says_seq; [by apply says_cprintf|].
  apply says_seq; [by apply says_cprintf|]. apply says_seq; [apply says_abort_reason|apply says_dump_tf].
Qed.

Section Faults.
Context `{Image}.

Lemma fault_run fmt (k : K unit) r st fa s env : may_print s -> well_fed fmt [PInt fa; PInt st] = true ->
  exists tx, (cli ;;; report fmt r st fa ;;; pc <- load_word (r + tf_pc) ;; if pc <? KERNBASE then exit else k) s env =
    (if load32 s.(mem) (r + tf_pc) <? KERNBASE then exit else k) (set_uart_tx tx s) env.
Proof.
  intros Hs Hw. rewrite cli_then by apply Hs.
  destruct (says_then (report fmt r st fa) (pc <- load_word (r + tf_pc) ;; if pc <? KERNBASE then exit else k) s env
    (says_report fmt r st fa Hw) Hs) as [tx Htx].
  exists tx. rewrite Htx. unfold load_word. by rewrite bind_gets.
Qed.

Lemma dabort_eq r dfs dfa s env :
  dabort_handler r dfs dfa s env =
  (cli ;;; report (chars "data abort at 0x%x, status 0x%x" ++ newline) r dfs dfa ;;;
   pc <- load_word (r + tf_pc) ;; if pc <? KERNBASE then exit else panic "data abort exception") s env.
Proof.
  unfold dabort_handler, report, cli, load_word. mrun.
  do 3 (apply bind_ext; intros _ ? ?; rewrite ?bind_assoc). done.
Qed.

Lemma iabort_eq r ifs ifa s env :
  iabort_handler r ifs ifa s env =
  (cli ;;; report (chars "prefetch abort at 0x%x, status 0x%x" ++ newline) r ifs ifa ;;;
   pc <- load_word (r + tf_pc) ;; if pc <? KERNBASE then exit else panic "prefetch abort exception") s env.
Proof.
  unfold iabort_handler, report, cli, load_word. mrun.
  do 3 (apply bind_ext; intros _ ? ?; rewrite ?bind_assoc). done.
Qed.

(** C31: aborts. A data or prefetch abort prints a report, which changes
    nothing else, and then ends exactly the faulting program: the current
    process exits when the saved program counter lies in user space, and the
    kernel panics when it lies in the kernel. *)
Theorem abort_ends r st fa s env :
  may_print s ->
  let user := load32 s.(mem) (r + tf_pc) <? KERNBASE in
  (exists tx, dabort_handler r st fa s env =
    (if user then exit else panic "data abort exception") (set_uart_tx tx s) env) /\
  (exists tx, iabort_handler r st fa s env =
    (if user then exit else panic "prefetch abort exception") (set_uart_tx tx s) env).
Proof.
  intros Hs user. split.
  - destruct (fault_run (chars "data abort at 0x%x, status 0x%x" ++ newline) (panic "data abort exception") r st fa s env Hs eq_refl) as [tx Htx].
    exists tx. by rewrite dabort_eq.
  - destruct (fault_run (chars "prefetch abort at 0x%x, status 0x%x" ++ newline) (panic "prefetch abort exception") r st fa s env Hs eq_refl) as [tx Htx].
    exists tx. by rewrite iabort_eq.
Qed.

End Faults.

(** An undefined instruction stops the kernel wherever it was executed:
    unlike for aborts, the saved program counter is not looked at, so a user
    program can bring the machine down. *)
Theorem und_panics r s env :
  may_print s -> exists s', und_handler r s env = Err (Panic "undefined instruction exception") s' env.
Proof.
  intros Hs. unfold und_handler. rewrite cli_then by apply Hs. unfold load_word. rewrite bind_gets.
  destruct (says_then (cprintf (chars "und at: 0x%x " ++ newline) [PInt (load32 s.(mem) (r + tf_pc))])
    (panic "undefined instruction exception" : K unit) s env) as [tx ->]; [by apply says_cprintf|done|].
  by eexists.
Qed.

(** ** The vectors *)

Section Vectors.
Context `{Image} `{Stubs}.

(** The kernel ends behind the last allocator page that starts below the
    vectors. *)
Definition kernel_above : Prop := KERNBASE + 3 * KPAGE < kern_end.

Lemma vectors_clear p i : kernel_above -> page_ok p -> 0 <= i < 64 -> vec_table + i < p.
Proof.
  unfold kernel_above. intros Hk (Ha & Hp & _ & _) Hi. change vec_table with (KERNBASE + 983040).
  change KPAGE with 262144 in *. unfold KERNBASE in *. Z.to_euclidean_division_equations. lia.
Qed.

(** Storing a list of words from an address on. *)
Fixpoint store_words (m : memory) (a : Z) (ws : list Z) : memory :=
  match ws with
  | [] => m
  | w :: ws' => store_words (store32 m a w) (a + 4) ws'
  end.

Lemma store_words_other ws : forall m a b, b < a \/ a + 4 * Z.of_nat (length ws) <= b -> store_words m a ws b = m b.
Proof.
  induction ws as [|w ws IH]; intros m a b Hb; [done|]. cbn [store_words length] in *. rewrite IH by lia. apply store32_other. lia.
Qed.

Lemma store_words_load ws : forall m a i w, ws !! i = Some w -> 0 <= w < 2 ^ 32 ->
  load32 (store_words m a ws) (a + 4 * Z.of_nat i) = w.
Proof.
  induction ws as [|v ws IH]; intros m a i w Hi Hw; [done|]. cbn [store_words]. destruct i as [|i]; simpl in Hi.
  - injection Hi as ->. rewrite Z.mul_0_r, Z.add_0_r. transitivity (load32 (store32 m a w) a); [|by apply load_store32].
    apply load32_other. intros j Hj. apply store_words_other. lia.
  - rewrite <- (IH (store32 m a v) (a + 4) i w Hi Hw). f_equal. lia.
Qed.

Definition vector_words : list Z := replicate 8 LDR_PC ++ (trap_stub <$> all_traps).

Definition vectored (s : kstate) : kstate := upd_mem (fun m => store_words m vec_table vector_words) s.

Lemma vectored_eq s env :
  (mfor (seq 0 8) (fun i => store_word (vec_table + 4 * Z.of_nat i) LDR_PC) ;;;
   mfor (zip (seq 8 8) all_traps) (fun e => store_word (vec_table + 4 * Z.of_nat e.1) (trap_stub e.2))) s env =
  Ok tt (vectored s) env.
Proof. done. Qed.

Lemma vectored_free s l : kernel_above -> free_pages s l -> free_pages (vectored s) l.
Proof.
  intros Hk Hf. eapply free_frame; [exact Hf|done|done|apply Hf|]. intros p i Hp Hi.
  assert (page_ok p) as Hok by (destruct Hf as (Hc & _); apply chain_ok in Hc; rewrite Forall_forall in Hc; by apply Hc).
  pose proof (vectors_clear p 0 Hk Hok ltac:(lia)). pose proof (vectors_clear p 63 Hk Hok ltac:(lia)).
  apply (store_words_other vector_words). change (length vector_words) with 16%nat. lia.
Qed.

Lemma vectored_words s i t : all_traps !! i = Some t -> 0 <= trap_stub t < 2 ^ 32 ->
  load32 (vectored s).(mem) (vec_table + 4 * Z.of_nat i) = LDR_PC /\
  load32 (vectored s).(mem) (vec_table + 4 * Z.of_nat i + 8 + 24) = trap_stub t.
Proof.
  intros Hi Ht. pose proof (lookup_lt_Some _ _ _ Hi) as Hlt. change (length all_traps) with 8%nat in Hlt. split.
  - apply store_words_load; [|done]. unfold vector_words. rewrite lookup_app_l by (rewrite length_replicate; lia). by apply lookup_replicate_2.
  - replace (vec_table + 4 * Z.of_nat i + 8 + 24) with (vec_table + 4 * Z.of_nat (8 + i)) by lia.
    apply store_words_load; [|done]. unfold vector_words. rewrite lookup_app_r by (rewrite length_replicate; lia).
    rewrite length_replicate. replace (8 + i - 8)%nat with i by lia. by rewrite list_lookup_fmap, Hi.
Qed.

(** Giving each mode a page. *)
Lemma stacks_run modes : forall s l env, (length modes <= length l)%nat -> free_pages s l ->
  exists s', mfor modes (fun mode =>
      stk <- kalloc ;;
      if stk =? 0 then panic "irq stack allocation failed" else set_stk mode stk) s env = Ok tt s' env /\
    free_pages s' (drop (length modes) l) /\
    s' = set_freelist s'.(freelist) (set_mode_sp (foldl (fun m e => <[e.1 := e.2]> m) s.(mode_sp) (zip modes l)) s).
Proof.
  induction modes as [|mode modes IH]; intros s l env Hl Hf.
  { exists s. split_and?; [done|by rewrite drop_0|by destruct s]. }
  destruct l as [|p l]; [simpl in Hl; lia|]. cbn [mfor].
  destruct (kalloc_cons s env p l Hf) as (Hrun & Hf1 & Hp & _). set (s1 := set_freelist _ s) in *.
  rewrite bind_assoc. mstep Hrun. rewrite (proj2 (Z.eqb_neq p 0)) by (destruct Hp as (_ & _ & _ & ?); lia).
  unfold set_stk at 1. rewrite bind_modify. set (s2 := set_mode_sp _ s1).
  destruct (IH s2 l env) as (s' & Hrun' & Hf' & Hs').
  { simpl in Hl. lia. } { exact Hf1. }
  exists s'. split_and?; [done|done|]. rewrite Hs'. done.
Qed.

Definition stack_modes : list Z := [FIQ_MODE; IRQ_MODE; ABT_MODE; UND_MODE].

(** The state after trap_init, but for the head of the free list. *)
Definition trapped (l : list Z) (s : kstate) : kstate :=
  set_mode_sp (foldl (fun m e => <[e.1 := e.2]> m) s.(mode_sp) (zip stack_modes l)) (vectored s).

Lemma trap_init_run s l env : kernel_above -> (4 <= length l)%nat -> free_pages s l ->
  exists s', trap_init s env = Ok tt s' env /\ free_pages s' (drop 4 l) /\ s' = set_freelist s'.(freelist) (trapped l s).
Proof.
  intros Hk Hl Hf. unfold trap_init. rewrite <- bind_assoc. mstep (vectored_eq s env).
  destruct (stacks_run stack_modes (vectored s) l env Hl (vectored_free s l Hk Hf)) as (s' & Hrun & Hf' & Hs').
  by exists s'.
Qed.

(** Exception vectors. With four free pages or more, trap_init succeeds:
    the instruction of each of the eight vectors is LDR pc, [pc, #0x18] (pc
    reads 8 bytes ahead) and the word it loads is the address of the stub of
    that exception; four pages are taken, one for each of the modes FIQ, IRQ,
    abort and undefined. The stack pointer of a mode is the lowest address of
    its page, so the first word pushed lies below the page. *)
Theorem trap_init_installs s p1 p2 p3 p4 l env :
  kernel_above -> free_pages s (p1 :: p2 :: p3 :: p4 :: l) ->
  (forall t, 0 <= trap_stub t < 2 ^ 32) ->
  exists s', trap_init s env = Ok tt s' env /\ free_pages s' l /\
    (forall i t, all_traps !! i = Some t ->
      load32 s'.(mem) (vec_table + 4 * Z.of_nat i) = LDR_PC /\
      load32 s'.(mem) (vec_table + 4 * Z.of_nat i + 8 + 24) = trap_stub t) /\
    s'.(mode_sp) !! FIQ_MODE = Some p1 /\ s'.(mode_sp) !! IRQ_MODE = Some p2 /\
    s'.(mode_sp) !! ABT_MODE = Some p3 /\ s'.(mode_sp) !! UND_MODE = Some p4.
Proof.
  intros Hk Hf Ht. destruct (trap_init_run s (p1 :: p2 :: p3 :: p4 :: l) env Hk ltac:(simpl; lia) Hf) as (s' & Hrun & Hf' & Hs').
  assert (Hm : s'.(mem) = (vectored s).(mem)) by exact (f_equal mem Hs').
  assert (Hsp : s'.(mode_sp) = <[UND_MODE := p4]> (<[ABT_MODE := p3]> (<[IRQ_MODE := p2]> (<[FIQ_MODE := p1]> s.(mode_sp)))))
    by exact (f_equal mode_sp Hs').
  exists s'. rewrite Hm, Hsp. split; [done|]. split; [done|]. split; [intros i t Hi; by apply vectored_words|].
  split_and!; by simplify_map_eq.
Qed.
End Vectors.

(** ** Witnesses *)

#[local] Instance boot_image : Image := {|
  kern_end := KERNBASE + 3 * KPAGE + 4096; trapret_addr := 0; forkret_addr := 0; error_init_addr := 0; initcode := []
|}.

#[local] Instance demo_stubs : Stubs := {| trap_stub := fun t =>
  match t with TRAP_IRQ => KERNBASE + 266240 | _ => KERNBASE + 262144 end |}.

(** Four free pages behind the first megabyte. *)
Fixpoint demo_free (n : nat) : kstate * list Z :=
  match n with
  | O => (kstate0 [], [])
  | S n' =>
      let '(s, l) := demo_free n' in
      let v := KERNBASE + (4 + Z.of_nat n') * KPAGE in
      (set_freelist v (upd_mem (freed v s.(freelist)) s), v :: l)
  end.

Lemma demo_free_pages n : (n <= 8)%nat -> free_pages (demo_free n).1 (demo_free n).2 /\
  Forall (fun p => p < KERNBASE + (4 + Z.of_nat n) * KPAGE) (demo_free n).2.
Proof.
  induction n as [|n IH]; intros Hn; [split; [|constructor]; split_and!; try done; constructor|].
  destruct IH as [Hf Hl]; [lia|]. simpl. destruct (demo_free n) as [s l]. simpl in *. split.
  - apply kfree_pages; [done| |].
    + unfold page_ok. change KPAGE with 262144. unfold kern_end, boot_image. change KPAGE with 262144.
      unfold v2p, u32, KERNBASE, PHYSTOP. split_and!; try lia.
      * Z.to_euclidean_division_equations. lia.
      * rewrite Z.mod_small; lia.
    + intros Hin. rewrite Forall_forall in Hl. apply Hl in Hin. lia.
  - constructor; [change KPAGE with 262144; lia|]. eapply Forall_impl; [exact Hl|]. intros p Hp. simpl in Hp.
    change KPAGE with 262144 in *. lia.
Qed.

Lemma trap_init_installs_witness :
  exists s', trap_init (demo_free 5).1 [] = Ok tt s' [] /\ free_pages s' [KERNBASE + 4 * KPAGE] /\
    (forall i t, all_traps !! i = Some t ->
      load32 s'.(mem) (vec_table + 4 * Z.of_nat i) = LDR_PC /\
      load32 s'.(mem) (vec_table + 4 * Z.of_nat i + 8 + 24) = trap_stub t) /\
    s'.(mode_sp) !! FIQ_MODE = Some (KERNBASE + 8 * KPAGE) /\ s'.(mode_sp) !! IRQ_MODE = Some (KERNBASE + 7 * KPAGE) /\
    s'.(mode_sp) !! ABT_MODE = Some (KERNBASE + 6 * KPAGE) /\ s'.(mode_sp) !! UND_MODE = Some (KERNBASE + 5 * KPAGE).
Proof.
  apply (trap_init_installs (demo_free 5).1 _ _ _ _ _ []).
  - by vm_compute.
  - apply (demo_free_pages 5). lia.
  - intros []; by vm_compute.
Defined.

Lemma demo_may_print : may_print (kstate0 []).
Proof. split; [by split_and!|simpl; set_solver]. Qed.

Lemma abort_ends_witness :
  (exists tx, dabort_handler 4096 5 16 (kstate0 []) [] = exit (set_uart_tx tx (kstate0 [])) []) /\
  (exists tx, iabort_handler 4096 5 16 (kstate0 []) [] = exit (set_uart_tx tx (kstate0 [])) []).
Proof. apply (abort_ends 4096 5 16 (kstate0 []) []). exact demo_may_print. Defined.

Lemma und_panics_witness :
  exists s', und_handler 4096 (kstate0 []) [] = Err (Panic "undefined instruction exception") s' [].
Proof. apply und_panics. exact demo_may_print. Defined.

End TrapFacts.
