(* ===== verification/CallStack.v ===== *)
(** Call stacks (kernel/spinlock.c: getcallerpcs, show_callstk) and what panic
    of kernel/console.c prints. The frame pointer, which the code reads from a
    register, is an argument. *)
From S2P Require Import Prelude Types Spinlock Cstring Console Kalloc TrapFacts.
Import Spinlock Cstring Console Kalloc TrapFacts.

Module CallStack.

(** include/param.h *)
Definition STACK_DEPTH : nat := 32.

(* the frame pointers at which the walk ends *)
Definition last_frame (fp : Z) : bool := (fp =? 0) || (fp <? KERNBASE) || (fp =? 4294967295).

(* fp points to the saved lr; the saved fp is one word below *)
Fixpoint callerpcs_loop (n : nat) (fp : Z) : K (list Z) :=
  match n with
  | O => ret []
  | S n' =>
      if last_frame fp then ret (replicate n 0) else
      let fp := u32 (fp - 4) in
      pc <- load_word (u32 (fp + 4)) ;;
      saved <- load_word fp ;;
      rest <- callerpcs_loop n' saved ;;
      ret (pc :: rest)
  end.

(** The words stored into [pcs]. *)
Definition getcallerpcs (v : Z) : K (list Z) := callerpcs_loop STACK_DEPTH v.

(* for (i = 0; i < STACK_DEPTH && pcs[i]; i++) *)
Fixpoint print_pcs (i : Z) (pcs : list Z) : K unit :=
  match pcs with
  | [] => ret tt
  | pc :: pcs' =>
      if pc =? 0 then ret tt else
      cprintf (chars "STACK #%d: 0x%x" ++ newline) [PInt (i + 1); PInt pc] ;;;
      print_pcs (i + 1) pcs'
  end.

Definition show_callstk (fp : Z) (s : list Z) : K unit :=
  cprintf (chars "%s" ++ newline) [PStr (Some s)] ;;;
  pcs <- getcallerpcs fp ;;
  print_pcs 0 pcs.

(* up to the endless loop, which is [Panic] *)
Definition panic_report (fp id : Z) (s : list Z) : K unit :=
  cli ;;;
  modify (set_cons_locking false) ;;;
  cprintf (chars "cpu %d: panic: ") [PInt id] ;;;
  show_callstk fp s.

(** ** The chain of frames *)

(** [chain m fp l]: the frames from [fp] on, with the return addresses [l]. *)
Fixpoint chain (m : memory) (fp : Z) (l : list Z) : Prop :=
  match l with
  | [] => last_frame fp = true
  | pc :: l' => last_frame fp = false /\ load32 m fp = pc /\ chain m (load32 m (fp - 4)) l'
  end.

Lemma last_frame_false fp : last_frame fp = false -> KERNBASE <= fp /\ fp <> 4294967295.
Proof. unfold last_frame. intros [[_ H2%Z.ltb_ge]%orb_false_elim H3%Z.eqb_neq]%orb_false_elim. done. Qed.

Lemma callerpcs_chain k n s env : (n <= k)%nat -> (forall p, 0 <= load32 s.(mem) p < 2 ^ 32) ->
  forall fp l, 0 <= fp < 2 ^ 32 -> chain s.(mem) fp l ->
  callerpcs_loop n fp s env = Ok (take n (l ++ replicate k 0)) s env.
Proof.
  intros Hn Hw. induction n as [|n IH]; intros fp l Hfp Hc; [by rewrite take_0|].
  cbn [callerpcs_loop]. destruct l as [|pc l]; cbn [chain] in Hc.
  - rewrite Hc. rewrite app_nil_l, take_replicate, Nat.min_l by done. done.
  - destruct Hc as (Hl & Hpc & Hc). rewrite Hl. pose proof (last_frame_false fp Hl) as [Hk _]. unfold KERNBASE in Hk.
    rewrite (u32_small (fp - 4)) by lia. rewrite Z.sub_add. rewrite (u32_small fp) by lia.
    unfold load_word. mrun. rewrite (bind_ok _ _ _ _ _ _ _ (IH ltac:(lia) _ l (Hw _) Hc)). by rewrite Hpc.
Qed.

(** The return addresses of the innermost frames, as many as there is room
    for, and zeros behind them. *)
Theorem getcallerpcs_chain s env fp l : 0 <= fp < 2 ^ 32 -> chain s.(mem) fp l ->
  (forall p, 0 <= load32 s.(mem) p < 2 ^ 32) ->
  getcallerpcs fp s env = Ok (take STACK_DEPTH (l ++ replicate STACK_DEPTH 0)) s env.
Proof. intros Hfp Hc Hw. by apply callerpcs_chain. Qed.

(** ** Panic *)

Lemma unlocked_print fmt args s env : s.(cons_locking) = false -> well_fed fmt args = true ->
  exists tx, cprintf fmt args s env = Ok tt (set_uart_tx tx s) env.
Proof.
  intros Hcl Hw. unfold cprintf. rewrite bind_gets, Hcl. cbn [when]. rewrite bind_ret.
  destruct (cprintf_loop_prints (length fmt) fmt args (le_n _) Hw s env) as [tx Htx]. mstep Htx. rewrite bind_gets. simpl. rewrite Hcl.
  by exists tx.
Qed.

Lemma print_pcs_run pcs : forall i s env, s.(cons_locking) = false -> exists tx, print_pcs i pcs s env = Ok tt (set_uart_tx tx s) env.
Proof.
  induction pcs as [|pc pcs IH]; intros i s env Hcl; cbn [print_pcs]; [exists s.(uart_tx); by destruct s|].
  destruct (pc =? 0); [exists s.(uart_tx); by destruct s|].
  destruct (unlocked_print (chars "STACK #%d: 0x%x" ++ newline) [PInt (i + 1); PInt pc] s env Hcl eq_refl) as [tx Htx]. mstep Htx.
  destruct (IH (i + 1) (set_uart_tx tx s) env Hcl) as [tx' Htx']. exists tx'. by rewrite Htx'.
Qed.

Lemma callerpcs_ok n : forall fp s env, exists pcs, callerpcs_loop n fp s env = Ok pcs s env.
Proof.
  induction n as [|n IH]; intros fp s env; cbn [callerpcs_loop]; [by eexists|]. destruct (last_frame fp); [by eexists|].
  unfold load_word. mrun. destruct (IH (load32 s.(mem) (u32 (fp - 4))) s env) as [pcs Hp]. mstep Hp. by eexists.
Qed.

(** The report of a panic ends, whichever locks are held and whatever the
    stack looks like: it takes no lock itself. It disables interrupts, and the
    console's lock from then on, and prints; nothing else changes. *)
Theorem panic_report_ends fp id msg s env :
  exists tx, panic_report fp id msg s env =
    Ok tt (set_uart_tx tx (set_cons_locking false (upd_cpu (set_int_enabled false) s))) env.
Proof.
  unfold panic_report, cli. mrun. set (s1 := set_cons_locking false (upd_cpu (set_int_enabled false) s)).
  destruct (unlocked_print (chars "cpu %d: panic: ") [PInt id] s1 env eq_refl eq_refl) as [tx1 H1]. mstep H1.
  unfold show_callstk. destruct (unlocked_print (chars "%s" ++ newline) [PStr (Some msg)] (set_uart_tx tx1 s1) env eq_refl eq_refl) as [tx2 H2].
  mstep H2. unfold getcallerpcs. destruct (callerpcs_ok STACK_DEPTH fp (set_uart_tx tx2 (set_uart_tx tx1 s1)) env) as [pcs H3]. mstep H3.
  destruct (print_pcs_run pcs 0 (set_uart_tx tx2 (set_uart_tx tx1 s1)) env eq_refl) as [tx3 H4]. exists tx3. by rewrite H4.
Qed.

End CallStack.
