(* ===== verification/Boot.v ===== *)
(** Boot (kernel/bootmain.c and kernel/main.c). The boot code runs before
    paging, on physical memory; it builds the page tables the kernel runs on,
    turns paging on and enters kmain, which initialises every part of the
    kernel in turn. *)
From S2P Require Import Prelude Types Spinlock Sched Cstring Bio Log Inode Console Fs Kalloc Pipe File Vm Proc Syscall Device Trap.
Import Spinlock Sched Cstring Bio Log Inode Console Fs Kalloc Pipe File Vm Proc Syscall Device Trap.

(** The places the link script kernel.ld gives to the page tables, and the
    end of the kernel's initialised data. *)
Class Tables := {
  dev_pte : Z;
  pte : Z;
  kt : Z;
  ut : Z;
  kern_data : Z
}.

Module Boot.

(** Physical memory, the characters sent, and the registers of the memory
    management unit that are set. *)
Record bstate : Type := Mkbstate {
  b_mem : memory;
  b_tx : list Z;
  b_dacr : Z;
  b_ttbcr : Z;
  b_ttbr1 : Z;
  b_ttbr0 : Z;
  b_sctlr : Z
}.

Definition B := M bstate.

Definition set_b_mem (m : memory) (b : bstate) : bstate :=
  Mkbstate m b.(b_tx) b.(b_dacr) b.(b_ttbcr) b.(b_ttbr1) b.(b_ttbr0) b.(b_sctlr).
Definition set_b_tx (t : list Z) (b : bstate) : bstate :=
  Mkbstate b.(b_mem) t b.(b_dacr) b.(b_ttbcr) b.(b_ttbr1) b.(b_ttbr0) b.(b_sctlr).
Definition upd_b_mem (f : memory -> memory) (b : bstate) : bstate := set_b_mem (f b.(b_mem)) b.

Definition puts (t : list Z) : B unit := modify (fun b => set_b_tx (b.(b_tx) ++ t) b).
Definition bstore (p v : Z) : B unit := modify (upd_b_mem (fun m => store32 m p v)).

Section Boot.
Context `{Image} `{Tables}.

Definition dram_pte (i : Z) : Z :=
  Z.lor (Z.lor (Z.lor (Z.lor (Z.shiftl i PTE_SHIFT) PTE_BUF) PTE_CACHE) PTE_PA) PTE_SMALL.
Definition coarse (t : Z) : Z := Z.lor t PDE_COARSE.

(* the endless loop after the message is [Blocked] *)
Definition build_pages : B unit :=
  if p2v (Z.land VEC_TBL (PDE_SZ - 1)) <=? kern_end then
    puts (chars "panic: vector table overlaps kernel" ++ newline) ;;; fail Blocked
  else
  mfor (seq 0 (Z.to_nat (Z.shiftr PHYSTOP PTE_SHIFT))) (fun i =>
    bstore (pte + 4 * Z.of_nat i) (dram_pte (Z.of_nat i))) ;;;
  mfor (seq 0 (Z.to_nat (Z.shiftr PHYSTOP PDE_SHIFT))) (fun i =>
    let pde := coarse (pte + 4 * Z.shiftl (Z.of_nat i) 8) in
    bstore (ut + 4 * Z.of_nat i) pde ;;;
    bstore (kt + 4 * (Z.of_nat i + 2048)) pde) ;;;
  bstore (kt + 4 * Z.shiftr VEC_TBL PDE_SHIFT) (coarse pte) ;;;
  mfor (seq 0 512) (fun i =>
    bstore (dev_pte + 4 * Z.of_nat i)
      (Z.lor (Z.lor (DEVBASE + Z.shiftl (Z.of_nat i) 12) PTE_PA) PTE_SMALL)) ;;;
  bstore (kt + 4 * Z.shiftr (KERNBASE + DEVBASE) 20) (coarse (dev_pte + 4 * 0)) ;;;
  bstore (kt + 4 * (Z.shiftr (KERNBASE + DEVBASE) 20 + 1)) (coarse (dev_pte + 4 * 256)).

Definition load_pgtbl : B unit :=
  modify (fun b =>
    Mkbstate b.(b_mem) b.(b_tx) 1431655765 1 kt ut (Z.lor b.(b_sctlr) 14341)).

(* up to the call of kmain; paging is on when the rest of the kernel's data is
   cleared, through its address above KERNBASE *)
Definition bootmain : B unit :=
  puts (chars "Start xv6..." ++ newline) ;;;
  build_pages ;;;
  load_pgtbl ;;;
  modify (upd_b_mem (memset (v2p kern_data) 0 (u32 (kern_end - kern_data)))).
End Boot.

End Boot.

Module Main.
Section Main.
Context `{Image} `{Stubs}.

(** include/param.h *)
Definition HZ : Z := 10.

(* memdisk and disksize: the sectors of the image linked into the kernel *)
Definition ideinit (fs_img : list (list Z)) : K unit := modify (set_disk fs_img).

(* kmain up to its last call, scheduler(), which does not return; [cr] and
   [lcr]: two registers of the UART; [cpsr]: the status register *)
Definition kmain (cr lcr cpsr : Z) (fs_img : list (list Z)) : K unit :=
  uart_init (p2v UART0) cr lcr ;;;
  cprintf (chars "paging enabled." ++ newline) [] ;;;
  kinit1 ;;;
  freerange kern_end (p2v PHYSTOP) ;;;
  trap_init ;;;
  pic_init (p2v VIC_BASE) ;;;
  uart_enable_rx ;;;
  consoleinit ;;;
  pinit ;;;
  binit ;;;
  fileinit ;;;
  iinit ;;;
  ideinit fs_img ;;;
  timer_init HZ ;;;
  kinit2 ;;;
  userinit cpsr.
End Main.

End Main.
