(* ===== verification/BootFacts.v ===== *)
(** The address space the boot code sets up: what the memory management unit
    does with the tables of build_pages. *)
From S2P Require Import Prelude Types Cstring Console Kalloc VmFacts Boot.
Import Cstring Console Kalloc Boot.

Module BootFacts.

#[local] Opaque load32 store32.

(** ** The translation of addresses *)

(** The first and second level descriptors for an address, and the physical
    address; only coarse tables of small pages occur. The control register
    selects, with N = 1, the second base register for the upper half. *)
Definition walk (m : memory) (base va : Z) : option Z :=
  let l1 := load32 m (base + 4 * (va / PDE_SZ)) in
  if negb (l1 mod 4 =? 1) then None else
  let l2 := load32 m (l1 / 1024 * 1024 + 4 * ((va / PTE_SZ) mod NUM_PTE)) in
  if negb (l2 mod 4 =? 2) then None else
  Some (l2 / PTE_SZ * PTE_SZ + va mod PTE_SZ).

Definition translate (b : bstate) (va : Z) : option Z :=
  if negb (Z.testbit b.(b_sctlr) 0) then Some va
  else walk b.(b_mem) (if (b.(b_ttbcr) =? 1) && (2 ^ 31 <=? va) then b.(b_ttbr1) else b.(b_ttbr0)) va.

(** ** Loops that store words *)

Lemma mfor_mem (l : list nat) (g : nat -> memory -> memory) s env :
  mfor l (fun i => modify (upd_b_mem (g i))) s env = Ok tt (upd_b_mem (fun m => foldl (fun m i => g i m) m l) s) env.
Proof.
  revert s. induction l as [|i l IH]; intros s; simpl; [by destruct s|]. rewrite bind_modify, IH. done.
Qed.

Lemma foldl_frame (g : nat -> memory -> memory) l a : forall m,
  (forall i m, i ∈ l -> load32 (g i m) a = load32 m a) -> load32 (foldl (fun m i => g i m) m l) a = load32 m a.
Proof.
  induction l as [|i l IH]; intros m Hg; [done|]. simpl. rewrite IH by set_solver. apply Hg. set_solver.
Qed.

Lemma foldl_hit (g : nat -> memory -> memory) n i a v m : (i < n)%nat ->
  (forall m, load32 (g i m) a = v) ->
  (forall j m, (j < n)%nat -> j <> i -> load32 (g j m) a = load32 m a) ->
  load32 (foldl (fun m i => g i m) m (seq 0 n)) a = v.
Proof.
  intros Hi Hv Hg. replace n with (i + S (n - i - 1))%nat by lia. rewrite seq_app, foldl_app. simpl.
  rewrite foldl_frame; [apply Hv|]. intros j m' Hj%elem_of_seq. apply Hg; lia.
Qed.

(** ** Entries *)

Lemma dram_pte_eq i : dram_pte i = i * 4096 + 30.
Proof.
  unfold dram_pte, PTE_SHIFT. rewrite <- !Z.lor_assoc. change (Z.lor PTE_BUF _) with 30.
  rewrite Z.shiftl_mul_pow2 by lia. apply (VmFacts.lor_add 12); [lia| |lia]. apply Z.mod_mul. lia.
Qed.

Lemma dev_pte_eq i : Z.lor (Z.lor (DEVBASE + Z.shiftl i 12) PTE_PA) PTE_SMALL = DEVBASE + i * 4096 + 18.
Proof.
  rewrite <- Z.lor_assoc. change (Z.lor PTE_PA PTE_SMALL) with 18. rewrite Z.shiftl_mul_pow2 by lia.
  change (2 ^ 12) with 4096. apply (VmFacts.lor_add 12); [lia| |lia]. unfold DEVBASE. change (2 ^ 12) with 4096.
  Z.to_euclidean_division_equations. lia.
Qed.

Lemma coarse_eq t : t mod 1024 = 0 -> coarse t = t + 1.
Proof. intros Ht. apply (VmFacts.lor_add 10); [lia|done|unfold PDE_COARSE; lia]. Qed.

Section Facts.
Context `{Image} `{Tables}.

(** What kernel.ld ensures: aligned tables that do not overlap. *)
Record laid_out : Prop := {
  lo_dev : dev_pte mod 1024 = 0 /\ 0 <= dev_pte;
  lo_pte : pte mod 1024 = 0 /\ dev_pte + 2048 <= pte;
  lo_kt : kt mod 16384 = 0 /\ pte + 131072 <= kt;
  lo_ut : ut mod 16384 = 0 /\ kt + 16384 <= ut;
  lo_data : ut + 16384 <= v2p kern_data /\ KERNBASE <= kern_data <= kern_end;
  lo_end : kern_end < p2v 983040
}.

(** The words of the four tables. *)
Definition tables_ok (m : memory) : Prop :=
  (forall i, 0 <= i < 32768 -> load32 m (pte + 4 * i) = i * 4096 + 30) /\
  (forall i, 0 <= i < 512 -> load32 m (dev_pte + 4 * i) = DEVBASE + i * 4096 + 18) /\
  (forall i, 0 <= i < 128 -> load32 m (ut + 4 * i) = pte + 1024 * i + 1) /\
  (forall i, 0 <= i < 128 -> load32 m (kt + 4 * (2048 + i)) = pte + 1024 * i + 1) /\
  (forall i, 0 <= i < 2 -> load32 m (kt + 4 * (2304 + i)) = dev_pte + 1024 * i + 1) /\
  load32 m (kt + 4 * 4095) = pte + 1.

(** The entries of the kernel's half that are left alone. *)
Definition untouched (i : Z) : Prop :=
  2048 + 128 <= i < 2304 \/ 2306 <= i < 4095.

(** The memory that build_pages leaves. *)
Definition NDRAM : nat := Z.to_nat (Z.shiftr PHYSTOP PTE_SHIFT).
Definition NSECT : nat := Z.to_nat (Z.shiftr PHYSTOP PDE_SHIFT).

Definition put_dram (i : nat) (m : memory) : memory := store32 m (pte + 4 * Z.of_nat i) (dram_pte (Z.of_nat i)).
Definition put_sect (i : nat) (m : memory) : memory :=
  let pde := coarse (pte + 4 * Z.shiftl (Z.of_nat i) 8) in
  store32 (store32 m (ut + 4 * Z.of_nat i) pde) (kt + 4 * (Z.of_nat i + 2048)) pde.
Definition put_dev (i : nat) (m : memory) : memory :=
  store32 m (dev_pte + 4 * Z.of_nat i) (Z.lor (Z.lor (DEVBASE + Z.shiftl (Z.of_nat i) 12) PTE_PA) PTE_SMALL).

Definition paged (m : memory) : memory :=
  let m := foldl (fun m i => put_dram i m) m (seq 0 NDRAM) in
  let m := foldl (fun m i => put_sect i m) m (seq 0 NSECT) in
  let m := store32 m (kt + 4 * 4095) (coarse pte) in
  let m := foldl (fun m i => put_dev i m) m (seq 0 512) in
  let m := store32 m (kt + 4 * 2304) (coarse dev_pte) in
  store32 m (kt + 4 * 2305) (coarse (dev_pte + 1024)).

Lemma build_pages_eq s env : kern_end < p2v 983040 -> build_pages s env = Ok tt (upd_b_mem paged s) env.
Proof.
  intros Hk. unfold build_pages. change (Z.land VEC_TBL (PDE_SZ - 1)) with 983040.
  rewrite (proj2 (Z.leb_gt _ _)) by done. fold NDRAM NSECT.
  mstep (mfor_mem (seq 0 NDRAM) put_dram s env).
  erewrite bind_ok.
  2:{ etransitivity; [apply (mfor_ext _ _ (fun i => modify (upd_b_mem (put_sect i)))); done|]. apply mfor_mem. }
  unfold bstore at 1. rewrite bind_modify.
  erewrite bind_ok by apply (mfor_mem (seq 0 512) put_dev).
  unfold bstore. rewrite bind_modify. unfold modify. f_equal. unfold paged.
  rewrite Z.mul_0_r, Z.add_0_r. done.
Qed.

Section Layout.
Hypothesis Hlay : laid_out.

Lemma below_end : ut + 16384 <= 983040.
Proof.
  destruct Hlay as [_ _ _ _ [Hd Hk] He]. change (p2v 983040) with 2148466688 in He.
  unfold v2p, u32, KERNBASE in *. rewrite Z.mod_small in Hd by lia. lia.
Qed.

Ltac layout := pose proof below_end; destruct Hlay as [[? ?] [? ?] [? ?] [? ?] _ _].

Lemma ndram : NDRAM = Z.to_nat 32768.
Proof. done. Qed.
Lemma nsect : NSECT = 128%nat.
Proof. done. Qed.

Lemma put_dram_other i m a : (i < NDRAM)%nat -> a + 4 <= pte \/ pte + 131072 <= a -> load32 (put_dram i m) a = load32 m a.
Proof. rewrite ndram. intros Hi Ha. apply load_store32_other. lia. Qed.

Lemma put_sect_other i m a : (i < NSECT)%nat -> a + 4 <= kt \/ kt + 16384 <= a -> a + 4 <= ut \/ ut + 512 <= a ->
  load32 (put_sect i m) a = load32 m a.
Proof. rewrite nsect. intros Hi Ha Hb. unfold put_sect. rewrite !load_store32_other; [done|lia|lia]. Qed.

Lemma put_dev_other i m a : (i < 512)%nat -> a + 4 <= dev_pte \/ dev_pte + 2048 <= a -> load32 (put_dev i m) a = load32 m a.
Proof. intros Hi Ha. apply load_store32_other. lia. Qed.

Lemma sect_entry i : coarse (pte + 4 * Z.shiftl i 8) = pte + 1024 * i + 1.
Proof.
  rewrite Z.shiftl_mul_pow2 by lia. change (2 ^ 8) with 256. rewrite coarse_eq; [lia|]. layout. Z.to_euclidean_division_equations. lia.
Qed.

(** The tables of pages, once the last five words are stored. *)
Lemma paged_pte m i : 0 <= i < 32768 -> load32 (paged m) (pte + 4 * i) = i * 4096 + 30.
Proof.
  intros Hi. unfold paged. layout. rewrite !load_store32_other by lia.
  rewrite foldl_frame by (intros j m' Hj%elem_of_seq; apply put_dev_other; lia).
  rewrite load_store32_other by lia.
  rewrite foldl_frame by (intros j m' Hj%elem_of_seq; apply put_sect_other; lia).
  rewrite <- (Z2Nat.id i) at 1 by lia.
  apply (foldl_hit put_dram NDRAM (Z.to_nat i)).
  - rewrite ndram. lia.
  - intros m'. unfold put_dram. rewrite dram_pte_eq, Z2Nat.id by lia. apply load_store32. lia.
  - intros j m' Hj Hne. apply load_store32_other. lia.
Qed.

Lemma paged_dev m i : 0 <= i < 512 -> load32 (paged m) (dev_pte + 4 * i) = DEVBASE + i * 4096 + 18.
Proof.
  intros Hi. unfold paged. layout. rewrite !load_store32_other by lia.
  rewrite <- (Z2Nat.id i) at 1 by lia.
  apply (foldl_hit put_dev 512 (Z.to_nat i)).
  - lia.
  - intros m'. unfold put_dev. rewrite dev_pte_eq, Z2Nat.id by lia. apply load_store32. unfold DEVBASE. lia.
  - intros j m' Hj Hne. apply load_store32_other. lia.
Qed.

Lemma paged_ut m i : 0 <= i < 128 -> load32 (paged m) (ut + 4 * i) = pte + 1024 * i + 1.
Proof.
  intros Hi. pose proof (sect_entry i) as Hs. unfold paged. layout. rewrite !load_store32_other by lia.
  rewrite foldl_frame by (intros j m' Hj%elem_of_seq; apply put_dev_other; lia).
  rewrite load_store32_other by lia. rewrite <- Hs. rewrite <- (Z2Nat.id i) at 1 by lia.
  apply (foldl_hit put_sect NSECT (Z.to_nat i)).
  - rewrite nsect. lia.
  - intros m'. unfold put_sect. rewrite !Z2Nat.id by lia. rewrite load_store32_other by lia. apply load_store32. lia.
  - intros j m' Hj Hne. rewrite nsect in Hj. unfold put_sect. rewrite !load_store32_other; [done|lia|lia].
Qed.

Lemma paged_kt m i : 0 <= i < 128 -> load32 (paged m) (kt + 4 * (2048 + i)) = pte + 1024 * i + 1.
Proof.
  intros Hi. pose proof (sect_entry i) as Hs. unfold paged. layout. rewrite !load_store32_other by lia.
  rewrite foldl_frame by (intros j m' Hj%elem_of_seq; apply put_dev_other; lia).
  rewrite load_store32_other by lia. rewrite <- Hs. rewrite <- (Z2Nat.id i) at 1 by lia.
  apply (foldl_hit put_sect NSECT (Z.to_nat i)).
  - rewrite nsect. lia.
  - intros m'. unfold put_sect. rewrite !Z2Nat.id by lia. rewrite (Z.add_comm 2048). apply load_store32. lia.
  - intros j m' Hj Hne. rewrite nsect in Hj. unfold put_sect. rewrite !load_store32_other; [done|lia|lia].
Qed.

Lemma paged_tables m : tables_ok (paged m).
Proof.
  unfold tables_ok. split_and?; [apply paged_pte|apply paged_dev|apply paged_ut|apply paged_kt| |].
  - intros i Hi. unfold paged. layout. rewrite !coarse_eq by (Z.to_euclidean_division_equations; lia).
    assert (i = 0 \/ i = 1) as [-> | ->] by lia.
    + rewrite load_store32_other by lia. rewrite load_store32; lia.
    + change (2304 + 1) with 2305. rewrite load_store32; lia.
  - unfold paged. layout. rewrite !load_store32_other by lia.
    rewrite foldl_frame by (intros j m' Hj%elem_of_seq; apply put_dev_other; lia).
    rewrite coarse_eq by (Z.to_euclidean_division_equations; lia). rewrite load_store32; lia.
Qed.

Lemma paged_untouched m i : untouched i -> load32 (paged m) (kt + 4 * i) = load32 m (kt + 4 * i).
Proof.
  intros Hi. unfold untouched in Hi. unfold paged. layout. rewrite !load_store32_other by lia.
  rewrite foldl_frame by (intros j m' Hj%elem_of_seq; apply put_dev_other; lia).
  rewrite load_store32_other by lia.
  rewrite foldl_frame. 2:{ intros j m' Hj%elem_of_seq. rewrite nsect in Hj. unfold put_sect. rewrite !load_store32_other; [done|lia|lia]. }
  apply foldl_frame. intros j m' Hj%elem_of_seq. apply put_dram_other; lia.
Qed.

Lemma walk_page m base va t j pa fl :
  load32 m (base + 4 * (va / PDE_SZ)) = t + 1 -> t mod 1024 = 0 ->
  (va / PTE_SZ) mod NUM_PTE = j -> load32 m (t + 4 * j) = pa * 4096 + fl -> 0 <= fl < 4096 -> fl mod 4 = 2 ->
  walk m base va = Some (pa * 4096 + va mod PTE_SZ).
Proof.
  intros H1 Ht Hj H2 Hfl Hty. unfold walk. rewrite H1. replace ((t + 1) mod 4) with 1 by (Z.to_euclidean_division_equations; lia).
  replace ((t + 1) / 1024 * 1024) with t by (Z.to_euclidean_division_equations; lia). rewrite Hj, H2. cbn [Z.eqb negb Pos.eqb].
  replace ((pa * 4096 + fl) mod 4) with 2 by (Z.to_euclidean_division_equations; lia). cbn [Z.eqb negb Pos.eqb].
  unfold PTE_SZ. do 2 f_equal. Z.to_euclidean_division_equations. lia.
Qed.

Lemma page_split x : 0 <= x -> x / PTE_SZ = x / PDE_SZ * NUM_PTE + (x / PTE_SZ) mod NUM_PTE /\
  x = x / PTE_SZ * 4096 + x mod PTE_SZ.
Proof. clear. intros Hx. unfold PTE_SZ, PDE_SZ, NUM_PTE. Z.to_euclidean_division_equations. lia. Qed.

Lemma aligned_add t k : t mod 1024 = 0 -> (t + 1024 * k) mod 1024 = 0.
Proof. intros Ht. by rewrite Z.mul_comm, Z.mod_add by lia. Qed.

Lemma low_bits va x : va mod PDE_SZ = x mod PDE_SZ ->
  (va / PTE_SZ) mod NUM_PTE = (x / PTE_SZ) mod NUM_PTE /\ va mod PTE_SZ = x mod PTE_SZ.
Proof. unfold PTE_SZ, PDE_SZ, NUM_PTE. clear. intros Hx. Z.to_euclidean_division_equations. lia. Qed.

(** An address [va] that agrees with [x] below the section number. *)
Lemma walk_dram m base va x : tables_ok m -> 0 <= x < PHYSTOP -> va mod PDE_SZ = x mod PDE_SZ ->
  load32 m (base + 4 * (va / PDE_SZ)) = pte + 1024 * (x / PDE_SZ) + 1 -> walk m base va = Some x.
Proof.
  intros (Hp & _) Hx Hva Hl1. layout. pose proof (page_split x ltac:(lia)) as [Hs1 Hs2].
  destruct (low_bits va x Hva) as [Hj Hr].
  rewrite (walk_page m base va _ _ (x / PTE_SZ) 30 Hl1 (aligned_add _ _ ltac:(done)) Hj); [by rewrite Hr, <- Hs2|..|lia|done].
  rewrite <- Hp.
  - f_equal. unfold NUM_PTE in *. lia.
  - unfold PTE_SZ, PHYSTOP in *. split; [apply Z.div_pos; lia|apply Z.div_lt_upper_bound; lia].
Qed.

Lemma walk_dev m x : tables_ok m -> 0 <= x < 2 ^ 21 -> walk m kt (KERNBASE + DEVBASE + x) = Some (DEVBASE + x).
Proof.
  intros (_ & Hd & _ & _ & Hk & _) Hx. layout. set (va := KERNBASE + DEVBASE + x). pose proof (page_split x ltac:(lia)) as [Hs1 Hs2].
  assert (Hi : va / PDE_SZ = 2304 + x / PDE_SZ /\ (va / PTE_SZ) mod NUM_PTE = (x / PTE_SZ) mod NUM_PTE /\
    va mod PTE_SZ = x mod PTE_SZ /\ 0 <= x / PDE_SZ < 2 /\ 0 <= x / PTE_SZ < 512).
  { unfold va, PTE_SZ, PDE_SZ, NUM_PTE, KERNBASE, DEVBASE in *. clear -Hx. Z.to_euclidean_division_equations. lia. }
  destruct Hi as (Hi & Hj & Hr & Hx1 & Hx2).
  rewrite (walk_page m kt va (dev_pte + 1024 * (x / PDE_SZ)) ((x / PTE_SZ) mod NUM_PTE) (65536 + x / PTE_SZ) 18);
    [|by rewrite Hi, Hk|by apply aligned_add|done| |lia|done].
  - f_equal. unfold DEVBASE. lia.
  - replace (dev_pte + _ + _) with (dev_pte + 4 * (x / PTE_SZ)) by (unfold NUM_PTE in *; lia). rewrite Hd by done. unfold DEVBASE. lia.
Qed.

(** The memory with [n] bytes from [a] on cleared, behind the tables. *)
Lemma tables_frame m m' : tables_ok m -> (forall a, 0 <= a < ut + 16384 -> m' a = m a) -> tables_ok m'.
Proof.
  intros (H1 & H2 & H3 & H4 & H5 & H6) Hm. layout.
  assert (Hl : forall a, 0 <= a <= ut + 16380 -> load32 m' a = load32 m a).
  { intros a Ha. apply load32_other. intros i Hi. apply Hm. lia. }
  unfold tables_ok. split_and?; intros; rewrite Hl; auto; lia.
Qed.

(** The state in which kmain is entered. *)
Definition booted (b : bstate) : bstate :=
  upd_b_mem (memset (v2p kern_data) 0 (u32 (kern_end - kern_data)))
    (Mkbstate (paged b.(b_mem)) (b.(b_tx) ++ chars "Start xv6..." ++ newline) 1431655765 1 kt ut (Z.lor b.(b_sctlr) 14341)).

Lemma bootmain_eq b env : bootmain b env = Ok tt (booted b) env.
Proof.
  unfold bootmain, puts. rewrite bind_modify.
  mstep (build_pages_eq (set_b_tx (b.(b_tx) ++ chars "Start xv6..." ++ newline) b) env (lo_end Hlay)).
  unfold load_pgtbl. rewrite bind_modify. done.
Qed.

Lemma data_range : 0 <= kern_end - kern_data < 2 ^ 32 /\ v2p kern_data = kern_data - KERNBASE /\ v2p kern_end = kern_end - KERNBASE.
Proof.
  destruct Hlay as [_ _ _ _ [_ Hk] He]. change (p2v 983040) with 2148466688 in He. unfold v2p, u32, KERNBASE in *.
  rewrite !Z.mod_small by lia. lia.
Qed.

Lemma booted_low b a : a < ut + 16384 -> (booted b).(b_mem) a = paged b.(b_mem) a.
Proof.
  intros Ha. destruct data_range as (Hr & Hd & He). simpl. apply VmFacts.memset_page; rewrite u32_small by done; [done|].
  destruct Hlay as [_ _ _ _ [? _] _]. lia.
Qed.

Lemma booted_on b va : translate (booted b) va = walk (booted b).(b_mem) (if 2 ^ 31 <=? va then kt else ut) va.
Proof.
  unfold translate. change (b_sctlr (booted b)) with (Z.lor b.(b_sctlr) 14341). rewrite Z.lor_spec, orb_true_r. done.
Qed.

(** C15: the address space at boot. bootmain returns (to enter kmain) with
    paging on. All of physical memory is mapped twice, at its own address and
    from KERNBASE on; the two megabytes of devices are mapped from
    KERNBASE+DEVBASE on, and the vectors' page at VEC_TBL; the rest of the
    kernel's half between memory and devices is not mapped; and the kernel's
    uninitialised data is zero. *)
Theorem boot_address_space b env :
  (forall i, untouched i -> load32 b.(b_mem) (kt + 4 * i) = 0) ->
  exists b', bootmain b env = Ok tt b' env /\
    (forall x, 0 <= x < PHYSTOP -> translate b' x = Some x /\ translate b' (KERNBASE + x) = Some x) /\
    (forall x, 0 <= x < 2 ^ 21 -> translate b' (KERNBASE + DEVBASE + x) = Some (DEVBASE + x)) /\
    (forall x, 0 <= x < 65536 -> translate b' (VEC_TBL + x) = Some (983040 + x)) /\
    (forall va, KERNBASE + PHYSTOP <= va < KERNBASE + DEVBASE -> translate b' va = None) /\
    (forall a, v2p kern_data <= a < v2p kern_end -> b'.(b_mem) a = 0).
Proof.
  intros Hz. exists (booted b). split; [apply bootmain_eq|].
  assert (Ht : tables_ok (booted b).(b_mem)).
  { apply (tables_frame (paged b.(b_mem))); [apply paged_tables|]. intros a Ha. apply booted_low. lia. }
  pose proof Ht as (_ & _ & Hut & Hkt & _ & Hvec). split_and?.
  - intros x Hx. assert (0 <= x / PDE_SZ < 128) as Hi.
    { unfold PDE_SZ, PHYSTOP in *. split; [apply Z.div_pos; lia|apply Z.div_lt_upper_bound; lia]. }
    rewrite !booted_on. unfold PHYSTOP, KERNBASE in *. rewrite (proj2 (Z.leb_gt _ _)), (proj2 (Z.leb_le _ _)) by lia. split.
    + by apply walk_dram; [| |done|apply Hut].
    + apply (walk_dram _ _ _ x); [done|done| |].
      * change 2147483648 with (2048 * PDE_SZ). by rewrite Z.add_comm, Z.mod_add.
      * change 2147483648 with (2048 * PDE_SZ). rewrite Z.div_add_l by done. by apply Hkt.
  - intros x Hx. rewrite booted_on. rewrite (proj2 (Z.leb_le _ _)) by (unfold KERNBASE, DEVBASE; lia). by apply walk_dev.
  - intros x Hx. rewrite booted_on. rewrite (proj2 (Z.leb_le _ _)) by (unfold VEC_TBL; lia).
    replace (VEC_TBL + x) with (4095 * PDE_SZ + (983040 + x)) by (unfold VEC_TBL, PDE_SZ; lia).
    apply walk_dram; [done|unfold PHYSTOP; lia| |].
    + by rewrite Z.add_comm, Z.mod_add.
    + rewrite Z.div_add_l by done. rewrite (Z.div_small (983040 + x)) by (unfold PDE_SZ; lia). rewrite Z.add_0_r, Hvec. lia.
  - intros va Hva. rewrite booted_on. unfold KERNBASE, DEVBASE, PHYSTOP in *. rewrite (proj2 (Z.leb_le _ _)) by lia. unfold walk.
    assert (untouched (va / PDE_SZ)) as Hi.
    { left. unfold PDE_SZ in *. clear -Hva. Z.to_euclidean_division_equations. lia. }
    assert (0 <= va / PDE_SZ < 4095) by (destruct Hi; lia).
    rewrite (load32_other (paged b.(b_mem))), paged_untouched, Hz by (try done; intros i Hii; apply booted_low; layout; lia). done.
  - intros a Ha. destruct data_range as (Hr & Hd & He). simpl. rewrite u32_small by done.
    replace a with (v2p kern_data + (a - v2p kern_data)) by lia. apply VmFacts.memset_page; lia.
Qed.

End Layout.

End Facts.

(** ** Witness *)

(** A layout that kernel.ld can produce. *)
#[local] Instance linked_image : Image := {|
  kern_end := KERNBASE + 851968; trapret_addr := 0; forkret_addr := 0; error_init_addr := 0; initcode := []
|}.
#[local] Instance linked_tables : Tables := {|
  dev_pte := 69632; pte := 71680; kt := 212992; ut := 229376; kern_data := KERNBASE + 819200
|}.

Lemma linked_laid_out : laid_out.
Proof. constructor; vm_compute; done. Qed.

Definition demo_boot : bstate := Mkbstate (fun _ => 0) [] 0 0 0 0 0.

Lemma boot_address_space_witness :
  exists b', bootmain demo_boot [] = Ok tt b' [] /\
    (forall x, 0 <= x < PHYSTOP -> translate b' x = Some x /\ translate b' (KERNBASE + x) = Some x) /\
    (forall x, 0 <= x < 2 ^ 21 -> translate b' (KERNBASE + DEVBASE + x) = Some (DEVBASE + x)) /\
    (forall x, 0 <= x < 65536 -> translate b' (VEC_TBL + x) = Some (983040 + x)) /\
    (forall va, KERNBASE + PHYSTOP <= va < KERNBASE + DEVBASE -> translate b' va = None) /\
    (forall a, v2p kern_data <= a < v2p kern_end -> b'.(b_mem) a = 0).
Proof.
  apply (boot_address_space linked_laid_out demo_boot []). intros i _. apply VmFacts.load32_zero. done.
Defined.

End BootFacts.
