(* ===== verification/MainFacts.v ===== *)
(** Initialisation of the kernel (kmain of kernel/main.c, userinit of
    kernel/proc.c, inituvm of kernel/vm.c, freerange of kernel/kalloc.c): the
    state in which the scheduler starts. *)
From S2P Require Import Prelude Types Spinlock Sched Cstring Bio BioAbs BioRep Log Inode Console ConsoleFacts Fs Kalloc.
From S2P Require Import KallocFacts Pipe File Vm VmFacts Proc ProcFacts Syscall Device DeviceFacts Trap TrapFacts Boot.
Import Spinlock Sched Cstring Bio BioAbs BioRep BioInit Log Inode Console ConsoleFacts Fs Kalloc.
Import KallocFacts Pipe File Vm VmFacts Proc ProcFacts Syscall Device DeviceFacts Trap TrapFacts Boot Main.

Module MainFacts.

#[local] Opaque memset store32 load32.

Section Facts.
Context `{Image}.

(** ** Memory for the allocator *)

(** [n] pages from [p] on, the last first. *)
Fixpoint page_range (p : Z) (n : nat) : list Z :=
  match n with
  | O => []
  | S n' => p + Z.of_nat n' * KPAGE :: page_range p n'
  end.

Lemma page_range_elem p n q : q ∈ page_range p n <-> exists k, (k < n)%nat /\ q = p + Z.of_nat k * KPAGE.
Proof.
  induction n as [|n IH]; simpl; [split; [by intros ?%elem_of_nil|intros (k & ? & _); lia]|]. rewrite elem_of_cons, IH. split.
  - intros [->|(k & Hk & ->)]; [exists n|exists k]; split; try done; lia.
  - intros (k & Hk & ->). destruct (decide (k = n)) as [->|]; [by left|]. right. exists k. split; [lia|done].
Qed.

Lemma length_page_range p n : length (page_range p n) = n.
Proof. induction n; simpl; congruence. Qed.

Lemma page_range_shift p n : page_range (p + KPAGE) n ++ [p] = page_range p (S n).
Proof.
  induction n as [|n IH]; [simpl; do 2 f_equal; lia|]. cbn [page_range app] in *. rewrite IH. f_equal. lia.
Qed.

Lemma freerange_loop_run n : forall fuel p vend s l env, (n < fuel)%nat ->
  free_pages s l -> (forall k, (k < n)%nat -> page_ok (p + Z.of_nat k * KPAGE)) ->
  Forall (fun q => q < p) l -> vend - KPAGE < p + Z.of_nat n * KPAGE <= vend ->
  exists m fl, let s' := set_freelist fl (set_mem m s) in
    freerange_loop fuel p vend s env = Ok tt s' env /\ free_pages s' (page_range p n ++ l).
Proof.
  change KPAGE with 262144. induction n as [|n IH]; intros fuel p vend s l env Hfu Hf Hok Hl Hv; (destruct fuel as [|fuel]; [lia|]);
    cbn [freerange_loop]; change KPAGE with 262144.
  - rewrite (proj2 (Z.leb_gt _ _)) by lia. exists s.(mem), s.(freelist). unfold ret. split; [by destruct s|by destruct s].
  - rewrite (proj2 (Z.leb_le _ _)) by lia.
    assert (Hp : page_ok p) by (specialize (Hok 0%nat ltac:(lia)); by rewrite Z.add_0_r in Hok).
    assert (Hn : p ∉ l) by (intros Hin; rewrite Forall_forall in Hl; apply Hl in Hin; lia).
    pose proof Hf as (_ & _ & Hq & Hlk). rewrite (bind_ok _ _ _ _ _ _ _ (kfree_eq p s env Hp Hq Hlk)).
    set (s1 := set_freelist p _). destruct (IH fuel (p + 262144) vend s1 (p :: l) env) as (m & fl & Hrun & Hf'); [lia|by apply kfree_pages| | |lia|].
    + intros k Hk. replace (p + 262144 + Z.of_nat k * 262144) with (p + Z.of_nat (S k) * 262144) by lia. apply Hok. lia.
    + constructor; [lia|]. eapply Forall_impl; [exact Hl|]. simpl. lia.
    + exists m, fl. rewrite Hrun. split; [done|]. change 262144 with KPAGE in Hf'.
      rewrite <- page_range_shift, <- app_assoc. exact Hf'.
Qed.

(** The pages behind the kernel, up to the end of memory. *)
Definition first_page : Z := KERNBASE + 4 * KPAGE.
Definition boot_pages : list Z := page_range first_page 508.

Definition fits_below : Prop := KERNBASE + 3 * KPAGE < kern_end <= KERNBASE + 4 * KPAGE.

Lemma boot_page_ok k : fits_below -> (k < 508)%nat -> page_ok (first_page + Z.of_nat k * KPAGE).
Proof.
  unfold fits_below, page_ok, first_page, v2p, u32, PHYSTOP, KERNBASE. change KPAGE with 262144. intros Hk Hi.
  rewrite (Z.mod_small _ (2 ^ 32)) by lia. split_and!; try lia. Z.to_euclidean_division_equations. lia.
Qed.

Lemma first_page_eq : fits_below -> ALIGNUP kern_end KPAGE = first_page.
Proof.
  unfold fits_below, ALIGNUP, first_page, KERNBASE. change KPAGE with 262144. intros Hk.
  change (u32 (Z.lnot (262144 - 1))) with (Z.shiftl (Z.ones 14) 18).
  rewrite u32_small by lia. set (x := kern_end + 262144 - 1). assert (Hx : x / 2 ^ 18 = 8196) by (unfold x; Z.to_euclidean_division_equations; lia).
  apply Z.bits_inj'. intros i Hi. rewrite Z.land_spec. destruct (Z_lt_le_dec i 18).
  - rewrite (Z.shiftl_spec_low _ 18 i), andb_false_r by lia. change (2147483648 + 4 * 262144) with (Z.shiftl 8196 18).
    by rewrite Z.shiftl_spec_low by lia.
  - rewrite Z.shiftl_spec by lia. change (2147483648 + 4 * 262144) with (Z.shiftl 8196 18). rewrite Z.shiftl_spec by lia.
    rewrite <- Hx. rewrite <- Z.shiftr_div_pow2, Z.shiftr_spec by lia. rewrite Z.sub_add.
    destruct (Z_lt_le_dec (i - 18) 14); [by rewrite Z.ones_spec_low, andb_true_r by lia|].
    rewrite Z.ones_spec_high, andb_false_r by lia. symmetry.
    assert (Z.testbit (Z.shiftr x 18) (i - 18) = false) as Hb.
    { rewrite Z.shiftr_div_pow2, Hx by lia. apply Z.bits_above_log2; [lia|]. change (Z.log2 8196) with 13. lia. }
    by rewrite Z.shiftr_spec, Z.sub_add in Hb by lia.
Qed.

Lemma freerange_run s env : fits_below -> free_pages s [] ->
  exists m fl, let s' := set_freelist fl (set_mem m s) in
    freerange kern_end (p2v PHYSTOP) s env = Ok tt s' env /\ free_pages s' boot_pages.
Proof.
  intros Hk Hf. unfold freerange. rewrite first_page_eq by done. change (p2v PHYSTOP) with (KERNBASE + PHYSTOP).
  destruct (freerange_loop_run 508 (S (Z.to_nat ((KERNBASE + PHYSTOP - kern_end) / KPAGE + 1))) first_page (KERNBASE + PHYSTOP) s [] env)
    as (m & fl & Hrun & Hf'); [|done|intros k Hi; by apply boot_page_ok|constructor| |].
  - unfold fits_below, KERNBASE, PHYSTOP in *. change KPAGE with 262144 in *. apply le_n_S. Z.to_euclidean_division_equations. lia.
  - unfold first_page, KERNBASE, PHYSTOP. change KPAGE with 262144. lia.
  - exists m, fl. rewrite app_nil_r in Hf'. done.
Qed.

(** ** The first address space *)

(** Pages that are neither free nor part of the directory may change. *)
Lemma space_frame s s' l d :
  space s l d -> s'.(kcpu) = s.(kcpu) -> s'.(freelist) = s.(freelist) ->
  (forall q i, page_ok q -> q ∈ l \/ q = d \/ is_table s.(mem) d q -> 0 <= i < KPAGE -> s'.(mem) (q + i) = s.(mem) (q + i)) ->
  space s' l d /\ (forall va, user_va va -> pte s'.(mem) d va = pte s.(mem) d va) /\
  (forall q, is_table s'.(mem) d q <-> is_table s.(mem) d q).
Proof.
  intros [Hf Hd Hdl Hts Hinj] Hk Hfl Hm.
  assert (Htab : forall i, user_slot i -> table s'.(mem) d i = table s.(mem) d i).
  { intros i Hi. apply table_frame; [done|]. intros j Hj. apply Hm; [done|by right; left|done]. }
  assert (His : forall q, is_table s'.(mem) d q <-> is_table s.(mem) d q).
  { intros q. split; intros (i & Hi & E); exists i; (split; [done|]); [rewrite <- Htab|rewrite Htab]; done. }
  split_and?; [|intros va Hva|done].
  - constructor; [|done|done| |].
    + eapply free_frame; [exact Hf|done|done|unfold quiet; rewrite Hk; apply Hf|]. intros p i Hp Hi. apply Hm; [|by left|done].
      destruct Hf as (Hc & _). apply chain_ok in Hc. rewrite Forall_forall in Hc. by apply Hc.
    + intros t Ht. apply Hts. by apply His.
    + intros i j t Hi Hj. rewrite !Htab by done. by apply Hinj.
  - unfold pte. pose proof (pde_idx va Hva) as [_ Hi]. pose proof (pte_idx va Hva) as [_ Hj]. unfold NUM_PTE in Hj. rewrite Htab by done.
    destruct (table s.(mem) d (PDE_IDX va)) as [t|] eqn:E; [|done]. assert (is_table s.(mem) d t) as Ht by (by exists (PDE_IDX va)).
    apply load32_page; [unfold KPAGE, PGSIZE; lia|]. intros i Hii. apply Hm; [by apply Hts|by right; right|done].
Qed.

Lemma store_bytes_other l : forall p m a, a < p \/ p + Z.of_nat (length l) <= a -> store_bytes p l m a = m a.
Proof.
  induction l as [|c l IH]; intros p m a Ha; [done|]. cbn [store_bytes length] in *. rewrite IH by lia. unfold store8.
  by rewrite (proj2 (Z.eqb_neq _ _)) by lia.
Qed.

Lemma store_bytes_at l : forall p m i c, l !! i = Some c -> store_bytes p l m (p + Z.of_nat i) = c.
Proof.
  induction l as [|x l IH]; intros p m i c Hi; [done|]. cbn [store_bytes]. destruct i as [|i]; simpl in Hi.
  - injection Hi as ->. rewrite store_bytes_other by lia. unfold store8. by rewrite (proj2 (Z.eqb_eq _ _)) by lia.
  - rewrite <- (IH (p + 1) (store8 m p x) i c Hi). f_equal. lia.
Qed.

(** The program [init] at address 0 of an empty address space [d], in the
    page [pg]. *)
Record loaded (s : kstate) (l : list Z) (d pg : Z) (init : list Z) (s' : kstate) (l' : list Z) : Prop := {
  ld_space : space s' l' d;
  ld_entry : pte s'.(mem) d 0 = mk_pte (v2p pg) AP_KU;
  ld_page : page_ok pg /\ pg <> d /\ (pg ∉ l') /\ ~ is_table s'.(mem) d pg;
  ld_bytes : forall i c, init !! i = Some c -> s'.(mem) (pg + Z.of_nat i) = c;
  ld_zero : forall i, Z.of_nat (length init) <= i < PTE_SZ -> s'.(mem) (pg + i) = 0;
  ld_frame : forall q i, page_ok q -> q <> d -> q ∉ l -> 0 <= i < KPAGE -> s'.(mem) (q + i) = s.(mem) (q + i);
  ld_tables : forall q, is_table s'.(mem) d q -> q ∈ l;
  ld_free : l' ⊆ l;
  ld_rest : exists m fl, s' = set_mem m (set_freelist fl s)
}.

Lemma user_va_0 : user_va 0.
Proof. unfold user_va, UADDR_SZ. lia. Qed.

Lemma inituvm_run s d pg l init env :
  space s (pg :: l) d -> (forall i, user_slot i -> table s.(mem) d i = None) -> l <> [] ->
  Z.of_nat (length init) < PTE_SZ ->
  exists s' l', inituvm d init s env = Ok tt s' env /\ loaded s (pg :: l) d pg init s' l'.
Proof.
  intros Hs Hn Hl Hlen. unfold inituvm. rewrite (proj2 (Z.leb_gt _ _)) by done.
  destruct (kalloc_cons s env pg l (sp_free _ _ _ Hs)) as (Hk & _ & Hpg & Hpl). mstep Hk. rewrite bind_modify.
  fold (page_taken s pg). pose proof (page_taken_ok s d pg l Hs) as (Hs1 & Htab & Hpte & Hz & Hfr). set (s1 := page_taken s pg) in *.
  pose proof (sp_dir_used _ _ _ Hs) as Hdl. apply not_elem_of_cons in Hdl as [Hdp Hdl].
  assert (Hnone : table s1.(mem) d (PDE_IDX 0) = None) by (rewrite Htab; [apply Hn|]; apply pde_idx, user_va_0).
  destruct (mappages_page s1 env d l 0 (v2p pg) AP_KU Hs1 user_va_0 eq_refl (v2p_pte pg Hpg)) as (s2 & l2 & Hrun & He).
  { unfold mapped, pte. rewrite Hnone. by intros ?. } { by right. }
  mstep Hrun. destruct He as [E1 E2 E3 E4 E5 E6 _ (m & fl & E7)].
  assert (Hnt1 : forall q, ~ is_table s1.(mem) d q) by (intros q (i & Hi & E); by rewrite Htab, Hn in E).
  assert (Htl : forall q, is_table s2.(mem) d q -> q ∈ l) by (intros q Hq; destruct (E6 q Hq) as [Ht|]; [by apply Hnt1 in Ht|done]).
  assert (Hpt : ~ is_table s2.(mem) d pg) by (intros Hq; by apply Htl in Hq).
  assert (Hl2 : l2 ⊆ l) by (destruct E5 as [->|(t & -> & _)]; set_solver).
  set (s3 := upd_mem (store_bytes pg init) s2).
  assert (Hother : forall q i, page_ok q -> q <> pg -> 0 <= i < KPAGE -> s3.(mem) (q + i) = s2.(mem) (q + i)).
  { intros q i Hq Hne Hi. apply store_bytes_other. destruct (pages_disjoint pg q i (proj1 Hpg) (proj1 Hq)); [done|done|lia|].
    unfold PTE_SZ in Hlen. change KPAGE with 262144 in *. lia. }
  destruct (space_frame s2 s3 l2 d E1 eq_refl eq_refl) as (F1 & F2 & F3).
  { intros q i Hq Hor Hi. apply Hother; [done| |done]. intros ->. destruct Hor as [Hq2|[->|Hq2]]; [apply Hpl, Hl2, Hq2|done|done]. }
  exists s3, l2. split; [done|]. constructor.
  - done.
  - rewrite F2 by apply user_va_0. done.
  - split_and?; [done|done|by intros ?%Hl2|by rewrite F3].
  - intros i c Hi. by apply store_bytes_at.
  - intros i Hi. simpl. rewrite store_bytes_other by lia. unfold PTE_SZ in *. rewrite E4; [apply Hz; lia|done|done|done|change KPAGE with 262144; lia].
  - intros q i Hq Hqd Hql Hi. apply not_elem_of_cons in Hql as [Hqp Hql]. rewrite Hother by done. rewrite E4; [by apply Hfr|done|done| |done].
    by intros ?%Htl.
  - intros q Hq%F3%Htl. set_solver.
  - set_solver.
  - exists (store_bytes pg init m), fl. unfold s3. rewrite E7. unfold s1, page_taken, upd_mem. by destruct s.
Qed.

(** ** The first process *)

Definition user_frame (cpsr tf : Z) (m : memory) : memory :=
  let m := memset tf 0 TF_SIZE m in
  let m := store32 m (tf + tf_r14_svc) error_init_addr in
  let m := store32 m (tf + tf_spsr) (spsr_usr cpsr) in
  let m := store32 m (tf + tf_sp_usr) PTE_SZ in
  let m := store32 m (tf + tf_lr_usr) 0 in
  store32 m (tf + tf_pc) 0.

Lemma user_frame_words cpsr tf m : 0 <= spsr_usr cpsr < 2 ^ 32 ->
  load32 (user_frame cpsr tf m) (tf + tf_pc) = 0 /\ load32 (user_frame cpsr tf m) (tf + tf_sp_usr) = PTE_SZ /\
  load32 (user_frame cpsr tf m) (tf + tf_spsr) = spsr_usr cpsr /\
  forall a, a < tf \/ tf + TF_SIZE <= a -> user_frame cpsr tf m a = m a.
Proof.
  intros Hc. unfold user_frame, tf_pc, tf_sp_usr, tf_spsr, tf_lr_usr, tf_r14_svc, TF_SIZE. split_and?.
  - by apply load_store32.
  - rewrite !load_store32_other by lia. by apply load_store32.
  - rewrite !load_store32_other by lia. by apply load_store32.
  - intros a Ha. rewrite !store32_other by lia. apply memset_page; lia.
Qed.

Definition first_proc (ks d : Z) : proc :=
  set_state RUNNABLE (set_cwd (Some 0%nat) (set_name (copy_name (chars "initcode") zero_proc.(name))
    (set_sz PTE_SZ (set_pgdir d (born zero_proc 1 ks))))).

Definition root_inode : inode := set_i_ref 1 (set_i_inum ROOTINO (set_i_dev ROOTDEV zero_inode)).

(** The tables before and after: one runnable process, one inode in use. *)
Definition fresh_tables (s : kstate) : Prop :=
  s.(procs) = replicate NPROC zero_proc /\ s.(icache) = replicate NINODE zero_inode /\ s.(nextpid) = 1.

Definition user_tables (ks d : Z) (s : kstate) : kstate :=
  set_procs (first_proc ks d :: replicate (NPROC - 1) zero_proc)
    (set_icache (<[0%nat := root_inode]> (replicate NINODE zero_inode))
      (set_nextpid 2 (set_initproc (Some 0%nat) s))).

(** What the first process starts with: its kernel stack [ks] leads through
    forkret and trapret to the saved user registers, which start the program
    [initcode] at address 0 in user mode with the stack at the end of its
    page [pg]. *)
Record first_user (s : kstate) (l : list Z) (ks d pg cpsr : Z) : Prop := {
  fu_space : space s l d;
  fu_entry : pte s.(mem) d 0 = mk_pte (v2p pg) AP_KU;
  fu_code : forall i c, initcode !! i = Some c -> s.(mem) (pg + Z.of_nat i) = c;
  fu_pc : load32 s.(mem) (frame_at ks + tf_pc) = 0;
  fu_sp : load32 s.(mem) (frame_at ks + tf_sp_usr) = PTE_SZ;
  fu_spsr : load32 s.(mem) (frame_at ks + tf_spsr) = spsr_usr cpsr;
  fu_ret : load32 s.(mem) (frame_at ks - 4) = trapret_addr;
  fu_lr : load32 s.(mem) (context_at ks + ctx_lr) = u32 (forkret_addr + 4)
}.

Lemma find_first : list_find (fun p => p.(state) = UNUSED) (replicate NPROC zero_proc) = Some (0%nat, zero_proc).
Proof. done. Qed.

(** namei("/") in a fresh inode cache *)
Lemma namei_root s env : quiet s -> icache_lock ∉ s.(kcpu).(held) -> s.(icache) = replicate NINODE zero_inode ->
  namei (chars "/") s env = Ok (Some 0%nat) (set_icache (<[0%nat := root_inode]> (replicate NINODE zero_inode)) s) env.
Proof.
  intros Hq Hl Hic. unfold namei, namex. change (byte_at (chars "/") =? 47) with true. cbv iota.
  assert (Hget : iget ROOTDEV ROOTINO s env = Ok 0%nat (set_icache (<[0%nat := root_inode]> (replicate NINODE zero_inode)) s) env).
  { unfold iget. mstep (acquire_quiet icache_lock s env Hq Hl). rewrite bind_gets.
    change (icache (with_lock icache_lock s)) with s.(icache). rewrite Hic.
    change (iget_scan (replicate NINODE zero_inode) 0 None ROOTDEV ROOTINO) with (@inr nat (option nat) (Some 0%nat)). cbv iota. mrun.
    match goal with |- bind (release _) _ ?s1 _ = _ =>
      rewrite (bind_ok _ _ _ _ _ _ _ (release_quiet icache_lock s s1 env Hq Hl eq_refl)) end.
    unfold ret. f_equal. unfold upd_inode. simpl. rewrite Hic. by destruct s. }
  rewrite bind_assoc. mstep Hget. done.
Qed.

(** The rest of userinit, once the program is loaded. *)
Definition userinit_tail (cpsr : Z) : K unit :=
  modify (upd_proc 0 (set_sz PTE_SZ)) ;;;
  pr <- get_proc 0 ;;
  modify (upd_mem (memset pr.(tf) 0 TF_SIZE)) ;;;
  store_word (pr.(tf) + tf_r14_svc) error_init_addr ;;;
  store_word (pr.(tf) + tf_spsr) (spsr_usr cpsr) ;;;
  store_word (pr.(tf) + tf_sp_usr) PTE_SZ ;;;
  store_word (pr.(tf) + tf_lr_usr) 0 ;;;
  store_word (pr.(tf) + tf_pc) 0 ;;;
  modify (upd_proc 0 (fun x => set_name (copy_name (chars "initcode") x.(name)) x)) ;;;
  c <- namei (chars "/") ;;
  modify (upd_proc 0 (set_cwd c)) ;;;
  acquire ptable_lock ;;;
  modify (upd_proc 0 (set_state RUNNABLE)) ;;;
  release ptable_lock.

Lemma upd_proc_0 f p R s : s.(procs) = p :: R -> upd_proc 0 f s = set_procs (f p :: R) s.
Proof. intros Hp. unfold upd_proc. by rewrite Hp. Qed.

Lemma userinit_tail_run cpsr ks d R s env :
  calm s -> icache_lock ∉ s.(kcpu).(held) -> s.(icache) = replicate NINODE zero_inode ->
  s.(procs) = set_pgdir d (born zero_proc 1 ks) :: R ->
  userinit_tail cpsr s env = Ok tt
    (set_procs (first_proc ks d :: R)
      (set_icache (<[0%nat := root_inode]> (replicate NINODE zero_inode)) (set_mem (user_frame cpsr (frame_at ks) s.(mem)) s))) env.
Proof.
  intros (Hq & Hp & Hn) Hl Hic Hpr. unfold userinit_tail. rewrite bind_modify. rewrite (upd_proc_0 _ _ _ s Hpr).
  mstep (get_proc_eq 0 _ (set_procs (set_sz PTE_SZ (set_pgdir d (born zero_proc 1 ks)) :: R) s) env eq_refl).
  unfold store_word. mrun. rewrite !upd_mem_twice. erewrite (upd_proc_0 _ _ R) by reflexivity.
  change (upd_mem _ _) with (set_mem (user_frame cpsr (frame_at ks) s.(mem))
    (set_procs (set_sz PTE_SZ (set_pgdir d (born zero_proc 1 ks)) :: R) s)).
  generalize (user_frame cpsr (frame_at ks) (mem s)) as m. intros m. set (s1 := set_procs _ _).
  mstep (namei_root s1 env Hq Hl Hic). mrun. erewrite (upd_proc_0 _ _ R) by reflexivity. set (s2 := set_procs _ _).
  mstep (acquire_quiet ptable_lock s2 env Hq Hp). mrun. erewrite (upd_proc_0 _ _ R) by reflexivity. set (s3 := set_procs _ _).
  rewrite (release_quiet ptable_lock s2 s3 env Hq Hp eq_refl). f_equal.
Qed.

(** The kernel stack of the first process is not touched by loading. *)
Lemma first_user_words m m5 ks cpsr (m' := user_frame cpsr (frame_at ks) m5) :
  page_ok ks -> 0 <= trapret_addr < 2 ^ 32 -> 0 <= spsr_usr cpsr < 2 ^ 32 ->
  (forall i, 0 <= i < KPAGE -> m5 (ks + i) = stack_mem m ks (ks + i)) ->
  load32 m' (frame_at ks + tf_pc) = 0 /\ load32 m' (frame_at ks + tf_sp_usr) = PTE_SZ /\
  load32 m' (frame_at ks + tf_spsr) = spsr_usr cpsr /\
  load32 m' (frame_at ks - 4) = trapret_addr /\ load32 m' (context_at ks + ctx_lr) = u32 (forkret_addr + 4).
Proof.
  intros Hks Ht Hc Hm. destruct (user_frame_words cpsr (frame_at ks) m5 Hc) as (H1 & H2 & H3 & H4).
  destruct (stack_mem_words m ks Hks Ht) as (S1 & _ & S3 & _ & _).
  assert (Hlow : forall a, ks <= a -> a + 4 <= frame_at ks -> load32 m' a = load32 (stack_mem m ks) a).
  { intros a Ha Hb. apply load32_other. intros i Hi. unfold m'. rewrite H4 by lia.
    replace (a + i) with (ks + (a + i - ks)) by lia. apply Hm. unfold frame_at, stack_top, KSTACKSIZE in *.
    change KPAGE with 262144. unfold TF_SIZE in Hb. lia. }
  split_and?; [exact H1|exact H2|exact H3|rewrite Hlow; [exact S1|..]|rewrite Hlow; [exact S3|..]];
    unfold context_at, frame_at, stack_top, KSTACKSIZE, TF_SIZE, CONTEXT_SIZE, ctx_lr; lia.
Qed.

(** Writing the saved registers keeps the loaded address space. *)
Lemma frame_keeps s l d ks cpsr s' : space s l d -> page_ok ks -> ks <> d -> ks ∉ l -> ~ is_table s.(mem) d ks ->
  0 <= spsr_usr cpsr < 2 ^ 32 -> s'.(kcpu) = s.(kcpu) -> s'.(freelist) = s.(freelist) ->
  s'.(mem) = user_frame cpsr (frame_at ks) s.(mem) ->
  space s' l d /\ (forall va, user_va va -> pte s'.(mem) d va = pte s.(mem) d va) /\
  (forall q i, page_ok q -> q <> ks -> 0 <= i < KPAGE -> s'.(mem) (q + i) = s.(mem) (q + i)).
Proof.
  intros Hs Hks Hd Hl Hnt Hc Hk Hf Hm. destruct (user_frame_words cpsr (frame_at ks) s.(mem) Hc) as (_ & _ & _ & H4).
  assert (Hfr : forall q i, page_ok q -> q <> ks -> 0 <= i < KPAGE -> s'.(mem) (q + i) = s.(mem) (q + i)).
  { intros q i Hq Hne Hi. rewrite Hm. apply H4. destruct (pages_disjoint ks q i (proj1 Hks) (proj1 Hq)); [done|done|..];
      unfold frame_at, stack_top, KSTACKSIZE, TF_SIZE; change KPAGE with 262144 in *; lia. }
  destruct (space_frame s s' l d Hs Hk Hf) as (F1 & F2 & _); [|done].
  intros q i Hq Hor Hi. apply Hfr; [done| |done]. intros ->. destruct Hor as [?|[?|?]]; done.
Qed.

Lemma created_cons ks p R s : s.(procs) = p :: R -> s.(nextpid) = 1 ->
  created 0 ks s = set_procs (born p 1 ks :: R)
    (set_nextpid 2 (set_mem (stack_mem s.(mem) ks) (set_freelist (load32 s.(mem) ks) s))).
Proof. intros Hp Hn. unfold created, upd_proc, upd_mem. simpl. by rewrite Hp, Hn. Qed.

Lemma userinit_run cpsr s ks d pg l env :
  calm s -> icache_lock ∉ s.(kcpu).(held) -> fresh_tables s -> free_pages s (ks :: d :: pg :: l) -> l <> [] ->
  0 <= trapret_addr < 2 ^ 32 -> 0 <= spsr_usr cpsr < 2 ^ 32 -> Z.of_nat (length initcode) < PTE_SZ ->
  exists m fl l', let s' := user_tables ks d (set_mem m (set_freelist fl s)) in
    userinit cpsr s env = Ok tt s' env /\ first_user s' l' ks d pg cpsr /\ l' ⊆ l.
Proof.
  intros Hc Hil (Hpr & Hic & Hnp) Hf Hl Ht Hsp Hinit. unfold userinit.
  pose proof (allocproc_eq s env _ Hc Hf) as Ha. rewrite Hpr, find_first in Ha. mstep Ha. clear Ha.
  pose proof (created_free 0 ks _ s Hf Ht) as Hf1. change (replicate NPROC zero_proc) with (zero_proc :: replicate (NPROC - 1) zero_proc) in Hpr.
  rewrite (created_cons ks _ _ s Hpr Hnp) in Hf1 |- *. remember (replicate (NPROC - 1) zero_proc) as R eqn:ER.
  assert (HR : length R = (NPROC - 1)%nat) by (rewrite ER; apply length_replicate). unfold user_tables. rewrite <- ER. clear ER. rewrite bind_modify.
  set (s2 := set_initproc _ _). cbn [deref]. rewrite bind_ret.
  assert (Hf2 : free_pages s2 (d :: pg :: l)) by exact Hf1. clear Hf1.
  destruct (kalloc_cons s [] ks _ Hf) as (_ & _ & Hks & Hkl). destruct (kalloc_cons s2 env d (pg :: l) Hf2) as (Hk & _ & Hd & _).
  destruct (fresh_directory s2 d (pg :: l) Hf2) as [Hs3 Hn3]. set (fl3 := load32 (mem s2) d) in *.
  unfold setupvm. rewrite bind_assoc. mstep Hk. clear Hk. rewrite bind_ret, bind_modify.
  rewrite (upd_proc_0 (set_pgdir d) (born zero_proc 1 ks) R (set_freelist fl3 s2) eq_refl).
  set (s4 := set_procs _ (set_freelist fl3 s2)).
  rewrite (proj2 (Z.eqb_neq d 0)) by (destruct Hd as (_ & _ & _ & ?); lia).
  destruct (space_frame (set_freelist fl3 s2) s4 (pg :: l) d Hs3 eq_refl eq_refl ltac:(reflexivity)) as (Hs4 & _ & _).
  destruct (inituvm_run s4 d pg l initcode env Hs4 Hn3 Hl Hinit) as (s5 & l5 & Hrun & HL).
  mstep Hrun. clear Hrun. fold (userinit_tail cpsr). destruct HL as [L1 L2 (Lp & Lpd & Lpl & Lpt) L4 L5 L6 L7 L8 (m5 & fl5 & L9)].
  apply not_elem_of_cons in Hkl as [Hkd Hkl].
  assert (Hc5 : calm s5).
  { rewrite L9. destruct Hc as (Hq & Hpl & _). split; [exact Hq|split; [exact Hpl|]]. simpl. by rewrite HR. }
  pose proof (userinit_tail_run cpsr ks d R s5 env Hc5) as Htail.
  rewrite L9 in Htail at 1 2 3. specialize (Htail Hil Hic eq_refl).
  exists (user_frame cpsr (frame_at ks) s5.(mem)), fl5, l5. set (s' := set_procs (first_proc ks d :: R) _) in Htail.
  assert (Es : set_procs (first_proc ks d :: R)
      (set_icache (<[0%nat := root_inode]> (replicate NINODE zero_inode))
        (set_nextpid 2 (set_initproc (Some 0%nat) (set_mem (user_frame cpsr (frame_at ks) s5.(mem)) (set_freelist fl5 s))))) = s').
  { unfold s'. generalize (user_frame cpsr (frame_at ks) (mem s5)). intros m'. rewrite L9. reflexivity. }
  cbv zeta. rewrite Es. clear Es. split; [exact Htail|]. clear Htail.
  assert (Hnt : ~ is_table s5.(mem) d ks) by (intros Hq; apply L7 in Hq; done).
  destruct (frame_keeps s5 l5 d ks cpsr s' L1 Hks Hkd ltac:(intros Hq; apply L8 in Hq; done) Hnt Hsp eq_refl eq_refl eq_refl)
    as (F1 & F2 & F3).
  destruct (first_user_words s.(mem) s5.(mem) ks cpsr Hks Ht Hsp) as (W1 & W2 & W3 & W4 & W5).
  { intros i Hi. by rewrite L6 by done. }
  assert (Hpk : pg <> ks) by (intros ->; apply Hkl; left). split.
  - constructor; try done; [by rewrite F2 by apply user_va_0|]. intros i c Hi. pose proof (lookup_lt_Some _ _ _ Hi).
    rewrite F3; [by apply L4|done|done|]. unfold PTE_SZ in Hinit. change KPAGE with 262144. lia.
  - intros q Hq. pose proof (L8 q Hq) as [->|]%elem_of_cons; done.
Qed.

(** ** kmain *)

Lemma initlock_free lk s env : lk ∉ s.(kcpu).(held) -> initlock lk s env = Ok tt s env.
Proof.
  intros Hl. unfold initlock, modify, upd_cpu. f_equal. replace (held (kcpu s) ∖ {[lk]}) with (held (kcpu s)) by set_solver.
  destruct s as [[] ]. done.
Qed.

(** The registers written, and the table of handlers, at the end. *)
Definition boot_regs (cr lcr : Z) : list (Z * Z) :=
  [ (reg (p2v UART0) UART_IBRD, 78); (reg (p2v UART0) UART_FBRD, 8);
    (reg (p2v UART0) UART_CR, u32 (Z.lor cr 769)); (reg (p2v UART0) UART_LCR, u32 (Z.lor lcr 16));
    (reg (p2v VIC_BASE) VIC_INTCLEAR, 2 ^ 32 - 1);
    (reg (p2v UART0) UART_IMSC, 16); (reg (p2v VIC_BASE) VIC_INTENABLE, 4096);
    (reg timer0 TIMER_LOAD, 100000); (reg timer0 TIMER_CONTROL, 226); (reg (p2v VIC_BASE) VIC_INTENABLE, 16) ].

Definition boot_isrs : list (option isr) :=
  <[4%nat := Some isr_timer_fn]> (<[12%nat := Some isr_uart_fn]> (replicate NUM_INTSRC (Some default_isr_fn))).

(** The state before the first process is made. *)
Definition initialised (cr lcr : Z) (img : list (list Z)) (m : memory) (fl : Z) (tx : list Z) (sp : gmap Z Z) : kstate :=
  set_use_lock true (set_regwrites (boot_regs cr lcr) (set_isrs boot_isrs (set_disk img
    (set_bcache (warm (replicate (S NBUF) zero_buf))
    (set_cons_locking true
    (set_devsw (<[Z.to_nat CONSOLE := (Some consoleread_fn, Some consolewrite_fn)]> (replicate (Z.to_nat NDEV) (None, None)))
    (set_vic_base (p2v VIC_BASE) (set_mode_sp sp (set_freelist fl (set_mem m
    (set_uart_tx tx (set_ubase (p2v UART0) (kstate0 []))))))))))))).

Context `{Stubs}.

Lemma boot_may_print s : s.(kcpu) = zero_cpu -> may_print s.
Proof. intros Hk. unfold may_print, quiet. rewrite Hk. split; [done|]. simpl. set_solver. Qed.

(** The part that fills the memory. *)
Definition raw (cr lcr : Z) (m : memory) (fl : Z) (tx : list Z) (sp : gmap Z Z) : kstate :=
  set_freelist fl (set_mode_sp sp (set_mem m (set_uart_tx tx
    (set_regwrites (take 4 (boot_regs cr lcr)) (set_ubase (p2v UART0) (kstate0 [])))))).

Definition kmain_memory (cr lcr : Z) : K unit :=
  uart_init (p2v UART0) cr lcr ;;;
  cprintf (chars "paging enabled." ++ newline) [] ;;;
  kinit1 ;;;
  freerange kern_end (p2v PHYSTOP) ;;;
  trap_init.

Lemma uart_init_eq cr lcr env :
  uart_init (p2v UART0) cr lcr (kstate0 []) env =
  Ok tt (set_regwrites (take 4 (boot_regs cr lcr)) (set_ubase (p2v UART0) (kstate0 []))) env.
Proof. reflexivity. Qed.

Lemma boot_pages_4 : (4 <= length boot_pages)%nat.
Proof. unfold boot_pages. rewrite length_page_range. lia. Qed.

Lemma kmain_memory_run cr lcr env : fits_below ->
  exists m fl tx sp, let s := raw cr lcr m fl tx sp in
    kmain_memory cr lcr (kstate0 []) env = Ok tt s env /\ free_pages s (drop 4 boot_pages).
Proof.
  intros Hfit. unfold kmain_memory. mstep (uart_init_eq cr lcr env). set (s1 := set_regwrites _ _).
  destruct (cprintf_run (chars "paging enabled." ++ newline) [] s1 env (boot_may_print s1 eq_refl) eq_refl) as [tx Htx].
  mstep Htx. clear Htx. set (s2 := set_uart_tx tx s1).
  unfold kinit1. rewrite bind_assoc. mstep (initlock_free kmem_lock s2 env (not_elem_of_empty (C := gset lock) _)). rewrite bind_modify.
  change (set_use_lock false s2) with s2.
  assert (Hf2 : free_pages s2 []) by (split_and!; try done; constructor).
  destruct (freerange_run s2 env Hfit Hf2) as (m & fl & Hrun & Hf3). mstep Hrun. clear Hrun. set (s3 := set_freelist fl _) in *.
  destruct (trap_init_run s3 boot_pages env (proj1 Hfit) boot_pages_4 Hf3) as (s4 & Hrun & Hf4 & Hs4).
  exists (store_words m vec_table vector_words), s4.(freelist), tx, (trapped boot_pages s3).(mode_sp). cbv zeta.
  assert (E : s4 = raw cr lcr (store_words m vec_table vector_words) s4.(freelist) tx (trapped boot_pages s3).(mode_sp)) by exact Hs4.
  rewrite <- E. done.
Qed.
(** The part that initialises the devices and tables. *)
Definition kmain_devices (fs_img : list (list Z)) : K unit :=
  pic_init (p2v VIC_BASE) ;;;
  uart_enable_rx ;;;
  consoleinit ;;;
  pinit ;;;
  binit ;;;
  fileinit ;;;
  iinit ;;;
  ideinit fs_img ;;;
  timer_init HZ ;;;
  kinit2.

Lemma binit_free s env : length s.(bcache) = S NBUF -> bcache_lock ∉ s.(kcpu).(held) ->
  binit s env = Ok tt (set_bcache (warm s.(bcache)) s) env.
Proof.
  intros Hl Hk. rewrite binit_eq by done. f_equal. unfold upd_cpu. simpl.
  replace (held (kcpu s) ∖ {[bcache_lock]}) with (held (kcpu s)) by set_solver. destruct s as [[] ]. done.
Qed.

Lemma pic_enable_run n h s env : 0 <= n < 32 ->
  pic_enable n h s env = Ok tt (set_regwrites (s.(regwrites) ++ [(reg s.(vic_base) VIC_INTENABLE, u32 (Z.shiftl 1 n))])
    (set_isrs (<[Z.to_nat n := Some h]> s.(isrs)) s)) env.
Proof. intros Hn. unfold pic_enable. rewrite pic_range by done. done. Qed.

Ltac boot_lock lk :=
  match goal with |- bind (initlock lk) _ ?s ?e = _ => mstep (initlock_free lk s e (not_elem_of_empty (C := gset lock) lk)) end.

Lemma kmain_devices_run cr lcr m fl tx sp img env :
  kmain_devices img (raw cr lcr m fl tx sp) env = Ok tt (initialised cr lcr img m fl tx sp) env.
Proof.
  unfold kmain_devices. mstep (pic_init_eq (p2v VIC_BASE) (raw cr lcr m fl tx sp) env eq_refl). set (s1 := set_isrs _ _).
  unfold uart_enable_rx, reg_write. rewrite bind_assoc, bind_gets, bind_assoc, bind_modify. set (s2 := set_regwrites _ _).
  mstep (pic_enable_run PIC_UART0 isr_uart_fn s2 env ltac:(unfold PIC_UART0; lia)). set (s3 := set_regwrites _ _).
  unfold consoleinit, clock, pinit, fileinit, iinit, ideinit. rewrite bind_assoc. boot_lock cons_lock. rewrite bind_assoc. boot_lock input_lock.
  rewrite bind_assoc, bind_modify. rewrite bind_modify. set (s4 := set_cons_locking true _). boot_lock ptable_lock.
  mstep (binit_free s4 env eq_refl (not_elem_of_empty (C := gset lock) _)). set (s5 := set_bcache _ _).
  boot_lock ftable_lock. boot_lock icache_lock. rewrite bind_modify. set (s6 := set_disk img s5).
  unfold timer_init. rewrite bind_assoc. boot_lock tickslock. change (HZ =? 0) with false. cbv iota.
  unfold reg_write. rewrite bind_assoc, bind_modify, bind_assoc, bind_modify. set (s7 := set_regwrites _ _).
  mstep (pic_enable_run PIC_TIMER01 isr_timer_fn s7 env ltac:(unfold PIC_TIMER01; lia)). reflexivity.
Qed.

Lemma kmain_split cr lcr cpsr img s env :
  kmain cr lcr cpsr img s env = (kmain_memory cr lcr ;;; kmain_devices img ;;; userinit cpsr) s env.
Proof.
  unfold kmain, kmain_memory, kmain_devices. rewrite !bind_assoc.
  do 5 (apply bind_ext; intros [] ? ?; rewrite ?bind_assoc).
  do 10 (apply bind_ext; intros [] ? ?; rewrite ?bind_assoc). done.
Qed.

Lemma page_range_drop k : forall p n, drop k (page_range p (k + n)) = page_range p n.
Proof. induction k as [|k IH]; intros p n; [done|]. cbn [Nat.add page_range drop]. apply IH. Qed.

Lemma boot_pages_left : drop 4 boot_pages =
  first_page + 503 * KPAGE :: first_page + 502 * KPAGE :: first_page + 501 * KPAGE :: page_range first_page 501.
Proof. exact (page_range_drop 4 first_page 504). Qed.

(** The interrupts enabled at the end are those of the timer and the UART. *)
Lemma boot_enabled cr lcr s : s.(vic_base) = p2v VIC_BASE -> s.(regwrites) = boot_regs cr lcr -> vic_enabled s = 4112.
Proof. intros Hb Hr. unfold vic_enabled. rewrite Hb, Hr. reflexivity. Qed.

Lemma boot_bits : forallb (fun i => eqb (Z.testbit 4112 i) ((i =? 4) || (i =? 12))) (Z.of_nat <$> seq 0 32) = true.
Proof. vm_compute. reflexivity. Qed.

Lemma boot_bit i : 0 <= i < 32 -> Z.testbit 4112 i = ((i =? 4) || (i =? 12)).
Proof.
  intros Hi. pose proof boot_bits as Hb. rewrite forallb_forall in Hb. apply eqb_prop, Hb, list_elem_of_In, list_elem_of_fmap.
  exists (Z.to_nat i). split; [lia|apply elem_of_seq; lia].
Qed.

Lemma boot_wired cr lcr s : s.(vic_base) = p2v VIC_BASE -> s.(regwrites) = boot_regs cr lcr -> s.(isrs) = boot_isrs ->
  attached s /\ wired s /\ enables s {[4; 12]}.
Proof.
  intros Hb Hr Hi. pose proof (boot_enabled cr lcr s Hb Hr) as Hen. unfold attached, wired, enables. rewrite Hi, Hen.
  split; [done|]. split; [split; [done|]|]; intros i Hr32; rewrite boot_bit by done.
  - intros Hor. assert (i = 4 \/ i = 12) as [-> | ->] by lia; eexists; (split; [reflexivity|done]).
  - apply eq_true_iff_eq. rewrite orb_true_iff, !Z.eqb_eq, bool_decide_eq_true. set_solver.
Qed.

(** The buffer cache is ready: nothing cached, nothing in use. *)
Lemma boot_cache s : s.(kcpu) = zero_cpu -> length s.(procs) = NPROC -> s.(bcache) = warm (replicate (S NBUF) zero_buf) ->
  Forall (fun blk => length blk = Z.to_nat BSIZE) s.(disk) -> rep [] ∅ s.
Proof.
  intros Hk Hp Hb Hd. set (s0 := set_bcache (replicate (S NBUF) zero_buf) s).
  assert (E : s = after_binit s0).
  { assert (Hh : upd_cpu (fun c => set_held (c.(held) ∖ {[bcache_lock]}) c) s = s).
    { unfold upd_cpu. rewrite Hk. cbn [held zero_cpu]. replace (∅ ∖ {[bcache_lock]}) with (∅ : gset lock) by set_solver.
      change (set_held ∅ zero_cpu) with zero_cpu. rewrite <- Hk. by destruct s. }
    rewrite <- Hh at 1. unfold after_binit. f_equal.
    transitivity (set_bcache (warm (replicate (S NBUF) zero_buf)) s); [rewrite <- Hb; by destruct s|reflexivity]. }
  rewrite E. apply warm_rep.
  - split; [unfold quiet|split; [|exact Hp]]; change (kcpu s0) with s.(kcpu); rewrite Hk; [done|apply (not_elem_of_empty (C := gset lock))].
  - split; [done|]. apply Forall_replicate. done.
  - exact Hd.
Qed.

(** C14: initialisation. On a kernel that ends below the vectors' page, kmain
    runs to the start of the scheduler: no step panics or runs out of memory,
    no lock is left held and interrupts are masked; exactly one process is
    runnable, init, which will enter the first program in user mode; the
    interrupts of the timer and the serial port, and no others, are enabled
    and have their handlers; the buffer cache satisfies its invariant over the
    disk image, the console has no input, and the inode cache holds the root. *)
Theorem kmain_ready cr lcr cpsr img env :
  fits_below -> 0 <= trapret_addr < 2 ^ 32 -> 0 <= spsr_usr cpsr < 2 ^ 32 -> Z.of_nat (length initcode) < PTE_SZ ->
  Forall (fun blk => length blk = Z.to_nat BSIZE) img ->
  exists s l ks d pg, kmain cr lcr cpsr img (kstate0 []) env = Ok tt s env /\
    s.(kcpu) = zero_cpu /\ s.(curproc) = None /\ s.(initproc) = Some 0%nat /\
    s.(procs) = first_proc ks d :: replicate (NPROC - 1) zero_proc /\
    first_user s l ks d pg cpsr /\
    attached s /\ wired s /\ enables s {[4; 12]} /\
    rep [] ∅ s /\ s.(disk) = img /\ ring s.(input) [] [] /\ s.(icache) !! 0%nat = Some root_inode.
Proof.
  intros Hfit Ht Hc Hi Himg. rewrite kmain_split.
  destruct (kmain_memory_run cr lcr env Hfit) as (m & fl & tx & sp & Hmem & Hf). mstep Hmem.
  mstep (kmain_devices_run cr lcr m fl tx sp img env). rewrite boot_pages_left in Hf.
  set (s1 := initialised cr lcr img m fl tx sp). assert (Hf1 : free_pages s1 _) by exact Hf.
  destruct (userinit_run cpsr s1 (first_page + 503 * KPAGE) (first_page + 502 * KPAGE) (first_page + 501 * KPAGE) (page_range first_page 501) env)
    as (m' & fl' & l' & Hrun & Hu & _);
    [split_and!; done|apply (not_elem_of_empty (C := gset lock))|done|exact Hf1|done|done|done|done|].
  eexists _, l', _, _, _. split; [exact Hrun|]. set (s := user_tables _ _ _) in *.
  destruct (boot_wired cr lcr s eq_refl eq_refl eq_refl) as (Ha & Hw & He).
  split_and?; try done; [|apply demo_ring]. by apply boot_cache.
Qed.

End Facts.

(** ** Witness *)

(** A kernel of that size with a program of two instructions, and an image of
    four sectors. *)
#[local] Instance small_image : Image := {|
  kern_end := KERNBASE + 3 * KPAGE + 4096; trapret_addr := KERNBASE + 262400; forkret_addr := KERNBASE + 270000;
  error_init_addr := 0; initcode := [1; 0; 160; 227; 0; 0; 0; 239]
|}.
#[local] Instance small_stubs : Stubs := {| trap_stub := fun _ => KERNBASE + 262144 |}.

Definition small_disk : list (list Z) := replicate 4 (replicate (Z.to_nat BSIZE) 0).

Lemma kmain_ready_witness :
  exists s l ks d pg, kmain 0 0 211 small_disk (kstate0 []) [] = Ok tt s [] /\
    s.(kcpu) = zero_cpu /\ s.(curproc) = None /\ s.(initproc) = Some 0%nat /\
    s.(procs) = first_proc ks d :: replicate (NPROC - 1) zero_proc /\
    first_user s l ks d pg 211 /\
    attached s /\ wired s /\ enables s {[4; 12]} /\
    rep [] ∅ s /\ s.(disk) = small_disk /\ ring s.(input) [] [] /\ s.(icache) !! 0%nat = Some root_inode.
Proof.
  apply (kmain_ready 0 0 211 small_disk []).
  - vm_compute. done.
  - vm_compute. done.
  - vm_compute. done.
  - vm_compute. done.
  - apply Forall_replicate, length_replicate.
Defined.

End MainFacts.
