(* ===== verification/VmSpace.v ===== *)
(** Address spaces (kernel/vm.c): the pages that belong to one, the bytes it
    holds, and how both change when pages are added. *)
From S2P Require Import Prelude Types Spinlock Cstring Kalloc KallocFacts Vm VmFacts.
Import Spinlock Cstring Kalloc KallocFacts Vm VmFacts.

Module VmSpace.

#[local] Opaque memset memmove store32 load32.

Section Facts.
Context `{Image}.

(** ** What an address space holds *)

(** The page behind a user address, and the byte at it. *)
Definition user_page (m : memory) (d va : Z) : Z := p2v (PTE_ADDR (pte m d va)).
Definition user_byte (m : memory) (d va : Z) : Z := m (user_page m d va + va mod PTE_SZ).

(** The pages of an address space of [sz] bytes: directory, tables, memory. *)
Definition part (m : memory) (d sz q : Z) : Prop :=
  q = d \/ is_table m d q \/ exists va, 0 <= va < sz /\ q = user_page m d va.

(** An address space of [sz] bytes: exactly the pages that begin below [sz]
    are mapped, each to an allocated page of its own. *)
Record backed (s : kstate) (l : list Z) (d sz : Z) : Prop := {
  bk_space : space s l d;
  bk_size : 0 <= sz <= UADDR_SZ;
  bk_mapped : forall va, user_va va -> mapped s.(mem) d va <-> va / PTE_SZ * PTE_SZ < sz;
  bk_pages : forall q, part s.(mem) d sz q -> page_ok q /\ q ∉ l;
  bk_apart : forall va, 0 <= va < sz -> user_page s.(mem) d va <> d /\ ~ is_table s.(mem) d (user_page s.(mem) d va);
  bk_inj : forall va va', 0 <= va < sz -> 0 <= va' < sz ->
    user_page s.(mem) d va = user_page s.(mem) d va' -> va / PTE_SZ = va' / PTE_SZ
}.

Lemma below_user sz va : sz <= UADDR_SZ -> 0 <= va < sz -> user_va va.
Proof. unfold user_va. lia. Qed.

Lemma bk_below s l d sz va : backed s l d sz -> 0 <= va < sz -> mapped s.(mem) d va.
Proof.
  intros Hb Hv. apply (bk_mapped _ _ _ _ Hb); [eapply below_user; [apply (bk_size _ _ _ _ Hb)|done]|].
  unfold PTE_SZ. Z.to_euclidean_division_equations. lia.
Qed.

(** Pages that are not part of an address space may change, be taken and be
    freed. *)
Lemma space_move s s' l l' d : space s l d -> free_pages s' l' -> (forall q, q = d \/ is_table s.(mem) d q -> q ∉ l -> q ∉ l') ->
  (forall q i, q = d \/ is_table s.(mem) d q -> 0 <= i < KPAGE -> s'.(mem) (q + i) = s.(mem) (q + i)) ->
  space s' l' d /\ (forall va, user_va va -> pte s'.(mem) d va = pte s.(mem) d va) /\
  (forall q, is_table s'.(mem) d q <-> is_table s.(mem) d q).
Proof.
  intros [Hf Hd Hdl Hts Hinj] Hf' Hl Hm.
  assert (Htab : forall i, user_slot i -> table s'.(mem) d i = table s.(mem) d i).
  { intros i Hi. apply table_frame; [done|]. intros j Hj. apply Hm; [by left|done]. }
  assert (His : forall q, is_table s'.(mem) d q <-> is_table s.(mem) d q).
  { intros q. split; intros (i & Hi & E); exists i; (split; [done|]); [rewrite <- Htab|rewrite Htab]; done. }
  split_and?; [|intros va Hva|done].
  - constructor; [done|done|apply Hl; [by left|done]| |].
    + intros t Ht%His. destruct (Hts t Ht) as (? & ? & Htl). split_and?; [done|done|apply Hl; [by right|done]].
    + intros i j t Hi Hj. rewrite !Htab by done. by apply Hinj.
  - unfold pte. pose proof (pde_idx va Hva) as [_ Hi]. pose proof (pte_idx va Hva) as [_ Hj]. unfold NUM_PTE in Hj. rewrite Htab by done.
    destruct (table s.(mem) d (PDE_IDX va)) as [t|] eqn:E; [|done]. assert (is_table s.(mem) d t) as Ht by (by exists (PDE_IDX va)).
    apply load32_page; [unfold KPAGE, PGSIZE; lia|]. intros i Hii. apply Hm; [by right|done].
Qed.

Lemma backed_move s s' l l' d sz : backed s l d sz -> free_pages s' l' -> (forall q, part s.(mem) d sz q -> q ∉ l -> q ∉ l') ->
  (forall q i, part s.(mem) d sz q -> 0 <= i < KPAGE -> s'.(mem) (q + i) = s.(mem) (q + i)) ->
  backed s' l' d sz /\ (forall va, user_va va -> pte s'.(mem) d va = pte s.(mem) d va) /\
  (forall q, part s'.(mem) d sz q <-> part s.(mem) d sz q) /\
  (forall va, 0 <= va < sz -> user_byte s'.(mem) d va = user_byte s.(mem) d va).
Proof.
  intros [Hs Hsz Hmp Hpg Hap Hinj] Hf' Hl Hm.
  destruct (space_move s s' l l' d Hs Hf') as (S1 & S2 & S3).
  { intros q [->|Hq]; apply Hl; [by left|right; by left]. } { intros q i [->|Hq] Hi; apply Hm; try done; [by left|right; by left]. }
  assert (Hva : forall va, 0 <= va < sz -> user_va va) by (intros va ?; unfold user_va; lia).
  assert (Hup : forall va, 0 <= va < sz -> user_page s'.(mem) d va = user_page s.(mem) d va).
  { intros va Hv. unfold user_page. by rewrite S2 by auto. }
  assert (Hpart : forall q, part s'.(mem) d sz q <-> part s.(mem) d sz q).
  { intros q. unfold part. rewrite S3. split; (intros [->|[Hq|(va & Hv & ->)]]; [by left|by right; left|right; right; exists va; split; [done|]]);
      by rewrite Hup. }
  split_and?; [|done|done|].
  - constructor; [done|done| | | |].
    + intros va Hv. unfold mapped. rewrite S2 by done. by apply Hmp.
    + intros q Hq%Hpart. destruct (Hpg q Hq). split; [done|by apply Hl].
    + intros va Hv. rewrite Hup, S3 by done. by apply Hap.
    + intros va va' Hv Hv'. rewrite !Hup by done. by apply Hinj.
  - intros va Hv. unfold user_byte. rewrite Hup by done. apply Hm; [right; right; by exists va|].
    pose proof (Z.mod_pos_bound va PTE_SZ). unfold PTE_SZ, KPAGE, PGSIZE in *. lia.
Qed.

Lemma backed_same s s' l d sz : s'.(kcpu) = s.(kcpu) -> s'.(mem) = s.(mem) -> s'.(freelist) = s.(freelist) ->
  backed s l d sz -> backed s' l d sz.
Proof.
  intros Hk Hm Hfl Hb. apply (backed_move s s' l l d sz Hb); [|done|by rewrite Hm].
  pose proof (sp_free _ _ _ (bk_space _ _ _ _ Hb)) as Hf.
  eapply free_frame; [exact Hf|done|done|unfold quiet; rewrite Hk; apply Hf|by rewrite Hm].
Qed.

(** ** One page *)

Lemma walk_mapped s env l d va : space s l d -> user_va va -> mapped s.(mem) d va ->
  exists t, walkpgdir d va false s env = Ok (t + 4 * PTE_IDX va) s env /\ t + 4 * PTE_IDX va <> 0 /\
    load32 s.(mem) (t + 4 * PTE_IDX va) = pte s.(mem) d va /\ table s.(mem) d (PDE_IDX va) = Some t.
Proof.
  intros Hs Hva Hm. pose proof (pde_idx va Hva) as [_ Hi]. pose proof (pte_idx va Hva) as [_ Hj].
  destruct (table s.(mem) d (PDE_IDX va)) as [t|] eqn:Ht.
  - exists t. assert (is_table s.(mem) d t) as His by (by exists (PDE_IDX va)).
    destruct (sp_tables _ _ _ Hs t His) as ((_ & _ & _ & Hr) & _).
    split_and?; [by eapply walkpgdir_found|lia|by apply present_entry|done].
  - exfalso. apply Hm. unfold pte. by rewrite Ht.
Qed.

Lemma pte_ap_range e : 0 <= PTE_AP e < 4.
Proof. unfold PTE_AP. change 3 with (Z.ones 2). rewrite Z.land_ones by lia. apply Z.mod_pos_bound. lia. Qed.

Lemma memmove_local p u m a : a < p \/ p + KPAGE <= a -> memmove p u PTE_SZ m a = m a.
Proof. intros Ha. rewrite memmove_moved. unfold moved, PTE_SZ, KPAGE, PGSIZE in *. change (4096 mod 2 ^ 32) with 4096. mem_cases. Qed.

Lemma memmove_page p u m i : 0 <= i < PTE_SZ -> memmove p u PTE_SZ m (p + i) = m (u + i).
Proof.
  intros Hi. rewrite memmove_moved. unfold moved, PTE_SZ in *. change (4096 mod 2 ^ 32) with 4096. mem_cases. f_equal. lia.
Qed.

Lemma v2p_entry p ap : page_ok p -> 0 <= ap < 4 -> 0 <= mk_pte (v2p p) ap < 2 ^ 32.
Proof. intros (Hp & _) Ha. apply mk_pte_fields; [by apply (v2p_aligned p 12)|apply Z.mod_pos_bound; lia|done]. Qed.

Lemma fields_page p ap : page_ok p -> 0 <= ap < 4 ->
  Z.land (mk_pte (v2p p) ap) PTE_TYPES <> 0 /\ p2v (PTE_ADDR (mk_pte (v2p p) ap)) = p /\ PTE_AP (mk_pte (v2p p) ap) = ap.
Proof.
  intros (Hp & _ & _ & Hr) Ha. destruct (mk_pte_fields (v2p p) ap) as (F1 & F2 & F3 & _); [by apply (v2p_aligned p 12)|apply Z.mod_pos_bound; lia|done|].
  split_and?; [done|rewrite F2; apply p2v_v2p; lia|done].
Qed.


(** The entry depends on the page only. *)
Lemma pte_page m d va : user_va va -> pte m d va = pte m d (va / PTE_SZ * PTE_SZ).
Proof.
  intros Hva. assert (Hva' : user_va (va / PTE_SZ * PTE_SZ)) by (unfold user_va, PTE_SZ in *; Z.to_euclidean_division_equations; lia).
  assert (Hd : PDE_IDX (va / PTE_SZ * PTE_SZ) = PDE_IDX va).
  { destruct (pde_idx va Hva) as [-> _]. destruct (pde_idx _ Hva') as [-> _]. unfold PTE_SZ, PDE_SZ. Z.to_euclidean_division_equations. lia. }
  assert (Ht : PTE_IDX (va / PTE_SZ * PTE_SZ) = PTE_IDX va).
  { destruct (pte_idx va Hva) as [-> _]. destruct (pte_idx _ Hva') as [-> _]. by rewrite Z.div_mul. }
  unfold pte. by rewrite Hd, Ht.
Qed.

Definition pages_of (sz : Z) : nat := Z.to_nat ((sz + PTE_SZ - 1) / PTE_SZ).

Lemma pages_of_bound sz : 0 <= sz -> sz <= Z.of_nat (pages_of sz) * PTE_SZ < sz + PTE_SZ /\ (pages_of sz < S (S (Z.to_nat (sz / PTE_SZ))))%nat.
Proof. intros Hsz. unfold pages_of, PTE_SZ. Z.to_euclidean_division_equations. lia. Qed.

(** The page of an address, among the pages mapped. *)
Lemma page_index sz va : 0 <= va < sz -> exists k, (k < pages_of sz)%nat /\ va / PTE_SZ = Z.of_nat k.
Proof.
  intros Hv. exists (Z.to_nat (va / PTE_SZ)). unfold pages_of, PTE_SZ. Z.to_euclidean_division_equations. lia.
Qed.


(** ** Growing *)

Definition page_start (va : Z) : Z := va / PTE_SZ * PTE_SZ.

Section Grown.
Variables (ap : Z -> Z) (src : Z -> Z -> Z) (s : kstate) (l : list Z) (d sz : Z) (ps : list Z) (s' : kstate) (l' : list Z) (newsz : Z).
Hypothesis Hb : backed s l d sz.
Hypothesis Hap : forall va, 0 <= ap va < 4.
Hypothesis Hg : grown ap src s l d (Z.of_nat (pages_of sz) * PTE_SZ) ps s' l'.
Hypothesis Hnew : sz <= newsz <= UADDR_SZ.
Hypothesis Hlen : pages_of newsz = (pages_of sz + length ps)%nat.

(** A page below the new size is one of the old ones or one of the new. *)
Lemma grown_page va : user_va va -> page_start va < newsz ->
  (page_start va < sz /\ pte s'.(mem) d va = pte s.(mem) d va) \/
  (exists k p, ps !! k = Some p /\ va / PTE_SZ = Z.of_nat (pages_of sz + k) /\ page_ok p /\
    pte s'.(mem) d va = mk_pte (v2p p) (ap (page_start va)) /\ user_page s'.(mem) d va = p /\
    forall i, 0 <= i < PTE_SZ -> s'.(mem) (p + i) = src (page_start va) i).
Proof.
  intros Hva Hv. pose proof (bk_size _ _ _ _ Hb) as Hsz. destruct (pages_of_bound sz ltac:(lia)) as (P1 & _).
  destruct (pages_of_bound newsz ltac:(lia)) as (P2 & _). rewrite Hlen in P2. unfold page_start in *.
  destruct (decide (va < Z.of_nat (pages_of sz) * PTE_SZ)) as [Hlt|Hge].
  - left. split; [unfold PTE_SZ in *; Z.to_euclidean_division_equations; lia|]. apply (gr_other _ _ _ _ _ _ _ _ _ Hg); [done|by left].
  - right. set (k := Z.to_nat (va / PTE_SZ - Z.of_nat (pages_of sz))).
    assert (Ek : va / PTE_SZ = Z.of_nat (pages_of sz + k)) by (unfold k, PTE_SZ in *; Z.to_euclidean_division_equations; lia).
    assert (Hk : (k < length ps)%nat) by (unfold PTE_SZ in *; Z.to_euclidean_division_equations; lia).
    destruct (lookup_lt_is_Some_2 ps k Hk) as [p Hp]. destruct (gr_pages _ _ _ _ _ _ _ _ _ Hg k p Hp) as (Hpl & _ & _ & _ & Hpte & Hc).
    assert (Hpo : page_ok p).
    { destruct (sp_free _ _ _ (bk_space _ _ _ _ Hb)) as (Hch & _). apply chain_ok in Hch. rewrite Forall_forall in Hch. by apply Hch. }
    replace (Z.of_nat (pages_of sz) * PTE_SZ + Z.of_nat k * PTE_SZ) with (va / PTE_SZ * PTE_SZ) in Hpte, Hc by lia.
    rewrite <- (pte_page s'.(mem) d va Hva) in Hpte. exists k, p. split_and?; try done.
    unfold user_page. rewrite Hpte. by apply fields_page.
Qed.

Lemma page_start_below va : 0 <= va < newsz -> user_va va /\ page_start va < newsz /\ 0 <= page_start va.
Proof. intros Hv. unfold user_va, page_start, PTE_SZ. Z.to_euclidean_division_equations. lia. Qed.

Lemma user_page_start m va : user_va va -> user_page m d (page_start va) = user_page m d va.
Proof. intros Hva. unfold user_page, page_start. by rewrite <- pte_page. Qed.

Lemma grown_tables q : is_table s'.(mem) d q -> is_table s.(mem) d q \/ q ∈ l.
Proof. apply (gr_tables _ _ _ _ _ _ _ _ _ Hg). Qed.

(** Where the page behind an address was before. *)
Lemma grown_from va : 0 <= va < newsz ->
  (0 <= page_start va < sz /\ user_page s'.(mem) d va = user_page s.(mem) d (page_start va)) \/ user_page s'.(mem) d va ∈ l.
Proof.
  intros Hv. destruct (page_start_below va Hv) as (Hva & Hlt & Hge).
  destruct (grown_page va Hva Hlt) as [[Ho E]|(k & p & Hp & _ & _ & _ & -> & _)].
  - left. split; [done|]. rewrite user_page_start by done. unfold user_page. by rewrite E.
  - right. by apply (gr_pages _ _ _ _ _ _ _ _ _ Hg) in Hp as (? & _).
Qed.

Lemma grown_part q : part s'.(mem) d newsz q -> part s.(mem) d sz q \/ q ∈ l.
Proof.
  intros [->|[Hq|(va & Hv & ->)]].
  - left. by left.
  - destruct (grown_tables q Hq); [left; right; by left|by right].
  - destruct (grown_from va Hv) as [[Hs ->]|?]; [|by right]. left. right. right. by exists (page_start va).
Qed.

Lemma grown_backed : backed s' l' d newsz.
Proof.
  pose proof Hb as [B1 B2 B3 B4 B5 B6]. pose proof Hg as [G1 G2 G3 G4 G5 G6 G7 G9 G10 _].
  destruct (pages_of_bound sz ltac:(lia)) as (P1 & _). destruct (pages_of_bound newsz ltac:(lia)) as (P2 & _). rewrite Hlen in P2. constructor.
  - done.
  - lia.
  - intros va Hva. split; intros Hm.
    + destruct (decide (page_start va < newsz)) as [|Hn]; [done|exfalso]. unfold mapped in Hm. unfold page_start in Hn.
      rewrite G4 in Hm; [apply B3 in Hm; [unfold page_start in *; lia|done]|done|].
      right. unfold PTE_SZ in *. Z.to_euclidean_division_equations. lia.
    + destruct (grown_page va Hva Hm) as [[Ho E]|(k & p & _ & _ & Hpo & E & _)]; unfold mapped; rewrite E; [by apply B3|].
      by apply fields_page.
  - intros q Hq. destruct Hq as [->|[Hq|(va & Hv & ->)]].
    + split; [apply (sp_dir _ _ _ G1)|apply (sp_dir_used _ _ _ G1)].
    + destruct (sp_tables _ _ _ G1 q Hq) as (? & ? & ?). done.
    + destruct (page_start_below va Hv) as (Hva & Hlt & Hge).
      destruct (grown_page va Hva Hlt) as [[Ho E]|(k & p & Hp & _ & Hpo & _ & -> & _)].
      * unfold user_page. rewrite E. destruct (B4 (user_page s.(mem) d va)) as [? ?]; [|split; [done|by intros ?%G7]].
        right. right. exists (page_start va). by rewrite user_page_start.
      * destruct (G2 k p Hp) as (_ & ? & _). done.
  - intros va Hv. destruct (page_start_below va Hv) as (Hva & Hlt & Hge).
    destruct (grown_page va Hva Hlt) as [[Ho E]|(k & p & Hp & _ & _ & _ & -> & _)]; [|by destruct (G2 k p Hp) as (_ & _ & ? & ? & _)].
    replace (user_page s'.(mem) d va) with (user_page s.(mem) d (page_start va)) by (rewrite user_page_start by done; unfold user_page; by rewrite E).
    destruct (B5 (page_start va) ltac:(lia)) as [? Hnt]. split; [done|]. intros [Ht|Ht]%G6; [done|].
    destruct (B4 (user_page s.(mem) d (page_start va))) as [_ ?]; [right; right; exists (page_start va); split; [lia|done]|done].
  - intros va va' Hv Hv' E. destruct (page_start_below va Hv) as (Hva & Hlt & Hge). destruct (page_start_below va' Hv') as (Hva' & Hlt' & Hge').
    destruct (grown_page va Hva Hlt) as [[Ho Ev]|(k & p & Hp & Ek & _ & _ & Ep & _)],
      (grown_page va' Hva' Hlt') as [[Ho' Ev']|(k' & p' & Hp' & Ek' & _ & _ & Ep' & _)].
    + assert (page_start va / PTE_SZ = page_start va' / PTE_SZ) as Ed; [|unfold page_start in Ed; by rewrite !Z.div_mul in Ed].
      apply B6; [lia|lia|]. rewrite !user_page_start by done. unfold user_page in *. by rewrite <- Ev, <- Ev'.
    + exfalso. destruct (B4 p') as [_ Hn]; [|by destruct (G2 k' p' Hp') as (? & _)]. right. right. exists (page_start va). split; [lia|].
      rewrite user_page_start by done. rewrite <- Ep', <- E. unfold user_page. by rewrite Ev.
    + exfalso. destruct (B4 p) as [_ Hn]; [|by destruct (G2 k p Hp) as (? & _)]. right. right. exists (page_start va'). split; [lia|].
      rewrite user_page_start by done. rewrite <- Ep, E. unfold user_page. by rewrite Ev'.
    + rewrite Ek, Ek'. rewrite Ep, Ep' in E. subst p'. by rewrite (NoDup_lookup ps k k' p G3 Hp Hp').
Qed.

(** The old bytes are kept, and the new pages hold what was written. *)
Lemma grown_bytes va : 0 <= va < newsz ->
  if decide (page_start va < sz) then user_byte s'.(mem) d va = user_byte s.(mem) d va /\ pte s'.(mem) d va = pte s.(mem) d va
  else user_byte s'.(mem) d va = src (page_start va) (va mod PTE_SZ) /\ PTE_AP (pte s'.(mem) d va) = ap (page_start va).
Proof.
  intros Hv. destruct (page_start_below va Hv) as (Hva & Hlt & Hge). pose proof (Z.mod_pos_bound va PTE_SZ eq_refl) as Hm.
  pose proof Hb as [B1 B2 B3 B4 B5 B6]. destruct (pages_of_bound sz ltac:(lia)) as (P1 & _).
  destruct (grown_page va Hva Hlt) as [[Ho E]|(k & p & Hp & Ek & Hpo & E & Ep & Hc)].
  - rewrite decide_True by done. split; [|done]. unfold user_byte.
    replace (user_page s'.(mem) d va) with (user_page s.(mem) d va) by (unfold user_page; by rewrite E).
    assert (Hpt : part s.(mem) d sz (user_page s.(mem) d va)) by (right; right; exists (page_start va); by rewrite user_page_start).
    destruct (B4 _ Hpt) as [Hpo Hn]. destruct (B5 (page_start va) ltac:(lia)) as [Hd Ht]. rewrite user_page_start in Hd, Ht by done.
    apply (gr_frame _ _ _ _ _ _ _ _ _ Hg); try done. unfold PTE_SZ, KPAGE, PGSIZE in *. lia.
  - rewrite decide_False by (unfold page_start; rewrite Ek; nia). unfold user_byte. rewrite Ep, E. split; [by apply Hc|by apply fields_page].
Qed.
End Grown.

(** ** A new directory *)

(** A fresh directory is an address space of size 0. *)
Lemma fresh_backed s d l (s1 := set_freelist (load32 s.(mem) d) s) :
  free_pages s (d :: l) -> backed s1 l d 0 /\ (forall q, ~ is_table s1.(mem) d q) /\ forall va, user_va va -> ~ mapped s1.(mem) d va.
Proof.
  intros Hf. destruct (fresh_directory s d l Hf) as (Hs & Hn). fold s1 in Hs, Hn.
  assert (Hnt : forall q, ~ is_table s1.(mem) d q) by (intros q (i & Hi & E); by rewrite Hn in E).
  assert (Hun : forall va, user_va va -> ~ mapped s1.(mem) d va).
  { intros va Hva. unfold mapped, pte. rewrite Hn by (by apply pde_idx). by intros ?. }
  split_and?; [|done|done]. constructor; [done|unfold UADDR_SZ; lia| | |lia|lia].
  - intros va Hva. split; [intros Hm; by apply Hun in Hm|]. unfold user_va, PTE_SZ in *. Z.to_euclidean_division_equations. lia.
  - intros q [->|[Hq|(va & Hv & _)]]; [split; [apply (sp_dir _ _ _ Hs)|apply (sp_dir_used _ _ _ Hs)]|by apply Hnt in Hq|lia].
Qed.

Lemma pages_of_mul n : pages_of (Z.of_nat n * PTE_SZ) = n.
Proof. unfold pages_of, PTE_SZ. Z.to_euclidean_division_equations. lia. Qed.

End Facts.

End VmSpace.
