(* ===== verification/VmFree.v ===== *)
(** Freeing an address space (deallocuvm and freevm of kernel/vm.c): every
    page that belongs to it, and no other, goes back to the free list. *)
From S2P Require Import Prelude Types Spinlock Cstring Kalloc KallocFacts Vm VmFacts VmSpace.
Import Spinlock Cstring Kalloc KallocFacts Vm VmFacts VmSpace.

Module VmFree.

#[local] Opaque memset memmove store32 load32.

Section Facts.
Context `{Image}.

(** The kernel's image, and so every page of the allocator, is above the
    base of the kernel's half. *)
Hypothesis kern_above : KERNBASE < kern_end.

(** ** Address spaces with holes *)

(** Exactly the pages in [P] are mapped, each to an allocated page of its
    own. *)
Record holds (s : kstate) (l : list Z) (d : Z) (P : Z -> Prop) : Prop := {
  hd_space : space s l d;
  hd_mapped : forall va, user_va va -> mapped s.(mem) d va <-> P va;
  hd_pages : forall va, user_va va -> P va ->
    page_ok (user_page s.(mem) d va) /\ (user_page s.(mem) d va ∉ l) /\ user_page s.(mem) d va <> d /\
    ~ is_table s.(mem) d (user_page s.(mem) d va);
  hd_inj : forall va va', user_va va -> user_va va' -> P va -> P va' ->
    user_page s.(mem) d va = user_page s.(mem) d va' -> va / PTE_SZ = va' / PTE_SZ
}.

Lemma holds_iff s l d P Q : (forall va, user_va va -> P va <-> Q va) -> holds s l d P -> holds s l d Q.
Proof.
  intros HPQ [H1 H2 H3 H4]. constructor; [done| | |].
  - intros va Hva. rewrite H2 by done. by apply HPQ.
  - intros va Hva Hq%HPQ; [|done]. by apply H3.
  - intros va va' Hva Hva' Hq%HPQ Hq'%HPQ; try done. by apply H4.
Qed.

Lemma start_below sz va : user_va va -> page_start va < sz -> 0 <= page_start va < sz.
Proof. unfold user_va, page_start, PTE_SZ. intros. Z.to_euclidean_division_equations. lia. Qed.

Lemma start_div va : page_start va / PTE_SZ = va / PTE_SZ.
Proof. unfold page_start. by rewrite Z.div_mul. Qed.

Lemma backed_holds s l d sz : backed s l d sz -> holds s l d (fun va => page_start va < sz).
Proof.
  intros [B1 B2 B3 B4 B5 B6]. constructor; [done|done| |].
  - intros va Hva Hp. pose proof (start_below sz va Hva Hp) as Hs. rewrite <- (user_page_start d s.(mem) va Hva).
    destruct (B5 _ Hs). destruct (B4 (user_page s.(mem) d (page_start va))); [right; right; by exists (page_start va)|done].
  - intros va va' Hva Hva' Hp Hp'. rewrite <- (user_page_start d s.(mem) va), <- (user_page_start d s.(mem) va') by done.
    rewrite <- (start_div va), <- (start_div va'). apply B6; by apply start_below.
Qed.

Lemma holds_backed s l d sz : 0 <= sz <= UADDR_SZ -> holds s l d (fun va => page_start va < sz) -> backed s l d sz.
Proof.
  intros Hsz [H1 H2 H3 H4].
  assert (Hin : forall va, 0 <= va < sz -> user_va va /\ page_start va < sz).
  { unfold user_va, page_start, PTE_SZ. intros. Z.to_euclidean_division_equations. lia. }
  constructor; [done|done|done| | |].
  - intros q [->|[Hq|(va & Hv & ->)]].
    + split; [apply (sp_dir _ _ _ H1)|apply (sp_dir_used _ _ _ H1)].
    + by destruct (sp_tables _ _ _ H1 q Hq) as (? & _ & ?).
    + destruct (Hin va Hv) as [Hva Hp]. by destruct (H3 va Hva Hp) as (? & ? & _).
  - intros va Hv. destruct (Hin va Hv) as [Hva Hp]. by destruct (H3 va Hva Hp) as (_ & _ & ?).
  - intros va va' Hv Hv'. destruct (Hin va Hv), (Hin va' Hv'). by apply H4.
Qed.

(** ** One page *)

Lemma page_nonzero pa : page_ok (p2v pa) -> pa <> 0.
Proof. intros (_ & Hk & _) ->. change (p2v 0) with KERNBASE in Hk. lia. Qed.

Definition page_freed (s : kstate) (p : Z) : kstate := set_freelist p (upd_mem (freed p s.(freelist)) s).

Lemma page_freed_run s l p env : free_pages s l -> page_ok p -> p ∉ l ->
  kfree p s env = Ok tt (page_freed s p) env /\ free_pages (page_freed s p) (p :: l) /\
  (forall q i, page_ok q -> q <> p -> 0 <= i < KPAGE -> (page_freed s p).(mem) (q + i) = s.(mem) (q + i)).
Proof.
  intros Hf Hp Hn. pose proof Hf as (_ & _ & Hq & Hl). split_and?; [by apply kfree_eq|by apply kfree_pages|].
  intros q i Hqo Hqp Hi. apply freed_other. by apply (pages_disjoint p q i (proj1 Hp) (proj1 Hqo)).
Qed.

(** The pages [ps] have left the address space for the free list; nothing
    else has changed but the entries of the page tables. *)
Record shrunk (s : kstate) (d : Z) (gone : Z -> Prop) (ps : list Z) (s' : kstate) : Prop := {
  sh_table : forall i, user_slot i -> table s'.(mem) d i = table s.(mem) d i;
  sh_pte : forall va, user_va va -> ~ gone va -> pte s'.(mem) d va = pte s.(mem) d va;
  sh_gone : forall q, q ∈ ps <-> exists va, user_va va /\ gone va /\ q = user_page s.(mem) d va;
  sh_frame : forall q i, page_ok q -> q ∉ ps -> ~ is_table s.(mem) d q -> 0 <= i < KPAGE -> s'.(mem) (q + i) = s.(mem) (q + i);
  sh_rest : exists m fl, s' = set_mem m (set_freelist fl s)
}.

Lemma shrunk_nil s d gone : (forall va, user_va va -> ~ gone va) -> shrunk s d gone [] s.
Proof.
  intros Hg. constructor; try done.
  - intros q. split; [by intros ?%elem_of_nil|]. intros (va & Hva & Hgo & _). by apply Hg in Hgo.
  - exists s.(mem), s.(freelist). by destruct s.
Qed.

Lemma is_table_same m m' d q : (forall i, user_slot i -> table m' d i = table m d i) -> is_table m' d q <-> is_table m d q.
Proof. intros Ht. split; intros (i & Hi & E); exists i; (split; [done|]); [rewrite <- Ht|rewrite Ht]; done. Qed.

(** Freeing the page of [va] and clearing its entry [t]. *)
Lemma unmap_ok s l d P va t (p := user_page s.(mem) d va)
    (s' := upd_mem (fun m => store32 m (t + 4 * PTE_IDX va) 0) (page_freed s p)) :
  holds s l d P -> user_va va -> P va -> table s.(mem) d (PDE_IDX va) = Some t ->
  holds s' (p :: l) d (fun v => P v /\ v / PTE_SZ <> va / PTE_SZ) /\ shrunk s d (fun v => v / PTE_SZ = va / PTE_SZ) [p] s'.
Proof.
  intros Hh Hva HP Ht. pose proof Hh as [H1 H2 H3 H4]. destruct (H3 va Hva HP) as (Hpo & Hpl & Hpd & Hpt). fold p in Hpo, Hpl, Hpd, Hpt.
  destruct (page_freed_run s l p [] (sp_free _ _ _ H1) Hpo Hpl) as (_ & Hf1 & Hfr).
  assert (Htabs : forall q, is_table s.(mem) d q -> page_ok q /\ q <> p).
  { intros q Hq. destruct (sp_tables _ _ _ H1 q Hq) as (? & _ & _). split; [done|by intros ->]. }
  destruct (space_move s (page_freed s p) l (p :: l) d H1 Hf1) as (S1 & S2 & S3).
  { intros q Hq Hn [->|?]%elem_of_cons; [destruct Hq as [?|?]; [by apply Hpd|done]|done]. }
  { intros q i [->|Hq] Hi; apply Hfr; try done; [apply (sp_dir _ _ _ H1)|by apply Htabs|by apply Htabs]. }
  assert (Htb : forall i, user_slot i -> table (page_freed s p).(mem) d i = table s.(mem) d i).
  { intros i Hi. apply table_frame; [done|]. intros j Hj. apply Hfr; [apply (sp_dir _ _ _ H1)|done|done]. }
  pose proof (pde_idx va Hva) as [_ Hi]. assert (Ht1 : table (page_freed s p).(mem) d (PDE_IDX va) = Some t) by (by rewrite Htb).
  destruct (store_pte (page_freed s p) (p :: l) d va t 0 S1 Hva Ht1 ltac:(lia)) as (E1 & E2 & E3 & E4 & E5).
  change (set_mem (store32 (page_freed s p).(mem) (t + 4 * PTE_IDX va) 0) (page_freed s p)) with s' in E1.
  change (store32 (page_freed s p).(mem) (t + 4 * PTE_IDX va) 0) with s'.(mem) in *.
  assert (Htt : forall i, user_slot i -> table s'.(mem) d i = table s.(mem) d i) by (intros i Hii; by rewrite E3, Htb).
  assert (Hpte : forall v, user_va v -> v / PTE_SZ <> va / PTE_SZ -> pte s'.(mem) d v = pte s.(mem) d v).
  { intros v Hv Hne. by rewrite E4, S2. }
  assert (Hup : forall v, user_va v -> v / PTE_SZ <> va / PTE_SZ -> user_page s'.(mem) d v = user_page s.(mem) d v).
  { intros v Hv Hne. unfold user_page. by rewrite Hpte. }
  assert (Hsame : forall v, user_va v -> v / PTE_SZ = va / PTE_SZ -> pte s'.(mem) d v = 0 /\ user_page s.(mem) d v = p).
  { intros v Hv E. assert (page_start v = page_start va) as Es by (unfold page_start; by rewrite E).
    split.
    - rewrite (pte_page s'.(mem) d v Hv). fold (page_start v). rewrite Es. unfold page_start. rewrite <- pte_page by done. exact E2.
    - unfold p. rewrite <- (user_page_start d s.(mem) v), <- (user_page_start d s.(mem) va), Es by done. done. }
  split.
  - constructor.
    + done.
    + intros v Hv. unfold mapped. destruct (decide (v / PTE_SZ = va / PTE_SZ)) as [E|Hne].
      * destruct (Hsame v Hv E) as [-> _]. split; [by intros ?|by intros [_ ?]].
      * rewrite Hpte by done. pose proof (H2 v Hv). unfold mapped in *. tauto.
    + intros v Hv [HPv Hne]. rewrite Hup by done. destruct (H3 v Hv HPv) as (? & ? & ? & ?). split_and?; [done| |done|].
      * apply not_elem_of_cons. split; [|done]. intros E. apply Hne. by apply H4.
      * by rewrite (is_table_same _ _ _ _ Htt).
    + intros v v' Hv Hv' [? ?] [? ?]. rewrite !Hup by done. by apply H4.
  - constructor; [done|intros v Hv Hne; by apply Hpte| | |].
    + intros q. rewrite list_elem_of_singleton. split; [intros ->; by exists va|]. intros (v & Hv & E & ->). by apply Hsame.
    + intros q i Hq Hqp Hqt Hii. rewrite list_elem_of_singleton in Hqp. rewrite E5; [by apply Hfr|done| |done].
      intros ->. apply Hqt. by exists (PDE_IDX va).
    + eexists _, _. unfold s', page_freed, upd_mem. by destruct s.
Qed.

Lemma shrunk_app s d g1 ps1 s1 g2 ps2 s2 : (forall va, g1 va -> ~ g2 va) ->
  shrunk s d g1 ps1 s1 -> shrunk s1 d g2 ps2 s2 -> shrunk s d (fun va => g1 va \/ g2 va) (ps2 ++ ps1) s2.
Proof.
  intros Hdis [A1 A2 A3 A4 (m & fl & A5)] [B1 B2 B3 B4 (m' & fl' & B5)].
  assert (Hup : forall va, user_va va -> g2 va -> user_page s1.(mem) d va = user_page s.(mem) d va).
  { intros va Hva Hg. unfold user_page. rewrite A2; [done|done|]. intros Hg1. by apply (Hdis va). }
  constructor.
  - intros i Hi. by rewrite B1, A1.
  - intros va Hva Hn. rewrite B2, A2; tauto.
  - intros q. rewrite elem_of_app, A3, B3. split.
    + intros [(va & Hva & Hg & ->)|(va & Hva & Hg & ->)]; exists va; (split_and?; [done|tauto|]); [by apply Hup|done].
    + intros (va & Hva & [Hg|Hg] & ->); [right; by exists va|left; exists va]. by rewrite Hup.
  - intros q i Hq Hn Ht Hi. rewrite not_elem_of_app in Hn. rewrite B4; [apply A4; tauto|done|tauto|by rewrite (is_table_same _ _ _ _ A1)|done].
  - exists m', fl'. rewrite B5, A5. by destruct s.
Qed.

Lemma shrunk_iff s d g g' ps s' : (forall va, user_va va -> g va <-> g' va) -> shrunk s d g ps s' -> shrunk s d g' ps s'.
Proof.
  intros Hg [A1 A2 A3 A4 A5]. constructor; try done.
  - intros va Hva Hn. apply A2; [done|]. by rewrite Hg.
  - intros q. rewrite A3. split; intros (va & Hva & Hgo & ->); exists va; (split_and?; [done|by apply Hg|done]).
Qed.

(** ** deallocuvm *)

Section Loop.
Variables (d oldsz sz : Z) (env : list (kstate -> kstate)).
Hypothesis Hsz : 0 <= sz <= oldsz /\ oldsz <= UADDR_SZ.

(** From a page on behind which nothing is mapped, the loop changes nothing. *)
Lemma dealloc_idle fuel : forall s l a, space s l d -> 0 <= a -> a mod PTE_SZ = 0 ->
  (forall va, user_va va -> a <= va -> ~ mapped s.(mem) d va) -> oldsz <= a + Z.of_nat fuel * PTE_SZ ->
  deallocuvm_loop (S fuel) d a oldsz s env = Ok tt s env.
Proof.
  induction fuel as [|f IH]; intros s l a Hs Ha Hal Hun Hfu; cbn [deallocuvm_loop].
  { by rewrite (proj2 (Z.ltb_ge _ _)) by lia. }
  destruct (Z.ltb_spec a oldsz) as [Hlt|]; [|done]. assert (Hva : user_va a) by (unfold user_va; lia).
  destruct (table s.(mem) d (PDE_IDX a)) as [t|] eqn:Ht.
  - mstep (walkpgdir_found s env d l a false t Hs Hva Ht). pose proof (pde_idx a Hva) as [_ Hi]. pose proof (pte_idx a Hva) as [_ Hj].
    destruct (sp_tables _ _ _ Hs t) as ((_ & _ & _ & Hr) & _); [by exists (PDE_IDX a)|].
    rewrite (proj2 (Z.eqb_neq _ 0)) by lia. unfold load_word. rewrite bind_gets, (present_entry _ _ _ _ Ht).
    pose proof (Hun a Hva ltac:(lia)) as Hm. unfold mapped in Hm. apply dec_stable in Hm. rewrite Hm. simpl negb. unfold when. rewrite bind_ret.
    rewrite u32_small by (unfold PTE_SZ, UADDR_SZ, user_va in *; lia).
    apply (IH s l); [done|unfold PTE_SZ; lia| | |unfold PTE_SZ in *; lia].
    + unfold PTE_SZ in *. Z.to_euclidean_division_equations. lia.
    + intros va Hv Hge. apply Hun; [done|unfold PTE_SZ in *; lia].
  - mstep (walkpgdir_absent s env d a Ht). cbn [Z.eqb]. rewrite (alignup_pow 20) by (unfold user_va in *; lia).
    change (2 ^ 20) with 1048576. set (b := (a + 1048576 - 1) / 1048576 * 1048576).
    assert (Hb : a <= b <= UADDR_SZ) by (unfold b, UADDR_SZ, user_va in *; Z.to_euclidean_division_equations; lia).
    assert (Hbal : b mod PTE_SZ = 0) by (unfold b, PTE_SZ; Z.to_euclidean_division_equations; lia). clearbody b.
    rewrite u32_small by (unfold PTE_SZ, UADDR_SZ in *; lia).
    apply (IH s l); [done|unfold PTE_SZ; lia| | |unfold PTE_SZ in *; lia].
    + unfold PTE_SZ in *. Z.to_euclidean_division_equations. lia.
    + intros va Hv Hge. apply Hun; [done|unfold PTE_SZ in *; lia].
Qed.

(** Behind the last mapped page. *)
Lemma dealloc_past fuel s l a P : holds s l d P -> sz <= a -> a mod PTE_SZ = 0 ->
  (forall va, user_va va -> a <= va -> P va <-> page_start va < sz) -> oldsz <= a + Z.of_nat fuel * PTE_SZ ->
  exists s' ps, deallocuvm_loop (S fuel) d a oldsz s env = Ok tt s' env /\
    holds s' (ps ++ l) d (fun v => P v /\ v < a) /\ shrunk s d (fun v => a <= v /\ page_start v < sz) ps s'.
Proof.
  intros Hh Ha Hal HP Hfu. pose proof Hh as [H1 H2 H3 H4].
  assert (Hst : forall va, a <= va -> ~ page_start va < sz) by (intros va Hv; unfold page_start, PTE_SZ in *; Z.to_euclidean_division_equations; lia).
  exists s, []. split_and?.
  - eapply dealloc_idle; try done; [lia|]. intros va Hva Hv. rewrite H2, HP by done. by apply Hst.
  - eapply holds_iff; [|exact Hh]. intros va Hva. simpl. destruct (decide (va < a)); [tauto|]. rewrite HP by (try done; lia).
    pose proof (Hst va ltac:(lia)). tauto.
  - apply shrunk_nil. intros va Hva [Hv ?]. by apply (Hst va).
Qed.

Lemma dealloc_loop_ok fuel : forall s l a P, holds s l d P -> 0 <= a -> a mod PTE_SZ = 0 ->
  (forall va, user_va va -> a <= va -> P va <-> page_start va < sz) -> oldsz <= a + Z.of_nat fuel * PTE_SZ ->
  exists s' ps, deallocuvm_loop (S fuel) d a oldsz s env = Ok tt s' env /\
    holds s' (ps ++ l) d (fun v => P v /\ v < a) /\ shrunk s d (fun v => a <= v /\ page_start v < sz) ps s'.
Proof.
  induction fuel as [|f IH]; intros s l a P Hh Ha Hal HP Hfu; pose proof Hh as [H1 H2 H3 H4];
    (destruct (decide (a < sz)) as [Hlt|Hge]; [|apply dealloc_past; try done; lia]); [lia|].
  assert (Hva : user_va a) by (unfold user_va; lia). assert (Hst : page_start a = a) by (unfold page_start, PTE_SZ in *; Z.to_euclidean_division_equations; lia).
  assert (HPa : P a) by (apply HP; [done|lia|lia]). assert (Hm : mapped s.(mem) d a) by (by apply H2).
  destruct (walk_mapped s env l d a H1 Hva Hm) as (t & Ew & Ht0 & El & Ht). destruct (H3 a Hva HPa) as (Hpo & Hpl & _).
  destruct (page_freed_run s l _ env (sp_free _ _ _ H1) Hpo Hpl) as (Ek & _).
  destruct (unmap_ok s l d P a t Hh Hva HPa Ht) as (Hh1 & Hs1). set (s1 := upd_mem _ _) in *.
  destruct (IH s1 _ (a + PTE_SZ) _ Hh1) as (s' & ps & Er & Hh' & Hs').
  { unfold PTE_SZ. lia. } { unfold PTE_SZ in *. Z.to_euclidean_division_equations. lia. }
  { intros va Hv Hge. rewrite HP by (try done; unfold PTE_SZ in *; lia). unfold PTE_SZ in *. Z.to_euclidean_division_equations. lia. }
  { unfold PTE_SZ in *. lia. }
  exists s', (ps ++ [user_page s.(mem) d a]). split_and?.
  - cbn [deallocuvm_loop]. rewrite (proj2 (Z.ltb_lt _ _)) by lia. mstep Ew. rewrite (proj2 (Z.eqb_neq _ 0)) by done.
    unfold load_word. rewrite bind_gets, El. unfold mapped in Hm. rewrite (proj2 (Z.eqb_neq _ 0)) by done. cbn [negb when].
    rewrite (proj2 (Z.eqb_neq _ 0)) by (apply page_nonzero; exact Hpo). rewrite !bind_assoc. fold (user_page s.(mem) d a). mstep Ek.
    unfold store_word. rewrite bind_modify. fold s1. rewrite u32_small by (unfold PTE_SZ, UADDR_SZ, user_va in *; lia). exact Er.
  - rewrite <- app_assoc. eapply holds_iff; [|exact Hh']. intros va Hv. simpl. unfold PTE_SZ in *.
    destruct (decide (va < a)); [Z.to_euclidean_division_equations; intuition lia|]. rewrite HP by (try done; lia).
    unfold page_start, PTE_SZ in *. Z.to_euclidean_division_equations. intuition lia.
  - eapply shrunk_iff; [|eapply shrunk_app; [|exact Hs1|exact Hs']]; simpl; unfold page_start, PTE_SZ in *.
    + intros va Hv. simpl. Z.to_euclidean_division_equations. lia.
    + intros va E [Hge _]. Z.to_euclidean_division_equations. lia.
Qed.
End Loop.

Lemma deallocuvm_run d sz oldsz newsz s l env : backed s l d sz -> 0 <= newsz <= sz -> sz <= oldsz <= UADDR_SZ -> newsz < oldsz ->
  exists s' ps, deallocuvm d oldsz newsz s env = Ok newsz s' env /\ backed s' (ps ++ l) d newsz /\
    shrunk s d (fun va => newsz <= page_start va < sz) ps s'.
Proof.
  intros Hb Hn Ho Hlt. unfold deallocuvm. rewrite (proj2 (Z.leb_gt _ _)) by done. rewrite (alignup_pow 12) by lia.
  change (2 ^ 12) with PTE_SZ. set (a := (newsz + PTE_SZ - 1) / PTE_SZ * PTE_SZ).
  assert (Ha : newsz <= a < newsz + PTE_SZ) by (unfold a, PTE_SZ; Z.to_euclidean_division_equations; lia).
  assert (Hal : a mod PTE_SZ = 0) by (unfold a; by apply Z.mod_mul). clearbody a.
  destruct (dealloc_loop_ok d oldsz sz env ltac:(lia) (S (Z.to_nat (oldsz / PTE_SZ))) s l a _ (backed_holds _ _ _ _ Hb)) as (s' & ps & Er & Hh & Hs).
  { lia. } { done. } { done. } { unfold PTE_SZ in *. Z.to_euclidean_division_equations. lia. }
  mstep Er. exists s', ps. split_and?; [done| |].
  - apply holds_backed; [lia|]. eapply holds_iff; [|exact Hh]. intros va Hva. simpl. unfold page_start, PTE_SZ in *.
    Z.to_euclidean_division_equations. lia.
  - eapply shrunk_iff; [|exact Hs]. intros va Hva. simpl. unfold page_start, PTE_SZ in *. Z.to_euclidean_division_equations. lia.
Qed.

(** What is kept is as before. *)
Lemma shrunk_bytes s l d sz newsz ps s' va : backed s l d sz -> newsz <= sz ->
  shrunk s d (fun va => newsz <= page_start va < sz) ps s' -> 0 <= va < newsz ->
  user_byte s'.(mem) d va = user_byte s.(mem) d va /\ pte s'.(mem) d va = pte s.(mem) d va.
Proof.
  intros Hb Hn [A1 A2 A3 A4 A5] Hv. pose proof (bk_size _ _ _ _ Hb) as Hsz. assert (Hva : user_va va) by (unfold user_va; lia).
  pose proof (Z.mod_pos_bound va PTE_SZ eq_refl) as Hm.
  assert (Hp : page_start va < newsz) by (unfold page_start, PTE_SZ; Z.to_euclidean_division_equations; lia).
  assert (E : pte s'.(mem) d va = pte s.(mem) d va) by (apply A2; [done|lia]). split; [|done]. unfold user_byte.
  replace (user_page s'.(mem) d va) with (user_page s.(mem) d va) by (unfold user_page; by rewrite E).
  destruct (backed_holds _ _ _ _ Hb) as [_ _ H3 H4]. destruct (H3 va Hva ltac:(lia)) as (Hpo & _ & _ & Ht).
  apply A4; [done| |done|unfold PTE_SZ, KPAGE, PGSIZE in *; lia]. rewrite A3. intros (v & Hv' & Hr & Ev). simpl in Hr.
  apply H4 in Ev; [|done|done|simpl; lia|simpl; lia]. unfold page_start in *. rewrite Ev in Hp. lia.
Qed.

(** ** freevm *)

(** Freeing the tables of the slots [slots]. *)
Definition free_table (d : Z) (i : nat) : K unit :=
  e <- load_word (d + 4 * Z.of_nat i) ;;
  when (negb (Z.land e PDE_TYPES =? 0)) (kfree (p2v (PTE_ADDR e))).

Lemma free_tables_run d env slots : forall s l,
  free_pages s l -> page_ok d -> NoDup slots -> (forall i, i ∈ slots -> user_slot (Z.of_nat i)) ->
  (forall i t, i ∈ slots -> table s.(mem) d (Z.of_nat i) = Some t -> page_ok t /\ t <> d /\ t ∉ l) ->
  (forall i j t, i ∈ slots -> j ∈ slots -> table s.(mem) d (Z.of_nat i) = Some t -> table s.(mem) d (Z.of_nat j) = Some t -> i = j) ->
  exists s' l', mfor slots (free_table d) s env = Ok tt s' env /\ free_pages s' l' /\
    (forall q, q ∈ l' <-> q ∈ l \/ exists i, i ∈ slots /\ table s.(mem) d (Z.of_nat i) = Some q) /\
    (forall q i, page_ok q -> q ∈ l \/ q ∉ l' -> 0 <= i < KPAGE -> s'.(mem) (q + i) = s.(mem) (q + i)) /\
    exists m fl, s' = set_mem m (set_freelist fl s).
Proof.
  induction slots as [|i slots IH]; intros s l Hf Hd Hnd Hsl Ht Hinj.
  { exists s, l. split_and?; [done|done| |done|exists s.(mem), s.(freelist); by destruct s].
    intros q. split; [by left|]. intros [|(i & Hi & _)]; [done|]. by apply elem_of_nil in Hi. }
  apply NoDup_cons in Hnd as [Hni Hnd]. cbn [mfor]. unfold free_table at 1, load_word. rewrite bind_assoc, bind_gets.
  assert (Hsl' : forall j, j ∈ slots -> user_slot (Z.of_nat j)) by (intros j Hj; apply Hsl; by right).
  destruct (table s.(mem) d (Z.of_nat i)) as [t|] eqn:E.
  - destruct (Ht i t ltac:(left) E) as (Hto & Htd & Htl). destruct (page_freed_run s l t env Hf Hto Htl) as (Ek & Hf1 & Hfr).
    assert (Htab : forall j, j ∈ slots -> table (page_freed s t).(mem) d (Z.of_nat j) = table s.(mem) d (Z.of_nat j)).
    { intros j Hj. apply table_frame; [by apply Hsl'|]. intros k Hk. by apply Hfr. }
    destruct (IH (page_freed s t) (t :: l) Hf1 Hd Hnd Hsl') as (s' & l' & Er & Hf' & Hl' & Hfr' & m & fl & Es).
    { intros j t' Hj. rewrite Htab by done. intros E'. destruct (Ht j t' ltac:(by right) E') as (? & ? & ?). split_and?; [done|done|].
      apply not_elem_of_cons. split; [|done]. intros ->. apply Hni. by rewrite (Hinj i j t ltac:(left) ltac:(by right) E E'). }
    { intros j k t' Hj Hk. rewrite !Htab by done. apply Hinj; by right. }
    exists s', l'. split_and?.
    + unfold table in E. destruct (Z.land _ PDE_TYPES =? 0); [done|]. cbn [negb when]. injection E as ->. by mstep Ek.
    + done.
    + intros q. rewrite Hl', elem_of_cons. split.
      * intros [[->|?]|(j & Hj & Ej)]; [right; exists i; split; [left|done]|by left|right; exists j; rewrite Htab in Ej by done; split; [by right|done]].
      * intros [?|(j & [->|Hj]%elem_of_cons & Ej)]; [tauto| |right; exists j; by rewrite Htab].
        rewrite E in Ej. injection Ej as ->. tauto.
    + intros q k Hq Hor Hk. assert (q <> t).
      { intros ->. destruct Hor as [?|Hn]; [done|]. apply Hn, Hl'. left. left. }
      rewrite Hfr'; [by apply Hfr|done|set_solver|done].
    + exists m, fl. rewrite Es. unfold page_freed, upd_mem. by destruct s.
  - destruct (IH s l Hf Hd Hnd Hsl') as (s' & l' & Er & Hf' & Hl' & Hfr' & Es).
    { intros j t' Hj. apply Ht. by right. } { intros j k t' Hj Hk. apply Hinj; by right. }
    exists s', l'. split_and?; [|done| |done|done].
    + unfold table in E. destruct (Z.land _ PDE_TYPES =? 0); [|done]. cbn [negb when]. by rewrite bind_ret.
    + intros q. rewrite Hl'. split; [intros [|(j & Hj & Ej)]; [tauto|right; exists j; split; [by right|done]]|].
      intros [?|(j & [->|Hj]%elem_of_cons & Ej)]; [tauto|by rewrite E in Ej|right; by exists j].
Qed.

Lemma freevm_run d sz s l env : backed s l d sz ->
  exists s' l', freevm d s env = Ok tt s' env /\ free_pages s' l' /\
    (forall q, q ∈ l' <-> part s.(mem) d sz q \/ q ∈ l) /\
    (forall q i, page_ok q -> q ∉ l' -> 0 <= i < KPAGE -> s'.(mem) (q + i) = s.(mem) (q + i)) /\
    exists m fl, s' = set_mem m (set_freelist fl s).
Proof.
  intros Hb. pose proof (bk_size _ _ _ _ Hb) as Hsz. pose proof (sp_dir _ _ _ (bk_space _ _ _ _ Hb)) as Hd. unfold freevm.
  rewrite (proj2 (Z.eqb_neq d 0)) by (destruct Hd as (_ & _ & _ & ?); lia).
  destruct (deallocuvm_run d sz UADDR_SZ 0 s l env Hb) as (s1 & ps & E1 & Hb1 & [A1 A2 A3 A4 (m1 & fl1 & A5)]); [lia|lia|done|].
  mstep E1. pose proof (bk_space _ _ _ _ Hb1) as [S1 _ S3 S4 S5].
  destruct (free_tables_run d env (seq 0 (Z.to_nat NUM_UPDE)) s1 (ps ++ l) S1 Hd (NoDup_seq _ _)) as (s2 & l2 & E2 & Hf2 & Hl2 & Hfr2 & m2 & fl2 & Es2).
  { intros i Hi%elem_of_seq. unfold user_slot, NUM_UPDE in *. lia. }
  { intros i t Hi%elem_of_seq E. apply S4. exists (Z.of_nat i). split; [unfold user_slot, NUM_UPDE in *; lia|done]. }
  { intros i j t Hi%elem_of_seq Hj%elem_of_seq Ei Ej. unfold NUM_UPDE in *.
    assert (Z.of_nat i = Z.of_nat j); [|lia]. apply (S5 _ _ t); [unfold user_slot, NUM_UPDE; lia|unfold user_slot, NUM_UPDE; lia|done|done]. }
  unfold free_table in E2. mstep E2.
  assert (Htab : forall q, (exists i, i ∈ seq 0 (Z.to_nat NUM_UPDE) /\ table s1.(mem) d (Z.of_nat i) = Some q) <-> is_table s.(mem) d q).
  { intros q. rewrite <- (is_table_same _ _ d q A1). split.
    - intros (i & Hi%elem_of_seq & E). exists (Z.of_nat i). split; [unfold user_slot, NUM_UPDE in *; lia|done].
    - intros (i & Hi & E). exists (Z.to_nat i). unfold user_slot, NUM_UPDE in *. rewrite elem_of_seq, Z2Nat.id by lia. split; [lia|done]. }
  assert (Hd2 : d ∉ l2).
  { rewrite Hl2, Htab. intros [?|Ht]; [done|]. by destruct (sp_tables _ _ _ (bk_space _ _ _ _ Hb) d Ht) as (_ & ? & _). }
  destruct (page_freed_run s2 l2 d env Hf2 Hd Hd2) as (E3 & Hf3 & Hfr3).
  assert (Hps : forall q, q ∈ ps <-> exists va, 0 <= va < sz /\ q = user_page s.(mem) d va).
  { intros q. rewrite A3. split.
    - intros (va & Hva & Hp & ->). exists (page_start va). by rewrite user_page_start.
    - intros (va & Hv & ->). exists va. unfold user_va, page_start, PTE_SZ. Z.to_euclidean_division_equations. split_and?; [lia..|done]. }
  exists (page_freed s2 d), (d :: l2). split_and?; [done|done| | |].
  - intros q. rewrite elem_of_cons, Hl2, Htab, elem_of_app, Hps. unfold part. tauto.
  - intros q i Hq Hn Hi. apply not_elem_of_cons in Hn as [Hqd Hq2]. rewrite Hfr3, Hfr2; [|done|by right|done|done|done|done].
    rewrite Hl2, Htab, elem_of_app in Hq2. apply A4; [done|tauto|tauto|done].
  - eexists _, _. rewrite Es2, A5. unfold page_freed, upd_mem. by destruct s.
Qed.

(** C23: freevm gives back an address space: exactly its pages (the
    directory, the page tables and the memory behind every address below its
    size) join the free list, no other page in use is touched, and nothing
    but memory and the free list changes. *)
Theorem freevm_frees d sz s l env : backed s l d sz ->
  exists s' l', freevm d s env = Ok tt s' env /\ free_pages s' l' /\
    (forall q, q ∈ l' <-> part s.(mem) d sz q \/ q ∈ l) /\
    (forall q i, page_ok q -> q ∉ l' -> 0 <= i < KPAGE -> s'.(mem) (q + i) = s.(mem) (q + i)) /\
    exists m fl, s' = set_mem m (set_freelist fl s).
Proof. apply freevm_run. Qed.

End Facts.

(** ** An address space of one page, and four free pages *)

#[local] Existing Instance demo_image.

Definition demo_page (k : Z) : Z := KERNBASE + (3 + k) * KPAGE.

Fixpoint demo_free (n : nat) : kstate :=
  match n with
  | O => kstate0 []
  | S n' => page_freed (demo_free n') (demo_page (Z.of_nat n))
  end.

Fixpoint demo_list (n : nat) : list Z :=
  match n with O => [] | S n' => demo_page (Z.of_nat n) :: demo_list n' end.

Lemma free_stack_pages n : (n <= 8)%nat -> free_pages (demo_free n) (demo_list n).
Proof.
  intros Hn. induction n as [|n IH]; [apply demo_free0|]. cbn [demo_free demo_list].
  apply (page_freed_run (demo_free n) (demo_list n) (demo_page (Z.of_nat (S n))) []); [apply IH; lia| |].
  - do 9 (destruct n as [|n]; [split_and!; vm_compute; done|]). lia.
  - assert (Hq : forall k q, q ∈ demo_list k -> q < demo_page (Z.of_nat (S k))).
    { intros k q. induction k as [|k IHk]; [by intros ?%elem_of_nil|]. intros [->|?%IHk]%elem_of_cons; unfold demo_page, KPAGE, PGSIZE in *; lia. }
    intros ?%Hq. lia.
Qed.

(** A directory that allocuvm has given one page. *)
Definition demo_parent : kstate :=
  match allocuvm (demo_page 7) 0 4096 (set_freelist (load32 (demo_free 7).(mem) (demo_page 7)) (demo_free 7)) [] with
  | Ok _ s _ => s
  | Err _ s _ => s
  end.

Lemma first_page s d l (s1 := set_freelist (load32 s.(mem) d) s) : free_pages s (d :: l) -> (2 <= length l)%nat ->
  exists s' l', allocuvm d 0 4096 s1 [] = Ok 4096 s' [] /\ backed s' l' d 4096 /\ l' ⊆ l /\
    (forall q, part s'.(mem) d 4096 q -> q ∈ d :: l) /\ exists m fl, s' = set_mem m (set_freelist fl s).
Proof.
  intros Hf Hl. destruct (fresh_backed s d l Hf) as (F1 & F2 & F3). fold s1 in F1, F2, F3.
  destruct (allocuvm_loop_ok d 0 4096 [] 1 eq_refl 3 s1 l 0) as (s' & ps & l' & Er & Hps & Hg); try done.
  { lia. } { apply (bk_space _ _ _ _ F1). } { by right. } { intros va Hv. apply F3. unfold user_va, UADDR_SZ. lia. }
  assert (Hap : forall va : Z, 0 <= (fun _ : Z => AP_KU) va < 4) by (unfold AP_KU; lia).
  assert (Hnew : 0 <= 4096 <= UADDR_SZ) by (unfold UADDR_SZ; lia). assert (Hlen : pages_of 4096 = (pages_of 0 + length ps)%nat) by (by rewrite Hps).
  exists s', l'. split_and?; [done| |apply (gr_left _ _ _ _ _ _ _ _ _ Hg)| |destruct (gr_rest _ _ _ _ _ _ _ _ _ Hg) as (m & fl & ->); exists m, fl; by destruct s].
  - by apply (grown_backed (fun _ => AP_KU) (fun _ _ => 0) s1 l d 0 ps s' l' 4096 F1 Hap Hg).
  - intros q Hq. destruct (grown_part (fun _ => AP_KU) (fun _ _ => 0) s1 l d 0 ps s' l' 4096 F1 Hap Hg Hnew Hlen q Hq) as [[->|[Ht|(va & Hv & _)]]|Hq'];
      [left|by apply F2 in Ht|lia|by right].
Qed.

Lemma demo_parent_backed : exists l, backed demo_parent l (demo_page 7) 4096 /\ l ⊆ demo_list 6 /\
  (forall q, part demo_parent.(mem) (demo_page 7) 4096 q -> q ∈ demo_list 7) /\ exists m fl, demo_parent = set_mem m (set_freelist fl (demo_free 7)).
Proof.
  destruct (first_page (demo_free 7) (demo_page 7) (demo_list 6) (free_stack_pages 7 ltac:(lia))) as (s' & l' & Er & Hb & Hl & Hm); [simpl; lia|].
  exists l'. unfold demo_parent. rewrite Er. exact (conj Hb (conj Hl Hm)).
Qed.

Lemma freevm_frees_witness : exists (l : list Z) s' l',
  freevm (demo_page 7) demo_parent [] = Ok tt s' [] /\ free_pages s' l' /\
    (forall q, q ∈ l' <-> part demo_parent.(mem) (demo_page 7) 4096 q \/ q ∈ l) /\
    (forall q i, page_ok q -> q ∉ l' -> 0 <= i < KPAGE -> s'.(mem) (q + i) = demo_parent.(mem) (q + i)) /\
    exists m fl, s' = set_mem m (set_freelist fl demo_parent).
Proof.
  destruct demo_parent_backed as (l & Hb & _). exists l.
  apply (freevm_frees ltac:(vm_compute; done) (demo_page 7) 4096 demo_parent l []). exact Hb.
Defined.

End VmFree.
