(* ===== verification/VmCopy.v ===== *)
(** Copying an address space (copyuvm of kernel/vm.c): the child's memory is a
    copy in pages of its own. *)
From S2P Require Import Prelude Types Spinlock Cstring Kalloc KallocFacts Vm VmFacts VmSpace VmFree.
Import Spinlock Cstring Kalloc KallocFacts Vm VmFacts VmSpace VmFree.

Module VmCopy.

#[local] Opaque memset memmove store32 load32.

Section Facts.
Context `{Image}.
Hypothesis kern_above : KERNBASE < kern_end.

(** ** The loop *)

Section Loop.
Variables (pd sz : Z) (m0 : memory).

Definition cp_ap (va : Z) : Z := PTE_AP (pte m0 pd va).
Definition cp_src (va i : Z) : Z := m0 (user_page m0 pd va + i).

(** The parent [pd] is as it was in [m0], and apart from the child [d]. *)
Record parent_kept (s : kstate) (l : list Z) (d : Z) : Prop := {
  pk_backed : backed s l pd sz;
  pk_pte : forall va, user_va va -> pte s.(mem) pd va = pte m0 pd va;
  pk_part : forall q, part s.(mem) pd sz q <-> part m0 pd sz q;
  pk_same : forall q i, part m0 pd sz q -> 0 <= i < KPAGE -> s.(mem) (q + i) = m0 (q + i);
  pk_apart : forall q, part m0 pd sz q -> q <> d /\ ~ is_table s.(mem) d q
}.

Lemma parent_move s s' l l' d : parent_kept s l d -> free_pages s' l' -> (forall q, part s.(mem) pd sz q -> q ∉ l -> q ∉ l') ->
  (forall q i, page_ok q -> q <> d -> q ∉ l -> ~ is_table s.(mem) d q -> 0 <= i < KPAGE -> s'.(mem) (q + i) = s.(mem) (q + i)) ->
  (forall q, is_table s'.(mem) d q -> is_table s.(mem) d q \/ q ∈ l) -> parent_kept s' l' d.
Proof.
  intros [K1 K2 K3 K4 K5] Hf Hl Hm Ht.
  assert (Hsame : forall q i, part s.(mem) pd sz q -> 0 <= i < KPAGE -> s'.(mem) (q + i) = s.(mem) (q + i)).
  { intros q i Hq Hi. destruct (bk_pages _ _ _ _ K1 q Hq). destruct (K5 q) as [? ?]; [by apply K3|]. by apply Hm. }
  destruct (backed_move s s' l l' pd sz K1 Hf Hl Hsame) as (B1 & B2 & B3 & B4). constructor.
  - done.
  - intros va Hva. rewrite B2 by done. by apply K2.
  - intros q. by rewrite B3, K3.
  - intros q i Hq Hi. rewrite Hsame by (by try apply K3). by apply K4.
  - intros q Hq. destruct (K5 q Hq) as [? ?]. split; [done|]. intros [?|?]%Ht; [done|].
    destruct (bk_pages _ _ _ _ K1 q) as [_ ?]; [by apply K3|done].
Qed.

(** How the loop stops when memory runs out: at kalloc, or at mappages with
    the page it has just copied, which is then neither mapped nor free. *)
Definition stopped (s1 : kstate) (l1 : list Z) (s2 : kstate) (lost : list Z) : Prop :=
  (l1 = [] /\ s2 = s1 /\ lost = []) \/
  (exists p f, l1 = [p] /\ lost = [p] /\ (forall m a, a < p \/ p + KPAGE <= a -> f m a = m a) /\
    s2 = upd_mem f (set_freelist (load32 s1.(mem) p) s1)).

Lemma copyuvm_loop_ok env n : forall fuel s l d a, (n < fuel)%nat -> space s l d -> parent_kept s l d ->
  0 <= a -> a mod PTE_SZ = 0 -> sz <= a + Z.of_nat n * PTE_SZ -> (n = 0%nat \/ a + (Z.of_nat n - 1) * PTE_SZ < sz) ->
  (forall va, a <= va < sz -> ~ mapped s.(mem) d va) ->
  exists ps s1 l1, grown cp_ap cp_src s l d a ps s1 l1 /\
    ((copyuvm_loop fuel pd d a sz s env = Ok (Some tt) s1 env /\ length ps = n) \/
     ((length ps < n)%nat /\ (length l < 2 * n)%nat /\
      exists s2 lost, copyuvm_loop fuel pd d a sz s env = Ok None s2 env /\ stopped s1 l1 s2 lost)).
Proof.
  induction n as [|n IH]; intros fuel s l d a Hfu Hs Hk Ha Hal Hub Hlb Hun; (destruct fuel as [|fuel]; [lia|]); cbn [copyuvm_loop].
  { rewrite (proj2 (Z.ltb_ge _ _)) by lia. exists [], s, l. split; [by apply grown_nil|by left]. }
  destruct Hlb as [|Hlb]; [done|]. unfold PTE_SZ in Hub, Hlb. rewrite (proj2 (Z.ltb_lt _ _)) by lia.
  pose proof Hk as [K1 K2 K3 K4 K5]. pose proof (bk_size _ _ _ _ K1) as Hsz. assert (Hva : user_va a) by (unfold user_va; lia).
  destruct (walk_mapped s env l pd a (bk_space _ _ _ _ K1) Hva (bk_below _ _ _ _ a K1 ltac:(lia))) as (t & Ew & Ht0 & El & _).
  setoid_rewrite (bind_ok _ _ _ _ _ _ _ Ew). rewrite (proj2 (Z.eqb_neq _ 0)) by done. unfold load_word. setoid_rewrite bind_gets. rewrite El, K2 by done.
  pose proof (bk_below _ _ _ _ a K1 ltac:(lia)) as Hm. unfold mapped in Hm. rewrite K2 in Hm by done. rewrite (proj2 (Z.eqb_neq _ 0)) by done.
  destruct l as [|p l].
  { exists [], s, []. split; [by apply grown_nil|]. right. split_and?; [simpl; lia|simpl; lia|]. exists s, [].
    setoid_rewrite (bind_ok _ _ _ _ _ _ _ (kalloc_nil s env (sp_free _ _ _ Hs))). split; [done|by left]. }
  destruct (kalloc_cons s env p l (sp_free _ _ _ Hs)) as (Ek & _ & Hp & _).
  setoid_rewrite (bind_ok _ _ _ _ _ _ _ Ek). rewrite (proj2 (Z.eqb_neq p 0)) by (destruct Hp as (_ & _ & _ & ?); lia). setoid_rewrite bind_modify.
  fold (user_page m0 pd a). fold (cp_ap a). set (u := user_page m0 pd a) in *.
  destruct (page_written_ok s d p l (memmove p u PTE_SZ) Hs ltac:(intros; by apply memmove_local)) as (T1 & T2 & T3 & T4).
  set (s1 := upd_mem (memmove p u PTE_SZ) _) in *.
  assert (Hun1 : ~ mapped s1.(mem) d a) by (unfold mapped; rewrite T3 by done; apply Hun; lia).
  assert (Hor : (table s1.(mem) d (PDE_IDX a) = None /\ l = []) \/ (table s1.(mem) d (PDE_IDX a) <> None \/ l <> [])).
  { destruct (table s1.(mem) d (PDE_IDX a)), l; tauto || (right; by left) || (right; by right). }
  destruct Hor as [[Hnt ->]|Hor].
  { exists [], s, [p]. split; [by apply grown_nil|]. right. split_and?; [simpl; lia|simpl; lia|]. exists s1, [p].
    setoid_rewrite (bind_ok _ _ _ _ _ _ _ (proj2 (mappages_fails s1 env d [] a (v2p p) (cp_ap a) T1 Hva Hal) Hnt eq_refl)).
    split; [done|]. right. exists p, (memmove p u PTE_SZ). split_and?; try done. intros; by apply memmove_local. }
  destruct (mappages_page s1 env d l a (v2p p) (cp_ap a)) as (s3 & l3 & Em & He); try done.
  { apply v2p_entry; [done|apply pte_ap_range]. }
  setoid_rewrite (bind_ok _ _ _ _ _ _ _ Em). change (0 <? 0) with false. cbv iota. replace (u32 (a + PTE_SZ)) with (a + PTE_SZ).
  2: { symmetry. apply u32_small. unfold PTE_SZ, UADDR_SZ, user_va in *. lia. }
  assert (Hu : part m0 pd sz u) by (right; right; exists a; split; [lia|done]).
  assert (Hl3 : l3 ⊆ l /\ (length l <= S (length l3))%nat).
  { destruct (en_free _ _ _ _ _ _ _ He) as [->|(t' & -> & _)]; split; simpl; [done|lia|set_solver|lia]. }
  assert (HT : forall q, is_table s1.(mem) d q <-> is_table s.(mem) d q) by (intros q; by apply is_table_same).
  assert (Hk3 : parent_kept s3 l3 d).
  { apply (parent_move s s3 (p :: l) l3 d Hk).
    - apply (sp_free _ _ _ (en_space _ _ _ _ _ _ _ He)).
    - intros q _ Hq. destruct Hl3. set_solver.
    - intros q i Hq Hqd Hql Hqt Hi. apply not_elem_of_cons in Hql as [Hqp Hql].
      rewrite (en_pages _ _ _ _ _ _ _ He); [by apply T4|done|done| |done]. intros [?%HT|?]%(en_tables _ _ _ _ _ _ _ He); done.
    - intros q [?%HT|?]%(en_tables _ _ _ _ _ _ _ He); [by left|right; set_solver]. }
  destruct (IH fuel s3 l3 d (a + PTE_SZ)) as (ps & s' & l' & Hg & Hout).
  - lia.
  - by apply en_space in He.
  - done.
  - unfold PTE_SZ. lia.
  - unfold PTE_SZ in *. Z.to_euclidean_division_equations. lia.
  - unfold PTE_SZ. lia.
  - unfold PTE_SZ. lia.
  - intros va Hv. unfold mapped. unfold PTE_SZ in Hv. rewrite (en_other _ _ _ _ _ _ _ He), T3; [apply Hun; lia|unfold user_va; lia|unfold user_va; lia|].
    unfold PTE_SZ in *. Z.to_euclidean_division_equations. lia.
  - exists (p :: ps), s', l'. split.
    + eapply (grown_cons cp_ap cp_src s p l d a (memmove p u PTE_SZ)); try done.
      * intros m b Hb. by apply memmove_local.
      * intros i Hi. rewrite memmove_page by done. apply K4; [done|]. unfold PTE_SZ, KPAGE, PGSIZE in *. lia.
    + destruct Hout as [[-> ?]|(? & ? & ?)]; [left; split; [done|simpl; lia]|right; split_and?; [simpl; lia|simpl in *; lia|done]].
Qed.
End Loop.

(** ** copyuvm *)

(** Where the loop stops: what is left can be freed again. *)
Lemma stopped_backed s1 l1 s2 lost d z : stopped s1 l1 s2 lost -> backed s1 l1 d z ->
  l1 = lost /\ (length lost <= 1)%nat /\ backed s2 [] d z /\ (forall q, part s2.(mem) d z q <-> part s1.(mem) d z q) /\
  (forall q i, page_ok q -> q ∉ lost -> 0 <= i < KPAGE -> s2.(mem) (q + i) = s1.(mem) (q + i)) /\
  exists m fl, s2 = set_mem m (set_freelist fl s1).
Proof.
  intros [(-> & -> & ->)|(p & f & -> & -> & Hw & ->)] Hb.
  { split_and?; try done; [simpl; lia|]. exists s1.(mem), s1.(freelist). by destruct s1. }
  destruct (page_written_ok s1 d p [] f (bk_space _ _ _ _ Hb) Hw) as (T1 & T2 & T3 & T4).
  destruct (backed_move s1 (upd_mem f (set_freelist (load32 s1.(mem) p) s1)) [p] [] d z Hb (sp_free _ _ _ T1)) as (M1 & M2 & M3 & _).
  { intros q _ _. apply not_elem_of_nil. }
  { intros q i Hq Hi. destruct (bk_pages _ _ _ _ Hb q Hq) as [Hqo Hqp]. rewrite list_elem_of_singleton in Hqp. by apply T4. }
  split_and?; [done|simpl; lia|done|done| |].
  - intros q i Hq Hqp Hi. rewrite list_elem_of_singleton in Hqp. by apply T4.
  - eexists _, _. unfold upd_mem. by destruct s1.
Qed.

(** The child's bytes and permissions are the parent's. *)
Definition same_contents (m : memory) (d : Z) (m0 : memory) (pd sz : Z) : Prop :=
  forall va, 0 <= va < sz -> user_byte m d va = user_byte m0 pd va /\ PTE_AP (pte m d va) = PTE_AP (pte m0 pd va).

(** Outcomes of copyuvm. *)
Definition copied (pd sz : Z) (s : kstate) (l : list Z) (d : Z) (s' : kstate) (l' : list Z) : Prop :=
  backed s' l' d sz /\ same_contents s'.(mem) d s.(mem) pd sz /\ l' ⊆ l /\ (forall q, part s'.(mem) d sz q -> q ∈ l).

Definition memory_short (sz : Z) (l l' : list Z) : Prop :=
  (length l <= 2 * pages_of sz)%nat /\ exists lost, (length lost <= 1)%nat /\ l ≡ₚ lost ++ l'.

Section Copy.
Variables (pd sz : Z) (s : kstate) (d : Z) (l0 : list Z).
Hypothesis Hb : backed s (d :: l0) pd sz.
Let s1 : kstate := set_freelist (load32 s.(mem) d) s.

Lemma loop_start : parent_kept pd sz s.(mem) s1 l0 d.
Proof.
  destruct (fresh_backed s d l0 (sp_free _ _ _ (bk_space _ _ _ _ Hb))) as (F1 & F2 & F3).
  destruct (backed_move s s1 (d :: l0) l0 pd sz Hb (sp_free _ _ _ (bk_space _ _ _ _ F1))) as (C1 & C2 & C3 & C4); [set_solver|done|].
  constructor; try done. intros q Hq. destruct (bk_pages _ _ _ _ Hb q Hq) as [_ Hql]. split; [by intros ->; apply Hql; left|]. apply F2.
Qed.

Lemma copy_done ps s' l' : grown (cp_ap pd s.(mem)) (cp_src pd s.(mem)) s1 l0 d 0 ps s' l' -> length ps = pages_of sz ->
  copied pd sz s (d :: l0) d s' l'.
Proof.
  intros Hg Hps. destruct (fresh_backed s d l0 (sp_free _ _ _ (bk_space _ _ _ _ Hb))) as (F1 & F2 & F3).
  pose proof (bk_size _ _ _ _ Hb) as Hsz. assert (Hap : forall va, 0 <= cp_ap pd s.(mem) va < 4) by (intros; apply pte_ap_range).
  assert (Hlen : pages_of sz = (pages_of 0 + length ps)%nat) by done. unfold copied.
  split_and?.
  - by apply (grown_backed _ _ s1 l0 d 0 ps s' l' sz F1 Hap Hg Hsz Hlen).
  - intros va Hv. pose proof (grown_bytes _ _ s1 l0 d 0 ps s' l' sz F1 Hap Hg Hsz Hlen va Hv) as Hby.
    assert (Hva : user_va va) by (unfold user_va; lia).
    rewrite decide_False in Hby by (unfold page_start, PTE_SZ; Z.to_euclidean_division_equations; lia).
    destruct Hby as [-> ->]. unfold cp_src, cp_ap, user_byte. rewrite (user_page_start pd) by done.
    unfold page_start. by rewrite <- pte_page.
  - pose proof (gr_left _ _ _ _ _ _ _ _ _ Hg). set_solver.
  - intros q Hq. destruct (grown_part _ _ s1 l0 d 0 ps s' l' sz F1 Hap Hg Hsz Hlen q Hq) as [[->|[Ht|(va & Hv & _)]]|Hq']; [left|by apply F2 in Ht|lia|by right].
Qed.

Lemma copy_frame ap src ps s' l' : grown ap src s1 l0 d 0 ps s' l' ->
  (forall q i, page_ok q -> q ∉ d :: l0 -> 0 <= i < KPAGE -> s'.(mem) (q + i) = s.(mem) (q + i)) /\ exists m fl, s' = set_mem m (set_freelist fl s).
Proof.
  intros Hg. destruct (fresh_backed s d l0 (sp_free _ _ _ (bk_space _ _ _ _ Hb))) as (F1 & F2 & F3).
  destruct (gr_rest _ _ _ _ _ _ _ _ _ Hg) as (m & fl & Er). split.
  - intros q i Hq Hn Hi. apply not_elem_of_cons in Hn as [? ?]. rewrite (gr_frame _ _ _ _ _ _ _ _ _ Hg); [done|done|done|done|apply F2|done].
  - exists m, fl. rewrite Er. by destruct s.
Qed.

(** After a stop in the middle, freevm gives everything back but the page
    that mappages had no table for. *)
Lemma copy_undone ps sg lg s2 lost env : grown (cp_ap pd s.(mem)) (cp_src pd s.(mem)) s1 l0 d 0 ps sg lg ->
  (length ps < pages_of sz)%nat -> stopped sg lg s2 lost ->
  exists s' l', freevm d s2 env = Ok tt s' env /\ free_pages s' l' /\ (length lost <= 1)%nat /\ d :: l0 ≡ₚ lost ++ l' /\
    (forall q i, page_ok q -> q ∉ d :: l0 -> 0 <= i < KPAGE -> s'.(mem) (q + i) = s.(mem) (q + i)) /\
    exists m fl, s' = set_mem m (set_freelist fl s).
Proof.
  intros Hg Hps Hst. pose proof (sp_free _ _ _ (bk_space _ _ _ _ Hb)) as Hf0. pose proof Hf0 as (_ & Hnd0 & _).
  destruct (fresh_backed s d l0 Hf0) as (F1 & F2 & F3).
  pose proof (bk_size _ _ _ _ Hb) as Hsz. assert (Hap : forall va, 0 <= cp_ap pd s.(mem) va < 4) by (intros; apply pte_ap_range).
  set (z := Z.of_nat (length ps) * PTE_SZ). destruct (pages_of_bound sz ltac:(lia)) as (Hpb & _).
  assert (Hz : 0 <= z <= UADDR_SZ) by (unfold z, PTE_SZ in *; lia).
  assert (Hlen : pages_of z = (pages_of 0 + length ps)%nat) by apply pages_of_mul.
  destruct (stopped_backed sg lg s2 lost d z Hst (grown_backed _ _ s1 l0 d 0 ps sg lg z F1 Hap Hg Hz Hlen)) as (-> & Hlost & Hb2 & Hpart & Hfr2 & m2 & fl2 & E2).
  destruct (freevm_run kern_above d z s2 [] env Hb2) as (s' & l' & Er & Hf' & Hl' & Hfr' & m3 & fl3 & E3).
  destruct (copy_frame _ _ _ _ _ Hg) as (Hfr & m & fl & Eg). pose proof Hf' as (_ & Hnd' & _).
  assert (Hin : forall q, q ∈ l' <-> part sg.(mem) d z q) by (intros q; rewrite Hl', Hpart; set_solver).
  assert (Hpl : forall q, part sg.(mem) d z q -> q ∈ d :: l0).
  { intros q Hq. destruct (grown_part _ _ s1 l0 d 0 ps sg lost z F1 Hap Hg Hz Hlen q Hq) as [[->|[Ht|(va & Hv & _)]]|Hq']; [left|by apply F2 in Ht|lia|by right]. }
  assert (Hll : lost ⊆ d :: l0) by (pose proof (gr_left _ _ _ _ _ _ _ _ _ Hg); set_solver).
  assert (Hnl : forall q, q ∈ lost -> q ∉ l').
  { intros q Hq Hq'%Hin. destruct (bk_pages _ _ _ _ (grown_backed _ _ s1 l0 d 0 ps sg lost z F1 Hap Hg Hz Hlen) q Hq') as [_ ?]. done. }
  assert (Hperm : d :: l0 ≡ₚ lost ++ l').
  { apply NoDup_Permutation; [done|apply NoDup_app; split_and?; [|exact Hnl|done]|].
    - destruct (sp_free _ _ _ (gr_space _ _ _ _ _ _ _ _ _ Hg)) as (_ & ? & _). done.
    - intros q. rewrite elem_of_app, Hin. split; [|intros [?|?]; [by apply Hll|by apply Hpl]].
      intros [->|Hq]%elem_of_cons; [right; by left|]. destruct (gr_all _ _ _ _ _ _ _ _ _ Hg q Hq) as [?|[Hp|?]]; [by left| |right; right; by left].
      right. right. right. apply list_elem_of_lookup in Hp as [k Hp]. pose proof (lookup_lt_Some _ _ _ Hp).
      destruct (gr_pages _ _ _ _ _ _ _ _ _ Hg k q Hp) as (Hql & _ & _ & _ & Hpte & _). rewrite Z.add_0_l in Hpte.
      exists (Z.of_nat k * PTE_SZ). split; [unfold z, PTE_SZ; lia|]. unfold user_page. rewrite Hpte. symmetry. apply fields_page; [|apply Hap].
      destruct Hf0 as (Hc & _). apply chain_ok in Hc. rewrite Forall_forall in Hc. apply Hc. by right. }
  exists s', l'. split_and?; try done.
  - intros q i Hq Hn Hi. rewrite Hfr', Hfr2, Hfr; try done; [by intros ?%Hll|]. intros Hq'%Hin. by apply Hn, Hpl.
  - exists m3, fl3. rewrite E3, E2, Eg. by destruct s.
Qed.
End Copy.

Lemma copyuvm_run pd sz s l env :
  backed s l pd sz ->
  exists r s' l', copyuvm pd sz s env = Ok r s' env /\ free_pages s' l' /\
    (if decide (r = 0) then memory_short sz l l' else copied pd sz s l r s' l') /\
    backed s' l' pd sz /\ same_contents s'.(mem) pd s.(mem) pd sz /\
    (forall q i, page_ok q -> q ∉ l -> 0 <= i < KPAGE -> s'.(mem) (q + i) = s.(mem) (q + i)) /\
    exists m fl, s' = set_mem m (set_freelist fl s).
Proof.
  intros Hb. pose proof (sp_free _ _ _ (bk_space _ _ _ _ Hb)) as Hf. pose proof (bk_size _ _ _ _ Hb) as Hsz.
  enough (exists r s' l', copyuvm pd sz s env = Ok r s' env /\ free_pages s' l' /\ l' ⊆ l /\
    (if decide (r = 0) then memory_short sz l l' else copied pd sz s l r s' l') /\
    (forall q i, page_ok q -> q ∉ l -> 0 <= i < KPAGE -> s'.(mem) (q + i) = s.(mem) (q + i)) /\
    exists m fl, s' = set_mem m (set_freelist fl s)) as (r & s' & l' & Er & Hf' & Hl & Hout & Hfr & Hrest).
  { exists r, s', l'. destruct (backed_move s s' l l' pd sz Hb Hf') as (M1 & M2 & M3 & M4); [set_solver| |].
    - intros q i Hq Hi. destruct (bk_pages _ _ _ _ Hb q Hq). by apply Hfr.
    - split_and?; try done. intros va Hv. rewrite M2, M4 by (try done; unfold user_va; lia). done. }
  unfold copyuvm, setupvm. destruct l as [|d l0].
  { exists 0, s, []. rewrite bind_assoc. mstep (kalloc_nil s env Hf). split_and?; try done; [|exists s.(mem), s.(freelist); by destruct s].
    rewrite decide_True by done. split; [simpl; lia|]. exists []. split; [simpl; lia|done]. }
  destruct (kalloc_cons s env d l0 Hf) as (Ek & _ & Hd & Hdl). assert (Hd0 : d <> 0) by (destruct Hd as (_ & _ & _ & ?); lia).
  destruct (fresh_backed s d l0 Hf) as (F1 & F2 & F3). destruct (pages_of_bound sz ltac:(lia)) as (Hpb & Hfu).
  destruct (copyuvm_loop_ok pd sz s.(mem) env (pages_of sz) (S (S (Z.to_nat (sz / PTE_SZ)))) _ l0 d 0 Hfu (bk_space _ _ _ _ F1) (loop_start pd sz s d l0 Hb))
    as (ps & s1 & l1 & Hg & Hout); try done.
  { lia. } { unfold PTE_SZ in *. lia. } { intros va Hv. apply F3. unfold user_va. lia. }
  destruct (copy_frame pd sz s d l0 Hb _ _ _ _ _ Hg) as (Hfr & Hrest). destruct Hout as [[El Hps]|(Hps & Hfew & s2 & lost & El & Hst)].
  - exists d, s1, l1. rewrite bind_assoc. mstep Ek. rewrite bind_ret, (proj2 (Z.eqb_neq d 0)) by done. mstep El.
    destruct (copy_done pd sz s d l0 Hb _ _ _ Hg Hps) as (C1 & C2 & C3 & C4). rewrite decide_False by done.
    split_and?; try done. apply (sp_free _ _ _ (gr_space _ _ _ _ _ _ _ _ _ Hg)).
  - destruct (copy_undone pd sz s d l0 Hb _ _ _ _ _ env Hg Hps Hst) as (s' & l' & Ef & Hf' & Hlost & Hperm & Hfr' & Hrest').
    exists 0, s', l'. rewrite bind_assoc. mstep Ek. rewrite bind_ret, (proj2 (Z.eqb_neq d 0)) by done. mstep El. mstep Ef.
    rewrite decide_True by done. split_and?; try done; [rewrite Hperm; set_solver|]. split; [simpl in *; lia|by exists lost].
Qed.

(** C22: copying an address space, whatever memory there is. copyuvm returns
    a new address space in which every byte below [sz] has the value and
    every page the permission that it has in the parent, in pages that were
    free; or it returns 0, when there were at most two free pages for each
    page to copy, and has then given the pages it took back, all but at most
    one: a page copied for which mappages found no table is lost. It never
    panics; the parent and all other pages in use are as before, and nothing
    but memory and the free list has changed. *)
Theorem copyuvm_copies pd sz s l env :
  backed s l pd sz ->
  exists r s' l', copyuvm pd sz s env = Ok r s' env /\ free_pages s' l' /\
    (if decide (r = 0) then memory_short sz l l' else copied pd sz s l r s' l') /\
    backed s' l' pd sz /\ same_contents s'.(mem) pd s.(mem) pd sz /\
    (forall q i, page_ok q -> q ∉ l -> 0 <= i < KPAGE -> s'.(mem) (q + i) = s.(mem) (q + i)) /\
    exists m fl, s' = set_mem m (set_freelist fl s).
Proof. apply copyuvm_run. Qed.

End Facts.

(** ** A witness: a parent of one page, and four free pages *)

#[local] Existing Instance demo_image.

Lemma copyuvm_copies_witness : exists l r s' l',
  copyuvm (demo_page 7) 4096 demo_parent [] = Ok r s' [] /\ free_pages s' l' /\
    (if decide (r = 0) then memory_short 4096 l l' else copied (demo_page 7) 4096 demo_parent l r s' l') /\
    backed s' l' (demo_page 7) 4096 /\ same_contents s'.(mem) (demo_page 7) demo_parent.(mem) (demo_page 7) 4096 /\
    (forall q i, page_ok q -> q ∉ l -> 0 <= i < KPAGE -> s'.(mem) (q + i) = demo_parent.(mem) (q + i)) /\
    exists m fl, s' = set_mem m (set_freelist fl demo_parent).
Proof.
  destruct demo_parent_backed as (l & Hb & _). exists l.
  apply (copyuvm_copies ltac:(vm_compute; done) (demo_page 7) 4096 demo_parent l []). exact Hb.
Defined.

End VmCopy.
