(* ===== verification/ForkFacts.v ===== *)
(** fork (kernel/proc.c): the child is a copy of its parent. *)
From S2P Require Import Prelude Types Spinlock Sched Cstring Inode Kalloc File Vm Proc KallocFacts VmFacts ProcFacts VmSpace VmFree VmCopy.
Import Spinlock Sched Cstring Inode Kalloc File Vm Proc KallocFacts VmFacts ProcFacts VmSpace VmFree VmCopy.

Module ForkFacts.

#[local] Opaque memset memmove store32 load32.

Section Facts.
Context `{Image}.
Hypothesis kern_above : KERNBASE < kern_end.

(** ** The parts of the state that fork changes *)

Record parts : Type := Mkparts {
  pt_procs : list proc; pt_mem : memory; pt_fl : Z; pt_pid : Z; pt_files : list file; pt_inodes : list inode
}.

Definition put (x : parts) (s : kstate) : kstate :=
  set_procs x.(pt_procs) (set_mem x.(pt_mem) (set_freelist x.(pt_fl) (set_nextpid x.(pt_pid)
    (set_ftable x.(pt_files) (set_icache x.(pt_inodes) s))))).

Lemma put_proc P m fl n ft ic j f x s : (j < length P)%nat ->
  upd_proc j f (put (Mkparts (<[j := x]> P) m fl n ft ic) s) = put (Mkparts (<[j := f x]> P) m fl n ft ic) s.
Proof.
  intros Hj. unfold upd_proc, put. simpl.
  assert (alter f j (<[j := x]> P) = <[j := f x]> P) as ->; [|done].
  apply list_eq. intros i. destruct (decide (i = j)) as [->|Hne].
  - by rewrite list_lookup_alter_eq, !list_lookup_insert_eq by done.
  - by rewrite list_lookup_alter_ne, !list_lookup_insert_ne by done.
Qed.

Lemma put_mem P m fl n ft ic f s : upd_mem f (put (Mkparts P m fl n ft ic) s) = put (Mkparts P (f m) fl n ft ic) s.
Proof. done. Qed.

(** ** Reference counts *)

(** A change of the state under a lock. *)
Lemma locked_modify {A} lk f (k : K A) s env : quiet s -> lk ∉ s.(kcpu).(held) ->
  (forall s, (f s).(kcpu) = s.(kcpu)) -> (forall c s, set_kcpu c (f s) = f (set_kcpu c s)) ->
  (acquire lk ;;; modify f ;;; release lk ;;; k) s env = k (f s) env.
Proof.
  intros Hq Hl Hk Hc. mstep (acquire_quiet lk s env Hq Hl). rewrite bind_modify.
  mstep (release_quiet lk s (f (with_lock lk s)) env Hq Hl (Hk _)). rewrite Hc. by destruct s.
Qed.

Definition more_refs (n : Z) (x : file) : file := set_f_ref (x.(f_ref) + n) x.

Lemma filedup_run f x s env : quiet s -> ftable_lock ∉ s.(kcpu).(held) -> s.(ftable) !! f = Some x -> 1 <= x.(f_ref) ->
  filedup f s env = Ok f (upd_file f (more_refs 1) s) env.
Proof.
  intros Hq Hl Hx Hr. unfold filedup. mstep (acquire_quiet ftable_lock s env Hq Hl).
  assert (Hg : get_file f (with_lock ftable_lock s) env = Ok x (with_lock ftable_lock s) env).
  { unfold get_file, bind, gets, deref, ret. simpl. by rewrite Hx. }
  mstep Hg. rewrite (proj2 (Z.ltb_ge _ _)) by lia. rewrite bind_modify.
  match goal with |- bind (release _) _ ?s1 _ = _ => mstep (release_quiet ftable_lock s s1 env Hq Hl eq_refl) end.
  unfold ret. f_equal.
Qed.

(** The file table once every descriptor of [fs] has changed the count of its
    file by [k]. *)
Fixpoint bump (k : Z) (fs : list (option nat)) (ft : list file) : list file :=
  match fs with
  | [] => ft
  | Some f :: fs' => bump k fs' (alter (more_refs k) f ft)
  | None :: fs' => bump k fs' ft
  end.

Definition uses (g : nat) (fs : list (option nat)) : Z := Z.of_nat (length (filter (fun o => o = Some g) fs)).

Lemma uses_cons g o fs : uses g (o :: fs) = (if decide (o = Some g) then 1 else 0) + uses g fs.
Proof. unfold uses. rewrite filter_cons. case_decide; simpl; lia. Qed.

Lemma more_refs_twice a b x : more_refs a (more_refs b x) = more_refs (b + a) x.
Proof. unfold more_refs, set_f_ref. simpl. by rewrite Z.add_assoc. Qed.

Lemma bump_lookup k fs : forall ft g, bump k fs ft !! g = more_refs (k * uses g fs) <$> ft !! g.
Proof.
  induction fs as [|[f|] fs IH]; intros ft g; simpl.
  - destruct (ft !! g) as [x|]; [|done]. simpl. f_equal. unfold more_refs. change (uses g []) with 0. rewrite Z.mul_0_r, Z.add_0_r. by destruct x.
  - rewrite IH, uses_cons. destruct (decide (f = g)) as [->|Hne].
    + rewrite list_lookup_alter_eq, decide_True by done. destruct (ft !! g); [|done]. simpl. by rewrite more_refs_twice, Z.mul_add_distr_l, Z.mul_1_r.
    + rewrite list_lookup_alter_ne, decide_False by congruence. by rewrite Z.add_0_l.
  - rewrite IH, uses_cons, decide_False by done. by rewrite Z.add_0_l.
Qed.

(** The child's descriptors: the parent's, and its own where the parent has
    none. *)
Fixpoint inherit (i : nat) (fs old : list (option nat)) : list (option nat) :=
  match fs with
  | [] => old
  | Some f :: fs' => inherit (S i) fs' (<[i := Some f]> old)
  | None :: fs' => inherit (S i) fs' old
  end.

Lemma inherit_all fs : forall pre, inherit (length pre) fs (pre ++ replicate (length fs) None) = pre ++ fs.
Proof.
  induction fs as [|o fs IH]; intros pre; simpl; [done|].
  assert (E : inherit (S (length pre)) fs ((pre ++ [o]) ++ replicate (length fs) None) = pre ++ o :: fs).
  { specialize (IH (pre ++ [o])). rewrite length_app in IH. simpl in IH. rewrite Nat.add_1_r in IH. rewrite IH. by rewrite <- app_assoc. }
  destruct o as [f|]; rewrite <- E, <- app_assoc; simpl; [|done].
  rewrite insert_app_r_alt by lia. by rewrite Nat.sub_diag.
Qed.

(** ** Sharing the open files *)

Definition dup_fd (c np i : nat) : K unit :=
  p <- get_proc c ;;
  o <- deref "proc->ofile" (p.(ofile) !! i) ;;
  match o with
  | None => ret tt
  | Some f =>
      f <- filedup f ;;
      modify (upd_proc np (fun y => set_ofile (<[i := Some f]> y.(ofile)) y))
  end.

Definition live (ft : list file) (fs : list (option nat)) : Prop :=
  forall f, Some f ∈ fs -> exists x, ft !! f = Some x /\ 1 <= x.(f_ref).

Lemma live_bumped ft f fs : live ft fs -> live (alter (more_refs 1) f ft) fs.
Proof.
  intros Hl g Hg. destruct (Hl g Hg) as (x & Hx & Hr). destruct (decide (f = g)) as [->|Hne].
  - exists (more_refs 1 x). rewrite list_lookup_alter_eq, Hx. split; [done|simpl; lia].
  - exists x. by rewrite list_lookup_alter_ne.
Qed.

Lemma dup_loop c p j P m fl n ic s env fs : forall ft x i,
  quiet s -> ftable_lock ∉ s.(kcpu).(held) -> c <> j -> (j < length P)%nat -> P !! c = Some p ->
  drop i p.(ofile) = fs -> live ft fs ->
  mfor (seq i (length fs)) (dup_fd c j) (put (Mkparts (<[j := x]> P) m fl n ft ic) s) env =
    Ok tt (put (Mkparts (<[j := set_ofile (inherit i fs x.(ofile)) x]> P) m fl n (bump 1 fs ft) ic) s) env.
Proof.
  induction fs as [|o fs IH]; intros ft x i Hq Hl Hne Hj Hp Hfs Hlv.
  { simpl. unfold ret. do 2 f_equal. by destruct x. }
  assert (Hi : p.(ofile) !! i = Some o) by (rewrite <- (Nat.add_0_r i), <- lookup_drop, Hfs; done).
  assert (Hd : drop (S i) p.(ofile) = fs) by (replace (S i) with (i + 1)%nat by lia; by rewrite <- drop_drop, Hfs).
  cbn [length seq mfor]. unfold dup_fd at 1. rewrite bind_assoc.
  assert (Hg : get_proc c (put (Mkparts (<[j := x]> P) m fl n ft ic) s) env = Ok p (put (Mkparts (<[j := x]> P) m fl n ft ic) s) env).
  { apply get_proc_eq. simpl. by rewrite list_lookup_insert_ne. }
  mstep Hg. rewrite Hi. cbn [deref]. rewrite bind_assoc, bind_ret. destruct o as [f|]; cbn [inherit bump].
  - destruct (Hlv f ltac:(left)) as (y & Hy & Hr). rewrite bind_assoc.
    mstep (filedup_run f y (put (Mkparts (<[j := x]> P) m fl n ft ic) s) env Hq Hl Hy Hr). rewrite bind_modify.
    change (upd_file f (more_refs 1) (put (Mkparts (<[j := x]> P) m fl n ft ic) s))
      with (put (Mkparts (<[j := x]> P) m fl n (alter (more_refs 1) f ft) ic) s). rewrite put_proc by done.
    rewrite IH; [|done..|]; [|apply live_bumped; intros g Hg'; apply Hlv; by right]. do 3 f_equal.
  - rewrite bind_ret, IH; [done..|]. intros g Hg'. apply Hlv. by right.
Qed.

(** ** The child's registers *)

Definition child_frame (tfc tfp : Z) (m : memory) : memory := store32 (memmove tfc tfp TF_SIZE m) (tfc + tf_r 0) 0.

(** The saved registers are the parent's, but r0, the result of fork, is 0. *)
Lemma child_frame_at tfc tfp m :
  (forall i, 0 <= i < TF_SIZE -> child_frame tfc tfp m (tfc + i) = if decide (tf_r 0 <= i < tf_r 1) then 0 else m (tfp + i)) /\
  (forall a, a < tfc \/ tfc + TF_SIZE <= a -> child_frame tfc tfp m a = m a).
Proof.
  assert (Hmv : forall a, memmove tfc tfp TF_SIZE m a = moved tfc tfp TF_SIZE m a) by (intros a; apply memmove_moved).
  unfold child_frame, tf_r, TF_SIZE in *. split.
  - intros i Hi. case_decide.
    + apply store32_zero. lia.
    + rewrite store32_other by lia. rewrite Hmv. unfold moved. mem_cases. f_equal. lia.
  - intros a Ha. rewrite store32_other by lia. rewrite Hmv. unfold moved. mem_cases.
Qed.

(** ** The tail of fork, once the address space is copied *)

Definition fork_tail (c np : nat) (pid : Z) : K Z :=
  p <- get_proc c ;;
  x <- get_proc np ;;
  modify (upd_proc np (set_sz p.(sz))) ;;;
  modify (upd_proc np (set_parent (Some c))) ;;;
  modify (upd_mem (memmove x.(tf) p.(tf) TF_SIZE)) ;;;
  store_word (x.(tf) + tf_r 0) 0 ;;;
  mfor (seq 0 NOFILE) (dup_fd c np) ;;;
  p <- get_proc c ;;
  d <- deref "proc->cwd" p.(cwd) ;;
  d <- idup d ;;
  modify (upd_proc np (set_cwd (Some d))) ;;;
  modify (upd_proc np (fun y => set_name (copy_name p.(name) y.(name)) y)) ;;;
  acquire ptable_lock ;;;
  modify (upd_proc np (set_state RUNNABLE)) ;;;
  release ptable_lock ;;;
  ret pid.

Definition one_ref_more (x : inode) : inode := set_i_ref (x.(i_ref) + 1) x.

Lemma idup_run ip s env : quiet s -> icache_lock ∉ s.(kcpu).(held) -> idup ip s env = Ok ip (upd_inode ip one_ref_more s) env.
Proof.
  intros Hq Hl. unfold idup. by rewrite locked_modify.
Qed.

(** The child at the end of fork, from the slot's contents [x] at the start
    of the tail. *)
Definition child_of (c : nat) (p x : proc) (ip : nat) : proc :=
  set_state RUNNABLE (set_name (copy_name p.(name) x.(name)) (set_cwd (Some ip)
    (set_ofile (inherit 0 p.(ofile) x.(ofile)) (set_parent (Some c) (set_sz p.(sz) x))))).

Lemma fork_tail_run c p j x ip P m fl n ft ic s pid env :
  quiet s -> ptable_lock ∉ s.(kcpu).(held) -> ftable_lock ∉ s.(kcpu).(held) -> icache_lock ∉ s.(kcpu).(held) ->
  c <> j -> (j < length P)%nat -> P !! c = Some p -> length p.(ofile) = NOFILE -> live ft p.(ofile) -> p.(cwd) = Some ip ->
  fork_tail c j pid (put (Mkparts (<[j := x]> P) m fl n ft ic) s) env =
    Ok pid (put (Mkparts (<[j := child_of c p x ip]> P) (child_frame x.(tf) p.(tf) m) fl n (bump 1 p.(ofile) ft) (alter one_ref_more ip ic)) s) env.
Proof.
  intros Hq Hl1 Hl2 Hl3 Hne Hj Hp Hof Hlv Hcwd. unfold fork_tail.
  assert (Hgc : forall y m fl n ft ic, get_proc c (put (Mkparts (<[j := y]> P) m fl n ft ic) s) env = Ok p (put (Mkparts (<[j := y]> P) m fl n ft ic) s) env).
  { intros. apply get_proc_eq. simpl. by rewrite list_lookup_insert_ne. }
  mstep (Hgc x m fl n ft ic).
  assert (Hgj : get_proc j (put (Mkparts (<[j := x]> P) m fl n ft ic) s) env = Ok x (put (Mkparts (<[j := x]> P) m fl n ft ic) s) env).
  { apply get_proc_eq. simpl. by apply list_lookup_insert_eq. }
  mstep Hgj. unfold store_word. rewrite !bind_modify, !put_proc by done. rewrite !put_mem.
  fold (child_frame x.(tf) p.(tf) m).
  pose proof (dup_loop c p j P (child_frame x.(tf) p.(tf) m) fl n ic s env p.(ofile) ft (set_parent (Some c) (set_sz p.(sz) x)) 0 Hq Hl2 Hne Hj Hp eq_refl Hlv) as Hd.
  rewrite Hof in Hd. mstep Hd. mstep (Hgc (set_ofile (inherit 0 p.(ofile) x.(ofile)) (set_parent (Some c) (set_sz p.(sz) x))) (child_frame x.(tf) p.(tf) m) fl n (bump 1 p.(ofile) ft) ic).
  rewrite Hcwd. cbn [deref]. rewrite bind_ret.
  match goal with |- bind (idup _) _ ?s1 _ = _ => mstep (idup_run ip s1 env Hq Hl3) end.
  change (upd_inode ip one_ref_more (put (Mkparts ?P ?m ?fl ?n ?ft ?ic) s)) with (put (Mkparts P m fl n ft (alter one_ref_more ip ic)) s).
  rewrite bind_modify, put_proc by done. rewrite bind_modify, put_proc by done.
  rewrite locked_modify by done. rewrite put_proc by done. done.
Qed.

(** ** fork *)

(** A process [p] in slot [c] that may call fork, with the free pages [l]. *)
Record forkable (s : kstate) (l : list Z) (c : nat) (p : proc) : Prop := {
  fo_calm : calm s;
  fo_locks : (ftable_lock ∉ s.(kcpu).(held)) /\ (icache_lock ∉ s.(kcpu).(held));
  fo_cur : s.(curproc) = Some c;
  fo_proc : s.(procs) !! c = Some p;
  fo_used : p.(state) <> UNUSED;
  fo_space : backed s l p.(pgdir) p.(sz);
  fo_stack : page_ok p.(kstack) /\ (p.(kstack) ∉ l) /\ p.(tf) = frame_at p.(kstack);
  fo_files : length p.(ofile) = NOFILE /\ live s.(ftable) p.(ofile);
  fo_cwd : is_Some p.(cwd);
  fo_slots : forall i q, s.(procs) !! i = Some q -> q.(state) = UNUSED -> q.(ofile) = replicate NOFILE None
}.

(** The child, in the slot that [q] leaves, with the stack [ks] and the page
    directory [d]. *)
Definition child (s : kstate) (c : nat) (p q : proc) (ks d : Z) : proc :=
  Mkproc p.(sz) d ks RUNNABLE s.(nextpid) (Some c) (frame_at ks) (context_at ks) q.(chan) q.(killed)
    p.(ofile) p.(cwd) (copy_name p.(name) q.(name)).

Record forked (s : kstate) (l : list Z) (c : nat) (p : proc) (s' : kstate) (l' : list Z) (j : nat) (q : proc) (ks d : Z) : Prop := {
  fk_slot : s.(procs) !! j = Some q /\ q.(state) = UNUSED;
  fk_proc : s'.(procs) = <[j := child s c p q ks d]> s.(procs);
  fk_space : backed s' l' d p.(sz) /\ same_contents s'.(mem) d s.(mem) p.(pgdir) p.(sz);
  fk_apart : forall x, part s'.(mem) d p.(sz) x -> part s'.(mem) p.(pgdir) p.(sz) x -> False;
  fk_stack : page_ok ks /\ ks ∈ l /\ (ks ∉ l') /\ ~ part s'.(mem) d p.(sz) ks;
  fk_frame : forall i, 0 <= i < TF_SIZE ->
    s'.(mem) (frame_at ks + i) = if decide (tf_r 0 <= i < tf_r 1) then 0 else s.(mem) (p.(tf) + i);
  fk_switch : load32 s'.(mem) (context_at ks + ctx_lr) = u32 (forkret_addr + 4) /\
    load32 s'.(mem) (frame_at ks - 8) = stack_top ks /\ load32 s'.(mem) (frame_at ks - 4) = trapret_addr;
  fk_files : forall g, s'.(ftable) !! g = more_refs (uses g p.(ofile)) <$> s.(ftable) !! g;
  fk_cwd : forall ip, p.(cwd) = Some ip -> s'.(icache) = alter one_ref_more ip s.(icache);
  fk_rest : exists P m fl ft ic, s' = put (Mkparts P m fl (s32 (s.(nextpid) + 1)) ft ic) s
}.

(** Without a slot or without memory the tables are as before, but for the
    contents of an unused slot and the pid used up; at most one page is lost. *)
Definition fork_failed (s : kstate) (l : list Z) (p : proc) (s' : kstate) (l' : list Z) : Prop :=
  ((forall i q, s.(procs) !! i = Some q -> q.(state) <> UNUSED) \/ (length l <= S (2 * pages_of p.(sz)))%nat) /\
  (exists lost, (length lost <= 1)%nat /\ l ≡ₚ lost ++ l') /\
  (forall j q, s.(procs) !! j = Some q -> exists q', s'.(procs) !! j = Some q' /\
    (q' = q \/ (q.(state) = UNUSED /\ q'.(state) = UNUSED /\ q'.(ofile) = q.(ofile)))) /\
  exists P m fl n, s' = put (Mkparts P m fl n s.(ftable) s.(icache)) s.

(** *** The stack page *)

(** The first page is taken for the stack: the parent's address space and the
    pages in use stay. *)
Lemma stack_taken s ks l j pd sz : free_pages s (ks :: l) -> 0 <= trapret_addr < 2 ^ 32 -> backed s (ks :: l) pd sz ->
  backed (created j ks s) l pd sz /\ same_contents (created j ks s).(mem) pd s.(mem) pd sz /\
  (forall q i, page_ok q -> q <> ks -> 0 <= i < KPAGE -> (created j ks s).(mem) (q + i) = s.(mem) (q + i)).
Proof.
  intros Hf Ht Hb. pose proof (bk_size _ _ _ _ Hb) as Hsz. destruct (kalloc_cons s [] ks l Hf) as (_ & _ & Hks & Hkl).
  assert (Hfr : forall q i, page_ok q -> q <> ks -> 0 <= i < KPAGE -> (created j ks s).(mem) (q + i) = s.(mem) (q + i)).
  { intros q i Hq Hne Hi. destruct (stack_mem_words s.(mem) ks Hks Ht) as (_ & _ & _ & _ & W). simpl. apply W.
    destruct (pages_disjoint ks q i (proj1 Hks) (proj1 Hq)); [done|done|lia|]. unfold stack_top, KSTACKSIZE, KPAGE, PGSIZE in *. lia. }
  destruct (backed_move s (created j ks s) (ks :: l) l pd sz Hb (created_free j ks l s Hf Ht)) as (M1 & M2 & M3 & M4).
  { set_solver. } { intros q i Hq Hi. destruct (bk_pages _ _ _ _ Hb q Hq) as [? ?%not_elem_of_cons]. apply Hfr; tauto. }
  split_and?; [done| |done]. intros va Hv. rewrite M4, M2 by (try done; unfold user_va; lia). done.
Qed.

Lemma created_put j q ks s : s.(procs) !! j = Some q ->
  created j ks s = put (Mkparts (<[j := born q s.(nextpid) ks]> s.(procs)) (stack_mem s.(mem) ks) (load32 s.(mem) ks)
    (s32 (s.(nextpid) + 1)) s.(ftable) s.(icache)) s.
Proof.
  intros Hq. unfold created, upd_proc, put. simpl.
  assert (alter (fun p => born p s.(nextpid) ks) j s.(procs) = <[j := born q s.(nextpid) ks]> s.(procs)) as ->; [|by destruct s].
  rewrite list_insert_alter. apply list_alter_ext; [|done]. intros x Hx. simpl. congruence.
Qed.

Definition fork_rest (c j : nat) (pid : Z) (d : Z) : K Z :=
  modify (upd_proc j (set_pgdir d)) ;;;
  if d =? 0 then
    x <- get_proc j ;;
    kfree x.(kstack) ;;;
    modify (upd_proc j (set_kstack 0)) ;;;
    modify (upd_proc j (set_state UNUSED)) ;;;
    ret (-1)
  else fork_tail c j pid.

Lemma fork_eq s env l c p : forkable s l c p ->
  fork s env =
    match list_find (fun p => p.(state) = UNUSED) s.(procs), l with
    | None, _ => Ok (-1) s env
    | Some (j, _), [] => Ok (-1) (out_of_memory j s) env
    | Some (j, _), ks :: _ => bind (copyuvm p.(pgdir) p.(sz)) (fork_rest c j s.(nextpid)) (created j ks s) env
    end.
Proof.
  intros [F1 F2 F3 F4 F5 F6 F7 F8 F9 F10]. unfold fork, cur. rewrite bind_assoc, bind_gets, F3. cbn [deref]. rewrite bind_ret.
  pose proof (allocproc_eq s env l F1 (sp_free _ _ _ (bk_space _ _ _ _ F6))) as Ha.
  destruct (list_find _ s.(procs)) as [[j q]|] eqn:Ef; [|by mstep Ha]. apply list_find_Some in Ef as (Hj & Hq & _).
  destruct l as [|ks l]; [by mstep Ha|]. mstep Ha. assert (Hne : c <> j) by (intros ->; congruence).
  assert (Hgj : get_proc j (created j ks s) env = Ok (born q s.(nextpid) ks) (created j ks s) env).
  { apply get_proc_eq. unfold created, upd_proc. simpl. by rewrite list_lookup_alter_eq, Hj. }
  assert (Hgc : get_proc c (created j ks s) env = Ok p (created j ks s) env).
  { apply get_proc_eq. unfold created, upd_proc. simpl. by rewrite list_lookup_alter_ne. }
  mstep Hgj. mstep Hgc. done.
Qed.

(** No memory for the address space: the slot and the stack are given up. *)
Lemma fork_undone s l c p j q ks m fl l' env : forkable s (ks :: l) c p ->
  s.(procs) !! j = Some q -> q.(state) = UNUSED ->
  (forall x i, page_ok x -> x ∉ l -> 0 <= i < KPAGE -> m (x + i) = (created j ks s).(mem) (x + i)) ->
  free_pages (set_mem m (set_freelist fl (created j ks s))) l' -> memory_short p.(sz) l l' ->
  exists s', fork_rest c j s.(nextpid) 0 (set_mem m (set_freelist fl (created j ks s))) env = Ok (-1) s' env /\
    fork_failed s (ks :: l) p s' (ks :: l') /\ free_pages s' (ks :: l') /\
    (forall x i, page_ok x -> x ∉ ks :: l -> 0 <= i < KPAGE -> s'.(mem) (x + i) = (created j ks s).(mem) (x + i)).
Proof.
  intros Hfo Hj Hq Hm Hf (Hfew & lost & Hlost & Hperm). pose proof (sp_free _ _ _ (bk_space _ _ _ _ (fo_space _ _ _ _ Hfo))) as Hfs.
  destruct (kalloc_cons s env ks l Hfs) as (_ & _ & Hks & Hkl). assert (Hkl' : ks ∉ l') by (intros Hin; apply Hkl; rewrite Hperm; set_solver).
  pose proof (lookup_lt_Some _ _ _ Hj) as Hlen. rewrite (created_put j q ks s Hj) in *. change (set_mem m (set_freelist fl (put (Mkparts ?P _ _ ?n ?ft ?ic) s)))
    with (put (Mkparts P m fl n ft ic) s) in *.
  unfold fork_rest. rewrite bind_modify, put_proc by done. cbn [Z.eqb].
  set (x := set_pgdir 0 (born q s.(nextpid) ks)). set (s2 := put _ s).
  assert (Hg : get_proc j s2 env = Ok x s2 env) by (apply get_proc_eq; simpl; by apply list_lookup_insert_eq).
  mstep Hg. change x.(kstack) with ks. destruct (page_freed_run s2 l' ks env Hf Hks Hkl') as (Ek & Hf3 & Hfr). mstep Ek.
  change (page_freed s2 ks) with (put (Mkparts (<[j := x]> s.(procs)) (freed ks fl m) ks (s32 (s.(nextpid) + 1)) s.(ftable) s.(icache)) s) in *.
  rewrite bind_modify, put_proc by done. rewrite bind_modify, put_proc by done. eexists. split; [reflexivity|]. split_and?.
  - unfold fork_failed. split_and?.
    + right. simpl. lia.
    + exists lost. split; [done|]. rewrite Hperm. by rewrite Permutation_middle.
    + intros i y Hy. simpl. destruct (decide (i = j)) as [->|Hne].
      * rewrite list_lookup_insert_eq by done. eexists. split; [done|]. right. rewrite Hj in Hy. injection Hy as <-. done.
      * rewrite list_lookup_insert_ne by done. eexists. split; [done|by left].
    + by eexists _, _, _, _.
  - exact Hf3.
  - intros y i Hy Hn Hi. apply not_elem_of_cons in Hn as [? ?]. etrans; [by apply Hfr|]. by apply Hm.
Qed.

(** Writing to the stack page [ks] keeps an address space that it does not
    belong to. *)
Lemma stack_written s s' l d sz ks : backed s l d sz -> page_ok ks -> ks ∉ l -> ~ part s.(mem) d sz ks ->
  s'.(kcpu) = s.(kcpu) -> s'.(freelist) = s.(freelist) ->
  (forall q i, page_ok q -> q <> ks -> 0 <= i < KPAGE -> s'.(mem) (q + i) = s.(mem) (q + i)) ->
  backed s' l d sz /\ same_contents s'.(mem) d s.(mem) d sz /\ (forall q, part s'.(mem) d sz q <-> part s.(mem) d sz q).
Proof.
  intros Hb Hks Hn Hp Hk Hfl Hfr. pose proof (sp_free _ _ _ (bk_space _ _ _ _ Hb)) as Hf. pose proof (bk_size _ _ _ _ Hb) as Hsz.
  assert (Hf' : free_pages s' l).
  { eapply free_frame; [exact Hf|done|done|unfold quiet; rewrite Hk; apply Hf|]. intros q i Hq Hi. apply Hfr; [|by intros ->|done].
    destruct Hf as (Hc & _). apply chain_ok in Hc. rewrite Forall_forall in Hc. by apply Hc. }
  destruct (backed_move s s' l l d sz Hb Hf') as (M1 & M2 & M3 & M4); [done| |].
  - intros q i Hq Hi. apply Hfr; [by apply (bk_pages _ _ _ _ Hb)|by intros ->|done].
  - split_and?; [done| |done]. intros va Hv. rewrite M4, M2 by (try done; unfold user_va; lia). done.
Qed.

Lemma same_contents_trans m1 d1 m2 d2 m3 d3 sz :
  same_contents m1 d1 m2 d2 sz -> same_contents m2 d2 m3 d3 sz -> same_contents m1 d1 m3 d3 sz.
Proof. intros H1 H2 va Hv. destruct (H1 va Hv) as [-> ->]. by apply H2. Qed.

(** The words below the saved registers stay as allocproc left them. *)
Lemma switch_words ks tfp m m0 : page_ok ks -> 0 <= trapret_addr < 2 ^ 32 ->
  (forall i, 0 <= i < KPAGE -> m (ks + i) = stack_mem m0 ks (ks + i)) ->
  let m' := child_frame (frame_at ks) tfp m in
  load32 m' (context_at ks + ctx_lr) = u32 (forkret_addr + 4) /\ load32 m' (frame_at ks - 8) = stack_top ks /\
  load32 m' (frame_at ks - 4) = trapret_addr.
Proof.
  intros Hks Ht Hm m'. destruct (stack_mem_words m0 ks Hks Ht) as (W1 & W2 & W3 & _). destruct (child_frame_at (frame_at ks) tfp m) as (_ & Hout).
  assert (Hlow : forall a, ks <= a -> a + 4 <= frame_at ks -> load32 m' a = load32 (stack_mem m0 ks) a).
  { intros a Ha Hb. apply load32_other. intros i Hi. unfold m'. rewrite Hout by lia. replace (a + i) with (ks + (a + i - ks)) by lia. apply Hm.
    unfold frame_at, stack_top, KSTACKSIZE, TF_SIZE in Hb. change KPAGE with 262144. lia. }
  rewrite !Hlow; try (unfold context_at, frame_at, stack_top, KSTACKSIZE, TF_SIZE, CONTEXT_SIZE, ctx_lr; lia). done.
Qed.

(** The child is complete. *)
Lemma fork_done s l c p j q ks d m fl l' env (s1 := created j ks s) (s2 := set_mem m (set_freelist fl s1)) :
  forkable s (ks :: l) c p -> 0 <= trapret_addr < 2 ^ 32 -> s.(procs) !! j = Some q -> q.(state) = UNUSED -> d <> 0 ->
  copied p.(pgdir) p.(sz) s1 l d s2 l' ->
  backed s2 l' p.(pgdir) p.(sz) -> same_contents m p.(pgdir) s.(mem) p.(pgdir) p.(sz) ->
  same_contents s1.(mem) p.(pgdir) s.(mem) p.(pgdir) p.(sz) ->
  (forall x i, page_ok x -> x ∉ l -> 0 <= i < KPAGE -> m (x + i) = s1.(mem) (x + i)) ->
  (forall x i, page_ok x -> x <> ks -> 0 <= i < KPAGE -> s1.(mem) (x + i) = s.(mem) (x + i)) ->
  exists s', fork_rest c j s.(nextpid) d s2 env = Ok s.(nextpid) s' env /\ forked s (ks :: l) c p s' l' j q ks d /\
    backed s' l' p.(pgdir) p.(sz) /\ same_contents s'.(mem) p.(pgdir) s.(mem) p.(pgdir) p.(sz) /\
    (forall x i, page_ok x -> x ∉ ks :: l -> 0 <= i < KPAGE -> s'.(mem) (x + i) = s.(mem) (x + i)).
Proof.
  intros [F1 [F2a F2b] F3 F4 F5 F6 (F7a & F7b & F7c) (F8a & F8b) [ip F9] F10] Ht Hj Hq Hd (C1 & C2 & C3 & C4) Hbp Hsp Hs1 Hm1 Hm0.
  destruct F1 as (Hqu & Hpl & Hn). destruct (kalloc_cons s env ks l (sp_free _ _ _ (bk_space _ _ _ _ F6))) as (_ & _ & Hks & Hkl).
  pose proof (lookup_lt_Some _ _ _ Hj) as Hlen. assert (Hne : c <> j) by (intros ->; congruence).
  assert (E2 : s2 = put (Mkparts (<[j := born q s.(nextpid) ks]> s.(procs)) m fl (s32 (s.(nextpid) + 1)) s.(ftable) s.(icache)) s).
  { unfold s2, s1. by rewrite (created_put j q ks s Hj). }
  unfold fork_rest. rewrite E2, bind_modify, put_proc by done. rewrite (proj2 (Z.eqb_neq d 0)) by done.
  pose proof (fork_tail_run c p j (set_pgdir d (born q s.(nextpid) ks)) ip s.(procs) m fl (s32 (s.(nextpid) + 1)) s.(ftable) s.(icache) s s.(nextpid) env
    Hqu Hpl F2a F2b Hne Hlen F4 F8a F8b F9) as Et.
  eexists. split; [exact Et|]. set (s' := put _ s).
  destruct (child_frame_at (frame_at ks) p.(tf) m) as (Hin & Hout).
  assert (Hst : forall x i, page_ok x -> x <> ks -> 0 <= i < KPAGE -> s'.(mem) (x + i) = s2.(mem) (x + i)).
  { intros x i Hx Hxk Hi. simpl. apply Hout. destruct (pages_disjoint ks x i (proj1 Hks) (proj1 Hx)); [done|done| |].
    all: unfold frame_at, stack_top, KSTACKSIZE, TF_SIZE, KPAGE, PGSIZE in *; lia. }
  assert (Hk' : ks ∉ l') by set_solver.
  assert (Hpk : ~ part s2.(mem) d p.(sz) ks) by (intros ?%C4; done).
  assert (Hold : forall x, part s2.(mem) p.(pgdir) p.(sz) x -> x ∉ ks :: l).
  { intros x Hx. apply (bk_pages _ _ _ _ F6 x).
    destruct (backed_move s s2 (ks :: l) l' p.(pgdir) p.(sz) F6 (sp_free _ _ _ (bk_space _ _ _ _ Hbp))) as (_ & _ & Hparts & _); [set_solver| |by apply Hparts].
    intros y i Hy Hi. destruct (bk_pages _ _ _ _ F6 y Hy) as [Hyo [? ?]%not_elem_of_cons]. simpl. rewrite Hm1 by done. by apply Hm0. }
  assert (Hpk' : ~ part s2.(mem) p.(pgdir) p.(sz) ks) by (intros Hx%Hold; apply Hx; left).
  destruct (stack_written s2 s' l' d p.(sz) ks C1 Hks Hk' Hpk) as (D1 & D2 & D3); [by rewrite E2|by rewrite E2|exact Hst|].
  destruct (stack_written s2 s' l' p.(pgdir) p.(sz) ks Hbp Hks Hk' Hpk') as (P1 & P2 & P3); [by rewrite E2|by rewrite E2|exact Hst|].
  split_and?.
  - constructor.
    + done.
    + unfold s', put. simpl. f_equal. unfold child_of, child, born. simpl.
      assert (inherit 0 p.(ofile) q.(ofile) = p.(ofile)) as ->; [|by rewrite F9]. rewrite (F10 j q Hj Hq), <- F8a. apply (inherit_all p.(ofile) []).
    + split; [done|]. eapply same_contents_trans; [exact D2|]. eapply same_contents_trans; [exact C2|exact Hs1].
    + intros x Hx%D3%C4 Hx'%P3%Hold. apply Hx'. by right.
    + split_and?; [done|left|done|]. by intros ?%D3.
    + intros i Hi. simpl. rewrite Hin by done. case_decide; [done|]. rewrite F7c. unfold frame_at, stack_top.
      replace (p.(kstack) + KSTACKSIZE - TF_SIZE + i) with (p.(kstack) + (KSTACKSIZE - TF_SIZE + i)) by lia.
      apply not_elem_of_cons in F7b as [? ?]. unfold KSTACKSIZE, TF_SIZE in *.
      rewrite Hm1, Hm0; [done|done|done|change KPAGE with 262144; lia|done|done|change KPAGE with 262144; lia].
    + apply (switch_words ks p.(tf) m s.(mem) Hks Ht). intros i Hi. rewrite Hm1 by done. done.
    + intros g. simpl. by rewrite bump_lookup, Z.mul_1_l.
    + intros ip' Hip. rewrite F9 in Hip. injection Hip as <-. done.
    + by eexists _, _, _, _, _.
  - done.
  - eapply same_contents_trans; [exact P2|exact Hsp].
  - intros x i Hx Hn' Hi. apply not_elem_of_cons in Hn' as [? ?]. rewrite Hst by done. simpl. rewrite Hm1 by done. by apply Hm0.
Qed.

Lemma full_fails s l p : (forall q, q ∈ s.(procs) -> q.(state) <> UNUSED) -> fork_failed s l p s l.
Proof.
  intros Hno. unfold fork_failed. split_and?.
  - left. intros i q Hi. apply Hno. by eapply list_elem_of_lookup_2.
  - exists []. split; [simpl; lia|done].
  - intros i q Hi. exists q. split; [done|by left].
  - exists s.(procs), s.(mem), s.(freelist), s.(nextpid). by destruct s.
Qed.

Lemma no_stack_fails s p j q : s.(procs) !! j = Some q -> q.(state) = UNUSED -> fork_failed s [] p (out_of_memory j s) [].
Proof.
  intros Hj Hq. unfold fork_failed. split_and?.
  - right. simpl. lia.
  - exists []. split; [simpl; lia|done].
  - intros i x Hi. unfold out_of_memory, upd_proc. simpl. destruct (decide (i = j)) as [->|Hne].
    + rewrite list_lookup_alter_eq, Hi. eexists. split; [done|]. right. rewrite Hj in Hi. by injection Hi as <-.
    + rewrite list_lookup_alter_ne by done. exists x. split; [done|by left].
  - eexists _, s.(mem), s.(freelist), _. unfold out_of_memory, put, upd_proc. simpl. by destruct s.
Qed.

(** ** Theorem *)

(** C24: fork. A process with [sz] bytes of memory, backed by pages of its
    own, and with its open files in the file table gets either -1, when the
    table is full or memory short, with the tables as before and at most one
    page lost; or the pid of a new runnable process. The child has a copy of
    the memory, byte for byte and permission for permission, in pages that
    are not the parent's; the parent's registers but for a result of 0, on a
    stack of its own that leads through forkret and trapret to user mode; the
    parent's open files, each of which counts one more reference for each of
    its descriptors; and the current directory, referred to once more. The
    parent's memory and all other pages in use are as before. *)
Theorem fork_copies s l c p env :
  forkable s l c p -> 0 <= trapret_addr < 2 ^ 32 ->
  exists r s' l', fork s env = Ok r s' env /\
    ((r = -1 /\ fork_failed s l p s' l') \/ (r = s.(nextpid) /\ exists j q ks d, forked s l c p s' l' j q ks d)) /\
    backed s' l' p.(pgdir) p.(sz) /\ same_contents s'.(mem) p.(pgdir) s.(mem) p.(pgdir) p.(sz) /\
    forall x i, page_ok x -> x ∉ l -> 0 <= i < KPAGE -> s'.(mem) (x + i) = s.(mem) (x + i).
Proof.
  intros Hfo Ht. pose proof (fo_space _ _ _ _ Hfo) as Hb. pose proof (sp_free _ _ _ (bk_space _ _ _ _ Hb)) as Hf.
  rewrite (fork_eq s env l c p Hfo). destruct (list_find _ s.(procs)) as [[j q]|] eqn:Ef.
  2: { exists (-1), s, l. split_and?; [done| |done|done|done]. left. split; [done|]. apply full_fails. apply list_find_None in Ef. by rewrite Forall_forall in Ef. }
  apply list_find_Some in Ef as (Hj & Hq & _). destruct l as [|ks l].
  { exists (-1), (out_of_memory j s), []. split_and?; [done| |by apply (backed_same s)|done|done]. left. split; [done|]. by apply (no_stack_fails s p j q). }
  destruct (stack_taken s ks l j p.(pgdir) p.(sz) Hf Ht Hb) as (B1 & Sc1 & Hm0).
  destruct (copyuvm_run kern_above p.(pgdir) p.(sz) (created j ks s) l env B1) as (d & s2 & l' & Ec & Hf2 & Hout & Hbp & Hsp & Hm1 & m & fl & ->).
  setoid_rewrite (bind_ok _ _ _ _ _ _ _ Ec). destruct (decide (d = 0)) as [->|Hd].
  - destruct (fork_undone s l c p j q ks m fl l' env Hfo Hj Hq Hm1 Hf2 Hout) as (s' & Er & Hfail & Hf' & Hm2).
    assert (Hm3 : forall x i, page_ok x -> x ∉ ks :: l -> 0 <= i < KPAGE -> s'.(mem) (x + i) = s.(mem) (x + i)).
    { intros x i Hx Hn Hi. rewrite Hm2 by done. apply not_elem_of_cons in Hn as [? ?]. by apply Hm0. }
    destruct Hfail as (Fa & Fb & Fc). pose proof Fb as (lost & _ & Hperm).
    destruct (backed_move s s' (ks :: l) (ks :: l') p.(pgdir) p.(sz) Hb Hf') as (M1 & M2 & M3 & M4).
    { intros x _ Hx Hx'. apply Hx. rewrite Hperm. set_solver. } { intros x i Hx Hi. destruct (bk_pages _ _ _ _ Hb x Hx). by apply Hm3. }
    exists (-1), s', (ks :: l'). split_and?; [done|by left|done| |done].
    intros va Hv. rewrite M4 by done. rewrite M2; [done|]. pose proof (bk_size _ _ _ _ Hb). unfold user_va. lia.
  - destruct (fork_done s l c p j q ks d m fl l' env Hfo Ht Hj Hq Hd Hout Hbp) as (s' & Er & Hfk & P1 & P2 & P3); try done.
    { by eapply same_contents_trans. }
    exists s.(nextpid), s', l'. split_and?; [done| |done|done|done]. right. split; [done|]. by exists j, q, ks, d.
Qed.

End Facts.

(** ** A witness: a process with one page of memory *)

#[local] Existing Instance demo_image.

Definition demo_proc : proc :=
  Mkproc 4096 (demo_page 7) (demo_page 8) RUNNING 1 None (frame_at (demo_page 8)) 0 None false
    (Some 0%nat :: replicate (NOFILE - 1) None) (Some 0%nat) (replicate 16 0).

(** A state in which process 0 runs, with one open file. *)
Definition running (x : kstate) : kstate :=
  set_curproc (Some 0%nat) (set_ftable (<[0%nat := Mkfile FD_INODE 1 true true 0 0 0]> x.(ftable))
    (set_procs (demo_proc :: replicate (NPROC - 1) zero_proc) x)).

Definition demo_forking : kstate := running demo_parent.

Lemma demo_page_8 : page_ok (demo_page 8) /\ demo_page 8 ∉ demo_list 7.
Proof.
  split; [split_and!; vm_compute; done|]. intros Hin. cbn [demo_list] in Hin. unfold demo_page, KPAGE, PGSIZE in Hin.
  repeat (apply elem_of_cons in Hin as [Hin|Hin]; [lia|]). by apply elem_of_nil in Hin.
Qed.

Lemma running_forkable x l : backed x l (demo_page 7) 4096 -> l ⊆ demo_list 6 -> x.(kcpu) = zero_cpu -> (0 < length x.(ftable))%nat ->
  forkable (running x) l 0 demo_proc.
Proof.
  intros Hb Hl Hk Hft. assert (Hk' : (running x).(kcpu) = zero_cpu) by exact Hk. constructor.
  - unfold calm, quiet. rewrite Hk'. split_and!; done.
  - rewrite Hk'. split; apply not_elem_of_empty.
  - done.
  - done.
  - done.
  - by apply (backed_same x).
  - destruct demo_page_8 as [? Hn]. split_and?; [done|intros Hx%Hl; apply Hn; by right|done].
  - split; [done|]. intros f Hf. apply elem_of_cons in Hf as [Hf|Hf]; [injection Hf as ->|apply elem_of_replicate in Hf as [? _]; done].
    exists (Mkfile FD_INODE 1 true true 0 0 0). split; [|done]. apply list_lookup_insert_eq. exact Hft.
  - by exists 0%nat.
  - intros [|i] q Hi; [by injection Hi as <-|]. change (replicate (NPROC - 1) zero_proc !! i = Some q) in Hi.
    apply lookup_replicate in Hi as [-> _]. done.
Qed.

Lemma demo_free_same n : (demo_free n).(kcpu) = zero_cpu /\ (demo_free n).(ftable) = (kstate0 []).(ftable).
Proof. by induction n as [|n IH]. Qed.

Lemma demo_forkable : exists l, forkable demo_forking l 0 demo_proc.
Proof.
  destruct demo_parent_backed as (l & Hb & Hl & _ & m & fl & E). exists l.
  destruct (demo_free_same 7) as [Hk Hft]. revert E Hk Hft. generalize (demo_free 7) as z. intros z E Hk Hft.
  apply running_forkable; [done|done|by rewrite E|]. rewrite E. change (ftable (set_mem m (set_freelist fl z))) with (ftable z).
  rewrite Hft. vm_compute. lia.
Qed.

Lemma fork_copies_witness : exists l r s' l', fork demo_forking [] = Ok r s' [] /\
    ((r = -1 /\ fork_failed demo_forking l demo_proc s' l') \/
     (r = demo_forking.(nextpid) /\ exists j q ks d, forked demo_forking l 0 demo_proc s' l' j q ks d)) /\
    backed s' l' (demo_page 7) 4096 /\ same_contents s'.(mem) (demo_page 7) demo_forking.(mem) (demo_page 7) 4096 /\
    forall x i, page_ok x -> x ∉ l -> 0 <= i < KPAGE -> s'.(mem) (x + i) = demo_forking.(mem) (x + i).
Proof.
  destruct demo_forkable as (l & Hfo). exists l.
  apply (fork_copies ltac:(vm_compute; done) demo_forking l 0 demo_proc [] Hfo). vm_compute. split; [intros E|]; done.
Defined.

End ForkFacts.
