(* ===== verification/GrowFacts.v ===== *)
(** growproc (kernel/proc.c): the memory of a process grows and shrinks at
    its end. *)
From S2P Require Import Prelude Types Spinlock Sched Cstring Kalloc Vm Proc KallocFacts VmFacts ProcFacts VmSpace VmFree VmCopy ForkFacts.
Import Spinlock Sched Cstring Kalloc Vm Proc KallocFacts VmFacts ProcFacts VmSpace VmFree VmCopy ForkFacts.

Module GrowFacts.

#[local] Opaque memset memmove store32 load32.

Section Facts.
Context `{Image}.
Hypothesis kern_above : KERNBASE < kern_end.

Lemma switchuvm_run c p s env : quiet s -> s.(procs) !! c = Some p -> p.(kstack) <> 0 -> p.(pgdir) <> 0 ->
  switchuvm (Some c) s env = Ok tt (set_ttbr0 (v2p p.(pgdir)) s) env.
Proof.
  intros (Hi & He & Hn) Hp Hk Hd. unfold switchuvm. mstep (get_proc_eq c p s env Hp).
  rewrite (proj2 (Z.eqb_neq _ 0)), (proj2 (Z.eqb_neq _ 0)) by done. mstep (pushcli_eq s env). rewrite bind_modify.
  rewrite popcli_eq by (simpl; try done; lia). f_equal.
  assert (E : popped (pushed s.(kcpu)) = s.(kcpu)).
  { rewrite popped_pushed by done. apply cpu_ext; simpl; try done. rewrite He. by destruct (_ =? 0). }
  unfold upd_cpu. simpl. rewrite E. by destruct s.
Qed.

(** The state once the process in slot [c] has [new] bytes. *)
Definition resized (c : nat) (p : proc) (new : Z) (m : memory) (fl : Z) (s : kstate) : kstate :=
  set_ttbr0 (v2p p.(pgdir)) (upd_proc c (set_sz new) (set_mem m (set_freelist fl s))).

Section Grow.
Variables (s : kstate) (l : list Z) (c : nat) (p : proc) (n : Z) (env : list (kstate -> kstate)).
Hypothesis Hq : quiet s.
Hypothesis Hcur : s.(curproc) = Some c.
Hypothesis Hp : s.(procs) !! c = Some p.
Hypothesis Hb : backed s l p.(pgdir) p.(sz).
Hypothesis Hks : p.(kstack) <> 0.
Let new := p.(sz) + n.

Lemma dir_nonzero : p.(pgdir) <> 0.
Proof. destruct (sp_dir _ _ _ (bk_space _ _ _ _ Hb)) as (_ & _ & _ & ?). lia. Qed.

(** The end of growproc, from the new size. *)
Lemma grow_end m fl z : quiet (set_mem m (set_freelist fl s)) ->
  (modify (upd_proc c (set_sz z)) ;;; switchuvm (Some c) ;;; ret 0) (set_mem m (set_freelist fl s)) env = Ok 0 (resized c p z m fl s) env.
Proof.
  intros Hq'. rewrite bind_modify. set (s1 := upd_proc c _ _).
  assert (Hp1 : s1.(procs) !! c = Some (set_sz z p)) by (unfold s1, upd_proc; simpl; by rewrite list_lookup_alter_eq, Hp).
  mstep (switchuvm_run c (set_sz z p) s1 env Hq' Hp1 Hks dir_nonzero). done.
Qed.

Lemma grow_start : growproc n s env =
  (o <- (if 0 <? n then
          sz <- allocuvm p.(pgdir) p.(sz) (u32 new) ;;
          ret (if sz =? 0 then None else Some sz)
        else if n <? 0 then
          sz <- deallocuvm p.(pgdir) p.(sz) (u32 new) ;;
          ret (if sz =? 0 then None else Some sz)
        else ret (Some p.(sz))) ;;
  match o with
  | None => ret (-1)
  | Some sz => modify (upd_proc c (set_sz sz)) ;;; switchuvm (Some c) ;;; ret 0
  end) s env.
Proof. unfold growproc, cur. rewrite bind_assoc, bind_gets, Hcur. cbn [deref]. rewrite bind_ret. by mstep (get_proc_eq c p s env Hp). Qed.

Lemma grow_more : 0 < n -> new < UADDR_SZ -> (2 * (pages_of new - pages_of p.(sz)) <= length l)%nat ->
  exists m fl l', growproc n s env = Ok 0 (resized c p new m fl s) env /\ backed (set_mem m (set_freelist fl s)) l' p.(pgdir) new /\ l' ⊆ l /\
    (forall va, 0 <= va < p.(sz) -> user_byte m p.(pgdir) va = user_byte s.(mem) p.(pgdir) va) /\
    (forall va, p.(sz) <= page_start va -> va < new -> user_byte m p.(pgdir) va = 0 /\ PTE_AP (pte m p.(pgdir) va) = AP_KU).
Proof.
  intros Hn Hnew Hlen. pose proof (bk_size _ _ _ _ Hb) as Hsz. rewrite grow_start, (proj2 (Z.ltb_lt _ _)) by done.
  assert (Hu : u32 new = new) by (apply u32_small; unfold new, UADDR_SZ in *; lia). rewrite Hu.
  destruct (pages_of_bound p.(sz) ltac:(lia)) as (P1 & _). destruct (pages_of_bound new ltac:(unfold new; lia)) as (P2 & _).
  assert (Ha : ALIGNUP p.(sz) PTE_SZ = Z.of_nat (pages_of p.(sz)) * PTE_SZ).
  { rewrite (alignup_pow 12) by lia. change (2 ^ 12) with PTE_SZ. unfold pages_of, PTE_SZ. Z.to_euclidean_division_equations. lia. }
  pose proof (allocuvm_run s env p.(pgdir) l p.(sz) new (bk_space _ _ _ _ Hb) ltac:(unfold new; lia)) as Hal. cbv zeta in Hal. rewrite Ha in Hal.
  assert (Hk : Z.to_nat ((new - Z.of_nat (pages_of p.(sz)) * PTE_SZ + PTE_SZ - 1) / PTE_SZ) = (pages_of new - pages_of p.(sz))%nat).
  { unfold new, pages_of, PTE_SZ. Z.to_euclidean_division_equations. lia. }
  rewrite Hk, decide_False in Hal by lia. destruct Hal as (s1 & ps & l' & Er & Hps & Hg).
  { intros va Hv Hm. apply (bk_mapped _ _ _ _ Hb) in Hm; [|unfold user_va; lia]. unfold PTE_SZ in *. Z.to_euclidean_division_equations. lia. }
  { lia. }
  assert (Hlen' : pages_of new = (pages_of p.(sz) + length ps)%nat) by (rewrite Hps; unfold new, pages_of, PTE_SZ in *; Z.to_euclidean_division_equations; lia).
  assert (Hap : forall va : Z, 0 <= (fun _ : Z => AP_KU) va < 4) by (unfold AP_KU; lia). assert (Hn' : p.(sz) <= new <= UADDR_SZ) by (unfold new; lia).
  pose proof (grown_backed (fun _ => AP_KU) (fun _ _ => 0) s l p.(pgdir) p.(sz) ps s1 l' new Hb Hap Hg Hn' Hlen') as Hb1.
  pose proof (grown_bytes (fun _ => AP_KU) (fun _ _ => 0) s l p.(pgdir) p.(sz) ps s1 l' new Hb Hap Hg Hn' Hlen') as Hby.
  destruct (gr_rest _ _ _ _ _ _ _ _ _ Hg) as (m & fl & ->). exists m, fl, l'. split_and?; [|done|apply (gr_left _ _ _ _ _ _ _ _ _ Hg)| |].
  - rewrite bind_assoc. mstep Er. rewrite bind_ret. rewrite (proj2 (Z.eqb_neq _ 0)) by (unfold new in *; lia). by apply grow_end.
  - intros va Hv. specialize (Hby va ltac:(lia)). rewrite decide_True in Hby by (unfold page_start, PTE_SZ; Z.to_euclidean_division_equations; lia). by destruct Hby.
  - intros va Hv Hlt. specialize (Hby va). rewrite decide_False in Hby by lia. apply Hby. unfold page_start, PTE_SZ in Hv. Z.to_euclidean_division_equations. lia.
Qed.

Lemma shrink_run : n < 0 -> 0 <= new ->
  exists m fl ps, deallocuvm p.(pgdir) p.(sz) new s env = Ok new (set_mem m (set_freelist fl s)) env /\
    backed (set_mem m (set_freelist fl s)) (ps ++ l) p.(pgdir) new /\
    (forall q, q ∈ ps <-> exists va, 0 <= va < p.(sz) /\ new <= page_start va /\ q = user_page s.(mem) p.(pgdir) va) /\
    (forall va, 0 <= va < new -> user_byte m p.(pgdir) va = user_byte s.(mem) p.(pgdir) va).
Proof.
  intros Hn Hnew. pose proof (bk_size _ _ _ _ Hb) as Hsz.
  destruct (deallocuvm_run kern_above p.(pgdir) p.(sz) p.(sz) new s l env Hb ltac:(unfold new in *; lia) ltac:(lia) ltac:(unfold new in *; lia)) as (s1 & ps & Er & Hb1 & Hsh).
  pose proof (shrunk_bytes s l p.(pgdir) p.(sz) new ps s1) as Hby. pose proof (sh_gone _ _ _ _ _ Hsh) as Hgone.
  destruct (sh_rest _ _ _ _ _ Hsh) as (m & fl & ->). exists m, fl, ps. split_and?; [done|done| |].
  - intros q. rewrite Hgone. split.
    + intros (va & Hva & [H1 H2] & ->). exists (page_start va). pose proof (start_below _ va Hva H2).
      rewrite user_page_start by done. split_and?; [lia|lia| |done]. unfold page_start at 1. rewrite start_div. exact H1.
    + intros (va & Hv & Hge & ->). exists va. split_and?; [unfold user_va; lia|done| |done]. unfold page_start, PTE_SZ. Z.to_euclidean_division_equations. lia.
  - intros va Hv. apply Hby; [done|unfold new in *; lia|done|done].
Qed.
End Grow.

(** C27: growproc. Growth gives the process more zeroed memory at its end
    that it may read and write, when there are two free pages for each new
    page, and fails beyond the user half of the address space. Shrinking
    gives back exactly the pages that begin behind the new end. In both cases
    every byte that stays below the end keeps its value, and the
    memory management unit is switched to the process's page table. Two
    requests go wrong: giving up all of the memory frees it but is reported
    as a failure with the size unchanged, and giving up more than there is
    changes nothing but is reported as a success. *)
Theorem growproc_resizes s l c p n env :
  quiet s -> s.(curproc) = Some c -> s.(procs) !! c = Some p -> backed s l p.(pgdir) p.(sz) -> p.(kstack) <> 0 ->
  0 < p.(sz) -> - 2 ^ 31 <= n < 2 ^ 31 ->
  let new := p.(sz) + n in
  if decide (0 < n) then
    if decide (UADDR_SZ <= new) then growproc n s env = Ok (-1) s env
    else (2 * (pages_of new - pages_of p.(sz)) <= length l)%nat ->
      exists m fl l', growproc n s env = Ok 0 (resized c p new m fl s) env /\ backed (set_mem m (set_freelist fl s)) l' p.(pgdir) new /\ l' ⊆ l /\
        (forall va, 0 <= va < p.(sz) -> user_byte m p.(pgdir) va = user_byte s.(mem) p.(pgdir) va) /\
        (forall va, p.(sz) <= page_start va -> va < new -> user_byte m p.(pgdir) va = 0 /\ PTE_AP (pte m p.(pgdir) va) = AP_KU)
  else if decide (n = 0 \/ new < 0) then growproc n s env = Ok 0 (resized c p p.(sz) s.(mem) s.(freelist) s) env
  else exists m fl ps,
    growproc n s env = (if decide (new = 0) then Ok (-1) (set_mem m (set_freelist fl s)) env else Ok 0 (resized c p new m fl s) env) /\
    backed (set_mem m (set_freelist fl s)) (ps ++ l) p.(pgdir) new /\
    (forall q, q ∈ ps <-> exists va, 0 <= va < p.(sz) /\ new <= page_start va /\ q = user_page s.(mem) p.(pgdir) va) /\
    (forall va, 0 <= va < new -> user_byte m p.(pgdir) va = user_byte s.(mem) p.(pgdir) va).
Proof.
  intros Hq Hc Hp Hb Hks Hpos Hn new. pose proof (bk_size _ _ _ _ Hb) as Hsz. unfold UADDR_SZ in Hsz. change (2 ^ 31) with 2147483648 in Hn.
  pose proof (grow_start s c p n env Hc Hp) as Hst. fold new in Hst.
  assert (Hid : set_mem s.(mem) (set_freelist s.(freelist) s) = s) by (by destruct s).
  case_decide as H1; [case_decide as H2|case_decide as H2].
  - rewrite Hst, (proj2 (Z.ltb_lt _ _)) by done. rewrite u32_small by (change (2 ^ 32) with 4294967296; unfold new; lia).
    unfold allocuvm. by rewrite (proj2 (Z.leb_le _ _)) by done.
  - intros Hl. by apply (grow_more s l c p n env Hq Hc Hp Hb Hks); [|unfold new in *; lia|].
  - pose proof (grow_end s l c p n env Hp Hb Hks s.(mem) s.(freelist) p.(sz) ltac:(by rewrite Hid)) as He.
    rewrite Hid in He. rewrite Hst, (proj2 (Z.ltb_ge 0 n)) by lia. destruct H2 as [->|H2]; [by simpl; rewrite bind_ret|].
    rewrite (proj2 (Z.ltb_lt _ _)) by (unfold new in *; lia). assert (Hu : p.(sz) <= u32 new).
    { unfold u32. replace (new mod 2 ^ 32) with (new + 4294967296); [unfold new in *; lia|]. change (2 ^ 32) with 4294967296.
      apply (Z.mod_unique_pos _ _ (-1)); unfold new in *; lia. }
    unfold deallocuvm. rewrite (proj2 (Z.leb_le _ _)) by done. rewrite bind_assoc, !bind_ret. 
    destruct (Z.eqb_spec p.(sz) 0) as [E0|]; [exfalso; lia|]. exact He.
  - destruct (shrink_run s l p n env Hb ltac:(lia) ltac:(unfold new in *; lia)) as (m & fl & ps & Er & Hb1 & Hg & Hby). fold new in Er, Hb1, Hg, Hby.
    exists m, fl, ps. split_and?; [|done|done|done]. rewrite Hst, (proj2 (Z.ltb_ge 0 n)), (proj2 (Z.ltb_lt n 0)) by (unfold new in *; lia).
    rewrite u32_small by (change (2 ^ 32) with 4294967296; unfold new in *; lia). rewrite bind_assoc. mstep Er. rewrite bind_ret.
    case_decide as H3; [by rewrite H3|]. rewrite (proj2 (Z.eqb_neq _ 0)) by done. by apply (grow_end s l).
Qed.
End Facts.

(** ** A witness: giving up a process's only page *)

#[local] Existing Instance demo_image.

Lemma growproc_resizes_witness : exists l m fl ps,
  growproc (-4096) demo_forking [] = Ok (-1) (set_mem m (set_freelist fl demo_forking)) [] /\
  backed (set_mem m (set_freelist fl demo_forking)) (ps ++ l) (demo_page 7) 0 /\
  (forall q, q ∈ ps <-> exists va, 0 <= va < 4096 /\ 0 <= page_start va /\ q = user_page demo_forking.(mem) (demo_page 7) va).
Proof.
  destruct demo_forkable as (l & [(Hq & _) _ Hc Hp _ Hb _ _ _ _]). exists l.
  pose proof (growproc_resizes ltac:(vm_compute; done) demo_forking l 0 demo_proc (-4096) [] Hq Hc Hp Hb ltac:(vm_compute; done) ltac:(vm_compute; done)
    ltac:(change (2 ^ 31) with 2147483648; lia)) as Hg.
  rewrite decide_False in Hg by lia. rewrite decide_False in Hg by (change (sz demo_proc) with 4096; lia).
  destruct Hg as (m & fl & ps & G1 & G2 & G3 & _). exists m, fl, ps. exact (conj G1 (conj G2 G3)).
Defined.

End GrowFacts.
