(* ===== verification/WaitFacts.v ===== *)
(** wait and exit (kernel/proc.c): a parent collects its child, and the
    memory of the child is free again. *)
From S2P Require Import Prelude Types Spinlock Sched Cstring Inode Kalloc File Vm Proc KallocFacts VmFacts ProcFacts VmSpace VmFree VmCopy ForkFacts.
Import Spinlock Sched Cstring Inode Kalloc File Vm Proc KallocFacts VmFacts ProcFacts VmSpace VmFree VmCopy ForkFacts.

Module WaitFacts.

#[local] Opaque memset memmove store32 load32.

Section Facts.
Context `{Image}.
Hypothesis kern_above : KERNBASE < kern_end.

(** ** Collecting a child *)

Definition zombie_of (c : nat) (x : proc) : Prop := x.(parent) = Some c /\ x.(state) = ZOMBIE.

#[local] Instance zombie_of_dec c x : Decision (zombie_of c x).
Proof. unfold zombie_of. apply _. Defined.

(** The slot of a child that has been collected. *)
Definition vacated (x : proc) : proc :=
  set_killed false (set_name (<[0%nat := 0]> x.(name)) (set_parent None (set_pid 0 (set_state UNUSED (set_kstack 0 x))))).

(** A child whose pages can be freed: its address space and, apart from it,
    its kernel stack. *)
Record disposable (s : kstate) (l : list Z) (x : proc) : Prop := {
  di_space : backed s l x.(pgdir) x.(sz);
  di_stack : page_ok x.(kstack) /\ (x.(kstack) ∉ l) /\ ~ part s.(mem) x.(pgdir) x.(sz) x.(kstack)
}.

(** The state once child [x] of slot [i] is collected. *)
Record collected (s : kstate) (l : list Z) (i : nat) (x : proc) (s' : kstate) (l' : list Z) : Prop := {
  co_procs : s'.(procs) = <[i := vacated x]> s.(procs);
  co_free : free_pages s' l';
  co_pages : forall q, q ∈ l' <-> q = x.(kstack) \/ part s.(mem) x.(pgdir) x.(sz) q \/ q ∈ l;
  co_frame : forall q k, page_ok q -> q ∉ l' -> 0 <= k < KPAGE -> s'.(mem) (q + k) = s.(mem) (q + k);
  co_rest : exists P m fl, s' = set_procs P (set_mem m (set_freelist fl s))
}.

Lemma free_pages_locked lk s l : lk <> kmem_lock -> free_pages s l -> free_pages (with_lock lk s) l.
Proof.
  intros Hne (Hc & Hn & Hq & Hl). split_and!; [done|done|by apply quiet_with_lock|]. simpl. set_solver.
Qed.

Lemma reap_run s l i x env : calm s -> disposable s l x -> s.(procs) !! i = Some x ->
  exists s' l', reap i (with_lock ptable_lock s) env = Ok x.(pid) s' env /\ collected s l i x s' l'.
Proof.
  intros (Hq & Hpl & Hn) [Hb (Hks & Hkl & Hkp)] Hi. pose proof (sp_free _ _ _ (bk_space _ _ _ _ Hb)) as Hf.
  pose proof (lookup_lt_Some _ _ _ Hi) as Hlen. set (s0 := with_lock ptable_lock s).
  assert (Hf0 : free_pages s0 l) by (by apply free_pages_locked).
  unfold reap. mstep (get_proc_eq i x s0 env Hi).
  destruct (page_freed_run s0 l x.(kstack) env Hf0 Hks Hkl) as (Ek & Hf1 & Hfr1). mstep Ek. rewrite bind_modify.
  set (s1 := upd_proc i (set_kstack 0) (page_freed s0 x.(kstack))).
  assert (Hb1 : backed s1 (x.(kstack) :: l) x.(pgdir) x.(sz) /\ (forall q, part s1.(mem) x.(pgdir) x.(sz) q <-> part s.(mem) x.(pgdir) x.(sz) q)).
  { destruct (backed_move s s1 l (x.(kstack) :: l) x.(pgdir) x.(sz) Hb Hf1) as (M1 & _ & M3 & _); [|intros q k Hq' Hk|done].
    - intros q Hq' Hn' [->|?]%elem_of_cons; done.
    - apply Hfr1; [by apply (bk_pages _ _ _ _ Hb)|by intros ->|done]. }
  destruct Hb1 as [Hb1 Hp1]. destruct (freevm_run kern_above x.(pgdir) x.(sz) s1 _ env Hb1) as (s2 & l2 & Ev & Hf2 & Hl2 & Hfr2 & m & fl & E2).
  mstep Ev. rewrite !bind_modify.
  set (s3 := upd_proc i (set_killed false) _).
  assert (Hk3 : s3.(kcpu) = (with_lock ptable_lock s).(kcpu)) by (unfold s3, upd_proc; simpl; by rewrite E2).
  mstep (release_quiet ptable_lock s s3 env Hq Hpl Hk3).
  assert (Hf3 : free_pages (set_kcpu s.(kcpu) s3) l2).
  { destruct Hf2 as (? & ? & _). destruct Hf as (_ & _ & _ & ?). split_and!; [|done|done|done]. done. }
  exists (set_kcpu s.(kcpu) s3), l2. split; [done|]. constructor.
  - unfold s3, upd_proc. simpl. rewrite E2. unfold s1, upd_proc. simpl. rewrite !list_alter_alter_eq.
    rewrite list_insert_alter. apply list_alter_ext; [|done]. intros y Hy. simpl. rewrite Hi in Hy. by injection Hy as <-.
  - done.
  - intros q. rewrite Hl2, Hp1, elem_of_cons. tauto.
  - intros q k Hq' Hn' Hk. change (mem (set_kcpu (kcpu s) s3)) with s2.(mem). rewrite Hfr2 by done.
    apply Hfr1; [done| |done]. intros ->. apply Hn', Hl2. right. left.
  - eexists _, m, fl. unfold s3, upd_proc. rewrite E2. unfold s1, upd_proc. by destruct s.
Qed.

(** ** wait *)

Definition try_child (c i : nat) : K (option Z) :=
  x <- get_proc i ;;
  if is_child c x && bool_decide (x.(state) = ZOMBIE) then
    pid <- reap i ;;
    ret (Some pid)
  else ret None.

Lemma not_zombie c i x s env : s.(procs) !! i = Some x -> ~ zombie_of c x -> try_child c i s env = Ok None s env.
Proof.
  intros Hi Hz. unfold try_child. mstep (get_proc_eq i x s env Hi). unfold is_child.
  destruct (bool_decide_reflect (x.(parent) = Some c)); [|done]. rewrite bool_decide_eq_false_2; [done|]. intros ?. by apply Hz.
Qed.

(** The scan of the process table. *)
Lemma scan_children c s env : length s.(procs) = NPROC ->
  mfind (seq 0 NPROC) (try_child c) s env =
    match list_find (zombie_of c) s.(procs) with
    | None => Ok None s env
    | Some (i, x) => (pid <- reap i ;; ret (Some pid)) s env
    end.
Proof.
  intros Hn. destruct (list_find _ _) as [[i x]|] eqn:E.
  - apply list_find_Some in E as (Hi & [Hp Hz] & Hmin). pose proof (lookup_lt_Some _ _ _ Hi) as Hlt. rewrite Hn in Hlt.
    replace NPROC with (i + S (NPROC - S i))%nat by lia. rewrite seq_app. rewrite mfind_skip.
    + cbn [seq mfind]. rewrite Nat.add_0_l. unfold try_child at 1. rewrite bind_assoc. mstep (get_proc_eq i x s env Hi).
      unfold is_child. rewrite !bool_decide_eq_true_2 by done. cbn [andb]. rewrite bind_assoc.
      apply bind_ext. intros pid s' env'. by rewrite bind_ret.
    + intros j [_ Hj]%elem_of_seq. destruct (lookup_lt_is_Some_2 s.(procs) j ltac:(lia)) as [y Hy]. apply (not_zombie c j y); [done|]. by apply (Hmin j).
  - apply list_find_None in E. rewrite Forall_forall in E. rewrite <- (app_nil_r (seq 0 NPROC)), mfind_skip; [done|].
    intros j [_ Hj]%elem_of_seq. destruct (lookup_lt_is_Some_2 s.(procs) j ltac:(lia)) as [y Hy]. apply (not_zombie c j y); [done|].
    apply E. by eapply list_elem_of_lookup_2.
Qed.

Definition wait_body (c : nat) : K (option Z) :=
  o <- mfind (seq 0 NPROC) (try_child c) ;;
  match o with
  | Some pid => ret (Some pid)
  | None =>
      havekids <- gets (fun s => existsb (is_child c) s.(procs)) ;;
      p <- get_proc c ;;
      if negb havekids || p.(killed) then
        release ptable_lock ;;;
        ret (Some (-1))
      else
        sleep (chan_proc c) ptable_lock ;;;
        ret None
  end.

Lemma wait_eq c s env : calm s -> s.(curproc) = Some c ->
  wait s env = mloop (S (length env)) (wait_body c) (with_lock ptable_lock s) env.
Proof.
  intros (Hq & Hl & _) Hc. unfold wait, cur. rewrite bind_assoc, bind_gets, Hc. cbn [deref]. rewrite bind_ret.
  mstep (acquire_quiet ptable_lock s env Hq Hl). done.
Qed.

(** The parent as it sleeps in wait. *)
Definition waiting (c : nat) (s : kstate) : kstate :=
  upd_proc c (set_state SLEEPING) (upd_proc c (set_chan (Some (chan_proc c))) (with_lock ptable_lock s)).

Lemma wait_sleep c p s f env : s.(kcpu) = zero_cpu -> s.(curproc) = Some c -> s.(procs) !! c = Some p ->
  (f (waiting c s)).(kcpu) = (waiting c s).(kcpu) -> (f (waiting c s)).(curproc) = Some c ->
  sleep (chan_proc c) ptable_lock (with_lock ptable_lock s) (f :: env) =
    Ok tt (upd_proc c (set_chan None) (f (waiting c s))) env.
Proof.
  intros Hk Hc Hp F1 F2. unfold sleep. rewrite bind_gets. change (curproc (with_lock ptable_lock s)) with s.(curproc). rewrite Hc.
  assert (Hwk : (waiting c s).(kcpu) = Mkcpu false 1 false {[ptable_lock]}).
  { unfold waiting, upd_proc, with_lock, upd_cpu. simpl. rewrite Hk. simpl. done. }
  rewrite bool_decide_eq_false_2 by (by intros ?). cbn [when]. rewrite bind_ret, !bind_modify. fold (waiting c s).
  assert (Hw : (waiting c s).(procs) !! c = Some (set_state SLEEPING (set_chan (Some (chan_proc c)) p))).
  { unfold waiting, upd_proc. simpl. by rewrite !list_lookup_alter_eq, Hp. }
  mstep (sched_eq c _ (waiting c s) f env Hwk Hc Hw ltac:(done)).
  replace (upd_cpu (set_intena false) (f (waiting c s))) with (f (waiting c s))
    by (unfold upd_cpu; rewrite F1, Hwk; simpl; symmetry; apply set_kcpu_id; by rewrite F1).
  unfold cur. rewrite bind_assoc, bind_gets, F2. cbn [deref]. by rewrite bind_ret, bind_modify.
Qed.

(** C25: wait. If a child is a zombie, wait returns the pid of the first one,
    with the child's slot free and exactly its stack and the pages of its
    address space back on the free list. Without children, or when the
    caller has been killed, it fails. Otherwise it sleeps on the caller,
    with only the process table locked, and when it is scheduled again it
    behaves as a new call. *)
Theorem wait_collects s c p env : calm s -> s.(kcpu) = zero_cpu -> s.(curproc) = Some c -> s.(procs) !! c = Some p ->
  match list_find (zombie_of c) s.(procs) with
  | Some (i, x) => forall l, disposable s l x -> exists s' l', wait s env = Ok x.(pid) s' env /\ collected s l i x s' l'
  | None =>
      if existsb (is_child c) s.(procs) && negb p.(killed) then
        forall f env', env = f :: env' ->
          (f (waiting c s)).(kcpu) = (waiting c s).(kcpu) -> (f (waiting c s)).(curproc) = Some c ->
          length (f (waiting c s)).(procs) = NPROC ->
          wait s env = wait (set_kcpu s.(kcpu) (upd_proc c (set_chan None) (f (waiting c s)))) env'
      else wait s env = Ok (-1) s env
  end.
Proof.
  intros Hcalm Hk Hc Hp. pose proof Hcalm as (Hq & Hl & Hn). rewrite (wait_eq c s env Hcalm Hc).
  pose proof (scan_children c (with_lock ptable_lock s) env Hn) as Hscan. change (procs (with_lock ptable_lock s)) with s.(procs) in Hscan.
  cbn [mloop]. destruct (list_find (zombie_of c) s.(procs)) as [[i x]|] eqn:E.
  - intros l Hd. apply list_find_Some in E as (Hi & _).
    destruct (reap_run s l i x env Hcalm Hd Hi) as (s' & l' & Er & Hco). exists s', l'. split; [|done].
    assert (Hbody : wait_body c (with_lock ptable_lock s) env = Ok (Some x.(pid)) s' env); [|by mstep Hbody].
    unfold wait_body. setoid_rewrite (bind_ok _ _ _ env (Some x.(pid)) s' env); [done|]. rewrite Hscan. by mstep Er.
  - assert (Hbody : wait_body c (with_lock ptable_lock s) env =
      (if negb (existsb (is_child c) s.(procs)) || p.(killed) then release ptable_lock ;;; ret (Some (-1))
       else sleep (chan_proc c) ptable_lock ;;; ret None) (with_lock ptable_lock s) env).
    { unfold wait_body. mstep Hscan. rewrite bind_gets. mstep (get_proc_eq c p (with_lock ptable_lock s) env Hp). done. }
    destruct (existsb (is_child c) s.(procs)) eqn:Ek, p.(killed) eqn:Ekl; cbn [negb orb andb] in Hbody |- *.
    2: { intros f env' -> F1 F2 F3. revert Hbody. mstep (wait_sleep c p s f env' Hk Hc Hp F1 F2). intros Hbody. mstep Hbody.
         set (s2 := upd_proc c (set_chan None) (f (waiting c s))).
         assert (Hcalm2 : calm (set_kcpu s.(kcpu) s2)).
         { unfold calm, quiet. change (kcpu (set_kcpu (kcpu s) s2)) with (kcpu s). rewrite Hk. split_and!; [done|done|done|apply not_elem_of_empty|].
           unfold s2, upd_proc. simpl. by rewrite length_alter. }
         rewrite (wait_eq c (set_kcpu s.(kcpu) s2) env' Hcalm2 F2). f_equal.
         assert (Hk2 : s2.(kcpu) = (with_lock ptable_lock s).(kcpu)) by exact F1.
         clear Hbody Hcalm2. clearbody s2. destruct s2. simpl in Hk2. subst. done. }
    all: revert Hbody; mstep (release_quiet ptable_lock s (with_lock ptable_lock s) env Hq Hl eq_refl); intros Hbody; mstep Hbody;
      unfold ret; f_equal; by destruct s.
Qed.

End Facts.

(** ** A witness: a parent and its zombie child *)

#[local] Existing Instance demo_image.

Definition demo_zombie : proc :=
  Mkproc 4096 (demo_page 7) (demo_page 8) ZOMBIE 2 (Some 0%nat) 0 0 None false (replicate NOFILE None) None (replicate 16 0).

(** A state in which process 0 runs and its child has ended. *)
Definition lingering (x : kstate) : kstate :=
  set_curproc (Some 0%nat) (set_procs (zero_proc :: demo_zombie :: replicate (NPROC - 2) zero_proc) x).

Lemma lingering_zombie x : list_find (zombie_of 0) (lingering x).(procs) = Some (1%nat, demo_zombie).
Proof. reflexivity. Qed.

Lemma lingering_kcpu x : (lingering x).(kcpu) = x.(kcpu).
Proof. reflexivity. Qed.

Lemma lingering_cur x : (lingering x).(curproc) = Some 0%nat /\ (lingering x).(procs) !! 0%nat = Some zero_proc.
Proof. done. Qed.

Lemma lingering_calm x : x.(kcpu) = zero_cpu -> calm (lingering x).
Proof. intros Hk. unfold calm, quiet. rewrite lingering_kcpu, Hk. split_and!; [done|done|done|apply not_elem_of_empty|done]. Qed.

Lemma lingering_disposable x l : backed x l (demo_page 7) 4096 -> l ⊆ demo_list 6 ->
  (forall q, part x.(mem) (demo_page 7) 4096 q -> q ∈ demo_list 7) -> disposable (lingering x) l demo_zombie.
Proof.
  intros Hb Hl Hpt. destruct demo_page_8 as [Hp8 Hn8].
  constructor; [by apply (backed_same x)|]. split_and?; [done|intros Hx%Hl; apply Hn8; by right|by intros ?%Hpt].
Qed.

Lemma demo_parent_idle : demo_parent.(kcpu) = zero_cpu.
Proof.
  destruct demo_parent_backed as (_ & _ & _ & _ & m & fl & E). destruct (demo_free_same 7) as [Hk _].
  revert E Hk. generalize (demo_free 7) as z. generalize demo_parent as y. intros y z -> Hk. exact Hk.
Qed.

Lemma wait_collects_witness : exists l s' l',
  wait (lingering demo_parent) [] = Ok 2 s' [] /\ collected (lingering demo_parent) l 1 demo_zombie s' l'.
Proof.
  destruct demo_parent_backed as (l & Hb & Hl & Hpt & _). exists l.
  pose proof (wait_collects ltac:(vm_compute; done) (lingering demo_parent) 0 zero_proc [] (lingering_calm _ demo_parent_idle)
    (eq_trans (lingering_kcpu _) demo_parent_idle) (proj1 (lingering_cur _)) (proj2 (lingering_cur _))) as Hw.
  rewrite lingering_zombie in Hw. exact (Hw l (lingering_disposable _ l Hb Hl Hpt)).
Defined.

End WaitFacts.
