(* ===== verification/ExitFacts.v ===== *)
(** exit (kernel/proc.c): the process gives up what it shares with others,
    hands its children to init, wakes its parent and becomes a zombie. *)
From S2P Require Import Prelude Types Spinlock Sched Inode InodeFacts IputFacts Kalloc File Proc ProcFacts ForkFacts WaitFacts.
Import Spinlock Sched Inode IputFacts Kalloc File Proc ProcFacts ForkFacts WaitFacts.

Module ExitFacts.

Section Facts.
Context `{Image}.

(** ** Closing the files *)

(** A file with other users only loses a reference. *)
Lemma fileclose_shared f x s env : quiet s -> ftable_lock ∉ s.(kcpu).(held) -> s.(ftable) !! f = Some x -> 1 < x.(f_ref) ->
  fileclose f s env = Ok tt (upd_file f (more_refs (-1)) s) env.
Proof.
  intros Hq Hl Hx Hr. unfold fileclose. mstep (acquire_quiet ftable_lock s env Hq Hl). set (s0 := with_lock ftable_lock s).
  assert (Hg : forall s y, s.(ftable) !! f = Some y -> get_file f s env = Ok y s env).
  { intros s1 y Hy. unfold get_file, bind, gets, deref, ret. by rewrite Hy. }
  mstep (Hg s0 x Hx). rewrite (proj2 (Z.ltb_ge _ _)) by lia. rewrite bind_modify.
  set (s1 := upd_file f _ s0). assert (Hy : s1.(ftable) !! f = Some (more_refs (-1) x)).
  { unfold s1, upd_file. simpl. by rewrite list_lookup_alter_eq, Hx. }
  mstep (Hg s1 _ Hy). rewrite (proj2 (Z.ltb_lt _ _)) by (simpl; lia).
  rewrite (release_quiet ftable_lock s s1 env Hq Hl eq_refl). f_equal.
Qed.

Definition close_fd (c fd : nat) : K unit :=
  p <- get_proc c ;;
  o <- deref "proc->ofile" (p.(ofile) !! fd) ;;
  match o with
  | None => ret tt
  | Some f =>
      fileclose f ;;;
      modify (upd_proc c (fun y => set_ofile (<[fd := None]> y.(ofile)) y))
  end.

(** Every file of [fs] has users besides the descriptors in [fs]. *)
Definition shared (ft : list file) (fs : list (option nat)) : Prop :=
  forall f, Some f ∈ fs -> exists x, ft !! f = Some x /\ uses f fs < x.(f_ref).

Lemma uses_pos g fs : 0 <= uses g fs.
Proof. unfold uses. lia. Qed.

Lemma shared_tail o ft fs : shared ft (o :: fs) ->
  shared (match o with Some f => alter (more_refs (-1)) f ft | None => ft end) fs.
Proof.
  intros Hs g Hg. destruct (Hs g ltac:(by right)) as (x & Hx & Hu). rewrite uses_cons in Hu. destruct o as [f|].
  - destruct (decide (f = g)) as [->|Hne].
    + rewrite decide_True in Hu by done. exists (more_refs (-1) x). rewrite list_lookup_alter_eq, Hx. split; [done|simpl; lia].
    + rewrite decide_False in Hu by congruence. exists x. rewrite list_lookup_alter_ne by done. split; [done|lia].
  - exists x. rewrite decide_False in Hu by done. split; [done|lia].
Qed.

Lemma close_loop c P m fl n ic s env fs : forall ft x pre,
  quiet s -> ftable_lock ∉ s.(kcpu).(held) -> (c < length P)%nat -> x.(ofile) = pre ++ fs -> shared ft fs ->
  mfor (seq (length pre) (length fs)) (close_fd c) (put (Mkparts (<[c := x]> P) m fl n ft ic) s) env =
    Ok tt (put (Mkparts (<[c := set_ofile (pre ++ replicate (length fs) None) x]> P) m fl n (bump (-1) fs ft) ic) s) env.
Proof.
  induction fs as [|o fs IH]; intros ft x pre Hq Hl Hc Hof Hsh.
  { simpl. unfold ret. do 2 f_equal. rewrite app_nil_r in *. rewrite <- Hof. by destruct x. }
  set (s0 := put (Mkparts (<[c := x]> P) m fl n ft ic) s).
  assert (Hg : get_proc c s0 env = Ok x s0 env) by (apply get_proc_eq; simpl; by apply list_lookup_insert_eq).
  assert (Hi : x.(ofile) !! length pre = Some o) by (rewrite Hof; by apply list_lookup_middle).
  set (x' := set_ofile (pre ++ None :: fs) x).
  set (ft' := match o with Some f => alter (more_refs (-1)) f ft | None => ft end).
  assert (Hbody : close_fd c (length pre) s0 env = Ok tt (put (Mkparts (<[c := x']> P) m fl n ft' ic) s) env).
  { unfold close_fd. mstep Hg. rewrite Hi. cbn [deref]. rewrite bind_ret. destruct o as [f|].
    - destruct (Hsh f ltac:(left)) as (y & Hy & Hu). rewrite uses_cons, decide_True in Hu by done. pose proof (uses_pos f fs).
      mstep (fileclose_shared f y s0 env Hq Hl Hy ltac:(lia)).
      change (upd_file f (more_refs (-1)) s0) with (put (Mkparts (<[c := x]> P) m fl n ft' ic) s). unfold modify. rewrite put_proc by done.
      do 4 f_equal. unfold x'. rewrite Hof. f_equal. rewrite insert_app_r_alt by lia. by rewrite Nat.sub_diag.
    - unfold ret, s0. do 4 f_equal. unfold x'. rewrite <- Hof. by destruct x. }
  cbn [length seq mfor]. mstep Hbody. specialize (IH ft' x' (pre ++ [None])). rewrite length_app in IH. simpl in IH. rewrite Nat.add_1_r in IH.
  rewrite IH; [|done..| |by apply (shared_tail o)]; [|by rewrite <- app_assoc]. cbn [replicate]. rewrite <- app_assoc. by destruct o.
Qed.

(** ** The children *)

Definition adopt (c ini : nat) (x : proc) : proc := if bool_decide (x.(parent) = Some c) then set_parent (Some ini) x else x.

Definition orphan (c : nat) (x : proc) : bool := bool_decide (x.(parent) = Some c) && bool_decide (x.(state) = ZOMBIE).

Definition adopt_step (c i : nat) : K unit :=
  x <- get_proc i ;;
  when (bool_decide (x.(parent) = Some c))
    (ini <- gets initproc ;;
     modify (upd_proc i (set_parent ini)) ;;;
     when (bool_decide (x.(state) = ZOMBIE)) (wakeup1_proc ini)).

Definition wake_if (b : bool) (ch : channel) (l : list proc) : list proc := if b then wake ch <$> l else l.

Lemma wake_adopt ch c ini x : adopt c ini (wake ch x) = wake ch (adopt c ini x).
Proof.
  unfold adopt, wake. destruct (bool_decide (state x = SLEEPING /\ chan x = Some ch)) eqn:E1, (bool_decide (parent x = Some c)) eqn:E2;
    simpl; by rewrite ?E1, ?E2.
Qed.

Lemma wake_twice ch x : wake ch (wake ch x) = wake ch x.
Proof. unfold wake at 2 3. case_bool_decide as E; [|by unfold wake; rewrite bool_decide_eq_false_2]. unfold wake. by rewrite bool_decide_eq_false_2 by (by intros [? _]). Qed.

Lemma orphan_wake c ch x : orphan c (wake ch x) = orphan c x.
Proof.
  unfold orphan, wake. destruct (bool_decide_reflect (state x = SLEEPING /\ chan x = Some ch)) as [[E _]|]; [|done]. simpl. rewrite E.
  done.
Qed.

Lemma wakes_twice ch (l : list proc) : wake ch <$> (wake ch <$> l) = wake ch <$> l.
Proof. rewrite <- list_fmap_compose. apply list_fmap_ext. intros _ y _. apply wake_twice. Qed.

Lemma adopt_wakes c ini ch (l : list proc) : adopt c ini <$> (wake ch <$> l) = wake ch <$> (adopt c ini <$> l).
Proof. rewrite <- !list_fmap_compose. apply list_fmap_ext. intros _ y _. apply wake_adopt. Qed.

Lemma existsb_wake c ch (l : list proc) : existsb (orphan c) (wake ch <$> l) = existsb (orphan c) l.
Proof. induction l as [|y l IH]; [done|]. rewrite fmap_cons. cbn [existsb]. by rewrite orphan_wake, IH. Qed.

Lemma adopt_loop c ini env k : forall suf s pre, length suf = k -> s.(procs) = pre ++ suf -> length (pre ++ suf) = NPROC -> s.(initproc) = Some ini ->
  mfor (seq (length pre) k) (adopt_step c) s env =
    Ok tt (set_procs (wake_if (existsb (orphan c) suf) (chan_proc ini) (pre ++ (adopt c ini <$> suf))) s) env.
Proof.
  induction k as [|k IH]; intros suf s pre Hk Hs Hn Hini; (destruct suf as [|x suf]; [try done|try done]).
  { simpl. unfold ret. rewrite <- Hs. by destruct s. }
  assert (Hi : s.(procs) !! length pre = Some x) by (rewrite Hs; by apply list_lookup_middle).
  set (w := wake_if (orphan c x) (chan_proc ini)).
  set (s1 := set_procs (w (pre ++ adopt c ini x :: suf)) s).
  assert (Hbody : adopt_step c (length pre) s env = Ok tt s1 env).
  { unfold adopt_step. mstep (get_proc_eq _ _ s env Hi). unfold s1, w, adopt, orphan. destruct (bool_decide (x.(parent) = Some c)); cbn [when andb].
    - rewrite bind_gets, Hini, bind_modify.
      assert (E : upd_proc (length pre) (set_parent (Some ini)) s = set_procs (pre ++ set_parent (Some ini) x :: suf) s).
      { unfold upd_proc. rewrite Hs. f_equal. rewrite alter_app_r_alt by lia. by rewrite Nat.sub_diag. }
      rewrite E. destruct (bool_decide (x.(state) = ZOMBIE)); cbn [when wake_if wakeup1_proc]; [|done].
      rewrite wakeup1_eq; [unfold woken; simpl; by destruct s|]. simpl. rewrite !length_app in *. done.
    - simpl. rewrite <- Hs. unfold ret. by destruct s. }
  cbn [seq mfor]. mstep Hbody.
  set (z := if orphan c x then wake (chan_proc ini) else fun y => y).
  assert (Hw : forall l, w l = z <$> l) by (intros l; unfold w, z, wake_if; destruct (orphan c x); [done|by rewrite list_fmap_id]).
  assert (Hs1 : s1.(procs) = ((z <$> pre) ++ [z (adopt c ini x)]) ++ (z <$> suf)) by (unfold s1; simpl; rewrite Hw, fmap_app, <- app_assoc; done).
  assert (Hlen : length ((z <$> pre) ++ [z (adopt c ini x)]) = S (length pre)) by (rewrite length_app, length_fmap; simpl; lia).
  rewrite <- Hlen, (IH (z <$> suf) s1 _ ltac:(rewrite length_fmap; simpl in Hk; lia) Hs1); [| |done].
  2: { rewrite <- Hs1. unfold s1. simpl. rewrite Hw, length_fmap. rewrite length_app in *. done. }
  f_equal. unfold s1. transitivity (set_procs (wake_if (existsb (orphan c) (z <$> suf)) (chan_proc ini) (((z <$> pre) ++ [z (adopt c ini x)]) ++ (adopt c ini <$> (z <$> suf)))) s); [by destruct s|].
  f_equal. cbn [existsb]. unfold z. destruct (orphan c x); [|by rewrite !list_fmap_id, <- app_assoc].
  rewrite existsb_wake, adopt_wakes, <- app_assoc. cbn [orb app]. unfold wake_if.
  destruct (existsb (orphan c) suf); rewrite !fmap_app, !fmap_cons; [|done]. by rewrite !wakes_twice, wake_twice.
Qed.
(** ** exit *)

(** A process [p] in slot [c] that may exit, other processes using the files
    and the directory it uses. *)
Record exitable (s : kstate) (c : nat) (p : proc) (ini ip : nat) : Prop := {
  ex_idle : s.(kcpu) = zero_cpu;
  ex_len : length s.(procs) = NPROC;
  ex_cur : s.(curproc) = Some c /\ s.(procs) !! c = Some p;
  ex_init : s.(initproc) = Some ini /\ ini <> c;
  ex_parent : p.(parent) <> Some c;
  ex_files : length p.(ofile) = NOFILE /\ shared s.(ftable) p.(ofile);
  ex_cwd : p.(cwd) = Some ip /\ exists i, s.(icache) !! ip = Some i /\ last_ref i = false
}.

Definition wake_opt (o : option nat) (x : proc) : proc := match o with Some pp => wake (chan_proc pp) x | None => x end.

(** What becomes of the other processes: the parent is woken, the children
    are init's, and init is woken if one of them is a zombie. *)
Definition passed (s : kstate) (c ini : nat) (o : option nat) (x : proc) : proc :=
  let y := adopt c ini (wake_opt o x) in
  if existsb (orphan c) s.(procs) then wake (chan_proc ini) y else y.

Definition zombie (p : proc) : proc := set_state ZOMBIE (set_cwd None (set_ofile (replicate NOFILE None) p)).

(** The state in which exit gives up the processor. *)
Record exited (s : kstate) (c : nat) (p : proc) (ini ip : nat) (s' : kstate) : Prop := {
  xd_others : forall i x, i <> c -> s.(procs) !! i = Some x -> s'.(procs) !! i = Some (passed s c ini p.(parent) x);
  xd_self : p.(state) <> SLEEPING -> s'.(procs) !! c = Some (zombie p);
  xd_files : forall g, s'.(ftable) !! g = more_refs (- uses g p.(ofile)) <$> s.(ftable) !! g;
  xd_cwd : s'.(icache) = alter less ip s.(icache);
  xd_lock : s'.(kcpu) = Mkcpu false 1 false {[ptable_lock]};
  xd_rest : exists P ft ic k, s' = set_procs P (set_ftable ft (set_icache ic (set_kcpu k s)))
}.

Lemma existsb_alter (f : proc -> bool) g i l : (forall x, f (g x) = f x) -> existsb f (alter g i l) = existsb f l.
Proof. intros Hg. revert i. induction l as [|x l IH]; intros [|i]; [done..| |]; simpl; [by rewrite Hg|f_equal; apply IH]. Qed.

Lemma existsb_wake_opt c o l : existsb (orphan c) (wake_opt o <$> l) = existsb (orphan c) l.
Proof. destruct o; [apply existsb_wake|]. simpl. by rewrite list_fmap_id. Qed.

Lemma wakeup1_proc_eq o s env : length s.(procs) = NPROC -> wakeup1_proc o s env = Ok tt (set_procs (wake_opt o <$> s.(procs)) s) env.
Proof. intros Hn. destruct o; [by apply wakeup1_eq|]. simpl. unfold ret. rewrite list_fmap_id. by destruct s. Qed.

(** The process table from the closed files to the switch. *)
Definition exit_procs (s : kstate) (c ini : nat) (p : proc) : list proc :=
  alter (set_state ZOMBIE) c (passed s c ini p.(parent) <$> <[c := set_cwd None (set_ofile (replicate NOFILE None) p)]> s.(procs)).

Lemma exit_list s c ini p (P := <[c := set_cwd None (set_ofile (replicate NOFILE None) p)]> s.(procs)) : s.(procs) !! c = Some p ->
  alter (set_state ZOMBIE) c (wake_if (existsb (orphan c) (wake_opt p.(parent) <$> P)) (chan_proc ini) (adopt c ini <$> (wake_opt p.(parent) <$> P)))
  = exit_procs s c ini p.
Proof.
  intros Hp. unfold exit_procs. fold P. f_equal. rewrite existsb_wake_opt.
  assert (E : existsb (orphan c) P = existsb (orphan c) s.(procs)).
  { rewrite <- (existsb_alter (orphan c) (fun y => set_cwd None (set_ofile (replicate NOFILE None) y)) c s.(procs)) by done. f_equal.
    unfold P. rewrite list_insert_alter. apply list_alter_ext; [|done]. intros y Hy. simpl. congruence. }
  rewrite E. unfold wake_if, passed. destruct (existsb (orphan c) s.(procs)); rewrite <- !list_fmap_compose; done.
Qed.

Lemma set_procs_twice P Q s : set_procs P (set_procs Q s) = set_procs P s.
Proof. reflexivity. Qed.

Lemma set_procs_kcpu P k s : set_procs P (set_kcpu k s) = set_kcpu k (set_procs P s).
Proof. reflexivity. Qed.

Lemma put_locked P1 P2 P3 m fl n ft ic s k (s1 := with_lock ptable_lock (put (Mkparts P1 m fl n ft ic) s)) : s1.(kcpu) = k ->
  forall P, set_procs P (set_procs P3 (set_procs P2 s1)) = set_kcpu k (put (Mkparts P m fl n ft ic) s).
Proof.
  intros Hk P. rewrite !set_procs_twice. unfold s1, with_lock, upd_cpu in *. rewrite set_procs_kcpu.
  change (kcpu (set_kcpu ?a ?b)) with a in Hk. rewrite Hk. unfold put. rewrite set_procs_twice. reflexivity.
Qed.

Definition exit_tail (c : nat) : K unit :=
  acquire ptable_lock ;;;
  p <- get_proc c ;;
  wakeup1_proc p.(parent) ;;;
  mfor (seq 0 NPROC) (adopt_step c) ;;;
  modify (upd_proc c (set_state ZOMBIE)) ;;;
  sched ;;;
  panic "zombie exit".

Lemma exit_tail_run c ini p s0 m fl n ft ic f env (x := set_cwd None (set_ofile (replicate NOFILE None) p)) :
  s0.(kcpu) = zero_cpu -> length s0.(procs) = NPROC -> s0.(curproc) = Some c -> s0.(procs) !! c = Some p -> s0.(initproc) = Some ini ->
  exit_tail c (put (Mkparts (<[c := x]> s0.(procs)) m fl n ft ic) s0) (f :: env) =
    Err (Panic "zombie exit") (upd_cpu (set_intena false)
      (f (set_kcpu (Mkcpu false 1 false {[ptable_lock]}) (put (Mkparts (exit_procs s0 c ini p) m fl n ft ic) s0)))) env.
Proof.
  intros Hk Hn Hc Hp Hini. pose proof (lookup_lt_Some _ _ _ Hp) as Hlt. set (s := put _ s0).
  assert (Hq : quiet s) by (unfold quiet; change (kcpu s) with (kcpu s0); rewrite Hk; done).
  assert (Hl : ptable_lock ∉ s.(kcpu).(held)) by (change (kcpu s) with (kcpu s0); rewrite Hk; apply not_elem_of_empty).
  unfold exit_tail. mstep (acquire_quiet ptable_lock s (f :: env) Hq Hl). set (s1 := with_lock ptable_lock s).
  assert (Hk1 : s1.(kcpu) = Mkcpu false 1 false {[ptable_lock]}) by (unfold s1, with_lock, upd_cpu; simpl; by rewrite Hk).
  assert (Hx : s1.(procs) !! c = Some x) by (simpl; by apply list_lookup_insert_eq).
  mstep (get_proc_eq c x s1 (f :: env) Hx). change x.(parent) with p.(parent).
  assert (Hn1 : length s1.(procs) = NPROC) by (simpl; by rewrite length_insert). mstep (wakeup1_proc_eq p.(parent) s1 (f :: env) Hn1).
  set (s2 := set_procs _ s1).
  pose proof (adopt_loop c ini (f :: env) NPROC s2.(procs) s2 [] ltac:(simpl; by rewrite length_fmap, length_insert) eq_refl ltac:(simpl; by rewrite length_fmap, length_insert) Hini) as Ha.
  mstep Ha. rewrite bind_modify. set (s3 := upd_proc c (set_state ZOMBIE) _).
  assert (E3 : s3 = set_kcpu (Mkcpu false 1 false {[ptable_lock]}) (put (Mkparts (exit_procs s0 c ini p) m fl n ft ic) s0)).
  { unfold s3, upd_proc. rewrite <- (exit_list s0 c ini p Hp). exact (put_locked _ _ _ _ _ _ _ _ _ _ Hk1 _). }
  assert (Hk3 : s3.(kcpu) = Mkcpu false 1 false {[ptable_lock]}) by (by rewrite E3).
  assert (Hz : exists z, s3.(procs) !! c = Some (set_state ZOMBIE z)).
  { rewrite E3. simpl. unfold exit_procs. rewrite list_lookup_alter_eq, list_lookup_fmap, list_lookup_insert_eq by done. by eexists. }
  destruct Hz as [z Hz]. mstep (sched_eq c _ s3 f env Hk3 Hc Hz ltac:(done)). rewrite E3. done.
Qed.

Lemma exit_eq s c p ini ip env : exitable s c p ini ip ->
  exit s env = exit_tail c (put (Mkparts (<[c := set_cwd None (set_ofile (replicate NOFILE None) p)]> s.(procs)) s.(mem) s.(freelist) s.(nextpid)
    (bump (-1) p.(ofile) s.(ftable)) (alter less ip s.(icache))) s) env.
Proof.
  intros [E1 E2 [E3 E4] [E5 E6] E7 [E8 E9] [E10 (i & Ei & El)]]. pose proof (lookup_lt_Some _ _ _ E4) as Hlt.
  assert (Hq : quiet s) by (unfold quiet; rewrite E1; done). assert (Hl : forall lk, lk ∉ s.(kcpu).(held)) by (intros lk; rewrite E1; apply not_elem_of_empty).
  unfold exit, cur. rewrite bind_assoc, bind_gets, E3. cbn [deref]. rewrite bind_ret, bind_gets, E5.
  rewrite bool_decide_eq_false_2 by congruence. fold (close_fd c).
  assert (Es : s = put (Mkparts (<[c := p]> s.(procs)) s.(mem) s.(freelist) s.(nextpid) s.(ftable) s.(icache)) s).
  { unfold put. simpl. rewrite list_insert_id by done. by destruct s. }
  pose proof (close_loop c s.(procs) s.(mem) s.(freelist) s.(nextpid) s.(icache) s env p.(ofile) s.(ftable) p [] Hq (Hl _) Hlt eq_refl E9) as Hcl.
  rewrite <- Es, E8 in Hcl. mstep Hcl. set (x := set_ofile ([] ++ replicate NOFILE None) p). set (s1 := put _ s).
  assert (Hx : s1.(procs) !! c = Some x) by (simpl; by apply list_lookup_insert_eq).
  mstep (get_proc_eq c x s1 env Hx). change x.(cwd) with p.(cwd). rewrite E10. cbn [deref]. rewrite bind_ret.
  mstep (iput_keep ip i s1 env Hq (Hl _) Ei El).
  change (upd_inode ip less s1) with (put (Mkparts (<[c := x]> s.(procs)) s.(mem) s.(freelist) s.(nextpid) (bump (-1) p.(ofile) s.(ftable)) (alter less ip s.(icache))) s).
  rewrite bind_modify, put_proc by done. subst x. cbn [app]. unfold exit_tail. reflexivity.
Qed.

Lemma put_rest P n ft ic k s : n = s.(nextpid) ->
  set_kcpu k (put (Mkparts P s.(mem) s.(freelist) n ft ic) s) = set_procs P (set_ftable ft (set_icache ic (set_kcpu k s))).
Proof. intros ->. by destruct s. Qed.

(** C26: exit. The first process must not exit: the kernel panics. Any other
    process, when others share its files and its directory, gives them up
    (each file loses a reference for each of its descriptors), its children
    become children of init, which is woken if one of them has ended, its
    parent is woken if it sleeps in wait, and it is a zombie, with its memory
    and stack still allocated, when it switches away with only the process
    table locked. It does not return: scheduled again, it would panic. *)
Theorem exit_zombie s c p ini ip f env :
  exitable s c p ini ip ->
  (forall env, exit (set_initproc (Some c) s) env = Err (Panic "init exiting") (set_initproc (Some c) s) env) /\
  exists s', exited s c p ini ip s' /\
    exit s (f :: env) = Err (Panic "zombie exit") (upd_cpu (set_intena false) (f s')) env.
Proof.
  intros Hex. pose proof Hex as [E1 E2 [E3 E4] [E5 E6] E7 [E8 E9] [E10 _]]. pose proof (lookup_lt_Some _ _ _ E4) as Hlt. split.
  { intros env'. unfold exit, cur. rewrite bind_assoc, bind_gets. change (curproc (set_initproc (Some c) s)) with s.(curproc). rewrite E3.
    cbn [deref]. rewrite bind_ret, bind_gets. change (initproc (set_initproc (Some c) s)) with (Some c). by rewrite bool_decide_eq_true_2. }
  rewrite (exit_eq s c p ini ip _ Hex). rewrite (exit_tail_run c ini p s) by done. eexists. split; [|reflexivity].
  constructor.
  - intros i x Hne Hx. simpl. unfold exit_procs. by rewrite list_lookup_alter_ne, list_lookup_fmap, list_lookup_insert_ne, Hx.
  - intros Hst. simpl. unfold exit_procs. rewrite list_lookup_alter_eq, list_lookup_fmap, list_lookup_insert_eq by done. simpl. f_equal.
    assert (Hw : forall ch x, x.(state) <> SLEEPING -> wake ch x = x).
    { intros ch x Hs. unfold wake. rewrite bool_decide_eq_false_2; [done|]. by intros [? _]. }
    unfold passed, zombie. assert (Ho : forall o x, x.(state) <> SLEEPING -> wake_opt o x = x) by (intros [pp|] x Hs; [by apply Hw|done]).
    rewrite Ho by done. unfold adopt. rewrite bool_decide_eq_false_2 by done. by destruct (existsb _ _); rewrite ?Hw by done.
  - intros g. simpl. rewrite bump_lookup. by replace (-1 * uses g p.(ofile)) with (- uses g p.(ofile)) by lia.
  - done.
  - done.
  - eexists _, _, _, _. by apply put_rest.
Qed.
End Facts.

(** ** A witness: a child that shares its file and directory with its parent *)

#[local] Existing Instance KallocFacts.KallocFacts.demo_image.

Definition shared_proc (st : procstate) (o : option nat) : proc :=
  Mkproc 0 0 0 st 1 o 0 0 None false (Some 0%nat :: replicate (NOFILE - 1) None) (Some 0%nat) (replicate 16 0).

Definition demo_exiting : kstate :=
  set_curproc (Some 1%nat) (set_initproc (Some 0%nat)
    (set_icache [set_i_ref 2 zero_inode] (set_ftable [Mkfile FD_INODE 2 true true 0 0 0]
      (set_procs (shared_proc SLEEPING None :: shared_proc RUNNING (Some 0%nat) :: replicate (NPROC - 2) zero_proc) (kstate0 []))))).

Lemma exit_zombie_witness :
  exitable demo_exiting 1 (shared_proc RUNNING (Some 0%nat)) 0 0 /\
  exists s', exited demo_exiting 1 (shared_proc RUNNING (Some 0%nat)) 0 0 s' /\
    exit demo_exiting [fun s => s] = Err (Panic "zombie exit") (upd_cpu (set_intena false) s') [].
Proof.
  assert (Hex : exitable demo_exiting 1 (shared_proc RUNNING (Some 0%nat)) 0 0).
  { constructor; try done.
    - split; [done|]. intros f Hf. apply elem_of_cons in Hf as [Hf|Hf]; [injection Hf as ->|apply elem_of_replicate in Hf as [? _]; done].
      exists (Mkfile FD_INODE 2 true true 0 0 0). done.
    - split; [done|]. by exists (set_i_ref 2 zero_inode). }
  split; [exact Hex|]. destruct (exit_zombie demo_exiting 1 (shared_proc RUNNING (Some 0%nat)) 0 0 (fun s => s) [] Hex) as [_ Hs]. exact Hs.
Defined.

End ExitFacts.
