(* ===== verification/NameFacts.v ===== *)
(** Name resolution (kernel/fs.c: namex, namei, nameiparent, with ilock,
    iunlock, iput): a path names the inode that walking the directory tree on
    the disk gives, and resolving it leaves no reference behind. *)
From S2P Require Import Prelude Types Spinlock Sched Bio BioFacts BioAbs BioRep Log LogSpec LogFacts Crash Inode BlockFacts InodeFacts Console Fs FileData Dir Path IputFacts ForkFacts.
Import Spinlock Sched Bio BioFacts BioAbs BioRep Log LogSpec LogFacts Inode BlockFacts InodeFacts Console Fs FileData Dir Path IputFacts.

Module NameFacts.

(** ** The tree on the disk, as a specification *)

Section Tree.
Context (v : Z -> option (list Z)).

(** The inode numbered [n], read from its block. *)
Definition node (n : Z) : option inode :=
  blk ← v (IBLOCK n); Some (load_dinode blk (dinode_off n) (Mkinode 1 n 1 I_VALID 0 0 0 0 0 [])).

(** Entry [k] is in use for the name. *)
Definition has_name (i : inode) (name : list Z) (k : Z) : bool :=
  match entry v i k with
  | Some e => bool_decide (de_inum e <> 0 /\ dir_name (de_name e) = dir_name name)
  | None => false
  end.

(** The inode number that the first such entry gives. *)
Definition child (i : inode) (name : list Z) : option Z :=
  k ← head (filter (fun k => has_name i name k = true) (seqZ 0 (nents i)));
  e ← entry v i k; Some (de_inum e).

(** Following the elements [es] from [n]; with [parent], to the directory
    that is to hold the last one. *)
Fixpoint walk (n : Z) (es : list (list Z)) (parent : bool) : option Z :=
  match es with
  | [] => if parent then None else Some n
  | e :: es' =>
      i ← node n;
      if i.(i_type) =? T_DIR then
        if parent && bool_decide (es' = []) then Some n
        else m ← child i e; walk m es' parent
      else None
  end.

(** [T] is a set of linked inodes whose directories are well formed and name
    only inodes of the set. *)
Definition tree (T : Z -> Prop) : Prop :=
  forall n, T n -> exists i, node n = Some i /\ i.(i_type) <> 0 /\ i.(i_nlink) <> 0 /\
    (i.(i_type) = T_DIR -> dir_ok v i /\ byte_file v i /\
       forall k e, 0 <= k < nents i -> entry v i k = Some e -> de_inum e <> 0 -> T (de_inum e)).

(** The [x] in the cache has the contents of the inode on the disk. *)
Definition agrees (x : inode) : Prop :=
  exists i, node x.(i_inum) = Some i /\ dinode_of x = dinode_of i.

(** A cache with at most one entry in use for an inode, where valid entries
    agree with the disk and [b] is the only entry that may be locked. *)
Definition icache_inv (b : option nat) (ic : list inode) : Prop :=
  icache_ok ic /\
  forall j x, ic !! j = Some x ->
    (Some j <> b -> has x.(i_flags) I_BUSY = false) /\
    (0 < x.(i_ref) -> x.(i_dev) = 1 -> has x.(i_flags) I_VALID = true -> agrees x).

End Tree.

(** ** Counting references *)

Definition total (g : inode -> Z) (ic : list inode) : Z := foldr (fun x a => g x + a) 0 ic.

(** The references to inode [n]. *)
Definition refs (n : Z) : list inode -> Z := total (fun x => if bool_decide (live 1 n x) then x.(i_ref) else 0).

Lemma total_alter g f ic j x :
  ic !! j = Some x -> total g (alter f j ic) = total g ic - g x + g (f x).
Proof.
  revert j. induction ic as [|y ic IH]; intros [|j] Hj; simplify_eq/=; [lia|].
  change (list_alter f j ic) with (alter f j ic). rewrite (IH j Hj). lia.
Qed.

(** The ref_counts alone, and how many of them are zero. *)
Definition ref_counts (ic : list inode) : list Z := i_ref <$> ic.
Definition zeros (rs : list Z) : nat := length (filter (fun r => r = 0) rs).
Definition nfree (ic : list inode) : nat := zeros (ref_counts ic).

(** The ref_counts with one reference less to each of [l]. *)
Definition drops (l : list nat) (rs : list Z) : list Z := foldr (alter Z.pred) rs l.

Lemma drops_alter l j f rs : (forall r, f (Z.pred r) = Z.pred (f r)) -> drops l (alter f j rs) = alter f j (drops l rs).
Proof.
  intros Hf. induction l as [|k l IH]; simpl; [done|]. rewrite IH. destruct (decide (k = j)) as [->|Hne].
  - rewrite !list_alter_alter_eq. apply list_alter_ext; [|done]. intros r _. simpl. by rewrite Hf.
  - by rewrite list_alter_alter_ne.
Qed.

Lemma zeros_pred j rs : (zeros (alter Z.pred j rs) <= S (zeros rs))%nat.
Proof.
  revert j. induction rs as [|r rs IH]; intros [|j]; unfold zeros in *; simpl; [lia|lia| |].
  - rewrite !filter_cons. repeat case_decide; simpl; lia.
  - specialize (IH j). change (list_alter Z.pred j rs) with (alter Z.pred j rs). rewrite !filter_cons. case_decide; simpl; lia.
Qed.

Lemma zeros_none ic : Forall (fun y => y.(i_ref) <> 0) ic -> nfree ic = 0%nat.
Proof.
  intros Hf. unfold nfree, zeros, ref_counts. induction Hf as [|x ic Hx _ IH]; [done|]. csimpl. by rewrite filter_cons_False.
Qed.

Lemma ref_counts_alter f j ic x (g : Z -> Z) : ic !! j = Some x -> (f x).(i_ref) = g x.(i_ref) ->
  ref_counts (alter f j ic) = alter g j (ref_counts ic).
Proof.
  intros Hx Hg. unfold ref_counts.
  apply list_eq. intros k. rewrite list_lookup_fmap. destruct (decide (k = j)) as [->|Hne].
  - rewrite !list_lookup_alter_eq, list_lookup_fmap, Hx. simpl. by rewrite Hg.
  - rewrite !list_lookup_alter_ne by done. by rewrite list_lookup_fmap.
Qed.

Lemma ref_counts_same f j ic x : ic !! j = Some x -> (f x).(i_ref) = x.(i_ref) -> ref_counts (alter f j ic) = ref_counts ic.
Proof.
  intros Hx Hg. rewrite (ref_counts_alter f j ic x id Hx Hg). apply list_alter_id. done.
Qed.

(** Changes that leave the count and the number of an entry alone. *)
Lemma refs_same n f ic j x :
  ic !! j = Some x -> (f x).(i_ref) = x.(i_ref) -> (f x).(i_dev) = x.(i_dev) -> (f x).(i_inum) = x.(i_inum) ->
  refs n (alter f j ic) = refs n ic.
Proof.
  intros Hj Hr Hd Hn. unfold refs. rewrite (total_alter _ _ _ _ _ Hj), Hr.
  rewrite (bool_decide_ext (live 1 n (f x)) (live 1 n x)); [lia|]. unfold live. by rewrite Hr, Hd, Hn.
Qed.

(** ** Locking an inode *)

(** States in which the inode cache, the processes and the open files may
    change, and no lock that [ilock] and [iunlock] take is held. *)
Class Steady (I : kstate -> Prop) : Prop := {
  steady_calm s : I s -> calm s /\ (icache_lock ∉ s.(kcpu).(held));
  steady_icache s ic : I s -> I (set_icache ic s);
  steady_procs s pr : length pr = length s.(procs) -> I s -> I (set_procs pr s);
  steady_ftable s ft : I s -> I (set_ftable ft s)
}.

Definition taken (x : inode) : inode := set_i_flags (Z.lor x.(i_flags) I_BUSY) x.
Definition given (x : inode) : inode := set_i_flags (clr x.(i_flags) I_BUSY) x.

(** What [ilock] makes of an entry whose block is [blk]. *)
Definition locked (blk : list Z) (x : inode) : inode :=
  let y := taken x in
  if has x.(i_flags) I_VALID then y
  else let z := load_dinode blk (dinode_off x.(i_inum)) y in set_i_flags (Z.lor z.(i_flags) I_VALID) z.

Lemma locked_keeps blk x :
  (locked blk x).(i_ref) = x.(i_ref) /\ (locked blk x).(i_dev) = x.(i_dev) /\ (locked blk x).(i_inum) = x.(i_inum) /\
  has (locked blk x).(i_flags) I_VALID = true /\ has (locked blk x).(i_flags) I_BUSY = true.
Proof.
  unfold locked. destruct (has (i_flags x) I_VALID) eqn:E; simpl; split_and?; try done;
    rewrite !has_lor; try rewrite E; try done; by rewrite !orb_true_r.
Qed.

Lemma iunlock_eq ip x s env :
  calm s -> icache_lock ∉ s.(kcpu).(held) -> s.(icache) !! ip = Some x -> 0 < x.(i_ref) -> has x.(i_flags) I_BUSY = true ->
  iunlock (Some ip) s env = Ok tt (set_procs (wake (chan_inode ip) <$> s.(procs)) (upd_inode ip given s)) env.
Proof.
  intros (Hq & Hp & Hl) Hlk Hx Hr Hb.
  unfold iunlock. mstep (get_inode_eq ip x s env Hx). rewrite Hb, (proj2 (Z.ltb_ge _ _)) by lia. cbn [negb orb].
  mstep (acquire_quiet icache_lock s env Hq Hlk). mrun. fold given.
  set (s1 := upd_inode ip given (with_lock icache_lock s)).
  assert (Hc1 : calm s1).
  { split; [by apply quiet_with_lock|split; [simpl; set_solver|done]]. }
  mstep (wakeup_eq (chan_inode ip) s1 env Hc1).
  by rewrite (release_quiet icache_lock s (woken (chan_inode ip) s1) env Hq Hlk eq_refl).
Qed.

Section Lock.
Context (I : kstate -> Prop) (v : Z -> option (list Z)) {HR : Reader I v} {HS : Steady I}.

Lemma upd_inode_at ip f s x : s.(icache) !! ip = Some x -> (upd_inode ip f s).(icache) !! ip = Some (f x).
Proof. intros Hx. by rewrite upd_inode_lookup, decide_True, Hx. Qed.

Lemma ilock_run ip x i s env :
  I s -> s.(icache) !! ip = Some x -> 0 < x.(i_ref) -> x.(i_dev) = 1 -> has x.(i_flags) I_BUSY = false ->
  node v x.(i_inum) = Some i -> i.(i_type) <> 0 ->
  exists blk s', ilock (Some ip) s env = Ok tt s' env /\ I s' /\ s'.(icache) = alter (locked blk) ip s.(icache) /\
    (agrees v x \/ has x.(i_flags) I_VALID = false -> dinode_of (locked blk x) = dinode_of i).
Proof.
  intros HI Hx Hr Hd Hb Hn Ht. destruct (steady_calm s HI) as [(Hq & _ & _) Hlk].
  unfold node in Hn. destruct (v (IBLOCK (i_inum x))) as [blk|] eqn:Hv; [|done]. simpl in Hn. injection Hn as <-.
  exists blk. unfold ilock. mstep (get_inode_eq ip x s env Hx). rewrite (proj2 (Z.ltb_ge _ _)) by lia.
  mstep (acquire_quiet icache_lock s env Hq Hlk). set (s0 := with_lock icache_lock s).
  assert (Hloop : mloop_env (i <- get_inode ip ;;
    if has i.(i_flags) I_BUSY then sleep (chan_inode ip) icache_lock ;;; ret None else ret (Some tt)) s0 env = Ok tt s0 env).
  { unfold mloop_env. simpl. assert (Hx0 : s0.(icache) !! ip = Some x) by done.
    unfold bind. rewrite (get_inode_eq ip x s0 env Hx0). by rewrite Hb. }
  mstep Hloop. mrun. fold taken.
  mstep (release_quiet icache_lock s (upd_inode ip taken s0) env Hq Hlk eq_refl).
  change (set_kcpu (kcpu s) (upd_inode ip taken s0)) with (upd_inode ip taken s). set (s1 := upd_inode ip taken s).
  assert (Hx1 : s1.(icache) !! ip = Some (taken x)) by (by apply upd_inode_at).
  assert (HI1 : I s1) by (by apply steady_icache). mstep (get_inode_eq ip _ s1 env Hx1).
  assert (Hval : has (taken x).(i_flags) I_VALID = has (i_flags x) I_VALID)
    by (simpl; rewrite has_lor; by rewrite orb_false_r).
  rewrite Hval. destruct (has (i_flags x) I_VALID) eqn:Ev; cbn [negb when].
  - exists s1. split_and?; try done.
    + unfold s1, upd_inode. simpl. apply list_alter_ext; [|done]. intros y Hy. simplify_eq. unfold locked. by rewrite Ev.
    + unfold locked. rewrite Ev. intros [(i & Hni & Hdi)|?]; [|done]. unfold node in Hni. rewrite Hv in Hni. simpl in Hni.
      injection Hni as <-. by rewrite <- Hdi.
  - change (i_dev (taken x)) with (i_dev x). change (i_inum (taken x)) with (i_inum x). rewrite Hd.
    destruct (reader_load s1 env _ blk HI1 Hv) as (b & bf & s2 & Hrun & Hget & Hbd & Hic & Hrel).
    mstep Hrun. mstep Hget. rewrite <- Hic in Hx1. mstep (get_inode_eq ip _ s2 env Hx1). mrun. rewrite Hbd.
    set (ld := load_dinode blk (dinode_off (i_inum (taken x)))).
    destruct (Hrel (alter ld ip (icache s2))) as (s3 & Hrun3 & HI3 & Hic3%lframe_icache). simpl in Hic3.
    change (upd_inode ip ld s2) with (set_icache (alter ld ip (icache s2)) s2). mstep Hrun3. mrun.
    set (vf := fun y => set_i_flags (Z.lor (i_flags y) I_VALID) y).
    assert (Hx3 : s3.(icache) !! ip = Some (ld (taken x))) by (rewrite Hic3, list_lookup_alter_eq; by rewrite Hx1).
    assert (Hx4 : (upd_inode ip vf s3).(icache) !! ip = Some (vf (ld (taken x)))) by (by apply upd_inode_at).
    mstep (get_inode_eq ip _ _ env Hx4). rewrite (proj2 (Z.eqb_neq _ 0)) by exact Ht.
    exists (upd_inode ip vf s3). split_and?; [done|by apply steady_icache| |].
    + unfold upd_inode. simpl. rewrite Hic3, Hic. unfold s1, upd_inode. simpl.
      rewrite !list_alter_alter_eq. apply list_alter_ext; [|done]. intros y Hy. simplify_eq. unfold locked. by rewrite Ev.
    + unfold locked. by rewrite Ev.
Qed.

Lemma iunlock_run ip x s env :
  I s -> s.(icache) !! ip = Some x -> 0 < x.(i_ref) -> has x.(i_flags) I_BUSY = true ->
  exists s', iunlock (Some ip) s env = Ok tt s' env /\ I s' /\ s'.(icache) = alter given ip s.(icache).
Proof.
  intros HI Hx Hr Hb. destruct (steady_calm s HI) as [Hc Hlk].
  eexists. split_and?; [exact (iunlock_eq ip x s env Hc Hlk Hx Hr Hb)| |done].
  apply steady_procs; [by rewrite length_fmap|by apply steady_icache].
Qed.
End Lock.


(** ** The cache *)

Section Cache.
Context (v : Z -> option (list Z)).

Lemma icache_ok_alter ic j x f :
  icache_ok ic -> ic !! j = Some x -> 0 <= (f x).(i_ref) ->
  (0 < (f x).(i_ref) -> 0 < x.(i_ref) /\ (f x).(i_dev) = x.(i_dev) /\ (f x).(i_inum) = x.(i_inum)) ->
  icache_ok (alter f j ic).
Proof.
  intros [Hr Hu] Hx H0 Hf.
  assert (Hold : forall dev inum k y, alter f j ic !! k = Some y -> live dev inum y ->
    exists z, ic !! k = Some z /\ live dev inum z).
  { intros dev inum k y Hy (Hl & Hd & Hn). rewrite list_lookup_alter in Hy. case_decide as E; [subst k|by exists y].
    rewrite Hx in Hy. injection Hy as <-. destruct (Hf Hl) as (? & Ed & En). exists x. unfold live. split_and?; congruence || done. }
  split.
  - intros k y Hy. rewrite list_lookup_alter in Hy. case_decide as E; [|by eapply Hr]. subst k. rewrite Hx in Hy. by injection Hy as <-.
  - intros dev inum k l y z Hy Hz Ly Lz. destruct (Hold _ _ _ _ Hy Ly) as (y' & Hy' & Ly').
    destruct (Hold _ _ _ _ Hz Lz) as (z' & Hz' & Lz'). by eapply Hu.
Qed.

Lemma icache_inv_alter b b' ic j x f :
  icache_inv v b ic -> ic !! j = Some x -> icache_ok (alter f j ic) ->
  (Some j <> b' -> has (f x).(i_flags) I_BUSY = false) ->
  (0 < (f x).(i_ref) -> (f x).(i_dev) = 1 -> has (f x).(i_flags) I_VALID = true -> agrees v (f x)) ->
  (forall k, k <> j -> Some k <> b' -> Some k <> b) ->
  icache_inv v b' (alter f j ic).
Proof.
  intros [_ Hp] Hx Hok Hb Ha Hbb. split; [done|]. intros k y Hy. rewrite list_lookup_alter in Hy.
  case_decide as E; [subst k; rewrite Hx in Hy; by injection Hy as <-|].
  destruct (Hp k y Hy) as [Hb' Ha']. split; [|done]. intros Hne. apply Hb', Hbb; congruence.
Qed.

Lemma agrees_same x y : y.(i_inum) = x.(i_inum) -> dinode_of y = dinode_of x -> agrees v x -> agrees v y.
Proof. intros Hn Hd (i & Hi & Hdi). exists i. rewrite Hn. split; [done|congruence]. Qed.

(** Entries of an inode that has its contents from the disk. *)
Lemma same_node x i : dinode_of x = dinode_of i ->
  i_type x = i_type i /\ i_nlink x = i_nlink i /\ nents x = nents i /\
  (forall k, entry v x k = entry v i k) /\ (forall bn, file_byte v x bn = file_byte v i bn) /\
  (x.(i_dev) = 1 -> dir_ok v i -> dir_ok v x).
Proof.
  intros Hd. destruct x as [dx nx rx fx tx ax bx lx sx wx], i as [di ni ri fi ti ai bi li si wi].
  unfold dinode_of in Hd. simpl in Hd. injection Hd as -> -> -> -> -> ->.
  split_and?; try done. intros Hd ((_ & Hs) & Ht). simpl in Hd. split; [split; [done|exact Hs]|exact Ht].
Qed.

Lemma has_name_named i name k : has_name v i name k = true <-> named v i name k.
Proof.
  unfold has_name, named. destruct (entry v i k) as [e|]; [|naive_solver].
  rewrite bool_decide_eq_true. naive_solver.
Qed.

Lemma filter_nothing {A} (P : A -> Prop) `{!forall x, Decision (P x)} l : Forall (fun x => ~ P x) l -> filter P l = [].
Proof. induction 1; [done|]. by rewrite filter_cons_False. Qed.

Lemma child_none i name : (forall k, 0 <= k < nents i -> ~ named v i name k) -> child v i name = None.
Proof.
  intros Hno. unfold child. rewrite filter_nothing; [done|]. apply Forall_forall. intros k Hk%elem_of_seqZ.
  rewrite has_name_named. apply Hno. lia.
Qed.

Lemma child_some i name k e : 0 <= k < nents i -> entry v i k = Some e -> named v i name k ->
  (forall j, 0 <= j < k -> ~ named v i name j) -> child v i name = Some (de_inum e).
Proof.
  intros Hk He Hn Hno. unfold child.
  replace (nents i) with (k + (1 + (nents i - k - 1))) by lia. rewrite seqZ_app by lia.
  rewrite filter_app, filter_nothing; [|apply Forall_forall; intros j Hj%elem_of_seqZ; rewrite has_name_named; apply Hno; lia].
  rewrite Z.add_0_l, seqZ_cons by lia. rewrite filter_cons_True by (by apply has_name_named). simpl. by rewrite He.
Qed.

Lemma upto_nul_cut n l : take n (upto_nul (take n l)) = take n (upto_nul l).
Proof.
  revert l. induction n as [|n IH]; intros [|c l]; try done. simpl. destruct (c =? 0); [done|]. simpl. by rewrite IH.
Qed.

(** Names are cut where a directory cuts them. *)
Lemma named_cut i e k : named v i (take (Z.to_nat DIRSIZ) e) k <-> named v i e k.
Proof. unfold named, dir_name. by rewrite upto_nul_cut. Qed.
End Cache.


(** ** Walking *)

Section Walk.
Context (I : kstate -> Prop) (v : Z -> option (list Z)) {HR : Reader I v} {HS : Steady I}.
Context (T : Z -> Prop) (Htree : tree v T).

(** The reference ref_counts and free entries without the references in [l]. *)
Context (R0 : Z -> Z) (F0 : nat) (HF0 : (2 <= F0)%nat).

(** A state with one reference for each entry and inode number of [l], where
    [b] is locked. *)
Definition keeping (b : option nat) (l : list (nat * Z)) (s : kstate) : Prop :=
  I s /\ icache_inv v b s.(icache) /\
  (forall ip n, (ip, n) ∈ l -> T n /\ exists x, s.(icache) !! ip = Some x /\ live 1 n x) /\
  (forall m, refs m s.(icache) = R0 m + Z.of_nat (length (filter (fun n => n = m) l.*2))) /\
  zeros (drops l.*1 (ref_counts s.(icache))) = F0.

Lemma keeping_at b l s ip n : keeping b l s -> (ip, n) ∈ l ->
  T n /\ exists x, s.(icache) !! ip = Some x /\ live 1 n x.
Proof. intros (_ & _ & Hl & _) Hin. by apply Hl. Qed.

(** A change of entry [ip] that keeps its identity and count. *)
Lemma keeping_alter b b' l s s' f ip x :
  keeping b l s -> I s' -> s'.(icache) = alter f ip s.(icache) -> s.(icache) !! ip = Some x ->
  (f x).(i_ref) = x.(i_ref) -> (f x).(i_dev) = x.(i_dev) -> (f x).(i_inum) = x.(i_inum) ->
  (Some ip <> b' -> has (f x).(i_flags) I_BUSY = false) ->
  (0 < (f x).(i_ref) -> (f x).(i_dev) = 1 -> has (f x).(i_flags) I_VALID = true -> agrees v (f x)) ->
  (forall k, k <> ip -> Some k <> b' -> Some k <> b) ->
  keeping b' l s'.
Proof.
  intros (HI & Hinv & Hl & Hrefs & Hz) HI' Hic Hx Hr Hd Hn Hb Ha Hbb.
  assert (Hok : icache_ok (alter f ip (icache s))).
  { apply (icache_ok_alter _ _ x); [apply Hinv|done|rewrite Hr; by eapply Hinv|]. rewrite Hr. done. }
  unfold keeping. split_and?; rewrite ?Hic; [done|by eapply icache_inv_alter| | |].
  - intros k n Hin. destruct (Hl k n Hin) as (HT & y & Hy & Hly). split; [done|]. rewrite list_lookup_alter.
    case_decide as E; [|by exists y]. subst k. rewrite Hx in Hy |- *. injection Hy as <-. exists (f x).
    split; [done|]. unfold live in *. by rewrite Hr, Hd, Hn.
  - intros m. rewrite (refs_same m f (icache s) ip x) by done. apply Hrefs.
  - by rewrite (ref_counts_same f ip _ x).
Qed.

Lemma lock_step l s env ip n : keeping None l s -> (ip, n) ∈ l ->
  exists i y s', node v n = Some i /\ ilock (Some ip) s env = Ok tt s' env /\ keeping (Some ip) l s' /\
    s'.(icache) !! ip = Some y /\ live 1 n y /\ dinode_of y = dinode_of i /\ has y.(i_flags) I_BUSY = true.
Proof.
  intros Hh Hin. destruct (keeping_at _ _ _ _ _ Hh Hin) as (HT & x & Hx & Hlx).
  destruct (Htree n HT) as (i & Hi & Ht & _). pose proof Hh as (HI & Hinv & _). pose proof Hlx as (Hr & Hd & Hn).
  destruct (proj2 Hinv ip x Hx) as [Hb Ha]. rewrite <- Hn in Hi.
  destruct (ilock_run I v ip x i s env HI Hx Hr Hd (Hb ltac:(done)) Hi Ht) as (blk & s' & Hrun & HI' & Hic & Hdi).
  destruct (locked_keeps blk x) as (Er & Ed & En & Ev & Eb).
  assert (Hdy : dinode_of (locked blk x) = dinode_of i).
  { apply Hdi. destruct (has (i_flags x) I_VALID) eqn:E; [left; by apply Ha|by right]. }
  exists i, (locked blk x), s'. rewrite Hn in Hi. split_and?; try done.
  - eapply keeping_alter; try done. intros _ _ _. exists i. by rewrite En, Hn.
  - rewrite Hic, list_lookup_alter_eq. by rewrite Hx.
  - unfold live. by rewrite Er, Ed, En.
Qed.

Lemma unlock_step l s env ip y n : keeping (Some ip) l s -> (ip, n) ∈ l -> s.(icache) !! ip = Some y ->
  has y.(i_flags) I_BUSY = true ->
  exists s', iunlock (Some ip) s env = Ok tt s' env /\ keeping None l s'.
Proof.
  intros Hh Hin Hy Hb. destruct (keeping_at _ _ _ _ _ Hh Hin) as (HT & x & Hx & Hlx). simplify_eq.
  pose proof Hh as (HI & Hinv & _).
  destruct (iunlock_run I ip y s env HI Hy ltac:(apply Hlx) Hb) as (s' & Hrun & HI' & Hic).
  exists s'. split; [done|]. eapply keeping_alter; try done.
  - intros _. apply has_clr_same.
  - intros Hr Hd Hv. change (has (clr (i_flags y) I_BUSY) I_VALID = true) in Hv. rewrite has_clr_other in Hv by done.
    by eapply (agrees_same v y); [..|eapply Hinv].
  - congruence.
Qed.

(** Dropping the reference at the front. *)
Lemma drop_step l s env ip n : keeping None ((ip, n) :: l) s ->
  (forall k m, (k, m) ∈ l -> k = ip -> exists x, s.(icache) !! ip = Some x /\ 1 < x.(i_ref)) ->
  exists s', iput ip s env = Ok tt s' env /\ keeping None l s'.
Proof.
  intros Hh Hmore. destruct (keeping_at _ _ _ ip n Hh ltac:(left)) as (HT & x & Hx & Hlx).
  pose proof Hh as (HI & Hinv & Hl & Hrefs & Hz). destruct (steady_calm s HI) as [(Hq & _) Hlk].
  destruct (proj2 Hinv ip x Hx) as [Hb Ha]. pose proof Hlx as (Hr & Hd & Hn).
  assert (Hlast : last_ref x = false).
  { unfold last_ref. destruct (has (i_flags x) I_VALID) eqn:E; [|by rewrite andb_false_r].
    destruct (Ha Hr Hd eq_refl) as (i & Hi & Hdi). destruct (Htree n HT) as (i' & Hi' & _ & Hnl & _).
    rewrite Hn, Hi' in Hi. injection Hi as <-. apply (same_node v) in Hdi as (_ & -> & _).
    rewrite (proj2 (Z.eqb_neq _ 0)) by done. by rewrite andb_false_r. }
  exists (upd_inode ip less s). split; [by eapply iput_keep|].
  assert (Hok : icache_ok (alter less ip (icache s))).
  { apply (icache_ok_alter _ _ x); [apply Hinv|done|simpl; lia|]. simpl. split_and?; try done; lia. }
  unfold keeping. split_and?.
  - by apply steady_icache.
  - eapply icache_inv_alter; try done. intros _ _ Hv. eapply (agrees_same v x); try done. by apply Ha.
  - intros k m Hin. destruct (Hl k m ltac:(by right)) as (HTm & y & Hy & Hly). split; [done|].
    rewrite upd_inode_lookup. case_decide as E; [|by exists y]. subst k. simplify_eq. rewrite Hx.
    exists (less x). split; [done|]. destruct (Hmore ip m Hin eq_refl) as (x' & Hx' & H1). simplify_eq.
    destruct Hly as (_ & ? & ?). unfold live, less. simpl. split_and?; try done; lia.
  - intros m. specialize (Hrefs m). unfold upd_inode. simpl. unfold refs in *. rewrite (total_alter _ _ _ _ _ Hx).
    rewrite Hrefs. csimpl. rewrite filter_cons.
    destruct (decide (n = m)) as [->|Hne].
    + rewrite bool_decide_eq_true_2 by done. simpl length. destruct (decide (i_ref x = 1)) as [E1|E1].
      * rewrite bool_decide_eq_false_2 by (unfold live, less; simpl; lia). lia.
      * rewrite bool_decide_eq_true_2 by (unfold live, less; simpl; lia). unfold less. simpl. lia.
    + rewrite !bool_decide_eq_false_2 by (unfold live, less; simpl; naive_solver congruence). lia.
  - unfold upd_inode. simpl. rewrite (ref_counts_alter less ip _ x Z.pred Hx) by (simpl; lia).
    rewrite drops_alter by done. exact Hz.
Qed.


Lemma keeping_free b l s : keeping b l s -> (length l <= 1)%nat -> (1 <= nfree s.(icache))%nat.
Proof.
  intros (_ & _ & _ & _ & Hz) Hl. unfold nfree. destruct l as [|[k n] [|]]; simpl in *; [lia| |lia].
  pose proof (zeros_pred k (ref_counts (icache s))). lia.
Qed.

(** One more reference. *)
Lemma iget_step b l s env n : keeping b l s -> (length l <= 1)%nat -> T n ->
  exists ip s', iget 1 n s env = Ok ip s' env /\ keeping b ((ip, n) :: l) s' /\
    forall j y, s.(icache) !! j = Some y -> 0 < y.(i_ref) ->
      exists y', s'.(icache) !! j = Some y' /\ y'.(i_flags) = y.(i_flags) /\ (j = ip -> 1 < y'.(i_ref)).
Proof.
  intros Hh Hlen HT. pose proof (keeping_free _ _ _ Hh Hlen) as Hfree. pose proof Hh as (HI & Hinv & Hl & Hrefs & Hz).
  destruct (steady_calm s HI) as [(Hq & _) Hlk].
  destruct (iget_run 1 n s env Hq Hlk (proj1 Hinv)) as [(ip & x & f & Hrun & Hx & Hlf & Hok & Hcase)|(_ & _ & Hnf)].
  2:{ rewrite (zeros_none _ Hnf) in Hfree. lia. }
  assert (Hfx : (f x).(i_ref) = x.(i_ref) + 1) by (destruct Hcase as [[_ ->]|(E & -> & _)]; simpl; lia).
  destruct (proj2 Hinv ip x Hx) as [Hb Ha].
  exists ip, (upd_inode ip f s). split_and?; [done| |].
  - unfold keeping. split_and?.
    + by apply steady_icache.
    + eapply icache_inv_alter; try done.
      * destruct Hcase as [[_ ->]|(_ & -> & _)]; [by apply Hb|intros; apply has_0].
      * destruct Hcase as [[(?&?&?) ->]|(_ & -> & _)]; [|simpl; by rewrite has_0].
        intros _ _ Hv. eapply (agrees_same v x); try done. by apply Ha.
    + intros k m Hin. apply elem_of_cons in Hin as [[= -> ->]|Hin].
      { split; [done|]. exists (f x). split; [by apply upd_inode_at|done]. }
      destruct (Hl k m Hin) as (HTm & y & Hy & Hly). split; [done|]. rewrite upd_inode_lookup.
      case_decide as E; [|by exists y]. subst k. simplify_eq. rewrite Hx. exists (f x). split; [done|].
      destruct Hcase as [[_ ->]|(E & _)]; [|destruct Hly; lia]. destruct Hly as (? & ? & ?). unfold live, more. simpl. split_and?; try done; lia.
    + intros m. specialize (Hrefs m). change (icache (upd_inode ip f s)) with (alter f ip (icache s)). unfold refs in *. rewrite (total_alter _ _ _ _ _ Hx).
      rewrite Hrefs. rewrite fmap_cons, filter_cons, Hfx. cbn [snd].
      destruct (decide (n = m)) as [->|Hne].
      * rewrite (bool_decide_eq_true_2 (live 1 m (f x))) by done. cbn [length].
        destruct Hcase as [[Hlx _]|(E & _)]; [rewrite bool_decide_eq_true_2 by done|rewrite bool_decide_eq_false_2 by (unfold live; lia)]; lia.
      * rewrite (bool_decide_eq_false_2 (live 1 m (f x))) by (destruct Hlf as (_ & _ & ?); unfold live; naive_solver congruence).
        rewrite bool_decide_eq_false_2; [lia|]. destruct Hcase as [[(_ & _ & ?) _]|(E & _)]; unfold live; [naive_solver congruence|lia].
    + unfold upd_inode. simpl. rewrite (ref_counts_alter f ip _ x Z.succ Hx) by lia.
      rewrite drops_alter by lia. rewrite list_alter_alter_eq. rewrite list_alter_id; [done|]. intros r. simpl. lia.
  - intros j y Hy Hry. rewrite upd_inode_lookup. case_decide as E; [subst j|by exists y]. simplify_eq. rewrite Hx.
    exists (f x). split; [done|]. split; [|intros; lia]. destruct Hcase as [[_ ->]|(? & _)]; [done|lia].
Qed.

(** Another reference to an entry in use. *)
Lemma idup_step b l s ip n x : keeping b l s -> T n -> s.(icache) !! ip = Some x -> live 1 n x ->
  keeping b ((ip, n) :: l) (upd_inode ip more s).
Proof.
  intros (HI & Hinv & Hl & Hrefs & Hz) HT Hx Hlx. destruct (proj2 Hinv ip x Hx) as [Hb Ha]. pose proof Hlx as (Hr & Hd & Hn).
  assert (Hok : icache_ok (alter more ip (icache s))).
  { apply (icache_ok_alter _ _ x); [apply Hinv|done|simpl; lia|done]. }
  unfold keeping. split_and?.
  - by apply steady_icache.
  - eapply icache_inv_alter; try done. intros _ _ Hv. eapply (agrees_same v x); try done. by apply Ha.
  - intros k m Hin. rewrite upd_inode_lookup. apply elem_of_cons in Hin as [[= -> ->]|Hin].
    { split; [done|]. rewrite decide_True, Hx by done. exists (more x). split; [done|]. unfold live, more. simpl. split_and?; try done; lia. }
    destruct (Hl k m Hin) as (HTm & y & Hy & Hly). split; [done|]. case_decide as E; [|by exists y]. subst k.
    simplify_eq. rewrite Hx. exists (more x). split; [done|]. destruct Hly as (? & ? & ?). unfold live, more. simpl. split_and?; try done; lia.
  - intros m. change (icache (upd_inode ip more s)) with (alter more ip (icache s)). specialize (Hrefs m). unfold refs in *.
    rewrite (total_alter _ _ _ _ _ Hx), Hrefs, fmap_cons, filter_cons. cbn [snd].
    rewrite (bool_decide_ext (live 1 m (more x)) (live 1 m x)) by (unfold live, more; simpl; lia).
    destruct (decide (n = m)) as [->|Hne]; cbn [length].
    + rewrite bool_decide_eq_true_2 by done. simpl. lia.
    + rewrite bool_decide_eq_false_2 by (unfold live; naive_solver congruence). lia.
  - change (icache (upd_inode ip more s)) with (alter more ip (icache s)). rewrite (ref_counts_alter more ip _ x Z.succ Hx) by (simpl; lia).
    change (((ip, n) :: l).*1) with (ip :: l.*1). cbn [drops foldr]. fold (drops l.*1 (alter Z.succ ip (ref_counts (icache s)))).
    rewrite drops_alter by lia. rewrite list_alter_alter_eq, list_alter_id; [done|]. intros r. simpl. lia.
Qed.

(** Looking up a name in a locked directory. *)
Lemma lookup_step s env ip n i y e :
  keeping (Some ip) [(ip, n)] s -> s.(icache) !! ip = Some y -> live 1 n y -> node v n = Some i ->
  dinode_of y = dinode_of i -> i.(i_type) = T_DIR -> Forall is_byte e ->
  match child v i e with
  | None => exists s', dirlookup ip (take (Z.to_nat DIRSIZ) e) s env = Ok None s' env /\
      keeping (Some ip) [(ip, n)] s' /\ s'.(icache) !! ip = Some y
  | Some m => exists off next s' y', dirlookup ip (take (Z.to_nat DIRSIZ) e) s env = Ok (Some (off, next)) s' env /\
      keeping (Some ip) [(next, m); (ip, n)] s' /\ s'.(icache) !! ip = Some y' /\ y'.(i_flags) = y.(i_flags) /\
      (next = ip -> 1 < y'.(i_ref))
  end.
Proof.
  intros Hh Hy Hly Hi Hd Ht Hb. destruct (keeping_at _ _ _ ip n Hh ltac:(left)) as (HT & _).
  destruct (Htree n HT) as (i' & Hi' & _ & _ & Hdir). rewrite Hi in Hi'. injection Hi' as <-.
  destruct (Hdir Ht) as (Hdok & Hbytes & Hch). pose proof Hh as (HI & Hinv & Hl & Hrefs & Hz).
  destruct (same_node v y i Hd) as (_ & _ & En & Ee & Efb & Hdoky).
  assert (Hby : byte_file v y) by (intros k c Hc; rewrite Efb in Hc; by eapply Hbytes).
  assert (Hname : Forall is_byte (take (Z.to_nat DIRSIZ) e)) by (by apply Forall_take).
  assert (Hnm : forall k, named v y (take (Z.to_nat DIRSIZ) e) k <-> named v i e k).
  { intros k. rewrite named_cut. unfold named. by rewrite Ee. }
  destruct (dirlookup_run I v ip y (take (Z.to_nat DIRSIZ) e) s env HI Hy) as (s1 & HI1 & Hic1 & Hcase).
  { apply Hdoky; [apply Hly|done]. }
  assert (Hh1 : keeping (Some ip) [(ip, n)] s1) by (unfold keeping; by rewrite Hic1).
  destruct Hcase as [[Hrun Hno]|(k & en & Hk & Hen & Hm & Hno & Hrun)].
  - rewrite (child_none v i e); [exists s1; split_and?; [done|done|by rewrite Hic1]|].
    intros k Hk. rewrite <- Hnm, <- not_matches by done. apply Hno. lia.
  - rewrite Ee in Hen. rewrite En in Hk. apply matches_named in Hm as Hn1; [|done..]. rewrite Hnm in Hn1.
    rewrite (child_some v i e k en); try done.
    2:{ intros j Hj. rewrite <- Hnm, <- not_matches by done. apply Hno. lia. }
    assert (Hne : de_inum en <> 0) by (destruct Hn1 as (e' & He' & ? & _); congruence).
    destruct (iget_step (Some ip) [(ip, n)] s1 env (de_inum en) Hh1 ltac:(simpl; lia) (Hch k en Hk Hen Hne))
      as (next & s2 & Hrun2 & Hh2 & Hold).
    rewrite <- Hic1 in Hy. destruct (Hold ip y Hy ltac:(apply Hly)) as (y' & Hy' & Hfl & Hr).
    exists (DIRENT_SIZE * k), next, s2, y'. split_and?; try done; [|by intros ->; apply Hr]. rewrite Hrun. by mstep Hrun2.
Qed.


(** The result of [namex]: the inode that the walk gives, or nothing. *)
Definition walked (parent : bool) (n : Z) (es : list (list Z)) (r : option nat * list Z) (s : kstate) : Prop :=
  match walk v n es parent with
  | None => r.1 = None /\ keeping None [] s
  | Some m => exists ip, r.1 = Some ip /\ keeping None [(ip, m)] s /\
      (parent = true -> exists e, last es = Some e /\ r.2 = take (Z.to_nat DIRSIZ) e)
  end.

Lemma unlockput_step s env ip n y l : keeping (Some ip) ((ip, n) :: l) s ->
  s.(icache) !! ip = Some y -> has y.(i_flags) I_BUSY = true -> (forall k m, (k, m) ∈ l -> k = ip -> 1 < y.(i_ref)) ->
  exists s', iunlockput ip s env = Ok tt s' env /\ keeping None l s'.
Proof.
  intros Hh Hy Hb Hmore. pose proof Hh as (HI & _). destruct (keeping_at _ _ _ ip n Hh ltac:(left)) as (_ & y' & Hy' & Hly).
  simplify_eq. destruct (iunlock_run I ip y s env HI Hy ltac:(apply Hly) Hb) as (s1 & Hrun & _ & Hic).
  destruct (unlock_step _ s env ip y n Hh ltac:(left) Hy Hb) as (s1' & Hrun' & Hh1).
  rewrite Hrun in Hrun'. injection Hrun' as <-.
  destruct (drop_step l s1 env ip n Hh1) as (s2 & Hrun2 & Hh2).
  { intros k m Hin ->. exists (given y). split; [by rewrite Hic, list_lookup_alter_eq, Hy|]. simpl. by eapply Hmore. }
  exists s2. split; [|done]. unfold iunlockput. by mstep Hrun.
Qed.

Lemma keeping_swap b l x y s : keeping b (x :: y :: l) s -> keeping b (y :: x :: l) s.
Proof.
  intros (HI & Hinv & Hl & Hrefs & Hz). unfold keeping. split_and?; try done.
  - intros k m Hin. apply Hl. rewrite !elem_of_cons in *. tauto.
  - intros m. rewrite (Hrefs m). rewrite !fmap_cons, !filter_cons. repeat case_decide; simpl; lia.
  - rewrite <- Hz. rewrite !fmap_cons. cbn [drops foldr]. f_equal.
    destruct (decide (x.1 = y.1)) as [->|Hne]; [done|]. by rewrite list_alter_alter_ne.
Qed.

Lemma namex_loop_run parent fuel : forall path name ip n s env,
  keeping None [(ip, n)] s -> Forall (Forall is_byte) (elements path) -> (length path < fuel)%nat ->
  exists r s', namex_loop fuel ip path parent name s env = Ok r s' env /\ walked parent n (elements path) r s'.
Proof.
  induction fuel as [|fuel IH]; intros path name ip n s env Hh Hb Hf; [lia|].
  simpl. pose proof (skipelem_elements path) as Hsk. destruct (skipelem path) as [[rest nm]|].
  2:{ rewrite Hsk. unfold walked. simpl. destruct parent; [|exists (Some ip, name), s; split; [done|exists ip; split_and?; done]].
      destruct (drop_step [] s env ip n Hh) as (s' & Hrun & Hh'); [by intros k m ?%elem_of_nil|].
      exists (None, name), s'. by mstep Hrun. }
  destruct Hsk as (e & He & -> & Hlen & _ & Hnil). rewrite He in Hb |- *. apply Forall_cons in Hb as [Hbe Hb].
  destruct (lock_step _ s env ip n Hh ltac:(left)) as (i & y & s1 & Hi & Hrun1 & Hh1 & Hy & Hly & Hd & Hbusy).
  mstep Hrun1. mstep (get_inode_eq ip y s1 env Hy). destruct (same_node v y i Hd) as (Et & _).
  unfold walked. cbn [walk]. rewrite Hi. cbn [mbind option_bind]. rewrite Et.
  assert (Hout : exists s', iunlockput ip s1 env = Ok tt s' env /\ keeping None [] s')
    by (apply (unlockput_step s1 env ip n y []); [done|done|done|by intros k m ?%elem_of_nil]).
  destruct (Z.eqb_spec (i_type i) T_DIR) as [Hdir|Hdir]; cbn [negb].
  2:{ destruct Hout as (s2 & Hrun2 & Hh2). mstep Hrun2. by eexists _, _. }
  rewrite (bool_decide_ext (rest = []) (elements rest = [])) by done.
  destruct (parent && bool_decide (elements rest = [])) eqn:Ep.
  { destruct (unlock_step _ s1 env ip y n Hh1 ltac:(left) Hy Hbusy) as (s2 & Hrun2 & Hh2). mstep Hrun2.
    eexists _, s2. split; [done|]. exists ip. split_and?; try done. intros _. exists e.
    apply andb_true_iff in Ep as [_ Ep%bool_decide_eq_true]. by rewrite Ep. }
  pose proof (lookup_step s1 env ip n i y e Hh1 Hy Hly Hi Hd Hdir Hbe) as Hlk.
  destruct (child v i e) as [m|]; cbn [mbind option_bind].
  2:{ destruct Hlk as (s2 & Hrun2 & Hh2 & Hy2). mstep Hrun2.
      destruct (unlockput_step s2 env ip n y [] Hh2 Hy2 Hbusy) as (s3 & Hrun3 & Hh3); [by intros k m ?%elem_of_nil|].
      mstep Hrun3. by eexists _, _. }
  destruct Hlk as (off & next & s2 & y2 & Hrun2 & Hh2 & Hy2 & Hfl & Hr2). mstep Hrun2.
  apply keeping_swap in Hh2.
  destruct (unlockput_step s2 env ip n y2 [(next, m)] Hh2 Hy2) as (s3 & Hrun3 & Hh3); [by rewrite Hfl| |].
  { intros k m' Hin ->. apply list_elem_of_singleton in Hin. simplify_eq. by apply Hr2. }
  mstep Hrun3. destruct (IH rest (take (Z.to_nat DIRSIZ) e) next m s3 env Hh3 Hb ltac:(lia)) as (r & s4 & Hrun4 & Hw).
  exists r, s4. split; [done|]. unfold walked in Hw. destruct (walk v m (elements rest) parent) as [m'|]; [|done].
  destruct Hw as (ip' & Hr & Hh4 & Hp). exists ip'. split_and?; try done. intros Ep'. destruct (Hp Ep') as (e' & He' & ->).
  exists e'. split; [|done]. rewrite last_cons, He'. done.
Qed.

End Walk.


(** ** The file system between and within transactions *)

(** [I] with the inode cache's lock free. *)
Definition with_icache (I : kstate -> Prop) (s : kstate) : Prop := I s /\ (icache_lock ∉ s.(kcpu).(held)).

#[global] Instance with_icache_reader I v : Reader I v -> Reader (with_icache I) v.
Proof.
  intros HR. split; [exact reader_length|]. intros s env sec blk [HI Hl] Hv.
  destruct (reader_load s env sec blk HI Hv) as (b & bf & s1 & Hrun & Hget & Hbd & Hic & Hrel).
  exists b, bf, s1. split_and?; try done. intros ic. destruct (Hrel ic) as (s2 & Hrun2 & HI2 & Hf2).
  exists s2. unfold with_icache. by rewrite (lframe_kcpu _ _ Hf2).
Qed.

Lemma rep_calm H P s : rep H P s -> calm s.
Proof. by intros ((Hc & _) & _). Qed.

Lemma rep_procs H P s pr : length pr = length s.(procs) -> rep H P s -> rep H P (set_procs pr s).
Proof.
  intros Hl (((Hq & Hp & Hn) & Hb) & Hr). split; [split; [|exact Hb]|exact Hr]. split; [exact Hq|split; [exact Hp|simpl; congruence]].
Qed.

#[global] Instance idle_steady start size d : Steady (with_icache (idle start size d)).
Proof.
  split.
  - intros s [[(Hr & _) _] Hl]. split; [by eapply rep_calm|done].
  - intros s ic Hs. exact Hs.
  - intros s pr Hl [[(Hr & Hq) Hd] Hk]. split; [|exact Hk]. split; [|exact Hd]. split; [by apply rep_procs|exact Hq].
  - intros s ft Hs. exact Hs.
Qed.

#[global] Instance trans_steady start size w0 d0 es : Steady (with_icache (in_trans start size w0 d0 es)).
Proof.
  split.
  - intros s [[(Hr & _) _] Hl]. split; [by eapply rep_calm|done].
  - intros s ic Hs. exact Hs.
  - intros s pr Hl [[(Hr & Hq) Hd] Hk]. split; [|exact Hk]. split; [|exact Hd]. split; [by apply rep_procs|exact Hq].
  - intros s ft Hs. exact Hs.
Qed.

(** ** Theorems *)

(** Where a path starts: at the root, or at the current directory. *)
Definition starts (path : list Z) (n : Z) (s : kstate) : Prop :=
  if byte_at path =? 47 then n = ROOTINO
  else exists p pr c x, s.(curproc) = Some p /\ s.(procs) !! p = Some pr /\ pr.(cwd) = Some c /\
    s.(icache) !! c = Some x /\ live 1 n x.

Lemma elements_bytes p : Forall is_byte p -> Forall (Forall is_byte) (elements p).
Proof.
  intros Hp. unfold elements. assert (Hs : Forall (Forall is_byte) (split_slash p)).
  { induction Hp as [|c p Hc _ IH]; simpl; [by repeat constructor|]. destruct (c =? 47); [by constructor|].
    destruct (split_slash p) as [|e es]; [by apply Forall_singleton, Forall_singleton|]. apply Forall_cons in IH as [He Hes]. apply Forall_cons; split; [by apply Forall_cons|done]. }
  apply Forall_forall. intros e [_ He]%list_elem_of_filter. rewrite Forall_forall in Hs. by apply Hs.
Qed.

(** C6: name resolution. Between transactions or within one, on a tree of
    well-formed directories and with two free entries in the inode cache,
    [namex] returns the inode that walking the path's elements on the disk
    gives, or with [nameiparent] the directory that is to hold the last
    element together with that element cut to DIRSIZ bytes; it returns nothing
    exactly when an element is missing, something on the way is not a
    directory, or a parent is asked of a path without elements. The cache
    stays well formed, with one reference more to the result and the count of
    every other inode as before. *)
Theorem namex_resolves (I : kstate -> Prop) (v : Z -> option (list Z)) (T : Z -> Prop) path parent n s env :
  Reader I v -> Steady I -> tree v T -> I s -> icache_inv v None s.(icache) -> (2 <= nfree s.(icache))%nat ->
  Forall is_byte path -> starts path n s -> T n ->
  exists r s', namex path parent s env = Ok r s' env /\ I s' /\ icache_inv v None s'.(icache) /\
    match walk v n (elements path) parent with
    | None => r.1 = None /\ nfree s'.(icache) = nfree s.(icache) /\ forall k, refs k s'.(icache) = refs k s.(icache)
    | Some m => exists ip x, r.1 = Some ip /\ s'.(icache) !! ip = Some x /\ live 1 m x /\
        (forall k, refs k s'.(icache) = refs k s.(icache) + if decide (m = k) then 1 else 0) /\
        (parent = true -> exists e, last (elements path) = Some e /\ r.2 = take (Z.to_nat DIRSIZ) e)
    end.
Proof.
  intros HR HS Htree HI Hinv Hfree Hb Hst HT.
  set (R0 := fun m => refs m (icache s)). set (F0 := nfree (icache s)).
  assert (Hh0 : keeping I v T R0 F0 None [] s).
  { unfold keeping. split_and?; try done; [by intros ip m ?%elem_of_nil|]. intros m. unfold R0. simpl. lia. }
  assert (Hstart : exists ip s1, (if byte_at path =? 47 then iget ROOTDEV ROOTINO else
      p <- cur ;; pr <- get_proc p ;; c <- deref "proc->cwd" pr.(cwd) ;; idup c) s env = Ok ip s1 env /\
    keeping I v T R0 F0 None [(ip, n)] s1).
  { unfold starts in Hst. destruct (byte_at path =? 47).
    - subst n. destruct (iget_step I v T R0 F0 Hfree None [] s env ROOTINO Hh0 ltac:(simpl; lia) HT) as (ip & s1 & Hrun & Hh & _).
      by exists ip, s1.
    - destruct Hst as (p & pr & c & x & Hp & Hpr & Hc & Hx & Hl). unfold cur, deref. mrun. rewrite Hp. mrun.
      mstep (ProcFacts.ProcFacts.get_proc_eq p pr s env Hpr). rewrite Hc. mrun. destruct (steady_calm s HI) as [(Hq & _) Hlk].
      exists c, (upd_inode c more s). split; [exact (ForkFacts.ForkFacts.idup_run c s env Hq Hlk)|].
      by eapply (idup_step I v T R0 F0). }
  destruct Hstart as (ip & s1 & Hrun1 & Hh1). unfold namex. rewrite (bind_ok _ _ _ _ _ _ _ Hrun1).
  destruct (namex_loop_run I v T Htree R0 F0 Hfree parent (S (length path)) path [] ip n s1 env Hh1 (elements_bytes _ Hb) ltac:(lia))
    as (r & s2 & Hrun2 & Hw).
  exists r, s2. split; [done|]. unfold walked in Hw. destruct (walk v n (elements path) parent) as [m|].
  - destruct Hw as (ip' & Hr & (HI2 & Hinv2 & Hl2 & Hrefs & _) & Hp). split_and?; [done|apply Hinv2..|].
    destruct (Hl2 ip' m ltac:(left)) as (_ & x & Hx & Hlx). exists ip', x. split_and?; try done.
    intros k. rewrite (Hrefs k). unfold R0. csimpl. rewrite filter_cons. case_decide; simpl; lia.
  - destruct Hw as (Hr & (HI2 & Hinv2 & _ & Hrefs & Hz)). split_and?; try done; [apply Hinv2..|].
    intros k. rewrite (Hrefs k). unfold R0. simpl. lia.
Qed.


(** A tree: the root has "d" and "..", the directory "d" has "f", a file. *)
Definition demo_node (n type size a : Z) : inode := Mkinode 1 n 1 I_VALID type 0 0 1 size (a :: replicate 12 0).
Definition demo_inodes : list Z :=
  put_dinode (demo_node 1 T_DIR 32 8) 64 (put_dinode (demo_node 2 T_DIR 16 9) 128
    (put_dinode (demo_node 3 T_FILE 5 10) 192 (replicate 512 0))).
Definition demo_tree_img : list (list Z) :=
  <[2%nat := demo_inodes]> (<[8%nat := mk_dirent 2 [100] ++ mk_dirent 1 [46; 46] ++ replicate 480 0]>
    (<[9%nat := mk_dirent 3 [102] ++ replicate 496 0]> Crash.demo_img)).
Definition demo_names : kstate :=
  upd_log (fun l => set_l_start 20 (set_l_size 10 (set_l_dev 1 l))) (BioInit.after_binit (kstate0 demo_tree_img)).

Lemma demo_names_idle : with_icache (idle 20 10 demo_tree_img) demo_names.
Proof.
  split; [|simpl; set_solver]. split; [|done].
  unfold quiescent. split_and?; [|done|done|simpl; set_solver|unfold geom, disksize; simpl; lia|].
  - apply rep_log, BioInit.warm_rep.
    + split_and!; try done; simpl; set_solver.
    + split; [done|]. apply Forall_replicate. done.
    + apply (bool_decide_eq_true_1 (Forall (fun b => length b = Z.to_nat BSIZE) demo_tree_img)). vm_compute. reflexivity.
  - exists (replicate (Z.to_nat BSIZE) 0). split; [done|]. vm_compute. reflexivity.
Qed.

Lemma byte_view_file v i : (forall a blk, v a = Some blk -> Forall is_byte blk) -> byte_file v i.
Proof.
  intros Hv k b Hb. unfold file_byte, file_block in Hb. destruct (mapped v i (k / BSIZE)) as [a|]; [|done]. simpl in Hb.
  destruct (v a) as [blk|] eqn:E; [|done]. specialize (Hv a blk E). rewrite Forall_lookup in Hv. by eapply Hv.
Qed.

#[global] Instance is_byte_dec c : Decision (is_byte c).
Proof. unfold is_byte. apply _. Defined.

Lemma demo_tree_bytes i : byte_file (disk_view demo_tree_img) i.
Proof.
  apply byte_view_file. intros a blk. unfold disk_view. case_bool_decide; [|done]. intros Hb.
  assert (Hf : Forall (Forall is_byte) demo_tree_img) by (apply (bool_decide_eq_true_1 _); vm_compute; reflexivity).
  rewrite Forall_lookup in Hf. by eapply Hf.
Qed.

Lemma demo_tree : tree (disk_view demo_tree_img) (fun n => 1 <= n <= 3).
Proof.
  intros n Hn. assert (n = 1 \/ n = 2 \/ n = 3) as [-> | [-> | ->]] by lia; eexists; (split; [vm_compute; reflexivity|]);
    (split; [done|]); (split; [done|]); simpl; intros Ht; try done; (split; [|split; [apply demo_tree_bytes|]]).
  1,3: unfold dir_ok, file_ok; split_and?; try (vm_compute; done); try done;
    intros bn Hbn Hlt; simpl in Hlt; unfold BSIZE in Hlt; assert (bn = 0) as -> by lia; by eexists.
  - intros k e Hk He. unfold nents in Hk. simpl in Hk. unfold DIRENT_SIZE in Hk.
    assert (k = 0 \/ k = 1) as [-> | ->] by (Z.to_euclidean_division_equations; lia); vm_compute in He; injection He as <-; vm_compute; by split.
  - intros k e Hk He. unfold nents in Hk. simpl in Hk. unfold DIRENT_SIZE in Hk.
    assert (k = 0) as -> by (Z.to_euclidean_division_equations; lia). vm_compute in He; injection He as <-; vm_compute; by split.
Qed.

Lemma demo_names_cache : icache_inv (disk_view demo_tree_img) None demo_names.(icache).
Proof.
  assert (Hz : forall j x, icache demo_names !! j = Some x -> x = zero_inode).
  { intros j x Hx. change (icache demo_names) with (replicate NINODE zero_inode) in Hx. by apply lookup_replicate in Hx as [-> _]. }
  split; [split|].
  - intros j x ->%Hz. done.
  - intros dev inum j k x y ->%Hz _ [? _]. done.
  - intros j x ->%Hz. done.
Qed.

(** "/../d//f" names inode 3. *)
Lemma demo_walk : walk (disk_view demo_tree_img) 1 (elements (chars "/../d//f")) false = Some 3.
Proof. vm_compute. reflexivity. Qed.

Lemma namex_resolves_witness :
  exists r s', namex (chars "/../d//f") false demo_names [] = Ok r s' [] /\
    with_icache (idle 20 10 demo_tree_img) s' /\ icache_inv (disk_view demo_tree_img) None s'.(icache) /\
    exists ip x, r.1 = Some ip /\ s'.(icache) !! ip = Some x /\ live 1 3 x /\
      (forall k, refs k s'.(icache) = refs k demo_names.(icache) + if decide (3 = k) then 1 else 0) /\
      (false = true -> exists e, last (elements (chars "/../d//f")) = Some e /\ r.2 = take (Z.to_nat DIRSIZ) e).
Proof.
  pose proof (namex_resolves (with_icache (idle 20 10 demo_tree_img)) (disk_view demo_tree_img) (fun n => 1 <= n <= 3)
    (chars "/../d//f") false 1 demo_names [] (with_icache_reader _ _ (idle_reader _ _ _ _ (proj1 demo_names_idle)))
    (idle_steady _ _ _) demo_tree demo_names_idle demo_names_cache) as Hres.
  rewrite demo_walk in Hres. apply Hres; [apply Nat.leb_le; vm_compute; reflexivity| |done|lia].
  apply (bool_decide_eq_true_1 _). vm_compute. reflexivity.
Defined.

End NameFacts.
