(* ===== verification/FileIO.v ===== *)
(** Reading and writing through open files (kernel/file.c: fileread,
    filewrite), down to the disk: sequences of reads give the bytes of the
    file in order; a write replaces exactly its bytes, and if the machine
    stops on the way, recovery leaves a prefix of the write. *)
From S2P Require Import Prelude Types Spinlock Sched Bio BioFacts BioAbs BioRep Log LogSpec LogFacts Crash Inode BlockFacts InodeFacts Console Fs FileData Dir Path IputFacts File NameFacts.
Import Spinlock Sched Bio BioFacts BioAbs BioRep Log LogSpec LogFacts Crash Inode BlockFacts InodeFacts Fs FileData File NameFacts.

Module FileIO.

(** ** Locking a valid inode *)

Lemma get_file_eq f x s env : s.(ftable) !! f = Some x -> get_file f s env = Ok x s env.
Proof. intros Hx. unfold get_file. mrun. by rewrite Hx. Qed.

(** An inode in use, read from the disk and not locked. *)
Definition ready (i : inode) : Prop :=
  0 < i.(i_ref) /\ has i.(i_flags) I_VALID = true /\ has i.(i_flags) I_BUSY = false /\ i.(i_type) <> T_DEV.

Lemma ilock_valid ip x s env :
  quiet s -> icache_lock ∉ s.(kcpu).(held) -> s.(icache) !! ip = Some x -> ready x ->
  ilock (Some ip) s env = Ok tt (upd_inode ip taken s) env.
Proof.
  intros Hq Hlk Hx (Hr & Hv & Hb & _).
  unfold ilock. mstep (get_inode_eq ip x s env Hx). rewrite (proj2 (Z.ltb_ge _ _)) by lia.
  mstep (acquire_quiet icache_lock s env Hq Hlk). set (s0 := with_lock icache_lock s).
  assert (Hloop : mloop_env (i <- get_inode ip ;;
    if has i.(i_flags) I_BUSY then sleep (chan_inode ip) icache_lock ;;; ret None else ret (Some tt)) s0 env = Ok tt s0 env).
  { unfold mloop_env. simpl. assert (Hx0 : s0.(icache) !! ip = Some x) by done.
    unfold bind. rewrite (get_inode_eq ip x s0 env Hx0). by rewrite Hb. }
  mstep Hloop. mrun. fold taken.
  mstep (release_quiet icache_lock s (upd_inode ip taken s0) env Hq Hlk eq_refl).
  change (set_kcpu (kcpu s) (upd_inode ip taken s0)) with (upd_inode ip taken s).
  assert (Hx1 : (upd_inode ip taken s).(icache) !! ip = Some (taken x)) by (by apply upd_inode_at).
  mstep (get_inode_eq ip _ _ env Hx1). simpl. rewrite has_lor, Hv. done.
Qed.

Lemma given_taken x : has x.(i_flags) I_BUSY = false -> given (taken x) = x.
Proof.
  intros Hb. destruct x as [dev inum r fl ty ma mi nl sz ad]. unfold given, taken, set_i_flags. simpl in *. f_equal.
  apply Z.bits_inj'. intros k Hk. unfold clr. rewrite Z.land_spec, Z.lor_spec, Z.lnot_spec by done.
  destruct (Z.testbit I_BUSY k) eqn:E; [|by rewrite orb_false_r, andb_true_r].
  rewrite andb_false_r. symmetry. unfold has in Hb. apply negb_false_iff, Z.eqb_eq in Hb.
  assert (Z.testbit (Z.land fl I_BUSY) k = false) as H0 by (by rewrite Hb, Z.bits_0).
  rewrite Z.land_spec, E, andb_true_r in H0. done.
Qed.

Lemma unlock_restores (ip : nat) x (ic : list inode) : ic !! ip = Some x -> has x.(i_flags) I_BUSY = false ->
  alter given ip (alter taken ip ic) = ic.
Proof.
  intros Hx Hb. rewrite list_alter_alter_eq. apply list_eq. intros k. rewrite list_lookup_alter.
  case_decide as E; [subst k|done]. rewrite Hx. simpl. by rewrite given_taken.
Qed.

Lemma kframe_ftable s s' : kframe s s' -> s'.(ftable) = s.(ftable).
Proof. intros (ic & bc & pr & d & w & _ & ->). done. Qed.

Lemma lframe_ftable s s' : lframe s s' -> s'.(ftable) = s.(ftable).
Proof. intros (bc & pr & d & w & _ & ->). done. Qed.

Lemma kframe_kcpu s s' : kframe s s' -> s'.(kcpu) = s.(kcpu).
Proof. intros (ic & bc & pr & d & w & _ & ->). done. Qed.

Lemma lframe_kframe s s' : lframe s s' -> kframe s s'.
Proof. intros Hf. exact (kframe_lframe _ _ _ (kframe_refl s) Hf). Qed.

Lemma kframe_file f (g : file -> file) x y s s' : kframe s s' -> s.(ftable) !! f = Some x -> g x = y ->
  s'.(ftable) = s.(ftable) /\ upd_file f g s' = set_ftable (<[f := y]> s.(ftable)) s'.
Proof.
  intros Hf Hx Hg. pose proof (kframe_ftable _ _ Hf) as Hft. split; [done|]. unfold upd_file. rewrite Hft. f_equal.
  apply list_eq. intros k. rewrite list_lookup_alter. case_decide as E; [subst k|by rewrite list_lookup_insert_ne].
  rewrite list_lookup_insert_eq by (by eapply lookup_lt_Some). rewrite Hx. simpl. by rewrite Hg.
Qed.

Lemma unlock_insert (ip : nat) x (ic : list inode) : (ip < length ic)%nat -> has x.(i_flags) I_BUSY = false ->
  alter given ip (<[ip := taken x]> (alter taken ip ic)) = <[ip := x]> ic.
Proof.
  intros Hlt Hb. apply list_eq. intros k. rewrite list_lookup_alter. case_decide as E.
  - subst k. rewrite !list_lookup_insert_eq by (by rewrite ?length_alter). simpl. by rewrite given_taken.
  - by rewrite !list_lookup_insert_ne, list_lookup_alter_ne by done.
Qed.

(** ** Reading *)

Definition moved (m : Z) (x : file) : file := set_f_off (x.(f_off) + m) x.

Section Read.
Context (I : kstate -> Prop) (v : Z -> option (list Z)) {HR : Reader I v} {HS : Steady I}.

(** File [f] is open for reading on the inode in entry [ip]. *)
Definition reading (f : nat) (x : file) (i : inode) (s : kstate) : Prop :=
  I s /\ s.(ftable) !! f = Some x /\ x.(f_type) = FD_INODE /\ x.(f_readable) = true /\
  s.(icache) !! x.(f_ip) = Some i /\ ready i /\ file_ok v i /\ 0 <= x.(f_off) <= i.(i_size).

Lemma fileread_run f x i n s env : reading f x i s -> 0 <= n < 2 ^ 31 ->
  let m := Z.min n (i.(i_size) - x.(f_off)) in
  exists bs s', fileread f n s env = Ok (m, bs) s' env /\ reading f (moved m x) i s' /\
    s'.(ftable) = <[f := moved m x]> s.(ftable) /\ s'.(icache) = s.(icache) /\
    length bs = Z.to_nat m /\ forall k, 0 <= k < m -> bs !! Z.to_nat k = file_byte v i (x.(f_off) + k).
Proof.
  intros (HI & Hx & Ht & Hrd & Hi & Hrdy & Hok & Ho) Hn m. pose proof Hrdy as (Hr & Hv & Hb & Hty).
  destruct (steady_calm s HI) as [(Hq & _) Hlk]. pose proof Hok as (_ & Hmax & _). change (MAXFILE * BSIZE) with 71680 in Hmax.
  unfold fileread. mstep (get_file_eq f x s env Hx). rewrite Hrd, Ht. cbn [negb].
  mstep (ilock_valid (f_ip x) i s env Hq Hlk Hi Hrdy). set (s1 := upd_inode (f_ip x) taken s).
  mstep (get_file_eq f x s1 env Hx).
  assert (Hi1 : s1.(icache) !! f_ip x = Some (taken i)) by (by apply upd_inode_at).
  pose proof (readi_run (fun t => I t /\ kframe s1 t) v (f_ip x) (taken i) (f_off x) (u32 n) s1 env) as Hread.
  unfold u32 in Hread. rewrite (Z.mod_small n) in Hread by lia. rewrite bool_decide_eq_true_2 in Hread by (simpl; lia).
  destruct Hread as (bs & s2 & Hrun & [HI2 Hk2] & Hic2 & Hl & Hbytes); try done; try (simpl; lia).
  { split; [by apply steady_icache|apply kframe_refl]. }
  change (i_size (taken i)) with (i_size i) in Hrun, Hl, Hbytes. fold m in Hrun, Hl, Hbytes.
  unfold u32 at 1. rewrite (Z.mod_small n) by lia. mstep Hrun. cbn [fst].
  pose proof (kframe_ftable _ _ Hk2) as Hft. change (ftable s1) with (ftable s) in Hft.
  assert (Hmv : u32 (f_off x + m) = f_off x + m) by (unfold u32; apply Z.mod_small; lia).
  set (s3 := set_ftable (<[f := moved m x]> (ftable s)) s2).
  assert (Hwhen : when (0 <? m) (modify (upd_file f (fun y => set_f_off (u32 (f_off y + m)) y))) s2 env = Ok tt s3 env).
  { unfold s3. destruct (Z.ltb_spec 0 m) as [Hm|Hm]; unfold when, modify, ret.
    - unfold upd_file. do 3 f_equal. rewrite Hft. apply list_eq. intros k. rewrite list_lookup_alter.
      case_decide as E; [subst k|by rewrite list_lookup_insert_ne]. rewrite list_lookup_insert_eq by (by eapply lookup_lt_Some).
      rewrite Hx. simpl. unfold moved. by rewrite Hmv.
    - assert (m = 0) as -> by lia. f_equal. rewrite list_insert_id; [rewrite <- Hft; by destruct s2|].
      rewrite Hx. unfold moved. rewrite Z.add_0_r. by destruct x. }
  mstep Hwhen. assert (HI3 : I s3) by (by apply steady_ftable). destruct (steady_calm s3 HI3) as [Hc3 Hlk3].
  assert (Hi3 : s3.(icache) !! f_ip x = Some (taken i)) by (change (icache s3) with (icache s2); by rewrite Hic2).
  mstep (iunlock_eq (f_ip x) (taken i) s3 env Hc3 Hlk3 Hi3 Hr ltac:(simpl; by rewrite has_lor, orb_true_r)).
  assert (Hic4 : alter given (f_ip x) (icache s3) = icache s)
    by (change (icache s3) with (icache s2); rewrite Hic2; by eapply unlock_restores).
  eexists bs, _. split; [reflexivity|]. split_and?; try done.
  unfold reading. split_and?; try done.
  - apply steady_procs; [by rewrite length_fmap|by apply steady_icache].
  - simpl. apply list_lookup_insert_eq. by eapply lookup_lt_Some.
  - rewrite <- Hi. f_equal. exact Hic4.
  - simpl. lia.
  - simpl. lia.
Qed.
End Read.


(** Reads one after the other, and the bytes they return. *)
Fixpoint reads (f : nat) (ns : list Z) : K (list Z) :=
  match ns with
  | [] => ret []
  | n :: ns' =>
      r <- fileread f n ;;
      bs <- reads f ns' ;;
      ret (r.2 ++ bs)
  end.

Definition sum (ns : list Z) : Z := foldr Z.add 0 ns.

Section Reads.
Context (I : kstate -> Prop) (v : Z -> option (list Z)) {HR : Reader I v} {HS : Steady I}.

Lemma reads_run f i ns : Forall (fun n => 0 <= n < 2 ^ 31) ns -> forall x s env, reading I v f x i s ->
  let m := Z.min (sum ns) (i.(i_size) - x.(f_off)) in
  exists bs s', reads f ns s env = Ok bs s' env /\ reading I v f (moved m x) i s' /\
    s'.(ftable) = <[f := moved m x]> s.(ftable) /\ s'.(icache) = s.(icache) /\
    length bs = Z.to_nat m /\ forall k, 0 <= k < m -> bs !! Z.to_nat k = file_byte v i (x.(f_off) + k).
Proof.
  induction 1 as [|n ns Hn Hns IH]; intros x s env Hrd m; pose proof Hrd as (_ & Hx & _ & _ & _ & _ & _ & Ho).
  - assert (m = 0) as E by (unfold m; simpl; lia). assert (moved m x = x) as Em.
    { rewrite E. unfold moved. rewrite Z.add_0_r. by destruct x. }
    exists [], s. rewrite Em. split_and?; try done; [by rewrite list_insert_id|by rewrite E|lia].
  - assert (Hsum : 0 <= sum ns) by (clear -Hns; induction Hns; simpl; lia).
    destruct (fileread_run I v f x i n s env Hrd Hn) as (b1 & s1 & Hrun1 & Hrd1 & Hft1 & Hic1 & Hl1 & Hb1).
    set (m1 := Z.min n (i_size i - f_off x)) in *.
    destruct (IH (moved m1 x) s1 env Hrd1) as (b2 & s2 & Hrun2 & Hrd2 & Hft2 & Hic2 & Hl2 & Hb2).
    change (f_off (moved m1 x)) with (f_off x + m1) in *. set (m2 := Z.min (sum ns) (i_size i - (f_off x + m1))) in *.
    assert (Em : m = m1 + m2) by (unfold m, m1, m2; simpl; lia).
    assert (Emv : moved m2 (moved m1 x) = moved m x).
    { rewrite Em. unfold moved, set_f_off. simpl. f_equal. lia. }
    rewrite Emv in Hrd2, Hft2. exists (b1 ++ b2), s2. split_and?.
    + simpl. mstep Hrun1. by mstep Hrun2.
    + done.
    + by rewrite Hft2, Hft1, list_insert_insert_eq.
    + congruence.
    + rewrite length_app. lia.
    + intros k Hk. destruct (Z_lt_le_dec k m1) as [Hlt|Hge].
      * rewrite lookup_app_l by lia. apply Hb1. lia.
      * rewrite lookup_app_r by lia. replace (Z.to_nat k - length b1)%nat with (Z.to_nat (k - m1)) by lia.
        rewrite Hb2 by lia. f_equal. lia.
Qed.
End Reads.

(** ** Writing *)

(** Only the first [n] bytes of the source matter. *)
Lemma writei_loop_take fuel ip src n : forall tot off s env, 0 <= tot ->
  writei_loop fuel ip src tot off n s env = writei_loop fuel ip (take (Z.to_nat n) src) tot off n s env.
Proof.
  induction fuel as [|fuel IH]; intros tot off s env Ht; [done|]. simpl. destruct (Z.ltb_spec tot n) as [Hlt|]; [|done].
  pose proof (Z.mod_pos_bound off BSIZE eq_refl) as Hmod.
  assert (Hm : 0 <= chunk n tot off <= n - tot) by (unfold chunk, BSIZE in *; lia).
  assert (Hbs : take (Z.to_nat (chunk n tot off)) (drop (Z.to_nat tot) (take (Z.to_nat n) src)) =
    take (Z.to_nat (chunk n tot off)) (drop (Z.to_nat tot) src)).
  { replace (Z.to_nat n) with (Z.to_nat tot + Z.to_nat (n - tot))%nat by lia.
    rewrite <- take_drop_commute, take_take. f_equal. lia. }
  rewrite Hbs. repeat (apply bind_ext; intros; try done). apply IH. lia.
Qed.


(** The data sectors of a disk. *)
Definition data_view (start size : Z) (d : list (list Z)) : Z -> option (list Z) := trans_view start size [] d.

(** If the machine stops after any number of the disk writes [t], recovery
    ends with data sectors that satisfy [Q]. *)
Definition recovers (start size : Z) (d0 : list (list Z)) (t : list (Z * list Z)) (Q : (Z -> option (list Z)) -> Prop) : Prop :=
  forall k sb envb, booting start size sb -> sb.(disk) = apply_writes (take k t) d0 ->
    exists sr, recover_from_log sb envb = Ok tt sr envb /\ quiescent start size sr /\ Q (data_view start size sr.(disk)).

Section Commit.
Context (start size : Z).

Lemma data_eq_view d d' : data_eq start size d d' -> length d = length d' ->
  forall sec, data_view start size d sec = data_view start size d' sec.
Proof.
  intros He Hl sec. unfold data_view, trans_view. rewrite Hl. repeat case_bool_decide; simpl; try done.
  unfold seen, rview. simpl. rewrite lookup_empty. apply He; [lia|]. unfold in_log. lia.
Qed.

Lemma view_apply es d : NoDup es.*1 -> Forall (fun e => 0 <= e.1) es ->
  forall sec, data_view start size (apply_writes es d) sec = trans_view start size es d sec.
Proof.
  intros Hnd Hf sec. unfold data_view, trans_view. rewrite length_apply. repeat case_bool_decide; simpl; try done.
  unfold seen at 1, rview. simpl. rewrite lookup_empty. by apply apply_lookup.
Qed.

Lemma commit_view w0 d0 es s env h0 :
  tinv start size w0 d0 es s -> room size 0 es -> d0 !! Z.to_nat start = Some h0 -> hd_n h0 = 0 ->
  exists s' t, commit_trans s env = Ok tt s' env /\ lframe s s' /\ quiescent start size s' /\
    s'.(dwrites) = w0 ++ t /\ s'.(disk) = apply_writes t d0 /\
    (forall sec, data_view start size s'.(disk) sec = trans_view start size es d0 sec) /\
    recovers start size d0 t (fun v => (forall sec, v sec = data_view start size d0 sec) \/
      (forall sec, v sec = trans_view start size es d0 sec)).
Proof.
  intros Hti [Hlen Hsz] Hh0 Hn0. rewrite Nat.add_0_r in Hlen, Hsz.
  pose proof Hti as (Hr & Hnd & _ & _ & _ & Hg & Hdat & _). destruct Hg as (Hst & Hsz0 & Hend & Hmax).
  pose proof (tinv_head start size _ _ _ _ Hti) as Hh. rewrite Hh0 in Hh. pose proof (rep_block _ _ _ _ _ Hr Hh) as Hhl.
  destruct (commit_trans_run start size w0 d0 es s env h0 Hti Hlen Hsz Hh Hhl Hn0)
    as (s' & ws & Hrun & Hf & Hq' & Hws & Hd & Hw' & Hd'). set (h := head_block es.*1 h0) in *.
  assert (Hle : (length es <= Z.to_nat LOGSIZE)%nat) by (change (Z.to_nat LOGSIZE) with 10%nat; unfold NBUF in Hlen; lia).
  pose proof (tinv_logged start size w0 d0 es s h0 ws Hti Hsz Hle Hhl Hd) as Hlog. fold h in Hlog.
  assert (Hds : disksize s = Z.of_nat (length d0)) by (unfold disksize; by rewrite Hd, length_apply).
  assert (Hes : Forall (fun w => 0 <= w.1 /\ ~ in_log start size w.1) es).
  { eapply Forall_impl; [exact Hdat|]. intros e [? ?]. split; [lia|done]. }
  assert (Hes0 : Forall (fun w => 0 <= w.1) es) by (eapply Forall_impl; [exact Hes|]; by intros ? [? _]).
  assert (Hhl' : (4 <= length h)%nat).
  { unfold h. rewrite length_head_block; rewrite ?length_fmap; rewrite Hhl; change (Z.to_nat BSIZE) with 512%nat;
      change (Z.to_nat LOGSIZE) with 10%nat in Hle; lia. }
  exists s', (commit_writes start ws es h). split_and?; try done.
  - intros sec. rewrite <- (view_apply es d0 Hnd Hes0 sec). apply data_eq_view; [|by rewrite Hd', !length_apply].
    eapply (commit_new start size ws es h); [|done|done|done]. apply (crash_done start size d0 ws es h); try done; lia.
  - intros k sb envb Hb Hdb.
    destruct (commit_crash start size d0 ws es h h0 k) as (h1 & es1 & Hl1 & Hes1 & Hcase); try done; [lia|].
    rewrite <- Hdb in Hl1, Hcase.
    assert (Hdsb : disksize sb = disksize s) by (unfold disksize; by rewrite Hdb, length_apply, Hd, length_apply).
    destruct (recover_run start size sb envb h1 es1 Hb Hl1) as (sr & Hrr & _ & Hqr & Hdr & _).
    { destruct Hes1 as [->| ->]; [simpl; lia|]. change (Z.to_nat LOGSIZE) with 10%nat in *. lia. }
    { destruct Hes1 as [->| ->]; [constructor|]. unfold data_sector in *. by rewrite Hdsb. }
    exists sr. split_and?; [done|done|]. rewrite Hdr.
    pose proof (recover_logged start size h1 es1 (disk sb) Hst Hl1) as Hrec.
    assert (Hlr : length (recover start (disk sb)) = length d0).
    { unfold recover. destruct (disk sb !! Z.to_nat start); rewrite ?length_insert, ?length_apply, Hdb, length_apply; done. }
    destruct Hcase as [Hc|Hc]; [left|right]; intros sec.
    + apply data_eq_view; [by etrans|done].
    + rewrite <- (view_apply es d0 Hnd Hes0 sec). apply data_eq_view; [by etrans|]. by rewrite length_apply.
Qed.
End Commit.


Lemma writei_take ip i src off n s env :
  s.(icache) !! ip = Some i -> i.(i_type) <> T_DEV -> writei ip src off n s env = writei ip (take (Z.to_nat n) src) off n s env.
Proof.
  intros Hi Ht. unfold writei. rewrite !(bind_ok _ _ _ _ _ _ _ (get_inode_eq _ _ _ env Hi)).
  rewrite (proj2 (Z.eqb_neq _ _) Ht). destruct (_ || _); [done|]. destruct (_ <? u32 _); [done|].
  unfold bind at 1 4. by rewrite (writei_loop_take _ _ src).
Qed.

Section Write.
Context (start size : Z) (Hlogsize : 4 < size).
Abbreviation dv d := (data_view start size d).

(** File [f] is open for writing on the inode in entry [ip], between
    transactions. *)
Definition writing (f : nat) (x : file) (i : inode) (s : kstate) : Prop :=
  with_icache (idle start size s.(disk)) s /\ s.(ftable) !! f = Some x /\ x.(f_type) = FD_INODE /\ x.(f_writable) = true /\
  s.(icache) !! x.(f_ip) = Some i /\ ready i /\ file_ok (dv s.(disk)) i /\ layout_ok (dv s.(disk)) i /\ 0 <= x.(f_off).

Lemma turns_max off n : 0 <= off -> 0 <= n <= max_write -> turns off n <= 4.
Proof.
  intros Ho Hn. unfold turns, BSIZE, max_write, LOGSIZE in *. change ((10 - 1 - 1 - 2) / 2 * 512) with 1536 in Hn.
  destruct (Z.leb_spec n 0); [lia|]. Z.to_euclidean_division_equations. lia.
Qed.

(** One transaction of [filewrite], whatever its [writei] does to the inode. *)
Lemma filewrite_trans fl f addr x i i' k n es s s3 env :
  with_icache (idle start size s.(disk)) s -> s.(ftable) !! f = Some x -> s.(icache) !! x.(f_ip) = Some i -> ready i -> ready i' ->
  0 <= k < n -> 0 <= x.(f_off) -> x.(f_off) + (n - k) < 2 ^ 32 ->
  let n1 := Z.min (n - k) max_write in
  let s2 := upd_inode x.(f_ip) taken (upd_log (set_l_busy true) s) in
  writei x.(f_ip) (drop (Z.to_nat k) addr) x.(f_off) n1 s2 env = Ok n1 s3 env ->
  tinv start size s.(dwrites) s.(disk) es s3 -> room size 0 es -> kframe s2 s3 -> s3.(icache) = <[x.(f_ip) := taken i']> s2.(icache) ->
  exists s' t, filewrite_loop (S fl) f addr k n s env = filewrite_loop fl f addr (k + n1) n s' env /\
    with_icache (idle start size s'.(disk)) s' /\ s'.(ftable) = <[f := moved n1 x]> s.(ftable) /\
    s'.(icache) = <[x.(f_ip) := i']> s.(icache) /\ s'.(dwrites) = s.(dwrites) ++ t /\ s'.(disk) = apply_writes t s.(disk) /\
    (forall sec, dv s'.(disk) sec = trans_view start size es s.(disk) sec) /\
    recovers start size s.(disk) t (fun v => (forall sec, v sec = dv s.(disk) sec) \/
      (forall sec, v sec = trans_view start size es s.(disk) sec)).
Proof.
  intros [[Hq _] Hlk] Hx Hi Hrdy (Hr' & _ & Hb' & _) Hk Ho Hoff n1 s2 Hrun3 Hti3 Hroom Hf3 Hic3.
  pose proof Hrdy as (Hr & Hv & Hb & Hty).
  pose proof Hq as (Hrep & _ & Hbusy & Hllk & _ & h0 & Hh0 & Hn0). pose proof (rep_calm _ _ _ Hrep) as (Hquiet & Hptl & Hnp).
  assert (Hn1 : 0 < n1 <= max_write) by (unfold n1, max_write, LOGSIZE; change ((10 - 1 - 1 - 2) / 2 * 512) with 1536; lia).
  cbn [filewrite_loop]. rewrite (proj2 (Z.ltb_lt _ _)) by lia.
  assert (En1 : (if max_write <? n - k then max_write else n - k) = n1) by (unfold n1; destruct (Z.ltb_spec max_write (n - k)); lia).
  rewrite En1. mstep (begin_trans_run s env Hquiet Hllk Hbusy). set (s1 := upd_log (set_l_busy true) s) in *.
  mstep (get_file_eq f x s1 env Hx). mstep (ilock_valid (f_ip x) i s1 env Hquiet Hlk Hi Hrdy). fold s2.
  mstep (get_file_eq f x s2 env Hx). mstep Hrun3. rewrite (proj2 (Z.ltb_lt 0 n1)) by lia. unfold when at 1. rewrite bind_modify.
  destruct (kframe_file f (fun y => set_f_off (u32 (f_off y + n1)) y) x (moved n1 x) s2 s3 Hf3 Hx) as (Hft & Hs4).
  { unfold moved. f_equal. unfold u32. apply Z.mod_small. lia. }
  rewrite Hs4. set (s4 := set_ftable (<[f := moved n1 x]> (ftable s2)) s3).
  assert (Hlt : (f_ip x < length (icache s2))%nat) by (unfold s2, upd_inode; simpl; rewrite length_alter; by eapply lookup_lt_Some).
  assert (Hi4 : s4.(icache) !! f_ip x = Some (taken i')) by (change (icache s4) with (icache s3); rewrite Hic3; by apply list_lookup_insert_eq).
  assert (Hc4 : calm s4) by exact (rep_calm _ _ _ (proj1 Hti3)).
  assert (Hcpu : s3.(kcpu) = s.(kcpu)) by exact (kframe_kcpu _ _ Hf3).
  mstep (iunlock_eq (f_ip x) (taken i') s4 env Hc4 ltac:(change (kcpu s4) with (kcpu s3); by rewrite Hcpu) Hi4 Hr' ltac:(simpl; by rewrite has_lor, orb_true_r)).
  set (s5 := set_procs _ _).
  assert (Hti5 : tinv start size (dwrites s) (disk s) es s5).
  { destruct Hti3 as [Hr3 Hti3]. split; [|exact Hti3]. apply (rep_procs _ _ (upd_inode (f_ip x) given s4)); [by rewrite length_fmap|exact Hr3]. }
  assert (Hic5 : s5.(icache) = <[f_ip x := i']> s.(icache)).
  { change (icache s5) with (alter given (f_ip x) (icache s3)). rewrite Hic3.
    change (icache s2) with (alter taken (f_ip x) (icache s)). apply unlock_insert; [by eapply lookup_lt_Some|done]. }
  destruct (commit_view start size (dwrites s) (disk s) es s5 env h0 Hti5) as (s6 & t & Hrun6 & Hf6 & Hq6 & Hw6 & Hd6 & Hview & Hrec); try done.
  mstep Hrun6. rewrite (proj2 (Z.ltb_ge n1 0)) by lia. rewrite Z.eqb_refl. cbn [negb].
  exists s6, t. split_and?; try done.
  - split; [done|]. rewrite (lframe_kcpu _ _ Hf6). change (kcpu s5) with (kcpu s3). by rewrite Hcpu.
  - exact (lframe_ftable _ _ Hf6).
  - by rewrite (lframe_icache _ _ Hf6).
Qed.

(** One transaction of [filewrite] inside the file. *)
Lemma filewrite_step fl f addr x i k n s env :
  writing f x i s -> 0 <= k < n -> n <= Z.of_nat (length addr) -> x.(f_off) + (n - k) <= i.(i_size) ->
  let n1 := Z.min (n - k) max_write in
  let src := take (Z.to_nat n1) (drop (Z.to_nat k) addr) in
  exists s' t, filewrite_loop (S fl) f addr k n s env = filewrite_loop fl f addr (k + n1) n s' env /\
    writing f (moved n1 x) i s' /\ s'.(ftable) = <[f := moved n1 x]> s.(ftable) /\ s'.(icache) = s.(icache) /\
    overwritten (dv s.(disk)) (dv s'.(disk)) i x.(f_off) src /\
    s'.(dwrites) = s.(dwrites) ++ t /\ s'.(disk) = apply_writes t s.(disk) /\
    recovers start size s.(disk) t (fun v => overwritten (dv s.(disk)) v i x.(f_off) [] \/
      overwritten (dv s.(disk)) v i x.(f_off) src).
Proof.
  intros (Hcalm & Hx & Ht & Hw & Hi & Hrdy & Hok & Hlay & Ho) Hk Hn Hsz n1 src. pose proof Hcalm as [[Hq _] _].
  pose proof Hrdy as (_ & _ & _ & Hty). pose proof Hok as (_ & Hmax & _). change (MAXFILE * BSIZE) with 71680 in Hmax.
  assert (Hn1 : 0 < n1 <= max_write) by (unfold n1, max_write, LOGSIZE; change ((10 - 1 - 1 - 2) / 2 * 512) with 1536; lia).
  assert (Hsrc : Z.of_nat (length src) = n1) by (unfold src; rewrite length_take, length_drop; unfold n1 in *; lia).
  pose proof (turns_max (f_off x) n1 Ho ltac:(lia)) as Htm.
  set (s2 := upd_inode (f_ip x) taken (upd_log (set_l_busy true) s)).
  assert (Hi2 : s2.(icache) !! f_ip x = Some (taken i)) by (by apply upd_inode_at).
  destruct (writei_run start size (dwrites s) (disk s) [] (f_ip x) (taken i) src (f_off x) s2 env) as (es & s3 & Hrun3 & Hti3 & Hf3 & Hle & Hov);
    try done; try (simpl; lia).
  { exact (begin_tinv start size s Hq). } { rewrite Hsrc. split; unfold NBUF; simpl; lia. }
  rewrite Hsrc in Hrun3, Hle. simpl in Hle.
  unfold src in Hrun3. rewrite <- (writei_take (f_ip x) (taken i) (drop (Z.to_nat k) addr) (f_off x) n1 s2 env Hi2 Hty) in Hrun3.
  destruct (filewrite_trans fl f addr x i i k n es s s3 env Hcalm Hx Hi Hrdy Hrdy Hk Ho) as (s6 & t & Hrun & Hc6 & Hft6 & Hic6 & Hw6 & Hd6 & Hview & Hrec);
    try done; [lia|split; unfold NBUF; lia|by apply lframe_kframe|rewrite (lframe_icache _ _ Hf3); symmetry; by apply list_insert_id|].
  rewrite list_insert_id in Hic6 by done.
  assert (Hov6 : overwritten (dv (disk s)) (dv (disk s6)) i (f_off x) src) by (eapply overwritten_ext; [..|exact Hov]; done).
  exists s6, t. split_and?; try done.
  - unfold writing. split_and?; try done.
    + rewrite Hft6. apply list_lookup_insert_eq. by eapply lookup_lt_Some.
    + by rewrite Hic6.
    + by eapply overwritten_ok.
    + by eapply overwritten_layout.
    + simpl. lia.
  - intros kk sb envb Hbo Hdb. destruct (Hrec kk sb envb Hbo Hdb) as (sr & Hrr & Hqr & Hcase). exists sr.
    split_and?; [done|done|]. destruct Hcase as [Hc|Hc]; [left|right]; (eapply overwritten_ext; [done|exact Hc|]); [apply overwritten_nil|exact Hov].
Qed.

Lemma recovers_idle s : quiescent start size s ->
  recovers start size s.(disk) [] (fun v => forall sec, v sec = dv s.(disk) sec).
Proof.
  intros (Hr & _ & _ & _ & (Hst & Hsz & Hend & _) & h & Hh & Hn) k sb envb Hb Hdb. rewrite take_nil in Hdb. simpl in Hdb.
  assert (Hlog : logged start size h [] (disk sb)) by (rewrite Hdb; split_and!; [done|done|done|by intros ? ?]).
  destruct (recover_run start size sb envb h [] Hb Hlog) as (sr & Hrr & _ & Hqr & Hdr & _); [simpl; lia|constructor|].
  exists sr. split_and?; try done. rewrite Hdr, <- Hdb. apply data_eq_view; [exact (recover_logged start size h [] _ Hst Hlog)|].
  unfold recover. by destruct Hlog as (-> & _); rewrite length_insert, length_apply.
Qed.

Lemma recovers_app d0 t1 t2 (Q1 Q2 Q : (Z -> option (list Z)) -> Prop) :
  recovers start size d0 t1 Q1 -> recovers start size (apply_writes t1 d0) t2 Q2 ->
  (forall v, Q1 v -> Q v) -> (forall v, Q2 v -> Q v) -> recovers start size d0 (t1 ++ t2) Q.
Proof.
  intros H1 H2 HQ1 HQ2 k sb envb Hb Hd. destruct (decide (k <= length t1)%nat) as [Hk|Hk].
  - rewrite take_app_le in Hd by done. destruct (H1 k sb envb Hb Hd) as (sr & ? & ? & ?). exists sr. auto.
  - rewrite take_app_ge in Hd by lia. rewrite apply_app in Hd.
    destruct (H2 _ sb envb Hb Hd) as (sr & ? & ? & ?). exists sr. auto.
Qed.

Lemma take_parts (l : list Z) k m n : 0 <= k -> 0 <= m -> k + m <= n ->
  take (Z.to_nat (n - k)) (drop (Z.to_nat k) l) =
  take (Z.to_nat m) (drop (Z.to_nat k) l) ++ take (Z.to_nat (n - (k + m))) (drop (Z.to_nat (k + m)) l).
Proof.
  intros Hk Hm Hn. replace (Z.to_nat (k + m)) with (Z.to_nat k + Z.to_nat m)%nat by lia.
  rewrite <- drop_drop. replace (Z.to_nat (n - k)) with (Z.to_nat m + Z.to_nat (n - (k + m)))%nat by lia.
  by rewrite take_take_drop.
Qed.

Lemma filewrite_loop_run f addr i n fuel : n <= Z.of_nat (length addr) -> forall x k s env,
  writing f x i s -> 0 <= k <= n -> x.(f_off) + (n - k) <= i.(i_size) ->
  (0 < fuel)%nat -> n - k <= (Z.of_nat fuel - 1) * max_write ->
  let src := take (Z.to_nat (n - k)) (drop (Z.to_nat k) addr) in
  exists s' t, filewrite_loop fuel f addr k n s env = Ok n s' env /\
    writing f (moved (n - k) x) i s' /\ s'.(ftable) = <[f := moved (n - k) x]> s.(ftable) /\ s'.(icache) = s.(icache) /\
    overwritten (dv s.(disk)) (dv s'.(disk)) i x.(f_off) src /\
    s'.(dwrites) = s.(dwrites) ++ t /\ s'.(disk) = apply_writes t s.(disk) /\
    recovers start size s.(disk) t (fun v => exists j, (j <= length src)%nat /\
      overwritten (dv s.(disk)) v i x.(f_off) (take j src)).
Proof.
  intros Hn. induction fuel as [|fuel IH]; intros x k s env Hwr Hk Hsz Hf0 Hfuel src; [lia|].
  pose proof Hwr as ([[Hq _] _] & Hx & _). destruct (decide (k = n)) as [->|Hne].
  - assert (Em : moved (n - n) x = x) by (unfold moved; rewrite Z.sub_diag, Z.add_0_r; by destruct x).
    assert (Es : src = []) by (unfold src; by rewrite Z.sub_diag).
    exists s, []. rewrite Em, Es, app_nil_r. cbn [filewrite_loop]. rewrite Z.ltb_irrefl. split_and?; try done.
    + by rewrite list_insert_id.
    + apply overwritten_nil.
    + intros kk sb envb Hb Hd. destruct (recovers_idle s Hq kk sb envb Hb Hd) as (sr & ? & ? & Hv).
      exists sr. split_and?; try done. exists 0%nat. split; [done|]. eapply overwritten_ext; [done|exact Hv|apply overwritten_nil].
  - assert (Hmw : max_write = 1536) by done.
    destruct (filewrite_step fuel f addr x i k n s env Hwr ltac:(lia) Hn Hsz) as (s1 & t1 & Hrun1 & Hwr1 & Hft1 & Hic1 & Hov1 & Hw1 & Hd1 & Hrec1).
    set (n1 := Z.min (n - k) max_write) in *. set (src1 := take (Z.to_nat n1) (drop (Z.to_nat k) addr)) in *.
    destruct (IH (moved n1 x) (k + n1) s1 env Hwr1) as (s2 & t2 & Hrun2 & Hwr2 & Hft2 & Hic2 & Hov2 & Hw2 & Hd2 & Hrec2);
      [lia|simpl; lia|lia|lia|].
    change (f_off (moved n1 x)) with (f_off x + n1) in *.
    set (src2 := take (Z.to_nat (n - (k + n1))) (drop (Z.to_nat (k + n1)) addr)) in *.
    assert (Hl1 : Z.of_nat (length src1) = n1) by (unfold src1; rewrite length_take, length_drop; lia).
    assert (Es : src = src1 ++ src2) by (apply take_parts; lia).
    assert (Em : moved (n - (k + n1)) (moved n1 x) = moved (n - k) x) by (unfold moved, set_f_off; simpl; f_equal; lia).
    rewrite Em in Hwr2, Hft2. exists s2, (t1 ++ t2). split_and?; try done.
    + by rewrite Hrun1.
    + by rewrite Hft2, Hft1, list_insert_insert_eq.
    + congruence.
    + rewrite Es. eapply overwritten_app; [exact Hov1|]. by rewrite Hl1.
    + by rewrite Hw2, Hw1, app_assoc.
    + by rewrite Hd2, Hd1, apply_app.
    + rewrite Hd1 in Hrec2. eapply recovers_app; [exact Hrec1|exact Hrec2| |].
      * intros v [Hv|Hv]; [exists 0%nat; split; [lia|by rewrite take_0]|exists (length src1)].
        rewrite Es, take_app_length. split; [rewrite length_app; lia|done].
      * intros v (j & Hj & Hv). exists (length src1 + j)%nat. rewrite Es, length_app. split; [lia|].
        rewrite take_app_add. eapply overwritten_app; [exact Hov1|]. rewrite Hl1, Hd1. exact Hv.
Qed.

End Write.


(** ** Theorems *)

(** C8: sequential reading. Whatever sizes are asked for, reads of an open file
    one after the other return together exactly the bytes of the file from the
    offset on, up to the sum of the sizes or the end of the file, and move the
    offset behind them; inodes, other open files and the contents stay. *)
Theorem fileread_sequence (I : kstate -> Prop) (v : Z -> option (list Z)) f x i ns s env :
  Reader I v -> Steady I -> reading I v f x i s -> Forall (fun n => 0 <= n < 2 ^ 31) ns ->
  let m := Z.min (sum ns) (i.(i_size) - x.(f_off)) in
  exists bs s', reads f ns s env = Ok bs s' env /\ I s' /\
    s'.(ftable) = <[f := moved m x]> s.(ftable) /\ s'.(icache) = s.(icache) /\
    length bs = Z.to_nat m /\ forall k, 0 <= k < m -> bs !! Z.to_nat k = file_byte v i (x.(f_off) + k).
Proof.
  intros HR HS Hrd Hns m. destruct (reads_run I v f i ns Hns x s env Hrd) as (bs & s' & Hrun & (HI & _) & Hrest).
  by exists bs, s'.
Qed.

(** C4: writing to the disk. [filewrite] inside a file returns the number of
    bytes and leaves a disk on which exactly those bytes of the file are
    replaced, with the offset behind them; and if the machine stops after any
    number of the disk writes it makes, recovery at the next boot leaves the
    file with the first [j] bytes of the write for some [j], and everything
    else as it was. *)
Theorem filewrite_durable start size f x i src s env :
  let n := Z.of_nat (length src) in
  let view d := data_view start size d in
  4 < size -> writing start size f x i s -> x.(f_off) + n <= i.(i_size) ->
  exists s' t, filewrite f src n s env = Ok n s' env /\
    writing start size f (moved n x) i s' /\ s'.(ftable) = <[f := moved n x]> s.(ftable) /\ s'.(icache) = s.(icache) /\
    overwritten (view s.(disk)) (view s'.(disk)) i x.(f_off) src /\
    s'.(dwrites) = s.(dwrites) ++ t /\ s'.(disk) = apply_writes t s.(disk) /\
    recovers start size s.(disk) t (fun v => exists j, (j <= length src)%nat /\
      overwritten (view s.(disk)) v i x.(f_off) (take j src)).
Proof.
  intros n view Hsz Hwr Hend. pose proof Hwr as (_ & Hx & Ht & Hw & _).
  assert (Hmw : max_write = 1536) by done.
  destruct (filewrite_loop_run start size Hsz f src i n (S (S (Z.to_nat (n / max_write)))) ltac:(lia) x 0 s env Hwr)
    as (s' & t & Hrun & Hrest); [lia|lia|lia| |].
  { rewrite !Nat2Z.inj_succ, Z2Nat.id by (apply Z.div_pos; lia). rewrite Hmw. Z.to_euclidean_division_equations. lia. }
  rewrite Z.sub_0_r, drop_0, firstn_all2 in Hrest by lia. exists s', t. split; [|exact Hrest].
  unfold filewrite. mstep (get_file_eq f x s env Hx). rewrite Hw, Ht. cbn [negb]. mstep Hrun. by rewrite Z.eqb_refl.
Qed.

(** The demonstration file, open for reading and writing at byte 100. *)
Definition demo_file : file := Mkfile FD_INODE 1 true true 0 0 100.
Definition demo_closed : inode := set_i_flags I_VALID demo_inode.
Definition demo_open : kstate := upd_file 0 (fun _ => demo_file) (upd_inode 0 (fun _ => demo_closed) demo_fs).

Lemma demo_writing : writing 20 10 0 demo_file demo_closed demo_open.
Proof.
  unfold writing. split_and?; try done.
  - split; [split; [exact demo_fs_quiescent|done]|simpl; set_solver].
  - exact demo_file_ok.
  - exact (demo_layout _).
Qed.

Lemma fileread_sequence_witness :
  exists bs s', reads 0 [7; 0; 300; 1000] demo_open [] = Ok bs s' [] /\
    with_icache (idle 20 10 demo_fs_img) s' /\
    s'.(ftable) = <[0%nat := moved 600 demo_file]> demo_open.(ftable) /\ s'.(icache) = demo_open.(icache) /\
    length bs = 600%nat /\ forall k, 0 <= k < 600 -> bs !! Z.to_nat k = file_byte (disk_view demo_fs_img) demo_closed (100 + k).
Proof.
  pose proof demo_writing as ([Hid Hlk] & Hx & Ht & _ & Hi & Hr & _).
  apply (fileread_sequence (with_icache (idle 20 10 demo_fs_img)) (disk_view demo_fs_img) 0 demo_file demo_closed [7; 0; 300; 1000] demo_open []);
    [exact (with_icache_reader _ _ (idle_reader _ _ _ _ Hid))|exact (idle_steady _ _ _)| |repeat constructor; lia].
  unfold reading. split_and?; try done; [|simpl; lia..]. unfold file_ok. split_and?; try done.
  intros bn Hbn Hlt. simpl in Hlt. unfold BSIZE in Hlt. assert (bn = 0 \/ bn = 1) as [-> | ->] by lia; by eexists.
Defined.

Lemma filewrite_durable_witness :
  exists s' t, filewrite 0 [1; 2; 3] 3 demo_open [] = Ok 3 s' [] /\
    writing 20 10 0 (moved 3 demo_file) demo_closed s' /\ s'.(ftable) = <[0%nat := moved 3 demo_file]> demo_open.(ftable) /\
    s'.(icache) = demo_open.(icache) /\
    overwritten (data_view 20 10 demo_fs_img) (data_view 20 10 s'.(disk)) demo_closed 100 [1; 2; 3] /\
    s'.(dwrites) = demo_open.(dwrites) ++ t /\ s'.(disk) = apply_writes t demo_fs_img /\
    recovers 20 10 demo_fs_img t (fun v => exists j, (j <= 3)%nat /\
      overwritten (data_view 20 10 demo_fs_img) v demo_closed 100 (take j [1; 2; 3])).
Proof. apply (filewrite_durable 20 10 0 demo_file demo_closed [1; 2; 3] demo_open []); [lia|exact demo_writing|simpl; lia]. Defined.

End FileIO.
