(* ===== verification/AppendIO.v ===== *)
(** Appending to a file through its descriptor (kernel/file.c: filewrite, with
    fs.c's writei, bmap, balloc and iupdate below it), down to the disk: the
    file grows by the bytes written, one transaction after the other, and a
    machine that stops on the way leaves a file that has grown by a prefix. *)
From S2P Require Import Prelude Types Spinlock Sched Bio BioFacts BioAbs BioRep Log LogSpec LogFacts Crash Inode BlockFacts InodeFacts Console Fs FileData Append Dir Path IputFacts File NameFacts FileIO.
Import Spinlock Sched Bio BioFacts BioAbs BioRep Log LogSpec LogFacts Crash Inode BlockFacts InodeFacts Fs FileData Append File NameFacts FileIO.

Module AppendIO.

Section Grow.
Context (start size : Z) (sb : superblock).
Abbreviation dv d := (data_view start size d).

(** ** From a committed transaction to the disk *)

(** Inode [j] as the data sectors have it. *)
Definition view_inode (v : Z -> option (list Z)) (j : Z) : option dinode :=
  (fun blk => read_dinode blk (dinode_off j)) <$> v (IBLOCK j).

Lemma view_inode_disk es d j : on_disk start size d (IBLOCK j) -> view_inode (trans_view start size es d) j = disk_inode es d j.
Proof.
  intros [Hr Hl]. unfold view_inode, disk_inode, trans_view.
  by rewrite bool_decide_eq_true_2, bool_decide_eq_false_2 by done.
Qed.

Lemma view_inode_cong es es' d j : disk_inode es d j = disk_inode es' d j ->
  view_inode (trans_view start size es d) j = view_inode (trans_view start size es' d) j.
Proof. unfold view_inode, disk_inode, trans_view. by destruct (_ && _). Qed.

Lemma view_inode_ext v v' j : (forall sec, v' sec = v sec) -> view_inode v' j = view_inode v j.
Proof. intros Hv. unfold view_inode. by rewrite Hv. Qed.

(** Disk [d'] holds what transaction [es] has made of disk [d]. *)
Section Same.
Context (es : list (Z * list Z)) (d d' : list (list Z)).
Context (Hlen : length d' = length d) (Hv : forall sec, dv d' sec = trans_view start size es d sec).

Lemma same_seen sec : on_disk start size d sec -> seen [] d' sec = seen es d sec.
Proof.
  intros [Hr Hl]. specialize (Hv sec). unfold data_view, trans_view in Hv.
  by rewrite Hlen, bool_decide_eq_true_2, bool_decide_eq_false_2 in Hv by done.
Qed.

Lemma same_on_disk sec : on_disk start size d sec -> on_disk start size d' sec.
Proof. unfold on_disk. by rewrite Hlen. Qed.

Lemma same_used : fs_ok start size d es sb -> forall y, 0 <= y < sb.(sb_size) -> used [] d' sb y = used es d sb y.
Proof. intros Hfs y Hy. unfold used. by rewrite same_seen by (by apply (fs_bitmap _ _ _ _ _ Hfs)). Qed.

Lemma same_fs_ok : fs_ok start size d es sb -> fs_ok start size d' [] sb.
Proof.
  intros [Hsb Hsd Hsz Hbm Hfr Hni]. split; auto using same_on_disk.
  - destruct Hsb as (blk & Hb & E). exists blk. by rewrite same_seen.
  - intros x bm Hx. rewrite same_seen by auto. intros Hb Hu. destruct (Hfr x bm Hx Hb Hu) as (? & ? & ?). auto using same_on_disk.
Qed.

Lemma same_taken a : fs_ok start size d es sb -> taken_block start size d sb es a -> taken_block start size d' sb [] a.
Proof.
  intros Hfs ([Hr Hd] & Hu & Hp). split; [auto using same_on_disk|]. split; [by rewrite same_used|done].
Qed.

Lemma same_good i : good start size d sb es i -> good start size d' sb [] i.
Proof.
  intros (Hfs & [Hs0 Hu0] & [Hinj Hlind] & Hdev & Hl & Hown & Hind). pose proof (fun bn => mapped_ext _ _ i bn Hv) as Hm.
  change (trans_view start size [] d') with (dv d') in *. unfold good. split_and?; auto using same_fs_ok.
  - rewrite same_used by (done || lia). done.
  - split; [intros bn bn' c; rewrite !Hm; apply Hinj|intros bn c; rewrite Hm; apply Hlind].
  - intros bn a Hbn. rewrite Hm. intros Ha. apply same_taken; [done|by eapply Hown].
  - intros ind Hi Hne. apply same_taken; auto.
Qed.

Lemma same_foreign i sec : fs_ok start size d es sb -> foreign start size d sb es i sec -> foreign start size d' sb [] i sec.
Proof.
  intros Hfs (Hu & Hp & Hno & Hni). unfold foreign. split_and?; try done; try apply Hp.
  - intros Hr. rewrite same_used by done. auto.
  - intros bn Hbn. change (trans_view start size [] d') with (dv d'). rewrite (mapped_ext _ _ i bn Hv). auto.
Qed.

Lemma same_frees : fs_ok start size d es sb -> frees d' sb [] = frees d sb es.
Proof. intros Hfs. apply unset_ext. by apply same_used. Qed.
End Same.

(** ** Growing a file *)

(** The data sectors [v] hold the file with [src] behind its old bytes, and
    its inode [i'] if there is anything new; sectors in use that are not the
    file's, the inode's block apart, and the other inodes are those of disk [d]. *)
Record grown (d : list (list Z)) (i : inode) (v : Z -> option (list Z)) (i' : inode) (src : list Z) : Prop := {
  gr_inode : exists ad, i' = set_i_size (i.(i_size) + Z.of_nat (length src)) (set_i_addrs ad i);
  gr_none : src = [] -> i' = i;
  gr_bytes k : 0 <= k < i'.(i_size) -> file_byte v i' k =
    if decide (i.(i_size) <= k) then src !! Z.to_nat (k - i.(i_size)) else file_byte (dv d) i k;
  gr_disk : view_inode v i.(i_inum) = if decide (src = []) then view_inode (dv d) i.(i_inum) else Some (dinode_of i');
  gr_inodes j : 0 <= j -> j <> i.(i_inum) -> foreign start size d sb [] i (IBLOCK j) -> view_inode v j = view_inode (dv d) j;
  gr_other sec : foreign start size d sb [] i sec -> sec <> IBLOCK i.(i_inum) -> v sec = dv d sec
}.

Lemma unchanged_grown d i v : (forall sec, v sec = dv d sec) -> grown d i v i [].
Proof.
  intros Hv. split; try done.
  - exists (i_addrs i). rewrite Z.add_0_r. by destruct i.
  - intros k Hk. rewrite decide_False by lia. by apply file_byte_ext.
  - by apply view_inode_ext.
  - intros j _ _ _. by apply view_inode_ext.
Qed.

Lemma grown_app d d1 i i1 v i2 a b : 0 <= i.(i_size) ->
  grown d i (dv d1) i1 a -> (forall sec, foreign start size d sb [] i sec -> foreign start size d1 sb [] i1 sec) ->
  grown d1 i1 v i2 b -> grown d i v i2 (a ++ b).
Proof.
  intros Hsz [[ad1 E1] N1 B1 D1 I1 O1] Hf [[ad2 E2] N2 B2 D2 I2 O2].
  assert (En : i_inum i1 = i_inum i) by (by rewrite E1).
  assert (Es1 : i_size i1 = i_size i + Z.of_nat (length a)) by (by rewrite E1).
  assert (Es2 : i_size i2 = i_size i1 + Z.of_nat (length b)) by (by rewrite E2).
  rewrite En in *. split.
  - exists ad2. rewrite E2, Es1, E1, length_app. unfold set_i_size, set_i_addrs. simpl. f_equal. lia.
  - intros [-> ->]%app_nil. by rewrite N2, N1.
  - intros k Hk. rewrite B2 by done. destruct (decide (i_size i1 <= k)) as [H1|H1].
    + rewrite decide_True, lookup_app_r by lia. f_equal. lia.
    + rewrite B1 by lia. destruct (decide (i_size i <= k)); [|done]. by rewrite lookup_app_l by lia.
  - rewrite D2, D1. destruct (decide (b = [])) as [->|Hb].
    + rewrite app_nil_r. destruct (decide (a = [])); [done|]. by rewrite N2.
    + rewrite decide_False; [done|]. by intros [_ ?]%app_nil.
  - intros j Hj Hne Hfj. rewrite I2, I1; auto.
  - intros sec Hs Hne. rewrite O2, O1; auto.
Qed.

(** File [f] is open for writing at its end, and its inode and blocks are in
    order. *)
Definition appending (f : nat) (x : file) (i : inode) (s : kstate) : Prop :=
  writing start size f x i s /\ good start size s.(disk) sb [] i /\ inode_ok i /\ 0 <= i.(i_inum) /\
  on_disk start size s.(disk) (IBLOCK i.(i_inum)) /\ foreign start size s.(disk) sb [] i (IBLOCK i.(i_inum)) /\
  x.(f_off) = i.(i_size).

(** What [writei] has done to the locked inode, seen from outside. *)
Lemma trans_grown w0 d s0 es1 es i i1 ad src v :
  tinv start size w0 d [] s0 -> file_ok (dv d) i -> on_disk start size d (IBLOCK i.(i_inum)) -> 0 <= i.(i_inum) -> src <> [] ->
  extends start size d sb [] (taken i) es1 i1 i.(i_size) src -> i1 = set_i_addrs ad (taken i) ->
  let i' := set_i_size (i.(i_size) + Z.of_nat (length src)) (set_i_addrs ad i) in
  (forall k, 0 <= k -> file_byte (trans_view start size es d) i' k = file_byte (trans_view start size es1 d) i1 k) ->
  (forall j, 0 <= j -> disk_inode es d j = if decide (j = i.(i_inum)) then Some (dinode_of i') else disk_inode es1 d j) ->
  (forall sec, foreign start size d sb [] i sec -> sec <> IBLOCK i.(i_inum) -> trans_view start size es d sec = dv d sec) ->
  (forall sec, v sec = trans_view start size es d sec) -> grown d i v i' src.
Proof.
  intros Hti Hok Hod Hnum Hne0 Hex Ei1 i' Hb Hdi Hoth Hv. assert (Hnb : (0 < NBUF)%nat) by (unfold NBUF; lia).
  pose proof (proj1 (file_ok_bytes start size w0 d [] (taken i) s0 Hti Hnb) Hok) as (_ & Hsz & Hall).
  pose proof (ex_other _ _ _ _ _ _ _ _ _ _ Hex) as Hother1. split.
  - by exists ad.
  - done.
  - intros k Hk. rewrite (file_byte_ext _ _ i' k Hv). simpl in Hk. rewrite Hb by lia.
    apply (extends_bytes start size d sb [] (taken i) es1 i1 (i_size i) src Hex); [simpl in *; lia|done|lia].
  - rewrite decide_False by done. rewrite (view_inode_ext _ _ _ Hv), view_inode_disk by done. by rewrite Hdi, decide_True.
  - intros j Hj Hne Hfj. rewrite (view_inode_ext _ _ _ Hv). destruct (Hother1 _ Hfj) as [Ev _].
    rewrite (view_inode_cong es es1) by (rewrite Hdi by done; by rewrite decide_False). unfold view_inode. by rewrite Ev.
  - intros sec Hs Hne. rewrite Hv. by apply Hoth.
Qed.

Lemma file_ok_ext v v' i : (forall sec, v' sec = v sec) -> file_ok v i -> file_ok v' i.
Proof.
  intros Hv (Hdev & Hsz & Hb). unfold file_ok. split_and?; try done; try lia. intros bn Hbn Hlt.
  unfold file_block in *. rewrite (mapped_ext v v' i bn Hv). destruct (Hb bn Hbn Hlt) as [blk Hblk]. exists blk.
  destruct (mapped v i bn); [|done]. simpl in *. by rewrite Hv.
Qed.

Context (Hlogsize : 9 < size).

(** One transaction of [filewrite] at the end of the file. *)
Lemma append_step fl f addr x i k n s env :
  appending f x i s -> 0 <= k < n -> n <= Z.of_nat (length addr) -> i.(i_size) + (n - k) <= NDIRECT * BSIZE ->
  (4 <= length (frees s.(disk) sb []))%nat ->
  let n1 := Z.min (n - k) max_write in
  let src := take (Z.to_nat n1) (drop (Z.to_nat k) addr) in
  exists i' s' t, filewrite_loop (S fl) f addr k n s env = filewrite_loop fl f addr (k + n1) n s' env /\
    appending f (moved n1 x) i' s' /\ s'.(ftable) = <[f := moved n1 x]> s.(ftable) /\ s'.(icache) = <[x.(f_ip) := i']> s.(icache) /\
    grown s.(disk) i (dv s'.(disk)) i' src /\
    (forall sec, foreign start size s.(disk) sb [] i sec -> foreign start size s'.(disk) sb [] i' sec) /\
    (length (frees s.(disk) sb []) <= length (frees s'.(disk) sb []) + 4)%nat /\
    s'.(dwrites) = s.(dwrites) ++ t /\ s'.(disk) = apply_writes t s.(disk) /\
    recovers start size s.(disk) t (fun v => grown s.(disk) i v i [] \/ grown s.(disk) i v i' src).
Proof.
  intros (Hwr & Hgood & Hiok & Hnum & Hod & Hfor & Hoff) Hk Hn Hsz Hfree n1 src.
  pose proof Hwr as (Hcalm & Hx & Ht & Hw & Hi & Hrdy & Hok & _ & Ho). pose proof Hcalm as [[Hq _] _].
  pose proof Hrdy as (_ & _ & _ & Hty). change (NDIRECT * BSIZE) with 6144 in Hsz. assert (Hmw : max_write = 1536) by done.
  assert (Hn1 : 0 < n1 <= max_write) by (unfold n1; lia).
  assert (Hsrc : Z.of_nat (length src) = n1) by (unfold src; rewrite length_take, length_drop; unfold n1 in *; lia).
  pose proof (turns_max (f_off x) n1 Ho ltac:(lia)) as Htm.
  set (s2 := upd_inode (f_ip x) taken (upd_log (set_l_busy true) s)).
  assert (Hi2 : s2.(icache) !! f_ip x = Some (taken i)) by (by apply upd_inode_at).
  pose proof (writei_grow_run start size (dwrites s) (disk s) sb [] (f_ip x) (taken i) src (f_off x) s2 env) as Hgr.
  rewrite Hsrc in Hgr.
  destruct Hgr as (es1 & i1 & es & s3 & Hrun3 & Hti3 & Hroom3 & Hfr3 & Hic3 & Hf3 & Hex & Hok3 & Hg3 & Hb3 & Hdi3 & Hoth3);
    try done; try (simpl; lia).
  { exact (begin_tinv start size s Hq). } { split; unfold NBUF; simpl; lia. } { change (NDIRECT * BSIZE) with 6144. simpl. unfold n1 in *. lia. }
  pose proof Hex as [_ [ad Ei1] _ _ _ Hother1]. set (i' := set_i_size (i_size i + Z.of_nat (length src)) (set_i_addrs ad i)).
  assert (Ei' : set_i_size (f_off x + n1) i1 = taken i') by (unfold i'; by rewrite Ei1, Hsrc, Hoff). rewrite Ei' in *.
  unfold src in Hrun3. rewrite <- (writei_take (f_ip x) (taken i) (drop (Z.to_nat k) addr) (f_off x) n1 s2 env Hi2 Hty) in Hrun3.
  destruct (filewrite_trans start size fl f addr x i i' k n es s s3 env Hcalm Hx Hi Hrdy Hrdy Hk Ho)
    as (s6 & t & Hrun & Hc6 & Hft6 & Hic6 & Hw6 & Hd6 & Hview & Hrec); try done; [lia|].
  assert (Hl6 : length (disk s6) = length (disk s)) by (by rewrite Hd6, length_apply).
  pose proof Hg3 as (Hfs3 & _).
  assert (Hgrown : forall v, (forall sec, v sec = trans_view start size es (disk s) sec) -> grown (disk s) i v i' src).
  { intros v Hv. rewrite Hoff in Hex.
    apply (trans_grown (dwrites s) (disk s) _ es1 es i i1 ad src v (begin_tinv start size s Hq)); try done.
    - intros E. rewrite E in Hsrc. simpl in Hsrc. lia.
    - intros sec Hs Hne. by apply Hoth3. }
  assert (Hx6 : s6.(ftable) !! f = Some (moved n1 x)) by (rewrite Hft6; apply list_lookup_insert_eq; by eapply lookup_lt_Some).
  assert (Hi6 : s6.(icache) !! f_ip x = Some i') by (rewrite Hic6; apply list_lookup_insert_eq; by eapply lookup_lt_Some).
  pose proof (same_good es (disk s) (disk s6) Hl6 Hview i' Hg3) as Hg6.
  exists i', s6, t. split_and?; try done.
  - unfold appending, writing. split_and?; try done.
    + by apply (file_ok_ext (trans_view start size es (disk s))).
    + apply Hg6.
    + simpl. lia.
    + pose proof (ex_good _ _ _ _ _ _ _ _ _ _ Hex) as Hg1. rewrite Ei1 in Hg1.
      apply (good_inode_ok start size (disk s) sb es1 i); [done|exact Hg1|unfold n1 in *; lia].
    + by apply (same_on_disk (disk s)).
    + apply (same_foreign es (disk s) (disk s6)); try done. by apply Hoth3.
    + simpl. lia.
  - by apply Hgrown.
  - intros sec Hsec. apply (same_foreign es (disk s) (disk s6)); try done. by apply Hoth3.
  - rewrite (same_frees es (disk s) (disk s6)) by done. lia.
  - intros kk sb' envb Hbo Hdb. destruct (Hrec kk sb' envb Hbo Hdb) as (sr & Hrr & Hqr & Hcase). exists sr.
    split_and?; [done|done|]. destruct Hcase as [Hc|Hc]; [left; by apply unchanged_grown|right; by apply Hgrown].
Qed.

(** The number of transactions for [m] bytes. *)
Definition txns (m : Z) : Z := (m + (max_write - 1)) / max_write.

Lemma txns_step m : 0 < m -> txns m = txns (m - Z.min m max_write) + 1.
Proof. unfold txns. change max_write with 1536. intros Hm. Z.to_euclidean_division_equations. lia. Qed.

Lemma txns_pos m : 0 <= m -> 0 <= txns m.
Proof. unfold txns. change max_write with 1536. intros Hm. Z.to_euclidean_division_equations. lia. Qed.

Lemma append_loop_run f addr n fuel : n <= Z.of_nat (length addr) -> forall x i k s env,
  appending f x i s -> 0 <= k <= n -> i.(i_size) + (n - k) <= NDIRECT * BSIZE ->
  4 * txns (n - k) <= Z.of_nat (length (frees s.(disk) sb [])) ->
  (0 < fuel)%nat -> n - k <= (Z.of_nat fuel - 1) * max_write ->
  let src := take (Z.to_nat (n - k)) (drop (Z.to_nat k) addr) in
  exists i' s' t, filewrite_loop fuel f addr k n s env = Ok n s' env /\
    appending f (moved (n - k) x) i' s' /\ s'.(ftable) = <[f := moved (n - k) x]> s.(ftable) /\
    s'.(icache) = <[x.(f_ip) := i']> s.(icache) /\ grown s.(disk) i (dv s'.(disk)) i' src /\
    s'.(dwrites) = s.(dwrites) ++ t /\ s'.(disk) = apply_writes t s.(disk) /\
    recovers start size s.(disk) t (fun v => exists j i1, (j <= length src)%nat /\ grown s.(disk) i v i1 (take j src)).
Proof.
  intros Hn. induction fuel as [|fuel IH]; intros x i k s env Hap Hk Hsz Hfree Hf0 Hfuel src; [lia|].
  pose proof Hap as (Hwr & _). pose proof Hwr as ([[Hq _] _] & Hx & _ & _ & Hi & _ & (_ & Hpos & _) & _).
  destruct (decide (k = n)) as [->|Hne].
  - assert (Em : moved (n - n) x = x) by (unfold moved; rewrite Z.sub_diag, Z.add_0_r; by destruct x).
    assert (Es : src = []) by (unfold src; by rewrite Z.sub_diag).
    exists i, s, []. rewrite Em, Es, app_nil_r. cbn [filewrite_loop]. rewrite Z.ltb_irrefl. split_and?; try done.
    + by rewrite list_insert_id.
    + by rewrite list_insert_id.
    + by apply unchanged_grown.
    + intros kk sb' envb Hb Hd. destruct (recovers_idle start size s Hq kk sb' envb Hb Hd) as (sr & ? & ? & Hv).
      exists sr. split_and?; try done. exists 0%nat, i. split; [done|]. by apply unchanged_grown.
  - assert (Hmw : max_write = 1536) by done. rewrite txns_step in Hfree by lia.
    pose proof (txns_pos (n - k - Z.min (n - k) max_write) ltac:(lia)) as Hpos1.
    destruct (append_step fuel f addr x i k n s env Hap ltac:(lia) Hn Hsz ltac:(lia))
      as (i1 & s1 & t1 & Hrun1 & Hap1 & Hft1 & Hic1 & Hgr1 & Hfo1 & Hfr1 & Hw1 & Hd1 & Hrec1).
    set (n1 := Z.min (n - k) max_write) in *. set (src1 := take (Z.to_nat n1) (drop (Z.to_nat k) addr)) in *.
    assert (Hl1 : Z.of_nat (length src1) = n1) by (unfold src1; rewrite length_take, length_drop; lia).
    assert (Hs1 : i_size i1 = i_size i + n1) by (destruct (gr_inode _ _ _ _ _ Hgr1) as [ad ->]; simpl; by rewrite Hl1).
    destruct (IH (moved n1 x) i1 (k + n1) s1 env Hap1) as (i2 & s2 & t2 & Hrun2 & Hap2 & Hft2 & Hic2 & Hgr2 & Hw2 & Hd2 & Hrec2);
      [lia|lia| |lia|lia|].
    { replace (n - (k + n1)) with (n - k - n1) by lia. lia. }
    change (f_ip (moved n1 x)) with (f_ip x) in *.
    set (src2 := take (Z.to_nat (n - (k + n1))) (drop (Z.to_nat (k + n1)) addr)) in *.
    assert (Es : src = src1 ++ src2) by (apply take_parts; lia).
    assert (Em : moved (n - (k + n1)) (moved n1 x) = moved (n - k) x) by (unfold moved, set_f_off; simpl; f_equal; lia).
    rewrite Em in Hap2, Hft2. exists i2, s2, (t1 ++ t2). split_and?; try done.
    + by rewrite Hrun1.
    + by rewrite Hft2, Hft1, list_insert_insert_eq.
    + by rewrite Hic2, Hic1, list_insert_insert_eq.
    + rewrite Es. eapply (grown_app (disk s) (disk s1)); [lia|done..].
    + by rewrite Hw2, Hw1, app_assoc.
    + by rewrite Hd2, Hd1, apply_app.
    + rewrite Hd1 in Hrec2. eapply recovers_app; [exact Hrec1|exact Hrec2| |].
      * intros v [Hv|Hv]; [exists 0%nat, i; split; [lia|by rewrite take_0]|exists (length src1), i1].
        rewrite Es, take_app_length. split; [rewrite length_app; lia|done].
      * intros v (j & i3 & Hj & Hv). exists (length src1 + j)%nat, i3. rewrite Es, length_app. split; [lia|].
        rewrite take_app_add. eapply (grown_app (disk s) (disk s1)); [lia|done|done|]. by rewrite Hd1.
Qed.

End Grow.

(** ** Theorems *)

(** C5: appending to a file. [filewrite] at the end of a file, within its
    direct blocks and with four free blocks for each of its transactions,
    returns the number of bytes and leaves a disk on which the file and its
    inode have grown by exactly these bytes, with the offset at the new end and
    everything else in use as it was; and if the machine stops after any number
    of the disk writes it makes, recovery at the next boot leaves the file with
    its old bytes and the first [j] bytes of the write, for some [j], and an
    inode on disk of exactly that length. *)
Theorem filewrite_appends start size sb f x i src s env :
  let n := Z.of_nat (length src) in
  9 < size -> appending start size sb f x i s -> i.(i_size) + n <= NDIRECT * BSIZE ->
  4 * txns n <= Z.of_nat (length (frees s.(disk) sb [])) ->
  exists i' s' t, filewrite f src n s env = Ok n s' env /\
    appending start size sb f (moved n x) i' s' /\ s'.(ftable) = <[f := moved n x]> s.(ftable) /\
    s'.(icache) = <[x.(f_ip) := i']> s.(icache) /\ grown start size sb s.(disk) i (data_view start size s'.(disk)) i' src /\
    s'.(dwrites) = s.(dwrites) ++ t /\ s'.(disk) = apply_writes t s.(disk) /\
    recovers start size s.(disk) t (fun v => exists j i1, (j <= length src)%nat /\ grown start size sb s.(disk) i v i1 (take j src)).
Proof.
  intros n Hsz Hap Hend Hfree. pose proof Hap as ((_ & Hx & Ht & Hw & _) & _). assert (Hmw : max_write = 1536) by done.
  destruct (append_loop_run start size sb Hsz f src n (S (S (Z.to_nat (n / max_write)))) ltac:(lia) x i 0 s env Hap)
    as (i' & s' & t & Hrun & Hrest); rewrite ?Z.sub_0_r; try lia.
  { rewrite !Nat2Z.inj_succ, Z2Nat.id by (apply Z.div_pos; lia). rewrite Hmw. Z.to_euclidean_division_equations. lia. }
  rewrite Z.sub_0_r, drop_0, firstn_all2 in Hrest by lia. exists i', s', t. split; [|exact Hrest].
  unfold filewrite. mstep (get_file_eq f x s env Hx). rewrite Hw, Ht. cbn [negb]. mstep Hrun. by rewrite Z.eqb_refl.
Qed.

(** The demonstration file, open for writing at its end. *)
Definition demo_tail : file := Mkfile FD_INODE 1 true true 0 0 700.
Definition demo_ended : kstate := upd_file 0 (fun _ => demo_tail) demo_open.

Lemma demo_appending : appending 20 10 demo_sb 0 demo_tail demo_closed demo_ended.
Proof.
  pose proof demo_writing as (Hc & _ & _ & _ & Hi & Hr & Hok & Hl & _). unfold appending, writing.
  split_and?; try done.
  - exact demo_good.
  - exact demo_inode_ok.
  - change (IBLOCK (i_inum demo_closed)) with 2. unfold on_disk, in_log. simpl. lia.
  - exact demo_foreign.
Qed.

Lemma filewrite_appends_witness :
  let src := replicate 2000 9 in
  exists i' s' t, filewrite 0 src 2000 demo_ended [] = Ok 2000 s' [] /\
    appending 20 10 demo_sb 0 (moved 2000 demo_tail) i' s' /\ s'.(ftable) = <[0%nat := moved 2000 demo_tail]> demo_ended.(ftable) /\
    s'.(icache) = <[0%nat := i']> demo_ended.(icache) /\ grown 20 10 demo_sb demo_fs_img demo_closed (data_view 20 10 s'.(disk)) i' src /\
    s'.(dwrites) = demo_ended.(dwrites) ++ t /\ s'.(disk) = apply_writes t demo_fs_img /\
    recovers 20 10 demo_fs_img t (fun v => exists j i1, (j <= length src)%nat /\ grown 20 10 demo_sb demo_fs_img demo_closed v i1 (take j src)).
Proof.
  apply (filewrite_appends 20 10 demo_sb 0 demo_tail demo_closed (replicate 2000 9) demo_ended []);
    [lia|exact demo_appending|change (NDIRECT * BSIZE) with 6144; simpl; lia|].
  change (txns _) with 2. change (length (frees _ _ [])) with 11%nat. lia.
Defined.

End AppendIO.
